(* ===== verification/_CoqProject ===== *)
-Q . S2P
Prelude.v
PyStr.v
PyRe.v
PyFloat.v
PyJson.v
PyJsonText.v
Sha256.v
PyFs.v
Fields.v
PyMain.v
Attestation.v
VmMutation.v
PackageManifest.v
JsonField.v
AuditLedger.v
DaemonEvent.v
DaemonGolden.v
RuntimeSampleCommon.v
PolicyAbi.v
SchedExt.v
RuntimeSample.v
BenchModel.v
BenchValidate.v
BenchParse.v
Provenance.v
PartialAttach.v
Observe.v
LiveBehavior.v
WorkloadExec.v
ProtectedReview.v
BundleCompare.v
BundleEquiv.v
VerifierVm.v
VerifierLog.v
MatrixModel.v
MatrixWorkload.v
MatrixRow.v
MatrixManifest.v
MatrixProof.v
LiveLab.v
FrontendSemantics.v
FrontendPack.v
Consumer.v
Capability.v
Telemetry.v
SchemaDrift.v
SchemaRules.v
SchemaCompat.v
BpfAbiParse.v
BpfAbi.v
ProtectedCore.v
LabBackend.v
LabSummary.v
Freshness.v
Governance.v
RunnerSubstrate.v
RunnerCleanliness.v
EvidenceManifest.v
GateReads.v
JsonTrip.v
OpenRpcDaemon.v
OpenRpc.v
PyEmit.v
MicrovmParse.v
MicrovmReport.v
MicrovmAccept.v
MicrovmSamples.v
