(* ===== verification/Prelude.v ===== *)
(** A model of the evidence gate of exasphere and its correctness theorems.

    * The program

    exasphere runs a sched_ext scheduler in disposable virtual machines.  The
    Python programs under src/qa decide whether the evidence such a run left
    behind may be believed: they read JSON, JSONL and text files, follow the
    paths those name, and either print PASS or refuse.  The development models
    the matrix-run gate with everything it calls, and the checkers beside it.
    A checker is a function of the file system and of its arguments; its only
    effect is its exit status and what it prints, so it is modelled as a pure
    function into [result], whose error is the Python exception.

    * The layers

    - Prelude: exceptions and the result monad, loops, [ok]/[raises] automation.
    - PyStr, PyRe, PyFloat, PyJson, PyJsonText, Sha256, PyFs, PyMain: the
      operations of the Python language and of its standard library the source
      uses: [str], [re] with captured groups, [float], [json] (PyJsonText: what
      the encoder writes, the decoder reads back), [hashlib.sha256], [pathlib]
      with the files, and the end of a process.  These are definitions, not
      assumptions: every witness runs the checkers on bytes.
    - JsonField (qa/json_field_check.py), AuditLedger (qa/audit_ledger_check.py),
      DaemonEvent (qa/daemon_event_contract_check.py), DaemonGolden
      (qa/daemon_golden_transcript_check.py): the leaf checkers.
    - RuntimeSampleCommon, PolicyAbi, SchedExt, RuntimeSample
      (qa/runtime_sample_*.py): one runtime sample, a file of them, the order of
      the samples of a run and of the alerts of a journal.
    - BenchModel, BenchValidate, BenchParse (qa/benchmark_output_*.py), Provenance
      (qa/matrix_benchmark_provenance.py): benchmark records, the parsers that
      build them from the output of the tools, and the references to them.
    - PartialAttach (qa/partial_attach_check.py, qa/evidence_safety_check.py),
      Observe (qa/lab_summary_observe.py), LiveBehavior
      (qa/live_behavior_check.py): the bundle of a live run, each calling the
      ones before it.
    - WorkloadExec (qa/vm/workload_execution_check.py), VerifierVm, VerifierLog
      (qa/verifier_*.py, qa/bpf_artifacts.py), BundleCompare
      (qa/evidence_bundle_*.py): checkers that run on their own; BundleEquiv
      proves that the comparison is an equivalence of the bundles it accepts.
    - ProtectedReview (qa/protected_environment_review_check.py),
      EvidenceManifest (qa/evidence_manifest_check.py), RunnerSubstrate
      (qa/runner_substrate_proof_*.py), RunnerCleanliness
      (qa/runner_cleanliness_proof_check.py): the release manifest of a run and
      the proofs about the runner it names; the first is called by the others.
    - Fields: the interface of the field readers every checker declares for
      itself (type classes with their laws), and the lemmas that follow from it;
      a checker gives instances for its own readers.
    - LiveLab (qa/live_lab_evidence_check.py), Freshness
      (qa/live_bundle_freshness_check.py): the journals and proofs of a live lab
      run, and whether a bundle belongs to the sources that are checked out.
    - LabBackend (qa/lab_summary_backend.py), LabSummary
      (qa/lab_summary_check.py), Governance (qa/governance_manifest_check.py):
      the summaries of lab runs and the pinned sources of the governance gate.
    - FrontendSemantics (qa/frontend_contract_pack_semantics.py,
      qa/frontend_contract_matrix_ref.py), FrontendPack
      (qa/frontend_contract_pack_check.py), Consumer
      (qa/consumer_contract_check.py): the fixture pack a client of the daemon is
      tested against, scenario by scenario, and what a consumer may rely on; both
      call the matrix gate on the manifest a row hands over.
    - Capability (qa/backend_capability_matrix_check.py): a Markdown table
      compared with the contract it must repeat.
    - Telemetry (qa/protected_core_telemetry_check.py), ProtectedCore
      (qa/protected_core_suite_check.py): the runtime samples of the protected
      scenarios and the suite of rows that link to them; the second calls the
      first and the loader of the matrix gate.
    - Attestation (qa/vm/attestation_check.py), VmMutation
      (qa/vm_mutation_contract_check.py), PackageManifest
      (qa/package_manifest_check.py): what a virtual machine attests, how
      mutations are refused and undone, and what the package installs.
    - SchemaDrift (qa/control_schema_drift_check.py), SchemaRules, SchemaCompat
      (qa/schema_compatibility_*.py): the constants of the Zig sources against the
      schemas, and the schemas against the frozen version 1; the second calls the
      first and rehearses itself on spoiled copies.
    - BpfAbiParse (qa/bpf_abi_parse.py, qa/bpf_abi_model.py), BpfAbi
      (qa/bpf_abi_validate.py): the C header and source of the policy and the
      frozen ABI its metadata must repeat.
    - OpenRpcDaemon (qa/openrpc_contract_model.py, qa/openrpc_contract_daemon.py),
      OpenRpc (qa/openrpc_contract_validate.py): the contract of the daemon against
      its documents, its Zig source and its socket test.
    - PyEmit: programs that write: the state of files and printed lines, and a
      monad over it.  MicrovmParse, MicrovmReport (qa/vm/microvm_report_*.py): the
      bundle written from the serial log of a run.  MicrovmAccept, MicrovmSamples:
      what is written, against the checkers above that read it.
    - MatrixModel, MatrixWorkload, MatrixRow, MatrixManifest
      (qa/matrix_run_*.py): the matrix gate, from its primitives to the command
      line; MatrixProof states and proves what the manifest check accepts, of the
      manifest, its rows and every artifact a row refers to.
    - GateReads, JsonTrip: theorems across the components.

    Each file keeps the names of the Python functions.  A function that reads
    files takes the file system [F]; inside a Section it is a Variable.

    * The theorems

    The theorem of a checker is an equivalence: it accepts exactly the inputs of
    a declarative predicate ([row_ok], [manifest_ok], [attach_ok], ...) written
    without the monad, the order of tests, or the messages.  Privacy and claim
    scans are stated over all keys and texts at any depth; the loops with state
    ([validate_sched_ext_sequence], [validate_alert_order], [validate_ledger],
    [manifest_step], [index_bundle]) over the whole sequence: sortedness,
    absence of duplicates, or an invariant kept by every step.  GateReads shows
    that the verdict of the manifest check depends on the files of the run alone;
    JsonTrip, what the verifier log check writes for a log, that it is read back,
    and within which bounds numbers are read.
    BenchParse shows that what the benchmark parsers build is accepted by the
    validator up to its numbers; Consumer, that a failed rollback or cleanup is
    always answered by a later incident; MicrovmSamples, which runtime samples of
    those the report writes the sample checks accept, and MicrovmAccept runs the
    report on a serial log and the bundle checker on what it wrote.  Some theorems
    show that the program does what it does not mean to do, for every input of a
    kind: an audit id that is used twice (AuditLedger), a kernel that is too old
    (Attestation), a verifier error that is not heard (VerifierLog), incidents that
    are swapped (OpenRpc), an error that is not caught (SchemaCompat).

    * Parameters

    Programs the checkers start are arguments: git (what it printed and its
    status, per command), tools/build_bpf.sh (a function of the file system),
    and the processes and functions that run self-tests on scratch files.  The
    environment variables a checker looks at, the clock, the directory of a script, the
    temporary directory a matrix manifest is copied to, and the summation
    algorithm of the built-in [sum] (it changed in CPython 3.12) are arguments
    too.

    * Bounds and fuel

    Strings are sequences of characters below 256; text outside Latin-1 ends in
    [OutsideModel], never in acceptance.  Integers are unbounded as in Python,
    with the 4300 digit limit of [int()]; floats are IEEE binary64.  The JSON
    decoder recurses on a fuel computed from the length of the text
    ([PyJson.loads_raises]: it never runs out), the matcher of [PyRe] on a
    counter one larger than the text that is left ([rmatch_complete]).

    * Not modelled

    CPython's recursion limit: where a JSON text or value is nested about a
    thousand levels deep, the decoder and the recursive scans of the program end in
    an uncaught RecursionError, while the definitions go on; the theorems speak of
    runs that stay below the limit, and none says that a run cannot hit it.
    Permission errors, concurrent changes of the files, argparse's own messages
    (the functions that use argparse take its result), the self-test functions
    and test drivers, and the checkers PROJECT.json lists as not modelled. *)
From Stdlib Require Export String Ascii Bool NArith ZArith Lia.
From stdpp Require Export base list strings gmap.

(** * Prelude: the result monad of the model, the Python exceptions the
    checkers raise or let through, loops over lists, and the automation the
    component files share ([ok] rewriting, [raises] classification). *)

(** * Exceptions

    Every checker module declares one exception class of its own; the rest are
    the built-in classes that the modelled calls of the standard library raise.
    [OutsideModel] and [OutOfFuel] are not Python classes: the first marks an
    input the model does not represent (text outside Latin-1), so that such an
    input is never accepted silently; the second would mark a recursion bound
    that was too small, and [PyJson.loads_raises] shows it never appears. *)
Inductive exn_class : Set :=
| AuditLedgerError | ContractError | ContractPackError | DaemonGoldenError
| RuntimeSampleError | PolicyAbiError | MatrixRunContractError
| MatrixBenchmarkProvenanceError | BenchmarkOutputError | LiveBehaviorError
| ObserveSummaryError | PartialAttachError | EvidenceSafetyError
| JsonFieldError | WorkloadExecutionError | ManifestError | BundleCompareError
| VerifierLogError | VMVerifierError | VerifierRefusalError | BpfArtifactError
| ProtectedReviewError | RunnerCleanlinessError | RunnerProofError | FreshnessCheckError
| LiveEvidenceError | LabSummaryError | BackendSummaryError | ConsumerContractError
| MatrixError | LifecycleError | OpenRpcContractError | BpfAbiError | ProtectedCoreSuiteError
| ProtectedCoreTelemetryError | SchemaCompatibilityError | ManualVmProofError | PackageManifestError
| AttestationError | MutationContractError | SchemaDriftError | PerfCalibrationError | WorkloadToolPreflightError
| BpfMetadataReproError | VendorDocsError | ZigApiUsageError | CalledProcessError
| JSONDecodeError | FileNotFoundError | FileExistsError | IsADirectoryError | NotADirectoryError
| UnicodeDecodeError | ValueError | OverflowError | ZeroDivisionError
| KeyError | IndexError | TypeError | AttributeError | SystemExit | MatrixEmitJsonObjectError
| StopIteration | OutsideModel | OutOfFuel.

Global Instance exn_class_eq_dec : EqDecision exn_class.
Proof. solve_decision. Defined.

(** The [except] clauses of the program name built-in superclasses:
    [FileNotFoundError <: OSError], [JSONDecodeError <: ValueError],
    [UnicodeDecodeError <: UnicodeError <: ValueError]. *)
Definition is_OSError (c : exn_class) : bool :=
  match c with
  | FileNotFoundError | FileExistsError | IsADirectoryError | NotADirectoryError => true
  | _ => false
  end.
Definition is_UnicodeError (c : exn_class) : bool :=
  match c with UnicodeDecodeError => true | _ => false end.
Definition is_ValueError (c : exn_class) : bool :=
  match c with ValueError | JSONDecodeError | UnicodeDecodeError => true | _ => false end.

(** An exception value: its class, its message and, for a [JSONDecodeError],
    the document and the offset it was raised at. *)
Record pyexn : Set := Exn {
  exn_cls : exn_class;
  exn_msg : string;
  exn_at : option (string * nat);
}.

(** * The result monad *)
Inductive result (A : Type) : Type :=
| Ok (a : A)
| Err (e : pyexn).
Arguments Ok {A} a.
Arguments Err {A} e.

Definition bind {A B} (m : result A) (k : A -> result B) : result B :=
  match m with Ok a => k a | Err e => Err e end.

Definition raise {A} (c : exn_class) (m : string) : result A := Err (Exn c m None).

(** [if not cond: raise C(msg)] *)
Definition ensure (cond : bool) (c : exn_class) (m : string) : result unit :=
  if cond then Ok tt else raise c m.

(** [try: m except ...: handler]; the handler answers [None] for a class it
    does not catch, which propagates. *)
Definition catch {A} (m : result A) (h : pyexn -> option (result A)) : result A :=
  match m with
  | Ok a => Ok a
  | Err e => match h e with Some r => r | None => Err e end
  end.

(** [try: m except C as exc: raise D(f exc) from exc] *)
Definition reraise {A} (c d : exn_class) (f : pyexn -> string) (m : result A) : result A :=
  catch m (fun e => if decide (exn_cls e = c) then Some (raise d (f e)) else None).

Definition is_ok {A} (m : result A) : bool :=
  match m with Ok _ => true | Err _ => false end.

Declare Scope py_scope.
Delimit Scope py_scope with py.
Notation "'let*' x ':=' m 'in' k" := (bind m (fun x => k))
  (at level 10, x pattern, m at level 100, k at level 200) : py_scope.
Notation "m ';;;' k" := (bind m (fun _ => k))
  (at level 199, k at level 200, right associativity) : py_scope.
Open Scope py_scope.
Open Scope string_scope.
Open Scope list_scope.

(** [for x in xs: body]: the first exception stops the loop. *)
Fixpoint for_each {A} (xs : list A) (body : A -> result unit) : result unit :=
  match xs with
  | [] => Ok tt
  | x :: xs => bind (body x) (fun _ => for_each xs body)
  end.

(** [for i, x in enumerate(xs, i): body] *)
Fixpoint for_enum {A} (i : nat) (xs : list A) (body : nat -> A -> result unit) : result unit :=
  match xs with
  | [] => Ok tt
  | x :: xs => bind (body i x) (fun _ => for_enum (S i) xs body)
  end.

(** A loop that threads local variables of the function. *)
Fixpoint for_fold {A S} (i : nat) (xs : list A) (s : S) (body : nat -> A -> S -> result S) : result S :=
  match xs with
  | [] => Ok s
  | x :: xs => bind (body i x s) (fun s => for_fold (Datatypes.S i) xs s body)
  end.

(** A comprehension whose element expression may raise. *)
Fixpoint map_m {A B} (f : A -> result B) (xs : list A) : result (list B) :=
  match xs with
  | [] => Ok []
  | x :: xs => bind (f x) (fun y => bind (map_m f xs) (fun ys => Ok (y :: ys)))
  end.

(** [any(f(x) for x in xs)], where [f] may raise. *)
Fixpoint any_m {A} (f : A -> result bool) (xs : list A) : result bool :=
  match xs with
  | [] => Ok false
  | x :: xs => bind (f x) (fun b => if b then Ok true else any_m f xs)
  end.

(** The value of a key of a dict display. *)
Fixpoint assoc {A} (k : string) (l : list (string * A)) : option A :=
  match l with
  | [] => None
  | (k', v) :: l => if String.eqb k k' then Some v else assoc k l
  end.

(** Two results are alike when they answer the same value or both raise; the
    label a checker puts into its messages is then irrelevant. *)
Definition alike {A} (m m' : result A) : Prop := forall a, m = Ok a <-> m' = Ok a.

(** * Strings as sets: a [frozenset] of literals is the list of its members. *)
Definition mem (s : string) (l : list string) : bool := existsb (String.eqb s) l.

(** * When a result is [Ok] *)
Lemma bind_ok {A B} (m : result A) (k : A -> result B) b :
  bind m k = Ok b <-> exists a, m = Ok a /\ k a = Ok b.
Proof.
  destruct m as [a|e]; simpl; split.
  - intros H. by exists a.
  - intros (a' & [= <-] & H). done.
  - discriminate.
  - intros (a' & [=] & _).
Qed.

Lemma bind_ok_unit {B} (m : result unit) (k : unit -> result B) b :
  bind m k = Ok b <-> m = Ok tt /\ k tt = Ok b.
Proof.
  destruct m as [[]|e]; simpl; (split; [|intros [? ?]]); done.
Qed.

Lemma bind_assoc {A B C} (m : result A) (f : A -> result B) (g : B -> result C) :
  bind (bind m f) g = bind m (fun x => bind (f x) g).
Proof. by destruct m. Qed.

Lemma ensure_ok c cls m u : ensure c cls m = Ok u <-> c = true.
Proof. by destruct c, u. Qed.

Lemma raise_ok {A} c m (a : A) : raise c m = Ok a <-> False.
Proof. split; [discriminate | done]. Qed.

Lemma if_raise_ok {A} (b : bool) c m (k : result A) (a : A) :
  (if b then raise c m else k) = Ok a <-> b = false /\ k = Ok a.
Proof. destruct b; (split; [|intros [? ?]]); done. Qed.

Lemma if_err_ok {A} (b : bool) e (k : result A) (a : A) :
  (if b then Err e else k) = Ok a <-> b = false /\ k = Ok a.
Proof. destruct b; (split; [|intros [? ?]]); done. Qed.

Lemma Ok_inj {A} (a b : A) : Ok a = Ok b <-> a = b.
Proof. split; congruence. Qed.

Lemma reraise_ok {A} c d f (m : result A) a : reraise c d f m = Ok a <-> m = Ok a.
Proof.
  unfold reraise, catch. destruct m; simpl; [done|].
  case_decide; split; discriminate.
Qed.

Lemma for_each_ok {A} (xs : list A) body u :
  for_each xs body = Ok u <-> Forall (fun x => body x = Ok tt) xs.
Proof.
  destruct u. induction xs as [|x xs IH]; simpl.
  - split; [constructor | done].
  - rewrite bind_ok_unit, IH, Forall_cons. done.
Qed.

Lemma for_enum_ok {A} i (xs : list A) body u :
  for_enum i xs body = Ok u <-> forall j x, xs !! j = Some x -> body (i + j) x = Ok tt.
Proof.
  destruct u. revert i. induction xs as [|x xs IH]; intros i; simpl.
  - split; [intros _ j x; rewrite lookup_nil; discriminate | done].
  - rewrite bind_ok_unit, IH. split.
    + intros [Hx Hxs] [|j] y; simpl; intros Hj.
      * injection Hj as <-. by rewrite Nat.add_0_r.
      * rewrite <- plus_n_Sm. by apply (Hxs j).
    + intros H. split.
      * rewrite <- (Nat.add_0_r i). by apply (H 0).
      * intros j y Hj. change (body (S (i + j)) y = Ok tt).
        rewrite plus_n_Sm. by apply (H (S j)).
Qed.

Lemma for_enum_forall {A} (P : A -> Prop) i (xs : list A) body :
  (forall j x, body j x = Ok tt <-> P x) -> for_enum i xs body = Ok tt <-> Forall P xs.
Proof.
  intros H. revert i. induction xs as [|x xs IH]; intros i; simpl; [split; [constructor | done]|].
  by rewrite bind_ok_unit, IH, Forall_cons, H.
Qed.

Lemma map_m_ok {A B} (f : A -> result B) xs ys :
  map_m f xs = Ok ys <-> Forall2 (fun x y => f x = Ok y) xs ys.
Proof.
  revert ys. induction xs as [|x xs IH]; intros ys; simpl.
  - split; [intros [= <-]; constructor | by inversion 1].
  - rewrite bind_ok. split.
    + intros (y & Hy & H). apply bind_ok in H as (ys' & Hys & [= <-]).
      constructor; [done | by apply IH].
    + inversion 1 as [|? y ? ys' Hy Hys]; subst. exists y. split; [done|].
      apply bind_ok. exists ys'. split; [by apply IH | done].
Qed.

Lemma mem_In s l : mem s l = true <-> In s l.
Proof.
  unfold mem. rewrite existsb_exists. split.
  - intros (x & Hin & ->%String.eqb_eq). done.
  - intros Hin. exists s. by rewrite String.eqb_refl.
Qed.

Lemma any_m_ok {A} (f : A -> result bool) (P : A -> Prop) xs :
  Forall (fun x => exists b, f x = Ok b /\ (b = true <-> P x)) xs ->
  exists b, any_m f xs = Ok b /\ (b = true <-> List.Exists P xs).
Proof.
  induction 1 as [|x xs (b & Hb & Hp) _ (b' & Hb' & Hp')]; simpl.
  - exists false. split; [done|]. rewrite List.Exists_nil. done.
  - setoid_rewrite List.Exists_cons. rewrite Hb. destruct b; simpl; [|rewrite Hb']; eexists; (split; [done|]); naive_solver.
Qed.

Lemma assoc_In {A} k (v : A) l : NoDup (map fst l) -> assoc k l = Some v <-> In (k, v) l.
Proof.
  induction l as [|[k' w] l IH]; simpl; [done|]. rewrite NoDup_cons, list_elem_of_In. intros [Hk Hn].
  destruct (String.eqb_spec k k') as [->|Hne]; [|rewrite IH by done; naive_solver].
  split; [intros [= ->]; by left|]. intros [[= ->]|Hin]; [done|]. destruct Hk. by apply (in_map fst) in Hin.
Qed.
Lemma when_assoc {A} k (l : list (string * A)) body : NoDup (map fst l) ->
  match assoc k l with Some v => body v | None => Ok tt end = Ok tt <-> forall v, In (k, v) l -> body v = Ok tt.
Proof.
  intros Hn. setoid_rewrite <- (assoc_In k _ l Hn). destruct (assoc k l) as [v|]; naive_solver.
Qed.

(** * Which exceptions a computation can raise *)
Definition raises {A} (P : exn_class -> Prop) (m : result A) : Prop :=
  forall e, m = Err e -> P (exn_cls e).

Lemma raises_Ok {A} P (a : A) : raises P (Ok a).
Proof. intros e [=]. Qed.
Lemma raises_raise {A} (P : exn_class -> Prop) c m : P c -> @raises A P (raise c m).
Proof. intros H e [= <-]. done. Qed.
Lemma raises_ensure (P : exn_class -> Prop) b c m : P c -> raises P (ensure b c m).
Proof. intros H. destruct b; [apply raises_Ok | by apply raises_raise]. Qed.
Lemma raises_bind {A B} P (m : result A) (k : A -> result B) :
  raises P m -> (forall a, raises P (k a)) -> raises P (bind m k).
Proof. intros Hm Hk e. destruct m as [a|e']; simpl; [apply Hk | intros [= ->]; by apply Hm]. Qed.
Lemma raises_bind_ok {A B} P (m : result A) (k : A -> result B) :
  raises P m -> (forall a, m = Ok a -> raises P (k a)) -> raises P (bind m k).
Proof. intros Hm Hk e. destruct m as [a|e']; simpl; [by apply Hk | intros [= ->]; by apply Hm]. Qed.
Lemma raises_if {A} P (b : bool) (m k : result A) :
  raises P m -> raises P k -> raises P (if b then m else k).
Proof. by destruct b. Qed.
Lemma raises_for_each {A} P (xs : list A) body :
  (forall x, raises P (body x)) -> raises P (for_each xs body).
Proof.
  intros H. induction xs; simpl; [apply raises_Ok|]. apply raises_bind; auto.
Qed.
Lemma raises_for_enum {A} P (xs : list A) body i :
  (forall j x, raises P (body j x)) -> raises P (for_enum i xs body).
Proof.
  intros H. revert i. induction xs; intros i; simpl; [apply raises_Ok|]. apply raises_bind; auto.
Qed.
Lemma raises_for_fold {A S} P (xs : list A) (s : S) body i :
  (forall j x s, raises P (body j x s)) -> raises P (for_fold i xs s body).
Proof.
  intros H. revert i s. induction xs; intros i s; simpl; [apply raises_Ok|]. apply raises_bind; auto.
Qed.
Lemma raises_map_m {A B} P (f : A -> result B) xs :
  (forall x, raises P (f x)) -> raises P (map_m f xs).
Proof.
  intros H. induction xs; simpl; [apply raises_Ok|].
  apply raises_bind; [done|]. intros. apply raises_bind; [done|]. intros. apply raises_Ok.
Qed.
Lemma raises_reraise {A} (P : exn_class -> Prop) c d f (m : result A) :
  P d -> raises (fun x => x = c \/ P x) m -> raises P (reraise c d f m).
Proof.
  intros Hd Hm e. unfold reraise, catch. destruct m as [a|e']; [discriminate|].
  case_decide as Hc; [intros [= <-]; done | intros [= <-]].
  by destruct (Hm e' eq_refl).
Qed.
Lemma raises_catch {A} (P : exn_class -> Prop) (m : result A) h :
  raises P m -> (forall e r, h e = Some r -> raises P r) -> raises P (catch m h).
Proof.
  intros Hm Hh. destruct m as [a|e]; simpl; [apply raises_Ok|].
  destruct (h e) as [r|] eqn:He; [by eapply Hh|]. done.
Qed.
Lemma raises_try {A B} (P : exn_class -> Prop) (m : result A) (k : A -> result B) h :
  raises P m -> (forall a, raises P (k a)) -> (forall e, P (exn_cls e) -> raises P (h e)) ->
  raises P (match m with Ok a => k a | Err e => h e end).
Proof. intros Hm Hk Hh. destruct m as [a|e]; [apply Hk|]. by apply Hh, Hm. Qed.
Lemma raises_for_fold_in {A S} (P : exn_class -> Prop) (Q : A -> Prop) (xs : list A) (s : S) body i :
  (forall j x s, Q x -> raises P (body j x s)) -> Forall Q xs -> raises P (for_fold i xs s body).
Proof.
  intros H HQ. revert i s. induction HQ as [|x xs Hx _ IH]; intros i s; simpl; [apply raises_Ok|].
  apply raises_bind; [by apply H | intros ?; apply IH].
Qed.
Lemma raises_weaken {A} (P Q : exn_class -> Prop) (m : result A) :
  (forall c, P c -> Q c) -> raises P m -> raises Q m.
Proof. intros H Hm e He. by apply H, Hm. Qed.

(** * Automation *)
Create Rewrite HintDb pyok.
#[export] Hint Rewrite @bind_ok_unit @bind_ok @ensure_ok @raise_ok @if_raise_ok @if_err_ok
  @reraise_ok @for_each_ok @Ok_inj andb_true_iff orb_false_iff negb_true_iff
  negb_false_iff String.eqb_eq String.eqb_neq mem_In : pyok.

Create HintDb raises.
#[export] Hint Resolve raises_Ok raises_raise raises_ensure raises_bind raises_if
  raises_for_each raises_for_enum raises_for_fold raises_map_m : raises.

(** Invert every [Ok] hypothesis of the context down to its atoms. *)
Ltac inv_ok_step :=
  match goal with
  | H : _ /\ _ |- _ => destruct H
  | H : exists _, _ |- _ => destruct H
  | H : bind _ _ = Ok _ |- _ => apply bind_ok in H
  | H : ensure _ _ _ = Ok _ |- _ => apply ensure_ok in H
  | H : raise _ _ = Ok _ |- _ => discriminate H
  | H : Err _ = Ok _ |- _ => discriminate H
  | H : reraise _ _ _ _ = Ok _ |- _ => apply reraise_ok in H
  | H : (if _ then raise _ _ else _) = Ok _ |- _ => apply if_raise_ok in H
  | H : Ok _ = Ok _ |- _ => apply Ok_inj in H
  | H : for_each _ _ = Ok _ |- _ => apply for_each_ok in H
  | H : for_enum _ _ _ = Ok _ |- _ => rewrite for_enum_ok in H
  | H : andb _ _ = true |- _ => apply andb_true_iff in H
  | H : orb _ _ = false |- _ => apply orb_false_iff in H
  | H : negb _ = true |- _ => apply negb_true_iff in H
  | H : negb _ = false |- _ => apply negb_false_iff in H
  | H : String.eqb _ _ = true |- _ => apply String.eqb_eq in H
  | x : unit |- _ => destruct x
  end.
Ltac inv_ok := repeat inv_ok_step.

(** Run a computation whose steps are known to succeed: a goal [m = Ok a] becomes
    one goal per step. *)
Ltac ok_step :=
  match goal with
  | |- bind _ _ = Ok _ => first [apply bind_ok_unit; split | apply bind_ok; eexists; split]
  | |- ensure _ _ _ = Ok _ => apply ensure_ok
  | |- reraise _ _ _ _ = Ok _ => apply reraise_ok
  | |- for_each _ _ = Ok _ => apply for_each_ok
  | |- Ok _ = Ok _ => reflexivity
  end.
Ltac run_ok := repeat ok_step.

(** Prove that a computation raises only the classes the goal allows. *)
Ltac raises_step :=
  match goal with
  | |- raises _ (Ok _) => apply raises_Ok
  | |- raises _ (raise _ _) => apply raises_raise
  | |- raises _ (ensure _ _ _) => apply raises_ensure
  | |- raises _ (bind _ _) => apply raises_bind; [|intros ?]
  | |- raises _ (if _ then _ else _) => apply raises_if
  | |- raises _ (for_each _ _) => apply raises_for_each; intros ?
  | |- raises _ (for_enum _ _ _) => apply raises_for_enum; intros ? ?
  | |- raises _ (for_fold _ _ _ _) => apply raises_for_fold; intros ? ? ?
  | |- raises _ (map_m _ _) => apply raises_map_m; intros ?
  | |- raises _ (match ?x with _ => _ end) => destruct x
  | |- raises _ (let _ := _ in _) => cbv zeta
  end.
Ltac solve_raises :=
  repeat first [ done | progress (repeat raises_step) | solve [eauto 3 with raises] ].

(** * Loops that keep sets of keys already seen *)

(** The elements of [ks] in order, each fresh when it is added. *)
Fixpoint fresh_run {K S} (fresh : K -> S -> Prop) (add : K -> S -> S) (ks : list K) (s : S) : Prop :=
  match ks with
  | [] => True
  | k :: ks => fresh k s /\ fresh_run fresh add ks (add k s)
  end.

Lemma for_fold_fresh {A S K} (P : nat -> A -> K -> Prop) fresh add
    (body : nat -> A -> S -> result S) :
  (forall i x s s', body i x s = Ok s' <-> exists k, P i x k /\ fresh k s /\ s' = add k s) ->
  forall xs i s s', for_fold i xs s body = Ok s' <->
    exists ks, Forall2 (fun jx k => P (fst jx) (snd jx) k) (zip (seq i (length xs)) xs) ks
               /\ fresh_run fresh add ks s /\ s' = fold_left (fun s k => add k s) ks s.
Proof.
  intros Hbody xs. induction xs as [|x xs IH]; intros i s s'; simpl.
  - split.
    + intros [= <-]. exists []. by repeat constructor.
    + intros (ks & H & _ & ->). by inversion H.
  - rewrite bind_ok. split.
    + intros (s1 & (k & HP & Hf & ->)%Hbody & (ks & Hks & Hr & ->)%IH).
      exists (k :: ks). split; [by constructor | done].
    + intros (ks & H & Hr & ->). inversion H as [|? k ? ks' HP Hks]; subst. destruct Hr as [Hf Hr].
      exists (add k s). split; [apply Hbody; by exists k | apply IH; by exists ks'].
Qed.

(** A loop that extends a list. *)
Lemma for_fold_extend {A K} (P : A -> list K -> Prop) (body : nat -> A -> list K -> result (list K)) xs ys :
  (forall i x s s', body i x s = Ok s' <-> exists ks, P x ks /\ s' = (s ++ ks)%list) ->
  for_fold 0 xs [] body = Ok ys <-> exists kss, Forall2 P xs kss /\ ys = concat kss.
Proof.
  intros Hbody.
  assert (H : forall i s, for_fold i xs s body = Ok ys <-> exists kss, Forall2 P xs kss /\ ys = (s ++ concat kss)%list);
    [|by rewrite H].
  induction xs as [|x xs IH]; intros i s; simpl.
  - split; [intros [= <-]; exists []; by rewrite app_nil_r | intros (kss & H & ->)].
    inversion H; subst. simpl. by rewrite app_nil_r.
  - rewrite bind_ok. setoid_rewrite Hbody. setoid_rewrite IH. split.
    + intros (s1 & (ks & Hp & ->) & kss & Hk & ->). exists (ks :: kss). split; [by constructor|]. by rewrite <- app_assoc.
    + intros (kss & H & ->). inversion H as [|? ks ? kss' Hp Hk]; subst. exists (s ++ ks)%list.
      split; [by exists ks|]. exists kss'. split; [done|]. by rewrite <- app_assoc.
Qed.
Lemma for_fold_append {A K} (P : A -> K -> Prop) (body : nat -> A -> list K -> result (list K)) xs ys :
  (forall i x s s', body i x s = Ok s' <-> exists k, P x k /\ s' = (s ++ [k])%list) ->
  for_fold 0 xs [] body = Ok ys <-> Forall2 P xs ys.
Proof.
  intros Hbody. rewrite (for_fold_extend (fun x ks => exists k, P x k /\ ks = [k])).
  2: { intros i x s s'. rewrite Hbody. naive_solver. }
  split.
  - intros (kss & H & ->). induction H as [|x ks xs kss (k & Hp & ->) _ IH]; simpl; by constructor.
  - intros H. exists (map (fun k => [k]) ys). split.
    + induction H as [|x k xs ys Hp _ IH]; simpl; constructor; [by exists k | done].
    + clear H. induction ys as [|y ys IH]; simpl; [done | by rewrite <- IH].
Qed.

Lemma fresh_run_set ks (s : gset string) :
  fresh_run (fun k s => k ∉ s) (fun k s => {[k]} ∪ s) ks s <-> NoDup ks /\ forall k, k ∈ ks -> k ∉ s.
Proof.
  revert s. induction ks as [|k ks IH]; intros s; simpl.
  - split; [intros _; split; [constructor | set_solver] | done].
  - rewrite IH, NoDup_cons. set_solver.
Qed.

Lemma fresh_run_pair ks (s : gset string * gset string) :
  fresh_run (fun k s => fst k ∉ fst s /\ snd k ∉ snd s)
            (fun k s => ({[fst k]} ∪ fst s, {[snd k]} ∪ snd s)) ks s <->
  (NoDup (map fst ks) /\ forall k, k ∈ map fst ks -> k ∉ fst s)
  /\ (NoDup (map snd ks) /\ forall k, k ∈ map snd ks -> k ∉ snd s).
Proof.
  revert s. induction ks as [|[a b] ks IH]; intros [s t]; simpl.
  - split; [intros _; repeat split; try constructor; set_solver | done].
  - rewrite IH, !NoDup_cons. simpl. set_solver.
Qed.

Lemma Forall2_enum {A K} (P : A -> K -> Prop) i xs ks :
  Forall2 (fun jx k => P (snd jx) k) (zip (seq i (length xs)) xs) ks <-> Forall2 P xs ks.
Proof.
  revert i ks. induction xs as [|x xs IH]; intros i ks; simpl.
  - split; by inversion 1.
  - split; inversion 1; subst; constructor; try done; by eapply IH.
Qed.

Lemma for_fold_cons_ok {A S} i x xs (s : S) (body : nat -> A -> S -> result S) :
  (exists s', for_fold i (x :: xs) s body = Ok s') <->
  exists s1, body i x s = Ok s1 /\ exists s', for_fold (Datatypes.S i) xs s1 body = Ok s'.
Proof.
  simpl. setoid_rewrite bind_ok. split.
  - intros (s' & s1 & H1 & H2). exists s1. split; [done | by exists s'].
  - intros (s1 & H1 & s' & H2). by exists s', s1.
Qed.

(** An invariant of the threaded state. *)
Lemma for_fold_invariant {A S} (I : S -> Prop) (body : nat -> A -> S -> result S) xs :
  forall i s s', (forall j x s s', body j x s = Ok s' -> I s -> I s') ->
  for_fold i xs s body = Ok s' -> I s -> I s'.
Proof.
  induction xs as [|x xs IH]; intros i s s' Hb; simpl.
  - by intros [= <-].
  - intros (s1 & H1 & H)%bind_ok Hs. eapply IH; eauto.
Qed.

(** * Equality of results up to the exception: a setoid *)
Global Instance alike_equiv A : Equivalence (@alike A).
Proof.
  split; [by intros m a | intros m m' H a; symmetry; apply H |].
  intros m1 m2 m3 H1 H2 a. by rewrite (H1 a).
Qed.
Global Instance bind_alike A B : Proper (alike ==> pointwise_relation A alike ==> alike) (@bind A B).
Proof.
  intros m m' Hm k k' Hk b. rewrite !bind_ok.
  split; intros (a & Ha & Hb); exists a; (split; [by apply Hm | by apply Hk]).
Qed.
Global Instance for_fold_alike A S i (xs : list A) (s : S) :
  Proper (pointwise_relation nat (pointwise_relation A (pointwise_relation S alike)) ==> alike) (for_fold i xs s).
Proof.
  intros f f' H. revert i s. induction xs as [|x xs IH]; intros i s; simpl; [reflexivity|].
  apply bind_alike; [apply H|]. intros s'. apply IH.
Qed.
Global Instance for_enum_alike A i (xs : list A) :
  Proper (pointwise_relation nat (pointwise_relation A alike) ==> alike) (for_enum i xs).
Proof.
  intros f f' H. revert i. induction xs as [|x xs IH]; intros i; simpl; [reflexivity|].
  apply bind_alike; [apply H|]. intros s'. apply IH.
Qed.
Lemma ensure_alike b c c' m m' : alike (ensure b c m) (ensure b c' m').
Proof. intros u. by rewrite !ensure_ok. Qed.
Lemma raise_alike {A} c c' m m' : alike (@raise A c m) (raise c' m').
Proof. intros a. by rewrite !raise_ok. Qed.
Lemma reraise_alike {A} c d f f' (m m' : result A) : alike m m' -> alike (reraise c d f m) (reraise c d f' m').
Proof. intros H a. rewrite !reraise_ok. apply H. Qed.
Ltac alike_step :=
  lazymatch goal with
  | |- alike ?x ?x => reflexivity
  | |- alike (bind _ _) (bind _ _) => apply bind_alike; [|intros ?]
  | |- alike (ensure _ _ _) (ensure _ _ _) => apply ensure_alike
  | |- alike (raise _ _) (raise _ _) => apply raise_alike
  | |- alike (reraise _ _ _ _) (reraise _ _ _ _) => apply reraise_alike
  | |- alike (for_fold _ _ _ _) (for_fold _ _ _ _) => apply for_fold_alike; intros ? ? ?
  | |- alike (for_enum _ _ _) (for_enum _ _ _) => apply for_enum_alike; intros ? ?
  | |- alike (if ?b then _ else _) _ => destruct b
  | |- alike (match ?x with _ => _ end) _ => destruct x
  | |- alike (let _ := _ in _) _ => cbv zeta
  end.
