(* ===== verification/PyStr.v ===== *)
(** PyStr: the operations on Python [str] the program uses.

    A [str] is a [string] whose characters are Unicode code points below 256
    (Latin-1).  On that alphabet every operation below agrees with CPython;
    text outside it never enters the model ([PyFs.read_text] and
    [PyJson.loads] answer [OutsideModel]). *)
From S2P Require Import Prelude.
From Stdlib Require Import DecimalString.

Local Open Scope string_scope.

Definition code (c : ascii) : N := N_of_ascii c.

(** [lo <= c <= hi] on code points. *)
Definition between (lo hi : N) (c : ascii) : bool := (lo <=? code c)%N && (code c <=? hi)%N.

Definition is_digit (c : ascii) : bool := between 48 57 c.
Definition is_upper (c : ascii) : bool := between 65 90 c.
Definition is_lower (c : ascii) : bool := between 97 122 c.
Definition is_hex_lower (c : ascii) : bool := is_digit c || between 97 102 c.

(** [str.isspace] on one character, the set [str.strip] removes and the
    regular-expression class \s matches. *)
Definition is_space (c : ascii) : bool :=
  between 9 13 c || between 28 32 c || (code c =? 133)%N || (code c =? 160)%N.

(** [str.isalnum] on one character, Latin-1. *)
Definition is_alnum (c : ascii) : bool :=
  is_digit c || is_upper c || is_lower c
  || existsb (N.eqb (code c)) [170; 178; 179; 181; 185; 186; 188; 189; 190]%N
  || (between 192 255 c && negb (code c =? 215)%N && negb (code c =? 247)%N).

(** The class \w. *)
Definition is_word (c : ascii) : bool := is_alnum c || (code c =? 95)%N.

Definition lower_char (c : ascii) : ascii :=
  if is_upper c || (between 192 222 c && negb (code c =? 215)%N)
  then ascii_of_N (code c + 32) else c.

Fixpoint map_str (f : ascii -> ascii) (s : string) : string :=
  match s with "" => "" | String c s => String (f c) (map_str f s) end.

(** [str.lower] *)
Definition lower (s : string) : string := map_str lower_char s.

(** [str.casefold]: [lower], and the sharp s becomes two letters.  (The micro
    sign folds to a code point outside Latin-1; it stays as it is here, and no
    needle of the program contains either.) *)
Fixpoint casefold (s : string) : string :=
  match s with
  | "" => ""
  | String c s =>
      if (code c =? 223)%N then "ss" ++ casefold s else String (lower_char c) (casefold s)
  end.

Fixpoint all_chars (p : ascii -> bool) (s : string) : bool :=
  match s with "" => true | String c s => p c && all_chars p s end.

Fixpoint any_char (p : ascii -> bool) (s : string) : bool :=
  match s with "" => false | String c s => p c || any_char p s end.

(** [str.startswith] *)
Fixpoint startswith (s p : string) : bool :=
  match p, s with
  | "", _ => true
  | String a p, String b s => Ascii.eqb a b && startswith s p
  | String _ _, "" => false
  end.

(** [needle in s] *)
Fixpoint contains (needle s : string) : bool :=
  startswith s needle || match s with "" => false | String _ s => contains needle s end.

(** [str.find]: the offset of the first occurrence, [None] for -1. *)
Fixpoint find (s needle : string) : option nat :=
  if startswith s needle then Some 0
  else match s with "" => None | String _ s => option_map S (find s needle) end.

Definition len (s : string) : nat := String.length s.

(** [s[n:]] and [s[:n]] *)
Fixpoint drop_str (n : nat) (s : string) : string :=
  match n, s with 0, _ => s | S n, "" => "" | S n, String _ s => drop_str n s end.
Fixpoint take_str (n : nat) (s : string) : string :=
  match n, s with 0, _ => "" | S n, "" => "" | S n, String c s => String c (take_str n s) end.
Definition slice (i j : nat) (s : string) : string := take_str (j - i) (drop_str i s).

(** [str.endswith] *)
Definition endswith (s p : string) : bool :=
  Nat.leb (len p) (len s) && String.eqb (drop_str (len s - len p) s) p.

(** [str.isdecimal]: in Latin-1 only 0-9 are decimal. *)
Definition isdecimal (s : string) : bool := negb (String.eqb s "") && all_chars is_digit s.

(** [str.isdigit]: the superscripts 1, 2 and 3 count as well. *)
Definition is_digit_uni (c : ascii) : bool :=
  is_digit c || existsb (N.eqb (code c)) [178; 179; 185]%N.
Definition isdigit (s : string) : bool := negb (String.eqb s "") && all_chars is_digit_uni s.

(** [''.join(ch for ch in s if p(ch))] *)
Fixpoint filter_chars (p : ascii -> bool) (s : string) : string :=
  match s with "" => "" | String c s => if p c then String c (filter_chars p s) else filter_chars p s end.

Fixpoint lstrip (s : string) : string :=
  match s with "" => "" | String c r => if is_space c then lstrip r else s end.
Fixpoint rstrip (s : string) : string :=
  match s with
  | "" => ""
  | String c r =>
      match rstrip r with "" => if is_space c then "" else String c "" | r => String c r end
  end.
(** [str.strip] *)
Definition strip (s : string) : string := rstrip (lstrip s).

(** [str.split(sep)] for a one-character separator. *)
Fixpoint split_on (sep : ascii) (s : string) : list string :=
  match s with
  | "" => [""]
  | String c s =>
      if Ascii.eqb c sep then "" :: split_on sep s
      else match split_on sep s with
           | [] => [String c ""]
           | x :: xs => String c x :: xs
           end
  end.

(** [str.split(sep, 1)] when [sep] occurs. *)
Fixpoint split_once (sep : ascii) (s : string) : option (string * string) :=
  match s with
  | "" => None
  | String c s =>
      if Ascii.eqb c sep then Some ("", s)
      else match split_once sep s with Some (a, b) => Some (String c a, b) | None => None end
  end.

(** Line boundaries of [str.splitlines], with CR LF counted once. *)
Definition is_linebreak (c : ascii) : bool :=
  between 10 13 c || between 28 30 c || (code c =? 133)%N.

Definition cons_line (c : ascii) (ls : list string) : list string :=
  match ls with [] => [String c ""] | x :: xs => String c x :: xs end.

Fixpoint splitlines (s : string) : list string :=
  match s with
  | "" => []
  | String c s =>
      if is_linebreak c then
        "" :: match s with
              | String d s' =>
                  if (code c =? 13)%N && (code d =? 10)%N then splitlines s' else splitlines s
              | "" => []
              end
      else cons_line c (splitlines s)
  end.

(** [str.split()]: the runs of characters that are not white space. *)
Fixpoint split_space (s : string) : list string :=
  match s with
  | "" => [""]
  | String c s => if is_space c then "" :: split_space s else cons_line c (split_space s)
  end.
Definition words (s : string) : list string := List.filter (fun w => negb (String.eqb w "")) (split_space s).

(** The lines of a JSONL file that hold something. *)
Definition content_lines (text : string) : list string :=
  List.filter (fun line => negb (String.eqb (strip line) "")) (splitlines text).

(** [sep.join(xs)] *)
Fixpoint join (sep : string) (xs : list string) : string :=
  match xs with
  | [] => ""
  | [x] => x
  | x :: xs => x ++ sep ++ join sep xs
  end.

(** [str.replace] of one character by another. *)
Definition replace_char (a b : ascii) (s : string) : string :=
  map_str (fun c => if Ascii.eqb c a then b else c) s.

Fixpoint repeat_str (n : nat) (s : string) : string :=
  match n with 0 => "" | S n => s ++ repeat_str n s end.

(** [sorted] on strings: code-point order. *)
Fixpoint insert_sorted (x : string) (l : list string) : list string :=
  match l with
  | [] => [x]
  | y :: ys => if String.leb x y then x :: l else y :: insert_sorted x ys
  end.
Fixpoint sorted (l : list string) : list string :=
  match l with [] => [] | x :: xs => insert_sorted x (sorted xs) end.

(** [set(xs) - set(ys)] as a list, first occurrences kept. *)
Fixpoint dedup (l : list string) : list string :=
  match l with [] => [] | x :: xs => if mem x xs then dedup xs else x :: dedup xs end.
Definition set_diff (xs ys : list string) : list string :=
  List.filter (fun x => negb (mem x ys)) (dedup xs).
Definition subset (xs ys : list string) : bool := forallb (fun x => mem x ys) xs.
Definition set_eq (xs ys : list string) : bool := subset xs ys && subset ys xs.

(** [str(n)] *)
Definition str_nat (n : nat) : string := NilEmpty.string_of_uint (Nat.to_uint n).
Definition str_Z (z : Z) : string := NilEmpty.string_of_int (Z.to_int z).

(** [int(s)] for a string of decimal digits: CPython refuses more than 4300. *)
Definition digit_val (c : ascii) : Z := Z.of_N (code c - 48).
Fixpoint dec_value (acc : Z) (s : string) : Z :=
  match s with "" => acc | String c s => dec_value (10 * acc + digit_val c)%Z s end.
Definition MAX_STR_DIGITS : nat := 4300.
Definition int_of_digits (s : string) : result Z :=
  if Nat.ltb MAX_STR_DIGITS (len s)
  then raise ValueError ("Exceeds the limit (4300 digits) for integer string conversion: value has "
         ++ str_nat (len s) ++ " digits; use sys.set_int_max_str_digits() to increase the limit")
  else Ok (dec_value 0 s).

(** [int(s)] for a string that satisfies [isdigit]: the superscripts are no
    decimal digits. *)
Definition int_of_isdigit (s : string) : result Z :=
  if isdecimal s then int_of_digits s
  else raise ValueError ("invalid literal for int() with base 10: '" ++ s ++ "'").

Lemma append_nil_r s : s ++ "" = s.
Proof. induction s as [|c s IH]; [done|]. change (String c (s ++ "") = String c s). by rewrite IH. Qed.
Lemma append_cons c s t : String c s ++ t = String c (s ++ t).
Proof. done. Qed.
Lemma append_assoc s t u : (s ++ t) ++ u = s ++ (t ++ u).
Proof. induction s as [|c s IH]; [done|]. rewrite !append_cons. by rewrite IH. Qed.
Lemma len_append s t : len (s ++ t) = len s + len t.
Proof. induction s as [|c s IH]; [done|]. rewrite append_cons. unfold len in *. simpl. by rewrite IH. Qed.
Lemma append_inj a b c : a ++ b = a ++ c -> b = c.
Proof. induction a as [|x a IH]; [done|]. rewrite !append_cons. intros [= H]. by apply IH. Qed.
Lemma take_app a b : take_str (len a) (a ++ b) = a.
Proof.
  induction a as [|x a IH]; [by destruct b|]. rewrite append_cons.
  change (String x (take_str (len a) (a ++ b)) = String x a). by rewrite IH.
Qed.

(** Two texts that agree up to the first character outside a class. *)
Lemma split_class p a b c d : all_chars p a = true -> all_chars p b = true ->
  (forall x s, c = String x s -> p x = false) -> (forall x s, d = String x s -> p x = false) ->
  a ++ c = b ++ d -> a = b /\ c = d.
Proof.
  revert b. induction a as [|x a IH]; intros [|y b]; rewrite ?append_cons; cbn [all_chars]; intros Ha Hb Hc Hd.
  - done.
  - intros H. apply andb_true_iff in Hb as [Hy _]. by rewrite (Hc y (b ++ d) H) in Hy.
  - intros H. apply andb_true_iff in Ha as [Hx _]. by rewrite (Hd x (a ++ c) (eq_sym H)) in Hx.
  - apply andb_true_iff in Ha as [_ Ha], Hb as [_ Hb]. intros [= -> H].
    by destruct (IH b Ha Hb Hc Hd H) as [-> ->].
Qed.

Lemma subset_spec xs ys : subset xs ys = true <-> forall x, In x xs -> In x ys.
Proof.
  unfold subset. rewrite forallb_forall. split; intros H x Hx; specialize (H x Hx); by apply mem_In.
Qed.
Lemma set_eq_spec xs ys : set_eq xs ys = true <-> forall x, In x xs <-> In x ys.
Proof. unfold set_eq. rewrite andb_true_iff, !subset_spec. firstorder. Qed.

Lemma insert_sorted_in x y l : In x (insert_sorted y l) <-> x = y \/ In x l.
Proof.
  induction l as [|z l IH]; simpl; [naive_solver|].
  destruct (String.leb y z); simpl; rewrite ?IH; naive_solver.
Qed.
Lemma sorted_in x l : In x (sorted l) <-> In x l.
Proof. induction l as [|y l IH]; simpl; [done|]. rewrite insert_sorted_in, IH. naive_solver. Qed.
Lemma dedup_in x l : In x (dedup l) <-> In x l.
Proof.
  induction l as [|y l IH]; simpl; [done|]. destruct (mem y l) eqn:E; simpl; rewrite IH; [|done].
  apply mem_In in E. naive_solver.
Qed.
Lemma dedup_length l : List.length (dedup l) <= List.length l.
Proof. induction l as [|y l IH]; simpl; [done|]. destruct (mem y l); simpl; lia. Qed.
Lemma dedup_full l : List.length (dedup l) = List.length l <-> NoDup l.
Proof.
  induction l as [|y l IH]; simpl; [split; [constructor | done]|].
  rewrite NoDup_cons. pose proof (dedup_length l). destruct (mem y l) eqn:E; simpl.
  - apply mem_In, list_elem_of_In in E. split; [lia | naive_solver].
  - assert (y ∉ l) by (rewrite list_elem_of_In, <- mem_In; by rewrite E).
    rewrite <- IH. split; [intros; split; [done | lia] | intros [_ ?]; lia].
Qed.
Lemma filter_nil {A} (f : A -> bool) l : List.filter f l = [] <-> forall x, In x l -> f x = false.
Proof.
  induction l as [|y l IH]; simpl; [naive_solver|]. destruct (f y) eqn:E; naive_solver congruence.
Qed.

(** [sorted(set(xs) - set(ys))] is empty. *)
Lemma no_extra xs ys : sorted (set_diff xs ys) = [] <-> forall x, In x xs -> In x ys.
Proof.
  assert (H : sorted (set_diff xs ys) = [] <-> forall x, ~ In x (set_diff xs ys)).
  { split.
    - intros H x Hx%sorted_in. by rewrite H in Hx.
    - intros H. destruct (sorted (set_diff xs ys)) as [|x l] eqn:E; [done|].
      destruct (H x). rewrite <- sorted_in, E. by left. }
  rewrite H. unfold set_diff. setoid_rewrite filter_In. setoid_rewrite dedup_in.
  setoid_rewrite negb_true_iff. split; intros Hx x; specialize (Hx x).
  - intros Hi. apply mem_In. destruct (mem x ys); [done|]. by destruct Hx.
  - intros [Hi Hm]. apply Hx, mem_In in Hi. congruence.
Qed.

Lemma startswith_iff s p : startswith s p = true <-> exists r, s = p ++ r.
Proof.
  revert s. induction p as [|a p IH]; intros s.
  { split; [by exists s | by destruct s]. }
  destruct s as [|b s]; [split; [done | intros [r Hr]; discriminate Hr]|]. simpl.
  rewrite andb_true_iff, Ascii.eqb_eq, IH. split.
  - intros [-> [r ->]]. by exists r.
  - intros [r [= -> ->]]. split; [done | by exists r].
Qed.

(** [needle in s]: [s] has the needle somewhere. *)
Lemma contains_iff needle s : contains needle s = true <-> exists a b, s = a ++ needle ++ b.
Proof.
  induction s as [|c s IH];
    [change (contains needle "") with (startswith "" needle || false)
    |change (contains needle (String c s)) with (startswith (String c s) needle || contains needle s)];
    rewrite orb_true_iff, startswith_iff.
  - split; [intros [[r Hr]|]; [by exists "", r | done]|].
    intros ([|x a] & b & H); [left; by exists b | done].
  - rewrite IH. split.
    + intros [[r ->]|(a & b & ->)]; [by exists "", r | by exists (String c a), b].
    + intros ([|x a] & b & H); [left; by exists b | right].
      injection H as -> ->. by exists a, b.
Qed.
Lemma contains_false needle s : contains needle s = false <-> ~ exists a b, s = a ++ needle ++ b.
Proof. rewrite <- contains_iff. destruct (contains needle s); split; congruence. Qed.

(** ** The segments of a split text *)
Definition ends_segment (sep : ascii) (s : string) : Prop := s = "" \/ exists r, s = String sep r.

Lemma split_on_cons sep s : exists w l, split_on sep s = w :: l.
Proof.
  induction s as [|c s (w & l & E)]; simpl; [by exists "", []|].
  destruct (Ascii.eqb c sep); [by exists "", (split_on sep s)|]. rewrite E. by exists (String c w), l.
Qed.
Lemma split_on_head sep s w :
  hd "" (split_on sep s) = w <->
  all_chars (fun c => negb (Ascii.eqb c sep)) w = true /\ exists r, s = w ++ r /\ ends_segment sep r.
Proof.
  revert w. induction s as [|c s IH]; intros w; cbn [split_on].
  - split.
    + intros <-. split; [done|]. exists "". split; [done | by left].
    + intros [_ (r & Hr & _)]. by destruct w.
  - destruct (Ascii.eqb_spec c sep) as [->|Hc].
    + split.
      * intros <-. split; [done|]. exists (String sep s). split; [done | right; by exists s].
      * intros [Hw (r & Hr & _)]. destruct w as [|x w]; [done|]. rewrite append_cons in Hr.
        injection Hr as -> _. cbn in Hw. by rewrite Ascii.eqb_refl in Hw.
    + destruct (split_on_cons sep s) as (h & l & E). rewrite E in IH |- *. cbn [hd] in *. split.
      * intros <-. destruct (proj1 (IH h) eq_refl) as [Hh (r & -> & Hr)]. split; [|by exists r].
        cbn [all_chars]. rewrite Hh. by apply Ascii.eqb_neq in Hc as ->.
      * intros [Hw (r & Hr & He)]. destruct w as [|x w].
        -- destruct He as [->|[r' ->]]; [done|]. cbn in Hr. by injection Hr as -> _.
        -- rewrite append_cons in Hr. injection Hr as <- Hr. f_equal. apply IH.
           cbn [all_chars] in Hw. apply andb_true_iff in Hw as [_ Hw]. split; [done | by exists r].
Qed.
Lemma split_on_tail sep s w :
  In w (tl (split_on sep s)) <-> exists a b, s = a ++ String sep b /\ hd "" (split_on sep b) = w.
Proof.
  induction s as [|c s IH]; cbn [split_on].
  - split; [done|]. by intros ([|? a] & b & H & _).
  - destruct (split_on_cons sep s) as (h & l & E).
    assert (Hs : forall a b, String c s = a ++ String sep b <->
      (a = "" /\ c = sep /\ s = b) \/ exists a', a = String c a' /\ s = a' ++ String sep b).
    { intros [|x a] b; split.
      - intros [= -> ->]. by left.
      - by intros [(_ & -> & ->)|(? & [=] & _)].
      - rewrite append_cons. intros [= -> ->]. right. by exists a.
      - intros [([=] & _)|(a' & [= -> ->] & ->)]. by rewrite append_cons. }
    setoid_rewrite Hs. destruct (Ascii.eqb_spec c sep) as [->|Hc].
    + cbn [tl]. rewrite E in IH |- *. cbn [tl] in IH. split.
      * intros [<-|Hw]; [exists "", s; rewrite E; by auto|].
        apply IH in Hw as (a & b & -> & Hb). exists (String sep a), b. split; [right; by exists a | done].
      * intros (a & b & [(-> & _ & <-)|(a' & -> & ->)] & Hb); [left; by rewrite E in Hb|].
        right. apply IH. by exists a', b.
    + rewrite E in IH |- *. cbn [tl] in IH |- *. rewrite IH. split.
      * intros (a & b & -> & Hb). exists (String c a), b. split; [right; by exists a | done].
      * intros (a & b & [(_ & ? & _)|(a' & -> & ->)] & Hb); [done|]. by exists a', b.
Qed.

(** A segment of a split text: it stands at the start or after a separator, and
    ends the text or before one. *)
Lemma split_on_in sep s w : In w (split_on sep s) <->
  all_chars (fun c => negb (Ascii.eqb c sep)) w = true
  /\ exists a r, s = a ++ w ++ r /\ (a = "" \/ exists a', a = a' ++ String sep "") /\ ends_segment sep r.
Proof.
  destruct (split_on_cons sep s) as (h & l & E).
  assert (Hd : In w (split_on sep s) <-> hd "" (split_on sep s) = w \/ In w (tl (split_on sep s))) by by rewrite E.
  rewrite Hd, split_on_tail. setoid_rewrite split_on_head. split.
  - intros [[Hw (r & -> & Hr)]|(a & b & -> & Hw & r & -> & Hr)]; (split; [done|]).
    + exists "", r. split; [done|]. split; [by left | done].
    + exists (a ++ String sep ""), r. rewrite append_assoc. split; [done|]. split; [right; by exists a | done].
  - intros [Hw (a & r & -> & [->|(a' & ->)] & Hr)]; [left; split; [done | by exists r]|].
    right. exists a', (w ++ r). rewrite append_assoc. split; [done|]. split; [done | by exists r].
Qed.

Lemma all_chars_app p a b : all_chars p (a ++ b) = all_chars p a && all_chars p b.
Proof. induction a as [|x a IH]; [done|]. rewrite append_cons. cbn [all_chars]. by rewrite IH, andb_assoc. Qed.
Lemma take_drop n s : take_str n s ++ drop_str n s = s.
Proof. revert s. induction n as [|n IH]; intros [|c s]; simpl; try done. change (String c (take_str n s ++ drop_str n s) = String c s). by rewrite IH. Qed.
Lemma drop_app a b : drop_str (len a) (a ++ b) = b.
Proof. induction a as [|c a IH]; [done | exact IH]. Qed.
Lemma endswith_iff s p : endswith s p = true <-> exists a, s = a ++ p.
Proof.
  unfold endswith. rewrite andb_true_iff, Nat.leb_le, String.eqb_eq. split.
  - intros [_ H]. exists (take_str (len s - len p) s). rewrite <- (take_drop (len s - len p) s) at 1. by rewrite H.
  - intros (a & ->). rewrite len_append. split; [lia|]. replace (len a + len p - len p) with (len a) by lia. apply drop_app.
Qed.
