(* ===== verification/PyRe.v ===== *)
(** PyRe: the part of Python's [re] module the program uses.

    A pattern is a value of [regex]; [rmatch] is a backtracking matcher in
    continuation style, so that the first success in priority order (greedy
    and lazy repetition, leftmost alternative) is the match CPython reports,
    with its groups.  [Matches] is the declarative reading of a pattern, and
    [rmatch_sound] / [rmatch_complete] relate the two; the loop of a repetition
    carries a counter one larger than the text that is left, which is enough
    because every further round must consume a character. *)
From S2P Require Import Prelude PyStr.

Local Open Scope string_scope.

Inductive regex : Type :=
| REps
| RChar (p : ascii -> bool)          (* one character of a class *)
| RSeq (a b : regex)
| RAlt (a b : regex)                 (* a|b, left first *)
| RStar (greedy : bool) (r : regex)  (* r*, r*? *)
| RCap (name : string) (r : regex)   (* (?P<name>r) *)
| RBol                               (* ^ *)
| REol                               (* $: the end, or before a final newline *)
| RWordB                             (* \b *)
| RAhead (r : regex)                 (* (?=r) *)
| RBehind (p : ascii -> bool).       (* (?<=class) *)

(** A position of the subject: the character before it, the text after it,
    and the groups captured so far (latest first). *)
Record rstate : Type := St {
  st_prev : option ascii;
  st_rest : string;
  st_caps : list (string * string);
}.

Definition start (s : string) : rstate := St None s [].

Definition or_else {A} (x : option A) (y : unit -> option A) : option A :=
  match x with Some a => Some a | None => y tt end.

Definition at_eol (s : string) : bool :=
  match s with
  | "" => true
  | String c "" => (code c =? 10)%N
  | _ => false
  end.

Definition is_word_at (o : option ascii) : bool :=
  match o with Some c => is_word c | None => false end.
Definition first_char (s : string) : option ascii :=
  match s with "" => None | String c _ => Some c end.
Definition at_word_boundary (st : rstate) : bool :=
  xorb (is_word_at (st_prev st)) (is_word_at (first_char (st_rest st))).

(** The text between two positions of one subject. *)
Definition text_between (a b : rstate) : string :=
  take_str (len (st_rest a) - len (st_rest b)) (st_rest a).

Definition capture (name : string) (a b : rstate) : rstate :=
  St (st_prev b) (st_rest b) ((name, text_between a b) :: st_caps b).

Definition progressed (a b : rstate) : bool := Nat.ltb (len (st_rest b)) (len (st_rest a)).

(** The rounds of a repetition: [round] matches the body once. *)
Fixpoint star_loop {A} (round : rstate -> (rstate -> option A) -> option A) (greedy : bool)
    (k : rstate -> option A) (n : nat) (st : rstate) : option A :=
  match n with
  | 0 => k st
  | S n =>
      let more := fun _ : unit =>
        round st (fun st' => if progressed st st' then star_loop round greedy k n st' else None) in
      if greedy then or_else (more tt) (fun _ => k st) else or_else (k st) more
  end.

Fixpoint rmatch {A} (r : regex) (st : rstate) (k : rstate -> option A) : option A :=
  match r with
  | REps => k st
  | RChar p =>
      match st_rest st with
      | "" => None
      | String c s => if p c then k (St (Some c) s (st_caps st)) else None
      end
  | RSeq a b => rmatch a st (fun st' => rmatch b st' k)
  | RAlt a b => or_else (rmatch a st k) (fun _ => rmatch b st k)
  | RStar greedy r =>
      star_loop (fun st k => rmatch r st k) greedy k (S (len (st_rest st))) st
  | RCap name r => rmatch r st (fun st' => k (capture name st st'))
  | RBol => match st_prev st with None => k st | Some _ => None end
  | REol => if at_eol (st_rest st) then k st else None
  | RWordB => if at_word_boundary st then k st else None
  | RAhead r => match rmatch r st (@Some rstate) with Some _ => k st | None => None end
  | RBehind p => match st_prev st with Some c => if p c then k st else None | None => None end
  end.

(** ** Pattern constructors *)
Definition rchar (c : ascii) : regex := RChar (Ascii.eqb c).
Definition rchar_ci (c : ascii) : regex := RChar (fun d => Ascii.eqb (lower_char c) (lower_char d)).
Definition rany : regex := RChar (fun c => negb (code c =? 10)%N).
Definition rdigit : regex := RChar is_digit.
Definition rdigit09 : regex := RChar is_digit.
Definition rspace : regex := RChar is_space.
Fixpoint rlit (s : string) : regex :=
  match s with "" => REps | String c s => RSeq (rchar c) (rlit s) end.
Fixpoint rlit_ci (s : string) : regex :=
  match s with "" => REps | String c s => RSeq (rchar_ci c) (rlit_ci s) end.
Fixpoint rseq (rs : list regex) : regex :=
  match rs with [] => REps | r :: rs => RSeq r (rseq rs) end.
Fixpoint ralt (rs : list regex) : regex :=
  match rs with [] => RChar (fun _ => false) | [r] => r | r :: rs => RAlt r (ralt rs) end.
Definition rstar (r : regex) : regex := RStar true r.
Definition rlazy (r : regex) : regex := RStar false r.
Definition rplus (r : regex) : regex := RSeq r (rstar r).
Definition ropt (r : regex) : regex := RAlt r REps.
(** r{m} and r{m,m+n} *)
Fixpoint rrep_upto (n : nat) (r : regex) : regex :=
  match n with 0 => REps | S n => ropt (RSeq r (rrep_upto n r)) end.
Fixpoint rrep (m n : nat) (r : regex) : regex :=
  match m with 0 => rrep_upto n r | S m => RSeq r (rrep m n r) end.

(** The characters of a bracket expression. *)
Definition one_of (s : string) (c : ascii) : bool := any_char (Ascii.eqb c) s.
(** [A-Za-z0-9_.-] *)
Definition is_ident_char (c : ascii) : bool :=
  is_digit c || is_upper c || is_lower c || one_of "_.-" c.

(** ** The entry points *)
Definition match_at (r : regex) (st : rstate) : option rstate := rmatch r st Some.

(** [pattern.match(s) is not None] *)
Definition re_match (r : regex) (s : string) : bool :=
  match match_at r (start s) with Some _ => true | None => false end.

(** [pattern.fullmatch(s) is not None] *)
Definition re_fullmatch (r : regex) (s : string) : bool :=
  match rmatch r (start s) (fun st => match st_rest st with "" => Some st | _ => None end) with
  | Some _ => true
  | None => false
  end.

(** [pattern.fullmatch(s)]: the match with its groups. *)
Definition re_full (r : regex) (s : string) : option (rstate * rstate) :=
  rmatch r (start s) (fun st => match st_rest st with "" => Some (start s, st) | _ => None end).

Definition advance (st : rstate) : rstate :=
  match st_rest st with "" => st | String c s => St (Some c) s [] end.

(** [pattern.search]: the leftmost position with a match; the positions where
    the match starts and ends. *)
Fixpoint search_from (r : regex) (n : nat) (st : rstate) : option (rstate * rstate) :=
  match match_at r st with
  | Some e => Some (st, e)
  | None => match n with 0 => None | S n => search_from r n (advance st) end
  end.
Definition re_search (r : regex) (s : string) : option (rstate * rstate) :=
  search_from r (len s) (start s).
Definition re_found (r : regex) (s : string) : bool :=
  match re_search r s with Some _ => true | None => false end.

(** [match.group(name)] *)
Definition group (name : string) (m : rstate * rstate) : string :=
  match List.find (fun p => String.eqb name (fst p)) (st_caps (snd m)) with
  | Some (_, v) => v
  | None => ""
  end.
(** [match.group(0)] *)
Definition group0 (m : rstate * rstate) : string := text_between (fst m) (snd m).

(** [pattern.finditer]: non-overlapping matches from left to right; after an
    empty match the search resumes one character later. *)
Fixpoint finditer_from (r : regex) (n : nat) (st : rstate) : list (rstate * rstate) :=
  match n with
  | 0 => []
  | S n =>
      match search_from r (len (st_rest st)) st with
      | None => []
      | Some (a, e) =>
          let e := St (st_prev e) (st_rest e) (st_caps e) in
          (a, e) ::
          (if progressed a e then finditer_from r n (St (st_prev e) (st_rest e) [])
           else match st_rest e with "" => [] | _ => finditer_from r n (advance e) end)
      end
  end.
Definition re_finditer (r : regex) (s : string) : list (rstate * rstate) :=
  finditer_from r (S (len s)) (start s).
Definition re_findall (r : regex) (s : string) : list string := map group0 (re_finditer r s).

(** [re.split]: the texts between the matches. *)
Fixpoint split_gaps (rest : string) (ms : list (rstate * rstate)) : list string :=
  match ms with
  | [] => [rest]
  | (a, e) :: ms =>
      take_str (len rest - len (st_rest a)) rest :: split_gaps (st_rest e) ms
  end.
Definition re_split (r : regex) (s : string) : list string := split_gaps s (re_finditer r s).
(** [pattern.sub(repl, s)] for a literal replacement. *)
Definition re_sub (r : regex) (repl s : string) : string := join repl (re_split r s).

(** ** The declarative reading *)
Inductive Matches : regex -> rstate -> rstate -> Prop :=
| M_eps st : Matches REps st st
| M_char (p : ascii -> bool) o c s caps :
    p c = true -> Matches (RChar p) (St o (String c s) caps) (St (Some c) s caps)
| M_seq a b s1 s2 s3 : Matches a s1 s2 -> Matches b s2 s3 -> Matches (RSeq a b) s1 s3
| M_alt_l a b s1 s2 : Matches a s1 s2 -> Matches (RAlt a b) s1 s2
| M_alt_r a b s1 s2 : Matches b s1 s2 -> Matches (RAlt a b) s1 s2
| M_star_done g r st : Matches (RStar g r) st st
| M_star_more g r s1 s2 s3 :
    Matches r s1 s2 -> progressed s1 s2 = true -> Matches (RStar g r) s2 s3 ->
    Matches (RStar g r) s1 s3
| M_cap name r s1 s2 : Matches r s1 s2 -> Matches (RCap name r) s1 (capture name s1 s2)
| M_bol st : st_prev st = None -> Matches RBol st st
| M_eol st : at_eol (st_rest st) = true -> Matches REol st st
| M_wordb st : at_word_boundary st = true -> Matches RWordB st st
| M_ahead r st st' : Matches r st st' -> Matches (RAhead r) st st
| M_behind (p : ascii -> bool) st c : st_prev st = Some c -> p c = true -> Matches (RBehind p) st st.

(** ** The matcher finds exactly the declarative matches *)
Lemma or_else_some {A} (x : option A) y a :
  or_else x y = Some a -> x = Some a \/ y tt = Some a.
Proof. destruct x; simpl; auto. Qed.

Lemma rmatch_sound {A} r st (k : rstate -> option A) a :
  rmatch r st k = Some a -> exists st', Matches r st st' /\ k st' = Some a.
Proof.
  revert A st k a. induction r as [|p|r1 IH1 r2 IH2|r1 IH1 r2 IH2|g r IH|name r IH| | | |r IH|p];
    intros A st k a; simpl.
  - eauto using Matches.
  - destruct st as [o [|c s] caps]; simpl; [done|].
    destruct (p c) eqn:Hp; [eauto using Matches | done].
  - intros (s1 & H1 & H)%IH1. apply IH2 in H as (s2 & H2 & H). eauto using Matches.
  - intros [H|H]%or_else_some; [apply IH1 in H | apply IH2 in H];
      destruct H as (s' & ? & ?); eauto using Matches.
  - change (star_loop (fun st k => rmatch r st k) g k (S (len (st_rest st))) st = Some a ->
            exists st', Matches (RStar g r) st st' /\ k st' = Some a).
    generalize (S (len (st_rest st))). intros n. revert st.
    induction n as [|n IHn]; intros st; [simpl; eauto using Matches|]. cbn [star_loop].
    assert (Hmore : rmatch r st (fun st' => if progressed st st'
              then star_loop (fun st k => rmatch r st k) g k n st' else None) = Some a ->
              exists st', Matches (RStar g r) st st' /\ k st' = Some a).
    { intros (s1 & Hm & H)%IH. destruct (progressed st s1) eqn:Hp; [|done].
      apply IHn in H as (s2 & ? & ?). eauto using Matches. }
    destruct g; intros [H|H]%or_else_some; eauto using Matches.
  - intros (s1 & ? & ?)%IH. eauto using Matches.
  - destruct (st_prev st) eqn:?; [done|]. eauto using Matches.
  - destruct (at_eol (st_rest st)) eqn:?; [|done]. eauto using Matches.
  - destruct (at_word_boundary st) eqn:?; [|done]. eauto using Matches.
  - destruct (rmatch r st Some) as [s'|] eqn:H; [|done].
    apply IH in H as (s1 & ? & _). eauto using Matches.
  - destruct (st_prev st) eqn:?; [|done]. destruct (p a0) eqn:?; [|done]. eauto using Matches.
Qed.

Definition succeeds {A} (o : option A) : Prop := o <> None.

Lemma or_else_succeeds {A} (x : option A) y :
  succeeds (or_else x y) <-> succeeds x \/ succeeds (y tt).
Proof.
  unfold succeeds. destruct x; simpl; (split; [intros ?|intros [?|?]]); try done; [by left | by right].
Qed.

Lemma star_loop_complete {A} r g (k : rstate -> option A) :
  (forall s s', Matches r s s' -> forall k : rstate -> option A,
      succeeds (k s') -> succeeds (rmatch r s k)) ->
  forall n st st', Matches (RStar g r) st st' -> len (st_rest st) < n -> succeeds (k st') ->
  succeeds (star_loop (fun st k => rmatch r st k) g k n st).
Proof.
  intros IH n. induction n as [|n IHn]; intros st st' Hm Hn Hk; [lia|]; simpl.
  inversion Hm as [| | | | |? ? st0|? ? s1 s2 s3 Hr Hp Hs| | | | | |]; subst.
  - destruct g; apply or_else_succeeds; auto.
  - assert (Hmore : succeeds (rmatch r st (fun st' => if progressed st st'
              then star_loop (fun st k => rmatch r st k) g k n st' else None))).
    { eapply IH; [exact Hr|]. rewrite Hp. eapply IHn; eauto.
      apply Nat.ltb_lt in Hp. lia. }
    destruct g; apply or_else_succeeds; auto.
Qed.

Lemma rmatch_complete {A} r st st' (k : rstate -> option A) :
  Matches r st st' -> succeeds (k st') -> succeeds (rmatch r st k).
Proof.
  revert A st st' k.
  induction r as [|p|r1 IH1 r2 IH2|r1 IH1 r2 IH2|g r IH|name r IH| | | |r IH|p];
    intros A st st' k Hm Hk; cbn [rmatch];
    try (eapply star_loop_complete; eauto; fail); inversion Hm; subst; clear Hm.
  - done.
  - simpl. by destruct (p c).
  - eauto.
  - apply or_else_succeeds; eauto.
  - apply or_else_succeeds; eauto.
  - eauto.
  - match goal with H : _ = _ |- _ => by rewrite H end.
  - match goal with H : _ = _ |- _ => by rewrite H end.
  - match goal with H : _ = _ |- _ => by rewrite H end.
  - assert (H : succeeds (rmatch r st' (@Some rstate))) by (eapply IH; eauto; done).
    by destruct (rmatch r st' Some).
  - repeat match goal with H : _ = _ |- _ => rewrite H end. done.
Qed.

Lemma rmatch_iff {A} r st (k : rstate -> option A) :
  succeeds (rmatch r st k) <-> exists st', Matches r st st' /\ succeeds (k st').
Proof.
  split.
  - unfold succeeds. destruct (rmatch r st k) eqn:H; [intros _|done].
    apply rmatch_sound in H as (s' & Hm & H). exists s'. split; [done|]. by rewrite H.
  - intros (s' & Hm & Hk). by eapply rmatch_complete.
Qed.

(** [fullmatch] and [match] in terms of the declarative reading. *)
Lemma re_fullmatch_iff r s :
  re_fullmatch r s = true <-> exists st, Matches r (start s) st /\ st_rest st = "".
Proof.
  unfold re_fullmatch.
  pose proof (rmatch_iff r (start s) (fun st => match st_rest st with "" => Some st | _ => None end)) as H.
  unfold succeeds in H. destruct (rmatch _ _ _).
  - split; [intros _|done]. destruct (proj1 H) as (st & Hm & Hk); [done|].
    exists st. split; [done|]. by destruct (st_rest st).
  - split; [done|]. intros (st & Hm & Hr). exfalso. apply (proj2 H); [|done].
    exists st. rewrite Hr. done.
Qed.

Lemma re_match_iff r s : re_match r s = true <-> exists st, Matches r (start s) st.
Proof.
  unfold re_match, match_at. pose proof (rmatch_iff r (start s) (@Some rstate)) as H.
  unfold succeeds in H. destruct (rmatch _ _ _).
  - split; [intros _|done]. destruct (proj1 H) as (st & Hm & Hk); [done|]. by exists st.
  - split; [done|]. intros (st & Hm). exfalso. apply (proj2 H); [|done]. by exists st.
Qed.

(** ** Searching *)
Lemma search_from_iff r n st :
  (exists m, search_from r n st = Some m) <->
  exists i e, i <= n /\ Matches r (Nat.iter i advance st) e.
Proof.
  revert st. induction n as [|n IH]; intros st; simpl;
    pose proof (rmatch_iff r st (@Some rstate)) as H; unfold succeeds in H; unfold match_at.
  - destruct (rmatch r st Some) as [e|] eqn:E.
    + split; [intros _|by eexists]. apply rmatch_sound in E as (e' & ? & _). by exists 0, e'.
    + split; [intros [? [=]]|]. intros (i & e & Hi & Hm). assert (i = 0) as -> by lia.
      destruct (proj2 H); [by exists e | done].
  - destruct (rmatch r st Some) as [e|] eqn:E.
    + split; [intros _|by eexists]. apply rmatch_sound in E as (e' & ? & _).
      exists 0, e'. split; [lia | done].
    + rewrite IH. split.
      * intros (i & e & Hi & Hm). exists (S i), e. rewrite Nat.iter_succ_r. split; [lia | done].
      * intros ([|i] & e & Hi & Hm).
        -- destruct (proj2 H); [by exists e | done].
        -- exists i, e. rewrite Nat.iter_succ_r in Hm. split; [lia | done].
Qed.

(** [pattern.search] succeeds exactly when the pattern matches at some offset. *)
Lemma re_found_iff r s :
  re_found r s = true <-> exists i e, i <= len s /\ Matches r (Nat.iter i advance (start s)) e.
Proof.
  rewrite <- search_from_iff. unfold re_found, re_search.
  destruct (search_from _ _ _); split; try done; [by eexists | by intros [? [=]]].
Qed.

(** ** Bounded repetitions of a class *)
Lemma seq_matches a b st st' :
  Matches (RSeq a b) st st' <-> exists st1, Matches a st st1 /\ Matches b st1 st'.
Proof. split; [inversion 1; eauto | intros (? & ? & ?); by econstructor]. Qed.

Lemma char_matches p st st' :
  Matches (RChar p) st st' <->
  exists c s, st_rest st = String c s /\ p c = true /\ st' = St (Some c) s (st_caps st).
Proof.
  split.
  - inversion 1; subst; simpl. by exists c, s.
  - intros (c & s & Hr & Hp & ->). destruct st; simpl in *; subst. by constructor.
Qed.

Lemma rrep_upto_text n p st st' :
  Matches (rrep_upto n (RChar p)) st st' ->
  exists t, st_rest st = t ++ st_rest st' /\ all_chars p t = true /\ len t <= n.
Proof.
  revert st. induction n as [|n IH]; intros st; simpl.
  - inversion 1; subst. by exists "".
  - inversion 1 as [| | |? ? ? ? H1|? ? ? ? H1| | | | | | | |]; subst.
    + apply seq_matches in H1 as (s1 & (c & s & Hr & Hp & ->)%char_matches & H2).
      apply IH in H2 as (t & Ht & Ha & Hl). exists (String c t).
      rewrite Hr; simpl in *. rewrite Hp, Ha, Ht. unfold len in *. simpl. split; [done | split; [done | lia]].
    + inversion H1; subst. exists "". simpl. repeat split. lia.
Qed.

Lemma rrep_upto_complete n p t o s caps :
  all_chars p t = true -> len t <= n ->
  exists o', Matches (rrep_upto n (RChar p)) (St o (t ++ s) caps) (St o' s caps).
Proof.
  revert n o. induction t as [|c t IH]; intros n o Ha Hl; simpl in *.
  - exists o. destruct n; simpl; [constructor|]. apply M_alt_r. constructor.
  - apply andb_true_iff in Ha as [Hp Ha]. destruct n as [|n]; [lia|].
    destruct (IH n (Some c)) as (o' & H); [done|lia|]. exists o'. simpl.
    apply M_alt_l. econstructor; [by constructor | exact H].
Qed.

Lemma rrep_text m n p st st' :
  Matches (rrep m n (RChar p)) st st' ->
  exists t, st_rest st = t ++ st_rest st' /\ all_chars p t = true /\ m <= len t <= m + n.
Proof.
  revert st. induction m as [|m IH]; intros st; simpl.
  - intros (t & ? & ? & ?)%rrep_upto_text. exists t. repeat split; (done || lia).
  - intros (s1 & (c & s & Hr & Hp & ->)%char_matches & H2)%seq_matches.
    apply IH in H2 as (t & Ht & Ha & Hl). exists (String c t).
    rewrite Hr; simpl in *. rewrite Hp, Ha, Ht. unfold len in *. simpl. split; [done | split; [done | lia]].
Qed.

Lemma rrep_complete m n p t o s caps :
  all_chars p t = true -> m <= len t <= m + n ->
  exists o', Matches (rrep m n (RChar p)) (St o (t ++ s) caps) (St o' s caps).
Proof.
  revert t o. induction m as [|m IH]; intros t o Ha Hl; simpl.
  - apply rrep_upto_complete; [done | lia].
  - destruct t as [|c t]; simpl in *; [lia|]. apply andb_true_iff in Ha as [Hp Ha].
    destruct (IH t (Some c)) as (o' & H); [done|lia|]. exists o'.
    econstructor; [by constructor | exact H].
Qed.

Lemma rrep_upto_caps n p st st' : Matches (rrep_upto n (RChar p)) st st' -> st_caps st' = st_caps st.
Proof.
  revert st. induction n as [|n IH]; intros st; simpl; [by inversion 1|].
  inversion 1 as [| | |? ? ? ? H1|? ? ? ? H1| | | | | | | |]; subst; [|by inversion H1].
  apply seq_matches in H1 as (s1 & (c & x & ? & ? & ->)%char_matches & H2).
  by apply IH in H2.
Qed.

Lemma rrep_caps m n p st st' : Matches (rrep m n (RChar p)) st st' -> st_caps st' = st_caps st.
Proof.
  revert st. induction m as [|m IH]; intros st; simpl; [apply rrep_upto_caps|].
  intros (s1 & (c & x & ? & ? & ->)%char_matches & H2)%seq_matches. by apply IH in H2.
Qed.

Lemma class_matches m n p s st :
  Matches (rseq [RBol; rrep m n (RChar p); REol]) (start s) st <->
  exists o t, st = St o (st_rest st) [] /\ Matches (rrep m n (RChar p)) (start s) st
              /\ s = t ++ st_rest st /\ all_chars p t = true /\ m <= len t <= m + n
              /\ at_eol (st_rest st) = true.
Proof.
  split.
  - intros (s1 & H1 & (s2 & H2 & (s3 & H3 & H4)%seq_matches)%seq_matches)%seq_matches.
    inversion H1; subst. inversion H3; subst. inversion H4; subst.
    destruct (rrep_text _ _ _ _ _ H2) as (t & Ht & Ha & Hl).
    exists (st_prev st), t. repeat split; try done; try lia.
    assert (Hc : st_caps st = []) by exact (rrep_caps _ _ _ _ _ H2).
    destruct st; simpl in *; by subst.
  - intros (o & t & Hst & Hm & Hs & Ha & Hl & He).
    econstructor; [by constructor|]. econstructor; [exact Hm|].
    econstructor; [by constructor | constructor].
Qed.

(** [^[class]{m,m+n}$] under [fullmatch]: exactly the texts of the class. *)
Lemma class_fullmatch m n p s :
  re_fullmatch (rseq [RBol; rrep m n (RChar p); REol]) s = true <->
  all_chars p s = true /\ m <= len s <= m + n.
Proof.
  rewrite re_fullmatch_iff. split.
  - intros (st & (o & t & _ & _ & Hs & Ha & Hl & _)%class_matches & Hr).
    rewrite Hr, append_nil_r in Hs. by subst.
  - intros [Ha Hl]. destruct (rrep_complete m n p s None "" [] Ha Hl) as (o' & H).
    rewrite append_nil_r in H.
    exists (St o' "" []). split; [|done]. econstructor; [by constructor|].
    econstructor; [exact H|]. econstructor; [by constructor | constructor].
Qed.

(** Under [match] the [$] also accepts one newline after the text. *)
Lemma class_match m n p s :
  re_match (rseq [RBol; rrep m n (RChar p); REol]) s = true <->
  exists t, all_chars p t = true /\ m <= len t <= m + n /\ (s = t \/ s = t ++ String (ascii_of_N 10) "").
Proof.
  rewrite re_match_iff. split.
  - intros (st & (o & t & _ & _ & Hs & Ha & Hl & He)%class_matches).
    exists t. repeat split; try (done || lia). destruct (st_rest st) as [|c [|d r]]; simpl in He; [left|right|done].
    + by rewrite append_nil_r in Hs.
    + rewrite Hs. repeat f_equal. apply N.eqb_eq in He. rewrite <- He. unfold code.
      by rewrite ascii_N_embedding.
  - intros (t & Ha & Hl & Hs).
    assert (exists r, s = t ++ r /\ at_eol r = true) as (r & -> & He).
    { destruct Hs as [->| ->]; [exists ""|eexists; split; [done|done]].
      by rewrite append_nil_r. }
    destruct (rrep_complete m n p t None r [] Ha Hl) as (o' & H).
    exists (St o' r []). econstructor; [by constructor|].
    econstructor; [exact H|]. econstructor; [by constructor | constructor].
Qed.

(** ** Patterns read step by step

    [adds st t caps st']: from [st] to [st'] the text [t] is consumed and the
    groups [caps] are added.  The patterns the program takes groups from are sequences of
    literals, classes and groups, whose consumed text is determined. *)
Definition adds (st : rstate) (t : string) (caps : list (string * string)) (st' : rstate) : Prop :=
  st_rest st = t ++ st_rest st' /\ st_caps st' = (caps ++ st_caps st)%list.

Lemma lit_matches l st st' : Matches (rlit l) st st' -> adds st l [] st'.
Proof.
  revert st. induction l as [|c l IH]; intros st; simpl.
  - inversion 1; subst. done.
  - intros (s1 & (d & s & Hr & <-%Ascii.eqb_eq & ->)%char_matches & H)%seq_matches.
    apply IH in H as [H1 H2]. simpl in *. split; [by rewrite Hr, H1 | done].
Qed.
Lemma lit_complete l o s caps :
  exists o', Matches (rlit l) (St o (l ++ s) caps) (St o' s caps).
Proof.
  revert o. induction l as [|c l IH]; intros o; simpl; [exists o; constructor|].
  destruct (IH (Some c)) as (o' & H). exists o'. econstructor; [|exact H].
  constructor. by apply Ascii.eqb_eq.
Qed.

(** ** Lines of literals and classes

    A pattern [^...$] of literals and repeated classes under [match]: exactly the
    texts that are put together accordingly, with or without one newline. *)
Inductive item : Set :=
| Lit (l : string)
| Cls (m n : nat) (p : ascii -> bool).

Definition item_re (i : item) : regex :=
  match i with Lit l => rlit l | Cls m n p => rrep m n (RChar p) end.
Definition item_text (i : item) (t : string) : Prop :=
  match i with Lit l => t = l | Cls m n p => all_chars p t = true /\ m <= len t <= m + n end.
Fixpoint items_text (items : list item) (t : string) : Prop :=
  match items with
  | [] => t = ""
  | i :: items => exists a b, t = a ++ b /\ item_text i a /\ items_text items b
  end.

Lemma item_matches i st st' : Matches (item_re i) st st' -> exists t, item_text i t /\ st_rest st = t ++ st_rest st'.
Proof.
  destruct i as [l|m n p]; cbn [item_re item_text].
  - intros [H _]%lit_matches. by exists l.
  - intros (t & Ht & Ha & Hl)%rrep_text. by exists t.
Qed.
Lemma item_complete i t o s caps : item_text i t -> exists o', Matches (item_re i) (St o (t ++ s) caps) (St o' s caps).
Proof.
  destruct i as [l|m n p]; cbn [item_re item_text]; [intros ->; apply lit_complete|].
  intros [Ha Hl]. by apply rrep_complete.
Qed.

Lemma items_matches items st st' : Matches (rseq (map item_re items ++ [REol])) st st' ->
  exists t, items_text items t /\ st_rest st = t ++ st_rest st' /\ at_eol (st_rest st') = true.
Proof.
  revert st. induction items as [|i items IH]; intros st.
  - intros (s1 & H1 & H2)%seq_matches. inversion H1; subst. inversion H2; subst. by exists "".
  - intros (s1 & (a & Ha & E1)%item_matches & (b & Hb & E2 & He)%IH)%seq_matches.
    exists (a ++ b). split; [by exists a, b|]. by rewrite E1, E2, append_assoc.
Qed.
Lemma items_complete items t o r : items_text items t -> at_eol r = true ->
  exists st, Matches (rseq (map item_re items ++ [REol])) (St o (t ++ r) []) st.
Proof.
  intros Ht Hr. revert o t Ht. induction items as [|i items IH]; intros o t; cbn [items_text].
  - intros ->. eexists. econstructor; [by constructor | constructor].
  - intros (a & b & -> & Ha & Hb). destruct (item_complete i a o (b ++ r) [] Ha) as (o' & H1).
    destruct (IH o' b Hb) as (st & H2). exists st. rewrite append_assoc. by econstructor.
Qed.

Lemma line_match items s : re_match (rseq (RBol :: map item_re items ++ [REol])) s = true <->
  exists t, items_text items t /\ (s = t \/ s = t ++ String (ascii_of_N 10) "").
Proof.
  rewrite re_match_iff. split.
  - intros (st & (s1 & H1 & (t & Ht & E & He)%items_matches)%seq_matches). inversion H1; subst.
    exists t. split; [done|]. cbn [start st_rest] in E. destruct (st_rest st) as [|c [|d r]]; [left | right | done].
    + by rewrite append_nil_r in E.
    + rewrite E. apply N.eqb_eq in He. rewrite <- He. unfold code. by rewrite ascii_N_embedding.
  - intros (t & Ht & Hs).
    assert (exists r, s = t ++ r /\ at_eol r = true) as (r & -> & He).
    { destruct Hs as [->| ->]; [exists ""; by rewrite append_nil_r | by eexists]. }
    destruct (items_complete items t None r Ht He) as (st & H). exists st. econstructor; [by constructor | exact H].
Qed.

Lemma star_matches p st st' : Matches (rstar (RChar p)) st st' ->
  exists t, adds st t [] st' /\ all_chars p t = true.
Proof.
  unfold rstar. remember (RStar true (RChar p)) as r eqn:Er. intros H. revert Er.
  induction H as [| | | | |g r st|g r s1 s2 s3 H1 _ Hp H2 IH| | | | | |]; intros [= -> ->].
  - by exists "".
  - apply char_matches in H1 as (c & s & Hr & Hc & ->).
    destruct IH as (t & [H3 H4] & Ha); [done|]. simpl in *. exists (String c t).
    split; [split; [by rewrite Hr, H3 | done] | simpl; by rewrite Hc].
Qed.
Lemma star_complete p t o s caps : all_chars p t = true ->
  exists o', Matches (rstar (RChar p)) (St o (t ++ s) caps) (St o' s caps).
Proof.
  revert o. induction t as [|c t IH]; intros o; simpl; [exists o; constructor|].
  intros [Hc Ht]%andb_true_iff. destruct (IH (Some c) Ht) as (o' & H). exists o'.
  econstructor; [by constructor | | exact H]. unfold progressed. apply Nat.ltb_lt. cbn [st_rest]. rewrite append_cons. apply Nat.lt_succ_diag_r.
Qed.

(** [[class]+] *)
Lemma plus_matches p st st' : Matches (rplus (RChar p)) st st' ->
  exists t, adds st t [] st' /\ all_chars p t = true /\ t <> "".
Proof.
  intros (s1 & (c & s & Hr & Hc & ->)%char_matches & (t & [H1 H2] & Ha)%star_matches)%seq_matches.
  exists (String c t). simpl in *. split; [split; [by rewrite Hr, H1 | done]|]. by rewrite Hc.
Qed.
Lemma plus_complete p t o s caps : all_chars p t = true -> t <> "" ->
  exists o', Matches (rplus (RChar p)) (St o (t ++ s) caps) (St o' s caps).
Proof.
  destruct t as [|c t]; [done|]. intros [Hc Ht]%andb_true_iff _.
  destruct (star_complete p t (Some c) s caps Ht) as (o' & H). exists o'.
  econstructor; [by constructor | exact H].
Qed.

(** A group around a pattern remembers the text it consumed. *)
Lemma cap_plus_matches name p st st' : Matches (RCap name (rplus (RChar p))) st st' ->
  exists t, adds st t [(name, t)] st' /\ all_chars p t = true /\ t <> "".
Proof.
  inversion 1 as [| | | | | | |? ? ? s2 H1| | | | |]; subst.
  apply plus_matches in H1 as (t & [H2 H3] & Ha). exists t. split; [|done].
  split; [done|]. unfold capture, text_between. simpl. rewrite H2, len_append, H3.
  replace (len t + len (st_rest s2) - len (st_rest s2)) with (len t) by lia. by rewrite take_app.
Qed.
Lemma cap_plus_complete name p t o s caps : all_chars p t = true -> t <> "" ->
  exists o', Matches (RCap name (rplus (RChar p))) (St o (t ++ s) caps) (St o' s ((name, t) :: caps)).
Proof.
  intros Ha Hne. destruct (plus_complete p t o s caps Ha Hne) as (o' & H). exists o'.
  replace (St o' s ((name, t) :: caps)) with (capture name (St o (t ++ s) caps) (St o' s caps));
    [by constructor|].
  unfold capture, text_between. simpl. rewrite len_append.
  replace (len t + len s - len s) with (len t) by lia. by rewrite take_app.
Qed.

(** [fullmatch] answers a declarative match that consumes the whole text, and
    answers one whenever there is one. *)
Lemma re_full_sound r s m : re_full r s = Some m ->
  exists st, m = (start s, st) /\ Matches r (start s) st /\ st_rest st = "".
Proof.
  unfold re_full. intros (st & Hm & H)%rmatch_sound. exists st.
  destruct (st_rest st); [by injection H as <- | done].
Qed.
Lemma re_full_complete r s st :
  Matches r (start s) st -> st_rest st = "" -> exists m, re_full r s = Some m.
Proof.
  intros Hm Hr. destruct (re_full r s) as [m|] eqn:E; [by exists m|].
  exfalso. revert E. apply (rmatch_complete _ _ _ _ Hm). rewrite Hr. done.
Qed.

(** [^[class]+$] under [fullmatch]. *)
Lemma plus_fullmatch p s :
  re_fullmatch (rseq [RBol; rplus (RChar p); REol]) s = true <-> all_chars p s = true /\ s <> "".
Proof.
  rewrite re_fullmatch_iff. split.
  - intros (st & (s1 & H1 & (s2 & H2 & (s3 & H3 & H4)%seq_matches)%seq_matches)%seq_matches & Hr).
    inversion H1; subst. inversion H3; subst. inversion H4; subst.
    apply plus_matches in H2 as (t & [H2 _] & Ht). simpl in H2.
    by rewrite H2, Hr, append_nil_r.
  - intros [Ha Hne]. destruct (plus_complete p s None "" [] Ha Hne) as (o' & H).
    rewrite append_nil_r in H. exists (St o' "" []). split; [|done].
    econstructor; [by constructor|]. econstructor; [exact H|]. econstructor; [by constructor | constructor].
Qed.

(** A pattern without groups, and the text a match consumes. *)
Fixpoint no_groups (r : regex) : bool :=
  match r with
  | RCap _ _ => false
  | RSeq a b | RAlt a b => no_groups a && no_groups b
  | RStar _ r | RAhead r => no_groups r
  | _ => true
  end.
Lemma matches_consume r st st' : Matches r st st' -> exists t, st_rest st = t ++ st_rest st'.
Proof.
  induction 1 as [|p o c s caps Hp|a b s1 s2 s3 _ (t1 & E1) _ (t2 & E2)| | | |g r s1 s2 s3 _ (t1 & E1) _ _ (t2 & E2)
    |name r s1 s2 _ (t & E)| | | | |]; try (by exists ""); try done.
  - by exists (String c "").
  - exists (t1 ++ t2). by rewrite E1, E2, append_assoc.
  - exists (t1 ++ t2). by rewrite E1, E2, append_assoc.
  - by exists t.
Qed.
Lemma matches_no_groups r st st' : Matches r st st' -> no_groups r = true -> st_caps st' = st_caps st.
Proof.
  induction 1 as [| |a b s1 s2 s3 _ IH1 _ IH2|a b s1 s2 _ IH|a b s1 s2 _ IH| |g r s1 s2 s3 _ IH1 _ _ IH2
    |name r s1 s2 _ IH| | | | |]; simpl; try done; intros Hr.
  - apply andb_true_iff in Hr as [Ha Hb]. by rewrite IH2, IH1.
  - apply andb_true_iff in Hr as [Ha Hb]. by apply IH.
  - apply andb_true_iff in Hr as [Ha Hb]. by apply IH.
  - by rewrite IH2, IH1.
Qed.
Lemma cap_matches name r st st' : no_groups r = true -> Matches (RCap name r) st st' ->
  exists t, adds st t [(name, t)] st'.
Proof.
  intros Hr. inversion 1 as [| | | | | | |? ? ? s2 H1| | | | |]; subst.
  destruct (matches_consume _ _ _ H1) as (t & E). exists t. split; [done|].
  unfold capture, text_between. simpl. rewrite E, len_append, (matches_no_groups _ _ _ H1 Hr).
  replace (len t + len (st_rest s2) - len (st_rest s2)) with (len t) by lia. by rewrite take_app.
Qed.
Lemma re_full_found r s : re_fullmatch r s = true <-> exists m, re_full r s = Some m.
Proof.
  rewrite re_fullmatch_iff. split.
  - intros (st & Hm & Hr). by eapply re_full_complete.
  - intros (m & (st & -> & Hm & Hr)%re_full_sound). by exists st.
Qed.

(** At the start of the subject nothing has been consumed. *)
Lemma matches_prev r st st' : Matches r st st' -> st_prev st' = None -> st_prev st = None /\ st_rest st = st_rest st'.
Proof.
  induction 1 as [| |a b s1 s2 s3 _ IH1 _ IH2| | | |g r s1 s2 s3 _ IH1 _ _ IH2|name r s1 s2 _ IH| | | | |];
    simpl; try done; intros Hp.
  - destruct (IH2 Hp) as [Hp2 <-]. by apply IH1.
  - destruct (IH2 Hp) as [Hp2 <-]. by apply IH1.
Qed.
Lemma alt_matches a b st st' : Matches (RAlt a b) st st' <-> Matches a st st' \/ Matches b st st'.
Proof. split; [inversion 1; subst; auto | intros []; by constructor]. Qed.

(** ** The leftmost match *)
Lemma len_take n s : len (take_str n s) <= n.
Proof. revert s. induction n as [|n IH]; intros [|c s]; cbn; try lia. specialize (IH s). unfold len in IH. lia. Qed.

Lemma search_from_first r n st a e :
  search_from r n st = Some (a, e) <->
  exists i, i <= n /\ a = Nat.iter i advance st /\ match_at r a = Some e
    /\ forall j, j < i -> match_at r (Nat.iter j advance st) = None.
Proof.
  revert st. induction n as [|n IH]; intros st; cbn [search_from]; destruct (match_at r st) as [e'|] eqn:E.
  1, 3: split; [intros [= <- <-]; exists 0; split_and!; [lia | done | done | intros; lia]
    | intros ([|i] & _ & -> & He & Hj); [cbn [Nat.iter nat_rect] in *; congruence | specialize (Hj 0 ltac:(lia)); cbn [Nat.iter nat_rect] in *; congruence]].
  - split; [done|]. intros (i & Hi & -> & He & _). replace i with 0 in He by lia. cbn [Nat.iter nat_rect] in *. congruence.
  - rewrite IH. setoid_rewrite <- Nat.iter_succ_r. split.
    + intros (i & Hi & -> & He & Hj). exists (S i). split_and!; [lia | done | done|]. intros [|j] Hlt; [done | apply Hj; lia].
    + intros ([|i] & Hi & -> & He & Hj); [cbn [Nat.iter nat_rect] in *; congruence|]. exists i. split_and!; [lia | done | done|]. intros j Hlt. apply Hj. lia.
Qed.

Lemma iter_advance i s : st_rest (Nat.iter i advance (start s)) = drop_str i s /\ st_caps (Nat.iter i advance (start s)) = [].
Proof.
  enough (H : forall st, st_caps st = [] -> st_rest (Nat.iter i advance st) = drop_str i (st_rest st) /\ st_caps (Nat.iter i advance st) = []) by by apply H.
  induction i as [|i IH]; intros st Hc; [done|]. rewrite Nat.iter_succ_r. destruct st as [o [|c s'] caps]; cbn in Hc; subst.
  - destruct (IH (advance (St o "" [])) eq_refl) as [-> ->]. cbn [advance st_rest drop_str]. by destruct i.
  - by destruct (IH (advance (St o (String c s') [])) eq_refl) as [-> ->].
Qed.

(** The text [rest] has [v] in its group, at the first place of [s] where there is such a text. *)
Definition at_first (shape : string -> string -> Prop) (s v : string) : Prop :=
  exists pre rest, s = pre ++ rest /\ shape rest v
    /\ forall pre' rest' v', s = pre' ++ rest' -> shape rest' v' -> len pre <= len pre'.

Lemma search_first r name (shape : string -> string -> Prop) s v :
  (forall st e, st_caps st = [] -> match_at r st = Some e -> shape (st_rest st) (group name (st, e))) ->
  (forall st w, shape (st_rest st) w -> succeeds (match_at r st)) ->
  (forall rest w w', shape rest w -> shape rest w' -> w = w') ->
  (exists m, re_search r s = Some m /\ group name m = v) <-> at_first shape s v.
Proof.
  intros Hs Hc Hf. unfold re_search, at_first. split.
  - intros ([a e] & (i & Hi & -> & He & Hj)%search_from_first & <-). destruct (iter_advance i s) as [Hr Hn].
    exists (take_str i s), (drop_str i s). split; [by rewrite take_drop|]. rewrite <- Hr. split; [by apply Hs|].
    intros pre' rest' v' E Hv. destruct (Nat.le_gt_cases (len (take_str i s)) (len pre')) as [|Hlt]; [done|]. exfalso.
    pose proof (len_take i s). apply (Hc (Nat.iter (len pre') advance (start s)) v'); [|apply Hj; lia].
    destruct (iter_advance (len pre') s) as [-> _]. by rewrite E, drop_app.
  - intros (pre & rest & E & Hv & Hfirst). destruct (search_from r (len s) (start s)) as [[a e]|] eqn:H.
    + exists (a, e). split; [done|]. apply search_from_first in H as (i & Hi & -> & He & Hj). destruct (iter_advance i s) as [Hr Hn].
      assert (Hi' : i = len pre); [|subst i].
      { apply Nat.le_antisymm.
        - destruct (Nat.le_gt_cases i (len pre)) as [|Hlt]; [done|]. exfalso.
          apply (Hc (Nat.iter (len pre) advance (start s)) v); [|by apply Hj]. destruct (iter_advance (len pre) s) as [-> _]. by rewrite E, drop_app.
        - specialize (Hs _ _ Hn He). rewrite Hr in Hs. pose proof (Hfirst (take_str i s) _ _ (eq_sym (take_drop i s)) Hs) as Hp.
          pose proof (len_take i s). lia. }
      apply (Hf rest); [|done]. specialize (Hs _ _ Hn He). rewrite Hr in Hs. rewrite E, drop_app in Hs. by rewrite E.
    + exfalso. assert (Hx : exists m, search_from r (len s) (start s) = Some m); [|destruct Hx; congruence].
      apply search_from_iff. specialize (Hc (Nat.iter (len pre) advance (start s)) v). destruct (iter_advance (len pre) s) as [Hr _].
      rewrite Hr in Hc. rewrite E, drop_app, <- E in Hc. specialize (Hc Hv). unfold succeeds, match_at in Hc.
      destruct (rmatch r _ Some) as [e|] eqn:Em; [|done]. apply rmatch_sound in Em as (e' & Hm & _).
      exists (len pre), e'. split; [rewrite E, len_append; lia | done].
Qed.

(** A literal before and after a group of a class, and the group's text. *)
Definition quoted_shape (p : ascii -> bool) (before after : string) (rest v : string) : Prop :=
  exists post, rest = before ++ v ++ after ++ post /\ all_chars p v = true /\ v <> "".

Definition quoted_pattern (name : string) (p : ascii -> bool) (before after : string) : regex :=
  rseq [rlit before; RCap name (rplus (RChar p)); rlit after].

Lemma quoted_search name p before c after s v : p c = false ->
  (exists m, re_search (quoted_pattern name p before (String c after)) s = Some m /\ group name m = v)
  <-> at_first (quoted_shape p before (String c after)) s v.
Proof.
  intros Hc. apply search_first.
  - intros st e Hn (e' & Hm & [= ->])%rmatch_sound.
    apply seq_matches in Hm as (s1 & [H1 _]%lit_matches & (s2 & (t & [H2 C2] & Hp & Hne)%cap_plus_matches & (s3 & [H3 C3]%lit_matches & H4)%seq_matches)%seq_matches).
    inversion H4; subst. exists (st_rest e). unfold group. cbn [snd]. rewrite C3, C2. cbn [app List.find fst]. rewrite String.eqb_refl.
    by rewrite H1, H2, H3.
  - intros [o r caps] w (post & E & Hp & Hne). cbn [st_rest] in E. subst r. apply rmatch_iff.
    destruct (lit_complete before o (w ++ String c after ++ post) caps) as (o1 & H1).
    destruct (cap_plus_complete name p w o1 (String c after ++ post) caps Hp Hne) as (o2 & H2).
    destruct (lit_complete (String c after) o2 post ((name, w) :: caps)) as (o3 & H3).
    eexists. split; [|done]. econstructor; [exact H1|]. econstructor; [exact H2|]. econstructor; [exact H3 | constructor].
  - intros rest w w' (post & E & Hp & _) (post' & E' & Hp' & _). rewrite E in E'. apply append_inj in E'.
    rewrite !append_cons in E'. apply (split_class p) in E' as [-> _]; naive_solver.
Qed.

(** A lazy [.*?] under [re.DOTALL] in a group between an opening, whose texts are
    [P], and a literal: the shortest text. *)
Definition shortest_shape (P : string -> Prop) (after : string) (rest v : string) : Prop :=
  exists before post, rest = before ++ v ++ after ++ post /\ P before
    /\ forall v' post', v ++ after ++ post = v' ++ after ++ post' -> len v <= len v'.
Definition shortest_pattern (name : string) (opening : regex) (after : string) : regex :=
  RSeq opening (rseq [RCap name (rlazy (RChar (fun _ => true))); rlit after]).
Lemma lazy_loop {A} (k : rstate -> option A) n o s caps a : len s < n ->
  star_loop (fun st k => rmatch (RChar (fun _ => true)) st k) false k n (St o s caps) = Some a ->
  exists t rest o', s = t ++ rest /\ k (St o' rest caps) = Some a
    /\ forall t' rest', s = t' ++ rest' -> len t' < len t -> exists o'', k (St o'' rest' caps) = None.
Proof.
  revert o s. induction n as [|n IH]; intros o s Hn; [lia|]. cbn [star_loop]. destruct (k (St o s caps)) as [x|] eqn:Ek; cbn [or_else].
  - intros [= ->]. exists "", s, o. split_and!; [done | done|]. cbn. lia.
  - destruct s as [|c s]; cbn [rmatch st_rest st_caps]; [done|].
    replace (progressed _ _) with true by (symmetry; apply Nat.ltb_lt; apply Nat.lt_succ_diag_r).
    intros (t & rest & o' & -> & Hk & Hs)%IH; [|cbn in Hn; unfold len; lia]. exists (String c t), rest, o'. split_and!; [done | done|].
    intros [|c' t'] rest' E Hlt; [change ("" ++ rest') with rest' in E; rewrite <- E; by exists o|]. rewrite !append_cons in E. injection E as <- E.
    apply (Hs t'); [done | cbn in Hlt; unfold len; lia].
Qed.

Lemma capture_text name o o' t s caps : capture name (St o (t ++ s) caps) (St o' s caps) = St o' s ((name, t) :: caps).
Proof.
  unfold capture, text_between. cbn [st_rest st_prev st_caps]. rewrite len_append.
  replace (len t + len s - len s) with (len t) by lia. by rewrite take_app.
Qed.

(** A repetition matches the same texts whichever it prefers. *)
Lemma star_order g g' r st st' : Matches (RStar g r) st st' -> Matches (RStar g' r) st st'.
Proof.
  remember (RStar g r) as q eqn:E. intros H. revert E. induction H as [| | | | | |g0 r0 s1 s2 s3 H1 _ Hp H2 IH| | | | | |]; intros [= -> ->]; [constructor|].
  econstructor; [exact H1 | done | by apply IH].
Qed.

(** The texts an opening consumes are [P], and a text starts with one of them at most. *)
Record opens_with (opening : regex) (P : string -> Prop) : Prop := {
  ow_sound : forall st st', Matches opening st st' -> exists t, adds st t [] st' /\ P t;
  ow_complete : forall t o s caps, P t -> exists o', Matches opening (St o (t ++ s) caps) (St o' s caps);
  ow_unique : forall t t' s s', P t -> P t' -> t ++ s = t' ++ s' -> t = t';
}.
Lemma lit_opens l : opens_with (rlit l) (eq l).
Proof.
  split; [intros st st' H%lit_matches; by exists l | intros t o s caps <-; apply lit_complete | by intros ? ? ? ? <- <-].
Qed.

Section Shortest.
Context {opening : regex} {P : string -> Prop} (Hopen : opens_with opening P).
Variables (name after : string).

Lemma shortest_match st e : st_caps st = [] -> match_at (shortest_pattern name opening after) st = Some e ->
  shortest_shape P after (st_rest st) (group name (st, e)).
Proof using Hopen.
  intros Hn He. unfold match_at, shortest_pattern in He. cbn [rseq rmatch] in He.
  apply rmatch_sound in He as (s1 & (before & [H1 C1] & HP)%(ow_sound _ _ Hopen) & He). destruct s1 as [o r caps]. cbn [st_rest st_caps app] in H1, C1. subst caps.
  apply lazy_loop in He as (t & rest & o' & E & Hk & Hs); [|apply Nat.lt_succ_diag_r]. cbn [st_rest] in E.
  apply rmatch_sound in Hk as (s2 & [H2 C2]%lit_matches & [= ->]). exists before, (st_rest e). unfold group. cbn [snd].
  cbn [capture st_rest st_caps st_prev app text_between] in H2, C2. rewrite C2. cbn [List.find fst]. rewrite String.eqb_refl.
  unfold text_between. cbn [st_rest]. rewrite E, len_append. replace (len t + len rest - len rest) with (len t) by lia. rewrite take_app.
  split; [by rewrite H1, E, H2|]. split; [done|]. intros v' post' E'. destruct (Nat.le_gt_cases (len t) (len v')) as [|Hlt]; [done|]. exfalso.
  rewrite <- H2, <- E in E'. destruct (Hs v' _ E' Hlt) as (o'' & Hk). revert Hk. apply rmatch_iff.
  subst r. rewrite E'. rewrite Hn, capture_text.
  destruct (lit_complete after o'' post' [(name, v')]) as (o3 & H3). by eexists.
Qed.
Lemma shortest_match_exists st w : shortest_shape P after (st_rest st) w -> succeeds (match_at (shortest_pattern name opening after) st).
Proof using Hopen.
  intros (before & post & E & HP & _). apply rmatch_iff. destruct st as [o r caps]. cbn [st_rest] in E. subst r.
  destruct (ow_complete _ _ Hopen before o (w ++ after ++ post) caps HP) as (o1 & H1).
  destruct (star_complete (fun _ => true) w o1 (after ++ post) caps) as (o2 & H2); [clear; induction w; auto|].
  destruct (lit_complete after o2 post ((name, w) :: caps)) as (o3 & H3).
  eexists. split; [|done]. econstructor; [exact H1|]. econstructor; [|econstructor; [exact H3 | constructor]].
  rewrite <- capture_text with (o := o1). constructor. by apply (star_order true).
Qed.

Lemma shortest_search s v :
  (exists m, re_search (shortest_pattern name opening after) s = Some m /\ group name m = v)
  <-> at_first (shortest_shape P after) s v.
Proof using Hopen.
  apply search_first; [apply shortest_match | apply shortest_match_exists|].
  intros rest w w' (before & post & E & HP & H) (before' & post' & E' & HP' & H'). rewrite E in E'.
  rewrite <- (ow_unique _ _ Hopen _ _ _ _ HP HP' E') in E'. apply append_inj in E'.
  pose proof (H _ _ E') as L1. pose proof (H' _ _ (eq_sym E')) as L2.
  assert (Ht : take_str (len w) (w ++ after ++ post) = w) by apply take_app.
  rewrite E' in Ht. replace (len w) with (len w') in Ht by lia. by rewrite take_app in Ht.
Qed.
End Shortest.
