(* ===== verification/PyFloat.v ===== *)
(** PyFloat: Python [float] as IEEE binary64, on the inductive [spec_float] of
    the Standard Library.  Reading a decimal is correctly rounded; comparing an
    [int] with a [float] is exact, as in CPython. *)
From S2P Require Import Prelude PyStr.
From Stdlib Require Import SpecFloat DecimalString.

Local Open Scope Z_scope.

Definition prec : Z := 53.
Definition emax : Z := 1024.

Abbreviation pyfloat := spec_float.

Definition fzero : pyfloat := S754_zero false.

(** [float(n)] without the overflow check, and with it. *)
Definition round_Z (n : Z) : pyfloat := binary_normalize prec emax n 0 false.
Definition isfinite (f : pyfloat) : bool :=
  match f with S754_zero _ | S754_finite _ _ _ => true | _ => false end.
Definition float_of_int (n : Z) : result pyfloat :=
  let f := round_Z n in
  if isfinite f then Ok f else raise OverflowError "int too large to convert to float".

(** Number of decimal digits of a nonnegative integer. *)
Definition num_digits (n : Z) : Z := Z.of_nat (String.length (str_Z n)).

(** [float] of the decimal (-1)^neg * d * 10^e, correctly rounded.  Outside
    10^-400 .. 10^400 the result is a zero or an infinity whatever the digits. *)
Definition float_of_decimal (neg : bool) (d e : Z) : pyfloat :=
  match d with
  | Z.pos p =>
      if num_digits d + e >? 400 then S754_infinity neg
      else if num_digits d + e <? -400 then S754_zero neg
      else if 0 <=? e then
        binary_normalize prec emax ((if neg then Z.neg p else Z.pos p) * 10 ^ e) 0 neg
      else
        match Z.pow 10 (- e) with
        | Z.pos q => SFdiv prec emax (S754_finite neg p 0) (S754_finite false q 0)
        | _ => S754_zero neg
        end
  | _ => S754_zero neg
  end.

(** Exact comparison of [f] with the integer [n]; [None] for a NaN. *)
Definition cmp_float_int (f : pyfloat) (n : Z) : option comparison :=
  match f with
  | S754_nan => None
  | S754_zero _ => Some (0 ?= n)
  | S754_infinity s => Some (if s then Lt else Gt)
  | S754_finite s m e =>
      let v := if s then Z.neg m else Z.pos m in
      if 0 <=? e then Some (v * 2 ^ e ?= n) else Some (v ?= n * 2 ^ (- e))
  end.

Definition float_eqb (f g : pyfloat) : bool :=
  match SFcompare f g with Some Eq => true | _ => false end.
Definition float_int_eqb (f : pyfloat) (n : Z) : bool :=
  match cmp_float_int f n with Some Eq => true | _ => false end.
(** [f >= 0]: false for a NaN. *)
Definition float_nonneg (f : pyfloat) : bool :=
  match cmp_float_int f 0 with Some Lt | None => false | _ => true end.

(** ** [repr(float)]: the shortest digits that read back as the same float. *)

(** |f| = num / den, exactly. *)
Definition float_frac (m : positive) (e : Z) : Z * Z :=
  if 0 <=? e then (Z.pos m * 2 ^ e, 1) else (Z.pos m, 2 ^ (- e)).

(** Round num/den half to even. *)
Definition round_div (num den : Z) : Z :=
  let q := num / den in
  let r := num mod den in
  if 2 * r <? den then q else if den <? 2 * r then q + 1
  else if Z.even q then q else q + 1.

(** The decimal exponent, 10^(x-1) <= num/den < 10^x: a lower bound from the
    binary logarithms (log10 2 > 30102/100000), then a short search upwards. *)
Definition dec_exponent_low (num den : Z) : Z :=
  ((Z.log2 num - Z.log2 den) * 30103) / 100000 - 2.

Fixpoint dec_exponent (n : nat) (x num den : Z) : Z :=
  match n with
  | O => x
  | S n =>
      let ge := if 0 <=? x then den * 10 ^ x <=? num else den <=? num * 10 ^ (- x) in
      if ge then dec_exponent n (x + 1) num den else x
  end.

(** The [k]-digit decimal nearest to num/den: digits and exponent of ten. *)
Definition nearest_digits (k x num den : Z) : Z * Z :=
  let e := x - k in
  if 0 <=? e then (round_div num (den * 10 ^ e), e) else (round_div (num * 10 ^ (- e)) den, e).

Fixpoint shortest (n : nat) (k x num den : Z) (f : pyfloat) : Z * Z :=
  let de := nearest_digits k x num den in
  match n with
  | O => de
  | S n =>
      let up := (fst de + 1, snd de) in
      if float_eqb (float_of_decimal false (fst de) (snd de)) f then de
      else if float_eqb (float_of_decimal false (fst up) (snd up)) f then up
      else shortest n (k + 1) x num den f
  end.

(** Drop trailing zeros of the digits. *)
Fixpoint trim_zeros (n : nat) (d e : Z) : Z * Z :=
  match n with
  | O => (d, e)
  | S n => if (d mod 10 =? 0) && negb (d =? 0) then trim_zeros n (d / 10) (e + 1) else (d, e)
  end.

Definition pad2 (s : string) : string :=
  if Nat.ltb (String.length s) 2 then String.append "0" s else s.

Local Open Scope string_scope.

(** The 'r' format: fixed notation for exponents -4 .. 16. *)
Definition format_repr (d e : Z) : string :=
  let ds := str_Z d in
  let decpt := (Z.of_nat (String.length ds) + e)%Z in
  if (-4 <? decpt)%Z && (decpt <=? 16)%Z then
    if (decpt <=? 0)%Z then "0." ++ repeat_str (Z.to_nat (- decpt)) "0" ++ ds
    else if (0 <=? e)%Z then ds ++ repeat_str (Z.to_nat e) "0" ++ ".0"
    else take_str (Z.to_nat decpt) ds ++ "." ++ drop_str (Z.to_nat decpt) ds
  else
    let x := (decpt - 1)%Z in
    take_str 1 ds ++ (if Nat.ltb 1 (String.length ds) then "." ++ drop_str 1 ds else "")
      ++ "e" ++ (if (x <? 0)%Z then "-" else "+") ++ pad2 (str_Z (Z.abs x)).

Definition float_repr (f : pyfloat) : string :=
  match f with
  | S754_nan => "nan"
  | S754_infinity s => if s then "-inf" else "inf"
  | S754_zero s => if s then "-0.0" else "0.0"
  | S754_finite s m e =>
      let nd := float_frac m e in
      let x := dec_exponent 6 (dec_exponent_low (fst nd) (snd nd)) (fst nd) (snd nd) in
      let de := shortest 17 1 x (fst nd) (snd nd) (S754_finite false m e) in
      let de := trim_zeros 20 (fst de) (snd de) in
      (if s then "-" else "") ++ format_repr (fst de) (snd de)
  end.

(** [json.dumps] of a float: [allow_nan=True] writes the three constants. *)
Definition float_dumps (f : pyfloat) : string :=
  match f with
  | S754_nan => "NaN"
  | S754_infinity s => if s then "-Infinity" else "Infinity"
  | _ => float_repr f
  end.
