(* ===== verification/PyJson.v ===== *)
(** PyJson: JSON values as Python objects ([json.loads], [json.dumps], [==],
    [dict.get], [str]), following the accelerated decoder of CPython 3.12.

    A [dict] is its list of items in insertion order; the decoder keeps the
    keys distinct, as [dict_set] does.  [JsonValue | None] is [json] with
    [JNull] for [None], so [get] cannot tell a missing key from a JSON null,
    exactly as [dict.get].
    The decoder recurses on a fuel that [loads] sets from the length of the
    text; [loads_raises] shows that it is enough.  CPython's recursion limit is not
    modelled. *)
From S2P Require Import Prelude PyStr PyFloat.
From Stdlib Require Import SpecFloat.

Local Open Scope string_scope.

Inductive json : Type :=
| JNull
| JBool (b : bool)
| JInt (z : Z)
| JFloat (f : pyfloat)
| JStr (s : string)
| JList (l : list json)
| JDict (d : list (string * json)).

Abbreviation jobject := (list (string * json)).

(** ** Access *)
Fixpoint jlookup (k : string) (d : jobject) : option json :=
  match d with
  | [] => None
  | (k', v) :: d => if String.eqb k k' then Some v else jlookup k d
  end.
(** [d.get(k)] *)
Definition get (d : jobject) (k : string) : json :=
  match jlookup k d with Some v => v | None => JNull end.
(** [d.get(k, default)] *)
Definition get_or (d : jobject) (k : string) (v : json) : json :=
  match jlookup k d with Some v => v | None => v end.
(** [k in d] *)
Definition has_key (k : string) (d : jobject) : bool :=
  match jlookup k d with Some _ => true | None => false end.
(** [d[k]] *)
Definition getitem (d : jobject) (k : string) : result json :=
  match jlookup k d with Some v => Ok v | None => raise KeyError k end.
Definition keys (d : jobject) : list string := map fst d.
(** [d[k] = v]: an existing key keeps its position. *)
Fixpoint dict_set (k : string) (v : json) (d : jobject) : jobject :=
  match d with
  | [] => [(k, v)]
  | (k', w) :: d => if String.eqb k k' then (k', v) :: d else (k', w) :: dict_set k v d
  end.

(** ** [isinstance] tests; [bool] is a subclass of [int]. *)
Definition is_bool (v : json) : bool := match v with JBool _ => true | _ => false end.
Definition is_dict (v : json) : bool := match v with JDict _ => true | _ => false end.
Definition is_list (v : json) : bool := match v with JList _ => true | _ => false end.
Definition is_str (v : json) : bool := match v with JStr _ => true | _ => false end.
(** [isinstance(v, int)] with the value. *)
Definition as_int (v : json) : option Z :=
  match v with JBool b => Some (Z.b2z b) | JInt z => Some z | _ => None end.
Definition is_int (v : json) : bool := match as_int v with Some _ => true | None => false end.
(** [v is None], [v is True], [v is False] *)
Definition is_none (v : json) : bool := match v with JNull => true | _ => false end.
Definition is_true (v : json) : bool := match v with JBool true => true | _ => false end.
Definition is_false (v : json) : bool := match v with JBool false => true | _ => false end.

(** ** [==]: numbers compare by value across [bool], [int] and [float];
    dicts compare without regard to order. *)
Definition num_eqb (a b : json) : bool :=
  match a, b with
  | JFloat f, JFloat g => float_eqb f g
  | JFloat f, _ => match as_int b with Some n => float_int_eqb f n | None => false end
  | _, JFloat g => match as_int a with Some n => float_int_eqb g n | None => false end
  | _, _ => match as_int a, as_int b with Some m, Some n => Z.eqb m n | _, _ => false end
  end.

Fixpoint py_eq (a b : json) : bool :=
  match a, b with
  | JNull, JNull => true
  | JStr s, JStr t => String.eqb s t
  | JList xs, JList ys =>
      (fix list_eq (xs ys : list json) : bool :=
         match xs, ys with
         | [], [] => true
         | x :: xs, y :: ys => py_eq x y && list_eq xs ys
         | _, _ => false
         end) xs ys
  | JDict d, JDict e =>
      Nat.eqb (List.length d) (List.length e) &&
      (fix dict_sub (d : jobject) : bool :=
         match d with
         | [] => true
         | (k, v) :: d =>
             match jlookup k e with Some w => py_eq v w | None => false end && dict_sub d
         end) d
  | (JBool _ | JInt _ | JFloat _), _ => num_eqb a b
  | _, _ => false
  end.

(** [v in {strings}]: a list or a dict is unhashable. *)
Definition in_set (v : json) (l : list string) : result bool :=
  match v with
  | JList _ => raise TypeError "unhashable type: 'list'"
  | JDict _ => raise TypeError "unhashable type: 'dict'"
  | JStr s => Ok (mem s l)
  | _ => Ok false
  end.

(** ** [str] and [repr] *)
Definition hex_digit (n : N) : ascii :=
  if (n <? 10)%N then ascii_of_N (48 + n) else ascii_of_N (87 + n).
Definition hex2 (c : ascii) : string :=
  String (hex_digit (code c / 16)) (String (hex_digit (code c mod 16)) "").

Definition chr (n : N) : string := String (ascii_of_N n) "".
Definition dquote : ascii := ascii_of_N 34.
Definition backslash : string := chr 92.

Definition repr_char (q : ascii) (c : ascii) : string :=
  let n := code c in
  if Ascii.eqb c q || (n =? 92)%N then backslash ++ String c ""
  else if (n =? 10)%N then backslash ++ "n"
  else if (n =? 13)%N then backslash ++ "r"
  else if (n =? 9)%N then backslash ++ "t"
  else if (n <? 32)%N || between 127 160 c || (n =? 173)%N then backslash ++ "x" ++ hex2 c
  else String c "".
Fixpoint concat_map_str (f : ascii -> string) (s : string) : string :=
  match s with "" => "" | String c s => f c ++ concat_map_str f s end.
Definition repr_str (s : string) : string :=
  let q := if any_char (Ascii.eqb (ascii_of_N 39)) s && negb (any_char (Ascii.eqb dquote) s)
           then dquote else ascii_of_N 39 in
  String q "" ++ concat_map_str (repr_char q) s ++ String q "".

Fixpoint py_repr (v : json) : string :=
  match v with
  | JNull => "None"
  | JBool b => if b then "True" else "False"
  | JInt z => str_Z z
  | JFloat f => float_repr f
  | JStr s => repr_str s
  | JList l => "[" ++ join ", " (map py_repr l) ++ "]"
  | JDict d => "{" ++ join ", " (map (fun kv => repr_str (fst kv) ++ ": " ++ py_repr (snd kv)) d) ++ "}"
  end.
Definition py_str (v : json) : string := match v with JStr s => s | _ => py_repr v end.

(** ** [json.dumps] with the default separators and [ensure_ascii] *)
Definition dumps_char (c : ascii) : string :=
  let n := code c in
  if (n =? 34)%N || (n =? 92)%N then backslash ++ String c ""
  else if (n =? 10)%N then backslash ++ "n"
  else if (n =? 13)%N then backslash ++ "r"
  else if (n =? 9)%N then backslash ++ "t"
  else if (n =? 12)%N then backslash ++ "f"
  else if (n =? 8)%N then backslash ++ "b"
  else if between 32 126 c then String c ""
  else backslash ++ "u00" ++ hex2 c.
Definition dumps_str (s : string) : string := chr 34 ++ concat_map_str dumps_char s ++ chr 34.

Fixpoint dumps (v : json) : string :=
  match v with
  | JNull => "null"
  | JBool b => if b then "true" else "false"
  | JInt z => str_Z z
  | JFloat f => float_dumps f
  | JStr s => dumps_str s
  | JList l => "[" ++ join ", " (map dumps l) ++ "]"
  | JDict d => "{" ++ join ", " (map (fun kv => dumps_str (fst kv) ++ ": " ++ dumps (snd kv)) d) ++ "}"
  end.

(** [json.dumps(v, indent=2)] at nesting depth [lvl]. *)
Definition indent_at (lvl : nat) : string := chr 10 ++ repeat_str lvl "  ".

Fixpoint dumps_indent (lvl : nat) (v : json) {struct v} : string :=
  match v with
  | JList [] => "[]"
  | JList l =>
      "[" ++ indent_at (S lvl) ++ join ("," ++ indent_at (S lvl)) (map (dumps_indent (S lvl)) l)
        ++ indent_at lvl ++ "]"
  | JDict [] => "{}"
  | JDict d =>
      "{" ++ indent_at (S lvl)
        ++ join ("," ++ indent_at (S lvl))
             (map (fun kv => match kv with (k, v) => dumps_str k ++ ": " ++ dumps_indent (S lvl) v end) d)
        ++ indent_at lvl ++ "}"
  | _ => dumps v
  end.

(** [sort_keys=True] *)
Fixpoint insert_item (kv : string * json) (d : jobject) : jobject :=
  match d with
  | [] => [kv]
  | kv' :: d' => if String.leb (fst kv) (fst kv') then kv :: d else kv' :: insert_item kv d'
  end.
Fixpoint sort_keys (v : json) : json :=
  match v with
  | JList l => JList (map sort_keys l)
  | JDict d => JDict (fold_right insert_item [] (map (fun kv => (fst kv, sort_keys (snd kv))) d))
  | _ => v
  end.

(** ** [json.loads] *)
Definition json_error (msg doc : string) (pos : nat) : pyexn := Exn JSONDecodeError msg (Some (doc, pos)).
Definition stop_iteration (doc : string) (pos : nat) : pyexn := Exn StopIteration "" (Some (doc, pos)).

(** [parse_constant]: what [loads] does with NaN, Infinity and -Infinity. *)
Definition const_hook : Type := string -> result json.
Definition default_constant : const_hook := fun name =>
  Ok (JFloat (if String.eqb name "NaN" then S754_nan
              else S754_infinity (String.eqb name "-Infinity"))).

Definition is_ws (c : ascii) : bool :=
  let n := code c in (n =? 32)%N || (n =? 9)%N || (n =? 10)%N || (n =? 13)%N.
Fixpoint skip_ws (s : string) : string :=
  match s with "" => "" | String c r => if is_ws c then skip_ws r else s end.

Definition hex_val (c : ascii) : option N :=
  if is_digit c then Some (code c - 48)%N
  else if between 97 102 c then Some (code c - 87)%N
  else if between 65 70 c then Some (code c - 55)%N
  else None.

Definition simple_escape (c : ascii) : option ascii :=
  let n := code c in
  if (n =? 34)%N || (n =? 92)%N || (n =? 47)%N then Some c
  else if (n =? 98)%N then Some (ascii_of_N 8)
  else if (n =? 102)%N then Some (ascii_of_N 12)
  else if (n =? 110)%N then Some (ascii_of_N 10)
  else if (n =? 114)%N then Some (ascii_of_N 13)
  else if (n =? 116)%N then Some (ascii_of_N 9)
  else None.

Section Decoder.
Variable doc : string.
Variable hook : const_hook.

(** The offset of a suffix [s] of the document. *)
Definition pos_of (s : string) : nat := len doc - len s.

(** After backslash-u at [at_]: four hexadecimal digits. *)
Definition unicode_escape (s : string) : result (ascii * string) :=
  match s with
  | String a (String b (String c (String d (String _ _ as rest)))) =>
      match hex_val a, hex_val b, hex_val c, hex_val d with
      | Some x, Some y, Some z, Some w =>
          let n := (4096 * x + 256 * y + 16 * z + w)%N in
          if (n <? 256)%N then Ok (ascii_of_N n, rest)
          else raise OutsideModel "code point above U+00FF"
      | _, _, _, _ => Err (json_error "Invalid \uXXXX escape" doc (pos_of s - 1))
      end
  | _ => Err (json_error "Invalid \uXXXX escape" doc (pos_of s))
  end.

(** The characters of a string literal up to the closing quote; [begin] is
    the offset of the opening one. *)
Fixpoint scan_string (fuel : nat) (begin : nat) (s : string) : result (string * string) :=
  match fuel with
  | 0 => raise OutOfFuel ""
  | S fuel =>
      match s with
      | "" => Err (json_error "Unterminated string starting at" doc begin)
      | String c r =>
          if (code c =? 34)%N then Ok ("", r)
          else if (code c <? 32)%N then Err (json_error "Invalid control character at" doc (pos_of s))
          else if (code c =? 92)%N then
            match r with
            | "" => Err (json_error "Unterminated string starting at" doc begin)
            | String e r' =>
                if (code e =? 117)%N then
                  let* (x, r'') := unicode_escape r' in
                  let* (t, r''') := scan_string fuel begin r'' in Ok (String x t, r''')
                else match simple_escape e with
                     | Some x => let* (t, r'') := scan_string fuel begin r' in Ok (String x t, r'')
                     | None => Err (json_error "Invalid \escape" doc (pos_of s))
                     end
            end
          else let* (t, r') := scan_string fuel begin r in Ok (String c t, r')
      end
  end.

Fixpoint take_digits (s : string) : string * string :=
  match s with
  | String c r => if is_digit c then let (d, t) := take_digits r in (String c d, t) else ("", s)
  | "" => ("", "")
  end.

(** The integer part: a single 0, or digits that do not start with 0. *)
Definition int_part (s : string) : option (string * string) :=
  match s with
  | String c r =>
      if (code c =? 48)%N then Some ("0", r)
      else if is_digit c then Some (take_digits s) else None
  | "" => None
  end.
Definition frac_part (s : string) : option (string * string) :=
  match s with
  | String c r =>
      if (code c =? 46)%N then
        match take_digits r with ("", _) => None | (d, t) => Some (d, t) end
      else None
  | "" => None
  end.
Definition exp_part (s : string) : option (Z * string) :=
  match s with
  | String c r =>
      if (code c =? 101)%N || (code c =? 69)%N then
        let (neg, r) := match r with
                        | String d t => if (code d =? 45)%N then (true, t)
                                        else if (code d =? 43)%N then (false, t) else (false, r)
                        | "" => (false, r)
                        end in
        match take_digits r with
        | ("", _) => None
        | (d, t) => let e := dec_value 0 d in Some ((if neg : bool then - e else e)%Z, t)
        end
      else None
  | "" => None
  end.

Definition scan_number (s : string) : result (json * string) :=
  let (neg, r) := match s with
                  | String c t => if (code c =? 45)%N then (true, t) else (false, s)
                  | "" => (false, s)
                  end in
  match int_part r with
  | None => Err (stop_iteration doc (pos_of s))
  | Some (i, r) =>
      let f := frac_part r in
      let r' := match f with Some (_, t) => t | None => r end in
      let e := exp_part r' in
      let r'' := match e with Some (_, t) => t | None => r' end in
      match f, e with
      | None, None =>
          let* z := int_of_digits i in
          Ok (JInt (if neg : bool then - z else z)%Z, r'')
      | _, _ =>
          let fd := match f with Some (d, _) => d | None => "" end in
          let x := match e with Some (x, _) => x | None => 0%Z end in
          Ok (JFloat (float_of_decimal neg (dec_value 0 (i ++ fd)) (x - Z.of_nat (len fd))), r'')
      end
  end.

(** A [StopIteration] inside a container is reported as a missing value. *)
Definition expecting_value (m : result (json * string)) : result (json * string) :=
  catch m (fun e =>
    if decide (exn_cls e = StopIteration)
    then Some (Err (Exn JSONDecodeError "Expecting value" (exn_at e))) else None).

Fixpoint scan_once (fuel : nat) (s : string) {struct fuel} : result (json * string) :=
  match fuel with
  | 0 => raise OutOfFuel ""
  | S fuel =>
      match s with
      | "" => Err (stop_iteration doc (pos_of s))
      | String c r =>
          if (code c =? 34)%N then
            let* (t, r') := scan_string (S (len r)) (pos_of s) r in Ok (JStr t, r')
          else if (code c =? 123)%N then
            match skip_ws r with
            | String d r' => if (code d =? 125)%N then Ok (JDict [], r')
                             else scan_members fuel [] (String d r')
            | "" => scan_members fuel [] ""
            end
          else if (code c =? 91)%N then
            match skip_ws r with
            | String d r' => if (code d =? 93)%N then Ok (JList [], r')
                             else scan_items fuel (String d r')
            | "" => scan_items fuel ""
            end
          else if startswith s "null" then Ok (JNull, drop_str 4 s)
          else if startswith s "true" then Ok (JBool true, drop_str 4 s)
          else if startswith s "false" then Ok (JBool false, drop_str 5 s)
          else if startswith s "NaN" then let* v := hook "NaN" in Ok (v, drop_str 3 s)
          else if startswith s "Infinity" then let* v := hook "Infinity" in Ok (v, drop_str 8 s)
          else if startswith s "-Infinity" then let* v := hook "-Infinity" in Ok (v, drop_str 9 s)
          else scan_number s
      end
  end
(** The members of an object, from a key on; [acc] is the dict built so far. *)
with scan_members (fuel : nat) (acc : jobject) (s : string) {struct fuel} : result (json * string) :=
  match fuel with
  | 0 => raise OutOfFuel ""
  | S fuel =>
      match s with
      | String c r =>
          if (code c =? 34)%N then
            let* (k, r) := scan_string (S (len r)) (pos_of s) r in
            match skip_ws r with
            | String c1 r1 as s1 =>
                if (code c1 =? 58)%N then
                  let* (v, r2) := expecting_value (scan_once fuel (skip_ws r1)) in
                  let acc := dict_set k v acc in
                  match skip_ws r2 with
                  | String c3 r3 as s3 =>
                      if (code c3 =? 125)%N then Ok (JDict acc, r3)
                      else if (code c3 =? 44)%N then scan_members fuel acc (skip_ws r3)
                      else Err (json_error "Expecting ',' delimiter" doc (pos_of s3))
                  | "" => Err (json_error "Expecting ',' delimiter" doc (pos_of ""))
                  end
                else Err (json_error "Expecting ':' delimiter" doc (pos_of s1))
            | "" => Err (json_error "Expecting ':' delimiter" doc (pos_of ""))
            end
          else Err (json_error "Expecting property name enclosed in double quotes" doc (pos_of s))
      | "" => Err (json_error "Expecting property name enclosed in double quotes" doc (pos_of s))
      end
  end
with scan_items (fuel : nat) (s : string) {struct fuel} : result (json * string) :=
  match fuel with
  | 0 => raise OutOfFuel ""
  | S fuel =>
      let* (v, r) := expecting_value (scan_once fuel s) in
      match skip_ws r with
      | String c r' as s' =>
          if (code c =? 93)%N then Ok (JList [v], r')
          else if (code c =? 44)%N then
            let* (rest, r'') := scan_items fuel (skip_ws r') in
            match rest with
            | JList vs => Ok (JList (v :: vs), r'')
            | _ => Ok (rest, r'')
            end
          else Err (json_error "Expecting ',' delimiter" doc (pos_of s'))
      | "" => Err (json_error "Expecting ',' delimiter" doc (pos_of ""))
      end
  end.

Definition loads_fuel_of (s : string) : nat := 2 * len s + 4.

Definition loads_doc : result json :=
  let s := skip_ws doc in
  let* (v, r) := expecting_value (scan_once (loads_fuel_of s) s) in
  match skip_ws r with
  | "" => Ok v
  | String _ _ as r' => Err (json_error "Extra data" doc (pos_of r'))
  end.
End Decoder.

(** [json.loads(s, parse_constant=hook)] and [json.loads(s)] *)
Definition loads_with (hook : const_hook) (s : string) : result json := loads_doc s hook.
Definition loads (s : string) : result json := loads_with default_constant s.

(** ** [str(exc)] *)
Fixpoint line_col (n : nat) (s : string) (line col : nat) : nat * nat :=
  match n, s with
  | S n, String c s => if (code c =? 10)%N then line_col n s (S line) 1 else line_col n s line (S col)
  | _, _ => (line, col)
  end.
Definition exn_str (e : pyexn) : string :=
  match exn_at e with
  | Some (doc, pos) =>
      let (line, col) := line_col pos doc 1 1 in
      exn_msg e ++ ": line " ++ str_nat line ++ " column " ++ str_nat col
        ++ " (char " ++ str_nat pos ++ ")"
  | None => exn_msg e
  end.
Definition exn_pos (e : pyexn) : nat := match exn_at e with Some (_, p) => p | None => 0 end.

(** ** Literals: [jobj] writes the dict display of the source. *)
Definition jstrs (l : list string) : json := JList (map JStr l).

(** ** Reading values *)
Section JsonInd.
Variable P : json -> Prop.
Hypothesis Hnull : P JNull.
Hypothesis Hbool : forall b, P (JBool b).
Hypothesis Hint : forall z, P (JInt z).
Hypothesis Hfloat : forall f, P (JFloat f).
Hypothesis Hstr : forall s, P (JStr s).
Hypothesis Hlist : forall l, Forall P l -> P (JList l).
Hypothesis Hdict : forall d, Forall (fun kv => P (snd kv)) d -> P (JDict d).

Fixpoint json_nested_ind (v : json) : P v :=
  match v with
  | JNull => Hnull
  | JBool b => Hbool b
  | JInt z => Hint z
  | JFloat f => Hfloat f
  | JStr s => Hstr s
  | JList l => Hlist l ((fix go (l : list json) : Forall P l :=
      match l with [] => Forall_nil_2 _ | v :: l => Forall_cons_2 _ _ _ (json_nested_ind v) (go l) end) l)
  | JDict d => Hdict d ((fix go (d : jobject) : Forall (fun kv => P (snd kv)) d :=
      match d with
      | [] => Forall_nil_2 _
      | kv :: d => Forall_cons_2 _ _ _ (json_nested_ind (snd kv)) (go d)
      end) d)
  end.
End JsonInd.

Lemma py_eq_str v s : py_eq v (JStr s) = true <-> v = JStr s.
Proof.
  destruct v; simpl; try (split; congruence).
  rewrite String.eqb_eq. split; congruence.
Qed.
Lemma py_eq_int v n : py_eq v (JInt n) = true <->
  as_int v = Some n \/ exists f, v = JFloat f /\ float_int_eqb f n = true.
Proof.
  destruct v as [|b|z|f|s|l|d]; simpl; rewrite ?Z.eqb_eq;
    try (split; [discriminate|intros [[=]|(? & [=] & _)]]).
  - split; [intros <-; by left | intros [[= ->]|(? & [=] & _)]; done].
  - split; [intros ->; by left | intros [[= ->]|(? & [=] & _)]; done].
  - split; [intros H; right; by exists f | intros [[=]|(? & [= <-] & H)]; done].
Qed.
Lemma py_eq_bool v b : is_bool v = true -> py_eq v (JBool b) = true <-> v = JBool b.
Proof. destruct v as [|[]| | | | |]; try done; intros _; destruct b; simpl; split; (done || congruence). Qed.
Lemma is_true_iff v : is_true v = true <-> v = JBool true.
Proof. destruct v; try (simpl; split; congruence). destruct b; simpl; split; congruence. Qed.
Lemma is_false_iff v : is_false v = true <-> v = JBool false.
Proof. destruct v; try (simpl; split; congruence). destruct b; simpl; split; congruence. Qed.
Lemma is_int_iff v : is_int v = true <-> exists n, as_int v = Some n.
Proof. unfold is_int. destruct (as_int v); naive_solver. Qed.
Lemma in_set_ok v l b : in_set v l = Ok b -> b = true <-> exists s, v = JStr s /\ In s l.
Proof.
  destruct v; simpl; try done; try (intros [= <-]; naive_solver).
  intros [= <-]. rewrite mem_In. naive_solver.
Qed.
Lemma getitem_ok d k v : getitem d k = Ok v <-> jlookup k d = Some v.
Proof. unfold getitem. destruct (jlookup k d); simpl; split; (congruence || discriminate). Qed.
Lemma getitem_get d k v : getitem d k = Ok v -> get d k = v.
Proof. rewrite getitem_ok. unfold get. by intros ->. Qed.
Lemma jlookup_In k d v : jlookup k d = Some v -> In (k, v) d.
Proof.
  induction d as [|[k' w] d IH]; simpl; [done|].
  destruct (String.eqb_spec k k') as [->|]; [intros [= ->]; by left | right; by apply IH].
Qed.
Lemma has_key_iff k d : has_key k d = true <-> In k (keys d).
Proof.
  unfold has_key, keys. induction d as [|[k' w] d IH]; simpl; [done|].
  destruct (String.eqb_spec k k') as [->|Hk].
  - split; [by left | done].
  - rewrite IH. split; [by right | intros [->|]; done].
Qed.
Lemma get_not_null d k : get d k <> JNull -> In k (keys d).
Proof. rewrite <- has_key_iff. unfold get, has_key. by destruct (jlookup k d). Qed.

#[export] Hint Rewrite py_eq_str is_true_iff is_false_iff getitem_ok : pyok.

(** ** What occurs in a value, at any depth *)
Inductive KeyIn (k : string) : json -> Prop :=
| KeyIn_here d v : In (k, v) d -> KeyIn k (JDict d)
| KeyIn_dict d k' v : In (k', v) d -> KeyIn k v -> KeyIn k (JDict d)
| KeyIn_list l v : In v l -> KeyIn k v -> KeyIn k (JList l).

Inductive TextIn (s : string) : json -> Prop :=
| TextIn_here : TextIn s (JStr s)
| TextIn_dict d k v : In (k, v) d -> TextIn s v -> TextIn s (JDict d)
| TextIn_list l v : In v l -> TextIn s v -> TextIn s (JList l).

(** Every key satisfies [K] and every text satisfies [T]. *)
Definition Clean (K T : string -> Prop) (v : json) : Prop :=
  (forall k, KeyIn k v -> K k) /\ (forall s, TextIn s v -> T s).

Section Clean.
Variables K T : string -> Prop.

Lemma clean_str s : Clean K T (JStr s) <-> T s.
Proof.
  split; [intros [_ H]; apply H; constructor|].
  intros H. split; [inversion 1 | by inversion 1; subst].
Qed.
Lemma clean_list l : Clean K T (JList l) <-> Forall (Clean K T) l.
Proof.
  rewrite Forall_forall. setoid_rewrite list_elem_of_In. split.
  - intros [HK HT] v Hv. split; [intros k Hk; apply HK | intros s Hs; apply HT]; econstructor; eauto.
  - intros H. split; inversion 1; subst; eapply H; eauto.
Qed.
Lemma clean_dict d : Clean K T (JDict d) <-> Forall (fun kv => K (fst kv) /\ Clean K T (snd kv)) d.
Proof.
  rewrite Forall_forall. setoid_rewrite list_elem_of_In. split.
  - intros [HK HT] [k v] Hv. split; [apply HK; by econstructor|].
    split; [intros k' Hk; apply HK; eapply KeyIn_dict; eauto | intros s Hs; apply HT; eapply TextIn_dict; eauto].
  - intros H. split.
    + inversion 1 as [? v Hin|? k' v Hin Hk|]; subst; apply H in Hin as [HK [HC _]]; [done | by apply HC].
    + inversion 1 as [|? k v Hin Hs|]; subst. apply H in Hin as [_ [_ HC]]. by apply HC.
Qed.
Lemma clean_scalar v : match v with JStr _ | JList _ | JDict _ => False | _ => True end -> Clean K T v.
Proof. destruct v; try done; intros _; split; inversion 1. Qed.
End Clean.

(** The same with the value of each key, for walks that enter the values of some
    keys only ([Q]). *)
Inductive EntryAt (Q : string -> Prop) (k : string) (v : json) : json -> Prop :=
| EntryAt_here d : In (k, v) d -> EntryAt Q k v (JDict d)
| EntryAt_dict d k' w : In (k', w) d -> Q k' -> EntryAt Q k v w -> EntryAt Q k v (JDict d)
| EntryAt_list l w : In w l -> EntryAt Q k v w -> EntryAt Q k v (JList l).

Inductive TextAt (Q : string -> Prop) (s : string) : json -> Prop :=
| TextAt_here : TextAt Q s (JStr s)
| TextAt_dict d k v : In (k, v) d -> Q k -> TextAt Q s v -> TextAt Q s (JDict d)
| TextAt_list l v : In v l -> TextAt Q s v -> TextAt Q s (JList l).

Definition CleanAt (Q : string -> Prop) (E : string -> json -> Prop) (T : string -> Prop) (v : json) : Prop :=
  (forall k w, EntryAt Q k w v -> E k w) /\ (forall s, TextAt Q s v -> T s).

Section CleanAt.
Variables (Q : string -> Prop) (E : string -> json -> Prop) (T : string -> Prop).

Lemma clean_at_str s : CleanAt Q E T (JStr s) <-> T s.
Proof.
  split; [intros [_ H]; apply H; constructor|].
  intros H. split; [inversion 1 | by inversion 1; subst].
Qed.
Lemma clean_at_list l : CleanAt Q E T (JList l) <-> Forall (CleanAt Q E T) l.
Proof.
  rewrite Forall_forall. setoid_rewrite list_elem_of_In. split.
  - intros [HE HT] v Hv. split; [intros k w Hk; apply HE | intros s Hs; apply HT]; econstructor; eauto.
  - intros H. split; inversion 1; subst; eapply H; eauto.
Qed.
Lemma clean_at_dict d :
  CleanAt Q E T (JDict d) <-> Forall (fun kv => E (fst kv) (snd kv) /\ (Q (fst kv) -> CleanAt Q E T (snd kv))) d.
Proof.
  rewrite Forall_forall. setoid_rewrite list_elem_of_In. split.
  - intros [HE HT] [k v] Hv. split; [apply HE; by constructor|]. intros Hq.
    split; [intros k' w Hk; apply HE; eapply EntryAt_dict; eauto | intros s Hs; apply HT; eapply TextAt_dict; eauto].
  - intros H. split.
    + inversion 1 as [? Hin|? k' v Hin Hq Hk|]; subst; apply H in Hin as [HK HC]; [done | by apply HC].
    + inversion 1 as [|? k v Hin Hq Hs|]; subst. apply H in Hin as [_ HC]. by apply HC.
Qed.
Lemma clean_at_scalar v : match v with JStr _ | JList _ | JDict _ => False | _ => True end -> CleanAt Q E T v.
Proof. destruct v; try done; intros _; split; inversion 1. Qed.
End CleanAt.

(** A list of texts. *)
Lemma texts_iff (Q : string -> Prop) l :
  Forall (fun v => exists s, v = JStr s /\ Q s) l <-> exists ss, JList l = jstrs ss /\ Forall Q ss.
Proof.
  unfold jstrs. split.
  - induction 1 as [|v l (s & -> & Hs) _ (ss & [= ->] & Hss)]; [by exists []|]. exists (s :: ss). split; [done | by constructor].
  - intros (ss & [= ->] & H). induction H as [|s ss Hs _ IH]; simpl; constructor; [by exists s | done].
Qed.

(** ** JSONL: one object per line that is not blank *)
Section Jsonl.
Variables (parse : nat -> list string -> result (list jobject)) (decode : nat -> string -> result json).
Variable reads : string -> json -> Prop.
Hypothesis decode_ok : forall i line v, decode i line = Ok v <-> reads line v.
Hypothesis parse_nil : forall i, parse i [] = Ok [].
Hypothesis parse_blank : forall i line lines,
  String.eqb (strip line) "" = true -> parse i (line :: lines) = parse (S i) lines.
Hypothesis parse_line : forall i line lines rows, String.eqb (strip line) "" = false ->
  parse i (line :: lines) = Ok rows <->
  exists d rest, decode i line = Ok (JDict d) /\ parse (S i) lines = Ok rest /\ rows = d :: rest.

Lemma jsonl_ok i lines rows :
  parse i lines = Ok rows <->
  Forall2 (fun line d => reads line (JDict d))
    (List.filter (fun line => negb (String.eqb (strip line) "")) lines) rows.
Proof.
  revert i rows. induction lines as [|line lines IH]; intros i rows.
  - rewrite parse_nil. split; [intros [= <-]; constructor | by inversion 1].
  - destruct (String.eqb (strip line) "") eqn:E; cbn [List.filter]; rewrite E; cbn [negb].
    + by rewrite parse_blank.
    + rewrite parse_line by done. setoid_rewrite decode_ok. split.
      * intros (d & rest & Hd & Hr%IH & ->). by constructor.
      * inversion 1 as [|? d ? rest Hd Hr]; subst. exists d, rest. split; [done|]. split; [by apply IH | done].
Qed.
End Jsonl.

(** The branch of such a loop that decodes a line. *)
Lemma jsonl_line {B} (decoded : result json) (rest : result (list B)) (fails : json -> result (list B)) (mk : jobject -> B)
    (rows : list B) :
  (forall v b, fails v <> Ok b) ->
  (let* raw := decoded in
   match raw with JDict d => let* r := rest in Ok (mk d :: r) | _ => fails raw end) = Ok rows <->
  exists d r, decoded = Ok (JDict d) /\ rest = Ok r /\ rows = mk d :: r.
Proof.
  intros Hf. rewrite bind_ok. split.
  - intros ([| | | | | |d] & Hd & H); try (by apply Hf in H).
    apply bind_ok in H as (r & Hr & [= <-]). by exists d, r.
  - intros (d & r & Hd & Hr & ->). exists (JDict d). split; [done|]. apply bind_ok. by exists r.
Qed.

(** ** The decoder: which exceptions it raises, and that its fuel is enough *)
Lemma len_skip_ws s : len (skip_ws s) <= len s.
Proof.
  induction s as [|c s IH]; simpl; [done|]. destruct (is_ws c); [|done].
  change (len (String c s)) with (S (len s)). lia.
Qed.
Lemma len_drop_str n s : len (drop_str n s) = len s - n.
Proof.
  revert s. induction n as [|n IH]; intros [|c s]; [done | done | done | apply IH].
Qed.
Lemma take_digits_len s d t : take_digits s = (d, t) -> len d + len t = len s.
Proof.
  revert d t. induction s as [|c s IH]; intros d t; simpl; [by intros [= <- <-]|].
  destruct (is_digit c); [|by intros [= <- <-]].
  destruct (take_digits s) as [d' t'] eqn:E. intros [= <- <-]. specialize (IH _ _ eq_refl).
  unfold len in *. simpl. lia.
Qed.

Section DecoderBounds.
Variable doc : string.
Variable hook : const_hook.
Variable P : exn_class -> Prop.
Hypothesis P_json : P JSONDecodeError.
Hypothesis P_value : P ValueError.
Hypothesis P_outside : P OutsideModel.
Hypothesis P_hook : forall name, raises P (hook name).

(** A scanner consumes input and raises only [P] or [StopIteration]. *)
Definition scans {A} (n : nat) (m : result (A * string)) : Prop :=
  match m with
  | Ok (_, r) => len r < n
  | Err e => P (exn_cls e) \/ exn_cls e = StopIteration
  end.

Lemma scans_bind {A B} n n' (m : result (A * string)) (k : A * string -> result (B * string)) :
  scans n m -> (forall a r, len r < n -> scans n' (k (a, r))) -> scans n' (bind m k).
Proof. intros Hm Hk. destruct m as [[a r]|e]; simpl in *; [by apply Hk | done]. Qed.

Lemma scans_weaken {A} n n' (m : result (A * string)) : n <= n' -> scans n m -> scans n' m.
Proof. destruct m as [[a r]|e]; simpl; [lia | done]. Qed.

Lemma unicode_escape_scans s : scans (len s) (unicode_escape doc s).
Proof.
  unfold unicode_escape.
  destruct s as [|a [|b [|c [|d [|x s]]]]]; simpl; try (by left).
  destruct (hex_val a); [|by left]. destruct (hex_val b); [|by left].
  destruct (hex_val c); [|by left]. destruct (hex_val d); [|by left].
  destruct (_ <? 256)%N; simpl; [|by left]. unfold len. simpl. lia.
Qed.

Lemma scan_string_scans fuel begin s : len s < fuel -> scans (len s) (scan_string doc fuel begin s).
Proof.
  revert s. induction fuel as [|fuel IH]; intros s Hf; [lia|]. simpl.
  destruct s as [|c r]; [by left|]. change (len (String c r)) with (S (len r)) in *.
  destruct (code c =? 34)%N; [simpl; lia|]. destruct (code c <? 32)%N; [by left|].
  destruct (code c =? 92)%N.
  - destruct r as [|e r]; [by left|]. change (len (String e r)) with (S (len r)) in *.
    destruct (code e =? 117)%N.
    + eapply scans_bind; [apply unicode_escape_scans|]. intros x r'' Hr.
      eapply scans_bind; [apply IH; lia|]. intros t r''' Ht. simpl. lia.
    + destruct (simple_escape e); [|by left].
      eapply scans_bind; [apply IH; lia|]. intros t r' Ht. simpl. lia.
  - eapply scans_bind; [apply IH; lia|]. intros t r' Ht. simpl. lia.
Qed.

Lemma frac_part_len s d t : frac_part s = Some (d, t) -> len t <= len s.
Proof.
  destruct s as [|c s]; simpl; [done|]. destruct (code c =? 46)%N; [|done].
  destruct (take_digits s) as [[|x d'] t'] eqn:E; [done|]. intros [= <- <-].
  apply take_digits_len in E. unfold len in *; simpl in *. lia.
Qed.
Lemma exp_part_len s x t : exp_part s = Some (x, t) -> len t <= len s.
Proof.
  destruct s as [|c s]; simpl; [done|]. destruct (_ || _); [|done].
  assert (H : forall neg r, len r <= len s ->
    match take_digits r with
    | ("", _) => None
    | (d, t) => let e := dec_value 0 d in Some ((if neg : bool then - e else e)%Z, t)
    end = Some (x, t) -> len t <= len (String c s)).
  { intros neg r Hr. destruct (take_digits r) as [[|y d'] t'] eqn:E; [done|]. intros [= _ <-].
    apply take_digits_len in E. unfold len in *; simpl in *. lia. }
  destruct s as [|d s]; [by apply (H false)|].
  destruct (code d =? 45)%N; [apply (H true); unfold len; simpl; lia|].
  destruct (code d =? 43)%N; apply (H false); unfold len; simpl; lia.
Qed.

Lemma int_part_len s i t : int_part s = Some (i, t) -> len t < len s.
Proof.
  destruct s as [|c s]; simpl; [done|].
  destruct (code c =? 48)%N; [intros [= _ <-]; unfold len; simpl; lia|].
  destruct (is_digit c) eqn:Hd; [|done].
  destruct (take_digits s) as [d' t'] eqn:E. intros [= _ <-].
  apply take_digits_len in E. unfold len in *; simpl in *. lia.
Qed.

Lemma int_of_digits_raises s : raises P (int_of_digits s).
Proof. unfold int_of_digits. solve_raises. Qed.

Lemma scan_number_scans s : scans (len s) (scan_number doc s).
Proof.
  unfold scan_number.
  destruct (match s with String c t => _ | "" => _ end) as [neg r] eqn:Hs.
  assert (Hr : len r <= len s).
  { destruct s as [|c t]; [by injection Hs as <- <-|].
    destruct (code c =? 45)%N; injection Hs as <- <-; unfold len; simpl; lia. }
  clear Hs. destruct (int_part r) as [[i r0]|] eqn:Hi; [|by right].
  apply int_part_len in Hi.
  assert (Hf : len (match frac_part r0 with Some (_, t) => t | None => r0 end) <= len r0).
  { destruct (frac_part r0) as [[d t]|] eqn:E; [by eapply frac_part_len | done]. }
  set (r1 := match frac_part r0 with Some (_, t) => t | None => r0 end) in *.
  assert (He : len (match exp_part r1 with Some (_, t) => t | None => r1 end) <= len r1).
  { destruct (exp_part r1) as [[d t]|] eqn:E; [by eapply exp_part_len | done]. }
  destruct (frac_part r0) as [[d t]|] eqn:Ef, (exp_part r1) as [[x t']|] eqn:Ee; simpl in *; try lia.
  pose proof (int_of_digits_raises i) as Hd. destruct (int_of_digits i); simpl; [lia|].
  left. by apply Hd.
Qed.

Lemma expecting_value_scans n m : scans n m -> scans n (expecting_value m).
Proof.
  unfold expecting_value, catch. destruct m as [[v r]|e]; [done|]. simpl.
  case_decide; simpl; [by left | done].
Qed.

Lemma hook_scans name n s : 0 < n -> 0 < len s ->
  scans (len s) (let* v := hook name in Ok (v, drop_str n s)).
Proof.
  intros Hn Hs. pose proof (P_hook name) as H. destruct (hook name); simpl; [|left; by apply H].
  rewrite len_drop_str. lia.
Qed.

Lemma scan_scans fuel :
  (forall s, 2 * len s < fuel -> scans (len s) (scan_once doc hook fuel s))
  /\ (forall acc s, 2 * len s + 1 < fuel -> scans (len s) (scan_members doc hook fuel acc s))
  /\ (forall s, 2 * len s + 1 < fuel -> scans (len s) (scan_items doc hook fuel s)).
Proof.
  induction fuel as [|fuel (IHo & IHm & IHi)]; [split; [|split]; intros; lia|].
  split; [|split].
  - intros s Hf. cbn [scan_once]. destruct s as [|c r]; [by right|].
    assert (Hl : len (String c r) = S (len r)) by done. pose proof (len_skip_ws r) as Hw.
    assert (H0 : len "" = 0) by done.
    destruct (code c =? 34)%N.
    { eapply scans_bind; [apply scan_string_scans; lia|]. intros t r' Hr. cbn [scans]. lia. }
    destruct (code c =? 123)%N.
    { destruct (skip_ws r) as [|d r'] eqn:Er.
      - eapply scans_weaken; [|apply IHm; lia]. lia.
      - assert (Hd : len (String d r') = S (len r')) by done.
        destruct (code d =? 125)%N; [cbn [scans]; lia|].
        eapply scans_weaken; [|apply IHm; lia]. lia. }
    destruct (code c =? 91)%N.
    { destruct (skip_ws r) as [|d r'] eqn:Er.
      - eapply scans_weaken; [|apply IHi; lia]. lia.
      - assert (Hd : len (String d r') = S (len r')) by done.
        destruct (code d =? 93)%N; [cbn [scans]; lia|].
        eapply scans_weaken; [|apply IHi; lia]. lia. }
    repeat match goal with
    | |- scans _ (if startswith _ _ then _ else _) => destruct (startswith _ _)
    end;
    try (apply hook_scans; lia); try (apply scan_number_scans);
    cbn [scans]; rewrite len_drop_str; lia.
  - intros acc s Hf. cbn [scan_members]. destruct s as [|c r]; [by left|].
    assert (Hl : len (String c r) = S (len r)) by done.
    destruct (code c =? 34)%N; [|by left].
    eapply scans_bind; [apply scan_string_scans; lia|]. intros k r0 Hr0.
    pose proof (len_skip_ws r0) as Hw0. destruct (skip_ws r0) as [|c1 r1] eqn:E1; [by left|].
    assert (Hl1 : len (String c1 r1) = S (len r1)) by done.
    destruct (code c1 =? 58)%N; [|by left]. pose proof (len_skip_ws r1) as Hw1.
    eapply scans_bind; [apply expecting_value_scans, IHo; lia|]. intros v r2 Hr2.
    pose proof (len_skip_ws r2) as Hw2. destruct (skip_ws r2) as [|c3 r3] eqn:E3; [by left|].
    assert (Hl3 : len (String c3 r3) = S (len r3)) by done.
    destruct (code c3 =? 125)%N; [simpl; lia|]. destruct (code c3 =? 44)%N; [|by left].
    pose proof (len_skip_ws r3). eapply scans_weaken; [|apply IHm; lia]. lia.
  - intros s Hf. cbn [scan_items].
    eapply scans_bind; [apply expecting_value_scans, IHo; lia|]. intros v r Hr.
    pose proof (len_skip_ws r) as Hw. destruct (skip_ws r) as [|c r'] eqn:E; [by left|].
    assert (Hl : len (String c r') = S (len r')) by done.
    destruct (code c =? 93)%N; [simpl; lia|]. destruct (code c =? 44)%N; [|by left].
    pose proof (len_skip_ws r') as Hw'.
    eapply scans_bind; [apply IHi; lia|]. intros rest r'' Hr''. destruct rest; simpl; lia.
Qed.

Lemma expecting_value_no_stop m e :
  (forall e, m = Err e -> P (exn_cls e) \/ exn_cls e = StopIteration) ->
  expecting_value m = Err e -> P (exn_cls e).
Proof.
  unfold expecting_value, catch. intros H. destruct m as [a|e']; [done|]. simpl.
  case_decide as Hc; [intros [= <-]; done|]. intros [= <-]. by destruct (H e' eq_refl).
Qed.

(** The decoder always answers within its fuel, and raises only these. *)
Lemma loads_doc_raises : raises P (loads_doc doc hook).
Proof.
  unfold loads_doc. apply raises_bind.
  - intros e. apply expecting_value_no_stop. intros e' He'.
    destruct (scan_scans (loads_fuel_of (skip_ws doc))) as (H & _).
    specialize (H (skip_ws doc)). rewrite He' in H. apply H. unfold loads_fuel_of. lia.
  - intros [v r]. destruct (skip_ws r); [apply raises_Ok|]. by intros e [= <-].
Qed.
End DecoderBounds.

(** The classes a decoding can raise; none of them is [OutOfFuel]. *)
Definition json_class (c : exn_class) : Prop := c = JSONDecodeError \/ c = ValueError \/ c = OutsideModel.

Lemma loads_with_raises (P : exn_class -> Prop) hook s :
  (forall c, json_class c -> P c) -> (forall name, raises P (hook name)) -> raises P (loads_with hook s).
Proof. intros H Hh. unfold loads_with, json_class in *. apply loads_doc_raises; auto. Qed.

Lemma loads_raises s : raises json_class (loads s).
Proof. apply loads_with_raises; [done|]. intros name. apply raises_Ok. Qed.
