(* ===== verification/PyJsonText.v ===== *)
(** PyJsonText: JSON text against JSON values.  [Writes v s] says that [s] is a
    text of [v], with blanks where the writers put them; [dumps_indent] writes
    such a text, the decoder of PyJson reads every such text back
    ([loads_writes]), and whatever the decoder answers is a tree whose objects
    have distinct keys at every depth ([loads_loaded]): where a text repeats a key
    the decoder keeps the last value. *)
From S2P Require Import Prelude PyStr PyRe PyFloat PyJson.
From Stdlib Require Import Decimal DecimalFacts DecimalPos DecimalZ DecimalString.

Local Open Scope string_scope.

(** An integer short enough to be read back. *)
Definition short_int (z : Z) : Prop := len (str_Z (Z.abs z)) <= MAX_STR_DIGITS.

(** ** Trees: distinct keys at every depth *)
Inductive Tree (leaf : json -> Prop) : json -> Prop :=
| Tr_leaf v : is_list v = false -> is_dict v = false -> leaf v -> Tree leaf v
| Tr_list l : Forall (Tree leaf) l -> Tree leaf (JList l)
| Tr_dict d : NoDup (keys d) -> Forall (fun kv => Tree leaf (snd kv)) d -> Tree leaf (JDict d).

(** A leaf that is written as text and read back: no float, no integer of more
    digits than [int] reads. *)
Definition writable (v : json) : Prop :=
  match v with JFloat _ => False | JInt z => short_int z | _ => True end.

Definition loaded : json -> Prop := Tree (fun _ => True).
Definition plain : json -> Prop := Tree writable.

Definition no_digit (t : string) : Prop := match t with String c _ => is_digit c = false | "" => True end.

(** A text that does not continue a number. *)
Definition ends_number (t : string) : Prop :=
  match t with
  | String c _ => is_digit c = false /\ (code c =? 46)%N = false /\ (code c =? 101)%N = false /\ (code c =? 69)%N = false
  | "" => True
  end.

(** ** The texts that write a value *)
Definition ws (w : string) : Prop := all_chars is_ws w = true.

Inductive Writes : json -> string -> Prop :=
| Wr_null : Writes JNull "null"
| Wr_bool b : Writes (JBool b) (if b then "true" else "false")
| Wr_int z : short_int z -> Writes (JInt z) (str_Z z)
| Wr_str s : Writes (JStr s) (dumps_str s)
| Wr_list_nil : Writes (JList []) "[]"
| Wr_dict_nil : Writes (JDict []) "{}"
| Wr_list w l s : ws w -> Items l s -> Writes (JList l) ("[" ++ w ++ s ++ "]")
| Wr_dict w d s : ws w -> NoDup (keys d) -> Members d s -> Writes (JDict d) ("{" ++ w ++ s ++ "}")
with Items : list json -> string -> Prop :=
| It_one v s w : Writes v s -> ws w -> Items [v] (s ++ w)
| It_cons v s w l t : Writes v s -> ws w -> Items l t -> Items (v :: l) (s ++ "," ++ w ++ t)
with Members : jobject -> string -> Prop :=
| Me_one k v s w : Writes v s -> ws w -> Members [(k, v)] (dumps_str k ++ ": " ++ s ++ w)
| Me_cons k v s w d t : Writes v s -> ws w -> Members d t ->
    Members ((k, v) :: d) (dumps_str k ++ ": " ++ s ++ "," ++ w ++ t).

Scheme Writes_mut := Minimality for Writes Sort Prop
with Items_mut := Minimality for Items Sort Prop
with Members_mut := Minimality for Members Sort Prop.
Combined Scheme writes_ind from Writes_mut, Items_mut, Members_mut.

(** The first character of a written value. *)
Definition opens (s : string) : Prop :=
  exists c r, s = String c r /\ is_ws c = false /\ (code c =? 93)%N = false /\ (code c =? 125)%N = false.

(** * Numbers *)
Lemma is_digit_cases c : is_digit c = true -> In c (list_ascii_of_string "0123456789").
Proof. destruct c as [[] [] [] [] [] [] [] []]; vm_compute; intros; try discriminate; tauto. Qed.

Lemma take_digits_app s t : all_chars is_digit s = true -> no_digit t -> take_digits (s ++ t) = (s, t).
Proof.
  induction s as [|c s IH]; simpl; intros Hs Ht.
  - destruct t as [|c t]; [done|]. simpl in *. by rewrite Ht.
  - apply andb_true_iff in Hs as [Hc Hs]. rewrite Hc, IH by done. done.
Qed.
Lemma uint_digits u : all_chars is_digit (NilEmpty.string_of_uint u) = true.
Proof. induction u; simpl; done. Qed.

Lemma dec_value_pos u acc : dec_value (Zpos acc) (NilEmpty.string_of_uint u) = Zpos (Pos.of_uint_acc u acc).
Proof.
  revert acc. induction u as [|u IH|u IH|u IH|u IH|u IH|u IH|u IH|u IH|u IH|u IH]; intros acc; [done|..];
    cbn [NilEmpty.string_of_uint dec_value Pos.of_uint_acc]; rewrite <- IH; f_equal;
    unfold digit_val; cbn [code]; simpl; lia.
Qed.
Lemma dec_value_uint u : dec_value 0 (NilEmpty.string_of_uint u) = Z.of_N (Pos.of_uint u).
Proof.
  induction u as [|u IH|u IH|u IH|u IH|u IH|u IH|u IH|u IH|u IH|u IH]; [done|exact IH|..];
    cbn [NilEmpty.string_of_uint dec_value Pos.of_uint Z.of_N]; rewrite <- dec_value_pos; f_equal.
Qed.
Lemma pos_head p u : Pos.to_uint p <> D0 u.
Proof.
  intros H. assert (Hu : unorm (Pos.to_uint p) = Pos.to_uint p).
  { rewrite <- Unsigned.to_of, Unsigned.of_to. done. }
  rewrite H in Hu. unfold unorm in Hu. cbn [nzhead] in Hu.
  destruct (nzhead u) as [|v| | | | | | | | |] eqn:E; try discriminate Hu.
  - apply (Unsigned.to_uint_nonzero p). rewrite H. symmetry. exact Hu.
  - by destruct (nzhead_nonzero u v).
Qed.

Lemma pos_str p : exists c s, NilEmpty.string_of_uint (Pos.to_uint p) = String c s
  /\ is_digit c = true /\ (code c =? 48)%N = false.
Proof.
  pose proof (pos_head p) as H. pose proof (Unsigned.to_uint_nonnil p) as Hn.
  destruct (Pos.to_uint p) as [|u|u|u|u|u|u|u|u|u|u]; try done; [by destruct (H u)|..];
    cbn [NilEmpty.string_of_uint]; eauto.
Qed.

Lemma number_ends t : ends_number t -> frac_part t = None /\ exp_part t = None.
Proof. destruct t as [|c t]; [done|]. intros (_ & H1 & H2 & H3). simpl. by rewrite H1, H2, H3. Qed.

Lemma scan_pos p t : len (str_Z (Zpos p)) <= MAX_STR_DIGITS -> ends_number t ->
  int_part (str_Z (Zpos p) ++ t) = Some (str_Z (Zpos p), t) /\ int_of_digits (str_Z (Zpos p)) = Ok (Zpos p).
Proof.
  intros Hl Ht. unfold str_Z in *. cbn [Z.to_int NilEmpty.string_of_int] in *. split.
  - destruct (pos_str p) as (c & s & Hs & Hc & Hz). unfold int_part. rewrite Hs. change (String c s ++ t) with (String c (s ++ t)). cbv iota beta.
    rewrite Hz, Hc. change (String c (s ++ t)) with (String c s ++ t). rewrite <- Hs. f_equal.
    apply take_digits_app; [apply uint_digits|]. destruct t; [done | by destruct Ht].
  - unfold int_of_digits. apply Nat.ltb_ge in Hl. rewrite Hl, dec_value_uint, Unsigned.of_to. done.
Qed.

Lemma scan_number_int doc z t : short_int z -> ends_number t ->
  scan_number doc (str_Z z ++ t) = Ok (JInt z, t).
Proof.
  unfold short_int. intros Hl Ht. destruct (number_ends t Ht) as [Hf He]. destruct z as [|p|p].
  - unfold scan_number. change (str_Z 0 ++ t) with (String "0" t). cbv beta iota zeta.
    change ((code "0" =? 45)%N) with false.
    cbv beta iota zeta. change (int_part (String "0" t)) with (Some ("0", t)). cbv beta iota zeta. by rewrite Hf, He.
  - destruct (scan_pos p t Hl Ht) as [Hi Hd]. unfold scan_number.
    destruct (pos_str p) as (c & s & Hs & Hc & _).
    assert (Hneg : (code c =? 45)%N = false) by (revert Hc; destruct c as [[] [] [] [] [] [] [] []]; vm_compute; congruence).
    unfold str_Z in *. cbn [Z.to_int NilEmpty.string_of_int] in *. rewrite Hs in *. change (String c s ++ t) with (String c (s ++ t)) in *. cbv iota beta. rewrite Hneg.
    rewrite Hi. cbv beta iota zeta. by rewrite Hf, He, Hd.
  - destruct (scan_pos p t Hl Ht) as [Hi Hd]. unfold scan_number.
    change (str_Z (Zneg p) ++ t) with (String "-" (str_Z (Zpos p) ++ t)). cbv beta iota zeta. change ((code "-" =? 45)%N) with true. cbv beta iota zeta. rewrite Hi. cbv beta iota zeta. by rewrite Hf, He, Hd.
Qed.

(** ** Strings *)
Lemma scan_char doc fuel begin c x t :
  scan_string doc (S fuel) begin (dumps_char c ++ String x t) =
  bind (scan_string doc fuel begin (String x t)) (fun '(u, r) => Ok (String c u, r)).
Proof. destruct c as [[] [] [] [] [] [] [] []]; reflexivity. Qed.

Lemma quoted_nonempty s t : exists x u, concat_map_str dumps_char s ++ chr 34 ++ t = String x u.
Proof.
  destruct s as [|c s]; [by eexists _, _|]. simpl.
  assert (H : exists x u, dumps_char c = String x u) by (destruct c as [[] [] [] [] [] [] [] []]; by eexists _, _).
  destruct H as (x & u & ->). by eexists _, _.
Qed.

Lemma scan_quoted doc fuel begin s t : len (concat_map_str dumps_char s ++ chr 34 ++ t) < fuel ->
  scan_string doc fuel begin (concat_map_str dumps_char s ++ chr 34 ++ t) = Ok (s, t).
Proof.
  revert fuel. induction s as [|c s IH]; intros fuel Hf.
  - destruct fuel as [|fuel]; [lia|]. reflexivity.
  - change (concat_map_str dumps_char (String c s)) with (dumps_char c ++ concat_map_str dumps_char s) in *.
    rewrite append_assoc in *. destruct (quoted_nonempty s t) as (x & u & Hu).
    destruct fuel as [|fuel]; [lia|]. rewrite Hu, scan_char, <- Hu, IH; [done|].
    rewrite len_append in Hf. assert (1 <= len (dumps_char c)) by (destruct c as [[] [] [] [] [] [] [] []]; vm_compute; lia).
    lia.
Qed.

Lemma skip_ws_app w s : ws w -> opens s -> skip_ws (w ++ s) = s.
Proof.
  unfold ws. intros Hw (c & r & -> & Hc & _). induction w as [|d w IH]; simpl.
  - by rewrite Hc.
  - simpl in Hw. apply andb_true_iff in Hw as [Hd Hw]. by rewrite Hd, IH.
Qed.
Lemma opens_app s t : opens s -> opens (s ++ t).
Proof. intros (c & r & -> & H). exists c, (r ++ t). done. Qed.

Lemma digit_opens c r : is_digit c = true -> opens (String c r).
Proof. intros H. exists c, r. split; [done|]. revert H. destruct c as [[] [] [] [] [] [] [] []]; vm_compute; intuition congruence. Qed.
Lemma writes_opens v s : Writes v s -> opens s.
Proof.
  destruct 1 as [|b|z H|s| | |w l s Hw Hs|w d s Hw Hn Hs].
  - by exists "n"%char, "ull".
  - destruct b; by eexists _, _.
  - destruct z as [|p|p]; [by exists "0"%char, "" | |].
    + destruct (pos_str p) as (c & r & Hs & Hc & _). unfold str_Z. cbn [Z.to_int NilEmpty.string_of_int].
      rewrite Hs. by apply digit_opens.
    + by exists "-"%char, (NilEmpty.string_of_uint (Pos.to_uint p)).
  - by eexists _, _.
  - by eexists _, _.
  - by eexists _, _.
  - by eexists _, _.
  - by eexists _, _.
Qed.
Lemma items_open l s : Items l s -> opens s.
Proof. destruct 1; by apply opens_app, (writes_opens v). Qed.
Lemma members_open d s : Members d s -> opens s.
Proof. destruct 1; by eexists _, _. Qed.

(** ** The decoder reads what is written *)
Section Reads.
Variable doc : string.
Variable hook : const_hook.

Lemma scan_once_digit fuel c r : is_digit c = true ->
  scan_once doc hook (S fuel) (String c r) = scan_number doc (String c r).
Proof.
  intros H%is_digit_cases. simpl in H. repeat (destruct H as [<-|H]; [reflexivity|]). done.
Qed.
Lemma scan_once_minus fuel c r : is_digit c = true ->
  scan_once doc hook (S fuel) (String "-" (String c r)) = scan_number doc (String "-" (String c r)).
Proof.
  intros H%is_digit_cases. simpl in H. repeat (destruct H as [<-|H]; [reflexivity|]). done.
Qed.

Lemma scan_once_int fuel z t : short_int z -> ends_number t ->
  scan_once doc hook (S fuel) (str_Z z ++ t) = Ok (JInt z, t).
Proof.
  intros Hz Ht. rewrite <- (scan_number_int doc z t Hz Ht). destruct z as [|p|p].
  - reflexivity.
  - destruct (pos_str p) as (c & r & Hs & Hc & _). unfold str_Z. cbn [Z.to_int NilEmpty.string_of_int].
    rewrite Hs, append_cons. by apply scan_once_digit.
  - destruct (pos_str p) as (c & r & Hs & Hc & _). unfold str_Z. cbn [Z.to_int NilEmpty.string_of_int].
    rewrite Hs, !append_cons. by apply scan_once_minus.
Qed.

Lemma ends_ws w t : ws w -> ends_number t -> ends_number (w ++ t).
Proof.
  destruct w as [|c w]; [done|]. unfold ws. simpl. intros [Hc _]%andb_true_iff _. revert Hc.
  destruct c as [[] [] [] [] [] [] [] []]; vm_compute; intuition congruence.
Qed.
Lemma skip_ws_ws w t : ws w -> skip_ws (w ++ t) = skip_ws t.
Proof.
  unfold ws. induction w as [|c w IH]; simpl; [done|]. intros [Hc Hw]%andb_true_iff. by rewrite Hc, IH.
Qed.

Lemma scan_once_quoted fuel s t :
  scan_once doc hook (S fuel) (dumps_str s ++ t) = Ok (JStr s, t).
Proof.
  unfold dumps_str. rewrite !append_assoc. change (chr 34) with (String (ascii_of_N 34) "").
  rewrite append_cons. cbn [scan_once]. change ((code (ascii_of_N 34) =? 34)%N) with true. cbv iota.
  change ("" ++ ?x) with x. rewrite scan_quoted; [done|]. unfold chr. simpl. lia.
Qed.

Definition reads_value (v : json) (s : string) : Prop := forall fuel rest,
  2 * len (s ++ rest) < fuel -> ends_number rest -> scan_once doc hook fuel (s ++ rest) = Ok (v, rest).
Definition reads_items (l : list json) (s : string) : Prop := forall fuel rest,
  2 * len (s ++ "]" ++ rest) + 1 < fuel -> scan_items doc hook fuel (s ++ "]" ++ rest) = Ok (JList l, rest).
Definition reads_members (d : jobject) (s : string) : Prop := forall fuel acc rest,
  2 * len (s ++ "}" ++ rest) + 1 < fuel -> NoDup (keys (acc ++ d)) ->
  scan_members doc hook fuel acc (s ++ "}" ++ rest) = Ok (JDict (acc ++ d), rest).

Lemma expecting_ok v r : expecting_value (Ok (v, r)) = Ok (v, r).
Proof. done. Qed.

Lemma dict_set_fresh k v acc : ~ In k (keys acc) -> dict_set k v acc = (acc ++ [(k, v)])%list.
Proof.
  induction acc as [|[k' w] acc IH]; simpl; [done|]. intros H.
  destruct (String.eqb_spec k k') as [->|Hk]; [tauto|]. rewrite IH by tauto. done.
Qed.

Lemma items_one v s w : reads_value v s -> ws w -> reads_items [v] (s ++ w).
Proof.
  intros Hv Hw fuel rest Hf. destruct fuel as [|fuel]; [lia|]. cbn [scan_items].
  rewrite append_assoc in *. rewrite Hv by (try lia; by apply ends_ws). rewrite expecting_ok. cbn [bind].
  rewrite skip_ws_ws by done. reflexivity.
Qed.
Lemma items_cons v s w l t : reads_value v s -> opens s -> ws w -> Items l t -> reads_items l t ->
  reads_items (v :: l) (s ++ "," ++ w ++ t).
Proof.
  intros Hv Ho Hw Hi Hl fuel rest Hf. destruct fuel as [|fuel]; [lia|]. cbn [scan_items].
  rewrite !append_assoc in *. rewrite Hv by (done || lia). rewrite expecting_ok. cbn [bind].
  change (skip_ws ("," ++ w ++ t ++ "]" ++ rest)) with ("," ++ w ++ t ++ "]" ++ rest).
  rewrite append_cons. cbv iota. change ((code "," =? 93)%N) with false. change ((code "," =? 44)%N) with true. cbv iota.
  change ("" ++ ?x) with x. rewrite skip_ws_app by (done || by apply opens_app, (items_open l)).
  rewrite Hl; [done|]. rewrite !len_append in *. change (len ",") with 1 in Hf. lia.
Qed.

(** A key with its colon, and then the value. *)
Lemma member_step fuel acc k v s rest : reads_value v s -> opens s ->
  2 * len (dumps_str k ++ ": " ++ s ++ rest) + 1 < S fuel -> ends_number rest ->
  scan_members doc hook (S fuel) acc (dumps_str k ++ ": " ++ s ++ rest) =
  match skip_ws rest with
  | String c3 r3 as s3 =>
      if (code c3 =? 125)%N then Ok (JDict (dict_set k v acc), r3)
      else if (code c3 =? 44)%N then scan_members doc hook fuel (dict_set k v acc) (skip_ws r3)
      else Err (json_error "Expecting ',' delimiter" doc (pos_of doc s3))
  | "" => Err (json_error "Expecting ',' delimiter" doc (pos_of doc ""))
  end.
Proof.
  intros Hv Ho Hf Hr. unfold dumps_str in *. rewrite !append_assoc in *. change (chr 34) with (String (ascii_of_N 34) "") in *.
  rewrite append_cons in *. cbn [scan_members]. change ((code (ascii_of_N 34) =? 34)%N) with true. cbv iota.
  change ("" ++ ?x) with x in *. rewrite scan_quoted by (unfold chr; simpl; lia). cbn [bind].
  change (skip_ws (": " ++ s ++ rest)) with (String ":" (" " ++ s ++ rest)). cbv iota.
  change ((code ":" =? 58)%N) with true. cbv iota.
  rewrite skip_ws_app by (done || by apply opens_app). rewrite Hv; [done | | done].
  change (len (String ?c ?x)) with (S (len x)) in Hf. rewrite !len_append in *. change (len ": ") with 2 in Hf. lia.
Qed.

Lemma keys_snoc (acc d : jobject) k v : keys (acc ++ (k, v) :: d) = keys ((acc ++ [(k, v)]) ++ d).
Proof. by rewrite <- app_assoc. Qed.
Lemma fresh_key acc k v d : NoDup (keys (acc ++ (k, v) :: d)) -> ~ In k (keys acc).
Proof.
  unfold keys. rewrite map_app. simpl. intros (_ & H & _)%NoDup_app Hk.
  apply (H k); [by apply list_elem_of_In | by left].
Qed.

Lemma members_one k v s w : reads_value v s -> opens s -> ws w -> reads_members [(k, v)] (dumps_str k ++ ": " ++ s ++ w).
Proof.
  intros Hv Ho Hw fuel acc rest Hf Hn. destruct fuel as [|fuel]; [lia|].
  rewrite !append_assoc in *. rewrite (member_step fuel acc k v s) by (done || lia || by apply ends_ws).
  rewrite skip_ws_ws by done. change (skip_ws ("}" ++ rest)) with (String "}" rest). cbv iota.
  change ((code "}" =? 125)%N) with true. cbv iota. by rewrite (dict_set_fresh _ _ _ (fresh_key _ _ _ _ Hn)).
Qed.
Lemma members_cons k v s w d t : reads_value v s -> opens s -> ws w -> Members d t -> reads_members d t ->
  reads_members ((k, v) :: d) (dumps_str k ++ ": " ++ s ++ "," ++ w ++ t).
Proof.
  intros Hv Ho Hw Hm Hd fuel acc rest Hf Hn. destruct fuel as [|fuel]; [lia|].
  rewrite !append_assoc in *. rewrite (member_step fuel acc k v s) by (done || lia).
  change (skip_ws ("," ++ w ++ t ++ "}" ++ rest)) with (String "," (w ++ t ++ "}" ++ rest)). cbv iota.
  change ((code "," =? 125)%N) with false. change ((code "," =? 44)%N) with true. cbv iota.
  rewrite skip_ws_app by (done || by eapply opens_app, members_open).
  rewrite (dict_set_fresh _ _ _ (fresh_key _ _ _ _ Hn)), Hd.
  - by rewrite <- app_assoc.
  - rewrite !len_append in *. change (len ",") with 1 in Hf. lia.
  - by rewrite <- keys_snoc.
Qed.

Lemma reads_list w l s : ws w -> Items l s -> reads_items l s -> reads_value (JList l) ("[" ++ w ++ s ++ "]").
Proof.
  intros Hw Hi Hl fuel rest Hf _. destruct fuel as [|fuel]; [lia|]. rewrite !append_assoc in *.
  change ("[" ++ ?x) with (String "[" x) in *. cbn [scan_once].
  change ((code "[" =? 34)%N) with false. change ((code "[" =? 123)%N) with false. change ((code "[" =? 91)%N) with true.
  cbv iota. assert (Ho := opens_app s ("]" ++ rest) (items_open l s Hi)).
  rewrite skip_ws_app by done. change (len (String ?c ?x)) with (S (len x)) in Hf. rewrite len_append in Hf.
  assert (Hs := Hl fuel rest ltac:(lia)). destruct Ho as (c & r & Hc & _ & Hb & _). rewrite Hc in *. by rewrite Hb.
Qed.
Lemma reads_dict w d s : ws w -> NoDup (keys d) -> Members d s -> reads_members d s ->
  reads_value (JDict d) ("{" ++ w ++ s ++ "}").
Proof.
  intros Hw Hn Hi Hl fuel rest Hf _. destruct fuel as [|fuel]; [lia|]. rewrite !append_assoc in *.
  change ("{" ++ ?x) with (String "{" x) in *. cbn [scan_once].
  change ((code "{" =? 34)%N) with false. change ((code "{" =? 123)%N) with true.
  cbv iota. assert (Ho := opens_app s ("}" ++ rest) (members_open d s Hi)).
  rewrite skip_ws_app by done. change (len (String ?c ?x)) with (S (len x)) in Hf. rewrite len_append in Hf.
  assert (Hs := Hl fuel [] rest ltac:(lia) Hn). destruct Ho as (c & r & Hc & _ & _ & Hb). rewrite Hc in *. by rewrite Hb.
Qed.

Lemma decoder_complete :
  (forall v s, Writes v s -> reads_value v s)
  /\ (forall l s, Items l s -> reads_items l s)
  /\ (forall d s, Members d s -> reads_members d s).
Proof.
  apply writes_ind.
  - intros [|fuel] rest Hf _; [lia | by destruct rest].
  - intros [] [|fuel] rest Hf _; (lia || by destruct rest).
  - intros z Hz [|fuel] rest Hf Hr; [lia | by apply scan_once_int].
  - intros s [|fuel] rest Hf _; [lia | apply scan_once_quoted].
  - intros [|fuel] rest Hf _; [lia | reflexivity].
  - intros [|fuel] rest Hf _; [lia | reflexivity].
  - intros w l s Hw Hi Hl. by apply reads_list.
  - intros w d s Hw Hn Hm Hd. by apply reads_dict.
  - intros v s w _ Hv Hw. by apply items_one.
  - intros v s w l t Hs Hv Hw Hi Hl. apply items_cons; try done. by eapply writes_opens.
  - intros k v s w Hs Hv Hw. apply members_one; try done. by eapply writes_opens.
  - intros k v s w d t Hs Hv Hw Hm Hd. apply members_cons; try done. by eapply writes_opens.
Qed.
End Reads.

Lemma ws_ends w : ws w -> ends_number w.
Proof.
  destruct w as [|c w]; [done|]. unfold ws. simpl. intros [Hc _]%andb_true_iff. revert Hc.
  destruct c as [[] [] [] [] [] [] [] []]; vm_compute; intuition congruence.
Qed.
Lemma skip_ws_all w : ws w -> skip_ws w = "".
Proof. unfold ws. induction w as [|c w IH]; simpl; [done|]. intros [Hc Hw]%andb_true_iff. by rewrite Hc, IH. Qed.

(** The decoder reads a written value, with any trailing blanks. *)
Lemma loads_writes hook v s w : Writes v s -> ws w -> loads_with hook (s ++ w) = Ok v.
Proof.
  intros Hs Hw. unfold loads_with, loads_doc.
  assert (Hk : skip_ws (s ++ w) = s ++ w).
  { apply (skip_ws_app "" (s ++ w)); [done | by apply opens_app, (writes_opens v)]. }
  rewrite Hk. destruct (decoder_complete (s ++ w) hook) as (H & _ & _).
  rewrite (H v s Hs); [|unfold loads_fuel_of; lia | by apply ws_ends].
  rewrite expecting_ok. cbn [bind]. by rewrite skip_ws_all.
Qed.

Lemma items_join f l w wl : l <> [] -> Forall (fun v => Writes v (f v)) l -> ws w -> ws wl ->
  Items l (join ("," ++ w) (map f l) ++ wl).
Proof.
  intros Hl Hf Hw Hwl. induction Hf as [|v l Hv Hf IH]; [done|]. destruct l as [|v' l].
  - by constructor.
  - cbn [map join]. rewrite !append_assoc. constructor; [done | done |]. by apply IH.
Qed.
Lemma members_join (g : string * json -> string) f d w wl : d <> [] ->
  (forall kv, g kv = dumps_str (fst kv) ++ ": " ++ f (snd kv)) ->
  Forall (fun kv => Writes (snd kv) (f (snd kv))) d -> ws w -> ws wl ->
  Members d (join ("," ++ w) (map g d) ++ wl).
Proof.
  intros Hd Hg Hf Hw Hwl. induction Hf as [|[k v] d Hv Hf IH]; [done|]. destruct d as [|kv d].
  - cbn [map join]. rewrite Hg, !append_assoc. by constructor.
  - cbn [map join]. rewrite Hg, !append_assoc. constructor; [done | done |]. by apply IH.
Qed.

Lemma tree_list leaf l : Tree leaf (JList l) -> Forall (Tree leaf) l.
Proof. by inversion 1. Qed.
Lemma tree_dict leaf d : Tree leaf (JDict d) -> NoDup (keys d) /\ Forall (fun kv => Tree leaf (snd kv)) d.
Proof. by inversion 1. Qed.
Lemma tree_leaf leaf v : is_list v = false -> is_dict v = false -> Tree leaf v -> leaf v.
Proof. intros Hl Hd. by inversion 1; subst. Qed.

Lemma indent_ws lvl : ws (indent_at lvl).
Proof. unfold ws, indent_at. simpl. induction lvl as [|n IH]; [done|]. simpl. exact IH. Qed.

Lemma indent_writes v lvl : plain v -> Writes v (dumps_indent lvl v).
Proof.
  revert lvl. induction v as [|b|z|f|s|l IH|d IH] using json_nested_ind; intros lvl H; try (by constructor).
  - constructor. by apply (tree_leaf writable (JInt z)) in H.
  - by apply (tree_leaf writable (JFloat f)) in H.
  - apply tree_list in H. destruct l as [|v l]; [constructor|]. cbn [dumps_indent].
    rewrite <- (append_assoc (join _ _)). apply Wr_list; [apply indent_ws|].
    apply items_join; [done | | apply indent_ws | apply indent_ws].
    rewrite Forall_forall in IH, H |- *. intros x Hx. by apply IH, H.
  - apply tree_dict in H as [Hn H]. destruct d as [|kv d]; [constructor|]. cbn [dumps_indent].
    rewrite <- (append_assoc (join _ _)). apply Wr_dict; [apply indent_ws | done |].
    apply (members_join _ (dumps_indent (S lvl))); [done | by intros [] | | apply indent_ws | apply indent_ws].
    rewrite Forall_forall in IH, H |- *. intros x Hx. by apply IH, H.
Qed.

(** ** [sort_keys] keeps the items *)
Lemma insert_item_perm kv d : Permutation (insert_item kv d) (kv :: d).
Proof.
  induction d as [|kv' d IH]; simpl; [done|]. destruct (String.leb _ _); [done|].
  rewrite IH. apply perm_swap.
Qed.
Lemma sort_items_perm d : Permutation (fold_right insert_item [] d) d.
Proof. induction d as [|kv d IH]; simpl; [done|]. by rewrite insert_item_perm, IH. Qed.

Lemma sort_keys_plain v : plain v -> plain (sort_keys v).
Proof.
  induction v as [|b|z|f|s|l IH|d IH] using json_nested_ind; intros H; try exact H.
  - apply tree_list in H. apply Tr_list. apply Forall_map.
    rewrite Forall_forall in IH, H |- *. intros x Hx. by apply IH, H.
  - apply tree_dict in H as [Hn H]. apply Tr_dict; unfold keys; rewrite sort_items_perm.
    + by rewrite map_map.
    + apply Forall_map. rewrite Forall_forall in IH, H |- *. intros x Hx. by apply IH, H.
Qed.

Lemma jlookup_NoDup k v d : NoDup (keys d) -> jlookup k d = Some v <-> In (k, v) d.
Proof.
  intros Hn. split; [apply jlookup_In|]. induction d as [|[k' w] d IH]; simpl; [done|].
  simpl in Hn. apply NoDup_cons in Hn as [Hk Hn]. intros [[= -> ->]|H]; [by rewrite String.eqb_refl|].
  destruct (String.eqb_spec k k') as [->|]; [|by apply IH].
  destruct Hk. apply list_elem_of_In. apply (in_map fst) in H. exact H.
Qed.
Lemma get_perm k d d' : NoDup (keys d) -> Permutation d d' -> get d k = get d' k.
Proof.
  intros Hn Hp. assert (Hn' : NoDup (keys d')) by (unfold keys in *; by rewrite <- Hp).
  assert (H : forall v, jlookup k d = Some v <-> jlookup k d' = Some v).
  { intros v. rewrite !jlookup_NoDup by done. by rewrite Hp. }
  unfold get. destruct (jlookup k d) as [v|]; [by rewrite (proj1 (H v) eq_refl)|].
  destruct (jlookup k d') as [v|]; [|done]. by specialize (proj2 (H v) eq_refl).
Qed.
Lemma get_map (f : json -> json) k d : f JNull = JNull -> get (map (fun kv => (fst kv, f (snd kv))) d) k = f (get d k).
Proof.
  intros Hf. unfold get. induction d as [|[k' v] d IH]; simpl; [done|]. by destruct (String.eqb k k').
Qed.

(** ** What the decoder answers *)
Lemma dict_set_keys k v acc : NoDup (keys acc) -> NoDup (keys (dict_set k v acc)).
Proof.
  intros Hn. destruct (in_dec String.string_dec k (keys acc)) as [Hk|Hk].
  - assert (keys (dict_set k v acc) = keys acc) as ->; [|done]. clear Hn. induction acc as [|[k' w] acc IH]; [done|].
    simpl. destruct (String.eqb_spec k k') as [->|Hne]; [done|]. simpl. f_equal. apply IH.
    simpl in Hk. destruct Hk as [->|]; done.
  - rewrite dict_set_fresh by done. unfold keys in *. rewrite map_app. apply NoDup_app. split; [done|].
    split; [|apply NoDup_singleton]. simpl. intros x Hx%list_elem_of_In ->%list_elem_of_singleton. done.
Qed.
Lemma dict_set_Forall (P : json -> Prop) k v acc : P v -> Forall (fun kv => P (snd kv)) acc ->
  Forall (fun kv => P (snd kv)) (dict_set k v acc).
Proof.
  intros Hv H. induction H as [|[k' w] acc Hw H IH]; simpl; [by repeat constructor|].
  destruct (String.eqb k k'); by constructor.
Qed.

Section Loaded.
Variable doc : string.
Variable hook : const_hook.
Hypothesis Hhook : forall name v, hook name = Ok v -> loaded v.

Lemma leaf_loaded v : is_list v = false -> is_dict v = false -> loaded v.
Proof. intros. by constructor. Qed.
Lemma scan_number_loaded s v r : scan_number doc s = Ok (v, r) -> loaded v.
Proof.
  unfold scan_number. destruct (match s with String c t => _ | "" => _ end) as [neg r0].
  destruct (int_part r0) as [[i r1]|]; [|done]. cbv zeta.
  destruct (frac_part r1) as [[? ?]|]; destruct (exp_part _) as [[? ?]|]; try (intros [= <- _]; by apply leaf_loaded).
  intros (z & _ & [= <- _])%bind_ok. by apply leaf_loaded.
Qed.
Lemma expecting_inv m v r : expecting_value m = Ok (v, r) -> m = Ok (v, r).
Proof. unfold expecting_value, catch. destruct m as [a|e]; [done|]. by case_decide. Qed.

Definition acc_loaded (acc : jobject) : Prop := NoDup (keys acc) /\ Forall (fun kv => loaded (snd kv)) acc.

Lemma scan_loaded fuel :
  (forall s v r, scan_once doc hook fuel s = Ok (v, r) -> loaded v)
  /\ (forall acc s v r, acc_loaded acc -> scan_members doc hook fuel acc s = Ok (v, r) -> loaded v)
  /\ (forall s v r, scan_items doc hook fuel s = Ok (v, r) -> loaded v).
Proof.
  induction fuel as [|fuel (IHo & IHm & IHi)]; [by repeat split|]. repeat apply conj.
  - intros [|c s] v r; [done|]. cbn [scan_once].
    assert (Hacc : acc_loaded []) by (split; constructor).
    assert (Hnil : loaded (JDict [])) by (constructor; constructor).
    assert (Hnill : loaded (JList [])) by (apply Tr_list; constructor).
    destruct (code c =? 34)%N.
    { intros ([t r'] & _ & [= <- _])%bind_ok. by apply leaf_loaded. }
    destruct (code c =? 123)%N.
    { destruct (skip_ws s) as [|d s']; [by apply IHm|].
      destruct (code d =? 125)%N; [by intros [= <- _] | by apply IHm]. }
    destruct (code c =? 91)%N.
    { destruct (skip_ws s) as [|d s']; [by apply IHi|].
      destruct (code d =? 93)%N; [by intros [= <- _] | by apply IHi]. }
    repeat match goal with |- (if startswith ?a ?b then _ else _) = _ -> _ => destruct (startswith a b) end;
      try (intros [= <- _]; by apply leaf_loaded);
      try (intros (w & Hw%Hhook & [= <- _])%bind_ok; done).
    apply scan_number_loaded.
  - intros acc [|c s] v r [Hn Hf]; [done|]. cbn [scan_members]. destruct (code c =? 34)%N; [|done].
    intros ([k r0] & _ & H)%bind_ok. destruct (skip_ws r0) as [|c1 r1]; [done|].
    destruct (code c1 =? 58)%N; [|done]. apply bind_ok in H as ([w r2] & Hw%expecting_inv%IHo & H).
    assert (Hacc : acc_loaded (dict_set k w acc)) by (split; [by apply dict_set_keys | by apply dict_set_Forall]).
    destruct (skip_ws r2) as [|c3 r3]; [done|]. destruct (code c3 =? 125)%N.
    { injection H as <- _. by apply Tr_dict; destruct Hacc. }
    destruct (code c3 =? 44)%N; [by apply (IHm _ _ _ _ Hacc) in H | done].
  - intros s v r. cbn [scan_items]. intros ([w r0] & Hw%expecting_inv%IHo & H)%bind_ok.
    destruct (skip_ws r0) as [|c r']; [done|]. destruct (code c =? 93)%N.
    { injection H as <- _. apply Tr_list. by constructor. }
    destruct (code c =? 44)%N; [|done]. apply bind_ok in H as ([rest r''] & Hr%IHi & H).
    destruct rest; injection H as <- _; try done. apply Tr_list. constructor; [done | by apply tree_list in Hr].
Qed.

Lemma loads_doc_loaded v : loads_doc doc hook = Ok v -> loaded v.
Proof.
  unfold loads_doc. intros ([w r] & Hw%expecting_inv & H)%bind_ok.
  destruct (skip_ws r); [|done]. injection H as <-. by apply (proj1 (scan_loaded _)) in Hw.
Qed.
End Loaded.

Lemma loads_loaded s v : loads s = Ok v -> loaded v.
Proof.
  apply loads_doc_loaded. intros name w [= <-]. by apply leaf_loaded.
Qed.
