(* ===== verification/Sha256.v ===== *)
(** Sha256: [hashlib.sha256(data).hexdigest()] (FIPS 180-4) on 32-bit words
    kept as [N] below 2^32. *)
From S2P Require Import Prelude PyStr.

Local Open Scope N_scope.

Definition w32 (x : N) : N := N.land x 4294967295.
Definition add32 (x y : N) : N := w32 (x + y).
Definition rotr (n x : N) : N := N.lor (N.shiftr x n) (w32 (N.shiftl x (32 - n))).
Definition not32 (x : N) : N := N.lxor x 4294967295.

Definition Ch (x y z : N) : N := N.lxor (N.land x y) (N.land (not32 x) z).
Definition Maj (x y z : N) : N := N.lxor (N.lxor (N.land x y) (N.land x z)) (N.land y z).
Definition Sig0 (x : N) : N := N.lxor (N.lxor (rotr 2 x) (rotr 13 x)) (rotr 22 x).
Definition Sig1 (x : N) : N := N.lxor (N.lxor (rotr 6 x) (rotr 11 x)) (rotr 25 x).
Definition sig0 (x : N) : N := N.lxor (N.lxor (rotr 7 x) (rotr 18 x)) (N.shiftr x 3).
Definition sig1 (x : N) : N := N.lxor (N.lxor (rotr 17 x) (rotr 19 x)) (N.shiftr x 10).

(** The round constants: the first 32 bits of the fractional parts of the cube
    roots of the first 64 primes; the initial state: of the square roots of the
    first eight.  [cbrt_bits] finds the bits of a cube root from the top. *)
Fixpoint cbrt_bits (bits : nat) (acc n : N) : N :=
  match bits with
  | O => acc
  | S b =>
      let cand := N.lor acc (N.shiftl 1 (N.of_nat b)) in
      cbrt_bits b (if cand * cand * cand <=? n then cand else acc) n
  end.

Definition is_prime (n : N) : bool :=
  negb (existsb (fun d => (n mod N.of_nat d =? 0)) (seq 2 (N.to_nat n - 2))).
Definition primes : list N := List.filter is_prime (map N.of_nat (seq 2 310)).

Definition K256 : list N :=
  Eval vm_compute in map (fun p => w32 (cbrt_bits 36 0 (N.shiftl p 96))) primes.

Definition H256 : list N :=
  Eval vm_compute in map (fun p => w32 (N.sqrt (N.shiftl p 64))) (take 8 primes).

(** Padding: 0x80, zeros, and the bit length on eight bytes. *)
Definition pad_bytes (bytes : list N) : list N :=
  let n := List.length bytes in
  let zeros := ((119 - n mod 64) mod 64)%nat in
  let bits := 8 * N.of_nat n in
  bytes ++ [128] ++ repeat 0 zeros
    ++ map (fun i => N.land (N.shiftr bits (8 * i)) 255) [7; 6; 5; 4; 3; 2; 1; 0].

Fixpoint words (bytes : list N) : list N :=
  match bytes with
  | a :: b :: c :: d :: rest =>
      (16777216 * a + 65536 * b + 256 * c + d) :: words rest
  | _ => []
  end.

(** The message schedule, newest word first. *)
Fixpoint expand (n : nat) (w : list N) : list N :=
  match n with
  | O => w
  | S n =>
      let t := add32 (add32 (sig1 (nth 1 w 0)) (nth 6 w 0)) (add32 (sig0 (nth 14 w 0)) (nth 15 w 0)) in
      expand n (t :: w)
  end.

Definition round (st : list N) (kw : N * N) : list N :=
  match st with
  | [a; b; c; d; e; f; g; h] =>
      let t1 := add32 (add32 (add32 h (Sig1 e)) (Ch e f g)) (add32 (fst kw) (snd kw)) in
      let t2 := add32 (Sig0 a) (Maj a b c) in
      [add32 t1 t2; a; b; c; add32 d t1; e; f; g]
  | _ => st
  end.

Definition compress (st block : list N) : list N :=
  let w := rev (expand 48 (rev block)) in
  zip_with add32 st (fold_left round (combine K256 w) st).

Fixpoint blocks (n : nat) (st ws : list N) : list N :=
  match n with
  | O => st
  | S n => blocks n (compress st (take 16 ws)) (drop 16 ws)
  end.

Definition hex_nibble (n : N) : ascii := ascii_of_N (if n <? 10 then 48 + n else 87 + n).
Fixpoint hex_word (n : nat) (x : N) : string :=
  match n with
  | O => ""
  | S n => String (hex_nibble (N.land (N.shiftr x (4 * N.of_nat n)) 15)) (hex_word n x)
  end.

Definition byte_list (s : string) : list N := map code (list_ascii_of_string s).

Definition sha256_hex (data : string) : string :=
  let ws := words (pad_bytes (byte_list data)) in
  let st := blocks (List.length ws / 16) H256 ws in
  fold_right (fun w s => String.append (hex_word 8 w) s) "" st.

Local Close Scope N_scope.
Local Open Scope string_scope.

(** ** A digest is 64 hexadecimal digits *)
Lemma hex_nibble_hex n : (n < 16)%N -> is_hex_lower (hex_nibble n) = true.
Proof.
  intros Hn. assert (H : forallb (fun n => is_hex_lower (hex_nibble n)) (map N.of_nat (seq 0 16)) = true) by done.
  apply (proj1 (forallb_forall _ _) H), in_map_iff. exists (N.to_nat n). rewrite N2Nat.id. split; [done|].
  apply in_seq. lia.
Qed.
Lemma hex_word_hex n x : all_chars is_hex_lower (hex_word n x) = true /\ len (hex_word n x) = n.
Proof.
  induction n as [|n [IH IHl]]; [done|]. cbn [hex_word all_chars len]. split; [|simpl; by rewrite IHl].
  rewrite IH, andb_true_r. apply hex_nibble_hex. rewrite (N.land_ones _ 4 : _ = _). by apply N.mod_lt.
Qed.
Lemma round_length st kw : List.length (round st kw) = List.length st.
Proof. unfold round. do 8 (destruct st as [|? st]; [done|]). by destruct st. Qed.
Lemma compress_length st block : List.length st = 8 -> List.length (compress st block) = 8.
Proof.
  intros H. unfold compress. rewrite length_zip_with.
  assert (Hf : forall kws st', List.length (fold_left round kws st') = List.length st').
  { induction kws as [|kw kws IH]; intros st'; [done|]. cbn [fold_left]. by rewrite IH, round_length. }
  rewrite Hf. lia.
Qed.
Lemma blocks_length n st ws : List.length st = 8 -> List.length (blocks n st ws) = 8.
Proof. revert st ws. induction n as [|n IH]; intros st ws H; [done|]. cbn [blocks]. by apply IH, compress_length. Qed.
Lemma sha256_hex_hex data : all_chars is_hex_lower (sha256_hex data) = true /\ len (sha256_hex data) = 64.
Proof.
  unfold sha256_hex. cbv zeta. set (st := blocks _ _ _).
  assert (Hl : List.length st = 8) by (by apply blocks_length). clearbody st.
  assert (H : all_chars is_hex_lower (fold_right (fun w s => String.append (hex_word 8 w) s) "" st) = true
              /\ len (fold_right (fun w s => String.append (hex_word 8 w) s) "" st) = 8 * List.length st);
    [|by rewrite Hl in H].
  clear Hl. induction st as [|w st [IH IHl]]; [done|]. cbn [fold_right].
  destruct (hex_word_hex 8 w) as [Hw Hlw]. rewrite all_chars_app, len_append, Hw, Hlw, IH, IHl. cbn [List.length]. split; [done | lia].
Qed.
