(* ===== verification/PyFs.v ===== *)
(** PyFs: [pathlib.Path] (POSIX) and the file system the checkers read.

    A path keeps its root (empty, one or two slashes) and its parts, with the
    empty and "." parts dropped, as [PurePosixPath] does; ".." stays.  The file
    system is an environment: what a path names, what the kernel resolves a path
    to, and which paths are symbolic links.  Files hold bytes; [read_text] decodes UTF-8 and
    translates newlines.  Permission errors are not modelled. *)
From S2P Require Import Prelude PyStr PyFloat PyJson Sha256.

Local Open Scope string_scope.

(** ** Paths *)
Record path : Set := MkPath { p_root : string; p_parts : list string }.

Definition parse_parts (s : string) : list string :=
  List.filter (fun x => negb (String.eqb x "") && negb (String.eqb x ".")) (split_on "/" s).

(** [Path(s)] *)
Definition Path (s : string) : path :=
  MkPath (if startswith s "///" then "/" else if startswith s "//" then "//"
          else if startswith s "/" then "/" else "") (parse_parts s).

(** [str(p)] and [p.as_posix()] *)
Definition path_str (p : path) : string :=
  match p_root p, p_parts p with
  | "", [] => "."
  | r, ps => r ++ join "/" ps
  end.
(** [p.parts] *)
Definition parts (p : path) : list string :=
  match p_root p with "" => p_parts p | r => r :: p_parts p end.
Definition is_absolute (p : path) : bool := negb (String.eqb (p_root p) "").
(** [p / s] *)
Definition join_path (p q : path) : path :=
  if is_absolute q then q else MkPath (p_root p) (p_parts p ++ p_parts q)%list.
Definition div_path (p : path) (s : string) : path := join_path p (Path s).
(** [p.parent], [p.name] *)
Definition parent (p : path) : path := MkPath (p_root p) (removelast (p_parts p)).
(** [p.parents]: the ancestors, from the nearest to the root. *)
Definition parents (p : path) : list path :=
  map (fun n => MkPath (p_root p) (firstn n (p_parts p))) (rev (seq 0 (List.length (p_parts p)))).
Definition name (p : path) : string := List.last (p_parts p) "".
(** [p.suffix]: from the last dot of the name, unless it starts or ends it. *)
Definition suffix (p : path) : string :=
  match rev (split_on "." (name p)) with
  | last :: x :: rest =>
      if String.eqb last "" then ""
      else if String.eqb x "" && match rest with [] => true | _ => false end then ""
      else "." ++ last
  | _ => ""
  end.

Fixpoint strs_eqb (xs ys : list string) : bool :=
  match xs, ys with
  | [], [] => true
  | x :: xs, y :: ys => String.eqb x y && strs_eqb xs ys
  | _, _ => false
  end.
Definition path_eqb (p q : path) : bool :=
  String.eqb (p_root p) (p_root q) && strs_eqb (p_parts p) (p_parts q).

(** [xs[:len(ys)] == ys] *)
Fixpoint is_prefix (ys xs : list string) : bool :=
  match ys, xs with
  | [], _ => true
  | y :: ys, x :: xs => String.eqb x y && is_prefix ys xs
  | _ :: _, [] => false
  end.

(** ** The file system *)
Inductive node : Set :=
| File (bytes : string)
| Dir (names : list string).

Record fs : Type := MkFs {
  fs_node : string -> option node;
  fs_resolve : path -> path;
  fs_symlink : path -> bool;
}.

(** A file system given by its files and directories, without symbolic links;
    relative paths resolve against [cwd]. *)
Fixpoint node_in (l : list (string * node)) (s : string) : option node :=
  match l with
  | [] => None
  | (k, n) :: l => if String.eqb k s then Some n else node_in l s
  end.
Fixpoint collapse (acc : list string) (ps : list string) : list string :=
  match ps with
  | [] => rev acc
  | x :: ps => if String.eqb x ".." then collapse (tl acc) ps else collapse (x :: acc) ps
  end.
Definition plain_resolve (cwd : path) (p : path) : path :=
  let q := join_path cwd p in MkPath (p_root q) (collapse [] (p_parts q)).
Definition fs_of (cwd : string) (l : list (string * node)) : fs :=
  MkFs (node_in l) (plain_resolve (Path cwd)) (fun _ => false).

Section Reading.
Variable F : fs.

Definition exists_ (p : path) : bool :=
  match fs_node F (path_str p) with Some _ => true | None => false end.
Definition is_file (p : path) : bool :=
  match fs_node F (path_str p) with Some (File _) => true | _ => false end.
Definition is_dir (p : path) : bool :=
  match fs_node F (path_str p) with Some (Dir _) => true | _ => false end.

Definition read_bytes (p : path) : result string :=
  match fs_node F (path_str p) with
  | Some (File b) => Ok b
  | Some (Dir _) => raise IsADirectoryError (path_str p)
  | None => raise FileNotFoundError (path_str p)
  end.

(** UTF-8: two-byte sequences for U+0080 .. U+00FF. *)
Fixpoint decode_utf8 (s : string) : result string :=
  match s with
  | "" => Ok ""
  | String c r =>
      let n := code c in
      if (n <? 128)%N then let* t := decode_utf8 r in Ok (String c t)
      else if (n =? 194)%N || (n =? 195)%N then
        match r with
        | String d r =>
            if between 128 191 d
            then let* t := decode_utf8 r in
                 Ok (String (ascii_of_N (64 * (n - 192) + (code d - 128))) t)
            else raise UnicodeDecodeError "invalid continuation byte"
        | "" => raise UnicodeDecodeError "unexpected end of data"
        end
      else if between 196 244 c then raise OutsideModel "text outside Latin-1"
      else raise UnicodeDecodeError "invalid start byte"
  end.

(** Universal newlines: CR LF and CR become LF. *)
Fixpoint newlines (s : string) : string :=
  match s with
  | "" => ""
  | String c r =>
      if (code c =? 13)%N then
        match r with
        | String d r' => String (ascii_of_N 10) (if (code d =? 10)%N then newlines r' else newlines r)
        | "" => String (ascii_of_N 10) ""
        end
      else String c (newlines r)
  end.

Definition read_text (p : path) : result string :=
  let* b := read_bytes p in
  let* t := decode_utf8 b in
  Ok (newlines t).

(** [p.read_text(errors=replace)]: the replacement character U+FFFD is
    outside Latin-1. *)
Definition read_text_replace (p : path) : result string :=
  reraise UnicodeDecodeError OutsideModel (fun e => exn_msg e) (read_text p).

(** [hashlib.sha256(p.read_bytes()).hexdigest()] *)
Definition sha256_of (p : path) : result string :=
  let* b := read_bytes p in Ok (sha256_hex b).

(** [child.name for child in p.glob("*.json") if child.is_file()]; a missing
    directory has no children. *)
Definition glob_suffix (p : path) (suffix : string) : list string :=
  match fs_node F (path_str p) with
  | Some (Dir names) =>
      List.filter (fun n => endswith n suffix && is_file (div_path p n)) names
  | _ => []
  end.

(** [sorted(p.glob("*.json"))]: the entries with the suffix, whatever they are. *)
Definition sorted_glob (p : path) (suffix : string) : list path :=
  match fs_node F (path_str p) with
  | Some (Dir names) => map (div_path p) (sorted (List.filter (fun n => endswith n suffix) names))
  | _ => []
  end.
End Reading.

(** The file at [p] and the digest of its bytes. *)
Definition file_digest (F : fs) (p : path) (digest : string) : Prop :=
  exists bytes, fs_node F (path_str p) = Some (File bytes) /\ digest = sha256_hex bytes.

(** ** Comparing paths *)
Lemma strs_eqb_eq xs ys : strs_eqb xs ys = true <-> xs = ys.
Proof.
  revert ys. induction xs as [|x xs IH]; intros [|y ys]; simpl; try (split; done).
  rewrite andb_true_iff, String.eqb_eq, IH. split; [intros [-> ->] | intros [= -> ->]]; done.
Qed.
Lemma path_eqb_eq p q : path_eqb p q = true <-> p = q.
Proof.
  unfold path_eqb. rewrite andb_true_iff, String.eqb_eq, strs_eqb_eq.
  destruct p, q; simpl. split; [intros [-> ->] | intros [= -> ->]]; done.
Qed.
Lemma is_prefix_spec ys xs : is_prefix ys xs = true <-> exists zs, xs = (ys ++ zs)%list.
Proof.
  revert xs. induction ys as [|y ys IH]; intros xs; simpl.
  - split; [by exists xs | done].
  - destruct xs as [|x xs]; [split; [done | by intros [? [=]]]|].
    rewrite andb_true_iff, String.eqb_eq, IH. split.
    + intros [-> [zs ->]]. by exists zs.
    + intros [zs [= -> ->]]. split; [done | by exists zs].
Qed.
(** The path is the root or a path below it. *)
Definition inside (root p : path) : Prop :=
  p_root p = p_root root /\ exists rest, p_parts p = (p_parts root ++ rest)%list.

Lemma firstn_prefix (xs ys : list string) :
  (exists n, n <= List.length ys /\ xs = firstn n ys) <-> exists zs, ys = (xs ++ zs)%list.
Proof.
  split.
  - intros (n & _ & ->). exists (skipn n ys). by rewrite firstn_skipn.
  - intros [zs ->]. exists (List.length xs). rewrite length_app, firstn_app, Nat.sub_diag, firstn_all. simpl.
    rewrite app_nil_r. split; [lia | done].
Qed.
(** [root in (p, *p.parents)] *)
Lemma inside_iff root p : existsb (path_eqb root) (p :: parents p) = true <-> inside root p.
Proof.
  assert (E : p :: parents p = map (fun n => MkPath (p_root p) (firstn n (p_parts p))) (rev (seq 0 (S (List.length (p_parts p)))))).
  { rewrite seq_S, rev_app_distr. cbn [app map rev plus]. rewrite firstn_all. by destruct p. }
  unfold inside. rewrite E, existsb_exists, <- firstn_prefix. setoid_rewrite in_map_iff.
  setoid_rewrite <- in_rev. setoid_rewrite in_seq. setoid_rewrite path_eqb_eq. split.
  - intros (q & (n & <- & Hn) & ->). simpl. split; [done|]. exists n. split; [lia | done].
  - intros [Hr (n & Hn & Hp)]. exists root. split; [|done]. exists n. destruct root. simpl in *. subst. split; [done | lia].
Qed.
#[export] Hint Rewrite strs_eqb_eq path_eqb_eq is_prefix_spec : pyok.

(** ** A relative path without ".." stays below the prefix it names *)
Lemma collapse_plain acc ps : ~ In ".." ps -> collapse acc ps = (rev acc ++ ps)%list.
Proof.
  revert acc. induction ps as [|x ps IH]; intros acc H; simpl; [by rewrite app_nil_r|].
  destruct (String.eqb_spec x "..") as [->|Hx]; [destruct H; by left|].
  rewrite IH by (intros ?; apply H; by right). simpl. by rewrite <- app_assoc.
Qed.
Lemma collapse_app acc ps qs : collapse acc (ps ++ qs) = collapse (rev (collapse acc ps)) qs.
Proof.
  revert acc. induction ps as [|x ps IH]; intros acc; simpl; [by rewrite rev_involutive|].
  destruct (String.eqb x ".."); apply IH.
Qed.

Lemma plain_resolve_relative cwd p :
  is_absolute p = false -> ~ In ".." (p_parts p) ->
  plain_resolve cwd p = MkPath (p_root cwd) (collapse [] (p_parts cwd) ++ p_parts p)%list.
Proof.
  intros Ha Hd. unfold plain_resolve, join_path. rewrite Ha. simpl. f_equal.
  rewrite collapse_app, collapse_plain by done. by rewrite rev_involutive.
Qed.

Lemma relative_parts p : is_absolute p = false -> p_root p = "" /\ parts p = p_parts p.
Proof.
  unfold is_absolute, parts. rewrite negb_false_iff, String.eqb_eq. intros ->. done.
Qed.

(** ** What reading raises *)
Definition read_class (c : exn_class) : Prop :=
  c = FileNotFoundError \/ c = IsADirectoryError \/ c = UnicodeDecodeError \/ c = OutsideModel.

Section ReadingRaises.
Variable F : fs.

Lemma read_bytes_raises p : raises read_class (read_bytes F p).
Proof. unfold read_bytes, read_class. solve_raises; auto. Qed.

Lemma decode_utf8_raises s : raises read_class (decode_utf8 s).
Proof.
  assert (H : forall n s, len s <= n -> raises read_class (decode_utf8 s)).
  { clear s. intros n. induction n as [|n IH]; intros [|c s] Hs; try apply raises_Ok;
      [unfold len in Hs; simpl in Hs; lia|].
    assert (Hl : len s <= n) by (unfold len in *; simpl in Hs; lia). simpl.
    destruct (code c <? 128)%N.
    { apply raises_bind; [by apply IH | intros ?; apply raises_Ok]. }
    destruct (_ || _).
    - destruct s as [|d s]; [apply raises_raise; unfold read_class; auto|].
      destruct (between 128 191 d); [|apply raises_raise; unfold read_class; auto].
      apply raises_bind; [apply IH; unfold len in *; simpl in Hl; lia | intros ?; apply raises_Ok].
    - destruct (between 196 244 c); apply raises_raise; unfold read_class; auto. }
  by apply (H (len s)).
Qed.

Lemma read_text_raises p : raises read_class (read_text F p).
Proof.
  unfold read_text. apply raises_bind; [apply read_bytes_raises|]. intros b.
  apply raises_bind; [apply decode_utf8_raises | intros ?; apply raises_Ok].
Qed.

Lemma sha256_of_raises p : raises read_class (sha256_of F p).
Proof. unfold sha256_of. apply raises_bind; [apply read_bytes_raises | intros ?; apply raises_Ok]. Qed.

Lemma sha256_of_ok p digest :
  sha256_of F p = Ok digest <-> file_digest F p digest.
Proof.
  unfold sha256_of, read_bytes, file_digest. destruct (fs_node F (path_str p)) as [[b|l]|]; simpl.
  - split; [intros [= <-]; by exists b | intros (? & [= <-] & ->); done].
  - split; [discriminate | naive_solver].
  - split; [discriminate | naive_solver].
Qed.
End ReadingRaises.

Lemma file_digest_is_file F p digest : file_digest F p digest -> is_file F p = true.
Proof. intros (b & H & _). unfold is_file. by rewrite H. Qed.

