(* ===== verification/Fields.v ===== *)
(** Fields: what the field readers of the checkers promise.

    Every checker module has its own [require_string], [require_bool],
    [require_object], ... with its own exception and messages.  A class per kind
    of reader states what such a function answers; the lemmas below turn the
    reads of a checker into facts about the object, and each module only proves
    that its readers are instances. *)
From S2P Require Import Prelude PyStr PyFloat PyJson Sha256 PyFs.

Local Open Scope string_scope.

Definition text_field (d : jobject) (field : string) : Prop := exists s, get d field = JStr s /\ s <> "".
Definition int_value (d : jobject) (field : string) : Prop := exists n, as_int (get d field) = Some n.
Definition text_in (d : jobject) (field : string) (l : list string) : Prop :=
  exists s, get d field = JStr s /\ In s l.

(** * The interfaces *)
Class TextReader (read : jobject -> string -> string -> result string) : Prop :=
  reads_text : forall d f c s, read d f c = Ok s <-> get d f = JStr s /\ s <> "".
Class BoolReader (read : jobject -> string -> string -> result bool) : Prop :=
  reads_bool : forall d f c b, read d f c = Ok b <-> get d f = JBool b.
Class IntReader (read : jobject -> string -> string -> result Z) : Prop :=
  reads_int : forall d f c n, read d f c = Ok n <-> as_int (get d f) = Some n.
Class ObjectReader (read : jobject -> string -> string -> result jobject) : Prop :=
  reads_object : forall d f c o, read d f c = Ok o <-> get d f = JDict o.
Class ListReader (read : jobject -> string -> string -> result (list json)) : Prop :=
  reads_list : forall d f c l, read d f c = Ok l <-> get d f = JList l.

(** The instances of a module: the readers are matches on the field. *)
Ltac solve_reader read :=
  intros d f c v; unfold read;
  destruct (get d f);
  try (match goal with |- context [String.eqb ?s ""] => destruct (String.eqb_spec s "") as [->|] end);
  naive_solver.

(** * Reads *)
Section Texts.
Context {read : jobject -> string -> string -> result string} {reader : TextReader read} {B : Type}.
Implicit Types (k : result B) (x : B).

Lemma text_any d f c k x : (let* _ := read d f c in k) = Ok x <-> text_field d f /\ k = Ok x.
Proof using reader. unfold text_field. rewrite bind_ok. setoid_rewrite reads_text. naive_solver. Qed.

Lemma text_is d f c lit E m k x : lit <> "" ->
  (let* s := read d f c in ensure (String.eqb s lit) E m ;;; k) = Ok x <-> get d f = JStr lit /\ k = Ok x.
Proof using reader.
  intros Hl. rewrite bind_ok. setoid_rewrite reads_text. setoid_rewrite bind_ok_unit. setoid_rewrite ensure_ok.
  setoid_rewrite String.eqb_eq. naive_solver.
Qed.
Lemma member_text d f c l E (m : string -> string) k x : mem "" l = false ->
  (let* s := read d f c in ensure (mem s l) E (m s) ;;; k) = Ok x <-> text_in d f l /\ k = Ok x.
Proof using reader.
  intros Hl. unfold text_in. rewrite bind_ok. setoid_rewrite reads_text. setoid_rewrite bind_ok_unit.
  setoid_rewrite ensure_ok. setoid_rewrite mem_In. split; [naive_solver|]. intros [(s & Hs & Hin) Hk]. exists s.
  assert (s <> "") by (intros ->; apply mem_In in Hin; congruence). done.
Qed.
Lemma text_path_is d f c q E m k x :
  (let* s := read d f c in ensure (path_eqb (Path s) q) E m ;;; k) = Ok x <->
  (exists s, get d f = JStr s /\ s <> "" /\ Path s = q) /\ k = Ok x.
Proof using reader.
  rewrite bind_ok. setoid_rewrite reads_text. setoid_rewrite bind_ok_unit. setoid_rewrite ensure_ok.
  setoid_rewrite path_eqb_eq. naive_solver.
Qed.
Lemma texts_each d fields c k x :
  (for_each fields (fun f => let* _ := read d f c in Ok tt) ;;; k) = Ok x <->
  (forall f, In f fields -> text_field d f) /\ k = Ok x.
Proof using reader.
  rewrite bind_ok_unit, for_each_ok, Forall_forall. setoid_rewrite list_elem_of_In.
  assert (H : forall f, (let* _ := read d f c in Ok tt) = Ok tt <-> text_field d f)
    by (intros f; unfold text_field; rewrite bind_ok; setoid_rewrite reads_text; naive_solver).
  by setoid_rewrite H.
Qed.
End Texts.

Section Others.
Context {B : Type}.
Implicit Types (k : result B) (x : B).

Lemma bool_true `{BoolReader read} d f c E m k x :
  (let* v := read d f c in ensure v E m ;;; k) = Ok x <-> get d f = JBool true /\ k = Ok x.
Proof.
  rewrite bind_ok. setoid_rewrite reads_bool. setoid_rewrite bind_ok_unit. setoid_rewrite ensure_ok. naive_solver.
Qed.
Lemma bool_false `{BoolReader read} d f c E m k x :
  (let* v := read d f c in ensure (negb v) E m ;;; k) = Ok x <-> get d f = JBool false /\ k = Ok x.
Proof.
  rewrite bind_ok. setoid_rewrite reads_bool. setoid_rewrite bind_ok_unit. setoid_rewrite ensure_ok.
  setoid_rewrite negb_true_iff. naive_solver.
Qed.
Lemma bool_true_last `{BoolReader read} d f c E m :
  (let* v := read d f c in ensure v E m) = Ok tt <-> get d f = JBool true.
Proof. rewrite bind_ok. setoid_rewrite reads_bool. setoid_rewrite ensure_ok. naive_solver. Qed.
Lemma any_int `{IntReader read} d f c k x : (let* _ := read d f c in k) = Ok x <-> int_value d f /\ k = Ok x.
Proof. unfold int_value. rewrite bind_ok. setoid_rewrite reads_int. naive_solver. Qed.
Lemma object_then `{ObjectReader read} d f c (k : jobject -> result B) x :
  (let* o := read d f c in k o) = Ok x <-> exists o, get d f = JDict o /\ k o = Ok x.
Proof. rewrite bind_ok. by setoid_rewrite reads_object. Qed.
Lemma list_then `{ListReader read} d f c (k : list json -> result B) x :
  (let* l := read d f c in k l) = Ok x <-> exists l, get d f = JList l /\ k l = Ok x.
Proof. rewrite bind_ok. by setoid_rewrite reads_list. Qed.
End Others.

(** A test that ends a function. *)
Lemma ensure_then b E m : ensure b E m = (ensure b E m ;;; Ok tt).
Proof. by destruct b. Qed.
Lemma each_then {A} (xs : list A) body : for_each xs body = (for_each xs body ;;; Ok tt).
Proof. by destruct (for_each xs body) as [[]|]. Qed.

(** A comprehension that keeps the texts of a list and refuses anything else. *)
Lemma map_texts {f : json -> result string} : (forall v s, f v = Ok s <-> v = JStr s) ->
  forall l ss, map_m f l = Ok ss <-> JList l = jstrs ss.
Proof.
  intros Hf vals ss. rewrite map_m_ok. unfold jstrs. split.
  - induction 1 as [|v s vs ts H _ IH]; [done|]. apply Hf in H as ->. by injection IH as ->.
  - intros [= ->]. induction ss; constructor; [by apply Hf | done].
Qed.

(** * Loaded objects *)
Definition holds_object (F : fs) (p : path) (d : jobject) : Prop :=
  exists text, read_text F p = Ok text /\ loads text = Ok (JDict d).

(** A loader that turns some exceptions into its own. *)
Lemma loads_dict F p (h : pyexn -> option (result json)) (k : json -> result jobject) d :
  (forall e r, h e = Some r -> exists e', r = Err e') -> (forall v, k v = Ok d <-> v = JDict d) ->
  bind (catch (bind (read_text F p) loads) h) k = Ok d <-> holds_object F p d.
Proof.
  intros Hh Hk. unfold holds_object. assert (Hc : forall m : result json, catch m h = m \/ exists e, catch m h = Err e /\ forall v, m <> Ok v).
  { intros [v|e]; cbn [catch]; [by left|]. destruct (h e) as [r|] eqn:E; [|by left]. destruct (Hh _ _ E) as (e' & ->). right. by exists e'. }
  split.
  - intros (v & Hv & ->%Hk)%bind_ok. destruct (Hc (bind (read_text F p) loads)) as [Hm|(e & Hm & _)]; rewrite Hm in Hv; [|discriminate].
    by apply bind_ok in Hv.
  - intros (text & Ht & Hl). apply bind_ok. exists (JDict d). split; [|by apply Hk]. rewrite Ht. cbn [bind]. by rewrite Hl.
Qed.
Ltac solve_loader :=
  apply loads_dict; [intros e r; repeat case_decide; intros [=]; subst; by eexists | intros []; split; (congruence || discriminate)].
