(* ===== verification/PyMain.v ===== *)
(** PyMain: how a checker process ends. *)
From S2P Require Import Prelude PyStr PyFloat PyJson Sha256 PyFs.

(** Exit status with what was printed, or an exception no handler caught. *)
Inductive exit : Type :=
| Exited (status : nat) (stdout stderr : list string)
| Uncaught (e : pyexn).

(** [try: raise SystemExit(run(argv)) except (classes) as exc: print(...); exit 1] *)
Definition run_main (caught : exn_class -> bool) (label : string) (r : result (list string)) : exit :=
  match r with
  | Ok out => Exited 0 out []
  | Err e =>
      if caught (exn_cls e) then Exited 1 [] [String.append label (String.append ": " (exn_str e))]
      else Uncaught e
  end.

Definition is_class (c : exn_class) : exn_class -> bool := fun d => bool_decide (d = c).

Lemma run_main_status caught label r :
  (exists out, run_main caught label r = Exited 0 out []) <-> is_ok r = true.
Proof.
  unfold run_main. destruct r as [out|e]; simpl.
  - split; [done | by exists out].
  - split; [|done]. intros [o H]. by destruct (caught (exn_cls e)).
Qed.

(** What a process left: its return code and the bytes of its outputs. *)
Record completed : Set := MkCompleted { returncode : Z; stdout : string; stderr : string }.
(** [subprocess.run(..., text=True)]: both outputs are decoded. *)
Definition in_text (c : completed) : result completed :=
  let* out := decode_utf8 (stdout c) in
  let* err := decode_utf8 (stderr c) in
  Ok (MkCompleted (returncode c) (newlines out) (newlines err)).

(** ** Runs over fixtures

    What such a run printed before it ended, and how it ended. *)
Definition printed : Type := list string * result unit.
Definition and_then (first next : printed) : printed :=
  match first with
  | (out, Ok _) => let '(out', r) := next in ((out ++ out')%list, r)
  | (out, Err e) => (out, Err e)
  end.
Definition silent (r : result unit) : printed := ([], r).
(** What prints nothing and goes on with its value. *)
Definition reading {A} (r : result A) (k : A -> printed) : printed :=
  match r with Ok a => k a | Err e => silent (Err e) end.
Definition printing (r : result (list string)) : printed := reading r (fun out => (out, Ok tt)).

(** [try: ... except (classes) as exc: print(...); return 1], keeping what was
    printed before. *)
Definition end_main (caught : exn_class -> bool) (label : string) (ran : printed) : exit :=
  match ran with
  | (out, Ok _) => Exited 0 out []
  | (out, Err e) =>
      if caught (exn_cls e) then Exited 1 out [String.append label (String.append ": " (exn_str e))] else Uncaught e
  end.
Definition exits_well (e : exit) : Prop := exists out, e = Exited 0 out [].

Section Fixtures.
Context {A : Type}.
Variable validate : A -> result unit.

(** [for valid in paths: validate(valid); print(...)] *)
Fixpoint accept_each (accepting : A -> string) (valid_paths : list A) : printed :=
  match valid_paths with
  | [] => silent (Ok tt)
  | valid :: rest =>
      and_then (silent (validate valid)) (and_then ([accepting valid], Ok tt) (accept_each accepting rest))
  end.

(** [for invalid in paths: try: validate(invalid) except ...: print(...); continue; raise ...] *)
Fixpoint reject_each (caught : exn_class -> bool) (rejecting : A -> pyexn -> string) (unexpected : A -> pyexn)
    (invalid_paths : list A) : printed :=
  match invalid_paths with
  | [] => silent (Ok tt)
  | invalid :: rest =>
      match validate invalid with
      | Ok _ => silent (Err (unexpected invalid))
      | Err e =>
          if caught (exn_cls e)
          then and_then ([rejecting invalid e], Ok tt) (reject_each caught rejecting unexpected rest)
          else silent (Err e)
      end
  end.

(** It is refused by the checker, rather than by an exception of another class. *)
Definition refused (caught : exn_class -> bool) (a : A) : Prop :=
  exists e, validate a = Err e /\ caught (exn_cls e) = true.
End Fixtures.

Lemma and_then_ok a b : snd (and_then a b) = Ok tt <-> snd a = Ok tt /\ snd b = Ok tt.
Proof. destruct a as [o [[]|e]], b as [o' r]; simpl; [tauto | split; [discriminate | by intros []]]. Qed.
Lemma printing_ok r out : printing r = (out, Ok tt) <-> r = Ok out.
Proof. unfold printing, reading, silent. destruct r as [o|e]; split; congruence. Qed.
Lemma accept_each_ok {A} validate accepting (ps : list A) :
  snd (accept_each validate accepting ps) = Ok tt <-> Forall (fun p => validate p = Ok tt) ps.
Proof.
  induction ps as [|p ps IH]; [split; [constructor | done]|]. cbn [accept_each].
  rewrite Forall_cons, <- IH, !and_then_ok. simpl. tauto.
Qed.
Lemma reject_each_ok {A} validate caught rejecting unexpected (ps : list A) :
  snd (reject_each validate caught rejecting unexpected ps) = Ok tt <-> Forall (refused validate caught) ps.
Proof.
  unfold refused. induction ps as [|p ps IH]; [split; [constructor | done]|]. cbn [reject_each].
  rewrite Forall_cons, <- IH. destruct (validate p) as [[]|e].
  - split; [discriminate | by intros [(? & ? & _) _]].
  - destruct (caught (exn_cls e)) eqn:Ec; [rewrite and_then_ok|]; naive_solver congruence.
Qed.
Lemma end_main_ok caught label ran : exits_well (end_main caught label ran) <-> snd ran = Ok tt.
Proof.
  unfold exits_well, end_main. destruct ran as [out [[]|e]]; simpl.
  - split; [done | by exists out].
  - split; [|done]. intros [o H]. by destruct (caught (exn_cls e)).
Qed.
