(* ===== verification/Attestation.v ===== *)
(** Attestation: qa/vm/attestation_check.py, what a virtual machine attests
    about itself before it is trusted with a scheduler.

    [git rev-parse HEAD] is a parameter; the self-test of the file (test data) is
    an argument of [main]. *)
From S2P Require Import Prelude PyStr PyFloat PyJson Sha256 PyFs PyMain Fields.

Local Open Scope string_scope.

Definition SCHEMA : string := "zig-scheduler/vm-attestation/v1".
Definition VM_MARKER : string := "/run/zig-scheduler-vm-lab.marker".
Definition SUPPORTED_ARCH : string := "x86_64".
Definition MIN_KERNEL : Z * Z := (6, 12)%Z.

Record Args : Set := MkArgs { input_path : option path; self_test_arg : bool }.

Definition fail {A} (m : string) : result A := raise AttestationError m.

Definition parse_args (argv : list string) : result Args :=
  let usage := fail "usage: attestation_check.py --input <attestation.json> | --self-test" in
  match argv with
  | [a] => if String.eqb a "--self-test" then Ok (MkArgs None true) else usage
  | [a; p] => if String.eqb a "--input" then Ok (MkArgs (Some (Path p)) false) else usage
  | _ => usage
  end.

Definition require_string (data : jobject) (field context : string) : result string :=
  match get data field with
  | JStr value =>
      if String.eqb value "" then fail (context ++ " missing non-empty string field: " ++ field) else Ok value
  | _ => fail (context ++ " missing non-empty string field: " ++ field)
  end.
Definition require_bool (data : jobject) (field context : string) : result bool :=
  match get data field with
  | JBool b => Ok b
  | _ => fail (context ++ " missing bool field: " ++ field)
  end.
Definition require_object (data : jobject) (field context : string) : result jobject :=
  match get data field with
  | JDict d => Ok d
  | _ => fail (context ++ " missing object field: " ++ field)
  end.

(** ** The kernel *)

(** [int(''.join(ch for ch in text if ch.isdigit()))] *)
Definition digits_of (text : string) : result Z := int_of_isdigit (filter_chars is_digit_uni text).

Definition parse_kernel (release : string) : result (Z * Z) :=
  match split_on "." release with
  | major :: minor :: _ =>
      let* major := digits_of major in
      let* minor := digits_of minor in
      Ok (major, minor)
  | _ => fail ("kernel release is malformed: " ++ release)
  end.

(** [(major, minor) < MIN_KERNEL] *)
Definition version_lt (v w : Z * Z) : bool :=
  ((fst v <? fst w) || ((fst v =? fst w) && (snd v <? snd w)))%Z.

Definition validate_tuple (data : jobject) : result unit :=
  let* kernel := require_object data "kernel_tuple" "attestation" in
  let* release := require_string kernel "release" "attestation.kernel_tuple" in
  let* arch := require_string kernel "arch" "attestation.kernel_tuple" in
  let* version := parse_kernel release in
  ensure (negb (negb (String.eqb arch SUPPORTED_ARCH) || version_lt version MIN_KERNEL)) AttestationError
    ("unsupported kernel tuple: " ++ release ++ "/" ++ arch) ;;;
  let* btf := require_bool data "btf_present" "attestation" in
  ensure btf AttestationError "BTF is required" ;;;
  let* jit := require_bool data "bpf_jit_enabled" "attestation" in
  ensure jit AttestationError "BPF JIT is required" ;;;
  let* ext := require_bool data "sched_class_ext_enabled" "attestation" in
  ensure ext AttestationError "CONFIG_SCHED_CLASS_EXT is required".

Definition reject_host_path (value context : string) : result unit :=
  ensure (negb (is_absolute (Path value) && (startswith value "/sys/" || startswith value "/proc/sys/"))) AttestationError
    (context ++ " uses host system path: " ++ value).

Section Checker.
Variable F : fs.
Variable git_rev_parse : result completed.

Definition load_object (p : path) : result jobject :=
  let* raw := catch (bind (read_text F p) loads) (fun exc =>
    if decide (exn_cls exc = FileNotFoundError) then Some (fail ("missing attestation: " ++ path_str p))
    else if decide (exn_cls exc = JSONDecodeError) then Some (fail ("invalid attestation JSON: " ++ exn_str exc))
    else None) in
  match raw with JDict d => Ok d | _ => fail "attestation must be a JSON object" end.

(** [subprocess.run([...], check=True, stdout=PIPE, text=True)] *)
Definition current_git_sha : result string :=
  let* result := git_rev_parse in
  let* out := decode_utf8 (stdout result) in
  ensure (Z.eqb (returncode result) 0) CalledProcessError
    ("Command '['git', 'rev-parse', 'HEAD']' returned non-zero exit status " ++ str_Z (returncode result) ++ ".") ;;;
  Ok (strip (newlines out)).

Definition validate_attestation (p : path) : result unit :=
  let* data := load_object p in
  let* schema := require_string data "schema" "attestation" in
  ensure (String.eqb schema SCHEMA) AttestationError "unsupported attestation schema" ;;;
  let* status := require_string data "status" "attestation" in
  ensure (String.eqb status "PASS") AttestationError "attestation status must be PASS" ;;;
  let* host_mutation := require_bool data "host_mutation" "attestation" in
  ensure (negb host_mutation) AttestationError "attestation host_mutation must be false" ;;;
  let* marker := require_bool data "vm_marker_present" "attestation" in
  ensure marker AttestationError "VM marker is missing" ;;;
  let* marker_path := require_string data "vm_marker_path" "attestation" in
  ensure (String.eqb marker_path VM_MARKER) AttestationError "VM marker path mismatch" ;;;
  let* git_sha := require_string data "git_sha" "attestation" in
  let* current := current_git_sha in
  ensure (String.eqb git_sha current) AttestationError "attestation git_sha is stale" ;;;
  let* copied := require_bool data "copied_from_guest" "attestation" in
  ensure copied AttestationError "attestation was not copied out from the guest" ;;;
  let* source_path := require_string data "source_path" "attestation" in
  reject_host_path source_path "attestation.source_path" ;;;
  let* transcript := require_string data "transcript_path" "attestation" in
  ensure (negb (is_absolute (Path transcript) || mem ".." (parts (Path transcript)) || negb (exists_ F (Path transcript))))
    AttestationError "attestation transcript path is unsafe or missing" ;;;
  validate_tuple data.

Definition run (self_test : printed) (argv : list string) : printed :=
  reading (parse_args argv) (fun args =>
  if self_test_arg args then self_test else
  match input_path args with
  | Some p => reading (validate_attestation p) (fun _ => (["PASS VM attestation: " ++ path_str p], Ok tt))
  | None => silent (fail "internal argument parser error")
  end).

Definition main (self_test : printed) (argv : list string) : exit :=
  end_main (fun c => is_class AttestationError c || is_ValueError c || is_class CalledProcessError c)
    "FAIL VM attestation" (run self_test argv).
End Checker.

(** * Specification *)

(** What git answers, without the surrounding white space. *)
Definition head_is (git_rev_parse : result completed) (sha : string) : Prop :=
  exists c out, git_rev_parse = Ok c /\ decode_utf8 (stdout c) = Ok out /\ returncode c = 0%Z /\ sha = strip (newlines out).

(** The version a release is read as: the digits of the parts before the first
    and the second dot. *)
Definition reads_version (release : string) (major minor : Z) : Prop :=
  exists a b rest, split_on "." release = a :: b :: rest /\ digits_of a = Ok major /\ digits_of b = Ok minor.
Definition host_path (s : string) : Prop :=
  is_absolute (Path s) = true /\ exists rest, s = "/sys/" ++ rest \/ s = "/proc/sys/" ++ rest.

Definition tuple_ok (d : jobject) : Prop :=
  (exists kernel release major minor, get d "kernel_tuple" = JDict kernel /\ get kernel "release" = JStr release /\ release <> ""
     /\ get kernel "arch" = JStr SUPPORTED_ARCH /\ reads_version release major minor
     /\ (6 < major \/ major = 6 /\ 12 <= minor)%Z)
  /\ get d "btf_present" = JBool true /\ get d "bpf_jit_enabled" = JBool true /\ get d "sched_class_ext_enabled" = JBool true.

Record attestation_ok (F : fs) (git_rev_parse : result completed) (d : jobject) : Prop := {
  at_schema : get d "schema" = JStr SCHEMA;
  at_status : get d "status" = JStr "PASS";
  at_host : get d "host_mutation" = JBool false;
  at_marker : get d "vm_marker_present" = JBool true /\ get d "vm_marker_path" = JStr VM_MARKER;
  at_git : exists sha, get d "git_sha" = JStr sha /\ sha <> "" /\ head_is git_rev_parse sha;
  at_copied : get d "copied_from_guest" = JBool true;
  at_source : exists s, get d "source_path" = JStr s /\ s <> "" /\ ~ host_path s;
  at_transcript : exists s, get d "transcript_path" = JStr s /\ s <> ""
    /\ is_absolute (Path s) = false /\ ~ In ".." (p_parts (Path s)) /\ exists_ F (Path s) = true;
  at_tuple : tuple_ok d;
}.

(** ** Lemmas *)
#[local] Instance text_reader : TextReader require_string.
Proof. solve_reader require_string. Qed.
#[local] Instance bool_reader : BoolReader require_bool.
Proof. solve_reader require_bool. Qed.
#[local] Instance object_reader : ObjectReader require_object.
Proof. solve_reader require_object. Qed.

Lemma version_ok release version : parse_kernel release = Ok version <-> reads_version release (fst version) (snd version).
Proof.
  unfold parse_kernel, reads_version. destruct (split_on "." release) as [|a [|b rest]].
  - split; [discriminate | by intros (? & ? & ? & [=] & _)].
  - split; [discriminate | by intros (? & ? & ? & [=] & _)].
  - split.
    + intros (major & Hm & (minor & Hn & [= <-])%bind_ok)%bind_ok. by exists a, b, rest.
    + intros (? & ? & ? & [= <- <- <-] & -> & ->). by destruct version.
Qed.

Lemma head_ok git sha : current_git_sha git = Ok sha <-> head_is git sha.
Proof.
  unfold current_git_sha, head_is. split.
  - intros (c & Hc & (out & Ho & [Hr%ensure_ok%Z.eqb_eq [= <-]]%bind_ok_unit)%bind_ok)%bind_ok. by exists c, out.
  - intros (c & out & -> & Ho & Hr & ->). cbn [bind]. rewrite Ho. cbn [bind]. by rewrite Hr.
Qed.

Lemma host_path_ok s context : reject_host_path s context = Ok tt <-> ~ host_path s.
Proof.
  unfold reject_host_path, host_path. rewrite ensure_ok, negb_true_iff, <- not_true_iff_false, andb_true_iff, orb_true_iff, !startswith_iff.
  naive_solver.
Qed.

Lemma old_enough version : version_lt version MIN_KERNEL = false <-> (6 < fst version \/ fst version = 6 /\ 12 <= snd version)%Z.
Proof. unfold version_lt, MIN_KERNEL. cbn [fst snd]. rewrite orb_false_iff, andb_false_iff, Z.ltb_ge, Z.eqb_neq, Z.ltb_ge. lia. Qed.

Lemma tuple_accepted d : validate_tuple d = Ok tt <-> tuple_ok d.
Proof.
  unfold validate_tuple, tuple_ok. split.
  - intros (kernel & Hk%reads_object & (release & [Hr Hne]%reads_text & (arch & [Ha _]%reads_text & (version & Hv%version_ok &
      [Hs%ensure_ok Hb]%bind_ok_unit)%bind_ok)%bind_ok)%bind_ok)%bind_ok.
    rewrite negb_true_iff, orb_false_iff, negb_false_iff, String.eqb_eq, old_enough in Hs. destruct Hs as [-> Hs].
    rewrite !bool_true, bool_true_last in Hb. split; [|done]. by exists kernel, release, (fst version), (snd version).
  - intros [(kernel & release & major & minor & Hk & Hr & Hne & Ha & Hv & Hs) Hb].
    rewrite (proj2 (reads_object _ _ _ kernel)) by done. cbn [bind].
    rewrite (proj2 (reads_text _ _ _ release)) by done. cbn [bind].
    rewrite (proj2 (reads_text _ _ _ SUPPORTED_ARCH)) by done. cbn [bind].
    rewrite (proj2 (version_ok release (major, minor))) by done. cbn [bind].
    rewrite bind_ok_unit, ensure_ok, negb_true_iff, orb_false_iff, old_enough, !bool_true, bool_true_last. done.
Qed.

Lemma transcript_ok F s E m : ensure (negb (is_absolute (Path s) || mem ".." (parts (Path s)) || negb (exists_ F (Path s)))) E m = Ok tt <->
  is_absolute (Path s) = false /\ ~ In ".." (p_parts (Path s)) /\ exists_ F (Path s) = true.
Proof.
  assert (Hm : mem ".." (parts (Path s)) = false <-> ~ In ".." (parts (Path s))) by (rewrite <- mem_In; by destruct (mem _ _)).
  rewrite ensure_ok, negb_true_iff, !orb_false_iff, negb_false_iff, Hm. clear Hm.
  split; [intros [[Ha Hd] He] | intros (Ha & Hd & He)]; destruct (relative_parts (Path s) Ha) as [_ Hp]; rewrite Hp in *; done.
Qed.

Lemma attestation_accepted F git p : validate_attestation F git p = Ok tt <->
  exists d, holds_object F p d /\ attestation_ok F git d.
Proof.
  assert (Hload : forall d, load_object F p = Ok d <-> holds_object F p d).
  { intros d. solve_loader. }
  unfold validate_attestation. rewrite bind_ok. setoid_rewrite Hload. apply exist_proper. intros d. apply and_iff_compat_l.
  rewrite (text_is d "schema"), (text_is d "status"), bool_false, bool_true, (text_is d "vm_marker_path") by done. split.
  - intros (Hs & Ht & Hh & Hm & Hp & (sha & [Hg Hne]%reads_text & (head & Hhead%head_ok & [->%ensure_ok%String.eqb_eq H]%bind_ok_unit)%bind_ok)%bind_ok).
    rewrite bool_true in H. destruct H as [Hc (src & [Hsrc Hsne]%reads_text & [Hhp%host_path_ok (t & [Htr Htne]%reads_text &
      [Hsafe%transcript_ok Htup%tuple_accepted]%bind_ok_unit)%bind_ok]%bind_ok_unit)%bind_ok].
    split; try done; [by exists head | by exists src | by exists t].
  - intros [Hs Ht Hh [Hm Hp] (sha & Hg & Hne & Hhead) Hc (src & Hsrc & Hsne & Hhp) (t & Htr & Htne & Hsafe) Htup].
    split_and!; try done. rewrite (proj2 (reads_text _ _ _ sha)) by done. cbn [bind].
    rewrite (proj2 (head_ok _ sha)) by done. cbn [bind]. rewrite String.eqb_refl. cbn [ensure bind].
    rewrite bool_true. split; [done|]. rewrite (proj2 (reads_text _ _ _ src)) by done. cbn [bind].
    rewrite bind_ok_unit, host_path_ok. split; [done|]. rewrite (proj2 (reads_text _ _ _ t)) by done. cbn [bind].
    by rewrite bind_ok_unit, transcript_ok, tuple_accepted.
Qed.

Lemma undotted_split s : all_chars (fun c => negb (Ascii.eqb c ".")) s = true -> split_on "." s = [s].
Proof.
  induction s as [|c s IH]; [done|]. cbn [all_chars split_on]. rewrite andb_true_iff, negb_true_iff. intros [-> H]. by rewrite IH.
Qed.
Lemma dotted_split a b : all_chars (fun c => negb (Ascii.eqb c ".")) a = true -> split_on "." (a ++ String "." b) = a :: split_on "." b.
Proof.
  induction a as [|c a IH]; [done|]. rewrite append_cons. cbn [all_chars split_on]. rewrite andb_true_iff, negb_true_iff.
  intros [-> H]. by rewrite IH.
Qed.

(** *** Reading the digits of a text *)
Lemma filter_app p a b : filter_chars p (a ++ b) = filter_chars p a ++ filter_chars p b.
Proof. induction a as [|c a IH]; [done|]. rewrite append_cons. cbn [filter_chars]. destruct (p c); [by rewrite append_cons, IH | done]. Qed.
Lemma filter_digits a : all_chars is_digit a = true -> filter_chars is_digit_uni a = a.
Proof.
  induction a as [|c a IH]; [done|]. cbn [all_chars filter_chars]. intros [Hc H]%andb_true_iff.
  assert (is_digit_uni c = true) as -> by (unfold is_digit_uni; by rewrite Hc). by rewrite IH.
Qed.
Lemma digits_undotted a : all_chars is_digit a = true -> all_chars (fun c => negb (Ascii.eqb c ".")) a = true.
Proof.
  induction a as [|c a IH]; [done|]. cbn [all_chars]. rewrite !andb_true_iff. intros [Hc H]. split; [|by apply IH].
  apply negb_true_iff, Ascii.eqb_neq. by intros ->.
Qed.
Lemma dec_value_app acc a b : dec_value acc (a ++ b) = dec_value (dec_value acc a) b.
Proof. revert acc. induction a as [|c a IH]; intros acc; [done|]. apply IH. Qed.
Lemma dec_value_mono acc b : (0 <= acc)%Z -> (acc <= dec_value acc b)%Z.
Proof.
  revert acc. induction b as [|c b IH]; intros acc Ha; [done|]. cbn [dec_value].
  assert (0 <= digit_val c \/ digit_val c < 0)%Z as [Hc|Hc] by lia; [|unfold digit_val in Hc; lia].
  specialize (IH (10 * acc + digit_val c)%Z). lia.
Qed.
Lemma dec_value_more acc b : (0 <= acc)%Z -> b <> "" -> (10 * acc <= dec_value acc b)%Z.
Proof.
  destruct b as [|c b]; [done|]. intros Ha _. cbn [dec_value]. assert (0 <= digit_val c)%Z by (unfold digit_val; lia).
  pose proof (dec_value_mono (10 * acc + digit_val c) b). lia.
Qed.

Lemma isdecimal_iff s : isdecimal s = true <-> s <> "" /\ all_chars is_digit s = true.
Proof. unfold isdecimal. by rewrite andb_true_iff, negb_true_iff, String.eqb_neq. Qed.

Lemma digits_read s : isdecimal s = true -> len s <= MAX_STR_DIGITS -> int_of_isdigit s = Ok (dec_value 0 s).
Proof. unfold int_of_isdigit, int_of_digits. intros -> Hl%Nat.ltb_ge. by rewrite Hl. Qed.

Lemma len_filter p s : len (filter_chars p s) <= len s.
Proof.
  induction s as [|c s IH]; [done|]. cbn [filter_chars]. change (len (String c s)) with (S (len s)).
  destruct (p c); [change (len (String c (filter_chars p s))) with (S (len (filter_chars p s)))|]; lia.
Qed.
(** A minor version with a suffix that has digits but no dot is read with the
    digits of the suffix; with a dot before the suffix it is read alone. *)
Lemma suffix_read minor suffix :
  isdecimal minor = true -> all_chars (fun c => negb (Ascii.eqb c ".")) suffix = true ->
  isdecimal (filter_chars is_digit_uni suffix) = true -> len (minor ++ suffix) <= MAX_STR_DIGITS ->
  reads_version ("6." ++ minor ++ suffix) 6 (dec_value 0 (minor ++ filter_chars is_digit_uni suffix)).
Proof.
  intros [Hne Hm]%isdecimal_iff Hs [Hdne Hd]%isdecimal_iff Hl. exists "6", (minor ++ suffix), []. split; [|split; [done|]].
  - change ("6." ++ minor ++ suffix) with ("6" ++ String "." (minor ++ suffix)). rewrite dotted_split by done.
    rewrite undotted_split; [done|]. rewrite all_chars_app, Hs, digits_undotted by done. done.
  - unfold digits_of. rewrite filter_app, (filter_digits minor) by done. apply digits_read.
    + apply isdecimal_iff. rewrite all_chars_app, Hm, Hd. split; [by destruct minor | done].
    + rewrite len_append in *. pose proof (len_filter is_digit_uni suffix). lia.
Qed.
Lemma dotted_read minor suffix : isdecimal minor = true -> len minor <= MAX_STR_DIGITS ->
  reads_version ("6." ++ minor ++ "." ++ suffix) 6 (dec_value 0 minor).
Proof.
  intros Hm Hl. pose proof Hm as [_ Hd]%isdecimal_iff. exists "6", minor, (split_on "." suffix). split; [|split; [done|]].
  - change ("6." ++ minor ++ "." ++ suffix) with ("6" ++ String "." (minor ++ String "." suffix)).
    by rewrite !dotted_split by (done || by apply digits_undotted).
  - unfold digits_of. rewrite filter_digits by done. by apply digits_read.
Qed.

(** The same attestation but for its kernel. *)
Lemma other_kernel F git d d0 kernel release major minor :
  attestation_ok F git d0 -> (forall k, k <> "kernel_tuple" -> get d k = get d0 k) ->
  get d "kernel_tuple" = JDict kernel -> get kernel "arch" = JStr SUPPORTED_ARCH -> get kernel "release" = JStr release ->
  release <> "" -> reads_version release major minor ->
  attestation_ok F git d <-> (6 < major \/ major = 6 /\ 12 <= minor)%Z.
Proof.
  intros H0 Hd Hk Ha Hr Hne Hv. split.
  - intros [_ _ _ _ _ _ _ _ [(kernel' & release' & major' & minor' & Hk' & Hr' & _ & _ & Hv' & Hs) _]].
    rewrite Hk in Hk'. injection Hk' as <-. rewrite Hr in Hr'. injection Hr' as <-.
    apply (version_ok _ (_, _)) in Hv, Hv'. rewrite Hv in Hv'. by injection Hv' as <- <-.
  - intros Hs. destruct H0 as [H1 H2 H3 H4 H5 H6 H7 H8 [_ H9]].
    split; rewrite ?Hd by discriminate; try done. split; [by exists kernel, release, major, minor|].
    by rewrite !Hd by discriminate.
Qed.

Lemma attestation_exits F git self_test p :
  exits_well (main F git self_test ["--input"; p]) <->
  exists d, holds_object F (Path p) d /\ attestation_ok F git d.
Proof.
  rewrite <- attestation_accepted. unfold main. rewrite end_main_ok. unfold run.
  cbn [parse_args String.eqb Ascii.eqb Bool.eqb reading self_test_arg input_path].
  destruct (validate_attestation F git (Path p)) as [[]|e]; simpl; by split.
Qed.

(** ** Properties *)

(** C31: the checker exits with status 0 exactly when the attestation is an object
    that passed inside a marked virtual machine, without host mutation, on the
    commit that is checked out; that was copied out of the guest, from a path that
    is not one of the host; whose transcript exists below the working directory;
    and whose kernel is x86_64 of at least version 6.12, by the digits of its
    first two parts, with BTF, the BPF JIT and sched_ext. *)
Theorem vm_attestation_iff F git self_test p :
  exits_well (main F git self_test ["--input"; p]) <->
  exists d, holds_object F (Path p) d /\ attestation_ok F git d.
Proof. apply attestation_exits. Qed.

(** C32: a kernel that is too old passes.  The minor version is read as all the
    digits of the second part of the release, also those of a suffix: an
    attestation that is in order but for a kernel 6.minor with a minor version
    from 2 on passes when a suffix with digits and without a dot follows (6.9-rc2 is
    read as 6.92), although with a dot before the same suffix (6.9.0-rc2) it is
    refused below 6.12. *)
Theorem suffix_digits_raise_the_version F git self_test p d d0 kernel minor suffix
    (Hfile : holds_object F (Path p) d)
    (Hrest : attestation_ok F git d0) (Hsame : forall k, k <> "kernel_tuple" -> get d k = get d0 k)
    (Hkernel : get d "kernel_tuple" = JDict kernel) (Harch : get kernel "arch" = JStr SUPPORTED_ARCH)
    (Hminor : isdecimal minor = true) (Hdots : all_chars (fun c => negb (Ascii.eqb c ".")) suffix = true)
    (Hdigits : isdecimal (filter_chars is_digit_uni suffix) = true) (Hlen : len (minor ++ suffix) <= MAX_STR_DIGITS) :
  (get kernel "release" = JStr ("6." ++ minor ++ suffix) -> (2 <= dec_value 0 minor)%Z ->
     exits_well (main F git self_test ["--input"; p]))
  /\ (get kernel "release" = JStr ("6." ++ minor ++ "." ++ suffix) -> (dec_value 0 minor < 12)%Z ->
     ~ exits_well (main F git self_test ["--input"; p])).
Proof.
  split; intros Hr Hv.
  - apply attestation_exits. exists d. split; [done|].
    apply (other_kernel F git d d0 kernel _ 6 (dec_value 0 (minor ++ filter_chars is_digit_uni suffix)) Hrest Hsame Hkernel Harch Hr);
      [done | by apply suffix_read|]. right. split; [done|].
    apply isdecimal_iff in Hdigits as [Hne _]. rewrite dec_value_app. pose proof (dec_value_more (dec_value 0 minor) _ ltac:(lia) Hne). lia.
  - intros (d' & (t & Ht & Hl) & H)%attestation_exits. destruct Hfile as (t' & Ht' & Hl').
    rewrite Ht in Ht'. injection Ht' as <-. rewrite Hl in Hl'. injection Hl' as ->. rewrite len_append in Hlen.
    apply (other_kernel F git d d0 kernel _ 6 (dec_value 0 minor) Hrest Hsame Hkernel Harch Hr) in H; [|done | apply dotted_read; [done | lia]]. lia.
Qed.

(** An attestation of a machine with this kernel release. *)
Definition demo_attestation (release : string) : jobject := [
  ("schema", JStr SCHEMA); ("status", JStr "PASS"); ("host_mutation", JBool false); ("vm_marker_present", JBool true);
  ("vm_marker_path", JStr VM_MARKER); ("git_sha", JStr "abc"); ("copied_from_guest", JBool true);
  ("source_path", JStr "/guest/attestation.json"); ("transcript_path", JStr "transcript.jsonl");
  ("kernel_tuple", JDict [("release", JStr release); ("arch", JStr SUPPORTED_ARCH)]);
  ("btf_present", JBool true); ("bpf_jit_enabled", JBool true); ("sched_class_ext_enabled", JBool true)].
Definition demo_files (release : string) : fs := fs_of "/repo" [
  ("attestation.json", File (dumps (JDict (demo_attestation release)))); ("transcript.jsonl", File "")].
Definition demo_git : result completed := Ok (MkCompleted 0 ("abc" ++ chr 10) "").

Lemma suffix_digits_raise_the_version_witness :
  exits_well (main (demo_files "6.9-rc2") demo_git (silent (Ok tt)) ["--input"; "attestation.json"])
  /\ ~ exits_well (main (demo_files "6.9.0-rc2") demo_git (silent (Ok tt)) ["--input"; "attestation.json"]).
Proof.
  assert (Hok : forall r, exists_ (demo_files r) (Path "transcript.jsonl") = true ->
    attestation_ok (demo_files r) demo_git (demo_attestation "6.12")).
  { intros r Hr. destruct (proj1 (attestation_exits (demo_files "6.12") demo_git (silent (Ok tt)) "attestation.json")) as (d & (t & Ht & Hl) & H).
    - eexists. vm_compute. reflexivity.
    - vm_compute in Ht. injection Ht as <-. vm_compute in Hl. injection Hl as <-. destruct H as [H1 H2 H3 H4 H5 H6 H7 _ H9].
      split; try assumption. exists "transcript.jsonl". split; [reflexivity|]. split; [discriminate|]. split; [reflexivity|].
      split; [intros [H|[]]; discriminate H | exact Hr]. }
  assert (Hsame : forall r k, k <> "kernel_tuple" -> get (demo_attestation r) k = get (demo_attestation "6.12") k).
  { intros r k Hk. apply String.eqb_neq in Hk. unfold get, demo_attestation. cbn [jlookup]. rewrite Hk. reflexivity. }
  split.
  - apply (suffix_digits_raise_the_version (demo_files "6.9-rc2") demo_git (silent (Ok tt)) "attestation.json"
      (demo_attestation "6.9-rc2") (demo_attestation "6.12")
      [("release", JStr "6.9-rc2"); ("arch", JStr SUPPORTED_ARCH)] "9" "-rc2");
      [eexists; split; [vm_compute; reflexivity|]; vm_compute; reflexivity | apply Hok; vm_compute; reflexivity | apply Hsame | reflexivity | reflexivity
      |reflexivity | reflexivity | reflexivity | apply Nat.leb_le; vm_compute; reflexivity | reflexivity | vm_compute; discriminate].
  - apply (suffix_digits_raise_the_version (demo_files "6.9.0-rc2") demo_git (silent (Ok tt)) "attestation.json"
      (demo_attestation "6.9.0-rc2") (demo_attestation "6.12")
      [("release", JStr "6.9.0-rc2"); ("arch", JStr SUPPORTED_ARCH)] "9" "0-rc2");
      [eexists; split; [vm_compute; reflexivity|]; vm_compute; reflexivity | apply Hok; vm_compute; reflexivity | apply Hsame | reflexivity | reflexivity
      |reflexivity | reflexivity | reflexivity | apply Nat.leb_le; vm_compute; reflexivity | reflexivity | reflexivity].
Defined.
