(* ===== verification/VmMutation.v ===== *)
(** VmMutation: qa/vm_mutation_contract_check.py, the evidence that a host refuses
    the mutations of the scheduler and that a virtual machine undoes them.

    The self-test of the file (a temporary file) is an argument of [main]. *)
From S2P Require Import Prelude PyStr PyFloat PyJson Sha256 PyFs PyMain Fields.

Local Open Scope string_scope.

Definition VM_MARKER : string := "/run/zig-scheduler-vm-lab.marker".
Definition MUTATIONS : list string := ["cgroup.weight"; "cpu.max"; "uclamp"; "topology.offline_cpu"].
Definition HOST_FIXTURE_DIR : path := Path "fixtures/vm-mutation-contract/host-refusal".
Definition HOST_TRUE_FIELDS : list string := [
  "no_bpf_load_attach"; "no_cgroup_write"; "no_cpuset_write"; "no_affinity_write"; "no_priority_write"; "no_sys_write";
  "no_proc_write"].
Definition FORBIDDEN_TEXT : list string := [
  "bpftool prog load"; "bpftool struct_ops register"; "/sys/fs/cgroup"; "sched_ext attach"; "chrt "; "taskset "].

Record Args : Set := MkArgs {
  mode : string; mutation_arg : option string; summary_arg : option path; path_arg : option path; self_test_arg : bool }.

Definition fail {A} (m : string) : result A := raise MutationContractError m.
Definition require (condition : bool) (message : string) : result unit := ensure condition MutationContractError message.

Definition parse_args (argv : list string) : result Args :=
  let usage := fail ("usage: vm_mutation_contract_check.py --mode host-refusal --mutation <name> [--path <artifact.json>]"
                     ++ " | --mode vm-evidence --summary <summary.json> | --self-test") in
  match argv with
  | [a] => if String.eqb a "--self-test" then Ok (MkArgs "self-test" None None None true) else usage
  | [a; b; c; d] =>
      if String.eqb a "--mode" && String.eqb b "host-refusal" && String.eqb c "--mutation"
      then Ok (MkArgs "host-refusal" (Some d) None None false)
      else if String.eqb a "--mode" && String.eqb b "vm-evidence" && String.eqb c "--summary"
      then Ok (MkArgs "vm-evidence" None (Some (Path d)) None false) else usage
  | [a; b; c; d; e; f] =>
      if String.eqb a "--mode" && String.eqb b "host-refusal" && String.eqb c "--mutation" && String.eqb e "--path"
      then Ok (MkArgs "host-refusal" (Some d) None (Some (Path f)) false) else usage
  | _ => usage
  end.

Definition obj (value : json) (context : string) : result jobject :=
  match value with JDict d => Ok d | _ => fail (context ++ " must be an object") end.
Definition text (value : json) (context : string) : result string :=
  match value with
  | JStr s => if String.eqb s "" then fail (context ++ " must be non-empty text") else Ok s
  | _ => fail (context ++ " must be non-empty text")
  end.

(** Keys are not scanned. *)
Fixpoint reject_forbidden_text (value : json) (context : string) {struct value} : result unit :=
  match value with
  | JDict d =>
      (fix dict_walk (d : jobject) : result unit :=
         match d with
         | [] => Ok tt
         | (key, child) :: d => reject_forbidden_text child (context ++ "." ++ key) ;;; dict_walk d
         end) d
  | JList l =>
      (fix list_walk (index : nat) (l : list json) : result unit :=
         match l with
         | [] => Ok tt
         | child :: l => reject_forbidden_text child (context ++ "[" ++ str_nat index ++ "]") ;;; list_walk (S index) l
         end) 0 l
  | JStr s =>
      for_each FORBIDDEN_TEXT (fun needle =>
        require (negb (contains needle s)) ("forbidden host mutation text in " ++ context ++ ": " ++ needle))
  | _ => Ok tt
  end.

(** ** The refusal of a host *)
Definition validate_host_refusal (data : jobject) (mutation : string) : result unit :=
  require (mem mutation MUTATIONS) ("unknown mutation: " ++ mutation) ;;;
  require (py_eq (get data "schema") (JStr "zig-scheduler/lab-evidence/v1")) "bad host-refusal schema" ;;;
  require (py_eq (get data "evidence_mode") (JStr "host-refusal")) "host-refusal mode missing" ;;;
  require (py_eq (get data "mutation") (JStr mutation)) "host-refusal mutation mismatch" ;;;
  require (py_eq (get data "status") (JStr "REFUSE") || py_eq (get data "status") (JStr "SKIP"))
    "host-refusal status must be REFUSE or SKIP" ;;;
  require (is_false (get data "host_mutation")) "host-refusal host_mutation must be false" ;;;
  require (is_false (get data "release_eligible")) "host-refusal cannot be release eligible" ;;;
  require (is_false (get data "vm_marker_present")) "host-refusal must not claim VM marker" ;;;
  require (is_false (get data "target_allowlisted")) "host-refusal must not allowlist a host target" ;;;
  for_each HOST_TRUE_FIELDS (fun field => require (is_true (get data field)) ("host-refusal missing " ++ field ++ "=true")) ;;;
  reject_forbidden_text (JDict data) "host_refusal".

(** ** The mutations of a virtual machine *)
Definition validate_vm_mutation (name : string) (data : jobject) : result unit :=
  require (mem name MUTATIONS) ("unknown VM mutation family: " ++ name) ;;;
  require (is_false (get data "host_mutation")) (name ++ " host_mutation must be false") ;;;
  require (is_true (get data "target_allowlisted")) (name ++ " target must be allowlisted") ;;;
  let* _ := text (get data "target") (name ++ ".target") in
  let* _ := text (get data "audit_id") (name ++ ".audit_id") in
  let* _ := text (get data "rollback_id") (name ++ ".rollback_id") in
  let* pre_state := obj (get data "pre_state") (name ++ ".pre_state") in
  let* _ := obj (get data "post_state") (name ++ ".post_state") in
  let* rollback := obj (get data "rollback_proof") (name ++ ".rollback_proof") in
  let* cleanup := obj (get data "cleanup_proof") (name ++ ".cleanup_proof") in
  require (py_eq (get rollback "result") (JStr "PASS")) (name ++ " rollback proof must pass") ;;;
  (if is_none (get rollback "restored_state") then Ok tt
   else require (py_eq (get rollback "restored_state") (JDict pre_state)) (name ++ " rollback restored_state must equal pre_state")) ;;;
  require (py_eq (get cleanup "status") (JStr "PASS")) (name ++ " cleanup proof must pass").

Definition find_mutation_evidence (summary : jobject) : result jobject :=
  match get summary "mutation_evidence" with
  | JDict direct => Ok direct
  | _ =>
      match get summary "live" with
      | JDict live =>
          match get live "mutation_evidence" with
          | JDict evidence => Ok evidence
          | _ => fail "summary missing mutation_evidence object"
          end
      | _ => fail "summary missing mutation_evidence object"
      end
  end.

Definition validate_vm_summary (summary : jobject) : result unit :=
  require (is_false (get summary "host_mutation")) "summary host_mutation must be false" ;;;
  require (is_true (get summary "vm_marker_present")) "VM evidence missing marker" ;;;
  require (py_eq (get summary "vm_marker_path") (JStr VM_MARKER)) "VM evidence marker path mismatch" ;;;
  let* evidence := find_mutation_evidence summary in
  let missing := sorted (set_diff MUTATIONS (keys evidence)) in
  require (match missing with [] => true | _ => false end) ("mutation evidence missing: " ++ join ", " missing) ;;;
  for_each MUTATIONS (fun name => let* data := obj (get evidence name) name in validate_vm_mutation name data).

Definition host_fixture_path (mutation : string) : path := div_path HOST_FIXTURE_DIR (mutation ++ ".json").

Section Checker.
Variable F : fs.

Definition load_json (p : path) : result jobject :=
  let* raw := catch (bind (read_text F p) loads) (fun exc =>
    if decide (exn_cls exc = FileNotFoundError) then Some (fail ("missing JSON file: " ++ path_str p))
    else if decide (exn_cls exc = JSONDecodeError) then Some (fail ("invalid JSON in " ++ path_str p ++ ": " ++ exn_str exc))
    else None) in
  match raw with JDict d => Ok d | _ => fail (path_str p ++ " must contain an object") end.

Definition run (self_test : printed) (argv : list string) : printed :=
  reading (parse_args argv) (fun args =>
  if self_test_arg args then self_test else
  match (if String.eqb (mode args) "host-refusal" then mutation_arg args else None),
        (if String.eqb (mode args) "vm-evidence" then summary_arg args else None) with
  | Some mutation, _ =>
      let artifact := match path_arg args with Some p => p | None => host_fixture_path mutation end in
      reading (let* data := load_json artifact in validate_host_refusal data mutation) (fun _ =>
        (["PASS VM mutation host refusal: mutation=" ++ mutation ++ " artifact=" ++ path_str artifact], Ok tt))
  | None, Some summary =>
      reading (let* data := load_json summary in validate_vm_summary data) (fun _ =>
        (["PASS VM mutation evidence: summary=" ++ path_str summary], Ok tt))
  | None, None => silent (fail "invalid argument combination")
  end).

Definition main (self_test : printed) (argv : list string) : exit :=
  end_main (fun c => is_OSError c || is_UnicodeError c || is_class MutationContractError c)
    "FAIL VM mutation contract" (run self_test argv).
End Checker.

(** * Specification *)

(** No text at any depth, keys apart, holds a forbidden one. *)
Definition harmless (v : json) : Prop :=
  forall s, TextIn s v -> forall needle, In needle FORBIDDEN_TEXT -> ~ exists a b, s = a ++ needle ++ b.

Record refusal_ok (d : jobject) (mutation : string) : Prop := {
  rf_mutation : In mutation MUTATIONS /\ get d "mutation" = JStr mutation;
  rf_schema : get d "schema" = JStr "zig-scheduler/lab-evidence/v1" /\ get d "evidence_mode" = JStr "host-refusal";
  rf_status : text_in d "status" ["REFUSE"; "SKIP"];
  rf_false : forall f, In f ["host_mutation"; "release_eligible"; "vm_marker_present"; "target_allowlisted"] -> get d f = JBool false;
  rf_true : forall f, In f HOST_TRUE_FIELDS -> get d f = JBool true;
  rf_harmless : harmless (JDict d);
}.

Record mutation_ok (d : jobject) : Prop := {
  mu_host : get d "host_mutation" = JBool false;
  mu_target : get d "target_allowlisted" = JBool true;
  mu_texts : forall f, In f ["target"; "audit_id"; "rollback_id"] -> text_field d f;
  mu_states : exists pre post rollback cleanup, get d "pre_state" = JDict pre /\ get d "post_state" = JDict post
    /\ get d "rollback_proof" = JDict rollback /\ get d "cleanup_proof" = JDict cleanup
    /\ get rollback "result" = JStr "PASS" /\ get cleanup "status" = JStr "PASS"
    /\ (get rollback "restored_state" = JNull \/ py_eq (get rollback "restored_state") (JDict pre) = true);
}.

(** The evidence of a summary is its own, or else that of its live part. *)
Definition evidence_of (summary evidence : jobject) : Prop :=
  get summary "mutation_evidence" = JDict evidence
  \/ (forall d, get summary "mutation_evidence" <> JDict d)
     /\ exists live, get summary "live" = JDict live /\ get live "mutation_evidence" = JDict evidence.

Definition summary_ok (summary : jobject) : Prop :=
  get summary "host_mutation" = JBool false /\ get summary "vm_marker_present" = JBool true
  /\ get summary "vm_marker_path" = JStr VM_MARKER
  /\ exists evidence, evidence_of summary evidence
     /\ forall m, In m MUTATIONS -> exists d, get evidence m = JDict d /\ mutation_ok d.

(** ** Lemmas *)
Lemma mutation_fail_ok {A} m (a : A) : fail m = Ok a <-> False.
Proof. apply raise_ok. Qed.
Lemma mutation_obj_ok v context d : obj v context = Ok d <-> v = JDict d.
Proof. unfold obj. destruct v; simpl; split; (congruence || discriminate). Qed.
Lemma mutation_text_any {B} d f context (k : result B) x :
  (let* _ := text (get d f) context in k) = Ok x <-> text_field d f /\ k = Ok x.
Proof.
  unfold text_field, text. destruct (get d f) as [| | | |s| |]; cbn [bind]; try (rewrite bind_ok; setoid_rewrite mutation_fail_ok; naive_solver).
  destruct (String.eqb_spec s "") as [->|]; cbn [bind]; [rewrite bind_ok; setoid_rewrite mutation_fail_ok|]; naive_solver.
Qed.

Lemma harmless_ok v context : reject_forbidden_text v context = Ok tt <-> harmless v.
Proof.
  assert (Hc : harmless v <-> Clean (fun _ => True) (fun s => forall needle, In needle FORBIDDEN_TEXT -> ~ exists a b, s = a ++ needle ++ b) v)
    by (split; [intros H; by split | intros [_ H]; exact H]).
  rewrite Hc. clear Hc. revert context. induction v as [| | | |s|l IH|d IH] using json_nested_ind; intros context;
    cbn [reject_forbidden_text]; try (split; [intros _; by apply clean_scalar | done]).
  - rewrite clean_str, for_each_ok, Forall_forall. setoid_rewrite list_elem_of_In. unfold require. setoid_rewrite ensure_ok.
    setoid_rewrite negb_true_iff. by setoid_rewrite contains_false.
  - rewrite clean_list. generalize 0. induction IH as [|child l Hchild _ IHl]; intros n;
      [split; [constructor | done]|]. rewrite Forall_cons, bind_ok_unit, <- (IHl (S n)), Hchild. tauto.
  - rewrite clean_dict. induction IH as [|[key child] d Hchild _ IHd]; [split; [constructor | done]|].
    rewrite Forall_cons, bind_ok_unit, <- IHd. simpl in Hchild |- *. rewrite Hchild. tauto.
Qed.

Lemma refusal_accepted d mutation : validate_host_refusal d mutation = Ok tt <-> refusal_ok d mutation.
Proof.
  unfold validate_host_refusal, require.
  rewrite !bind_ok_unit, !ensure_ok, mem_In, orb_true_iff, !py_eq_str, !is_false_iff, for_each_ok, Forall_forall, harmless_ok.
  setoid_rewrite list_elem_of_In. setoid_rewrite ensure_ok. setoid_rewrite is_true_iff. split.
  - intros (Hm & Hs & He & Hd & Ht & H1 & H2 & H3 & H4 & Hf & Hh). split; try done.
    + destruct Ht as [Ht|Ht]; eexists; (split; [exact Ht | simpl; tauto]).
    + intros f [<-|[<-|[<-|[<-|[]]]]]; done.
  - intros [[Hm Hd] [Hs He] (s & -> & Ht) Hf Ht' Hh]. split_and!; try done; try (apply Hf; simpl; tauto).
    destruct Ht as [<-|[<-|[]]]; tauto.
Qed.

Lemma restored_ok rollback pre E m : (if is_none (get rollback "restored_state") then Ok tt
    else ensure (py_eq (get rollback "restored_state") (JDict pre)) E m) = Ok tt <->
  get rollback "restored_state" = JNull \/ py_eq (get rollback "restored_state") (JDict pre) = true.
Proof.
  destruct (is_none _) eqn:E'.
  - split; [|done]. intros _. left. by destruct (get rollback "restored_state").
  - rewrite ensure_ok. split; [by right|]. intros [H|]; [|done]. by rewrite H in E'.
Qed.

Lemma mutation_accepted name d : validate_vm_mutation name d = Ok tt <-> In name MUTATIONS /\ mutation_ok d.
Proof.
  unfold validate_vm_mutation, require.
  rewrite !bind_ok_unit, !ensure_ok, mem_In, is_false_iff, is_true_iff, !mutation_text_any. split.
  - intros (Hn & Hh & Ht & H1 & H2 & H3 & (pre & Hpre%mutation_obj_ok & (post & Hpost%mutation_obj_ok & (rb & Hrb%mutation_obj_ok &
      (cl & Hcl%mutation_obj_ok & [Hr [Hs Hc]%bind_ok_unit]%bind_ok_unit)%bind_ok)%bind_ok)%bind_ok)%bind_ok).
    rewrite ensure_ok, py_eq_str in Hr, Hc. rewrite restored_ok in Hs. split; [done|]. split; try done.
    + intros f [<-|[<-|[<-|[]]]]; done.
    + by exists pre, post, rb, cl.
  - intros [Hn [Hh Ht Hx (pre & post & rb & cl & -> & -> & -> & -> & Hr & Hc & Hs)]].
    split_and!; try done; try (apply Hx; simpl; tauto). cbn [obj bind].
    by rewrite !bind_ok_unit, !ensure_ok, !py_eq_str, restored_ok.
Qed.

Lemma evidence_found summary evidence : find_mutation_evidence summary = Ok evidence <-> evidence_of summary evidence.
Proof.
  unfold find_mutation_evidence, evidence_of.
  assert (Hlive : match get summary "live" with
      | JDict live => match get live "mutation_evidence" with JDict evidence => Ok evidence | _ => fail "summary missing mutation_evidence object" end
      | _ => fail "summary missing mutation_evidence object" end = Ok evidence <->
    exists live, get summary "live" = JDict live /\ get live "mutation_evidence" = JDict evidence).
  { destruct (get summary "live") as [| | | | | |live]; try (rewrite mutation_fail_ok; split; [done | by intros (? & [=] & _)]).
    split; [|by intros (? & [= <-] & ->)]. intros H. exists live. split; [done|].
    destruct (get live "mutation_evidence"); try discriminate H. by injection H as ->. }
  destruct (get summary "mutation_evidence") as [| | | | | |d]; try (rewrite Hlive; split; [by right | by intros [[=]|[_ H]]]).
  split; [intros [= ->]; by left|]. intros [[= ->]|[H _]]; [done | by destruct (H d)].
Qed.

Lemma summary_accepted summary : validate_vm_summary summary = Ok tt <-> summary_ok summary.
Proof.
  unfold validate_vm_summary, summary_ok, require. rewrite !bind_ok_unit, !ensure_ok, is_false_iff, is_true_iff, py_eq_str, bind_ok.
  setoid_rewrite evidence_found.
  assert (Hm : forall evidence, (let missing := sorted (set_diff MUTATIONS (keys evidence)) in
      ensure (match missing with [] => true | _ => false end) MutationContractError ("mutation evidence missing: " ++ join ", " missing) ;;;
      for_each MUTATIONS (fun name => let* data := obj (get evidence name) name in validate_vm_mutation name data)) = Ok tt <->
    forall m, In m MUTATIONS -> exists d, get evidence m = JDict d /\ mutation_ok d).
  { intros evidence. cbv zeta. rewrite bind_ok_unit, ensure_ok, for_each_ok, Forall_forall. setoid_rewrite list_elem_of_In.
    assert (Hb : forall m, (let* data := obj (get evidence m) m in validate_vm_mutation m data) = Ok tt <->
      In m MUTATIONS /\ exists d, get evidence m = JDict d /\ mutation_ok d).
    { intros m. rewrite bind_ok. setoid_rewrite mutation_obj_ok. setoid_rewrite mutation_accepted. clear. naive_solver. }
    setoid_rewrite Hb. split; [intros [_ H] m Hin; by apply H|]. intros H. split; [|by intros m Hin; split; [|apply H]].
    assert (Hn : sorted (set_diff MUTATIONS (keys evidence)) = []) by (apply no_extra; intros m Hin;
      destruct (H m Hin) as (d & Hd & _); apply get_not_null; by rewrite Hd). by rewrite Hn. }
  by setoid_rewrite Hm.
Qed.

Lemma mutation_load_ok F p d : load_json F p = Ok d <-> holds_object F p d.
Proof. solve_loader. Qed.

(** Evidence that is accepted, until a rollback restores something else. *)
Definition demo_mutation (restored : string) : json :=
  let state v := JDict [("value", JStr v)] in
  JDict [("host_mutation", JBool false); ("target_allowlisted", JBool true); ("target", JStr "vm:lab"); ("audit_id", JStr "AUD-1");
         ("rollback_id", JStr "RB-1"); ("pre_state", state "old"); ("post_state", state "new");
         ("rollback_proof", JDict [("result", JStr "PASS"); ("restored_state", state restored)]);
         ("cleanup_proof", JDict [("status", JStr "PASS")])].
Definition demo_summary (restored : string) : fs := fs_of "/repo" [("summary.json", File (dumps (JDict [
  ("host_mutation", JBool false); ("vm_marker_present", JBool true); ("vm_marker_path", JStr VM_MARKER);
  ("live", JDict [("mutation_evidence", JDict (map (fun m => (m, demo_mutation restored)) MUTATIONS))])])))].
Example demo_summary_restored :
  let runs restored := main (demo_summary restored) (silent (Ok tt)) ["--mode"; "vm-evidence"; "--summary"; "summary.json"] in
  exits_well (runs "old")
  /\ runs "new" = Exited 1 [] ["FAIL VM mutation contract: cgroup.weight rollback restored_state must equal pre_state"].
Proof. split; [eexists|]; vm_compute; reflexivity. Qed.

(** ** Properties *)

(** C30: the checker exits with status 0 exactly when, asked about a host, the
    artifact it is given (or the fixture of the mutation) refuses or skips the
    mutation asked for, with nothing done to the host, nothing allowlisted and no
    text at any depth that names a mutating command; and, asked about a virtual
    machine, the summary shows, for every family of mutations, a target, an audit
    and a rollback whose proof passed and restored the state before, when it
    records one. *)
Theorem vm_mutation_iff F self_test mutation p summary :
  (exits_well (main F self_test ["--mode"; "host-refusal"; "--mutation"; mutation]) <->
     exists d, holds_object F (host_fixture_path mutation) d /\ refusal_ok d mutation)
  /\ (exits_well (main F self_test ["--mode"; "host-refusal"; "--mutation"; mutation; "--path"; p]) <->
     exists d, holds_object F (Path p) d /\ refusal_ok d mutation)
  /\ (exits_well (main F self_test ["--mode"; "vm-evidence"; "--summary"; summary]) <->
     exists d, holds_object F (Path summary) d /\ summary_ok d).
Proof.
  assert (Hread : forall (r : result unit) out, snd (reading r (fun _ => (out, Ok tt))) = Ok tt <-> r = Ok tt)
    by (intros [[]|e] out; simpl; by split).
  assert (Hargs : forall (args : Args) k, reading (Ok args) k = k args) by done.
  unfold main. rewrite !end_main_ok. unfold run. cbn [parse_args String.eqb Ascii.eqb Bool.eqb andb]. rewrite !Hargs.
  cbn [self_test_arg mode mutation_arg summary_arg path_arg String.eqb Ascii.eqb Bool.eqb].
  rewrite !Hread, !bind_ok. setoid_rewrite mutation_load_ok. setoid_rewrite refusal_accepted. by setoid_rewrite summary_accepted.
Qed.
