(* ===== verification/PackageManifest.v ===== *)
(** PackageManifest: qa/package_manifest_check.py, the files of an installation
    package and what its services and configuration may say.

    [git rev-parse HEAD] is a parameter.  The iteration order of the sets of the
    source only decides which of several terms a refusal names; here they are
    lists. *)
From S2P Require Import Prelude PyStr PyRe PyFloat PyJson Sha256 PyFs PyMain Fields.

Local Open Scope string_scope.

Definition REQUIRED_FILES : list string := [
  "usr/bin/zig-scheduler"; "usr/bin/zig-scheduler-daemon"; "usr/bin/zig-scheduler-linux-preflight";
  "etc/zig-scheduler/default.toml"; "usr/lib/systemd/system/zig-scheduler-daemon.service";
  "usr/lib/systemd/system/zig-scheduler-preflight.service"; "usr/lib/systemd/system/zig-scheduler-lab-mutation.service"].
Definition FORBIDDEN_EXACT_PATH_SEGMENTS : list string := [
  "browser"; "browser-ui"; "browser_ui"; "desktop"; "front-end"; "front_end"; "frontend"; "simulator"; "tui"; "ui";
  "web-view"; "web_view"; "webview"].
Definition FORBIDDEN_PATH_TERMS : list string := [
  "browser"; "browser-ui"; "browser_ui"; "desktop"; "front-end"; "front_end"; "frontend"; "simulator"; "web-view";
  "web_view"; "webview"].
Definition FORBIDDEN_CANONICAL_PATH_TERMS : list string := ["browserui"; "frontend"; "webview"].
Definition FORBIDDEN_PROJECT_FRONTEND_FILENAMES : list string := ["app.css"; "design.html"; "live-data.jsx"].
Definition FORBIDDEN_FRONTEND_BUNDLE_SUFFIXES : list string := [
  ".css"; ".html"; ".js"; ".jsx"; ".mjs"; ".cjs"; ".ts"; ".tsx"].
Definition FORBIDDEN_PATH_TOKENS : list string := ["browser"; "desktop"; "frontend"; "simulator"; "tui"; "ui"; "webview"].
(** [[a-z0-9]], and the complement the two patterns of the source are made of *)
Definition canonical_char (c : ascii) : bool := is_lower c || is_digit c.
Definition PATH_TOKEN_SPLIT_RE : regex := rplus (RChar (fun c => negb (canonical_char c))).
Definition PATH_CANONICAL_RE : regex := RChar (fun c => negb (canonical_char c)).

Definition fail {A} (m : string) : result A := raise PackageManifestError m.
Definition require (condition : bool) (message : string) : result unit := ensure condition PackageManifestError message.

Definition parse_manifest_arg (argv : list string) : result path :=
  match argv with
  | [a; p] => if String.eqb a "--manifest" then Ok (Path p) else fail "usage: package_manifest_check.py --manifest <path>"
  | _ => fail "usage: package_manifest_check.py --manifest <path>"
  end.

(** ** The payload *)

(** The first of the candidates that is an answer: the returns of the source in
    their order. *)
Fixpoint first_some {A} (l : list (option A)) : option A :=
  match l with [] => None | Some x :: _ => Some x | None :: l => first_some l end.

Definition canonical (s : string) : string := re_sub PATH_CANONICAL_RE "" s.

(** The body of the loop over the parts of the path. *)
Definition forbidden_part (part : string) : option string :=
  if mem part FORBIDDEN_EXACT_PATH_SEGMENTS then Some part
  else if mem (canonical part) FORBIDDEN_CANONICAL_PATH_TERMS then Some part
  else List.find (fun token => mem token FORBIDDEN_PATH_TOKENS) (re_split PATH_TOKEN_SPLIT_RE part).

Definition forbidden_payload_reason (rel : string) : option string :=
  let lower_parts := map lower (parts (Path rel)) in
  let filename := List.last lower_parts "" in
  let lower_rel := join "/" lower_parts in
  first_some [
    (if mem filename FORBIDDEN_PROJECT_FRONTEND_FILENAMES then Some filename else None);
    List.find (fun suffix => endswith filename suffix) FORBIDDEN_FRONTEND_BUNDLE_SUFFIXES;
    first_some (map forbidden_part lower_parts);
    List.find (fun term => contains term lower_rel) FORBIDDEN_PATH_TERMS;
    List.find (fun term => contains term (canonical lower_rel)) FORBIDDEN_CANONICAL_PATH_TERMS].

Section Checker.
Variable F : fs.
Variable git_rev_parse : result completed.

(** [subprocess.check_output(..., text=True).strip()] *)
Definition current_git_sha : result string :=
  catch (let* result := git_rev_parse in
         let* out := decode_utf8 (stdout result) in
         ensure (Z.eqb (returncode result) 0) CalledProcessError "git rev-parse HEAD" ;;;
         Ok (strip (newlines out)))
    (fun exc => if decide (exn_cls exc = FileNotFoundError \/ exn_cls exc = CalledProcessError)
                then Some (fail "could not read current git SHA") else None).

(** A file of the package, the [index]-th of the list; [seen] grows. *)
Definition check_file (install_root : path) (index : nat) (item : json) (seen : list string) : result (list string) :=
  let context := "file[" ++ str_nat index ++ "]" in
  match item with
  | JDict item =>
      match get item "path" with
      | JStr rel =>
          match get item "sha256" with
          | JStr digest =>
              require (Nat.eqb (len digest) 64) (context ++ " sha256 must be a digest") ;;;
              require (negb (String.eqb rel "") && negb (startswith rel "/") && negb (mem ".." (parts (Path rel))))
                ("unsafe file path: " ++ rel) ;;;
              match forbidden_payload_reason rel with
              | Some reason => fail ("forbidden package payload (" ++ reason ++ "): " ++ rel)
              | None =>
                  let p := div_path install_root rel in
                  require (is_file F p) ("missing packaged file: " ++ rel) ;;;
                  let* actual := sha256_of F p in
                  require (String.eqb actual digest) ("checksum mismatch: " ++ rel) ;;;
                  Ok (seen ++ [rel])%list
              end
          | _ => fail (context ++ " sha256 must be a digest")
          end
      | _ => fail (context ++ " path must be text")
      end
  | _ => fail (context ++ " must be an object")
  end.

Definition validate_services (install_root : path) : result unit :=
  let* daemon_text := read_text F (div_path install_root "usr/lib/systemd/system/zig-scheduler-daemon.service") in
  require (contains "ExecStart=/usr/bin/zig-scheduler-daemon --foreground --state-dir daemon" daemon_text)
    "daemon service command is unsupported" ;;;
  require (negb (contains "WantedBy=" daemon_text)) "daemon service install-enables by default" ;;;
  require (contains "CapabilityBoundingSet=" daemon_text) "daemon service must not keep capabilities" ;;;
  let* mutation_text := read_text F (div_path install_root "usr/lib/systemd/system/zig-scheduler-lab-mutation.service") in
  require (negb (contains "WantedBy=" mutation_text)) "mutation service install-enables by default" ;;;
  require (negb (contains "[Install]" mutation_text)) "mutation service has install section" ;;;
  let* config_text := read_text F (div_path install_root "etc/zig-scheduler/default.toml") in
  require (contains ("release_scope = " ++ dumps_str "vm-lab-backend-only") config_text) "default config missing VM/lab scope" ;;;
  require (contains "production_ready = false" config_text) "default config claims production readiness" ;;;
  require (contains "arbitrary_host_safe = false" config_text) "default config claims arbitrary-host safety".

Definition validate_claims (data : jobject) : result unit :=
  require (py_eq (get data "schema") (JStr "zig-scheduler/package-manifest/v1")) "bad schema" ;;;
  let* sha := current_git_sha in
  require (py_eq (get data "git_sha") (JStr sha)) "manifest git_sha is stale" ;;;
  require (py_eq (get data "milestone") (JStr "vm_lab_backend_readiness")) "package milestone must be VM/lab backend readiness" ;;;
  require (is_false (get data "production_ready")) "package must not claim production readiness" ;;;
  require (is_false (get data "arbitrary_host_safe")) "package must not claim arbitrary-host safety" ;;;
  require (is_false (get data "out_of_scope_artifacts_included")) "package includes out-of-scope artifacts" ;;;
  require (is_false (get data "simulator_artifacts_included")) "package includes simulator artifacts" ;;;
  require (is_true (get data "no_auto_start")) "package may auto-start" ;;;
  require (is_true (get data "services_not_enabled")) "services may be enabled" ;;;
  require (is_true (get data "mutation_service_gated")) "mutation service is not gated" ;;;
  require (is_false (get data "mutation_service_has_wanted_by")) "mutation service has WantedBy".

(** What [run] checks between its argument and its output; the number is that of
    the distinct paths. *)
Definition validate_manifest (manifest_path : path) : result nat :=
  let* raw := bind (read_text F manifest_path) loads in
  match raw with
  | JDict data =>
      validate_claims data ;;;
      let install_root := Path (py_str (get_or data "install_root" (JStr ""))) in
      require (is_dir F install_root) "install root missing" ;;;
      match get data "files" with
      | JList files =>
          let* seen := for_fold 0 files [] (check_file install_root) in
          let missing := sorted (set_diff REQUIRED_FILES seen) in
          require (match missing with [] => true | _ => false end) ("missing required package files: " ++ join "," missing) ;;;
          validate_services install_root ;;;
          Ok (List.length (dedup seen))
      | _ => fail "manifest files must be a list"
      end
  | _ => fail "manifest must be a JSON object"
  end.

Definition run (argv : list string) : result (list string) :=
  let* manifest_path := parse_manifest_arg argv in
  let* seen := validate_manifest manifest_path in
  Ok ["PASS package manifest: " ++ path_str manifest_path ++ " files=" ++ str_nat seen].

Definition main (argv : list string) : exit :=
  run_main (fun c => is_OSError c || is_class JSONDecodeError c || is_class PackageManifestError c) "FAIL package manifest" (run argv).
End Checker.

(** * Specification *)

(** Nothing of a front end is packaged under this path. *)
Record plain_payload (rel : string) : Prop := {
  pp_name : let filename := List.last (map lower (parts (Path rel))) "" in
    ~ In filename FORBIDDEN_PROJECT_FRONTEND_FILENAMES
    /\ forall suffix, In suffix FORBIDDEN_FRONTEND_BUNDLE_SUFFIXES -> ~ exists stem, filename = stem ++ suffix;
  pp_parts : forall part, In part (map lower (parts (Path rel))) ->
    ~ In part FORBIDDEN_EXACT_PATH_SEGMENTS /\ ~ In (canonical part) FORBIDDEN_CANONICAL_PATH_TERMS
    /\ forall token, In token (re_split PATH_TOKEN_SPLIT_RE part) -> ~ In token FORBIDDEN_PATH_TOKENS;
  pp_path : let lower_rel := join "/" (map lower (parts (Path rel))) in
    (forall term, In term FORBIDDEN_PATH_TERMS -> ~ exists a b, lower_rel = a ++ term ++ b)
    /\ forall term, In term FORBIDDEN_CANONICAL_PATH_TERMS -> ~ exists a b, canonical lower_rel = a ++ term ++ b;
}.

Definition head_is (git_rev_parse : result completed) (sha : string) : Prop :=
  exists c out, git_rev_parse = Ok c /\ decode_utf8 (stdout c) = Ok out /\ returncode c = 0%Z /\ sha = strip (newlines out).

Record claims_ok (git_rev_parse : result completed) (d : jobject) : Prop := {
  pc_schema : get d "schema" = JStr "zig-scheduler/package-manifest/v1";
  pc_git : exists sha, head_is git_rev_parse sha /\ get d "git_sha" = JStr sha;
  pc_milestone : get d "milestone" = JStr "vm_lab_backend_readiness";
  pc_false : forall f, In f ["production_ready"; "arbitrary_host_safe"; "out_of_scope_artifacts_included";
                             "simulator_artifacts_included"; "mutation_service_has_wanted_by"] -> get d f = JBool false;
  pc_true : forall f, In f ["no_auto_start"; "services_not_enabled"; "mutation_service_gated"] -> get d f = JBool true;
}.

(** A file of the list, under the path [rel]. *)
Definition packaged (F : fs) (root : path) (item : json) (rel : string) : Prop :=
  exists d digest, item = JDict d /\ get d "path" = JStr rel /\ get d "sha256" = JStr digest
    /\ rel <> "" /\ startswith rel "/" = false /\ ~ In ".." (parts (Path rel)) /\ plain_payload rel
    /\ file_digest F (div_path root rel) digest.

(** A text file that holds some phrases and not others. *)
Definition says (F : fs) (p : path) (phrases banned : list string) : Prop :=
  exists text, read_text F p = Ok text /\ (forall w, In w phrases -> exists a b, text = a ++ w ++ b)
    /\ forall w, In w banned -> ~ exists a b, text = a ++ w ++ b.

Definition services_ok (F : fs) (root : path) : Prop :=
  says F (div_path root "usr/lib/systemd/system/zig-scheduler-daemon.service")
    ["ExecStart=/usr/bin/zig-scheduler-daemon --foreground --state-dir daemon"; "CapabilityBoundingSet="] ["WantedBy="]
  /\ says F (div_path root "usr/lib/systemd/system/zig-scheduler-lab-mutation.service") [] ["WantedBy="; "[Install]"]
  /\ says F (div_path root "etc/zig-scheduler/default.toml")
       ["release_scope = " ++ dumps_str "vm-lab-backend-only"; "production_ready = false"; "arbitrary_host_safe = false"] [].

Definition package_ok (F : fs) (git_rev_parse : result completed) (p : path) (count : nat) : Prop :=
  exists d files rels, (exists text, read_text F p = Ok text /\ loads text = Ok (JDict d))
    /\ claims_ok git_rev_parse d
    /\ let root := Path (py_str (get_or d "install_root" (JStr ""))) in
       is_dir F root = true /\ get d "files" = JList files /\ Forall2 (packaged F root) files rels
       /\ (forall f, In f REQUIRED_FILES -> In f rels) /\ services_ok F root
       /\ count = List.length (dedup rels).

(** ** Lemmas *)
Lemma package_fail_ok {A} m (a : A) : fail m = Ok a <-> False.
Proof. apply raise_ok. Qed.

Lemma first_some_none {A} (l : list (option A)) : first_some l = None <-> forall x, In x l -> x = None.
Proof. induction l as [|[x|] l IH]; simpl; [naive_solver| |rewrite IH; naive_solver]. split; [done|]. intros H. by apply (H (Some x)); left. Qed.
Lemma find_none {A} (f : A -> bool) l : List.find f l = None <-> forall x, In x l -> f x = false.
Proof. induction l as [|x l IH]; simpl; [naive_solver|]. destruct (f x) eqn:E; [|rewrite IH]; naive_solver congruence. Qed.
Lemma not_mem s l : mem s l = false <-> ~ In s l.
Proof. rewrite <- mem_In. by destruct (mem s l). Qed.
Lemma guard_none (b : bool) (s : string) (r : option string) : (if b then Some s else r) = None <-> b = false /\ r = None.
Proof. destruct b; naive_solver. Qed.

Lemma part_ok part : forbidden_part part = None <->
  ~ In part FORBIDDEN_EXACT_PATH_SEGMENTS /\ ~ In (canonical part) FORBIDDEN_CANONICAL_PATH_TERMS
  /\ forall token, In token (re_split PATH_TOKEN_SPLIT_RE part) -> ~ In token FORBIDDEN_PATH_TOKENS.
Proof. unfold forbidden_part. rewrite !guard_none, !not_mem, find_none. by setoid_rewrite not_mem. Qed.

Lemma payload_ok rel : forbidden_payload_reason rel = None <-> plain_payload rel.
Proof.
  unfold forbidden_payload_reason. cbv zeta. rewrite first_some_none. cbn [In].
  assert (Hl : forall (P : option string -> Prop) a b c d e,
    (forall x, a = x \/ b = x \/ c = x \/ d = x \/ e = x \/ False -> P x) <-> P a /\ P b /\ P c /\ P d /\ P e) by (intros; naive_solver).
  rewrite (Hl (fun x => x = None)). clear Hl. rewrite guard_none, not_mem, !find_none, first_some_none.
  assert (Hp : (forall x, In x (map forbidden_part (map lower (parts (Path rel)))) -> x = None) <->
    forall part, In part (map lower (parts (Path rel))) -> forbidden_part part = None).
  { split; [intros H part Hin; by apply H, in_map | intros H x (part & <- & Hin)%in_map_iff; by apply H]. }
  rewrite Hp. clear Hp. setoid_rewrite part_ok. setoid_rewrite contains_false. setoid_rewrite <- not_true_iff_false.
  setoid_rewrite endswith_iff. split.
  - intros ([Hn _] & Hs & Hq & Ht & Hc). by split.
  - intros [[Hn Hs] Hq [Ht Hc]]. done.
Qed.

Lemma git_head_ok git sha : current_git_sha git = Ok sha <-> head_is git sha.
Proof.
  unfold current_git_sha, head_is. assert (Hc : forall m : result string, catch m (fun exc =>
      if decide (exn_cls exc = FileNotFoundError \/ exn_cls exc = CalledProcessError)
      then Some (fail "could not read current git SHA") else None) = Ok sha <-> m = Ok sha)
    by (intros [s|e]; cbn [catch]; [done | case_decide; split; discriminate]).
  rewrite Hc. split.
  - intros (c & Hg & (out & Ho & [Hr [= <-]]%bind_ok_unit)%bind_ok)%bind_ok.
    apply ensure_ok, Z.eqb_eq in Hr. by exists c, out.
  - intros (c & out & -> & Ho & Hr & ->). cbn [bind]. rewrite Ho. cbn [bind]. by rewrite Hr.
Qed.

Lemma claims_accepted git d : validate_claims git d = Ok tt <-> claims_ok git d.
Proof.
  unfold validate_claims, require. rewrite bind_ok_unit, bind_ok. split.
  - intros [Hs (sha & Hg%git_head_ok & [H1 [H2 H3]%bind_ok_unit]%bind_ok_unit)]. rewrite !bind_ok_unit, !ensure_ok, ?is_false_iff, ?is_true_iff in H3.
    rewrite ensure_ok, py_eq_str in Hs, H1, H2. split; [done | by exists sha | done | |].
    + intros f Hf. simpl in Hf. naive_solver.
    + intros f Hf. simpl in Hf. naive_solver.
  - intros [Hs (sha & Hg & H1) H2 Hf Ht]. rewrite ensure_ok, py_eq_str. split; [done|]. exists sha.
    rewrite git_head_ok, !bind_ok_unit, !ensure_ok, !py_eq_str, ?is_false_iff, ?is_true_iff.
    split_and!; try done; first [apply Hf; simpl; tauto | apply Ht; simpl; tauto].
Qed.

Lemma file_packaged F root index item seen seen' : check_file F root index item seen = Ok seen' <->
  exists rel, packaged F root item rel /\ seen' = (seen ++ [rel])%list.
Proof.
  unfold check_file, packaged, require. cbv zeta.
  destruct item as [| | | | | |d]; try (rewrite package_fail_ok; split; [done | by intros (? & (? & ? & [=] & _) & _)]).
  destruct (get d "path") as [| | | |rel| |] eqn:Hrel;
    try (rewrite package_fail_ok; split; [done | intros (? & (? & ? & [= <-] & H & _) & _); congruence]).
  destruct (get d "sha256") as [| | | |digest| |] eqn:Hd;
    try (rewrite package_fail_ok; split; [done | intros (? & (? & ? & [= <-] & _ & H & _) & _); congruence]).
  split.
  - intros [_ [Hsafe H]%bind_ok_unit]%bind_ok_unit. rewrite ensure_ok, !andb_true_iff, !negb_true_iff, String.eqb_neq, not_mem in Hsafe.
    destruct (forbidden_payload_reason rel) eqn:Hp; [discriminate|]. apply payload_ok in Hp.
    apply bind_ok_unit in H as [_ (actual & Ha%sha256_of_ok & [<-%ensure_ok%String.eqb_eq [= <-]]%bind_ok_unit)%bind_ok].
    exists rel. split; [|done]. exists d, actual. tauto.
  - intros (? & (? & ? & [= <-] & Hr & Hg & Hne & Hs & Hdots & Hp%payload_ok & Hf) & ->).
    rewrite Hrel in Hr. rewrite Hd in Hg. injection Hr as <-. injection Hg as <-.
    pose proof (file_digest_is_file _ _ _ Hf) as Hfile. rewrite bind_ok_unit, ensure_ok, Nat.eqb_eq.
    split; [by destruct Hf as (b & _ & ->); apply sha256_hex_hex|].
    rewrite bind_ok_unit, ensure_ok, !andb_true_iff, !negb_true_iff, String.eqb_neq, not_mem. split; [done|].
    rewrite Hp, bind_ok_unit, ensure_ok. split; [done|]. apply sha256_of_ok in Hf. rewrite Hf. cbn [bind]. by rewrite String.eqb_refl.
Qed.

Lemma services_accepted F root : validate_services F root = Ok tt <-> services_ok F root.
Proof.
  unfold validate_services, services_ok, says, require. split.
  - intros (t1 & H1 & [Ha [Hb [Hc (t2 & H2 & [Hd [He (t3 & H3 & [Hf [Hg Hh]%bind_ok_unit]%bind_ok_unit)%bind_ok]%bind_ok_unit]%bind_ok_unit)%bind_ok
      ]%bind_ok_unit]%bind_ok_unit]%bind_ok_unit)%bind_ok.
    rewrite ensure_ok, contains_iff in Ha, Hc, Hf, Hg, Hh. rewrite ensure_ok, negb_true_iff, contains_false in Hb, Hd, He.
    split; [exists t1 | split; [exists t2 | exists t3]]; (split; [done|]); split; intros w Hw; simpl in Hw; naive_solver.
  - intros [(t1 & H1 & Ha & Hb) [(t2 & H2 & _ & Hd) (t3 & H3 & Hf & _)]].
    rewrite H1. cbn [bind]. rewrite !bind_ok_unit, !ensure_ok, !negb_true_iff, !contains_iff, !contains_false.
    rewrite H2. cbn [bind]. rewrite !bind_ok_unit, !ensure_ok, !negb_true_iff, !contains_false.
    rewrite H3. cbn [bind]. rewrite !bind_ok_unit, !ensure_ok, !contains_iff.
    split_and!; first [apply Ha; simpl; tauto | apply Hb; simpl; tauto | apply Hd; simpl; tauto | apply Hf; simpl; tauto].
Qed.

Lemma package_accepted F git p count : validate_manifest F git p = Ok count <-> package_ok F git p count.
Proof.
  unfold validate_manifest, package_ok, require. cbv zeta. rewrite bind_ok.
  assert (Hseen : forall root files rels, for_fold 0 files [] (check_file F root) = Ok rels <-> Forall2 (packaged F root) files rels)
    by (intros; apply for_fold_append; intros; apply file_packaged).
  split.
  - intros (v & (text & Ht & Hl)%bind_ok & H). destruct v as [| | | | | |d]; try discriminate H.
    apply bind_ok_unit in H as [Hc%claims_accepted [Hr%ensure_ok H]%bind_ok_unit].
    destruct (get d "files") as [| | | | |files|] eqn:Hf; try discriminate H.
    apply bind_ok in H as (rels & Hs%Hseen & [Hm [Hv%services_accepted [= <-]]%bind_ok_unit]%bind_ok_unit).
    rewrite ensure_ok in Hm. exists d, files, rels. split; [by exists text|]. split_and!; try done.
    apply no_extra. by destruct (sorted _).
  - intros (d & files & rels & (text & Ht & Hl) & Hc & Hr & Hf & Hs & Hm & Hv & ->). exists (JDict d). split.
    { rewrite Ht. done. }
    rewrite bind_ok_unit, claims_accepted. split; [done|]. rewrite bind_ok_unit, ensure_ok. split; [done|]. rewrite Hf.
    rewrite (proj2 (Hseen _ files rels)) by done. cbn [bind]. rewrite !bind_ok_unit, ensure_ok, services_accepted.
    by rewrite (proj2 (no_extra REQUIRED_FILES rels)).
Qed.

(** A package that is accepted, until it carries a page of a front end. *)
Definition demo_contents (rel : string) : string :=
  if String.eqb rel "etc/zig-scheduler/default.toml"
  then "release_scope = " ++ dumps_str "vm-lab-backend-only" ++ " production_ready = false arbitrary_host_safe = false"
  else if String.eqb rel "usr/lib/systemd/system/zig-scheduler-daemon.service"
  then "ExecStart=/usr/bin/zig-scheduler-daemon --foreground --state-dir daemon CapabilityBoundingSet=" else rel.
Definition demo_package (extra : list string) : fs :=
  let files := (REQUIRED_FILES ++ extra)%list in
  fs_of "/repo" (("manifest.json", File (dumps (JDict [
    ("schema", JStr "zig-scheduler/package-manifest/v1"); ("git_sha", JStr "abc"); ("milestone", JStr "vm_lab_backend_readiness");
    ("production_ready", JBool false); ("arbitrary_host_safe", JBool false); ("out_of_scope_artifacts_included", JBool false);
    ("simulator_artifacts_included", JBool false); ("no_auto_start", JBool true); ("services_not_enabled", JBool true);
    ("mutation_service_gated", JBool true); ("mutation_service_has_wanted_by", JBool false); ("install_root", JStr "root");
    ("files", JList (map (fun rel => JDict [("path", JStr rel); ("sha256", JStr (sha256_hex (demo_contents rel)))]) files))])))
  :: ("root", Dir []) :: map (fun rel => ("root/" ++ rel, File (demo_contents rel))) files).
Example demo_package_accepted :
  let runs extra := main (demo_package extra) (Ok (MkCompleted 0 "abc" "")) ["--manifest"; "manifest.json"] in
  runs ["usr/share/doc/notes.md"] = Exited 0 ["PASS package manifest: manifest.json files=8"] []
  /\ runs ["usr/share/Web_View/notes.md"]
     = Exited 1 [] ["FAIL package manifest: forbidden package payload (web_view): usr/share/Web_View/notes.md"].
Proof. split; vm_compute; reflexivity. Qed.

(** ** Properties *)

(** C29: the checker prints PASS with the number of distinct files exactly when
    the manifest is an object that names the commit that is checked out, claims
    neither production readiness nor host safety nor an automatic start, and lists
    files below an existing root, under safe relative paths that carry nothing of a
    front end, each with the digest of its contents and every required file among
    them; and when the units and the configuration it installs say what they must
    and enable nothing. *)
Theorem package_manifest_iff F git p out :
  main F git ["--manifest"; p] = Exited 0 out [] <->
  exists count, package_ok F git (Path p) count
    /\ out = ["PASS package manifest: " ++ path_str (Path p) ++ " files=" ++ str_nat count].
Proof.
  setoid_rewrite <- package_accepted. unfold main, run_main, run. cbn [parse_manifest_arg String.eqb Ascii.eqb Bool.eqb bind].
  destruct (validate_manifest F git (Path p)) as [count|e]; cbn [bind].
  - split; [intros [= <-]; by exists count | intros (? & [= <-] & ->); done].
  - split; [destruct (_ || _); discriminate | by intros (? & [=] & _)].
Qed.
