(* ===== verification/JsonField.v ===== *)
(** JsonField: qa/json_field_check.py, which reads a JSON object and requires
    dotted paths to be present in it. *)
From S2P Require Import Prelude PyStr PyFloat PyJson PyMain.

Local Open Scope string_scope.

Record Args : Set := MkArgs { required : list string }.

Definition fail {A} (m : string) : result A := raise JsonFieldError m.

(** The [while index < len(argv)] loop, two arguments at a time. *)
Fixpoint parse_pairs (argv : list string) : result (list string) :=
  match argv with
  | [] => Ok []
  | [_] => fail "usage: json_field_check.py --require dotted.path [--require dotted.path ...]"
  | flag :: value :: argv =>
      if String.eqb flag "--require"
      then let* rest := parse_pairs argv in Ok (value :: rest)
      else fail "usage: json_field_check.py --require dotted.path [--require dotted.path ...]"
  end.

Definition parse_args (argv : list string) : result Args :=
  let* required := parse_pairs argv in
  match required with
  | [] => fail "at least one --require is needed"
  | _ => Ok (MkArgs required)
  end.

Definition parse_stdin (stdin : string) : result jobject :=
  let* raw := reraise JSONDecodeError JsonFieldError (fun e => "invalid JSON: " ++ exn_str e) (loads stdin) in
  match raw with
  | JDict d => Ok d
  | _ => fail "input JSON must be an object"
  end.

(** The loop over the segments of a dotted path. *)
Fixpoint walk (current : json) (segments : list string) : bool :=
  match segments with
  | [] => true
  | segment :: segments =>
      match current with
      | JDict d => match jlookup segment d with Some v => walk v segments | None => false end
      | _ => false
      end
  end.

Definition has_path (root : jobject) (dotted : string) : bool := walk (JDict root) (split_on "." dotted).

Definition run (argv : list string) (stdin : string) : result (list string) :=
  let* args := parse_args argv in
  let* root := parse_stdin stdin in
  let missing := List.filter (fun p => negb (has_path root p)) (required args) in
  match missing with
  | [] => Ok ["PASS json fields: " ++ join "," (required args)]
  | _ => fail ("missing required fields: " ++ join "," missing)
  end.

Definition main (argv : list string) (stdin : string) : exit :=
  run_main (is_class JsonFieldError) "FAIL json fields" (run argv stdin).

(** ** Specification: [Reaches v segments] when the nested objects have them. *)
Inductive Reaches : json -> list string -> Prop :=
| Reaches_here v : Reaches v []
| Reaches_step d k v ks : jlookup k d = Some v -> Reaches v ks -> Reaches (JDict d) (k :: ks).

(** The arguments that ask for these paths. *)
Fixpoint interleave (paths : list string) : list string :=
  match paths with [] => [] | p :: ps => "--require" :: p :: interleave ps end.

Lemma walk_Reaches v ks : walk v ks = true <-> Reaches v ks.
Proof.
  revert v. induction ks as [|k ks IH]; intros v; simpl.
  - split; [constructor | done].
  - split.
    + destruct v; try done. destruct (jlookup k d) eqn:Hk; [|done].
      intros H%IH. by econstructor.
    + inversion 1 as [|? ? ? ? Hk Hr]; subst. rewrite Hk. by apply IH.
Qed.

Lemma parse_pairs_interleave ps : parse_pairs (interleave ps) = Ok ps.
Proof. induction ps as [|p ps IH]; simpl; [done|]. by rewrite IH. Qed.

Lemma parse_pairs_inv argv ps : parse_pairs argv = Ok ps -> argv = interleave ps.
Proof.
  revert ps. induction argv as [argv IH] using (induction_ltof1 _ (@List.length string)); intros ps.
  destruct argv as [|f [|v argv]]; simpl; [by intros [= <-] | done |].
  destruct (String.eqb_spec f "--require") as [->|]; [|done].
  intros H. apply bind_ok in H as (rest & Hr & [= <-]). simpl.
  rewrite <- (IH argv); [done | unfold ltof; simpl; lia | done].
Qed.

Lemma filter_negb_nil {A} (f : A -> bool) l :
  List.filter (fun x => negb (f x)) l = [] <-> Forall (fun x => f x = true) l.
Proof.
  induction l as [|x l IH]; simpl; [split; constructor|].
  rewrite Forall_cons, <- IH. destruct (f x); simpl; [tauto|]. split; [done | intros [? _]; done].
Qed.

(** [run] succeeds exactly when every argument pair is a --require with a
    dotted path, the standard input is a JSON object, and each path names nested
    fields that are present in it (a present null counts); it then reports the
    paths it was given. *)
Theorem json_field_run_iff argv stdin out :
  run argv stdin = Ok out <->
  exists paths root,
    paths <> [] /\ argv = interleave paths /\ loads stdin = Ok (JDict root) /\
    Forall (fun p => Reaches (JDict root) (split_on "." p)) paths /\
    out = ["PASS json fields: " ++ join "," paths].
Proof.
  unfold run, parse_args, parse_stdin. split.
  - intros H. apply bind_ok in H as (args & Ha & H). apply bind_ok in Ha as (ps & Hp & Ha).
    apply bind_ok in H as (root & Hr & H). apply bind_ok in Hr as (raw & Hraw & Hr).
    apply reraise_ok in Hraw. destruct ps as [|p ps]; [done|]. injection Ha as <-.
    destruct raw; try done. injection Hr as ->. simpl required in H.
    destruct (List.filter _ (p :: ps)) eqn:Hf; [|done]. injection H as <-.
    exists (p :: ps), root. apply filter_negb_nil in Hf.
    split_and!; [done | by apply parse_pairs_inv | done | | done].
    eapply Forall_impl; [exact Hf|]. intros q. apply walk_Reaches.
  - intros (paths & root & Hne & -> & Hl & Hall & ->).
    rewrite parse_pairs_interleave. destruct paths as [|p ps]; [done|]. cbn [bind].
    rewrite Hl. cbn [bind reraise catch required].
    rewrite (proj2 (filter_negb_nil (has_path root) (p :: ps))); [done|].
    eapply Forall_impl; [exact Hall|]. intros q. apply walk_Reaches.
Qed.
