(* ===== verification/AuditLedger.v ===== *)
(** AuditLedger: qa/audit_ledger_check.py.

    A ledger is a JSONL file; every row names a rollback snapshot and a
    transcript by path and digest, and its audit id may not occur twice.  The
    set [seen] of the loop is threaded explicitly. *)
From S2P Require Import Prelude PyStr PyRe PyFloat PyJson Sha256 PyFs PyMain.

Local Open Scope string_scope.

Definition AUDIT_RE : regex := rseq [
  RBol; rlit "AUD-"; rrep 8 0 rdigit09; rlit "T"; rrep 6 0 rdigit09; rlit "Z-";
  rrep 7 5 (RChar is_hex_lower); rlit "-"; rrep 6 0 (RChar is_hex_lower); REol].
Definition SECRET_RE : regex := ralt [
  rlit_ci "secret"; rlit_ci "password"; rlit_ci "token"; rlit_ci "authorization";
  rseq [rlit_ci "api"; ropt (RChar (one_of "_-")); rlit_ci "key"]].
Definition LEDGER_SCHEMA : string := "zig-scheduler/audit-ledger/v1".
Definition SNAPSHOT_SCHEMA : string := "zig-scheduler/rollback-snapshot/v1".

Record Args : Set := MkArgs { ledger : option path; self_test : bool }.

Definition fail {A} (m : string) : result A := raise AuditLedgerError m.

Definition parse_args (argv : list string) : result Args :=
  match argv with
  | ["--self-test"] => Ok (MkArgs None true)
  | ["--ledger"; p] => Ok (MkArgs (Some (Path p)) false)
  | _ => fail "usage: audit_ledger_check.py --ledger <audit-ledger.jsonl> | --self-test"
  end.

Section Checker.
Variable F : fs.

Definition load_object (p : path) : result jobject :=
  let* raw := catch (bind (read_text F p) loads) (fun exc =>
    if decide (exn_cls exc = FileNotFoundError)
    then Some (fail ("missing JSON file: " ++ path_str p))
    else if decide (exn_cls exc = JSONDecodeError)
    then Some (fail ("invalid JSON in " ++ path_str p ++ ": " ++ exn_str exc))
    else None) in
  match raw with
  | JDict d => Ok d
  | _ => fail (path_str p ++ " must contain a JSON object")
  end.

Fixpoint parse_lines (index : nat) (lines : list string) : result (list jobject) :=
  match lines with
  | [] => Ok []
  | line :: lines =>
      if String.eqb (strip line) "" then parse_lines (S index) lines
      else
        let* raw := reraise JSONDecodeError AuditLedgerError
          (fun exc => "invalid JSONL line " ++ str_nat index ++ ": " ++ exn_str exc) (loads line) in
        match raw with
        | JDict d => let* rows := parse_lines (S index) lines in Ok (d :: rows)
        | _ => fail ("line " ++ str_nat index ++ " must be a JSON object")
        end
  end.

Definition load_jsonl (p : path) : result (list jobject) :=
  let* text := reraise FileNotFoundError AuditLedgerError
    (fun _ => "missing ledger: " ++ path_str p) (read_text F p) in
  let* rows := parse_lines 1 (splitlines text) in
  match rows with
  | [] => fail "ledger is empty"
  | _ => Ok rows
  end.

Definition require_string (data : jobject) (field context : string) : result string :=
  match get data field with
  | JStr value =>
      if String.eqb value "" then fail (context ++ " missing non-empty string field: " ++ field)
      else if re_found SECRET_RE value
      then fail (context ++ " contains secret-like field: " ++ field)
      else Ok value
  | _ => fail (context ++ " missing non-empty string field: " ++ field)
  end.

Definition sha256_file (p : path) : result string := sha256_of F p.

Definition SNAPSHOT_STATE_FIELDS : list string :=
  ["state_before"; "state_after"; "ops_before"; "ops_after"; "enable_seq_before"; "enable_seq_after"].

(** The audit id of the row joins [seen] before the artifacts are checked. *)
Definition validate_record (row : jobject) (seen : gset string) (index : nat) : result (gset string) :=
  let context := "ledger[" ++ str_nat index ++ "]" in
  let* schema := require_string row "schema" context in
  ensure (String.eqb schema LEDGER_SCHEMA) AuditLedgerError (context ++ " unsupported schema") ;;;
  let* audit_id := require_string row "audit_id" context in
  ensure (re_match AUDIT_RE audit_id) AuditLedgerError (context ++ " invalid audit_id") ;;;
  ensure (negb (bool_decide (audit_id ∈ seen))) AuditLedgerError
    (context ++ " duplicate audit_id: " ++ audit_id) ;;;
  let seen := {[ audit_id ]} ∪ seen in
  let* rollback_id := require_string row "rollback_id" context in
  let* snapshot_name := require_string row "rollback_snapshot" context in
  let* transcript_name := require_string row "transcript" context in
  let snapshot_path := Path snapshot_name in
  let transcript_path := Path transcript_name in
  let* snapshot_sha := require_string row "rollback_snapshot_sha256" context in
  let* transcript_sha := require_string row "transcript_sha256" context in
  ensure (is_file F snapshot_path && is_file F transcript_path) AuditLedgerError
    (context ++ " transcript/snapshot artifact missing") ;;;
  let* digest := sha256_file snapshot_path in
  ensure (String.eqb digest snapshot_sha) AuditLedgerError (context ++ " rollback snapshot hash mismatch") ;;;
  let* digest' := sha256_file transcript_path in
  ensure (String.eqb digest' transcript_sha) AuditLedgerError (context ++ " transcript hash mismatch") ;;;
  let* snapshot := load_object snapshot_path in
  let* s := require_string snapshot "schema" "snapshot" in
  ensure (String.eqb s SNAPSHOT_SCHEMA) AuditLedgerError "snapshot unsupported schema" ;;;
  let* a := require_string snapshot "audit_id" "snapshot" in
  ensure (String.eqb a audit_id) AuditLedgerError "snapshot audit_id mismatch" ;;;
  let* r := require_string snapshot "rollback_id" "snapshot" in
  ensure (String.eqb r rollback_id) AuditLedgerError "snapshot rollback_id mismatch" ;;;
  for_each SNAPSHOT_STATE_FIELDS (fun field =>
    let* _ := require_string snapshot field "snapshot" in Ok tt) ;;;
  Ok seen.

Definition validate_ledger (p : path) : result unit :=
  let* rows := load_jsonl p in
  let* _ := for_fold 0 rows (∅ : gset string) (fun index row seen => validate_record row seen index) in
  Ok tt.

(** [run], without the self-test, whose scratch files are test data. *)
Definition run (argv : list string) : result (list string) :=
  let* args := parse_args argv in
  match ledger args with
  | None => fail "internal argument parser error"
  | Some p => validate_ledger p ;;; Ok ["PASS audit ledger: " ++ path_str p]
  end.

Definition main (argv : list string) : exit :=
  run_main (is_class AuditLedgerError) "FAIL audit ledger" (run argv).
End Checker.

(** * Specification of a ledger *)

(** A non-empty text that no secret pattern occurs in. *)
Definition public_text (d : jobject) (field s : string) : Prop :=
  get d field = JStr s /\ s <> "" /\ re_found SECRET_RE s = false.

(** The snapshot repeats the two ids and reports the scheduler state twice. *)
Record snapshot_ok (d : jobject) (audit_id rollback_id : string) : Prop := {
  sn_schema : public_text d "schema" SNAPSHOT_SCHEMA;
  sn_audit : public_text d "audit_id" audit_id;
  sn_rollback : public_text d "rollback_id" rollback_id;
  sn_states : forall f, In f SNAPSHOT_STATE_FIELDS -> exists s, public_text d f s;
}.

(** What a row says and refers to, whatever its audit id looks like. *)
Record links_ok (F : fs) (row : jobject) (audit_id : string) : Prop := {
  rc_schema : public_text row "schema" LEDGER_SCHEMA;
  rc_audit : public_text row "audit_id" audit_id;
  rc_transcript : exists name digest, public_text row "transcript" name
    /\ public_text row "transcript_sha256" digest /\ file_digest F (Path name) digest;
  rc_snapshot : exists name digest rollback_id snapshot, public_text row "rollback_snapshot" name
    /\ public_text row "rollback_snapshot_sha256" digest /\ file_digest F (Path name) digest
    /\ public_text row "rollback_id" rollback_id
    /\ load_object F (Path name) = Ok snapshot /\ snapshot_ok snapshot audit_id rollback_id;
}.

(** An audit id: AUD-, the date and the time in digits, the first digits of the
    commit and six more hexadecimal digits. *)
Definition audit_name (s : string) : Prop :=
  exists date time commit tail,
    s = "AUD-" ++ date ++ "T" ++ time ++ "Z-" ++ commit ++ "-" ++ tail
    /\ (all_chars is_digit date = true /\ len date = 8) /\ (all_chars is_digit time = true /\ len time = 6)
    /\ (all_chars is_hex_lower commit = true /\ 7 <= len commit <= 12)
    /\ (all_chars is_hex_lower tail = true /\ len tail = 6).

(** The checker takes an audit id with a newline after it for one, too. *)
Definition record_ok (F : fs) (row : jobject) (audit_id : string) : Prop :=
  links_ok F row audit_id /\ exists name, audit_name name /\ (audit_id = name \/ audit_id = name ++ chr 10).

(** ** A ledger whose second row repeats the audit id of the first, but for a
    trailing newline *)
Definition demo_id : string := "AUD-20990101T000000Z-deadbee-abc123".
Definition demo_snapshot_object (id : string) : jobject := [
  ("schema", JStr SNAPSHOT_SCHEMA); ("audit_id", JStr id); ("rollback_id", JStr "RB-demo");
    ("state_before", JStr "enabled"); ("state_after", JStr "disabled"); ("ops_before", JStr "zigsched");
    ("ops_after", JStr "none"); ("enable_seq_before", JStr "1"); ("enable_seq_after", JStr "1")].
Definition demo_snapshot (id : string) : string := dumps (JDict (demo_snapshot_object id)).
Definition demo_row (id snapshot : string) : jobject := [
  ("schema", JStr LEDGER_SCHEMA); ("audit_id", JStr id); ("rollback_id", JStr "RB-demo");
  ("rollback_snapshot", JStr snapshot); ("rollback_snapshot_sha256", JStr (sha256_hex (demo_snapshot id)));
  ("transcript", JStr "transcript.txt"); ("transcript_sha256", JStr (sha256_hex "rollback transcript"))].
Definition demo_files (second_id : string) : fs := fs_of "/repo" [
  ("transcript.txt", File "rollback transcript");
  ("first.json", File (demo_snapshot demo_id));
  ("second.json", File (demo_snapshot second_id));
  ("ledger.jsonl", File (dumps (JDict (demo_row demo_id "first.json")) ++ chr 10
                           ++ dumps (JDict (demo_row second_id "second.json"))))].

(** * Lemmas *)
Lemma ledger_string_ok d field context s :
  require_string d field context = Ok s <-> public_text d field s.
Proof.
  unfold require_string, public_text. destruct (get d field) as [| | | |v| |];
    try (split; [discriminate | by intros ([=] & _)]).
  destruct (String.eqb_spec v "") as [->|Hv]; [split; [discriminate | naive_solver]|].
  unfold fail. rewrite if_raise_ok, Ok_inj. naive_solver.
Qed.

Lemma ledger_lines_ok i lines rows :
  parse_lines i lines = Ok rows <->
  Forall2 (fun line d => loads line = Ok (JDict d))
    (List.filter (fun line => negb (String.eqb (strip line) "")) lines) rows.
Proof.
  apply (jsonl_ok parse_lines (fun index line => reraise JSONDecodeError AuditLedgerError
    (fun exc => "invalid JSONL line " ++ str_nat index ++ ": " ++ exn_str exc) (loads line))
    (fun line v => loads line = Ok v)).
  - intros. apply reraise_ok.
  - done.
  - intros ? ? ? E. simpl. by rewrite E.
  - intros k line ls rs E. simpl. rewrite E. apply (jsonl_line _ _ (fun _ => fail _) (fun d => d)). by intros.
Qed.

Lemma ledger_jsonl_ok F p rows :
  load_jsonl F p = Ok rows <->
  exists text, read_text F p = Ok text /\ rows <> []
    /\ Forall2 (fun line d => loads line = Ok (JDict d)) (content_lines text) rows.
Proof.
  unfold load_jsonl. split.
  - intros (text & Ht%reraise_ok & (rs & Hrs%ledger_lines_ok & H)%bind_ok)%bind_ok.
    exists text. destruct rs; [discriminate|]. by injection H as <-.
  - intros (text & Ht & Hne & H). apply bind_ok. exists text. rewrite reraise_ok. split; [done|].
    apply bind_ok. exists rows. rewrite ledger_lines_ok. split; [done|]. by destruct rows.
Qed.

Lemma snapshot_states d :
  for_each SNAPSHOT_STATE_FIELDS (fun field => let* _ := require_string d field "snapshot" in Ok tt) = Ok tt <->
  forall f, In f SNAPSHOT_STATE_FIELDS -> exists s, public_text d f s.
Proof.
  rewrite for_each_ok, Forall_forall. setoid_rewrite list_elem_of_In. setoid_rewrite bind_ok.
  setoid_rewrite ledger_string_ok. split; intros H f Hf; destruct (H f Hf) as (s & Hs); exists s.
  - apply Hs.
  - by split.
Qed.

(** ** Audit ids *)
Definition AUDIT_ITEMS : list item := [
  Lit "AUD-"; Cls 8 0 is_digit; Lit "T"; Cls 6 0 is_digit; Lit "Z-"; Cls 7 5 is_hex_lower; Lit "-"; Cls 6 0 is_hex_lower].

Lemma audit_items s : items_text AUDIT_ITEMS s <-> audit_name s.
Proof.
  unfold audit_name. split.
  - intros (? & ? & -> & -> & d & ? & -> & [Hd Hd'] & ? & ? & -> & -> & t & ? & -> & [Ht Ht'] & ? & ? & -> & -> & c & ? & -> & [Hc Hc']
      & ? & ? & -> & -> & h & ? & -> & [Hh Hh'] & ->).
    exists d, t, c, h. rewrite append_nil_r. split; [done|]. split; [split; [done | lia]|]. split; [split; [done | lia]|].
    split; [split; [done | lia]|]. split; [done | lia].
  - intros (d & t & c & h & -> & [Hd Hd'] & [Ht Ht'] & [Hc Hc'] & [Hh Hh']).
    do 2 eexists; split; [reflexivity|]; split; [reflexivity|]. do 2 eexists; split; [reflexivity|]; split; [split; [done | lia]|].
    do 2 eexists; split; [reflexivity|]; split; [reflexivity|]. do 2 eexists; split; [reflexivity|]; split; [split; [done | lia]|].
    do 2 eexists; split; [reflexivity|]; split; [reflexivity|]. do 2 eexists; split; [reflexivity|]; split; [split; [done | lia]|].
    do 2 eexists; split; [reflexivity|]; split; [reflexivity|]. exists h, "". rewrite append_nil_r. split; [done|].
    split; [split; [done | lia] | done].
Qed.

Lemma audit_match s : re_match AUDIT_RE s = true <-> exists name, audit_name name /\ (s = name \/ s = name ++ chr 10).
Proof. rewrite (line_match AUDIT_ITEMS s). by setoid_rewrite audit_items. Qed.

Lemma validate_record_ok F row seen i seen' :
  validate_record F row seen i = Ok seen' <->
  exists audit_id, record_ok F row audit_id /\ audit_id ∉ seen /\ seen' = {[ audit_id ]} ∪ seen.
Proof.
  unfold validate_record, sha256_file. cbv zeta. split.
  - intros (schema & Hschema%ledger_string_ok & (->%ensure_ok%String.eqb_eq & H)%bind_ok_unit)%bind_ok.
    apply bind_ok in H as (id & Hid%ledger_string_ok & H). apply bind_ok_unit in H as [Hre%ensure_ok H].
    apply bind_ok_unit in H as [Hnew%ensure_ok%negb_true_iff%bool_decide_eq_false H].
    apply bind_ok in H as (rid & Hrid%ledger_string_ok & H).
    apply bind_ok in H as (sn & Hsn%ledger_string_ok & H). apply bind_ok in H as (tn & Htn%ledger_string_ok & H).
    apply bind_ok in H as (sd & Hsd%ledger_string_ok & H). apply bind_ok in H as (td & Htd%ledger_string_ok & H).
    apply bind_ok_unit in H as [_ H].
    apply bind_ok in H as (x & Hx%sha256_of_ok & (->%ensure_ok%String.eqb_eq & H)%bind_ok_unit).
    apply bind_ok in H as (y & Hy%sha256_of_ok & (->%ensure_ok%String.eqb_eq & H)%bind_ok_unit).
    apply bind_ok in H as (d & Hd & H).
    apply bind_ok in H as (a & Ha%ledger_string_ok & (->%ensure_ok%String.eqb_eq & H)%bind_ok_unit).
    apply bind_ok in H as (b & Hb%ledger_string_ok & (->%ensure_ok%String.eqb_eq & H)%bind_ok_unit).
    apply bind_ok in H as (c & Hc%ledger_string_ok & (->%ensure_ok%String.eqb_eq & H)%bind_ok_unit).
    apply bind_ok_unit in H as [Hst [= <-]]. rewrite snapshot_states in Hst.
    exists id. split; [|done]. split; [|by apply audit_match]. split; try done; [by exists tn, td | by exists sn, sd, rid, d].
  - intros (id & [[Hschema Hid (tn & td & Htn & Htd & Ht)
      (sn & sd & rid & d & Hsn & Hsd & Hs & Hrid & Hd & [Ha Hb Hc Hst])] Hre%audit_match] & Hnew & ->). run_ok;
      try (by apply ledger_string_ok); try (by apply String.eqb_refl); try done.
    + by apply negb_true_iff, bool_decide_eq_false.
    + apply andb_true_iff. split; by eapply file_digest_is_file.
    + by apply sha256_of_ok.
    + by apply sha256_of_ok.
    + by eapply for_each_ok, snapshot_states.
Qed.

(** The text of a ledger determines its rows, and the rows their audit ids. *)
Lemma rows_read lines rows rows' :
  Forall2 (fun line d => loads line = Ok (JDict d)) lines rows ->
  Forall2 (fun line d => loads line = Ok (JDict d)) lines rows' -> rows = rows'.
Proof.
  intros H. revert rows'. induction H as [|line d lines rows Hd _ IH]; intros rows' H'; inversion H' as [|? d' ? rows'' Hd' Hr]; subst; [done|].
  rewrite Hd in Hd'. injection Hd' as <-. f_equal. by apply IH.
Qed.
Lemma ids_read F rows ids ids' : Forall2 (record_ok F) rows ids -> Forall2 (record_ok F) rows ids' -> ids = ids'.
Proof.
  intros H. revert ids'. induction H as [|row id rows ids [[_ [Hi _] _ _] _] _ IH]; intros ids' H';
    inversion H' as [|? id' ? ids'' [[_ [Hi' _] _ _] _] Hr]; subst; [done|].
  rewrite Hi in Hi'. injection Hi' as <-. f_equal. by apply IH.
Qed.

Lemma ledger_accepted F p :
  validate_ledger F p = Ok tt <->
  exists text rows ids, read_text F p = Ok text /\ rows <> []
    /\ Forall2 (fun line d => loads line = Ok (JDict d)) (content_lines text) rows
    /\ Forall2 (record_ok F) rows ids /\ NoDup ids.
Proof.
  unfold validate_ledger.
  assert (Hloop : forall rows, (exists s, for_fold 0 rows (∅ : gset string)
      (fun index row seen => validate_record F row seen index) = Ok s) <->
      exists ids, Forall2 (record_ok F) rows ids /\ NoDup ids).
  { intros rows. setoid_rewrite (for_fold_fresh (fun _ => record_ok F) (fun k s => k ∉ s) (fun k s => {[k]} ∪ s)).
    - setoid_rewrite (Forall2_enum _ 0). setoid_rewrite fresh_run_set. split.
      + intros (s & ids & H & [Hn _] & _). by exists ids.
      + intros (ids & H & Hn). eexists _, ids. split; [done|]. split; [split; [done | set_solver] | done].
    - intros i row st st'. apply validate_record_ok. }
  split.
  - intros (rows & (text & Ht & Hne & Hl)%ledger_jsonl_ok & (s & Hs & _)%bind_ok)%bind_ok.
    destruct (proj1 (Hloop rows)) as (ids & Hi & Hn); [by exists s|]. by exists text, rows, ids.
  - intros (text & rows & ids & Ht & Hne & Hl & Hi & Hn).
    destruct (proj2 (Hloop rows)) as [s Hs]; [by exists ids|].
    apply bind_ok. exists rows. split; [apply ledger_jsonl_ok; by exists text|].
    apply bind_ok. by exists s.
Qed.

(** * Properties *)

(** C39: [validate_ledger] accepts a ledger exactly when it has at least one row,
    every line that is not blank is a JSON object which satisfies [record_ok] (its
    digests are those of the transcript and of the snapshot on disk, and the
    snapshot repeats its audit id and rollback id), and no audit id occurs twice. *)
Theorem validate_ledger_iff F p :
  validate_ledger F p = Ok tt <->
  exists text rows ids, read_text F p = Ok text /\ rows <> []
    /\ Forall2 (fun line d => loads line = Ok (JDict d)) (content_lines text) rows
    /\ Forall2 (record_ok F) rows ids /\ NoDup ids.
Proof. apply ledger_accepted. Qed.

(** C37: an audit id can be used twice.  The pattern of an audit id ends in a
    dollar, which also matches before a final newline: when the last row of a
    ledger repeats the audit id of an earlier row with a newline appended, and is
    in order otherwise, the ledger is accepted; with the audit id itself the
    ledger is refused, whatever else the row says. *)
Theorem audit_id_newline_evades F p text rows row ids id
    (Htext : read_text F p = Ok text)
    (Hlines : Forall2 (fun line d => loads line = Ok (JDict d)) (content_lines text) (rows ++ [row]))
    (Hrows : Forall2 (record_ok F) rows ids) (Hids : NoDup ids) (Hid : In id ids) (Hname : audit_name id)
    (Hnew : ~ In (id ++ chr 10) ids) :
  (links_ok F row (id ++ chr 10) -> validate_ledger F p = Ok tt)
  /\ (get row "audit_id" = JStr id -> validate_ledger F p <> Ok tt).
Proof.
  split.
  - intros Hl. apply ledger_accepted. exists text, (rows ++ [row])%list, (ids ++ [(id ++ chr 10)%string])%list.
    split; [done|]. split; [by destruct rows|]. split; [done|]. split.
    + apply Forall2_app; [done|]. constructor; [|done]. split; [done|]. exists id. tauto.
    + apply NoDup_app. split; [done|]. split; [|apply NoDup_singleton].
      intros x Hx%list_elem_of_In ->%list_elem_of_singleton. done.
  - intros Hrow (text' & rows' & ids' & Ht & _ & Hl & Hr & Hn)%ledger_accepted.
    rewrite Htext in Ht. injection Ht as <-. pose proof (rows_read _ _ _ Hlines Hl) as <-.
    apply Forall2_app_inv_l in Hr as (ids1 & ids2 & H1 & H2 & ->).
    pose proof (ids_read _ _ _ _ Hrows H1) as <-. inversion H2 as [|? id2 ? ? [[_ [Hi _] _ _] _] _]; subst.
    rewrite Hrow in Hi. injection Hi as <-. apply NoDup_app in Hn as (_ & Hn & _).
    by apply (Hn id); [apply list_elem_of_In | left].
Qed.

(** The demonstration rows are in order, but for the pattern of the audit id. *)
Ltac demo_text := split; [vm_compute; reflexivity | split; [discriminate | vm_compute; reflexivity]].
Ltac demo_digest := eexists; split; [vm_compute; reflexivity|]; vm_compute; reflexivity.
Ltac demo_links :=
  split; [demo_text | demo_text
  |do 2 eexists; split; [demo_text|]; split; [demo_text | demo_digest]
  |do 4 eexists; split; [demo_text|]; split; [demo_text|]; split; [demo_digest|]; split; [demo_text|];
   split; [vm_compute; reflexivity|]; split; [demo_text | demo_text | demo_text |];
   intros f Hf; repeat (destruct Hf as [<-|Hf]; [eexists; demo_text|]); destruct Hf].

Lemma audit_id_newline_evades_witness :
  validate_ledger (demo_files (demo_id ++ chr 10)) (Path "ledger.jsonl") = Ok tt.
Proof.
  assert (Hn : audit_name demo_id).
  { exists "20990101", "000000", "deadbee", "abc123". split; [reflexivity|]. vm_compute. repeat split; lia. }
  apply (audit_id_newline_evades (demo_files (demo_id ++ chr 10)) (Path "ledger.jsonl")
    (dumps (JDict (demo_row demo_id "first.json")) ++ chr 10 ++ dumps (JDict (demo_row (demo_id ++ chr 10) "second.json")))
    [demo_row demo_id "first.json"] (demo_row (demo_id ++ chr 10) "second.json") [demo_id] demo_id).
  - vm_compute. reflexivity.
  - replace (content_lines _) with [dumps (JDict (demo_row demo_id "first.json"));
      dumps (JDict (demo_row (demo_id ++ chr 10) "second.json"))] by (vm_compute; reflexivity).
    constructor; [vm_compute; reflexivity|]. constructor; [vm_compute; reflexivity | constructor].
  - constructor; [|constructor]. split; [demo_links|]. exists demo_id. split; [exact Hn | left; reflexivity].
  - apply NoDup_singleton.
  - left. reflexivity.
  - exact Hn.
  - intros [H|[]]. discriminate H.
  - demo_links.
Defined.
