(* ===== verification/DaemonEvent.v ===== *)
(** DaemonEvent: qa/daemon_event_contract_check.py, with [parse_json_value] of
    qa/frontend_contract_pack_types.py.

    A daemon journal is a JSONL stream whose rows carry consecutive sequence
    numbers, [host_mutation=false] and no private field.  [require_task9_lifecycle]
    also follows the artifacts of the runtime-sample, rollback and refusal rows.
    The argument parser of [main] is argparse; [main] takes its result. *)
From S2P Require Import Prelude PyStr PyRe PyFloat PyJson PyFs PyMain.

Local Open Scope string_scope.

(** ** qa/frontend_contract_pack_types.py *)
Definition EVENT_SCHEMA : string := "zig-scheduler/daemon-event/v1".

Definition parse_json_value (text context : string) : result json :=
  let reject_constant (value : string) : result json :=
    let position := match find text value with Some p => p | None => 0 end in
    raise ContractPackError ("invalid JSON in " ++ context ++ " at byte " ++ str_nat position
      ++ ": invalid constant " ++ value) in
  reraise JSONDecodeError ContractPackError
    (fun exc => "invalid JSON in " ++ context ++ " at byte " ++ str_nat (exn_pos exc) ++ ": " ++ exn_msg exc)
    (loads_with reject_constant text).

Definition parse_json_object (text context : string) : result jobject :=
  let* value := parse_json_value text context in
  match value with
  | JDict d => Ok d
  | _ => raise ContractPackError (context ++ " is not an object")
  end.

(** ** qa/daemon_event_contract_check.py *)
Definition SCHEMA : string := "zig-scheduler/daemon-event/v1".
Definition REQUIRED_LIFECYCLE : list string :=
  ["boot"; "marker"; "verifier"; "attach"; "runtime_sample"; "rollback"; "cleanup"; "validation"; "incident"].
Definition PRIVATE_NEEDLES : list string :=
  ["cmdline"; "command_line"; "argv"; "environment"; chr 34 ++ "env" ++ chr 34; "secret"; "api_key";
   "--token"; "password="].
Definition IDENTIFIER : regex := rseq [RBol; rrep 1 95 (RChar is_ident_char); REol].
Definition AUDIT_ID : regex := rseq [
  RBol; rlit "AUD-"; rrep 8 0 rdigit09; rlit "T"; rrep 6 0 rdigit09; rlit "Z-";
  rrep 7 5 (RChar is_hex_lower); rlit "-"; rrep 6 0 (RChar is_hex_lower); REol].
Definition SHA256_RE : regex := rseq [RBol; rrep 64 0 (RChar is_hex_lower); REol].
Definition UNAVAILABLE_DIGESTS : list string := [""; "missing"; "none"; "null"; "unavailable"; "unknown"].

Record Args : Set := MkArgs {
  input : path;
  require_lifecycle_flag : bool;
  require_task9_flag : bool;
}.

(** [seq] keeps the JSON value: an [int], or a [bool], which is one too. *)
Record EventRow : Type := MkRow {
  seq : json;
  event : string;
  host_mutation : bool;
  raw : jobject;
}.

Definition fail {A} (m : string) : result A := raise ContractError m.

Definition parse_object (line : string) (line_number : nat) : result jobject :=
  let ctx := "line " ++ str_nat line_number in
  let* loaded := reraise ContractPackError ContractError
    (fun exc => ctx ++ ": invalid JSON: " ++ exn_str exc) (parse_json_value line ctx) in
  match loaded with
  | JDict row => Ok row
  | _ => fail (ctx ++ ": JSONL row is not an object")
  end.

Definition require_int (row : jobject) (field context : string) : result json :=
  let value := get row field in
  if is_int value then Ok value else fail (context ++ ": missing int field " ++ field).

Definition require_string (row : jobject) (field context : string) : result string :=
  match get row field with
  | JStr value =>
      if String.eqb value "" then fail (context ++ ": missing string field " ++ field) else Ok value
  | _ => fail (context ++ ": missing string field " ++ field)
  end.

Definition require_bool (row : jobject) (field context : string) : result bool :=
  match get row field with
  | JBool b => Ok b
  | _ => fail (context ++ ": missing bool field " ++ field)
  end.

Definition require_object (row : jobject) (field context : string) : result jobject :=
  match get row field with
  | JDict d => Ok d
  | _ => fail (context ++ ": missing object field " ++ field)
  end.

Definition event_label (row : EventRow) : string := "event " ++ py_str (seq row).

Definition validate_identifier (row : EventRow) (field : string) : result unit :=
  match get (raw row) field with
  | JNull => Ok tt
  | JStr value =>
      if String.eqb value "" then Ok tt
      else ensure (re_fullmatch IDENTIFIER value) ContractError (event_label row ++ ": invalid " ++ field)
  | _ => fail (event_label row ++ ": invalid " ++ field)
  end.

(** A dict item is skipped when its key is [command_argv_hash]. *)
Fixpoint contains_private_field (value : json) : bool :=
  match value with
  | JNull | JBool _ | JInt _ | JFloat _ => false
  | JStr text => existsb (fun needle => contains needle text) PRIVATE_NEEDLES
  | JList items => existsb contains_private_field items
  | JDict mapping =>
      existsb (fun kv =>
        if String.eqb (fst kv) "command_argv_hash" then false
        else existsb (fun needle => contains needle (fst kv)) PRIVATE_NEEDLES
             || contains_private_field (snd kv)) mapping
  end.

Definition IDENTIFIER_FIELDS : list string :=
  ["action_id"; "run_id"; "target_id"; "rollback_id"; "target_action_id"].

Definition validate_row (row : EventRow) (expected_seq : nat) : result unit :=
  let label := "event " ++ str_nat expected_seq in
  ensure (py_eq (get (raw row) "schema") (JStr SCHEMA)) ContractError (label ++ ": unsupported schema") ;;;
  ensure (py_eq (seq row) (JInt (Z.of_nat expected_seq))) ContractError
    ("event sequence is not incremental: expected " ++ str_nat expected_seq
       ++ ", got " ++ py_str (seq row)) ;;;
  ensure (negb (host_mutation row)) ContractError (label ++ ": host_mutation must be false") ;;;
  for_each IDENTIFIER_FIELDS (validate_identifier row) ;;;
  match get (raw row) "audit_id" with
  | JNull => Ok tt
  | JStr audit_id =>
      if String.eqb audit_id "" then Ok tt
      else ensure (re_fullmatch AUDIT_ID audit_id) ContractError (label ++ ": invalid audit_id")
  | _ => fail (label ++ ": invalid audit_id")
  end ;;;
  ensure (negb (contains_private_field (JDict (raw row)))) ContractError
    (label ++ ": private field leaked").

Definition missing_lifecycle (rows : list EventRow) : list string :=
  sorted (set_diff REQUIRED_LIFECYCLE (map event rows)).

Definition require_lifecycle_events (rows : list EventRow) : result unit :=
  match missing_lifecycle rows with
  | [] => Ok tt
  | missing => fail ("missing lifecycle events: " ++ join ", " missing)
  end.

Fixpoint find_event (rows : list EventRow) (e : string) : result EventRow :=
  match rows with
  | [] => fail ("missing event: " ++ e)
  | row :: rows => if String.eqb (event row) e then Ok row else find_event rows e
  end.

Section Checker.
Variable F : fs.

Definition require_artifact (row : EventRow) (label : string) : result path :=
  let* a := require_string (raw row) "artifact" label in
  let artifact := Path a in
  if is_absolute artifact || mem ".." (parts artifact) || negb (exists_ F artifact)
  then fail (label ++ " artifact is unsafe or missing: " ++ path_str artifact)
  else Ok artifact.

Fixpoint rows_of_lines (line_number : nat) (lines : list string) : result (list EventRow) :=
  match lines with
  | [] => Ok []
  | line :: lines =>
      if String.eqb (strip line) "" then rows_of_lines (S line_number) lines
      else
        let ctx := "line " ++ str_nat line_number in
        let* r := parse_object line line_number in
        let* s := require_int r "seq" ctx in
        let* e := require_string r "event" ctx in
        let* h := require_bool r "host_mutation" ctx in
        let* rows := rows_of_lines (S line_number) lines in
        Ok (MkRow s e h r :: rows)
  end.

Definition load_rows (p : path) : result (list EventRow) :=
  let* text := read_text F p in
  let* rows := rows_of_lines 1 (splitlines text) in
  match rows with
  | [] => fail "event stream is empty"
  | _ => Ok rows
  end.

Fixpoint objects_of_lines (line_number : nat) (lines : list string) : result (list jobject) :=
  match lines with
  | [] => Ok []
  | line :: lines =>
      if String.eqb (strip line) "" then objects_of_lines (S line_number) lines
      else
        let* r := parse_object line line_number in
        let* rows := objects_of_lines (S line_number) lines in
        Ok (r :: rows)
  end.

Definition load_jsonl_objects (p : path) (context : string) : result (list jobject) :=
  let* text := reraise FileNotFoundError ContractError
    (fun _ => context ++ " artifact missing: " ++ path_str p) (read_text F p) in
  let* rows := objects_of_lines 1 (splitlines text) in
  match rows with
  | [] => fail (context ++ " artifact is empty: " ++ path_str p)
  | _ => Ok rows
  end.

Definition validate (p : path) (require_lifecycle : bool) : result unit :=
  let* rows := load_rows p in
  for_enum 1 rows (fun expected_seq row => validate_row row expected_seq) ;;;
  if require_lifecycle then require_lifecycle_events rows else Ok tt.

Definition validate_task9_sample (index : nat) (row : jobject) (saw_live_ops : bool) : result bool :=
  let label := "runtime sample " ++ str_nat index in
  ensure (py_eq (get row "observation_source") (JStr "vm_serial_sched_ext")) ContractError
    (label ++ ": missing VM observation source") ;;;
  let* known := in_set (get row "sample_source_event") ["before"; "register"; "unregister"] in
  ensure known ContractError (label ++ ": unsupported sample source event") ;;;
  let* ops := require_object row "ops" label in
  let saw_live_ops := py_eq (get ops "value") (JStr "zigsched_minimal") || saw_live_ops in
  match get row "cgroup_membership_digest" with
  | JStr digest =>
      ensure (re_match SHA256_RE digest && negb (String.eqb digest (repeat_str 64 "0"))
              && negb (mem (lower digest) UNAVAILABLE_DIGESTS)) ContractError
        (label ++ ": missing observed sha256 cgroup digest")
  | _ => fail (label ++ ": missing observed sha256 cgroup digest")
  end ;;;
  let* cgroup_status := require_object row "cgroup_membership_status" label in
  ensure (py_eq (get cgroup_status "status") (JStr "present")
          && py_eq (get cgroup_status "value") (JStr "present")) ContractError
    (label ++ ": cgroup membership was not observed present") ;;;
  ensure (is_bool (get row "workload_alive")) ContractError
    (label ++ ": missing observed workload state") ;;;
  Ok saw_live_ops.

Definition validate_task9_runtime_samples (p : path) : result unit :=
  let* rows := load_jsonl_objects p "runtime_sample" in
  let* saw_live_ops := for_fold 0 rows false validate_task9_sample in
  ensure saw_live_ops ContractError "runtime samples never observed zigsched_minimal".

(** The first row of the ledger; [load_jsonl_objects] returns at least one. *)
Definition validate_task9_rollback_link (rollback : EventRow) (ledger_path : path) : result (string * string) :=
  let* rows := load_jsonl_objects ledger_path "rollback" in
  match rows with
  | [] => raise IndexError "list index out of range"
  | ledger :: _ =>
      let* ledger_rollback_id := require_string ledger "rollback_id" "rollback ledger" in
      let* ledger_audit_id := require_string ledger "audit_id" "rollback ledger" in
      let* daemon_rollback_id := require_string (raw rollback) "rollback_id" (event_label rollback) in
      let* daemon_audit_id := require_string (raw rollback) "audit_id" (event_label rollback) in
      ensure (String.eqb daemon_rollback_id ledger_rollback_id
              && String.eqb daemon_audit_id ledger_audit_id) ContractError
        "daemon rollback event IDs do not match audit ledger" ;;;
      Ok (ledger_rollback_id, ledger_audit_id)
  end.

Definition validate_task9_refusal_link (row : EventRow) (rollback_ids : string * string) : result unit :=
  let (rollback_id, audit_id) := rollback_ids in
  let label := event_label row in
  let state := get (raw row) "state" in
  let* r := require_string (raw row) "rollback_id" label in
  ensure (String.eqb r rollback_id) ContractError
    (label ++ ": refusal rollback_id does not match ledger") ;;;
  let* a := require_string (raw row) "audit_id" label in
  ensure (String.eqb a audit_id) ContractError (label ++ ": refusal audit_id does not match ledger") ;;;
  let* artifact := require_artifact row label in
  let* refusals := load_jsonl_objects artifact (label ++ " refusal") in
  match List.filter (fun item => py_eq (get item "state") state) refusals with
  | [] => fail (label ++ ": refusal artifact missing state")
  | refusal :: _ =>
      ensure (py_eq (get refusal "rollback_id") (JStr rollback_id)
              && py_eq (get refusal "audit_id") (JStr audit_id)) ContractError
        (label ++ ": refusal artifact IDs do not match ledger") ;;;
      ensure (negb (py_eq state (JStr "stale_target_refused")
                    && negb (py_eq (get refusal "refusal_path") (JStr "refuse_stale_rollback_target"))))
        ContractError (label ++ ": stale refusal was not produced by VM refusal path") ;;;
      if py_eq state (JStr "duplicate_rollback_refused") then
        let bpftool_rc := get refusal "bpftool_rc" in
        ensure (is_int bpftool_rc && negb (py_eq bpftool_rc (JInt 0))) ContractError
          (label ++ ": duplicate refusal lacks failing bpftool rc")
      else Ok tt
  end.

Definition TASK9_STATES : list string :=
  ["vm_live_validated"; "stale_target_refused"; "duplicate_rollback_refused"].

Definition REFUSAL_STATES : list string := ["stale_target_refused"; "duplicate_rollback_refused"].

Definition require_task9_lifecycle (p : path) : result unit :=
  let* rows := load_rows p in
  require_lifecycle_events rows ;;;
  let* states := map_m (fun row => require_string (raw row) "state" (event_label row)) rows in
  for_each TASK9_STATES (fun state =>
    ensure (mem state states) ContractError ("missing Task 9 state: " ++ state)) ;;;
  let* verifier := find_event rows "verifier" in
  let* attach := find_event rows "attach" in
  let* runtime := find_event rows "runtime_sample" in
  let* rollback := find_event rows "rollback" in
  let* runtime_artifact := require_artifact runtime "runtime_sample" in
  let* rollback_artifact := require_artifact rollback "rollback" in
  for_each [(verifier, "verifier"); (attach, "attach")] (fun rl =>
    let* _ := require_artifact (fst rl) (snd rl) in Ok tt) ;;;
  ensure (py_eq (get (raw runtime) "ops") (JStr "zigsched_minimal")) ContractError
    "runtime_sample does not show zigsched_minimal" ;;;
  validate_task9_runtime_samples runtime_artifact ;;;
  let* rollback_ids := validate_task9_rollback_link rollback rollback_artifact in
  for_each rows (fun row =>
    let* refusal := in_set (get (raw row) "state") REFUSAL_STATES in
    if refusal then
      let* refused := in_set (get (raw row) "status") ["REFUSE"; "refused"] in
      ensure refused ContractError
        (event_label row ++ ": refusal state must use refused status") ;;;
      ensure (negb (host_mutation row)) ContractError
        (event_label row ++ ": refusal must be host_mutation=false") ;;;
      validate_task9_refusal_link row rollback_ids
    else Ok tt).

Definition checks (args : Args) : result (list string) :=
  validate (input args) (require_lifecycle_flag args) ;;;
  (if require_task9_flag args then require_task9_lifecycle (input args) else Ok tt) ;;;
  Ok ["PASS daemon event contract: " ++ path_str (input args)].

Definition main (args : Args) : exit :=
  run_main (is_class ContractError) "FAIL daemon event contract" (checks args).
End Checker.

(** * Specification of an event stream *)
Definition no_private_text (s : string) : Prop := forall needle, In needle PRIVATE_NEEDLES -> contains needle s = false.

(** The walk does not look at [command_argv_hash], nor below it. *)
Definition open_key (k : string) : Prop := k <> "command_argv_hash".
Definition unexposed : json -> Prop :=
  CleanAt open_key (fun k _ => open_key k -> no_private_text k) no_private_text.

(** Absent, null, empty, or 1 to 96 identifier characters. *)
Definition optional_identifier (d : jobject) (field : string) : Prop :=
  get d field = JNull \/ exists s, get d field = JStr s
    /\ (s = "" \/ 1 <= len s <= 96 /\ all_chars is_ident_char s = true).

Record event_ok (row : EventRow) (expected : nat) : Prop := {
  ev_schema : get (raw row) "schema" = JStr SCHEMA;
  ev_seq : as_int (get (raw row) "seq") = Some (Z.of_nat expected);
  ev_event : get (raw row) "event" = JStr (event row) /\ event row <> "";
  ev_host : get (raw row) "host_mutation" = JBool false;
  ev_identifiers : forall f, In f IDENTIFIER_FIELDS -> optional_identifier (raw row) f;
  ev_audit : get (raw row) "audit_id" = JNull \/ exists s, get (raw row) "audit_id" = JStr s
    /\ (s = "" \/ re_fullmatch AUDIT_ID s = true);
  ev_private : unexposed (JDict (raw row));
}.

(** How a row reads the object of its line. *)
Record row_reads (row : EventRow) : Prop := {
  rr_seq : seq row = get (raw row) "seq" /\ is_int (seq row) = true;
  rr_event : get (raw row) "event" = JStr (event row) /\ event row <> "";
  rr_host : get (raw row) "host_mutation" = JBool (host_mutation row);
}.

(** * Lemmas *)
Lemma needles_false s : existsb (fun needle => contains needle s) PRIVATE_NEEDLES = false <-> no_private_text s.
Proof.
  unfold no_private_text. rewrite <- not_true_iff_false, existsb_exists. split.
  - intros H needle Hn. apply not_true_iff_false. intros Hc. apply H. by exists needle.
  - intros H (needle & Hn & Hc). by rewrite H in Hc.
Qed.

Lemma existsb_false {A} (f : A -> bool) l : existsb f l = false <-> Forall (fun x => f x = false) l.
Proof.
  induction l as [|x l IH]; simpl; [split; [constructor | done]|]. by rewrite orb_false_iff, IH, Forall_cons.
Qed.

Lemma contains_private_field_ok v : contains_private_field v = false <-> unexposed v.
Proof.
  unfold unexposed. induction v as [| | | |s|l IH|d IH] using json_nested_ind; cbn [contains_private_field];
    try (split; [intros _; by apply clean_at_scalar | done]).
  - by rewrite clean_at_str, needles_false.
  - rewrite clean_at_list, existsb_false. induction IH as [|v l Hv _ IHl]; [split; constructor|].
    by rewrite !Forall_cons, IHl, Hv.
  - rewrite clean_at_dict, existsb_false. induction IH as [|[k v] d Hv _ IHd]; [split; constructor|].
    rewrite !Forall_cons, IHd. cbn [fst snd] in Hv |- *. unfold open_key. destruct (String.eqb_spec k "command_argv_hash").
    + naive_solver.
    + rewrite orb_false_iff, needles_false, Hv. naive_solver.
Qed.

Lemma py_eq_expected v n : is_int v = true -> py_eq v (JInt n) = true <-> as_int v = Some n.
Proof. rewrite py_eq_int. destruct v; simpl; try discriminate; naive_solver. Qed.

Lemma validate_identifier_ok row field :
  validate_identifier row field = Ok tt <-> optional_identifier (raw row) field.
Proof.
  unfold validate_identifier, optional_identifier, IDENTIFIER.
  destruct (get (raw row) field) as [| | | |s| |]; try (split; [discriminate | by intros [[=]|(? & [=] & _)]]).
  - split; [by left | done].
  - destruct (String.eqb_spec s "") as [->|Hs].
    + split; [right; eexists; split; [done | by left] | done].
    + rewrite ensure_ok, class_fullmatch. split.
      * intros [Ha Hl]. right. exists s. split; [done|]. right. simpl in Hl. split; [lia | done].
      * intros [[=]|(? & [= <-] & [?|[Hl Ha]])]; [done|]. simpl. split; [done | lia].
Qed.

Lemma optional_audit_ok v m1 m2 :
  match v with
  | JNull => Ok tt
  | JStr s => if String.eqb s "" then Ok tt else ensure (re_fullmatch AUDIT_ID s) ContractError m1
  | _ => fail m2
  end = Ok tt <-> v = JNull \/ exists s, v = JStr s /\ (s = "" \/ re_fullmatch AUDIT_ID s = true).
Proof.
  destruct v as [| | | |s| |]; try (split; [discriminate | by intros [[=]|(? & [=] & _)]]).
  - split; [by left | done].
  - destruct (String.eqb_spec s "") as [->|Hs].
    + split; [right; eexists; split; [done | by left] | done].
    + rewrite ensure_ok. split; [intros H; right; exists s; split; [done | by right]|].
      intros [[=]|(? & [= <-] & [?|?])]; done.
Qed.

Lemma validate_row_ok row n :
  row_reads row -> validate_row row n = Ok tt <-> event_ok row n.
Proof.
  intros [[Hseq Hint] Hev Hh]. unfold validate_row. cbv zeta.
  rewrite !bind_ok_unit, !ensure_ok, for_each_ok, Forall_forall, py_eq_str, optional_audit_ok.
  rewrite !negb_true_iff, contains_private_field_ok, py_eq_expected by done.
  setoid_rewrite list_elem_of_In. setoid_rewrite validate_identifier_ok. rewrite Hseq. split.
  - intros (H1 & H2 & H3 & H4 & H5 & H6). split; try done. by rewrite Hh, H3.
  - intros [H1 H2 _ H3 H4 H5 H6]. rewrite Hh in H3. injection H3 as ->. done.
Qed.

Lemma rows_of_lines_reads i lines rows : rows_of_lines i lines = Ok rows -> Forall row_reads rows.
Proof.
  revert i rows. induction lines as [|line lines IH]; intros i rows; simpl; [by intros [= <-]|].
  destruct (String.eqb (strip line) ""); [apply IH|].
  intros (r & Hr & (s & Hs & (e & He & (h & Hh & (rest & Hrest & [= <-])%bind_ok)%bind_ok)%bind_ok)%bind_ok)%bind_ok.
  constructor; [|by eapply IH]. unfold require_int in Hs. destruct (is_int (get r "seq")) eqn:Ei; [|discriminate].
  injection Hs as <-. unfold require_string in He. unfold require_bool in Hh. split; simpl; [done| |].
  - destruct (get r "event") as [| | | |v| |]; try discriminate. destruct (String.eqb_spec v ""); [discriminate|].
    by injection He as ->.
  - destruct (get r "host_mutation") as [|b| | | | |]; try discriminate. by injection Hh as ->.
Qed.

Lemma load_rows_reads F p rows : load_rows F p = Ok rows -> rows <> [] /\ Forall row_reads rows.
Proof.
  unfold load_rows. intros (text & _ & (rs & Hr%rows_of_lines_reads & H)%bind_ok)%bind_ok.
  destruct rs; [discriminate|]. by injection H as <-.
Qed.

Lemma lifecycle_ok rows :
  require_lifecycle_events rows = Ok tt <-> forall e, In e REQUIRED_LIFECYCLE -> exists row, In row rows /\ event row = e.
Proof.
  unfold require_lifecycle_events, missing_lifecycle.
  assert (H : sorted (set_diff REQUIRED_LIFECYCLE (map event rows)) = [] <->
    forall e, In e REQUIRED_LIFECYCLE -> exists row, In row rows /\ event row = e).
  { rewrite no_extra. setoid_rewrite in_map_iff.
    split; intros H e He; destruct (H e He) as (x & ? & ?); by exists x. }
  rewrite <- H. destruct (sorted _); split; (done || discriminate).
Qed.

(** What a daemon event stream has to be. *)
Definition stream_ok (F : fs) (p : path) (lifecycle : bool) : Prop :=
  exists rows, load_rows F p = Ok rows /\ rows <> []
    /\ (forall i row, rows !! i = Some row -> event_ok row (S i))
    /\ (lifecycle = true -> forall e, In e REQUIRED_LIFECYCLE -> exists row, In row rows /\ event row = e).

Lemma stream_accepted F p lifecycle : validate F p lifecycle = Ok tt <-> stream_ok F p lifecycle.
Proof.
  unfold validate, stream_ok. rewrite bind_ok.
  assert (H : forall rows, Forall row_reads rows ->
    for_enum 1 rows (fun expected_seq row => validate_row row expected_seq) = Ok tt <->
    forall i row, rows !! i = Some row -> event_ok row (S i)).
  { intros rows Hr. rewrite Forall_lookup in Hr. rewrite for_enum_ok.
    split; intros H i row Hi; specialize (H i row Hi).
    - by apply validate_row_ok in H; [|eapply Hr].
    - by apply validate_row_ok; [eapply Hr|]. }
  split.
  - intros (rows & Hl & (Hrows & Hlc)%bind_ok_unit). destruct (load_rows_reads _ _ _ Hl) as [Hne Hr].
    exists rows. split; [done|]. split; [done|]. split; [by apply H|]. intros ->. by apply lifecycle_ok.
  - intros (rows & Hl & Hne & Hrows & Hlc). destruct (load_rows_reads _ _ _ Hl) as [_ Hr].
    exists rows. split; [done|]. apply bind_ok_unit. split; [by apply H|].
    destruct lifecycle; [by apply lifecycle_ok, Hlc | done].
Qed.

(** * Properties *)

(** C7: [validate] accepts a daemon event stream exactly when its rows load, at
    least one, and row number n (from 1) has sequence number n, no host mutation,
    well-formed ids, and nothing private in any key or text at any depth, except
    below command_argv_hash, which is not looked at; and, when the lifecycle is
    required, every event of the lifecycle occurs. *)
Theorem daemon_validate_iff F p lifecycle :
  validate F p lifecycle = Ok tt <->
  exists rows, load_rows F p = Ok rows /\ rows <> []
    /\ (forall i row, rows !! i = Some row -> event_ok row (S i))
    /\ (lifecycle = true -> forall e, In e REQUIRED_LIFECYCLE -> exists row, In row rows /\ event row = e).
Proof. apply stream_accepted. Qed.
