(* ===== verification/DaemonGolden.v ===== *)
(** DaemonGolden: qa/daemon_golden_transcript_check.py, the committed daemon
    transcripts, one JSONL fixture per scenario. *)
From S2P Require Import Prelude PyStr PyRe PyFloat PyJson PyFs PyMain.

Local Open Scope string_scope.

Definition SCHEMA : string := "zig-scheduler/daemon-event/v1".
Definition REQUIRED_SCENARIOS : list string :=
  ["queued"; "booting"; "verifier"; "attached-partial-switch-lab"; "observing"; "rollback-ready";
   "rollback-active"; "cleaned"; "incident"; "malformed-action"; "stale-target"; "duplicate-target";
   "stream-backpressure"; "stale-git"; "privacy-rejection"].
Definition EVENTS : list string :=
  ["boot"; "marker"; "verifier"; "attach"; "state_changed"; "stage_started"; "stage_finished";
   "microvm_boot"; "vm_marker"; "bpf_register"; "runtime_sample"; "rollback"; "cleanup"; "validation";
   "incident"; "refusal"; "lab_run_active"; "journal_record"; "rollback_completed"].
Definition FORBIDDEN_KEYS : list string :=
  ["command"; "shell"; "argv"; "env"; "environment"; "secret"; "api_key"; "token"; "password"].
Definition FORBIDDEN_TEXT : list string :=
  ["--token"; "password="; "api_key"; "AWS_SECRET"; "BEGIN PRIVATE KEY"].
Definition PATH_FIELDS : list string := ["artifact"; "live_bundle_path"].

Record Args : Set := MkArgs { daemon : option path; fixtures : path; self_test : bool }.

Definition fail {A} (m : string) : result A := raise DaemonGoldenError m.

Definition parse_args (argv : list string) : result Args :=
  match argv with
  | ["--self-test"] => Ok (MkArgs None (Path "fixtures/control/golden") true)
  | ["--daemon"; d; "--fixtures"; f] => Ok (MkArgs (Some (Path d)) (Path f) false)
  | ["--fixtures"; f] => Ok (MkArgs None (Path f) false)
  | _ => fail "usage: daemon_golden_transcript_check.py --daemon <bin> --fixtures <dir> | --fixtures <dir> | --self-test"
  end.

Fixpoint reject_private (value : json) (context : string) {struct value} : result unit :=
  match value with
  | JDict d =>
      (fix items (d : jobject) : result unit :=
         match d with
         | [] => Ok tt
         | (key, child) :: d =>
             ensure (negb (mem (lower key) FORBIDDEN_KEYS)) DaemonGoldenError
               ("privacy-unsafe key in " ++ context ++ "." ++ key) ;;;
             reject_private child (context ++ "." ++ key) ;;;
             items d
         end) d
  | JList l =>
      (fix elems (index : nat) (l : list json) : result unit :=
         match l with
         | [] => Ok tt
         | child :: l =>
             reject_private child (context ++ "[" ++ str_nat index ++ "]") ;;; elems (S index) l
         end) 0 l
  | JStr s =>
      for_each FORBIDDEN_TEXT (fun needle =>
        ensure (negb (contains needle s)) DaemonGoldenError ("privacy-unsafe text in " ++ context))
  | _ => Ok tt
  end.

Definition require_safe_path (raw : json) (context : string) : result unit :=
  match raw with
  | JNull => Ok tt
  | JStr s =>
      if String.eqb s "" then fail (context ++ " path must be text")
      else
        let p := Path s in
        ensure (negb (is_absolute p || mem ".." (parts p))) DaemonGoldenError
          (context ++ " path escapes repo: " ++ s)
  | _ => fail (context ++ " path must be text")
  end.

Definition validate_row (row : jobject) (p : path) (expected_seq : nat) : result unit :=
  let ps := path_str p in
  ensure (py_eq (get row "schema") (JStr SCHEMA)) DaemonGoldenError (ps ++ " bad schema") ;;;
  ensure (py_eq (get row "seq") (JInt (Z.of_nat expected_seq))) DaemonGoldenError
    (ps ++ " nonmonotonic seq: expected " ++ str_nat expected_seq) ;;;
  match get row "event" with
  | JStr event => ensure (mem event EVENTS) DaemonGoldenError (ps ++ " invalid event: " ++ event)
  | event => fail (ps ++ " invalid event: " ++ py_str event)
  end ;;;
  match get row "status" with
  | JStr status => ensure (negb (String.eqb status "")) DaemonGoldenError (ps ++ " missing status")
  | _ => fail (ps ++ " missing status")
  end ;;;
  ensure (is_false (get row "host_mutation")) DaemonGoldenError (ps ++ " host_mutation must be false") ;;;
  reject_private (JDict row) ps ;;;
  for_each PATH_FIELDS (fun field => require_safe_path (get row field) (ps ++ "." ++ field)).

Section Checker.
Variable F : fs.

Fixpoint parse_lines (p : path) (line_number : nat) (lines : list string) : result (list jobject) :=
  match lines with
  | [] => Ok []
  | line :: lines =>
      if String.eqb (strip line) "" then parse_lines p (S line_number) lines
      else
        let* raw := reraise JSONDecodeError DaemonGoldenError
          (fun exc => "invalid JSON in " ++ path_str p ++ ":" ++ str_nat line_number ++ ": " ++ exn_str exc)
          (loads line) in
        match raw with
        | JDict d => let* rows := parse_lines p (S line_number) lines in Ok (d :: rows)
        | _ => fail (path_str p ++ ":" ++ str_nat line_number ++ " is not an object")
        end
  end.

Definition load_jsonl (p : path) : result (list jobject) :=
  let* text := read_text F p in
  let* rows := parse_lines p 1 (splitlines text) in
  match rows with
  | [] => fail ("empty fixture: " ++ path_str p)
  | _ => Ok rows
  end.

Definition validate_fixture (p : path) : result unit :=
  let* rows := load_jsonl p in
  for_enum 1 rows (fun expected_seq row => validate_row row p expected_seq).

Definition validate_all (fixtures : path) (daemon : option path) : result unit :=
  match daemon with
  | Some d => ensure (exists_ F d) DaemonGoldenError ("daemon binary missing: " ++ path_str d)
  | None => Ok tt
  end ;;;
  let missing := List.filter (fun name => negb (is_file F (div_path fixtures (name ++ ".jsonl")))) REQUIRED_SCENARIOS in
  match missing with
  | [] => Ok tt
  | _ => fail ("missing golden fixture(s): " ++ join ", " missing)
  end ;;;
  for_each REQUIRED_SCENARIOS (fun name => validate_fixture (div_path fixtures (name ++ ".jsonl"))).

(** [run] outside the self-test. *)
Definition run (argv : list string) : result (list string) :=
  let* args := parse_args argv in
  validate_all (fixtures args) (daemon args) ;;;
  Ok ["PASS daemon golden transcripts: fixtures=" ++ path_str (fixtures args)].

Definition main (argv : list string) : exit :=
  run_main (fun c => is_OSError c || is_UnicodeError c || is_class DaemonGoldenError c)
    "FAIL daemon golden transcripts" (run argv).
End Checker.
