(* ===== verification/RuntimeSampleCommon.v ===== *)
(** RuntimeSampleCommon: qa/runtime_sample_common.py, runtime_sample_fields.py
    and runtime_sample_digest.py: loading, field access, facts and the privacy
    scan of runtime samples. *)
From S2P Require Import Prelude PyStr PyRe PyFloat PyJson PyFs.

Local Open Scope string_scope.

(** ** qa/runtime_sample_fields.py *)
Definition ROOT_FIELDS : list string := [
  "schema"; "sequence"; "git_sha"; "sample_source_event"; "observation_source"; "sched_ext_phase";
  "state"; "ops"; "enable_seq"; "events"; "events_hash"; "nr_rejected"; "debug_dump"; "root_ops";
  "scheduler_events"; "policy_counters"; "sample_loss"; "policy_abi"; "cgroup_semantic_labels";
  "cgroup_membership_digest"; "cgroup_membership_status"; "task_ext_enabled"; "teardown_state";
  "rollback_state"; "workload"; "workload_alive"; "private_command_lines_sampled"; "dsq_depth";
  "queue_latency"; "fairness"; "task_counts"; "scheduler_counters"; "sched_ext_observation";
  "benchmark_histograms"].

(** ** qa/runtime_sample_digest.py *)
Definition DIGEST_PREFIX : string := "sha256:".
Definition BYTES_PREFIX : string := ";bytes:".
Definition SHA256_HEX_LEN : nat := 64.

Definition is_digest_summary (value : string) : bool :=
  let digest_start := len DIGEST_PREFIX in
  let digest_end := digest_start + SHA256_HEX_LEN in
  if Nat.leb (len value) (digest_end + len BYTES_PREFIX) then false
  else if negb (startswith value DIGEST_PREFIX) then false
  else if negb (String.eqb (slice digest_end (digest_end + len BYTES_PREFIX) value) BYTES_PREFIX) then false
  else
    let digest := slice digest_start digest_end value in
    let byte_count := drop_str (digest_end + len BYTES_PREFIX) value in
    all_chars (one_of "0123456789abcdef") digest && isdecimal byte_count.

(** ** qa/runtime_sample_common.py *)

(** Capital runs, words, digit runs of one alphanumeric chunk. *)
Definition PRIVATE_KEY_TOKEN_RE : regex := ralt [
  rseq [rplus (RChar is_upper); RAhead (ralt [rseq [RChar is_upper; RChar is_lower]; rdigit; REol])];
  rseq [ropt (RChar is_upper); rplus (RChar is_lower)];
  rplus rdigit].
Definition KEY_SPLIT_RE : regex := rplus (RChar (fun c => negb (is_digit c || is_upper c || is_lower c))).

Definition FORBIDDEN_KEYS : list string :=
  ["command_line"; "cmdline"; "argv"; "args"; "environment"; "env"; "secret"; "token"; "api_key"].
Definition CLAIM_KEYS : list string :=
  ["production_claim"; "production_capacity_claim"; "release_eligible"; "release_eligible_live_proof"].
Definition FORBIDDEN_TEXT : list string :=
  ["--token"; "api_key="; "AWS_SECRET"; "BEGIN PRIVATE KEY"; "password="; "/proc/"; "/sys/"].
Definition FACT_STATUSES : list string := ["present"; "missing"; "unreadable"; "unknown"].

Definition fail {A} (m : string) : result A := raise RuntimeSampleError m.

Definition private_key_tokens (key : string) : list string :=
  flat_map (fun chunk =>
      if String.eqb chunk "" then [] else map casefold (re_findall PRIVATE_KEY_TOKEN_RE chunk))
    (re_split KEY_SPLIT_RE key).

(** [tokens[index : index + len(pattern)] == pattern] for some index. *)
Fixpoint contains_pattern (tokens pattern : list string) : bool :=
  is_prefix pattern tokens
  || match tokens with [] => false | _ :: tokens => contains_pattern tokens pattern end.

Definition private_key_has_pattern (key : string) (patterns : list (list string)) : bool :=
  existsb (contains_pattern (private_key_tokens key)) patterns.

Definition FORBIDDEN_KEY_PATTERNS : list (list string) := map private_key_tokens FORBIDDEN_KEYS.
Definition FORBIDDEN_TEXT_NEEDLES : list string := map casefold FORBIDDEN_TEXT.

Definition private_text_contains (value : string) : bool :=
  existsb (fun needle => contains needle (casefold value)) FORBIDDEN_TEXT_NEEDLES.

Fixpoint reject_private_leaks (value : json) (context : string) {struct value} : result unit :=
  match value with
  | JDict d =>
      (fix items (d : jobject) : result unit :=
         match d with
         | [] => Ok tt
         | (key, child) :: d =>
             ensure (negb (private_key_has_pattern key FORBIDDEN_KEY_PATTERNS)) RuntimeSampleError
               ("privacy-unsafe key in runtime sample: " ++ context ++ "." ++ key) ;;;
             ensure (negb (mem (casefold key) CLAIM_KEYS && is_true child)) RuntimeSampleError
               ("claim-unsafe flag in runtime sample: " ++ context ++ "." ++ key) ;;;
             reject_private_leaks child (context ++ "." ++ key) ;;;
             items d
         end) d
  | JList l =>
      (fix elems (index : nat) (l : list json) : result unit :=
         match l with
         | [] => Ok tt
         | child :: l =>
             reject_private_leaks child (context ++ "[" ++ str_nat index ++ "]") ;;; elems (S index) l
         end) 0 l
  | JStr s =>
      ensure (negb (private_text_contains s)) RuntimeSampleError
        ("privacy-unsafe text in runtime sample: " ++ context)
  | _ => Ok tt
  end.

Definition require_string (data : jobject) (field context : string) : result string :=
  match get data field with
  | JStr value =>
      if String.eqb value "" then fail (context ++ " missing non-empty string field: " ++ field) else Ok value
  | _ => fail (context ++ " missing non-empty string field: " ++ field)
  end.

Definition require_bool (data : jobject) (field context : string) : result bool :=
  match get data field with
  | JBool b => Ok b
  | _ => fail (context ++ " missing bool field: " ++ field)
  end.

Definition require_int (data : jobject) (field context : string) : result Z :=
  match as_int (get data field) with
  | Some n => Ok n
  | None => fail (context ++ " missing int field: " ++ field)
  end.

Definition require_object (data : jobject) (field context : string) : result jobject :=
  match get data field with
  | JDict d => Ok d
  | _ => fail (context ++ " missing object field: " ++ field)
  end.

Definition optional_object (data : jobject) (field context : string) : result (option jobject) :=
  match get data field with
  | JNull => Ok None
  | JDict d => Ok (Some d)
  | _ => fail (context ++ " field must be an object when present: " ++ field)
  end.

Definition validate_fact (data : jobject) (field context : string) : result jobject :=
  let* fact := require_object data field context in
  let here := context ++ "." ++ field in
  let* status := require_string fact "status" here in
  ensure (mem status FACT_STATUSES) RuntimeSampleError (here ++ " has unsupported status: " ++ status) ;;;
  match get fact "value" with
  | JStr value =>
      ensure (negb (String.eqb status "present" && String.eqb value "")) RuntimeSampleError
        (here ++ " has invalid value") ;;;
      reject_private_leaks (JStr value) (here ++ ".value") ;;;
      Ok fact
  | _ => fail (here ++ " has invalid value")
  end.

Fixpoint parse_lines (index : nat) (lines : list string) : result (list jobject) :=
  match lines with
  | [] => Ok []
  | line :: lines =>
      if String.eqb (strip line) "" then parse_lines (S index) lines
      else
        let* raw := reraise JSONDecodeError RuntimeSampleError
          (fun exc => "invalid JSON on line " ++ str_nat index ++ ": " ++ exn_str exc) (loads line) in
        match raw with
        | JDict d => let* rows := parse_lines (S index) lines in Ok (d :: rows)
        | _ => fail ("line " ++ str_nat index ++ " must contain a JSON object")
        end
  end.

Definition load_jsonl (F : fs) (p : path) : result (list jobject) :=
  let* text := reraise FileNotFoundError RuntimeSampleError
    (fun _ => "missing JSONL file: " ++ path_str p) (read_text F p) in
  let* rows := parse_lines 1 (splitlines text) in
  match rows with
  | [] => fail "runtime sample JSONL is empty"
  | _ => Ok rows
  end.

(** * Specification of the privacy scan *)

(** A key that no forbidden pattern occurs in and that is not a claim set to true. *)
Definition unclaimed_key (key : string) (child : json) : Prop :=
  private_key_has_pattern key FORBIDDEN_KEY_PATTERNS = false
  /\ ~ (In (casefold key) CLAIM_KEYS /\ child = JBool true).

Definition public_text (s : string) : Prop :=
  forall needle, In needle FORBIDDEN_TEXT -> contains (casefold needle) (casefold s) = false.

Definition no_leak : json -> Prop := CleanAt (fun _ => True) unclaimed_key public_text.

(** * Lemmas *)
Lemma public_text_ok s : private_text_contains s = false <-> public_text s.
Proof.
  unfold private_text_contains, public_text, FORBIDDEN_TEXT_NEEDLES. rewrite <- not_true_iff_false, existsb_exists.
  setoid_rewrite in_map_iff. split.
  - intros H needle Hn. apply not_true_iff_false. intros Hc. apply H. exists (casefold needle).
    split; [by exists needle | done].
  - intros H (x & (needle & <- & Hn) & Hc). by rewrite H in Hc.
Qed.

Lemma unclaimed_key_ok key child :
  private_key_has_pattern key FORBIDDEN_KEY_PATTERNS = false
  /\ mem (casefold key) CLAIM_KEYS && is_true child = false <-> unclaimed_key key child.
Proof.
  unfold unclaimed_key. by rewrite <- (not_true_iff_false (_ && _)), andb_true_iff, mem_In, is_true_iff.
Qed.

Lemma reject_private_leaks_ok v context : reject_private_leaks v context = Ok tt <-> no_leak v.
Proof.
  revert context. unfold no_leak. induction v as [| | | |s|l IH|d IH] using json_nested_ind; intros context;
    cbn [reject_private_leaks]; try (split; [intros _; by apply clean_at_scalar | done]).
  - by rewrite clean_at_str, ensure_ok, negb_true_iff, public_text_ok.
  - rewrite clean_at_list. generalize 0. induction IH as [|child l Hchild _ IHl]; intros n;
      [split; [constructor | done]|]. rewrite Forall_cons, bind_ok_unit, <- (IHl (S n)), Hchild. tauto.
  - rewrite clean_at_dict. induction IH as [|[key child] d Hchild _ IHd]; [split; [constructor | done]|].
    rewrite Forall_cons, !bind_ok_unit, <- IHd, !ensure_ok, !negb_true_iff. simpl in Hchild |- *.
    rewrite Hchild, <- unclaimed_key_ok. tauto.
Qed.

Lemma sample_lines_ok i lines rows :
  parse_lines i lines = Ok rows <->
  Forall2 (fun line d => loads line = Ok (JDict d))
    (List.filter (fun line => negb (String.eqb (strip line) "")) lines) rows.
Proof.
  apply (jsonl_ok parse_lines (fun index line => reraise JSONDecodeError RuntimeSampleError
    (fun exc => "invalid JSON on line " ++ str_nat index ++ ": " ++ exn_str exc) (loads line))
    (fun line v => loads line = Ok v)).
  - intros. apply reraise_ok.
  - done.
  - intros ? ? ? E. simpl. by rewrite E.
  - intros k line ls rs E. simpl. rewrite E. apply (jsonl_line _ _ (fun _ => fail _) (fun d => d)). by intros.
Qed.

Lemma sample_jsonl_ok F p rows :
  load_jsonl F p = Ok rows <->
  exists text, read_text F p = Ok text /\ rows <> []
    /\ Forall2 (fun line d => loads line = Ok (JDict d)) (content_lines text) rows.
Proof.
  unfold load_jsonl. split.
  - intros (text & Ht%reraise_ok & (rs & Hrs%sample_lines_ok & H)%bind_ok)%bind_ok.
    exists text. destruct rs; [discriminate|]. by injection H as <-.
  - intros (text & Ht & Hne & H). apply bind_ok. exists text. rewrite reraise_ok. split; [done|].
    apply bind_ok. exists rows. rewrite sample_lines_ok. split; [done|]. by destruct rows.
Qed.

(** * Properties *)

(** The privacy scan of the runtime samples accepts a value exactly when, at
    every depth, no key contains the words of a forbidden key (as words of a camel
    case or separated name), no claim key is set to true, and no text contains a
    forbidden text, ignoring case. *)
Theorem reject_private_leaks_iff v context :
  reject_private_leaks v context = Ok tt <->
  (forall k w, EntryAt (fun _ => True) k w v ->
     (forall key, In key FORBIDDEN_KEYS -> contains_pattern (private_key_tokens k) (private_key_tokens key) = false)
     /\ ~ (In (casefold k) CLAIM_KEYS /\ w = JBool true))
  /\ (forall s, TextAt (fun _ => True) s v ->
        forall needle, In needle FORBIDDEN_TEXT -> ~ exists a b, casefold s = a ++ casefold needle ++ b).
Proof.
  rewrite reject_private_leaks_ok. unfold no_leak, CleanAt, unclaimed_key, public_text.
  setoid_rewrite contains_false.
  assert (H : forall k, private_key_has_pattern k FORBIDDEN_KEY_PATTERNS = false <->
    forall key, In key FORBIDDEN_KEYS -> contains_pattern (private_key_tokens k) (private_key_tokens key) = false).
  { intros k. unfold private_key_has_pattern, FORBIDDEN_KEY_PATTERNS. rewrite <- not_true_iff_false, existsb_exists.
    setoid_rewrite in_map_iff. setoid_rewrite <- not_true_iff_false. split.
    - intros H key Hk Hc. apply H. exists (private_key_tokens key). split; [by exists key | done].
    - intros H (x & (key & <- & Hk) & Hc). by apply (H key). }
  by setoid_rewrite H.
Qed.
