(* ===== verification/PolicyAbi.v ===== *)
(** PolicyAbi: qa/runtime_sample_policy_abi.py, the ABI-v3 policy metadata of a
    runtime sample: fixed semantics, the cgroup policy map, the callback
    counters and the dispatch-queue coherence flags. *)
From S2P Require Import Prelude PyStr PyFloat PyJson.

Local Open Scope string_scope.

Definition POLICY_VERSION : string := "sched_ext_cgroup_abi_v3".
Definition ABI_LABEL : string := "zigsched-bpf-abi-v3".
Definition SEMANTICS : list (string * string) := [
  ("cpu.weight", "callback-observed");
  ("cgroup.lifecycle", "observed");
  ("cgroup.move", "observed");
  ("cpuset.cpus", "observed-only");
  ("cpuset.cpus.effective", "observed-only");
  ("cpu.pressure", "observed-only");
  ("cpu.max", "deferred");
  ("uclamp", "deferred");
  ("cgroup_set_idle", "refused")].

Definition CGROUP_POLICY_FIELDS : list string :=
  ["last_weight"; "weight_generation"; "move_generation"; "callback_observed_knobs"; "observed_knobs";
   "deferred_knobs"].
Definition CGROUP_CALLBACK_STATS : list string :=
  ["cgroup_init_calls"; "cgroup_exit_calls"; "cgroup_move_calls"; "cgroup_set_weight_calls";
   "cgroup_weight_observed"].
Definition DSQ_COHERENCE_FIELDS : list string :=
  ["fifo_insert_dispatch_coherent"; "vtime_insert_dispatch_coherent"; "dispatch_empty_accounted"].

(** [dict(SEMANTICS)] *)
Definition semantics_dict : jobject := map (fun kv => (fst kv, JStr (snd kv))) SEMANTICS.

Definition good_cgroup_policy_map (status : string) : jobject :=
  if String.eqb status "unavailable"
  then [("status", JStr "unavailable"); ("reason", JStr "map unavailable before VM attach")]
  else [("status", JStr "present");
        ("map_name", JStr "zigsched_cgroup_policy");
        ("max_entries", JInt 1);
        ("key", JStr "0");
        ("fields", jstrs CGROUP_POLICY_FIELDS);
        ("last_weight", JInt 200);
        ("weight_generation", JInt 1);
        ("move_generation", JInt 1);
        ("callback_observed_knobs", jstrs ["cpu.weight"]);
        ("observed_knobs", jstrs ["cpuset.cpus"; "cpuset.cpus.effective"; "cpu.pressure"]);
        ("deferred_knobs", jstrs ["cpu.max"; "uclamp"])].

Definition good_cgroup_callback_stats (status : string) : jobject :=
  if String.eqb status "unavailable"
  then [("status", JStr "unavailable"); ("reason", JStr "callback counters unavailable before VM attach")]
  else [("status", JStr "present");
        ("cgroup_init_calls", JInt 1);
        ("cgroup_exit_calls", JInt 1);
        ("cgroup_move_calls", JInt 1);
        ("cgroup_set_weight_calls", JInt 1);
        ("cgroup_weight_observed", JInt 1);
        ("cpu_weight_callback_observed", JBool true)].

Definition good_dsq_counter_coherence (status : string) : jobject :=
  if String.eqb status "unavailable"
  then [("status", JStr "unavailable"); ("reason", JStr "DSQ counters unavailable before VM attach")]
  else [("status", JStr "present");
        ("counter_source", JStr "zigsched_stats+zigsched_events");
        ("fifo_insert_dispatch_coherent", JBool true);
        ("vtime_insert_dispatch_coherent", JBool true);
        ("dispatch_empty_accounted", JBool true)].

Definition good_policy_abi (object_sha256 : string) : jobject := [
  ("policy_name", JStr "zigsched_minimal");
  ("policy_version", JStr POLICY_VERSION);
  ("struct_ops", JStr "zigsched_minimal_ops");
  ("object_sha256", JStr object_sha256);
  ("btf_required", JBool true);
  ("abi_version", JInt 3);
  ("abi_label", JStr ABI_LABEL);
  ("cgroup_semantics", JDict semantics_dict);
  ("vm_only", JBool true);
  ("host_mutation", JBool false);
  ("production_claim", JBool false);
  ("release_eligible", JBool false);
  ("cgroup_policy_map", JDict (good_cgroup_policy_map "present"));
  ("cgroup_callback_stats", JDict (good_cgroup_callback_stats "present"));
  ("dsq_counter_coherence", JDict (good_dsq_counter_coherence "present"))].

Definition fail {A} (m : string) : result A := raise PolicyAbiError m.

Definition require_string (data : jobject) (field context : string) : result string :=
  match get data field with
  | JStr value =>
      if String.eqb value "" then fail (context ++ " missing non-empty string field: " ++ field) else Ok value
  | _ => fail (context ++ " missing non-empty string field: " ++ field)
  end.

Definition require_bool (data : jobject) (field context : string) : result bool :=
  match get data field with
  | JBool b => Ok b
  | _ => fail (context ++ " missing bool field: " ++ field)
  end.

Definition require_int (data : jobject) (field context : string) : result Z :=
  match as_int (get data field) with
  | Some n => Ok n
  | None => fail (context ++ " missing int field: " ++ field)
  end.

Definition require_object (data : jobject) (field context : string) : result jobject :=
  match get data field with
  | JDict d => Ok d
  | _ => fail (context ++ " missing object field: " ++ field)
  end.

Definition as_nonempty_str (v : json) : option string :=
  match v with JStr s => if String.eqb s "" then None else Some s | _ => None end.

Fixpoint all_nonempty_str (l : list json) : option (list string) :=
  match l with
  | [] => Some []
  | v :: l => match as_nonempty_str v, all_nonempty_str l with
              | Some s, Some ss => Some (s :: ss)
              | _, _ => None
              end
  end.

Definition require_string_list (data : jobject) (field context : string) : result (list string) :=
  match get data field with
  | JList l =>
      match all_nonempty_str l with
      | Some ss => Ok ss
      | None => fail (context ++ " missing string list field: " ++ field)
      end
  | _ => fail (context ++ " missing string list field: " ++ field)
  end.

Definition require_status (data : jobject) (context : string) : result string :=
  let* status := require_string data "status" context in
  ensure (mem status ["present"; "unavailable"]) PolicyAbiError
    (context ++ ".status must be present or unavailable") ;;;
  (if String.eqb status "unavailable"
   then let* _ := require_string data "reason" context in Ok tt else Ok tt) ;;;
  Ok status.

(** [for field in fields: if require_int(...) < 0: raise] *)
Definition require_nonnegative (data : jobject) (fields : list string) (context : string) : result unit :=
  for_each fields (fun field =>
    let* n := require_int data field context in
    ensure (0 <=? n)%Z PolicyAbiError (context ++ "." ++ field ++ " must be nonnegative")).

Definition validate_cgroup_policy_map (evidence : jobject) (context : string) : result unit :=
  let* status := require_status evidence context in
  if String.eqb status "unavailable" then Ok tt else
  let* map_name := require_string evidence "map_name" context in
  ensure (String.eqb map_name "zigsched_cgroup_policy") PolicyAbiError
    (context ++ ".map_name must be zigsched_cgroup_policy") ;;;
  let* max_entries := require_int evidence "max_entries" context in
  ensure (max_entries =? 1)%Z PolicyAbiError (context ++ ".max_entries must be 1") ;;;
  let* key := require_string evidence "key" context in
  ensure (String.eqb key "0") PolicyAbiError (context ++ ".key must be 0") ;;;
  let* fields := require_string_list evidence "fields" context in
  ensure (bool_decide (fields = CGROUP_POLICY_FIELDS)) PolicyAbiError
    (context ++ ".fields must match ABI-v3 cgroup policy layout") ;;;
  require_nonnegative evidence ["last_weight"; "weight_generation"; "move_generation"] context ;;;
  let* callback := require_string_list evidence "callback_observed_knobs" context in
  ensure (mem "cpu.weight" callback) PolicyAbiError
    (context ++ ".callback_observed_knobs must include cpu.weight") ;;;
  let* observed := require_string_list evidence "observed_knobs" context in
  ensure (subset ["cpuset.cpus"; "cpuset.cpus.effective"; "cpu.pressure"] observed) PolicyAbiError
    (context ++ ".observed_knobs must include observed-only cgroup knobs") ;;;
  let* deferred := require_string_list evidence "deferred_knobs" context in
  ensure (subset ["cpu.max"; "uclamp"] deferred) PolicyAbiError
    (context ++ ".deferred_knobs must keep cpu.max and uclamp deferred").

(** The observed flag is read only when set-weight callbacks fired. *)
Definition validate_cgroup_callback_stats (evidence : jobject) (context : string) : result unit :=
  let* status := require_status evidence context in
  if String.eqb status "unavailable" then Ok tt else
  require_nonnegative evidence CGROUP_CALLBACK_STATS context ;;;
  let* set_weight := require_int evidence "cgroup_set_weight_calls" context in
  (if (0 <? set_weight)%Z then
     let* observed := require_bool evidence "cpu_weight_callback_observed" context in
     ensure observed PolicyAbiError
       (context ++ ".cpu_weight_callback_observed must be true when set-weight callbacks fired")
   else Ok tt) ;;;
  let* weight_observed := require_int evidence "cgroup_weight_observed" context in
  let* set_weight' := require_int evidence "cgroup_set_weight_calls" context in
  ensure (weight_observed <=? set_weight')%Z PolicyAbiError
    (context ++ ".cgroup_weight_observed cannot exceed cgroup_set_weight_calls").

Definition validate_dsq_counter_coherence (evidence : jobject) (context : string) : result unit :=
  let* status := require_status evidence context in
  if String.eqb status "unavailable" then Ok tt else
  let* source := require_string evidence "counter_source" context in
  ensure (String.eqb source "zigsched_stats+zigsched_events") PolicyAbiError
    (context ++ ".counter_source must be zigsched_stats+zigsched_events") ;;;
  for_each DSQ_COHERENCE_FIELDS (fun field =>
    let* b := require_bool evidence field context in
    ensure b PolicyAbiError (context ++ "." ++ field ++ " must be true")).

Definition validate_v3_cgroup_evidence (abi : jobject) (context : string) : result unit :=
  let* m := require_object abi "cgroup_policy_map" context in
  validate_cgroup_policy_map m (context ++ ".cgroup_policy_map") ;;;
  let* s := require_object abi "cgroup_callback_stats" context in
  validate_cgroup_callback_stats s (context ++ ".cgroup_callback_stats") ;;;
  let* d := require_object abi "dsq_counter_coherence" context in
  validate_dsq_counter_coherence d (context ++ ".dsq_counter_coherence").

Definition validate_v3_policy_abi (abi : jobject) (context : string) : result unit :=
  let* version := require_string abi "policy_version" context in
  ensure (String.eqb version POLICY_VERSION) PolicyAbiError
    (context ++ ".policy_version must be " ++ POLICY_VERSION) ;;;
  let* abi_version := require_int abi "abi_version" context in
  ensure (abi_version =? 3)%Z PolicyAbiError (context ++ ".abi_version must be 3") ;;;
  let* label := require_string abi "abi_label" context in
  ensure (String.eqb label ABI_LABEL) PolicyAbiError (context ++ ".abi_label must be " ++ ABI_LABEL) ;;;
  let* vm_only := require_bool abi "vm_only" context in
  ensure vm_only PolicyAbiError (context ++ ".vm_only must be true") ;;;
  let* host_mutation := require_bool abi "host_mutation" context in
  ensure (negb host_mutation) PolicyAbiError (context ++ ".host_mutation must be false") ;;;
  let* production_claim := require_bool abi "production_claim" context in
  ensure (negb production_claim) PolicyAbiError (context ++ ".production_claim must be false") ;;;
  let* release_eligible := require_bool abi "release_eligible" context in
  ensure (negb release_eligible) PolicyAbiError (context ++ ".release_eligible must be false") ;;;
  let* semantics := require_object abi "cgroup_semantics" context in
  ensure (set_eq (keys semantics) (map fst SEMANTICS)) PolicyAbiError
    (context ++ ".cgroup_semantics keys do not match ABI-v3 contract") ;;;
  for_each SEMANTICS (fun kv =>
    ensure (py_eq (get semantics (fst kv)) (JStr (snd kv))) PolicyAbiError
      (context ++ ".cgroup_semantics." ++ fst kv ++ " must be " ++ snd kv)) ;;;
  validate_v3_cgroup_evidence abi context.

Definition validate_policy_abi_contract (abi : jobject) (context : string) : result unit :=
  for_each ["policy_name"; "policy_version"; "struct_ops"; "object_sha256"] (fun field =>
    let* _ := require_string abi field context in Ok tt) ;;;
  let* _ := require_bool abi "btf_required" context in
  if is_none (get abi "abi_version") then Ok tt else validate_v3_policy_abi abi context.

(** * Specification *)
Definition text_present (d : jobject) (field : string) : Prop := exists s, get d field = JStr s /\ s <> "".
Definition int_field (d : jobject) (field : string) (n : Z) : Prop := as_int (get d field) = Some n.
Definition nonnegative (d : jobject) (field : string) : Prop := exists n, int_field d field n /\ (0 <= n)%Z.
(** A list of non-empty texts. *)
Definition texts (d : jobject) (field : string) (l : list string) : Prop :=
  get d field = jstrs l /\ Forall (fun s => s <> "") l.

(** Evidence is present with [P], or explicitly unavailable with a reason. *)
Definition evidence_ok (P : jobject -> Prop) (d : jobject) : Prop :=
  (get d "status" = JStr "unavailable" /\ text_present d "reason")
  \/ (get d "status" = JStr "present" /\ P d).

Record policy_map_ok (d : jobject) : Prop := {
  pm_name : get d "map_name" = JStr "zigsched_cgroup_policy";
  pm_single : int_field d "max_entries" 1 /\ get d "key" = JStr "0";
  pm_layout : texts d "fields" CGROUP_POLICY_FIELDS;
  pm_generations : nonnegative d "last_weight" /\ nonnegative d "weight_generation" /\ nonnegative d "move_generation";
  pm_callback : exists l, texts d "callback_observed_knobs" l /\ In "cpu.weight" l;
  pm_observed : exists l, texts d "observed_knobs" l
    /\ forall k, In k ["cpuset.cpus"; "cpuset.cpus.effective"; "cpu.pressure"] -> In k l;
  pm_deferred : exists l, texts d "deferred_knobs" l /\ forall k, In k ["cpu.max"; "uclamp"] -> In k l;
}.

(** Weights are observed at most as often as they are set, and a set weight is observed. *)
Record callback_stats_ok (d : jobject) : Prop := {
  cs_counters : forall f, In f CGROUP_CALLBACK_STATS -> nonnegative d f;
  cs_weights : exists calls observed, int_field d "cgroup_set_weight_calls" calls
    /\ int_field d "cgroup_weight_observed" observed /\ (observed <= calls)%Z
    /\ ((0 < calls)%Z -> get d "cpu_weight_callback_observed" = JBool true);
}.

Record dsq_ok (d : jobject) : Prop := {
  dq_source : get d "counter_source" = JStr "zigsched_stats+zigsched_events";
  dq_coherent : forall f, In f DSQ_COHERENCE_FIELDS -> get d f = JBool true;
}.

Definition part_ok (P : jobject -> Prop) (d : jobject) (field : string) : Prop :=
  exists part, get d field = JDict part /\ P part.

Record abi_v3_ok (abi : jobject) : Prop := {
  v3_version : get abi "policy_version" = JStr POLICY_VERSION;
  v3_number : int_field abi "abi_version" 3;
  v3_label : get abi "abi_label" = JStr ABI_LABEL;
  v3_vm_only : get abi "vm_only" = JBool true;
  v3_no_claims : get abi "host_mutation" = JBool false /\ get abi "production_claim" = JBool false
                 /\ get abi "release_eligible" = JBool false;
  v3_semantics : part_ok (fun s => (forall k, In k (keys s) <-> In k (map fst SEMANTICS))
                                   /\ forall k v, In (k, v) SEMANTICS -> get s k = JStr v) abi "cgroup_semantics";
  v3_map : part_ok (evidence_ok policy_map_ok) abi "cgroup_policy_map";
  v3_stats : part_ok (evidence_ok callback_stats_ok) abi "cgroup_callback_stats";
  v3_dsq : part_ok (evidence_ok dsq_ok) abi "dsq_counter_coherence";
}.

(** * Lemmas *)
Lemma abi_string_ok d f c s : require_string d f c = Ok s <-> get d f = JStr s /\ s <> "".
Proof.
  unfold require_string. destruct (get d f) as [| | | |v| |]; try (split; [discriminate | by intros [[=] _]]).
  destruct (String.eqb_spec v "") as [->|Hv]; [split; [discriminate | by intros [[= <-] ?]]|].
  rewrite Ok_inj. split; [by intros <- | by intros [[= <-] _]].
Qed.
Lemma abi_bool_ok d f c b : require_bool d f c = Ok b <-> get d f = JBool b.
Proof. unfold require_bool. destruct (get d f); simpl; split; (congruence || discriminate). Qed.
Lemma abi_int_ok d f c n : require_int d f c = Ok n <-> int_field d f n.
Proof. unfold require_int, int_field. destruct (as_int (get d f)); simpl; split; (congruence || discriminate). Qed.
Lemma abi_object_ok d f c o : require_object d f c = Ok o <-> get d f = JDict o.
Proof. unfold require_object. destruct (get d f); simpl; split; (congruence || discriminate). Qed.

Lemma all_nonempty_str_ok l ss : all_nonempty_str l = Some ss <-> l = map JStr ss /\ Forall (fun s => s <> "") ss.
Proof.
  revert ss. induction l as [|v l IH]; intros ss; simpl.
  - split; [intros [= <-]; by split | by destruct ss; intros [[=] _]].
  - split.
    + destruct v as [| | | |s| |]; try discriminate. simpl. destruct (String.eqb_spec s ""); [discriminate|].
      destruct (all_nonempty_str l) as [r|]; [|discriminate]. intros [= <-].
      destruct (proj1 (IH r) eq_refl) as [-> Hr]. by repeat constructor.
    + destruct ss as [|s ss]; [by intros [[=] _]|]. intros [[= -> ->] H]. inversion H; subst.
      simpl. destruct (String.eqb_spec s "") as [|_]; [done|]. by rewrite (proj2 (IH ss) (conj eq_refl H3)).
Qed.

Lemma require_string_list_ok d f c l : require_string_list d f c = Ok l <-> texts d f l.
Proof.
  unfold require_string_list, texts, jstrs. destruct (get d f) as [| | | | |items|];
    try (split; [discriminate | by intros [[=] _]]).
  destruct (all_nonempty_str items) as [ss|] eqn:E.
  - apply all_nonempty_str_ok in E as [-> H]. rewrite Ok_inj. split; [by intros <-|]. intros [[= Hm] _].
    revert Hm. clear. revert l. induction ss as [|s ss IH]; intros [|x l]; simpl; try done.
    intros [= -> Hm]. f_equal. by apply IH.
  - split; [discriminate|]. intros [[= ->] H]. by rewrite (proj2 (all_nonempty_str_ok _ l)) in E.
Qed.

(** A value that is read and tested, and not used again. *)
Lemma seq_check {A B} (m : result A) (p : A -> bool) c (msg : A -> string) (k : result B) b :
  bind m (fun x => bind (ensure (p x) c (msg x)) (fun _ => k)) = Ok b <->
  (exists x, m = Ok x /\ p x = true) /\ k = Ok b.
Proof. destruct m as [x|e]; simpl; [rewrite bind_ok_unit, ensure_ok|]; naive_solver. Qed.
Lemma last_check {A} (m : result A) (p : A -> bool) c (msg : A -> string) :
  bind m (fun x => ensure (p x) c (msg x)) = Ok tt <-> exists x, m = Ok x /\ p x = true.
Proof. destruct m as [x|e]; simpl; [rewrite ensure_ok|]; naive_solver. Qed.

Lemma string_is d f c lit : String.eqb lit "" = false ->
  (exists x, require_string d f c = Ok x /\ String.eqb x lit = true) <-> get d f = JStr lit.
Proof.
  intros H%String.eqb_neq. setoid_rewrite abi_string_ok. setoid_rewrite String.eqb_eq. naive_solver.
Qed.
Lemma bool_is d f c : (exists x, require_bool d f c = Ok x /\ x = true) <-> get d f = JBool true.
Proof. setoid_rewrite abi_bool_ok. naive_solver. Qed.
Lemma bool_not d f c : (exists x, require_bool d f c = Ok x /\ negb x = true) <-> get d f = JBool false.
Proof. setoid_rewrite abi_bool_ok. setoid_rewrite negb_true_iff. naive_solver. Qed.
Lemma int_is d f c n : (exists x, require_int d f c = Ok x /\ (x =? n)%Z = true) <-> int_field d f n.
Proof. setoid_rewrite abi_int_ok. setoid_rewrite Z.eqb_eq. naive_solver. Qed.

Lemma require_nonnegative_ok d fields c :
  require_nonnegative d fields c = Ok tt <-> forall f, In f fields -> nonnegative d f.
Proof.
  unfold require_nonnegative, nonnegative. rewrite for_each_ok, Forall_forall. setoid_rewrite list_elem_of_In.
  setoid_rewrite last_check. setoid_rewrite abi_int_ok. by setoid_rewrite Z.leb_le.
Qed.

Lemma text_present_ok d f c (k : result unit) :
  (let* _ := require_string d f c in k) = Ok tt <-> text_present d f /\ k = Ok tt.
Proof. unfold text_present. rewrite bind_ok. setoid_rewrite abi_string_ok. naive_solver. Qed.

Lemma evidence_step d c (m : result unit) (P : jobject -> Prop) :
  (m = Ok tt <-> P d) ->
  (let* status := require_status d c in if String.eqb status "unavailable" then Ok tt else m) = Ok tt <->
  evidence_ok P d.
Proof.
  intros Hm. unfold require_status, evidence_ok. split.
  - intros (s & (s' & [Hs _]%abi_string_ok & H1)%bind_ok & H)%bind_ok.
    apply bind_ok_unit in H1 as [Hin%ensure_ok%mem_In H1]. apply bind_ok_unit in H1 as [Hr [= ->]].
    destruct Hin as [<-|[<-|[]]]; [right; split; [done | by apply Hm]|].
    left. split; [done|]. apply text_present_ok in Hr. apply Hr.
  - intros [[Hs Hr]|[Hs HP]]; apply bind_ok.
    + exists "unavailable". split; [|done]. apply bind_ok. exists "unavailable". rewrite abi_string_ok.
      split; [done|]. cbn [mem existsb]. apply bind_ok_unit. split; [done|]. apply bind_ok_unit. split; [|done].
      by apply text_present_ok.
    + exists "present". split; [|by apply Hm]. apply bind_ok. exists "present". by rewrite abi_string_ok.
Qed.

Lemma knobs_ok d f c (p : list string -> bool) msg (Q : list string -> Prop) (k : result unit) :
  (forall l, p l = true <-> Q l) ->
  (let* l := require_string_list d f c in ensure (p l) PolicyAbiError msg ;;; k) = Ok tt <->
  (exists l, texts d f l /\ Q l) /\ k = Ok tt.
Proof. intros H. rewrite seq_check. setoid_rewrite require_string_list_ok. by setoid_rewrite H. Qed.

Lemma policy_map_step d c : validate_cgroup_policy_map d c = Ok tt <-> evidence_ok policy_map_ok d.
Proof.
  unfold validate_cgroup_policy_map. apply evidence_step.
  rewrite seq_check, string_is, seq_check, int_is, seq_check, string_is by done.
  rewrite (knobs_ok _ _ _ _ _ (fun l => l = CGROUP_POLICY_FIELDS)) by (intros; apply bool_decide_eq_true).
  rewrite bind_ok_unit, require_nonnegative_ok.
  rewrite (knobs_ok _ _ _ _ _ (fun l => In "cpu.weight" l)) by (intros; apply mem_In).
  rewrite (knobs_ok _ _ _ _ _ (fun l => forall k, In k ["cpuset.cpus"; "cpuset.cpus.effective"; "cpu.pressure"] -> In k l))
    by (intros; apply subset_spec).
  rewrite last_check. setoid_rewrite require_string_list_ok. setoid_rewrite subset_spec. split.
  - intros (Hn & Hm & Hk & (l & Hl & ->) & Hg & Hc & Ho & Hd). split; try done.
    repeat split; apply Hg; simpl; tauto.
  - intros [Hn [Hm Hk] Hl (H1 & H2 & H3) Hc Ho Hd]. repeat (split; [done|]). split; [by eexists|].
    split; [|done]. by intros f [<-|[<-|[<-|[]]]].
Qed.

Lemma callback_stats_step d c : validate_cgroup_callback_stats d c = Ok tt <-> evidence_ok callback_stats_ok d.
Proof.
  unfold validate_cgroup_callback_stats. apply evidence_step. rewrite bind_ok_unit, require_nonnegative_ok. split.
  - intros (Hc & (n & Hn%abi_int_ok & (Hobs & H)%bind_ok_unit)%bind_ok).
    apply bind_ok in H as (o & Ho%abi_int_ok & (n' & Hn'%abi_int_ok & Hle%ensure_ok%Z.leb_le)%bind_ok).
    assert (n' = n) as -> by (unfold int_field in *; congruence).
    split; [done|]. exists n, o. repeat (split; [done|]). intros Hpos%Z.ltb_lt. rewrite Hpos in Hobs.
    rewrite last_check in Hobs. by apply bool_is in Hobs.
  - intros [Hc (n & o & Hn & Ho & Hle & Hpos)]. split; [done|].
    apply bind_ok. exists n. rewrite abi_int_ok. split; [done|]. apply bind_ok_unit. split.
    + destruct (0 <? n)%Z eqn:E; [|done]. apply Z.ltb_lt in E. apply last_check, bool_is. auto.
    + apply bind_ok. exists o. rewrite abi_int_ok. split; [done|]. apply bind_ok. exists n.
      rewrite abi_int_ok. split; [done|]. by apply ensure_ok, Z.leb_le.
Qed.

Lemma dsq_step d c : validate_dsq_counter_coherence d c = Ok tt <-> evidence_ok dsq_ok d.
Proof.
  unfold validate_dsq_counter_coherence. apply evidence_step.
  rewrite seq_check, string_is, for_each_ok, Forall_forall by done. setoid_rewrite list_elem_of_In.
  setoid_rewrite last_check. setoid_rewrite bool_is. split; [intros [H1 H2] | intros []]; done.
Qed.

Lemma part_step d f c (check : jobject -> result unit) (P : jobject -> Prop) (k : result unit) :
  (forall o, check o = Ok tt <-> P o) ->
  (let* o := require_object d f c in check o ;;; k) = Ok tt <-> part_ok P d f /\ k = Ok tt.
Proof.
  intros H. unfold part_ok. split.
  - intros (o & Ho%abi_object_ok & (Hc%H & Hk)%bind_ok_unit)%bind_ok. split; [by exists o | done].
  - intros [(o & Ho & Hc%H) Hk]. apply bind_ok. exists o. rewrite abi_object_ok. split; [done|].
    apply bind_ok_unit. by split.
Qed.

Lemma semantics_step abi f c m1 (m2 : string * string -> string) (k : result unit) :
  (let* s := require_object abi f c in
   ensure (set_eq (keys s) (map fst SEMANTICS)) PolicyAbiError m1 ;;;
   for_each SEMANTICS (fun kv => ensure (py_eq (get s (fst kv)) (JStr (snd kv))) PolicyAbiError (m2 kv)) ;;;
   k) = Ok tt <->
  part_ok (fun s => (forall k, In k (keys s) <-> In k (map fst SEMANTICS))
                    /\ forall k v, In (k, v) SEMANTICS -> get s k = JStr v) abi f /\ k = Ok tt.
Proof.
  unfold part_ok. rewrite bind_ok. setoid_rewrite abi_object_ok.
  assert (H : forall s, for_each SEMANTICS (fun kv =>
      ensure (py_eq (get s (fst kv)) (JStr (snd kv))) PolicyAbiError (m2 kv)) = Ok tt <->
      forall k v, In (k, v) SEMANTICS -> get s k = JStr v).
  { intros s. rewrite for_each_ok, Forall_forall. setoid_rewrite list_elem_of_In. setoid_rewrite ensure_ok.
    setoid_rewrite py_eq_str. split; intros Hs; [intros x v Hi; apply (Hs (x, v) Hi) | intros [x v] Hi; by apply Hs]. }
  split.
  - intros (s & Hs & (Hk%ensure_ok & (Hv & Hr)%bind_ok_unit)%bind_ok_unit). rewrite set_eq_spec in Hk.
    rewrite H in Hv. split; [by exists s | done].
  - intros [(s & Hs & Hk & Hv) Hr]. exists s. split; [done|]. run_ok; [by apply set_eq_spec | by apply (for_each_ok _ _ tt), H | done].
Qed.

Lemma validate_v3_ok abi c : validate_v3_policy_abi abi c = Ok tt <-> abi_v3_ok abi.
Proof.
  unfold validate_v3_policy_abi, validate_v3_cgroup_evidence.
  rewrite seq_check, string_is, seq_check, int_is, seq_check, string_is by done.
  rewrite seq_check, bool_is, seq_check, bool_not, seq_check, bool_not, seq_check, bool_not, semantics_step.
  rewrite (part_step _ _ _ _ (evidence_ok policy_map_ok)) by (intros; apply policy_map_step).
  rewrite (part_step _ _ _ _ (evidence_ok callback_stats_ok)) by (intros; apply callback_stats_step).
  rewrite bind_ok. setoid_rewrite abi_object_ok. setoid_rewrite dsq_step.
  split; [intros (?&?&?&?&?&?&?&?&?&?&?); by split | intros [? ? ? ? (?&?&?) ? ? ? ?]; tauto].
Qed.

(** * Properties *)

(** [validate_policy_abi_contract] accepts a policy ABI block exactly when it
    names its policy, version, ops and object, says whether BTF is required and,
    unless its abi_version is absent or null, satisfies the version 3 contract
    [abi_v3_ok]: vm only, no claim, the exact cgroup semantics, and for each kind
    of evidence either a reason for its absence or consistent counters (a weight
    is observed at most as often as it is set).  Without an abi_version the block
    is accepted whatever it claims. *)
Theorem validate_policy_abi_contract_iff abi c :
  validate_policy_abi_contract abi c = Ok tt <->
  (forall f, In f ["policy_name"; "policy_version"; "struct_ops"; "object_sha256"] -> text_present abi f)
  /\ (exists b, get abi "btf_required" = JBool b)
  /\ (get abi "abi_version" = JNull \/ abi_v3_ok abi).
Proof.
  unfold validate_policy_abi_contract. rewrite bind_ok_unit, for_each_ok, Forall_forall.
  setoid_rewrite list_elem_of_In. setoid_rewrite text_present_ok. rewrite bind_ok. setoid_rewrite abi_bool_ok.
  assert (Hn : is_none (get abi "abi_version") = true <-> get abi "abi_version" = JNull)
    by (by destruct (get abi "abi_version")).
  assert (H : (if is_none (get abi "abi_version") then Ok tt else validate_v3_policy_abi abi c) = Ok tt <->
    get abi "abi_version" = JNull \/ abi_v3_ok abi).
  { rewrite <- Hn. destruct (is_none _) eqn:E; [tauto|]. rewrite validate_v3_ok.
    split; [by right | intros [|]; congruence || done]. }
  setoid_rewrite H. split.
  - intros (Ht & b & Hb & Hv). split; [intros f Hf; by apply Ht | by split; [exists b|]].
  - intros (Ht & (b & Hb) & Hv). split; [intros f Hf; split; [by apply Ht | done] | by exists b].
Qed.
