(* ===== verification/SchedExt.v ===== *)
(** SchedExt: qa/runtime_sample_sched_ext.py, the sched_ext facts of one sample
    and the ordering of the samples of a run. *)
From S2P Require Import Prelude PyStr PyRe PyFloat PyJson PyFs.
From S2P Require Import PolicyAbi RuntimeSampleCommon.
From Stdlib Require Import Sorting.Sorted.

Local Open Scope string_scope.

Definition SCHED_STATES : list string :=
  ["disabled"; "enabled"; "enabling"; "disabling"; "unknown"; "unavailable"].
Definition SCHED_EXT_PHASES : list string :=
  ["before_attach"; "during_attach"; "after_attach"; "after_rollback"; "after_scheduler_exit";
   "after_watchdog_disable"; "after_forced_disable"].
Definition TASK_EXT_UNAVAILABLE_VALUES : list string := [""; "unknown"; "unavailable"].

Definition validate_nonnegative_fact_value (fact : jobject) (field context : string) : result unit :=
  let* v := getitem fact "value" in
  let value := strip (py_str v) in
  if String.eqb value "unavailable" then Ok tt
  else ensure (isdecimal value) RuntimeSampleError
         (context ++ "." ++ field ++ " must be a nonnegative integer or unavailable").

Definition numeric_fact_value (row : jobject) (field : string) : result (option Z) :=
  let* o := require_object row field "runtime sample" in
  let* v := getitem o "value" in
  let value := strip (py_str v) in
  if isdecimal value then let* n := int_of_digits value in Ok (Some n) else Ok None.

(** [fact["status"] == "present"] *)
Definition status_present (fact : jobject) : result bool :=
  let* s := getitem fact "status" in Ok (py_eq s (JStr "present")).

Definition validate_sched_ext_facts (row : jobject) (context : string) : result unit :=
  let* state := validate_fact row "state" context in
  let* v := getitem state "value" in
  let state_value := strip (py_str v) in
  let* present := status_present state in
  ensure (negb (present && negb (mem state_value SCHED_STATES))) RuntimeSampleError
    (context ++ ".state has unsupported sched_ext state: " ++ state_value) ;;;
  let* _ := validate_fact row "ops" context in
  let* enable_seq := validate_fact row "enable_seq" context in
  validate_nonnegative_fact_value enable_seq "enable_seq" context ;;;
  let* _ := validate_fact row "events" context in
  let* nr_rejected := validate_fact row "nr_rejected" context in
  validate_nonnegative_fact_value nr_rejected "nr_rejected" context ;;;
  let* debug_dump := validate_fact row "debug_dump" context in
  let* dv := getitem debug_dump "value" in
  let debug_value := py_str dv in
  let* present := status_present debug_dump in
  ensure (negb (present && negb (is_digest_summary debug_value))) RuntimeSampleError
    (context ++ ".debug_dump must be a redacted digest summary") ;;;
  for_each ["root_ops"; "scheduler_events"] (fun field =>
    if has_key field row then let* _ := validate_fact row field context in Ok tt else Ok tt).

Definition validate_task_ext_enabled (row : jobject) (context : string) : result unit :=
  let* task_ext := optional_object row "task_ext_enabled" context in
  match task_ext with
  | None => Ok tt
  | Some _ =>
      let* fact := validate_fact row "task_ext_enabled" context in
      let* v := getitem fact "value" in
      let value := py_str v in
      let* present := status_present fact in
      if present then
        ensure (mem value ["true"; "false"]) RuntimeSampleError
          (context ++ ".task_ext_enabled present evidence must be true or false")
      else
        ensure (mem value TASK_EXT_UNAVAILABLE_VALUES) RuntimeSampleError
          (context ++ ".task_ext_enabled unavailable evidence must be explicit")
  end.

Definition validate_cgroup_semantic_labels (row : jobject) (context : string) : result unit :=
  let* labels := optional_object row "cgroup_semantic_labels" context in
  match labels with
  | None => Ok tt
  | Some labels =>
      ensure (set_eq (keys labels) (map fst SEMANTICS)) RuntimeSampleError
        (context ++ ".cgroup_semantic_labels keys do not match ABI-v3 contract") ;;;
      for_each SEMANTICS (fun kv =>
        ensure (py_eq (get labels (fst kv)) (JStr (snd kv))) RuntimeSampleError
          (context ++ ".cgroup_semantic_labels." ++ fst kv ++ " must be " ++ snd kv))
  end.

Definition validate_teardown_rollback (row : jobject) (context : string) : result unit :=
  for_each ["teardown_state"; "rollback_state"] (fun field =>
    if has_key field row then let* _ := validate_fact row field context in Ok tt else Ok tt).

Definition validate_sched_ext_phase (row : jobject) (context : string) : result unit :=
  if negb (has_key "sched_ext_phase" row) then Ok tt else
  let* phase := require_string row "sched_ext_phase" context in
  reject_private_leaks (JStr phase) (context ++ ".sched_ext_phase") ;;;
  ensure (mem phase SCHED_EXT_PHASES) RuntimeSampleError
    (context ++ ".sched_ext_phase has unsupported value").

(** The two local variables of [validate_sched_ext_sequence]. *)
Record seq_state : Set := SeqState {
  last_sequence : option Z;
  last_enable_seq : option Z;
}.

Definition seq_init : seq_state := SeqState None None.

(** [str(obj.get("value", ""))], or the empty text when [obj] is not a dict. *)
Definition fact_text (v : json) : string :=
  match v with JDict d => py_str (get_or d "value" (JStr "")) | _ => "" end.

Definition AFTER_PHASES : list string :=
  ["after_rollback"; "after_scheduler_exit"; "after_watchdog_disable"; "after_forced_disable"].

(** The tests of one row on its phase, state and operations. *)
Definition check_phase (row : jobject) (context : string) : result unit :=
  let phase := get row "sched_ext_phase" in
  let state_value := fact_text (get row "state") in
  let ops_value := fact_text (get row "ops") in
  ensure (negb (py_eq phase (JStr "before_attach") && String.eqb state_value "enabled")) RuntimeSampleError
    (context ++ ".sched_ext_phase before_attach cannot report enabled state") ;;;
  let* after := in_set phase AFTER_PHASES in
  if after then
    ensure (mem state_value ["disabled"; "unknown"; "unavailable"]) RuntimeSampleError
      (context ++ "." ++ py_str phase ++ " must report disabled/unknown/unavailable state") ;;;
    ensure (negb (String.eqb state_value "disabled" && negb (mem ops_value ["none"; "unavailable"; "unknown"])))
      RuntimeSampleError
      (context ++ "." ++ py_str phase ++ " disabled state must not report live root ops")
  else Ok tt.

Definition above (last : option Z) (rel : Z -> Z -> bool) (n : Z) : bool :=
  match last with Some m => rel m n | None => true end.

(** One iteration of the loop over the rows. *)
Definition sequence_step (index : nat) (row : jobject) (st : seq_state) : result seq_state :=
  let context := "sample[" ++ str_nat index ++ "]" in
  let* st := match as_int (get row "sequence") with
             | Some sequence =>
                 ensure (above (last_sequence st) Z.ltb sequence) RuntimeSampleError
                   (context ++ ".sequence must increase monotonically") ;;;
                 Ok (SeqState (Some sequence) (last_enable_seq st))
             | None => Ok st
             end in
  let* enable_seq := numeric_fact_value row "enable_seq" in
  let* st := match enable_seq with
             | Some n =>
                 ensure (above (last_enable_seq st) Z.leb n) RuntimeSampleError
                   (context ++ ".enable_seq is stale relative to earlier sched_ext state") ;;;
                 Ok (SeqState (last_sequence st) (Some n))
             | None => Ok st
             end in
  check_phase row context ;;;
  Ok st.

Definition validate_sched_ext_sequence (rows : list jobject) : result unit :=
  let* _ := for_fold 0 rows seq_init sequence_step in Ok tt.

(** * Specification of the sequence *)

(** The enable sequence a row reports: a decimal value of the fact. *)
Definition enable_seq_of (row : jobject) : option Z :=
  match get row "enable_seq" with
  | JDict fact =>
      match jlookup "value" fact with
      | Some v => if isdecimal (strip (py_str v)) then Some (dec_value 0 (strip (py_str v))) else None
      | None => None
      end
  | _ => None
  end.

Definition sequence_of (row : jobject) : option Z := as_int (get row "sequence").

(** The fact is there, and its digits are within the limit of [int]. *)
Definition enable_seq_readable (row : jobject) : Prop :=
  exists fact v, get row "enable_seq" = JDict fact /\ jlookup "value" fact = Some v
    /\ (isdecimal (strip (py_str v)) = true -> len (strip (py_str v)) <= MAX_STR_DIGITS).

(** Before the attach nothing is enabled; after the detach the state is off or
    not known, and a disabled state reports no live operations. *)
Record phase_ok (row : jobject) : Prop := {
  ph_before : get row "sched_ext_phase" = JStr "before_attach" -> fact_text (get row "state") <> "enabled";
  ph_hashable : ~ (exists d, get row "sched_ext_phase" = JDict d) /\ ~ (exists l, get row "sched_ext_phase" = JList l);
  ph_after : forall phase, get row "sched_ext_phase" = JStr phase -> In phase AFTER_PHASES ->
    In (fact_text (get row "state")) ["disabled"; "unknown"; "unavailable"]
    /\ (fact_text (get row "state") = "disabled" ->
        In (fact_text (get row "ops")) ["none"; "unavailable"; "unknown"]);
}.

(** The values reported after [last] stay in the order [R]. *)
Definition chain (R : Z -> Z -> Prop) (last : option Z) (l : list Z) : Prop :=
  match last with Some m => StronglySorted R (m :: l) | None => StronglySorted R l end.

(** The last values after a row. *)
Definition step_state (row : jobject) (st : seq_state) : seq_state :=
  SeqState (match sequence_of row with Some n => Some n | None => last_sequence st end)
           (match enable_seq_of row with Some n => Some n | None => last_enable_seq st end).

(** * Lemmas *)
Lemma chain_cons R `{!Transitive R} last n l :
  chain R last (n :: l) <-> (forall m, last = Some m -> R m n) /\ chain R (Some n) l.
Proof.
  destruct last as [m|]; simpl; [|naive_solver].
  split.
  - inversion 1 as [|? ? Hs Hf]; subst. inversion Hf; subst. split; [by intros ? [= <-] | done].
  - intros [Hm Hs]. specialize (Hm m eq_refl). constructor; [done|]. constructor; [done|].
    inversion Hs as [|? ? _ Hf]; subst. eapply Forall_impl; [exact Hf|]. intros x Hx. by transitivity n.
Qed.

Lemma chain_omap R `{!Transitive R} (f : jobject -> option Z) last row rows :
  chain R last (omap f (row :: rows)) <->
  (forall m n, last = Some m -> f row = Some n -> R m n)
  /\ chain R (match f row with Some n => Some n | None => last end) (omap f rows).
Proof.
  change (omap f (row :: rows)) with (match f row with Some n => n :: omap f rows | None => omap f rows end).
  destruct (f row) as [n|]; [rewrite chain_cons by done|]; naive_solver.
Qed.

Lemma above_iff last rel n : above last rel n = true <-> forall m, last = Some m -> rel m n = true.
Proof. destruct last; simpl; naive_solver. Qed.

Lemma in_set_Ok v l : (exists b, in_set v l = Ok b) <-> ~ (exists d, v = JDict d) /\ ~ (exists k, v = JList k).
Proof.
  destruct v; simpl; (split; [intros [x Hx]; try discriminate Hx; split; by intros [? [=]] | intros [H1 H2]]);
    try (by eexists).
  - destruct H2. by eexists.
  - destruct H1. by eexists.
Qed.

Lemma check_phase_ok row context : check_phase row context = Ok tt <-> phase_ok row.
Proof.
  unfold check_phase. cbv zeta. split.
  - intros (Hb%ensure_ok & (b & Hin & H)%bind_ok)%bind_ok_unit.
    apply negb_true_iff, andb_false_iff in Hb. split.
    + intros Hp He. rewrite Hp, He in Hb. by destruct Hb.
    + apply (in_set_Ok _ AFTER_PHASES). by exists b.
    + intros phase Hp Hi. pose proof (in_set_ok _ _ _ Hin) as [_ Hb']. rewrite Hb' in H by (by exists phase).
      apply bind_ok_unit in H as [Hs%ensure_ok%mem_In Ho%ensure_ok]. split; [done|].
      intros Hd. rewrite Hd, String.eqb_refl, andb_true_l, negb_involutive in Ho. by apply mem_In.
  - intros [Hb [b Hin]%(in_set_Ok _ AFTER_PHASES) Ha]. apply bind_ok_unit. split.
    + apply ensure_ok, negb_true_iff, not_true_iff_false. rewrite andb_true_iff, py_eq_str, String.eqb_eq. tauto.
    + apply bind_ok. exists b. split; [done|]. destruct b; [|done].
      apply in_set_ok in Hin as [Hin _]. destruct Hin as (phase & Hp & Hi); [done|].
      destruct (Ha phase Hp Hi) as [Hs Ho]. apply bind_ok_unit. split; [by apply ensure_ok, mem_In|].
      apply ensure_ok, negb_true_iff, not_true_iff_false. rewrite andb_true_iff, String.eqb_eq, negb_true_iff.
      intros [Hd Hm]. apply Ho, mem_In in Hd. congruence.
Qed.

Lemma numeric_fact_value_ok row o :
  numeric_fact_value row "enable_seq" = Ok o <-> enable_seq_readable row /\ o = enable_seq_of row.
Proof.
  unfold numeric_fact_value, enable_seq_readable, enable_seq_of, require_object, getitem.
  destruct (get row "enable_seq") as [| | | | | |fact]; simpl;
    try (split; [discriminate | by intros [(? & ? & [=] & _) _]]).
  destruct (jlookup "value" fact) as [v|] eqn:Hv; simpl; [|split; [discriminate | intros [(? & ? & [= <-] & [=] & _) _]; congruence]].
  destruct (isdecimal (strip (py_str v))) eqn:Hd.
  - rewrite bind_ok. unfold int_of_digits. split.
    + intros (n & Hn & [= <-]). apply if_raise_ok in Hn as [Hl%Nat.ltb_ge [= <-]]. split; [|done]. by exists fact, v.
    + intros [(fact' & v' & [= <-] & Hv' & Hl) ->]. eexists. rewrite if_raise_ok, Nat.ltb_ge. split; [|done].
      split; [|done]. assert (v' = v) as -> by congruence. by apply Hl.
  - split; [intros [= <-]; split; [|done]; exists fact, v; by rewrite Hd | by intros [_ ->]].
Qed.

Lemma track_ok (o last : option Z) rel c msg (f : Z -> seq_state) s s' :
  (match o with Some n => ensure (above last rel n) c msg ;;; Ok (f n) | None => Ok s end) = Ok s' <->
  (forall m n, last = Some m -> o = Some n -> rel m n = true)
  /\ s' = match o with Some n => f n | None => s end.
Proof.
  destruct o as [n|].
  - rewrite bind_ok_unit, ensure_ok, above_iff, Ok_inj. naive_solver.
  - rewrite Ok_inj. naive_solver.
Qed.

Lemma sequence_step_ok i row st st' :
  sequence_step i row st = Ok st' <->
  phase_ok row /\ enable_seq_readable row
  /\ (forall m n, last_sequence st = Some m -> sequence_of row = Some n -> (m < n)%Z)
  /\ (forall m n, last_enable_seq st = Some m -> enable_seq_of row = Some n -> (m <= n)%Z)
  /\ st' = step_state row st.
Proof.
  unfold sequence_step, step_state. fold (sequence_of row). cbv zeta.
  setoid_rewrite <- Z.ltb_lt. setoid_rewrite <- Z.leb_le. rewrite bind_ok. split.
  - intros (s1 & [Hs ->]%track_ok & (o & [Hr ->]%numeric_fact_value_ok
      & (s2 & [He ->]%track_ok & (Hp%check_phase_ok & [= <-])%bind_ok_unit)%bind_ok)%bind_ok).
    split; [done|]. split; [done|]. split; [done|]. split; [by destruct (sequence_of row)|].
    by destruct (sequence_of row), (enable_seq_of row), st.
  - intros (Hp & Hr & Hs & He & ->). eexists. rewrite track_ok. split; [by split|].
    apply bind_ok. exists (enable_seq_of row). split; [by apply numeric_fact_value_ok|].
    apply bind_ok. eexists. rewrite track_ok. split; [split; [by destruct (sequence_of row) | reflexivity]|].
    apply bind_ok_unit. split; [by apply check_phase_ok|].
    by destruct (sequence_of row), (enable_seq_of row), st.
Qed.

Lemma sequence_run_ok rows i st :
  (exists st', for_fold i rows st sequence_step = Ok st') <->
  Forall phase_ok rows /\ Forall enable_seq_readable rows
  /\ chain Z.lt (last_sequence st) (omap sequence_of rows)
  /\ chain Z.le (last_enable_seq st) (omap enable_seq_of rows).
Proof.
  revert i st. induction rows as [|row rows IH]; intros i st.
  - split; [|by eexists]. intros _. repeat split; try constructor;
      [destruct (last_sequence st) | destruct (last_enable_seq st)]; repeat constructor.
  - rewrite for_fold_cons_ok, !Forall_cons. split.
    + intros (s1 & (Hp & Hr & Hs & He & ->)%sequence_step_ok & (Hps & Hrs & Hcs & Hce)%IH).
      split; [done|]. split; [done|].
      split; (apply chain_omap; [apply _ | split; [done | assumption]]).
    + intros ([Hp Hps] & [Hr Hrs] & Hcs & Hce).
      apply chain_omap in Hcs as [Hs Hcs]; [|apply _]. apply chain_omap in Hce as [He Hce]; [|apply _].
      exists (step_state row st). split; [by apply sequence_step_ok | by apply IH].
Qed.

(** * Properties *)

(** C4: [validate_sched_ext_sequence] accepts the samples of a run exactly when
    every sample reports a state that fits its phase, the integer sequence
    numbers of the samples strictly increase, and the enable sequences that are
    reported as numbers never decrease (samples without a number are skipped, not
    a break of the order). *)
Theorem validate_sched_ext_sequence_iff rows :
  validate_sched_ext_sequence rows = Ok tt <->
  Forall phase_ok rows /\ Forall enable_seq_readable rows
  /\ StronglySorted Z.lt (omap sequence_of rows)
  /\ StronglySorted Z.le (omap enable_seq_of rows).
Proof.
  unfold validate_sched_ext_sequence. rewrite <- (sequence_run_ok rows 0 seq_init), bind_ok. naive_solver.
Qed.
