(* ===== verification/RuntimeSample.v ===== *)
(** RuntimeSample: qa/runtime_sample_core.py, runtime_sample_fixtures.py and
    runtime_sample_check.py: one runtime sample, a file of samples, and the
    order of alerts in a daemon journal. *)
From S2P Require Import Prelude PyStr PyRe PyFloat PyJson PyFs PyMain.
From S2P Require Import PolicyAbi RuntimeSampleCommon SchedExt.
From Stdlib Require Import Sorting.Sorted.

Local Open Scope string_scope.

Definition SAMPLE_SCHEMA : string := "zig-scheduler/runtime-sample/v1".
Definition COUNTERS : list string := ["nr_rejected"; "dispatch_failed"; "fallback"; "fatal"].
Definition DSQ_DEPTH_FIELDS : list string := ["global"; "local"; "shared"].
Definition LATENCY_FIELDS : list string := ["p50_us"; "p95_us"; "p99_us"; "max_us"].
Definition SCHEDULER_COUNTER_FIELDS : list string := ["context_switches"; "wakeups"; "migrations"].
Definition FAIRNESS_STATES : list string := ["ok"; "watch"; "starved"; "unknown"].
Definition SHA256_ZERO : string := repeat_str 64 "0".
Definition UNAVAILABLE_STATUSES : list string := ["missing"; "unreadable"; "unknown"].
Definition UNAVAILABLE_VALUES : list string := [""; "missing"; "none"; "null"; "unavailable"; "unknown"].

Definition fact_lit (value : string) : json := JDict [("status", JStr "present"); ("value", JStr value)].

(** The reference sample of the self-tests. *)
Definition good_sample : jobject :=
  let digest := repeat_str 64 "a" in [
  ("schema", JStr SAMPLE_SCHEMA);
  ("sequence", JInt 0);
  ("sample_source_event", JStr "runtime-sample-self-test");
  ("observation_source", JStr "vm_fixture_sched_ext");
  ("sched_ext_phase", JStr "during_attach");
  ("state", fact_lit "enabled");
  ("ops", fact_lit "zigsched_minimal");
  ("enable_seq", fact_lit "42");
  ("events", fact_lit "nr_rejected: 0");
  ("events_hash", JStr "ab12");
  ("nr_rejected", fact_lit "0");
  ("debug_dump", JDict [("status", JStr "missing"); ("value", JStr "")]);
  ("root_ops", fact_lit "zigsched_minimal");
  ("scheduler_events", fact_lit "nr_rejected: 0");
  ("policy_counters", JDict [("nr_rejected", JInt 0); ("dispatch_failed", JInt 0); ("fallback", JInt 0);
                             ("fatal", JInt 0)]);
  ("sample_loss", JDict [("lost_samples", JInt 0); ("backpressure_dropped", JInt 0);
                         ("ring_buffer_overruns", JInt 0); ("reader_lag_events", JInt 0)]);
  ("dsq_depth", JDict [("global", JInt 2); ("local", JInt 1); ("shared", JInt 0)]);
  ("queue_latency", JDict [("p50_us", JInt 40); ("p95_us", JInt 120); ("p99_us", JInt 250); ("max_us", JInt 300)]);
  ("fairness", JDict [("state", JStr "ok"); ("starved_tasks", JInt 0); ("max_wait_us", JInt 0)]);
  ("task_counts", JDict [("by_cgroup_digest", JDict [(digest, JInt 3)]);
                         ("by_class", JDict [("interactive", JInt 1); ("batch", JInt 2)])]);
  ("scheduler_counters", JDict [("context_switches", JInt 123); ("wakeups", JInt 45); ("migrations", JInt 6)]);
  ("sched_ext_observation", JDict [
      ("dump", fact_lit ("sha256:" ++ repeat_str 64 "b" ++ ";bytes:128"));
      ("tracepoints", JDict [("sched_switch", JInt 123); ("sched_wakeup", JInt 45)])]);
  ("benchmark_histograms", JList [JDict [
      ("record_path", JStr "fixtures/benchmark-output/cyclictest-recorded.json");
      ("record_sha256", JStr (repeat_str 64 "c"));
      ("histogram_id", JStr "latency_us");
      ("record_only", JBool true)]]);
  ("policy_abi", JDict (good_policy_abi "unavailable"));
  ("cgroup_semantic_labels", JDict semantics_dict);
  ("cgroup_membership_digest", JStr digest);
  ("cgroup_membership_status", fact_lit "present");
  ("task_ext_enabled", fact_lit "true");
  ("teardown_state", fact_lit "attached");
  ("rollback_state", fact_lit "not_applicable");
  ("workload", fact_lit "alive");
  ("workload_alive", JBool true);
  ("private_command_lines_sampled", JBool false)].

Definition validate_nonnegative_fields (data : jobject) (fields : list string) (context : string) : result unit :=
  for_each fields (fun field =>
    let* n := require_int data field context in
    ensure (0 <=? n)%Z RuntimeSampleError (context ++ "." ++ field ++ " must be nonnegative")).

Definition is_unavailable_object (data : jobject) : bool :=
  match get data "status", get data "value" with
  | JStr status, JStr value => mem status UNAVAILABLE_STATUSES && mem (casefold value) UNAVAILABLE_VALUES
  | _, _ => false
  end.

Definition validate_optional_counter_sets (row : jobject) (context : string) : result unit :=
  let* counters := optional_object row "policy_counters" context in
  match counters with
  | Some counters =>
      if is_unavailable_object counters then Ok tt
      else validate_nonnegative_fields counters COUNTERS (context ++ ".policy_counters")
  | None => Ok tt
  end ;;;
  let* loss := optional_object row "sample_loss" context in
  match loss with
  | Some loss =>
      if is_unavailable_object loss then Ok tt else
      validate_nonnegative_fields loss ["lost_samples"; "backpressure_dropped"] (context ++ ".sample_loss") ;;;
      for_each ["ring_buffer_overruns"; "reader_lag_events"] (fun field =>
        if has_key field loss then
          let* n := require_int loss field (context ++ ".sample_loss") in
          ensure (0 <=? n)%Z RuntimeSampleError (context ++ ".sample_loss." ++ field ++ " must be nonnegative")
        else Ok tt)
  | None => Ok tt
  end.

Definition validate_metric_object (data : jobject) (fields : list string) (context : string) : result unit :=
  if is_unavailable_object data then Ok tt else validate_nonnegative_fields data fields context.

Definition validate_counter_map (data : jobject) (context : string) : result unit :=
  ensure (match data with [] => false | _ => true end) RuntimeSampleError (context ++ " must not be empty") ;;;
  for_each data (fun kv =>
    let key := fst kv in
    ensure (negb (startswith key "/" || contains ".." key || String.eqb key "")) RuntimeSampleError
      (context ++ "." ++ key ++ " is not a stable redacted key") ;;;
    reject_private_leaks (JStr key) (context ++ "." ++ key) ;;;
    ensure (match as_int (snd kv) with Some n => 0 <=? n | None => false end)%Z RuntimeSampleError
      (context ++ "." ++ key ++ " must be a nonnegative integer")).

Definition validate_digest (value context : string) : result unit :=
  ensure (Nat.eqb (len value) 64 && negb (String.eqb value SHA256_ZERO)
          && all_chars (one_of "0123456789abcdef") value) RuntimeSampleError
    (context ++ " must be a lowercase nonzero sha256 digest").

Definition validate_benchmark_refs (row : jobject) (context : string) : result unit :=
  match get row "benchmark_histograms" with
  | JNull => Ok tt
  | JList refs =>
      for_enum 0 refs (fun index item =>
        let ref_context := context ++ ".benchmark_histograms[" ++ str_nat index ++ "]" in
        match item with
        | JDict item =>
            let* p := require_string item "record_path" ref_context in
            ensure (negb (startswith p "/" || mem ".." (parts (Path p)))) RuntimeSampleError
              (ref_context ++ ".record_path must be repo-relative") ;;;
            let* digest := require_string item "record_sha256" ref_context in
            validate_digest digest (ref_context ++ ".record_sha256") ;;;
            let* _ := require_string item "histogram_id" ref_context in
            let* record_only := require_bool item "record_only" ref_context in
            ensure record_only RuntimeSampleError (ref_context ++ ".record_only must be true")
        | _ => fail (ref_context ++ " must be an object")
        end)
  | _ => fail (context ++ ".benchmark_histograms must be a list")
  end.

Definition validate_root_fields (row : jobject) (context : string) : result unit :=
  for_each (keys row) (fun field =>
    ensure (mem field ROOT_FIELDS) RuntimeSampleError
      (context ++ " has unsupported runtime sample field: " ++ field)).

Definition validate_scheduler_telemetry (row : jobject) (context : string) : result unit :=
  for_each [("dsq_depth", DSQ_DEPTH_FIELDS); ("queue_latency", LATENCY_FIELDS);
            ("scheduler_counters", SCHEDULER_COUNTER_FIELDS)] (fun ff =>
    let* counters := optional_object row (fst ff) context in
    match counters with
    | Some counters => validate_metric_object counters (snd ff) (context ++ "." ++ fst ff)
    | None => Ok tt
    end) ;;;
  let* fairness := optional_object row "fairness" context in
  match fairness with
  | Some fairness =>
      if is_unavailable_object fairness then Ok tt else
      let* state := require_string fairness "state" (context ++ ".fairness") in
      ensure (mem state FAIRNESS_STATES) RuntimeSampleError (context ++ ".fairness.state has unsupported value") ;;;
      validate_nonnegative_fields fairness ["starved_tasks"; "max_wait_us"] (context ++ ".fairness")
  | None => Ok tt
  end ;;;
  let* task_counts := optional_object row "task_counts" context in
  match task_counts with
  | Some task_counts =>
      let* by_cgroup := require_object task_counts "by_cgroup_digest" (context ++ ".task_counts") in
      validate_counter_map by_cgroup (context ++ ".task_counts.by_cgroup_digest") ;;;
      let* by_class := require_object task_counts "by_class" (context ++ ".task_counts") in
      validate_counter_map by_class (context ++ ".task_counts.by_class")
  | None => Ok tt
  end ;;;
  let* sched_ext := optional_object row "sched_ext_observation" context in
  match sched_ext with
  | Some sched_ext =>
      let here := context ++ ".sched_ext_observation" in
      let* dump := validate_fact sched_ext "dump" here in
      let* present := status_present dump in
      let* v := getitem dump "value" in
      ensure (negb (present && negb (is_digest_summary (py_str v)))) RuntimeSampleError
        (here ++ ".dump must be a redacted digest summary") ;;;
      let* tracepoints := require_object sched_ext "tracepoints" here in
      validate_counter_map tracepoints (here ++ ".tracepoints")
  | None => Ok tt
  end ;;;
  validate_benchmark_refs row context.

Definition validate_policy_abi (row : jobject) (context : string) : result unit :=
  let* abi := require_object row "policy_abi" context in
  reraise PolicyAbiError RuntimeSampleError exn_str
    (validate_policy_abi_contract abi (context ++ ".policy_abi")) ;;;
  reject_private_leaks (JDict abi) (context ++ ".policy_abi").

Definition validate_sample (row : jobject) (index : nat) : result unit :=
  let context := "sample[" ++ str_nat index ++ "]" in
  reject_private_leaks (JDict row) context ;;;
  validate_root_fields row context ;;;
  let* schema := require_string row "schema" context in
  ensure (String.eqb schema SAMPLE_SCHEMA) RuntimeSampleError (context ++ " has unsupported schema") ;;;
  let* _ := require_int row "sequence" context in
  validate_sched_ext_facts row context ;;;
  validate_sched_ext_phase row context ;;;
  let* _ := require_string row "events_hash" context in
  let* digest := require_string row "cgroup_membership_digest" context in
  validate_digest digest (context ++ ".cgroup_membership_digest") ;;;
  for_each ["cgroup_membership_status"; "workload"] (fun field =>
    if has_key field row then let* _ := validate_fact row field context in Ok tt else Ok tt) ;;;
  let* _ := require_bool row "workload_alive" context in
  let* sampled := require_bool row "private_command_lines_sampled" context in
  ensure (negb sampled) RuntimeSampleError (context ++ " sampled private command lines") ;;;
  validate_optional_counter_sets row context ;;;
  validate_task_ext_enabled row context ;;;
  validate_cgroup_semantic_labels row context ;;;
  validate_teardown_rollback row context ;;;
  validate_scheduler_telemetry row context ;;;
  validate_policy_abi row context.

Definition validate_rows (rows : list jobject) : result unit :=
  for_enum 0 rows (fun index row => validate_sample row index) ;;;
  validate_sched_ext_sequence rows.

Definition validate_file (F : fs) (p : path) : result unit :=
  let* rows := load_jsonl F p in
  validate_rows rows.

(** The two flags of [validate_alert_order]. *)
Record alerts : Set := Alerts { rejected_seen : bool; dead_seen : bool }.

Definition positive_count (v : json) : result bool :=
  match v with
  | JStr s => if isdecimal s then let* n := int_of_digits s in Ok (0 <? n)%Z else Ok false
  | _ => Ok (match as_int v with Some n => (0 <? n)%Z | None => false end)
  end.

Definition alert_step (label : string) (index : nat) (row : jobject) (st : alerts) : result alerts :=
  let reason := get row "reason" in
  let* st :=
    if py_eq (get row "event") (JStr "runtime_sample") then
      let* positive := positive_count (get row "nr_rejected") in
      Ok (Alerts (positive || rejected_seen st) (is_false (get row "workload_alive") || dead_seen st))
    else Ok st in
  ensure (negb (py_eq reason (JStr "runtime_nr_rejected_nonzero") && negb (rejected_seen st))) RuntimeSampleError
    (label ++ " incident precedes nonzero nr_rejected sample at row " ++ str_nat index) ;;;
  ensure (negb (py_eq reason (JStr "runtime_workload_dead") && negb (dead_seen st))) RuntimeSampleError
    (label ++ " incident precedes workload-dead sample at row " ++ str_nat index) ;;;
  Ok st.

Definition validate_alert_order (rows : list jobject) (label : string) : result unit :=
  let* _ := for_fold 0 rows (Alerts false false) (alert_step label) in Ok tt.

(** ** qa/runtime_sample_check.py *)
Definition parse_args (argv : list string) : result (option path * bool) :=
  match argv with
  | ["--self-test"] => Ok (None, true)
  | ["--input"; p] => Ok (Some (Path p), false)
  | _ => fail "usage: runtime_sample_check.py --input <runtime-samples.jsonl> | --self-test"
  end.

(** [run], without the self-test. *)
Definition run (F : fs) (argv : list string) : result (list string) :=
  let* (input_path, should_self_test) := parse_args argv in
  match input_path with
  | None => fail "internal argument parser error"
  | Some p => validate_file F p ;;; Ok ["PASS runtime sample schema: " ++ path_str p]
  end.

Definition main (F : fs) (argv : list string) : exit :=
  run_main (is_class RuntimeSampleError) "FAIL runtime sample schema" (run F argv).

(** * Specification *)

(** 64 lowercase hexadecimal digits, not all zero. *)
Definition observed_digest (s : string) : Prop :=
  len s = 64 /\ s <> SHA256_ZERO /\ all_chars (one_of "0123456789abcdef") s = true.

Definition counter_field (d : jobject) (field : string) : Prop :=
  exists n, as_int (get d field) = Some n /\ (0 <= n)%Z.

(** What an accepted sample guarantees to the checks that build on it. *)
Record sample_facts (row : jobject) : Prop := {
  sf_private : no_leak (JDict row);
  sf_fields : forall k, In k (keys row) -> In k ROOT_FIELDS;
  sf_schema : get row "schema" = JStr SAMPLE_SCHEMA;
  sf_sequence : exists n, as_int (get row "sequence") = Some n;
  sf_phase : has_key "sched_ext_phase" row = true ->
    exists phase, get row "sched_ext_phase" = JStr phase /\ In phase SCHED_EXT_PHASES;
  sf_digest : exists s, get row "cgroup_membership_digest" = JStr s /\ observed_digest s;
  sf_alive : exists b, get row "workload_alive" = JBool b;
  sf_sampled : get row "private_command_lines_sampled" = JBool false;
  sf_counters : forall d, get row "policy_counters" = JDict d ->
    is_unavailable_object d = true \/ forall f, In f COUNTERS -> counter_field d f;
  sf_abi : exists abi, get row "policy_abi" = JDict abi
    /\ exists context, validate_policy_abi_contract abi context = Ok tt;
}.

(** The samples that justify the two incidents of a journal. *)
Definition is_sample (row : jobject) : Prop := get row "event" = JStr "runtime_sample".
Definition rejects (row : jobject) : Prop := is_sample row /\ positive_count (get row "nr_rejected") = Ok true.
Definition dead (row : jobject) : Prop := is_sample row /\ get row "workload_alive" = JBool false.
(** The count of a sample can be read: its digits are within the limit of [int]. *)
Definition readable_count (row : jobject) : Prop :=
  is_sample row -> forall s, get row "nr_rejected" = JStr s -> isdecimal s = true -> len s <= MAX_STR_DIGITS.

(** At or before row [k] of the journal there is a row with [P]. *)
Definition seen_by (P : jobject -> Prop) (rows : list jobject) (k : nat) : Prop :=
  exists j row, j <= k /\ rows !! j = Some row /\ P row.

Definition rejectsb (row : jobject) : bool :=
  py_eq (get row "event") (JStr "runtime_sample")
  && match positive_count (get row "nr_rejected") with Ok b => b | Err _ => false end.
Definition deadb (row : jobject) : bool :=
  py_eq (get row "event") (JStr "runtime_sample") && is_false (get row "workload_alive").
Definition alert_state (row : jobject) (st : alerts) : alerts :=
  Alerts (rejectsb row || rejected_seen st) (deadb row || dead_seen st).

(** The reference sample as a file. *)
Definition sample_files : fs := fs_of "/repo" [("samples.jsonl", File (dumps (JDict good_sample)))].

(** * Lemmas *)
Lemma sample_string_ok d field context s :
  require_string d field context = Ok s <-> get d field = JStr s /\ s <> "".
Proof.
  unfold require_string. destruct (get d field) as [| | | |v| |]; try (split; [discriminate | by intros [[=] _]]).
  destruct (String.eqb_spec v "") as [->|Hv]; [split; [discriminate | by intros [[= <-] ?]]|].
  rewrite Ok_inj. split; [by intros <- | by intros [[= <-] _]].
Qed.
Lemma sample_bool_ok d field context b : require_bool d field context = Ok b <-> get d field = JBool b.
Proof. unfold require_bool. destruct (get d field); simpl; split; (congruence || discriminate). Qed.
Lemma sample_int_ok d field context n : require_int d field context = Ok n <-> as_int (get d field) = Some n.
Proof. unfold require_int. destruct (as_int (get d field)); simpl; split; (congruence || discriminate). Qed.
Lemma sample_object_ok d field context o : require_object d field context = Ok o <-> get d field = JDict o.
Proof. unfold require_object. destruct (get d field); simpl; split; (congruence || discriminate). Qed.
Lemma optional_object_dict d field context o :
  get d field = JDict o -> optional_object d field context = Ok (Some o).
Proof. intros H. unfold optional_object. by rewrite H. Qed.

Lemma validate_digest_ok s context : validate_digest s context = Ok tt <-> observed_digest s.
Proof.
  unfold validate_digest, observed_digest.
  rewrite ensure_ok, !andb_true_iff, Nat.eqb_eq, negb_true_iff, String.eqb_neq. tauto.
Qed.

Lemma validate_nonnegative_ok d fields context :
  validate_nonnegative_fields d fields context = Ok tt <-> forall f, In f fields -> counter_field d f.
Proof.
  unfold validate_nonnegative_fields, counter_field. rewrite for_each_ok, Forall_forall.
  setoid_rewrite list_elem_of_In. setoid_rewrite bind_ok. setoid_rewrite sample_int_ok.
  setoid_rewrite ensure_ok. by setoid_rewrite Z.leb_le.
Qed.

Lemma validate_root_fields_ok row context :
  validate_root_fields row context = Ok tt <-> forall k, In k (keys row) -> In k ROOT_FIELDS.
Proof.
  unfold validate_root_fields. rewrite for_each_ok, Forall_forall. setoid_rewrite list_elem_of_In.
  setoid_rewrite ensure_ok. by setoid_rewrite mem_In.
Qed.

Lemma validate_phase_ok row context :
  validate_sched_ext_phase row context = Ok tt -> has_key "sched_ext_phase" row = true ->
  exists phase, get row "sched_ext_phase" = JStr phase /\ In phase SCHED_EXT_PHASES.
Proof.
  unfold validate_sched_ext_phase. intros H Hk. rewrite Hk in H. cbn [negb] in H.
  apply bind_ok in H as (phase & [Hp _]%sample_string_ok & (_ & Hm%ensure_ok%mem_In)%bind_ok_unit). by exists phase.
Qed.

Lemma validate_counters_ok row context d :
  validate_optional_counter_sets row context = Ok tt -> get row "policy_counters" = JDict d ->
  is_unavailable_object d = true \/ forall f, In f COUNTERS -> counter_field d f.
Proof.
  unfold validate_optional_counter_sets. intros H Hd. rewrite (optional_object_dict _ _ _ _ Hd) in H. cbn [bind] in H.
  apply bind_ok_unit in H as [H _]. destruct (is_unavailable_object d); [by left|].
  right. by eapply validate_nonnegative_ok.
Qed.

Lemma validate_sample_facts row i : validate_sample row i = Ok tt -> sample_facts row.
Proof.
  unfold validate_sample. cbv zeta. intros H.
  apply bind_ok_unit in H as [Hp%reject_private_leaks_ok H]. apply bind_ok_unit in H as [Hf H].
  rewrite validate_root_fields_ok in Hf.
  apply bind_ok in H as (schema & [Hschema _]%sample_string_ok & H).
  apply bind_ok_unit in H as [->%ensure_ok%String.eqb_eq H]. apply bind_ok in H as (n & Hn%sample_int_ok & H).
  apply bind_ok_unit in H as [_ H]. apply bind_ok_unit in H as [Hphase H].
  apply bind_ok in H as (eh & _ & H). apply bind_ok in H as (dg & [Hdg _]%sample_string_ok & H).
  apply bind_ok_unit in H as [Hdig%validate_digest_ok H]. apply bind_ok_unit in H as [_ H].
  apply bind_ok in H as (alive & Halive%sample_bool_ok & H).
  apply bind_ok in H as (sampled & Hs%sample_bool_ok & H).
  apply bind_ok_unit in H as [->%ensure_ok%negb_true_iff H]. apply bind_ok_unit in H as [Hc H].
  apply bind_ok_unit in H as [_ H]. apply bind_ok_unit in H as [_ H]. apply bind_ok_unit in H as [_ H].
  apply bind_ok_unit in H as [_ H].
  apply bind_ok in H as (abi & Habi%sample_object_ok & (Hv%reraise_ok & _)%bind_ok_unit).
  split; try done.
  - by exists n.
  - by apply (validate_phase_ok _ _ Hphase).
  - by exists dg.
  - by exists alive.
  - intros d. by apply (validate_counters_ok _ _ _ Hc).
  - exists abi. split; [done|]. by eexists.
Qed.

Lemma rejectsb_iff row : rejectsb row = true <-> rejects row.
Proof.
  unfold rejectsb, rejects, is_sample. rewrite andb_true_iff, py_eq_str.
  destruct (positive_count _) as [b|e]; split; intros [? H]; (split; [done|]); congruence.
Qed.
Lemma deadb_iff row : deadb row = true <-> dead row.
Proof. unfold deadb, dead, is_sample. by rewrite andb_true_iff, py_eq_str, is_false_iff. Qed.

Lemma positive_count_readable v :
  (exists b, positive_count v = Ok b) <-> forall s, v = JStr s -> isdecimal s = true -> len s <= MAX_STR_DIGITS.
Proof.
  destruct v as [| | | |s| |]; simpl; try (split; [by intros _ ? [=] | by eexists]).
  destruct (isdecimal s) eqn:E; [|split; [intros _ ? [= <-]; congruence | by eexists]].
  unfold int_of_digits. split.
  - intros [b H] ? [= <-] _. apply bind_ok in H as (n & [Hl _]%if_raise_ok & _). by apply Nat.ltb_ge in Hl.
  - intros H. specialize (H s eq_refl E). apply Nat.ltb_ge in H. rewrite H. by eexists.
Qed.

Lemma alert_step_ok label i row st st' :
  alert_step label i row st = Ok st' <->
  readable_count row /\ st' = alert_state row st
  /\ (get row "reason" = JStr "runtime_nr_rejected_nonzero" -> rejected_seen st' = true)
  /\ (get row "reason" = JStr "runtime_workload_dead" -> dead_seen st' = true).
Proof.
  assert (Hguard : forall r b m, ensure (negb (py_eq (get row "reason") (JStr r) && negb b)) RuntimeSampleError m = Ok tt
    <-> (get row "reason" = JStr r -> b = true)).
  { intros r b m. rewrite ensure_ok, negb_true_iff, <- (not_true_iff_false (_ && _)), andb_true_iff, py_eq_str, negb_true_iff.
    destruct b; naive_solver. }
  assert (Hend : forall s m1 m2,
    (ensure (negb (py_eq (get row "reason") (JStr "runtime_nr_rejected_nonzero") && negb (rejected_seen s)))
       RuntimeSampleError m1 ;;;
     ensure (negb (py_eq (get row "reason") (JStr "runtime_workload_dead") && negb (dead_seen s)))
       RuntimeSampleError m2 ;;; Ok s) = Ok st' <->
    s = st' /\ (get row "reason" = JStr "runtime_nr_rejected_nonzero" -> rejected_seen st' = true)
    /\ (get row "reason" = JStr "runtime_workload_dead" -> dead_seen st' = true)).
  { intros s m1 m2. rewrite !bind_ok_unit, !Hguard, Ok_inj. naive_solver. }
  unfold alert_step, alert_state, readable_count, is_sample, rejectsb, deadb. cbv zeta. rewrite bind_ok.
  setoid_rewrite Hend. rewrite <- (py_eq_str (get row "event")).
  destruct (py_eq (get row "event") _); cbn [andb orb].
  - rewrite <- (positive_count_readable (get row "nr_rejected")). destruct (positive_count _) as [b|e]; cbn [bind]; split.
    + intros (s & [= <-] & <- & H). split; [by intros _; exists b|]. done.
    + intros (_ & -> & H). eexists. split; [done|]. done.
    + intros (s & Hs & _). discriminate Hs.
    + intros [Hx _]. destruct (Hx eq_refl) as [b Hb]. discriminate Hb.
  - split.
    + intros (s & [= <-] & <- & H). split; [done|]. split; [by destruct st | done].
    + intros (_ & -> & H). exists st. destruct st. done.
Qed.

Lemma seen_by_cons P row rows k : seen_by P (row :: rows) k <-> P row \/ exists k', k = S k' /\ seen_by P rows k'.
Proof.
  split.
  - intros ([|j] & x & Hj & Hx & HP); simpl in Hx; [injection Hx as <-; by left|].
    right. destruct k as [|k]; [lia|]. exists k. split; [done|]. exists j, x. split; [lia | done].
  - intros [HP|(k' & -> & j & x & Hj & Hx & HP)]; [by exists 0, row; split; [lia|]|].
    exists (S j), x. split; [lia | done].
Qed.

Lemma alert_run_ok label rows i st :
  (exists st', for_fold i rows st (alert_step label) = Ok st') <->
  Forall readable_count rows /\ forall k row, rows !! k = Some row ->
    (get row "reason" = JStr "runtime_nr_rejected_nonzero" -> rejected_seen st = true \/ seen_by rejects rows k)
    /\ (get row "reason" = JStr "runtime_workload_dead" -> dead_seen st = true \/ seen_by dead rows k).
Proof.
  revert i st. induction rows as [|row rows IH]; intros i st.
  - split; [|by eexists]. intros _. split; [constructor|]. intros k row. by rewrite lookup_nil.
  - rewrite for_fold_cons_ok, Forall_cons. setoid_rewrite seen_by_cons. split.
    + intros (s1 & (Hr & -> & H1 & H2)%alert_step_ok & [Hrs H]%IH). simpl in H1, H2, H.
      rewrite orb_true_iff, rejectsb_iff in H1. rewrite orb_true_iff, deadb_iff in H2. split; [done|].
      intros [|k] x; simpl; [intros [= <-]; split; intros Hx; [apply H1 in Hx | apply H2 in Hx]; tauto|].
      intros Hx. destruct (H k x Hx) as [Ha Hb]. rewrite orb_true_iff, rejectsb_iff in Ha.
      rewrite orb_true_iff, deadb_iff in Hb. split; intros Hn; [apply Ha in Hn | apply Hb in Hn]; naive_solver.
    + intros [[Hr Hrs] H]. exists (alert_state row st). rewrite alert_step_ok. simpl.
      rewrite !orb_true_iff, rejectsb_iff, deadb_iff. split.
      * destruct (H 0 row eq_refl) as [Ha Hb]. repeat split; try done; intros Hn; [apply Ha in Hn | apply Hb in Hn];
          destruct Hn as [?|[?|(? & [=] & _)]]; tauto.
      * apply IH. split; [done|]. intros k x Hx. simpl. rewrite !orb_true_iff, rejectsb_iff, deadb_iff.
        destruct (H (S k) x Hx) as [Ha Hb]. split; intros Hn; [apply Ha in Hn | apply Hb in Hn]; naive_solver.
Qed.

(** * Properties *)

(** C6: [validate_alert_order] accepts the rows of a journal exactly when every
    incident for a nonzero reject count comes at or after a runtime sample with a
    positive count, and every incident for a dead workload at or after a sample
    with a workload that is not alive (and every count can be read as an int). *)
Theorem validate_alert_order_iff rows label :
  validate_alert_order rows label = Ok tt <->
  Forall readable_count rows /\ forall k row, rows !! k = Some row ->
    (get row "reason" = JStr "runtime_nr_rejected_nonzero" -> seen_by rejects rows k)
    /\ (get row "reason" = JStr "runtime_workload_dead" -> seen_by dead rows k).
Proof.
  assert (H : validate_alert_order rows label = Ok tt <->
    exists st', for_fold 0 rows (Alerts false false) (alert_step label) = Ok st').
  { unfold validate_alert_order. rewrite bind_ok. naive_solver. }
  rewrite H, alert_run_ok. cbn [rejected_seen dead_seen]. naive_solver.
Qed.

(** C5: a file of runtime samples that [validate_file] accepts holds at least one
    sample; each line is an object with the guarantees of [sample_facts] (nothing
    private at any depth, no claim, a real cgroup digest, nonnegative counters, a
    valid policy ABI block), sequence numbers strictly increase and enable
    sequences never decrease. *)
Theorem validate_file_sound F p (H : validate_file F p = Ok tt) :
  exists text rows, read_text F p = Ok text /\ rows <> []
    /\ Forall2 (fun line d => loads line = Ok (JDict d)) (content_lines text) rows
    /\ Forall sample_facts rows /\ Forall phase_ok rows
    /\ StronglySorted Z.lt (omap sequence_of rows) /\ StronglySorted Z.le (omap enable_seq_of rows).
Proof.
  apply bind_ok in H as (rows & (text & Ht & Hne & Hl)%sample_jsonl_ok & H).
  exists text, rows. split; [done|]. split; [done|]. split; [done|].
  apply bind_ok_unit in H as [Hs Hseq]. rewrite for_enum_ok in Hs. split.
  - apply Forall_lookup. intros j row Hj. by eapply validate_sample_facts, Hs.
  - unfold validate_sched_ext_sequence in Hseq. apply bind_ok in Hseq as (st & Hst & _).
    destruct (proj1 (sequence_run_ok rows 0 seq_init)) as (H1 & _ & H2 & H3); [by exists st | done].
Qed.

Lemma validate_file_sound_witness :
  validate_file sample_files (Path "samples.jsonl") = Ok tt /\
  exists text rows, read_text sample_files (Path "samples.jsonl") = Ok text /\ rows <> []
    /\ Forall2 (fun line d => loads line = Ok (JDict d)) (content_lines text) rows
    /\ Forall sample_facts rows /\ Forall phase_ok rows
    /\ StronglySorted Z.lt (omap sequence_of rows) /\ StronglySorted Z.le (omap enable_seq_of rows).
Proof.
  assert (H : validate_file sample_files (Path "samples.jsonl") = Ok tt) by (vm_compute; reflexivity).
  split; [exact H|]. exact (validate_file_sound sample_files (Path "samples.jsonl") H).
Defined.
