(* ===== verification/BenchModel.v ===== *)
(** BenchModel: qa/benchmark_output_model.py and qa/benchmark_output_privacy.py,
    the constants of benchmark-output/v1 and its privacy, claim and path scan. *)
From S2P Require Import Prelude PyStr PyRe PyFloat PyJson PyFs.

Local Open Scope string_scope.

(** ** qa/benchmark_output_model.py *)
Inductive CommandFamily : Set :=
| cyclictest | fio | perf_bench_sched_messaging | rtla | perf_sched | stress_ng.

Definition family_name (f : CommandFamily) : string :=
  match f with
  | cyclictest => "cyclictest"
  | fio => "fio"
  | perf_bench_sched_messaging => "perf_bench_sched_messaging"
  | rtla => "rtla"
  | perf_sched => "perf_sched"
  | stress_ng => "stress_ng"
  end.

Definition SCHEMA : string := "zig-scheduler/benchmark-output/v1".
Definition SUPPORTED : list string := ["cyclictest"; "fio"; "perf_bench_sched_messaging"; "stress_ng"].
Definition UNSUPPORTED : list string := ["rtla"; "perf_sched"].
Definition REQUIRED : list string := [
  "schema"; "status"; "tool"; "command_family"; "record_only"; "output_path"; "output_sha256"; "vm_evidence";
  "parser_provenance"; "metrics"; "units"; "sample_count"; "run_count"; "host_mutation"; "release_eligible";
  "production_capacity_claim"; "hard_thresholds_enforced"; "threshold_status"; "privacy_sanitized"].
Definition PARSER_PROVENANCE_FIELDS : list string := ["parser"; "parser_version"; "parser_status"].
Definition PARSER_NAME : string := "qa/benchmark_output_parse.py".
Definition PARSER_VERSION : string := "benchmark-output/v1".
Definition FORBIDDEN_KEYS : list string := [
  "access_token"; "command_line"; "cmdline"; "argv"; "args"; "environment"; "env"; "secret"; "token"; "api_key";
  "password"; "threshold"; "thresholds"; "pass"; "fail"; "passed"; "failed"; "production_claim"; "production_ready"].
Definition FORBIDDEN_TEXT : list string :=
  ["--token"; "api_key="; "AWS_SECRET"; "BEGIN PRIVATE KEY"; "password="; "Bearer "; "/proc/"; "/sys/"].

(** [\bA[\s_-]+B\b], ignoring case. *)
Definition claim_pattern (a b : string) : regex := rseq [
  RWordB; rlit_ci a; rplus (RChar (fun c => is_space c || one_of "_-" c)); rlit_ci b; RWordB].
Definition FORBIDDEN_CLAIM_TEXT_PATTERNS : list regex := [
  claim_pattern "production" "ready";
  claim_pattern "production" "capacity";
  claim_pattern "release" "eligible";
  claim_pattern "threshold" "pass";
  claim_pattern "threshold" "fail"].
Definition SHA256_RE : regex := rseq [RBol; rrep 64 0 (RChar is_hex_lower); REol].

Definition fail {A} (m : string) : result A := raise BenchmarkOutputError m.

Definition family (value : string) : result CommandFamily :=
  if String.eqb value "cyclictest" then Ok cyclictest
  else if String.eqb value "fio" then Ok fio
  else if String.eqb value "perf_bench_sched_messaging" then Ok perf_bench_sched_messaging
  else if String.eqb value "rtla" then Ok rtla
  else if String.eqb value "perf_sched" then Ok perf_sched
  else if String.eqb value "stress_ng" then Ok stress_ng
  else fail ("unsupported command family: " ++ value).

Definition require (condition : bool) (message : string) : result unit :=
  ensure condition BenchmarkOutputError message.

(** ** qa/benchmark_output_privacy.py *)
Definition CAMEL_BOUNDARY_RE : regex :=
  rseq [RBehind (fun c => is_lower c || is_digit c); RAhead (RChar is_upper)].
Definition KEY_PART_RE : regex := rplus (RChar (fun c => is_upper c || is_lower c || is_digit c)).
Definition FORBIDDEN_KEY_TOKENS : list string :=
  ["argv"; "cmdline"; "env"; "environment"; "password"; "secret"; "threshold"; "thresholds"; "token"].
Definition FORBIDDEN_KEY_SEQUENCES : list (list string) := [
  ["access"; "token"]; ["api"; "key"]; ["command"; "line"]; ["raw"; "debug"]; ["production"; "ready"];
  ["production"; "capacity"]; ["production"; "claim"]; ["release"; "eligible"]; ["release"; "ready"];
  ["hard"; "threshold"]; ["threshold"; "pass"]; ["threshold"; "fail"]].
Definition FORBIDDEN_COMPACT_KEY_CONCEPTS : list string := [
  "accesstoken"; "apikey"; "commandline"; "rawdebug"; "productionready"; "productioncapacity";
  "productionclaim"; "releaseeligible"; "releaseready"; "hardthreshold"; "thresholdpass"; "thresholdfail"].
Definition ROOT_RECORD_CONTROL_KEYS : list string :=
  ["hard_thresholds_enforced"; "production_capacity_claim"; "release_eligible"; "threshold_status"].

Definition normalized_key_tokens (key : string) : list string :=
  map lower (re_findall KEY_PART_RE (re_sub CAMEL_BOUNDARY_RE "_" key)).

Definition compact_key (key : string) : string :=
  join "" (map lower (re_findall KEY_PART_RE key)).

Fixpoint contains_sequence (tokens sequence : list string) : bool :=
  is_prefix sequence tokens
  || match tokens with [] => false | _ :: tokens => contains_sequence tokens sequence end.

Definition forbidden_key (key context : string) : bool :=
  if String.eqb context "record" && mem key ROOT_RECORD_CONTROL_KEYS then false
  else
    let lowered := replace_char "-" "_" (lower key) in
    let tokens := normalized_key_tokens key in
    let compact := compact_key key in
    mem lowered FORBIDDEN_KEYS
    || existsb (fun token => mem token FORBIDDEN_KEY_TOKENS) tokens
    || existsb (fun concept => contains concept compact) FORBIDDEN_COMPACT_KEY_CONCEPTS
    || existsb (contains_sequence tokens) FORBIDDEN_KEY_SEQUENCES.

(** [math.isfinite]: an [int] is converted to a float first. *)
Definition isfinite_num (v : json) : result bool :=
  match v with
  | JFloat f => Ok (isfinite f)
  | _ => match as_int v with
         | Some n => let* _ := float_of_int n in Ok true
         | None => raise TypeError "must be real number"
         end
  end.

Fixpoint reject_private_leaks (value : json) (context : string) {struct value} : result unit :=
  match value with
  | JNull | JBool _ => Ok tt
  | JInt _ | JFloat _ =>
      let* finite := isfinite_num value in
      ensure finite BenchmarkOutputError ("non-finite numeric value at " ++ context)
  | JDict d =>
      (fix items (d : jobject) : result unit :=
         match d with
         | [] => Ok tt
         | (key, child) :: d =>
             ensure (negb (forbidden_key key context)) BenchmarkOutputError
               ("forbidden private/claim key at " ++ context ++ "." ++ key) ;;;
             reject_private_leaks child (context ++ "." ++ key) ;;;
             items d
         end) d
  | JList l =>
      (fix elems (index : nat) (l : list json) : result unit :=
         match l with
         | [] => Ok tt
         | child :: l =>
             reject_private_leaks child (context ++ "[" ++ str_nat index ++ "]") ;;; elems (S index) l
         end) 0 l
  | JStr s =>
      for_each FORBIDDEN_TEXT (fun needle =>
        ensure (negb (contains (lower needle) (lower s))) BenchmarkOutputError
          ("forbidden private/claim text at " ++ context)) ;;;
      for_each FORBIDDEN_CLAIM_TEXT_PATTERNS (fun pattern =>
        ensure (negb (re_found pattern s)) BenchmarkOutputError
          ("forbidden private/claim text at " ++ context))
  end.

Definition safe_relative (value : json) (field : string) : result string :=
  match value with
  | JStr s =>
      if String.eqb s "" then fail (field ++ " must be non-empty relative path")
      else
        let p := Path s in
        require (negb (is_absolute p)) (field ++ " must be relative") ;;;
        require (negb (mem ".." (parts p))) (field ++ " must not traverse") ;;;
        reject_private_leaks value field ;;;
        Ok s
  | _ => fail (field ++ " must be non-empty relative path")
  end.
