(* ===== verification/BenchValidate.v ===== *)
(** BenchValidate: qa/benchmark_output_io.py, [tool_for] of
    qa/benchmark_output_parse.py and [validate_record] of
    qa/benchmark_output_validate.py. *)
From S2P Require Import Prelude PyStr PyRe PyFloat PyJson Sha256 PyFs.
From S2P Require Import BenchModel.

Local Open Scope string_scope.

(** ** qa/benchmark_output_io.py *)
Definition reject_constant (value : string) : result json :=
  raise BenchmarkOutputError ("invalid JSON constant: " ++ value).

Section Io.
Variable F : fs.

Definition read_text (p : path) : result string :=
  let* data := reraise FileNotFoundError BenchmarkOutputError
    (fun _ => "missing benchmark output: " ++ path_str p) (PyFs.read_text F p) in
  reject_private_leaks (JStr data) (path_str p) ;;;
  Ok data.

(** The [try] block of the two loaders, with their messages. *)
Definition load_raw (missing invalid : string) (p : path) : result json :=
  catch (bind (PyFs.read_text F p) (loads_with reject_constant)) (fun exc =>
    if decide (exn_cls exc = FileNotFoundError) then Some (fail (missing ++ path_str p))
    else if decide (exn_cls exc = JSONDecodeError)
    then Some (fail (invalid ++ path_str p ++ ": " ++ exn_str exc))
    else None).

Definition load_json (p : path) : result jobject :=
  let* raw := load_raw "missing benchmark output: " "invalid JSON: " p in
  match raw with
  | JDict d =>
      let context := if py_eq (get d "schema") (JStr SCHEMA) then "record" else path_str p in
      reject_private_leaks raw context ;;;
      Ok d
  | _ => fail ("JSON root must be object: " ++ path_str p)
  end.

Definition load_schema (p : path) : result jobject :=
  let* raw := load_raw "missing schema: " "invalid schema JSON: " p in
  match raw with
  | JDict d => Ok d
  | _ => fail ("schema root must be object: " ++ path_str p)
  end.

Definition sha256_file (p : path) : result string := sha256_of F p.
End Io.

(** ** qa/benchmark_output_parse.py *)
Definition tool_for (command_family : CommandFamily) : string :=
  match command_family with
  | cyclictest => "cyclictest"
  | fio => "fio"
  | perf_bench_sched_messaging | perf_sched => "perf"
  | rtla => "rtla"
  | stress_ng => "stress-ng"
  end.

(** ** qa/benchmark_output_validate.py *)
Definition fields_exactly (d : jobject) (allowed : list string) (unexpected missing : string) : result unit :=
  let extra := sorted (set_diff (keys d) allowed) in
  let absent := sorted (set_diff allowed (keys d)) in
  require (match extra with [] => true | _ => false end) (unexpected ++ join ", " extra) ;;;
  require (match absent with [] => true | _ => false end) (missing ++ join ", " absent).

(** The number tests of a metric value, left to right. *)
Definition valid_metric (v : json) : result bool :=
  match v with
  | JInt n => let* finite := isfinite_num v in Ok (finite && (0 <=? n)%Z)
  | JFloat f => let* finite := isfinite_num v in Ok (finite && float_nonneg f)
  | _ => Ok false
  end.

Definition validate_metrics (metrics units : jobject) : result unit :=
  for_each metrics (fun kv =>
    let* valid := valid_metric (snd kv) in
    require valid ("invalid metric: " ++ fst kv) ;;;
    require (match get units (fst kv) with JStr u => negb (String.eqb u "") | _ => false end)
      ("missing metric unit: " ++ fst kv)).

Definition validate_parser (parser_value : json) (status : string) : result unit :=
  require (is_dict parser_value) "parser_provenance must be an object" ;;;
  let parser := match parser_value with JDict d => d | _ => [] end in
  fields_exactly parser PARSER_PROVENANCE_FIELDS
    "parser_provenance unexpected fields: " "parser_provenance missing fields: " ;;;
  require (py_eq (get parser "parser") (JStr PARSER_NAME)) "parser_provenance.parser unsupported" ;;;
  require (py_eq (get parser "parser_version") (JStr PARSER_VERSION))
    "parser_provenance.parser_version unsupported" ;;;
  let expected := if String.eqb status "RECORDED" then "PARSED" else "UNSUPPORTED_DEFERRED" in
  require (py_eq (get parser "parser_status") (JStr expected))
    "parser_provenance.parser_status must match record status".

Definition is_empty {A} (l : list A) : bool := match l with [] => true | _ => false end.

Definition validate_record (record : jobject) : result unit :=
  reject_private_leaks (JDict record) "record" ;;;
  fields_exactly record REQUIRED "unexpected fields: " "missing fields: " ;;;
  let* schema := getitem record "schema" in
  require (py_eq schema (JStr SCHEMA)) "schema mismatch" ;;;
  let* status_value := getitem record "status" in
  let* known := in_set status_value ["RECORDED"; "UNSUPPORTED_DEFERRED"] in
  require known "bad status" ;;;
  let status := py_str status_value in
  let* family_value := getitem record "command_family" in
  let* command_family := family (py_str family_value) in
  let* record_only := getitem record "record_only" in
  require (is_true record_only) "record_only must be true" ;;;
  let* tool := getitem record "tool" in
  require (py_eq tool (JStr (tool_for command_family))) "tool/family mismatch" ;;;
  let* output_path := getitem record "output_path" in
  let* _ := safe_relative output_path "output_path" in
  let* vm_evidence := getitem record "vm_evidence" in
  let* _ := safe_relative vm_evidence "vm_evidence" in
  let* sha := getitem record "output_sha256" in
  require (match sha with JStr s => re_match SHA256_RE s | _ => false end)
    "output_sha256 must be lowercase sha256" ;;;
  let* host_mutation := getitem record "host_mutation" in
  require (is_false host_mutation) "host_mutation must be false" ;;;
  let* release_eligible := getitem record "release_eligible" in
  require (is_false release_eligible) "release_eligible must be false" ;;;
  let* capacity := getitem record "production_capacity_claim" in
  require (is_false capacity) "production capacity claims are forbidden" ;;;
  let* hard := getitem record "hard_thresholds_enforced" in
  require (is_false hard) "hard thresholds are forbidden" ;;;
  let* threshold_status := getitem record "threshold_status" in
  require (py_eq threshold_status (JStr "record_only")) "threshold status must be record_only" ;;;
  let* sanitized := getitem record "privacy_sanitized" in
  require (is_true sanitized) "privacy_sanitized must be true" ;;;
  let* parser_value := getitem record "parser_provenance" in
  validate_parser parser_value status ;;;
  let* metrics_value := getitem record "metrics" in
  let* units_value := getitem record "units" in
  require (is_dict metrics_value && is_dict units_value) "metrics and units must be objects" ;;;
  let metrics := match metrics_value with JDict d => d | _ => [] end in
  let units := match units_value with JDict d => d | _ => [] end in
  validate_metrics metrics units ;;;
  let* samples_value := getitem record "sample_count" in
  let* runs_value := getitem record "run_count" in
  require (is_int samples_value && is_int runs_value) "counts must be integers" ;;;
  let samples := match as_int samples_value with Some n => n | None => 0%Z end in
  let runs := match as_int runs_value with Some n => n | None => 0%Z end in
  if String.eqb status "RECORDED" then
    require (mem (py_str family_value) SUPPORTED) "recorded family must be supported" ;;;
    require (negb (is_empty metrics)) "recorded artifacts require metrics" ;;;
    require ((0 <? samples) && (0 <? runs))%Z "recorded counts must be positive"
  else
    require (mem (py_str family_value) UNSUPPORTED) "deferred family must be unsupported" ;;;
    require (is_empty metrics && is_empty units) "deferred artifacts must not include metrics" ;;;
    require ((samples =? 0) && (runs =? 0))%Z "deferred counts must be zero".

(** * Specification of a record *)
Definition metric_ok (units : jobject) (kv : string * json) : Prop :=
  valid_metric (snd kv) = Ok true /\ exists u, get units (fst kv) = JStr u /\ u <> "".

Definition parser_ok (status : string) (d : jobject) : Prop :=
  (forall k, In k (keys d) <-> In k PARSER_PROVENANCE_FIELDS)
  /\ get d "parser" = JStr PARSER_NAME /\ get d "parser_version" = JStr PARSER_VERSION
  /\ get d "parser_status" = JStr (if String.eqb status "RECORDED" then "PARSED" else "UNSUPPORTED_DEFERRED").

(** The numbers of a record: a recorded one has metrics and positive counts and
    is of a supported family, a deferred one has none of them. *)
Definition contents_ok (status family_text : string) (metrics units : jobject) (samples runs : Z) : Prop :=
  (status = "RECORDED" /\ In family_text SUPPORTED /\ metrics <> [] /\ (0 < samples)%Z /\ (0 < runs)%Z)
  \/ (status = "UNSUPPORTED_DEFERRED" /\ In family_text UNSUPPORTED /\ metrics = [] /\ units = []
      /\ samples = 0%Z /\ runs = 0%Z).

Record bench_record_ok (d : jobject) : Prop := {
  br_private : reject_private_leaks (JDict d) "record" = Ok tt;
  br_fields : forall k, In k (keys d) <-> In k REQUIRED;
  br_schema : get d "schema" = JStr SCHEMA;
  br_tool : exists f, family (py_str (get d "command_family")) = Ok f /\ get d "tool" = JStr (tool_for f);
  br_flags : get d "record_only" = JBool true /\ get d "privacy_sanitized" = JBool true;
  br_no_claims : forall k, In k ["host_mutation"; "release_eligible"; "production_capacity_claim";
                                 "hard_thresholds_enforced"] -> get d k = JBool false;
  br_threshold : get d "threshold_status" = JStr "record_only";
  br_paths : forall k, In k ["output_path"; "vm_evidence"] -> exists s, safe_relative (get d k) k = Ok s;
  br_sha : exists s, get d "output_sha256" = JStr s /\ re_match SHA256_RE s = true;
  br_contents : exists status parser metrics units samples runs,
    get d "status" = JStr status /\ get d "parser_provenance" = JDict parser /\ parser_ok status parser
    /\ get d "metrics" = JDict metrics /\ get d "units" = JDict units /\ Forall (metric_ok units) metrics
    /\ as_int (get d "sample_count") = Some samples /\ as_int (get d "run_count") = Some runs
    /\ contents_ok status (py_str (get d "command_family")) metrics units samples runs;
}.

(** * Lemmas *)
Lemma bench_require_ok c m u : require c m = Ok u <-> c = true.
Proof. apply ensure_ok. Qed.

Lemma fields_exactly_ok d allowed m1 m2 :
  fields_exactly d allowed m1 m2 = Ok tt <-> forall k, In k (keys d) <-> In k allowed.
Proof.
  unfold fields_exactly. cbv zeta.
  assert (H : forall l : list string, (match l with [] => true | _ => false end) = true <-> l = []) by (by intros []).
  rewrite bind_ok_unit, !bench_require_ok, !H, !no_extra. split; [intros [H1 H2] k; split; auto | intros Hk; split; intros k; apply Hk].
Qed.

Lemma validate_metrics_ok metrics units : validate_metrics metrics units = Ok tt <-> Forall (metric_ok units) metrics.
Proof.
  unfold validate_metrics, metric_ok. rewrite for_each_ok, !Forall_forall.
  assert (H : forall kv, (let* valid := valid_metric (snd kv) in
      require valid ("invalid metric: " ++ fst kv) ;;;
      require (match get units (fst kv) with JStr u => negb (String.eqb u "") | _ => false end)
        ("missing metric unit: " ++ fst kv)) = Ok tt <->
      valid_metric (snd kv) = Ok true /\ exists u, get units (fst kv) = JStr u /\ u <> "").
  { intros kv. destruct (valid_metric (snd kv)) as [valid|e]; cbn [bind]; [|by split; [|intros [[=] _]]].
    rewrite bind_ok_unit, !bench_require_ok, Ok_inj. f_equiv.
    destruct (get units (fst kv)) as [| | | |u| |]; try (split; [discriminate | by intros (? & [=] & _)]).
    rewrite negb_true_iff, String.eqb_neq. split; [intros Hu; by exists u | by intros (? & [= <-] & Hu)]. }
  by setoid_rewrite H.
Qed.

Lemma validate_parser_ok v status : validate_parser v status = Ok tt <-> exists d, v = JDict d /\ parser_ok status d.
Proof.
  unfold validate_parser, parser_ok. destruct v; try (split; [discriminate | by intros (? & [=] & _)]). cbv zeta.
  rewrite !bind_ok_unit, !bench_require_ok, fields_exactly_ok, !py_eq_str.
  split; [intros (_ & H); by exists d | by intros (? & [= <-] & H)].
Qed.

Lemma contents_step_ok status family_text metrics units samples runs :
  In status ["RECORDED"; "UNSUPPORTED_DEFERRED"] ->
  (if String.eqb status "RECORDED" then
     require (mem family_text SUPPORTED) "recorded family must be supported" ;;;
     require (negb (is_empty metrics)) "recorded artifacts require metrics" ;;;
     require ((0 <? samples) && (0 <? runs))%Z "recorded counts must be positive"
   else
     require (mem family_text UNSUPPORTED) "deferred family must be unsupported" ;;;
     require (is_empty metrics && is_empty units) "deferred artifacts must not include metrics" ;;;
     require ((samples =? 0) && (runs =? 0))%Z "deferred counts must be zero") = Ok tt <->
  contents_ok status family_text metrics units samples runs.
Proof.
  assert (He : forall d : jobject, is_empty d = true <-> d = []) by (by intros []).
  unfold contents_ok. intros [<-|[<-|[]]]; cbn [String.eqb Ascii.eqb Bool.eqb].
  - rewrite !bind_ok_unit, !bench_require_ok, negb_true_iff, <- not_true_iff_false, He, mem_In, andb_true_iff, !Z.ltb_lt.
    split; [intros (? & ? & ? & ?); left; tauto | intros [?|[[=] _]]; tauto].
  - rewrite !bind_ok_unit, !bench_require_ok, mem_In, !andb_true_iff, !He, !Z.eqb_eq.
    split; [intros (? & [? ?] & ? & ?); right; tauto | intros [[[=] _]|?]; tauto].
Qed.

Lemma required_item d k : (forall k, In k (keys d) <-> In k REQUIRED) -> mem k REQUIRED = true -> getitem d k = Ok (get d k).
Proof.
  intros H Hk%mem_In%H%has_key_iff. unfold has_key in Hk. unfold getitem, get. by destruct (jlookup k d).
Qed.

Lemma status_in v l : (exists b, in_set v l = Ok b /\ b = true) <-> exists s, v = JStr s /\ In s l.
Proof.
  split.
  - intros (b & Hb & ->). by apply (in_set_ok v l true Hb).
  - intros (s & -> & Hs). exists true. split; [|done]. simpl. f_equal. by apply mem_In.
Qed.

Lemma sha_text v : (match v with JStr s => re_match SHA256_RE s | _ => false end) = true <->
  exists s, v = JStr s /\ re_match SHA256_RE s = true.
Proof.
  destruct v as [| | | |s| |]; try (split; [discriminate | by intros (? & [=] & _)]).
  split; [by exists s | by intros (? & [= <-] & H)].
Qed.

Lemma bench_record_accepted d : validate_record d = Ok tt -> bench_record_ok d.
Proof.
  unfold validate_record. intros H. apply bind_ok_unit in H as [Hp H].
  apply bind_ok_unit in H as [Hk H]. rewrite fields_exactly_ok in Hk.
  rewrite !(required_item d) in H by done. cbn [bind] in H. cbv zeta in H.
  apply bind_ok_unit in H as [Hschema%bench_require_ok%py_eq_str H].
  apply bind_ok in H as (b & Hb & H). apply bind_ok_unit in H as [->%bench_require_ok H].
  destruct (proj1 (status_in _ _) (ex_intro _ true (conj Hb eq_refl))) as (status & Hst & Hin).
  apply bind_ok in H as (f & Hf & H). apply bind_ok_unit in H as [Hro%bench_require_ok%is_true_iff H].
  apply bind_ok_unit in H as [Htool%bench_require_ok%py_eq_str H].
  apply bind_ok in H as (op & Hop & H). apply bind_ok in H as (ve & Hve & H).
  apply bind_ok_unit in H as [Hsha%bench_require_ok%sha_text H].
  apply bind_ok_unit in H as [H1%bench_require_ok%is_false_iff H].
  apply bind_ok_unit in H as [H2%bench_require_ok%is_false_iff H].
  apply bind_ok_unit in H as [H3%bench_require_ok%is_false_iff H].
  apply bind_ok_unit in H as [H4%bench_require_ok%is_false_iff H].
  apply bind_ok_unit in H as [Hth%bench_require_ok%py_eq_str H].
  apply bind_ok_unit in H as [Hps%bench_require_ok%is_true_iff H].
  rewrite Hst in H. cbn [py_str] in H. apply bind_ok_unit in H as [(parser & Hpv & Hpo)%validate_parser_ok H].
  apply bind_ok_unit in H as [[Hmd Hud]%bench_require_ok%andb_true_iff H].
  destruct (get d "metrics") as [| | | | | |metrics] eqn:Em; try discriminate.
  destruct (get d "units") as [| | | | | |units] eqn:Eu; try discriminate.
  apply bind_ok_unit in H as [Hm%validate_metrics_ok H].
  apply bind_ok_unit in H as [[Hs Hr]%bench_require_ok%andb_true_iff H].
  apply is_int_iff in Hs as [samples Hs], Hr as [runs Hr]. rewrite Hs, Hr in H.
  apply contents_step_ok in H; [|done].
  split; try done; [by exists f | |by intros k [<-|[<-|[]]]; eexists |].
  - by intros k [<-|[<-|[<-|[<-|[]]]]].
  - exists status, parser, metrics, units, samples, runs. done.
Qed.

Lemma bench_record_complete d : bench_record_ok d -> validate_record d = Ok tt.
Proof.
  intros [Hp Hk Hschema (f & Hf & Htool) [Hro Hps] Hno Hth Hpaths Hsha
    (status & parser & metrics & units & samples & runs & Hst & Hpv & Hpo & Em & Eu & Hm & Hs & Hr & Hc)].
  assert (Hin : In status ["RECORDED"; "UNSUPPORTED_DEFERRED"])
    by (destruct Hc as [[-> _]|[-> _]]; [by left | by right; left]).
  unfold validate_record. rewrite !(required_item d) by done. cbn [bind]. cbv zeta. rewrite Em, Eu, Hs, Hr, Hst.
  cbn [py_str is_dict andb].
  apply bind_ok_unit; split; [done|]. apply bind_ok_unit; split; [by apply fields_exactly_ok|].
  apply bind_ok_unit; split; [by apply bench_require_ok, py_eq_str|].
  apply bind_ok. exists true. split; [unfold in_set; f_equal; by apply mem_In|]. apply bind_ok_unit; split; [done|].
  rewrite Hf. cbn [bind]. apply bind_ok_unit; split; [by apply bench_require_ok, is_true_iff|].
  apply bind_ok_unit; split; [by apply bench_require_ok, py_eq_str|].
  destruct (Hpaths "output_path") as [op Hop]; [by left|]. destruct (Hpaths "vm_evidence") as [ve Hve]; [by right; left|].
  rewrite Hop, Hve. cbn [bind]. apply bind_ok_unit; split; [by apply bench_require_ok, sha_text|].
  rewrite !Hno by (simpl; tauto).
  do 4 (apply bind_ok_unit; split; [done|]).
  apply bind_ok_unit; split; [by apply bench_require_ok, py_eq_str|].
  apply bind_ok_unit; split; [by apply bench_require_ok, is_true_iff|].
  apply bind_ok_unit; split; [apply validate_parser_ok; by exists parser|].
  apply bind_ok_unit; split; [done|]. apply bind_ok_unit; split; [by apply validate_metrics_ok|].
  apply bind_ok_unit; split; [apply bench_require_ok, andb_true_iff; split; apply is_int_iff; by eexists|].
  by apply contents_step_ok.
Qed.

(** * Properties *)

(** [validate_record] accepts a benchmark record exactly when it has the exact
    field set and is private-safe and record-only, claims nothing, names the tool
    of its command family, and its status agrees with its contents: a recorded one
    is of a supported family with valid metrics, each with a unit, and positive
    counts, a deferred one of an unsupported family with no metrics and zero
    counts; and the parser status matches. *)
Theorem validate_record_iff d : validate_record d = Ok tt <-> bench_record_ok d.
Proof. split; [apply bench_record_accepted | apply bench_record_complete]. Qed.
