(* ===== verification/BenchParse.v ===== *)
(** BenchParse: qa/benchmark_output_parse.py, the parsers of the raw output of
    the benchmark tools, and qa/benchmark_output_check.py, which builds a record
    from one output, validates it and writes it. *)
From S2P Require Import Prelude PyStr PyRe PyFloat PyJson Sha256 PyFs PyMain BenchModel BenchValidate.
From Stdlib Require Import SpecFloat.

Local Open Scope string_scope.

(** ** Patterns of qa/benchmark_output_model.py *)
Definition digits : regex := rplus (RChar is_digit).
(** [\d+(?:\.\d+)?] *)
Definition decimal : regex := RSeq digits (ropt (RSeq (rchar ".") digits)).
Definition spaces : regex := rstar (RChar is_space).
Definition gap : regex := rplus (RChar is_space).
Definition CYCLIC_LINE_RE : regex := rseq [
  rlit "C:"; spaces; RCap "cycles" digits; rlazy rany; rlit "Min:"; spaces; RCap "min" decimal;
  rlazy rany; rlit "Avg:"; spaces; RCap "avg" decimal; rlazy rany; rlit "Max:"; spaces; RCap "max" decimal].
Definition PERF_TIME_RE : regex := rseq [rlit "Total time:"; spaces; RCap "seconds" decimal; spaces; rlit "[sec]"].
Definition PERF_GROUPS_RE : regex := rseq [rlit "#"; spaces; RCap "groups" digits; gap; rlit "groups"].
Definition PERF_PROCS_RE : regex := rseq [rlit "=="; spaces; RCap "processes" digits; gap; rlit "processes"].
Definition STRESS_NG_METRIC_RE : regex := rseq [
  RWordB; RCap "stressor" (rplus (RChar (fun c => is_digit c || is_upper c || is_lower c || one_of "_-" c))); gap;
  RCap "bogo_ops" decimal; gap; RCap "real_time_seconds" decimal; gap; RCap "usr_time_seconds" decimal; gap;
  RCap "sys_time_seconds" decimal; gap; RCap "bogo_ops_per_second" decimal; gap;
  RCap "bogo_ops_per_second_usr_sys_time" decimal; spaces].

(** ** Floating point: [+], [/], [max], [int], [float] of such a text, [sum] *)
Definition fadd : pyfloat -> pyfloat -> pyfloat := SFadd prec emax.
Definition fsub : pyfloat -> pyfloat -> pyfloat := SFsub prec emax.
Definition fgt (f g : pyfloat) : bool := match SFcompare f g with Some Gt => true | _ => false end.
Definition fmax (f g : pyfloat) : pyfloat := if fgt g f then g else f.
(** [f / n] for a count. *)
Definition over (f : pyfloat) (n : nat) : pyfloat := SFdiv prec emax f (round_Z (Z.of_nat n)).
Definition int_of_float (f : pyfloat) : result Z :=
  match f with
  | S754_nan => raise ValueError "cannot convert float NaN to integer"
  | S754_infinity _ => raise OverflowError "cannot convert float infinity to integer"
  | S754_zero _ => Ok 0%Z
  | S754_finite s m e =>
      let n := if (0 <=? e)%Z then (Z.pos m * 2 ^ e)%Z else (Z.pos m / 2 ^ (- e))%Z in
      Ok (if s then (- n)%Z else n)
  end.
Definition float_of_text (t : string) : pyfloat :=
  let (i, f) := match split_once "." t with Some (i, f) => (i, f) | None => (t, "") end in
  float_of_decimal false (dec_value 0 (i ++ f)) (- Z.of_nat (len f)).

(** [sum] adds from left to right before CPython 3.12, and with Neumaier's
    compensation from 3.12 on. *)
Definition sum_plain (fs : list pyfloat) : pyfloat := fold_left fadd fs fzero.
Definition compensated_step (acc : pyfloat * pyfloat) (x : pyfloat) : pyfloat * pyfloat :=
  let (total, c) := acc in
  let t := fadd total x in
  (t, if fgt (SFabs x) (SFabs total) then fadd c (fadd (fsub x t) total) else fadd c (fadd (fsub total t) x)).
Definition sum_compensated (fs : list pyfloat) : pyfloat :=
  let (total, c) := fold_left compensated_step fs (fzero, fzero) in
  if isfinite c && negb (float_eqb c fzero) then fadd total c else total.
Definition py_sum (compensated : bool) (fs : list pyfloat) : pyfloat :=
  if compensated then sum_compensated fs else sum_plain fs.

(** What a parser answers. *)
Record parsed : Type := Parsed { metrics : jobject; units : jobject; samples : Z; runs : Z }.

Definition num (value : json) (context : string) : result pyfloat :=
  match value with
  | JInt n =>
      let* f := float_of_int n in
      if (0 <=? n)%Z then Ok f else fail (context ++ " must be nonnegative number")
  | JFloat f => if isfinite f && float_nonneg f then Ok f else fail (context ++ " must be nonnegative number")
  | _ => fail (context ++ " must be nonnegative number")
  end.

(** ** cyclictest *)
Definition cyclic_metrics (count : nat) (cycles mins avgs maxes : pyfloat) : jobject := [
  ("threads", JInt (Z.of_nat count)); ("cycles", JFloat cycles); ("latency_min_us_avg", JFloat (over mins count));
  ("latency_avg_us_avg", JFloat (over avgs count)); ("latency_max_us", JFloat maxes)].
Definition cyclic_units : jobject := [
  ("threads", JStr "count"); ("cycles", JStr "count"); ("latency_min_us_avg", JStr "us");
  ("latency_avg_us_avg", JStr "us"); ("latency_max_us", JStr "us")].

(** The accumulators of the loop over the threads. *)
Record cyclic : Type := Cyclic { cycles : pyfloat; mins : pyfloat; avgs : pyfloat; maxes : pyfloat }.

Definition parse_cyclictest_json (data : jobject) : result parsed :=
  match get data "thread" with
  | JDict ((_ :: _) as threads) =>
      let* s := for_fold 0 threads (Cyclic fzero fzero fzero fzero) (fun _ kv s =>
        let (label, row) := kv in
        match row with
        | JDict row =>
            let* c := num (get row "cycles") ("thread[" ++ label ++ "].cycles") in
            let* mn := num (get row "min") ("thread[" ++ label ++ "].min") in
            let* av := num (get row "avg") ("thread[" ++ label ++ "].avg") in
            let* mx := num (get row "max") ("thread[" ++ label ++ "].max") in
            Ok (Cyclic (fadd (cycles s) c) (fadd (mins s) mn) (fadd (avgs s) av) (fmax (maxes s) mx))
        | _ => fail ("cyclictest thread " ++ label ++ " must be object")
        end) in
      let count := List.length threads in
      let* sample_count := int_of_float (cycles s) in
      Ok (Parsed (cyclic_metrics count (cycles s) (mins s) (avgs s) (maxes s)) cyclic_units sample_count (Z.of_nat count))
  | _ => fail "cyclictest JSON missing thread metrics"
  end.

(** [float(row.group(name)) for row in rows] *)
Definition column (name : string) (rows : list (rstate * rstate)) : list pyfloat :=
  map (fun row => float_of_text (group name row)) rows.
Definition matching_lines (r : regex) (text : string) : list (rstate * rstate) := omap (re_search r) (splitlines text).
(** [max] of the items, which are some. *)
Definition maximum (fs : list pyfloat) : pyfloat := match fs with [] => fzero | f :: fs => fold_left fmax fs f end.

Definition parse_cyclictest_text (compensated : bool) (text : string) : result parsed :=
  match matching_lines CYCLIC_LINE_RE text with
  | [] => fail "cyclictest text missing latency rows"
  | rows =>
      let total := py_sum compensated (column "cycles" rows) in
      let count := List.length rows in
      let* sample_count := int_of_float total in
      Ok (Parsed (cyclic_metrics count total (py_sum compensated (column "min" rows)) (py_sum compensated (column "avg" rows))
                    (maximum (column "max" rows)))
            cyclic_units sample_count (Z.of_nat count))
  end.

(** ** fio *)
Record fio_sums : Type := FioSums { iops : pyfloat; bw : pyfloat; lat : pyfloat }.

Definition fio_section (op : string) (jobs : list json) : result fio_sums :=
  for_fold 0 jobs (FioSums fzero fzero fzero) (fun index job s =>
    match job with
    | JDict job =>
        let context := "job[" ++ str_nat index ++ "]." ++ op in
        match get job op with
        | JDict section_value =>
            let* i := num (get section_value "iops") (context ++ ".iops") in
            let* b := num (get section_value "bw_bytes") (context ++ ".bw_bytes") in
            let* l := match get section_value "lat_ns" with
                      | JDict lat_ns => let* m := num (get lat_ns "mean") (context ++ ".lat_ns.mean") in Ok (fadd (lat s) m)
                      | _ => Ok (lat s)
                      end in
            Ok (FioSums (fadd (iops s) i) (fadd (bw s) b) l)
        | _ => fail ("fio job[" ++ str_nat index ++ "]." ++ op ++ " missing")
        end
    | _ => fail ("fio job[" ++ str_nat index ++ "] missing")
    end).

Definition fio_metrics (op : string) (s : fio_sums) (count : nat) : jobject := [
  (op ++ "_iops", JFloat (iops s)); (op ++ "_bw_bytes", JFloat (bw s)); (op ++ "_lat_ns_mean_avg", JFloat (over (lat s) count))].
Definition fio_units (op : string) : jobject := [
  (op ++ "_iops", JStr "iops"); (op ++ "_bw_bytes", JStr "bytes_per_second"); (op ++ "_lat_ns_mean_avg", JStr "ns")].

Definition parse_fio (data : jobject) : result parsed :=
  match get data "jobs" with
  | JList ((_ :: _) as jobs) =>
      let count := List.length jobs in
      let* r := fio_section "read" jobs in
      let* w := fio_section "write" jobs in
      Ok (Parsed (("jobs", JInt (Z.of_nat count)) :: fio_metrics "read" r count ++ fio_metrics "write" w count)
            (("jobs", JStr "count") :: fio_units "read" ++ fio_units "write") (Z.of_nat count) (Z.of_nat count))%list
  | _ => fail "fio JSON missing jobs"
  end.

(** ** perf bench sched messaging *)
Definition perf_count (r : regex) (name text : string) : jobject * jobject :=
  match re_search r text with
  | Some m => ([(name, JFloat (float_of_text (group name m)))], [(name, JStr "count")])
  | None => ([], [])
  end.
Definition parse_perf_messaging (text : string) : result parsed :=
  match re_search PERF_TIME_RE text with
  | None => fail "perf bench sched messaging output missing total time"
  | Some found =>
      let (groups, groups_units) := perf_count PERF_GROUPS_RE "groups" text in
      let (processes, processes_units) := perf_count PERF_PROCS_RE "processes" text in
      Ok (Parsed (("total_time_seconds", JFloat (float_of_text (group "seconds" found))) :: groups ++ processes)
            (("total_time_seconds", JStr "seconds") :: groups_units ++ processes_units) 1 1)%list
  end.

(** ** stress-ng *)
Definition parse_stress_ng (text : string) : result parsed :=
  match matching_lines STRESS_NG_METRIC_RE text with
  | [] => fail "stress-ng metrics output missing stressor rows"
  | rows =>
      let total name := JFloat (sum_plain (column name rows)) in
      let count := Z.of_nat (List.length rows) in
      Ok (Parsed [("stressors", JInt count); ("bogo_ops", total "bogo_ops"); ("real_time_seconds", total "real_time_seconds");
                  ("usr_time_seconds", total "usr_time_seconds"); ("sys_time_seconds", total "sys_time_seconds")]
            [("stressors", JStr "count"); ("bogo_ops", JStr "count"); ("real_time_seconds", JStr "seconds");
             ("usr_time_seconds", JStr "seconds"); ("sys_time_seconds", JStr "seconds")] count 1)
  end.

Section Record_.
Variable F : fs.
Variable compensated : bool.

Definition parse_metrics (command_family : CommandFamily) (input_path : path) : result (string * parsed) :=
  let recorded (m : result parsed) := let* p := m in Ok ("RECORDED", p) in
  match command_family with
  | cyclictest =>
      if String.eqb (suffix input_path) ".json"
      then recorded (bind (load_json F input_path) parse_cyclictest_json)
      else recorded (bind (read_text F input_path) (parse_cyclictest_text compensated))
  | fio => recorded (bind (load_json F input_path) parse_fio)
  | perf_bench_sched_messaging => recorded (bind (read_text F input_path) parse_perf_messaging)
  | stress_ng => recorded (bind (read_text F input_path) parse_stress_ng)
  | rtla | perf_sched => let* _ := read_text F input_path in Ok ("UNSUPPORTED_DEFERRED", Parsed [] [] 0 0)
  end.

(** The text of a family, as the command line and the record write it. *)
Definition family_text (command_family : CommandFamily) : string :=
  match command_family with
  | cyclictest => "cyclictest" | fio => "fio" | perf_bench_sched_messaging => "perf_bench_sched_messaging"
  | rtla => "rtla" | perf_sched => "perf_sched" | stress_ng => "stress_ng"
  end.

(** The record of what a parser answered. *)
Definition record_of (command_family : CommandFamily) (status : string) (p : parsed) (output sha evidence : string) : jobject :=
  let parser_status := if String.eqb status "RECORDED" then "PARSED" else "UNSUPPORTED_DEFERRED" in
  [("schema", JStr SCHEMA); ("status", JStr status); ("tool", JStr (tool_for command_family));
   ("command_family", JStr (family_text command_family)); ("record_only", JBool true); ("output_path", JStr output);
   ("output_sha256", JStr sha); ("vm_evidence", JStr evidence);
   ("parser_provenance", JDict [("parser", JStr PARSER_NAME); ("parser_version", JStr PARSER_VERSION);
                                ("parser_status", JStr parser_status)]);
   ("metrics", JDict (metrics p)); ("units", JDict (units p)); ("sample_count", JInt (samples p)); ("run_count", JInt (runs p));
   ("host_mutation", JBool false); ("release_eligible", JBool false); ("production_capacity_claim", JBool false);
   ("hard_thresholds_enforced", JBool false); ("threshold_status", JStr "record_only"); ("privacy_sanitized", JBool true)].

Definition build_record (command_family : CommandFamily) (input_path : path) (output_path vm_evidence : string) : result jobject :=
  let* (status, p) := parse_metrics command_family input_path in
  let* output := safe_relative (JStr output_path) "output_path" in
  let* sha := sha256_file F input_path in
  let* evidence := safe_relative (JStr vm_evidence) "vm_evidence" in
  Ok (record_of command_family status p output sha evidence).
End Record_.

(** ** qa/benchmark_output_check.py and [run_fixtures] *)

(** [json.dumps(data, allow_nan=False, indent=2, sort_keys=True)] *)
Fixpoint all_finite (v : json) : bool :=
  match v with
  | JFloat f => isfinite f
  | JList l => forallb all_finite l
  | JDict d => forallb (fun kv => all_finite (snd kv)) d
  | _ => true
  end.
Definition write_json (data : jobject) : result string :=
  if all_finite (JDict data) then Ok (dumps_indent 0 (sort_keys (JDict data)) ++ chr 10)
  else raise ValueError "Out of range float values are not JSON compliant".

Inductive Args : Type :=
| SelfTest
| Fixtures (fixtures schema : path)
| Parse (tool : CommandFamily) (input_path : path) (output_path vm_evidence : string) (out : path).

Definition parse_args (argv : list string) : result Args :=
  let usage := fail ("usage: benchmark_output_check.py --self-test | --fixtures <dir> --schema <schema.json> | --parse"
    ++ " --tool <family> --input <raw> --output-path <relative> --vm-evidence <relative> --out <json>") in
  match argv with
  | [a] => if String.eqb a "--self-test" then Ok SelfTest else usage
  | [a; root; b; schema] =>
      if String.eqb a "--fixtures" && String.eqb b "--schema" then Ok (Fixtures (Path root) (Path schema)) else usage
  | [a; b; tool; c; input; d; output_path; e; vm_evidence; f; out] =>
      if String.eqb a "--parse" && String.eqb b "--tool" && String.eqb c "--input" && String.eqb d "--output-path"
         && String.eqb e "--vm-evidence" && String.eqb f "--out"
      then let* tool := family tool in Ok (Parse tool (Path input) output_path vm_evidence (Path out))
      else usage
  | _ => usage
  end.

Section Check.
Variable F : fs.
Variable compensated : bool.

(** [sorted(root.iterdir())] *)
Definition iterdir (p : path) : result (list path) :=
  match fs_node F (path_str p) with
  | Some (Dir names) => Ok (map (div_path p) (sorted names))
  | Some (File _) => raise NotADirectoryError (path_str p)
  | None => raise FileNotFoundError (path_str p)
  end.

(** A fixture that must be refused: a record, or raw output of perf. *)
Definition validate_invalid (p : path) : result unit :=
  if String.eqb (suffix p) ".json" then let* record := load_json F p in validate_record record
  else let* _ := build_record F compensated perf_bench_sched_messaging p "evidence/lab/run/bench/bad.txt"
                   "evidence/lab/run/summary.json" in Ok tt.

Definition run_fixtures (root schema : path) : printed :=
  reading (
    require (is_file F schema) ("missing schema: " ++ path_str schema) ;;;
    let* schema_doc := load_schema F schema in
    require (py_eq (get schema_doc "$id") (JStr SCHEMA)) "schema id mismatch" ;;;
    require (is_false (get schema_doc "additionalProperties")) "schema must be closed" ;;;
    let valid := sorted_glob F (div_path root "valid") ".json" in
    let* invalid := iterdir (div_path root "invalid") in
    require (negb (is_empty valid)) "no valid benchmark fixtures" ;;;
    require (negb (is_empty invalid)) "no invalid benchmark fixtures" ;;;
    Ok (valid, invalid)) (fun '(valid, invalid) =>
  and_then (accept_each (fun p => let* record := load_json F p in validate_record record)
              (fun p => "PASS valid fixture: " ++ path_str p) valid)
    (and_then (reject_each validate_invalid (is_class BenchmarkOutputError)
                 (fun p exc => "PASS reject invalid fixture " ++ name p ++ ": " ++ exn_str exc)
                 (fun p => Exn BenchmarkOutputError ("invalid fixture unexpectedly accepted: " ++ path_str p) None) invalid)
       (["PASS benchmark fixtures: valid=" ++ str_nat (List.length valid) ++ " invalid=" ++ str_nat (List.length invalid)], Ok tt))).

(** The text that the mode [parse] writes to its output file. *)
Definition parse_output (tool : CommandFamily) (input_path : path) (output_path vm_evidence : string) : result string :=
  let* record := build_record F compensated tool input_path output_path vm_evidence in
  validate_record record ;;;
  write_json record.

Definition run (self_test : printed) (argv : list string) : printed :=
  reading (parse_args argv) (fun args =>
  match args with
  | SelfTest => self_test
  | Fixtures root schema => run_fixtures root schema
  | Parse tool input_path output_path vm_evidence out =>
      reading (parse_output tool input_path output_path vm_evidence) (fun _ =>
        (["PASS benchmark output parsed: " ++ path_str out], Ok tt))
  end).

Definition main (self_test : printed) (argv : list string) : exit :=
  end_main (fun c => is_OSError c || is_UnicodeError c || is_class JSONDecodeError c || is_class BenchmarkOutputError c)
    "FAIL benchmark output" (run self_test argv).
End Check.

(** * Specification *)

(** The names of the metrics, and of the units. *)
Definition METRICS : list string := [
  "threads"; "cycles"; "latency_min_us_avg"; "latency_avg_us_avg"; "latency_max_us";
  "jobs"; "read_iops"; "read_bw_bytes"; "read_lat_ns_mean_avg"; "write_iops"; "write_bw_bytes"; "write_lat_ns_mean_avg";
  "total_time_seconds"; "groups"; "processes"; "stressors"; "bogo_ops"; "real_time_seconds"; "usr_time_seconds";
  "sys_time_seconds"].
Definition UNITS : list string := ["count"; "us"; "iops"; "bytes_per_second"; "ns"; "seconds"].

(** What every parser answers: known metrics, each with its unit. *)
Record well_formed (p : parsed) : Prop := {
  wf_metrics : Forall (fun kv => In (fst kv) METRICS /\ exists u, get (units p) (fst kv) = JStr u /\ In u UNITS) (metrics p);
  wf_units : Forall (fun kv => In (fst kv) METRICS /\ exists u, snd kv = JStr u /\ In u UNITS) (units p);
}.

(** A number the record may hold: finite as a float and not negative. *)
Definition recordable (v : json) : Prop := valid_metric v = Ok true.

(** * Lemmas *)

(** ** Text in a record *)
Definition text_clean (s : string) : bool :=
  forallb (fun needle => negb (contains (lower needle) (lower s))) FORBIDDEN_TEXT
  && forallb (fun pattern => negb (re_found pattern s)) FORBIDDEN_CLAIM_TEXT_PATTERNS.

Lemma leak_text s c : reject_private_leaks (JStr s) c = Ok tt <-> text_clean s = true.
Proof.
  cbn [reject_private_leaks]. rewrite bind_ok_unit, !for_each_ok. unfold text_clean. rewrite andb_true_iff, !forallb_forall, !Forall_forall.
  setoid_rewrite list_elem_of_In. setoid_rewrite ensure_ok. done.
Qed.
Lemma leak_dict d c : reject_private_leaks (JDict d) c = Ok tt <->
  Forall (fun kv => forbidden_key (fst kv) c = false /\ reject_private_leaks (snd kv) (c ++ "." ++ fst kv) = Ok tt) d.
Proof.
  cbn [reject_private_leaks]. induction d as [|[k v] d IH]; [split; [constructor | done]|].
  rewrite Forall_cons, !bind_ok_unit, IH, ensure_ok, negb_true_iff. cbn [fst snd]. tauto.
Qed.
Lemma leak_number v c : recordable v -> reject_private_leaks v c = Ok tt.
Proof.
  unfold recordable, valid_metric. destruct v; try done; cbn [reject_private_leaks].
  - intros (b & -> & [= H%andb_true_iff])%bind_ok. by destruct H as [-> _].
  - cbn [isfinite_num bind]. intros [= H%andb_true_iff]. by destruct H as [-> _].
Qed.

(** ** Hexadecimal text says nothing *)
Lemma hex_lower s : all_chars is_hex_lower s = true -> lower s = s.
Proof.
  assert (H : forall c, is_hex_lower c = true -> lower_char c = c) by (intros [[] [] [] [] [] [] [] []]; vm_compute; congruence).
  induction s as [|c s IH]; [done|]. cbn [all_chars]. intros [Hc Hs]%andb_true_iff.
  change (lower (String c s)) with (String (lower_char c) (lower s)). by rewrite H, IH.
Qed.
Lemma hex_contains needle s : all_chars is_hex_lower s = true -> all_chars is_hex_lower needle = false -> contains needle s = false.
Proof.
  intros Hs Hn. apply contains_false. intros (a & b & ->). rewrite !all_chars_app, Hn in Hs.
  by rewrite andb_false_r in Hs.
Qed.
Lemma iter_advance_rest i st : exists a, st_rest st = a ++ st_rest (Nat.iter i advance st).
Proof.
  induction i as [|i (a & IH)]; [by exists ""|]. cbn [Nat.iter nat_rect]. unfold advance at 1.
  change (nat_rect (fun _ => rstate) st (fun _ => advance) i) with (Nat.iter i advance st).
  destruct (st_rest (Nat.iter i advance st)) as [|c r] eqn:E; [exists a; by rewrite E|].
  exists (a ++ String c ""). cbn [st_rest]. rewrite append_assoc. done.
Qed.
(** A pattern that starts with a literal needs its first character. *)
Lemma found_first c r r' s : re_found (RSeq RWordB (RSeq (RSeq (rchar_ci c) r) r')) s = true ->
  exists a d b, s = a ++ String d b /\ lower_char c = lower_char d.
Proof.
  intros (i & e & _ & (st1 & Hw & (st2 & (st3 & (d & b & Hr & Hd & _)%char_matches & _)%seq_matches & _)%seq_matches)%seq_matches)%re_found_iff.
  inversion Hw; subst. destruct (iter_advance_rest i (start s)) as (a & Ha). rewrite Hr in Ha.
  exists a, d, b. split; [done | by apply Ascii.eqb_eq].
Qed.
Lemma hex_pattern c r r' s : all_chars is_hex_lower s = true -> is_hex_lower (lower_char c) = false ->
  re_found (RSeq RWordB (RSeq (RSeq (rchar_ci c) r) r')) s = false.
Proof.
  intros Hs Hc. apply not_true_iff_false. intros (a & d & b & -> & Heq)%found_first. rewrite all_chars_app in Hs.
  apply andb_true_iff in Hs as [_ Hd]. cbn [all_chars] in Hd. apply andb_true_iff in Hd as [Hd _].
  assert (H : lower_char d = d) by (revert Hd; clear; destruct d as [[] [] [] [] [] [] [] []]; vm_compute; congruence).
  rewrite Heq, H in Hc. congruence.
Qed.
Lemma hex_clean s : all_chars is_hex_lower s = true -> text_clean s = true.
Proof.
  intros Hs. unfold text_clean. apply andb_true_iff. split.
  - apply forallb_forall. intros needle Hn. rewrite (hex_lower s) by done. apply negb_true_iff, hex_contains; [done|].
    assert (H : forallb (fun needle => negb (all_chars is_hex_lower (lower needle))) FORBIDDEN_TEXT = true) by (by vm_compute).
    apply (proj1 (forallb_forall _ _) H) in Hn. by apply negb_true_iff in Hn.
  - unfold FORBIDDEN_CLAIM_TEXT_PATTERNS, claim_pattern. cbn [forallb]. rewrite !andb_true_iff, !negb_true_iff.
    repeat split; by apply hex_pattern.
Qed.

(** ** The parsers answer known metrics with their units *)
Local Ltac known := repeat first
  [ apply Forall_cons_2 | apply Forall_nil_2
  | split; [apply mem_In; vm_compute; reflexivity | eexists; split; [reflexivity | apply mem_In; vm_compute; reflexivity]] ].

Lemma cyclic_shape count c mn av mx n r : well_formed (Parsed (cyclic_metrics count c mn av mx) cyclic_units n r).
Proof. split; cbn [metrics units]; unfold cyclic_metrics, cyclic_units; known. Qed.
Lemma fio_shape r w count n : well_formed
  (Parsed (("jobs", JInt (Z.of_nat count)) :: fio_metrics "read" r count ++ fio_metrics "write" w count)%list
     (("jobs", JStr "count") :: fio_units "read" ++ fio_units "write")%list n n).
Proof. split; cbn [metrics units]; unfold fio_metrics, fio_units; cbn [app]; known. Qed.

Lemma perf_shape f text : let (groups, groups_units) := perf_count PERF_GROUPS_RE "groups" text in
  let (processes, processes_units) := perf_count PERF_PROCS_RE "processes" text in
  well_formed (Parsed (("total_time_seconds", JFloat f) :: groups ++ processes)%list
                 (("total_time_seconds", JStr "seconds") :: groups_units ++ processes_units)%list 1 1).
Proof.
  unfold perf_count. destruct (re_search PERF_GROUPS_RE text), (re_search PERF_PROCS_RE text); split; cbn [metrics units app]; known.
Qed.

(** What the parsers promise of their answer. *)
Record answers (f : CommandFamily) (status : string) (p : parsed) : Prop := {
  an_formed : well_formed p;
  an_status : status = (if mem (family_text f) SUPPORTED then "RECORDED" else "UNSUPPORTED_DEFERRED");
  an_some : status = "RECORDED" -> metrics p <> [] /\ (0 < runs p)%Z;
  an_none : status = "UNSUPPORTED_DEFERRED" -> p = Parsed [] [] 0 0;
}.

Lemma recorded_answers f p : well_formed p -> mem (family_text f) SUPPORTED = true -> metrics p <> [] -> (0 < runs p)%Z ->
  answers f "RECORDED" p.
Proof. intros Hw Hm Hn Hr. split; [done | by rewrite Hm | done | done]. Qed.

Lemma cyclic_json_answers data p : parse_cyclictest_json data = Ok p -> answers cyclictest "RECORDED" p.
Proof.
  unfold parse_cyclictest_json. destruct (get data "thread") as [| | | | | |[|kv threads]]; try discriminate.
  intros (s & _ & (n & _ & [= <-])%bind_ok)%bind_ok. apply recorded_answers; [apply cyclic_shape | done | done|].
  cbn [runs List.length]. lia.
Qed.
Lemma cyclic_text_answers comp text p : parse_cyclictest_text comp text = Ok p -> answers cyclictest "RECORDED" p.
Proof.
  unfold parse_cyclictest_text. destruct (matching_lines CYCLIC_LINE_RE text) as [|m rows]; [discriminate|]. cbv zeta.
  intros (n & _ & [= <-])%bind_ok. apply recorded_answers; [apply cyclic_shape | done | done|]. cbn [runs List.length]. lia.
Qed.
Lemma fio_answers data p : parse_fio data = Ok p -> answers fio "RECORDED" p.
Proof.
  unfold parse_fio. destruct (get data "jobs") as [| | | | |[|job jobs]|]; try discriminate. cbv zeta.
  intros (r & _ & (w & _ & [= <-])%bind_ok)%bind_ok. apply recorded_answers; [apply fio_shape | done | done|].
  cbn [runs List.length]. lia.
Qed.
Lemma perf_answers text p : parse_perf_messaging text = Ok p -> answers perf_bench_sched_messaging "RECORDED" p.
Proof.
  unfold parse_perf_messaging. destruct (re_search PERF_TIME_RE text) as [m|]; [|discriminate].
  pose proof (perf_shape (float_of_text (group "seconds" m)) text) as H.
  destruct (perf_count PERF_GROUPS_RE "groups" text), (perf_count PERF_PROCS_RE "processes" text).
  intros [= <-]. by apply recorded_answers.
Qed.
Lemma stress_answers text p : parse_stress_ng text = Ok p -> answers stress_ng "RECORDED" p.
Proof.
  unfold parse_stress_ng. destruct (matching_lines STRESS_NG_METRIC_RE text) as [|m rows]; [discriminate|]. cbv zeta.
  intros [= <-]. apply recorded_answers; [|done..]. split; cbn [metrics units]; known.
Qed.

Lemma parse_answers F comp f p status prs : parse_metrics F comp f p = Ok (status, prs) -> answers f status prs.
Proof.
  unfold parse_metrics. cbv zeta.
  destruct f; [destruct (String.eqb (suffix p) ".json")|..];
    try (intros (prs' & (x & _ & Hp)%bind_ok & [= <- <-])%bind_ok;
         first [by apply cyclic_json_answers in Hp | by apply cyclic_text_answers in Hp | by apply fio_answers in Hp
               | by apply perf_answers in Hp | by apply stress_answers in Hp]);
    intros (text & _ & [= <- <-])%bind_ok; (split; [split; constructor | done | done | done]).
Qed.

(** ** The record *)
(** A property of closed lists, by evaluation. *)
Lemma all_of {A} (f : A -> bool) l x : forallb f l = true -> In x l -> f x = true.
Proof. intros H. exact (proj1 (forallb_forall f l) H x). Qed.
Lemma metric_key k : In k METRICS -> negb (forbidden_key k "record.metrics") && negb (forbidden_key k "record.units") = true.
Proof. apply (all_of (fun k => negb (forbidden_key k "record.metrics") && negb (forbidden_key k "record.units"))). by vm_compute. Qed.
Lemma unit_text u : In u UNITS -> text_clean u && negb (String.eqb u "") = true.
Proof. apply (all_of (fun u => text_clean u && negb (String.eqb u ""))). by vm_compute. Qed.

Local Opaque forbidden_key text_clean sha256_hex METRICS UNITS.

Lemma metrics_clean p : well_formed p -> Forall (fun kv => recordable (snd kv)) (metrics p) ->
  reject_private_leaks (JDict (metrics p)) "record.metrics" = Ok tt /\ reject_private_leaks (JDict (units p)) "record.units" = Ok tt
  /\ Forall (metric_ok (units p)) (metrics p).
Proof.
  intros [Hm Hn] Hr. rewrite !leak_dict, !Forall_forall. rewrite Forall_forall in Hm, Hn, Hr.
  split_and!; intros kv Hi.
  - destruct (Hm kv Hi) as [[Hk _]%metric_key%andb_true_iff _]. apply negb_true_iff in Hk. split; [done | by apply leak_number, Hr].
  - destruct (Hn kv Hi) as ([_ Hk]%metric_key%andb_true_iff & u & Hv & [Hu _]%unit_text%andb_true_iff). apply negb_true_iff in Hk.
    rewrite Hv. split; [done | by apply leak_text].
  - destruct (Hm kv Hi) as (_ & u & Hg & [_ Hu]%unit_text%andb_true_iff). apply negb_true_iff, String.eqb_neq in Hu.
    split; [by apply Hr | by exists u].
Qed.

Lemma safe_relative_clean s field x : safe_relative (JStr s) field = Ok x -> x = s /\ text_clean s = true.
Proof.
  unfold safe_relative. destruct (String.eqb s ""); [discriminate|]. cbv zeta.
  by intros [_ [_ [H%leak_text [= <-]]%bind_ok_unit]%bind_ok_unit]%bind_ok_unit.
Qed.

(** The constant texts and keys of a record. *)
Lemma family_texts f : text_clean (family_text f) = true /\ text_clean (tool_for f) = true /\ family (family_text f) = Ok f.
Proof. by destruct f; vm_compute. Qed.
Lemma record_keys : forallb (fun k => negb (forbidden_key k "record")) REQUIRED = true.
Proof. by vm_compute. Qed.
Lemma parser_clean status : status = "RECORDED" \/ status = "UNSUPPORTED_DEFERRED" ->
  text_clean status = true /\
  reject_private_leaks (JDict [("parser", JStr PARSER_NAME); ("parser_version", JStr PARSER_VERSION);
     ("parser_status", JStr (if String.eqb status "RECORDED" then "PARSED" else "UNSUPPORTED_DEFERRED"))]) "record.parser_provenance" = Ok tt.
Proof. by intros [-> | ->]; vm_compute. Qed.
Lemma status_known f status p : answers f status p -> status = "RECORDED" \/ status = "UNSUPPORTED_DEFERRED".
Proof. intros [_ -> _ _]. destruct (mem _ _); tauto. Qed.

Local Ltac child :=
  lazymatch goal with
  | |- reject_private_leaks (JStr _) _ = _ => apply leak_text; first [assumption | vm_compute; reflexivity]
  | |- reject_private_leaks (JBool _) _ = _ => reflexivity
  | |- reject_private_leaks (JInt _) _ = _ => apply leak_number; assumption
  | |- _ => assumption
  end.

Lemma record_clean f status p output sha evidence : answers f status p -> text_clean output = true -> text_clean evidence = true ->
  text_clean sha = true -> Forall (fun kv => recordable (snd kv)) (metrics p) -> recordable (JInt (samples p)) -> recordable (JInt (runs p)) ->
  reject_private_leaks (JDict (record_of f status p output sha evidence)) "record" = Ok tt.
Proof.
  intros Ha Ho He Hs Hm Hn Hr. destruct (family_texts f) as (Hf & Ht & _), (parser_clean status) as [Hst Hp]; [by eapply status_known|].
  destruct (metrics_clean p (an_formed _ _ _ Ha) Hm) as (Hme & Hu & _). apply leak_dict. unfold record_of. cbv zeta.
  apply Forall_and. split.
  - apply Forall_forall. intros kv Hkv%list_elem_of_In. apply negb_true_iff, (all_of _ _ _ record_keys).
    change REQUIRED with (keys (record_of f status p output sha evidence)). by apply in_map.
  - repeat (apply Forall_cons_2; [cbn [fst snd]; child|]). apply Forall_nil_2.
Qed.

Lemma recordable_int n : (0 <= n)%Z -> recordable (JInt n) <-> is_ok (float_of_int n) = true.
Proof.
  intros Hn. unfold recordable, valid_metric, isfinite_num. cbn [as_int].
  destruct (float_of_int n) as [x|e]; cbn [bind is_ok]; [|by split].
  apply Z.leb_le in Hn. by rewrite Hn.
Qed.
Lemma record_get f status p output sha evidence : let d := record_of f status p output sha evidence in
  get d "schema" = JStr SCHEMA /\ get d "status" = JStr status /\ get d "tool" = JStr (tool_for f)
  /\ get d "command_family" = JStr (family_text f) /\ get d "output_path" = JStr output /\ get d "vm_evidence" = JStr evidence
  /\ get d "output_sha256" = JStr sha /\ get d "metrics" = JDict (metrics p) /\ get d "units" = JDict (units p)
  /\ get d "sample_count" = JInt (samples p) /\ get d "run_count" = JInt (runs p).
Proof. done. Qed.

Lemma contents_answer f status p : answers f status p -> (status = "RECORDED" -> (0 < samples p)%Z) ->
  contents_ok status (family_text f) (metrics p) (units p) (samples p) (runs p).
Proof.
  intros [Hw Hst Hsome Hnone] Hs. unfold contents_ok. destruct f; vm_compute in Hst; subst;
    first [left; destruct (Hsome eq_refl) as [? ?]; split_and!; [done | by apply mem_In | done | by apply Hs | done]
          |right; rewrite (Hnone eq_refl); split_and!; by try apply mem_In].
Qed.

(** The numbers of a record that decide whether it is accepted. *)
Definition numbers_ok (status : string) (p : parsed) : Prop :=
  Forall (fun kv => recordable (snd kv)) (metrics p) /\ recordable (JInt (samples p)) /\ recordable (JInt (runs p))
  /\ (status = "RECORDED" -> (0 < samples p)%Z).

Lemma record_accepted f status p output sha evidence : answers f status p ->
  safe_relative (JStr output) "output_path" = Ok output -> safe_relative (JStr evidence) "vm_evidence" = Ok evidence ->
  all_chars is_hex_lower sha = true /\ len sha = 64 ->
  validate_record (record_of f status p output sha evidence) = Ok tt <-> numbers_ok status p.
Proof.
  intros Ha Ho He [Hh Hl]. pose proof (record_get f status p output sha evidence) as G. cbv zeta in G.
  set (d := record_of f status p output sha evidence) in *. destruct G as (G1 & G2 & G3 & G4 & G5 & G6 & G7 & G8 & G9 & G10 & G11).
  split.
  - intros H%bench_record_accepted. destruct H as [Hp _ _ _ _ _ _ _ _ (st & pa & m & u & n & r & Hst & _ & _ & Hm & Hu & Hmo & Hn & Hr & Hc)].
    rewrite G2 in Hst. rewrite G8 in Hm. rewrite G9 in Hu. rewrite G10 in Hn. rewrite G11 in Hr. cbn [as_int] in Hn, Hr.
    injection Hst as <-. injection Hm as <-. injection Hu as <-. injection Hn as <-. injection Hr as <-.
    apply leak_dict in Hp. rewrite Forall_forall in Hp.
    assert (Hnum : forall k n, In (k, JInt n) d -> (0 <= n)%Z -> recordable (JInt n)).
    { intros k n Hin%list_elem_of_In Hn. apply Hp in Hin as [_ Hin]. apply recordable_int; [done|].
      cbn [snd fst reject_private_leaks isfinite_num as_int] in Hin. by destruct (float_of_int n). }
    assert (Hpos : (0 <= samples p)%Z /\ (0 <= runs p)%Z) by (destruct Hc as [(_ & _ & _ & ? & ?)|(_ & _ & _ & _ & -> & ->)]; lia).
    split_and!.
    + eapply Forall_impl; [done|]. by intros kv [].
    + apply (Hnum "sample_count"); [do 11 right; by left | apply Hpos].
    + apply (Hnum "run_count"); [do 12 right; by left | apply Hpos].
    + intros ->. by destruct Hc as [(_ & _ & _ & ? & _)|[[=] _]].
  - intros (Hm & Hn & Hr & Hs). apply bench_record_complete.
    destruct (metrics_clean p (an_formed _ _ _ Ha) Hm) as (_ & _ & Hmo). destruct (family_texts f) as (_ & _ & Hf). split.
    + apply record_clean; [done | by eapply safe_relative_clean | by eapply safe_relative_clean | by apply hex_clean | done..].
    + intros k. by change (keys d) with REQUIRED.
    + done.
    + exists f. by rewrite G4, G3.
    + done.
    + by intros k [<-|[<-|[<-|[<-|[]]]]].
    + done.
    + intros k [<-|[<-|[]]]; [rewrite G5; by eexists | rewrite G6; by eexists].
    + exists sha. split; [done|]. apply class_match. exists sha. split_and!; [done | lia | lia | by left].
    + exists status. do 5 eexists. rewrite G2, G4, G8, G9, G10, G11. split_and!; try done. by apply contents_answer.
Qed.

(** What has passed the privacy scan can be written. *)
Lemma leak_finite v c : reject_private_leaks v c = Ok tt -> all_finite v = true.
Proof.
  revert c. induction v as [| | |f|s|l IH|d IH] using json_nested_ind; intros c; cbn [all_finite]; try done.
  - cbn [reject_private_leaks isfinite_num bind]. by intros H%ensure_ok.
  - cbn [reject_private_leaks]. generalize 0. induction IH as [|v l Hv _ IHl]; intros n; [done|].
    intros [Hc Hl]%bind_ok_unit. cbn [forallb]. rewrite (Hv _ Hc). by apply (IHl (S n)).
  - rewrite leak_dict. induction IH as [|[k v] d Hv _ IHd]; [done|]. intros [[_ Hc] Hd]%Forall_cons.
    cbn [forallb snd fst] in *. rewrite (Hv _ Hc). by apply IHd.
Qed.
Lemma sha_file_hex F p digest : sha256_file F p = Ok digest -> all_chars is_hex_lower digest = true /\ len digest = 64.
Proof. unfold sha256_file, sha256_of. intros (b & _ & [= <-])%bind_ok. apply sha256_hex_hex. Qed.

(** * Properties *)

(** C22: whatever the tool wrote, the record that is built from it is accepted by
    the record validator exactly when its numbers are: every metric finite and not
    negative, the counts in the range of floats, and samples for a recorded run.
    Fields, tool and family, units, paths, digest, privacy and parser status hold
    of every record the parsers build; the mode parse writes the record then and
    only then. *)
Theorem built_record_iff F compensated tool input_path output_path vm_evidence :
  (exists text, parse_output F compensated tool input_path output_path vm_evidence = Ok text) <->
  exists status p digest, parse_metrics F compensated tool input_path = Ok (status, p)
    /\ safe_relative (JStr output_path) "output_path" = Ok output_path
    /\ safe_relative (JStr vm_evidence) "vm_evidence" = Ok vm_evidence
    /\ sha256_file F input_path = Ok digest /\ numbers_ok status p.
Proof.
  unfold parse_output, build_record. split.
  - intros (text & (record & ((status, p) & Hp & (output & Ho & (sha & Hs & (evidence & He & [= <-])%bind_ok)%bind_ok)%bind_ok)%bind_ok
      & [Hv _]%bind_ok_unit)%bind_ok).
    destruct (safe_relative_clean _ _ _ Ho) as [-> _], (safe_relative_clean _ _ _ He) as [-> _].
    exists status, p, sha. split_and!; [done..|]. apply record_accepted in Hv; [done | by eapply parse_answers | done | done | by eapply sha_file_hex].
  - intros (status & p & sha & Hp & Ho & He & Hs & Hn). rewrite Hp. cbn [bind]. rewrite Ho. cbn [bind]. rewrite Hs. cbn [bind]. rewrite He. cbn [bind].
    assert (Hv : validate_record (record_of tool status p output_path sha vm_evidence) = Ok tt).
    { apply record_accepted; [by eapply parse_answers | done | done | by eapply sha_file_hex | done]. }
    rewrite Hv. cbn [bind]. unfold write_json.
    pose proof (br_private _ (bench_record_accepted _ Hv)) as Hl. apply leak_finite in Hl. rewrite Hl. by eexists.
Qed.
