(* ===== verification/Provenance.v ===== *)
(** Provenance: qa/matrix_benchmark_provenance.py, the benchmark records a
    workload spec refers to.  Containment under the run root is decided on
    resolved paths ([fs_resolve]), unlike the lexical test of the matrix
    checker. *)
From S2P Require Import Prelude PyStr PyRe PyFloat PyJson Sha256 PyFs.
From S2P Require Import BenchModel BenchValidate.

Local Open Scope string_scope.

Definition BENCHMARK_PROVENANCE_FIELDS : list string := ["record_path"; "record_sha256"; "record_only"].
Definition SHA256_HEX : string := "0123456789abcdef".

Definition fail {A} (m : string) : result A := raise MatrixBenchmarkProvenanceError m.

Definition reject_constant (value : string) : result json := fail ("invalid JSON constant: " ++ value).

Definition require (condition : bool) (message : string) : result unit :=
  ensure condition MatrixBenchmarkProvenanceError message.

Definition obj (value : json) (context : string) : result jobject :=
  match value with
  | JDict d => Ok d
  | _ => fail (context ++ " must be an object")
  end.

Definition text (value : json) (context : string) : result string :=
  match value with
  | JStr s => if String.eqb s "" then fail (context ++ " must be non-empty text") else Ok s
  | _ => fail (context ++ " must be non-empty text")
  end.

Definition require_only_fields (data : jobject) (allowed : list string) (context : string) : result unit :=
  let extra := sorted (set_diff (keys data) allowed) in
  require (is_empty extra) (context ++ " has unexpected fields: " ++ join ", " extra).

Definition require_safe_path (value : json) (context : string) : result string :=
  let* raw := text value context in
  let p := Path raw in
  require (negb (is_absolute p)) (context ++ " must be relative") ;;;
  require (negb (mem ".." (parts p))) (context ++ " must not traverse") ;;;
  Ok raw.

Definition require_sha256 (value context : string) : result unit :=
  require (Nat.eqb (len value) 64 && all_chars (one_of SHA256_HEX) value) (context ++ " must be sha256 hex").

(** [p.relative_to(root)] succeeds. *)
Definition relative_to (p root : path) : bool :=
  String.eqb (p_root p) (p_root root) && is_prefix (p_parts root) (p_parts p).

Section Checker.
Variable F : fs.

Definition load_json (p : path) : result jobject :=
  let* raw := catch (bind (PyFs.read_text F p) (loads_with reject_constant)) (fun exc =>
    if decide (exn_cls exc = FileNotFoundError) then Some (fail ("missing JSON file: " ++ path_str p))
    else if decide (exn_cls exc = JSONDecodeError)
    then Some (fail ("invalid JSON in " ++ path_str p ++ " at byte " ++ str_nat (exn_pos exc)
                       ++ ": " ++ exn_msg exc))
    else None) in
  obj raw (path_str p).

Definition require_descendant (p root : path) (context : string) : result unit :=
  require (relative_to (fs_resolve F p) (fs_resolve F root))
    (context ++ " must stay under matrix run root: " ++ path_str root).

Definition file_sha256 (p : path) : result string :=
  reraise FileNotFoundError MatrixBenchmarkProvenanceError
    (fun _ => "missing referenced artifact: " ++ path_str p) (sha256_of F p).

Definition reraise_bench {A} (f : pyexn -> string) (m : result A) : result A :=
  reraise BenchmarkOutputError MatrixBenchmarkProvenanceError f m.

Definition validate_raw_output_privacy (p : path) (context : string) : result unit :=
  let* raw_text := reraise FileNotFoundError MatrixBenchmarkProvenanceError
    (fun _ => "missing referenced artifact: " ++ path_str p) (PyFs.read_text F p) in
  reraise_bench (fun exc => context ++ " privacy/claim unsafe raw benchmark output: " ++ exn_str exc)
    (reject_private_leaks (JStr raw_text) context ;;;
     match loads_with reject_constant raw_text with
     | Ok parsed => reject_private_leaks parsed context
     | Err exc => if decide (exn_cls exc = JSONDecodeError) then Ok tt else Err exc
     end).

Definition validate_record_references (record : jobject) (manifest_root : path) (context : string) : result unit :=
  let* raw_output := require_safe_path (get record "output_path") (context ++ ".output_path") in
  let raw_output_path := Path raw_output in
  require_descendant raw_output_path manifest_root (context ++ ".output_path") ;;;
  let* digest := file_sha256 raw_output_path in
  let* expected := text (get record "output_sha256") (context ++ ".output_sha256") in
  require (String.eqb digest expected)
    (context ++ ".output_sha256 does not match referenced raw benchmark output") ;;;
  validate_raw_output_privacy raw_output_path (context ++ ".output_path") ;;;
  let* vm_evidence := require_safe_path (get record "vm_evidence") (context ++ ".vm_evidence") in
  require_descendant (Path vm_evidence) manifest_root (context ++ ".vm_evidence").

(** One entry; [seen] holds the record paths of the earlier ones. *)
Definition validate_entry (manifest_root : option path) (context : string) (index : nat) (item : json)
    (seen : gset string) : result (gset string) :=
  let here := context ++ "[" ++ str_nat index ++ "]" in
  let* entry := obj item here in
  require_only_fields entry BENCHMARK_PROVENANCE_FIELDS here ;;;
  require (is_true (get entry "record_only")) (here ++ ".record_only must be true") ;;;
  let* raw_path := require_safe_path (get entry "record_path") (here ++ ".record_path") in
  let record_path := Path raw_path in
  let record_key := path_str record_path in
  require (negb (bool_decide (record_key ∈ seen)))
    (here ++ ".record_path duplicates an earlier benchmark record") ;;;
  let seen := {[ record_key ]} ∪ seen in
  match manifest_root with
  | Some root => require_descendant record_path root (here ++ ".record_path")
  | None => Ok tt
  end ;;;
  let* record_sha := text (get entry "record_sha256") (here ++ ".record_sha256") in
  require_sha256 record_sha (here ++ ".record_sha256") ;;;
  let* digest := file_sha256 record_path in
  require (String.eqb digest record_sha)
    (here ++ ".record_sha256 does not match referenced benchmark record") ;;;
  let* record := load_json record_path in
  reraise_bench (fun exc => here ++ ".record_path invalid benchmark provenance: " ++ exn_str exc)
    (validate_record record) ;;;
  match manifest_root with
  | Some root => validate_record_references record root (here ++ ".record")
  | None => Ok tt
  end ;;;
  Ok seen.

Definition validate_entries (value : json) (manifest_root : option path) (context : string) : result unit :=
  match value with
  | JNull => Ok tt
  | JList items =>
      require (negb (is_empty items)) (context ++ " must not be empty when present") ;;;
      let* _ := for_fold 0 items (∅ : gset string) (validate_entry manifest_root context) in
      Ok tt
  | _ => fail (context ++ " must be a list")
  end.
End Checker.

(** * Specification *)

(** The resolved path is the resolved root or below it. *)
Definition resolved_under (F : fs) (p root : path) : Prop :=
  p_root (fs_resolve F p) = p_root (fs_resolve F root)
  /\ exists zs, p_parts (fs_resolve F p) = (p_parts (fs_resolve F root) ++ zs)%list.

Definition relative_text (v : json) (s : string) : Prop :=
  v = JStr s /\ s <> "" /\ is_absolute (Path s) = false /\ ~ In ".." (parts (Path s)).

Definition hex64 (s : string) : Prop := len s = 64 /\ all_chars (one_of SHA256_HEX) s = true.

(** A text without a private or claiming phrase. *)
Definition unclaimed_text (s : string) : Prop :=
  (forall needle, In needle FORBIDDEN_TEXT -> contains (lower needle) (lower s) = false)
  /\ forall pattern, In pattern FORBIDDEN_CLAIM_TEXT_PATTERNS -> re_found pattern s = false.

(** A value without a private key, text or number at any depth. *)
Inductive LeakFree : json -> Prop :=
| LeakFree_null : LeakFree JNull
| LeakFree_bool b : LeakFree (JBool b)
| LeakFree_int n : isfinite_num (JInt n) = Ok true -> LeakFree (JInt n)
| LeakFree_float f : isfinite_num (JFloat f) = Ok true -> LeakFree (JFloat f)
| LeakFree_str s : unclaimed_text s -> LeakFree (JStr s)
| LeakFree_list l : (forall v, In v l -> LeakFree v) -> LeakFree (JList l)
| LeakFree_dict d :
    (forall k v, In (k, v) d -> forbidden_key k "" = false /\ LeakFree v) -> LeakFree (JDict d).

(** A raw output says nothing private, neither as text nor, when it is JSON, as a
    value; only a text that is no JSON at all is left at that. *)
Definition raw_clean (F : fs) (p : path) : Prop :=
  exists raw_text, PyFs.read_text F p = Ok raw_text /\ unclaimed_text raw_text
    /\ match loads_with reject_constant raw_text with
       | Ok parsed => LeakFree parsed
       | Err exc => exn_cls exc = JSONDecodeError
       end.

(** The raw output of a record of a run: unchanged, private-safe, and like its VM
    evidence inside the run. *)
Record references_ok (F : fs) (record : jobject) (root : path) : Prop := {
  rf_output : exists s digest, relative_text (get record "output_path") s /\ resolved_under F (Path s) root
    /\ get record "output_sha256" = JStr digest /\ digest <> "" /\ file_digest F (Path s) digest
    /\ raw_clean F (Path s);
  rf_evidence : exists s, relative_text (get record "vm_evidence") s /\ resolved_under F (Path s) root;
}.

(** One entry; [key] is the text of its record path. *)
Record entry_ok (F : fs) (manifest_root : option path) (item : json) (key : string) : Prop := {
  en_entry : exists d s digest record, item = JDict d
    /\ (forall k, In k (keys d) -> In k BENCHMARK_PROVENANCE_FIELDS) /\ get d "record_only" = JBool true
    /\ relative_text (get d "record_path") s /\ key = path_str (Path s)
    /\ get d "record_sha256" = JStr digest /\ hex64 digest /\ file_digest F (Path s) digest
    /\ load_json F (Path s) = Ok record /\ bench_record_ok record
    /\ forall root, manifest_root = Some root ->
         resolved_under F (Path s) root /\ references_ok F record root;
}.

(** Benchmark provenance is absent, or a non-empty list of entries with distinct
    record paths. *)
Definition provenance_ok (F : fs) (manifest_root : option path) (v : json) : Prop :=
  v = JNull \/ exists items keys, v = JList items /\ items <> []
    /\ Forall2 (entry_ok F manifest_root) items keys /\ NoDup keys.

(** * Lemmas *)
Lemma prov_require_ok c m u : require c m = Ok u <-> c = true.
Proof. apply ensure_ok. Qed.

Lemma prov_text_ok v c s : text v c = Ok s <-> v = JStr s /\ s <> "".
Proof.
  destruct v as [| | | |t| |]; simpl; try (split; [discriminate | by intros [[=] _]]).
  destruct (String.eqb_spec t "") as [->|Ht]; [split; [discriminate | by intros [[= <-] ?]]|].
  rewrite Ok_inj. split; [by intros <- | by intros [[= <-] _]].
Qed.

Lemma prov_path_ok v c s : require_safe_path v c = Ok s <-> relative_text v s.
Proof.
  unfold require_safe_path, relative_text. split.
  - intros (t & [Ht Hne]%prov_text_ok & (Ha%prov_require_ok & (Hd%prov_require_ok & [= <-])%bind_ok_unit)%bind_ok_unit)%bind_ok.
    apply negb_true_iff in Ha, Hd. rewrite <- mem_In. split; [done|]. split; [done|]. split; [done | congruence].
  - intros (Hv & Hne & Ha & Hd). apply bind_ok. exists s. rewrite prov_text_ok. split; [done|].
    rewrite <- mem_In in Hd. apply not_true_is_false in Hd. run_ok; rewrite ?Ha, ?Hd; done.
Qed.

Lemma prov_under_ok F p root c : require_descendant F p root c = Ok tt <-> resolved_under F p root.
Proof.
  unfold require_descendant, relative_to, resolved_under.
  by rewrite prov_require_ok, andb_true_iff, String.eqb_eq, is_prefix_spec.
Qed.

Lemma prov_digest_ok F p digest : file_sha256 F p = Ok digest <-> file_digest F p digest.
Proof. unfold file_sha256. by rewrite reraise_ok, sha256_of_ok. Qed.

Lemma is_empty_true {A} (l : list A) : is_empty l = true <-> l = [].
Proof. by destruct l. Qed.

Lemma prov_fields_ok d allowed c :
  require_only_fields d allowed c = Ok tt <-> forall k, In k (keys d) -> In k allowed.
Proof. unfold require_only_fields. by rewrite prov_require_ok, is_empty_true, no_extra. Qed.

Lemma hex64_ok s c : require_sha256 s c = Ok tt <-> hex64 s.
Proof. unfold require_sha256, hex64. by rewrite prov_require_ok, andb_true_iff, Nat.eqb_eq. Qed.

(** A context below another one is never the root of a record. *)
Lemma not_record_dot c k : c ++ "." ++ k <> "record".
Proof. intros H. do 7 (destruct c as [|? c]; [discriminate H|]; first [discriminate H | injection H as _ H]). Qed.
Lemma not_record_item c k : c ++ "[" ++ k <> "record".
Proof. intros H. do 7 (destruct c as [|? c]; [discriminate H|]; first [discriminate H | injection H as _ H]). Qed.

Lemma forbidden_anywhere k c : c <> "record" -> forbidden_key k c = forbidden_key k "".
Proof. intros H%String.eqb_neq. unfold forbidden_key. by rewrite H. Qed.

Lemma unclaimed_ok s c : reject_private_leaks (JStr s) c = Ok tt <-> unclaimed_text s.
Proof.
  cbn [reject_private_leaks]. unfold unclaimed_text. rewrite bind_ok_unit, !for_each_ok, !Forall_forall.
  setoid_rewrite list_elem_of_In. setoid_rewrite ensure_ok. setoid_rewrite negb_true_iff. done.
Qed.

Lemma finite_ok v (e : exn_class) m :
  (let* finite := isfinite_num v in ensure finite e m) = Ok tt <-> isfinite_num v = Ok true.
Proof.
  rewrite bind_ok. setoid_rewrite ensure_ok. split; [by intros (b & Hb & ->) | by exists true].
Qed.

Lemma leak_free_list l : LeakFree (JList l) <-> Forall LeakFree l.
Proof.
  rewrite Forall_forall. setoid_rewrite list_elem_of_In. split; [by inversion 1; subst | by constructor].
Qed.
Lemma leak_free_dict d :
  LeakFree (JDict d) <-> Forall (fun kv => forbidden_key (fst kv) "" = false /\ LeakFree (snd kv)) d.
Proof.
  rewrite Forall_forall. setoid_rewrite list_elem_of_In. split.
  - inversion 1 as [| | | | | |? Hd]; subst. intros [k v] Hi. by apply Hd.
  - intros H. constructor. intros k v Hi. apply (H (k, v) Hi).
Qed.

Lemma leak_free_ok v c : c <> "record" -> reject_private_leaks v c = Ok tt <-> LeakFree v.
Proof.
  revert c. induction v as [|b|n|f|s|l IH|d IH] using json_nested_ind; intros c Hc.
  - split; [constructor | done].
  - split; [constructor | done].
  - cbn [reject_private_leaks]. rewrite finite_ok. split; [by constructor | by inversion 1].
  - cbn [reject_private_leaks]. rewrite finite_ok. split; [by constructor | by inversion 1].
  - rewrite unclaimed_ok. split; [by constructor | by inversion 1].
  - rewrite leak_free_list. cbn [reject_private_leaks]. generalize 0.
    induction IH as [|child l Hchild _ IHl]; intros n; [split; [constructor | done]|].
    rewrite Forall_cons, bind_ok_unit, <- (IHl (S n)), Hchild; [done|].
    exact (not_record_item c (str_nat n ++ "]")).
  - rewrite leak_free_dict. cbn [reject_private_leaks].
    induction IH as [|[key child] d Hchild _ IHd]; [split; [constructor | done]|].
    rewrite Forall_cons, !bind_ok_unit, <- IHd, ensure_ok, negb_true_iff, (forbidden_anywhere _ c) by done.
    cbn [fst snd] in Hchild |- *. rewrite Hchild by apply not_record_dot. tauto.
Qed.

Lemma raw_clean_ok F p c : c <> "record" -> validate_raw_output_privacy F p c = Ok tt <-> raw_clean F p.
Proof.
  intros Hc. unfold validate_raw_output_privacy, raw_clean, reraise_bench. rewrite bind_ok.
  setoid_rewrite reraise_ok. setoid_rewrite bind_ok_unit. setoid_rewrite unclaimed_ok.
  split; intros (t & Ht & Hu & H); exists t; (split; [done|]); (split; [done|]);
    destruct (loads_with reject_constant t) as [v|e]; try (by apply (leak_free_ok _ c) in H || by eapply leak_free_ok);
    by case_decide.
Qed.

Lemma references_step F record root c :
  validate_record_references F record root c = Ok tt <-> references_ok F record root.
Proof.
  assert (Hc : c ++ ".output_path" <> "record") by exact (not_record_dot c "output_path").
  unfold validate_record_references. split.
  - intros (s & Hs%prov_path_ok & (Hu%prov_under_ok & H)%bind_ok_unit)%bind_ok.
    apply bind_ok in H as (digest & Hd%prov_digest_ok & H). apply bind_ok in H as (e & [He Hne]%prov_text_ok & H).
    apply bind_ok_unit in H as [->%prov_require_ok%String.eqb_eq H].
    apply bind_ok_unit in H as [Hp H]. rewrite raw_clean_ok in Hp by done.
    apply bind_ok in H as (t & Ht%prov_path_ok & Hv%prov_under_ok).
    split; [by exists s, e | by exists t].
  - intros [(s & digest & Hs & Hu & He & Hne & Hd & Hp) (t & Ht & Hv)].
    run_ok; [by apply prov_path_ok | by apply prov_under_ok | by apply prov_digest_ok | by apply prov_text_ok
            |by apply prov_require_ok, String.eqb_refl | by apply raw_clean_ok | by apply prov_path_ok
            |by apply prov_under_ok].
Qed.

Lemma entry_step F mr c i item seen seen' :
  validate_entry F mr c i item seen = Ok seen' <->
  exists key, entry_ok F mr item key /\ key ∉ seen /\ seen' = {[ key ]} ∪ seen.
Proof.
  unfold validate_entry, reraise_bench. cbv zeta. split.
  - intros (d & Hd & H)%bind_ok. destruct item as [| | | | | |d']; try discriminate Hd.
    injection Hd as ->.
    apply bind_ok_unit in H as [Hf H]. rewrite prov_fields_ok in Hf.
    apply bind_ok_unit in H as [Hro%prov_require_ok%is_true_iff H].
    apply bind_ok in H as (s & Hs%prov_path_ok & H).
    apply bind_ok_unit in H as [Hnew%prov_require_ok%negb_true_iff%bool_decide_eq_false H].
    apply bind_ok_unit in H as [Hu H]. apply bind_ok in H as (digest & [Hdg Hne]%prov_text_ok & H).
    apply bind_ok_unit in H as [Hhex%hex64_ok H]. apply bind_ok in H as (e & He%prov_digest_ok & H).
    apply bind_ok_unit in H as [->%prov_require_ok%String.eqb_eq H]. apply bind_ok in H as (record & Hr & H).
    apply bind_ok_unit in H as [Hv%reraise_ok%bench_record_accepted H]. apply bind_ok_unit in H as [Href [= <-]].
    exists (path_str (Path s)). split; [|done]. split. exists d, s, digest, record. repeat (split; [done|]).
    intros root ->. split; [by apply prov_under_ok in Hu | by apply references_step in Href].
  - intros (key & [(d & s & digest & record & -> & Hf & Hro & Hs & -> & Hdg & Hhex & He & Hr & Hv & Href)] & Hnew & ->).
    assert (Hne : digest <> "") by (intros ->; destruct Hhex as [Hl _]; discriminate Hl).
    apply bind_ok. exists d. split; [reflexivity|].
    run_ok; [by apply prov_fields_ok | by apply prov_require_ok, is_true_iff | by apply prov_path_ok
            |by apply prov_require_ok, negb_true_iff, bool_decide_eq_false | | by apply prov_text_ok | by apply hex64_ok
            |by apply prov_digest_ok | by apply prov_require_ok, String.eqb_refl | exact Hr | by apply bench_record_complete |].
    + destruct mr as [root|]; [|done]. apply prov_under_ok. by apply Href.
    + destruct mr as [root|]; [|done]. apply references_step. by apply Href.
Qed.

(** * Properties *)

(** [validate_entries] accepts benchmark provenance exactly when it is absent,
    or a non-empty list of entries with distinct record paths where each entry
    states the digest of its record on disk, the record satisfies
    [bench_record_ok] and, for a matrix run, the record and the artifacts it names
    resolve inside the run (symbolic links followed). *)
Theorem validate_entries_iff F v mr c : validate_entries F v mr c = Ok tt <-> provenance_ok F mr v.
Proof.
  unfold validate_entries, provenance_ok. destruct v as [| | | | |items|];
    try (split; [discriminate | intros [[=]|(? & ? & [=] & _)]]); [split; [by left | done]|].
  assert (H : (exists s, for_fold 0 items (∅ : gset string) (validate_entry F mr c) = Ok s) <->
    exists keys, Forall2 (entry_ok F mr) items keys /\ NoDup keys).
  { setoid_rewrite (for_fold_fresh (fun _ => entry_ok F mr) (fun k s => k ∉ s) (fun k s => {[k]} ∪ s)).
    - setoid_rewrite (Forall2_enum _ 0). setoid_rewrite fresh_run_set. split.
      + intros (s & keys & Hk & [Hn _] & _). by exists keys.
      + intros (keys & Hk & Hn). eexists _, keys. split; [done|]. split; [split; [done | set_solver] | done].
    - intros i x st st'. apply entry_step. }
  rewrite bind_ok_unit, prov_require_ok, negb_true_iff, <- not_true_iff_false, is_empty_true. split.
  - intros (Hne & (s & Hs & _)%bind_ok). right. destruct (proj1 H) as (keys & Hk & Hn); [by exists s|].
    by exists items, keys.
  - intros [[=]|(? & keys & [= <-] & Hne & Hk & Hn)]. split; [done|].
    destruct (proj2 H) as [s Hs]; [by exists keys|]. apply bind_ok. by exists s.
Qed.
