(* ===== verification/PartialAttach.v ===== *)
(** PartialAttach: qa/partial_attach_check.py and qa/evidence_safety_check.py,
    the evidence of one partial-switch attach in the VM. *)
From S2P Require Import Prelude PyStr PyRe PyFloat PyJson PyFs PyMain.

Local Open Scope string_scope.

(** ** qa/evidence_safety_check.py *)
Definition reject_contradictions (data : jobject) (context : string) : result unit :=
  for_each ["dirty_worktree"; "stale_state"; "misleading_success_output"] (fun field =>
    ensure (negb (is_true (get data field))) EvidenceSafetyError (context ++ ": " ++ field ++ " is true")) ;;;
  match get data "cleanup" with
  | JDict cleanup =>
      for_each ["qemu_leftovers"; "tmux_leftovers"] (fun field =>
        ensure (negb (is_true (get cleanup field))) EvidenceSafetyError
          (context ++ ": cleanup." ++ field ++ " is true"))
  | _ => Ok tt
  end.

(** ** qa/partial_attach_check.py *)
Definition SCHEMA : string := "zig-scheduler/partial-attach-evidence/v1".
Definition REFUSAL_SCHEMA : string := "zig-scheduler/partial-attach-refusal/v1".
Definition TARGET_PREFIX : string := "/sys/fs/cgroup/zig-scheduler-lab.slice/".

Record Args : Set := MkArgs { evidence : option path; self_test : bool }.

Definition fail {A} (m : string) : result A := raise PartialAttachError m.

Definition parse_args (argv : list string) : result Args :=
  match argv with
  | ["--self-test"] => Ok (MkArgs None true)
  | ["--evidence"; p] => Ok (MkArgs (Some (Path p)) false)
  | _ => fail "usage: partial_attach_check.py --evidence <partial-attach-evidence.json> | --self-test"
  end.

Definition require_text (data : jobject) (field : string) : result string :=
  match get data field with
  | JStr value =>
      if String.eqb value "" then fail ("partial attach evidence missing text field: " ++ field) else Ok value
  | _ => fail ("partial attach evidence missing text field: " ++ field)
  end.

Definition require_bool (data : jobject) (field : string) : result bool :=
  match get data field with
  | JBool b => Ok b
  | _ => fail ("partial attach evidence missing bool field: " ++ field)
  end.

Definition require_text_is (data : jobject) (field expected message : string) : result unit :=
  let* value := require_text data field in
  ensure (String.eqb value expected) PartialAttachError message.

Section Checker.
Variable F : fs.

Definition load_object (p : path) : result jobject :=
  let* text := read_text F p in
  let* raw := loads text in
  match raw with
  | JDict d => Ok d
  | _ => fail (path_str p ++ " must contain a JSON object")
  end.

Definition validate_evidence (p : path) : result unit :=
  let* evidence := load_object p in
  let* schema := require_text evidence "schema" in
  (if negb (String.eqb schema SCHEMA) then
     if py_eq (get evidence "schema") (JStr REFUSAL_SCHEMA)
     then fail "host refusal is not partial attach evidence"
     else fail "unsupported partial attach evidence schema"
   else Ok tt) ;;;
  reject_contradictions evidence "partial attach evidence" ;;;
  let* host_mutation := require_bool evidence "host_mutation" in
  ensure (negb host_mutation) PartialAttachError
    "partial attach evidence host_mutation must be false" ;;;
  let* release := require_bool evidence "release_eligible_live_proof" in
  ensure (negb release) PartialAttachError
    "fixture partial attach evidence must not be release eligible" ;;;
  require_text_is evidence "ops_during_attach" "zigsched_minimal"
    "partial attach evidence missing zigsched_minimal ops" ;;;
  require_text_is evidence "switch_mode" "SCX_OPS_SWITCH_PARTIAL"
    "partial attach evidence is not partial-switch mode" ;;;
  require_text_is evidence "attach_command" "bpftool struct_ops register"
    "partial attach evidence missing bpftool struct_ops register" ;;;
  let* target := require_text evidence "target_cgroup" in
  ensure (startswith target TARGET_PREFIX && negb (String.eqb target TARGET_PREFIX)) PartialAttachError
    "partial attach target is outside allowlisted lab cgroup" ;;;
  let* rollback_id := require_text evidence "rollback_id" in
  ensure (negb (String.eqb rollback_id "")) PartialAttachError
    "partial attach evidence missing rollback id" ;;;
  require_text_is evidence "rollback_status" "PASS" "partial attach rollback did not pass" ;;;
  let* post_state := require_text evidence "post_state" in
  ensure (mem post_state ["disabled"; "previous"]) PartialAttachError
    ("partial attach post state is unsafe: " ++ post_state) ;;;
  let* object_sha := require_text evidence "object_sha256" in
  ensure (negb (String.eqb object_sha (repeat_str 64 "0"))) PartialAttachError
    "partial attach evidence missing real object hash" ;;;
  let* transcript_name := require_text evidence "transcript_path" in
  let transcript := Path transcript_name in
  ensure (negb (is_absolute transcript || mem ".." (parts transcript) || negb (exists_ F transcript)))
    PartialAttachError "partial attach transcript path is missing or unsafe" ;;;
  let* text := read_text F transcript in
  for_each ["bpftool struct_ops register"; "ops=zigsched_minimal"; "rollback_status=PASS"] (fun needle =>
    ensure (contains needle text) PartialAttachError ("partial attach transcript missing " ++ needle)).

(** [run], without the self-test. *)
Definition run (argv : list string) : result (list string) :=
  let* args := parse_args argv in
  match evidence args with
  | None => fail "internal argument parser error"
  | Some p => validate_evidence p ;;; Ok ["PASS partial attach evidence: " ++ path_str p]
  end.

Definition main (argv : list string) : exit :=
  run_main (fun c => is_OSError c || is_class EvidenceSafetyError c || is_class JSONDecodeError c
                     || is_class PartialAttachError c)
    "FAIL partial attach evidence" (run argv).
End Checker.

(** * Specification *)
Definition no_contradiction (d : jobject) : Prop :=
  (forall f, In f ["dirty_worktree"; "stale_state"; "misleading_success_output"] -> get d f <> JBool true)
  /\ forall cleanup, get d "cleanup" = JDict cleanup ->
       forall f, In f ["qemu_leftovers"; "tmux_leftovers"] -> get cleanup f <> JBool true.

Record attach_ok (F : fs) (d : jobject) : Prop := {
  pa_schema : get d "schema" = JStr SCHEMA;
  pa_consistent : no_contradiction d;
  pa_no_claims : get d "host_mutation" = JBool false /\ get d "release_eligible_live_proof" = JBool false;
  pa_attach : get d "ops_during_attach" = JStr "zigsched_minimal"
    /\ get d "switch_mode" = JStr "SCX_OPS_SWITCH_PARTIAL"
    /\ get d "attach_command" = JStr "bpftool struct_ops register";
  pa_target : exists s, get d "target_cgroup" = JStr s /\ exists slice, slice <> "" /\ s = TARGET_PREFIX ++ slice;
  pa_rollback : (exists s, get d "rollback_id" = JStr s /\ s <> "") /\ get d "rollback_status" = JStr "PASS"
    /\ exists s, get d "post_state" = JStr s /\ In s ["disabled"; "previous"];
  pa_object : exists s, get d "object_sha256" = JStr s /\ s <> "" /\ s <> repeat_str 64 "0";
  pa_transcript : exists s text, get d "transcript_path" = JStr s /\ s <> "" /\ is_absolute (Path s) = false
    /\ ~ In ".." (parts (Path s)) /\ read_text F (Path s) = Ok text
    /\ forall needle, In needle ["bpftool struct_ops register"; "ops=zigsched_minimal"; "rollback_status=PASS"] ->
         exists a b, text = a ++ needle ++ b;
}.

(** * Lemmas *)
Lemma contradictions_ok d c : reject_contradictions d c = Ok tt <-> no_contradiction d.
Proof.
  assert (Hflags : forall (o : jobject) fields (m : string -> string),
    for_each fields (fun f => ensure (negb (is_true (get o f))) EvidenceSafetyError (m f)) = Ok tt <->
    forall f, In f fields -> get o f <> JBool true).
  { intros o fields m. rewrite for_each_ok, Forall_forall. setoid_rewrite list_elem_of_In. setoid_rewrite ensure_ok.
    setoid_rewrite negb_true_iff. split; intros H f Hf; specialize (H f Hf).
    - intros Ht%is_true_iff. congruence.
    - apply not_true_is_false. by rewrite is_true_iff. }
  unfold reject_contradictions, no_contradiction. rewrite bind_ok_unit, Hflags. f_equiv.
  destruct (get d "cleanup") as [| | | | | |cleanup]; try (split; [by intros _ ? [=] | done]).
  rewrite Hflags. split; [by intros H ? [= <-] | intros H; by apply H].
Qed.

Lemma attach_text_ok d f s : require_text d f = Ok s <-> get d f = JStr s /\ s <> "".
Proof.
  unfold require_text. destruct (get d f) as [| | | |t| |]; try (split; [discriminate | by intros [[=] _]]).
  destruct (String.eqb_spec t "") as [->|Ht]; [split; [discriminate | by intros [[= <-] ?]]|].
  rewrite Ok_inj. split; [by intros <- | by intros [[= <-] _]].
Qed.
Lemma attach_bool_ok d f b : require_bool d f = Ok b <-> get d f = JBool b.
Proof. unfold require_bool. destruct (get d f); split; (congruence || discriminate). Qed.
Lemma attach_text_is d f lit m : String.eqb lit "" = false -> require_text_is d f lit m = Ok tt <-> get d f = JStr lit.
Proof.
  intros Hl%String.eqb_neq. unfold require_text_is. rewrite bind_ok. setoid_rewrite attach_text_ok.
  setoid_rewrite ensure_ok. setoid_rewrite String.eqb_eq. naive_solver.
Qed.

(** The target is the prefix and something below it. *)
Lemma below_prefix s : startswith s TARGET_PREFIX && negb (String.eqb s TARGET_PREFIX) = true <->
  exists slice, slice <> "" /\ s = TARGET_PREFIX ++ slice.
Proof.
  rewrite andb_true_iff, startswith_iff, negb_true_iff, String.eqb_neq. split.
  - intros [[r ->] Hne]. exists r. split; [|done]. by intros ->.
  - intros (r & Hr & ->). split; [by exists r|]. by destruct r.
Qed.

Lemma schema_guard d schema :
  (if negb (String.eqb schema SCHEMA) then
     if py_eq (get d "schema") (JStr REFUSAL_SCHEMA)
     then fail "host refusal is not partial attach evidence"
     else fail "unsupported partial attach evidence schema"
   else Ok tt) = Ok tt <-> schema = SCHEMA.
Proof.
  destruct (String.eqb_spec schema SCHEMA) as [->|H]; [done|]. simpl. by destruct (py_eq _ _).
Qed.

Lemma transcript_safe F p :
  negb (is_absolute p || mem ".." (parts p) || negb (exists_ F p)) = true <->
  is_absolute p = false /\ ~ In ".." (parts p) /\ exists_ F p = true.
Proof.
  rewrite negb_true_iff, !orb_false_iff, negb_false_iff, <- (not_true_iff_false (mem _ _)), mem_In. tauto.
Qed.

Lemma read_exists F p t : read_text F p = Ok t -> exists_ F p = true.
Proof. unfold read_text, read_bytes, exists_. by destruct (fs_node F (path_str p)). Qed.

Lemma evidence_accepted F p :
  validate_evidence F p = Ok tt -> exists d, load_object F p = Ok d /\ attach_ok F d.
Proof.
  unfold validate_evidence. intros (d & Hd & H)%bind_ok. exists d. split; [done|].
  apply bind_ok in H as (schema & [Hs _]%attach_text_ok & H). apply bind_ok_unit in H as [->%schema_guard H].
  apply bind_ok_unit in H as [Hc%contradictions_ok H]. apply bind_ok in H as (b & Hb%attach_bool_ok & H).
  apply bind_ok_unit in H as [->%ensure_ok%negb_true_iff H]. apply bind_ok in H as (r & Hr%attach_bool_ok & H).
  apply bind_ok_unit in H as [->%ensure_ok%negb_true_iff H].
  apply bind_ok_unit in H as [H1 H]. apply bind_ok_unit in H as [H2 H]. apply bind_ok_unit in H as [H3 H].
  apply attach_text_is in H1, H2, H3; try done.
  apply bind_ok in H as (target & [Ht _]%attach_text_ok & H). apply bind_ok_unit in H as [Hbelow H].
  apply ensure_ok in Hbelow. rewrite below_prefix in Hbelow.
  apply bind_ok in H as (rid & [Hrid Hne]%attach_text_ok & H). apply bind_ok_unit in H as [_ H].
  apply bind_ok_unit in H as [H4 H]. apply attach_text_is in H4; [|done].
  apply bind_ok in H as (post & [Hpost _]%attach_text_ok & H). apply bind_ok_unit in H as [Hp%ensure_ok%mem_In H].
  apply bind_ok in H as (sha & Hsha%attach_text_ok & H).
  apply bind_ok_unit in H as [Hz%ensure_ok%negb_true_iff%String.eqb_neq H].
  apply bind_ok in H as (tn & Htn%attach_text_ok & H). apply bind_ok_unit in H as [Hsafe%ensure_ok%transcript_safe H].
  apply bind_ok in H as (text & Htext & Hn%for_each_ok). rewrite Forall_forall in Hn.
  split; try done; [by exists target | split; [by exists rid | split; [done | by exists post]] | by exists sha; destruct Hsha|].
  exists tn, text. destruct Htn as [Htn Htn'], Hsafe as (Ha & Hd' & _). repeat (split; [done|]).
  intros needle Hi%list_elem_of_In%Hn%ensure_ok. by apply contains_iff.
Qed.

Lemma evidence_complete F p d : load_object F p = Ok d -> attach_ok F d -> validate_evidence F p = Ok tt.
Proof.
  intros Hd [Hs Hc [Hh Hr] (H1 & H2 & H3) (target & Ht & Hbelow) ((rid & Hrid & Hne) & H4 & post & Hpost & Hp)
    (sha & Hsha & Hsne & Hz) (tn & text & Htn & Htne & Ha & Hdd & Htext & Hn)].
  unfold validate_evidence. rewrite Hd. cbn [bind].
  apply bind_ok. exists SCHEMA. rewrite attach_text_ok. split; [done|]. apply bind_ok_unit; split; [by apply schema_guard|].
  apply bind_ok_unit; split; [by apply contradictions_ok|].
  apply bind_ok. exists false. rewrite attach_bool_ok. split; [done|]. apply bind_ok_unit; split; [done|].
  apply bind_ok. exists false. rewrite attach_bool_ok. split; [done|]. apply bind_ok_unit; split; [done|].
  do 3 (apply bind_ok_unit; split; [by apply attach_text_is|]).
  apply bind_ok. exists target. rewrite attach_text_ok. split; [split; [done|]; destruct Hbelow as (r & _ & ->); done|].
  apply bind_ok_unit; split; [by apply ensure_ok, below_prefix|].
  apply bind_ok. exists rid. rewrite attach_text_ok. split; [done|].
  apply bind_ok_unit; split; [by apply ensure_ok, negb_true_iff, String.eqb_neq|].
  apply bind_ok_unit; split; [by apply attach_text_is|].
  apply bind_ok. exists post. rewrite attach_text_ok. split; [split; [done | by destruct Hp as [<-|[<-|[]]]]|].
  apply bind_ok_unit; split; [by apply ensure_ok, mem_In|].
  apply bind_ok. exists sha. rewrite attach_text_ok. split; [done|].
  apply bind_ok_unit; split; [by apply ensure_ok, negb_true_iff, String.eqb_neq|].
  apply bind_ok. exists tn. rewrite attach_text_ok. split; [done|].
  apply bind_ok_unit; split; [apply ensure_ok, transcript_safe; eauto using read_exists|].
  apply bind_ok. exists text. split; [done|]. apply for_each_ok, Forall_forall.
  intros needle Hi%list_elem_of_In%Hn. by apply ensure_ok, contains_iff.
Qed.

(** * Properties *)

(** C40: [validate_evidence] accepts partial attach evidence exactly when it is an
    object with the partial attach schema that contradicts itself nowhere, mutates
    no host and claims no release, attached zigsched_minimal in partial-switch mode
    to a cgroup strictly below the lab slice, rolled back to a safe state, names an
    object digest that is not all zero, and its transcript, a safe relative path,
    shows the registration, the ops and the rollback. *)
Theorem partial_attach_iff F p :
  validate_evidence F p = Ok tt <-> exists d, load_object F p = Ok d /\ attach_ok F d.
Proof. split; [apply evidence_accepted | intros (d & Hd & H); by eapply evidence_complete]. Qed.
