(* ===== verification/Observe.v ===== *)
(** Observe: qa/lab_summary_observe.py, the summary of an observed partial
    attach and the samples, ledger and daemon stream it links. *)
From S2P Require Import Prelude PyStr PyRe PyFloat PyJson PyFs PyMain.
From S2P Require Import AuditLedger RuntimeSample.

Local Open Scope string_scope.

Definition SUMMARY_SCHEMA : string := "zig-scheduler/observe-partial-summary/v1".

Record Args : Set := MkArgs { summary : option path; self_test : bool }.

Definition fail {A} (m : string) : result A := raise ObserveSummaryError m.

Definition parse_args (argv : list string) : result Args :=
  match argv with
  | ["--self-test"] => Ok (MkArgs None true)
  | ["--summary"; p] => Ok (MkArgs (Some (Path p)) false)
  | _ => fail "usage: lab_summary_observe.py --summary <summary.json> | --self-test"
  end.

Definition require_string (data : jobject) (field context : string) : result string :=
  match get data field with
  | JStr value =>
      if String.eqb value "" then fail (context ++ " missing non-empty string field: " ++ field) else Ok value
  | _ => fail (context ++ " missing non-empty string field: " ++ field)
  end.

Definition require_bool (data : jobject) (field context : string) : result bool :=
  match get data field with
  | JBool b => Ok b
  | _ => fail (context ++ " missing bool field: " ++ field)
  end.

Definition require_int (data : jobject) (field context : string) : result Z :=
  match as_int (get data field) with
  | Some n => Ok n
  | None => fail (context ++ " missing int field: " ++ field)
  end.

Definition workload_execution_passed (summary : jobject) : bool :=
  match get summary "workload_execution" with
  | JDict value =>
      py_eq (get value "status") (JStr "PASS") && is_false (get value "host_mutation")
      && negb (py_eq (get value "scenario") (JStr "live-backend"))
  | _ => false
  end.

Definition present_fact (value : string) : json := JDict [("status", JStr "present"); ("value", JStr value)].

Definition validate_snapshot (summary : jobject) : result unit :=
  match get summary "scheduler_snapshot" with
  | JDict snapshot =>
      let* final_state := require_string summary "final_state" "observe" in
      let* final_ops := require_string summary "final_ops" "observe" in
      let* restored := require_bool summary "final_state_disabled_or_rolled_back" "observe" in
      ensure restored ObserveSummaryError "observe final state is not disabled or rolled back" ;;;
      ensure (py_eq (get snapshot "state") (present_fact final_state)) ObserveSummaryError
        "observe scheduler_snapshot state conflicts with final_state" ;;;
      ensure (py_eq (get snapshot "root_ops") (present_fact final_ops)) ObserveSummaryError
        "observe scheduler_snapshot root_ops conflicts with final_ops"
  | _ => fail "observe missing scheduler_snapshot"
  end.

(** The checks of [validate_sample_series] on the loaded rows. *)
Definition check_series (summary : jobject) (rows : list jobject) (expected_count : Z) : result unit :=
  ensure (negb (Nat.ltb (List.length rows) 3)
          && (Z.of_nat (List.length rows) =? expected_count)%Z) ObserveSummaryError
    "observe samples must include before/during/after rows" ;;;
  ensure (existsb (fun row => py_eq (get row "ops") (present_fact "zigsched_minimal")) rows)
    ObserveSummaryError "observe samples never show zigsched_minimal during attach" ;;;
  ensure (forallb (fun row => is_false (get row "private_command_lines_sampled")) rows) ObserveSummaryError
    "observe samples include private command-line sampling" ;;;
  let workload_alive_all_samples := forallb (fun row => is_true (get row "workload_alive")) rows in
  let* claimed := require_bool summary "workload_alive_all_samples" "observe" in
  ensure (Bool.eqb claimed workload_alive_all_samples) ObserveSummaryError
    "observe workload_alive_all_samples conflicts with sample rows" ;;;
  ensure (workload_alive_all_samples || workload_execution_passed summary) ObserveSummaryError
    "observe workload was not alive for every sample".

(** The checks of [validate_daemon_events] on the loaded rows. *)
Definition check_daemon_rows (rows : list jobject) : result unit :=
  let runtime_events := List.filter (fun row => py_eq (get row "event") (JStr "runtime_sample")) rows in
  ensure (match runtime_events with [] => false | _ => true end) ObserveSummaryError
    "daemon stream emitted no runtime_sample events" ;;;
  ensure (existsb (fun row => py_eq (get row "ops") (JStr "zigsched_minimal")) runtime_events)
    ObserveSummaryError "daemon stream never emitted zigsched_minimal" ;;;
  ensure (negb (existsb (fun row =>
            contains "cmdline" (dumps (JDict row)) || contains "environment" (dumps (JDict row))) rows))
    ObserveSummaryError "daemon stream leaked private process fields".

Section Checker.
Variable F : fs.

Definition load_object (p : path) : result jobject :=
  let* raw := catch (bind (read_text F p) loads) (fun exc =>
    if decide (exn_cls exc = FileNotFoundError) then Some (fail ("missing JSON file: " ++ path_str p))
    else if decide (exn_cls exc = JSONDecodeError)
    then Some (fail ("invalid JSON in " ++ path_str p ++ ": " ++ exn_str exc))
    else None) in
  match raw with
  | JDict d => Ok d
  | _ => fail (path_str p ++ " must contain a JSON object")
  end.

Fixpoint parse_lines (p : path) (lines : list string) : result (list jobject) :=
  match lines with
  | [] => Ok []
  | line :: lines =>
      if String.eqb (strip line) "" then parse_lines p lines
      else
        let* raw := loads line in
        match raw with
        | JDict d => let* rows := parse_lines p lines in Ok (d :: rows)
        | _ => fail (path_str p ++ " contains non-object JSONL row")
        end
  end.

Definition load_jsonl (p : path) : result (list jobject) :=
  let* text := read_text F p in parse_lines p (splitlines text).

Definition safe_path (summary : jobject) (field : string) : result path :=
  let* s := require_string summary field "observe" in
  let value := Path s in
  if is_absolute value || mem ".." (parts value) || negb (exists_ F value)
  then fail ("observe path is unsafe or missing: " ++ field)
  else Ok value.

Definition sibling_path (summary_path : path) (summary : jobject) (field : string) : result path :=
  let* value := safe_path summary field in
  ensure (path_eqb (parent value) (parent summary_path)) ObserveSummaryError
    ("observe path is not colocated with summary: " ++ field) ;;;
  Ok value.

Definition validate_links (samples ledger : path) : result unit :=
  catch (RuntimeSample.validate_file F samples ;;; AuditLedger.validate_ledger F ledger) (fun exc =>
    if decide (exn_cls exc = RuntimeSampleError \/ exn_cls exc = AuditLedgerError)
    then Some (fail (exn_str exc)) else None).

Definition validate_sample_series (summary : jobject) (samples : path) (expected_count : Z) : result unit :=
  let* rows := load_jsonl samples in check_series summary rows expected_count.

Definition validate_daemon_events (p : path) : result unit :=
  let* rows := load_jsonl p in check_daemon_rows rows.

Definition validate_observe (p : path) : result unit :=
  let* summary := load_object p in
  let* schema := require_string summary "schema" "observe" in
  ensure (String.eqb schema SUMMARY_SCHEMA) ObserveSummaryError
    "observe summary has unsupported schema" ;;;
  let* mode := require_string summary "evidence_mode" "observe" in
  ensure (mem mode ["fixture"; "vm-configured-fixture"; "vm-live"; "host-refusal"]) ObserveSummaryError
    ("observe evidence_mode is invalid: " ++ mode) ;;;
  let* release_proof := require_bool summary "release_eligible_live_proof" "observe" in
  ensure (negb (negb (String.eqb mode "vm-live") && release_proof)) ObserveSummaryError
    "non-VM-live observe evidence cannot be release eligible" ;;;
  ensure (negb release_proof) ObserveSummaryError
    "observe release proof is disabled until signed VM-live transport is implemented" ;;;
  let* samples := sibling_path p summary "runtime_samples" in
  let* ledger := safe_path summary "audit_ledger" in
  let* _ := sibling_path p summary "transcript" in
  let* daemon_events := sibling_path p summary "daemon_runtime_events" in
  validate_links samples ledger ;;;
  let* count := require_int summary "sample_count" "observe" in
  validate_sample_series summary samples count ;;;
  validate_daemon_events daemon_events ;;;
  validate_snapshot summary.

(** [run], without the self-test. *)
Definition run (argv : list string) : result (list string) :=
  let* args := parse_args argv in
  match Observe.summary args with
  | None => fail "internal argument parser error"
  | Some p => validate_observe p ;;; Ok ["PASS observe summary: " ++ path_str p]
  end.

Definition main (argv : list string) : exit :=
  run_main (fun c => is_class ObserveSummaryError c || is_class JSONDecodeError c)
    "FAIL observe summary" (run argv).
End Checker.

(** * Specification *)
Definition alive_throughout (rows : list jobject) : Prop :=
  Forall (fun row => get row "workload_alive" = JBool true) rows.

Record series_ok (d : jobject) (rows : list jobject) (expected : Z) : Prop := {
  se_count : 3 <= length rows /\ expected = Z.of_nat (length rows);
  se_attached : Exists (fun row => py_eq (get row "ops") (present_fact "zigsched_minimal") = true) rows;
  se_private : Forall (fun row => get row "private_command_lines_sampled" = JBool false) rows;
  se_alive : exists claimed, get d "workload_alive_all_samples" = JBool claimed
    /\ (claimed = true <-> alive_throughout rows)
    /\ (alive_throughout rows \/ workload_execution_passed d = true);
}.

Definition is_runtime_sample (row : jobject) : Prop := get row "event" = JStr "runtime_sample".

(** A runtime sample ran zigsched_minimal, and no row's text names private fields. *)
Record events_ok (rows : list jobject) : Prop := {
  eo_attached : Exists (fun row => is_runtime_sample row /\ get row "ops" = JStr "zigsched_minimal") rows;
  eo_private : Forall (fun row => contains "cmdline" (dumps (JDict row)) = false
                                  /\ contains "environment" (dumps (JDict row)) = false) rows;
}.

Record snapshot_ok (d : jobject) : Prop := {
  so_restored : get d "final_state_disabled_or_rolled_back" = JBool true;
  so_snapshot : exists snapshot state ops, get d "scheduler_snapshot" = JDict snapshot
    /\ get d "final_state" = JStr state /\ state <> "" /\ get d "final_ops" = JStr ops /\ ops <> ""
    /\ py_eq (get snapshot "state") (present_fact state) = true
    /\ py_eq (get snapshot "root_ops") (present_fact ops) = true;
}.

(** A safe relative path of the summary that exists. *)
Definition linked (F : fs) (d : jobject) (field : string) (p : path) : Prop :=
  exists s, get d field = JStr s /\ s <> "" /\ p = Path s /\ is_absolute p = false /\ ~ In ".." (parts p)
            /\ exists_ F p = true.

Record observe_ok (F : fs) (p : path) (d : jobject) : Prop := {
  ob_schema : get d "schema" = JStr SUMMARY_SCHEMA;
  ob_mode : exists mode, get d "evidence_mode" = JStr mode
    /\ In mode ["fixture"; "vm-configured-fixture"; "vm-live"; "host-refusal"];
  ob_release : get d "release_eligible_live_proof" = JBool false;
  ob_transcript : exists q, linked F d "transcript" q /\ parent q = parent p;
  ob_ledger : exists q, linked F d "audit_ledger" q /\ AuditLedger.validate_ledger F q = Ok tt;
  ob_samples : exists q rows n, linked F d "runtime_samples" q /\ parent q = parent p
    /\ RuntimeSample.validate_file F q = Ok tt /\ load_jsonl F q = Ok rows
    /\ as_int (get d "sample_count") = Some n /\ series_ok d rows n;
  ob_events : exists q rows, linked F d "daemon_runtime_events" q /\ parent q = parent p
    /\ load_jsonl F q = Ok rows /\ events_ok rows;
  ob_snapshot : snapshot_ok d;
}.

(** * Lemmas *)
Lemma obs_text_ok d f c s : require_string d f c = Ok s <-> get d f = JStr s /\ s <> "".
Proof.
  unfold require_string. destruct (get d f) as [| | | |t| |]; try (split; [discriminate | by intros [[=] _]]).
  destruct (String.eqb_spec t "") as [->|Ht]; [split; [discriminate | by intros [[= <-] ?]]|].
  rewrite Ok_inj. split; [by intros <- | by intros [[= <-] _]].
Qed.
Lemma obs_bool_ok d f c b : require_bool d f c = Ok b <-> get d f = JBool b.
Proof. unfold require_bool. destruct (get d f); split; (congruence || discriminate). Qed.
Lemma obs_int_ok d f c n : require_int d f c = Ok n <-> as_int (get d f) = Some n.
Proof. unfold require_int. destruct (as_int (get d f)); split; (congruence || discriminate). Qed.

Lemma forallb_prop {A} (f : A -> bool) (P : A -> Prop) l : (forall x, f x = true <-> P x) -> forallb f l = true <-> Forall P l.
Proof.
  intros H. rewrite forallb_forall, Forall_forall. setoid_rewrite list_elem_of_In. by setoid_rewrite H.
Qed.
Lemma existsb_prop {A} (f : A -> bool) (P : A -> Prop) l : (forall x, f x = true <-> P x) -> existsb f l = true <-> Exists P l.
Proof.
  intros H. rewrite existsb_exists, Exists_exists. setoid_rewrite list_elem_of_In. by setoid_rewrite H.
Qed.

Lemma check_series_ok d rows n : check_series d rows n = Ok tt <-> series_ok d rows n.
Proof.
  assert (Ha : forallb (fun row => is_true (get row "workload_alive")) rows = true <-> alive_throughout rows)
    by (apply forallb_prop; intros; apply is_true_iff).
  unfold check_series. cbv zeta. rewrite !bind_ok_unit, !ensure_ok, bind_ok. setoid_rewrite obs_bool_ok.
  setoid_rewrite bind_ok_unit. setoid_rewrite ensure_ok. rewrite andb_true_iff, negb_true_iff, Nat.ltb_ge, Z.eqb_eq.
  rewrite (existsb_prop _ (fun row => py_eq (get row "ops") (present_fact "zigsched_minimal") = true)) by done.
  rewrite (forallb_prop _ (fun row => get row "private_command_lines_sampled" = JBool false)) by (intros; apply is_false_iff).
  setoid_rewrite eqb_true_iff. setoid_rewrite orb_true_iff. setoid_rewrite Ha. split.
  - intros ([Hl Hn] & He & Hp & c & Hc & -> & Hw). split; try done. by exists (forallb (fun row => is_true (get row "workload_alive")) rows).
  - intros [[Hl ->] He Hp (c & Hc & Hca & Hw)]. split; [done|]. split; [done|]. split; [done|]. exists c.
    split; [done|]. split; [|done]. destruct c; [symmetry; by apply Ha, Hca|]. symmetry. apply not_true_is_false.
    intros Ht%Ha%Hca. discriminate.
Qed.

Lemma nonempty_iff {A} (l : list A) : (match l with [] => false | _ => true end) = true <-> l <> [].
Proof. by destruct l. Qed.

Lemma check_daemon_rows_ok rows : check_daemon_rows rows = Ok tt <-> events_ok rows.
Proof.
  unfold check_daemon_rows, is_runtime_sample. cbv zeta. rewrite !bind_ok_unit, !ensure_ok, nonempty_iff.
  rewrite negb_true_iff, <- not_true_iff_false.
  rewrite (existsb_prop _ (fun row => py_eq (get row "ops") (JStr "zigsched_minimal") = true)) by done.
  rewrite (existsb_prop _ (fun row => contains "cmdline" (dumps (JDict row)) = true
                                      \/ contains "environment" (dumps (JDict row)) = true)) by (intros; apply orb_true_iff).
  rewrite !Exists_exists. setoid_rewrite list_elem_of_In. setoid_rewrite filter_In. setoid_rewrite py_eq_str. split.
  - intros (_ & (x & [Hx He] & Ho) & Hp). split.
    + apply Exists_exists. exists x. rewrite list_elem_of_In. done.
    + apply Forall_forall. intros y Hy%list_elem_of_In. split; apply not_true_is_false; intros Hc; apply Hp; exists y; tauto.
  - intros [(x & Hx%list_elem_of_In & He & Ho)%Exists_exists Hp]. rewrite Forall_forall in Hp.
    assert (Hf : In x (List.filter (fun row => py_eq (get row "event") (JStr "runtime_sample")) rows))
      by (apply filter_In; split; [done | by apply py_eq_str]).
    split; [intros Hn; by rewrite Hn in Hf|]. split; [by exists x|].
    intros (y & Hy%list_elem_of_In%Hp & Hc). destruct Hy as [H1 H2]. rewrite H1, H2 in Hc. by destruct Hc.
Qed.

Lemma validate_snapshot_ok d : validate_snapshot d = Ok tt <-> snapshot_ok d.
Proof.
  unfold validate_snapshot. split.
  - destruct (get d "scheduler_snapshot") as [| | | | | |snapshot] eqn:E; try discriminate.
    intros (s & [Hs Hs']%obs_text_ok & (o & [Ho Ho']%obs_text_ok & (r & Hr%obs_bool_ok & H)%bind_ok)%bind_ok)%bind_ok.
    apply bind_ok_unit in H as [->%ensure_ok (H1%ensure_ok & H2%ensure_ok)%bind_ok_unit].
    split; [done|]. by exists snapshot, s, o.
  - intros [Hr (snapshot & s & o & -> & Hs & Hs' & Ho & Ho' & H1 & H2)].
    apply bind_ok. exists s. rewrite obs_text_ok. split; [done|]. apply bind_ok. exists o. rewrite obs_text_ok. split; [done|].
    apply bind_ok. exists true. rewrite obs_bool_ok. split; [done|]. by run_ok.
Qed.

Lemma safe_path_ok F d f p : safe_path F d f = Ok p <-> linked F d f p.
Proof.
  unfold safe_path, linked. rewrite bind_ok. setoid_rewrite obs_text_ok. split.
  - intros (s & [Hs Hne] & H). destruct (is_absolute (Path s) || _ || _) eqn:E; [discriminate|]. injection H as <-.
    apply orb_false_iff in E as [[Ha Hd]%orb_false_iff He%negb_false_iff]. exists s. rewrite <- mem_In.
    repeat (split; [done|]). split; [congruence | done].
  - intros (s & Hs & Hne & -> & Ha & Hd & He). exists s. split; [done|]. rewrite <- mem_In in Hd.
    apply not_true_is_false in Hd. by rewrite Ha, Hd, He.
Qed.

Lemma sibling_path_ok F p d f q : sibling_path F p d f = Ok q <-> linked F d f q /\ parent q = parent p.
Proof.
  unfold sibling_path. rewrite bind_ok. setoid_rewrite safe_path_ok. split.
  - by intros (x & Hx & (He%ensure_ok%path_eqb_eq & [= <-])%bind_ok_unit).
  - intros [Hl He]. exists q. split; [done|]. run_ok. by apply path_eqb_eq.
Qed.

Lemma validate_links_ok F samples ledger :
  validate_links F samples ledger = Ok tt <->
  RuntimeSample.validate_file F samples = Ok tt /\ AuditLedger.validate_ledger F ledger = Ok tt.
Proof.
  unfold validate_links. rewrite <- (bind_ok_unit _ (fun _ => AuditLedger.validate_ledger F ledger)).
  destruct (bind _ _) as [[]|e]; simpl; [done|].
  case_decide; split; discriminate.
Qed.

Lemma release_guard (b c : bool) m1 m2 (k : result unit) :
  (ensure (negb (c && b)) ObserveSummaryError m1 ;;; ensure (negb b) ObserveSummaryError m2 ;;; k) = Ok tt <->
  b = false /\ k = Ok tt.
Proof. rewrite !bind_ok_unit, !ensure_ok, !negb_true_iff, andb_false_iff. destruct b; naive_solver. Qed.

Lemma observe_accepted F p : validate_observe F p = Ok tt -> exists d, load_object F p = Ok d /\ observe_ok F p d.
Proof.
  unfold validate_observe. intros (d & Hd & H)%bind_ok. exists d. split; [done|].
  apply bind_ok in H as (schema & [Hs _]%obs_text_ok & H). apply bind_ok_unit in H as [->%ensure_ok%String.eqb_eq H].
  apply bind_ok in H as (mode & [Hm _]%obs_text_ok & H). apply bind_ok_unit in H as [Hin%ensure_ok%mem_In H].
  apply bind_ok in H as (rel & Hrel%obs_bool_ok & H). apply release_guard in H as [-> H].
  apply bind_ok in H as (sa & [Hsa Hsa']%sibling_path_ok & H). apply bind_ok in H as (le & Hle%safe_path_ok & H).
  apply bind_ok in H as (tr & Htr%sibling_path_ok & H). apply bind_ok in H as (ev & [Hev Hev']%sibling_path_ok & H).
  apply bind_ok_unit in H as [[Vsa Vle]%validate_links_ok H]. apply bind_ok in H as (n & Hn%obs_int_ok & H).
  apply bind_ok_unit in H as [(rows & Hrows & Hser%check_series_ok)%bind_ok H].
  apply bind_ok_unit in H as [(evs & Hevs & He%check_daemon_rows_ok)%bind_ok Hsn%validate_snapshot_ok].
  split; try done; [by exists mode | by exists tr | by exists le | by exists sa, rows, n | by exists ev, evs].
Qed.

Lemma observe_complete F p d : load_object F p = Ok d -> observe_ok F p d -> validate_observe F p = Ok tt.
Proof.
  intros Hd [Hs (mode & Hm & Hin) Hrel (tr & Htr) (le & Hle & Vle) (sa & rows & n & Hsa & Hsa' & Vsa & Hrows & Hn & Hser)
    (ev & evs & Hev & Hev' & Hevs & He) Hsn].
  unfold validate_observe. rewrite Hd. cbn [bind].
  apply bind_ok. exists SUMMARY_SCHEMA. rewrite obs_text_ok. split; [done|]. apply bind_ok_unit; split; [done|].
  apply bind_ok. exists mode. rewrite obs_text_ok. split; [split; [done|]; by destruct Hin as [<-|[<-|[<-|[<-|[]]]]]|].
  apply bind_ok_unit; split; [by apply ensure_ok, mem_In|].
  apply bind_ok. exists false. rewrite obs_bool_ok. split; [done|]. apply release_guard. split; [done|].
  apply bind_ok. exists sa. rewrite sibling_path_ok. split; [done|]. apply bind_ok. exists le. rewrite safe_path_ok. split; [done|].
  apply bind_ok. exists tr. rewrite sibling_path_ok. split; [done|]. apply bind_ok. exists ev. rewrite sibling_path_ok. split; [done|].
  apply bind_ok_unit; split; [by apply validate_links_ok|]. apply bind_ok. exists n. rewrite obs_int_ok. split; [done|].
  apply bind_ok_unit; split; [apply bind_ok; exists rows; by rewrite check_series_ok|].
  apply bind_ok_unit; split; [apply bind_ok; exists evs; by rewrite check_daemon_rows_ok|].
  by apply validate_snapshot_ok.
Qed.

(** * Properties *)

(** [validate_observe] accepts an observe summary exactly when it is an object
    with the summary schema and a known evidence mode that claims no release proof,
    its samples, transcript and daemon events are beside it, the samples and the
    audit ledger pass their own checks, at least three samples show the attach, take
    no private command lines and bear out what is said about the workload, the
    daemon stream shows the attach and leaks nothing, and the final snapshot is the
    stated, restored state. *)
Theorem observe_iff F p :
  validate_observe F p = Ok tt <-> exists d, load_object F p = Ok d /\ observe_ok F p d.
Proof. split; [apply observe_accepted | intros (d & Hd & H); by eapply observe_complete]. Qed.
