(* ===== verification/LiveBehavior.v ===== *)
(** LiveBehavior: qa/live_behavior_check.py, the bundle of a VM-live run: the
    gate fields, the linked artifacts and the behaviour the samples show
    (before, during and after the attach, no growth of a reject counter). *)
From S2P Require Import Prelude PyStr PyRe PyFloat PyJson PyFs PyMain.
From S2P Require Import AuditLedger RuntimeSample PartialAttach Observe.

Local Open Scope string_scope.

Definition SUMMARY_SCHEMA : string := "zig-scheduler/run-all-lab/v1".
Definition VM_MARKER : string := "/run/zig-scheduler-vm-lab.marker".
Definition TARGET_PREFIX : string := "/sys/fs/cgroup/zig-scheduler-lab.slice/".
Definition COUNTER_RE : regex := rseq [
  RCap "1" (ralt [rlit "nr_rejected"; rlit "dispatch_failed"; rseq [rlit "fallback"; ropt (rlit "s")];
                  rlit "fatal"]);
  RChar (one_of ":="); rstar rspace; RCap "2" (rplus rdigit)].
Definition COUNTER_NAMES : list string := ["nr_rejected"; "dispatch_failed"; "fallback"; "fatal"].
Definition UNAVAILABLE_VALUES : list string := [""; "missing"; "none"; "null"; "unavailable"; "unknown"].
Definition SHA256_RE : regex := rseq [RBol; rrep 64 0 (RChar is_hex_lower); REol].

Record Args : Set := MkArgs { bundle : option path; self_test : bool }.

Definition fail {A} (m : string) : result A := raise LiveBehaviorError m.
Definition require (condition : bool) (message : string) : result unit :=
  ensure condition LiveBehaviorError message.

Definition parse_args (argv : list string) : result Args :=
  match argv with
  | ["--self-test"] => Ok (MkArgs None true)
  | ["--bundle"; p] => Ok (MkArgs (Some (Path p)) false)
  | _ => fail "usage: live_behavior_check.py --bundle <run-all-summary.json> | --self-test"
  end.

Definition require_text (data : jobject) (field context : string) : result string :=
  match get data field with
  | JStr value =>
      if String.eqb value "" then fail (context ++ " missing non-empty text field: " ++ field) else Ok value
  | _ => fail (context ++ " missing non-empty text field: " ++ field)
  end.

Definition require_bool (data : jobject) (field context : string) : result bool :=
  match get data field with
  | JBool b => Ok b
  | _ => fail (context ++ " missing bool field: " ++ field)
  end.

Definition require_list (data : jobject) (field context : string) : result (list json) :=
  match get data field with
  | JList (v :: l) => Ok (v :: l)
  | _ => fail (context ++ " missing non-empty list field: " ++ field)
  end.

Definition validate_vm_live_gate (summary : jobject) : result unit :=
  let* mode := require_text summary "evidence_mode" "bundle" in
  require (String.eqb mode "vm-live") "bundle is not VM-live evidence" ;;;
  let* kind := require_text summary "vm_kind" "bundle" in
  require (String.eqb kind "qemu-vm") "bundle must be from qemu-vm" ;;;
  let* present := require_bool summary "vm_marker_present" "bundle" in
  require present "bundle missing VM marker" ;;;
  let* marker := require_text summary "vm_marker_path" "bundle" in
  require (String.eqb marker VM_MARKER) "bundle VM marker path is invalid" ;;;
  let* rollback := require_text summary "rollback_result" "bundle" in
  require (String.eqb rollback "PASS") "bundle rollback_result must be PASS".

(** The first artifact whose path ends with the suffix. *)
Fixpoint require_artifact (paths : list path) (suffix : string) : result path :=
  match paths with
  | [] => fail ("bundle missing artifact: " ++ suffix)
  | p :: paths => if endswith (path_str p) suffix then Ok p else require_artifact paths suffix
  end.

Definition validate_partial_behavior (partial : jobject) : result unit :=
  let* ops := require_text partial "ops_during_attach" "partial" in
  require (String.eqb ops "zigsched_minimal") "partial attach did not run zigsched_minimal" ;;;
  let* mode := require_text partial "switch_mode" "partial" in
  require (String.eqb mode "SCX_OPS_SWITCH_PARTIAL") "partial attach was not partial-switch" ;;;
  let* target := require_text partial "target_cgroup" "partial" in
  require (startswith target TARGET_PREFIX) "partial attach target is not allowlisted" ;;;
  let* object_sha := require_text partial "object_sha256" "partial" in
  require (re_match SHA256_RE object_sha && negb (String.eqb object_sha (repeat_str 64 "0")))
    "partial attach object hash is malformed".

Definition workload_execution_passed (observe : jobject) : bool :=
  match get observe "workload_execution" with
  | JDict value =>
      py_eq (get value "status") (JStr "PASS") && is_false (get value "host_mutation")
      && negb (py_eq (get value "scenario") (JStr "live-backend"))
  | _ => false
  end.

(** The execution record is consulted only when a sample found no workload. *)
Definition validate_observe_behavior (observe : jobject) : result unit :=
  let* mode := require_text observe "evidence_mode" "observe" in
  require (String.eqb mode "vm-live") "observe summary is not VM-live" ;;;
  let* alive := require_bool observe "workload_alive_all_samples" "observe" in
  require (alive || workload_execution_passed observe) "workload was not alive across samples" ;;;
  let* restored := require_bool observe "final_state_disabled_or_rolled_back" "observe" in
  require restored "rollback did not restore scheduler state".

Definition fact_value (row : jobject) (field : string) : string :=
  match get row field with
  | JDict d => match get d "value" with JStr s => s | _ => "" end
  | _ => ""
  end.
Definition sample_ops (row : jobject) : string := fact_value row "ops".
Definition sample_state (row : jobject) : string := fact_value row "state".

Definition sample_events_known (row : jobject) : bool :=
  match get row "events" with
  | JDict events =>
      py_eq (get events "status") (JStr "present")
      && match get events "value" with JStr v => negb (mem (lower v) UNAVAILABLE_VALUES) | _ => false end
  | _ => false
  end.

Definition validate_required_counter_fact (row : jobject) (index : nat) (name : string) : result (option Z) :=
  let here := "sample " ++ str_nat index in
  match get row name with
  | JDict counter =>
      match get counter "status", get counter "value" with
      | JStr status, JStr value =>
          let events_known := sample_events_known row in
          if String.eqb status "present" then
            require (isdigit value) (here ++ " counter " ++ name ++ " present value must be numeric") ;;;
            require events_known
              (here ++ " counter " ++ name ++ " claims numeric value while events are unavailable") ;;;
            if isdecimal value then let* n := int_of_digits value in Ok (Some n)
            else raise ValueError ("invalid literal for int() with base 10: " ++ repr_str value)
          else
            require (mem status ["unknown"; "missing"; "unreadable"])
              (here ++ " counter " ++ name ++ " has unsupported status: " ++ status) ;;;
            require (mem (lower value) UNAVAILABLE_VALUES)
              (here ++ " counter " ++ name ++ " unavailable value is not explicit") ;;;
            Ok None
      | _, _ => fail (here ++ " counter " ++ name ++ " must have explicit status/value")
      end
  | _ => fail (here ++ " must expose counter fact: " ++ name)
  end.

(** [{match.group(1): int(match.group(2)) for match in ...}]: a later match of
    a name replaces the earlier one. *)
Fixpoint counters_of (ms : list (rstate * rstate)) (acc : gmap string Z) : result (gmap string Z) :=
  match ms with
  | [] => Ok acc
  | m :: ms =>
      let* n := int_of_digits (group "2" m) in
      counters_of ms (<[ group "1" m := n ]> acc)
  end.

Definition parse_counters (row : jobject) : result (gmap string Z) :=
  match get row "events" with
  | JDict events =>
      match get events "value" with
      | JStr raw => counters_of (re_finditer COUNTER_RE raw) ∅
      | _ => Ok ∅
      end
  | _ => Ok ∅
  end.

Definition grew (first last : gmap string Z) (name : string) : bool :=
  match first !! name, last !! name with
  | Some a, Some b => (a <? b)%Z
  | _, _ => false
  end.

Definition first_row (rows : list jobject) : result jobject :=
  match rows with [] => raise IndexError "list index out of range" | row :: _ => Ok row end.
Definition last_row (rows : list jobject) : result jobject := first_row (rev rows).

Definition validate_counter_growth (rows : list jobject) : result unit :=
  for_enum 0 rows (fun index row =>
    let* _ := validate_required_counter_fact row index "nr_rejected" in Ok tt) ;;;
  let* row0 := first_row rows in
  let* rowN := last_row rows in
  let* first_fact := validate_required_counter_fact row0 0 "nr_rejected" in
  let* last_fact := validate_required_counter_fact rowN (List.length rows - 1) "nr_rejected" in
  require (match first_fact, last_fact with Some a, Some b => negb (a <? b)%Z | _, _ => true end)
    "fatal/reject/fallback counter grew: nr_rejected" ;;;
  let* first := parse_counters row0 in
  let* last := parse_counters rowN in
  for_each COUNTER_NAMES (fun name =>
    require (negb (grew first last name)) ("fatal/reject/fallback counter grew: " ++ name)).

Definition validate_cgroup_membership (row : jobject) (index : nat) : result unit :=
  let here := "sample " ++ str_nat index in
  require (match get row "cgroup_membership_digest" with
           | JStr digest => re_match SHA256_RE digest && negb (String.eqb digest (repeat_str 64 "0"))
                            && negb (mem (lower digest) UNAVAILABLE_VALUES)
           | _ => false
           end) (here ++ " cgroup membership digest is not an observed sha256") ;;;
  require (match get row "cgroup_membership_status" with
           | JDict status => py_eq (get status "status") (JStr "present")
                             && py_eq (get status "value") (JStr "present")
           | _ => false
           end) (here ++ " cgroup membership status is not observed present").

(** [rows[1:-1]] *)
Definition middle (rows : list jobject) : list jobject := removelast (tl rows).

Definition is_live (row : jobject) : bool := String.eqb (sample_ops row) "zigsched_minimal".

Definition validate_samples (rows : list jobject) (observe : jobject) : result unit :=
  require (negb (Nat.ltb (List.length rows) 3)) "behavior proof requires before/during/after samples" ;;;
  let* row0 := first_row rows in
  require (negb (is_live row0)) "first sample must be before attach" ;;;
  require (existsb is_live (middle rows)) "middle samples never show zigsched_minimal during attach" ;;;
  let* rowN := last_row rows in
  require (negb (is_live rowN)) "last sample must be after rollback" ;;;
  require (mem (sample_state rowN) ["disabled"; "previous"])
    "last sample does not prove rollback-restored state" ;;;
  let workload_alive_all_samples := forallb (fun row => is_true (get row "workload_alive")) rows in
  let* claimed := require_bool observe "workload_alive_all_samples" "observe" in
  require (Bool.eqb claimed workload_alive_all_samples)
    "observe workload_alive_all_samples conflicts with samples" ;;;
  require (workload_alive_all_samples || workload_execution_passed observe)
    "workload is not alive in every sample" ;;;
  for_enum 0 rows (fun index row => validate_cgroup_membership row index) ;;;
  validate_counter_growth rows.

Definition validate_daemon_events (rows : list jobject) : result unit :=
  for_each rows (fun row =>
    require (is_false (get row "host_mutation")) "daemon events must explicitly report host_mutation=false") ;;;
  let runtime := List.filter (fun row => py_eq (get row "event") (JStr "runtime_sample")) rows in
  require (match runtime with [] => false | _ => true end) "daemon emitted no runtime_sample events" ;;;
  require (existsb (fun row => py_eq (get row "ops") (JStr "zigsched_minimal")) runtime)
    "daemon events never show zigsched_minimal".

Section Checker.
Variable F : fs.

Definition load_object (p : path) : result jobject :=
  let* raw := catch (bind (read_text F p) loads) (fun exc =>
    if decide (exn_cls exc = FileNotFoundError) then Some (fail ("missing JSON file: " ++ path_str p))
    else if decide (exn_cls exc = JSONDecodeError)
    then Some (fail ("invalid JSON in " ++ path_str p ++ ": " ++ exn_str exc))
    else None) in
  match raw with
  | JDict d => Ok d
  | _ => fail (path_str p ++ " must contain a JSON object")
  end.

Fixpoint parse_lines (p : path) (index : nat) (lines : list string) : result (list jobject) :=
  match lines with
  | [] => Ok []
  | line :: lines =>
      if String.eqb (strip line) "" then parse_lines p (S index) lines
      else
        let* raw := loads line in
        match raw with
        | JDict d => let* rows := parse_lines p (S index) lines in Ok (d :: rows)
        | _ => fail (path_str p ++ ":" ++ str_nat index ++ " must contain a JSON object")
        end
  end.

Definition load_jsonl (p : path) : result (list jobject) :=
  let* text := read_text F p in
  let* rows := parse_lines p 1 (splitlines text) in
  match rows with
  | [] => fail ("JSONL is empty: " ++ path_str p)
  | _ => Ok rows
  end.

Fixpoint paths_of (index : nat) (values : list json) : result (list path) :=
  match values with
  | [] => Ok []
  | JStr value :: values =>
      if String.eqb value "" then fail ("bundle.artifact_paths[" ++ str_nat index ++ "] must be path text")
      else
        let p := Path value in
        require (negb (is_absolute p || mem ".." (parts p) || negb (exists_ F p)))
          ("bundle artifact path is unsafe or missing: " ++ value) ;;;
        let* ps := paths_of (S index) values in
        Ok (p :: ps)
  | _ :: _ => fail ("bundle.artifact_paths[" ++ str_nat index ++ "] must be path text")
  end.

Definition artifact_paths (summary : jobject) : result (list path) :=
  let* values := require_list summary "artifact_paths" "bundle" in
  paths_of 0 values.

Definition validate_bundle (p : path) : result unit :=
  let* summary := load_object p in
  let* schema := require_text summary "schema" "bundle" in
  require (String.eqb schema SUMMARY_SCHEMA) "bundle has unsupported schema" ;;;
  let* status := require_text summary "status" "bundle" in
  require (String.eqb status "PASS") "bundle status must be PASS" ;;;
  let* host_mutation := require_bool summary "host_mutation" "bundle" in
  require (negb host_mutation) "bundle host_mutation must be false" ;;;
  validate_vm_live_gate summary ;;;
  let* artifacts := artifact_paths summary in
  let* partial := require_artifact artifacts "partial-attach-evidence.json" in
  let* observe := require_artifact artifacts "observe-partial/summary.json" in
  let* samples := require_artifact artifacts "runtime-samples.jsonl" in
  let* daemon_events := require_artifact artifacts "daemon-runtime-events.jsonl" in
  let* ledger := require_artifact artifacts "audit-ledger.jsonl" in
  PartialAttach.validate_evidence F partial ;;;
  Observe.validate_observe F observe ;;;
  RuntimeSample.validate_file F samples ;;;
  AuditLedger.validate_ledger F ledger ;;;
  let* partial_data := load_object partial in
  validate_partial_behavior partial_data ;;;
  let* observe_summary := load_object observe in
  validate_observe_behavior observe_summary ;;;
  let* sample_rows := load_jsonl samples in
  validate_samples sample_rows observe_summary ;;;
  let* daemon_rows := load_jsonl daemon_events in
  validate_daemon_events daemon_rows.

(** [run], without the self-test. *)
Definition run (argv : list string) : result (list string) :=
  let* args := parse_args argv in
  match bundle args with
  | None => fail "internal argument parser error"
  | Some p => validate_bundle p ;;; Ok ["PASS live behavior bundle: " ++ path_str p]
  end.

Definition main (argv : list string) : exit :=
  run_main (fun c => is_class AuditLedgerError c || is_class LiveBehaviorError c
                     || is_class ObserveSummaryError c || is_class PartialAttachError c
                     || is_class RuntimeSampleError c || is_OSError c || is_class JSONDecodeError c)
    "FAIL live behavior bundle" (run argv).
End Checker.

(** * Specification *)

(** A membership that was observed: a digest that is not all zero, and the status. *)
Definition membership_observed (row : jobject) : Prop :=
  (exists digest, get row "cgroup_membership_digest" = JStr digest /\ re_match SHA256_RE digest = true
    /\ digest <> repeat_str 64 "0" /\ ~ In (lower digest) UNAVAILABLE_VALUES)
  /\ exists status, get row "cgroup_membership_status" = JDict status
    /\ get status "status" = JStr "present" /\ get status "value" = JStr "present".

(** The reject counter of a row: a number, with known events, or explicitly unavailable. *)
Definition reject_counter (row : jobject) (n : option Z) : Prop :=
  exists i, validate_required_counter_fact row i "nr_rejected" = Ok n.

(** No counter of the list that both ends report is larger at the last end. *)
Definition no_growth (row0 rowN : jobject) : Prop :=
  (forall a b, reject_counter row0 (Some a) -> reject_counter rowN (Some b) -> (b <= a)%Z)
  /\ exists first last, parse_counters row0 = Ok first /\ parse_counters rowN = Ok last
     /\ forall name a b, In name COUNTER_NAMES -> first !! name = Some a -> last !! name = Some b -> (b <= a)%Z.

Definition all_alive (rows : list jobject) : Prop := Forall (fun row => get row "workload_alive" = JBool true) rows.

(** The samples of an attach between two ends, in this order. *)
Record behaviour_ok (rows : list jobject) (observe : jobject) : Prop := {
  bh_phases : exists row0 mid rowN, rows = row0 :: mid ++ [rowN]
    /\ sample_ops row0 <> "zigsched_minimal"
    /\ Exists (fun row => sample_ops row = "zigsched_minimal") mid
    /\ sample_ops rowN <> "zigsched_minimal" /\ In (sample_state rowN) ["disabled"; "previous"]
    /\ no_growth row0 rowN;
  bh_alive : exists claimed, get observe "workload_alive_all_samples" = JBool claimed
    /\ (claimed = true <-> all_alive rows)
    /\ (all_alive rows \/ workload_execution_passed observe = true);
  bh_membership : Forall membership_observed rows;
  bh_counters : Forall (fun row => exists n, reject_counter row n) rows;
}.

(** The gate of a VM-live bundle. *)
Record live_gate (d : jobject) : Prop := {
  lg_schema : get d "schema" = JStr SUMMARY_SCHEMA;
  lg_status : get d "status" = JStr "PASS";
  lg_host : get d "host_mutation" = JBool false;
  lg_mode : get d "evidence_mode" = JStr "vm-live";
  lg_kind : get d "vm_kind" = JStr "qemu-vm";
  lg_marker : get d "vm_marker_present" = JBool true /\ get d "vm_marker_path" = JStr VM_MARKER;
  lg_rollback : get d "rollback_result" = JStr "PASS";
}.

(** The first artifact of the list whose path ends with [suffix]. *)
Definition first_artifact (paths : list path) (suffix : string) (p : path) : Prop :=
  exists before after, paths = (before ++ p :: after)%list /\ endswith (path_str p) suffix = true
    /\ Forall (fun q => endswith (path_str q) suffix = false) before.

(** The artifacts of the bundle pass their own checks, and show the behaviour. *)
Record bundle_ok (F : fs) (paths : list path) : Prop := {
  bo_partial : exists p d, first_artifact paths "partial-attach-evidence.json" p
    /\ PartialAttach.validate_evidence F p = Ok tt /\ load_object F p = Ok d /\ validate_partial_behavior d = Ok tt;
  bo_ledger : exists p, first_artifact paths "audit-ledger.jsonl" p /\ AuditLedger.validate_ledger F p = Ok tt;
  bo_samples : exists p q observe rows, first_artifact paths "observe-partial/summary.json" p
    /\ Observe.validate_observe F p = Ok tt /\ load_object F p = Ok observe
    /\ validate_observe_behavior observe = Ok tt
    /\ first_artifact paths "runtime-samples.jsonl" q /\ RuntimeSample.validate_file F q = Ok tt
    /\ load_jsonl F q = Ok rows /\ behaviour_ok rows observe;
  bo_events : exists p rows, first_artifact paths "daemon-runtime-events.jsonl" p
    /\ load_jsonl F p = Ok rows /\ validate_daemon_events rows = Ok tt;
}.

(** Three samples whose events count one more [counter] each. *)
Definition demo_sample (ops state events : string) : jobject := [
  ("ops", present_fact ops); ("state", present_fact state); ("events", present_fact events);
  ("nr_rejected", present_fact "0"); ("workload_alive", JBool true);
  ("cgroup_membership_digest", JStr (repeat_str 64 "a")); ("cgroup_membership_status", present_fact "present")].
Definition demo_samples (counter : string) : list jobject := [
  demo_sample "none" "disabled" (counter ++ ": 0"); demo_sample "zigsched_minimal" "enabled" (counter ++ ": 1");
  demo_sample "none" "disabled" (counter ++ ": 2")].
Definition demo_observe : jobject := [("workload_alive_all_samples", JBool true)].

(** * Lemmas *)
Lemma live_require_ok c m u : require c m = Ok u <-> c = true.
Proof. apply ensure_ok. Qed.

(** The counter does not depend on the index, which is for the messages. *)
Lemma counter_fact_index row i j n :
  validate_required_counter_fact row i "nr_rejected" = Ok n -> validate_required_counter_fact row j "nr_rejected" = Ok n.
Proof.
  unfold validate_required_counter_fact. cbv zeta. destruct (get row "nr_rejected") as [| | | | | |counter]; try done.
  destruct (get counter "status") as [| | | |status| |]; try done.
  destruct (get counter "value") as [| | | |value| |]; try done.
  destruct (String.eqb status "present"); intros (H1%live_require_ok & (H2%live_require_ok & H)%bind_ok_unit)%bind_ok_unit;
    rewrite H1, H2; exact H.
Qed.

Lemma reject_counter_ok row i n :
  validate_required_counter_fact row i "nr_rejected" = Ok n <-> reject_counter row n.
Proof. split; [by exists i|]. intros [j H]. by eapply counter_fact_index. Qed.

Lemma reject_counter_fun row m n : reject_counter row m -> reject_counter row n -> m = n.
Proof. rewrite <- !(reject_counter_ok _ 0). congruence. Qed.

Lemma grew_false first last name :
  negb (grew first last name) = true <->
  forall a b, first !! name = Some a -> last !! name = Some b -> (b <= a)%Z.
Proof.
  unfold grew. rewrite negb_true_iff. destruct (first !! name), (last !! name); rewrite ?Z.ltb_ge; naive_solver.
Qed.

Lemma membership_ok row i : validate_cgroup_membership row i = Ok tt <-> membership_observed row.
Proof.
  unfold validate_cgroup_membership, membership_observed. rewrite bind_ok_unit, !live_require_ok. f_equiv.
  - destruct (get row "cgroup_membership_digest"); try (split; [done | by intros (? & [=] & _)]).
    rewrite !andb_true_iff, !negb_true_iff, String.eqb_neq, <- (not_true_iff_false (mem _ _)), mem_In.
    split; [intros [[? ?] ?]; by eexists | by intros (? & [= <-] & ? & ? & ?)].
  - destruct (get row "cgroup_membership_status"); try (split; [done | by intros (? & [=] & _)]).
    rewrite andb_true_iff, !py_eq_str. split; [intros []; by eexists | by intros (? & [= <-] & ? & ?)].
Qed.

Lemma all_alive_ok rows : forallb (fun row => is_true (get row "workload_alive")) rows = true <-> all_alive rows.
Proof.
  unfold all_alive. rewrite forallb_forall, Forall_forall. setoid_rewrite list_elem_of_In.
  by setoid_rewrite is_true_iff.
Qed.

Lemma counter_growth_ok row0 mid rowN :
  validate_counter_growth (row0 :: mid ++ [rowN]) = Ok tt <->
  Forall (fun row => exists n, reject_counter row n) (row0 :: mid ++ [rowN]) /\ no_growth row0 rowN.
Proof.
  unfold validate_counter_growth.
  assert (Hl : last_row (row0 :: mid ++ [rowN]) = Ok rowN) by (unfold last_row; simpl; by rewrite rev_app_distr).
  assert (Hall : for_enum 0 (row0 :: mid ++ [rowN]) (fun index row =>
      let* _ := validate_required_counter_fact row index "nr_rejected" in Ok tt) = Ok tt <->
      Forall (fun row => exists n, reject_counter row n) (row0 :: mid ++ [rowN])).
  { rewrite for_enum_ok, Forall_lookup. setoid_rewrite bind_ok. split; intros H j row Hj; destruct (H j row Hj) as [n Hn].
    - exists n. by eapply reject_counter_ok, Hn.
    - exists n. by rewrite reject_counter_ok. }
  rewrite bind_ok_unit, Hall, Hl. cbn [first_row bind]. unfold no_growth. split.
  - intros (Hf & (a & Ha & (b & Hb & (Hab%live_require_ok & (c0 & Hc0 & (cN & HcN & Hg%for_each_ok)%bind_ok)%bind_ok)%bind_ok_unit)%bind_ok)%bind_ok).
    apply reject_counter_ok in Ha, Hb. split; [done|]. split.
    + intros x y Hx Hy. pose proof (reject_counter_fun _ _ _ Ha Hx) as ->. pose proof (reject_counter_fun _ _ _ Hb Hy) as ->.
      by apply negb_true_iff, Z.ltb_ge in Hab.
    + exists c0, cN. split; [done|]. split; [done|]. intros name x y Hn. rewrite Forall_forall in Hg.
      apply list_elem_of_In, Hg, live_require_ok in Hn. by apply grew_false.
  - intros (Hf & Hab & c0 & cN & Hc0 & HcN & Hg). split; [done|].
    rewrite Forall_cons, Forall_app, Forall_singleton in Hf. destruct Hf as [[a Ha] [_ [b Hb]]].
    apply bind_ok. exists a. split; [by apply reject_counter_ok|]. apply bind_ok. exists b. split; [by apply reject_counter_ok|].
    apply bind_ok_unit. split.
    { apply live_require_ok. destruct a as [a|]; [|done]. destruct b as [b|]; [|done]. by apply negb_true_iff, Z.ltb_ge, Hab. }
    rewrite Hc0, HcN. cbn [bind]. apply for_each_ok, Forall_forall. intros name Hn%list_elem_of_In.
    apply live_require_ok, grew_false. intros x y. by apply Hg.
Qed.

Lemma three_rows (rows : list jobject) : negb (Nat.ltb (length rows) 3) = true <->
  exists row0 mid rowN, rows = row0 :: mid ++ [rowN] /\ mid <> [].
Proof.
  rewrite negb_true_iff, Nat.ltb_ge. split.
  - destruct rows as [|row0 rows]; [simpl; lia|]. intros H. destruct rows as [|x rows _] using rev_ind; [simpl in H; lia|].
    exists row0, rows, x. split; [done|]. intros ->. simpl in H. lia.
  - intros (row0 & mid & rowN & -> & Hm). destruct mid; [done|]. simpl. rewrite length_app. simpl. lia.
Qed.

Lemma middle_rows row0 mid rowN : middle (row0 :: mid ++ [rowN]) = mid.
Proof. unfold middle. simpl. apply removelast_last. Qed.

Lemma exists_live mid : existsb is_live mid = true <-> Exists (fun row => sample_ops row = "zigsched_minimal") mid.
Proof.
  rewrite existsb_exists, Exists_exists. setoid_rewrite list_elem_of_In. unfold is_live. by setoid_rewrite String.eqb_eq.
Qed.

Lemma not_live row : negb (is_live row) = true <-> sample_ops row <> "zigsched_minimal".
Proof. unfold is_live. by rewrite negb_true_iff, String.eqb_neq. Qed.

Lemma claimed_ok observe alive (k : result unit) :
  (let* claimed := require_bool observe "workload_alive_all_samples" "observe" in
   require (Bool.eqb claimed alive) "observe workload_alive_all_samples conflicts with samples" ;;; k) = Ok tt <->
  get observe "workload_alive_all_samples" = JBool alive /\ k = Ok tt.
Proof.
  unfold require_bool. destruct (get observe _) as [|b| | | | |]; try (split; [discriminate | by intros [[=] _]]).
  cbn [bind]. rewrite bind_ok_unit, live_require_ok, eqb_true_iff. split; [by intros [-> ?] | by intros [[= ->] ?]].
Qed.

Lemma validate_samples_shape row0 mid rowN observe :
  validate_samples (row0 :: mid ++ [rowN]) observe = Ok tt <->
  mid <> [] /\ sample_ops row0 <> "zigsched_minimal"
  /\ Exists (fun row => sample_ops row = "zigsched_minimal") mid
  /\ sample_ops rowN <> "zigsched_minimal" /\ In (sample_state rowN) ["disabled"; "previous"]
  /\ (exists claimed, get observe "workload_alive_all_samples" = JBool claimed
       /\ (claimed = true <-> all_alive (row0 :: mid ++ [rowN]))
       /\ (all_alive (row0 :: mid ++ [rowN]) \/ workload_execution_passed observe = true))
  /\ Forall membership_observed (row0 :: mid ++ [rowN])
  /\ Forall (fun row => exists n, reject_counter row n) (row0 :: mid ++ [rowN]) /\ no_growth row0 rowN.
Proof.
  unfold validate_samples. cbv zeta.
  assert (Hl : last_row (row0 :: mid ++ [rowN]) = Ok rowN) by (unfold last_row; simpl; by rewrite rev_app_distr).
  assert (Hm : for_enum 0 (row0 :: mid ++ [rowN]) (fun index row => validate_cgroup_membership row index) = Ok tt <->
    Forall membership_observed (row0 :: mid ++ [rowN])).
  { rewrite for_enum_ok, Forall_lookup. by setoid_rewrite membership_ok. }
  rewrite Hl, middle_rows. cbn [first_row bind].
  rewrite !bind_ok_unit, !live_require_ok, claimed_ok, !bind_ok_unit, !live_require_ok.
  rewrite Hm, counter_growth_ok, !not_live, exists_live, orb_true_iff, mem_In, three_rows.
  set (rows := row0 :: mid ++ [rowN]). pose proof (all_alive_ok rows) as Ha.
  destruct (forallb _ rows).
  - setoid_rewrite <- Ha. split.
    + intros (_ & H0 & He & HN & Hs & Hc & Hw & Hrest). split; [by intros ->; inversion He|]. repeat (split; [done|]).
      split; [exists true; tauto | done].
    + intros (Hn & H0 & He & HN & Hs & (c & Hc & Hcl & Hw) & Hrest). split; [by exists row0, mid, rowN|].
      repeat (split; [done|]). split; [by rewrite Hc, (proj2 Hcl)|]. tauto.
  - setoid_rewrite <- Ha. split.
    + intros (_ & H0 & He & HN & Hs & Hc & Hw & Hrest). split; [by intros ->; inversion He|]. repeat (split; [done|]).
      split; [exists false; naive_solver | done].
    + intros (Hn & H0 & He & HN & Hs & (c & Hc & Hcl & Hw) & Hrest). split; [by exists row0, mid, rowN|].
      repeat (split; [done|]). split; [destruct c; [by discriminate (proj1 Hcl eq_refl) | done]|]. tauto.
Qed.

Lemma live_text_ok d f c s : require_text d f c = Ok s <-> get d f = JStr s /\ s <> "".
Proof.
  unfold require_text. destruct (get d f) as [| | | |t| |]; try (split; [discriminate | by intros [[=] _]]).
  destruct (String.eqb_spec t "") as [->|Ht]; [split; [discriminate | by intros [[= <-] ?]]|].
  rewrite Ok_inj. split; [by intros <- | by intros [[= <-] _]].
Qed.
Lemma live_text_is d f c lit m (k : result unit) : String.eqb lit "" = false ->
  (let* s := require_text d f c in require (String.eqb s lit) m ;;; k) = Ok tt <-> get d f = JStr lit /\ k = Ok tt.
Proof.
  intros Hl%String.eqb_neq. split.
  - by intros (s & [Hs _]%live_text_ok & (->%live_require_ok%String.eqb_eq & Hk)%bind_ok_unit)%bind_ok.
  - intros [Hs Hk]. apply bind_ok. exists lit. rewrite live_text_ok. split; [done|]. apply bind_ok_unit.
    split; [by apply live_require_ok, String.eqb_refl | done].
Qed.
Lemma live_text_last d f c lit m : String.eqb lit "" = false ->
  (let* s := require_text d f c in require (String.eqb s lit) m) = Ok tt <-> get d f = JStr lit.
Proof.
  intros Hl%String.eqb_neq. rewrite bind_ok. setoid_rewrite live_text_ok. setoid_rewrite live_require_ok.
  setoid_rewrite String.eqb_eq. naive_solver.
Qed.
Lemma live_bool_is d f c (test : bool -> bool) b m (k : result unit) :
  (forall x, test x = true <-> x = b) ->
  (let* x := require_bool d f c in require (test x) m ;;; k) = Ok tt <-> get d f = JBool b /\ k = Ok tt.
Proof.
  intros Ht. unfold require_bool. destruct (get d f) as [|x| | | | |]; try (split; [discriminate | by intros [[=] _]]).
  cbn [bind]. rewrite bind_ok_unit, live_require_ok, Ht. split; [by intros [-> ?] | by intros [[= ->] ?]].
Qed.

Lemma first_artifact_ok paths suffix p : require_artifact paths suffix = Ok p <-> first_artifact paths suffix p.
Proof.
  unfold first_artifact. induction paths as [|q paths IH]; simpl.
  - split; [discriminate | intros ([|] & ? & [=] & _)].
  - destruct (endswith (path_str q) suffix) eqn:E.
    + rewrite Ok_inj. split; [intros ->; by exists [], paths|].
      intros ([|x before] & after & [= -> ->] & Hp & Hb); [done|]. inversion Hb; congruence.
    + rewrite IH. split.
      * intros (before & after & -> & Hp & Hb). exists (q :: before), after. split; [done|]. split; [done|]. by constructor.
      * intros ([|x before] & after & [= -> ->] & Hp & Hb); [congruence|]. inversion Hb; subst. by exists before, after.
Qed.

Lemma gate_ok d (k : result unit) :
  (let* schema := require_text d "schema" "bundle" in
   require (String.eqb schema SUMMARY_SCHEMA) "bundle has unsupported schema" ;;;
   let* status := require_text d "status" "bundle" in
   require (String.eqb status "PASS") "bundle status must be PASS" ;;;
   let* host_mutation := require_bool d "host_mutation" "bundle" in
   require (negb host_mutation) "bundle host_mutation must be false" ;;;
   validate_vm_live_gate d ;;; k) = Ok tt <-> live_gate d /\ k = Ok tt.
Proof.
  rewrite !live_text_is by done. rewrite (live_bool_is _ _ _ negb false) by apply negb_true_iff.
  rewrite bind_ok_unit. unfold validate_vm_live_gate. rewrite !live_text_is by done.
  rewrite (live_bool_is _ _ _ (fun b => b) true) by done. rewrite live_text_is, live_text_last by done.
  split; [intros (? & ? & ? & (? & ? & ? & ? & ?) & Hk); split; [by split | done]|].
  intros [[? ? ? ? ? [? ?] ?] ?]. tauto.
Qed.

Lemma validate_samples_behaviour rows observe :
  validate_samples rows observe = Ok tt <-> behaviour_ok rows observe.
Proof.
  split.
  - intros H. assert (H3 : negb (Nat.ltb (length rows) 3) = true)
      by (unfold validate_samples in H; by apply bind_ok_unit in H as [H%live_require_ok _]).
    apply three_rows in H3 as (row0 & mid & rowN & -> & _).
    apply validate_samples_shape in H as (_ & H0 & He & HN & Hs & Hc & Hm & Hf & Hg).
    split; try done. by exists row0, mid, rowN.
  - intros [(row0 & mid & rowN & -> & H0 & He & HN & Hs & Hg) Hc Hm Hf]. apply validate_samples_shape.
    split; [by intros ->; inversion He|]. done.
Qed.

(** What the bundle of a live run has to be. *)
Definition live_bundle_ok (F : fs) (p : path) : Prop :=
  exists summary paths, load_object F p = Ok summary /\ live_gate summary
    /\ artifact_paths F summary = Ok paths /\ bundle_ok F paths.

Lemma bundle_accepted F p : validate_bundle F p = Ok tt <-> live_bundle_ok F p.
Proof.
  unfold validate_bundle, live_bundle_ok. split.
  - intros (s & Hs & (Hg & H)%gate_ok)%bind_ok. apply bind_ok in H as (paths & Hpaths & H).
    apply bind_ok in H as (pa & Hpa%first_artifact_ok & H). apply bind_ok in H as (ob & Hob%first_artifact_ok & H).
    apply bind_ok in H as (sa & Hsa%first_artifact_ok & H). apply bind_ok in H as (ev & Hev%first_artifact_ok & H).
    apply bind_ok in H as (le & Hle%first_artifact_ok & H).
    apply bind_ok_unit in H as [Vpa H]. apply bind_ok_unit in H as [Vob H]. apply bind_ok_unit in H as [Vsa H].
    apply bind_ok_unit in H as [Vle H]. apply bind_ok in H as (d & Hd & H). apply bind_ok_unit in H as [Hpb H].
    apply bind_ok in H as (o & Ho & H). apply bind_ok_unit in H as [Hobs H].
    apply bind_ok in H as (rows & Hrows & H). apply bind_ok_unit in H as [Hb H].
    apply bind_ok in H as (evs & Hevs & H). apply validate_samples_behaviour in Hb.
    exists s, paths. split; [done|]. split; [done|]. split; [done|].
    split; [by exists pa, d | by exists le | by exists ob, sa, o, rows | by exists ev, evs].
  - intros (s & paths & Hs & Hg & Hpaths & [(pa & d & Hpa & Vpa & Hd & Hpb) (le & Hle & Vle)
      (ob & sa & o & rows & Hob & Vob & Ho & Hobs & Hsa & Vsa & Hrows & Hb) (ev & evs & Hev & Hevs & Hde)]).
    apply bind_ok. exists s. split; [done|]. apply gate_ok. split; [done|]. apply validate_samples_behaviour in Hb.
    rewrite Hpaths. cbn [bind]. apply first_artifact_ok in Hpa, Hob, Hsa, Hev, Hle.
    rewrite Hpa, Hob, Hsa, Hev, Hle. cbn [bind]. rewrite Vpa, Vob, Vsa, Vle, Hd. cbn [bind].
    rewrite Hpb, Ho. cbn [bind]. rewrite Hobs, Hrows. cbn [bind]. rewrite Hb, Hevs. exact Hde.
Qed.

(** * Properties *)

(** [validate_samples] accepts the samples of a live run exactly when they show
    an attach between two ends: the first and the last sample do not run
    zigsched_minimal, one in between does, the last state is restored; the summary
    tells the truth about the workload, which was alive throughout or has its own
    PASS record; every membership digest was observed; and neither the reject
    counter nor a counter named in the event texts grew from the first sample to
    the last. *)
Theorem validate_samples_iff rows observe :
  validate_samples rows observe = Ok tt <-> behaviour_ok rows observe.
Proof. apply validate_samples_behaviour. Qed.

(** C3: [validate_bundle] accepts the summary of a live run exactly when its gate
    holds (PASS, no host mutation, a QEMU VM with the marker, a passed rollback),
    its artifact paths are safe and exist, and the first artifact of each kind
    passes: the partial attach evidence, the observe summary, the runtime samples
    with the behaviour of [behaviour_ok], the audit ledger and the daemon events. *)
Theorem validate_bundle_iff F p :
  validate_bundle F p = Ok tt <->
  exists summary paths, load_object F p = Ok summary /\ live_gate summary
    /\ artifact_paths F summary = Ok paths /\ bundle_ok F paths.
Proof. apply bundle_accepted. Qed.

(** The pattern of the event texts reads the name fallbacks, but the growth
    check compares only the names of [COUNTER_NAMES], which has fallback: samples
    whose fallback counter grows are rejected, and the same samples with the counter
    spelled fallbacks are accepted. *)
Theorem fallbacks_growth_is_missed :
  validate_samples (demo_samples "fallback") demo_observe = raise LiveBehaviorError
    "fatal/reject/fallback counter grew: fallback"
  /\ validate_samples (demo_samples "fallbacks") demo_observe = Ok tt.
Proof. split; vm_compute; reflexivity. Qed.
