(* ===== verification/WorkloadExec.v ===== *)
(** WorkloadExec: qa/vm/workload_execution_check.py, the workload_execution
    events a VM prints on its serial console, and the rule that only a PASS of
    the row's own scenario supports a PASS row. *)
From S2P Require Import Prelude PyStr PyFloat PyJson PyFs PyMain.

Local Open Scope string_scope.

Definition JSON_MARKER : string := "ZIGSCHED_JSON ".
Definition PASS_STATUS : string := "PASS".
Definition FAIL_STATUSES : list string := ["FAIL"; "REFUSE"].

(** [rc] stays the JSON value: an [int], or a [bool], which Python counts as one. *)
Record WorkloadExecution : Set := MkExecution {
  scenario : string;
  status : string;
  rc : json;
  host_mutation : bool;
}.

Definition fail {A} (m : string) : result A := raise WorkloadExecutionError m.

(** The loop over the lines of the serial text. *)
Fixpoint events_of_lines (line_number : nat) (lines : list string) : result (list jobject) :=
  match lines with
  | [] => Ok []
  | line :: lines =>
      match find line JSON_MARKER with
      | None => events_of_lines (S line_number) lines
      | Some marker_index =>
          let* raw := reraise JSONDecodeError WorkloadExecutionError
            (fun exc => "invalid VM JSON event at serial line " ++ str_nat line_number ++ ": " ++ exn_msg exc)
            (loads (drop_str (marker_index + len JSON_MARKER) line)) in
          match raw with
          | JDict d => let* events := events_of_lines (S line_number) lines in Ok (d :: events)
          | _ => fail ("VM JSON event at serial line " ++ str_nat line_number ++ " is not an object")
          end
      end
  end.

Definition parse_json_events (serial_text : string) : result (list jobject) :=
  events_of_lines 1 (splitlines serial_text).

Definition parse_workload_execution (row : jobject) (context : string) : result WorkloadExecution :=
  match get row "scenario" with
  | JStr scenario =>
      if String.eqb scenario "" then fail (context ++ ".scenario must be non-empty text") else
      match get row "status" with
      | JStr status =>
          if String.eqb status "" then fail (context ++ ".status must be non-empty text") else
          let rc := get row "rc" in
          ensure (is_int rc) WorkloadExecutionError (context ++ ".rc must be an integer") ;;;
          match get row "host_mutation" with
          | JBool host_mutation => Ok (MkExecution scenario status rc host_mutation)
          | _ => fail (context ++ ".host_mutation must be a boolean")
          end
      | _ => fail (context ++ ".status must be non-empty text")
      end
  | _ => fail (context ++ ".scenario must be non-empty text")
  end.

(** The comprehension of [workload_execution_events] over [enumerate(events)]. *)
Fixpoint executions_of (index : nat) (events : list jobject) : result (list WorkloadExecution) :=
  match events with
  | [] => Ok []
  | event :: events =>
      if py_eq (get event "event") (JStr "workload_execution") then
        let* x := parse_workload_execution event ("workload_execution[" ++ str_nat index ++ "]") in
        let* xs := executions_of (S index) events in
        Ok (x :: xs)
      else executions_of (S index) events
  end.

Definition workload_execution_events (serial_text : string) : result (list WorkloadExecution) :=
  let* events := parse_json_events serial_text in
  executions_of 0 events.

Definition is_failing (event : WorkloadExecution) : bool :=
  mem (status event) FAIL_STATUSES || negb (py_eq (rc event) (JInt 0)) || host_mutation event.

Definition require_workload_pass (serial_text wanted : string) : result unit :=
  let* events := workload_execution_events serial_text in
  let executions := List.filter (fun event => String.eqb (scenario event) wanted) events in
  match executions with
  | [] => fail ("missing workload_execution evidence for scenario " ++ wanted)
  | _ =>
      let failing := List.filter is_failing executions in
      match failing with
      | _ :: _ =>
          let statuses := join ", " (map (fun event => status event ++ "/rc=" ++ py_str (rc event)) failing) in
          fail ("workload_execution failure for scenario " ++ wanted ++ ": " ++ statuses)
      | [] =>
          ensure (existsb (fun event => String.eqb (status event) PASS_STATUS) executions) WorkloadExecutionError
            ("workload_execution for scenario " ++ wanted ++ " has no PASS status: "
               ++ join ", " (map status executions))
      end
  end.

Section Checker.
Variable F : fs.

Definition validate_serial_file (serial : path) (wanted : string) : result unit :=
  let* serial_text := read_text_replace F serial in
  require_workload_pass serial_text wanted.

(** [main] behind argparse, without the self-test; [parser.error] exits with 2. *)
Definition main (serial : option path) (wanted : string) : exit :=
  match serial with
  | Some serial =>
      if String.eqb wanted "" then Exited 2 [] ["--serial and --scenario are required unless --self-test is used"]
      else run_main (fun c => is_OSError c || is_class WorkloadExecutionError c) "FAIL workload_execution"
             (validate_serial_file serial wanted ;;; Ok ["PASS workload_execution " ++ wanted])
  | None => Exited 2 [] ["--serial and --scenario are required unless --self-test is used"]
  end.
End Checker.

(** * Specification *)

(** An execution that supports a PASS: neither failed nor refused, exit status
    zero, no host mutation. *)
Definition clean_execution (event : WorkloadExecution) : Prop :=
  ~ In (status event) FAIL_STATUSES /\ py_eq (rc event) (JInt 0) = true /\ host_mutation event = false.

(** * Lemmas *)
Lemma is_failing_false event : is_failing event = false <-> clean_execution event.
Proof.
  unfold is_failing, clean_execution. rewrite !orb_false_iff, negb_false_iff.
  rewrite <- (not_true_iff_false (mem _ _)), mem_In. tauto.
Qed.

Lemma filter_none {A} (p : A -> bool) l : List.filter p l = [] <-> forall x, In x l -> p x = false.
Proof.
  induction l as [|x l IH]; simpl; [naive_solver|]. destruct (p x) eqn:E; split.
  - discriminate.
  - intros H. rewrite H in E; [discriminate | by left].
  - intros H y [<-|Hy]; [done | by apply IH].
  - intros H. apply IH. intros y Hy. apply H. by right.
Qed.

(** * Properties *)

(** [require_workload_pass] accepts the serial text of a VM for a scenario
    exactly when its workload_execution events can be read, one event of that
    scenario has status PASS, and every event of that scenario is clean.  Events
    of other scenarios neither help nor hurt. *)
Theorem require_workload_pass_iff serial_text wanted :
  require_workload_pass serial_text wanted = Ok tt <->
  exists events, workload_execution_events serial_text = Ok events
    /\ (exists event, In event events /\ scenario event = wanted /\ status event = "PASS")
    /\ (forall event, In event events -> scenario event = wanted -> clean_execution event).
Proof.
  unfold require_workload_pass. rewrite bind_ok.
  assert (H : forall events, let own := List.filter (fun event => String.eqb (scenario event) wanted) events in
    match own with
    | [] => fail ("missing workload_execution evidence for scenario " ++ wanted)
    | _ => match List.filter is_failing own with
           | _ :: _ => fail ("workload_execution failure for scenario " ++ wanted ++ ": " ++ join ", "
               (map (fun event => status event ++ "/rc=" ++ py_str (rc event)) (List.filter is_failing own)))
           | [] => ensure (existsb (fun event => String.eqb (status event) PASS_STATUS) own) WorkloadExecutionError
               ("workload_execution for scenario " ++ wanted ++ " has no PASS status: " ++ join ", " (map status own))
           end
    end = Ok tt <->
    (exists event, In event own /\ status event = "PASS") /\ forall event, In event own -> is_failing event = false).
  { intros events own. rewrite <- filter_none. destruct own as [|x own]; [split; [discriminate | by intros [(? & [] & _) _]]|].
    destruct (List.filter is_failing (x :: own)) as [|y l]; [|split; [discriminate | by intros [_ [=]]]].
    rewrite ensure_ok, existsb_exists. setoid_rewrite String.eqb_eq. split; [by intros H | by intros [H _]]. }
  setoid_rewrite H. setoid_rewrite filter_In. setoid_rewrite String.eqb_eq. setoid_rewrite is_failing_false.
  split; intros (events & He & (x & ? & ?) & Hc); exists events; (split; [done|]); split; try (by exists x; tauto).
  - intros y Hy Hs. by apply Hc.
  - intros y [Hy Hs]. by apply Hc.
Qed.
