(* ===== verification/ProtectedReview.v ===== *)
(** ProtectedReview: qa/protected_environment_review_check.py, the proof that a
    reviewer approved the protected environment of a manual VM run.  The run
    URL and the review URL are read with the groups of their patterns;
    [github_url] is the declarative reading of both. *)
From S2P Require Import Prelude PyStr PyRe PyFloat PyJson Sha256 PyFs PyMain.

Local Open Scope string_scope.

Definition SCHEMA_ID : string := "zig-scheduler/protected-environment-review/v1".
Definition DEFAULT_SCHEMA : path := Path "schemas/control/protected-environment-review.v1.schema.json".
Definition DEFAULT_FIXTURES : path := Path "fixtures/protected-environment-review".
Definition REQUIRED_COMMENT : string := "manual protected VM proof only; not release approval".
Definition ENVIRONMENT_NAME : string := "vm-proof-manual".
Definition not_slash (c : ascii) : bool := negb (Ascii.eqb c "/").
Definition RUN_ID_RE : regex := rseq [RBol; rplus rdigit; REol].

(** The two URL patterns differ in what stands before the repository and after
    the run. *)
Definition url_re (before after : string) : regex := rseq [
  RBol; rlit before; RCap "1" (rplus (RChar not_slash)); rlit "/"; RCap "2" (rplus (RChar not_slash));
  rlit "/actions/runs/"; RCap "3" (rplus rdigit); rlit after; REol].
Definition RUN_URL_RE : regex := url_re "https://github.com/" "".
Definition API_URL_RE : regex := url_re "https://api.github.com/repos/" "/approvals".
Definition HEAD_SHA_RE : regex := rseq [RBol; rrep 40 0 (RChar is_hex_lower); REol].
Definition RFC3339_UTC_RE : regex := rseq [
  RBol; rrep 4 0 rdigit; rlit "-"; rrep 2 0 rdigit; rlit "-"; rrep 2 0 rdigit; rlit "T"; rrep 2 0 rdigit; rlit ":";
  rrep 2 0 rdigit; rlit ":"; rrep 2 0 rdigit; rlit "Z"; REol].
Definition dash_or_underscore : regex := ropt (RChar (one_of "_-")).
Definition PRIVACY_KEY_RE : regex := ralt [
  rlit_ci "authorization"; rlit_ci "bearer"; rlit_ci "token"; rlit_ci "secret"; rlit_ci "password";
  rseq [rlit_ci "api"; dash_or_underscore; rlit_ci "key"]; rlit_ci "cookie"; rlit_ci "session";
  rseq [rlit_ci "private"; dash_or_underscore; rlit_ci "key"]; rlit_ci "cmdline"; rlit_ci "argv"].
Definition is_alpha09 (c : ascii) : bool := is_digit c || is_upper c || is_lower c.
Definition PRIVATE_VALUE_RE : regex := ralt [
  rlit_ci "Authorization:";
  rseq [rlit_ci "Bearer"; rplus rspace; rplus (RChar (fun c => is_alpha09 c || one_of "._~+/=-" c))];
  rseq [rlit_ci "ghp_"; rplus (RChar (fun c => is_alpha09 c || one_of "_" c))];
  rseq [rlit_ci "github_pat_"; rplus (RChar (fun c => is_alpha09 c || one_of "_" c))]].
Definition ROOT_FIELDS : list string := [
  "schema"; "run_id"; "run_url"; "head_sha"; "environment_name"; "environment_id"; "reviewer_status";
  "reviewer_identity"; "reviewer_id"; "comment"; "review_history_api_url"; "collected_at"; "host_mutation";
  "release_eligible"; "production_capacity_claim"].
Definition SCHEMA_FIELDS : list string :=
  ["$id"; "$schema"; "type"; "additionalProperties"; "required"; "properties"].

Inductive Mode : Set := ProofMode | FixturesMode | InvalidFixturesMode | SelfTestMode.

Record Args : Set := MkArgs { mode : Mode; proof : option path; fixtures : path; schema : path }.

(** The command line: the self-test flag alone, or what argparse reads. *)
Inductive cli : Set :=
| OnlySelfTest
| Parsed (proof fixtures invalid_fixtures : option path) (schema : path).

Definition fail {A} (m : string) : result A := raise ProtectedReviewError m.
Definition require (condition : bool) (message : string) : result unit :=
  ensure condition ProtectedReviewError message.

Definition reject_constant (value : string) : result json := fail ("invalid JSON constant: " ++ value).

Definition given {A} (o : option A) : nat := match o with Some _ => 1 | None => 0 end.

Definition parse_args (argv : cli) : result Args :=
  match argv with
  | OnlySelfTest => Ok (MkArgs SelfTestMode None DEFAULT_FIXTURES DEFAULT_SCHEMA)
  | Parsed proof fixtures invalid schema =>
      if negb (Nat.eqb (given proof + given fixtures + given invalid) 1)
      then fail "exactly one of --proof, --fixtures, --invalid-fixtures, or --self-test is required"
      else match proof, invalid, fixtures with
           | Some p, _, _ => Ok (MkArgs ProofMode (Some p) DEFAULT_FIXTURES schema)
           | None, Some i, _ => Ok (MkArgs InvalidFixturesMode None i schema)
           | None, None, Some f => Ok (MkArgs FixturesMode None f schema)
           | None, None, None => fail "exactly one of --proof, --fixtures, --invalid-fixtures, or --self-test is required"
           end
  end.

Definition text (value : json) (context : string) : result string :=
  match value with
  | JStr s => if String.eqb s "" then fail (context ++ " must be non-empty text") else Ok s
  | _ => fail (context ++ " must be non-empty text")
  end.

Definition int_field (value : json) (context : string) : result Z :=
  match value with
  | JInt n => if Z.ltb n 1 then fail (context ++ " must be a positive integer") else Ok n
  | _ => fail (context ++ " must be a positive integer")
  end.

Fixpoint scan_privacy (value : json) (context : string) {struct value} : result unit :=
  match value with
  | JStr raw => require (negb (re_found PRIVATE_VALUE_RE raw)) (context ++ " contains privacy-unsafe value")
  | JList rows =>
      (fix elems (index : nat) (rows : list json) : result unit :=
         match rows with
         | [] => Ok tt
         | item :: rows =>
             scan_privacy item (context ++ "[" ++ str_nat index ++ "]") ;;; elems (S index) rows
         end) 0 rows
  | JDict row =>
      (fix items (row : jobject) : result unit :=
         match row with
         | [] => Ok tt
         | (key, item) :: row =>
             require (negb (re_found PRIVACY_KEY_RE key)) (context ++ "." ++ key ++ " is a privacy-unsafe key") ;;;
             scan_privacy item (context ++ "." ++ key) ;;;
             items row
         end) row
  | _ => Ok tt
  end.

Definition only_fields (row : jobject) (allowed : list string) (context : string) : result unit :=
  let extra := sorted (set_diff (keys row) allowed) in
  require (match extra with [] => true | _ => false end)
    (context ++ " has unexpected fields: " ++ join ", " extra).

Section Files.
Variable F : fs.

Definition load_json_object (p : path) : result jobject :=
  let* raw := catch (bind (read_text F p) (loads_with reject_constant)) (fun exc =>
    if decide (exn_cls exc = FileNotFoundError) then Some (fail ("missing JSON file: " ++ path_str p))
    else if decide (exn_cls exc = JSONDecodeError)
    then Some (fail ("invalid JSON in " ++ path_str p ++ " at byte " ++ str_nat (exn_pos exc)
                       ++ ": " ++ exn_msg exc))
    else None) in
  match raw with
  | JDict d => Ok d
  | _ => fail (path_str p ++ " must contain a JSON object")
  end.

Definition validate_schema_file (p : path) : result unit :=
  let* schema := load_json_object p in
  only_fields schema SCHEMA_FIELDS "schema" ;;;
  require (py_eq (get schema "$id") (JStr SCHEMA_ID)) "protected review schema $id mismatch" ;;;
  match get schema "required" with
  | JList required =>
      let* names := map_m (fun item => text item "schema.required[]") required in
      require (set_eq names ROOT_FIELDS) "schema.required must match protected review root fields" ;;;
      require (is_false (get schema "additionalProperties")) "schema must reject additional properties"
  | _ => fail "schema.required must be a list"
  end.

Definition matched (m : option (rstate * rstate)) (message : string) : result (rstate * rstate) :=
  match m with Some m => Ok m | None => fail message end.

Definition validate_proof (p schema_path : path) : result unit :=
  validate_schema_file schema_path ;;;
  let* data := load_json_object p in
  scan_privacy (JDict data) (path_str p) ;;;
  only_fields data ROOT_FIELDS (path_str p) ;;;
  require (py_eq (get data "schema") (JStr SCHEMA_ID)) "unsupported protected review schema" ;;;
  let* run_id := text (get data "run_id") "run_id" in
  require (re_fullmatch RUN_ID_RE run_id) "run_id must be decimal GitHub Actions run id text" ;;;
  let* run_url := text (get data "run_url") "run_url" in
  let* run_match := matched (re_full RUN_URL_RE run_url) "run_url must be a GitHub Actions run URL" in
  require (String.eqb (group "3" run_match) run_id) "run_url run id must match run_id" ;;;
  let* head_sha := text (get data "head_sha") "head_sha" in
  require (re_fullmatch HEAD_SHA_RE head_sha) "head_sha must be 40 lowercase hex characters" ;;;
  require (py_eq (get data "environment_name") (JStr ENVIRONMENT_NAME)) "environment_name must be vm-proof-manual" ;;;
  let* _ := int_field (get data "environment_id") "environment_id" in
  require (py_eq (get data "reviewer_status") (JStr "approved")) "reviewer_status must be approved" ;;;
  let* _ := text (get data "reviewer_identity") "reviewer_identity" in
  let* _ := int_field (get data "reviewer_id") "reviewer_id" in
  require (py_eq (get data "comment") (JStr REQUIRED_COMMENT))
    "comment must exactly match protected VM proof acknowledgement" ;;;
  let* api_url := text (get data "review_history_api_url") "review_history_api_url" in
  let* api_match := matched (re_full API_URL_RE api_url) "review_history_api_url must be GitHub approvals API URL" in
  require (String.eqb (group "1" api_match) (group "1" run_match)
           && String.eqb (group "2" api_match) (group "2" run_match))
    "review_history_api_url repository must match run_url" ;;;
  require (String.eqb (group "3" api_match) run_id) "review_history_api_url run id must match run_id" ;;;
  let* collected_at := text (get data "collected_at") "collected_at" in
  require (re_fullmatch RFC3339_UTC_RE collected_at) "collected_at must be UTC RFC3339 seconds" ;;;
  require (is_false (get data "host_mutation")) "host_mutation must be false" ;;;
  require (is_false (get data "release_eligible")) "release_eligible must be false" ;;;
  require (is_false (get data "production_capacity_claim")) "production_capacity_claim must be false".

Definition nonempty {A} (l : list A) : bool := match l with [] => false | _ => true end.

Definition validate_invalid_fixtures (root schema : path) : printed :=
  let invalid_paths := sorted_glob F root ".json" in
  and_then (silent (require (nonempty invalid_paths)
                      ("missing invalid protected review fixtures under " ++ path_str root)))
    (reject_each (fun invalid => validate_proof invalid schema) (is_class ProtectedReviewError)
       (fun invalid exc => "PASS reject invalid protected review fixture " ++ name invalid ++ ": " ++ exn_str exc)
       (fun invalid => Exn ProtectedReviewError
          ("expected invalid protected review fixture rejection: " ++ path_str invalid) None)
       invalid_paths).

Definition validate_fixtures (root schema : path) : printed :=
  let valid_paths := sorted_glob F (div_path root "valid") ".json" in
  and_then (silent (require (nonempty valid_paths)
                      ("missing valid protected review fixtures under " ++ path_str (div_path root "valid"))))
    (and_then
       (accept_each (fun valid => validate_proof valid schema)
          (fun valid => "PASS protected review fixture: " ++ path_str valid) valid_paths)
       (validate_invalid_fixtures (div_path root "invalid") schema)).

Definition dispatch (args : Args) : printed :=
  match mode args with
  | SelfTestMode =>
      and_then (validate_fixtures (fixtures args) (schema args)) (["PASS protected review self-test"], Ok tt)
  | ProofMode =>
      match proof args with
      | None => silent (fail "--proof path missing")
      | Some p =>
          and_then (silent (validate_proof p (schema args))) (["PASS protected review proof: " ++ path_str p], Ok tt)
      end
  | FixturesMode => validate_fixtures (fixtures args) (schema args)
  | InvalidFixturesMode => validate_invalid_fixtures (fixtures args) (schema args)
  end.

Definition main (argv : cli) : exit :=
  end_main (is_class ProtectedReviewError) "FAIL protected review proof"
    (match parse_args argv with Ok args => dispatch args | Err e => silent (Err e) end).
End Files.

(** * Specification *)

(** A GitHub URL of a run: the repository is an owner and a name without
    slashes, the run a decimal number. *)
Definition segment (s : string) : Prop := all_chars not_slash s = true /\ s <> "".
Definition decimal (s : string) : Prop := all_chars is_digit s = true /\ s <> "".
Definition github_url (before after owner repo run : string) : string :=
  before ++ owner ++ "/" ++ repo ++ "/actions/runs/" ++ run ++ after.

(** An object only has keys of the list. *)
Definition has_only (d : jobject) (allowed : list string) : Prop := forall k, In k (keys d) -> In k allowed.

Definition review_clean : json -> Prop :=
  Clean (fun k => re_found PRIVACY_KEY_RE k = false) (fun s => re_found PRIVATE_VALUE_RE s = false).

Record schema_file_ok (d : jobject) : Prop := {
  sf_fields : has_only d SCHEMA_FIELDS;
  sf_id : get d "$id" = JStr SCHEMA_ID;
  sf_required : exists names, get d "required" = jstrs names /\ ~ In "" names
    /\ forall k, In k names <-> In k ROOT_FIELDS;
  sf_closed : get d "additionalProperties" = JBool false;
}.

Record review_ok (d : jobject) : Prop := {
  rv_fields : has_only d ROOT_FIELDS;
  rv_clean : review_clean (JDict d);
  rv_schema : get d "schema" = JStr SCHEMA_ID;
  rv_run : exists owner repo run, segment owner /\ segment repo /\ decimal run
    /\ get d "run_id" = JStr run
    /\ get d "run_url" = JStr (github_url "https://github.com/" "" owner repo run)
    /\ get d "review_history_api_url" = JStr (github_url "https://api.github.com/repos/" "/approvals" owner repo run);
  rv_head : exists sha, get d "head_sha" = JStr sha /\ len sha = 40 /\ all_chars is_hex_lower sha = true;
  rv_environment : get d "environment_name" = JStr ENVIRONMENT_NAME
    /\ exists n, get d "environment_id" = JInt n /\ (1 <= n)%Z;
  rv_reviewer : get d "reviewer_status" = JStr "approved"
    /\ (exists who, get d "reviewer_identity" = JStr who /\ who <> "")
    /\ exists n, get d "reviewer_id" = JInt n /\ (1 <= n)%Z;
  rv_comment : get d "comment" = JStr REQUIRED_COMMENT;
  rv_collected : exists at_, get d "collected_at" = JStr at_ /\ re_fullmatch RFC3339_UTC_RE at_ = true;
  rv_no_claims : get d "host_mutation" = JBool false /\ get d "release_eligible" = JBool false
    /\ get d "production_capacity_claim" = JBool false;
}.

(** * Lemmas *)
Lemma review_require_ok c m u : require c m = Ok u <-> c = true.
Proof. apply ensure_ok. Qed.
Lemma review_text_ok v c s : text v c = Ok s <-> v = JStr s /\ s <> "".
Proof.
  destruct v as [| | | |t| |]; simpl; try (split; [discriminate | by intros [[=] _]]).
  destruct (String.eqb_spec t "") as [->|Ht]; [split; [discriminate | by intros [[= <-] ?]]|].
  rewrite Ok_inj. split; [by intros <- | by intros [[= <-] _]].
Qed.
Lemma int_field_ok v c n : int_field v c = Ok n <-> v = JInt n /\ (1 <= n)%Z.
Proof.
  destruct v as [| |m| | | |]; simpl; try (split; [discriminate | by intros [[=] _]]).
  destruct (Z.ltb_spec m 1); [split; [discriminate | intros [[= ->] ?]; lia]|]. rewrite Ok_inj. naive_solver.
Qed.
Lemma has_only_ok d allowed c : only_fields d allowed c = Ok tt <-> has_only d allowed.
Proof.
  unfold only_fields, has_only. rewrite review_require_ok, <- no_extra. by destruct (sorted _).
Qed.
Lemma scan_privacy_ok v c : scan_privacy v c = Ok tt <-> review_clean v.
Proof.
  unfold review_clean. revert c. induction v as [| | | |s|l IH|d IH] using json_nested_ind; intros c;
    cbn [scan_privacy]; try (split; [intros _; by apply clean_scalar | done]).
  - by rewrite clean_str, review_require_ok, negb_true_iff.
  - rewrite clean_list. generalize 0. induction IH as [|child l Hchild _ IHl]; intros n;
      [split; [constructor | done]|].
    rewrite Forall_cons, bind_ok_unit, <- (IHl (S n)), Hchild. tauto.
  - rewrite clean_dict. induction IH as [|[key child] d Hchild _ IHd]; [split; [constructor | done]|].
    rewrite Forall_cons, !bind_ok_unit, <- IHd, review_require_ok, negb_true_iff.
    simpl in Hchild |- *. rewrite Hchild. tauto.
Qed.
Lemma matched_ok o m x : matched o m = Ok x <-> o = Some x.
Proof. destruct o; simpl; [rewrite Ok_inj; split; congruence | split; discriminate]. Qed.
Lemma review_value_is v s m : require (py_eq v (JStr s)) m = Ok tt <-> v = JStr s.
Proof. by rewrite review_require_ok, py_eq_str. Qed.
Lemma review_false v m : require (is_false v) m = Ok tt <-> v = JBool false.
Proof. by rewrite review_require_ok, is_false_iff. Qed.

(** The groups of a URL pattern are the parts of the URL. *)
Lemma url_re_matches before after s st :
  Matches (url_re before after) (start s) st -> st_rest st = "" ->
  exists owner repo run, segment owner /\ segment repo /\ decimal run /\ s = github_url before after owner repo run
    /\ st_caps st = [("3", run); ("2", repo); ("1", owner)].
Proof.
  unfold url_re, segment, decimal, github_url. cbn [rseq].
  intros (s0 & H0 & (s1 & [H1 C1]%lit_matches & (s2 & (owner & [H2 C2] & Ho)%cap_plus_matches &
    (s3 & [H3 C3]%lit_matches & (s4 & (repo & [H4 C4] & Hr)%cap_plus_matches & (s5 & [H5 C5]%lit_matches &
    (s6 & (run & [H6 C6] & Hn)%cap_plus_matches & (s7 & [H7 C7]%lit_matches & (s8 & H8 & H9)%seq_matches)%seq_matches
    )%seq_matches)%seq_matches)%seq_matches)%seq_matches)%seq_matches)%seq_matches)%seq_matches Hrest.
  inversion H0; subst. inversion H8; subst. inversion H9; subst.
  exists owner, repo, run. do 3 (split; [done|]). simpl in *. split.
  - by rewrite H1, H2, H3, H4, H5, H6, H7, Hrest, append_nil_r.
  - by rewrite C7, C6, C5, C4, C3, C2, C1.
Qed.
Lemma url_re_complete before after owner repo run : segment owner -> segment repo -> decimal run ->
  exists st, Matches (url_re before after) (start (github_url before after owner repo run)) st /\ st_rest st = "".
Proof.
  intros [Ho Ho'] [Hr Hr'] [Hn Hn']. replace (github_url before after owner repo run)
    with (github_url before (after ++ "") owner repo run) by (by rewrite append_nil_r).
  unfold github_url, url_re, start.
  edestruct (lit_complete before) as (o1 & H1).
  edestruct (cap_plus_complete "1" not_slash owner o1) as (o2 & H2); [done | done|].
  edestruct (lit_complete "/" o2) as (o3 & H3).
  edestruct (cap_plus_complete "2" not_slash repo o3) as (o4 & H4); [done | done|].
  edestruct (lit_complete "/actions/runs/" o4) as (o5 & H5).
  edestruct (cap_plus_complete "3" is_digit run o5) as (o6 & H6); [done | done|].
  edestruct (lit_complete after o6) as (o7 & H7).
  eexists. split; [|shelve]. cbn [rseq].
  econstructor; [by constructor|]. econstructor; [exact H1|]. econstructor; [exact H2|].
  econstructor; [exact H3|]. econstructor; [exact H4|]. econstructor; [exact H5|]. econstructor; [exact H6|].
  econstructor; [exact H7|]. econstructor; [by constructor | constructor].
  Unshelve. all: try done.
Qed.

(** A URL has one reading. *)
Lemma github_url_inj before after o r n o' r' n' :
  segment o -> segment r -> decimal n -> segment o' -> segment r' -> decimal n' ->
  (forall x s, after = String x s -> is_digit x = false) ->
  github_url before after o r n = github_url before after o' r' n' -> o = o' /\ r = r' /\ n = n'.
Proof.
  intros [Ho _] [Hr _] [Hn _] [Ho' _] [Hr' _] [Hn' _] Hafter H. apply append_inj in H.
  assert (Hs : forall l s, forall x t, String "/" l ++ s = String x t -> not_slash x = false)
    by (intros l s x t; rewrite append_cons; by intros [= <- _]).
  apply (split_class not_slash) in H as [-> H]; [|done|done|apply (Hs _)|apply (Hs _)]. apply append_inj in H.
  apply (split_class not_slash) in H as [-> H]; [|done|done|apply (Hs _)|apply (Hs _)]. apply append_inj in H.
  by apply (split_class is_digit) in H as [-> _].
Qed.

(** [fullmatch] of a URL pattern, with the groups it answers. *)
Lemma re_full_url before after s m : re_full (url_re before after) s = Some m ->
  exists owner repo run, segment owner /\ segment repo /\ decimal run /\ s = github_url before after owner repo run
    /\ group "1" m = owner /\ group "2" m = repo /\ group "3" m = run.
Proof.
  intros (st & -> & Hm & Hr)%re_full_sound. apply url_re_matches in Hm as (o & r & n & ? & ? & ? & ? & Hc); [|done].
  exists o, r, n. do 4 (split; [done|]). unfold group. cbn [snd]. by rewrite Hc.
Qed.
Lemma re_full_url_complete before after owner repo run :
  segment owner -> segment repo -> decimal run -> (forall x s, after = String x s -> is_digit x = false) ->
  exists m, re_full (url_re before after) (github_url before after owner repo run) = Some m
    /\ group "1" m = owner /\ group "2" m = repo /\ group "3" m = run.
Proof.
  intros Ho Hr Hn Hafter. destruct (url_re_complete before after _ _ _ Ho Hr Hn) as (st & Hm & Hrest).
  destruct (re_full_complete _ _ _ Hm Hrest) as (m & Hf). exists m. split; [done|].
  apply re_full_url in Hf as (o & r & n & Ho' & Hr' & Hn' & Hu & Hg).
  by destruct (github_url_inj _ _ _ _ _ _ _ _ Ho Hr Hn Ho' Hr' Hn' Hafter Hu) as (-> & -> & ->).
Qed.

Lemma schema_file_accepted F p :
  validate_schema_file F p = Ok tt <-> exists d, load_json_object F p = Ok d /\ schema_file_ok d.
Proof.
  unfold validate_schema_file. rewrite bind_ok. f_equiv. intros d. apply and_iff_compat_l.
  rewrite !bind_ok_unit, has_only_ok, review_value_is. split.
  - intros (Hf & Hi & H). destruct (get d "required") as [| | | | |l|] eqn:El; try discriminate H.
    apply bind_ok in H as (names & Hn%map_m_ok & H). apply bind_ok_unit in H as [Hs%review_require_ok Hc%review_false].
    rewrite set_eq_spec in Hs. split; try done. exists names. split; [|split; [|done]].
    + rewrite El. unfold jstrs. f_equal. clear -Hn. induction Hn as [|v s l names [-> _]%review_text_ok _ IH]; [done|].
      simpl. by rewrite IH.
    + intros Hin. clear -Hn Hin. induction Hn as [|v s l names [_ Hne]%review_text_ok _ IH]; [done|].
      destruct Hin as [->|]; auto.
  - intros [Hf Hi (names & -> & Hne & Hs) Hc]. do 2 (split; [done|]). simpl. apply bind_ok. exists names. split.
    + apply map_m_ok. clear -Hne. induction names as [|s names IH]; simpl; constructor.
      * apply review_text_ok. split; [done|]. intros ->. apply Hne. by left.
      * apply IH. intros ?. apply Hne. by right.
    + apply bind_ok_unit. rewrite review_require_ok, set_eq_spec, review_false. done.
Qed.

Lemma review_accepted F p s : validate_proof F p s = Ok tt ->
  validate_schema_file F s = Ok tt /\ exists d, load_json_object F p = Ok d /\ review_ok d.
Proof.
  unfold validate_proof. intros [Hs (d & Hd & (Hclean%scan_privacy_ok & (Hf%has_only_ok & (Hsch%review_value_is &
    H)%bind_ok_unit)%bind_ok_unit)%bind_ok_unit)%bind_ok]%bind_ok_unit.
  apply bind_ok in H as (run & [Hrun _]%review_text_ok & (_ & H)%bind_ok_unit).
  apply bind_ok in H as (u & [Hu _]%review_text_ok & H).
  apply bind_ok in H as (m & Hm%matched_ok & (Hg%review_require_ok%String.eqb_eq & H)%bind_ok_unit).
  apply bind_ok in H as (sha & [Hsha _]%review_text_ok & (Hhex%review_require_ok%class_fullmatch & H)%bind_ok_unit).
  apply bind_ok_unit in H as [He%review_value_is H]. apply bind_ok in H as (en & Hen%int_field_ok & H).
  apply bind_ok_unit in H as [Hst%review_value_is H]. apply bind_ok in H as (who & Hwho%review_text_ok & H).
  apply bind_ok in H as (rn & Hrn%int_field_ok & H). apply bind_ok_unit in H as [Hcom%review_value_is H].
  apply bind_ok in H as (a & [Ha _]%review_text_ok & H). apply bind_ok in H as (am & Ham%matched_ok & H).
  apply bind_ok_unit in H as [Hg12%review_require_ok H]. apply andb_true_iff in Hg12 as [Hg1 Hg2].
  apply String.eqb_eq in Hg1, Hg2. apply bind_ok_unit in H as [Hg3%review_require_ok%String.eqb_eq H].
  apply bind_ok in H as (t & [Ht _]%review_text_ok & (Htime%review_require_ok & H)%bind_ok_unit).
  apply bind_ok_unit in H as [Hh%review_false H]. apply bind_ok_unit in H as [Hr%review_false Hp%review_false].
  apply re_full_url in Hm as (o & r & n & Hso & Hsr & Hdn & -> & Ho1 & Ho2 & Ho3).
  apply re_full_url in Ham as (o' & r' & n' & _ & _ & _ & -> & Ha1 & Ha2 & Ha3).
  split; [done|]. exists d. split; [done|]. split; try done;
    [ | exists sha; destruct Hhex; repeat split; (done || lia) | split; [done | by exists en]
    | split; [done | split; [by exists who | by exists rn]] | by exists t].
  exists o, r, n. subst. by rewrite Hg1, Hg2, Hg3 in Ha.
Qed.

Lemma review_complete F p s d : validate_schema_file F s = Ok tt -> load_json_object F p = Ok d ->
  review_ok d -> validate_proof F p s = Ok tt.
Proof.
  intros Hs Hd [Hf Hc Hsch (o & r & n & Ho & Hr & Hn & Hrun & Hu & Ha) (sha & Hsha & Hl & Hhex) (He & en & Hen)
    (Hst & (who & Hwho) & rn & Hrn) Hcom (t & Ht & Htime) (Hh & Hre & Hp)].
  destruct (re_full_url_complete "https://github.com/" "" o r n Ho Hr Hn) as (m & Hm & <- & <- & Hm3); [done|].
  destruct (re_full_url_complete "https://api.github.com/repos/" "/approvals" (group "1" m) (group "2" m) n Ho Hr Hn)
    as (am & Ham & Ha1 & Ha2 & Ha3); [by intros ? ? [= <- _]|].
  unfold validate_proof. rewrite Hs. cbn [bind]. rewrite Hd. cbn [bind].
  apply bind_ok_unit; split; [by apply scan_privacy_ok|]. apply bind_ok_unit; split; [by apply has_only_ok|].
  apply bind_ok_unit; split; [by apply review_value_is|].
  apply bind_ok. exists n. rewrite review_text_ok. split; [by destruct Hn|].
  apply bind_ok_unit; split; [by apply review_require_ok, plus_fullmatch|].
  apply bind_ok. eexists. rewrite review_text_ok. split; [split; [exact Hu | done]|].
  apply bind_ok. exists m. rewrite matched_ok. split; [done|].
  apply bind_ok_unit; split; [by apply review_require_ok, String.eqb_eq|].
  apply bind_ok. exists sha. rewrite review_text_ok. split; [split; [done | by intros ->]|].
  apply bind_ok_unit; split; [apply review_require_ok, class_fullmatch; split; [done | lia]|].
  apply bind_ok_unit; split; [by apply review_value_is|]. apply bind_ok. exists en. rewrite int_field_ok. split; [done|].
  apply bind_ok_unit; split; [by apply review_value_is|]. apply bind_ok. exists who. rewrite review_text_ok. split; [done|].
  apply bind_ok. exists rn. rewrite int_field_ok. split; [done|]. apply bind_ok_unit; split; [by apply review_value_is|].
  apply bind_ok. eexists. rewrite review_text_ok. split; [split; [exact Ha | done]|].
  apply bind_ok. exists am. rewrite matched_ok. split; [done|].
  apply bind_ok_unit; split; [rewrite review_require_ok, Ha1, Ha2; by rewrite !String.eqb_refl|].
  apply bind_ok_unit; split; [by apply review_require_ok, String.eqb_eq|].
  apply bind_ok. exists t. rewrite review_text_ok. split; [split; [done | by intros ->]|].
  apply bind_ok_unit; split; [by apply review_require_ok|].
  apply bind_ok_unit; split; [by apply review_false|]. apply bind_ok_unit; split; by apply review_false.
Qed.

(** A proof at [p] is accepted against the schema file at [s]. *)
Definition accepted (F : fs) (p s : path) : Prop :=
  (exists sd, load_json_object F s = Ok sd /\ schema_file_ok sd) /\ exists d, load_json_object F p = Ok d /\ review_ok d.
Lemma review_proof_iff F p s : validate_proof F p s = Ok tt <-> accepted F p s.
Proof.
  unfold accepted. rewrite <- schema_file_accepted. split; [apply review_accepted|].
  intros (Hs & d & Hd & H). by eapply review_complete.
Qed.

Lemma main_exits_well F argv : exits_well (main F argv) <->
  exists args, parse_args argv = Ok args /\ snd (dispatch F args) = Ok tt.
Proof.
  unfold main. rewrite end_main_ok. destruct (parse_args argv) as [args|e]; [naive_solver|].
  split; [discriminate | by intros (? & ? & _)].
Qed.
Lemma nonempty_ok {A} (l : list A) m : require (nonempty l) m = Ok tt <-> l <> [].
Proof. rewrite review_require_ok. by destruct l. Qed.
Definition rejected (F : fs) (s p : path) : Prop :=
  refused (fun p => validate_proof F p s) (is_class ProtectedReviewError) p.
Lemma invalid_fixtures_ok F root s : snd (validate_invalid_fixtures F root s) = Ok tt <->
  sorted_glob F root ".json" <> [] /\ Forall (rejected F s) (sorted_glob F root ".json").
Proof. unfold validate_invalid_fixtures. rewrite and_then_ok, reject_each_ok. cbn [snd silent]. by rewrite nonempty_ok. Qed.
Lemma accepted_fixtures_ok F s label ps :
  snd (accept_each (fun p => validate_proof F p s) label ps) = Ok tt <-> Forall (fun p => accepted F p s) ps.
Proof. rewrite accept_each_ok. apply Forall_iff. intros p. apply review_proof_iff. Qed.

Lemma dispatch_proof F p f s :
  snd (dispatch F (MkArgs ProofMode (Some p) f s)) = Ok tt <-> validate_proof F p s = Ok tt.
Proof. unfold dispatch. cbn [mode proof schema]. rewrite and_then_ok. naive_solver. Qed.
Lemma dispatch_fixtures F p f s : snd (dispatch F (MkArgs FixturesMode p f s)) = Ok tt <->
  let valid := sorted_glob F (div_path f "valid") ".json" in
  let invalid := sorted_glob F (div_path f "invalid") ".json" in
  valid <> [] /\ Forall (fun q => accepted F q s) valid
  /\ invalid <> [] /\ Forall (rejected F s) invalid.
Proof.
  unfold dispatch, validate_fixtures. cbn [mode fixtures schema].
  rewrite !and_then_ok, accepted_fixtures_ok, invalid_fixtures_ok. cbn [snd silent]. by rewrite nonempty_ok.
Qed.

(** * Properties *)

(** C13: the review check exits with 0 on a proof exactly when the schema file is the closed schema of the review fields and the proof is an object of just these fields, without private keys or texts at any depth, that records an approved review of the vm-proof-manual environment with the required comment, a 40 digit commit, and no claim, and whose run URL and review URL name one owner, one repository and the run of the proof; over a directory of fixtures it exits with 0 exactly when it finds valid and invalid fixtures, accepts every valid one and refuses every invalid one with its own error. *)
Theorem protected_review_iff F p s :
  (exits_well (main F (Parsed (Some p) None None s)) <-> accepted F p s)
  /\ (exits_well (main F (Parsed None (Some p) None s)) <->
      let valid := sorted_glob F (div_path p "valid") ".json" in
      let invalid := sorted_glob F (div_path p "invalid") ".json" in
      valid <> [] /\ Forall (fun q => accepted F q s) valid
      /\ invalid <> [] /\ Forall (rejected F s) invalid).
Proof.
  split; rewrite main_exits_well.
  - rewrite <- review_proof_iff, <- (dispatch_proof F p DEFAULT_FIXTURES s). cbn [parse_args]. naive_solver.
  - rewrite <- (dispatch_fixtures F None p s). naive_solver.
Qed.
