(* ===== verification/BundleCompare.v ===== *)
(** BundleCompare: qa/evidence_bundle_paths.py and
    qa/evidence_bundle_compare_check.py (with [load_json] of
    qa/evidence_manifest_check.py): two evidence bundles are indexed, every
    referenced artifact checked against its digest, and compared. *)
From S2P Require Import Prelude PyStr PyFloat PyJson Sha256 PyFs PyMain.

Local Open Scope string_scope.

(** ** qa/evidence_bundle_paths.py *)
Definition fail {A} (m : string) : result A := raise BundleCompareError m.

Definition require (condition : bool) (message : string) : result unit :=
  ensure condition BundleCompareError message.

Definition text (value : json) (context : string) : result string :=
  match value with
  | JStr s => if String.eqb s "" then fail (context ++ " must be non-empty text") else Ok s
  | _ => fail (context ++ " must be non-empty text")
  end.

Definition obj (value : json) (context : string) : result jobject :=
  match value with
  | JDict d => Ok d
  | _ => fail (context ++ " must be an object")
  end.

Definition safe_path (value : json) (context : string) : result path :=
  let* raw := text value context in
  let p := Path raw in
  require (negb (is_absolute p) && negb (mem ".." (parts p)))
    (context ++ " must be relative and non-traversing: " ++ raw) ;;;
  Ok p.

(** ** qa/evidence_bundle_compare_check.py *)
Definition REF_FIELDS : list string := ["path"; "sha256"; "schema_role"].
Definition REQUIRED_ROLES : list string := [
  "matrix-manifest"; "matrix-row"; "rollback-proof"; "cleanup-proof"; "host-refusal-proof"; "privacy-scan";
  "runner-substrate-proof"; "runner-cleanliness-proof"; "protected-environment-review"].
Definition BPF_ROLES : list string := ["bpf-metadata"; "bpf-skip-json"].

Abbreviation BenchmarkState := (string * nat)%type.

Record CompareOptions : Set := MkOptions {
  expect_tuple_change : bool;
  expect_bpf_change : bool;
  expect_git_sha_change : bool;
  left_artifact_root : option path;
  right_artifact_root : option path;
}.

(** [refs_by_role]: the references of a role in the order they were met.  The
    [Counter] [roles] counts them. *)
Record BundleIndex : Set := MkIndex {
  manifest_path : path;
  manifest : jobject;
  roles : gmap string nat;
  refs_by_role : gmap string (list (path * string));
  matrix_rows : gset string;
  supported_tuple : string;
  runner_tuple : string;
  git_sha : string;
  bpf_identity_of : string;
  benchmark_state_of : BenchmarkState;
}.

Fixpoint objs (field : string) (index : nat) (items : list json) : result (list jobject) :=
  match items with
  | [] => Ok []
  | item :: items =>
      let* d := obj item (field ++ "[" ++ str_nat index ++ "]") in
      let* ds := objs field (S index) items in
      Ok (d :: ds)
  end.

Definition refs_from_manifest (manifest : jobject) : result (list jobject) :=
  let* fixed := map_m (fun field => obj (get manifest field) field)
    ["matrix_manifest"; "daemon_events"; "bpf_metadata_or_skip"; "runner_substrate"; "runner_cleanliness"] in
  match get manifest "artifacts" with
  | JList artifacts =>
      let* items := objs "artifacts" 0 artifacts in
      let* extra := match get manifest "benchmark_provenance" with
                    | JList benchmark => objs "benchmark_provenance" 0 benchmark
                    | _ => Ok []
                    end in
      Ok (fixed ++ items ++ extra)%list
  | _ => fail "artifacts must be a list"
  end.

Definition FALSE_KEYS : list string := ["release_eligible"; "production_capacity_claim"; "hard_thresholds_enforced"].

Fixpoint reject_release_claims (value : json) (context : string) {struct value} : result unit :=
  match value with
  | JDict d =>
      (fix items (d : jobject) : result unit :=
         match d with
         | [] => Ok tt
         | (key, child) :: d =>
             (if String.eqb key "host_mutation"
              then require (is_false child) (context ++ ".host_mutation must be false") else Ok tt) ;;;
             (if mem key FALSE_KEYS
              then require (is_false child) (context ++ "." ++ key ++ " must be false") else Ok tt) ;;;
             (if String.eqb key "record_only"
              then require (is_true child) (context ++ ".record_only must be true") else Ok tt) ;;;
             reject_release_claims child (context ++ "." ++ key) ;;;
             items d
         end) d
  | JList l =>
      (fix elems (index : nat) (l : list json) : result unit :=
         match l with
         | [] => Ok tt
         | child :: l =>
             reject_release_claims child (context ++ "[" ++ str_nat index ++ "]") ;;; elems (S index) l
         end) 0 l
  | _ => Ok tt
  end.

(** A non-empty string, or [None]. *)
Definition some_text (v : json) : option string :=
  match v with JStr s => if String.eqb s "" then None else Some s | _ => None end.

Fixpoint nested_text (value : json) (path_keys : list string) : option string :=
  match path_keys with
  | [] => some_text value
  | key :: path_keys =>
      match value with
      | JDict d => nested_text (get d key) path_keys
      | _ => None
      end
  end.

Definition benchmark_state (manifest : jobject) : result BenchmarkState :=
  match get manifest "benchmark_provenance" with
  | JList benchmark => Ok ("refs", List.length benchmark)
  | benchmark =>
      let* d := obj benchmark "benchmark_provenance" in
      let* status := text (get d "status") "benchmark_provenance.status" in
      Ok (status, 0)
  end.

Definition single_role (refs : gmap string (list (path * string))) (role label : string) : result (path * string) :=
  match refs !! role with
  | Some [ref] => Ok ref
  | _ => fail (label ++ " requires exactly one " ++ role ++ " artifact")
  end.

(** The first element that is [Some]. *)
Fixpoint first_some {A} (l : list (option A)) : option A :=
  match l with [] => None | Some a :: _ => Some a | None :: l => first_some l end.

Definition BPF_KEYS : list (list string) := [
  ["bpf_object_sha256"]; ["object_sha256"]; ["object_hash"]; ["bpf"; "object_sha256"];
  ["metadata"; "object_sha256"]].

(** Roles and references met so far by the loop of [index_bundle]. *)
Record role_state : Set := RoleState {
  role_counts : gmap string nat;
  role_refs : gmap string (list (path * string));
}.

Definition add_ref (role : string) (p : path) (digest : string) (st : role_state) : role_state :=
  RoleState (<[role := S (default 0 (role_counts st !! role))]> (role_counts st))
            (<[role := (default [] (role_refs st !! role) ++ [(p, digest)])%list]> (role_refs st)).

Section Files.
Variable F : fs.

Definition resolve_manifest (p : path) : path :=
  if is_dir F p then div_path p "evidence-manifest.json" else p.

Definition artifact_path (manifest_path : path) (artifact_root : option path) (value : json) (context : string)
    : result path :=
  let* p := safe_path value context in
  let rooted := join_path (match artifact_root with Some r => r | None => parent manifest_path end) p in
  require (exists_ F rooted) ("missing referenced artifact: " ++ path_str p) ;;;
  Ok rooted.

Definition file_sha (p : path) : result string :=
  reraise FileNotFoundError BundleCompareError
    (fun _ => "missing referenced artifact: " ++ path_str p) (sha256_of F p).

(** [load_json] of qa/evidence_manifest_check.py. *)
Definition load_json (p : path) : result jobject :=
  let* raw := catch (bind (read_text F p) loads) (fun exc =>
    if decide (exn_cls exc = FileNotFoundError)
    then Some (raise ManifestError ("missing JSON file: " ++ path_str p))
    else if decide (exn_cls exc = JSONDecodeError)
    then Some (raise ManifestError ("invalid JSON in " ++ path_str p ++ ": " ++ exn_str exc))
    else None) in
  match raw with
  | JDict d => Ok d
  | _ => raise ManifestError (path_str p ++ " must contain a JSON object")
  end.

Definition validate_ref (manifest_path : path) (artifact_root : option path) (ref : jobject) (context : string)
    : result (string * path * string) :=
  let extra := sorted (set_diff (keys ref) REF_FIELDS) in
  require (match extra with [] => true | _ => false end)
    (context ++ " has unexpected fields: " ++ join ", " extra) ;;;
  let* p := artifact_path manifest_path artifact_root (get ref "path") (context ++ ".path") in
  let* digest := text (get ref "sha256") (context ++ ".sha256") in
  let* actual := file_sha p in
  require (String.eqb actual digest) (context ++ ".sha256 does not match " ++ path_str p) ;;;
  let* role := text (get ref "schema_role") (context ++ ".schema_role") in
  Ok (role, p, digest).

Definition reject_json_artifact_claims (p : path) (context : string) : result unit :=
  if String.eqb (suffix p) ".json" then
    let* d := load_json p in reject_release_claims (JDict d) context
  else if negb (String.eqb (suffix p) ".jsonl") then Ok tt
  else
    let* text := read_text F p in
    for_enum 1 (splitlines text) (fun line_no line =>
      if String.eqb (strip line) "" then Ok tt else
      let* value := reraise JSONDecodeError BundleCompareError
        (fun exc => "invalid referenced JSON " ++ path_str p ++ ":" ++ str_nat line_no ++ ": " ++ exn_str exc)
        (loads line) in
      reject_release_claims value (context ++ ":" ++ str_nat line_no)).

Definition row_step (label : string) (index : nat) (row : json) (scenarios : gset string)
    : result (gset string) :=
  let here := label ++ ".rows[" ++ str_nat index ++ "]" in
  let* d := obj row here in
  let* scenario := text (get d "scenario_id") (here ++ ".scenario_id") in
  require (negb (bool_decide (scenario ∈ scenarios)))
    (label ++ ".rows contains duplicate scenario_id: " ++ scenario) ;;;
  Ok ({[scenario]} ∪ scenarios).

Definition row_set (matrix_path : path) (label : string) : result (gset string) :=
  let* matrix := load_json matrix_path in
  reject_release_claims (JDict matrix) label ;;;
  match get matrix "rows" with
  | JList rows =>
      let* scenarios := for_fold 0 rows ∅ (row_step label) in
      let row_count := get matrix "row_count" in
      (if is_int row_count
       then require (py_eq row_count (JInt (Z.of_nat (List.length rows))))
              (label ++ ".row_count does not match rows length")
       else Ok tt) ;;;
      Ok scenarios
  | _ => fail (label ++ ".rows must be a list")
  end.

Definition first_json_text (p : path) (path_keys : list string) (fallback : string) : result string :=
  if negb (String.eqb (suffix p) ".json") then Ok fallback
  else let* d := load_json p in
       Ok (match nested_text (JDict d) path_keys with Some s => s | None => fallback end).

Definition bpf_identity (p : path) (fallback_digest : string) : result string :=
  if negb (String.eqb (suffix p) ".json") then Ok fallback_digest
  else let* data := load_json p in
       Ok (match first_some (map (nested_text (JDict data)) BPF_KEYS) with
           | Some found => found
           | None => fallback_digest
           end).

(** One reference in the loop of [index_bundle]. *)
Definition index_step (manifest_path : path) (artifact_root : option path) (label : string) (index : nat)
    (ref : jobject) (st : role_state) : result role_state :=
  let* (role, path_value, digest) :=
    validate_ref manifest_path artifact_root ref (label ++ ".ref[" ++ str_nat index ++ "]") in
  reject_json_artifact_claims path_value (label ++ "." ++ role) ;;;
  Ok (add_ref role path_value digest st).

Definition has_role (st : role_state) (role : string) : bool :=
  match role_counts st !! role with Some _ => true | None => false end.

Definition index_bundle (p : path) (label : string) (artifact_root : option path) : result BundleIndex :=
  let manifest_path := resolve_manifest p in
  let* manifest := load_json manifest_path in
  reject_release_claims (JDict manifest) label ;;;
  let* refs := refs_from_manifest manifest in
  let* st := for_fold 0 refs (RoleState ∅ ∅) (index_step manifest_path artifact_root label) in
  let missing := sorted (List.filter (fun role => negb (has_role st role)) REQUIRED_ROLES) in
  require (match missing with [] => true | _ => false end)
    (label ++ " missing required role(s): " ++ join ", " missing) ;;;
  require (existsb (has_role st) BPF_ROLES) (label ++ " requires BPF metadata or skip role") ;;;
  let* (matrix_path, _) := single_role (role_refs st) "matrix-manifest" label in
  let* (runner_path, _) := single_role (role_refs st) "runner-substrate-proof" label in
  let* (review_path, _) := single_role (role_refs st) "protected-environment-review" label in
  let bpf_role := if has_role st "bpf-metadata" then "bpf-metadata" else "bpf-skip-json" in
  let* (bpf_path, bpf_digest) := single_role (role_refs st) bpf_role label in
  let* manifest_tuple := text (get manifest "supported_tuple") (label ++ ".supported_tuple") in
  let* runner_tuple := first_json_text runner_path ["kernel_tuple"; "supported_tuple"] manifest_tuple in
  require (String.eqb manifest_tuple runner_tuple) (label ++ " manifest and runner supported_tuple differ") ;;;
  let* rows := row_set matrix_path (label ++ ".matrix") in
  let* head_sha := first_json_text review_path ["head_sha"] "unavailable" in
  let* identity := bpf_identity bpf_path bpf_digest in
  let* state := benchmark_state manifest in
  Ok (MkIndex manifest_path manifest (role_counts st) (role_refs st) rows manifest_tuple runner_tuple head_sha
        identity state).

Definition compare (left_path right_path : path) (options : CompareOptions) : result unit :=
  let* lhs := index_bundle left_path "left" (left_artifact_root options) in
  let* rhs := index_bundle right_path "right" (right_artifact_root options) in
  require (bool_decide (roles lhs = roles rhs)) "bundle schema-role artifact counts differ" ;;;
  require (bool_decide (matrix_rows lhs = matrix_rows rhs)) "matrix row sets differ" ;;;
  require (expect_tuple_change options || String.eqb (supported_tuple lhs) (supported_tuple rhs))
    "supported_tuple changed without expected-change flag" ;;;
  require (expect_git_sha_change options || String.eqb (git_sha lhs) (git_sha rhs))
    "protected review git SHA changed without expected-change flag" ;;;
  require (expect_bpf_change options || String.eqb (bpf_identity_of lhs) (bpf_identity_of rhs))
    "BPF object hash changed without expected-change flag" ;;;
  require (bool_decide (benchmark_state_of lhs = benchmark_state_of rhs))
    "benchmark provenance role state differs".
End Files.

(** ** The command line *)
Definition FLAGS : list string := [
  "--expect-tuple-change"; "--allow-tuple-change"; "--expect-bpf-change"; "--allow-bpf-change";
  "--expect-git-sha-change"; "--allow-git-sha-change"].

(** Positional arguments and the two artifact roots. *)
Record cli : Set := Cli { positional : list string; left_root : option path; right_root : option path }.

(** The [while index < len(argv)] loop. *)
Fixpoint cli_loop (argv : list string) (st : cli) : result cli :=
  match argv with
  | [] => Ok st
  | arg :: rest =>
      if mem arg FLAGS then cli_loop rest st
      else if String.eqb arg "--artifact-root" then
        match rest with
        | [] => fail "--artifact-root requires a path"
        | v :: rest => cli_loop rest (Cli (positional st) (Some (Path v)) (Some (Path v)))
        end
      else if String.eqb arg "--left-artifact-root" then
        match rest with
        | [] => fail "--left-artifact-root requires a path"
        | v :: rest => cli_loop rest (Cli (positional st) (Some (Path v)) (right_root st))
        end
      else if String.eqb arg "--right-artifact-root" then
        match rest with
        | [] => fail "--right-artifact-root requires a path"
        | v :: rest => cli_loop rest (Cli (positional st) (left_root st) (Some (Path v)))
        end
      else cli_loop rest (Cli (positional st ++ [arg])%list (left_root st) (right_root st))
  end.

Definition USAGE : string :=
  "usage: evidence_bundle_compare_check.py --self-test | --left <manifest-or-root> --right <manifest-or-root> [--artifact-root <root> | --left-artifact-root <root> --right-artifact-root <root>] [--expect-tuple-change] [--expect-bpf-change] [--expect-git-sha-change]".

Definition parse_cli (argv : list string) : result (option (path * path * CompareOptions)) :=
  match argv with
  | ["--self-test"] => Ok None
  | _ =>
      let* st := cli_loop argv (Cli [] None None) in
      let options := MkOptions
        (mem "--expect-tuple-change" argv || mem "--allow-tuple-change" argv)
        (mem "--expect-bpf-change" argv || mem "--allow-bpf-change" argv)
        (mem "--expect-git-sha-change" argv || mem "--allow-git-sha-change" argv)
        (left_root st) (right_root st) in
      match positional st with
      | [a; l; b; r] =>
          if String.eqb a "--left" && String.eqb b "--right" then Ok (Some (Path l, Path r, options)) else fail USAGE
      | _ => fail USAGE
      end
  end.

(** [main], where [self_test] is the outcome of the self-test subprocess. *)
Definition main (F : fs) (self_test : result unit) (argv : list string) : exit :=
  run_main (fun c => is_OSError c || is_class ManifestError c || is_class BundleCompareError c)
    "FAIL evidence bundle compare"
    (let* parsed := parse_cli argv in
     match parsed with
     | None => self_test ;;; Ok []
     | Some (lhs, rhs, options) =>
         compare F lhs rhs options ;;;
         Ok ["PASS evidence bundle compare: " ++ path_str lhs ++ " " ++ path_str rhs]
     end).

(** * Specification *)

(** No host mutation and no claim at any depth, and records are record-only. *)
Definition claim_free_entry (k : string) (v : json) : Prop :=
  (k = "host_mutation" -> v = JBool false)
  /\ (In k FALSE_KEYS -> v = JBool false)
  /\ (k = "record_only" -> v = JBool true).
Definition claim_free (v : json) : Prop := CleanAt (fun _ => True) claim_free_entry (fun _ => True) v.

(** A reference that was checked: its bytes have the digest. *)
Definition checked_ref (F : fs) (ref : path * string) : Prop := file_digest F (fst ref) (snd ref).

(** The counter and the dictionary of the loop agree. *)
Record roles_ok (F : fs) (st : role_state) : Prop := {
  rs_counts : forall role n, role_counts st !! role = Some n <->
    exists refs, role_refs st !! role = Some refs /\ length refs = n;
  rs_positive : forall role refs, role_refs st !! role = Some refs -> refs <> [];
  rs_checked : forall role refs, role_refs st !! role = Some refs -> Forall (checked_ref F) refs;
}.

Definition roles_of (i : BundleIndex) : role_state := RoleState (roles i) (refs_by_role i).

(** What the index of a bundle guarantees. *)
Record index_ok (F : fs) (i : BundleIndex) : Prop := {
  ix_manifest : load_json F (manifest_path i) = Ok (manifest i);
  ix_claims : claim_free (JDict (manifest i));
  ix_roles : roles_ok F (roles_of i);
  ix_required : forall role, In role REQUIRED_ROLES -> exists n, roles i !! role = Some n /\ 0 < n;
  ix_bpf : exists role, In role BPF_ROLES /\ roles i !! role <> None;
  ix_single : forall role, In role ["matrix-manifest"; "runner-substrate-proof"; "protected-environment-review"] ->
    roles i !! role = Some 1;
  ix_tuple : supported_tuple i = runner_tuple i /\ get (manifest i) "supported_tuple" = JStr (supported_tuple i);
}.

(** The two indices agree where no change is expected. *)
Record agree (options : CompareOptions) (lhs rhs : BundleIndex) : Prop := {
  ag_roles : roles lhs = roles rhs;
  ag_rows : matrix_rows lhs = matrix_rows rhs;
  ag_tuple : expect_tuple_change options = true \/ supported_tuple lhs = supported_tuple rhs;
  ag_sha : expect_git_sha_change options = true \/ git_sha lhs = git_sha rhs;
  ag_bpf : expect_bpf_change options = true \/ bpf_identity_of lhs = bpf_identity_of rhs;
  ag_benchmark : benchmark_state_of lhs = benchmark_state_of rhs;
}.

(** A bundle with one artifact per required role. *)
Definition demo_ref (p : string) (text : string) (role : string) : json :=
  JDict [("path", JStr p); ("sha256", JStr (sha256_hex text)); ("schema_role", JStr role)].
Definition demo_matrix : string :=
  dumps (JDict [("row_count", JInt 1); ("rows", JList [JDict [("scenario_id", JStr "boot")]])]).
Definition demo_manifest : string :=
  let note := demo_ref "note.txt" "checked" in
  dumps (JDict [
    ("matrix_manifest", demo_ref "matrix.json" demo_matrix "matrix-manifest");
    ("daemon_events", note "daemon-events"); ("bpf_metadata_or_skip", note "bpf-skip-json");
    ("runner_substrate", note "runner-substrate-proof"); ("runner_cleanliness", note "runner-cleanliness-proof");
    ("artifacts", JList (map note ["matrix-row"; "rollback-proof"; "cleanup-proof"; "host-refusal-proof";
                                   "privacy-scan"; "protected-environment-review"]));
    ("benchmark_provenance", JList []); ("supported_tuple", JStr "6.12-x86_64"); ("host_mutation", JBool false)]).
Definition demo_files : fs := fs_of "/repo" [
  ("bundle/evidence-manifest.json", File demo_manifest); ("bundle/matrix.json", File demo_matrix);
  ("bundle/note.txt", File "checked"); ("bundle", Dir ["evidence-manifest.json"; "matrix.json"; "note.txt"])].

(** * Lemmas *)
Lemma bundle_require_ok c m u : require c m = Ok u <-> c = true.
Proof. apply ensure_ok. Qed.

Lemma bundle_text_ok v c s : text v c = Ok s <-> v = JStr s /\ s <> "".
Proof.
  destruct v as [| | | |t| |]; simpl; try (split; [discriminate | by intros [[=] _]]).
  destruct (String.eqb_spec t "") as [->|Ht]; [split; [discriminate | by intros [[= <-] ?]]|].
  rewrite Ok_inj. split; [by intros <- | by intros [[= <-] _]].
Qed.

Lemma when_require (b c : bool) m :
  (if b then require c m else Ok tt) = Ok tt <-> (b = true -> c = true).
Proof. destruct b; rewrite ?bundle_require_ok; naive_solver. Qed.

Lemma reject_release_claims_ok v context : reject_release_claims v context = Ok tt <-> claim_free v.
Proof.
  revert context. unfold claim_free. induction v as [| | | |s|l IH|d IH] using json_nested_ind; intros context;
    cbn [reject_release_claims]; try (split; [intros _; by apply clean_at_scalar | done]).
  - by rewrite clean_at_str.
  - rewrite clean_at_list. generalize 0. induction IH as [|child l Hchild _ IHl]; intros n;
      [split; [constructor | done]|]. rewrite Forall_cons, bind_ok_unit, <- (IHl (S n)), Hchild. tauto.
  - rewrite clean_at_dict. induction IH as [|[key child] d Hchild _ IHd]; [split; [constructor | done]|].
    rewrite Forall_cons, !bind_ok_unit, <- IHd, !when_require. cbn [fst snd] in Hchild |- *.
    rewrite Hchild, !String.eqb_eq, mem_In, is_false_iff, is_true_iff. unfold claim_free_entry. tauto.
Qed.

Lemma file_sha_ok F p digest : file_sha F p = Ok digest <-> file_digest F p digest.
Proof. unfold file_sha. by rewrite reraise_ok, sha256_of_ok. Qed.

Lemma add_ref_ok F role p digest st :
  file_digest F p digest -> roles_ok F st -> roles_ok F (add_ref role p digest st).
Proof.
  intros Hd [Hc Hp Hk]. unfold add_ref. split; cbn [role_counts role_refs].
  - intros r n. destruct (decide (r = role)) as [->|Hr].
    + rewrite !lookup_insert_eq. destruct (role_refs st !! role) as [refs|] eqn:Er; simpl.
      * assert (Hn : role_counts st !! role = Some (length refs)) by (apply Hc; by exists refs).
        rewrite Hn. simpl. split; [intros [= <-]; eexists; split; [done|]; rewrite length_app; simpl; lia|].
        intros (? & [= <-] & <-). rewrite length_app. simpl. f_equal. lia.
      * assert (Hn : role_counts st !! role = None).
        { destruct (role_counts st !! role) as [m|] eqn:Em; [|done]. apply Hc in Em as (? & ? & _). congruence. }
        rewrite Hn. simpl. split; [intros [= <-]; by eexists | by intros (? & [= <-] & <-)].
    + rewrite !lookup_insert_ne by done. apply Hc.
  - intros r refs. destruct (decide (r = role)) as [->|Hr]; [rewrite lookup_insert_eq | rewrite lookup_insert_ne by done; apply Hp].
    intros [= <-]. by destruct (default [] _).
  - intros r refs. destruct (decide (r = role)) as [->|Hr]; [rewrite lookup_insert_eq | rewrite lookup_insert_ne by done; apply Hk].
    intros [= <-]. apply Forall_app. split; [|by repeat constructor].
    destruct (role_refs st !! role) as [refs|] eqn:Er; [by eapply Hk | constructor].
Qed.

Lemma index_step_ok F mp root label i ref st st' :
  index_step F mp root label i ref st = Ok st' -> roles_ok F st -> roles_ok F st'.
Proof.
  unfold index_step, validate_ref. cbv zeta. intros H Hst.
  apply bind_ok in H as ([[role p] digest] & H1 & H). apply bind_ok_unit in H as [_ [= <-]].
  apply bind_ok_unit in H1 as [_ H1]. apply bind_ok in H1 as (q & _ & H1).
  apply bind_ok in H1 as (dg & _ & H1). apply bind_ok in H1 as (actual & Ha%file_sha_ok & H1).
  apply bind_ok_unit in H1 as [->%bundle_require_ok%String.eqb_eq H1].
  apply bind_ok in H1 as (r & _ & [= <- <- <-]). by apply add_ref_ok.
Qed.

Lemma single_role_ok refs role label ref : single_role refs role label = Ok ref <-> refs !! role = Some [ref].
Proof.
  unfold single_role. destruct (refs !! role) as [[|a [|b l]]|]; split; try discriminate.
  - by intros [= ->].
  - by intros [= ->].
Qed.

Lemma missing_roles st :
  sorted (List.filter (fun role => negb (has_role st role)) REQUIRED_ROLES) = [] <->
  forall role, In role REQUIRED_ROLES -> has_role st role = true.
Proof.
  assert (H : forall l, sorted l = [] <-> forall x, ~ In x l).
  { intros l. split; [intros H x; rewrite <- (sorted_in x l), H; tauto|]. intros H.
    destruct (sorted l) as [|x r] eqn:E; [done|]. destruct (H x). rewrite <- sorted_in, E. by left. }
  rewrite H. setoid_rewrite filter_In. setoid_rewrite negb_true_iff. split.
  - intros Hf role Hi. apply not_false_iff_true. intros Hn. by apply (Hf role).
  - intros Hf role [Hi Hn]. rewrite Hf in Hn; done.
Qed.

Lemma role_single_count F st role ref :
  roles_ok F st -> role_refs st !! role = Some [ref] -> role_counts st !! role = Some 1.
Proof. intros [Hc _ _] H. apply Hc. by exists [ref]. Qed.

Lemma has_role_count F st role : roles_ok F st -> has_role st role = true -> exists n, role_counts st !! role = Some n /\ 0 < n.
Proof.
  intros [Hc Hp _] H. unfold has_role in H. destruct (role_counts st !! role) as [n|] eqn:E; [|discriminate].
  exists n. split; [done|]. apply Hc in E as (refs & Hr & <-). apply Hp in Hr. destruct refs; [done | simpl; lia].
Qed.

Lemma index_bundle_ok F p label root i : index_bundle F p label root = Ok i -> index_ok F i.
Proof.
  unfold index_bundle. cbv zeta. intros (m & Hm & H)%bind_ok.
  apply bind_ok_unit in H as [Hclaims%reject_release_claims_ok H]. apply bind_ok in H as (refs & _ & H).
  apply bind_ok in H as (st & Hst & H).
  assert (Hroles : roles_ok F st).
  { eapply (for_fold_invariant (roles_ok F)); [|exact Hst|].
    - intros j x s s' Hs. by eapply index_step_ok.
    - split; [|intros ? ?|intros ? ?]; cbn [role_counts role_refs]; try (intros n; split; [|intros (? & H1 & _); revert H1]);
        rewrite ?lookup_empty; discriminate. }
  apply bind_ok_unit in H as [Hmiss%bundle_require_ok H].
  apply bind_ok_unit in H as [Hbpf%bundle_require_ok H].
  apply bind_ok in H as ([mp ?] & Hmatrix%single_role_ok & H).
  apply bind_ok in H as ([rp ?] & Hrunner%single_role_ok & H).
  apply bind_ok in H as ([vp ?] & Hreview%single_role_ok & H).
  apply bind_ok in H as ([bp bd] & _ & H). apply bind_ok in H as (tup & [Htup _]%bundle_text_ok & H).
  apply bind_ok in H as (rt & _ & H). apply bind_ok_unit in H as [->%bundle_require_ok%String.eqb_eq H].
  apply bind_ok in H as (rows & _ & H). apply bind_ok in H as (sha & _ & H). apply bind_ok in H as (bi & _ & H).
  apply bind_ok in H as (bs & _ & [= <-]).
  apply (role_single_count F) in Hmatrix, Hrunner, Hreview; try done. split; try done.
  - by destruct st.
  - intros role Hi. apply (has_role_count F); [done|]. eapply missing_roles; [|done].
    by destruct (sorted _).
  - apply existsb_exists in Hbpf as (role & Hi & Hr). exists role. split; [done|].
    apply (has_role_count F) in Hr as (n & Hn & _); [|done]. simpl. by rewrite Hn.
  - by intros role [<-|[<-|[<-|[]]]].
Qed.

Lemma agree_ok options lhs rhs :
  (require (bool_decide (roles lhs = roles rhs)) "bundle schema-role artifact counts differ" ;;;
   require (bool_decide (matrix_rows lhs = matrix_rows rhs)) "matrix row sets differ" ;;;
   require (expect_tuple_change options || String.eqb (supported_tuple lhs) (supported_tuple rhs))
     "supported_tuple changed without expected-change flag" ;;;
   require (expect_git_sha_change options || String.eqb (git_sha lhs) (git_sha rhs))
     "protected review git SHA changed without expected-change flag" ;;;
   require (expect_bpf_change options || String.eqb (bpf_identity_of lhs) (bpf_identity_of rhs))
     "BPF object hash changed without expected-change flag" ;;;
   require (bool_decide (benchmark_state_of lhs = benchmark_state_of rhs))
     "benchmark provenance role state differs") = Ok tt <-> agree options lhs rhs.
Proof.
  rewrite !bind_ok_unit, !bundle_require_ok, !bool_decide_eq_true, !orb_true_iff, !String.eqb_eq.
  split; [intros (? & ? & ? & ? & ? & ?); by split | by intros []].
Qed.

(** * Properties *)

(** The claim scan of the evidence bundles accepts a value exactly when, at
    every depth, host_mutation and the claim flags are the boolean false and
    record_only is the boolean true wherever they occur. *)
Theorem reject_release_claims_iff v context :
  reject_release_claims v context = Ok tt <->
  forall k w, EntryAt (fun _ => True) k w v ->
    (k = "host_mutation" -> w = JBool false)
    /\ (In k ["release_eligible"; "production_capacity_claim"; "hard_thresholds_enforced"] -> w = JBool false)
    /\ (k = "record_only" -> w = JBool true).
Proof.
  rewrite reject_release_claims_ok. unfold claim_free, CleanAt, claim_free_entry. split; [by intros [H _] | by split].
Qed.

(** C10: [compare] accepts two bundles exactly when both are indexed and the
    indices agree on the count of every artifact role, on the set of matrix rows
    and on the benchmark state, and, unless the change is expected, on the
    supported tuple, the reviewed git SHA and the BPF object. *)
Theorem compare_iff F l r options :
  compare F l r options = Ok tt <->
  exists lhs rhs, index_bundle F l "left" (left_artifact_root options) = Ok lhs
    /\ index_bundle F r "right" (right_artifact_root options) = Ok rhs /\ agree options lhs rhs.
Proof.
  unfold compare. split.
  - intros (lhs & Hl & (rhs & Hr & H%agree_ok)%bind_ok)%bind_ok. by exists lhs, rhs.
  - intros (lhs & rhs & Hl & Hr & H%agree_ok). rewrite Hl, Hr. exact H.
Qed.

(** An indexed bundle is sound: its manifest carries no claim, the counter and
    the dictionary of roles agree, every indexed artifact exists with the digest
    the manifest states, every required role and a BPF role occur, the matrix, the
    runner and the review artifacts occur exactly once, and the supported tuple of
    the runner is that of the manifest. *)
Theorem index_bundle_sound F p label root i (H : index_bundle F p label root = Ok i) : index_ok F i.
Proof. by eapply index_bundle_ok. Qed.

Lemma index_bundle_sound_witness :
  exists i, index_bundle demo_files (Path "bundle") "left" None = Ok i /\ index_ok demo_files i.
Proof.
  destruct (index_bundle demo_files (Path "bundle") "left" None) as [i|e] eqn:E.
  - exists i. split; [reflexivity|]. exact (index_bundle_sound demo_files (Path "bundle") "left" None i E).
  - exfalso. vm_compute in E. discriminate E.
Defined.

Example demo_compare :
  main demo_files (Ok tt) ["--left"; "bundle"; "--right"; "bundle/evidence-manifest.json"]
  = Exited 0 ["PASS evidence bundle compare: bundle bundle/evidence-manifest.json"] [].
Proof. vm_compute. reflexivity. Qed.
