(* ===== verification/BundleEquiv.v ===== *)
(** BundleEquiv: the comparison of BundleCompare is an equivalence.  The label
    under which a bundle is indexed occurs in messages only, so its index does
    not depend on the side it is compared on. *)
From S2P Require Import Prelude PyStr PyRe PyFloat PyJson Sha256 PyFs BundleCompare.

Local Open Scope string_scope.

(** A bundle to compare: its path and its artifact root. *)
Definition bundle : Set := path * option path.
Definition options_for (tuple_change bpf_change sha_change : bool) (x y : bundle) : CompareOptions :=
  MkOptions tuple_change bpf_change sha_change (snd x) (snd y).

(** * The index does not depend on the label *)
Create HintDb alike.
Lemma text_alike v c c' : alike (text v c) (text v c').
Proof. unfold text, fail. repeat alike_step. Qed.
Lemma obj_alike v c c' : alike (obj v c) (obj v c').
Proof. unfold obj, fail. repeat alike_step. Qed.
Lemma claims_alike v c c' : alike (reject_release_claims v c) (reject_release_claims v c').
Proof. intros []. by rewrite !reject_release_claims_ok. Qed.
#[local] Hint Resolve text_alike obj_alike claims_alike : alike.
Ltac alike := repeat (alike_step || solve [auto with alike nocore]).
Lemma safe_path_alike v c c' : alike (safe_path v c) (safe_path v c').
Proof. unfold safe_path, require. alike. Qed.
#[local] Hint Resolve safe_path_alike : alike.
Lemma validate_ref_alike F mp ar r c c' : alike (validate_ref F mp ar r c) (validate_ref F mp ar r c').
Proof. unfold validate_ref, artifact_path, require. alike. Qed.
#[local] Hint Resolve validate_ref_alike : alike.
Lemma artifact_claims_alike F p c c' : alike (reject_json_artifact_claims F p c) (reject_json_artifact_claims F p c').
Proof. unfold reject_json_artifact_claims. alike. Qed.
#[local] Hint Resolve artifact_claims_alike : alike.
Lemma row_set_alike F p l l' : alike (row_set F p l) (row_set F p l').
Proof. unfold row_set, row_step, require, fail. alike. Qed.
Lemma single_role_alike m r l l' : alike (single_role m r l) (single_role m r l').
Proof. unfold single_role, require, fail. alike. Qed.
#[local] Hint Resolve row_set_alike single_role_alike : alike.
Lemma index_bundle_alike F p l l' ar : alike (index_bundle F p l ar) (index_bundle F p l' ar).
Proof. unfold index_bundle, index_step, require. alike. Qed.

Lemma index_label F x l l' i : index_bundle F (fst x) l (snd x) = Ok i <-> index_bundle F (fst x) l' (snd x) = Ok i.
Proof. apply index_bundle_alike. Qed.

Lemma agree_sym o o' lhs rhs :
  expect_tuple_change o = expect_tuple_change o' -> expect_git_sha_change o = expect_git_sha_change o' ->
  expect_bpf_change o = expect_bpf_change o' -> agree o lhs rhs -> agree o' rhs lhs.
Proof. intros Ht Hg Hb []. split; rewrite <- ?Ht, <- ?Hg, <- ?Hb; intuition congruence. Qed.

Lemma same_iff F t b g x y l :
  compare F (fst x) (fst y) (options_for t b g x y) = Ok tt <->
  exists i j, index_bundle F (fst x) l (snd x) = Ok i /\ index_bundle F (fst y) l (snd y) = Ok j
    /\ agree (options_for t b g x y) i j.
Proof.
  unfold compare. cbn [left_artifact_root right_artifact_root options_for]. split.
  - intros (i & Hi & (j & Hj & H%agree_ok)%bind_ok)%bind_ok. exists i, j.
    by rewrite (index_label F x l "left"), (index_label F y l "right").
  - intros (i & j & Hi & Hj & H%agree_ok).
    rewrite (index_label F x l "left") in Hi. rewrite (index_label F y l "right") in Hj.
    rewrite Hi, Hj. exact H.
Qed.

(** C11: for fixed expected-change flags, [compare] is a partial equivalence on bundles: it does not depend on the side a bundle stands on, it is transitive, and a bundle compares equal to itself exactly when it can be indexed. *)
Theorem compare_is_equivalence F t b g :
  let same x y := compare F (fst x) (fst y) (options_for t b g x y) = Ok tt in
  (forall x y, same x y -> same y x)
  /\ (forall x y z, same x y -> same y z -> same x z)
  /\ (forall x, same x x <-> exists i, index_bundle F (fst x) "bundle" (snd x) = Ok i).
Proof.
  cbv zeta. repeat apply conj.
  - intros x y. rewrite !(same_iff _ _ _ _ _ _ "bundle"). intros (i & j & Hi & Hj & H).
    exists j, i. split; [done|]. split; [done|]. by eapply agree_sym, H.
  - intros x y z. rewrite !(same_iff _ _ _ _ _ _ "bundle"). intros (i & j & Hi & Hj & H1) (j' & k & Hj' & Hk & H2).
    assert (j' = j) as -> by congruence. exists i, k. split; [done|]. split; [done|].
    destruct H1, H2. split; simpl in *; intuition congruence.
  - intros x. rewrite (same_iff _ _ _ _ _ _ "bundle"). split; [intros (i & _ & Hi & _); by exists i|].
    intros [i Hi]. exists i, i. split; [done|]. split; [done|]. split; auto.
Qed.
