(* ===== verification/VerifierVm.v ===== *)
(** VerifierVm: qa/bpf_artifacts.py, qa/verifier_vm_check.py and
    qa/verifier_refusal_check.py: the BPF object with its metadata, and the
    evidence a VM verifier run leaves.

    Looking up a canonical artifact may run tools/build_bpf.sh, which changes
    the file system, so the functions that can reach it take the file system
    and return it; the script itself is the parameter [build]. *)
From S2P Require Import Prelude PyStr PyFloat PyJson Sha256 PyFs PyMain.
From S2P Require Import PartialAttach.

Local Open Scope string_scope.

(** [dict[str, str]] *)
Abbreviation values := (gmap string string).
Definition value_or (d : values) (key dflt : string) : string := default dflt (d !! key).
Definition value_is (d : values) (key expected : string) : bool := bool_decide (d !! key = Some expected).

(** ** qa/bpf_artifacts.py *)
Definition CANONICAL_OBJECT : path := Path "zig-out/bpf/zigsched_minimal.bpf.o".
Definition CANONICAL_METADATA : path := Path "zig-out/bpf/zigsched_minimal.bpf.meta.json".

Record BpfArtifacts : Set := MkArtifacts {
  object_path : path;
  metadata_path : path;
  object_sha256 : string;
}.

(** How the build script ended: it could not be started, or its return code
    and its stripped output. *)
Inductive build_end : Set :=
| NotStarted
| Finished (returncode : Z) (output : string).

Definition bpf_fail {A} (m : string) : result A := raise BpfArtifactError m.

Definition bpf_require_text (data : jobject) (field context : string) : result string :=
  match get data field with
  | JStr value => if String.eqb value "" then bpf_fail (context ++ " missing text field: " ++ field) else Ok value
  | _ => bpf_fail (context ++ " missing text field: " ++ field)
  end.

Section Artifacts.
Variable F : fs.

Definition sha256_file (p : path) : result string := sha256_of F p.

Definition load_metadata (p : path) : result jobject :=
  let* text := read_text F p in
  let* raw := reraise JSONDecodeError BpfArtifactError (fun _ => "invalid BPF metadata JSON: " ++ path_str p)
                (loads text) in
  match raw with
  | JDict d => Ok d
  | _ => bpf_fail "BPF metadata must contain a JSON object"
  end.

Definition validate_bpf_artifacts (object_p metadata_p : path) : result BpfArtifacts :=
  ensure (is_file F object_p) BpfArtifactError ("missing BPF object: " ++ path_str object_p) ;;;
  ensure (is_file F metadata_p) BpfArtifactError ("missing BPF metadata: " ++ path_str metadata_p) ;;;
  let* object_sha := sha256_file object_p in
  let* metadata := load_metadata metadata_p in
  let* _ := bpf_require_text metadata "schema" "metadata" in
  ensure (py_eq (get metadata "schema") (JStr "zig-scheduler/bpf-object-metadata/v1")) BpfArtifactError
    "BPF metadata schema mismatch" ;;;
  ensure (py_eq (get metadata "object_sha256") (JStr object_sha)) BpfArtifactError
    "BPF metadata object_sha256 disagrees with object" ;;;
  ensure (py_eq (get metadata "object_hash") (JStr ("sha256:" ++ object_sha))) BpfArtifactError
    "BPF metadata object_hash disagrees with object" ;;;
  ensure (match get metadata "object" with JStr s => path_eqb (Path s) object_p | _ => true end) BpfArtifactError
    "BPF metadata object path disagrees with object" ;;;
  ensure (is_false (get metadata "host_mutation") && is_false (get metadata "host_attach_allowed"))
    BpfArtifactError "BPF metadata does not preserve host fail-closed policy" ;;;
  ensure (is_true (get metadata "vm_only")) BpfArtifactError "BPF metadata must be VM-only" ;;;
  ensure (is_false (get metadata "verification_claimed")) BpfArtifactError
    "BPF metadata must not claim verifier success" ;;;
  match get metadata "tool_versions" with
  | JDict tool_versions =>
      let* clang_path := bpf_require_text tool_versions "clang_path" "tool_versions" in
      let clang_path_value := Path clang_path in
      ensure (is_absolute clang_path_value && path_eqb (fs_resolve F clang_path_value) clang_path_value)
        BpfArtifactError "BPF metadata tool_versions.clang_path must be canonical" ;;;
      Ok (MkArtifacts object_p metadata_p object_sha)
  | _ => bpf_fail "BPF metadata missing tool_versions object"
  end.

Definition canonical_built : bool := is_file F CANONICAL_OBJECT && is_file F CANONICAL_METADATA.
End Artifacts.

Section Build.
(** tools/build_bpf.sh *)
Variable build : fs -> fs * build_end.

Definition run_build_bpf (F : fs) : result fs :=
  match build F with
  | (_, NotStarted) => bpf_fail "could not run tools/build_bpf.sh"
  | (F', Finished returncode output) =>
      if negb (returncode =? 0)%Z then bpf_fail ("BPF build failed: " ++ output) else Ok F'
  end.

Definition ensure_canonical_bpf_artifacts (F : fs) : result (BpfArtifacts * fs) :=
  let* F := if negb (canonical_built F) then run_build_bpf F else Ok F in
  let* artifacts := validate_bpf_artifacts F CANONICAL_OBJECT CANONICAL_METADATA in
  Ok (artifacts, F).

Definition ensure_if_canonical (F : fs) (p : path) : result fs :=
  if (path_eqb p CANONICAL_OBJECT || path_eqb p CANONICAL_METADATA) && negb (canonical_built F) then
    let* (_, F) := ensure_canonical_bpf_artifacts F in Ok F
  else Ok F.
End Build.

(** ** qa/verifier_vm_check.py *)
Definition SCHEMA : string := "zig-scheduler/verifier-log-parse/v1".
Definition VM_EVIDENCE_SCHEMA : string := "zig-scheduler/vm-verifier-evidence/v1".
Definition VM_LOG_SCHEMA : string := "zig-scheduler/bpf-verifier-log/v1".
Definition VM_MARKER : string := "/run/zig-scheduler-vm-lab.marker".
Definition LIVE_MODE : string := "vm-live".
Definition LIVE_VM_KIND : string := "qemu-vm".

Record ArtifactClaims : Set := MkClaims {
  claimed_object : path;
  claimed_object_sha : string;
  claimed_metadata : path;
  claimed_metadata_sha : string;
}.

Definition fail {A} (m : string) : result A := raise VMVerifierError m.
Definition require (condition : bool) (message : string) : result unit :=
  ensure condition VMVerifierError message.

Definition add_line (line : string) (d : values) : values :=
  if negb (startswith line "COMMAND:") then
    match split_once "="%char line with
    | Some (key, value) => <[key := value]> d
    | None => d
    end
  else d.

Definition parse_key_values (text : string) : values :=
  fold_left (fun d raw => add_line (strip raw) d) (splitlines text) ∅.

Definition require_text (data : jobject) (field : string) : result string :=
  match get data field with
  | JStr value => if String.eqb value "" then fail ("VM verifier evidence missing text field: " ++ field) else Ok value
  | _ => fail ("VM verifier evidence missing text field: " ++ field)
  end.

Definition require_bool (data : jobject) (field : string) : result bool :=
  match get data field with
  | JBool b => Ok b
  | _ => fail ("VM verifier evidence missing bool field: " ++ field)
  end.

Definition require_object (data : jobject) (field : string) : result jobject :=
  match get data field with
  | JDict d => Ok d
  | _ => fail ("VM verifier evidence missing object field: " ++ field)
  end.

Definition require_key (d : values) (field : string) : result string :=
  let value := value_or d field "" in
  if String.eqb value "" then fail ("VM verifier log missing field: " ++ field) else Ok value.

Definition require_sha256 (value context : string) : result unit :=
  require (Nat.eqb (len value) 64 && all_chars is_hex_lower value) (context ++ " must be a lowercase sha256").

Definition require_checked_sha (data : jobject) (field : string) : result string :=
  let* value := require_text data field in
  require_sha256 value field ;;;
  Ok value.

Definition require_checked_value (d : values) (field : string) : result string :=
  let* value := require_key d field in
  require_sha256 value field ;;;
  Ok value.

Definition require_vm_live_fields (data : jobject) (context : string) : result unit :=
  let* mode := require_text data "evidence_mode" in
  require (String.eqb mode LIVE_MODE) (context ++ " is not VM-live evidence") ;;;
  let* kind := require_text data "vm_kind" in
  require (String.eqb kind LIVE_VM_KIND) (context ++ " must come from qemu-vm") ;;;
  let* present := require_bool data "vm_marker_present" in
  require present (context ++ " missing VM marker") ;;;
  let* marker := require_text data "vm_marker_path" in
  require (String.eqb marker VM_MARKER) (context ++ " has invalid VM marker path") ;;;
  let* kernel := require_object data "kernel_tuple" in
  for_each ["release"; "arch"; "config_sha256"] (fun field =>
    require (match get kernel field with JStr s => negb (String.eqb s "") | _ => false end)
      (context ++ " missing kernel tuple field: " ++ field)).

Definition require_text_is (data : jobject) (field expected message : string) : result unit :=
  let* value := require_text data field in
  require (String.eqb value expected) message.

Definition require_vm_acceptance_fields (data : jobject) (context : string) : result unit :=
  require_text_is data "status" "PASS" (context ++ " status must be PASS") ;;;
  require_text_is data "verifier_result" "accepted" (context ++ " must report verifier acceptance") ;;;
  require_text_is data "attach_result" "registered" (context ++ " must report registered attach") ;;;
  require_text_is data "rollback_status" "PASS" (context ++ " must include rollback PASS").

Definition require_vm_log_values (d : values) : result unit :=
  require (value_is d "evidence_mode" LIVE_MODE) "VM verifier log is not VM-live evidence" ;;;
  require (value_is d "vm_kind" LIVE_VM_KIND) "VM verifier log must come from qemu-vm" ;;;
  require (value_is d "vm_marker_present" "true" && value_is d "vm_marker_path" VM_MARKER)
    "VM verifier log missing VM marker proof" ;;;
  require (value_is d "host_mutation" "false") "VM verifier log must have host_mutation=false" ;;;
  require (value_is d "release_eligible_live_proof" "true")
    "VM verifier log must be release-eligible VM-live proof" ;;;
  require (value_is d "verifier_result" "accepted") "VM verifier log must report verifier acceptance" ;;;
  require (value_is d "attach_result" "registered") "VM verifier log must report registered attach" ;;;
  require (value_is d "rollback_status" "PASS") "VM verifier log must include rollback PASS".

Definition REJECTION_NEEDLES : list string :=
  ["invalid mem access"; "unknown func"; "invalid func"; "program rejected"; "permission denied"].
Definition ACCEPTANCE_NEEDLES : list string :=
  ["verification time"; "registered sched_ext_ops"; "unregistered sched_ext_ops"].

Definition require_vm_log_acceptance (text context : string) : result unit :=
  let lowered := lower text in
  for_each REJECTION_NEEDLES (fun needle =>
    require (negb (contains needle lowered)) (context ++ " contains verifier rejection: " ++ needle)) ;;;
  for_each ACCEPTANCE_NEEDLES (fun needle =>
    require (contains needle lowered) (context ++ " missing VM verifier marker: " ++ needle)).

Definition require_log_matches_evidence (d : values) (evidence : jobject) : result unit :=
  for_each ["object"; "object_sha256"; "bpf_metadata_path"; "bpf_metadata_object_sha256"] (fun field =>
    let* logged := require_key d field in
    let* claimed := require_text evidence field in
    require (String.eqb logged claimed) ("VM verifier evidence " ++ field ++ " disagrees with verifier log")).

Definition parse_bpftool_rc (d : values) : result (option Z) :=
  let value := value_or d "bpftool_rc" "" in
  if String.eqb value "" then Ok None else
  require (isdigit value) ("invalid bpftool_rc: " ++ value) ;;;
  let* n := int_of_isdigit value in
  Ok (Some n).

Definition json_of_rc (rc : option Z) : json := match rc with Some n => JInt n | None => JNull end.

Definition require_artifact_hashes (F : fs) (claims : ArtifactClaims) : result unit :=
  let* artifacts := reraise BpfArtifactError VMVerifierError exn_str
                      (validate_bpf_artifacts F (claimed_object claims) (claimed_metadata claims)) in
  require (String.eqb (claimed_object_sha claims) (object_sha256 artifacts))
    "VM verifier evidence object_sha256 disagrees with object file" ;;;
  require (String.eqb (claimed_metadata_sha claims) (object_sha256 artifacts))
    "VM verifier metadata object sha disagrees with object".

Section Evidence.
Variable build : fs -> fs * build_end.

Definition require_relative_file (F : fs) (raw_path context : string) : result (path * fs) :=
  let p := Path raw_path in
  require (negb (is_absolute p || mem ".." (parts p) || fs_symlink F p)) (context ++ " path is unsafe") ;;;
  let* F := reraise BpfArtifactError VMVerifierError exn_str (ensure_if_canonical build F p) in
  require (is_file F p) (context ++ " path is missing") ;;;
  Ok (p, F).

Definition parse_vm_evidence (F : fs) (p : path) (raw : jobject) : result (jobject * fs) :=
  require (is_false (get raw "host_mutation")) "VM verifier evidence must have host_mutation=false" ;;;
  require (is_true (get raw "release_eligible_live_proof"))
    "VM verifier evidence must be release-eligible VM-live proof" ;;;
  reject_contradictions raw "VM verifier evidence" ;;;
  require_vm_live_fields raw "VM verifier evidence" ;;;
  require_vm_acceptance_fields raw "VM verifier evidence" ;;;
  let* object_text := require_text raw "object" in
  let* (object_p, F) := require_relative_file F object_text "object" in
  let* metadata_text := require_text raw "bpf_metadata_path" in
  let* (metadata_p, F) := require_relative_file F metadata_text "bpf_metadata_path" in
  let* object_sha := require_checked_sha raw "object_sha256" in
  let* metadata_sha := require_checked_sha raw "bpf_metadata_object_sha256" in
  require_artifact_hashes F (MkClaims object_p object_sha metadata_p metadata_sha) ;;;
  let* log_text := require_text raw "verifier_log" in
  let* (verifier_log, F) := require_relative_file F log_text "verifier_log" in
  let* log_text := read_text_replace F verifier_log in
  let log_values := parse_key_values log_text in
  require_vm_log_values log_values ;;;
  require_vm_log_acceptance log_text "VM verifier log" ;;;
  require_log_matches_evidence log_values raw ;;;
  Ok ([("schema", JStr SCHEMA); ("status", JStr "PASS"); ("reason", JStr "VM_VERIFIER_ACCEPTED");
       ("input", JStr (path_str p)); ("object", JStr (path_str object_p)); ("object_sha256", JStr object_sha);
       ("bpf_metadata_path", JStr (path_str metadata_p)); ("bpf_metadata_object_sha256", JStr metadata_sha);
       ("bpftool_rc", JInt 0); ("verifier_errors", JList []); ("host_mutation", JBool false)], F).

(** [None] when the log is no VM-live log. *)
Definition parse_vm_live_log (F : fs) (p : path) (d : values) (text : string) : result (option jobject * fs) :=
  if negb (value_is d "schema" VM_LOG_SCHEMA) then Ok (None, F)
  else if bool_decide (d !! "evidence_mode" = None) then Ok (None, F)
  else
    require_vm_log_values d ;;;
    let* object_sha := require_checked_value d "object_sha256" in
    let* metadata_sha := require_checked_value d "bpf_metadata_object_sha256" in
    let* object_text := require_key d "object" in
    let* (object_p, F) := require_relative_file F object_text "object" in
    let* metadata_text := require_key d "bpf_metadata_path" in
    let* (metadata_p, F) := require_relative_file F metadata_text "bpf_metadata_path" in
    require_artifact_hashes F (MkClaims object_p object_sha metadata_p metadata_sha) ;;;
    require_vm_log_acceptance text "VM verifier log" ;;;
    let* bpftool_rc := parse_bpftool_rc d in
    let v key := JStr (value_or d key "") in
    Ok (Some [("schema", JStr SCHEMA); ("status", JStr "PASS"); ("reason", JStr "VM_VERIFIER_ACCEPTED");
              ("input", JStr (path_str p)); ("object", JStr (path_str object_p));
              ("object_sha256", JStr object_sha); ("bpf_metadata_path", JStr (path_str metadata_p));
              ("bpf_metadata_object_sha256", JStr metadata_sha); ("bpftool_rc", json_of_rc bpftool_rc);
              ("verifier_errors", JList []); ("sched_ext_state_before", v "sched_ext_state_before");
              ("sched_ext_state_after", v "sched_ext_state_after");
              ("enable_seq_before", v "sched_ext_enable_seq_before");
              ("enable_seq_after", v "sched_ext_enable_seq_after");
              ("cgroup_membership_before", v "cgroup_membership_before");
              ("cgroup_membership_after", v "cgroup_membership_after"); ("host_mutation", JBool false)], F).
End Evidence.

(** ** qa/verifier_refusal_check.py *)
Definition REFUSAL_SCHEMA : string := "zig-scheduler/verifier-only-refusal/v1".

Definition refuse {A} (m : string) : result A := raise VerifierRefusalError m.

Definition parse_refusal_evidence (F : fs) (p : path) (allow_refusal : bool) : result jobject :=
  let* text := read_text F p in
  let* raw := loads text in
  match raw with
  | JDict d =>
      ensure (py_eq (get d "schema") (JStr REFUSAL_SCHEMA)) VerifierRefusalError
        "JSON input is not a verifier refusal" ;;;
      ensure allow_refusal VerifierRefusalError "host refusal evidence requires --allow-refusal" ;;;
      ensure (is_false (get d "host_mutation")) VerifierRefusalError
        "refusal evidence must have host_mutation=false" ;;;
      let v key := JStr (py_str (get_or d key (JStr ""))) in
      Ok [("schema", JStr SCHEMA); ("status", JStr "REFUSE");
          ("reason", JStr (py_str (get_or d "reason" (JStr "UNKNOWN_REFUSAL")))); ("input", JStr (path_str p));
          ("object", v "object"); ("object_sha256", v "object_sha256");
          ("bpf_metadata_path", v "bpf_metadata_path");
          ("bpf_metadata_object_sha256", v "bpf_metadata_object_sha256"); ("bpftool_rc", JNull);
          ("verifier_errors", JList []); ("host_mutation", JBool false)]
  | _ => refuse "JSON input is not a verifier refusal"
  end.
