(* ===== verification/VerifierLog.v ===== *)
(** VerifierLog: qa/verifier_log_check.py, which classifies a BPF verifier log
    (or normalises verifier evidence) into one result object and writes it. *)
From S2P Require Import Prelude PyStr PyFloat PyJson PyFs PyMain.
From S2P Require Import PartialAttach VerifierVm.

Local Open Scope string_scope.

Inductive Status : Set := PASS | SKIP | FAIL | REFUSE.
Global Instance Status_eq_dec : EqDecision Status.
Proof. solve_decision. Defined.
Definition status_text (s : Status) : string :=
  match s with PASS => "PASS" | SKIP => "SKIP" | FAIL => "FAIL" | REFUSE => "REFUSE" end.

Definition EVIDENCE_SCHEMA : string := "zig-scheduler/verifier-only-evidence/v1".
Definition STATUSES : list string := ["PASS"; "SKIP"; "FAIL"; "REFUSE"].

Record Args : Set := MkArgs {
  input_path : option path;
  evidence_path : option path;
  out_path : option path;
  allow_refusal : bool;
}.

Record ParsedLog : Set := MkParsed {
  log_values : values;
  errors : list string;
  skip_reason : string;
  bpftool_rc : option Z;
}.

Definition fail {A} (m : string) : result A := raise VerifierLogError m.

Definition USAGE : string :=
  "usage: verifier_log_check.py --input <log-or-json> [--out <json>] [--allow-refusal] | --evidence <verifier-evidence.json> [--out <json>] | --self-test".

Fixpoint args_loop (argv : list string) (a : Args) : result Args :=
  match argv with
  | [] => Ok a
  | arg :: rest =>
      match rest with
      | v :: rest' =>
          if String.eqb arg "--input"
          then args_loop rest' (MkArgs (Some (Path v)) (evidence_path a) (out_path a) (allow_refusal a))
          else if String.eqb arg "--evidence"
          then args_loop rest' (MkArgs (input_path a) (Some (Path v)) (out_path a) (allow_refusal a))
          else if String.eqb arg "--out"
          then args_loop rest' (MkArgs (input_path a) (evidence_path a) (Some (Path v)) (allow_refusal a))
          else if String.eqb arg "--allow-refusal"
          then args_loop rest (MkArgs (input_path a) (evidence_path a) (out_path a) true)
          else fail USAGE
      | [] =>
          if String.eqb arg "--allow-refusal"
          then Ok (MkArgs (input_path a) (evidence_path a) (out_path a) true)
          else fail USAGE
      end
  end.

(** [parse_args], [None] for the self-test. *)
Definition parse_args (argv : list string) : result (option Args) :=
  match argv with
  | ["--self-test"] => Ok None
  | _ =>
      let* a := args_loop argv (MkArgs None None None false) in
      match input_path a, evidence_path a with
      | None, None => fail "--input or --evidence is required"
      | Some _, Some _ => fail "--input and --evidence are mutually exclusive"
      | _, _ => Ok (Some a)
      end
  end.

Definition is_verifier_error (lowered : string) : bool :=
  existsb (fun needle => contains needle lowered)
    ["invalid mem access"; "unknown func"; "invalid func"; "relocation"; "program rejected"; "permission denied"].

(** [line.split(":", 1)[-1]] *)
Definition after_colon (line : string) : string :=
  match split_once ":"%char line with Some (_, r) => r | None => line end.

Definition parse_line (raw : string) (st : ParsedLog) : result ParsedLog :=
  let line := strip raw in
  let lowered := lower line in
  let skip := if contains "skip:" lowered then strip (after_colon line) else skip_reason st in
  let errs := if is_verifier_error lowered then (errors st ++ [line])%list else errors st in
  let* rc := if startswith line "bpftool_rc=" then
               let value := drop_str (len "bpftool_rc=") line in
               ensure (isdigit value) VerifierLogError ("invalid bpftool_rc: " ++ value) ;;;
               let* n := int_of_isdigit value in Ok (Some n)
             else Ok (bpftool_rc st) in
  Ok (MkParsed (add_line line (log_values st)) errs skip rc).

Definition parse_lines (text : string) : result ParsedLog :=
  for_fold 0 (splitlines text) (MkParsed ∅ [] "" None) (fun _ raw st => parse_line raw st).

Definition state_changed (d : values) : bool :=
  let state_before := value_or d "sched_ext_state_before" "" in
  let state_after := value_or d "sched_ext_state_after" state_before in
  let seq_before := value_or d "sched_ext_enable_seq_before" "" in
  let seq_after := value_or d "sched_ext_enable_seq_after" seq_before in
  negb (String.eqb state_before state_after) || negb (String.eqb seq_before seq_after).

Definition cgroup_changed (d : values) : bool :=
  let before := value_or d "cgroup_membership_before" "" in
  let after := value_or d "cgroup_membership_after" before in
  negb (String.eqb before after).

Definition STATE_FIELDS : list string := [
  "sched_ext_state_before"; "sched_ext_state_after"; "sched_ext_enable_seq_before"; "sched_ext_enable_seq_after";
  "cgroup_membership_before"; "cgroup_membership_after"].

Definition missing_state_evidence (d : values) : bool :=
  existsb (fun field => String.eqb (value_or d field "") "") STATE_FIELDS.

Definition reason_from (parsed : ParsedLog) : string :=
  if negb (String.eqb (skip_reason parsed) "") then
    let lowered := lower (skip_reason parsed) in
    if contains "bpftool" lowered then "BPFTOOL_UNAVAILABLE"
    else if contains "/sys/fs/bpf" lowered then "BPF_FS_UNAVAILABLE"
    else "UNKNOWN_SKIPPED"
  else
    let joined := lower (join (chr 10) (errors parsed)) in
    if contains "invalid mem access" joined then "INVALID_MEM_ACCESS"
    else if contains "relocation" joined || contains "unknown func" joined || contains "invalid func" joined
    then "HELPER_OR_RELOCATION_FAILURE"
    else if state_changed (log_values parsed) then "SCHED_EXT_STATE_CHANGED"
    else if cgroup_changed (log_values parsed) then "CGROUP_MEMBERSHIP_CHANGED"
    else match bpftool_rc parsed with
         | None => "UNKNOWN_SKIPPED"
         | Some rc =>
             if negb (rc =? 0)%Z then "VERIFIER_REJECTED"
             else if missing_state_evidence (log_values parsed) then "MISSING_STATE_EVIDENCE"
             else "VERIFIER_ACCEPTED"
         end.

Definition status_from (reason : string) : Status :=
  if String.eqb reason "VERIFIER_ACCEPTED" then PASS
  else if mem reason ["BPFTOOL_UNAVAILABLE"; "BPF_FS_UNAVAILABLE"; "UNKNOWN_SKIPPED"] then SKIP
  else FAIL.

(** The result object of a log that is not VM-live. *)
Definition log_result (p : path) (parsed : ParsedLog) (status : Status) (reason : string) : jobject :=
  let d := log_values parsed in
  let v key := JStr (value_or d key "") in [
  ("schema", JStr SCHEMA); ("status", JStr (status_text status)); ("reason", JStr reason);
  ("input", JStr (path_str p)); ("object", v "object"); ("object_sha256", v "object_sha256");
  ("bpf_metadata_path", v "bpf_metadata_path"); ("bpf_metadata_object_sha256", v "bpf_metadata_object_sha256");
  ("bpftool_rc", json_of_rc (bpftool_rc parsed)); ("verifier_errors", jstrs (errors parsed));
  ("sched_ext_state_before", v "sched_ext_state_before"); ("sched_ext_state_after", v "sched_ext_state_after");
  ("enable_seq_before", v "sched_ext_enable_seq_before"); ("enable_seq_after", v "sched_ext_enable_seq_after");
  ("cgroup_membership_before", v "cgroup_membership_before");
  ("cgroup_membership_after", v "cgroup_membership_after"); ("host_mutation", JBool false)].

Definition require_text (data : jobject) (field : string) : result string :=
  match get data field with
  | JStr value => if String.eqb value "" then fail ("verifier evidence missing text field: " ++ field) else Ok value
  | _ => fail ("verifier evidence missing text field: " ++ field)
  end.

(** [require_text(raw, a) != require_text(raw, b)] raises. *)
Definition require_same (data : jobject) (a b message : string) : result unit :=
  let* x := require_text data a in
  let* y := require_text data b in
  ensure (String.eqb x y) VerifierLogError message.

(** Reads the fields of the result object in its order. *)
Fixpoint copy_fields (data : jobject) (fields : list (string * string)) : result jobject :=
  match fields with
  | [] => Ok []
  | (key, field) :: fields =>
      let* v := require_text data field in
      let* rest := copy_fields data fields in
      Ok ((key, JStr v) :: rest)
  end.

Definition same (l : list string) : list (string * string) := map (fun f => (f, f)) l.

(** The evidence of a verifier-only run, after its schema was recognised. *)
Definition parse_verifier_only (p : path) (raw : jobject) : result jobject :=
  ensure (is_false (get raw "host_mutation")) VerifierLogError
    "verifier evidence must have host_mutation=false" ;;;
  reject_contradictions raw "verifier evidence" ;;;
  let* status := require_text raw "parsed_verifier_status" in
  let* reason := require_text raw "parsed_verifier_reason" in
  ensure (mem status STATUSES) VerifierLogError ("verifier evidence has invalid parsed status: " ++ status) ;;;
  let* object_sha := require_text raw "object_sha256" in
  (if negb (Nat.eqb (len object_sha) 64) then fail "verifier evidence requires object and metadata sha" else
   let* metadata_sha := require_text raw "bpf_metadata_object_sha256" in
   ensure (Nat.eqb (len metadata_sha) 64) VerifierLogError "verifier evidence requires object and metadata sha") ;;;
  require_same raw "sched_ext_state_before" "sched_ext_state_after" "verifier evidence changed sched_ext state" ;;;
  require_same raw "enable_seq_before" "enable_seq_after" "verifier evidence changed sched_ext enable_seq" ;;;
  require_same raw "cgroup_membership_before" "cgroup_membership_after"
    "verifier evidence changed cgroup membership" ;;;
  let* head := copy_fields raw
    (same ["object"; "object_sha256"; "bpf_metadata_path"; "bpf_metadata_object_sha256"]) in
  let* state := copy_fields raw
    (same ["sched_ext_state_before"; "sched_ext_state_after"; "enable_seq_before"; "enable_seq_after";
           "cgroup_membership_before"; "cgroup_membership_after"]) in
  Ok ([("schema", JStr SCHEMA); ("status", JStr status); ("reason", JStr reason); ("input", JStr (path_str p))]
        ++ head ++ [("bpftool_rc", JNull); ("verifier_errors", JList [])] ++ state
        ++ [("host_mutation", JBool false)])%list.

(** What the checker writes: the text it prints, or the file it creates. *)
Inductive output : Set :=
| Printed (text : string)
| Written (p : path) (text : string).

Definition write_result (result : jobject) (out_path : option path) : output :=
  let text := dumps_indent 0 (sort_keys (JDict result)) ++ chr 10 in
  match out_path with
  | None => Printed text
  | Some p => Written p text
  end.

Inductive outcome : Set :=
| Done (status : nat) (out : output)
| Refused (stderr : string)
| Crashed (e : pyexn).

Section Checker.
Variable build : fs -> fs * build_end.

Definition parse_log (F : fs) (p : path) : result jobject :=
  let* text := read_text F p in
  let* parsed := parse_lines text in
  let* (vm_live_result, _) := reraise VMVerifierError VerifierLogError exn_str
                                (parse_vm_live_log build F p (log_values parsed) text) in
  match vm_live_result with
  | Some r => Ok r
  | None =>
      let reason := reason_from parsed in
      let status := status_from reason in
      let d := log_values parsed in
      let passed := bool_decide (status = PASS) in
      ensure (negb (passed && (state_changed d || cgroup_changed d))) VerifierLogError
        "clean verifier logs must preserve sched_ext and cgroup state" ;;;
      ensure (negb (passed && (negb (Nat.eqb (len (value_or d "object_sha256" "")) 64)
                               || negb (Nat.eqb (len (value_or d "bpf_metadata_object_sha256" "")) 64))))
        VerifierLogError "clean verifier logs require object and metadata sha" ;;;
      Ok (log_result p parsed status reason)
  end.

Definition parse_evidence (F : fs) (p : path) : result jobject :=
  let* text := read_text F p in
  let* raw := loads text in
  match raw with
  | JDict d =>
      if py_eq (get d "schema") (JStr VM_EVIDENCE_SCHEMA) then
        let* (r, _) := reraise VMVerifierError VerifierLogError exn_str (parse_vm_evidence build F p d) in Ok r
      else
        ensure (py_eq (get d "schema") (JStr EVIDENCE_SCHEMA)) VerifierLogError
          "JSON input is not verifier-only evidence" ;;;
        parse_verifier_only p d
  | _ => fail "JSON input is not verifier-only evidence"
  end.

Definition parse_refusal (F : fs) (p : path) (allow_refusal : bool) : result jobject :=
  reraise VerifierRefusalError VerifierLogError exn_str (parse_refusal_evidence F p allow_refusal).

Definition parse_input (F : fs) (p : path) (allow_refusal : bool) : result jobject :=
  if String.eqb (suffix p) ".json" then parse_refusal F p allow_refusal else parse_log F p.

(** [run] on the parsed arguments, without the self-test. *)
Definition run (F : fs) (args : Args) : result (nat * output) :=
  let* res := match evidence_path args with
              | Some p => parse_evidence F p
              | None =>
                  match input_path args with
                  | Some p => parse_input F p (allow_refusal args)
                  | None => fail "internal parser error"
                  end
              end in
  let out := write_result res (out_path args) in
  let* status := getitem res "status" in
  Ok (if py_eq status (JStr "FAIL") then 1 else 0, out).

(** [main], where [self_test] is the outcome of the self-test module. *)
Definition main (F : fs) (self_test : result (nat * output)) (argv : list string) : outcome :=
  match (let* args := parse_args argv in
         match args with None => self_test | Some args => run F args end) with
  | Ok (status, out) => Done status out
  | Err e =>
      let c := exn_cls e in
      if is_OSError c || is_class JSONDecodeError c || is_class EvidenceSafetyError c || is_class VerifierLogError c
      then Refused ("FAIL verifier log check: " ++ exn_str e)
      else Crashed e
  end.
End Checker.

(** * Specification *)

(** The log reports the same non-empty text for both keys. *)
Definition preserved (d : values) (before after : string) : Prop :=
  exists s, s <> "" /\ d !! before = Some s /\ d !! after = Some s.

(** A log whose verdict is an accepted program. *)
Record accepted (parsed : ParsedLog) : Prop := {
  ac_not_skipped : skip_reason parsed = "";
  ac_errors : forall needle, In needle ["invalid mem access"; "relocation"; "unknown func"; "invalid func"] ->
    contains needle (lower (join (chr 10) (errors parsed))) = false;
  ac_rc : bpftool_rc parsed = Some 0%Z;
  ac_state : preserved (log_values parsed) "sched_ext_state_before" "sched_ext_state_after";
  ac_seq : preserved (log_values parsed) "sched_ext_enable_seq_before" "sched_ext_enable_seq_after";
  ac_cgroup : preserved (log_values parsed) "cgroup_membership_before" "cgroup_membership_after";
}.

(** A log that does not claim to come from the VM. *)
Definition not_vm_live (d : values) : Prop :=
  d !! "schema" <> Some VM_LOG_SCHEMA \/ d !! "evidence_mode" = None.

(** A line that is collected as a verifier error, says none of the four things a
    verdict looks for, and reports nothing else. *)
Record unheard_error (line : string) : Prop := {
  un_error : is_verifier_error (lower (strip line)) = true;
  un_unheard : forall needle, In needle ["invalid mem access"; "relocation"; "unknown func"; "invalid func"] ->
    contains needle (lower (strip line)) = false;
  un_skip : contains "skip:" (lower (strip line)) = false;
  un_rc : startswith (strip line) "bpftool_rc=" = false;
  un_value : split_once "=" (strip line) = None;
}.

(** What the log of a program that was loaded looks like, with one line more. *)
Definition demo_log (extra : string) : string :=
  let line k v := k ++ "=" ++ v ++ chr 10 in
  extra ++ chr 10 ++ line "bpftool_rc" "0"
  ++ line "object_sha256" (repeat_str 64 "a") ++ line "bpf_metadata_object_sha256" (repeat_str 64 "a")
  ++ line "sched_ext_state_before" "disabled" ++ line "sched_ext_state_after" "disabled"
  ++ line "sched_ext_enable_seq_before" "1" ++ line "sched_ext_enable_seq_after" "1"
  ++ line "cgroup_membership_before" "lab" ++ line "cgroup_membership_after" "lab".
Definition demo_files (extra : string) : fs := fs_of "/repo" [("verifier.log", File (demo_log extra))].
Definition no_build (F : fs) : fs * build_end := (F, NotStarted).

(** * Lemmas *)
Lemma value_or_some d k s : s <> "" -> value_or d k "" = s -> d !! k = Some s.
Proof. unfold value_or. destruct (d !! k); simpl; congruence. Qed.

Lemma preserved_iff d before after :
  value_or d before "" <> "" -> value_or d after "" <> "" ->
  value_or d before "" = value_or d after (value_or d before "") <-> preserved d before after.
Proof.
  unfold value_or, preserved. destruct (d !! before) as [b|], (d !! after) as [a|]; simpl; try done.
  intros Hb Ha. split; [intros ->; by exists a | by intros (s & _ & [= ->] & [= ->])].
Qed.

Lemma preserved_present d before after : preserved d before after -> value_or d before "" <> "" /\ value_or d after "" <> "".
Proof. unfold value_or. intros (s & Hs & -> & ->). done. Qed.

Lemma missing_state_false d :
  missing_state_evidence d = false <-> forall f, In f STATE_FIELDS -> value_or d f "" <> "".
Proof.
  unfold missing_state_evidence. rewrite <- not_true_iff_false, existsb_exists. setoid_rewrite String.eqb_eq.
  split; [intros H f Hf Hv; apply H; by exists f | intros H (f & Hf & Hv); by apply (H f)].
Qed.

Lemma status_pass reason : status_from reason = PASS <-> reason = "VERIFIER_ACCEPTED".
Proof.
  unfold status_from. destruct (String.eqb_spec reason "VERIFIER_ACCEPTED"); [done|].
  split; [by destruct (mem reason _) | done].
Qed.

Lemma reason_accepted parsed :
  reason_from parsed = "VERIFIER_ACCEPTED" <->
  skip_reason parsed = ""
  /\ (forall needle, In needle ["invalid mem access"; "relocation"; "unknown func"; "invalid func"] ->
        contains needle (lower (join (chr 10) (errors parsed))) = false)
  /\ state_changed (log_values parsed) = false /\ cgroup_changed (log_values parsed) = false
  /\ bpftool_rc parsed = Some 0%Z /\ missing_state_evidence (log_values parsed) = false.
Proof.
  unfold reason_from. destruct (String.eqb_spec (skip_reason parsed) "") as [->|Hs]; cbn [negb]; cycle 1.
  { split; [|by intros [? _]]. by destruct (contains _ _); [|destruct (contains _ _)]. }
  cbv zeta. generalize (lower (join (chr 10) (errors parsed))) as joined. intros joined. split.
  - destruct (contains "invalid mem access" joined) eqn:E1; [discriminate|].
    destruct (contains "relocation" joined) eqn:E2; [discriminate|].
    destruct (contains "unknown func" joined) eqn:E3; [discriminate|].
    destruct (contains "invalid func" joined) eqn:E4; [discriminate|]. cbn [orb].
    destruct (state_changed _); [discriminate|]. destruct (cgroup_changed _); [discriminate|].
    destruct (bpftool_rc parsed) as [rc|]; [|discriminate].
    destruct (Z.eqb_spec rc 0) as [->|]; [|discriminate]. destruct (missing_state_evidence _); [discriminate|].
    intros _. split; [done|]. split; [|done]. by intros needle [<-|[<-|[<-|[<-|[]]]]].
  - intros (_ & Hn & -> & -> & -> & ->). rewrite !Hn by (simpl; tauto). done.
Qed.

Lemma verdict_pass parsed : status_from (reason_from parsed) = PASS <-> accepted parsed.
Proof.
  rewrite status_pass, reason_accepted, missing_state_false. unfold state_changed, cgroup_changed. cbv zeta.
  rewrite orb_false_iff, !negb_false_iff, !String.eqb_eq. split.
  - intros (Hs & Hn & [H1 H2] & H3 & Hr & Hm). split; try done; eapply preserved_iff; try done; apply Hm; simpl; tauto.
  - intros [Hs Hn Hr H1 H2 H3]. split; [done|]. split; [done|].
    pose proof (preserved_present _ _ _ H1) as [P1 P2]. pose proof (preserved_present _ _ _ H2) as [P3 P4].
    pose proof (preserved_present _ _ _ H3) as [P5 P6].
    split; [split; by apply preserved_iff|]. split; [by apply preserved_iff|]. split; [done|].
    by intros f [<-|[<-|[<-|[<-|[<-|[<-|[]]]]]]].
Qed.

Lemma not_vm_live_log build F p d text : not_vm_live d -> parse_vm_live_log build F p d text = Ok (None, F).
Proof.
  unfold not_vm_live, parse_vm_live_log, value_is. intros H. case_bool_decide as Hs; cbn [negb]; [|done].
  case_bool_decide as He; [done|]. by destruct H.
Qed.

(** ** One line more *)
Lemma parse_more i j lines st st' :
  for_fold i lines st (fun _ raw st => parse_line raw st) = Ok st' ->
  exists es, errors st' = (errors st ++ es)%list
    /\ forall x, for_fold j lines (MkParsed (log_values st) x (skip_reason st) (bpftool_rc st)) (fun _ raw st => parse_line raw st)
         = Ok (MkParsed (log_values st') (x ++ es) (skip_reason st') (bpftool_rc st')).
Proof.
  revert i j st. induction lines as [|line lines IH]; intros i j st; cbn [for_fold].
  - intros [= <-]. exists []. rewrite app_nil_r. split; [done|]. intros x. by rewrite app_nil_r.
  - intros (st1 & H1 & H)%bind_ok. apply (IH _ (S j)) in H as (es & He & H).
    unfold parse_line in H1. cbv zeta in H1. apply bind_ok in H1 as (rc & Hrc & [= <-]).
    cbn [log_values errors skip_reason bpftool_rc] in *.
    exists ((if is_verifier_error (lower (strip line)) then [strip line] else []) ++ es)%list.
    split; [rewrite He; destruct (is_verifier_error _); cbn [app]; [by rewrite <- app_assoc | done]|].
    intros x. unfold parse_line at 1. cbv zeta. cbn [log_values errors skip_reason bpftool_rc]. rewrite Hrc. cbn [bind].
    rewrite H. do 2 f_equal. destruct (is_verifier_error _); cbn [app]; [by rewrite <- app_assoc | done].
Qed.

Lemma parse_app i l1 l2 st : exists j,
  for_fold i (l1 ++ l2) st (fun _ raw st => parse_line raw st)
  = (let* st1 := for_fold i l1 st (fun _ raw st => parse_line raw st) in
     for_fold j l2 st1 (fun _ raw st => parse_line raw st)).
Proof.
  revert i st. induction l1 as [|line l1 IH]; intros i st; [by exists i|]. cbn [app for_fold].
  destruct (parse_line line st) as [st1|e]; [apply IH | by exists 0].
Qed.

Lemma unheard_line line st : unheard_error line ->
  parse_line line st = Ok (MkParsed (log_values st) (errors st ++ [strip line]) (skip_reason st) (bpftool_rc st)).
Proof.
  intros [He _ Hs Hr Hv]. unfold parse_line. cbv zeta. rewrite He, Hs, Hr. cbn [bind].
  unfold add_line. rewrite Hv. by destruct (negb _).
Qed.

Lemma parse_unheard t t' l1 l2 line parsed : splitlines t = (l1 ++ l2)%list -> splitlines t' = (l1 ++ line :: l2)%list ->
  unheard_error line -> parse_lines t = Ok parsed ->
  exists e1 e2, errors parsed = (e1 ++ e2)%list
    /\ parse_lines t' = Ok (MkParsed (log_values parsed) (e1 ++ strip line :: e2) (skip_reason parsed) (bpftool_rc parsed)).
Proof.
  unfold parse_lines. intros -> -> Hl. destruct (parse_app 0 l1 l2 (MkParsed ∅ [] "" None)) as [j ->].
  intros (st1 & H1 & H)%bind_ok. apply (parse_more _ 0) in H as H0. destruct H0 as (es & He & _).
  exists (errors st1), es. split; [done|]. destruct (parse_app 0 l1 (line :: l2) (MkParsed ∅ [] "" None)) as [k ->].
  rewrite H1. cbn [bind for_fold]. rewrite unheard_line by done. cbn [bind].
  apply (parse_more _ (S k)) in H as (es' & He' & H). rewrite H, <- app_assoc. rewrite He in He'. by apply app_inv_head in He' as ->.
Qed.

Lemma lower_app a b : lower (a ++ b) = lower a ++ lower b.
Proof. unfold lower. induction a as [|c a IH]; [done|]. rewrite append_cons. cbn [map_str]. by rewrite IH. Qed.

Lemma starts_break c n x y : any_char (Ascii.eqb c) n = false -> startswith (x ++ String c y) n = startswith x n.
Proof.
  revert x. induction n as [|a n IH]; intros x Hn; [by destruct x|].
  cbn [any_char] in Hn. apply orb_false_iff in Hn as [Ha Hn]. destruct x as [|b x].
  - change (Ascii.eqb a c && startswith y n = false). by rewrite Ascii.eqb_sym, Ha.
  - rewrite append_cons. cbn [startswith]. by rewrite IH.
Qed.

Lemma contains_break c n x y : n <> "" -> any_char (Ascii.eqb c) n = false ->
  contains n (x ++ String c y) = contains n x || contains n y.
Proof.
  intros Hne Hn. induction x as [|b x IH].
  - change ("" ++ String c y) with (String c y). cbn [contains].
    pose proof (starts_break c n "" y Hn) as H. change ("" ++ String c y) with (String c y) in H. rewrite H. by destruct n.
  - rewrite append_cons. cbn [contains]. rewrite IH, <- append_cons, starts_break, orb_assoc by done. done.
Qed.

(** A needle without line break is found in joined lines when it is in one of them. *)
Lemma contains_lines n l : n <> "" -> any_char (Ascii.eqb "010") n = false ->
  contains n (lower (join (chr 10) l)) = existsb (fun x => contains n (lower x)) l.
Proof.
  intros Hne Hn. induction l as [|x [|y l] IH]; [by destruct n | cbn; by rewrite orb_false_r|].
  change (join (chr 10) (x :: y :: l)) with (x ++ String "010" (join (chr 10) (y :: l))).
  rewrite lower_app. change (lower (String "010" (join (chr 10) (y :: l)))) with (String "010" (lower (join (chr 10) (y :: l)))).
  rewrite contains_break, IH by done. done.
Qed.

Lemma reason_unheard parsed e1 e2 line : errors parsed = (e1 ++ e2)%list -> unheard_error line ->
  reason_from (MkParsed (log_values parsed) (e1 ++ strip line :: e2) (skip_reason parsed) (bpftool_rc parsed))
  = reason_from parsed.
Proof.
  intros He [_ Hl _ _ _]. unfold reason_from. cbn [log_values errors skip_reason bpftool_rc]. rewrite He.
  destruct (negb _); [done|]. cbv zeta.
  rewrite !contains_lines, !existsb_app by done. cbn [existsb]. by rewrite !Hl by (simpl; tauto).
Qed.

Lemma get_other k f a x y b : k <> f -> get (a ++ (f, x) :: b) k = get (a ++ (f, y) :: b) k.
Proof.
  intros Hk%String.eqb_neq. unfold get. induction a as [|[k' w] a IH]; cbn [app jlookup]; [by rewrite Hk|].
  by destruct (String.eqb k k').
Qed.

(** * Properties *)

(** the verdict on a verifier log is PASS exactly when the log reports no skip,
    none of its collected error lines says invalid mem access, relocation, unknown
    func or invalid func, bpftool returned 0, and the scheduler state, the enable
    sequence and the cgroup membership are present and the same before and after. *)
Theorem verdict_pass_iff parsed : status_from (reason_from parsed) = PASS <-> accepted parsed.
Proof. apply verdict_pass. Qed.

(** A PASS result of [parse_log] for a log that does not claim to be VM-live
    rests on an accepted log with both digests of 64 characters; the result then
    repeats the verdict, states no host mutation, and lists every collected error. *)
Theorem parse_log_pass_sound build F p r text parsed
    (Htext : read_text F p = Ok text) (Hparsed : parse_lines text = Ok parsed)
    (Hlive : not_vm_live (log_values parsed))
    (Hr : parse_log build F p = Ok r) (Hpass : get r "status" = JStr "PASS") :
  accepted parsed
  /\ len (value_or (log_values parsed) "object_sha256" "") = 64
  /\ len (value_or (log_values parsed) "bpf_metadata_object_sha256" "") = 64
  /\ get r "reason" = JStr "VERIFIER_ACCEPTED" /\ get r "host_mutation" = JBool false
  /\ get r "verifier_errors" = jstrs (errors parsed).
Proof.
  unfold parse_log in Hr. rewrite Htext in Hr. cbn [bind] in Hr. rewrite Hparsed in Hr. cbn [bind] in Hr.
  rewrite not_vm_live_log in Hr by done. cbv zeta in Hr.
  change (reraise VMVerifierError VerifierLogError exn_str (Ok (None, F))) with (Ok (@None jobject, F)) in Hr.
  cbn [bind] in Hr. apply bind_ok_unit in Hr as [_ Hr]. apply bind_ok_unit in Hr as [Hlen%ensure_ok [= <-]].
  assert (Hs : status_from (reason_from parsed) = PASS).
  { change (JStr (status_text (status_from (reason_from parsed))) = JStr "PASS") in Hpass.
    by destruct (status_from (reason_from parsed)). }
  rewrite Hs in Hlen. change (bool_decide (PASS = PASS)) with true in Hlen.
  rewrite andb_true_l, negb_true_iff, orb_false_iff, !negb_false_iff, !Nat.eqb_eq in Hlen.
  destruct Hlen as [H1 H2]. split; [by apply verdict_pass|]. split; [done|]. split; [done|].
  split; [|done]. apply status_pass in Hs. by rewrite Hs.
Qed.

Lemma parse_log_pass_sound_witness :
  exists parsed, parse_lines (demo_log "loaded") = Ok parsed /\ accepted parsed.
Proof.
  destruct (parse_lines (demo_log "loaded")) as [parsed|e] eqn:E; [|exfalso; vm_compute in E; discriminate E].
  exists parsed. split; [reflexivity|].
  destruct (parse_log no_build (demo_files "loaded") (Path "verifier.log")) as [r|e] eqn:Er;
    [|exfalso; vm_compute in Er; discriminate Er].
  apply (parse_log_pass_sound no_build (demo_files "loaded") (Path "verifier.log") r (demo_log "loaded") parsed).
  - vm_compute. reflexivity.
  - exact E.
  - right. vm_compute in E. injection E as <-. reflexivity.
  - exact Er.
  - vm_compute in Er. injection Er as <-. reflexivity.
Defined.


