(* ===== verification/MatrixModel.v ===== *)
(** MatrixModel: qa/matrix_run_model.py and qa/matrix_run_json.py, the constants
    of matrix-run/v1 and the JSON, privacy, path and scheduler-state primitives
    every matrix validator is built from. *)
From S2P Require Import Prelude PyStr PyRe PyFloat PyJson Sha256 PyFs.

Local Open Scope string_scope.

(** ** qa/matrix_run_model.py *)
Definition SCHEMA : string := "zig-scheduler/matrix-run/v1".
Definition MATRIX_BPF_ABI_VERSION : string := "zigsched-bpf-abi-v1".
Definition SCHEMA_FILE : string := "matrix-run.v1.schema.json".
Definition DOC_FILE : string := "matrix-run-contract.md".
Definition VM_MARKER : string := "/run/zig-scheduler-vm-lab.marker".
Definition OUTCOMES : list string := ["PASS"; "SKIP"; "REFUSE"; "INCIDENT"; "FAIL"].
Definition EVIDENCE_MODES : list string := ["vm-live"; "host-refusal-only"; "fixture"].
Definition TUPLE_STATUS : list string := ["supported"; "unsupported"; "unknown"].
Definition REQUIRED_FIXTURES : list string := [
  "pass.json"; "live-backend.json"; "skip-unsupported-tuple.json"; "host-refusal-only.json";
  "incident-verifier-reject.json"; "rollback-failure.json"; "cleanup-residue.json";
  "workload-cpu-saturation.json"; "workload-interactive-latency.json";
  "workload-scheduler-affinity-churn.json"; "workload-fork-ipc-pressure.json"; "workload-mixed-io.json";
  "workload-cgroup-weight-quota.json"; "workload-cpu-hotplug.json"; "sched-ext-state-normal-rollback.json";
  "sched-ext-state-scheduler-exit.json"; "sched-ext-state-watchdog-disable.json";
  "sched-ext-state-forced-disable.json"].
Definition REQUIRED_INVALID_FIXTURES : list string := [
  "host-mutation-true.json"; "release-eligible-true.json"; "invalid-outcome.json"; "stale-git.json";
  "dirty-git.json"; "missing-vm-marker.json"; "unsafe-absolute-path.json"; "unsafe-traversal-path.json";
  "missing-rollback-proof.json"; "missing-cleanup-proof.json"; "missing-cleanup-proof-on-skip.json";
  "missing-cleanup-proof-on-refuse.json"; "missing-host-refusal-proof.json"; "privacy-failed.json";
  "unsupported-bpf-abi-version.json"; "malformed.json"; "extra-property.json"; "missing-sched-ext-state.json";
  "stale-enable-seq.json"; "private-debug-dump.json"].
Definition PATH_FIELDS : list string := [
  "runtime_sample_path"; "daemon_event_path"; "incident_path"; "rollback_proof_path"; "cleanup_proof_path";
  "host_refusal_proof_path"].
Definition ROW_FIELDS : list string := [
  "schema"; "matrix_run_id"; "scenario_id"; "outcome"; "evidence_mode"; "kernel_tuple";
  "supported_tuple_status"; "vm_marker"; "bpf_abi_version"; "policy"; "workload"; "action_id"; "audit_id";
  "rollback_id"; "pre_scheduler_state"; "post_scheduler_state"; "pre_cgroup_state"; "post_cgroup_state";
  "runtime_sample_path"; "daemon_event_path"; "incident_path"; "rollback_proof_path"; "cleanup_proof_path";
  "host_refusal_proof_path"; "privacy_scan"; "git"; "release_eligible"; "host_mutation"].
Definition KERNEL_TUPLE_FIELDS : list string := ["kernel_release"; "arch"; "btf"; "kvm"; "sched_ext"].
Definition VM_MARKER_FIELDS : list string := ["required"; "present"; "path"; "checked_by"].
Definition POLICY_FIELDS : list string := ["name"; "object_path"; "object_sha256"; "source_path"; "source_sha256"].
Definition WORKLOAD_FIELDS : list string := ["name"; "spec_path"; "spec_sha256"].
Definition PRIVACY_SCAN_FIELDS : list string := ["status"; "private_fields_found"; "report_path"].
Definition GIT_FIELDS : list string := ["expected_sha"; "actual_sha"; "status"; "dirty"].
Definition MANIFEST_ROW_FIELDS : list string := ["scenario_id"; "outcome"; "artifact_path"; "reason"].
Definition MANIFEST_FIELDS : list string := [
  "schema"; "matrix_run_id"; "mode"; "fixture_mode"; "started_at"; "ended_at"; "out_dir";
  "daemon_events_path"; "row_count"; "rows"; "host_mutation"; "release_eligible"].
Definition MATRIX_BASE : path := Path "evidence/lab/matrix".
Definition MANIFEST_FILE : string := "manifest.json".
Definition RUN_ID_MAX : nat := 64.
Definition RUN_ID_RE : regex := rseq [RBol; rrep 1 63 (RChar is_ident_char); REol].
Definition ID_RE : regex := rseq [RBol; rrep 1 95 (RChar is_ident_char); REol].
Definition AUDIT_RE : regex := rseq [
  RBol; rlit "AUD-"; rrep 8 0 rdigit09; rlit "T"; rrep 6 0 rdigit09; rlit "Z-";
  rplus (RChar is_ident_char); REol].
Definition SHA256_RE : regex := rseq [RBol; rrep 64 0 (RChar is_hex_lower); REol].
Definition SAFE_RELATIVE_PATH_PATTERN : string := "^(?!/)(?!.*(?:^|/)\.\.(?:/|$)).+$".
Definition SCHEMA_PATH_FIELDS : list (list string) := [
  ["runtime_sample_path"]; ["daemon_event_path"]; ["incident_path"]; ["rollback_proof_path"];
  ["cleanup_proof_path"]; ["host_refusal_proof_path"]; ["policy"; "object_path"]; ["policy"; "source_path"];
  ["workload"; "spec_path"]; ["privacy_scan"; "report_path"]].
Definition PRIVATE_NEEDLES : list string := [
  "cmdline"; "command_line"; "argv"; "environment"; "secret"; "api_key"; "token"; "password"; "authorization";
  "bearer"].
Definition WORKLOAD_PRIVATE_NEEDLES : list string :=
  (PRIVATE_NEEDLES ++ ["command"; "env"; "cwd"; "pid"; "ppid"])%list.
Definition PRIVATE_PATH_RE : regex := rseq [
  RCap "1" (ralt [RBol; RChar (fun c => is_space c || one_of "=:" c)]); rlit "/";
  ralt [rlit "home"; rlit "root"; rlit "etc"; rlit "proc"; rlit "sys"; rlit "var"; rlit "tmp"]; rlit "/"].
Definition SCHED_STATES : list string :=
  ["disabled"; "enabled"; "enabling"; "disabling"; "unknown"; "unavailable"].
Definition SCHED_DISABLE_REASONS : list string := [
  "normal_unregister"; "scheduler_exit"; "watchdog_stall"; "watchdog_error"; "sysrq_forced_disable";
  "not_applicable"; "unavailable"].
Definition SCHED_STATE_FIELDS : list string := [
  "sched_ext"; "ops"; "enable_seq"; "root_ops"; "task_ext_enabled"; "disable_reason"; "teardown_state";
  "rollback_state"].
Definition CLAIM_TEXT_RE : regex := rseq [
  RWordB; ralt [rlit_ci "production"; rlit_ci "release"; rlit_ci "performance"];
  rplus (RChar (fun c => is_space c || one_of "_-" c));
  ralt [rlit_ci "ready"; rlit_ci "eligible"; rlit_ci "approved"; rlit_ci "claim"; rlit_ci "slo"; rlit_ci "sla";
        rlit_ci "guarantee"; rlit_ci "baseline"; rlit_ci "capacity"];
  RWordB].
Definition WORKLOAD_SPEC_SCHEMA : string := "zig-scheduler/workload-fixture/v1".
Definition WORKLOAD_CAPABILITY_SCHEMA : string := "zig-scheduler/workload-capability/v1".
Definition PRIVACY_SCAN_SCHEMA : string := "zig-scheduler/privacy-scan/v1".
Definition PRIVACY_REPORT_FIELDS : list string := ["schema"; "status"; "private_fields_found"; "host_mutation"].
Definition INCIDENT_FIELDS : list string :=
  ["schema"; "scenario_id"; "outcome"; "reason"; "host_mutation"; "release_eligible"].
Definition ROLLBACK_PROOF_FIELDS : list string :=
  ["schema"; "scenario_id"; "status"; "scheduler_state"; "ops"; "host_mutation"].
Definition CLEANUP_PROOF_FIELDS : list string := [
  "schema"; "scenario_id"; "status"; "owned_qemu_leftovers"; "owned_temp_leftovers"; "qemu_scan_before";
  "qemu_scan_after"; "temp_scan_before"; "temp_scan_after"; "host_mutation"].
Definition HOST_REFUSAL_FIELDS : list string := [
  "schema"; "scenario_id"; "status"; "reason"; "no_bpf_load_attach"; "no_cgroup_write"; "no_sys_write";
  "no_proc_write"; "host_mutation"].
Definition VM_MARKER_PROOF_FIELDS : list string :=
  ["schema"; "path"; "required"; "present"; "evidence_mode"; "host_mutation"].
Definition WORKLOAD_SPEC_FIELDS : list string := [
  "schema"; "name"; "workload_class"; "scenario_id"; "required_tools"; "threshold_source"; "thresholds";
  "benchmark_provenance"; "capability_artifact_path"; "runner"; "vm_marker_required_for_live_run";
  "host_safe_fixture_only"; "missing_prereq"; "cgroup_semantics"; "cpu_hotplug_semantics"; "host_mutation";
  "release_eligible"].
Definition WORKLOAD_THRESHOLD_FIELDS : list string :=
  ["source"; "fixture_status"; "calibration_status"; "production_capacity_claim"].
Definition WORKLOAD_CAPABILITY_FIELDS : list string := [
  "schema"; "scenario_id"; "workload_class"; "required_tools"; "threshold_source"; "mode"; "status";
  "typed_outcome"; "missing_prereq"; "vm_marker_required_for_live_run"; "fixture_mode"; "runner";
  "host_mutation"; "release_eligible"].
Definition WORKLOAD_TOOL_NAMES : list string := [
  "stress-ng"; "cyclictest"; "perf"; "taskset"; "chrt"; "hackbench-like"; "fio"; "cpu-hotplug-online-control";
  "builtin-churn"].
Definition WORKLOAD_THRESHOLD_SOURCES : list string :=
  ["fixture"; "calibrated"; "deferred"; "record-only"; "uncalibrated"].
Definition WORKLOAD_CAPABILITY_MODES : list string := ["host-safe"; "auto"; "vm-required"].

Definition CGROUP_WORKLOAD_SEMANTICS : list (string * string) := [
  ("cpu.weight", "callback-observed");
  ("cpu.max", "deferred");
  ("cpu.max.burst", "deferred");
  ("cpuset.cpus", "observed-constraints");
  ("cpuset.cpus.effective", "observed-constraints");
  ("cpu.pressure", "observed-or-deferred");
  ("uclamp", "observed-or-deferred");
  ("cgroup.type.domain", "observed");
  ("cgroup.type.threaded", "observed");
  ("allowed-mask", "rejected")].
Definition CPU_HOTPLUG_SEMANTICS : list (string * string) := [
  ("cpu.hotplug.offline", "fallback-observed");
  ("cpu.hotplug.online", "fallback-observed");
  ("cpuset.cpus", "observed-constraints");
  ("cpuset.cpus.effective", "observed-constraints");
  ("allowed-mask", "rejected")].

Record Args : Set := MkArgs {
  fixtures : option path;
  schemas : path;
  docs : path;
  manifest : option path;
}.

Record WorkloadScenarioMetadata : Set := MkMetadata {
  scenario_id : string;
  workload_class : string;
  required_tools : list string;
  threshold_sources : list string;
}.

Definition WORKLOAD_SCENARIO_METADATA : list WorkloadScenarioMetadata := [
  MkMetadata "workload-cpu-saturation" "cpu-saturation" ["stress-ng"] ["record-only"];
  MkMetadata "workload-interactive-latency" "interactive-latency" ["cyclictest"; "perf"] ["record-only"];
  MkMetadata "workload-scheduler-affinity-churn" "scheduler-affinity-churn" ["stress-ng"; "taskset"; "chrt"]
    ["record-only"];
  MkMetadata "workload-fork-ipc-pressure" "bounded-fork-ipc-pressure" ["hackbench-like"] ["record-only"];
  MkMetadata "workload-mixed-io" "mixed-io" ["fio"] ["record-only"];
  MkMetadata "workload-cgroup-weight-quota" "cgroup-weight-quota-pressure" ["stress-ng"] ["record-only"];
  MkMetadata "workload-cpu-hotplug" "cpu-hotplug-offline" ["cpu-hotplug-online-control"] ["record-only"]].

(** ** qa/matrix_run_json.py *)
Definition fail {A} (m : string) : result A := raise MatrixRunContractError m.

Definition reject_constant (value : string) : result json := fail ("invalid JSON constant: " ++ value).

Definition obj (value : json) (context : string) : result jobject :=
  match value with
  | JDict d => Ok d
  | _ => fail (context ++ " must be an object")
  end.

Definition text (value : json) (context : string) : result string :=
  match value with
  | JStr s => if String.eqb s "" then fail (context ++ " must be non-empty text") else Ok s
  | _ => fail (context ++ " must be non-empty text")
  end.

Definition bool_field (value : json) (context : string) : result bool :=
  match value with
  | JBool b => Ok b
  | _ => fail (context ++ " must be a boolean")
  end.

Definition require (condition : bool) (message : string) : result unit :=
  ensure condition MatrixRunContractError message.

Definition is_empty {A} (l : list A) : bool := match l with [] => true | _ => false end.

Definition require_only_fields (row : jobject) (allowed : list string) (context : string) : result unit :=
  let extra := sorted (set_diff (keys row) allowed) in
  require (is_empty extra) (context ++ " has unexpected field(s): " ++ join ", " extra).

Definition has_needle (needles : list string) (s : string) : bool :=
  existsb (fun needle => contains needle (lower s)) needles.

Fixpoint reject_private (value : json) (context : string) {struct value} : result unit :=
  match value with
  | JDict d =>
      (fix items (d : jobject) : result unit :=
         match d with
         | [] => Ok tt
         | (key, child) :: d =>
             require (negb (has_needle PRIVATE_NEEDLES key)) ("privacy-unsafe key in " ++ context ++ "." ++ key) ;;;
             reject_private child (context ++ "." ++ key) ;;;
             items d
         end) d
  | JList l =>
      (fix elems (index : nat) (l : list json) : result unit :=
         match l with
         | [] => Ok tt
         | child :: l =>
             reject_private child (context ++ "[" ++ str_nat index ++ "]") ;;; elems (S index) l
         end) 0 l
  | JStr s =>
      require (negb (has_needle PRIVATE_NEEDLES s)) ("privacy-unsafe text in " ++ context) ;;;
      require (negb (re_found PRIVATE_PATH_RE s)) ("privacy-unsafe path in " ++ context) ;;;
      require (negb (re_found CLAIM_TEXT_RE s)) ("claim-unsafe text in " ++ context)
  | _ => Ok tt
  end.

Fixpoint reject_workload_artifact_private (value : json) (context : string) {struct value} : result unit :=
  match value with
  | JDict d =>
      (fix items (d : jobject) : result unit :=
         match d with
         | [] => Ok tt
         | (key, child) :: d =>
             require (negb (has_needle WORKLOAD_PRIVATE_NEEDLES key))
               ("privacy-unsafe workload key in " ++ context ++ "." ++ key) ;;;
             reject_workload_artifact_private child (context ++ "." ++ key) ;;;
             items d
         end) d
  | JList l =>
      (fix elems (index : nat) (l : list json) : result unit :=
         match l with
         | [] => Ok tt
         | child :: l =>
             reject_workload_artifact_private child (context ++ "[" ++ str_nat index ++ "]") ;;;
             elems (S index) l
         end) 0 l
  | JStr s =>
      require (negb (has_needle WORKLOAD_PRIVATE_NEEDLES s)) ("privacy-unsafe workload text in " ++ context) ;;;
      require (negb (re_found CLAIM_TEXT_RE s)) ("claim-unsafe workload text in " ++ context) ;;;
      require (negb (re_found PRIVATE_PATH_RE s)) ("privacy-unsafe workload path in " ++ context)
  | _ => Ok tt
  end.

Definition require_sched_enable_seq (value : json) (context : string) : result (option Z) :=
  let* raw := text value context in
  if String.eqb raw "unavailable" then Ok None else
  require (isdecimal raw) (context ++ " must be a nonnegative integer string or unavailable") ;;;
  let* n := int_of_digits raw in
  Ok (Some n).

Definition validate_scheduler_state (state : jobject) (context : string) : result (option Z) :=
  require_only_fields state SCHED_STATE_FIELDS context ;;;
  require (subset ["sched_ext"; "ops"] (keys state)) (context ++ " missing sched_ext/ops state") ;;;
  let* sched_ext := text (get state "sched_ext") (context ++ ".sched_ext") in
  require (mem sched_ext SCHED_STATES) (context ++ ".sched_ext invalid") ;;;
  let* ops := text (get state "ops") (context ++ ".ops") in
  reject_private (JStr ops) (context ++ ".ops") ;;;
  let* enable_seq := require_sched_enable_seq (get_or state "enable_seq" (JStr "unavailable"))
                       (context ++ ".enable_seq") in
  (if has_key "task_ext_enabled" state then
     let* task_ext := text (get state "task_ext_enabled") (context ++ ".task_ext_enabled") in
     require (mem task_ext ["true"; "false"; "unknown"; "unavailable"]) (context ++ ".task_ext_enabled invalid")
   else Ok tt) ;;;
  (if has_key "disable_reason" state then
     let* reason := text (get state "disable_reason") (context ++ ".disable_reason") in
     require (mem reason SCHED_DISABLE_REASONS) (context ++ ".disable_reason invalid")
   else Ok tt) ;;;
  reject_private (JDict state) context ;;;
  Ok enable_seq.

Definition require_safe_path (value : json) (context : string) : result string :=
  let* raw := text value context in
  let p := Path raw in
  require (negb (is_absolute p) && negb (mem ".." (parts p)))
    (context ++ " must be relative and non-traversing: " ++ raw) ;;;
  Ok raw.

Definition require_manifest_root (manifest_path : path) : result path :=
  require (negb (is_absolute manifest_path) && negb (mem ".." (parts manifest_path)))
    "--manifest must be relative and non-traversing" ;;;
  let ps := parts manifest_path in
  require (Nat.eqb (List.length ps) 5 && strs_eqb (firstn 3 ps) (parts MATRIX_BASE)
           && String.eqb (nth 4 ps "") MANIFEST_FILE)
    ("--manifest must be " ++ path_str MATRIX_BASE ++ "/<run-id>/" ++ MANIFEST_FILE ++ ": " ++ path_str manifest_path) ;;;
  require (re_fullmatch RUN_ID_RE (nth 3 ps ""))
    ("--manifest run id must be 1-" ++ str_nat RUN_ID_MAX ++ " safe characters: " ++ nth 3 ps "") ;;;
  Ok (MkPath "" (firstn 4 ps)).

Definition require_descendant (p root : path) (context : string) : result unit :=
  require (path_eqb p root || is_prefix (parts root) (parts p))
    (context ++ " must stay under " ++ path_str root ++ ": " ++ path_str p).

Definition require_identifier (row : jobject) (field : string) (pattern : regex) (context : string) : result unit :=
  let* raw := text (get row field) (context ++ "." ++ field) in
  require (re_fullmatch pattern raw) (context ++ "." ++ field ++ " is not a stable identifier").

Definition require_sha (row : jobject) (field context : string) : result unit :=
  let* raw := text (get row field) (context ++ "." ++ field) in
  require (re_fullmatch SHA256_RE raw) (context ++ "." ++ field ++ " must be sha256 hex").

Fixpoint text_items (index : nat) (items : list json) (context : string) : result (list string) :=
  match items with
  | [] => Ok []
  | item :: items =>
      let* s := text item (context ++ "[" ++ str_nat index ++ "]") in
      let* rest := text_items (S index) items context in
      Ok (s :: rest)
  end.

Definition text_list (value : json) (context : string) : result (list string) :=
  match value with
  | JList items => text_items 0 items context
  | _ => fail (context ++ " must be a list")
  end.

Section Files.
Variable F : fs.

Definition load_json (p : path) : result jobject :=
  let* raw := catch (bind (read_text F p) (loads_with reject_constant)) (fun exc =>
    if decide (exn_cls exc = FileNotFoundError) then Some (fail ("missing JSON file: " ++ path_str p))
    else if decide (exn_cls exc = JSONDecodeError)
    then Some (fail ("invalid JSON in " ++ path_str p ++ " at byte " ++ str_nat (exn_pos exc)
                       ++ ": " ++ exn_msg exc))
    else None) in
  obj raw (path_str p).

Definition file_sha256 (p : path) : result string :=
  reraise FileNotFoundError MatrixRunContractError
    (fun _ => "missing referenced artifact: " ++ path_str p) (sha256_of F p).
End Files.

(** * Specification of the primitives *)
Section Scan.
Variable needles : list string.

(** No needle anywhere in the text, ignoring case. *)
Definition no_needle (s : string) : Prop :=
  forall needle, In needle needles -> ~ exists a b, lower s = a ++ needle ++ b.

Lemma has_needle_false s : has_needle needles s = false <-> no_needle s.
Proof.
  unfold has_needle, no_needle. rewrite <- not_true_iff_false, existsb_exists.
  setoid_rewrite contains_iff. naive_solver.
Qed.

(** A text that is neither private nor a claim. *)
Definition safe_text (s : string) : Prop :=
  no_needle s /\ re_found PRIVATE_PATH_RE s = false /\ re_found CLAIM_TEXT_RE s = false.
End Scan.

(** The recursion both privacy scans share: a walk that tests every key and
    every text, with the error contexts abstracted. *)
Ltac walk_dict IH :=
  rewrite clean_dict; induction IH as [|[key child] d Hchild _ IHd];
    [split; [constructor | done]|];
  rewrite Forall_cons, bind_ok_unit, bind_ok_unit, <- IHd; unfold require;
  rewrite ensure_ok, negb_true_iff, has_needle_false; simpl in Hchild |- *; rewrite Hchild; tauto.
Ltac walk_list IH :=
  rewrite clean_list; generalize 0; induction IH as [|child l Hchild _ IHl]; intros n;
    [split; [constructor | done]|];
  rewrite Forall_cons, bind_ok_unit, <- (IHl (S n)), Hchild; tauto.

Lemma reject_private_ok v context :
  reject_private v context = Ok tt <-> Clean (no_needle PRIVATE_NEEDLES) (safe_text PRIVATE_NEEDLES) v.
Proof.
  revert context. induction v as [| | | |s|l IH|d IH] using json_nested_ind; intros context; cbn [reject_private];
    try (split; [intros _; by apply clean_scalar | done]).
  - rewrite clean_str, !bind_ok_unit. unfold require, safe_text.
    rewrite !ensure_ok, !negb_true_iff, has_needle_false. tauto.
  - walk_list IH.
  - walk_dict IH.
Qed.

Lemma reject_workload_ok v context :
  reject_workload_artifact_private v context = Ok tt <->
  Clean (no_needle WORKLOAD_PRIVATE_NEEDLES) (safe_text WORKLOAD_PRIVATE_NEEDLES) v.
Proof.
  revert context. induction v as [| | | |s|l IH|d IH] using json_nested_ind; intros context;
    cbn [reject_workload_artifact_private]; try (split; [intros _; by apply clean_scalar | done]).
  - rewrite clean_str, !bind_ok_unit. unfold require, safe_text.
    rewrite !ensure_ok, !negb_true_iff, has_needle_false. tauto.
  - walk_list IH.
  - walk_dict IH.
Qed.

(** A relative path without "..". *)
Definition plain_path (p : path) : Prop := is_absolute p = false /\ ~ In ".." (p_parts p).
Definition safe_path_text (v : json) (s : string) : Prop := v = JStr s /\ s <> "" /\ plain_path (Path s).
Definition below (root p : path) : Prop := p = root \/ exists zs, parts p = (parts root ++ zs)%list.

Definition identifier (row : jobject) (field : string) (max : nat) : Prop :=
  exists s, get row field = JStr s /\ 1 <= len s <= max /\ all_chars is_ident_char s = true.
Definition sha_field (row : jobject) (field : string) : Prop :=
  exists s, get row field = JStr s /\ len s = 64 /\ all_chars is_hex_lower s = true.

Lemma require_ok c m u : require c m = Ok u <-> c = true.
Proof. apply ensure_ok. Qed.
Lemma fail_ok {A} m (a : A) : fail m = Ok a <-> False.
Proof. apply raise_ok. Qed.

Lemma text_ok v context s : text v context = Ok s <-> v = JStr s /\ s <> "".
Proof.
  destruct v; simpl; try (split; [discriminate | by intros [[=] _]]).
  destruct (String.eqb_spec s0 "") as [->|Hs].
  - split; [discriminate | by intros [[= <-] ?]].
  - split; [by intros [= <-] | by intros [[= <-] _]].
Qed.
Lemma obj_ok v context d : obj v context = Ok d <-> v = JDict d.
Proof. destruct v; simpl; split; (congruence || discriminate). Qed.
Lemma bool_field_ok v context b : bool_field v context = Ok b <-> v = JBool b.
Proof. destruct v; simpl; split; (congruence || discriminate). Qed.

#[export] Hint Rewrite require_ok @fail_ok text_ok obj_ok bool_field_ok : pyok.

Lemma is_empty_iff {A} (l : list A) : is_empty l = true <-> l = [].
Proof. by destruct l. Qed.

Definition only_fields (d : jobject) (allowed : list string) : Prop :=
  forall k, In k (keys d) -> In k allowed.

Lemma require_only_fields_ok row allowed context :
  require_only_fields row allowed context = Ok tt <-> only_fields row allowed.
Proof. unfold require_only_fields, only_fields. by rewrite require_ok, is_empty_iff, no_extra. Qed.

Lemma not_mem_dots ps : mem ".." ps = false <-> ~ In ".." ps.
Proof. rewrite <- mem_In. destruct (mem ".." ps); split; congruence. Qed.

Lemma plain_path_iff p : negb (is_absolute p) && negb (mem ".." (parts p)) = true <-> plain_path p.
Proof.
  rewrite andb_true_iff, !negb_true_iff, not_mem_dots. unfold plain_path.
  split; intros [H1 H2]; (split; [done|]); destruct (relative_parts p H1) as [_ Hp]; congruence.
Qed.

Lemma require_safe_path_ok v context s :
  require_safe_path v context = Ok s <-> safe_path_text v s.
Proof.
  unfold require_safe_path, safe_path_text. rewrite bind_ok. setoid_rewrite text_ok. split.
  - intros (s' & [-> Hs] & H). rewrite bind_ok_unit, require_ok, plain_path_iff in H.
    destruct H as [H [= ->]]. done.
  - intros (-> & Hs & H). exists s. split; [done|]. by rewrite bind_ok_unit, require_ok, plain_path_iff.
Qed.

Lemma require_descendant_ok p root context : require_descendant p root context = Ok tt <-> below root p.
Proof.
  unfold require_descendant, below. rewrite require_ok, orb_true_iff, path_eqb_eq, is_prefix_spec. done.
Qed.

Lemma ident_len n s : re_fullmatch (rseq [RBol; rrep 1 n (RChar is_ident_char); REol]) s = true <->
  1 <= len s <= S n /\ all_chars is_ident_char s = true.
Proof. rewrite class_fullmatch. simpl. tauto. Qed.

Lemma require_identifier_ok row field n context :
  require_identifier row field (rseq [RBol; rrep 1 n (RChar is_ident_char); REol]) context = Ok tt <->
  identifier row field (S n).
Proof.
  unfold require_identifier, identifier. rewrite bind_ok. setoid_rewrite text_ok.
  setoid_rewrite require_ok. setoid_rewrite ident_len. split.
  - intros (s & [Hs _] & H). by exists s.
  - intros (s & Hs & H). exists s. repeat split; try apply H; try done. destruct s; [simpl in H; lia | done].
Qed.

Lemma require_run_id_ok row field context :
  require_identifier row field RUN_ID_RE context = Ok tt <-> identifier row field RUN_ID_MAX.
Proof. exact (require_identifier_ok row field 63 context). Qed.
Lemma require_id_ok row field context :
  require_identifier row field ID_RE context = Ok tt <-> identifier row field 96.
Proof. exact (require_identifier_ok row field 95 context). Qed.

Lemma require_sha_ok row field context : require_sha row field context = Ok tt <-> sha_field row field.
Proof.
  unfold require_sha, sha_field, SHA256_RE. rewrite bind_ok. setoid_rewrite text_ok.
  setoid_rewrite require_ok. setoid_rewrite class_fullmatch. split.
  - intros (s & [Hs _] & Ha & Hl). exists s. repeat split; try done. simpl in Hl. lia.
  - intros (s & Hs & Hl & Ha). exists s. repeat split; try done; simpl; try lia. by destruct s.
Qed.

#[export] Hint Rewrite require_only_fields_ok require_safe_path_ok require_descendant_ok
  require_identifier_ok require_sha_ok reject_private_ok reject_workload_ok : pyok.

(** ** Scheduler states *)
Definition enable_seq_is (v : json) (seq : option Z) : Prop :=
  match seq with
  | None => v = JStr "unavailable"
  | Some n => exists s, v = JStr s /\ isdecimal s = true /\ len s <= MAX_STR_DIGITS /\ n = dec_value 0 s
  end.

(** The field is absent, or a text of the list. *)
Definition optional_text (d : jobject) (field : string) (allowed : list string) : Prop :=
  In field (keys d) -> exists s, get d field = JStr s /\ In s allowed.

Record scheduler_state (d : jobject) (seq : option Z) : Prop := {
  st_fields : only_fields d SCHED_STATE_FIELDS;
  st_required : In "sched_ext" (keys d) /\ In "ops" (keys d);
  st_sched_ext : exists s, get d "sched_ext" = JStr s /\ In s SCHED_STATES;
  st_ops : exists s, get d "ops" = JStr s /\ s <> "" /\ safe_text PRIVATE_NEEDLES s;
  st_enable_seq : enable_seq_is (get_or d "enable_seq" (JStr "unavailable")) seq;
  st_task_ext : optional_text d "task_ext_enabled" ["true"; "false"; "unknown"; "unavailable"];
  st_disable : optional_text d "disable_reason" SCHED_DISABLE_REASONS;
  st_clean : Clean (no_needle PRIVATE_NEEDLES) (safe_text PRIVATE_NEEDLES) (JDict d);
}.

Lemma int_of_digits_ok s n : int_of_digits s = Ok n <-> len s <= MAX_STR_DIGITS /\ n = dec_value 0 s.
Proof.
  unfold int_of_digits. rewrite if_raise_ok, Nat.ltb_ge, Ok_inj. naive_solver.
Qed.

Lemma require_sched_enable_seq_ok v context seq :
  require_sched_enable_seq v context = Ok seq <-> enable_seq_is v seq.
Proof.
  unfold require_sched_enable_seq. rewrite bind_ok. setoid_rewrite text_ok. split.
  - intros (s & [-> Hs] & H). destruct (String.eqb_spec s "unavailable") as [->|Hu].
    + by injection H as <-.
    + rewrite bind_ok_unit, require_ok, bind_ok in H. destruct H as (Hd & n & Hn & [= <-]).
      apply int_of_digits_ok in Hn as [Hl ->]. by exists s.
  - destruct seq as [n|]; simpl.
    + intros (s & -> & Hd & Hl & ->). exists s. split; [split; [done|]; by destruct s|].
      destruct (String.eqb_spec s "unavailable") as [->|_]; [discriminate Hd|].
      rewrite bind_ok_unit, require_ok. split; [done|]. rewrite bind_ok.
      exists (dec_value 0 s). by rewrite int_of_digits_ok.
    + intros ->. exists "unavailable". done.
Qed.

Lemma member_nonempty s l : In s l -> negb (mem "" l) = true -> s <> "".
Proof. intros Hs Hl ->. apply mem_In in Hs. by rewrite Hs in Hl. Qed.

(** A text that must be one of a list. *)
Lemma text_member v context l m (Hl : negb (mem "" l) = true) :
  (let* s := text v context in require (mem s l) (m s)) = Ok tt <-> exists s, v = JStr s /\ In s l.
Proof.
  rewrite bind_ok. setoid_rewrite text_ok. setoid_rewrite require_ok. setoid_rewrite mem_In.
  split; [naive_solver|]. intros (s & -> & Hs). exists s. eauto using member_nonempty.
Qed.

Lemma optional_text_ok d field l (Hl : negb (mem "" l) = true) context m :
  (if has_key field d then let* s := text (get d field) context in require (mem s l) (m s) else Ok tt) = Ok tt
  <-> optional_text d field l.
Proof.
  unfold optional_text. rewrite <- has_key_iff. destruct (has_key field d).
  - rewrite text_member by done. naive_solver.
  - naive_solver.
Qed.

Lemma validate_scheduler_state_ok d context seq :
  validate_scheduler_state d context = Ok seq <-> scheduler_state d seq.
Proof.
  unfold validate_scheduler_state. split.
  - intros H.
    apply bind_ok_unit in H as [Hf%require_only_fields_ok H].
    apply bind_ok_unit in H as [Hr%require_ok H]. rewrite subset_spec in Hr.
    apply bind_ok in H as (s & [Hs _]%text_ok & H).
    apply bind_ok_unit in H as [Hin%require_ok H]. apply mem_In in Hin.
    apply bind_ok in H as (o & [Ho Hne]%text_ok & H).
    apply bind_ok_unit in H as [Hsafe H]. rewrite reject_private_ok, clean_str in Hsafe.
    apply bind_ok in H as (q & Hq%require_sched_enable_seq_ok & H).
    apply bind_ok_unit in H as [Ht H]. apply optional_text_ok in Ht; [|done].
    apply bind_ok_unit in H as [Hd H]. apply optional_text_ok in Hd; [|done].
    apply bind_ok_unit in H as [Hc [= <-]]. rewrite reject_private_ok in Hc.
    split; try done; [split; apply Hr; simpl; tauto | by exists s | by exists o].
  - intros [Hf [Hr1 Hr2] (s & Hs & Hin) (o & Ho & Hne & Hsafe) Hq Ht Hd Hc]. run_ok;
      [by apply require_only_fields_ok
      |apply require_ok, subset_spec; intros x [<-|[<-|[]]]; done
      |apply text_ok; eauto using member_nonempty
      |by apply require_ok, mem_In
      |by apply text_ok
      |by apply reject_private_ok, clean_str
      |by apply require_sched_enable_seq_ok
      |by apply optional_text_ok
      |by apply optional_text_ok
      |by apply reject_private_ok].
Qed.

(** * Properties *)

(** [reject_private] accepts a JSON value exactly when, at every depth, no
    key contains a private needle and no text contains a needle, a private path
    or a production claim (keys and texts compared ignoring case). *)
Theorem reject_private_iff v context :
  reject_private v context = Ok tt <->
  (forall k, KeyIn k v -> no_needle PRIVATE_NEEDLES k)
  /\ (forall s, TextIn s v ->
        no_needle PRIVATE_NEEDLES s
        /\ ~ (exists i e, i <= len s /\ Matches PRIVATE_PATH_RE (Nat.iter i advance (start s)) e)
        /\ ~ (exists i e, i <= len s /\ Matches CLAIM_TEXT_RE (Nat.iter i advance (start s)) e)).
Proof.
  rewrite reject_private_ok. unfold Clean, safe_text.
  setoid_rewrite <- re_found_iff. setoid_rewrite not_true_iff_false. done.
Qed.

(** [require_manifest_root] accepts a manifest path exactly when it is
    evidence/lab/matrix/<run id>/manifest.json (relative, no "..") with a run id
    of 1 to 64 identifier characters, and answers the directory of the manifest,
    whose last component is that run id. *)
Theorem require_manifest_root_iff p root :
  require_manifest_root p = Ok root <->
  exists id, 1 <= len id <= RUN_ID_MAX /\ all_chars is_ident_char id = true /\ id <> ".."
             /\ p = MkPath "" ["evidence"; "lab"; "matrix"; id; "manifest.json"]
             /\ root = parent p /\ name root = id.
Proof.
  unfold require_manifest_root. rewrite !bind_ok_unit, !require_ok, plain_path_iff, !andb_true_iff.
  rewrite Nat.eqb_eq, strs_eqb_eq, String.eqb_eq. unfold RUN_ID_RE. rewrite ident_len, Ok_inj. split.
  - intros ([Ha Hd] & ((Hlen & Hbase) & Hfile) & [Hl Hc] & <-).
    destruct (relative_parts p Ha) as [Hroot Hp]. rewrite Hp in *.
    destruct p as [r ps]; simpl in *; subst r.
    destruct ps as [|a [|b [|c [|id [|f [|]]]]]]; try discriminate Hlen. simpl in *.
    injection Hbase as -> -> ->. subst f. exists id. repeat split; try done; try (unfold RUN_ID_MAX; lia).
    intros ->. apply Hd. tauto.
  - intros (id & Hl & Hc & Hne & -> & -> & _). unfold plain_path, RUN_ID_MAX in *. simpl.
    repeat split; try done; try lia.
    by intros [|[|[|[|[|[]]]]]].
Qed.
