(* ===== verification/MatrixWorkload.v ===== *)
(** MatrixWorkload: qa/matrix_run_workload.py, the canonical metadata of the
    workload scenarios and the workload spec, capability and privacy-report
    artifacts. *)
From S2P Require Import Prelude PyStr PyRe PyFloat PyJson Sha256 PyFs.
From S2P Require Import Provenance MatrixModel.

Local Open Scope string_scope.

Definition expected_workload_metadata (scenario : string) : option WorkloadScenarioMetadata :=
  List.find (fun m => String.eqb (scenario_id m) scenario) WORKLOAD_SCENARIO_METADATA.

Definition require_expected_workload_metadata (scenario context : string) : result WorkloadScenarioMetadata :=
  match expected_workload_metadata scenario with
  | Some expected => Ok expected
  | None => fail (context ++ ".scenario_id has no canonical workload metadata: " ++ scenario)
  end.

(** The metadata a scenario name selects: mandatory for "workload-" names. *)
Definition select_metadata (scenario context : string) : result (option WorkloadScenarioMetadata) :=
  if startswith scenario "workload-" then
    let* m := require_expected_workload_metadata scenario context in Ok (Some m)
  else Ok (expected_workload_metadata scenario).

Definition require_expected_tools (tools : list string) (expected : WorkloadScenarioMetadata) (context : string)
    : result unit :=
  require (Nat.eqb (List.length (dedup tools)) (List.length tools))
    (context ++ " must not contain duplicate tools") ;;;
  require (set_eq tools (required_tools expected))
    (context ++ " must match scenario " ++ scenario_id expected ++ " required tools: "
       ++ join ", " (required_tools expected)).

Definition require_expected_threshold_source (source : string) (expected : WorkloadScenarioMetadata)
    (context : string) : result unit :=
  require (mem source (threshold_sources expected))
    (context ++ " must match scenario " ++ scenario_id expected ++ " threshold_source: "
       ++ join ", " (sorted (threshold_sources expected))).

Definition require_expected_missing_prereq (missing : string) (expected : WorkloadScenarioMetadata)
    (context : string) : result unit :=
  require (String.eqb missing "" || mem missing (required_tools expected))
    (context ++ " must be empty or one of scenario " ++ scenario_id expected ++ " required tools: "
       ++ join ", " (required_tools expected)).

(** [if expected is not None: check(expected)] *)
Definition if_expected (expected : option WorkloadScenarioMetadata)
    (check : WorkloadScenarioMetadata -> result unit) : result unit :=
  match expected with Some m => check m | None => Ok tt end.

Definition validate_workload (workload : jobject) (scenario context : string) : result unit :=
  require_only_fields workload WORKLOAD_FIELDS (context ++ ".workload") ;;;
  let* workload_name := text (get workload "name") (context ++ ".workload.name") in
  let* _ := require_safe_path (get workload "spec_path") (context ++ ".workload.spec_path") in
  require_sha workload "spec_sha256" (context ++ ".workload") ;;;
  let* expected := select_metadata scenario context in
  if_expected expected (fun expected =>
    require (String.eqb workload_name (workload_class expected))
      (context ++ ".workload.name must match scenario " ++ scenario ++ " workload class "
         ++ workload_class expected)).

Definition require_workload_tools (value : json) (context : string) : result (list string) :=
  let* tools := text_list value context in
  require (negb (is_empty tools)) (context ++ " must not be empty") ;;;
  for_each tools (fun tool =>
    require (mem tool WORKLOAD_TOOL_NAMES) (context ++ " has unsafe tool name: " ++ tool)) ;;;
  Ok tools.

Definition validate_workload_thresholds (thresholds : jobject) (source context : string) : result unit :=
  require_only_fields thresholds WORKLOAD_THRESHOLD_FIELDS context ;;;
  require (py_eq (get thresholds "source") (JStr source)) (context ++ ".source must match threshold_source") ;;;
  let* _ := text (get thresholds "fixture_status") (context ++ ".fixture_status") in
  let* _ := text (get thresholds "calibration_status") (context ++ ".calibration_status") in
  require (is_false (get thresholds "production_capacity_claim"))
    (context ++ ".production_capacity_claim must be false").

Definition validate_semantics_exact (value : json) (expected : list (string * string)) (context : string)
    : result unit :=
  let* semantics := obj value context in
  require (set_eq (keys semantics) (map fst expected)) (context ++ " keys must match Todo 7 VM-only semantics") ;;;
  for_each expected (fun kv =>
    require (py_eq (get semantics (fst kv)) (JStr (snd kv)))
      (context ++ "." ++ fst kv ++ " must be " ++ snd kv)).

Definition no_hotplug (spec : jobject) (context : string) : result unit :=
  require (negb (has_key "cpu_hotplug_semantics" spec))
    (context ++ ".cpu_hotplug_semantics is only allowed for workload-cpu-hotplug").
Definition no_cgroup (spec : jobject) (context : string) : result unit :=
  require (negb (has_key "cgroup_semantics" spec))
    (context ++ ".cgroup_semantics is only allowed for workload-cgroup-weight-quota").

Definition validate_workload_semantics (spec : jobject) (scenario context : string) : result unit :=
  if String.eqb scenario "workload-cgroup-weight-quota" then
    validate_semantics_exact (get spec "cgroup_semantics") CGROUP_WORKLOAD_SEMANTICS
      (context ++ ".cgroup_semantics") ;;;
    no_hotplug spec context
  else if String.eqb scenario "workload-cpu-hotplug" then
    validate_semantics_exact (get spec "cpu_hotplug_semantics") CPU_HOTPLUG_SEMANTICS
      (context ++ ".cpu_hotplug_semantics") ;;;
    no_cgroup spec context
  else
    no_cgroup spec context ;;;
    no_hotplug spec context.

Definition workload_semantic_fields (scenario : string) : jobject :=
  let dict := map (fun kv : string * string => (fst kv, JStr (snd kv))) in
  if String.eqb scenario "workload-cgroup-weight-quota" then
    [("cgroup_semantics", JDict (dict CGROUP_WORKLOAD_SEMANTICS))]
  else if String.eqb scenario "workload-cpu-hotplug" then
    [("cpu_hotplug_semantics", JDict (dict CPU_HOTPLUG_SEMANTICS))]
  else [].

Definition SPEC_REQUIRED : list string := [
  "schema"; "workload_class"; "scenario_id"; "required_tools"; "threshold_source"; "thresholds";
  "vm_marker_required_for_live_run"; "host_mutation"; "release_eligible"].
Definition CAPABILITY_REQUIRED : list string := [
  "schema"; "scenario_id"; "workload_class"; "required_tools"; "threshold_source"; "mode"; "status";
  "typed_outcome"; "missing_prereq"; "vm_marker_required_for_live_run"; "host_mutation"; "release_eligible"].

Section Specs.
Variable F : fs.

Definition validate_workload_benchmark_provenance (value : json) (manifest_root : option path) (context : string)
    : result unit :=
  reraise MatrixBenchmarkProvenanceError MatrixRunContractError exn_str
    (Provenance.validate_entries F value manifest_root context).

(** The capability artifact's path, when the spec names one. *)
Definition validate_workload_spec (spec : jobject) (scenario wclass : string)
    (expected : option WorkloadScenarioMetadata) (context : string) (manifest_root : option path)
    : result (option string) :=
  require_only_fields spec WORKLOAD_SPEC_FIELDS context ;;;
  require (subset SPEC_REQUIRED (keys spec)) (context ++ " missing required workload spec fields") ;;;
  require (py_eq (get spec "schema") (JStr WORKLOAD_SPEC_SCHEMA)) (context ++ ".schema unsupported") ;;;
  require (py_eq (get spec "scenario_id") (JStr scenario)) (context ++ ".scenario_id must match row scenario") ;;;
  require (py_eq (get spec "workload_class") (JStr wclass))
    (context ++ ".workload_class must match row workload name") ;;;
  (if has_key "name" spec then
     require (py_eq (get spec "name") (JStr wclass)) (context ++ ".name must match workload_class")
   else Ok tt) ;;;
  let* tools := require_workload_tools (get spec "required_tools") (context ++ ".required_tools") in
  if_expected expected (fun m => require_expected_tools tools m (context ++ ".required_tools")) ;;;
  let* threshold_source := text (get spec "threshold_source") (context ++ ".threshold_source") in
  require (mem threshold_source WORKLOAD_THRESHOLD_SOURCES) (context ++ ".threshold_source invalid") ;;;
  if_expected expected (fun m =>
    require_expected_threshold_source threshold_source m (context ++ ".threshold_source")) ;;;
  let* thresholds := obj (get spec "thresholds") (context ++ ".thresholds") in
  validate_workload_thresholds thresholds threshold_source (context ++ ".thresholds") ;;;
  validate_workload_semantics spec scenario context ;;;
  let benchmark_provenance := get spec "benchmark_provenance" in
  (if String.eqb threshold_source "calibrated" then
     require (negb (is_none benchmark_provenance))
       (context ++ ".benchmark_provenance required when threshold_source is calibrated")
   else Ok tt) ;;;
  validate_workload_benchmark_provenance benchmark_provenance manifest_root (context ++ ".benchmark_provenance") ;;;
  require (is_true (get spec "vm_marker_required_for_live_run"))
    (context ++ ".vm_marker_required_for_live_run must be true") ;;;
  require (is_false (get spec "host_mutation")) (context ++ ".host_mutation must be false") ;;;
  require (is_false (get spec "release_eligible")) (context ++ ".release_eligible must be false") ;;;
  (if has_key "missing_prereq" spec then
     match get spec "missing_prereq" with
     | JStr missing =>
         require (String.eqb missing "" || mem missing WORKLOAD_TOOL_NAMES)
           (context ++ ".missing_prereq has unsafe tool name") ;;;
         if_expected expected (fun m => require_expected_missing_prereq missing m (context ++ ".missing_prereq"))
     | _ => fail (context ++ ".missing_prereq must be text")
     end
   else Ok tt) ;;;
  if has_key "capability_artifact_path" spec then
    let* p := require_safe_path (get spec "capability_artifact_path") (context ++ ".capability_artifact_path") in
    Ok (Some p)
  else Ok None.
End Specs.

(** What the outcome of the row says about the missing tool. *)
Definition check_missing_for_outcome (row_outcome missing context : string) : result unit :=
  if String.eqb row_outcome "PASS" then
    require (String.eqb missing "") (context ++ ".missing_prereq must be empty for PASS")
  else if String.eqb row_outcome "SKIP" then
    require (negb (String.eqb missing "")) (context ++ ".missing_prereq must name the missing scenario tool for SKIP")
  else if String.eqb row_outcome "REFUSE" then Ok tt
  else require (String.eqb missing "") (context ++ ".missing_prereq must be empty unless outcome is SKIP or REFUSE").

Definition validate_workload_capability (capability : jobject) (scenario wclass : string)
    (expected : option WorkloadScenarioMetadata) (row_outcome context : string) : result unit :=
  require_only_fields capability WORKLOAD_CAPABILITY_FIELDS context ;;;
  require (subset CAPABILITY_REQUIRED (keys capability)) (context ++ " missing required workload capability fields") ;;;
  require (py_eq (get capability "schema") (JStr WORKLOAD_CAPABILITY_SCHEMA)) (context ++ ".schema unsupported") ;;;
  require (py_eq (get capability "scenario_id") (JStr scenario))
    (context ++ ".scenario_id must match row scenario") ;;;
  require (py_eq (get capability "workload_class") (JStr wclass))
    (context ++ ".workload_class must match row workload name") ;;;
  let* tools := require_workload_tools (get capability "required_tools") (context ++ ".required_tools") in
  if_expected expected (fun m => require_expected_tools tools m (context ++ ".required_tools")) ;;;
  let* threshold_source := text (get capability "threshold_source") (context ++ ".threshold_source") in
  require (mem threshold_source WORKLOAD_THRESHOLD_SOURCES) (context ++ ".threshold_source invalid") ;;;
  if_expected expected (fun m =>
    require_expected_threshold_source threshold_source m (context ++ ".threshold_source")) ;;;
  let* mode := text (get capability "mode") (context ++ ".mode") in
  require (mem mode WORKLOAD_CAPABILITY_MODES) (context ++ ".mode invalid") ;;;
  let* status := text (get capability "status") (context ++ ".status") in
  require (mem status OUTCOMES) (context ++ ".status invalid") ;;;
  require (String.eqb status row_outcome) (context ++ ".status must match row outcome") ;;;
  let* typed_outcome := text (get capability "typed_outcome") (context ++ ".typed_outcome") in
  require (mem typed_outcome OUTCOMES) (context ++ ".typed_outcome invalid") ;;;
  require (String.eqb typed_outcome row_outcome) (context ++ ".typed_outcome must match row outcome") ;;;
  let* missing := if py_eq (get capability "missing_prereq") (JStr "") then Ok ""
                  else text (get capability "missing_prereq") (context ++ ".missing_prereq") in
  require (String.eqb missing "" || mem missing WORKLOAD_TOOL_NAMES)
    (context ++ ".missing_prereq has unsafe tool name") ;;;
  if_expected expected (fun m =>
    require_expected_missing_prereq missing m (context ++ ".missing_prereq") ;;;
    check_missing_for_outcome row_outcome missing context) ;;;
  require (is_true (get capability "vm_marker_required_for_live_run"))
    (context ++ ".vm_marker_required_for_live_run must be true") ;;;
  require (is_false (get capability "host_mutation")) (context ++ ".host_mutation must be false") ;;;
  require (is_false (get capability "release_eligible")) (context ++ ".release_eligible must be false").

Definition validate_privacy_report (report : jobject) (context : string) : result unit :=
  require_only_fields report PRIVACY_REPORT_FIELDS context ;;;
  require (py_eq (get report "schema") (JStr PRIVACY_SCAN_SCHEMA)) (context ++ ".schema unsupported") ;;;
  require (py_eq (get report "status") (JStr "PASS")) (context ++ ".status must be PASS") ;;;
  require (is_false (get report "private_fields_found")) (context ++ ".private_fields_found must be false") ;;;
  require (is_false (get report "host_mutation")) (context ++ ".host_mutation must be false").

(** * Specification *)
Lemma select_metadata_ok scenario context e :
  select_metadata scenario context = Ok e <->
  e = expected_workload_metadata scenario /\ (startswith scenario "workload-" = true -> e <> None).
Proof.
  unfold select_metadata, require_expected_workload_metadata.
  destruct (startswith scenario "workload-"); destruct (expected_workload_metadata scenario) as [m|]; simpl;
    (split; [try discriminate; intros [= <-]; done | intros [-> H]; try done; by destruct H]).
Qed.

Lemma if_expected_ok e check :
  if_expected e check = Ok tt <-> forall m, e = Some m -> check m = Ok tt.
Proof. destruct e as [m|]; simpl; [split; [intros H ? [= <-]; done | auto] | done]. Qed.

Lemma text_items_ok i items context l :
  text_items i items context = Ok l <-> items = map JStr l /\ Forall (fun s => s <> "") l.
Proof.
  revert i l. induction items as [|v items IH]; intros i l; simpl.
  - rewrite Ok_inj. split; [intros <-; by split; [|constructor] | by destruct l; intros [[=] _]].
  - split.
    + intros (s & [-> Hs]%text_ok & (r & [-> Hr]%IH & [= <-])%bind_ok)%bind_ok.
      split; [done | by constructor].
    + destruct l as [|s l]; [by intros [[=] _]|]. intros [[= -> ->] H]. inversion H; subst.
      run_ok; [by apply text_ok | by apply IH].
Qed.

Lemma text_list_ok v context l :
  text_list v context = Ok l <-> v = jstrs l /\ Forall (fun s => s <> "") l.
Proof.
  unfold jstrs. destruct v as [| | | | |items|]; simpl; try (split; [discriminate | by intros [[=] _]]).
  rewrite text_items_ok. split; intros [H ?]; (split; [congruence | done]).
Qed.

(** The tools of an artifact: known names, and for a canonical scenario exactly
    its tools, each once. *)
Definition tools_ok (v : json) (e : option WorkloadScenarioMetadata) : Prop :=
  exists tools, v = jstrs tools /\ tools <> [] /\ (forall t, In t tools -> In t WORKLOAD_TOOL_NAMES)
    /\ forall m, e = Some m -> NoDup tools /\ forall t, In t tools <-> In t (required_tools m).

Definition source_ok (v : json) (e : option WorkloadScenarioMetadata) (source : string) : Prop :=
  v = JStr source /\ In source WORKLOAD_THRESHOLD_SOURCES
  /\ forall m, e = Some m -> In source (threshold_sources m).

Lemma require_workload_tools_ok v context tools :
  require_workload_tools v context = Ok tools <->
  v = jstrs tools /\ tools <> [] /\ forall t, In t tools -> In t WORKLOAD_TOOL_NAMES.
Proof.
  unfold require_workload_tools. split.
  - intros H. apply bind_ok in H as (l & [-> _]%text_list_ok & H).
    apply bind_ok_unit in H as [Hne%require_ok H]. apply bind_ok_unit in H as [Ht%for_each_ok [= <-]].
    apply negb_true_iff in Hne. rewrite Forall_forall in Ht. split; [done|]. split; [by intros ->|].
    intros t Hi. apply list_elem_of_In, Ht, require_ok, mem_In in Hi. done.
  - intros (-> & Hne & Ht). run_ok.
    + apply text_list_ok. split; [done|]. apply Forall_forall. intros s Hs%list_elem_of_In%Ht.
      by eapply member_nonempty.
    + apply require_ok. by destruct tools.
    + apply Forall_forall. intros s Hs%list_elem_of_In%Ht. by apply require_ok, mem_In.
Qed.

Lemma require_expected_tools_ok tools m context :
  require_expected_tools tools m context = Ok tt <->
  NoDup tools /\ forall t, In t tools <-> In t (required_tools m).
Proof.
  unfold require_expected_tools. by rewrite bind_ok_unit, !require_ok, Nat.eqb_eq, dedup_full, set_eq_spec.
Qed.

Record workload_ok (d : jobject) (scenario : string) : Prop := {
  wl_fields : only_fields d WORKLOAD_FIELDS;
  wl_name : exists n, get d "name" = JStr n /\ n <> "" /\
    forall m, expected_workload_metadata scenario = Some m -> n = workload_class m;
  wl_spec : exists p, safe_path_text (get d "spec_path") p;
  wl_sha : sha_field d "spec_sha256";
  wl_canonical : startswith scenario "workload-" = true -> expected_workload_metadata scenario <> None;
}.

Lemma validate_workload_ok d scenario context :
  validate_workload d scenario context = Ok tt <-> workload_ok d scenario.
Proof.
  unfold validate_workload. split.
  - intros H. apply bind_ok_unit in H as [Hf%require_only_fields_ok H].
    apply bind_ok in H as (n & [Hn Hne]%text_ok & H).
    apply bind_ok in H as (p & Hp%require_safe_path_ok & H).
    apply bind_ok_unit in H as [Hs%require_sha_ok H].
    apply bind_ok in H as (e & [-> Hc]%select_metadata_ok & H). rewrite if_expected_ok in H.
    split; try done; [|by exists p]. exists n. split; [done|]. split; [done|].
    intros m Hm. by apply H, require_ok, String.eqb_eq in Hm.
  - intros [Hf (n & Hn & Hne & Hm) (p & Hp) Hs Hc]. run_ok;
      [by apply require_only_fields_ok | by apply text_ok | by apply require_safe_path_ok
      |by apply require_sha_ok | by apply select_metadata_ok
      |apply if_expected_ok; intros m He; by apply require_ok, String.eqb_eq, Hm].
Qed.

(** The missing tool a capability artifact may name. *)
Definition missing_ok (missing outcome : string) (e : option WorkloadScenarioMetadata) : Prop :=
  (missing = "" \/ In missing WORKLOAD_TOOL_NAMES) /\
  forall m, e = Some m ->
    match (missing =? "")%string with
    | true => outcome <> "SKIP"
    | false => In missing (required_tools m) /\ (outcome = "SKIP" \/ outcome = "REFUSE")
    end.

Record capability_ok (d : jobject) (scenario wclass : string) (e : option WorkloadScenarioMetadata)
    (outcome : string) : Prop := {
  cap_fields : only_fields d WORKLOAD_CAPABILITY_FIELDS;
  cap_required : forall k, In k CAPABILITY_REQUIRED -> In k (keys d);
  cap_schema : get d "schema" = JStr WORKLOAD_CAPABILITY_SCHEMA;
  cap_scenario : get d "scenario_id" = JStr scenario;
  cap_class : get d "workload_class" = JStr wclass;
  cap_tools : tools_ok (get d "required_tools") e;
  cap_source : exists source, source_ok (get d "threshold_source") e source;
  cap_mode : exists mode, get d "mode" = JStr mode /\ In mode WORKLOAD_CAPABILITY_MODES;
  cap_outcome : In outcome OUTCOMES /\ get d "status" = JStr outcome /\ get d "typed_outcome" = JStr outcome;
  cap_missing : exists missing, get d "missing_prereq" = JStr missing /\ missing_ok missing outcome e;
  cap_marker : get d "vm_marker_required_for_live_run" = JBool true;
  cap_host : get d "host_mutation" = JBool false;
  cap_release : get d "release_eligible" = JBool false;
}.

Lemma missing_text v context missing :
  (if py_eq v (JStr "") then Ok "" else text v context) = Ok missing <-> v = JStr missing.
Proof.
  destruct (py_eq v (JStr "")) eqn:E.
  - apply py_eq_str in E as ->. rewrite Ok_inj. split; [by intros <- | by intros [= <-]].
  - rewrite text_ok. split; [by intros [-> _]|]. intros ->. split; [done|]. by intros ->.
Qed.

Lemma check_missing_ok outcome missing context :
  check_missing_for_outcome outcome missing context = Ok tt <->
  match (missing =? "")%string with
  | true => outcome <> "SKIP"
  | false => outcome = "SKIP" \/ outcome = "REFUSE"
  end.
Proof.
  unfold check_missing_for_outcome.
  destruct (String.eqb_spec outcome "PASS") as [->|]; [|destruct (String.eqb_spec outcome "SKIP") as [->|];
    [|destruct (String.eqb_spec outcome "REFUSE") as [->|]]]; rewrite ?require_ok;
    destruct (missing =? "")%string; simpl; naive_solver.
Qed.

Lemma missing_split missing outcome e context context' :
  (missing = "" \/ In missing WORKLOAD_TOOL_NAMES) /\
  if_expected e (fun m => require_expected_missing_prereq missing m context' ;;;
                          check_missing_for_outcome outcome missing context) = Ok tt <->
  missing_ok missing outcome e.
Proof.
  unfold missing_ok, require_expected_missing_prereq. rewrite if_expected_ok.
  setoid_rewrite bind_ok_unit. setoid_rewrite require_ok. setoid_rewrite check_missing_ok.
  setoid_rewrite orb_true_iff. setoid_rewrite mem_In.
  destruct (missing =? "")%string eqn:E; naive_solver.
Qed.

Lemma any_empty_or missing l : (String.eqb missing "" || mem missing l) = true <-> missing = "" \/ In missing l.
Proof. by rewrite orb_true_iff, String.eqb_eq, mem_In. Qed.

Lemma capability_accepted d scenario wclass e outcome context :
  validate_workload_capability d scenario wclass e outcome context = Ok tt ->
  capability_ok d scenario wclass e outcome.
Proof.
  unfold validate_workload_capability. intros H. apply bind_ok_unit in H as [Hf%require_only_fields_ok H].
  apply bind_ok_unit in H as [Hr%require_ok H]. rewrite subset_spec in Hr.
  apply bind_ok_unit in H as [Hschema%require_ok%py_eq_str H].
  apply bind_ok_unit in H as [Hsc%require_ok%py_eq_str H].
  apply bind_ok_unit in H as [Hcl%require_ok%py_eq_str H].
  apply bind_ok in H as (tools & Ht & H). rewrite require_workload_tools_ok in Ht.
  apply bind_ok_unit in H as [Het H]. rewrite if_expected_ok in Het. setoid_rewrite require_expected_tools_ok in Het.
  apply bind_ok in H as (src & [Hsrc _]%text_ok & H).
  apply bind_ok_unit in H as [Hs1%require_ok%mem_In H].
  apply bind_ok_unit in H as [Hs2 H]. rewrite if_expected_ok in Hs2.
  apply bind_ok in H as (mode & [Hmode _]%text_ok & H).
  apply bind_ok_unit in H as [Hm%require_ok%mem_In H].
  apply bind_ok in H as (status & [Hst _]%text_ok & H).
  apply bind_ok_unit in H as [Hs%require_ok%mem_In H].
  apply bind_ok_unit in H as [->%require_ok%String.eqb_eq H].
  apply bind_ok in H as (typed & [Hty _]%text_ok & H). apply bind_ok_unit in H as [_ H].
  apply bind_ok_unit in H as [->%require_ok%String.eqb_eq H].
  apply bind_ok in H as (missing & Hmi & H). rewrite missing_text in Hmi.
  apply bind_ok_unit in H as [Hm1%require_ok H]. rewrite any_empty_or in Hm1.
  apply bind_ok_unit in H as [Hm2 H].
  apply bind_ok_unit in H as [Hvm%require_ok%is_true_iff H].
  apply bind_ok_unit in H as [Hh%require_ok%is_false_iff Hre%require_ok%is_false_iff].
  split; try done.
  - destruct Ht as (? & ? & ?). exists tools. split; [done|]. split; [done|]. by split.
  - exists src. split; [done|]. split; [done|]. intros m Hm'. by apply Hs2, require_ok, mem_In in Hm'.
  - by exists mode.
  - exists missing. split; [done|]. eapply missing_split. by split.
Qed.

Lemma capability_complete d scenario wclass e outcome context :
  capability_ok d scenario wclass e outcome ->
  validate_workload_capability d scenario wclass e outcome context = Ok tt.
Proof.
  unfold validate_workload_capability. intros [Hf Hr Hschema Hsc Hcl (tools & Hv & Hne & Hin & Hex) (src & Hsrc & Hs1 & Hs2) (mode & Hmode & Hm)
    (Ho & Hst & Hty) (missing & Hmi & Hmok) Hvm Hh Hre].
  rewrite <- (missing_split _ _ _ context (context ++ ".missing_prereq")) in Hmok. destruct Hmok as [Hm1 Hm2]. run_ok;
    [by apply require_only_fields_ok | by apply require_ok, subset_spec
    |by apply require_ok, py_eq_str | by apply require_ok, py_eq_str | by apply require_ok, py_eq_str
    |by apply require_workload_tools_ok
    |apply if_expected_ok; intros m Hx; by apply require_expected_tools_ok, Hex
    |apply text_ok; eauto using member_nonempty
    |by apply require_ok, mem_In
    |apply if_expected_ok; intros m Hx; by apply require_ok, mem_In, Hs2
    |apply text_ok; eauto using member_nonempty
    |by apply require_ok, mem_In
    |apply text_ok; eauto using member_nonempty
    |by apply require_ok, mem_In
    |by apply require_ok, String.eqb_eq
    |apply text_ok; eauto using member_nonempty
    |by apply require_ok, mem_In
    |by apply require_ok, String.eqb_eq
    |by apply missing_text
    |by apply require_ok, any_empty_or
    |exact Hm2
    |by apply require_ok, is_true_iff
    |by apply require_ok, is_false_iff
    |by apply require_ok, is_false_iff].
Qed.

(** [validate_workload_capability] accepts a capability artifact exactly when
    it carries the fields of [capability_ok]: its identity matches the row, its
    tools are those of the canonical scenario without repetition, its status and
    typed outcome are the outcome of the row, and a missing tool is named exactly
    when the outcome is SKIP (or, possibly, REFUSE) and belongs to the scenario. *)
Theorem validate_workload_capability_iff d scenario wclass e outcome context :
  validate_workload_capability d scenario wclass e outcome context = Ok tt <->
  capability_ok d scenario wclass e outcome.
Proof. split; [apply capability_accepted | apply capability_complete]. Qed.

(** ** The workload spec and the privacy report *)
Definition text_field (d : jobject) (field : string) : Prop := exists s, get d field = JStr s /\ s <> "".

Record thresholds_ok (d : jobject) (source : string) : Prop := {
  th_fields : only_fields d WORKLOAD_THRESHOLD_FIELDS;
  th_source : get d "source" = JStr source;
  th_status : text_field d "fixture_status" /\ text_field d "calibration_status";
  th_capacity : get d "production_capacity_claim" = JBool false;
}.

(** The value is an object with exactly the entries of the table. *)
Definition exactly (v : json) (table : list (string * string)) : Prop :=
  exists d, v = JDict d /\ (forall k, In k (keys d) <-> In k (map fst table))
    /\ forall k t, In (k, t) table -> get d k = JStr t.

(** The two scenarios with semantics of their own state them exactly, and no
    other scenario may. *)
Record semantics_ok (d : jobject) (scenario : string) : Prop := {
  sm_cgroup : scenario = "workload-cgroup-weight-quota" -> exactly (get d "cgroup_semantics") CGROUP_WORKLOAD_SEMANTICS;
  sm_hotplug : scenario = "workload-cpu-hotplug" -> exactly (get d "cpu_hotplug_semantics") CPU_HOTPLUG_SEMANTICS;
  sm_no_cgroup : scenario <> "workload-cgroup-weight-quota" -> ~ In "cgroup_semantics" (keys d);
  sm_no_hotplug : scenario <> "workload-cpu-hotplug" -> ~ In "cpu_hotplug_semantics" (keys d);
}.

(** The missing tool a spec may name. *)
Definition spec_missing_ok (v : json) (e : option WorkloadScenarioMetadata) : Prop :=
  exists missing, v = JStr missing /\ (missing = "" \/ In missing WORKLOAD_TOOL_NAMES)
    /\ forall m, e = Some m -> missing = "" \/ In missing (required_tools m).

Record spec_ok (F : fs) (manifest_root : option path) (d : jobject) (scenario wclass : string)
    (e : option WorkloadScenarioMetadata) : Prop := {
  sp_fields : only_fields d WORKLOAD_SPEC_FIELDS;
  sp_required : forall k, In k SPEC_REQUIRED -> In k (keys d);
  sp_schema : get d "schema" = JStr WORKLOAD_SPEC_SCHEMA;
  sp_scenario : get d "scenario_id" = JStr scenario;
  sp_class : get d "workload_class" = JStr wclass;
  sp_name : In "name" (keys d) -> get d "name" = JStr wclass;
  sp_tools : tools_ok (get d "required_tools") e;
  sp_source : exists source thresholds, source_ok (get d "threshold_source") e source
    /\ get d "thresholds" = JDict thresholds /\ thresholds_ok thresholds source
    /\ (source = "calibrated" -> get d "benchmark_provenance" <> JNull);
  sp_semantics : semantics_ok d scenario;
  sp_provenance : Provenance.provenance_ok F manifest_root (get d "benchmark_provenance");
  sp_marker : get d "vm_marker_required_for_live_run" = JBool true;
  sp_host : get d "host_mutation" = JBool false;
  sp_release : get d "release_eligible" = JBool false;
  sp_missing : In "missing_prereq" (keys d) -> spec_missing_ok (get d "missing_prereq") e;
}.

(** The capability artifact the spec names, if it names one. *)
Definition names_capability (d : jobject) (answer : option string) : Prop :=
  match answer with
  | Some p => In "capability_artifact_path" (keys d) /\ safe_path_text (get d "capability_artifact_path") p
  | None => ~ In "capability_artifact_path" (keys d)
  end.

Record privacy_report_ok (d : jobject) : Prop := {
  pv_fields : only_fields d PRIVACY_REPORT_FIELDS;
  pv_schema : get d "schema" = JStr PRIVACY_SCAN_SCHEMA;
  pv_status : get d "status" = JStr "PASS";
  pv_found : get d "private_fields_found" = JBool false;
  pv_host : get d "host_mutation" = JBool false;
}.

Lemma privacy_report_accepted d context : validate_privacy_report d context = Ok tt <-> privacy_report_ok d.
Proof.
  unfold validate_privacy_report.
  rewrite !bind_ok_unit, !require_ok, require_only_fields_ok, !py_eq_str, !is_false_iff.
  split; [by intros (? & ? & ? & ? & ?) | by intros []].
Qed.

Lemma thresholds_accepted d source context :
  validate_workload_thresholds d source context = Ok tt <-> thresholds_ok d source.
Proof.
  unfold validate_workload_thresholds.
  rewrite !bind_ok_unit, require_only_fields_ok, require_ok, py_eq_str. split.
  - intros (Hf & Hs & (a & Ha%text_ok & (b & Hb%text_ok & Hc%require_ok%is_false_iff)%bind_ok)%bind_ok).
    split; try done. split; [by exists a | by exists b].
  - intros [Hf Hs [(a & Ha) (b & Hb)] Hc]. split; [done|]. split; [done|].
    run_ok; [by apply text_ok | by apply text_ok | by apply require_ok, is_false_iff].
Qed.

Lemma exactly_ok v table context : validate_semantics_exact v table context = Ok tt <-> exactly v table.
Proof.
  unfold validate_semantics_exact, exactly. rewrite bind_ok. setoid_rewrite obj_ok.
  setoid_rewrite bind_ok_unit. setoid_rewrite require_ok. setoid_rewrite set_eq_spec.
  setoid_rewrite for_each_ok. setoid_rewrite Forall_forall. setoid_rewrite list_elem_of_In.
  setoid_rewrite require_ok. setoid_rewrite py_eq_str. split.
  - intros (d & -> & Hk & H). exists d. split; [done|]. split; [done|]. intros k t Hi. apply (H (k, t) Hi).
  - intros (d & -> & Hk & H). exists d. split; [done|]. split; [done|]. intros [k t] Hi. by apply H.
Qed.

Lemma absent_ok k d m : require (negb (has_key k d)) m = Ok tt <-> ~ In k (keys d).
Proof. by rewrite require_ok, negb_true_iff, <- not_true_iff_false, has_key_iff. Qed.

Lemma semantics_accepted d scenario context :
  validate_workload_semantics d scenario context = Ok tt <-> semantics_ok d scenario.
Proof.
  unfold validate_workload_semantics, no_hotplug, no_cgroup.
  destruct (String.eqb_spec scenario "workload-cgroup-weight-quota") as [->|H1];
    [|destruct (String.eqb_spec scenario "workload-cpu-hotplug") as [->|H2]];
    rewrite bind_ok_unit, ?exactly_ok, !absent_ok; (split; [intros [? ?]; by split | by intros []; auto]).
Qed.

Lemma spec_missing_accepted d e m m' context :
  (if has_key "missing_prereq" d then
     match get d "missing_prereq" with
     | JStr missing =>
         require (String.eqb missing "" || mem missing WORKLOAD_TOOL_NAMES) m ;;;
         if_expected e (fun x => require_expected_missing_prereq missing x context)
     | _ => fail m'
     end
   else Ok tt) = Ok tt <-> (In "missing_prereq" (keys d) -> spec_missing_ok (get d "missing_prereq") e).
Proof.
  rewrite <- has_key_iff. unfold spec_missing_ok. destruct (has_key "missing_prereq" d); [|naive_solver].
  destruct (get d "missing_prereq") as [| | | |s| |]; try (split; [discriminate | intros H; by destruct H as (? & [=] & _)]).
  rewrite bind_ok_unit, require_ok, any_empty_or, if_expected_ok. unfold require_expected_missing_prereq.
  setoid_rewrite require_ok. setoid_rewrite any_empty_or. naive_solver.
Qed.

Lemma capability_name_accepted d answer context :
  (if has_key "capability_artifact_path" d then
     let* p := require_safe_path (get d "capability_artifact_path") context in Ok (Some p)
   else Ok None) = Ok answer <-> names_capability d answer.
Proof.
  unfold names_capability. pose proof (has_key_iff "capability_artifact_path" d) as Hk.
  destruct (has_key "capability_artifact_path" d).
  - rewrite bind_ok. setoid_rewrite require_safe_path_ok. setoid_rewrite Ok_inj. destruct answer; naive_solver.
  - rewrite Ok_inj. destruct answer; naive_solver.
Qed.

Lemma provenance_accepted F v root context :
  validate_workload_benchmark_provenance F v root context = Ok tt <-> Provenance.provenance_ok F root v.
Proof. unfold validate_workload_benchmark_provenance. by rewrite reraise_ok, Provenance.validate_entries_iff. Qed.

Lemma calibrated_ok source v m :
  (if String.eqb source "calibrated" then require (negb (is_none v)) m else Ok tt) = Ok tt <->
  (source = "calibrated" -> v <> JNull).
Proof.
  destruct (String.eqb_spec source "calibrated"); [|naive_solver]. rewrite require_ok. destruct v; naive_solver.
Qed.

Lemma optional_name_ok d wclass m :
  (if has_key "name" d then require (py_eq (get d "name") (JStr wclass)) m else Ok tt) = Ok tt <->
  (In "name" (keys d) -> get d "name" = JStr wclass).
Proof.
  rewrite <- has_key_iff. destruct (has_key "name" d); [|naive_solver]. rewrite require_ok, py_eq_str. naive_solver.
Qed.

Lemma spec_accepted F d scenario wclass e context root answer :
  validate_workload_spec F d scenario wclass e context root = Ok answer ->
  spec_ok F root d scenario wclass e /\ names_capability d answer.
Proof.
  unfold validate_workload_spec. cbv zeta. intros H.
  apply bind_ok_unit in H as [Hf%require_only_fields_ok H].
  apply bind_ok_unit in H as [Hr%require_ok H]. rewrite subset_spec in Hr.
  apply bind_ok_unit in H as [Hschema%require_ok%py_eq_str H].
  apply bind_ok_unit in H as [Hsc%require_ok%py_eq_str H].
  apply bind_ok_unit in H as [Hcl%require_ok%py_eq_str H].
  apply bind_ok_unit in H as [Hname H]. rewrite optional_name_ok in Hname.
  apply bind_ok in H as (tools & Ht & H). rewrite require_workload_tools_ok in Ht.
  apply bind_ok_unit in H as [Het H]. rewrite if_expected_ok in Het. setoid_rewrite require_expected_tools_ok in Het.
  apply bind_ok in H as (src & [Hsrc _]%text_ok & H).
  apply bind_ok_unit in H as [Hs1%require_ok%mem_In H].
  apply bind_ok_unit in H as [Hs2 H]. rewrite if_expected_ok in Hs2.
  apply bind_ok in H as (th & Hth%obj_ok & H).
  apply bind_ok_unit in H as [Hthok%thresholds_accepted H].
  apply bind_ok_unit in H as [Hsem%semantics_accepted H].
  apply bind_ok_unit in H as [Hcal H]. rewrite calibrated_ok in Hcal.
  apply bind_ok_unit in H as [Hprov%provenance_accepted H].
  apply bind_ok_unit in H as [Hvm%require_ok%is_true_iff H].
  apply bind_ok_unit in H as [Hh%require_ok%is_false_iff H].
  apply bind_ok_unit in H as [Hre%require_ok%is_false_iff H].
  apply bind_ok_unit in H as [Hmi H]. rewrite spec_missing_accepted in Hmi.
  rewrite capability_name_accepted in H. split; [|done]. split; try done.
  - destruct Ht as (? & ? & ?). exists tools. split; [done|]. split; [done|]. by split.
  - exists src, th. split; [|done]. split; [done|]. split; [done|].
    intros m Hm'. by apply Hs2, require_ok, mem_In in Hm'.
Qed.

Lemma spec_complete F d scenario wclass e context root answer :
  spec_ok F root d scenario wclass e -> names_capability d answer ->
  validate_workload_spec F d scenario wclass e context root = Ok answer.
Proof.
  unfold validate_workload_spec. cbv zeta.
  intros [Hf Hr Hschema Hsc Hcl Hname (tools & Hv & Hne & Hin & Hex) (src & th & (Hsrc & Hs1 & Hs2) & Hth & Hthok & Hcal)
    Hsem Hprov Hvm Hh Hre Hmi] Hcap. run_ok;
    [by apply require_only_fields_ok | by apply require_ok, subset_spec
    |by apply require_ok, py_eq_str | by apply require_ok, py_eq_str | by apply require_ok, py_eq_str
    |by apply optional_name_ok | by apply require_workload_tools_ok
    |apply if_expected_ok; intros m Hx; by apply require_expected_tools_ok, Hex
    |apply text_ok; eauto using member_nonempty
    |by apply require_ok, mem_In
    |apply if_expected_ok; intros m Hx; by apply require_ok, mem_In, Hs2
    |by apply obj_ok | by apply thresholds_accepted | by apply semantics_accepted
    |by apply calibrated_ok | by apply provenance_accepted
    |by apply require_ok, is_true_iff | by apply require_ok, is_false_iff | by apply require_ok, is_false_iff
    |by apply spec_missing_accepted | by apply capability_name_accepted].
Qed.
