(* ===== verification/MatrixRow.v ===== *)
(** MatrixRow: qa/matrix_run_validate.py, one matrix-run row, the schema file
    and the docs it must agree with, and the committed fixture pack. *)
From S2P Require Import Prelude PyStr PyRe PyFloat PyJson Sha256 PyFs.
From S2P Require Import Provenance MatrixModel MatrixWorkload.

Local Open Scope string_scope.

Definition required_fields : list string := sorted ROW_FIELDS.

Definition validate_vm_marker (marker : jobject) (mode context : string) : result unit :=
  require_only_fields marker VM_MARKER_FIELDS (context ++ ".vm_marker") ;;;
  let* required := bool_field (get marker "required") (context ++ ".vm_marker.required") in
  let* present := bool_field (get marker "present") (context ++ ".vm_marker.present") in
  let* p := text (get marker "path") (context ++ ".vm_marker.path") in
  require (String.eqb p VM_MARKER) (context ++ ".vm_marker.path mismatch") ;;;
  let* _ := text (get marker "checked_by") (context ++ ".vm_marker.checked_by") in
  if String.eqb mode "vm-live" then
    require (required && present) (context ++ " VM-live row requires present VM marker")
  else if mem mode ["host-refusal-only"; "fixture"] then
    require (negb required && negb present) (context ++ " " ++ mode ++ " row must not claim VM marker")
  else fail (context ++ ".evidence_mode invalid").

Definition validate_pass_evidence_mode (outcome mode context : string) : result unit :=
  if String.eqb outcome "PASS" then
    require (mem mode ["vm-live"; "fixture"])
      (context ++ " PASS requires vm-live proof or explicit fixture evidence")
  else Ok tt.

Definition validate_policy (policy : jobject) (context : string) : result unit :=
  require_only_fields policy POLICY_FIELDS (context ++ ".policy") ;;;
  for_each ["name"; "object_path"; "source_path"] (fun field =>
    let* _ := text (get policy field) (context ++ ".policy." ++ field) in Ok tt) ;;;
  let* _ := require_safe_path (get policy "object_path") (context ++ ".policy.object_path") in
  let* _ := require_safe_path (get policy "source_path") (context ++ ".policy.source_path") in
  require_sha policy "object_sha256" (context ++ ".policy") ;;;
  require_sha policy "source_sha256" (context ++ ".policy").

Definition validate_privacy (scan : jobject) (context : string) : result unit :=
  require_only_fields scan PRIVACY_SCAN_FIELDS (context ++ ".privacy_scan") ;;;
  require (py_eq (get scan "status") (JStr "PASS")) (context ++ ".privacy_scan.status must be PASS") ;;;
  require (is_false (get scan "private_fields_found"))
    (context ++ ".privacy_scan.private_fields_found must be false") ;;;
  let* _ := require_safe_path (get scan "report_path") (context ++ ".privacy_scan.report_path") in
  Ok tt.

Definition validate_git (git : jobject) (context : string) : result unit :=
  require_only_fields git GIT_FIELDS (context ++ ".git") ;;;
  let* expected := text (get git "expected_sha") (context ++ ".git.expected_sha") in
  let* actual := text (get git "actual_sha") (context ++ ".git.actual_sha") in
  require (py_eq (get git "status") (JStr "current")) (context ++ ".git.status must be current") ;;;
  require (is_false (get git "dirty")) (context ++ ".git.dirty must be false") ;;;
  require (String.eqb expected actual) (context ++ ".git expected_sha must match actual_sha").

(** [post >= pre] when both sequence numbers are known. *)
Definition seq_not_stale (pre post : option Z) : bool :=
  match pre, post with Some a, Some b => (a <=? b)%Z | _, _ => true end.

Definition validate_row (row : jobject) (context : string) : result unit :=
  require_only_fields row ROW_FIELDS context ;;;
  require (subset required_fields (keys row)) (context ++ " missing required fields") ;;;
  require (py_eq (get row "schema") (JStr SCHEMA)) (context ++ " bad schema") ;;;
  let* outcome := text (get row "outcome") (context ++ ".outcome") in
  require (mem outcome OUTCOMES) (context ++ ".outcome invalid") ;;;
  let* mode := text (get row "evidence_mode") (context ++ ".evidence_mode") in
  require (mem mode EVIDENCE_MODES) (context ++ ".evidence_mode invalid") ;;;
  let* tuple_status := text (get row "supported_tuple_status") (context ++ ".supported_tuple_status") in
  require (mem tuple_status TUPLE_STATUS) (context ++ ".supported_tuple_status invalid") ;;;
  require (is_false (get row "host_mutation")) (context ++ ".host_mutation must be false") ;;;
  require (is_false (get row "release_eligible")) (context ++ ".release_eligible must be false") ;;;
  require (py_eq (get row "bpf_abi_version") (JStr MATRIX_BPF_ABI_VERSION))
    (context ++ ".bpf_abi_version must be " ++ MATRIX_BPF_ABI_VERSION) ;;;
  require_identifier row "matrix_run_id" RUN_ID_RE context ;;;
  for_each ["scenario_id"; "action_id"; "rollback_id"] (fun field =>
    require_identifier row field ID_RE context) ;;;
  let* scenario := text (get row "scenario_id") (context ++ ".scenario_id") in
  require_identifier row "audit_id" AUDIT_RE context ;;;
  for_each PATH_FIELDS (fun field =>
    let* _ := require_safe_path (get row field) (context ++ "." ++ field) in Ok tt) ;;;
  let* pre := obj (get row "pre_scheduler_state") (context ++ ".pre_scheduler_state") in
  let* pre_enable_seq := validate_scheduler_state pre (context ++ ".pre_scheduler_state") in
  let* post := obj (get row "post_scheduler_state") (context ++ ".post_scheduler_state") in
  let* post_enable_seq := validate_scheduler_state post (context ++ ".post_scheduler_state") in
  require (seq_not_stale pre_enable_seq post_enable_seq)
    (context ++ ".post_scheduler_state.enable_seq is stale") ;;;
  for_each ["pre_cgroup_state"; "post_cgroup_state"] (fun field =>
    let* _ := obj (get row field) (context ++ "." ++ field) in Ok tt) ;;;
  let* kernel_tuple := obj (get row "kernel_tuple") (context ++ ".kernel_tuple") in
  require_only_fields kernel_tuple KERNEL_TUPLE_FIELDS (context ++ ".kernel_tuple") ;;;
  let* marker := obj (get row "vm_marker") (context ++ ".vm_marker") in
  validate_vm_marker marker mode context ;;;
  let* policy := obj (get row "policy") (context ++ ".policy") in
  validate_policy policy context ;;;
  let* workload := obj (get row "workload") (context ++ ".workload") in
  validate_workload workload scenario context ;;;
  let* privacy := obj (get row "privacy_scan") (context ++ ".privacy_scan") in
  validate_privacy privacy context ;;;
  let* git := obj (get row "git") (context ++ ".git") in
  validate_git git context ;;;
  validate_pass_evidence_mode outcome mode context ;;;
  reject_private (JDict row) context.

(** The strings of a list, in order. *)
Definition strings_of (l : list json) : list string :=
  flat_map (fun v => match v with JStr s => [s] | _ => [] end) l.

(** The schema node of a path field: every segment but the last goes through
    "properties". *)
Fixpoint schema_node (node : jobject) (segments : list string) (field_context : string) : result jobject :=
  match segments with
  | [] => Ok node
  | [segment] => obj (get node segment) (SCHEMA_FILE ++ ".properties." ++ field_context)
  | segment :: segments =>
      let* inner := obj (get node segment) (SCHEMA_FILE ++ ".properties." ++ segment) in
      let* node := obj (get inner "properties") (SCHEMA_FILE ++ ".properties." ++ segment ++ ".properties") in
      schema_node node segments field_context
  end.

Definition DOC_NEEDLES : list string := [
  SCHEMA; "standalone"; "not a daemon-event"; "live-backend"; "daemon_event_path"; "host_mutation";
  "release_eligible"; "relative"; "rollback_proof_path"; "cleanup_proof_path"; "host_refusal_proof_path";
  "benchmark_provenance"].

Section Files.
Variable F : fs.

Definition validate_schema_file (schemas : path) : result unit :=
  let* schema := load_json F (div_path schemas SCHEMA_FILE) in
  require (py_eq (get schema "$id") (JStr SCHEMA)) (SCHEMA_FILE ++ " has wrong $id") ;;;
  let* props := obj (get schema "properties") (SCHEMA_FILE ++ ".properties") in
  let* row_schema := obj (get props "schema") (SCHEMA_FILE ++ ".properties.schema") in
  require (py_eq (get row_schema "const") (JStr SCHEMA)) (SCHEMA_FILE ++ " row schema const mismatch") ;;;
  match get schema "required" with
  | JList required =>
      let missing := List.filter (fun f => negb (mem f (strings_of required))) required_fields in
      require (is_empty missing) (SCHEMA_FILE ++ " missing required fields: " ++ join ", " missing)
  | _ => fail (SCHEMA_FILE ++ ".required must be a list")
  end ;;;
  let* properties := obj (get schema "properties") (SCHEMA_FILE ++ ".properties") in
  let* mode_schema := obj (get properties "evidence_mode") (SCHEMA_FILE ++ ".properties.evidence_mode") in
  match get mode_schema "enum" with
  | JList modes =>
      require (set_eq (strings_of modes) EVIDENCE_MODES)
        (SCHEMA_FILE ++ ".properties.evidence_mode.enum must match checker evidence modes")
  | _ => fail (SCHEMA_FILE ++ ".properties.evidence_mode.enum must be a list")
  end ;;;
  let* abi_schema := obj (get properties "bpf_abi_version") (SCHEMA_FILE ++ ".properties.bpf_abi_version") in
  require (py_eq (get abi_schema "const") (JStr MATRIX_BPF_ABI_VERSION))
    (SCHEMA_FILE ++ ".properties.bpf_abi_version.const must match checker") ;;;
  for_each SCHEMA_PATH_FIELDS (fun path_field =>
    let field_context := join "." path_field in
    let* node := schema_node properties path_field field_context in
    require (py_eq (get node "pattern") (JStr SAFE_RELATIVE_PATH_PATTERN))
      (SCHEMA_FILE ++ "." ++ field_context ++ " missing safe relative path pattern")).

Definition validate_docs (docs : path) : result unit :=
  let* raw := reraise FileNotFoundError MatrixRunContractError
    (fun _ => "missing doc: " ++ path_str (div_path docs DOC_FILE)) (read_text F (div_path docs DOC_FILE)) in
  let text_value := lower raw in
  for_each DOC_NEEDLES (fun needle =>
    require (contains (lower needle) text_value) (DOC_FILE ++ " missing required text: " ++ needle)).

Definition fixture_names (p : path) : list string := glob_suffix F p ".json".

Definition validate_workload_fixture_artifacts (row : jobject) (fixtures : path) (fixture_name : string)
    : result unit :=
  let here := path_str (div_path fixtures fixture_name) in
  let* scenario := text (get row "scenario_id") (here ++ ".scenario_id") in
  match expected_workload_metadata scenario with
  | None => Ok tt
  | Some expected =>
      require (String.eqb fixture_name (scenario ++ ".json"))
        (here ++ " filename must match workload scenario_id") ;;;
      let* workload := obj (get row "workload") (here ++ ".workload") in
      let* wclass := text (get workload "name") (here ++ ".workload.name") in
      require (String.eqb wclass (workload_class expected))
        (here ++ ".workload.name must match scenario workload class") ;;;
      let* raw_path := require_safe_path (get workload "spec_path") (here ++ ".workload.spec_path") in
      let spec_path := Path raw_path in
      require_descendant spec_path fixtures (here ++ ".workload.spec_path") ;;;
      let* expected_sha := text (get workload "spec_sha256") (here ++ ".workload.spec_sha256") in
      let* digest := file_sha256 F spec_path in
      require (String.eqb digest expected_sha)
        (here ++ ".workload.spec_sha256 does not match referenced workload spec") ;;;
      let* spec := load_json F spec_path in
      reject_workload_artifact_private (JDict spec) (here ++ ".workload.spec") ;;;
      let* capability := validate_workload_spec F spec scenario wclass (Some expected)
                           (here ++ ".workload.spec") None in
      require (match capability with None => true | Some _ => false end)
        (here ++ ".workload.spec.capability_artifact_path must not be committed in fixture specs")
  end.

(** An invalid fixture must be refused by the checker's own exception. *)
Definition must_reject (invalid_dir : path) (name : string) : result unit :=
  let p := div_path invalid_dir name in
  match (let* row := load_json F p in validate_row row (path_str p)) with
  | Ok _ => fail ("invalid fixture was accepted: " ++ path_str p)
  | Err e => if decide (exn_cls e = MatrixRunContractError) then Ok tt else Err e
  end.

Definition exact_names (required found : list string) (missing_msg extra_msg : string) : result unit :=
  let missing := sorted (set_diff required found) in
  let extra := sorted (set_diff found required) in
  require (is_empty missing) (missing_msg ++ join ", " missing) ;;;
  require (is_empty extra) (extra_msg ++ join ", " extra).

Definition validate_fixture_pack (fixtures : path) : result (nat * nat) :=
  let valid_names := fixture_names fixtures in
  exact_names REQUIRED_FIXTURES valid_names
    "missing matrix-run fixture(s): " "unlisted matrix-run fixture(s): " ;;;
  for_each (sorted REQUIRED_FIXTURES) (fun name =>
    let* row := load_json F (div_path fixtures name) in
    validate_row row (path_str (div_path fixtures name)) ;;;
    validate_workload_fixture_artifacts row fixtures name) ;;;
  let invalid_dir := div_path fixtures "invalid" in
  let invalid_names := fixture_names invalid_dir in
  exact_names REQUIRED_INVALID_FIXTURES invalid_names
    "missing invalid fixture(s): " "unlisted invalid fixture(s): " ;;;
  for_each (sorted REQUIRED_INVALID_FIXTURES) (must_reject invalid_dir) ;;;
  Ok (List.length valid_names, List.length invalid_names).

(** [validate] of qa/matrix_run_validate.py: the fixture mode alone. *)
Definition validate (args : Args) : result (nat * nat) :=
  validate_schema_file (schemas args) ;;;
  validate_docs (docs args) ;;;
  match fixtures args with
  | None => fail "internal argument parser error"
  | Some p => validate_fixture_pack p
  end.
End Files.

(** * Specification of a row *)
Definition path_field (d : jobject) (field : string) : Prop := exists s, safe_path_text (get d field) s.
Definition object_field (P : jobject -> Prop) (d : jobject) (field : string) : Prop :=
  exists o, get d field = JDict o /\ P o.

(** A live row claims the marker, the other two modes must not. *)
Record marker_ok (mode : string) (d : jobject) : Prop := {
  mk_fields : only_fields d VM_MARKER_FIELDS;
  mk_path : get d "path" = JStr VM_MARKER;
  mk_checked_by : text_field d "checked_by";
  mk_claim : (mode = "vm-live" /\ get d "required" = JBool true /\ get d "present" = JBool true)
    \/ (In mode ["host-refusal-only"; "fixture"]
        /\ get d "required" = JBool false /\ get d "present" = JBool false);
}.

Record policy_ok (d : jobject) : Prop := {
  po_fields : only_fields d POLICY_FIELDS;
  po_name : text_field d "name";
  po_object : path_field d "object_path";
  po_source : path_field d "source_path";
  po_object_sha : sha_field d "object_sha256";
  po_source_sha : sha_field d "source_sha256";
}.

Record privacy_ok (d : jobject) : Prop := {
  pr_fields : only_fields d PRIVACY_SCAN_FIELDS;
  pr_status : get d "status" = JStr "PASS";
  pr_found : get d "private_fields_found" = JBool false;
  pr_report : path_field d "report_path";
}.

Record git_ok (d : jobject) : Prop := {
  gi_fields : only_fields d GIT_FIELDS;
  gi_sha : exists sha, sha <> "" /\ get d "expected_sha" = JStr sha /\ get d "actual_sha" = JStr sha;
  gi_status : get d "status" = JStr "current";
  gi_dirty : get d "dirty" = JBool false;
}.

(** The enable sequence of the row does not go backwards when both ends report one. *)
Definition states_ok (row : jobject) : Prop :=
  exists pre post a b,
    get row "pre_scheduler_state" = JDict pre /\ scheduler_state pre a
    /\ get row "post_scheduler_state" = JDict post /\ scheduler_state post b
    /\ forall m n, a = Some m -> b = Some n -> (m <= n)%Z.

Record row_ok (row : jobject) (outcome mode scenario : string) : Prop := {
  ro_fields : forall k, In k (keys row) <-> In k ROW_FIELDS;
  ro_schema : get row "schema" = JStr SCHEMA;
  ro_outcome : get row "outcome" = JStr outcome /\ In outcome OUTCOMES;
  ro_mode : get row "evidence_mode" = JStr mode /\ In mode EVIDENCE_MODES;
  ro_tuple : exists t, get row "supported_tuple_status" = JStr t /\ In t TUPLE_STATUS;
  ro_host : get row "host_mutation" = JBool false;
  ro_release : get row "release_eligible" = JBool false;
  ro_abi : get row "bpf_abi_version" = JStr MATRIX_BPF_ABI_VERSION;
  ro_run_id : identifier row "matrix_run_id" RUN_ID_MAX;
  ro_ids : forall f, In f ["scenario_id"; "action_id"; "rollback_id"] -> identifier row f 96;
  ro_scenario : get row "scenario_id" = JStr scenario;
  ro_audit : exists s, get row "audit_id" = JStr s /\ re_fullmatch AUDIT_RE s = true;
  ro_paths : forall f, In f PATH_FIELDS -> path_field row f;
  ro_states : states_ok row;
  ro_cgroups : forall f, In f ["pre_cgroup_state"; "post_cgroup_state"] -> object_field (fun _ => True) row f;
  ro_kernel : object_field (fun d => only_fields d KERNEL_TUPLE_FIELDS) row "kernel_tuple";
  ro_marker : object_field (marker_ok mode) row "vm_marker";
  ro_policy : object_field policy_ok row "policy";
  ro_workload : object_field (fun d => workload_ok d scenario) row "workload";
  ro_privacy : object_field privacy_ok row "privacy_scan";
  ro_git : object_field git_ok row "git";
  ro_pass : outcome = "PASS" -> In mode ["vm-live"; "fixture"];
  ro_clean : Clean (no_needle PRIVATE_NEEDLES) (safe_text PRIVATE_NEEDLES) (JDict row);
}.

(** ** The parts *)
Lemma text_field_ok d field context :
  (let* _ := text (get d field) context in Ok tt) = Ok tt <-> text_field d field.
Proof.
  unfold text_field. rewrite bind_ok. setoid_rewrite text_ok.
  split; [intros (s & ? & _); by exists s | intros (s & ?); by exists s].
Qed.

Lemma path_field_ok d field context :
  (let* _ := require_safe_path (get d field) context in Ok tt) = Ok tt <-> path_field d field.
Proof.
  unfold path_field. rewrite bind_ok. setoid_rewrite require_safe_path_ok.
  split; [intros (s & ? & _); by exists s | intros (s & ?); by exists s].
Qed.

Lemma object_field_ok (P : jobject -> Prop) d field context (check : jobject -> result unit) :
  (forall o, check o = Ok tt <-> P o) ->
  (let* o := obj (get d field) context in check o) = Ok tt <-> object_field P d field.
Proof. intros H. unfold object_field. rewrite bind_ok. setoid_rewrite obj_ok. by setoid_rewrite H. Qed.

Lemma path_field_text d field : path_field d field -> text_field d field.
Proof. intros (s & Hs & Hne & _). by exists s. Qed.

Lemma validate_vm_marker_ok d mode context :
  validate_vm_marker d mode context = Ok tt <-> marker_ok mode d.
Proof.
  unfold validate_vm_marker. split.
  - intros H. apply bind_ok_unit in H as [Hf%require_only_fields_ok H].
    apply bind_ok in H as (r & Hr%bool_field_ok & H). apply bind_ok in H as (p & Hp%bool_field_ok & H).
    apply bind_ok in H as (s & [Hs _]%text_ok & H).
    apply bind_ok_unit in H as [->%require_ok%String.eqb_eq H].
    apply bind_ok in H as (c & Hc%text_ok & H). split; try done; [by exists c|].
    destruct (String.eqb_spec mode "vm-live") as [->|Hm].
    + apply require_ok, andb_true_iff in H as [-> ->]. by left.
    + destruct (mem mode _) eqn:E; [|done]. apply mem_In in E.
      apply require_ok, andb_true_iff in H as [->%negb_true_iff ->%negb_true_iff]. by right.
  - intros [Hf Hp (c & Hc) [(-> & Hr & Hpr)|(Hm & Hr & Hpr)]]; run_ok;
      try (by apply require_only_fields_ok); try (by apply bool_field_ok);
      try (by apply require_ok, String.eqb_eq); try (by apply require_ok); try (by apply text_ok).
    apply mem_In in Hm as Hm'. rewrite Hm'. by destruct Hm as [<-|[<-|[]]].
Qed.

Lemma validate_policy_ok d context : validate_policy d context = Ok tt <-> policy_ok d.
Proof.
  unfold validate_policy. split.
  - intros H. apply bind_ok_unit in H as [Hf%require_only_fields_ok H].
    apply bind_ok_unit in H as [Ht%for_each_ok H]. rewrite Forall_forall in Ht.
    apply bind_ok in H as (p & Hp%require_safe_path_ok & H). apply bind_ok in H as (q & Hq%require_safe_path_ok & H).
    apply bind_ok_unit in H as [H1%require_sha_ok H2%require_sha_ok].
    split; try done; [|by exists p | by exists q]. eapply text_field_ok, Ht. set_solver.
  - intros [Hf Hn (p & Hp) (q & Hq) H1 H2].
    run_ok; [by apply require_only_fields_ok| |by apply require_safe_path_ok | by apply require_safe_path_ok
            |by apply require_sha_ok | by apply require_sha_ok].
    repeat constructor; apply text_field_ok; try done; apply path_field_text; [by exists p | by exists q].
Qed.

Lemma validate_privacy_ok d context : validate_privacy d context = Ok tt <-> privacy_ok d.
Proof.
  unfold validate_privacy. split.
  - intros H. apply bind_ok_unit in H as [Hf%require_only_fields_ok H].
    apply bind_ok_unit in H as [Hs%require_ok%py_eq_str H]. apply bind_ok_unit in H as [Hp%require_ok%is_false_iff H].
    split; try done. by eapply path_field_ok.
  - intros [Hf Hs Hp (r & Hr)].
    run_ok; [by apply require_only_fields_ok | by apply require_ok, py_eq_str
            |by apply require_ok, is_false_iff | by apply require_safe_path_ok].
Qed.

Lemma validate_git_ok d context : validate_git d context = Ok tt <-> git_ok d.
Proof.
  unfold validate_git. split.
  - intros H. apply bind_ok_unit in H as [Hf%require_only_fields_ok H].
    apply bind_ok in H as (e & [He Hne]%text_ok & H). apply bind_ok in H as (a & [Ha _]%text_ok & H).
    apply bind_ok_unit in H as [Hs%require_ok%py_eq_str H].
    apply bind_ok_unit in H as [Hd%require_ok%is_false_iff ->%require_ok%String.eqb_eq].
    split; try done. by exists a.
  - intros [Hf (s & Hne & He & Ha) Hs Hd].
    run_ok; [by apply require_only_fields_ok | by apply text_ok | by apply text_ok
            |by apply require_ok, py_eq_str | by apply require_ok, is_false_iff
            |by apply require_ok, String.eqb_eq].
Qed.

Lemma seq_not_stale_iff a b :
  seq_not_stale a b = true <-> forall m n, a = Some m -> b = Some n -> (m <= n)%Z.
Proof. destruct a, b; simpl; rewrite ?Z.leb_le; naive_solver. Qed.

Lemma validate_pass_ok outcome mode context :
  validate_pass_evidence_mode outcome mode context = Ok tt <->
  (outcome = "PASS" -> In mode ["vm-live"; "fixture"]).
Proof.
  unfold validate_pass_evidence_mode. destruct (String.eqb_spec outcome "PASS") as [->|]; [|done].
  rewrite require_ok, mem_In. tauto.
Qed.

Lemma row_keys row :
  only_fields row ROW_FIELDS /\ subset required_fields (keys row) = true <->
  forall k, In k (keys row) <-> In k ROW_FIELDS.
Proof.
  unfold only_fields, required_fields. rewrite subset_spec. setoid_rewrite sorted_in.
  split; [intros [H1 H2] k; split; auto | intros H; split; intros k; apply H].
Qed.

Lemma row_accepted row context :
  validate_row row context = Ok tt -> exists outcome mode scenario, row_ok row outcome mode scenario.
Proof.
  unfold validate_row. intros H.
  apply bind_ok_unit in H as [Hf%require_only_fields_ok H]. apply bind_ok_unit in H as [Hr%require_ok H].
  apply bind_ok_unit in H as [Hsch%require_ok%py_eq_str H].
  apply bind_ok in H as (outcome & [Ho _]%text_ok & H). apply bind_ok_unit in H as [Ho'%require_ok%mem_In H].
  apply bind_ok in H as (mode & [Hm _]%text_ok & H). apply bind_ok_unit in H as [Hm'%require_ok%mem_In H].
  apply bind_ok in H as (t & [Ht _]%text_ok & H). apply bind_ok_unit in H as [Ht'%require_ok%mem_In H].
  apply bind_ok_unit in H as [Hh%require_ok%is_false_iff H].
  apply bind_ok_unit in H as [Hre%require_ok%is_false_iff H].
  apply bind_ok_unit in H as [Habi%require_ok%py_eq_str H].
  apply bind_ok_unit in H as [Hrun%require_run_id_ok H].
  apply bind_ok_unit in H as [Hids%for_each_ok H]. rewrite Forall_forall in Hids.
  apply bind_ok in H as (scenario & [Hsc _]%text_ok & H).
  apply bind_ok_unit in H as [(au & [Hau _]%text_ok & Hau'%require_ok)%bind_ok H].
  apply bind_ok_unit in H as [Hp%for_each_ok H]. rewrite Forall_forall in Hp.
  apply bind_ok in H as (pre & Hpre%obj_ok & H). apply bind_ok in H as (a & Ha%validate_scheduler_state_ok & H).
  apply bind_ok in H as (post & Hpost%obj_ok & H). apply bind_ok in H as (b & Hb%validate_scheduler_state_ok & H).
  apply bind_ok_unit in H as [Hab%require_ok H]. rewrite seq_not_stale_iff in Hab.
  apply bind_ok_unit in H as [Hcg%for_each_ok H]. rewrite Forall_forall in Hcg.
  apply bind_ok in H as (k & Hk%obj_ok & H). apply bind_ok_unit in H as [Hk'%require_only_fields_ok H].
  apply bind_ok in H as (m & Hmk%obj_ok & H). apply bind_ok_unit in H as [Hmk'%validate_vm_marker_ok H].
  apply bind_ok in H as (p & Hpo%obj_ok & H). apply bind_ok_unit in H as [Hpo'%validate_policy_ok H].
  apply bind_ok in H as (w & Hw%obj_ok & H). apply bind_ok_unit in H as [Hw'%validate_workload_ok H].
  apply bind_ok in H as (pr & Hpr%obj_ok & H). apply bind_ok_unit in H as [Hpr'%validate_privacy_ok H].
  apply bind_ok in H as (g & Hg%obj_ok & H). apply bind_ok_unit in H as [Hg'%validate_git_ok H].
  apply bind_ok_unit in H as [Hpass Hc%reject_private_ok]. rewrite validate_pass_ok in Hpass.
  exists outcome, mode, scenario.
  split; eauto using ex_intro; unfold object_field; eauto; try (by apply row_keys); try (by exists pre, post, a, b).
  - intros f Hi%list_elem_of_In%Hids. by apply require_id_ok in Hi.
  - intros f Hi%list_elem_of_In%Hp. by apply path_field_ok in Hi.
  - intros f Hi%list_elem_of_In%Hcg. apply bind_ok in Hi as (o & Hi%obj_ok & _). by exists o.
Qed.

Lemma row_complete row context outcome mode scenario :
  row_ok row outcome mode scenario -> validate_row row context = Ok tt.
Proof.
  intros [Hf Hsch [Ho Ho'] [Hm Hm'] (t & Ht & Ht') Hh Hre Habi Hrun Hids Hsc (au & Hau & Hau') Hp
    (pre & post & a & b & Hpre & Ha & Hpost & Hb & Hab) Hcg (k & Hk & Hk') (mk & Hmk & Hmk')
    (po & Hpo & Hpo') (w & Hw & Hw') (pr & Hpr & Hpr') (g & Hg & Hg') Hpass Hc].
  apply row_keys in Hf as [Hf1 Hf2]. unfold validate_row.
  assert (scenario <> "").
  { destruct (Hids "scenario_id") as (s & Hs & Hl & _); [by left|].
    intros ->. rewrite Hsc in Hs. injection Hs as <-. simpl in Hl. lia. }
  run_ok;
    [by apply require_only_fields_ok | by apply require_ok | by apply require_ok, py_eq_str
    |apply text_ok; eauto using member_nonempty | by apply require_ok, mem_In
    |apply text_ok; eauto using member_nonempty | by apply require_ok, mem_In
    |apply text_ok; eauto using member_nonempty | by apply require_ok, mem_In
    |by apply require_ok, is_false_iff | by apply require_ok, is_false_iff | by apply require_ok, py_eq_str
    |by apply require_run_id_ok
    |apply Forall_forall; intros f Hi%list_elem_of_In; by apply require_id_ok, Hids
    |by apply text_ok
    |apply bind_ok; exists au; rewrite text_ok, require_ok; repeat split; [done | by intros -> | done]
    |apply Forall_forall; intros f Hi%list_elem_of_In; by apply path_field_ok, Hp
    |by apply obj_ok | by apply validate_scheduler_state_ok | by apply obj_ok | by apply validate_scheduler_state_ok
    |by apply require_ok, seq_not_stale_iff
    |apply Forall_forall; intros f Hi%list_elem_of_In; destruct (Hcg f Hi) as (o & Hoo & _);
     apply bind_ok; exists o; by rewrite obj_ok
    |by apply obj_ok | by apply require_only_fields_ok | by apply obj_ok | by apply validate_vm_marker_ok
    |by apply obj_ok | by apply validate_policy_ok | by apply obj_ok | by apply validate_workload_ok
    |by apply obj_ok | by apply validate_privacy_ok | by apply obj_ok | by apply validate_git_ok
    |by apply validate_pass_ok | by apply reject_private_ok].
Qed.

(** * Properties *)

(** [validate_row] accepts a matrix row exactly when it satisfies the
    declarative contract [row_ok]: the exact field set, known enumerations, no
    host mutation and no release claim, bounded identifiers, safe relative
    paths, consistent scheduler states whose enable sequence does not go
    backwards, a VM marker that is claimed by live rows and by no other, a
    current clean git state, and no private key, text or path at any depth.  The
    verdict does not depend on the context string. *)
Theorem validate_row_iff row context :
  validate_row row context = Ok tt <-> exists outcome mode scenario, row_ok row outcome mode scenario.
Proof.
  split; [apply row_accepted | intros (outcome & mode & scenario & H); by eapply row_complete].
Qed.
