(* ===== verification/MatrixManifest.v ===== *)
(** MatrixManifest: qa/matrix_run_live_backend.py, qa/matrix_run_manifest_validate.py
    and qa/matrix_run_contract_check.py: the manifest of a matrix run, every
    artifact it dereferences, and the command line over them. *)
From S2P Require Import Prelude PyStr PyRe PyFloat PyJson Sha256 PyFs PyMain.
From S2P Require Import DaemonEvent RuntimeSample LiveBehavior.
From S2P Require Import MatrixModel MatrixWorkload MatrixRow.

Local Open Scope string_scope.

(** ** Proof artifacts that are read from one object *)
Definition validate_vm_marker_proof (data : jobject) (marker_required marker_present : bool)
    (evidence_mode context : string) : result unit :=
  require_only_fields data VM_MARKER_PROOF_FIELDS context ;;;
  require (py_eq (get data "schema") (JStr "zig-scheduler/vm-marker-proof/v1")) (context ++ ".schema unsupported") ;;;
  require (py_eq (get data "path") (JStr VM_MARKER)) (context ++ ".path mismatch") ;;;
  require (py_eq (get data "required") (JBool marker_required)) (context ++ ".required must match row marker") ;;;
  require (py_eq (get data "present") (JBool marker_present)) (context ++ ".present must match row marker") ;;;
  require (py_eq (get data "evidence_mode") (JStr evidence_mode))
    (context ++ ".evidence_mode must match row evidence_mode") ;;;
  require (marker_required && marker_present && String.eqb evidence_mode "vm-live")
    (context ++ " must prove a real vm-live marker") ;;;
  require (is_false (get data "host_mutation")) (context ++ ".host_mutation must be false").

Definition validate_incident_artifact (data : jobject) (scenario outcome context : string) : result unit :=
  require_only_fields data INCIDENT_FIELDS context ;;;
  require (py_eq (get data "schema") (JStr "zig-scheduler/matrix-incident/v1")) (context ++ ".schema unsupported") ;;;
  require (py_eq (get data "scenario_id") (JStr scenario)) (context ++ ".scenario_id must match row") ;;;
  require (py_eq (get data "outcome") (JStr outcome)) (context ++ ".outcome must match row") ;;;
  let* _ := text (get data "reason") (context ++ ".reason") in
  require (is_false (get data "host_mutation")) (context ++ ".host_mutation must be false") ;;;
  require (is_false (get data "release_eligible")) (context ++ ".release_eligible must be false") ;;;
  reject_private (JDict data) context.

Definition validate_rollback_artifact (data : jobject) (scenario context : string) : result unit :=
  require_only_fields data ROLLBACK_PROOF_FIELDS context ;;;
  require (py_eq (get data "schema") (JStr "zig-scheduler/rollback-proof/v1")) (context ++ ".schema unsupported") ;;;
  require (py_eq (get data "scenario_id") (JStr scenario)) (context ++ ".scenario_id must match row") ;;;
  let* _ := text (get data "status") (context ++ ".status") in
  let* _ := text (get data "scheduler_state") (context ++ ".scheduler_state") in
  let* _ := text (get data "ops") (context ++ ".ops") in
  require (is_false (get data "host_mutation")) (context ++ ".host_mutation must be false") ;;;
  reject_private (JDict data) context.

Definition validate_cleanup_artifact (data : jobject) (scenario outcome context : string) : result unit :=
  require_only_fields data CLEANUP_PROOF_FIELDS context ;;;
  require (py_eq (get data "schema") (JStr "zig-scheduler/cleanup-proof/v1")) (context ++ ".schema unsupported") ;;;
  require (py_eq (get data "scenario_id") (JStr scenario)) (context ++ ".scenario_id must match row") ;;;
  let* _ := text (get data "status") (context ++ ".status") in
  for_each ["owned_qemu_leftovers"; "owned_temp_leftovers"; "host_mutation"] (fun field =>
    require (is_false (get data field)) (context ++ "." ++ field ++ " must be false")) ;;;
  for_each ["qemu_scan_before"; "qemu_scan_after"; "temp_scan_before"; "temp_scan_after"] (fun field =>
    let* _ := require_safe_path (get data field) (context ++ "." ++ field) in Ok tt) ;;;
  (if negb (String.eqb outcome "FAIL") then
     require (py_eq (get data "status") (JStr "PASS"))
       (context ++ ".status must be PASS unless row outcome is FAIL")
   else Ok tt) ;;;
  reject_private (JDict data) context.

Definition validate_host_refusal_artifact (data : jobject) (scenario context : string) : result unit :=
  require_only_fields data HOST_REFUSAL_FIELDS context ;;;
  require (py_eq (get data "schema") (JStr "zig-scheduler/host-refusal-proof/v1"))
    (context ++ ".schema unsupported") ;;;
  require (py_eq (get data "scenario_id") (JStr scenario)) (context ++ ".scenario_id must match row") ;;;
  require (py_eq (get data "status") (JStr "REFUSE")) (context ++ ".status must be REFUSE") ;;;
  let* _ := text (get data "reason") (context ++ ".reason") in
  for_each ["no_bpf_load_attach"; "no_cgroup_write"; "no_sys_write"; "no_proc_write"] (fun field =>
    require (is_true (get data field)) (context ++ "." ++ field ++ " must be true")) ;;;
  require (is_false (get data "host_mutation")) (context ++ ".host_mutation must be false") ;;;
  reject_private (JDict data) context.

(** The loop state of [validate_manifest]. *)
Record seen : Set := Seen { seen_scenarios : gset string; seen_artifacts : gset string }.

(** What the loop of [validate_manifest] reads from the manifest. *)
Record header : Set := Header {
  manifest_run_id : string;
  manifest_mode : string;
  fixture_mode : bool;
}.

Section Manifest.
Variable F : fs.

(** ** qa/matrix_run_live_backend.py *)
Definition validate_live_backend_summary_consistency (row : jobject) (artifact_path : path) (context : string)
    : result unit :=
  let* scenario := text (get row "scenario_id") (context ++ ".scenario_id") in
  if negb (String.eqb scenario "live-backend") then Ok tt else
  let* outcome := text (get row "outcome") (context ++ ".outcome") in
  let* evidence_mode := text (get row "evidence_mode") (context ++ ".evidence_mode") in
  if negb (String.eqb outcome "PASS") || negb (String.eqb evidence_mode "vm-live") then Ok tt else
  let backend_summary_path := div_path (div_path (parent artifact_path) "backend") "summary.json" in
  require (is_file F backend_summary_path)
    (context ++ " live-backend PASS row is missing backend summary artifact") ;;;
  let* backend_summary := load_json F backend_summary_path in
  let* schema := text (get backend_summary "schema") (context ++ ".backend_summary.schema") in
  require (String.eqb schema "zig-scheduler/vm-backend-run/v1")
    (context ++ " backend summary schema must be vm-backend-run/v1") ;;;
  let* status := text (get backend_summary "status") (context ++ ".backend_summary.status") in
  require (String.eqb status "PASS") (context ++ " backend summary must be PASS") ;;;
  require (is_false (get backend_summary "host_mutation"))
    (context ++ " backend summary host_mutation must be false") ;;;
  let* live_summary_value :=
    match get backend_summary "live_summary" with
    | JStr s => if String.eqb s ""
                then fail (context ++ " live-backend PASS row requires backend/live/summary.json live summary path")
                else Ok s
    | _ => fail (context ++ " live-backend PASS row requires backend/live/summary.json live summary path")
    end in
  let live_summary_path := Path live_summary_value in
  let expected_live_summary_path := div_path (div_path (parent backend_summary_path) "live") "summary.json" in
  require (path_eqb live_summary_path expected_live_summary_path)
    (context ++ " live summary must point to the canonical backend/live/summary.json bundle") ;;;
  require (is_file F live_summary_path)
    (context ++ " live summary bundle is missing: " ++ path_str live_summary_path) ;;;
  let* live_summary := load_json F live_summary_path in
  (if is_true (get live_summary "git_dirty") then
     require (negb (String.eqb outcome "PASS") && negb (String.eqb evidence_mode "vm-live"))
       (context ++ " dirty live backend summary cannot back a PASS vm-live matrix row")
   else Ok tt) ;;;
  let* git := obj (get row "git") (context ++ ".git") in
  let* actual_sha := text (get git "actual_sha") (context ++ ".git.actual_sha") in
  (match get live_summary "git_sha" with
   | JStr live_git_sha =>
       if negb (String.eqb live_git_sha "") && negb (startswith live_git_sha actual_sha) then
         require (negb (String.eqb outcome "PASS") && negb (String.eqb evidence_mode "vm-live"))
           (context ++ " stale live backend summary cannot back a PASS vm-live matrix row")
       else Ok tt
   | _ => Ok tt
   end) ;;;
  if String.eqb outcome "PASS" && String.eqb evidence_mode "vm-live" then
    reraise LiveBehaviorError MatrixRunContractError
      (fun exc => context ++ " live backend summary failed nested live behavior validation: " ++ exn_str exc)
      (LiveBehavior.validate_bundle F live_summary_path)
  else Ok tt.

(** ** qa/matrix_run_manifest_validate.py *)
Definition validate_manifest_daemon_events (p manifest_root : path) (context : string) : result unit :=
  require_descendant p manifest_root context ;;;
  reraise ContractError MatrixRunContractError
    (fun exc => context ++ " invalid daemon event stream: " ++ exn_str exc)
    (DaemonEvent.validate F p false).

Definition validate_manifest_vm_claim (row : jobject) (mode : string) (fixture_mode : bool)
    (manifest_root : path) (context : string) : result unit :=
  let* marker := obj (get row "vm_marker") (context ++ ".vm_marker") in
  let* marker_required := bool_field (get marker "required") (context ++ ".vm_marker.required") in
  let* marker_present := bool_field (get marker "present") (context ++ ".vm_marker.present") in
  let* evidence_mode := text (get row "evidence_mode") (context ++ ".evidence_mode") in
  let* outcome := text (get row "outcome") (context ++ ".outcome") in
  let fixture_authorized := fixture_mode && mem mode ["host-safe"; "auto"] in
  (if String.eqb evidence_mode "fixture" then
     require fixture_authorized
       (context ++ " fixture evidence requires explicit fixture_mode=true on a host-safe/auto manifest")
   else Ok tt) ;;;
  (if String.eqb outcome "PASS" && negb fixture_authorized then
     require (String.eqb evidence_mode "vm-live") (context ++ " non-fixture PASS requires vm-live evidence")
   else Ok tt) ;;;
  (if fixture_authorized then
     require (negb marker_present) (context ++ " fixture manifest must not claim VM marker presence") ;;;
     require (negb (String.eqb evidence_mode "vm-live"))
       (context ++ " fixture manifest must not claim vm-live evidence") ;;;
     (if String.eqb outcome "PASS" then
        require (String.eqb evidence_mode "fixture") (context ++ " fixture PASS must use fixture evidence")
      else Ok tt)
   else Ok tt) ;;;
  if String.eqb evidence_mode "vm-live" || marker_present then
    let* raw := require_safe_path (get marker "checked_by") (context ++ ".vm_marker.checked_by") in
    let marker_path := Path raw in
    require_descendant marker_path manifest_root (context ++ ".vm_marker.checked_by") ;;;
    let* data := load_json F marker_path in
    validate_vm_marker_proof data marker_required marker_present evidence_mode (context ++ ".vm_marker.proof")
  else Ok tt.

Definition validate_manifest_runtime_sample (p : path) (context : string) : result unit :=
  reraise RuntimeSampleError MatrixRunContractError
    (fun exc => context ++ " invalid runtime sample artifact: " ++ exn_str exc)
    (RuntimeSample.validate_file F p).

Definition validate_manifest_proof_artifacts (row : jobject) (context : string) : result unit :=
  let* scenario := text (get row "scenario_id") (context ++ ".scenario_id") in
  let* outcome := text (get row "outcome") (context ++ ".outcome") in
  let* p := text (get row "runtime_sample_path") (context ++ ".runtime_sample_path") in
  validate_manifest_runtime_sample (Path p) (context ++ ".runtime_sample_path") ;;;
  let* p := text (get row "incident_path") (context ++ ".incident_path") in
  let* data := load_json F (Path p) in
  validate_incident_artifact data scenario outcome (context ++ ".incident") ;;;
  let* p := text (get row "rollback_proof_path") (context ++ ".rollback_proof_path") in
  let* data := load_json F (Path p) in
  validate_rollback_artifact data scenario (context ++ ".rollback_proof") ;;;
  let* p := text (get row "cleanup_proof_path") (context ++ ".cleanup_proof_path") in
  let* data := load_json F (Path p) in
  validate_cleanup_artifact data scenario outcome (context ++ ".cleanup_proof") ;;;
  let* p := text (get row "host_refusal_proof_path") (context ++ ".host_refusal_proof_path") in
  let* data := load_json F (Path p) in
  validate_host_refusal_artifact data scenario (context ++ ".host_refusal_proof").

Definition validate_manifest_workload_artifacts (row : jobject) (manifest_root spec_path privacy_path : path)
    (context : string) : result unit :=
  let* workload := obj (get row "workload") (context ++ ".workload") in
  let* scenario := text (get row "scenario_id") (context ++ ".scenario_id") in
  let* expected := select_metadata scenario context in
  let* wclass := text (get workload "name") (context ++ ".workload.name") in
  if_expected expected (fun m =>
    require (String.eqb wclass (workload_class m))
      (context ++ ".workload.name must match scenario " ++ scenario ++ " workload class " ++ workload_class m)) ;;;
  let* expected_sha := text (get workload "spec_sha256") (context ++ ".workload.spec_sha256") in
  let* digest := file_sha256 F spec_path in
  require (String.eqb digest expected_sha)
    (context ++ ".workload.spec_sha256 does not match referenced workload spec") ;;;
  let* spec := load_json F spec_path in
  reject_workload_artifact_private (JDict spec) (context ++ ".workload.spec") ;;;
  let* capability_path_value :=
    validate_workload_spec F spec scenario wclass expected (context ++ ".workload.spec") (Some manifest_root) in
  match capability_path_value with
  | None => fail (context ++ ".workload.spec.capability_artifact_path is required in manifest mode")
  | Some capability_path_value =>
      let capability_path := Path capability_path_value in
      require_descendant capability_path manifest_root (context ++ ".workload.spec.capability_artifact_path") ;;;
      let* capability := load_json F capability_path in
      reject_workload_artifact_private (JDict capability) (context ++ ".workload.capability") ;;;
      let* outcome := text (get row "outcome") (context ++ ".outcome") in
      validate_workload_capability capability scenario wclass expected outcome
        (context ++ ".workload.capability") ;;;
      let* privacy_report := load_json F privacy_path in
      reject_workload_artifact_private (JDict privacy_report) (context ++ ".privacy_scan.report") ;;;
      validate_privacy_report privacy_report (context ++ ".privacy_scan.report")
  end.

(** [require_descendant(Path(require_safe_path(value, here)), manifest_root, here)] *)
Definition safe_under (value : json) (manifest_root : path) (here : string) : result path :=
  let* raw := require_safe_path value here in
  require_descendant (Path raw) manifest_root here ;;;
  Ok (Path raw).

Definition validate_manifest_row_paths (row : jobject) (manifest_root : path) (context : string) : result unit :=
  let* daemon_event_path := safe_under (get row "daemon_event_path") manifest_root
                              (context ++ ".daemon_event_path") in
  validate_manifest_daemon_events daemon_event_path manifest_root (context ++ ".daemon_event_path") ;;;
  for_each PATH_FIELDS (fun field =>
    let* _ := safe_under (get row field) manifest_root (context ++ "." ++ field) in Ok tt) ;;;
  let* policy := obj (get row "policy") (context ++ ".policy") in
  let* _ := safe_under (get policy "object_path") manifest_root (context ++ ".policy.object_path") in
  let* workload := obj (get row "workload") (context ++ ".workload") in
  let* spec_path := safe_under (get workload "spec_path") manifest_root (context ++ ".workload.spec_path") in
  let* privacy := obj (get row "privacy_scan") (context ++ ".privacy_scan") in
  let* privacy_path := safe_under (get privacy "report_path") manifest_root
                         (context ++ ".privacy_scan.report_path") in
  validate_manifest_workload_artifacts row manifest_root spec_path privacy_path context ;;;
  validate_manifest_proof_artifacts row context.

(** One iteration of the loop of [validate_manifest]. *)
Definition manifest_step (manifest_path manifest_root : path) (h : header) (index : nat) (raw_row : json)
    (st : seen) : result seen :=
  let here := path_str manifest_path ++ ".rows[" ++ str_nat index ++ "]" in
  let* manifest_row := obj raw_row here in
  require_only_fields manifest_row MANIFEST_ROW_FIELDS here ;;;
  let* scenario := text (get manifest_row "scenario_id") (here ++ ".scenario_id") in
  require (re_fullmatch ID_RE scenario) (here ++ ".scenario_id is not a stable identifier") ;;;
  require (negb (bool_decide (scenario ∈ seen_scenarios st))) (here ++ ".scenario_id duplicates an earlier row") ;;;
  let* raw := require_safe_path (get manifest_row "artifact_path") (here ++ ".artifact_path") in
  let artifact_path := Path raw in
  let artifact_key := path_str artifact_path in
  require (negb (bool_decide (artifact_key ∈ seen_artifacts st)))
    (here ++ ".artifact_path duplicates an earlier row") ;;;
  require_descendant artifact_path manifest_root (here ++ ".artifact_path") ;;;
  require (String.eqb (name artifact_path) "matrix-run.json")
    (here ++ ".artifact_path must point to matrix-run.json") ;;;
  let* row := load_json F artifact_path in
  validate_row row artifact_key ;;;
  validate_manifest_row_paths row manifest_root artifact_key ;;;
  validate_manifest_vm_claim row (manifest_mode h) (fixture_mode h) manifest_root artifact_key ;;;
  validate_live_backend_summary_consistency row artifact_path artifact_key ;;;
  require (py_eq (get row "matrix_run_id") (JStr (manifest_run_id h)))
    (artifact_key ++ ".matrix_run_id must match manifest") ;;;
  require (py_eq (get manifest_row "scenario_id") (get row "scenario_id")) (here ++ ".scenario_id mismatch") ;;;
  require (py_eq (get manifest_row "outcome") (get row "outcome")) (here ++ ".outcome mismatch") ;;;
  Ok (Seen ({[scenario]} ∪ seen_scenarios st) ({[artifact_key]} ∪ seen_artifacts st)).

Definition validate_manifest (manifest_path : path) : result (nat * nat) :=
  let here := path_str manifest_path in
  let* manifest_root := require_manifest_root manifest_path in
  let* manifest := load_json F manifest_path in
  require_only_fields manifest MANIFEST_FIELDS here ;;;
  require (py_eq (get manifest "schema") (JStr "zig-scheduler/vm-harness-matrix-index/v1"))
    (here ++ ".schema unsupported") ;;;
  require (is_false (get manifest "host_mutation")) (here ++ ".host_mutation must be false") ;;;
  require (is_false (get manifest "release_eligible")) (here ++ ".release_eligible must be false") ;;;
  let* run_id := text (get manifest "matrix_run_id") (here ++ ".matrix_run_id") in
  require (re_fullmatch RUN_ID_RE run_id)
    (here ++ ".matrix_run_id must be 1-" ++ str_nat RUN_ID_MAX ++ " safe characters") ;;;
  require (String.eqb run_id (name manifest_root))
    (here ++ ".matrix_run_id must equal out_dir basename " ++ name manifest_root) ;;;
  let* out_dir := require_safe_path (get manifest "out_dir") (here ++ ".out_dir") in
  require (path_eqb (Path out_dir) manifest_root) (here ++ ".out_dir must match manifest directory") ;;;
  let* daemon_events_path := safe_under (get manifest "daemon_events_path") manifest_root
                               (here ++ ".daemon_events_path") in
  let* mode := text (get manifest "mode") (here ++ ".mode") in
  let* fixture_mode := bool_field (get manifest "fixture_mode") (here ++ ".fixture_mode") in
  let* _ := text (get manifest "started_at") (here ++ ".started_at") in
  let* _ := text (get manifest "ended_at") (here ++ ".ended_at") in
  match get manifest "rows" with
  | JList rows =>
      require (py_eq (get manifest "row_count") (JInt (Z.of_nat (List.length rows))))
        (here ++ ".row_count must match rows length") ;;;
      validate_manifest_daemon_events daemon_events_path manifest_root (here ++ ".daemon_events_path") ;;;
      let* _ := for_fold 0 rows (Seen ∅ ∅)
                  (manifest_step manifest_path manifest_root (Header run_id mode fixture_mode)) in
      Ok (List.length rows, 0)
  | _ => fail (here ++ ".rows must be a list")
  end.

(** ** qa/matrix_run_contract_check.py *)

(** [parse_args] behind argparse: exactly one of the two inputs. *)
Definition parse_args (fixtures manifest : option path) (schemas docs : path) : result Args :=
  if Bool.eqb (match fixtures with None => true | _ => false end) (match manifest with None => true | _ => false end)
  then fail "exactly one of --fixtures or --manifest is required"
  else Ok (MkArgs fixtures schemas docs manifest).

Definition validate (args : Args) : result (nat * nat) :=
  validate_schema_file F (schemas args) ;;;
  validate_docs F (docs args) ;;;
  match manifest args with
  | Some p => validate_manifest p
  | None =>
      match fixtures args with
      | None => fail "internal argument parser error"
      | Some p => validate_fixture_pack F p
      end
  end.

(** [run], without the self-test. *)
Definition run (fixtures_arg manifest_arg : option path) (schemas_arg docs_arg : path) : result (list string) :=
  let* args := parse_args fixtures_arg manifest_arg schemas_arg docs_arg in
  let* (valid_count, invalid_count) := validate args in
  let path_or_none p := match p with Some p => path_str p | None => "None" end in
  match manifest args with
  | Some p => Ok ["PASS matrix-run contract: manifest=" ++ path_str p ++ " valid=" ++ str_nat valid_count
                    ++ " docs=" ++ path_str (docs args)]
  | None => Ok ["PASS matrix-run contract: fixtures=" ++ path_or_none (fixtures args) ++ " valid="
                  ++ str_nat valid_count ++ " invalid=" ++ str_nat invalid_count ++ " docs="
                  ++ path_str (docs args)]
  end.

(** The handlers of [main].  A RecursionError of an artifact that is nested too
    deeply for the interpreter would escape them; the recursion limit is not
    modelled. *)
Definition main (fixtures_arg manifest_arg : option path) (schemas_arg docs_arg : path) : exit :=
  run_main (fun c => is_OSError c || is_UnicodeError c || is_class MatrixRunContractError c)
    "FAIL matrix-run contract" (run fixtures_arg manifest_arg schemas_arg docs_arg).
End Manifest.
