(* ===== verification/MatrixProof.v ===== *)
(** MatrixProof: what the manifest checks of MatrixManifest accept, as
    declarative predicates: the proof artifacts of a row, the claim a row makes
    about the VM, the artifacts it refers to, the live bundle behind it, and the
    manifest around the rows. *)
From S2P Require Import Prelude PyStr PyRe PyFloat PyJson Sha256 PyFs PyMain.
From S2P Require Import DaemonEvent RuntimeSample LiveBehavior.
From S2P Require Import MatrixModel MatrixWorkload MatrixRow MatrixManifest.

Local Open Scope string_scope.

(** ** The proof artifacts of a row *)
Definition clean_object (d : jobject) : Prop :=
  Clean (no_needle PRIVATE_NEEDLES) (safe_text PRIVATE_NEEDLES) (JDict d).

(** The marker file repeats the two flags of the row, which must be true:
    only a live run has a marker proof. *)
Record marker_proof_ok (d : jobject) (required present : bool) (mode : string) : Prop := {
  mp_fields : only_fields d VM_MARKER_PROOF_FIELDS;
  mp_schema : get d "schema" = JStr "zig-scheduler/vm-marker-proof/v1";
  mp_path : get d "path" = JStr VM_MARKER;
  mp_required : py_eq (get d "required") (JBool required) = true;
  mp_present : py_eq (get d "present") (JBool present) = true;
  mp_mode : get d "evidence_mode" = JStr mode;
  mp_live : required = true /\ present = true /\ mode = "vm-live";
  mp_host : get d "host_mutation" = JBool false;
}.

Record incident_ok (scenario outcome : string) (d : jobject) : Prop := {
  in_fields : only_fields d INCIDENT_FIELDS;
  in_schema : get d "schema" = JStr "zig-scheduler/matrix-incident/v1";
  in_scenario : get d "scenario_id" = JStr scenario;
  in_outcome : get d "outcome" = JStr outcome;
  in_reason : text_field d "reason";
  in_host : get d "host_mutation" = JBool false;
  in_release : get d "release_eligible" = JBool false;
  in_clean : clean_object d;
}.

Record rollback_ok (scenario : string) (d : jobject) : Prop := {
  rb_fields : only_fields d ROLLBACK_PROOF_FIELDS;
  rb_schema : get d "schema" = JStr "zig-scheduler/rollback-proof/v1";
  rb_scenario : get d "scenario_id" = JStr scenario;
  rb_texts : text_field d "status" /\ text_field d "scheduler_state" /\ text_field d "ops";
  rb_host : get d "host_mutation" = JBool false;
  rb_clean : clean_object d;
}.

(** Nothing owned by the run is left, and the cleanup passed unless the row failed. *)
Record cleanup_ok (scenario outcome : string) (d : jobject) : Prop := {
  cl_fields : only_fields d CLEANUP_PROOF_FIELDS;
  cl_schema : get d "schema" = JStr "zig-scheduler/cleanup-proof/v1";
  cl_scenario : get d "scenario_id" = JStr scenario;
  cl_status : text_field d "status" /\ (outcome <> "FAIL" -> get d "status" = JStr "PASS");
  cl_leftovers : get d "owned_qemu_leftovers" = JBool false /\ get d "owned_temp_leftovers" = JBool false;
  cl_host : get d "host_mutation" = JBool false;
  cl_scans : path_field d "qemu_scan_before" /\ path_field d "qemu_scan_after"
             /\ path_field d "temp_scan_before" /\ path_field d "temp_scan_after";
  cl_clean : clean_object d;
}.

Record refusal_ok (scenario : string) (d : jobject) : Prop := {
  rf_fields : only_fields d HOST_REFUSAL_FIELDS;
  rf_schema : get d "schema" = JStr "zig-scheduler/host-refusal-proof/v1";
  rf_scenario : get d "scenario_id" = JStr scenario;
  rf_status : get d "status" = JStr "REFUSE";
  rf_reason : text_field d "reason";
  rf_untouched : get d "no_bpf_load_attach" = JBool true /\ get d "no_cgroup_write" = JBool true
                 /\ get d "no_sys_write" = JBool true /\ get d "no_proc_write" = JBool true;
  rf_host : get d "host_mutation" = JBool false;
  rf_clean : clean_object d;
}.

(** The artifact a field of the row names holds an object that satisfies [P]. *)
Definition names_artifact (F : fs) (P : jobject -> Prop) (row : jobject) (field : string) : Prop :=
  exists s d, get row field = JStr s /\ s <> "" /\ load_json F (Path s) = Ok d /\ P d.

Record proofs_ok (F : fs) (row : jobject) (scenario outcome : string) : Prop := {
  pf_sample : exists s, get row "runtime_sample_path" = JStr s /\ s <> ""
                        /\ RuntimeSample.validate_file F (Path s) = Ok tt;
  pf_incident : names_artifact F (incident_ok scenario outcome) row "incident_path";
  pf_rollback : names_artifact F (rollback_ok scenario) row "rollback_proof_path";
  pf_cleanup : names_artifact F (cleanup_ok scenario outcome) row "cleanup_proof_path";
  pf_refusal : names_artifact F (refusal_ok scenario) row "host_refusal_proof_path";
}.

(** ** The claim a row makes about the VM *)

(** A value is a safe relative path at or below [root]. *)
Definition under (root : path) (v : json) (p : path) : Prop :=
  exists s, safe_path_text v s /\ p = Path s /\ below root p.

(** Fixture evidence counts only where the manifest declares itself a fixture
    on a host-safe mode. *)
Definition authorized (mode : string) (fixture_mode : bool) : Prop :=
  fixture_mode = true /\ In mode ["host-safe"; "auto"].

Definition marker_file_ok (F : fs) (root : path) (marker : jobject) (required present : bool) (evidence : string)
    : Prop :=
  exists p d, under root (get marker "checked_by") p /\ load_json F p = Ok d
              /\ marker_proof_ok d required present evidence.

(** The table of admissible claims: on a fixture manifest no row claims the VM
    and a PASS is a fixture PASS; on any other manifest no row is a fixture and
    a PASS is live; a live or marked row has a marker proof in the run. *)
Record claim_ok (F : fs) (root : path) (marker : jobject) (mode : string) (fixture_mode : bool)
    (evidence outcome : string) (required present : bool) : Prop := {
  ck_fixture : evidence = "fixture" -> authorized mode fixture_mode;
  ck_authorized : authorized mode fixture_mode ->
    present = false /\ evidence <> "vm-live" /\ (outcome = "PASS" -> evidence = "fixture");
  ck_pass : outcome = "PASS" -> authorized mode fixture_mode \/ evidence = "vm-live";
  ck_marker : evidence = "vm-live" \/ present = true -> marker_file_ok F root marker required present evidence;
}.

(** The claim of a row that names its marker, its evidence mode and its outcome. *)
Definition row_claim_ok (F : fs) (root : path) (row : jobject) (mode : string) (fixture_mode : bool) : Prop :=
  exists marker required present evidence outcome,
    get row "vm_marker" = JDict marker
    /\ get marker "required" = JBool required /\ get marker "present" = JBool present
    /\ (get row "evidence_mode" = JStr evidence /\ evidence <> "")
    /\ (get row "outcome" = JStr outcome /\ outcome <> "")
    /\ claim_ok F root marker mode fixture_mode evidence outcome required present.

(** ** The artifacts a row refers to *)
Definition clean_artifact (d : jobject) : Prop :=
  Clean (no_needle WORKLOAD_PRIVATE_NEEDLES) (safe_text WORKLOAD_PRIVATE_NEEDLES) (JDict d).

(** The workload of a row: the class of its scenario, a spec with the stated
    digest, a capability artifact of the run and a privacy report, none of them
    private. *)
Record workload_artifacts_ok (F : fs) (root : path) (workload : jobject) (spec_path privacy_path : path)
    (scenario outcome : string) : Prop := {
  wa_canonical : startswith scenario "workload-" = true -> expected_workload_metadata scenario <> None;
  wa_artifacts : exists wclass digest spec capability_path capability report,
    let expected := expected_workload_metadata scenario in
    get workload "name" = JStr wclass /\ wclass <> ""
    /\ (forall m, expected = Some m -> wclass = workload_class m)
    /\ get workload "spec_sha256" = JStr digest /\ digest <> "" /\ file_digest F spec_path digest
    /\ load_json F spec_path = Ok spec /\ clean_artifact spec
    /\ spec_ok F (Some root) spec scenario wclass expected
    /\ under root (get spec "capability_artifact_path") capability_path
    /\ load_json F capability_path = Ok capability /\ clean_artifact capability
    /\ capability_ok capability scenario wclass expected outcome
    /\ load_json F privacy_path = Ok report /\ clean_artifact report /\ privacy_report_ok report;
}.

(** Everything a row refers to lies in the run, and is what the row says it is. *)
Record row_paths_ok (F : fs) (root : path) (row : jobject) (scenario outcome : string) : Prop := {
  rp_events : exists p, under root (get row "daemon_event_path") p /\ stream_ok F p false;
  rp_fields : forall field, In field PATH_FIELDS -> exists p, under root (get row field) p;
  rp_policy : exists policy p, get row "policy" = JDict policy /\ under root (get policy "object_path") p;
  rp_workload : exists workload spec_path privacy privacy_path,
    get row "workload" = JDict workload /\ under root (get workload "spec_path") spec_path
    /\ get row "privacy_scan" = JDict privacy /\ under root (get privacy "report_path") privacy_path
    /\ workload_artifacts_ok F root workload spec_path privacy_path scenario outcome;
  rp_proofs : proofs_ok F row scenario outcome;
}.

(** The bundle a live pass of the live-backend scenario stands on: the summary of
    the backend run next to the row, and the live run it names, which has to be
    clean, of the commit of the row, and a valid live bundle. *)
Record live_backend_ok (F : fs) (row : jobject) (artifact_path : path) : Prop := {
  lb_backend : exists backend live git s sha,
    let summary := div_path (div_path (parent artifact_path) "backend") "summary.json" in
    is_file F summary = true /\ load_json F summary = Ok backend
    /\ get backend "schema" = JStr "zig-scheduler/vm-backend-run/v1" /\ get backend "status" = JStr "PASS"
    /\ get backend "host_mutation" = JBool false
    /\ get backend "live_summary" = JStr s /\ s <> ""
    /\ Path s = div_path (div_path (parent summary) "live") "summary.json"
    /\ is_file F (Path s) = true /\ load_json F (Path s) = Ok live
    /\ get live "git_dirty" <> JBool true
    /\ get row "git" = JDict git /\ get git "actual_sha" = JStr sha /\ sha <> ""
    /\ (forall t, get live "git_sha" = JStr t -> t <> "" -> startswith t sha = true)
    /\ live_bundle_ok F (Path s);
}.

(** ** The manifest *)

(** What one row of the manifest has to be: [k] is its scenario and the text of
    its artifact path. *)
Record manifest_row_ok (F : fs) (root : path) (h : header) (raw_row : json) (k : string * string) : Prop := {
  mr_row : exists d p row outcome mode,
    raw_row = JDict d /\ only_fields d MANIFEST_ROW_FIELDS
    /\ get d "scenario_id" = JStr (fst k) /\ 1 <= len (fst k) <= 96 /\ all_chars is_ident_char (fst k) = true
    /\ under root (get d "artifact_path") p /\ snd k = path_str p /\ name p = "matrix-run.json"
    /\ load_json F p = Ok row
    /\ row_ok row outcome mode (fst k) /\ get d "outcome" = JStr outcome
    /\ get row "matrix_run_id" = JStr (manifest_run_id h)
    /\ row_paths_ok F root row (fst k) outcome
    /\ row_claim_ok F root row (manifest_mode h) (fixture_mode h)
    /\ (fst k = "live-backend" -> outcome = "PASS" -> mode = "vm-live" -> live_backend_ok F row p);
}.

(** The parts of the manifest around its rows. *)
Record manifest_ok (F : fs) (manifest_path root : path) (h : header) (rows : list json) : Prop := {
  mo_root : require_manifest_root manifest_path = Ok root;
  mo_file : exists d events,
    load_json F manifest_path = Ok d /\ only_fields d MANIFEST_FIELDS
    /\ get d "schema" = JStr "zig-scheduler/vm-harness-matrix-index/v1"
    /\ get d "host_mutation" = JBool false /\ get d "release_eligible" = JBool false
    /\ get d "matrix_run_id" = JStr (manifest_run_id h) /\ manifest_run_id h = name root
    /\ under root (get d "out_dir") root
    /\ under root (get d "daemon_events_path") events /\ stream_ok F events false
    /\ get d "mode" = JStr (manifest_mode h) /\ manifest_mode h <> ""
    /\ get d "fixture_mode" = JBool (fixture_mode h)
    /\ text_field d "started_at" /\ text_field d "ended_at"
    /\ get d "rows" = JList rows
    /\ py_eq (get d "row_count") (JInt (Z.of_nat (length rows))) = true;
}.

Definition seen_of (s : gset string * gset string) : seen := Seen (fst s) (snd s).

(** * Lemmas *)
Lemma seq_text_ok {B} d f context (k : result B) b :
  bind (text (get d f) context) (fun _ => k) = Ok b <-> text_field d f /\ k = Ok b.
Proof.
  unfold text_field. rewrite bind_ok. setoid_rewrite text_ok. naive_solver.
Qed.

(** A sequence of tests is [Ok] exactly when each one holds. *)
Ltac sequence_ok :=
  repeat first [ rewrite bind_ok_unit | rewrite seq_text_ok | rewrite path_field_ok
               | rewrite for_each_ok, ?Forall_cons, Forall_nil
               | rewrite require_only_fields_ok | rewrite reject_private_ok
               | rewrite require_ok | rewrite py_eq_str | rewrite is_false_iff | rewrite is_true_iff
               | rewrite String.eqb_eq | rewrite andb_true_iff ].
Ltac as_record := split; [intros H; destruct_and? H; split; tauto | intros []; tauto].

Lemma validate_vm_marker_proof_ok d required present mode context :
  validate_vm_marker_proof d required present mode context = Ok tt <-> marker_proof_ok d required present mode.
Proof. unfold validate_vm_marker_proof. sequence_ok. as_record. Qed.

Lemma validate_incident_ok d scenario outcome context :
  validate_incident_artifact d scenario outcome context = Ok tt <-> incident_ok scenario outcome d.
Proof. unfold validate_incident_artifact. sequence_ok. as_record. Qed.

Lemma validate_rollback_ok d scenario context :
  validate_rollback_artifact d scenario context = Ok tt <-> rollback_ok scenario d.
Proof. unfold validate_rollback_artifact. sequence_ok. as_record. Qed.

Lemma validate_cleanup_ok d scenario outcome context :
  validate_cleanup_artifact d scenario outcome context = Ok tt <-> cleanup_ok scenario outcome d.
Proof.
  unfold validate_cleanup_artifact. destruct (String.eqb_spec outcome "FAIL"); simpl negb; cbv iota; sequence_ok; as_record.
Qed.

Lemma validate_refusal_ok d scenario context :
  validate_host_refusal_artifact d scenario context = Ok tt <-> refusal_ok scenario d.
Proof. unfold validate_host_refusal_artifact. sequence_ok. as_record. Qed.

Lemma names_artifact_ok F P row field context (check : jobject -> result unit) (k : result unit) :
  (forall d, check d = Ok tt <-> P d) ->
  (let* p := text (get row field) context in
   let* d := load_json F (Path p) in check d ;;; k) = Ok tt <-> names_artifact F P row field /\ k = Ok tt.
Proof.
  intros H. unfold names_artifact. split.
  - intros (s & [Hs Hne]%text_ok & (d & Hd & (Hc%H & Hk)%bind_ok_unit)%bind_ok)%bind_ok.
    split; [by exists s, d | done].
  - intros [(s & d & Hs & Hne & Hd & Hc%H) Hk]. run_ok; [by apply text_ok | done | done | done].
Qed.

Lemma proofs_accepted F row context :
  validate_manifest_proof_artifacts F row context = Ok tt <->
  exists scenario outcome, (get row "scenario_id" = JStr scenario /\ scenario <> "")
    /\ (get row "outcome" = JStr outcome /\ outcome <> "") /\ proofs_ok F row scenario outcome.
Proof.
  unfold validate_manifest_proof_artifacts, validate_manifest_runtime_sample. split.
  - intros (sc & Hsc%text_ok & (o & Ho%text_ok & (s & [Hs Hne]%text_ok & H)%bind_ok)%bind_ok)%bind_ok.
    exists sc, o. split; [done|]. split; [done|].
    apply bind_ok_unit in H as [Hsample%reraise_ok H].
    apply (names_artifact_ok F (incident_ok sc o)) in H as [Hi H]; [|intros; apply validate_incident_ok].
    apply (names_artifact_ok F (rollback_ok sc)) in H as [Hr H]; [|intros; apply validate_rollback_ok].
    apply (names_artifact_ok F (cleanup_ok sc o)) in H as [Hc H]; [|intros; apply validate_cleanup_ok].
    split; try done; [by exists s|].
    apply bind_ok in H as (q & [Hq Hq']%text_ok & (d & Hd & Hk%validate_refusal_ok)%bind_ok). by exists q, d.
  - intros (sc & o & Hsc & Ho & [(s & Hs & Hne & Hsample) Hi Hr Hc (q & d & Hq & Hq' & Hd & Hk)]).
    apply bind_ok. exists sc. rewrite text_ok. split; [done|].
    apply bind_ok. exists o. rewrite text_ok. split; [done|].
    apply bind_ok. exists s. rewrite text_ok. split; [done|].
    apply bind_ok_unit. split; [by apply reraise_ok|].
    apply (names_artifact_ok F (incident_ok sc o)); [intros; apply validate_incident_ok | split; [done|]].
    apply (names_artifact_ok F (rollback_ok sc)); [intros; apply validate_rollback_ok | split; [done|]].
    apply (names_artifact_ok F (cleanup_ok sc o)); [intros; apply validate_cleanup_ok | split; [done|]].
    run_ok; [by apply text_ok | exact Hd | by apply validate_refusal_ok].
Qed.

Lemma safe_under_ok v root context p : safe_under v root context = Ok p <-> under root v p.
Proof.
  unfold safe_under, under. rewrite bind_ok. setoid_rewrite require_safe_path_ok.
  setoid_rewrite bind_ok_unit. setoid_rewrite require_descendant_ok. setoid_rewrite Ok_inj. naive_solver.
Qed.

Lemma authorized_iff mode fixture_mode :
  fixture_mode && mem mode ["host-safe"; "auto"] = true <-> authorized mode fixture_mode.
Proof. by rewrite andb_true_iff, mem_In. Qed.

Lemma marker_step_ok F root marker required present evidence context :
  (if String.eqb evidence "vm-live" || present then
     let* raw := require_safe_path (get marker "checked_by") (context ++ ".vm_marker.checked_by") in
     let marker_path := Path raw in
     require_descendant marker_path root (context ++ ".vm_marker.checked_by") ;;;
     let* data := load_json F marker_path in
     validate_vm_marker_proof data required present evidence (context ++ ".vm_marker.proof")
   else Ok tt) = Ok tt <->
  (evidence = "vm-live" \/ present = true -> marker_file_ok F root marker required present evidence).
Proof.
  rewrite <- String.eqb_eq. destruct (String.eqb evidence "vm-live" || present) eqn:E.
  - apply orb_true_iff in E. rewrite bind_ok. setoid_rewrite require_safe_path_ok. split.
    + intros (raw & Hraw & (Hb%require_descendant_ok & (d & Hd & Hp%validate_vm_marker_proof_ok)%bind_ok)%bind_ok_unit) _.
      exists (Path raw), d. split; [by exists raw | done].
    + intros (p & d & (raw & Hraw & -> & Hb) & Hd & Hp)%(fun H => H E). exists raw. split; [done|].
      apply bind_ok_unit. split; [by apply require_descendant_ok|].
      apply bind_ok. exists d. split; [done | by apply validate_vm_marker_proof_ok].
  - apply orb_false_iff in E as [E1 E2]. split; [|done]. intros _ [?|?]; congruence.
Qed.

Lemma claim_step_ok F root marker mode fixture_mode evidence outcome required present :
  claim_ok F root marker mode fixture_mode evidence outcome required present <->
  let auth := fixture_mode && mem mode ["host-safe"; "auto"] in
  (evidence = "fixture" -> auth = true)
  /\ (outcome = "PASS" -> auth = false -> evidence = "vm-live")
  /\ (auth = true -> present = false /\ evidence <> "vm-live" /\ (outcome = "PASS" -> evidence = "fixture"))
  /\ (evidence = "vm-live" \/ present = true -> marker_file_ok F root marker required present evidence).
Proof.
  cbv zeta. rewrite <- not_true_iff_false, authorized_iff. split.
  - intros [H1 H2 H3 H4]. split; [done|]. split; [|done]. intros Ho Hn. by destruct (H3 Ho).
  - intros (H1 & H2 & H3 & H4). split; try done. intros Ho.
    destruct (fixture_mode && mem mode ["host-safe"; "auto"]) eqn:E; [left; by apply authorized_iff|].
    right. apply H2; [done|]. rewrite <- authorized_iff. congruence.
Qed.

Lemma when_ok (b : bool) (m : result unit) : (if b then m else Ok tt) = Ok tt <-> (b = true -> m = Ok tt).
Proof. destruct b; naive_solver. Qed.

Lemma row_claim_accepted F row mode fixture_mode root context :
  validate_manifest_vm_claim F row mode fixture_mode root context = Ok tt <->
  row_claim_ok F root row mode fixture_mode.
Proof.
  unfold validate_manifest_vm_claim, row_claim_ok. cbv zeta.
  rewrite bind_ok. setoid_rewrite obj_ok. split.
  - intros (m & Hm & (r & Hr%bool_field_ok & (p & Hp%bool_field_ok & (e & He%text_ok
      & (o & Ho%text_ok & H)%bind_ok)%bind_ok)%bind_ok)%bind_ok).
    exists m, r, p, e, o. repeat (split; [done|]). apply claim_step_ok.
    rewrite !bind_ok_unit, marker_step_ok, !when_ok in H. revert H. cbv zeta.
    rewrite !bind_ok_unit, !when_ok, !require_ok, (andb_true_iff (String.eqb o "PASS")), !negb_true_iff, !String.eqb_eq,
      String.eqb_neq.
    tauto.
  - intros (m & r & p & e & o & Hm & Hr & Hp & He & Ho & H%claim_step_ok). cbv zeta in H. exists m. split; [done|].
    apply bind_ok. exists r. rewrite bool_field_ok. split; [done|].
    apply bind_ok. exists p. rewrite bool_field_ok. split; [done|].
    apply bind_ok. exists e. rewrite text_ok. split; [done|].
    apply bind_ok. exists o. rewrite text_ok. split; [done|].
    rewrite !bind_ok_unit, marker_step_ok, !when_ok. revert H. cbv zeta.
    rewrite !bind_ok_unit, !when_ok, !require_ok, (andb_true_iff (String.eqb o "PASS")), !negb_true_iff, !String.eqb_eq,
      String.eqb_neq.
    tauto.
Qed.

(** ** The artifacts of a row *)
Lemma validate_events_ok F p root context :
  validate_manifest_daemon_events F p root context = Ok tt <-> below root p /\ stream_ok F p false.
Proof.
  unfold validate_manifest_daemon_events. by rewrite bind_ok_unit, require_descendant_ok, reraise_ok, stream_accepted.
Qed.

Definition says (row : jobject) (field text : string) : Prop := get row field = JStr text /\ text <> "".

Lemma says_inj row field a b : says row field a -> get row field = JStr b -> a = b.
Proof. intros [H _] H'. congruence. Qed.

Lemma workload_artifacts_sound F row root spec_path privacy_path context workload scenario outcome :
  get row "workload" = JDict workload -> says row "scenario_id" scenario -> says row "outcome" outcome ->
  validate_manifest_workload_artifacts F row root spec_path privacy_path context = Ok tt ->
  workload_artifacts_ok F root workload spec_path privacy_path scenario outcome.
Proof.
  intros Hw [Hsc Hscne] [Ho Hone]. unfold validate_manifest_workload_artifacts. rewrite Hw. cbn [obj bind].
  rewrite Hsc, Ho.
  intros (sc & [[= <-] _]%text_ok & H)%bind_ok.
  apply bind_ok in H as (e & [-> Hcan]%select_metadata_ok & H).
  apply bind_ok in H as (wclass & [Hn Hne]%text_ok & H).
  apply bind_ok_unit in H as [Hcls H]. rewrite if_expected_ok in Hcls. setoid_rewrite require_ok in Hcls.
  setoid_rewrite String.eqb_eq in Hcls.
  apply bind_ok in H as (sha & [Hsha Hshane]%text_ok & H).
  apply bind_ok in H as (digest & Hd & H). apply reraise_ok, sha256_of_ok in Hd.
  apply bind_ok_unit in H as [->%require_ok%String.eqb_eq H].
  apply bind_ok in H as (spec & Hspec & H). apply bind_ok_unit in H as [Hc1%reject_workload_ok H].
  apply bind_ok in H as ([cap|] & [Hs Hcap]%spec_accepted & H); [|discriminate H].
  apply bind_ok_unit in H as [Hb%require_descendant_ok H].
  apply bind_ok in H as (capability & Hld & H). apply bind_ok_unit in H as [Hc2%reject_workload_ok H].
  apply bind_ok in H as (o & [[= <-] _]%text_ok & H). apply bind_ok_unit in H as [Hok%capability_accepted H].
  apply bind_ok in H as (report & Hrep & H). apply bind_ok_unit in H as [Hc3%reject_workload_ok H].
  apply privacy_report_accepted in H.
  split; [done|]. exists wclass, sha, spec, (Path cap), capability, report. cbv zeta.
  repeat (split; [done|]). split; [by exists cap; destruct Hcap|]. done.
Qed.

Lemma workload_artifacts_complete F row root spec_path privacy_path context workload scenario outcome :
  get row "workload" = JDict workload -> says row "scenario_id" scenario -> says row "outcome" outcome ->
  workload_artifacts_ok F root workload spec_path privacy_path scenario outcome ->
  validate_manifest_workload_artifacts F row root spec_path privacy_path context = Ok tt.
Proof.
  intros Hw [Hsc Hscne] [Ho Hone]. unfold validate_manifest_workload_artifacts. rewrite Hw. cbn [obj bind].
  rewrite Hsc, Ho.
  intros [Hcan (wclass & sha & spec & cp & capability & report & Hn & Hne & Hcls & Hsha & Hshane & Hd & Hspec & Hc1
    & Hs & (cap & Hcap & -> & Hb) & Hld & Hc2 & Hok & Hrep & Hc3 & Hr)].
  apply bind_ok. exists scenario. split; [by apply text_ok|].
  apply bind_ok. eexists. split; [by apply select_metadata_ok|].
  apply bind_ok. exists wclass. split; [by apply text_ok|].
  apply bind_ok_unit. split; [apply if_expected_ok; intros m Hm; by apply require_ok, String.eqb_eq, Hcls|].
  apply bind_ok. exists sha. split; [by apply text_ok|].
  apply bind_ok. exists sha. split; [by apply reraise_ok, sha256_of_ok|].
  apply bind_ok_unit. split; [by apply require_ok, String.eqb_refl|].
  apply bind_ok. exists spec. split; [done|]. apply bind_ok_unit. split; [by apply reject_workload_ok|].
  apply bind_ok. exists (Some cap). split.
  { apply spec_complete; [done|]. split; [|done]. destruct Hcap as [Hg _]. apply get_not_null. congruence. }
  apply bind_ok_unit. split; [by apply require_descendant_ok|].
  apply bind_ok. exists capability. split; [done|]. apply bind_ok_unit. split; [by apply reject_workload_ok|].
  apply bind_ok. exists outcome. split; [by apply text_ok|].
  apply bind_ok_unit. split; [by apply capability_complete|].
  apply bind_ok. exists report. split; [done|]. apply bind_ok_unit. split; [by apply reject_workload_ok|].
  by apply privacy_report_accepted.
Qed.

Lemma row_paths_accepted F root row context scenario outcome :
  says row "scenario_id" scenario -> says row "outcome" outcome ->
  validate_manifest_row_paths F row root context = Ok tt <-> row_paths_ok F root row scenario outcome.
Proof.
  intros Hsc Ho. unfold validate_manifest_row_paths. split.
  - intros (p & Hp%safe_under_ok & H)%bind_ok. apply bind_ok_unit in H as [[_ Hev]%validate_events_ok H].
    apply bind_ok_unit in H as [Hf H]. rewrite for_each_ok, Forall_forall in Hf. setoid_rewrite list_elem_of_In in Hf.
    apply bind_ok in H as (policy & Hpol%obj_ok & H). apply bind_ok in H as (op & Hop%safe_under_ok & H).
    apply bind_ok in H as (w & Hw%obj_ok & H). apply bind_ok in H as (sp & Hsp%safe_under_ok & H).
    apply bind_ok in H as (pr & Hpr%obj_ok & H). apply bind_ok in H as (pp & Hpp%safe_under_ok & H).
    apply bind_ok_unit in H as [Hart (sc & o & [Hsc' _] & [Ho' _] & H)%proofs_accepted].
    destruct (says_inj _ _ _ _ Hsc Hsc'), (says_inj _ _ _ _ Ho Ho').
    split; [by exists p | | by exists policy, op | exists w, sp, pr, pp | done].
    + intros f (q & Hq%safe_under_ok & _)%Hf%bind_ok. by exists q.
    + repeat (split; [done|]). by eapply workload_artifacts_sound.
  - intros [(p & Hp & Hev) Hf (policy & op & Hpol & Hop) (w & sp & pr & pp & Hw & Hsp & Hpr & Hpp & Hart) Hproofs].
    apply bind_ok. exists p. split; [by apply safe_under_ok|].
    apply bind_ok_unit. split; [apply validate_events_ok; split; [by destruct Hp as (? & _ & -> & ?) | done]|].
    apply bind_ok_unit. split.
    { apply for_each_ok, Forall_forall. intros f (q & Hq)%list_elem_of_In%Hf.
      apply bind_ok. exists q. split; [by apply safe_under_ok | done]. }
    apply bind_ok. exists policy. split; [by apply obj_ok|]. apply bind_ok. exists op. split; [by apply safe_under_ok|].
    apply bind_ok. exists w. split; [by apply obj_ok|]. apply bind_ok. exists sp. split; [by apply safe_under_ok|].
    apply bind_ok. exists pr. split; [by apply obj_ok|]. apply bind_ok. exists pp. split; [by apply safe_under_ok|].
    apply bind_ok_unit. split; [by eapply workload_artifacts_complete|].
    apply proofs_accepted. by exists scenario, outcome.
Qed.

(** ** The live backend of a row *)
Lemma live_name_ok v m s :
  match v with JStr s => if String.eqb s "" then fail m else Ok s | _ => fail m end = Ok s <-> v = JStr s /\ s <> "".
Proof.
  destruct v as [| | | |t| |]; try (split; [discriminate | by intros [[=] _]]).
  destruct (String.eqb_spec t "") as [->|]; [split; [discriminate | by intros [[= <-] ?]]|].
  rewrite Ok_inj. split; [by intros <- | by intros [[= <-] _]].
Qed.
Lemma dirty_ok v m : (if is_true v then require false m else Ok tt) = Ok tt <-> v <> JBool true.
Proof. rewrite <- is_true_iff. destruct (is_true v); [rewrite require_ok|]; split; (done || congruence). Qed.
Lemma stale_sha_ok v sha m :
  match v with
  | JStr t => if negb (String.eqb t "") && negb (startswith t sha) then require false m else Ok tt
  | _ => Ok tt
  end = Ok tt <-> (forall t, v = JStr t -> t <> "" -> startswith t sha = true).
Proof.
  destruct v as [| | | |t| |]; try (split; [intros _ ? [=] | done]).
  destruct (String.eqb_spec t "") as [->|Ht]; cbn [negb andb]; [split; [by intros _ ? [= <-] | done]|].
  destruct (startswith t sha) eqn:E; cbn [negb]; [split; [by intros _ ? [= <-] | done]|].
  rewrite require_ok. split; [discriminate|]. intros H. rewrite (H t) in E by done. discriminate.
Qed.

Lemma live_bound_ok F row p context :
  says row "scenario_id" "live-backend" -> says row "outcome" "PASS" -> says row "evidence_mode" "vm-live" ->
  validate_live_backend_summary_consistency F row p context = Ok tt <-> live_backend_ok F row p.
Proof.
  intros [Hsc _] [Ho _] [Hm _]. unfold validate_live_backend_summary_consistency.
  rewrite Hsc, Ho, Hm. cbn [text bind String.eqb Ascii.eqb Bool.eqb negb orb andb]. split.
  - intros (Hfile%require_ok & H)%bind_ok_unit. apply bind_ok in H as (backend & Hb & H).
    apply bind_ok in H as (sch & [Hs1 _]%text_ok & H). apply bind_ok_unit in H as [->%require_ok%String.eqb_eq H].
    apply bind_ok in H as (st & [Hs2 _]%text_ok & H). apply bind_ok_unit in H as [->%require_ok%String.eqb_eq H].
    apply bind_ok_unit in H as [Hh%require_ok%is_false_iff H].
    apply bind_ok in H as (s & Hs & H). rewrite live_name_ok in Hs. destruct Hs as [Hs Hsne].
    apply bind_ok_unit in H as [Heq%require_ok%path_eqb_eq H]. apply bind_ok_unit in H as [Hlf%require_ok H].
    apply bind_ok in H as (live & Hl & H). apply bind_ok_unit in H as [Hdirty%dirty_ok H].
    apply bind_ok in H as (git & Hg%obj_ok & H). apply bind_ok in H as (sha & [Hsha Hne]%text_ok & H).
    apply bind_ok_unit in H as [Hst H%reraise_ok%bundle_accepted]. rewrite stale_sha_ok in Hst.
    split. by exists backend, live, git, s, sha.
  - intros [(backend & live & git & s & sha & Hfile & Hb & Hs1 & Hs2 & Hh & Hs & Hsne & Heq & Hlf & Hl & Hdirty & Hg
      & Hsha & Hne & Hst & Hlive)].
    apply bind_ok_unit. split; [by apply require_ok|]. apply bind_ok. exists backend. split; [done|].
    apply bind_ok. eexists. split; [by apply text_ok|]. apply bind_ok_unit. split; [by apply require_ok|].
    apply bind_ok. eexists. split; [by apply text_ok|]. apply bind_ok_unit. split; [by apply require_ok|].
    apply bind_ok_unit. split; [by apply require_ok, is_false_iff|].
    apply bind_ok. exists s. split; [by apply live_name_ok|].
    apply bind_ok_unit. split; [by apply require_ok, path_eqb_eq|].
    apply bind_ok_unit. split; [by apply require_ok|]. apply bind_ok. exists live. split; [done|].
    apply bind_ok_unit. split; [by apply dirty_ok|]. apply bind_ok. exists git. split; [by apply obj_ok|].
    apply bind_ok. exists sha. split; [by apply text_ok|]. apply bind_ok_unit. split; [by apply stale_sha_ok|].
    by apply reraise_ok, bundle_accepted.
Qed.

Lemma live_accepted F row p context scenario outcome mode :
  says row "scenario_id" scenario -> says row "outcome" outcome -> says row "evidence_mode" mode ->
  validate_live_backend_summary_consistency F row p context = Ok tt <->
  (scenario = "live-backend" -> outcome = "PASS" -> mode = "vm-live" -> live_backend_ok F row p).
Proof.
  intros Hsc Ho Hm.
  destruct (decide (scenario = "live-backend" /\ outcome = "PASS" /\ mode = "vm-live")) as [(-> & -> & ->)|Hn].
  { rewrite live_bound_ok by done. tauto. }
  split; [intros _ ? ? ?; by destruct Hn|]. intros _. unfold validate_live_backend_summary_consistency.
  destruct Hsc as [Hsc Hsc'], Ho as [Ho Ho'], Hm as [Hm Hm'].
  apply bind_ok. exists scenario. split; [by apply text_ok|].
  destruct (String.eqb_spec scenario "live-backend"); [|done]. cbn [negb].
  apply bind_ok. exists outcome. split; [by apply text_ok|]. apply bind_ok. exists mode. split; [by apply text_ok|].
  destruct (String.eqb_spec outcome "PASS"); [|done]. destruct (String.eqb_spec mode "vm-live"); [|done].
  by destruct Hn.
Qed.

Lemma row_says row outcome mode scenario : row_ok row outcome mode scenario ->
  says row "scenario_id" scenario /\ says row "outcome" outcome /\ says row "evidence_mode" mode.
Proof.
  intros [_ _ [Ho Ho'] [Hm Hm'] _ _ _ _ _ Hids Hsc _ _ _ _ _ _ _ _ _ _ _ _].
  split; [|split; (split; [done | by eapply member_nonempty])]. split; [done|]. intros ->.
  destruct (Hids "scenario_id") as (s & Hs & Hl & _); [by left|]. rewrite Hsc in Hs. injection Hs as <-. simpl in Hl. lia.
Qed.

Lemma manifest_step_ok F manifest_path root h i raw_row (s : gset string * gset string) st' :
  manifest_step F manifest_path root h i raw_row (seen_of s) = Ok st' <->
  exists k, manifest_row_ok F root h raw_row k
            /\ (fst k ∉ fst s /\ snd k ∉ snd s)
            /\ st' = seen_of ({[fst k]} ∪ fst s, {[snd k]} ∪ snd s).
Proof.
  unfold manifest_step. split.
  - intros H. apply bind_ok in H as (d & ->%obj_ok & H).
    apply bind_ok_unit in H as [Hf%require_only_fields_ok H].
    apply bind_ok in H as (sc & [Hsc _]%text_ok & H).
    apply bind_ok_unit in H as [Hid%require_ok H]. apply (ident_len 95) in Hid as [Hl Hc].
    apply bind_ok_unit in H as [Hs1%require_ok%negb_true_iff%bool_decide_eq_false H].
    apply bind_ok in H as (raw & Hraw%require_safe_path_ok & H).
    apply bind_ok_unit in H as [Hs2%require_ok%negb_true_iff%bool_decide_eq_false H].
    apply bind_ok_unit in H as [Hb%require_descendant_ok H].
    apply bind_ok_unit in H as [Hn%require_ok%String.eqb_eq H].
    apply bind_ok in H as (row & Hrow & H). apply bind_ok_unit in H as [Hv H].
    apply row_accepted in Hv as (outcome & mode & scenario & Hok). destruct (row_says _ _ _ _ Hok) as (S1 & S2 & S3).
    apply bind_ok_unit in H as [Hpaths H]. rewrite (row_paths_accepted _ _ _ _ _ _ S1 S2) in Hpaths.
    apply bind_ok_unit in H as [Hvm%row_claim_accepted H].
    apply bind_ok_unit in H as [Hlive H]. rewrite (live_accepted _ _ _ _ _ _ _ S1 S2 S3) in Hlive.
    apply bind_ok_unit in H as [Hrun%require_ok%py_eq_str H].
    apply bind_ok_unit in H as [Heq1%require_ok H]. apply bind_ok_unit in H as [Heq2%require_ok [= <-]].
    rewrite (proj1 S1), Hsc in Heq1. apply py_eq_str in Heq1 as [= ->].
    rewrite (proj1 S2) in Heq2. apply py_eq_str in Heq2.
    exists (scenario, path_str (Path raw)). split; [|done]. split. exists d, (Path raw), row, outcome, mode.
    cbn [fst snd]. repeat (split; [done || lia|]). split; [by exists raw|]. done.
  - intros ([sc key] & [(d & p & row & outcome & mode & -> & Hf & Hsc & Hl & Hc & (raw & Hraw & -> & Hb) & Hkey & Hn
      & Hrow & Hok & Hout & Hrun & Hpaths & Hvm & Hlive)] & [Hs1 Hs2] & ->). cbn [fst snd] in *. subst key.
    destruct (row_says _ _ _ _ Hok) as (S1 & S2 & S3). run_ok;
      [by apply require_only_fields_ok
      |apply text_ok; split; [exact Hsc | exact (proj2 S1)]
      |by apply require_ok, (ident_len 95)
      |by apply require_ok, negb_true_iff, bool_decide_eq_false
      |by apply require_safe_path_ok
      |by apply require_ok, negb_true_iff, bool_decide_eq_false
      |by apply require_descendant_ok | by apply require_ok, String.eqb_eq | exact Hrow
      |by eapply row_complete | by eapply row_paths_accepted | by apply row_claim_accepted | by eapply live_accepted
      |by apply require_ok, py_eq_str
      |rewrite Hsc, (proj1 S1); by apply require_ok, py_eq_str
      |rewrite Hout, (proj1 S2); by apply require_ok, py_eq_str].
Qed.

Lemma manifest_run_id_name p root :
  require_manifest_root p = Ok root -> re_fullmatch RUN_ID_RE (name root) = true /\ name root <> "".
Proof.
  unfold require_manifest_root. intros H.
  apply bind_ok_unit in H as [_ H]. apply bind_ok_unit in H as [Hl%require_ok H].
  apply bind_ok_unit in H as [Hr%require_ok [= <-]].
  apply andb_true_iff in Hl as [[Hl%Nat.eqb_eq _]%andb_true_iff _].
  destruct (parts p) as [|a [|b [|c [|id [|f [|]]]]]]; try discriminate Hl.
  unfold name. simpl in *. split; [done|]. by intros ->.
Qed.

Lemma fresh_run_seen ks s :
  fresh_run (fun k st => fst k ∉ seen_scenarios st /\ snd k ∉ seen_artifacts st)
            (fun k st => Seen ({[fst k]} ∪ seen_scenarios st) ({[snd k]} ∪ seen_artifacts st)) ks (seen_of s) <->
  fresh_run (fun k s => fst k ∉ fst s /\ snd k ∉ snd s)
            (fun k s => ({[fst k]} ∪ fst s, {[snd k]} ∪ snd s)) ks s.
Proof. revert s. induction ks as [|k ks IH]; intros s; simpl; [done|]. by rewrite <- IH. Qed.

Lemma manifest_rows_ok F manifest_path root h rows :
  (exists s, for_fold 0 rows (Seen ∅ ∅) (manifest_step F manifest_path root h) = Ok s) <->
  exists ks, Forall2 (manifest_row_ok F root h) rows ks /\ NoDup (map fst ks) /\ NoDup (map snd ks).
Proof.
  setoid_rewrite (for_fold_fresh (fun _ => manifest_row_ok F root h)
    (fun k st => fst k ∉ seen_scenarios st /\ snd k ∉ seen_artifacts st)
    (fun k st => Seen ({[fst k]} ∪ seen_scenarios st) ({[snd k]} ∪ seen_artifacts st))).
  - setoid_rewrite (Forall2_enum _ 0). setoid_rewrite (fresh_run_seen _ (∅, ∅)). setoid_rewrite fresh_run_pair.
    split.
    + intros (s & ks & Hk & [[H1 _] [H2 _]] & _). by exists ks.
    + intros (ks & Hk & H1 & H2). eexists _, ks. split; [done|]. split; [|done].
      repeat split; try done; set_solver.
  - intros i raw_row st st'. apply (manifest_step_ok F manifest_path root h i raw_row (seen_scenarios st, seen_artifacts st)).
Qed.

Lemma run_id_text root d context :
  require_manifest_root context = Ok root -> get d "matrix_run_id" = JStr (name root) ->
  forall c m, text (get d "matrix_run_id") c = Ok (name root)
              /\ require (re_fullmatch RUN_ID_RE (name root)) m = Ok tt.
Proof.
  intros [Hr Hne]%manifest_run_id_name Hd c m. rewrite text_ok, require_ok. done.
Qed.

Lemma manifest_accepted F p n m :
  validate_manifest F p = Ok (n, m) ->
  exists root h rows, manifest_ok F p root h rows /\ n = length rows /\ m = 0
    /\ exists s, for_fold 0 rows (Seen ∅ ∅) (manifest_step F p root h) = Ok s.
Proof.
  unfold validate_manifest. cbv zeta. intros (root & Hroot & (d & Hd & H)%bind_ok)%bind_ok.
  apply bind_ok_unit in H as [Hf%require_only_fields_ok H].
  apply bind_ok_unit in H as [Hs%require_ok%py_eq_str H].
  apply bind_ok_unit in H as [Hh%require_ok%is_false_iff H].
  apply bind_ok_unit in H as [Hr%require_ok%is_false_iff H].
  apply bind_ok in H as (run & [Hrun _]%text_ok & H). apply bind_ok_unit in H as [_ H].
  apply bind_ok_unit in H as [->%require_ok%String.eqb_eq H].
  apply bind_ok in H as (out & Hout%require_safe_path_ok & H).
  apply bind_ok_unit in H as [Heq%require_ok%path_eqb_eq H].
  apply bind_ok in H as (ev & Hev%safe_under_ok & H).
  apply bind_ok in H as (mode & [Hmode Hmne]%text_ok & H).
  apply bind_ok in H as (fx & Hfx%bool_field_ok & H). rewrite !seq_text_ok in H. destruct H as (Hst & Hen & H).
  destruct (get d "rows") as [| | | | |rows|] eqn:Erows; try discriminate.
  apply bind_ok_unit in H as [Hcount%require_ok H]. apply bind_ok_unit in H as [[_ Hdae]%validate_events_ok H].
  apply bind_ok in H as (s & Hs' & [= <- <-]).
  exists root, (Header (name root) mode fx), rows. split; [|split; [done | split; [done | by exists s]]].
  split; [done|]. exists d, ev. cbn [manifest_run_id manifest_mode fixture_mode]. repeat (split; [done|]).
  split; [exists out; split; [done | split; [done | by left]]|]. repeat (split; [done|]). done.
Qed.

Lemma manifest_complete F p root h rows s :
  manifest_ok F p root h rows -> for_fold 0 rows (Seen ∅ ∅) (manifest_step F p root h) = Ok s ->
  validate_manifest F p = Ok (length rows, 0).
Proof.
  intros [Hroot (d & ev & Hd & Hf & Hs & Hh & Hr & Hrun & Hid & (out & Hout & -> & _) & Hev & Hdae & Hmode & Hmne
    & Hfx & Hst & Hen & Hrows & Hcount)] Hfold.
  destruct h as [run mode fx]; cbn [manifest_run_id manifest_mode fixture_mode] in *. subst run.
  unfold validate_manifest. cbv zeta. rewrite Hroot, Hd. cbn [bind]. rewrite Hrows.
  apply bind_ok_unit; split; [by apply require_only_fields_ok|].
  apply bind_ok_unit; split; [by apply require_ok, py_eq_str|].
  apply bind_ok_unit; split; [by apply require_ok, is_false_iff|].
  apply bind_ok_unit; split; [by apply require_ok, is_false_iff|].
  apply bind_ok. exists (name (Path out)). split; [by eapply run_id_text|].
  apply bind_ok_unit; split; [by eapply run_id_text|].
  apply bind_ok_unit; split; [by apply require_ok, String.eqb_eq|].
  apply bind_ok. exists out. split; [by apply require_safe_path_ok|].
  apply bind_ok_unit; split; [by apply require_ok, path_eqb_eq|].
  apply bind_ok. exists ev. split; [by apply safe_under_ok|].
  apply bind_ok. exists mode. split; [by apply text_ok|].
  apply bind_ok. exists fx. split; [by apply bool_field_ok|].
  rewrite !seq_text_ok. split; [done|]. split; [done|].
  apply bind_ok_unit; split; [by apply require_ok|].
  apply bind_ok_unit; split; [apply validate_events_ok; split; [by destruct Hev as (? & _ & -> & ?) | done]|].
  by rewrite Hfold.
Qed.

(** * Properties *)

(** C1: [validate_manifest] accepts a matrix manifest exactly when it is well
    formed ([manifest_ok]: canonical location, run id of its directory, no host
    mutation, no release claim, a valid daemon stream inside the run), no scenario
    and no artifact path occurs twice, and every row is in order: its matrix-run.json
    keeps the row contract and agrees with the manifest, every path it names lies
    in the run ([row_paths_ok]), its daemon stream is valid, its workload spec has
    the stated digest and together with the capability artifact and the privacy
    report fits the scenario, its sample passes the sample check and its incident,
    rollback, cleanup and refusal proofs prove what they are named for, its claim
    about the VM is admissible, and a live pass of the live-backend scenario
    stands on a clean live bundle of the same commit.  The number of rows is
    answered. *)
Theorem validate_manifest_iff F p n m :
  validate_manifest F p = Ok (n, m) <->
  exists root h rows ks,
    manifest_ok F p root h rows /\ Forall2 (manifest_row_ok F root h) rows ks
    /\ NoDup (map fst ks) /\ NoDup (map snd ks) /\ n = length rows /\ m = 0.
Proof.
  split.
  - intros (root & h & rows & Ho & -> & -> & (ks & Hk & H1 & H2)%manifest_rows_ok)%manifest_accepted.
    by exists root, h, rows, ks.
  - intros (root & h & rows & ks & Ho & Hk & H1 & H2 & -> & ->).
    edestruct manifest_rows_ok as [_ [s Hs]]; [by exists ks|]. by eapply manifest_complete.
Qed.

(** The admissible claims of a row about the VM: [validate_manifest_vm_claim]
    accepts exactly the rows of [claim_ok].  On a manifest that declares itself a
    fixture on a host-safe or auto mode no row has a present marker or live
    evidence and every PASS is a fixture PASS; elsewhere no row is a fixture and
    every PASS is vm-live; and a row with live evidence or a present marker refers
    to a marker proof inside the run that agrees with it. *)
Theorem validate_manifest_vm_claim_iff F row mode fixture_mode root context :
  validate_manifest_vm_claim F row mode fixture_mode root context = Ok tt <->
  row_claim_ok F root row mode fixture_mode.
Proof. apply row_claim_accepted. Qed.

(** [validate_manifest_proof_artifacts] accepts a row exactly when the runtime
    sample it names is valid and its incident, rollback, cleanup and host-refusal
    artifacts load as objects that agree with the scenario and the outcome of the
    row, mutate no host, and prove what they are named for: nothing left behind,
    a passed cleanup unless the row failed, and an untouched kernel. *)
Theorem validate_manifest_proof_artifacts_iff F row context :
  validate_manifest_proof_artifacts F row context = Ok tt <->
  exists scenario outcome, (get row "scenario_id" = JStr scenario /\ scenario <> "")
    /\ (get row "outcome" = JStr outcome /\ outcome <> "") /\ proofs_ok F row scenario outcome.
Proof. apply proofs_accepted. Qed.
