(* ===== verification/LiveLab.v ===== *)
(** LiveLab: qa/live_lab_evidence_check.py, the proofs of a live lab run: action
    and event journals, transcript index, attach, behaviour and rollback proofs.
    [git rev-parse HEAD] is a parameter. *)
From S2P Require Import Prelude PyStr PyRe PyFloat PyJson Sha256 PyFs PyMain MatrixModel Fields.

Local Open Scope string_scope.

Definition ACTION_SCHEMA : string := "zig-scheduler/action-journal/v1".
Definition EVENT_SCHEMA : string := "zig-scheduler/daemon-event-journal/v1".
Definition TRANSCRIPT_SCHEMA : string := "zig-scheduler/vm-transcript-index/v1".
Definition ATTACH_SCHEMA : string := "zig-scheduler/live-attach-proof/v1".
Definition BEHAVIOR_SCHEMA : string := "zig-scheduler/live-behavior-proof/v1".
Definition ROLLBACK_SCHEMA : string := "zig-scheduler/rollback-result/v1".
Definition VM_MARKER : string := "/run/zig-scheduler-vm-lab.marker".
Definition LIVE_MODE : string := "vm-live".
Definition LIVE_VM_KIND : string := "qemu-vm".
Definition EVIDENCE_MODES : list string := ["host-safe-surrogate"; "vm-configured-skip"; LIVE_MODE].
Definition FORBIDDEN_KEYS : list string := [
  "cmdline"; "command_line"; "argv"; "env"; "environment"; "raw_log"; "private_log"; "secret"; "token"; "hostname"].
Definition FORBIDDEN_TEXT : list string := ["--token"; "password="; "api_key="; "AWS_SECRET"; "BEGIN PRIVATE KEY"].

Definition fail {A} (m : string) : result A := raise LiveEvidenceError m.

Definition parse_args (argv : list string) : result (option path * bool) :=
  match argv with
  | ["--self-test"] => Ok (None, true)
  | ["--file"; p] => Ok (Some (Path p), false)
  | _ => fail "usage: live_lab_evidence_check.py --file <proof.json> | --self-test"
  end.

Definition require_string (data : jobject) (field context : string) : result string :=
  match get data field with
  | JStr value =>
      if String.eqb value "" then fail (context ++ " missing non-empty string field: " ++ field) else Ok value
  | _ => fail (context ++ " missing non-empty string field: " ++ field)
  end.

Definition require_bool (data : jobject) (field context : string) : result bool :=
  match get data field with JBool b => Ok b | _ => fail (context ++ " missing bool field: " ++ field) end.

Definition require_int (data : jobject) (field context : string) : result Z :=
  match as_int (get data field) with
  | Some n => Ok n
  | None => fail (context ++ " missing integer field: " ++ field)
  end.

Definition require_object (data : jobject) (field context : string) : result jobject :=
  match get data field with JDict d => Ok d | _ => fail (context ++ " missing object field: " ++ field) end.

Definition require_list (data : jobject) (field context : string) : result (list json) :=
  match get data field with
  | JList ((_ :: _) as l) => Ok l
  | _ => fail (context ++ " missing non-empty list field: " ++ field)
  end.

Fixpoint reject_private (value : json) (context : string) {struct value} : result unit :=
  match value with
  | JDict d =>
      (fix items (d : jobject) : result unit :=
         match d with
         | [] => Ok tt
         | (key, child) :: d =>
             ensure (negb (mem (lower key) FORBIDDEN_KEYS)) LiveEvidenceError
               ("privacy-unsafe key in evidence: " ++ context ++ "." ++ key) ;;;
             reject_private child (context ++ "." ++ key) ;;;
             items d
         end) d
  | JList l =>
      (fix elems (index : nat) (l : list json) : result unit :=
         match l with
         | [] => Ok tt
         | child :: l => reject_private child (context ++ "[" ++ str_nat index ++ "]") ;;; elems (S index) l
         end) 0 l
  | JStr s =>
      for_each FORBIDDEN_TEXT (fun needle =>
        ensure (negb (contains needle s)) LiveEvidenceError ("privacy-unsafe text in evidence: " ++ context))
  | _ => Ok tt
  end.

Definition require_safe_relative_path (raw context : string) : result unit :=
  ensure (negb (is_absolute (Path raw) || mem ".." (parts (Path raw)))) LiveEvidenceError
    (context ++ " path escapes repository: " ++ raw).

Definition validate_common (data : jobject) (context : string) : result unit :=
  reject_private (JDict data) context ;;;
  let* _ := require_string data "action_id" context in
  let* host_mutation := require_bool data "host_mutation" context in
  ensure (negb host_mutation) LiveEvidenceError (context ++ " host_mutation must be false") ;;;
  let* mode := require_string data "evidence_mode" context in
  ensure (mem mode EVIDENCE_MODES) LiveEvidenceError (context ++ " evidence_mode is invalid: " ++ mode) ;;;
  ensure (negb (is_true (get data "private_logs"))) LiveEvidenceError (context ++ " private logs are not allowed").

Definition validate_live_gate (data : jobject) (context : string) : result unit :=
  let* mode := require_string data "evidence_mode" context in
  ensure (String.eqb mode LIVE_MODE) LiveEvidenceError (context ++ " is not vm-live evidence") ;;;
  let* kind := require_string data "vm_kind" context in
  ensure (String.eqb kind LIVE_VM_KIND) LiveEvidenceError (context ++ " vm-live evidence must come from qemu-vm") ;;;
  let* marker := require_bool data "vm_marker_present" context in
  ensure marker LiveEvidenceError (context ++ " missing VM marker") ;;;
  let* marker_path := require_string data "vm_marker_path" context in
  ensure (String.eqb marker_path VM_MARKER) LiveEvidenceError (context ++ " VM marker path is invalid") ;;;
  let* kernel := require_object data "kernel_tuple" context in
  for_each ["release"; "arch"; "config_sha256"] (fun field =>
    let* _ := require_string kernel field (context ++ ".kernel_tuple") in Ok tt).

Definition validate_paths (values : list json) (context : string) : result unit :=
  for_enum 0 values (fun index value =>
    let here := context ++ "[" ++ str_nat index ++ "]" in
    match value with
    | JStr s =>
        if String.eqb s "" then fail (here ++ " must be non-empty path text") else require_safe_relative_path s here
    | _ => fail (here ++ " must be non-empty path text")
    end).

Section Checker.
Variable F : fs.
Variable git_rev_parse : result completed.

Definition load_object (p : path) : result jobject :=
  let* raw := catch (bind (read_text F p) loads) (fun exc =>
    if decide (exn_cls exc = FileNotFoundError) then Some (fail ("missing JSON file: " ++ path_str p))
    else if decide (exn_cls exc = JSONDecodeError)
    then Some (fail ("invalid JSON in " ++ path_str p ++ ": " ++ exn_str exc))
    else None) in
  match raw with JDict d => Ok d | _ => fail (path_str p ++ " must contain a JSON object") end.

Definition current_git_sha : result string :=
  let* result := bind git_rev_parse in_text in
  ensure (Z.eqb (returncode result) 0) LiveEvidenceError "cannot determine current git sha" ;;;
  Ok (strip (stdout result)).

Definition validate_git_sha (data : jobject) (context : string) : result unit :=
  let* recorded := require_string data "git_sha" context in
  let* current := current_git_sha in
  ensure (String.eqb recorded current) LiveEvidenceError (context ++ " git_sha is stale").

Definition validate_checked_common (data : jobject) (context : string) : result unit :=
  validate_common data context ;;; validate_git_sha data context.

Definition validate_action (data : jobject) : result unit :=
  validate_checked_common data "action" ;;;
  let* _ := require_string data "action" "action" in
  let* _ := require_string data "timestamp" "action" in Ok tt.

Definition validate_event (data : jobject) : result unit :=
  validate_checked_common data "event" ;;;
  let* _ := require_int data "sequence" "event" in
  let* _ := require_string data "event" "event" in
  let* _ := require_string data "status" "event" in Ok tt.

Definition validate_transcript_index (data : jobject) : result unit :=
  validate_common data "transcript_index" ;;;
  validate_live_gate data "transcript_index" ;;;
  validate_git_sha data "transcript_index" ;;;
  let* transcripts := require_list data "transcript_paths" "transcript_index" in
  validate_paths transcripts "transcript_index.transcript_paths" ;;;
  let* commands := require_list data "command_allowlist" "transcript_index" in
  validate_paths commands "transcript_index.command_allowlist" ;;;
  let* cleanup := require_object data "cleanup" "transcript_index" in
  let* leftovers := require_bool cleanup "qemu_leftovers" "transcript_index.cleanup" in
  ensure (negb leftovers) LiveEvidenceError "transcript_index cleanup reports qemu leftovers".

Definition validate_attach (data : jobject) : result unit :=
  validate_common data "attach" ;;;
  validate_live_gate data "attach" ;;;
  validate_git_sha data "attach" ;;;
  for_each ["audit_id"; "rollback_id"; "target_cgroup"; "registered_ops"] (fun field =>
    let* _ := require_string data field "attach" in Ok tt).

Definition validate_behavior (data : jobject) : result unit :=
  validate_common data "behavior" ;;;
  validate_live_gate data "behavior" ;;;
  validate_git_sha data "behavior" ;;;
  let* _ := require_string data "scheduler_state" "behavior" in
  let* _ := require_string data "registered_ops" "behavior" in
  let* _ := require_int data "runtime_events" "behavior" in
  let* alive := require_bool data "workload_alive" "behavior" in
  ensure alive LiveEvidenceError "behavior workload must be live during observation".

Definition validate_rollback (data : jobject) : result unit :=
  validate_common data "rollback" ;;;
  validate_live_gate data "rollback" ;;;
  validate_git_sha data "rollback" ;;;
  let* _ := require_string data "rollback_id" "rollback" in
  let* outcome := require_string data "result" "rollback" in
  ensure (String.eqb outcome "PASS") LiveEvidenceError "rollback result must pass for live proof" ;;;
  let* idempotent := require_bool data "idempotent" "rollback" in
  ensure idempotent LiveEvidenceError "rollback must be idempotent".

Definition validate_file (p : path) : result unit :=
  let* data := load_object p in
  let* schema := require_string data "schema" "evidence" in
  if String.eqb schema ACTION_SCHEMA then validate_action data
  else if String.eqb schema EVENT_SCHEMA then validate_event data
  else if String.eqb schema TRANSCRIPT_SCHEMA then validate_transcript_index data
  else if String.eqb schema ATTACH_SCHEMA then validate_attach data
  else if String.eqb schema BEHAVIOR_SCHEMA then validate_behavior data
  else if String.eqb schema ROLLBACK_SCHEMA then validate_rollback data
  else fail ("unsupported evidence schema: " ++ schema).

(** [run], where [self_test] is what the self-test, which writes scratch files,
    prints and how it ends. *)
Definition run (self_test : printed) (argv : list string) : printed :=
  reading (parse_args argv) (fun '(file_path, should_self_test) =>
    if (should_self_test : bool) then self_test else
    printing match file_path with
    | None => fail "internal argument parser error"
    | Some p => validate_file p ;;; Ok ["PASS live lab evidence schema: " ++ path_str p]
    end).

Definition main (self_test : printed) (argv : list string) : exit :=
  end_main (is_class LiveEvidenceError) "FAIL live lab evidence schema" (run self_test argv).
End Checker.

(** * Specification *)

Definition lab_private : json -> Prop :=
  Clean (fun k => ~ In (lower k) FORBIDDEN_KEYS)
    (fun s => forall needle, In needle FORBIDDEN_TEXT -> ~ exists a b, s = a ++ needle ++ b).

(** What every proof shows. *)
Definition common_ok (d : jobject) : Prop :=
  lab_private (JDict d) /\ text_field d "action_id" /\ get d "host_mutation" = JBool false
  /\ (exists mode, get d "evidence_mode" = JStr mode /\ In mode EVIDENCE_MODES) /\ get d "private_logs" <> JBool true.

(** What only a run in the virtual machine shows. *)
Definition live_ok (d : jobject) : Prop :=
  get d "evidence_mode" = JStr LIVE_MODE /\ get d "vm_kind" = JStr LIVE_VM_KIND
  /\ get d "vm_marker_present" = JBool true /\ get d "vm_marker_path" = JStr VM_MARKER
  /\ exists kernel, get d "kernel_tuple" = JDict kernel
       /\ forall field, In field ["release"; "arch"; "config_sha256"] -> text_field kernel field.

(** The recorded commit is the one that is checked out. *)
Definition fresh (git : result completed) (d : jobject) : Prop :=
  exists listing sha, bind git in_text = Ok listing /\ returncode listing = 0%Z /\ sha = strip (stdout listing)
    /\ get d "git_sha" = JStr sha /\ sha <> "".

Definition safe_paths (d : jobject) (field : string) : Prop :=
  exists ps, get d field = jstrs ps /\ ps <> [] /\ Forall (fun s => s <> "" /\ plain_path (Path s)) ps.

(** A proof of each schema. *)
Inductive lab_proof (d : jobject) : string -> Prop :=
| Action : text_field d "action" -> text_field d "timestamp" -> lab_proof d ACTION_SCHEMA
| Event : int_value d "sequence" -> text_field d "event" -> text_field d "status" -> lab_proof d EVENT_SCHEMA
| Transcripts cleanup : live_ok d -> safe_paths d "transcript_paths" -> safe_paths d "command_allowlist" ->
    get d "cleanup" = JDict cleanup -> get cleanup "qemu_leftovers" = JBool false ->
    lab_proof d TRANSCRIPT_SCHEMA
| Attach : live_ok d ->
    (forall field, In field ["audit_id"; "rollback_id"; "target_cgroup"; "registered_ops"] -> text_field d field) ->
    lab_proof d ATTACH_SCHEMA
| Behavior : live_ok d -> text_field d "scheduler_state" -> text_field d "registered_ops" ->
    int_value d "runtime_events" -> get d "workload_alive" = JBool true -> lab_proof d BEHAVIOR_SCHEMA
| Rollback : live_ok d -> text_field d "rollback_id" -> get d "result" = JStr "PASS" ->
    get d "idempotent" = JBool true -> lab_proof d ROLLBACK_SCHEMA.

(** * Lemmas *)
Global Instance lab_text_reader : TextReader require_string.
Proof. solve_reader require_string. Qed.
Global Instance lab_bool_reader : BoolReader require_bool.
Proof. solve_reader require_bool. Qed.
Global Instance lab_object_reader : ObjectReader require_object.
Proof. solve_reader require_object. Qed.
Global Instance lab_int_reader : IntReader require_int.
Proof. intros d f c n. unfold require_int. destruct (as_int (get d f)); split; (congruence || discriminate). Qed.

Lemma lab_texts_ok d fields c : for_each fields (fun f => let* _ := require_string d f c in Ok tt) = Ok tt <->
  forall f, In f fields -> text_field d f.
Proof. rewrite each_then, texts_each. tauto. Qed.
Lemma lab_true d f c m : (let* v := require_bool d f c in ensure v LiveEvidenceError m) = Ok tt <-> get d f = JBool true.
Proof. rewrite bind_ok. setoid_rewrite reads_bool. setoid_rewrite ensure_ok. naive_solver. Qed.
Lemma lab_false d f c m :
  (let* v := require_bool d f c in ensure (negb v) LiveEvidenceError m) = Ok tt <-> get d f = JBool false.
Proof. rewrite bind_ok. setoid_rewrite reads_bool. setoid_rewrite ensure_ok. setoid_rewrite negb_true_iff. naive_solver. Qed.

Lemma lab_private_ok v c : reject_private v c = Ok tt <-> lab_private v.
Proof.
  revert c. unfold lab_private. induction v as [| | | |s|l IH|d IH] using json_nested_ind; intros c; cbn [reject_private];
    try (split; [intros _; by apply clean_scalar | done]).
  - rewrite clean_str, for_each_ok, Forall_forall. setoid_rewrite list_elem_of_In. setoid_rewrite ensure_ok.
    setoid_rewrite negb_true_iff. by setoid_rewrite contains_false.
  - rewrite clean_list. generalize 0. induction IH as [|child l Hchild _ IHl]; intros n;
      [split; [constructor | done]|]. rewrite Forall_cons, bind_ok_unit, <- (IHl (S n)), Hchild. tauto.
  - rewrite clean_dict. induction IH as [|[key child] d Hchild _ IHd]; [split; [constructor | done]|].
    rewrite Forall_cons, !bind_ok_unit, <- IHd, ensure_ok, negb_true_iff, <- not_true_iff_false, mem_In.
    simpl in Hchild |- *. rewrite Hchild. tauto.
Qed.

Lemma common_iff d c : validate_common d c = Ok tt <-> common_ok d.
Proof.
  unfold validate_common, common_ok. rewrite bind_ok_unit, lab_private_ok, text_any, bool_false. do 3 apply and_iff_compat_l.
  rewrite bind_ok. setoid_rewrite reads_text. setoid_rewrite bind_ok_unit. setoid_rewrite ensure_ok.
  setoid_rewrite mem_In.
  assert (Hp : negb (is_true (get d "private_logs")) = true <-> get d "private_logs" <> JBool true).
  { rewrite negb_true_iff, <- not_true_iff_false. by rewrite is_true_iff. }
  setoid_rewrite Hp. split; [naive_solver|]. intros [(mode & Hm & Hin) Hl]. exists mode.
  assert (mode <> "") by (intros ->; destruct Hin as [|[|[|[]]]]; done). done.
Qed.

Lemma live_iff d c : validate_live_gate d c = Ok tt <-> live_ok d.
Proof.
  unfold validate_live_gate, live_ok. rewrite !text_is by done.
  rewrite bool_true, text_is by done.
  do 4 apply and_iff_compat_l. rewrite bind_ok. setoid_rewrite lab_texts_ok. unfold require_object.
  f_equiv. intros kernel. apply and_iff_compat_r. destruct (get d "kernel_tuple"); split; (congruence || discriminate).
Qed.

Lemma fresh_iff git d c : validate_git_sha git d c = Ok tt <-> fresh git d.
Proof.
  unfold validate_git_sha, current_git_sha, fresh. generalize (bind git in_text). intros answer.
  rewrite bind_ok. setoid_rewrite reads_text.
  setoid_rewrite bind_ok. setoid_rewrite ensure_ok. setoid_rewrite String.eqb_eq. split.
  - intros (s & [Hs Hne] & sha & (listing & Hg & [Hr%ensure_ok%Z.eqb_eq [= <-]]%bind_ok_unit)%bind_ok & ->).
    by exists listing, (strip (stdout listing)).
  - intros (listing & sha & Hg & Hr & -> & Hs & Hne). exists (strip (stdout listing)). split; [done|].
    exists (strip (stdout listing)). split; [|done]. apply bind_ok. exists listing. split; [done|].
    apply bind_ok_unit. by rewrite ensure_ok, Z.eqb_eq.
Qed.

Lemma lab_paths_ok d f c c' {B} (k : result B) x :
  (let* l := require_list d f c in validate_paths l c' ;;; k) = Ok x <-> safe_paths d f /\ k = Ok x.
Proof.
  unfold safe_paths, require_list, validate_paths. rewrite bind_ok.
  assert (Hl : forall l, for_enum 0 l (fun index value =>
      let here := c' ++ "[" ++ str_nat index ++ "]" in
      match value with
      | JStr s => if String.eqb s "" then fail (here ++ " must be non-empty path text") else require_safe_relative_path s here
      | _ => fail (here ++ " must be non-empty path text")
      end) = Ok tt <-> exists ss, JList l = jstrs ss /\ Forall (fun s => s <> "" /\ plain_path (Path s)) ss).
  { intros l. rewrite <- texts_iff. apply for_enum_forall. intros j v.
    destruct v as [| | | |s| |]; try (split; [discriminate | by intros (? & [=] & _)]).
    unfold require_safe_relative_path.
    assert (Hs : negb (is_absolute (Path s) || mem ".." (parts (Path s))) = true <-> plain_path (Path s))
      by (rewrite <- plain_path_iff, negb_orb; done).
    destruct (String.eqb_spec s "") as [->|Hne]; [split; [discriminate | naive_solver]|].
    rewrite ensure_ok, Hs. naive_solver. }
  setoid_rewrite bind_ok_unit. setoid_rewrite Hl.
  destruct (get d f) as [| | | | |[|y l]|]; try (split; [by intros (? & [=] & _) | by intros [(? & [=] & _) _]]).
  - split; [by intros (? & [=] & _) | intros [(ss & E & Hne & _) _]; by destruct ss].
  - split.
    + intros (l' & [= <-] & (ss & E & H) & Hk). split; [|done]. exists ss. split; [done|]. split; [by destruct ss | done].
    + intros [(ss & E & _ & H) Hk]. exists (y :: l). split; [done|]. split; [by exists ss | done].
Qed.

Lemma transcripts_iff git d : validate_transcript_index git d = Ok tt <->
  common_ok d /\ live_ok d /\ fresh git d /\ safe_paths d "transcript_paths" /\ safe_paths d "command_allowlist"
  /\ exists cleanup, get d "cleanup" = JDict cleanup /\ get cleanup "qemu_leftovers" = JBool false.
Proof.
  unfold validate_transcript_index. rewrite !bind_ok_unit, common_iff, live_iff, fresh_iff, !lab_paths_ok, bind_ok.
  setoid_rewrite lab_false. unfold require_object.
  assert (Hc : forall c m, (match get d "cleanup" with JDict d' => Ok d' | _ => fail m end) = Ok c <->
    get d "cleanup" = JDict c) by (intros c m; destruct (get d "cleanup"); split; (congruence || discriminate)).
  by setoid_rewrite Hc.
Qed.

(** The dispatch on the schema reaches the validator of each proof. *)
Lemma dispatch_iff git d schema :
  (if String.eqb schema ACTION_SCHEMA then validate_action git d
   else if String.eqb schema EVENT_SCHEMA then validate_event git d
   else if String.eqb schema TRANSCRIPT_SCHEMA then validate_transcript_index git d
   else if String.eqb schema ATTACH_SCHEMA then validate_attach git d
   else if String.eqb schema BEHAVIOR_SCHEMA then validate_behavior git d
   else if String.eqb schema ROLLBACK_SCHEMA then validate_rollback git d
   else fail ("unsupported evidence schema: " ++ schema)) = Ok tt <->
  common_ok d /\ fresh git d /\ lab_proof d schema.
Proof.
  assert (Hi : forall s, lab_proof d s -> In s [ACTION_SCHEMA; EVENT_SCHEMA; TRANSCRIPT_SCHEMA; ATTACH_SCHEMA;
    BEHAVIOR_SCHEMA; ROLLBACK_SCHEMA]) by (intros s []; simpl; tauto).
  repeat match goal with |- context [String.eqb schema ?s] => destruct (String.eqb_spec schema s) as [->|] end.
  - unfold validate_action, validate_checked_common. rewrite !bind_ok_unit, common_iff, fresh_iff, !text_any. split.
    + intros ([Hc Hf] & Ha & Ht & _). split_and!; [done | done | by constructor].
    + intros (Hc & Hf & Hp). by inversion Hp.
  - unfold validate_event, validate_checked_common.
    rewrite !bind_ok_unit, common_iff, fresh_iff, any_int, !text_any. split.
    + intros ([Hc Hf] & Hs & He & Ht & _). split_and!; [done | done | by constructor].
    + intros (Hc & Hf & Hp). by inversion Hp.
  - rewrite transcripts_iff. split.
    + intros (Hc & Hl & Hf & Ht & Ha & cleanup & Hg & Hq). split_and!; [done | done | by econstructor].
    + intros (Hc & Hf & Hp). inversion Hp; subst. naive_solver.
  - unfold validate_attach. rewrite !bind_ok_unit, common_iff, live_iff, fresh_iff, lab_texts_ok. split.
    + intros (Hc & Hl & Hf & Ht). split_and!; [done | done | by constructor].
    + intros (Hc & Hf & Hp). by inversion Hp.
  - unfold validate_behavior.
    rewrite !bind_ok_unit, common_iff, live_iff, fresh_iff, !text_any, any_int, lab_true. split.
    + intros (Hc & Hl & Hf & Hs & Ho & He & Ha). split_and!; [done | done | by constructor].
    + intros (Hc & Hf & Hp). by inversion Hp.
  - unfold validate_rollback.
    rewrite !bind_ok_unit, common_iff, live_iff, fresh_iff, text_any, text_is, lab_true by done. split.
    + intros (Hc & Hl & Hf & Hr & Ho & Hi'). split_and!; [done | done | by constructor].
    + intros (Hc & Hf & Hp). by inversion Hp.
  - split; [discriminate|]. intros (_ & _ & Hp%Hi). simpl in Hp. naive_solver.
Qed.

(** * Properties *)

(** C16: the live lab check accepts a file exactly when it is an object of one of the six schemas that names its action, mutates no host, has no private key or text at any depth and records the commit that is checked out, and that has what its schema asks for: the transcript, attach, behaviour and rollback proofs come from a qemu VM in vm-live mode with its marker and kernel, with safe paths and no leftovers, the four ids, a live workload, and a passed idempotent rollback respectively. *)
Theorem live_lab_iff F git p :
  validate_file F git p = Ok tt <->
  exists d schema, load_object F p = Ok d /\ get d "schema" = JStr schema
    /\ common_ok d /\ fresh git d /\ lab_proof d schema.
Proof.
  unfold validate_file. rewrite bind_ok. setoid_rewrite bind_ok. setoid_rewrite reads_text.
  setoid_rewrite dispatch_iff. split; [naive_solver|]. intros (d & schema & Hd & Hs & H).
  exists d. split; [done|]. exists schema. split; [split; [done|] | done].
  destruct H as (_ & _ & []); done.
Qed.
