(* ===== verification/FrontendSemantics.v ===== *)
(** FrontendSemantics: qa/frontend_contract_pack_semantics.py and
    qa/frontend_contract_matrix_ref.py, what the rows of each scenario of the
    frontend contract pack must show, and the matrix manifest a row may refer to. *)
From S2P Require Import Prelude PyStr PyRe PyFloat PyJson Sha256 PyFs PyMain DaemonEvent MatrixModel MatrixManifest Fields.

Local Open Scope string_scope.

Definition REQUIRED_SCENARIOS : list string := [
  "queued"; "booting"; "verifier"; "attached"; "observing"; "rollback-ready"; "rollback-active"; "cleaned";
  "incident"; "lost-stream"; "timeout"; "verifier-reject"; "rollback-failure"; "cleanup-residue"; "stale-target";
  "duplicate-target"; "stale-rollback"; "malformed-action"; "stream-backpressure"; "stale-git"; "privacy-rejection";
  "replay-event-cursor"; "replay-runtime-sample-cursor"; "qemu-unavailable"; "unsupported-kernel-tuple";
  "unsupported-btf-tuple"; "unsupported-kvm-tuple"; "cgroup-race-target-disappeared"; "cgroup-race-parent-changed";
  "cgroup-race-membership-changed"; "cgroup-race-symlink"; "cgroup-race-systemd-escape"; "dsq-perf-fairness-gate";
  "runtime-alert-nr-rejected"; "runtime-alert-workload-dead"; "malformed-runtime-sample"; "privacy-runtime-variant";
  "release-ineligible"; "rpc-invalid-version"; "rpc-action-mismatch"; "rpc-missing-action-json";
  "replay-row-bad-version"; "replay-row-nonmonotonic-seq"; "replay-row-host-mutation-true";
  "matrix-artifact-reference"; "bpf-object-metadata-missing"; "libbpf-load-failed"; "scx-register-failed";
  "workload-capability-missing"; "runtime-sample-loss"; "missing-attestation"].
Definition PREREQUISITE_SCENARIOS : list (string * string) := [
  ("qemu-unavailable", "qemu_untrusted_or_unavailable"); ("unsupported-kernel-tuple", "kernel_tuple_unsupported");
  ("unsupported-btf-tuple", "btf_unavailable"); ("unsupported-kvm-tuple", "kvm_unavailable")].
Definition CGROUP_RACE_SCENARIOS : list (string * string) := [
  ("cgroup-race-target-disappeared", "cgroup_target_disappeared");
  ("cgroup-race-parent-changed", "cgroup_parent_changed");
  ("cgroup-race-membership-changed", "cgroup_membership_changed"); ("cgroup-race-symlink", "cgroup_symlink_race");
  ("cgroup-race-systemd-escape", "cgroup_systemd_escape")].
Definition RPC_SCENARIOS : list (string * string) := [
  ("rpc-invalid-version", "invalid_rpc_version"); ("rpc-action-mismatch", "rpc_action_mismatch");
  ("rpc-missing-action-json", "action_json_required")].
Definition REPLAY_ROW_SCENARIOS : list (string * string) := [
  ("replay-row-bad-version", "replay_row_bad_version");
  ("replay-row-nonmonotonic-seq", "replay_row_nonmonotonic_seq");
  ("replay-row-host-mutation-true", "replay_row_host_mutation_true")].
Definition BPF_SCENARIOS : list (string * string) := [
  ("bpf-object-metadata-missing", "bpf_object_metadata_missing"); ("libbpf-load-failed", "libbpf_load_failed");
  ("scx-register-failed", "scx_register_failed")].
Definition WORKLOAD_SCENARIOS : list (string * string) := [
  ("workload-capability-missing", "workload_capability_missing"); ("runtime-sample-loss", "runtime_sample_loss")].
Definition ATTESTATION_SCENARIOS : list (string * string) := [
  ("missing-attestation", "missing_attestation")].
Definition FAILED_PROOF_SCENARIOS : list (string * (string * string)) := [
  ("rollback-failure", ("rollback", "rollback_failure")); ("cleanup-residue", ("cleanup", "cleanup_residue"))].
Definition TARGET_REFUSAL_SCENARIOS : list (string * string) := [
  ("stale-target", "stale_target"); ("duplicate-target", "duplicate_target")].
Definition DOTTED_NAMESPACE_LABELS : list string := [
  "rpc.invalid_version"; "rpc.action_mismatch"; "rpc.missing_action_json"; "replay.bad_version";
  "replay.nonmonotonic_seq"; "replay.host_mutation_true"; "matrix.artifact_reference"; "bpf.object_metadata_missing";
  "bpf.libbpf_load_failed"; "bpf.scx_register_failed"; "workload.capability_missing"; "runtime.sample_loss";
  "attestation.missing"; "governance.release_ineligible"].
Definition RELEASE_INELIGIBLE_FORBIDDEN_TEXT : list string := [
  "release_approved"; "release-approved"; "release approved"; "release_proof"; "release proof"; "release-proof";
  "proof success"; "proof_success"; "proof-success"].
Definition RELEASE_PROOF_FORBIDDEN_TEXT : list string := [
  "release_proof"; "release-proof"; "release proof"; "proof success"; "proof_success"; "proof-success"].

Definition fail {A} (m : string) : result A := raise ContractPackError m.

(** * qa/frontend_contract_matrix_ref.py *)

(** [shutil.copytree(source, target)] with the directory [tmp] as the working
    directory: below [target], the files of [source] with their contents; beside
    it, the directories that lead to it; no symbolic links.  Absolute paths are
    those of the machine. *)
Definition copied (F : fs) (source target tmp : path) : fs :=
  let local (p : path) : option node :=
    if is_prefix (p_parts target) (p_parts p)
    then fs_node F (path_str (MkPath (p_root source) (p_parts source ++ drop (List.length (p_parts target)) (p_parts p))))
    else if is_prefix (p_parts p) (p_parts target)
    then Some (Dir [nth (List.length (p_parts p)) (p_parts target) ""])
    else None in
  MkFs (fun s =>
      let p := Path s in
      if negb (is_absolute p) then local p
      else if String.eqb (p_root p) (p_root tmp) && is_prefix (p_parts tmp) (p_parts p)
      then local (MkPath "" (drop (List.length (p_parts tmp)) (p_parts p)))
      else fs_node F s)
    (plain_resolve tmp) (fun _ => false).

Definition fixture_prefix : path := Path "fixtures/frontend-contract/matrix-artifact-reference".

Section Reference.
Variable F : fs.
(** The temporary directory. *)
Variable tmp : path.

Definition copytree (source target : path) : result fs :=
  match fs_node F (path_str source) with
  | None => raise FileNotFoundError (path_str source)
  | Some (File _) => raise NotADirectoryError (path_str source)
  | Some (Dir _) =>
      if String.eqb (name target) ".." then raise FileExistsError (path_str target) else Ok (copied F source target tmp)
  end.

Definition validate_referenced_matrix_manifest (manifest_path : path) : result unit :=
  if strs_eqb (firstn (List.length (parts MATRIX_BASE)) (parts manifest_path)) (parts MATRIX_BASE)
  then let* _ := validate_manifest F manifest_path in Ok tt
  else if negb (strs_eqb (firstn (List.length (parts fixture_prefix)) (parts manifest_path)) (parts fixture_prefix))
          || negb (String.eqb (name manifest_path) MANIFEST_FILE)
  then raise MatrixRunContractError
         ("matrix artifact must be a generated matrix manifest or committed frontend-contract fixture: "
          ++ path_str manifest_path)
  else
    let run_id := name (parent manifest_path) in
    let* F' := copytree (parent manifest_path) (div_path MATRIX_BASE run_id) in
    let* _ := validate_manifest F' (div_path (div_path MATRIX_BASE run_id) MANIFEST_FILE) in
    Ok tt.

Definition require_matrix_manifest_reference (row : jobject) (context : string) : result path :=
  match get row "artifact" with
  | JStr raw_artifact =>
      if String.eqb raw_artifact "" then fail (context ++ " must carry a matrix manifest artifact path") else
      let manifest_path := Path raw_artifact in
      ensure (String.eqb (name manifest_path) "manifest.json") ContractPackError
        (context ++ " must reference a matrix manifest.json artifact") ;;;
      ensure (match get row "artifact_paths" with
              | JList raw_artifact_paths => existsb (fun v => py_eq v (JStr raw_artifact)) raw_artifact_paths
              | _ => false
              end) ContractPackError (context ++ " artifact_paths must include the matrix manifest artifact") ;;;
      reraise MatrixRunContractError ContractPackError
        (fun exc => context ++ " referenced matrix manifest is invalid: " ++ exn_str exc)
        (validate_referenced_matrix_manifest manifest_path) ;;;
      Ok manifest_path
  | _ => fail (context ++ " must carry a matrix manifest artifact path")
  end.

Definition validate_matrix_artifact_reference (name : string) (rows : list jobject) : result unit :=
  let* seen_manifest := for_fold 0 rows false (fun _ row seen_manifest =>
    if py_eq (get row "event") (JStr "validation") && py_eq (get row "reason") (JStr "matrix_artifact_referenced")
    then let* _ := require_matrix_manifest_reference row name in Ok true
    else Ok seen_manifest) in
  ensure seen_manifest ContractPackError (name ++ " must validate a matrix artifact reference").
End Reference.

(** * qa/frontend_contract_pack_semantics.py *)
Definition int_field (row : jobject) (field : string) : result (option Z) :=
  let raw := get row field in
  match as_int raw, raw with
  | Some n, _ => Ok (Some n)
  | None, JStr s => if isdecimal s then let* n := int_of_digits s in Ok (Some n) else Ok None
  | None, _ => Ok None
  end.

Definition is_reasoned_terminal (row : jobject) (reason : string) : result bool :=
  if negb (py_eq (get row "reason") (JStr reason)) then Ok false else
  let* known := in_set (get row "event") ["incident"; "refusal"] in
  if negb known then Ok false else
  let* bad := in_set (get row "status") ["REFUSE"; "refused"; "unsafe_to_assume"; "INCIDENT"] in
  Ok (bad || py_eq (get row "state") (JStr "unsafe_to_assume")).

Definition require_reasoned_terminal (rows : list jobject) (scenario reason : string) : result unit :=
  let* found := any_m (fun row => is_reasoned_terminal row reason) rows in
  ensure found ContractPackError (scenario ++ " missing terminal unsafe/refused row for " ++ reason).

Definition reject_pass (rows : list jobject) (scenario : string) : result unit :=
  for_each rows (fun row =>
    ensure (negb (py_eq (get row "status") (JStr "PASS"))) ContractPackError (scenario ++ " must not claim PASS")).

Definition failed_row (row : jobject) (failed_event expected_reason : string) : bool :=
  py_eq (get row "event") (JStr failed_event) && py_eq (get row "status") (JStr "FAIL")
  && py_eq (get row "reason") (JStr expected_reason).

(** [rows[failed_index + 1:]] for the first failed row. *)
Fixpoint after_failure (rows : list jobject) (failed_event expected_reason : string) : option (list jobject) :=
  match rows with
  | [] => None
  | row :: rows => if failed_row row failed_event expected_reason then Some rows else after_failure rows failed_event expected_reason
  end.

Definition require_failed_proof_incident (rows : list jobject) (scenario failed_event expected_reason : string) : result unit :=
  match after_failure rows failed_event expected_reason with
  | None => fail (scenario ++ " missing failed " ++ failed_event ++ " row for " ++ expected_reason)
  | Some later_rows =>
      let* found := any_m (fun row => is_reasoned_terminal row expected_reason) later_rows in
      ensure found ContractPackError (scenario ++ " missing terminal incident after failed " ++ failed_event)
  end.

Fixpoint string_values (value : json) : list string :=
  match value with
  | JStr s => [s]
  | JDict d => flat_map (fun kv => string_values (snd kv)) d
  | JList l => flat_map string_values l
  | _ => []
  end.

Definition reject_forbidden_strings (rows : list jobject) (scenario : string) (needles : list string) : result unit :=
  for_each rows (fun row => for_each (string_values (JDict row)) (fun value =>
    ensure (negb (existsb (fun needle => contains needle (lower value)) needles)) ContractPackError
      (scenario ++ " contains forbidden release-proof success language: " ++ value))).

(** [row.get("event") == "refusal" and row.get("status") in {"REFUSE", "refused"}] *)
Definition visible_refusal (row : jobject) : result bool :=
  if py_eq (get row "event") (JStr "refusal") then in_set (get row "status") ["REFUSE"; "refused"] else Ok false.

Definition require_visible_refusal (rows : list jobject) (message : string) : result unit :=
  let* found := any_m visible_refusal rows in ensure found ContractPackError message.

(** [isinstance(artifact, str) and (needle in artifact or ...)] *)
Definition artifact_names (needles : list string) (row : jobject) : bool :=
  match get row "artifact" with JStr s => existsb (fun needle => contains needle s) needles | _ => false end.

Definition require_artifact_name (needles : list string) (rows : list jobject) (message : string) : result unit :=
  ensure (existsb (artifact_names needles) rows) ContractPackError message.

(** The loops of the runtime alerts: no terminal row comes before the sample. *)
Definition alert_loop (name label missing reason : string) (is_sample : jobject -> result bool) (rows : list jobject) : result unit :=
  let* sample_seen := for_fold 0 rows false (fun _ row sample_seen =>
    let* sample := is_sample row in
    let sample_seen := sample || sample_seen in
    let* terminal := is_reasoned_terminal row reason in
    ensure (negb (terminal && negb sample_seen)) ContractPackError
      (name ++ " terminal incident precedes " ++ label ++ " runtime_sample") ;;;
    Ok sample_seen) in
  ensure sample_seen ContractPackError (name ++ " missing " ++ missing ++ " runtime_sample").

Definition rejected_sample (row : jobject) : result bool :=
  if py_eq (get row "event") (JStr "runtime_sample") then
    let* n := int_field row "nr_rejected" in
    Ok (match n with Some n => Z.ltb 0 n | None => false end)
  else Ok false.
Definition dead_sample (row : jobject) : result bool :=
  Ok (py_eq (get row "event") (JStr "runtime_sample") && is_false (get row "workload_alive")).

Section Scenario.
Variable F : fs.
Variable tmp : path.

Definition validate_scenario_semantics (name : string) (rows : list jobject) : result unit :=
  for_each rows (fun row =>
    let reason := get row "reason" in
    match reason with
    | JStr reason =>
        ensure (negb (contains "." reason)) ContractPackError (name ++ " uses dotted namespace label as v1 reason: " ++ reason)
    | _ => Ok tt
    end ;;;
    ensure (negb (existsb (fun label => py_eq reason (JStr label)) DOTTED_NAMESPACE_LABELS)) ContractPackError
      (name ++ " uses documentation-only namespace label as v1 reason: " ++ py_str reason)) ;;;
  match assoc name PREREQUISITE_SCENARIOS with
  | Some reason =>
      require_visible_refusal rows (name ++ " must be a visible refusal") ;;;
      require_reasoned_terminal rows name reason
  | None => Ok tt
  end ;;;
  match assoc name RPC_SCENARIOS with
  | Some reason =>
      require_visible_refusal rows (name ++ " must be a visible JSON-RPC refusal") ;;;
      require_reasoned_terminal rows name reason
  | None => Ok tt
  end ;;;
  match assoc name REPLAY_ROW_SCENARIOS with
  | Some reason =>
      require_visible_refusal rows (name ++ " must be a visible replay-row refusal") ;;;
      require_reasoned_terminal rows name reason
  | None => Ok tt
  end ;;;
  match assoc name CGROUP_RACE_SCENARIOS with
  | Some reason =>
      require_reasoned_terminal rows name reason ;;;
      require_artifact_name ["cgroup-race/"] rows (name ++ " missing cgroup race artifact")
  | None => Ok tt
  end ;;;
  (if String.eqb name "matrix-artifact-reference" then validate_matrix_artifact_reference F tmp name rows else Ok tt) ;;;
  match assoc name BPF_SCENARIOS with
  | Some reason =>
      require_reasoned_terminal rows name reason ;;;
      require_artifact_name ["/bpf/"; "/scx/"] rows (name ++ " missing BPF/libbpf/scx artifact")
  | None => Ok tt
  end ;;;
  match assoc name WORKLOAD_SCENARIOS with
  | Some reason =>
      require_reasoned_terminal rows name reason ;;;
      require_artifact_name ["/workloads/"; "/runtime/"] rows (name ++ " missing workload/runtime artifact")
  | None => Ok tt
  end ;;;
  match assoc name ATTESTATION_SCENARIOS with
  | Some reason =>
      require_reasoned_terminal rows name reason ;;;
      reject_pass rows name ;;;
      require_artifact_name ["/missing-attestation/"] rows (name ++ " missing live attestation artifact")
  | None => Ok tt
  end ;;;
  match assoc name FAILED_PROOF_SCENARIOS with
  | Some (failed_event, reason) => require_failed_proof_incident rows name failed_event reason
  | None => Ok tt
  end ;;;
  match assoc name TARGET_REFUSAL_SCENARIOS with
  | Some reason =>
      require_reasoned_terminal rows name reason ;;;
      reject_pass rows name ;;;
      require_visible_refusal rows (name ++ " must be a visible target refusal")
  | None => Ok tt
  end ;;;
  (if String.eqb name "dsq-perf-fairness-gate" then
     reject_pass rows name ;;;
     reject_forbidden_strings rows name RELEASE_PROOF_FORBIDDEN_TEXT ;;;
     require_reasoned_terminal rows name "dsq_perf_fairness_gate"
   else Ok tt) ;;;
  (if String.eqb name "runtime-alert-nr-rejected" then
     alert_loop name "nr_rejected" "nonzero nr_rejected" "runtime_nr_rejected_nonzero" rejected_sample rows ;;;
     require_reasoned_terminal rows name "runtime_nr_rejected_nonzero"
   else Ok tt) ;;;
  (if String.eqb name "runtime-alert-workload-dead" then
     alert_loop name "workload_dead" "workload_alive=false" "runtime_workload_dead" dead_sample rows ;;;
     require_reasoned_terminal rows name "runtime_workload_dead"
   else Ok tt) ;;;
  (if String.eqb name "malformed-runtime-sample"
   then require_reasoned_terminal rows name "malformed_runtime_sample" else Ok tt) ;;;
  (if String.eqb name "privacy-runtime-variant"
   then require_reasoned_terminal rows name "private_fields_rejected" else Ok tt) ;;;
  (if String.eqb name "release-ineligible" then
     reject_pass rows name ;;;
     reject_forbidden_strings rows name RELEASE_INELIGIBLE_FORBIDDEN_TEXT ;;;
     ensure (existsb (fun row => py_eq (get row "event") (JStr "validation")
                                 && py_eq (get row "state") (JStr "release_ineligible")) rows)
       ContractPackError "release-ineligible missing validation release_ineligible state" ;;;
     require_reasoned_terminal rows name "release_ineligible"
   else Ok tt).
End Scenario.

(** [validate_replay] on the rows of the two cursor scenarios. *)
Definition validate_replay (event_rows runtime_rows : list jobject) : result unit :=
  let* first := match event_rows with row :: _ => Ok row | [] => raise IndexError "list index out of range" end in
  ensure (negb (negb (py_eq (get first "seq") (JInt 2))
                || existsb (fun row => negb (py_eq (get row "replay_cursor") (JStr "event_seq"))) event_rows))
    ContractPackError "event replay fixture does not prove event-seq cursor semantics" ;;;
  let sample_rows := List.filter (fun row => py_eq (get row "event") (JStr "runtime_sample")) runtime_rows in
  ensure (match sample_rows with
          | [sample] => py_eq (get sample "sample_sequence") (JInt 2)
                        && py_eq (get sample "replay_cursor") (JStr "runtime_sample_sequence")
          | _ => false
          end) ContractPackError "runtime replay fixture does not prove sample-seq cursor semantics".

(** * Specification *)

(** A row of the event stream: its event and its status are texts. *)
Definition event_row (row : jobject) : Prop :=
  (exists e, get row "event" = JStr e) /\ exists s, get row "status" = JStr s.

Definition terminal (reason : string) (row : jobject) : Prop :=
  get row "reason" = JStr reason /\ text_in row "event" ["incident"; "refusal"]
  /\ (text_in row "status" ["REFUSE"; "refused"; "unsafe_to_assume"; "INCIDENT"]
      \/ get row "state" = JStr "unsafe_to_assume").

Definition refusal_row (row : jobject) : Prop :=
  get row "event" = JStr "refusal" /\ text_in row "status" ["REFUSE"; "refused"].

Definition names_one (needles : list string) (row : jobject) : Prop :=
  exists s needle a b, get row "artifact" = JStr s /\ In needle needles /\ s = a ++ needle ++ b.

Definition no_pass (row : jobject) : Prop := get row "status" <> JStr "PASS".

(** No text of the row has a needle, ignoring case. *)
Definition says_none (needles : list string) (row : jobject) : Prop :=
  forall s needle, TextIn s (JDict row) -> In needle needles -> ~ exists a b, lower s = a ++ needle ++ b.

Definition failed (event reason : string) (row : jobject) : Prop :=
  get row "event" = JStr event /\ get row "status" = JStr "FAIL" /\ get row "reason" = JStr reason.

(** A row with [P] comes later than a row with [Q]. *)
Definition followed (Q P : jobject -> Prop) (rows : list jobject) : Prop :=
  exists before row after, rows = (before ++ row :: after)%list /\ Q row /\ List.Exists P after.

(** A row with [Q] exists, and no row before the first one has [P]. *)
Definition preceded (Q P : jobject -> Prop) (rows : list jobject) : Prop :=
  exists before row after, rows = (before ++ row :: after)%list /\ Q row /\ Forall (fun r => ~ P r) before.

(** The value [int_field] reads. *)
Definition int_text (v : json) (n : Z) : Prop :=
  as_int v = Some n \/ exists s, v = JStr s /\ isdecimal s = true /\ len s <= MAX_STR_DIGITS /\ n = dec_value 0 s.
Definition readable (row : jobject) : Prop :=
  get row "event" = JStr "runtime_sample" ->
  forall s, get row "nr_rejected" = JStr s -> isdecimal s = true -> len s <= MAX_STR_DIGITS.
Definition rejects (row : jobject) : Prop :=
  get row "event" = JStr "runtime_sample" /\ exists n, int_text (get row "nr_rejected") n /\ (0 < n)%Z.
Definition dead (row : jobject) : Prop :=
  get row "event" = JStr "runtime_sample" /\ get row "workload_alive" = JBool false.

(** A row refers to a matrix manifest that the matrix gate accepts. *)
Definition matrix_row (row : jobject) : Prop :=
  get row "event" = JStr "validation" /\ get row "reason" = JStr "matrix_artifact_referenced".
Definition referenced (F : fs) (tmp : path) (row : jobject) : Prop :=
  exists s paths, get row "artifact" = JStr s /\ s <> "" /\ name (Path s) = "manifest.json"
    /\ get row "artifact_paths" = JList paths /\ In (JStr s) paths
    /\ validate_referenced_matrix_manifest F tmp (Path s) = Ok tt.

Definition plain_reason (row : jobject) : Prop :=
  forall s, get row "reason" = JStr s -> ~ exists a b, s = a ++ "." ++ b.

(** What the scenario of a name must show. *)
Record scenario_ok (F : fs) (tmp : path) (name : string) (rows : list jobject) : Prop := {
  sc_reasons : Forall plain_reason rows;
  sc_refused : forall reason, In (name, reason) (PREREQUISITE_SCENARIOS ++ RPC_SCENARIOS ++ REPLAY_ROW_SCENARIOS)%list ->
    List.Exists refusal_row rows /\ List.Exists (terminal reason) rows;
  sc_cgroup : forall reason, In (name, reason) CGROUP_RACE_SCENARIOS ->
    List.Exists (terminal reason) rows /\ List.Exists (names_one ["cgroup-race/"]) rows;
  sc_matrix : name = "matrix-artifact-reference" ->
    List.Exists matrix_row rows /\ Forall (fun row => matrix_row row -> referenced F tmp row) rows;
  sc_bpf : forall reason, In (name, reason) BPF_SCENARIOS ->
    List.Exists (terminal reason) rows /\ List.Exists (names_one ["/bpf/"; "/scx/"]) rows;
  sc_workload : forall reason, In (name, reason) WORKLOAD_SCENARIOS ->
    List.Exists (terminal reason) rows /\ List.Exists (names_one ["/workloads/"; "/runtime/"]) rows;
  sc_attestation : forall reason, In (name, reason) ATTESTATION_SCENARIOS ->
    List.Exists (terminal reason) rows /\ Forall no_pass rows /\ List.Exists (names_one ["/missing-attestation/"]) rows;
  sc_failed : forall event reason, In (name, (event, reason)) FAILED_PROOF_SCENARIOS ->
    followed (failed event reason) (terminal reason) rows;
  sc_target : forall reason, In (name, reason) TARGET_REFUSAL_SCENARIOS ->
    List.Exists (terminal reason) rows /\ Forall no_pass rows /\ List.Exists refusal_row rows;
  sc_dsq : name = "dsq-perf-fairness-gate" ->
    Forall no_pass rows /\ Forall (says_none RELEASE_PROOF_FORBIDDEN_TEXT) rows
    /\ List.Exists (terminal "dsq_perf_fairness_gate") rows;
  sc_rejected : name = "runtime-alert-nr-rejected" ->
    Forall readable rows /\ preceded rejects (terminal "runtime_nr_rejected_nonzero") rows
    /\ List.Exists (terminal "runtime_nr_rejected_nonzero") rows;
  sc_dead : name = "runtime-alert-workload-dead" ->
    preceded dead (terminal "runtime_workload_dead") rows /\ List.Exists (terminal "runtime_workload_dead") rows;
  sc_malformed : name = "malformed-runtime-sample" -> List.Exists (terminal "malformed_runtime_sample") rows;
  sc_privacy : name = "privacy-runtime-variant" -> List.Exists (terminal "private_fields_rejected") rows;
  sc_release : name = "release-ineligible" ->
    Forall no_pass rows /\ Forall (says_none RELEASE_INELIGIBLE_FORBIDDEN_TEXT) rows
    /\ List.Exists (fun row => get row "event" = JStr "validation" /\ get row "state" = JStr "release_ineligible") rows
    /\ List.Exists (terminal "release_ineligible") rows;
}.

(** * Lemmas *)
Lemma in_text_set d f l s : get d f = JStr s -> in_set (get d f) l = Ok (mem s l) /\ (mem s l = true <-> text_in d f l).
Proof.
  intros E. rewrite E, mem_In. unfold text_in. rewrite E. split; [done|]. naive_solver.
Qed.

Lemma terminal_reads row reason : event_row row ->
  exists b, is_reasoned_terminal row reason = Ok b /\ (b = true <-> terminal reason row).
Proof.
  intros [[e He] [s Hs]]. unfold is_reasoned_terminal, terminal. setoid_rewrite <- (py_eq_str (get row "reason") reason).
  destruct (py_eq _ (JStr reason)); cbn [negb]; [|exists false; split; [done | naive_solver]].
  destruct (in_text_set _ _ ["incident"; "refusal"] _ He) as [-> Hi]. cbn [bind].
  setoid_rewrite <- Hi. destruct (mem e _); cbn [negb]; [|exists false; split; [done | naive_solver]].
  destruct (in_text_set _ _ ["REFUSE"; "refused"; "unsafe_to_assume"; "INCIDENT"] _ Hs) as [-> Hb]. cbn [bind].
  eexists. split; [done|]. rewrite orb_true_iff, Hb, py_eq_str. naive_solver.
Qed.
Lemma refusal_reads row : event_row row -> exists b, visible_refusal row = Ok b /\ (b = true <-> refusal_row row).
Proof.
  intros [_ [s Hs]]. unfold visible_refusal, refusal_row. setoid_rewrite <- (py_eq_str (get row "event") "refusal").
  destruct (py_eq _ _); [|exists false; split; [done | naive_solver]].
  destruct (in_text_set _ _ ["REFUSE"; "refused"] _ Hs) as [-> Hb]. eexists. split; [done|]. rewrite Hb. naive_solver.
Qed.

(** A test that some row satisfies. *)
Lemma any_row (f : jobject -> result bool) (P : jobject -> Prop) rows m :
  (forall row, event_row row -> exists b, f row = Ok b /\ (b = true <-> P row)) -> Forall event_row rows ->
  (let* found := any_m f rows in ensure found ContractPackError m) = Ok tt <-> List.Exists P rows.
Proof.
  intros Hf Hrows. destruct (any_m_ok f P rows) as (b & -> & Hb); [by eapply Forall_impl|].
  simpl. by rewrite ensure_ok, Hb.
Qed.

Lemma followed_cons Q P row rows : followed Q P (row :: rows) <-> Q row /\ List.Exists P rows \/ followed Q P rows.
Proof.
  unfold followed. split.
  - intros ([|r before] & q & after & [= -> ->] & Hq & Hp); [by left|]. right. by exists before, q, after.
  - intros [[Hq Hp]|(before & q & after & -> & Hq & Hp)]; [by exists [], row, rows | by exists (row :: before), q, after].
Qed.
Lemma followed_later Q P rows : followed Q P rows -> List.Exists P rows.
Proof.
  intros (before & q & after & -> & _ & Hp). apply List.Exists_app. right. by apply List.Exists_cons_tl.
Qed.
Lemma failed_row_iff row e r : failed_row row e r = true <-> failed e r row.
Proof. unfold failed_row, failed. rewrite !andb_true_iff, !py_eq_str. tauto. Qed.
Lemma failed_proof_iff rows name e r : Forall event_row rows ->
  require_failed_proof_incident rows name e r = Ok tt <-> followed (failed e r) (terminal r) rows.
Proof.
  unfold require_failed_proof_incident. induction 1 as [|row rows Hrow Hrows IH]; simpl.
  - split; [discriminate | by intros ([|] & ? & ? & [=] & _)].
  - rewrite followed_cons, <- failed_row_iff. destruct (failed_row row e r).
    + rewrite (any_row _ (terminal r)); [|intros; by apply terminal_reads | done].
      split; [by left | intros [[_ H]|H]; [done | by apply followed_later in H]].
    + rewrite IH. naive_solver.
Qed.

Lemma preceded_cons Q P row rows : preceded Q P (row :: rows) <-> Q row \/ ~ P row /\ preceded Q P rows.
Proof.
  unfold preceded. split.
  - intros ([|r before] & q & after & [= -> ->] & Hq & Hp); [by left|]. inversion Hp; subst.
    right. split; [done|]. by exists before, q, after.
  - intros [Hq|(Hp & before & q & after & -> & Hq & Hps)]; [exists [], row, rows; by split_and!|].
    exists (row :: before), q, after. split_and!; [done | done | by constructor].
Qed.
Lemma alert_iff name label missing reason is_sample (Q : jobject -> Prop) rows :
  (forall row, is_sample row = Ok true <-> Q row) -> Forall event_row rows ->
  alert_loop name label missing reason is_sample rows = Ok tt <->
  Forall (fun row => exists b, is_sample row = Ok b) rows /\ preceded Q (terminal reason) rows.
Proof.
  intros HQ Hrows. unfold alert_loop.
  set (body := fun (_ : nat) row (sample_seen : bool) => _).
  assert (H : forall i seen, (let* s := for_fold i rows seen body in
      ensure s ContractPackError (name ++ " missing " ++ missing ++ " runtime_sample")) = Ok tt <->
    Forall (fun row => exists b, is_sample row = Ok b) rows /\ (seen = true \/ preceded Q (terminal reason) rows));
    [|rewrite (H 0 false); naive_solver].
  induction Hrows as [|row rows Hrow _ IH]; intros i seen; cbn [for_fold].
  - cbn [bind]. rewrite ensure_ok, Forall_nil. split; [by intros H; split; [|left]|].
    by intros [_ [H|([|] & ? & ? & [=] & _)]].
  - rewrite Forall_cons, preceded_cons, <- HQ. unfold body at 1.
    destruct (is_sample row) as [b|e]; [|split; [discriminate | by intros [[[? [=]] _] _]]].
    destruct (terminal_reads row reason Hrow) as (t & Ht & Hp). cbn [bind]. rewrite Ht, <- Hp. cbn [bind].
    destruct t, b, seen; cbn [andb orb negb ensure bind]; rewrite ?IH; naive_solver.
Qed.

(** A decimal text is the only value that can be too long to read. *)
Lemma int_field_spec row f :
  match int_field row f with
  | Ok o => (forall n, o = Some n <-> int_text (get row f) n)
            /\ forall s, get row f = JStr s -> isdecimal s = true -> len s <= MAX_STR_DIGITS
  | Err _ => exists s, get row f = JStr s /\ isdecimal s = true /\ MAX_STR_DIGITS < len s
  end.
Proof.
  unfold int_field, int_text. destruct (get row f) as [|b|z| |s| |]; cbn [as_int bind]; try (split; naive_solver).
  destruct (isdecimal s) eqn:Hd; [|cbn [bind]; split; naive_solver congruence].
  destruct (int_of_digits s) as [n|e] eqn:En; cbn [bind].
  - apply int_of_digits_ok in En as [Hl ->]. split; naive_solver.
  - exists s. split; [done|]. split; [done|]. unfold int_of_digits in En.
    destruct (Nat.ltb MAX_STR_DIGITS (len s)) eqn:Hl; [by apply Nat.ltb_lt | discriminate].
Qed.
Lemma rejected_total row : (exists b, rejected_sample row = Ok b) <-> readable row.
Proof.
  unfold rejected_sample, readable. setoid_rewrite <- (py_eq_str (get row "event") "runtime_sample").
  destruct (py_eq _ _); [|naive_solver]. assert (H := int_field_spec row "nr_rejected").
  destruct (int_field row "nr_rejected") as [o|e]; cbn [bind].
  - destruct H as [_ H]. split; [done | by eexists].
  - destruct H as (s & Hs & Hd & Hl). split; [by intros [? [=]]|]. intros Hr. specialize (Hr eq_refl s Hs Hd). lia.
Qed.
Lemma rejected_iff row : rejected_sample row = Ok true <-> rejects row.
Proof.
  unfold rejected_sample, rejects. rewrite <- (py_eq_str (get row "event") "runtime_sample").
  destruct (py_eq _ _); [|naive_solver]. assert (H := int_field_spec row "nr_rejected").
  destruct (int_field row "nr_rejected") as [o|e]; cbn [bind].
  - destruct H as [H _]. rewrite Ok_inj. setoid_rewrite <- H. destruct o as [n|]; [|naive_solver].
    rewrite Z.ltb_lt. naive_solver.
  - destruct H as (s & Hs & Hd & Hl). split; [discriminate|]. intros (_ & n & [Hn|(s' & Hs' & _ & Hl' & _)] & _).
    + by rewrite Hs in Hn.
    + rewrite Hs in Hs'. injection Hs' as ->. lia.
Qed.
Lemma dead_iff row : dead_sample row = Ok true <-> dead row.
Proof. unfold dead_sample, dead. by rewrite Ok_inj, andb_true_iff, py_eq_str, is_false_iff. Qed.

Lemma no_pass_iff rows scenario : reject_pass rows scenario = Ok tt <-> Forall no_pass rows.
Proof.
  unfold reject_pass, no_pass. rewrite for_each_ok, !Forall_forall. setoid_rewrite ensure_ok.
  setoid_rewrite negb_true_iff. setoid_rewrite <- not_true_iff_false. by setoid_rewrite py_eq_str.
Qed.

Lemma string_values_iff s v : In s (string_values v) <-> TextIn s v.
Proof.
  induction v as [| | | |t|l IH|d IH] using json_nested_ind; cbn [string_values];
    try (split; [done | by inversion 1]).
  - simpl. split; [intros [<-|[]]; constructor | inversion 1; by left].
  - rewrite in_flat_map. rewrite Forall_forall in IH. setoid_rewrite list_elem_of_In in IH. split.
    + intros (v & Hv & Hs). econstructor; [done | by apply IH].
    + inversion 1 as [| |? v Hv Hs]; subst. exists v. split; [done | by apply IH].
  - rewrite in_flat_map. rewrite Forall_forall in IH. setoid_rewrite list_elem_of_In in IH. split.
    + intros ([k v] & Hv & Hs). eapply TextIn_dict; [done | by apply (IH (k, v))].
    + inversion 1 as [|? k v Hv Hs|]; subst. exists (k, v). split; [done | by apply (IH (k, v))].
Qed.
Lemma forbidden_iff rows scenario needles :
  reject_forbidden_strings rows scenario needles = Ok tt <-> Forall (says_none needles) rows.
Proof.
  unfold reject_forbidden_strings, says_none. rewrite for_each_ok. apply Forall_proper; [|done]. intros row.
  rewrite for_each_ok, Forall_forall. setoid_rewrite list_elem_of_In. setoid_rewrite string_values_iff.
  setoid_rewrite ensure_ok. setoid_rewrite negb_true_iff. setoid_rewrite <- not_true_iff_false.
  setoid_rewrite existsb_exists. setoid_rewrite contains_iff. naive_solver.
Qed.
Lemma names_iff needles rows m : require_artifact_name needles rows m = Ok tt <-> List.Exists (names_one needles) rows.
Proof.
  unfold require_artifact_name, names_one. rewrite ensure_ok, existsb_exists, List.Exists_exists. f_equiv. intros row.
  apply and_iff_compat_l. unfold artifact_names.
  destruct (get row "artifact"); try (split; [discriminate | by intros (? & ? & ? & ? & [=] & _)]).
  rewrite existsb_exists. setoid_rewrite contains_iff. naive_solver.
Qed.

Lemma reference_iff F tmp row c : (exists p, require_matrix_manifest_reference F tmp row c = Ok p) <-> referenced F tmp row.
Proof.
  unfold require_matrix_manifest_reference, referenced.
  destruct (get row "artifact") as [| | | |s| |]; try (split; [by intros [? [=]] | by intros (? & ? & [=] & _)]).
  destruct (String.eqb_spec s "") as [->|Hs]; [split; [by intros [? [=]] | by intros (? & ? & [= <-] & ? & _)]|].
  cbv zeta. setoid_rewrite bind_ok_unit. setoid_rewrite bind_ok_unit. setoid_rewrite bind_ok_unit.
  setoid_rewrite ensure_ok. setoid_rewrite reraise_ok. setoid_rewrite String.eqb_eq.
  assert (Hp : match get row "artifact_paths" with JList l => existsb (fun v => py_eq v (JStr s)) l | _ => false end = true <->
    exists paths, get row "artifact_paths" = JList paths /\ In (JStr s) paths).
  { destruct (get row "artifact_paths"); try (split; [discriminate | by intros (? & [=] & _)]).
    rewrite existsb_exists. setoid_rewrite py_eq_str. naive_solver. }
  setoid_rewrite Hp. split.
  - intros (p & Hn & (paths & Hg & Hin) & Hv & _). by exists s, paths.
  - intros (s' & paths & [= <-] & _ & Hn & Hg & Hin & Hv). exists (Path s). split; [done|]. split; [by exists paths | done].
Qed.

Lemma matrix_rows_iff F tmp name rows : validate_matrix_artifact_reference F tmp name rows = Ok tt <->
  List.Exists matrix_row rows /\ Forall (fun row => matrix_row row -> referenced F tmp row) rows.
Proof.
  unfold validate_matrix_artifact_reference. set (body := fun (_ : nat) row (seen_manifest : bool) => _).
  assert (H : forall i seen, (let* s := for_fold i rows seen body in
      ensure s ContractPackError (name ++ " must validate a matrix artifact reference")) = Ok tt <->
    (seen = true \/ List.Exists matrix_row rows) /\ Forall (fun row => matrix_row row -> referenced F tmp row) rows);
    [|rewrite (H 0 false); naive_solver].
  induction rows as [|row rows IH]; intros i seen; cbn [for_fold].
  - cbn [bind]. rewrite ensure_ok, Forall_nil, List.Exists_nil. tauto.
  - rewrite Forall_cons, List.Exists_cons, <- (reference_iff F tmp row name). unfold body at 1.
    assert (Hm : py_eq (get row "event") (JStr "validation") && py_eq (get row "reason") (JStr "matrix_artifact_referenced")
      = true <-> matrix_row row) by (unfold matrix_row; by rewrite andb_true_iff, !py_eq_str).
    destruct (_ && _).
    + destruct (require_matrix_manifest_reference F tmp row name) as [p|e]; cbn [bind].
      * rewrite IH. naive_solver.
      * split; [discriminate|]. intros [_ [H _]]. by destruct (H (proj1 Hm eq_refl)).
    + cbn [bind]. rewrite IH. assert (~ matrix_row row) by (by rewrite <- Hm). naive_solver.
Qed.

Lemma undotted_iff name rows : for_each rows (fun row =>
    let reason := get row "reason" in
    match reason with
    | JStr reason =>
        ensure (negb (contains "." reason)) ContractPackError (name ++ " uses dotted namespace label as v1 reason: " ++ reason)
    | _ => Ok tt
    end ;;;
    ensure (negb (existsb (fun label => py_eq reason (JStr label)) DOTTED_NAMESPACE_LABELS)) ContractPackError
      (name ++ " uses documentation-only namespace label as v1 reason: " ++ py_str reason)) = Ok tt <->
  Forall plain_reason rows.
Proof.
  rewrite for_each_ok. apply Forall_proper; [|done]. intros row. unfold plain_reason. cbv zeta.
  assert (Hl : forall v, (forall s, v = JStr s -> ~ exists a b, s = a ++ "." ++ b) ->
    negb (existsb (fun label => py_eq v (JStr label)) DOTTED_NAMESPACE_LABELS) = true).
  { intros v Hv. apply negb_true_iff, not_true_iff_false. rewrite existsb_exists. intros (label & Hin & ->%py_eq_str).
    apply (Hv label eq_refl). apply contains_iff.
    assert (Hall : forallb (contains ".") DOTTED_NAMESPACE_LABELS = true) by done.
    by apply (proj1 (forallb_forall _ _) Hall). }
  rewrite bind_ok_unit, ensure_ok. destruct (get row "reason") as [| | | |s| |] eqn:E;
    try (split; [by intros _ ? [=] | intros H; split; [done | by apply Hl]]).
  rewrite ensure_ok, negb_true_iff, contains_false. split.
  - by intros [H _] s' [= <-].
  - intros H. split; [by apply H | by apply Hl].
Qed.

Lemma terminals_iff rows scenario reason : Forall event_row rows ->
  require_reasoned_terminal rows scenario reason = Ok tt <-> List.Exists (terminal reason) rows.
Proof. intros H. apply any_row; [intros; by apply terminal_reads | done]. Qed.
Lemma refusals_iff rows m : Forall event_row rows ->
  require_visible_refusal rows m = Ok tt <-> List.Exists refusal_row rows.
Proof. intros H. apply any_row; [apply refusal_reads | done]. Qed.
Lemma when_name name lit (body : result unit) :
  (if String.eqb name lit then body else Ok tt) = Ok tt <-> (name = lit -> body = Ok tt).
Proof. destruct (String.eqb_spec name lit); naive_solver. Qed.
Lemma seq_when name lit (body k : result unit) :
  ((if String.eqb name lit then body else Ok tt) ;;; k) = Ok tt <-> (name = lit -> body = Ok tt) /\ k = Ok tt.
Proof. by rewrite bind_ok_unit, when_name. Qed.

(** The scenarios of a table with the same kind of refusal. *)
Lemma refused_iff name table rows m : NoDup (map fst table) -> Forall event_row rows ->
  match assoc name table with
  | Some reason => require_visible_refusal rows m ;;; require_reasoned_terminal rows name reason
  | None => Ok tt
  end = Ok tt <->
  forall reason, In (name, reason) table -> List.Exists refusal_row rows /\ List.Exists (terminal reason) rows.
Proof.
  intros Hn Hrows. rewrite when_assoc by done. apply forall_proper. intros reason. apply Morphisms_Prop.iff_iff_iff_impl_morphism; [done|].
  by rewrite bind_ok_unit, refusals_iff, terminals_iff.
Qed.
Lemma witnessed_iff name table rows needles m : NoDup (map fst table) -> Forall event_row rows ->
  match assoc name table with
  | Some reason => require_reasoned_terminal rows name reason ;;; require_artifact_name needles rows m
  | None => Ok tt
  end = Ok tt <->
  forall reason, In (name, reason) table -> List.Exists (terminal reason) rows /\ List.Exists (names_one needles) rows.
Proof.
  intros Hn Hrows. rewrite when_assoc by done. apply forall_proper. intros reason. apply Morphisms_Prop.iff_iff_iff_impl_morphism; [done|].
  by rewrite bind_ok_unit, terminals_iff, names_iff.
Qed.
Ltac distinct := by apply (bool_decide_unpack _); vm_compute.

Lemma alerts_iff name rows : Forall event_row rows ->
  (alert_loop name "nr_rejected" "nonzero nr_rejected" "runtime_nr_rejected_nonzero" rejected_sample rows ;;;
   require_reasoned_terminal rows name "runtime_nr_rejected_nonzero") = Ok tt <->
  Forall readable rows /\ preceded rejects (terminal "runtime_nr_rejected_nonzero") rows
  /\ List.Exists (terminal "runtime_nr_rejected_nonzero") rows.
Proof.
  intros H. rewrite bind_ok_unit, (alert_iff _ _ _ _ _ rejects), terminals_iff by (done || apply rejected_iff).
  assert (Hr : Forall (fun row => exists b, rejected_sample row = Ok b) rows <-> Forall readable rows)
    by (apply Forall_proper; [intros row; apply rejected_total | done]).
  rewrite Hr. tauto.
Qed.
Lemma deaths_iff name rows : Forall event_row rows ->
  (alert_loop name "workload_dead" "workload_alive=false" "runtime_workload_dead" dead_sample rows ;;;
   require_reasoned_terminal rows name "runtime_workload_dead") = Ok tt <->
  preceded dead (terminal "runtime_workload_dead") rows /\ List.Exists (terminal "runtime_workload_dead") rows.
Proof.
  intros H. rewrite bind_ok_unit, (alert_iff _ _ _ _ _ dead), terminals_iff by (done || apply dead_iff).
  assert (Hr : Forall (fun row => exists b, dead_sample row = Ok b) rows) by (apply Forall_forall; intros; by eexists).
  tauto.
Qed.
Lemma release_iff rows : Forall event_row rows ->
  (reject_pass rows "release-ineligible" ;;;
   reject_forbidden_strings rows "release-ineligible" RELEASE_INELIGIBLE_FORBIDDEN_TEXT ;;;
   ensure (existsb (fun row => py_eq (get row "event") (JStr "validation")
                               && py_eq (get row "state") (JStr "release_ineligible")) rows)
     ContractPackError "release-ineligible missing validation release_ineligible state" ;;;
   require_reasoned_terminal rows "release-ineligible" "release_ineligible") = Ok tt <->
  Forall no_pass rows /\ Forall (says_none RELEASE_INELIGIBLE_FORBIDDEN_TEXT) rows
  /\ List.Exists (fun row => get row "event" = JStr "validation" /\ get row "state" = JStr "release_ineligible") rows
  /\ List.Exists (terminal "release_ineligible") rows.
Proof.
  intros H. rewrite !bind_ok_unit, no_pass_iff, forbidden_iff, ensure_ok, terminals_iff by done.
  rewrite existsb_exists, (List.Exists_exists (fun row => get row "event" = JStr "validation" /\ _)).
  setoid_rewrite andb_true_iff. setoid_rewrite py_eq_str. done.
Qed.

Lemma scenario_iff F tmp name rows : Forall event_row rows ->
  validate_scenario_semantics F tmp name rows = Ok tt <-> scenario_ok F tmp name rows.
Proof.
  intros H. unfold validate_scenario_semantics.
  rewrite bind_ok_unit, undotted_iff.
  rewrite bind_ok_unit, refused_iff by (done || distinct).
  rewrite bind_ok_unit, refused_iff by (done || distinct).
  rewrite bind_ok_unit, refused_iff by (done || distinct).
  rewrite bind_ok_unit, witnessed_iff by (done || distinct).
  rewrite bind_ok_unit, when_name, matrix_rows_iff.
  rewrite bind_ok_unit, witnessed_iff by (done || distinct).
  rewrite bind_ok_unit, witnessed_iff by (done || distinct).
  rewrite bind_ok_unit, when_assoc by distinct.
  rewrite bind_ok_unit, when_assoc by distinct.
  rewrite bind_ok_unit, when_assoc by distinct.
  rewrite !seq_when, when_name, alerts_iff, deaths_iff, !terminals_iff by done. split.
  - intros (Hr & Hp & Hrpc & Hrow & Hcg & Hm & Hbpf & Hw & Ha & Hf & Ht & Hd & Hnr & Hdead & Hmal & Hpriv & Hrel).
    split; try done.
    + intros reason. rewrite !in_app_iff. naive_solver.
    + intros reason Hin. specialize (Ha reason Hin). rewrite !bind_ok_unit, terminals_iff, no_pass_iff, names_iff in Ha by done. done.
    + intros e reason Hin. specialize (Hf _ Hin). by apply failed_proof_iff in Hf.
    + intros reason Hin. specialize (Ht reason Hin). rewrite !bind_ok_unit, terminals_iff, no_pass_iff, refusals_iff in Ht by done. done.
    + intros E. specialize (Hd E). rewrite !bind_ok_unit, no_pass_iff, forbidden_iff, terminals_iff in Hd by done. done.
    + intros ->. specialize (Hrel eq_refl). by apply release_iff in Hrel.
  - intros [Hr Hp Hcg Hm Hbpf Hw Ha Hf Ht Hd Hnr Hdead Hmal Hpriv Hrel]. setoid_rewrite in_app_iff in Hp.
    setoid_rewrite in_app_iff in Hp. split_and!; try done; try (intros reason Hin; apply Hp; tauto).
    + intros reason Hin. rewrite !bind_ok_unit, terminals_iff, no_pass_iff, names_iff by done. by apply Ha.
    + intros [e reason] Hin. apply failed_proof_iff; [done | by apply Hf].
    + intros reason Hin. rewrite !bind_ok_unit, terminals_iff, no_pass_iff, refusals_iff by done. by apply Ht.
    + intros E. rewrite !bind_ok_unit, no_pass_iff, forbidden_iff, terminals_iff by done. by apply Hd.
    + intros ->. apply release_iff; [done | by apply Hrel].
Qed.
