(* ===== verification/FrontendPack.v ===== *)
(** FrontendPack: qa/frontend_contract_pack_check.py and the types module it
    shares with its helpers: the fixture pack a client of the daemon is tested
    against, with its documents, its schema and its incident codes. *)
From S2P Require Import Prelude PyStr PyRe PyFloat PyJson Sha256 PyFs PyMain DaemonEvent MatrixModel MatrixManifest Fields FrontendSemantics.

Local Open Scope string_scope.

Definition EVENT_SCHEMA : string := "zig-scheduler/daemon-event/v1".

Record Args : Set := MkArgs { fixtures : path; schemas : path; docs : path; self_test_arg : bool }.

Definition PRIVATE_KEY_NEEDLES : list string := [
  "cmdline"; "command_line"; "argv"; "environment"; "env"; "secret"; "api_key"; "private_key"; "token"; "authorization";
  "bearer"; "password"].
Definition PRIVATE_TEXT_NEEDLES : list string := [
  "cmdline"; "command_line"; "argv"; "environment"; dumps_str "env"; "secret"; "api_key"; "private_key"; "command_line";
  "authorization"; "bearer"; "password"].

(** [[\s_.\/-]], [[\s:=_.\/-]] *)
Definition separator (c : ascii) : bool := is_space c || one_of "_./-" c.
Definition assignment (c : ascii) : bool := is_space c || one_of ":=_./-" c.
Definition rvalue : regex := rseq [rplus (RChar assignment); rplus (RChar (fun c => negb (is_space c)))].
Definition SENSITIVE_VALUE_RE : regex :=
  ralt [
    rseq [RWordB; ropt (rseq [rlit_ci "access"; rplus (RChar separator)]); rlit_ci "token"; RWordB; rvalue];
    rseq [RWordB; rlit_ci "credential"; rplus (RChar assignment); rlit_ci "token"; RWordB];
    rseq [RWordB;
          ralt [rlit_ci "password"; rlit_ci "auth"; rlit_ci "authorization"; rlit_ci "bearer";
                rseq [rlit_ci "api"; rstar (RChar separator); rlit_ci "key"];
                rseq [rlit_ci "private"; rstar (RChar separator); rlit_ci "key"]];
          RWordB; rvalue]].

Definition IDENTIFIER : regex := rseq [RBol; rrep 0 96 (RChar is_ident_char); REol].

Definition hex_any (c : ascii) : bool := is_digit c || between 97 102 c || between 65 70 c.
(** [(?:name[:=_-])?[0-9a-fA-F]{n}] *)
Definition named_digest (name : string) (n : nat) : regex :=
  RSeq (ropt (rseq [rlit name; RChar (one_of ":=_-")])) (rrep n 0 (RChar hex_any)).
Definition COMMAND_ARGV_HASH_RE : regex :=
  rseq [RBol; ralt [named_digest "sha1" 40; named_digest "sha224" 56; named_digest "sha256" 64; named_digest "sha384" 96;
                    named_digest "sha512" 128]; REol].

(** [^] in a pattern with [re.MULTILINE]: the start or the place after a newline. *)
Definition rline : regex := RAlt RBol (RBehind (fun c => (code c =? 10)%N)).
Definition CODE_RE : regex :=
  rseq [rline; rlit "| `"; RCap "1" (rplus (RChar (fun c => negb (Ascii.eqb c "`")))); rlit "` |"].

Definition normalized_private_text (value : string) : string :=
  map_str (fun c => if one_of "-./" c then "_"%char else c) (lower value).

Definition REQUIRED_SCHEMAS : list string :=
  ["daemon-event.v1.schema.json"; "operator-action.v1.schema.json"; "runtime-sample.v1.schema.json"].

(** ** One row *)
Definition reject_non_hash_command_argv_hash (value : json) (context : string) : result unit :=
  ensure (match value with JStr s => re_fullmatch COMMAND_ARGV_HASH_RE s | _ => false end) ContractPackError
    (context ++ " must be a hash-shaped redacted value").

Fixpoint reject_private (value : json) (context : string) {struct value} : result unit :=
  match value with
  | JDict d =>
      (fix items (d : jobject) : result unit :=
         match d with
         | [] => Ok tt
         | (key, child) :: d =>
             ensure (String.eqb key "command_argv_hash"
                     || negb (existsb (fun needle => contains needle (lower key)) PRIVATE_KEY_NEEDLES))
               ContractPackError ("privacy-unsafe key in " ++ context ++ "." ++ key) ;;;
             reject_private child (context ++ "." ++ key) ;;;
             (if String.eqb key "command_argv_hash"
              then reject_non_hash_command_argv_hash child (context ++ "." ++ key) else Ok tt) ;;;
             items d
         end) d
  | JList l =>
      (fix elems (index : nat) (l : list json) : result unit :=
         match l with
         | [] => Ok tt
         | child :: l => reject_private child (context ++ "[" ++ str_nat index ++ "]") ;;; elems (S index) l
         end) 0 l
  | JStr s =>
      ensure (negb (re_found SENSITIVE_VALUE_RE s
                    || existsb (fun needle => contains needle (normalized_private_text s)) PRIVATE_TEXT_NEEDLES))
        ContractPackError ("privacy-unsafe text in " ++ context)
  | _ => Ok tt
  end.

Definition reject_unsafe_path_text (raw context : string) : result unit :=
  ensure (negb (is_absolute (Path raw) || mem ".." (parts (Path raw)))) ContractPackError
    (context ++ " escapes repo: " ++ raw).

Fixpoint reject_artifact_path_collection (value : json) (context : string) {struct value} : result unit :=
  match value with
  | JStr s => reject_unsafe_path_text s context
  | JList l =>
      (fix elems (index : nat) (l : list json) : result unit :=
         match l with
         | [] => Ok tt
         | child :: l =>
             reject_artifact_path_collection child (context ++ "[" ++ str_nat index ++ "]") ;;; elems (S index) l
         end) 0 l
  | JDict d =>
      (fix items (d : jobject) : result unit :=
         match d with
         | [] => Ok tt
         | (key, child) :: d => reject_artifact_path_collection child (context ++ "." ++ key) ;;; items d
         end) d
  | JNull => Ok tt
  | _ => fail (context ++ " must contain path text")
  end.

Fixpoint reject_unsafe_artifact_paths (value : json) (context : string) {struct value} : result unit :=
  match value with
  | JDict d =>
      (fix items (d : jobject) : result unit :=
         match d with
         | [] => Ok tt
         | (key, child) :: d =>
             (if String.eqb key "artifact_paths" then reject_artifact_path_collection child (context ++ "." ++ key)
              else reject_unsafe_artifact_paths child (context ++ "." ++ key)) ;;;
             items d
         end) d
  | JList l =>
      (fix elems (index : nat) (l : list json) : result unit :=
         match l with
         | [] => Ok tt
         | child :: l =>
             reject_unsafe_artifact_paths child (context ++ "[" ++ str_nat index ++ "]") ;;; elems (S index) l
         end) 0 l
  | _ => Ok tt
  end.

Definition require_safe_path (row : jobject) (field context : string) : result unit :=
  match get row field with
  | JNull => Ok tt
  | JStr raw => if String.eqb raw "" then Ok tt else reject_unsafe_path_text raw (context ++ "." ++ field)
  | _ => fail (context ++ "." ++ field ++ " must be a string")
  end.

Definition validate_identifier (row : jobject) (field context : string) : result unit :=
  match get row field with
  | JNull => Ok tt
  | JStr raw =>
      if String.eqb raw "" then Ok tt
      else ensure (re_fullmatch IDENTIFIER raw) ContractPackError (context ++ "." ++ field ++ " is not a stable identifier")
  | _ => fail (context ++ "." ++ field ++ " is not a stable identifier")
  end.

(** The required fields, the properties and the events of the schema. *)
Record surface : Set := Surface { required : list string; properties : list string; event_enum : list string }.

Definition strings_of (l : list json) : list string := omap (fun v => match v with JStr s => Some s | _ => None end) l.

Definition schema_properties (event_schema : jobject) : result surface :=
  match get event_schema "required", get event_schema "properties" with
  | JList raw_required, JDict raw_properties =>
      let event_enum :=
        match get raw_properties "event" with
        | JDict event_property => match get event_property "enum" with JList raw_enum => strings_of raw_enum | _ => [] end
        | _ => []
        end in
      match event_enum with
      | [] => fail "daemon-event schema missing event enum"
      | _ => Ok (Surface (strings_of raw_required) (keys raw_properties) event_enum)
      end
  | _, _ => fail "daemon-event schema missing required/properties"
  end.

Definition validate_schema_surface (row : jobject) (schema : surface) (context : string) : result unit :=
  let missing := sorted (List.filter (fun field => negb (has_key field row)) (dedup (required schema))) in
  ensure (match missing with [] => true | _ => false end) ContractPackError (context ++ " missing schema-required field(s): " ++ join ", " missing) ;;;
  let extra := sorted (List.filter (fun field => negb (mem field (properties schema))) (keys row)) in
  ensure (match extra with [] => true | _ => false end) ContractPackError (context ++ " field(s) absent from daemon-event schema: " ++ join ", " extra) ;;;
  ensure (match get row "event" with JStr event => mem event (event_enum schema) | _ => false end) ContractPackError
    (context ++ " event absent from daemon-event schema enum: " ++ py_str (get row "event")).

Definition INCIDENT_STATUSES : list string := ["INCIDENT"; "REFUSE"; "refused"; "unsafe_to_assume"; "FAIL"].

(** [raw in (None, "")] is decided by the readers above; a reason is looked up
    when the row is an incident or a refusal. *)
Definition validate_row (p : path) (codes : list string) (schema : surface) (row : jobject) (expected_seq : Z) : result Z :=
  let context := path_str p ++ ":" ++ py_str (get_or row "seq" (JStr "?")) in
  reject_private (JDict row) context ;;;
  reject_unsafe_artifact_paths (JDict row) context ;;;
  validate_schema_surface row schema context ;;;
  ensure (py_eq (get row "schema") (JStr EVENT_SCHEMA)) ContractPackError (context ++ " bad schema") ;;;
  ensure (py_eq (get row "seq") (JInt expected_seq)) ContractPackError
    (context ++ " nonmonotonic seq: expected " ++ str_Z expected_seq) ;;;
  ensure (is_false (get row "host_mutation")) ContractPackError (context ++ " host_mutation must be false") ;;;
  ensure (is_str (get row "event") && is_str (get row "status")) ContractPackError (context ++ " missing event/status") ;;;
  for_each ["action_id"; "target_id"; "target_action_id"; "rollback_id"] (fun field => validate_identifier row field context) ;;;
  for_each ["artifact"; "live_bundle_path"] (fun field => require_safe_path row field context) ;;;
  let reason := get row "reason" in
  (if negb (is_none reason) && negb (py_eq reason (JStr "")) then
     let* incident := in_set (get row "event") ["incident"; "refusal"] in
     let* needs_taxonomy := if (incident : bool) then Ok true else in_set (get row "status") INCIDENT_STATUSES in
     ensure (negb (needs_taxonomy && match reason with JStr s => negb (mem s codes) | _ => true end)) ContractPackError
       (context ++ " undocumented incident/refusal reason: " ++ py_str reason)
   else Ok tt) ;;;
  Ok (expected_seq + 1)%Z.

Definition validate_rows (p : path) (rows : list jobject) (codes : list string) (schema : surface) : result unit :=
  let* expected_seq :=
    if String.eqb (name p) "replay-event-cursor.jsonl" then
      let* first := match rows with row :: _ => Ok row | [] => raise IndexError "list index out of range" end in
      match as_int (get first "seq") with
      | None => fail "replay-event-cursor first seq must be an integer"
      | Some first_seq =>
          if (first_seq <? 2)%Z then fail "replay-event-cursor must prove a non-zero event cursor" else Ok first_seq
      end
    else Ok 1%Z in
  let* _ := for_fold 0 rows expected_seq (fun _ row expected_seq => validate_row p codes schema row expected_seq) in
  Ok tt.

(** ** The pack *)
Section Files.
Variable F : fs.
(** The temporary directory of [validate_referenced_matrix_manifest]. *)
Variable tmp : path.

Definition fixture_inventory (fixtures : path) : list string * list string :=
  let expected := map (fun name => name ++ ".jsonl") REQUIRED_SCENARIOS in
  let actual := glob_suffix F fixtures ".jsonl" in
  (sorted (set_diff expected actual), sorted (set_diff actual expected)).

Fixpoint parse_lines (p : path) (line_number : nat) (lines : list string) : result (list jobject) :=
  match lines with
  | [] => Ok []
  | line :: lines =>
      if String.eqb (strip line) "" then parse_lines p (S line_number) lines
      else
        let* row := parse_json_object line (path_str p ++ ":" ++ str_nat line_number) in
        let* rows := parse_lines p (S line_number) lines in
        Ok (row :: rows)
  end.

Definition load_jsonl (p : path) : result (list jobject) :=
  let* text := read_text F p in
  let* rows := parse_lines p 1 (splitlines text) in
  match rows with [] => fail ("empty fixture: " ++ path_str p) | _ => Ok rows end.

Definition load_codes (docs : path) : result (list string) :=
  let taxonomy := div_path docs "incident-taxonomy.md" in
  let* text := reraise FileNotFoundError ContractPackError (fun _ => "missing taxonomy doc: " ++ path_str taxonomy)
                 (read_text F taxonomy) in
  match map (group "1") (re_finditer CODE_RE text) with
  | [] => fail "incident taxonomy has no code rows"
  | codes => Ok codes
  end.

Definition require_doc (docs : path) (name : string) (needles : list string) : result unit :=
  let p := div_path docs name in
  let* text := reraise FileNotFoundError ContractPackError (fun _ => "missing doc: " ++ path_str p) (read_text F p) in
  for_each needles (fun needle =>
    ensure (contains (lower needle) (lower text)) ContractPackError (path_str p ++ " missing required text: " ++ needle)).

Definition load_event_schema (schemas : path) : result jobject :=
  let p := div_path schemas "daemon-event.v1.schema.json" in
  let* text := read_text F p in parse_json_object text (path_str p).

(** The rows of a scenario, checked; the loop collects them under their names. *)
Definition validate_fixture (args : Args) (codes : list string) (schema : surface) (name : string)
    : result (list jobject) :=
  let p := div_path (fixtures args) (name ++ ".jsonl") in
  let* rows := load_jsonl p in
  validate_rows p rows codes schema ;;;
  validate_scenario_semantics F tmp name rows ;;;
  Ok rows.

(** [rows_by_name[name]] *)
Definition rows_of (rows_by_name : list (string * list jobject)) (name : string) : result (list jobject) :=
  match assoc name rows_by_name with Some rows => Ok rows | None => raise KeyError name end.

Definition PACK_NEEDLES : list string :=
  ["backend contract"; "no frontend implementation"; "Unix-domain socket"; "JSON-RPC"; "Replay semantics"].
Definition COMPATIBILITY_NEEDLES : list string :=
  ["daemon-event/v1"; "operator-action/v1"; "runtime-sample/v1"; "breaking change"].

Definition validate (args : Args) : result unit :=
  for_each REQUIRED_SCHEMAS (fun schema_name =>
    ensure (is_file F (div_path (schemas args) schema_name)) ContractPackError ("missing schema: " ++ schema_name)) ;;;
  let* event_schema := load_event_schema (schemas args) in
  let* schema := schema_properties event_schema in
  require_doc (docs args) "frontend-api-pack.md" PACK_NEEDLES ;;;
  require_doc (docs args) "schema-compatibility.md" COMPATIBILITY_NEEDLES ;;;
  let* codes := load_codes (docs args) in
  let (missing, extra) := fixture_inventory (fixtures args) in
  ensure (match missing with [] => true | _ => false end) ContractPackError ("missing fixture(s): " ++ join ", " missing) ;;;
  ensure (match extra with [] => true | _ => false end) ContractPackError ("unlisted fixture(s): " ++ join ", " extra) ;;;
  let* rows_by_name := map_m (fun name => let* rows := validate_fixture args codes schema name in Ok (name, rows))
                         REQUIRED_SCENARIOS in
  let* event_rows := rows_of rows_by_name "replay-event-cursor" in
  let* runtime_rows := rows_of rows_by_name "replay-runtime-sample-cursor" in
  validate_replay event_rows runtime_rows.

(** [main] on what argparse reads. *)
Definition main (self_test : Args -> printed) (args : Args) : exit :=
  end_main (fun c => is_OSError c || is_class ContractPackError c) "FAIL frontend contract pack"
    (and_then (if self_test_arg args then self_test args else silent (validate args))
       (["PASS frontend contract pack: fixtures=" ++ path_str (fixtures args) ++ " docs=" ++ path_str (docs args)], Ok tt)).
End Files.

(** * Specification *)
Definition public_key (k : string) (v : json) : Prop :=
  (k = "command_argv_hash" -> exists s, v = JStr s /\ re_fullmatch COMMAND_ARGV_HASH_RE s = true)
  /\ (k <> "command_argv_hash" -> forall needle, In needle PRIVATE_KEY_NEEDLES -> ~ exists a b, lower k = a ++ needle ++ b).
Definition public_text (s : string) : Prop :=
  re_found SENSITIVE_VALUE_RE s = false
  /\ forall needle, In needle PRIVATE_TEXT_NEEDLES -> ~ exists a b, normalized_private_text s = a ++ needle ++ b.
Definition public : json -> Prop := CleanAt (fun _ => True) public_key public_text.

(** A value of [artifact_paths]: safe paths, alone or in lists and objects. *)
Inductive path_tree : json -> Prop :=
| Tree_null : path_tree JNull
| Tree_text s : plain_path (Path s) -> path_tree (JStr s)
| Tree_list l : Forall path_tree l -> path_tree (JList l)
| Tree_dict d : Forall (fun kv => path_tree (snd kv)) d -> path_tree (JDict d).
Definition safe_artifacts : json -> Prop :=
  CleanAt (fun k => k <> "artifact_paths") (fun k v => k = "artifact_paths" -> path_tree v) (fun _ => True).

Definition empty_or (d : jobject) (field : string) (P : string -> Prop) : Prop :=
  get d field = JNull \/ exists s, get d field = JStr s /\ (s = "" \/ P s).

Definition documented (codes : list string) (row : jobject) : Prop :=
  get row "reason" = JNull \/ get row "reason" = JStr ""
  \/ ~ text_in row "event" ["incident"; "refusal"] /\ ~ text_in row "status" INCIDENT_STATUSES
  \/ text_in row "reason" codes.

(** A row with the sequence number [n]. *)
Record row_ok (codes : list string) (schema : surface) (n : Z) (row : jobject) : Prop := {
  rw_public : public (JDict row);
  rw_artifacts : safe_artifacts (JDict row);
  rw_required : forall field, In field (required schema) -> has_key field row = true;
  rw_known : forall field, In field (keys row) -> In field (properties schema);
  rw_event : text_in row "event" (event_enum schema);
  rw_schema : get row "schema" = JStr EVENT_SCHEMA;
  rw_seq : py_eq (get row "seq") (JInt n) = true;
  rw_host : get row "host_mutation" = JBool false;
  rw_status : exists s, get row "status" = JStr s;
  rw_ids : forall field, In field ["action_id"; "target_id"; "target_action_id"; "rollback_id"] ->
    empty_or row field (fun s => all_chars is_ident_char s = true /\ len s <= 96);
  rw_paths : forall field, In field ["artifact"; "live_bundle_path"] -> empty_or row field (fun s => plain_path (Path s));
  rw_reason : documented codes row;
}.

(** Rows with consecutive sequence numbers from [n]. *)
Fixpoint numbered (codes : list string) (schema : surface) (n : Z) (rows : list jobject) : Prop :=
  match rows with
  | [] => True
  | row :: rows => row_ok codes schema n row /\ numbered codes schema (n + 1) rows
  end.

(** The rows of a fixture: numbered from 1, but for the replay after a cursor,
    which starts later. *)
Definition rows_ok (p : path) (codes : list string) (schema : surface) (rows : list jobject) : Prop :=
  exists n, numbered codes schema n rows
    /\ (name p <> "replay-event-cursor.jsonl" -> n = 1%Z)
    /\ (name p = "replay-event-cursor.jsonl" -> exists row rest, rows = row :: rest /\ as_int (get row "seq") = Some n /\ (2 <= n)%Z).

Definition has_doc (F : fs) (p : path) (needles : list string) : Prop :=
  exists text, read_text F p = Ok text /\ forall needle, In needle needles -> exists a b, lower text = a ++ lower needle ++ b.

(** A scenario with the rows of its fixture. *)
Definition fixture_ok (F : fs) (tmp : path) (args : Args) (codes : list string) (schema : surface)
    (name : string) (rows : list jobject) : Prop :=
  let p := div_path (fixtures args) (name ++ ".jsonl") in
  load_jsonl F p = Ok rows /\ rows_ok p codes schema rows /\ scenario_ok F tmp name rows.

Definition replay_ok (event_rows runtime_rows : list jobject) : Prop :=
  (exists row rest, event_rows = row :: rest /\ py_eq (get row "seq") (JInt 2) = true)
  /\ Forall (fun row => get row "replay_cursor" = JStr "event_seq") event_rows
  /\ exists before sample after, runtime_rows = (before ++ sample :: after)%list
       /\ get sample "event" = JStr "runtime_sample" /\ py_eq (get sample "sample_sequence") (JInt 2) = true
       /\ get sample "replay_cursor" = JStr "runtime_sample_sequence"
       /\ Forall (fun row => get row "event" <> JStr "runtime_sample") (before ++ after)%list.

Definition pack_ok (F : fs) (tmp : path) (args : Args) : Prop :=
  (forall schema_name, In schema_name REQUIRED_SCHEMAS -> is_file F (div_path (schemas args) schema_name) = true)
  /\ has_doc F (div_path (docs args) "frontend-api-pack.md") PACK_NEEDLES
  /\ has_doc F (div_path (docs args) "schema-compatibility.md") COMPATIBILITY_NEEDLES
  /\ (forall file, In file (glob_suffix F (fixtures args) ".jsonl") <->
        exists name, In name REQUIRED_SCENARIOS /\ file = name ++ ".jsonl")
  /\ exists event_schema schema codes rows_by_name,
       load_event_schema F (schemas args) = Ok event_schema /\ schema_properties event_schema = Ok schema
       /\ load_codes F (docs args) = Ok codes
       /\ (forall name, In name REQUIRED_SCENARIOS -> fixture_ok F tmp args codes schema name (rows_by_name name))
       /\ replay_ok (rows_by_name "replay-event-cursor") (rows_by_name "replay-runtime-sample-cursor").

(** * Lemmas *)
Lemma needles_absent (needles : list string) s :
  existsb (fun needle => contains needle s) needles = false <->
  forall needle, In needle needles -> ~ exists a b, s = a ++ needle ++ b.
Proof.
  rewrite existsb_false, Forall_forall. setoid_rewrite list_elem_of_In. by setoid_rewrite contains_false.
Qed.

Lemma public_key_iff k v c :
  String.eqb k "command_argv_hash" || negb (existsb (fun needle => contains needle (lower k)) PRIVATE_KEY_NEEDLES) = true
  /\ (if String.eqb k "command_argv_hash" then reject_non_hash_command_argv_hash v c else Ok tt) = Ok tt
  <-> public_key k v.
Proof.
  unfold public_key. rewrite <- needles_absent. destruct (String.eqb_spec k "command_argv_hash") as [->|Hk].
  - unfold reject_non_hash_command_argv_hash. rewrite ensure_ok. split.
    + intros [_ H]. split; [|done]. destruct v; try discriminate. by eexists.
    + intros [H _]. destruct (H eq_refl) as (s & -> & Hs). done.
  - cbn [orb]. rewrite negb_true_iff. tauto.
Qed.

Lemma reject_private_iff' v context : reject_private v context = Ok tt <-> public v.
Proof.
  revert context. unfold public. induction v as [| | | |s|l IH|d IH] using json_nested_ind; intros context;
    cbn [reject_private]; try (split; [intros _; by apply clean_at_scalar | done]).
  - unfold public_text. by rewrite clean_at_str, <- needles_absent, ensure_ok, negb_true_iff, orb_false_iff.
  - rewrite clean_at_list. generalize 0. induction IH as [|child l Hchild _ IHl]; intros n;
      [split; [constructor | done]|]. rewrite Forall_cons, bind_ok_unit, <- (IHl (S n)), Hchild. tauto.
  - rewrite clean_at_dict. induction IH as [|[key child] d Hchild _ IHd]; [split; [constructor | done]|].
    rewrite Forall_cons, !bind_ok_unit, <- IHd. cbn [fst snd] in Hchild |- *. rewrite Hchild.
    rewrite <- (public_key_iff key child (context ++ "." ++ key)), !ensure_ok. tauto.
Qed.

Lemma path_text_iff s context : reject_unsafe_path_text s context = Ok tt <-> plain_path (Path s).
Proof. unfold reject_unsafe_path_text. rewrite ensure_ok, <- plain_path_iff, negb_orb. done. Qed.

Lemma path_tree_iff v context : reject_artifact_path_collection v context = Ok tt <-> path_tree v.
Proof.
  revert context. induction v as [| | | |s|l IH|d IH] using json_nested_ind; intros context;
    cbn [reject_artifact_path_collection]; try (split; [discriminate | by inversion 1]).
  - split; [constructor | done].
  - rewrite path_text_iff. split; [by constructor | by inversion 1].
  - assert (H : path_tree (JList l) <-> Forall path_tree l) by (split; [by inversion 1 | by constructor]). rewrite H. clear H.
    generalize 0. induction IH as [|child l Hchild _ IHl]; intros n; [split; [constructor | done]|].
    rewrite Forall_cons, bind_ok_unit, <- (IHl (S n)), Hchild. tauto.
  - assert (H : path_tree (JDict d) <-> Forall (fun kv => path_tree (snd kv)) d) by (split; [by inversion 1 | by constructor]).
    rewrite H. clear H. induction IH as [|[key child] d Hchild _ IHd]; [split; [constructor | done]|].
    cbn [fst snd] in Hchild. by rewrite Forall_cons, bind_ok_unit, <- IHd, Hchild.
Qed.

Lemma safe_artifacts_iff v context : reject_unsafe_artifact_paths v context = Ok tt <-> safe_artifacts v.
Proof.
  revert context. unfold safe_artifacts. induction v as [| | | |s|l IH|d IH] using json_nested_ind; intros context;
    cbn [reject_unsafe_artifact_paths]; try (split; [intros _; by apply clean_at_scalar | done]).
  - split; [intros _; by apply clean_at_str | done].
  - rewrite clean_at_list. generalize 0. induction IH as [|child l Hchild _ IHl]; intros n;
      [split; [constructor | done]|]. rewrite Forall_cons, bind_ok_unit, <- (IHl (S n)), Hchild. tauto.
  - rewrite clean_at_dict. induction IH as [|[key child] d Hchild _ IHd]; [split; [constructor | done]|].
    rewrite Forall_cons, bind_ok_unit, <- IHd. cbn [fst snd] in Hchild |- *.
    destruct (String.eqb_spec key "artifact_paths"); rewrite ?path_tree_iff, ?Hchild; naive_solver.
Qed.

Lemma identifier_iff row field context : validate_identifier row field context = Ok tt <->
  empty_or row field (fun s => all_chars is_ident_char s = true /\ len s <= 96).
Proof.
  unfold validate_identifier, empty_or, IDENTIFIER.
  destruct (get row field) as [| | | |s| |]; try (split; [discriminate | by intros [[=]|(? & [=] & _)]]);
    [split; [by left | done]|].
  destruct (String.eqb_spec s "") as [->|Hs]; [split; [right; eexists; split; [done | by left] | done]|]. rewrite ensure_ok, class_fullmatch.
  split; [intros [Ha Hl]; right; exists s; split; [done|]; right; split; [done | lia]|].
  intros [[=]|(? & [= <-] & [?|[? ?]])]; [done|]. split; [done | lia].
Qed.
Lemma safe_path_iff row field context : require_safe_path row field context = Ok tt <->
  empty_or row field (fun s => plain_path (Path s)).
Proof.
  unfold require_safe_path, empty_or, fail. destruct (get row field) as [| | | |s| |]; try naive_solver.
  destruct (String.eqb_spec s "") as [->|Hs]; [naive_solver|]. rewrite path_text_iff. naive_solver.
Qed.

Lemma surface_iff row schema context : validate_schema_surface row schema context = Ok tt <->
  (forall field, In field (required schema) -> has_key field row = true)
  /\ (forall field, In field (keys row) -> In field (properties schema)) /\ text_in row "event" (event_enum schema).
Proof.
  assert (H : forall (xs : list string) p, match sorted (List.filter (fun x => negb (p x)) xs) with [] => true | _ => false end = true <->
                forall x, In x xs -> p x = true).
  { intros xs p. transitivity (forall x, ~ In x (sorted (List.filter (fun x => negb (p x)) xs))).
    - destruct (sorted _) as [|y l]; [naive_solver|]. split; [done|]. intros H. destruct (H y). by left.
    - setoid_rewrite sorted_in. setoid_rewrite filter_In. setoid_rewrite negb_true_iff.
      split; intros Hx x; specialize (Hx x); destruct (p x); naive_solver. }
  unfold validate_schema_surface. cbv zeta. rewrite !bind_ok_unit, !ensure_ok, !H. setoid_rewrite dedup_in.
  setoid_rewrite mem_In. unfold text_in. destruct (get row "event"); rewrite ?mem_In; naive_solver.
Qed.

Lemma documented_iff codes row m : event_row row ->
  (let reason := get row "reason" in
   if negb (is_none reason) && negb (py_eq reason (JStr "")) then
     let* incident := in_set (get row "event") ["incident"; "refusal"] in
     let* needs_taxonomy := if (incident : bool) then Ok true else in_set (get row "status") INCIDENT_STATUSES in
     ensure (negb (needs_taxonomy && match reason with JStr s => negb (mem s codes) | _ => true end)) ContractPackError m
   else Ok tt) = Ok tt <-> documented codes row.
Proof.
  intros [[e He] [s Hs]]. cbv zeta. unfold documented.
  destruct (in_text_set row "event" ["incident"; "refusal"] e He) as [-> <-].
  destruct (in_text_set row "status" INCIDENT_STATUSES s Hs) as [-> <-]. unfold text_in. cbn [bind].
  assert (Hr : match get row "reason" with JStr s => negb (mem s codes) | _ => true end = false <->
               exists s, get row "reason" = JStr s /\ In s codes).
  { destruct (get row "reason"); try (split; [discriminate | by intros (? & [=] & _)]). rewrite negb_false_iff, mem_In. split; [by eexists | by intros (? & [= <-] & ?)]. }
  assert (Hn : is_none (get row "reason") = true <-> get row "reason" = JNull) by (by destruct (get row "reason")).
  rewrite <- Hr, <- Hn, <- (py_eq_str (get row "reason") ""). clear.
  generalize (match get row "reason" with JStr s => negb (mem s codes) | _ => true end).
  destruct (is_none _), (py_eq _ _), (mem e _), (mem s _); intros []; simpl; naive_solver.
Qed.

Lemma row_iff p codes schema row n x :
  validate_row p codes schema row n = Ok x <-> row_ok codes schema n row /\ x = (n + 1)%Z.
Proof.
  unfold validate_row. cbv zeta. rewrite !bind_ok_unit, !ensure_ok, !for_each_ok, !Forall_forall.
  setoid_rewrite list_elem_of_In.
  setoid_rewrite identifier_iff. setoid_rewrite safe_path_iff.
  rewrite reject_private_iff', safe_artifacts_iff, surface_iff, is_false_iff, py_eq_str, Ok_inj.
  assert (Hs : is_str (get row "event") && is_str (get row "status") = true <-> event_row row).
  { unfold event_row. destruct (get row "event"), (get row "status"); simpl; naive_solver. }
  rewrite Hs. split.
  - intros (? & ? & (? & ? & ?) & ? & ? & ? & Hr & ? & ? & Hd & ->). split; [|done].
    apply documented_iff in Hd; [|done]. destruct Hr. by split.
  - intros [[] ->]. assert (Hr : event_row row) by (by destruct rw_event0 as (? & ? & _); split; [eexists|]).
    do 7 (split; [done|]). split; [done|]. split; [done|]. split; [by apply documented_iff | done].
Qed.

Lemma numbered_iff p codes schema rows i n :
  (exists x, for_fold i rows n (fun _ row n => validate_row p codes schema row n) = Ok x) <-> numbered codes schema n rows.
Proof.
  revert i n. induction rows as [|row rows IH]; intros i n; [split; [done | by eexists]|].
  rewrite for_fold_cons_ok. setoid_rewrite row_iff. cbn [numbered]. rewrite <- (IH (S i)). naive_solver.
Qed.

Lemma rows_iff p codes schema rows : validate_rows p rows codes schema = Ok tt <-> rows_ok p codes schema rows.
Proof.
  unfold validate_rows, rows_ok. rewrite bind_ok.
  assert (Hf : forall n, (let* _ := for_fold 0 rows n (fun _ row n => validate_row p codes schema row n) in Ok tt) = Ok tt
                         <-> numbered codes schema n rows).
  { intros n. rewrite bind_ok, <- (numbered_iff p codes schema rows 0 n). naive_solver. }
  setoid_rewrite Hf. clear Hf. destruct (String.eqb_spec (name p) "replay-event-cursor.jsonl") as [Hp|Hp].
  - assert (Hn : forall n, (let* first := match rows with row :: _ => Ok row | [] => raise IndexError "list index out of range" end in
        match as_int (get first "seq") with
        | None => fail "replay-event-cursor first seq must be an integer"
        | Some first_seq =>
            if (first_seq <? 2)%Z then fail "replay-event-cursor must prove a non-zero event cursor" else Ok first_seq
        end) = Ok n <-> exists row rest, rows = row :: rest /\ as_int (get row "seq") = Some n /\ (2 <= n)%Z).
    { intros n. destruct rows as [|row rest]; [split; [discriminate | by intros (? & ? & [=] & _)]|]. cbn [bind].
      destruct (as_int (get row "seq")) as [z|] eqn:Ez; [|split; [discriminate | intros (? & ? & [= <- <-] & ? & _); congruence]].
      destruct (Z.ltb_spec z 2); (split; [|intros (? & ? & [= <- <-] & ? & ?)]); [discriminate | assert (z = n) by congruence; lia | | congruence].
      intros [= <-]. by exists row, rest. }
    setoid_rewrite Hn. naive_solver.
  - setoid_rewrite Ok_inj. split; [intros (? & <- & ?); by exists 1%Z|].
    intros (n & ? & Hn & _). exists n. split; [symmetry; by apply Hn | done].
Qed.

Lemma numbered_rows codes schema n rows : numbered codes schema n rows -> Forall event_row rows.
Proof.
  revert n. induction rows as [|row rows IH]; intros n; [constructor|]. intros [Hr Hrs]. constructor; [|by eapply IH].
  destruct Hr as [_ _ _ _ (e & He & _) _ _ _ Hst _ _ _]. by split; [eexists|].
Qed.

Lemma fixture_iff F tmp args codes schema name rows :
  validate_fixture F tmp args codes schema name = Ok rows <-> fixture_ok F tmp args codes schema name rows.
Proof.
  unfold validate_fixture, fixture_ok. cbv zeta. rewrite bind_ok. setoid_rewrite bind_ok_unit. setoid_rewrite bind_ok_unit.
  setoid_rewrite rows_iff. setoid_rewrite Ok_inj. split.
  - intros (rs & Hl & Hr & Hs & <-). split; [done|]. split; [done|]. destruct Hr as (n & Hn & _).
    by eapply scenario_iff, Hs; eapply numbered_rows.
  - intros (Hl & Hr & Hs). exists rows. repeat (split; [done|]). split; [|done]. destruct Hr as (n & Hn & _).
    eapply scenario_iff, Hs. by eapply numbered_rows.
Qed.

Lemma doc_iff F docs name needles : require_doc F docs name needles = Ok tt <-> has_doc F (div_path docs name) needles.
Proof.
  unfold require_doc, has_doc. cbv zeta. rewrite bind_ok. setoid_rewrite reraise_ok. setoid_rewrite for_each_ok.
  setoid_rewrite Forall_forall. setoid_rewrite list_elem_of_In. setoid_rewrite ensure_ok. by setoid_rewrite contains_iff.
Qed.

Lemma one_such {A} (f : A -> bool) xs x : List.filter f xs = [x] <->
  exists before after, xs = (before ++ x :: after)%list /\ f x = true /\ Forall (fun y => f y = false) (before ++ after)%list.
Proof.
  split.
  - induction xs as [|y xs IH]; simpl; [done|]. destruct (f y) eqn:Ey.
    + intros [= -> Hn]. exists [], xs. repeat split; [done|]. apply Forall_forall. intros z Hz%list_elem_of_In.
      apply not_true_iff_false. intros Hf. assert (Hi : In z (List.filter f xs)) by (by apply filter_In). by rewrite Hn in Hi.
    + intros (b & a & -> & Hx & Hb)%IH. exists (y :: b), a. repeat split; [done|]. by constructor.
  - intros (b & a & -> & Hx & [Hb Ha]%Forall_app). rewrite List.filter_app. simpl. rewrite Hx.
    assert (H : forall l, Forall (fun y => f y = false) l -> List.filter f l = []).
    { induction 1 as [|z l Hz _ IH]; simpl; [done|]. by rewrite Hz. }
    by rewrite !H.
Qed.

Lemma replay_iff event_rows runtime_rows : validate_replay event_rows runtime_rows = Ok tt <-> replay_ok event_rows runtime_rows.
Proof.
  unfold validate_replay, replay_ok. cbv zeta. destruct event_rows as [|first rest]; [naive_solver|]. cbn [bind].
  rewrite bind_ok_unit, !ensure_ok, negb_true_iff, orb_false_iff, negb_false_iff, existsb_false.
  assert (Hc : Forall (fun row => negb (py_eq (get row "replay_cursor") (JStr "event_seq")) = false) (first :: rest) <->
               Forall (fun row => get row "replay_cursor" = JStr "event_seq") (first :: rest)).
  { rewrite !Forall_forall. setoid_rewrite negb_false_iff. by setoid_rewrite py_eq_str. }
  rewrite Hc. assert (Hs : forall (rows : list jobject) (f g : jobject -> bool),
    match List.filter f rows with [x] => g x | _ => false end = true <-> exists x, List.filter f rows = [x] /\ g x = true).
  { intros rows f g. destruct (List.filter f rows) as [|y [|]]; naive_solver. }
  rewrite (Hs runtime_rows _ (fun sample => _ && _)). setoid_rewrite one_such. setoid_rewrite andb_true_iff.
  setoid_rewrite <- not_true_iff_false. setoid_rewrite py_eq_str. naive_solver.
Qed.

(** What the loop over the scenarios collects. *)
Lemma collected {A} (f : string -> result A) names l :
  map_m (fun name => let* rows := f name in Ok (name, rows)) names = Ok l ->
  forall name, In name names -> exists rows, assoc name l = Some rows /\ f name = Ok rows.
Proof.
  revert l. induction names as [|x names IH]; intros l; [done|]. cbn [map_m].
  intros (y & (r & Hr & [= <-])%bind_ok & (ys & Hys & [= <-])%bind_ok)%bind_ok name Hn. cbn [assoc].
  destruct (String.eqb_spec name x) as [->|Hne]; [by exists r|]. apply (IH ys Hys). by destruct Hn as [->|].
Qed.
Lemma collects {A} (f : string -> result A) (g : string -> A) names :
  (forall name, In name names -> f name = Ok (g name)) ->
  exists l, map_m (fun name => let* rows := f name in Ok (name, rows)) names = Ok l.
Proof.
  induction names as [|x names IH]; intros H; [by eexists|]. cbn [map_m].
  destruct IH as (l & ->); [intros; apply H; by right|]. rewrite (H x (or_introl eq_refl)). by eexists.
Qed.

Local Opaque REQUIRED_SCENARIOS.

Lemma inventory_iff F fixtures missing extra : fixture_inventory F fixtures = (missing, extra) ->
  (match missing with [] => true | _ => false end = true /\ match extra with [] => true | _ => false end = true <->
   forall file, In file (glob_suffix F fixtures ".jsonl") <-> exists name, In name REQUIRED_SCENARIOS /\ file = name ++ ".jsonl").
Proof.
  assert (He : forall l : list string, match l with [] => true | _ => false end = true <-> l = []) by (by intros []).
  rewrite !He. unfold fixture_inventory. cbv zeta. rewrite pair_equal_spec. intros [<- <-]. rewrite !no_extra.
  setoid_rewrite in_map_iff. split; [intros [H1 H2] file; split | intros H; split; intros file].
  - intros (n & <- & Hn)%H2. by exists n.
  - intros (n & Hn & ->). apply H1. by exists n.
  - intros (n & <- & Hn). apply H. by exists n.
  - intros (n & Hn & ->)%H. by exists n.
Qed.

Lemma scenarios_iff F tmp args codes schema :
  (exists l event_rows runtime_rows,
     map_m (fun name => let* rows := validate_fixture F tmp args codes schema name in Ok (name, rows)) REQUIRED_SCENARIOS = Ok l
     /\ rows_of l "replay-event-cursor" = Ok event_rows /\ rows_of l "replay-runtime-sample-cursor" = Ok runtime_rows
     /\ validate_replay event_rows runtime_rows = Ok tt) <->
  exists rows_by_name : string -> list jobject,
    (forall name, In name REQUIRED_SCENARIOS -> fixture_ok F tmp args codes schema name (rows_by_name name))
    /\ replay_ok (rows_by_name "replay-event-cursor") (rows_by_name "replay-runtime-sample-cursor").
Proof.
  assert (Hin : In "replay-event-cursor" REQUIRED_SCENARIOS /\ In "replay-runtime-sample-cursor" REQUIRED_SCENARIOS)
    by (split; apply mem_In; by vm_compute).
  destruct Hin as [Hev Hrt]. setoid_rewrite <- fixture_iff. setoid_rewrite <- replay_iff. unfold rows_of. split.
  - intros (l & ev & rt & Hl & He & Hr & Hv). pose proof (collected _ _ _ Hl) as Hc.
    exists (fun name => default [] (assoc name l)). split.
    + intros name (rows & -> & Hf)%Hc. done.
    + by destruct (assoc "replay-event-cursor" l), (assoc "replay-runtime-sample-cursor" l); simplify_eq/=.
  - intros (g & Hg & Hv). destruct (collects _ _ _ Hg) as (l & Hl). pose proof (collected _ _ _ Hl) as Hc.
    exists l, (g "replay-event-cursor"), (g "replay-runtime-sample-cursor"). split; [done|].
    destruct (Hc _ Hev) as (ev & -> & Hf), (Hc _ Hrt) as (rt & -> & Hf'). rewrite (Hg _ Hev) in Hf. rewrite (Hg _ Hrt) in Hf'.
    by injection Hf as <-; injection Hf' as <-.
Qed.

Lemma pack_accepted F tmp args : validate F tmp args = Ok tt <-> pack_ok F tmp args.
Proof.
  unfold validate, pack_ok. rewrite bind_ok_unit, for_each_ok, Forall_forall. setoid_rewrite list_elem_of_In.
  setoid_rewrite ensure_ok. rewrite <- !doc_iff. split.
  - intros [Hs (es & He & (schema & Hsc & [Hd [Hd' (codes & Hc & H)%bind_ok]%bind_ok_unit]%bind_ok_unit)%bind_ok)%bind_ok].
    destruct (fixture_inventory F (fixtures args)) as [missing extra] eqn:Ei.
    apply bind_ok_unit in H as [Hm%ensure_ok [Hx%ensure_ok (l & Hl & (ev & Hev & (rt & Hrt & Hv)%bind_ok)%bind_ok)%bind_ok]%bind_ok_unit].
    do 3 (split; [done|]). split; [by apply (inventory_iff _ _ _ _ Ei)|].
    destruct (proj1 (scenarios_iff F tmp args codes schema)) as (g & Hg); [by exists l, ev, rt|].
    by exists es, schema, codes, g.
  - intros (Hs & Hd & Hd' & Hi & es & schema & codes & g & He & Hsc & Hc & Hg). split; [done|].
    rewrite He. cbn [bind]. rewrite Hsc. cbn [bind]. rewrite Hd. cbn [bind]. rewrite Hd'. cbn [bind]. rewrite Hc. cbn [bind].
    destruct (fixture_inventory F (fixtures args)) as [missing extra] eqn:Ei.
    destruct (proj2 (inventory_iff _ _ _ _ Ei) Hi) as [-> ->]. cbn [bind ensure].
    destruct (proj2 (scenarios_iff F tmp args codes schema)) as (l & ev & rt & -> & Hev & Hrt & Hv); [by exists g|].
    cbn [bind]. rewrite Hev. cbn [bind]. rewrite Hrt. done.
Qed.

(** * Properties *)

(** C19: the checker exits with status 0 exactly when the three schemas are
    there, the two documents say what they must, every required scenario has a
    fixture and no other fixture exists; the rows of every fixture are numbered
    from 1 (the event replay from 2 or more), carry the fields of the schema and
    no others, no host mutation, stable ids, contained paths, documented incident
    reasons and nothing private at any depth; every scenario shows what its name
    promises; and the two replays start at the second event and the second
    sample. *)
Theorem frontend_pack_iff F tmp self_test fixtures schemas docs :
  exits_well (main F tmp self_test (MkArgs fixtures schemas docs false)) <-> pack_ok F tmp (MkArgs fixtures schemas docs false).
Proof. unfold main. rewrite end_main_ok, and_then_ok, <- pack_accepted. simpl. tauto. Qed.
