(* ===== verification/Consumer.v ===== *)
(** Consumer: qa/consumer_contract_check.py, what a client of the daemon may
    rely on when it reads the fixture pack: documented states and reasons, and
    a terminal incident after every failed rollback or cleanup. *)
From S2P Require Import Prelude PyStr PyRe PyFloat PyJson Sha256 PyFs PyMain DaemonEvent MatrixModel MatrixManifest Fields FrontendSemantics FrontendPack.

Local Open Scope string_scope.

Definition TERMINAL_BAD : list string := ["INCIDENT"; "REFUSE"; "refused"; "unsafe_to_assume"; "FAIL"; "SKIP"].
Definition TERMINAL_OK : list string := ["PASS"; "already_clean"].
Definition FAILURE_EVENTS : list string := ["rollback"; "cleanup"].
Definition ALLOWED_STATES_BY_EVENT : list (string * list string) := [
  ("state_changed", ["read_only"; "rollback_ready"]);
  ("stage_started", ["vm_only_pending"]);
  ("lab_run_active", ["partial_switch_lab"]);
  ("boot", ["vm_live"]);
  ("verifier", ["verified"]);
  ("attach", ["zigsched_minimal"]);
  ("runtime_sample", ["observing"]);
  ("rollback", ["rollback_active"; "incident"]);
  ("rollback_completed", ["rolled_back"]);
  ("cleanup", ["clean"; "incident"]);
  ("validation", ["perf_gate_failed"; "matrix_artifact_referenced"; "release_ineligible"]);
  ("incident", ["unsafe_to_assume"]);
  ("refusal", ["refused_host"; "unsafe_to_assume"]);
  ("stage_finished", ["vm_live_complete"; "unsafe_to_assume"])].
Definition REQUIRED_DOC_TEXT : list string := [
  "events.follow"; "one-shot follow equivalent to replay"; "lost stream"; "matrix artifact reference"; "dotted labels";
  "not v1 wire values"].

Definition fail {A} (m : string) : result A := raise ConsumerContractError m.
Definition require (condition : bool) (message : string) : result unit := ensure condition ConsumerContractError message.

(** ** A row *)
Definition text (row : jobject) (field context : string) : result string :=
  match get row field with
  | JStr value => if String.eqb value "" then fail (context ++ " missing text field " ++ field) else Ok value
  | _ => fail (context ++ " missing text field " ++ field)
  end.
Definition status (row : jobject) : string := match get row "status" with JStr raw => raw | _ => "" end.
Definition reason (row : jobject) : string := match get row "reason" with JStr raw => raw | _ => "" end.
Definition event (row : jobject) (context : string) : result string := text row "event" context.
Definition rows_with_reason (rows : list jobject) (wanted : string) : list jobject :=
  List.filter (fun row => String.eqb (reason row) wanted) rows.

Definition validate_lifecycle_row (name : string) (row : jobject) : result unit :=
  let context := name ++ ":" ++ py_str (get_or row "seq" (JStr "?")) in
  let* row_event := event row context in
  match get row "state" with
  | JNull => Ok tt
  | JStr row_state =>
      if String.eqb row_state "" then fail (context ++ " has non-text lifecycle state") else
      match assoc row_event ALLOWED_STATES_BY_EVENT with
      | None => fail (context ++ " uses undocumented lifecycle event " ++ row_event)
      | Some allowed =>
          require (mem row_state allowed) (context ++ " has unknown lifecycle transition " ++ row_event ++ "->" ++ row_state)
      end
  | _ => fail (context ++ " has non-text lifecycle state")
  end.

Definition validate_reason (name : string) (row : jobject) (codes : list string) : result unit :=
  let row_reason := reason row in
  if String.eqb row_reason "" then Ok tt else
  require (negb (contains "." row_reason)) (name ++ " uses dotted namespace label as v1 wire reason: " ++ row_reason) ;;;
  if String.eqb row_reason "microvm_live_runner_start" then Ok tt
  else require (mem row_reason codes) (name ++ " has undocumented incident/refusal reason: " ++ row_reason).

(** ** The rows of a scenario *)
Fixpoint validate_failure_terminal (name : string) (rows : list jobject) : result unit :=
  match rows with
  | [] => Ok tt
  | row :: later =>
      let* row_event := event row name in
      let row_reason := reason row in
      (if negb (mem row_event FAILURE_EVENTS) || negb (String.eqb (status row) "FAIL") then Ok tt
       else
         require (negb (String.eqb row_reason "")) (name ++ " failed " ++ row_event ++ " must carry a reason") ;;;
         let* found := any_m (fun item =>
           let* item_event := event item name in
           Ok (String.eqb item_event "incident" && String.eqb (reason item) row_reason && mem (status item) TERMINAL_BAD))
           later in
         require found (name ++ " missing terminal incident after failed " ++ row_event)) ;;;
      validate_failure_terminal name later
  end.

Definition validate_stale_duplicate (name : string) (rows : list jobject) : result unit :=
  for_each (rows_with_reason rows "stale_target" ++ rows_with_reason rows "duplicate_target"
            ++ rows_with_reason rows "duplicate_target_id")%list (fun row =>
    let row_status := status row in
    require (negb (mem row_status TERMINAL_OK)) (name ++ " accepted stale/duplicate target as success") ;;;
    let* row_event := event row name in
    require (String.eqb row_event "refusal" && mem row_status TERMINAL_BAD)
      (name ++ " did not visibly refuse stale/duplicate target")).

(** The alerts a sample has been seen for. *)
Record seen : Set := Seen { rejected_seen : bool; workload_dead_seen : bool; sample_loss_seen : bool }.

Definition see_sample (row : jobject) (s : seen) : seen :=
  Seen (rejected_seen s || match get row "nr_rejected" with JStr n => negb (mem n [""; "0"]) | _ => false end)
       (workload_dead_seen s || is_false (get row "workload_alive"))
       (sample_loss_seen s || py_eq (get row "sample_sequence") (JInt 7)).

Definition validate_runtime_samples (name : string) (rows : list jobject) : result unit :=
  let* _ := for_fold 0 rows (Seen false false false) (fun _ row s =>
    let* row_event := event row name in
    let* s :=
      if String.eqb row_event "runtime_sample" then
        require (String.eqb (status row) "accepted") (name ++ " runtime sample was not accepted before deriving alerts") ;;;
        Ok (see_sample row s)
      else Ok s in
    (if String.eqb (reason row) "runtime_nr_rejected_nonzero"
     then require (rejected_seen s) (name ++ " nr_rejected incident preceded sample") else Ok tt) ;;;
    (if String.eqb (reason row) "runtime_workload_dead"
     then require (workload_dead_seen s) (name ++ " workload-dead incident preceded sample") else Ok tt) ;;;
    (if String.eqb (reason row) "runtime_sample_loss"
     then require (sample_loss_seen s) (name ++ " sample-loss incident lacked prior accepted sample") else Ok tt) ;;;
    Ok s) in
  Ok tt.

Definition validate_lost_stream (rows : list jobject) : result unit :=
  let statuses := map status rows in
  require (strs_eqb statuses ["queued"; "unsafe_to_assume"; "INCIDENT"])
    "lost-stream fixture must queue, incident, then terminal INCIDENT" ;;;
  require (negb (existsb (fun item => String.eqb item "PASS") statuses)) "lost-stream fixture must not claim PASS".

Section Files.
Variable F : fs.
(** The temporary directory of [validate_referenced_matrix_manifest]. *)
Variable tmp : path.

Definition require_docs (docs : path) : result unit :=
  let pack := div_path docs "frontend-api-pack.md" in
  let* read := reraise FileNotFoundError ConsumerContractError (fun _ => "missing frontend API pack: " ++ path_str pack)
                 (read_text F pack) in
  let lower_text := join " " (PyStr.words (lower read)) in
  for_each REQUIRED_DOC_TEXT (fun needle =>
    require (contains (lower needle) lower_text) ("frontend API pack missing consumer semantic: " ++ needle)).

Definition validate_replay (rows_by_name : list (string * list jobject)) (docs : path) : result unit :=
  let* event_rows := rows_of rows_by_name "replay-event-cursor" in
  let* read := read_text F (div_path docs "frontend-api-pack.md") in
  let follow_text := lower read in
  require (contains "events.follow" follow_text && contains "replay" follow_text)
    "events.follow must remain replay-equivalent in docs" ;;;
  let* first := match event_rows with row :: _ => Ok row | [] => raise IndexError "list index out of range" end in
  require (py_eq (get first "seq") (JInt 2)) "event replay cursor must preserve source event seq" ;;;
  require (forallb (fun row => py_eq (get row "replay_cursor") (JStr "event_seq")) event_rows)
    "event replay rows must advertise event_seq cursor".

(** The first row that hands a matrix artifact over decides. *)
Fixpoint validate_matrix (name : string) (rows : list jobject) : result unit :=
  match rows with
  | [] => fail (name ++ " missing matrix artifact validation handoff")
  | row :: rows =>
      if negb (String.eqb (reason row) "matrix_artifact_referenced") then validate_matrix name rows
      else
        let* artifact := text row "artifact" name in
        require (endswith artifact "/manifest.json") (name ++ " matrix artifact must reference manifest.json") ;;;
        reraise MatrixRunContractError ConsumerContractError
          (fun exc => name ++ " matrix artifact failed deep validation: " ++ exn_str exc)
          (validate_referenced_matrix_manifest F tmp (Path artifact))
  end.

(** The rows of a scenario, after they have been checked. *)
Definition consume_scenario (args : Args) (codes : list string) (scenario : string) : result (list jobject) :=
  let* rows := load_jsonl F (div_path (fixtures args) (scenario ++ ".jsonl")) in
  for_each rows (fun row => validate_lifecycle_row scenario row ;;; validate_reason scenario row codes) ;;;
  validate_failure_terminal scenario rows ;;;
  validate_stale_duplicate scenario rows ;;;
  validate_runtime_samples scenario rows ;;;
  Ok rows.

Definition validate_consumer (args : Args) : result unit :=
  validate F tmp (MkArgs (fixtures args) (schemas args) (docs args) false) ;;;
  require_docs (docs args) ;;;
  let* codes := load_codes F (docs args) in
  let* rows_by_name := map_m (fun scenario => let* rows := consume_scenario args codes scenario in Ok (scenario, rows))
                         REQUIRED_SCENARIOS in
  let* lost := rows_of rows_by_name "lost-stream" in
  validate_lost_stream lost ;;;
  let* matrix := rows_of rows_by_name "matrix-artifact-reference" in
  validate_matrix "matrix-artifact-reference" matrix ;;;
  validate_replay rows_by_name (docs args).

(** [main] on what argparse reads. *)
Definition main (self_test : Args -> printed) (args : Args) : exit :=
  end_main (fun c => is_OSError c || is_class ContractPackError c || is_class ConsumerContractError c)
    "FAIL backend consumer contract"
    (and_then (if self_test_arg args then self_test args else silent (validate_consumer args))
       (["PASS backend consumer contract: fixtures=" ++ path_str (fixtures args) ++ " docs=" ++ path_str (docs args)], Ok tt)).
End Files.

(** * Specification *)

(** The state of a row is one its event may have. *)
Definition lifecycle (row : jobject) : Prop :=
  text_field row "event"
  /\ (get row "state" = JNull
      \/ exists e s allowed, get row "event" = JStr e /\ get row "state" = JStr s
           /\ In (e, allowed) ALLOWED_STATES_BY_EVENT /\ In s allowed).

Definition reasoned (codes : list string) (row : jobject) : Prop :=
  forall r, get row "reason" = JStr r ->
    r = "" \/ (~ exists a b, r = a ++ "." ++ b) /\ (r = "microvm_live_runner_start" \/ In r codes).

Definition failed_stage (row : jobject) : Prop :=
  text_in row "event" FAILURE_EVENTS /\ get row "status" = JStr "FAIL".
Definition incident (r : string) (row : jobject) : Prop :=
  get row "event" = JStr "incident" /\ get row "reason" = JStr r /\ text_in row "status" TERMINAL_BAD.

(** A failed rollback or cleanup is followed by an incident with its reason. *)
Definition answered (rows : list jobject) : Prop :=
  forall before row after, rows = (before ++ row :: after)%list -> failed_stage row ->
    exists r, get row "reason" = JStr r /\ r <> "" /\ List.Exists (incident r) after.

Definition turned_away (row : jobject) : Prop :=
  text_in row "reason" ["stale_target"; "duplicate_target"; "duplicate_target_id"] ->
  get row "event" = JStr "refusal" /\ text_in row "status" TERMINAL_BAD.

Definition sample (row : jobject) : Prop := get row "event" = JStr "runtime_sample".
Definition rejecting (row : jobject) : Prop := exists n, get row "nr_rejected" = JStr n /\ n <> "" /\ n <> "0".
Definition workload_dead (row : jobject) : Prop := get row "workload_alive" = JBool false.
Definition seventh (row : jobject) : Prop := py_eq (get row "sample_sequence") (JInt 7) = true.

(** A row with the reason [alert] is, or comes after, a sample with [P]. *)
Definition heralded (alert : string) (P : jobject -> Prop) (rows : list jobject) : Prop :=
  forall before row after, rows = (before ++ row :: after)%list -> get row "reason" = JStr alert ->
    List.Exists (fun r => sample r /\ P r) (before ++ [row])%list.

Record consumable (codes : list string) (rows : list jobject) : Prop := {
  co_lifecycle : Forall lifecycle rows;
  co_reasons : Forall (reasoned codes) rows;
  co_answered : answered rows;
  co_targets : Forall turned_away rows;
  co_accepted : Forall (fun row => sample row -> get row "status" = JStr "accepted") rows;
  co_rejected : heralded "runtime_nr_rejected_nonzero" rejecting rows;
  co_dead : heralded "runtime_workload_dead" workload_dead rows;
  co_loss : heralded "runtime_sample_loss" seventh rows;
}.

Definition lost_stream (rows : list jobject) : Prop :=
  exists queued unsafe last, rows = [queued; unsafe; last] /\ get queued "status" = JStr "queued"
    /\ get unsafe "status" = JStr "unsafe_to_assume" /\ get last "status" = JStr "INCIDENT".

(** The first row with the reason of a handoff hands an accepted manifest over. *)
Definition handed_over (F : fs) (tmp : path) (rows : list jobject) : Prop :=
  exists before row after dir, rows = (before ++ row :: after)%list
    /\ Forall (fun r => get r "reason" <> JStr "matrix_artifact_referenced") before
    /\ get row "reason" = JStr "matrix_artifact_referenced"
    /\ get row "artifact" = JStr (dir ++ "/manifest.json")
    /\ validate_referenced_matrix_manifest F tmp (Path (dir ++ "/manifest.json")) = Ok tt.

(** The document, with its white space folded into single spaces. *)
Definition folded_doc (F : fs) (p : path) (needles : list string) : Prop :=
  exists read, read_text F p = Ok read
    /\ forall needle, In needle needles -> exists a b, join " " (PyStr.words (lower read)) = a ++ lower needle ++ b.

Record consumer_ok (F : fs) (tmp : path) (args : Args) : Prop := {
  cn_pack : pack_ok F tmp args;
  cn_semantics : folded_doc F (div_path (docs args) "frontend-api-pack.md") REQUIRED_DOC_TEXT;
  cn_replay : has_doc F (div_path (docs args) "frontend-api-pack.md") ["events.follow"; "replay"];
  cn_scenarios : forall codes name rows, load_codes F (docs args) = Ok codes -> In name REQUIRED_SCENARIOS ->
    load_jsonl F (div_path (fixtures args) (name ++ ".jsonl")) = Ok rows -> consumable codes rows;
  cn_lost : forall rows, load_jsonl F (div_path (fixtures args) "lost-stream.jsonl") = Ok rows -> lost_stream rows;
  cn_matrix : forall rows, load_jsonl F (div_path (fixtures args) "matrix-artifact-reference.jsonl") = Ok rows ->
    handed_over F tmp rows;
}.

(** * Lemmas *)
Lemma consumer_text_ok row field c s : text row field c = Ok s <-> get row field = JStr s /\ s <> "".
Proof.
  unfold text, fail. destruct (get row field) as [| | | |r| |]; try naive_solver.
  destruct (String.eqb_spec r ""); naive_solver.
Qed.
Lemma status_is row s : s <> "" -> status row = s <-> get row "status" = JStr s.
Proof. unfold status. destruct (get row "status"); naive_solver. Qed.
Lemma reason_is row s : s <> "" -> reason row = s <-> get row "reason" = JStr s.
Proof. unfold reason. destruct (get row "reason"); naive_solver. Qed.
Lemma status_among row l : mem "" l = false -> mem (status row) l = true <-> text_in row "status" l.
Proof.
  intros Hl. unfold status, text_in. destruct (get row "status"); rewrite ?mem_In; try naive_solver; split;
    try (intros Hi%mem_In; congruence); by intros (? & [=] & _).
Qed.
Lemma reason_eqb row s : s <> "" -> String.eqb (reason row) s = true <-> get row "reason" = JStr s.
Proof. intros Hs. by rewrite String.eqb_eq, reason_is. Qed.

Lemma lifecycle_row_ok name row : validate_lifecycle_row name row = Ok tt <-> lifecycle row.
Proof.
  unfold validate_lifecycle_row, lifecycle, event, text_field. cbv zeta. rewrite bind_ok. setoid_rewrite consumer_text_ok.
  assert (Hn : NoDup (map fst ALLOWED_STATES_BY_EVENT)) by distinct.
  assert (He : forall e allowed, In (e, allowed) ALLOWED_STATES_BY_EVENT -> ~ In "" allowed).
  { assert (H : forallb (fun p => negb (mem "" (snd p))) ALLOWED_STATES_BY_EVENT = true) by done.
    intros e allowed Hi Hin. apply (proj1 (forallb_forall _ _) H) in Hi. cbn [snd] in Hi. apply mem_In in Hin. by rewrite Hin in Hi. }
  setoid_rewrite <- (assoc_In _ _ _ Hn) in He. setoid_rewrite <- (assoc_In _ _ _ Hn). clear Hn.
  revert He. generalize ALLOWED_STATES_BY_EVENT. intros table He.
  unfold fail, require. destruct (get row "state") as [| | | |s| |]; try naive_solver.
  destruct (String.eqb_spec s "") as [->|Hs]; [naive_solver|]. setoid_rewrite <- mem_In in He. setoid_rewrite <- mem_In. split.
  - intros (e & [Hg Hne] & H). split; [by eexists|]. right. destruct (assoc e table) as [allowed|] eqn:Ea; [|done].
    apply ensure_ok in H. by exists e, s, allowed.
  - intros [(e' & Hg' & Hne) [?|(e & s' & allowed & Hg & [= <-] & Ha & Hi)]]; [done|].
    exists e. split; [split; [done | congruence]|]. rewrite Ha. by apply ensure_ok.
Qed.

Lemma reason_row_ok name row codes : validate_reason name row codes = Ok tt <-> reasoned codes row.
Proof.
  unfold validate_reason, reasoned, reason, require. cbv zeta.
  destruct (get row "reason") as [| | | |r| |]; try (split; [by intros _ ? [=] | done]).
  destruct (String.eqb_spec r "") as [->|Hr]; [split; [by intros _ ? [= <-]; left | done]|].
  rewrite bind_ok_unit, ensure_ok, negb_true_iff, contains_false.
  assert (H : (if String.eqb r "microvm_live_runner_start" then Ok tt
               else ensure (mem r codes) ConsumerContractError
                      (name ++ " has undocumented incident/refusal reason: " ++ r)) = Ok tt
              <-> r = "microvm_live_runner_start" \/ In r codes).
  { destruct (String.eqb_spec r "microvm_live_runner_start"); [split; [by left | done]|]. rewrite ensure_ok, mem_In. naive_solver. }
  rewrite H. split; [intros Hd ? [= <-]; by right|]. intros Hd. by destruct (Hd r eq_refl).
Qed.

Lemma found_ok name row_reason later : row_reason <> "" -> Forall (fun row => text_field row "event") later ->
  exists b, any_m (fun item =>
      let* item_event := event item name in
      Ok (String.eqb item_event "incident" && String.eqb (reason item) row_reason && mem (status item) TERMINAL_BAD)) later = Ok b
    /\ (b = true <-> List.Exists (incident row_reason) later).
Proof.
  intros Hr Hl. apply any_m_ok. eapply Forall_impl; [done|]. intros row (e & He & Hne).
  eexists. split; [unfold event; by rewrite (proj2 (consumer_text_ok row "event" name e))|].
  rewrite !andb_true_iff, reason_eqb, status_among by done. unfold incident. rewrite He, String.eqb_eq. naive_solver.
Qed.

Lemma answered_cons row rows : answered (row :: rows) <->
  (failed_stage row -> exists r, get row "reason" = JStr r /\ r <> "" /\ List.Exists (incident r) rows) /\ answered rows.
Proof.
  unfold answered. split.
  - intros H. split; [by apply (H [] row rows)|]. intros before row' after ->. by apply (H (row :: before)).
  - intros [H1 H2] [|x before] row' after [= -> ->]; [done|]. by apply (H2 before).
Qed.

Lemma failure_terminal_ok name rows : Forall (fun row => text_field row "event") rows ->
  validate_failure_terminal name rows = Ok tt <-> answered rows.
Proof.
  induction 1 as [|row rows (e & He & Hne) Hrows IH]; cbn [validate_failure_terminal].
  { split; [by intros _ [] ? ? [=] | done]. }
  unfold event at 1. rewrite (proj2 (consumer_text_ok row "event" name e)) by done. cbn [bind]. cbv zeta.
  rewrite bind_ok_unit, IH, answered_cons. apply and_iff_compat_r. unfold require.
  assert (Hf : negb (mem e FAILURE_EVENTS) || negb (String.eqb (status row) "FAIL") = false <-> failed_stage row).
  { unfold failed_stage, text_in. rewrite orb_false_iff, !negb_false_iff, String.eqb_eq, status_is, mem_In, He by done. naive_solver. }
  destruct (_ || _); [split; [intros _ Hs; by apply Hf in Hs | done]|]. clear IH.
  rewrite bind_ok_unit, ensure_ok, negb_true_iff, String.eqb_neq. split.
  - intros [Hr H] _. exists (reason row). destruct (found_ok name (reason row) rows Hr Hrows) as (b & Hb & Hi).
    rewrite Hb in H. cbn [bind] in H. apply ensure_ok in H. by rewrite <- (reason_is row), <- Hi.
  - intros H. destruct (H (proj1 Hf eq_refl)) as (r & Hr & Hn & Hi). apply reason_is in Hr as <-; [|done]. split; [done|].
    destruct (found_ok name (reason row) rows Hn Hrows) as (b & -> & Hb). cbn [bind]. apply ensure_ok. by apply Hb.
Qed.

Lemma stale_ok name rows : Forall (fun row => text_field row "event") rows ->
  validate_stale_duplicate name rows = Ok tt <-> Forall turned_away rows.
Proof.
  intros Hrows. unfold validate_stale_duplicate, rows_with_reason, require. rewrite for_each_ok, !Forall_forall.
  rewrite Forall_forall in Hrows. setoid_rewrite list_elem_of_In in Hrows. setoid_rewrite list_elem_of_In.
  setoid_rewrite in_app_iff. setoid_rewrite in_app_iff. setoid_rewrite filter_In. unfold turned_away.
  apply forall_proper. intros row. rewrite !reason_eqb by done.
  assert (Ht : text_in row "reason" ["stale_target"; "duplicate_target"; "duplicate_target_id"] <->
    get row "reason" = JStr "stale_target" \/ get row "reason" = JStr "duplicate_target" \/ get row "reason" = JStr "duplicate_target_id").
  { unfold text_in. split; [intros (s & -> & [<-|[<-|[<-|[]]]]); tauto|].
    intros [H|[H|H]]; (eexists; split; [done|]); simpl; tauto. }
  rewrite Ht. assert (Hb : In row rows -> (ensure (negb (mem (status row) TERMINAL_OK)) ConsumerContractError
      (name ++ " accepted stale/duplicate target as success") ;;;
      (let* row_event := event row name in
       ensure (String.eqb row_event "refusal" && mem (status row) TERMINAL_BAD) ConsumerContractError
         (name ++ " did not visibly refuse stale/duplicate target"))) = Ok tt <->
      get row "event" = JStr "refusal" /\ text_in row "status" TERMINAL_BAD).
  { intros (e & He & Hne)%Hrows. unfold event. rewrite (proj2 (consumer_text_ok row "event" name e)) by done. cbn [bind].
    rewrite bind_ok_unit, !ensure_ok, andb_true_iff, String.eqb_eq, status_among, He by done. split; [naive_solver|].
    intros [[= ->] Hs]. split; [|done]. apply negb_true_iff, not_true_iff_false. intros Hok. apply status_among in Hok; [|done].
    destruct Hs as (s & Hs & Hin), Hok as (s' & Hs' & Hin'). rewrite Hs in Hs'. injection Hs' as <-.
    assert (Hd : forallb (fun s => negb (mem s TERMINAL_BAD)) TERMINAL_OK = true) by done.
    apply (proj1 (forallb_forall _ _) Hd) in Hin'. apply mem_In in Hin. by rewrite Hin in Hin'. }
  cbv zeta. tauto.
Qed.

(** ** The samples that announce an alert *)
Definition from (alert : string) (P : jobject -> Prop) (seen : bool) (rows : list jobject) : Prop :=
  forall before row after, rows = (before ++ row :: after)%list -> get row "reason" = JStr alert ->
    seen = true \/ List.Exists (fun r => sample r /\ P r) (before ++ [row])%list.

Lemma heralded_from alert P rows : heralded alert P rows <-> from alert P false rows.
Proof. unfold heralded, from. naive_solver. Qed.

Lemma from_cons alert P b seen row rows : (b = true <-> sample row /\ P row) ->
  from alert P seen (row :: rows) <-> (get row "reason" = JStr alert -> seen || b = true) /\ from alert P (seen || b) rows.
Proof.
  intros Hb. unfold from. setoid_rewrite orb_true_iff. setoid_rewrite Hb. setoid_rewrite List.Exists_app. split.
  - intros H. split.
    + intros Hr. destruct (H [] row rows eq_refl Hr) as [?|[He|[?|He]%List.Exists_cons]]; [by left | | by right |]; by inversion He.
    + intros before r after -> Hr. destruct (H (row :: before) r after eq_refl Hr) as [?|[[Hx|?]%List.Exists_cons|?]];
        [tauto | by left; right | tauto | tauto].
  - intros [H1 H2] [|x before] r after [= -> ->] Hr.
    + destruct (H1 Hr) as [?|?]; [by left|]. right. right. by apply List.Exists_cons_hd.
    + destruct (H2 before r after eq_refl Hr) as [[?|?]|[?|?]]; [by left | | |]; right; [left; by apply List.Exists_cons_hd | | by right].
      left. by apply List.Exists_cons_tl.
Qed.

Lemma rejecting_iff row : match get row "nr_rejected" with JStr n => negb (mem n [""; "0"]) | _ => false end = true <-> rejecting row.
Proof.
  unfold rejecting. destruct (get row "nr_rejected") as [| | | |n| |]; try (split; [discriminate | by intros (? & [=] & _)]).
  rewrite negb_true_iff, <- not_true_iff_false, mem_In. simpl. split; [intros H; exists n; naive_solver|].
  intros (n' & [= <-] & ? & ?) [?|[?|[]]]; by subst.
Qed.

Lemma alert_when row lit (b : bool) m : lit <> "" ->
  (if String.eqb (reason row) lit then require b m else Ok tt) = Ok tt <-> (get row "reason" = JStr lit -> b = true).
Proof.
  intros Hl. rewrite <- (reason_is row lit Hl), <- String.eqb_eq. unfold require.
  destruct (String.eqb _ _); rewrite ?ensure_ok; naive_solver.
Qed.

Lemma samples_ok name rows : Forall (fun row => text_field row "event") rows ->
  validate_runtime_samples name rows = Ok tt <->
  Forall (fun row => sample row -> get row "status" = JStr "accepted") rows
  /\ heralded "runtime_nr_rejected_nonzero" rejecting rows /\ heralded "runtime_workload_dead" workload_dead rows
  /\ heralded "runtime_sample_loss" seventh rows.
Proof.
  intros Hrows. rewrite !heralded_from. unfold validate_runtime_samples. rewrite bind_ok. set (body := fun (_ : nat) (row : jobject) (s : seen) => _).
  assert (H : forall i s, (exists s', for_fold i rows s body = Ok s') <->
    Forall (fun row => sample row -> get row "status" = JStr "accepted") rows
    /\ from "runtime_nr_rejected_nonzero" rejecting (rejected_seen s) rows
    /\ from "runtime_workload_dead" workload_dead (workload_dead_seen s) rows
    /\ from "runtime_sample_loss" seventh (sample_loss_seen s) rows);
    [|rewrite <- (H 0 (Seen false false false)); naive_solver].
  induction Hrows as [|row rows (e & He & Hne) Hrows IH]; intros i s.
  { split; [|by eexists]. intros _. split; [constructor|]. split_and!; by intros [] ? ? [=]. }
  assert (Hstep : forall s1, body i row s = Ok s1 <-> (sample row -> get row "status" = JStr "accepted")
    /\ (get row "reason" = JStr "runtime_nr_rejected_nonzero" -> rejected_seen s1 = true)
    /\ (get row "reason" = JStr "runtime_workload_dead" -> workload_dead_seen s1 = true)
    /\ (get row "reason" = JStr "runtime_sample_loss" -> sample_loss_seen s1 = true)
    /\ s1 = if String.eqb e "runtime_sample" then see_sample row s else s).
  { intros s1. unfold body, event, sample. rewrite (proj2 (consumer_text_ok row "event" name e)) by done. cbn [bind]. rewrite He.
    destruct (String.eqb_spec e "runtime_sample") as [->|Hn]; rewrite ?bind_assoc; cbn [bind]; rewrite !bind_ok_unit; cbn [bind];
      rewrite ?bind_ok_unit, !alert_when, ?Ok_inj by done;
      unfold require; rewrite ?ensure_ok, ?String.eqb_eq, ?status_is by done; naive_solver. }
  rewrite for_fold_cons_ok. setoid_rewrite Hstep. setoid_rewrite IH.
  assert (Hs : String.eqb e "runtime_sample" = true <-> sample row)
    by (unfold sample; rewrite He, String.eqb_eq; naive_solver).
  rewrite Forall_cons.
  rewrite (from_cons _ _ (String.eqb e "runtime_sample" && match get row "nr_rejected" with JStr n => negb (mem n [""; "0"]) | _ => false end)),
    (from_cons _ _ (String.eqb e "runtime_sample" && is_false (get row "workload_alive"))),
    (from_cons _ _ (String.eqb e "runtime_sample" && py_eq (get row "sample_sequence") (JInt 7))).
  2-4: rewrite andb_true_iff, Hs, ?rejecting_iff, ?is_false_iff; done.
  clear Hstep IH body. destruct (String.eqb e "runtime_sample"); simpl andb; rewrite ?orb_false_r; unfold see_sample; naive_solver.
Qed.

(** ** The pack *)
Lemma lost_ok rows : validate_lost_stream rows = Ok tt <-> lost_stream rows.
Proof.
  unfold validate_lost_stream, lost_stream, require. cbv zeta. rewrite bind_ok_unit, !ensure_ok, strs_eqb_eq. split.
  - intros [H _]. destruct rows as [|q [|u [|l [|]]]]; try discriminate. injection H as Hq Hu Hl.
    exists q, u, l. by rewrite <- !status_is.
  - intros (q & u & l & -> & Hq%status_is & Hu%status_is & Hl%status_is); [|done..]. simpl. by rewrite Hq, Hu, Hl.
Qed.

Lemma matrix_ok F tmp name rows : validate_matrix F tmp name rows = Ok tt <-> handed_over F tmp rows.
Proof.
  assert (Hc : forall row rows, handed_over F tmp (row :: rows) <->
    (get row "reason" = JStr "matrix_artifact_referenced" /\
      exists dir, get row "artifact" = JStr (dir ++ "/manifest.json")
        /\ validate_referenced_matrix_manifest F tmp (Path (dir ++ "/manifest.json")) = Ok tt)
    \/ get row "reason" <> JStr "matrix_artifact_referenced" /\ handed_over F tmp rows).
  { intros row rs. unfold handed_over. split.
    - intros ([|x before] & r & after & dir & [= -> ->] & Hb & H); [left; naive_solver|].
      apply Forall_cons in Hb as [Hx Hb]. right. split; [done|]. by exists before, r, after, dir.
    - intros [[Hr (dir & Hd)]|[Hn (before & r & after & dir & -> & Hb & H)]].
      + exists [], row, rs, dir. split; [done|]. split; [apply List.Forall_nil | done].
      + exists (row :: before), r, after, dir. split; [done|]. split; [by apply Forall_cons | done]. }
  induction rows as [|row rows IH]; cbn [validate_matrix].
  { split; [discriminate|]. by intros ([] & ? & ? & ? & [=] & _). }
  rewrite Hc, <- (reason_eqb row) by done. destruct (String.eqb (reason row) _); cbn [negb].
  - rewrite bind_ok. setoid_rewrite consumer_text_ok. setoid_rewrite bind_ok_unit. unfold require. setoid_rewrite ensure_ok.
    setoid_rewrite reraise_ok. setoid_rewrite endswith_iff. clear. split; [naive_solver|].
    intros [[_ (dir & Hd & Hv)]|[[] _]]; [|done]. exists (dir ++ "/manifest.json"). split_and!; [done | by destruct dir | by eexists | done].
  - rewrite IH. clear. naive_solver.
Qed.

Lemma lifecycle_events rows : Forall lifecycle rows -> Forall (fun row => text_field row "event") rows.
Proof. intros H. eapply Forall_impl; [done|]. by intros row []. Qed.

Lemma scenario_consumed F args codes name rows : consume_scenario F args codes name = Ok rows <->
  load_jsonl F (div_path (fixtures args) (name ++ ".jsonl")) = Ok rows /\ consumable codes rows.
Proof.
  assert (Hrow : forall rs, for_each rs (fun row => validate_lifecycle_row name row ;;; validate_reason name row codes) = Ok tt
                 <-> Forall lifecycle rs /\ Forall (reasoned codes) rs).
  { intros rs. rewrite for_each_ok, <- Forall_and. setoid_rewrite bind_ok_unit. setoid_rewrite lifecycle_row_ok.
    by setoid_rewrite reason_row_ok. }
  unfold consume_scenario. rewrite bind_ok. split.
  - intros (rs & Hl & [[Hlc Hr]%Hrow [Hf [Hs [Hm [= <-]]%bind_ok_unit]%bind_ok_unit]%bind_ok_unit]%bind_ok_unit).
    split; [done|]. pose proof (lifecycle_events _ Hlc) as He.
    apply failure_terminal_ok in Hf; [|done]. apply stale_ok in Hs; [|done]. apply samples_ok in Hm; [|done].
    destruct Hm as (? & ? & ? & ?). by split.
  - intros [Hl []]. pose proof (lifecycle_events _ co_lifecycle0) as He. exists rows. split; [done|].
    rewrite (proj2 (Hrow rows)), (proj2 (failure_terminal_ok name rows He)), (proj2 (stale_ok name rows He)),
      (proj2 (samples_ok name rows He)) by done. done.
Qed.

Lemma docs_ok F docs : require_docs F docs = Ok tt <-> folded_doc F (div_path docs "frontend-api-pack.md") REQUIRED_DOC_TEXT.
Proof.
  unfold require_docs, folded_doc, require. cbv zeta. rewrite bind_ok. setoid_rewrite reraise_ok. setoid_rewrite for_each_ok.
  setoid_rewrite Forall_forall. setoid_rewrite list_elem_of_In. setoid_rewrite ensure_ok. by setoid_rewrite contains_iff.
Qed.

Local Opaque REQUIRED_SCENARIOS.

(** The rows the loop has collected are those of the files. *)
Lemma rows_collected F args codes l name rows :
  map_m (fun scenario => let* rows := consume_scenario F args codes scenario in Ok (scenario, rows)) REQUIRED_SCENARIOS = Ok l ->
  In name REQUIRED_SCENARIOS ->
  rows_of l name = Ok rows <-> load_jsonl F (div_path (fixtures args) (name ++ ".jsonl")) = Ok rows.
Proof.
  intros Hl Hn. destruct (collected _ _ _ Hl name Hn) as (rs & Ha & [-> _]%scenario_consumed).
  unfold rows_of. by rewrite Ha.
Qed.

Lemma replay_docs F args l rows :
  rows_of l "replay-event-cursor" = Ok rows -> (exists runtime_rows, replay_ok rows runtime_rows) ->
  validate_replay F l (docs args) = Ok tt <-> has_doc F (div_path (docs args) "frontend-api-pack.md") ["events.follow"; "replay"].
Proof.
  intros Hr (runtime_rows & (row & rest & -> & Hseq) & Hc & _). unfold validate_replay, has_doc, require. rewrite Hr. cbn [bind].
  rewrite bind_ok. apply exist_proper. intros read. apply and_iff_compat_l. cbv zeta.
  rewrite !bind_ok_unit, !ensure_ok, Hseq, andb_true_iff, !contains_iff.
  assert (Hf : forallb (fun row => py_eq (get row "replay_cursor") (JStr "event_seq")) (row :: rest) = true).
  { apply forallb_forall. intros r Hr'%list_elem_of_In. apply py_eq_str. rewrite Forall_forall in Hc. by apply Hc. }
  rewrite Hf. split; [|intros H; split; [split; [apply (H "events.follow") | apply (H "replay")]|done]; simpl; tauto].
  by intros [[H1 H2] _] needle [<-|[<-|[]]].
Qed.

Lemma consumer_accepted F tmp args : validate_consumer F tmp args = Ok tt <-> consumer_ok F tmp args.
Proof.
  assert (Hin : In "lost-stream" REQUIRED_SCENARIOS /\ In "matrix-artifact-reference" REQUIRED_SCENARIOS
                /\ In "replay-event-cursor" REQUIRED_SCENARIOS) by (split_and!; apply mem_In; by vm_compute).
  destruct Hin as (Hlost & Hmatrix & Hreplay).
  unfold validate_consumer. rewrite bind_ok_unit, bind_ok_unit, docs_ok, pack_accepted. split.
  - intros (Hp & Hd & (codes & Hc & (l & Hl & (lost & Hol & [Hvl%lost_ok (m & Hm & [Hvm%matrix_ok Hv]%bind_ok_unit)%bind_ok]%bind_ok_unit)%bind_ok)%bind_ok)%bind_ok).
    pose proof (fun n rs => rows_collected F args codes l n rs Hl) as Hrows. split.
    + done.
    + done.
    + destruct Hp as (_ & _ & _ & _ & es & schema & cs & g & _ & _ & _ & Hg & Hr). eapply replay_docs, Hv; [|by eexists].
      apply Hrows; [done|]. by apply Hg.
    + intros codes' name rows Hc' Hn Hload. rewrite Hc in Hc'. injection Hc' as <-.
      destruct (collected _ _ _ Hl name Hn) as (rs & _ & [Hrs Hok]%scenario_consumed). congruence.
    + intros rows Hload%(Hrows "lost-stream"); [congruence | done].
    + intros rows Hload%(Hrows "matrix-artifact-reference"); [congruence | done].
  - intros [Hp Hd Hv Hs Hl Hm]. split; [done|]. split; [done|].
    destruct Hp as (_ & _ & _ & _ & es & schema & codes & g & _ & _ & Hc & Hg & Hr). rewrite Hc. cbn [bind].
    destruct (collects (consume_scenario F args codes) g REQUIRED_SCENARIOS) as (l & Hlc).
    { intros name Hn. apply scenario_consumed. split; [by apply Hg|]. eapply Hs; [done..|]. by apply Hg. }
    pose proof (fun n rs => rows_collected F args codes l n rs Hlc) as Hrows. rewrite Hlc. cbn [bind].
    rewrite (proj2 (Hrows _ (g "lost-stream") Hlost)) by (by apply Hg). cbn [bind].
    rewrite (proj2 (lost_ok _)) by (apply Hl; by apply (Hg _ Hlost)). cbn [bind].
    rewrite (proj2 (Hrows _ (g "matrix-artifact-reference") Hmatrix)) by (by apply Hg). cbn [bind].
    rewrite (proj2 (matrix_ok F tmp _ _)) by (apply Hm; by apply (Hg _ Hmatrix)). cbn [bind].
    eapply replay_docs; [|by eexists | done]. apply Hrows; [done|]. by apply Hg.
Qed.

(** ** Properties *)

(** C20: the checker exits with status 0 exactly when the fixture pack is
    accepted; the document, its white space folded, says what a consumer relies
    on; every row of every scenario has a text event, a state its event may have
    and a documented undotted reason; every failed rollback or cleanup is
    followed by a terminal incident with its reason; stale and duplicate targets
    are refused; runtime samples are accepted and come before the alerts derived
    from them; the lost stream ends in INCIDENT; and the first matrix handoff
    names a manifest that the matrix gate accepts.  Its own checks of the replay
    cursor add nothing to those of the pack. *)
Theorem consumer_iff F tmp self_test fixtures schemas docs :
  exits_well (main F tmp self_test (MkArgs fixtures schemas docs false)) <-> consumer_ok F tmp (MkArgs fixtures schemas docs false).
Proof. unfold main. rewrite end_main_ok, and_then_ok, <- consumer_accepted. simpl. tauto. Qed.

(** C21: no failed rollback or cleanup stays silent.  In rows that
    [validate_failure_terminal] accepts, whatever the length of the stream, a row
    that reports a failed rollback or cleanup carries a reason, and a strictly
    later row is an incident with this reason and a status that ends the run. *)
Theorem failure_is_answered name rows i row : validate_failure_terminal name rows = Ok tt ->
  rows !! i = Some row -> failed_stage row ->
  exists j later r, i < j /\ rows !! j = Some later /\ get row "reason" = JStr r /\ r <> "" /\ incident r later.
Proof.
  intros H Hi Hf. assert (He : Forall (fun row => text_field row "event") rows).
  { clear Hi Hf. induction rows as [|r rows IH]; [constructor|]. cbn [validate_failure_terminal] in H.
    apply bind_ok in H as (e & (He & Hne)%consumer_text_ok & [_ H]%bind_ok_unit). constructor; [by exists e | by apply IH]. }
  apply failure_terminal_ok in H; [|done].
  destruct (H (take i rows) row (drop (S i) rows)) as (r & Hr & Hn & (later & Hin & Hl)%List.Exists_exists); [by rewrite take_drop_middle | done|].
  apply list_elem_of_In, list_elem_of_lookup in Hin as (k & Hk). rewrite lookup_drop in Hk.
  exists (S i + k), later, r. split; [lia | done].
Qed.

Lemma failure_is_answered_witness :
  let failed := [("event", JStr "rollback"); ("status", JStr "FAIL"); ("reason", JStr "rollback_failure")] in
  let waiting := [("event", JStr "stage_finished"); ("status", JStr "queued")] in
  let ended := [("event", JStr "incident"); ("status", JStr "INCIDENT"); ("reason", JStr "rollback_failure")] in
  exists j later r, 0 < j /\ [failed; waiting; ended] !! j = Some later /\ get failed "reason" = JStr r /\ r <> "" /\ incident r later.
Proof.
  intros failed waiting ended. apply (failure_is_answered "rollback-failure" [failed; waiting; ended] 0 failed); [by vm_compute | done|].
  split; [exists "rollback"; split; [reflexivity | by left] | reflexivity].
Defined.
