(* ===== verification/Capability.v ===== *)
(** Capability: qa/backend_capability_matrix_check.py, the Markdown table of
    backend capabilities compared with the contract committed beside the
    checker.  The checker collects failures instead of stopping at the first. *)
From S2P Require Import Prelude PyStr PyRe PyFloat PyJson Sha256 PyFs PyMain.

Local Open Scope string_scope.

Definition EXPECTED_SCHEMA : string := "zig-scheduler/backend-capability-matrix-contract/v1".
Definition FRONTEND_TERMS : list string :=
  ["frontend"; "theme"; "animation"; "hotkey"; "tui"; "webview"; "browser"; "desktop"].
Definition DEFERRED_MARKERS : list string := ["deferred"; "non-goal"; "not implement"; "no source"; "no build"].
Definition PROMPT_INJECTION_TERMS : list string := [
  "ignore all failures"; "ignore failures"; "checker to ignore"; "ignore the checker"; "pass the checker";
  "tells the checker"; "force pass"; "always pass"; "treat as pass"; "bypass checker"].
Definition POSITIVE_FRONTEND_CLAIMS : list string := [
  "frontend implemented"; "frontend delivered"; "frontend build is complete"; "frontend build are complete";
  "frontend build artifact is ready"; "theme implemented"; "animation implemented"; "hotkey implemented";
  "tui implemented"; "webview implemented"; "browser implemented"; "desktop implemented";
  "webview source is ready"; "desktop build is complete"].

Record MatrixRow : Set := MkRow {
  row_id : string; design_claim : string; backend_obligation : string; evidence_gate : string }.
Record ExpectedRow : Set := MkExpected { expected_row : MatrixRow; deferred : bool }.

Definition fail {A} (m : string) : result A := raise MatrixError m.

Definition parse_args (argv : list string) : result path :=
  match argv with
  | ["--matrix"; p] => Ok (Path p)
  | _ => fail "usage: backend_capability_matrix_check.py --matrix <path>"
  end.

(** ** Cells: [str.strip(chars)] for one character, [str.split()] *)
Fixpoint lstrip_char (c : ascii) (s : string) : string :=
  match s with "" => "" | String d r => if Ascii.eqb d c then lstrip_char c r else s end.
Fixpoint rstrip_char (c : ascii) (s : string) : string :=
  match s with
  | "" => ""
  | String d r => match rstrip_char c r with "" => if Ascii.eqb d c then "" else String d "" | r => String d r end
  end.
Definition strip_char (c : ascii) (s : string) : string := rstrip_char c (lstrip_char c s).

Definition cell_text (cell : string) : string := strip (strip_char "`" (strip cell)).
Definition normalize_cell (text : string) : string := join " " (PyStr.words text).

(** ** The table *)

(** A header, a rule, or a row whose first cell is empty. *)
Definition skipped (cells : list string) : bool :=
  match cells with
  | [] => true
  | first :: _ => mem first ["ID"; "---"] || all_chars (one_of "- :") first
  end.

Fixpoint parse_lines (line_no : nat) (lines : list string) : list MatrixRow * list string :=
  match lines with
  | [] => ([], [])
  | raw_line :: lines =>
      let (rows, failures) := parse_lines (S line_no) lines in
      let line := strip raw_line in
      if negb (startswith line "|") then (rows, failures) else
      let cells := map cell_text (split_on "|" (strip_char "|" line)) in
      if skipped cells then (rows, failures) else
      match cells with
      | [a; b; c; d] => (MkRow a b c d :: rows, failures)
      | _ => (rows, ("line " ++ str_nat line_no ++ ": matrix row must have 4 cells") :: failures)
      end
  end.

Definition parse_rows (text : string) : list MatrixRow * list string :=
  let (rows, failures) := parse_lines 1 (splitlines text) in
  (rows, match rows with [] => failures ++ ["matrix table must contain backend capability rows"] | _ => failures end)%list.

(** ** The contract *)
Definition parse_expected_row (raw_row : json) (index : nat) : result ExpectedRow :=
  match raw_row with
  | JDict d =>
      match get d "id", get d "design_claim", get d "backend_obligation", get d "evidence_gate", get d "deferred" with
      | JStr a, JStr b, JStr c, JStr g, JBool f => Ok (MkExpected (MkRow a b c g) f)
      | _, _, _, _, _ => fail ("expected contract row " ++ str_nat index ++ " is malformed")
      end
  | _ => fail ("expected contract row " ++ str_nat index ++ " is malformed")
  end.

Fixpoint parse_expected_rows (index : nat) (raw_rows : list json) : result (list ExpectedRow) :=
  match raw_rows with
  | [] => Ok []
  | raw_row :: raw_rows =>
      let* row := parse_expected_row raw_row index in
      let* rows := parse_expected_rows (S index) raw_rows in
      Ok (row :: rows)
  end.

(** ** The comparison *)
Definition collect_duplicate_ids (row_ids : list string) : list string :=
  snd (fold_left (fun '(seen, duplicates) row_id =>
    ((row_id :: seen)%list,
     if mem row_id seen && negb (mem row_id duplicates) then (duplicates ++ [row_id])%list else duplicates))
    row_ids ([], [])).

(** [first_rows_by_id(rows).get(row_id)] *)
Fixpoint first_row (row_id_ : string) (rows : list MatrixRow) : option MatrixRow :=
  match rows with
  | [] => None
  | row :: rows => if String.eqb row_id_ (row_id row) then Some row else first_row row_id_ rows
  end.

Definition validate_row_cells (actual expected : MatrixRow) : list string :=
  flat_map (fun '(label, actual_cell, expected_cell) =>
    if String.eqb (normalize_cell actual_cell) (normalize_cell expected_cell) then []
    else [row_id actual ++ ": " ++ label ++ " cell differs from expected contract"])
    [("design claim / cue", design_claim actual, design_claim expected);
     ("backend obligation", backend_obligation actual, backend_obligation expected);
     ("evidence and gate", evidence_gate actual, evidence_gate expected)].

Definition validate_contract (rows : list MatrixRow) (expected_rows : list ExpectedRow) : list string :=
  let actual_ids := map row_id rows in
  let expected_ids := map (fun e => row_id (expected_row e)) expected_rows in
  concat [
    map (fun row_id => "duplicate matrix row: " ++ row_id) (collect_duplicate_ids actual_ids);
    map (fun row_id => "missing required matrix row: " ++ row_id)
        (List.filter (fun row_id => negb (mem row_id actual_ids)) expected_ids);
    map (fun row_id => "unexpected matrix row: " ++ row_id)
        (List.filter (fun row_id => negb (mem row_id expected_ids)) actual_ids);
    (if strs_eqb actual_ids expected_ids then []
     else ["matrix row order/IDs must match qa/backend_capability_matrix_expected.json"]);
    flat_map (fun expected =>
        match first_row (row_id (expected_row expected)) rows with
        | None => []
        | Some actual => validate_row_cells actual (expected_row expected)
        end) expected_rows].

(** ** The prose *)
Definition frontend_row_text (row : MatrixRow) : string :=
  lower (design_claim row ++ " " ++ backend_obligation row ++ " " ++ evidence_gate row).
Definition has_deferred_marker (text : string) : bool := existsb (fun marker => contains marker text) DEFERRED_MARKERS.
Definition positive_frontend_claim (text : string) : option string :=
  List.find (fun claim => contains claim text) POSITIVE_FRONTEND_CLAIMS.
Definition names_frontend (text : string) : bool := existsb (fun term => contains term text) FRONTEND_TERMS.

Definition validate_frontend_scope (rows : list MatrixRow) (expected_rows : list ExpectedRow) (prose : string) : list string :=
  let deferred_ids := map (fun e => row_id (expected_row e)) (List.filter deferred expected_rows) in
  concat [
    flat_map (fun row =>
      let text := frontend_row_text row in
      concat [
        match positive_frontend_claim text with
        | Some claim => [row_id row ++ ": frontend implementation claim is forbidden: " ++ claim]
        | None => []
        end;
        if mem (row_id row) deferred_ids && names_frontend text && negb (has_deferred_marker text)
        then [row_id row ++ ": frontend/theme/UI terms must be deferred/non-goal in row content"] else []]) rows;
    flat_map (fun raw_line =>
      let lowered := lower raw_line in
      if names_frontend lowered && negb (has_deferred_marker lowered)
      then ["frontend/theme/UI prose must be explicitly deferred/non-goal: " ++ strip raw_line] else [])
      (splitlines prose)].

Definition prose_without_table_rows (text : string) : string :=
  join (chr 10) (List.filter (fun raw_line => negb (startswith (strip raw_line) "|")) (splitlines text)).

Definition validate_global_text (text : string) : list string :=
  concat [
    if contains "design.html" text then [] else ["matrix must name design.html as inert product evidence"];
    if contains "host_mutation=false" text then [] else ["matrix must preserve host_mutation=false safety contract"];
    if contains "rollback" (lower text) then [] else ["matrix must include rollback obligations"];
    if contains "lifecycle" (lower text) then [] else ["matrix must include lifecycle obligations"];
    flat_map (fun term =>
      if contains term (lower text) then ["matrix contains prompt-injection/pass override language: " ++ term] else [])
      PROMPT_INJECTION_TERMS].

Section Files.
Variable F : fs.
(** The directory of the checker. *)
Variable here : path.

Definition EXPECTED_CONTRACT_PATH : path := div_path here "backend_capability_matrix_expected.json".

Definition load_expected_rows (p : path) : result (list ExpectedRow) :=
  let* raw_contract := reraise JSONDecodeError MatrixError (fun exc => "expected contract JSON is invalid: " ++ exn_str exc)
                         (bind (read_text F p) loads) in
  match raw_contract with
  | JDict d =>
      match get d "schema", get d "rows" with
      | JStr schema, JList raw_rows =>
          if String.eqb schema EXPECTED_SCHEMA then parse_expected_rows 1 raw_rows
          else fail "expected contract must contain schema v1 and rows"
      | _, _ => fail "expected contract must contain schema v1 and rows"
      end
  | _ => fail "expected contract must contain schema v1 and rows"
  end.

Definition validate_matrix (p : path) : result (list string) :=
  let* text := read_text F p in
  let* expected_rows := load_expected_rows EXPECTED_CONTRACT_PATH in
  let (rows, failures) := parse_rows text in
  Ok (concat [failures; validate_contract rows expected_rows; validate_global_text text;
              validate_frontend_scope rows expected_rows (prose_without_table_rows text)]).

Definition main (argv : list string) : exit :=
  match let* matrix_path := parse_args argv in
        let* failures := validate_matrix matrix_path in Ok (matrix_path, failures) with
  | Err e =>
      if decide (exn_cls e = FileNotFoundError) then Exited 1 ["FAIL: missing file"] []
      else if decide (exn_cls e = MatrixError) then Exited 1 ["FAIL: " ++ exn_str e] []
      else Uncaught e
  | Ok (matrix_path, []) =>
      match load_expected_rows EXPECTED_CONTRACT_PATH with
      | Ok rows =>
          Exited 0 ["PASS: backend capability matrix (" ++ path_str matrix_path ++ ")";
                    "required_rows=" ++ str_nat (List.length rows)] []
      | Err e => Uncaught e
      end
  | Ok (_, failures) => Exited 1 ("FAIL: backend capability matrix" :: map (fun failure => "- " ++ failure) failures) []
  end.
End Files.

(** * Specification *)
Definition says (needles : list string) (s : string) : Prop :=
  exists needle a b, In needle needles /\ s = a ++ needle ++ b.

(** The cells of a line of the table that is not skipped. *)
Definition table_cells (raw_line : string) : option (list string) :=
  let line := strip raw_line in
  let cells := map cell_text (split_on "|" (strip_char "|" line)) in
  if startswith line "|" && negb (skipped cells) then Some cells else None.
Definition cells_of (row : MatrixRow) : list string := [row_id row; design_claim row; backend_obligation row; evidence_gate row].

(** The same row, up to the white space in its cells. *)
Record row_matches (row : MatrixRow) (e : ExpectedRow) : Prop := {
  rm_id : row_id row = row_id (expected_row e);
  rm_claim : normalize_cell (design_claim row) = normalize_cell (design_claim (expected_row e));
  rm_obligation : normalize_cell (backend_obligation row) = normalize_cell (backend_obligation (expected_row e));
  rm_gate : normalize_cell (evidence_gate row) = normalize_cell (evidence_gate (expected_row e));
}.

(** Nothing of a front end is claimed, and what is deferred says so. *)
Definition modest (expected : list ExpectedRow) (row : MatrixRow) : Prop :=
  ~ says POSITIVE_FRONTEND_CLAIMS (frontend_row_text row)
  /\ forall e, In e expected -> deferred e = true -> row_id row = row_id (expected_row e) ->
       says FRONTEND_TERMS (frontend_row_text row) -> says DEFERRED_MARKERS (frontend_row_text row).

Record matrix_ok (text : string) (expected : list ExpectedRow) : Prop := {
  mx_rows : exists rows, omap table_cells (splitlines text) = map cells_of rows /\ rows <> []
    /\ Forall2 row_matches rows expected /\ NoDup (map row_id rows) /\ Forall (modest expected) rows;
  mx_prose : forall line, In line (splitlines text) -> startswith (strip line) "|" = false ->
    says FRONTEND_TERMS (lower line) -> says DEFERRED_MARKERS (lower line);
  mx_names : says ["design.html"] text /\ says ["host_mutation=false"] text
    /\ says ["rollback"] (lower text) /\ says ["lifecycle"] (lower text);
  mx_no_override : ~ says PROMPT_INJECTION_TERMS (lower text);
}.

(** * Lemmas *)
Lemma says_iff needles s : existsb (fun needle => contains needle s) needles = true <-> says needles s.
Proof.
  unfold says. rewrite existsb_exists. setoid_rewrite contains_iff. split.
  - intros (n & Hn & a & b & ->). by exists n, a, b.
  - intros (n & a & b & Hn & ->). exists n. split; [done|]. by exists a, b.
Qed.
Lemma says_one needle s : contains needle s = true <-> says [needle] s.
Proof. rewrite <- says_iff. simpl. by rewrite orb_false_r. Qed.

Lemma concat_nil {A} (l : list A) (ls : list (list A)) : concat (l :: ls) = [] <-> l = [] /\ concat ls = [].
Proof. simpl. split; [apply app_eq_nil | by intros [-> ->]]. Qed.
Lemma flat_map_nil {A B} (f : A -> list B) l : flat_map f l = [] <-> forall x, In x l -> f x = [].
Proof.
  induction l as [|x l IH]; simpl; [split; [by intros _ x [] | done]|]. split.
  - intros [Hx Hl]%app_eq_nil y [<-|Hy]; [done|]. by apply IH.
  - intros H. rewrite (H x) by (by left). apply IH. intros y Hy. apply H. by right.
Qed.
Lemma unless_nil {A} (b : bool) (x : A) : (if b then [] else [x]) = [] <-> b = true.
Proof. by destruct b. Qed.
Lemma when_nil {A} (b : bool) (x : A) : (if b then [x] else []) = [] <-> ~ b = true.
Proof. by destruct b. Qed.

Lemma parse_lines_iff n lines rows failures : parse_lines n lines = (rows, failures) ->
  (failures = [] <-> omap table_cells lines = map cells_of rows).
Proof.
  revert n rows failures. induction lines as [|raw lines IH]; intros n rows failures; cbn [parse_lines].
  { by intros [= <- <-]. }
  destruct (parse_lines (S n) lines) as [rs fs] eqn:E. specialize (IH _ _ _ E).
  cbn [omap list_omap]. unfold table_cells at 1. cbv zeta. destruct (startswith (strip raw) "|"); cbn [negb andb]; [|by intros [= <- <-]].
  destruct (skipped _); cbn [negb]; [by intros [= <- <-]|].
  destruct (map cell_text _) as [|a [|b [|c [|d [|]]]]]; intros [= <- <-];
    try (split; [discriminate | destruct rs as [|[] rs]; intros H; discriminate H]).
  rewrite IH. unfold cells_of at 2. cbn [map row_id design_claim backend_obligation evidence_gate]. split; [by intros -> | by intros [= ->]].
Qed.

Lemma parse_lines_rows n lines rows : omap table_cells lines = map cells_of rows -> parse_lines n lines = (rows, []).
Proof.
  revert n rows. induction lines as [|raw lines IH]; intros n rows H; cbn [parse_lines]; [by destruct rows|].
  cbn [omap list_omap] in H. unfold table_cells at 1 in H. cbv zeta in H.
  destruct (startswith (strip raw) "|"); cbn [negb andb] in *; [|by rewrite (IH _ rows)].
  destruct (skipped _); cbn [negb] in *; [by rewrite (IH _ rows)|]. destruct rows as [|[a b c d] rows]; [done|].
  injection H as -> H. by rewrite (IH _ rows).
Qed.

Lemma parse_rows_iff text rows : parse_rows text = (rows, []) <->
  omap table_cells (splitlines text) = map cells_of rows /\ rows <> [].
Proof.
  unfold parse_rows. split.
  - destruct (parse_lines 1 (splitlines text)) as [rs fs] eqn:E. intros [= <- H]. destruct rs as [|r rs].
    + by apply app_eq_nil in H as [_ ?].
    + split; [|done]. by apply (parse_lines_iff _ _ _ _ E).
  - intros [H Hne]. rewrite (parse_lines_rows 1 _ rows H). by destruct rows.
Qed.

Lemma duplicates_iff ids seen dups :
  snd (fold_left (fun '(seen, duplicates) row_id =>
    ((row_id :: seen)%list,
     if mem row_id seen && negb (mem row_id duplicates) then (duplicates ++ [row_id])%list else duplicates))
    ids (seen, dups)) = [] <-> dups = [] /\ NoDup ids /\ forall x, In x ids -> ~ In x seen.
Proof.
  revert seen dups. induction ids as [|x ids IH]; intros seen dups; cbn [fold_left].
  { cbn [snd]. split; [intros ->; split_and!; [done | constructor | by intros ? []] | by intros [-> _]]. }
  etransitivity; [apply IH|]. rewrite NoDup_cons, list_elem_of_In. destruct (mem x seen && negb (mem x dups)) eqn:E.
  - apply andb_true_iff in E as [Hx _]. apply mem_In in Hx. split; [by intros [[_ ?]%app_eq_nil _]|].
    intros (_ & _ & H). destruct (H x); [by left | done].
  - split.
    + intros (-> & Hn & H). rewrite andb_true_r in E. apply not_true_iff_false in E. rewrite mem_In in E.
      split_and!; [done | intros Hx; destruct (H x Hx); by left | done |]. intros y [<-|Hy]; [done|]. intros Hs. destruct (H y Hy). by right.
    + intros (-> & [Hx Hn] & H). split_and!; [done..|]. intros y Hy [->|Hs]; [done|]. destruct (H y); [by right | done].
Qed.
Lemma no_duplicates ids : collect_duplicate_ids ids = [] <-> NoDup ids.
Proof. unfold collect_duplicate_ids. rewrite duplicates_iff. naive_solver. Qed.

Lemma cells_iff row e : row_id row = row_id (expected_row e) ->
  validate_row_cells row (expected_row e) = [] <-> row_matches row e.
Proof.
  intros Hid. unfold validate_row_cells. cbn [flat_map].
  destruct (String.eqb_spec (normalize_cell (design_claim row)) (normalize_cell (design_claim (expected_row e))));
    [|by split; [|intros []]].
  destruct (String.eqb_spec (normalize_cell (backend_obligation row)) (normalize_cell (backend_obligation (expected_row e))));
    [|by split; [|intros []]].
  destruct (String.eqb_spec (normalize_cell (evidence_gate row)) (normalize_cell (evidence_gate (expected_row e))));
    [done | by split; [|intros []]].
Qed.

Lemma first_rows_iff rows expected : map row_id rows = map (fun e => row_id (expected_row e)) expected -> NoDup (map row_id rows) ->
  (forall e, In e expected -> match first_row (row_id (expected_row e)) rows with
                              | None => [] | Some actual => validate_row_cells actual (expected_row e) end = [])
  <-> Forall2 row_matches rows expected.
Proof.
  revert expected. induction rows as [|row rows IH]; intros [|e expected]; try discriminate.
  { split; [constructor | by intros _ e []]. }
  cbn [map]. rewrite NoDup_cons, list_elem_of_In. intros [= Hid Hids] [Hn Hnd]. rewrite Forall2_cons, <- (IH expected Hids Hnd), <- (cells_iff row e Hid).
  assert (Hhead : first_row (row_id (expected_row e)) (row :: rows) = Some row) by (cbn [first_row]; by rewrite Hid, String.eqb_refl).
  assert (Htail : forall e', In e' expected -> first_row (row_id (expected_row e')) (row :: rows) = first_row (row_id (expected_row e')) rows).
  { intros e' He'. cbn [first_row]. destruct (String.eqb_spec (row_id (expected_row e')) (row_id row)) as [Heq|]; [|done].
    destruct Hn. rewrite Hids, in_map_iff. by exists e'. }
  split.
  - intros H. split; [specialize (H e (or_introl eq_refl)); by rewrite Hhead in H|]. intros e' He'. rewrite <- Htail by done. apply H. by right.
  - intros [Hr H] e' [<-|He']; [by rewrite Hhead | rewrite Htail by done; by apply H].
Qed.

Lemma contract_iff rows expected : validate_contract rows expected = [] <->
  Forall2 row_matches rows expected /\ NoDup (map row_id rows).
Proof.
  unfold validate_contract. cbv zeta. rewrite !concat_nil, unless_nil, strs_eqb_eq, flat_map_nil.
  assert (Hm : forall (f : string -> string) l, map f l = [] <-> l = []) by (by intros f []).
  rewrite !Hm, no_duplicates. split.
  - intros (Hn & _ & _ & Hids & Hc & _). split; [by apply first_rows_iff | done].
  - intros [Hf Hn]. assert (Hids : map row_id rows = map (fun e => row_id (expected_row e)) expected).
    { clear Hn. induction Hf as [|row e rows expected [] _ IH]; [done|]. cbn [map]. by rewrite IH, rm_id0. }
    assert (Hk : forall ids, List.filter (fun row_id => negb (mem row_id ids)) ids = []).
    { intros ids. assert (H : forall l, (forall x, In x l -> In x ids) -> List.filter (fun row_id => negb (mem row_id ids)) l = []); [|by apply H].
      induction l as [|x l IH]; [done|]. intros H. cbn [List.filter]. rewrite (proj2 (mem_In x ids)) by (apply H; by left).
      apply IH. intros y Hy. apply H. by right. }
    rewrite <- Hids, !Hk. split_and!; [done..| |done]. by apply first_rows_iff.
Qed.

Lemma modest_iff rows expected :
  flat_map (fun row =>
    let text := frontend_row_text row in
    concat [
      match positive_frontend_claim text with
      | Some claim => [row_id row ++ ": frontend implementation claim is forbidden: " ++ claim]
      | None => []
      end;
      if mem (row_id row) (map (fun e => row_id (expected_row e)) (List.filter deferred expected))
         && names_frontend text && negb (has_deferred_marker text)
      then [row_id row ++ ": frontend/theme/UI terms must be deferred/non-goal in row content"] else []]) rows = []
  <-> Forall (modest expected) rows.
Proof.
  rewrite flat_map_nil, Forall_forall. setoid_rewrite list_elem_of_In. apply forall_proper. intros row. apply forall_proper. intros _.
  cbv zeta. rewrite !concat_nil, when_nil, !andb_true_iff, mem_In, in_map_iff, negb_true_iff. unfold modest.
  unfold names_frontend, has_deferred_marker, positive_frontend_claim. rewrite <- !not_true_iff_false, !says_iff.
  setoid_rewrite filter_In.
  assert (Hc : match List.find (fun claim => contains claim (frontend_row_text row)) POSITIVE_FRONTEND_CLAIMS with
               | Some claim => [row_id row ++ ": frontend implementation claim is forbidden: " ++ claim] | None => [] end = []
             <-> ~ says POSITIVE_FRONTEND_CLAIMS (frontend_row_text row)).
  { rewrite <- says_iff. destruct (List.find _ _) as [claim|] eqn:E.
    - apply find_some in E as [Hin Hc]. split; [done|]. intros []. apply existsb_exists. by exists claim.
    - split; [|done]. intros _ (x & Hx & Hc)%existsb_exists. by rewrite (find_none _ _ E x Hx) in Hc. }
  rewrite Hc. apply and_iff_compat_l. split.
  - intros [H _] e He Hd Hid Hs. destruct (decide (existsb (fun m => contains m (frontend_row_text row)) DEFERRED_MARKERS = true)) as [Hm|Hm];
      [by apply says_iff|]. rewrite says_iff in Hm. destruct H. split; [split; [by exists e | done] | done].
  - intros H. split; [|done]. intros [[(e & Hid & He & Hd) Hs] Hm]. by apply Hm, (H e).
Qed.

(** ** Lines *)
Definition one_line (s : string) : Prop := all_chars (fun c => negb (is_linebreak c)) s = true.

Lemma splitlines_lines s : Forall one_line (splitlines s) /\ forall c, Forall one_line (splitlines (String c s)).
Proof.
  induction s as [|d s [IH IHd]].
  - split; [constructor|]. intros c. cbn [splitlines]. destruct (is_linebreak c) eqn:Ec; (constructor; [|constructor]); [done|].
    unfold one_line. cbn. by rewrite Ec.
  - split; [apply IHd|]. intros c. specialize (IHd d).
    assert (Hd : Forall one_line (splitlines (String d s))) by done.
    change (splitlines (String c (String d s))) with
      (if is_linebreak c then "" :: (if (code c =? 13)%N && (code d =? 10)%N then splitlines s else splitlines (String d s))
       else cons_line c (splitlines (String d s)))%list.
    destruct (is_linebreak c) eqn:Ec.
    + constructor; [done|]. by destruct (_ && _).
    + destruct (splitlines (String d s)) as [|x xs]; cbn [cons_line]; [constructor; [|constructor] |].
      * unfold one_line. cbn. by rewrite Ec.
      * apply Forall_cons in Hd as [Hx Hxs]. constructor; [|done]. unfold one_line in *. cbn [all_chars]. by rewrite Ec, Hx.
Qed.

Lemma split_first a b : one_line a -> splitlines (a ++ String "010" b) = (a :: splitlines b)%list.
Proof.
  unfold one_line. induction a as [|c a IH]; intros H.
  - change ("" ++ String "010" b) with (String "010" b). cbn [splitlines]. by destruct b.
  - cbn [all_chars] in H. apply andb_true_iff in H as [Hc%negb_true_iff Ha].
    change (String c a ++ String "010" b) with (String c (a ++ String "010" b)). cbn [splitlines]. rewrite Hc, IH by done. done.
Qed.
Lemma split_single a : one_line a -> a <> "" -> splitlines a = [a].
Proof.
  unfold one_line. induction a as [|c a IH]; [done|]. intros H _. cbn [all_chars] in H.
  apply andb_true_iff in H as [Hc%negb_true_iff Ha]. cbn [splitlines]. rewrite Hc.
  destruct a as [|d a]; [done|]. by rewrite IH.
Qed.
Lemma splitlines_join ls line : Forall one_line ls -> line <> "" ->
  In line (splitlines (join (chr 10) ls)) <-> In line ls.
Proof.
  intros Hls Hl. induction Hls as [|x ls Hx Hls IH]; [done|]. destruct ls as [|y ls].
  - cbn [join]. destruct (decide (x = "")) as [->|Hne]; [simpl; naive_solver|]. by rewrite split_single.
  - change (join (chr 10) (x :: y :: ls)) with (x ++ chr 10 ++ join (chr 10) (y :: ls)).
    change (chr 10 ++ join (chr 10) (y :: ls)) with (String "010" (join (chr 10) (y :: ls))).
    rewrite (split_first x (join (chr 10) (y :: ls))) by done. cbn [In]. by rewrite IH.
Qed.

Lemma prose_iff text :
  flat_map (fun raw_line =>
    let lowered := lower raw_line in
    if names_frontend lowered && negb (has_deferred_marker lowered)
    then ["frontend/theme/UI prose must be explicitly deferred/non-goal: " ++ strip raw_line] else [])
    (splitlines (prose_without_table_rows text)) = []
  <-> forall line, In line (splitlines text) -> startswith (strip line) "|" = false ->
        says FRONTEND_TERMS (lower line) -> says DEFERRED_MARKERS (lower line).
Proof.
  rewrite flat_map_nil. unfold prose_without_table_rows.
  assert (Hone : Forall one_line (List.filter (fun raw_line => negb (startswith (strip raw_line) "|")) (splitlines text))).
  { apply Forall_forall. intros x [Hx _]%list_elem_of_In%filter_In. apply list_elem_of_In in Hx.
    exact (proj1 (Forall_forall _ _) (proj1 (splitlines_lines text)) x Hx). }
  assert (Hline : forall raw, (let lowered := lower raw in
      if names_frontend lowered && negb (has_deferred_marker lowered)
      then ["frontend/theme/UI prose must be explicitly deferred/non-goal: " ++ strip raw] else []) = []
    <-> (says FRONTEND_TERMS (lower raw) -> says DEFERRED_MARKERS (lower raw))).
  { intros raw. cbv zeta. rewrite when_nil, <- !says_iff. unfold names_frontend, has_deferred_marker.
    split; [intros H1 H2; apply not_false_iff_true; intros H3; apply H1; by rewrite H2, H3|].
    intros H1 [H2%H1 H3%negb_true_iff]%andb_true_iff. congruence. }
  split.
  - intros H line Hin Ht. destruct (decide (line = "")) as [->|Hne]; [by intros Hs%says_iff|]. apply Hline, H.
    apply (splitlines_join _ line Hone Hne), filter_In. by rewrite Ht.
  - intros H raw Hin. apply Hline. destruct (decide (raw = "")) as [->|Hne]; [by intros Hs%says_iff|].
    apply (splitlines_join _ raw Hone Hne), filter_In in Hin as [Hin Ht%negb_true_iff]. by apply H.
Qed.

Lemma global_iff text : validate_global_text text = [] <->
  (says ["design.html"] text /\ says ["host_mutation=false"] text /\ says ["rollback"] (lower text) /\ says ["lifecycle"] (lower text))
  /\ ~ says PROMPT_INJECTION_TERMS (lower text).
Proof.
  unfold validate_global_text. rewrite !concat_nil, !unless_nil, !says_one, flat_map_nil, <- (says_iff PROMPT_INJECTION_TERMS).
  assert (H : (forall term, In term PROMPT_INJECTION_TERMS ->
      (if contains term (lower text) then ["matrix contains prompt-injection/pass override language: " ++ term] else []) = [])
    <-> ~ existsb (fun needle => contains needle (lower text)) PROMPT_INJECTION_TERMS = true).
  { split; [intros H (x & Hx & Hc)%existsb_exists; specialize (H x Hx); by rewrite Hc in H|].
    intros H term Ht. apply when_nil. intros Hc. apply H, existsb_exists. by exists term. }
  rewrite H. simpl concat. tauto.
Qed.

Lemma matrix_accepted F here p : validate_matrix F here p = Ok [] <->
  exists text expected, read_text F p = Ok text /\ load_expected_rows F (EXPECTED_CONTRACT_PATH here) = Ok expected
    /\ matrix_ok text expected.
Proof.
  unfold validate_matrix.
  assert (H : forall text expected, (let (rows, failures) := parse_rows text in
      Ok (concat [failures; validate_contract rows expected; validate_global_text text;
                  validate_frontend_scope rows expected (prose_without_table_rows text)])) = Ok []
    <-> matrix_ok text expected).
  { intros text expected. transitivity (exists rows, parse_rows text = (rows, []) /\ validate_contract rows expected = []
      /\ validate_global_text text = [] /\ validate_frontend_scope rows expected (prose_without_table_rows text) = []).
    - destruct (parse_rows text) as [rows failures]. rewrite Ok_inj, !concat_nil. split; [|by intros (rs & [= -> ->] & ? & ? & ?)].
      intros (-> & Hc & Hg & Hf & _). by exists rows.
    - unfold validate_frontend_scope. cbv zeta. split.
      + intros (rows & [Ht Hne]%parse_rows_iff & [Hf Hn]%contract_iff & [Hg Ho]%global_iff & H).
        rewrite !concat_nil, modest_iff, prose_iff in H. destruct H as (Hm & Hp & _). split; [by exists rows | done..].
      + intros [(rows & Ht & Hne & Hf & Hn & Hm) Hp Hg Ho]. exists rows.
        rewrite !concat_nil, modest_iff, prose_iff, contract_iff, global_iff, parse_rows_iff. done. }
  split; [intros (t & Ht & (e & He & Hm%H)%bind_ok)%bind_ok; by exists t, e|].
  intros (t & e & Ht & He & Hm). rewrite Ht. cbn [bind]. rewrite He. cbn [bind]. by apply H.
Qed.

Lemma parse_args_iff argv p : parse_args argv = Ok p <-> exists s, argv = ["--matrix"; s] /\ p = Path s.
Proof.
  split; [|by intros (s & -> & ->)]. unfold parse_args, fail. intros H.
  repeat (match type of H with context [match ?x with _ => _ end] => is_var x; destruct x end; try discriminate).
  injection H as <-. by eexists.
Qed.

(** * Properties *)

(** C24: the checker exits with status 0 exactly when its arguments name a
    document and, whatever order the failures would be reported in, every table
    line that is not skipped has four cells; the rows are the rows of the contract,
    in its order, each once, equal up to white space; no row claims a front end,
    and deferred rows and the prose outside the table that mention one say it is
    deferred; the document names what it must and no override of the checker. *)
Theorem capability_iff F here argv : exits_well (main F here argv) <->
  exists p text expected, argv = ["--matrix"; p] /\ read_text F (Path p) = Ok text
    /\ load_expected_rows F (EXPECTED_CONTRACT_PATH here) = Ok expected /\ matrix_ok text expected.
Proof.
  transitivity (exists p, argv = ["--matrix"; p] /\ validate_matrix F here (Path p) = Ok []);
    [|split; [intros (p & -> & (text & expected & H)%matrix_accepted); by exists p, text, expected
             |intros (p & text & expected & -> & H); exists p; split; [done|]; apply matrix_accepted; by exists text, expected]].
  unfold main, exits_well. split.
  - destruct (let* matrix_path := parse_args argv in let* failures := validate_matrix F here matrix_path in Ok (matrix_path, failures))
      as [[p failures]|e] eqn:E; [|by case_decide; [|case_decide]; intros (? & [=])].
    destruct failures as [|f fs]; [|by intros (? & [=])]. intros _.
    apply bind_ok in E as (q & Hq%parse_args_iff & (fs & Hf & [= -> ->])%bind_ok). destruct Hq as (s & -> & ->). by exists s.
  - intros (s & -> & Hm). cbn [bind]. rewrite (proj2 (parse_args_iff _ _)) by (by exists s). cbn [bind]. rewrite Hm. cbn [bind].
    apply matrix_accepted in Hm as (text & expected & _ & -> & _). by eexists.
Qed.

(** A contract of one row, and a document with this row and a second one. *)
Definition demo_contract : string :=
  dumps (JDict [("schema", JStr EXPECTED_SCHEMA);
    ("rows", JList [JDict [("id", JStr "vm.state"); ("design_claim", JStr "A VM runs"); ("backend_obligation", JStr "Report it");
                           ("evidence_gate", JStr "qa"); ("deferred", JBool false)]])]).
Definition demo_matrix_text (second_id : string) : string :=
  join (chr 10) [
    "From design.html: host_mutation=false, rollback, lifecycle.";
    "| ID | Claim | Obligation | Gate |";
    "|---|---|---|---|";
    "| vm.state | A VM runs | Report  it | `qa` |";
    "|" ++ second_id ++ "| webview implemented | browser implemented | no gate |"].
Definition demo_repo (second_id : string) : fs := fs_of "/repo" [
  ("qa/backend_capability_matrix_expected.json", File demo_contract);
  ("docs/matrix.md", File (demo_matrix_text second_id))].

(** A row whose first cell is empty passes unseen.  The test that skips the
    rule under the header, that the characters of the first cell are among dash,
    space and colon, also holds of an empty cell: a document with a row that claims
    an implemented front end is accepted when the row has no id, and refused when
    it has one. *)
Theorem unnamed_row_is_not_checked :
  exits_well (main (demo_repo " ") (Path "qa") ["--matrix"; "docs/matrix.md"])
  /\ (exists line, In line (splitlines (demo_matrix_text " ")) /\ says POSITIVE_FRONTEND_CLAIMS (lower line))
  /\ ~ exits_well (main (demo_repo " ui ") (Path "qa") ["--matrix"; "docs/matrix.md"]).
Proof.
  split; [eexists; vm_compute; reflexivity|]. split.
  - exists "| | webview implemented | browser implemented | no gate |". split; [vm_compute; tauto|]. by apply says_iff; vm_compute.
  - intros (out & H). vm_compute in H. discriminate.
Qed.
