(* ===== verification/Telemetry.v ===== *)
(** Telemetry: qa/protected_core_telemetry_check.py, the normalised facts every
    runtime sample of a protected-core run must carry, and where the samples may
    come from. *)
From S2P Require Import Prelude PyStr PyRe PyFloat PyJson Sha256 PyFs PyMain RuntimeSampleCommon PolicyAbi SchedExt RuntimeSample MatrixModel Fields.

Local Open Scope string_scope.

Definition UNAVAILABLE_VALUES : list string := [""; "missing"; "none"; "null"; "unavailable"; "unknown"].
Definition UNAVAILABLE_STATUSES : list string := ["missing"; "unreadable"; "unknown"].
Definition REQUIRED_FACTS : list string := [
  "state"; "ops"; "root_ops"; "enable_seq"; "events"; "scheduler_events"; "nr_rejected"; "task_ext_enabled";
  "cgroup_membership_status"; "workload"].
Definition REQUIRED_FIELDS : list string := [
  "sample_source_event"; "observation_source"; "sched_ext_phase"; "policy_abi"; "cgroup_semantic_labels";
  "cgroup_membership_digest"; "private_command_lines_sampled"].
Definition REQUIRED_TELEMETRY : list string := [
  "policy_counters"; "sample_loss"; "dsq_depth"; "queue_latency"; "fairness"; "scheduler_counters"; "sched_ext_observation"].
(** [(?:^|\s)nr_rejected\s*[:=]\s*([0-9]+)(?:\s|$)] *)
Definition EVENT_COUNTER_RE : regex := rseq [
  RAlt RBol (RChar is_space); rlit "nr_rejected"; rstar (RChar is_space); RChar (one_of ":="); rstar (RChar is_space);
  RCap "1" (rplus (RChar is_digit)); RAlt (RChar is_space) REol].
Definition CGROUP_SCENARIO : string := "workload-cgroup-weight-quota".
Definition VM_CAPTURED_OBSERVATION_SOURCES : list string := ["vm_guest_sched_ext"; "vm_serial_sched_ext"].
Definition HARNESS_GENERATED_OBSERVATION_SOURCES : list string := ["vm_harness_matrix_row"; "vm_fixture_sched_ext"].

Definition fail {A} (m : string) : result A := raise ProtectedCoreTelemetryError m.
Definition require (condition : bool) (message : string) : result unit := ensure condition ProtectedCoreTelemetryError message.

Record Args : Set := MkArgs {
  input_path : option path; manifest_arg : option path; scenario_arg : option string; self_test_arg : bool }.

Definition parse_args (argv : list string) : result Args :=
  let usage := fail ("usage: protected_core_telemetry_check.py --input <jsonl> [--scenario <id>]"
                     ++ " | --manifest <manifest> | --self-test") in
  match argv with
  | [a] => if String.eqb a "--self-test" then Ok (MkArgs None None None true) else usage
  | [a; p] =>
      if String.eqb a "--input" then Ok (MkArgs (Some (Path p)) None None false)
      else if String.eqb a "--manifest" then Ok (MkArgs None (Some (Path p)) None false) else usage
  | [a; p; b; scenario] =>
      if String.eqb a "--input" && String.eqb b "--scenario" then Ok (MkArgs (Some (Path p)) None (Some scenario) false) else usage
  | _ => usage
  end.

(** ** A row *)
Definition is_unavailable_fact (value : json) : bool :=
  match value with
  | JDict d =>
      match get d "status", get d "value" with
      | JStr status, JStr fact_value => mem status UNAVAILABLE_STATUSES && mem (casefold fact_value) UNAVAILABLE_VALUES
      | _, _ => false
      end
  | _ => false
  end.

Definition fact_status (row : jobject) (field context : string) : result string :=
  match get row field with
  | JDict fact =>
      match get fact "status", get fact "value" with
      | JStr status, JStr _ => Ok status
      | _, _ => fail (context ++ "." ++ field ++ " must include status/value")
      end
  | _ => fail (context ++ "." ++ field ++ " must be an explicit fact")
  end.

Definition fact_value (row : jobject) (field : string) : result string :=
  let* fact := getitem row field in
  match fact with JDict d => let* v := getitem d "value" in Ok (py_str v) | _ => Ok "" end.

Definition events_nr_rejected (row : jobject) : result (option Z) :=
  match get row "events" with
  | JDict events =>
      if negb (py_eq (get events "status") (JStr "present")) then Ok None else
      match get events "value" with
      | JStr value =>
          if mem (casefold value) UNAVAILABLE_VALUES then Ok None else
          match re_search EVENT_COUNTER_RE value with
          | Some m => let* n := int_of_digits (group "1" m) in Ok (Some n)
          | None => Ok None
          end
      | _ => Ok None
      end
  | _ => Ok None
  end.

Definition require_metric_or_unavailable (row : jobject) (field context : string) : result unit :=
  match get row field with
  | JDict d =>
      if is_unavailable_fact (JDict d) then Ok tt else reject_private_leaks (JDict d) (context ++ "." ++ field)
  | _ => fail (context ++ "." ++ field ++ " must be present as metrics or explicit unavailable fact")
  end.

(** The reject counter of the sample against its events. *)
Definition validate_rejects (row : jobject) (context : string) : result unit :=
  let* events_counter := events_nr_rejected row in
  let* nr_status := fact_status row "nr_rejected" context in
  let* nr_value := fact_value row "nr_rejected" in
  match events_counter with
  | None =>
      require (mem nr_status UNAVAILABLE_STATUSES && mem (casefold nr_value) UNAVAILABLE_VALUES)
        (context ++ ".nr_rejected must be unavailable when events are unavailable") ;;;
      require (is_unavailable_fact (get row "policy_counters"))
        (context ++ ".policy_counters must be unavailable when events are unavailable")
  | Some events_counter =>
      require (String.eqb nr_status "present" && isdecimal nr_value)
        (context ++ ".nr_rejected must be numeric when events are present") ;;;
      let* n := int_of_digits nr_value in
      require (Z.eqb n events_counter) (context ++ ".nr_rejected must match events nr_rejected")
  end.

Definition validate_cgroup_abi (row : jobject) (scenario : option string) (context : string) : result unit :=
  if match scenario with Some s => String.eqb s CGROUP_SCENARIO | None => false end then
    let* policy_abi := RuntimeSampleCommon.require_object row "policy_abi" context in
    require (py_eq (get policy_abi "abi_version") (JInt 3) && py_eq (get policy_abi "abi_label") (JStr ABI_LABEL))
      (context ++ ".policy_abi missing ABI-v3 metadata for cgroup-policy row")
  else Ok tt.

Definition validate_row (row : jobject) (index : nat) (scenario : option string) : result unit :=
  let context := "sample[" ++ str_nat index ++ "]" in
  for_each REQUIRED_FIELDS (fun field => require (has_key field row) (context ++ " missing protected telemetry field: " ++ field)) ;;;
  for_each REQUIRED_FACTS (fun field => let* _ := fact_status row field context in Ok tt) ;;;
  for_each REQUIRED_TELEMETRY (fun field => require_metric_or_unavailable row field context) ;;;
  validate_rejects row context ;;;
  validate_cgroup_abi row scenario context.

Definition validate_rows (rows : list jobject) (scenario : option string) (label : string) : result unit :=
  match rows with
  | [] => fail (label ++ " has no runtime samples")
  | _ => for_enum 0 rows (fun index row => validate_row row index scenario)
  end.

Definition require_vm_captured_rows (rows : list jobject) (label : string) : result unit :=
  for_enum 0 rows (fun index row =>
    let context := label ++ ".sample[" ++ str_nat index ++ "]" in
    let source := get row "observation_source" in
    let* generated := in_set source HARNESS_GENERATED_OBSERVATION_SOURCES in
    (if (generated : bool)
     then fail (context ++ ".observation_source is harness-generated synthetic telemetry: " ++ py_str source) else Ok tt) ;;;
    require (match source with JStr s => mem s VM_CAPTURED_OBSERVATION_SOURCES | _ => false end)
      (context ++ ".observation_source must be VM-captured telemetry") ;;;
    match get row "sample_source_event" with
    | JStr sample_event =>
        require (negb (String.eqb sample_event "")) (context ++ ".sample_source_event must be present") ;;;
        require (negb (startswith sample_event "matrix-"))
          (context ++ ".sample_source_event must not be harness matrix fallback telemetry")
    | _ => fail (context ++ ".sample_source_event must be present")
    end).

Definition safe_path (value : json) (context : string) : result path :=
  match value with
  | JStr s =>
      if String.eqb s "" then fail (context ++ " must be a non-empty path") else
      require (negb (is_absolute (Path s)) && negb (mem ".." (parts (Path s)))) (context ++ " must be repo-relative and non-traversing") ;;;
      Ok (Path s)
  | _ => fail (context ++ " must be a non-empty path")
  end.

Section Files.
Variable F : fs.

Definition load_json (p : path) : result jobject :=
  let* raw := catch (bind (read_text F p) loads) (fun exc =>
    if decide (exn_cls exc = FileNotFoundError) then Some (fail ("missing JSON file: " ++ path_str p))
    else if decide (exn_cls exc = JSONDecodeError) then Some (fail ("invalid JSON in " ++ path_str p ++ ": " ++ exn_str exc))
    else None) in
  match raw with JDict d => Ok d | _ => fail (path_str p ++ " must contain a JSON object") end.

Definition validate_input (p : path) (scenario : option string) : result unit :=
  validate_file F p ;;;
  let* rows := load_jsonl F p in
  validate_rows rows scenario (path_str p).

Definition validate_vm_captured_input (p : path) (scenario : option string) : result unit :=
  validate_file F p ;;;
  let* rows := load_jsonl F p in
  validate_rows rows scenario (path_str p) ;;;
  require_vm_captured_rows rows (path_str p).

(** A row of the manifest: only the live rows that passed are looked at. *)
Definition validate_ref (p : path) (index : nat) (ref : json) : result unit :=
  let context := path_str p ++ ".rows[" ++ str_nat index ++ "]" in
  match ref with
  | JDict ref =>
      if negb (py_eq (get ref "outcome") (JStr "PASS")) then Ok tt else
      match get ref "scenario_id" with
      | JStr scenario =>
          if String.eqb scenario "" then fail (context ++ ".scenario_id must be text") else
          let* artifact := safe_path (get ref "artifact_path") (context ++ ".artifact_path") in
          let* row := load_json artifact in
          if negb (py_eq (get row "evidence_mode") (JStr "vm-live")) then Ok tt else
          let* sample := safe_path (get row "runtime_sample_path") (context ++ ".runtime_sample_path") in
          validate_vm_captured_input sample (Some scenario)
      | _ => fail (context ++ ".scenario_id must be text")
      end
  | _ => fail (context ++ " must be an object")
  end.

Definition validate_manifest (p : path) : result unit :=
  let* manifest := load_json p in
  match get manifest "rows" with
  | JList rows => for_enum 0 rows (validate_ref p)
  | _ => fail (path_str p ++ ".rows must be a list")
  end.

Definition run (self_test : printed) (argv : list string) : printed :=
  reading (parse_args argv) (fun args =>
  if self_test_arg args then self_test else
  match input_path args, manifest_arg args with
  | Some p, _ => reading (validate_input p (scenario_arg args)) (fun _ => (["PASS protected-core telemetry: " ++ path_str p], Ok tt))
  | None, Some p => reading (validate_manifest p) (fun _ => (["PASS protected-core telemetry manifest: " ++ path_str p], Ok tt))
  | None, None => silent (fail "internal argument parser error")
  end).

Definition main (self_test : printed) (argv : list string) : exit :=
  end_main (fun c => is_class ProtectedCoreTelemetryError c || is_class RuntimeSampleError c || is_OSError c || is_class JSONDecodeError c)
    "FAIL protected-core telemetry" (run self_test argv).
End Files.

(** ** Specification *)

(** [row[field]] is a fact: an object with a text status and a text value. *)
Definition fact (row : jobject) (field status value : string) : Prop :=
  exists d, get row field = JDict d /\ get d "status" = JStr status /\ get d "value" = JStr value.

Definition unavailable (v : json) : Prop :=
  exists d status value, v = JDict d /\ get d "status" = JStr status /\ get d "value" = JStr value
    /\ In status UNAVAILABLE_STATUSES /\ In (casefold value) UNAVAILABLE_VALUES.

(** The events of the sample count [n] rejected dispatches, or say nothing. *)
Definition counted (row : jobject) (n : Z) : Prop :=
  exists value m, fact row "events" "present" value /\ ~ In (casefold value) UNAVAILABLE_VALUES
    /\ re_search EVENT_COUNTER_RE value = Some m /\ int_of_digits (group "1" m) = Ok n.
Definition uncounted (row : jobject) : Prop :=
  exists status value, fact row "events" status value
    /\ (status <> "present" \/ In (casefold value) UNAVAILABLE_VALUES \/ re_search EVENT_COUNTER_RE value = None).

Record telemetry (scenario : option string) (row : jobject) : Prop := {
  tel_fields : forall f, In f REQUIRED_FIELDS -> In f (keys row);
  tel_facts : forall f, In f REQUIRED_FACTS -> exists status value, fact row f status value;
  tel_metrics : forall f, In f REQUIRED_TELEMETRY -> unavailable (get row f) \/ exists d, get row f = JDict d /\ no_leak (JDict d);
  tel_rejects :
    (uncounted row /\ unavailable (get row "nr_rejected") /\ unavailable (get row "policy_counters"))
    \/ (exists n value, counted row n /\ fact row "nr_rejected" "present" value /\ isdecimal value = true
        /\ int_of_digits value = Ok n);
  tel_cgroup : scenario = Some CGROUP_SCENARIO ->
    exists d, get row "policy_abi" = JDict d /\ py_eq (get d "abi_version") (JInt 3) = true
      /\ get d "abi_label" = JStr ABI_LABEL;
}.

(** The sample was captured from a guest: its source is one of the two captured
    ones, and the event it comes from is not the fallback of the harness. *)
Definition captured (row : jobject) : Prop :=
  text_in row "observation_source" VM_CAPTURED_OBSERVATION_SOURCES
  /\ exists event, get row "sample_source_event" = JStr event /\ event <> "" /\ ~ exists rest, event = "matrix-" ++ rest.

Definition vm_captured (F : fs) (p : path) (scenario : option string) : Prop :=
  validate_file F p = Ok tt
  /\ exists rows, load_jsonl F p = Ok rows /\ rows <> [] /\ Forall (telemetry scenario) rows /\ Forall captured rows.

(** ** Lemmas *)
Lemma telemetry_fail_ok {A} m (a : A) : fail m = Ok a <-> False.
Proof. apply raise_ok. Qed.

Lemma unavailable_iff v : is_unavailable_fact v = true <-> unavailable v.
Proof.
  unfold unavailable. destruct v as [| | | | | |d]; cbn [is_unavailable_fact]; try (split; [discriminate | by intros (? & ? & ? & [=] & _)]). split.
  - destruct (get d "status") eqn:Es; try discriminate. destruct (get d "value") eqn:Ev; try discriminate.
    rewrite andb_true_iff, !mem_In. intros []. by eexists _, _, _.
  - intros (? & ? & ? & [= <-] & -> & -> & H). by rewrite andb_true_iff, !mem_In.
Qed.

Lemma fact_status_ok row field context status :
  fact_status row field context = Ok status <-> exists value, fact row field status value.
Proof.
  unfold fact_status, fact. destruct (get row field) as [| | | | | |d]; try (split; [discriminate | by intros (? & ? & [=] & _)]). split.
  - destruct (get d "status") eqn:Es; try discriminate. destruct (get d "value") eqn:Ev; try discriminate.
    intros [= <-]. by eexists _, _.
  - by intros (? & ? & [= <-] & -> & ->).
Qed.

Lemma getitem_there d k v : get d k = v -> v <> JNull -> getitem d k = Ok v.
Proof. unfold get, getitem. by destruct (jlookup k d); intros <-. Qed.

Lemma fact_value_of row field status value : fact row field status value -> fact_value row field = Ok value.
Proof.
  intros (d & Hd & _ & Hv). unfold fact_value. rewrite (getitem_there _ _ _ Hd) by done. cbn [bind].
  by rewrite (getitem_there _ _ _ Hv).
Qed.

Lemma fact_unavailable row field status value : fact row field status value ->
  unavailable (get row field) <-> In status UNAVAILABLE_STATUSES /\ In (casefold value) UNAVAILABLE_VALUES.
Proof.
  intros (d & Hd & Hs & Hv). unfold unavailable. rewrite Hd. split; [|intros []; by exists d, status, value].
  intros (? & ? & ? & [= <-] & Hs' & Hv' & H). rewrite Hs in Hs'. rewrite Hv in Hv'.
  injection Hs' as <-. by injection Hv' as <-.
Qed.

Lemma fact_unique row field s v s' v' : fact row field s v -> fact row field s' v' -> s = s' /\ v = v'.
Proof. intros (d & Hd & Hs & Hv) (d' & Hd' & Hs' & Hv'). split; congruence. Qed.

(** What the events say, once they are known to be a fact. *)
Lemma events_ok row found status value : fact row "events" status value ->
  events_nr_rejected row = Ok found <-> match found with Some n => counted row n | None => uncounted row end.
Proof.
  intros Hf. unfold counted, uncounted.
  assert (H : events_nr_rejected row =
    if negb (String.eqb status "present") then Ok None else if mem (casefold value) UNAVAILABLE_VALUES then Ok None else
    match re_search EVENT_COUNTER_RE value with Some m => let* n := int_of_digits (group "1" m) in Ok (Some n) | None => Ok None end).
  { destruct Hf as (d & Hd & Hs & Hv). unfold events_nr_rejected. by rewrite Hd, Hs, Hv. }
  rewrite H. clear H. split.
  - destruct (String.eqb_spec status "present") as [->|Hn]; simpl negb; [|intros [= <-]; exists status, value; auto].
    destruct (mem _ _) eqn:Em; [intros [= <-]; apply mem_In in Em; exists "present", value; auto|].
    assert (Hm : ~ In (casefold value) UNAVAILABLE_VALUES) by (rewrite <- mem_In; congruence). destruct (re_search _ value) as [m|] eqn:Er.
    + intros (n & Hn & [= <-])%bind_ok. by exists value, m.
    + intros [= <-]. exists "present", value. auto.
  - destruct found as [n|].
    + intros (v & m & Hf' & Hm & Hr & Hn). destruct (fact_unique _ _ _ _ _ _ Hf Hf') as [-> <-]. cbn [String.eqb negb].
      rewrite <- mem_In, not_true_iff_false in Hm. by rewrite Hm, Hr, Hn.
    + intros (s & v & Hf' & H). destruct (fact_unique _ _ _ _ _ _ Hf Hf') as [<- <-]. rewrite <- mem_In in H.
      destruct (String.eqb_spec status "present"); [|done]. cbn [negb]. destruct (mem _ _); [done|].
      by destruct H as [|[|Hr]]; [| |rewrite Hr].
Qed.

Lemma metric_ok row field context : require_metric_or_unavailable row field context = Ok tt <->
  unavailable (get row field) \/ exists d, get row field = JDict d /\ no_leak (JDict d).
Proof.
  unfold require_metric_or_unavailable. rewrite <- unavailable_iff.
  destruct (get row field) as [| | | | | |d]; try (simpl; rewrite telemetry_fail_ok; clear; naive_solver).
  destruct (is_unavailable_fact _); [naive_solver|]. rewrite reject_private_leaks_ok. naive_solver.
Qed.

Lemma rejects_ok row context status value s v : fact row "events" status value -> fact row "nr_rejected" s v ->
  validate_rejects row context = Ok tt <->
  (uncounted row /\ unavailable (get row "nr_rejected") /\ unavailable (get row "policy_counters"))
  \/ (exists n value, counted row n /\ fact row "nr_rejected" "present" value /\ isdecimal value = true /\ int_of_digits value = Ok n).
Proof.
  intros He Hn. unfold validate_rejects. rewrite bind_ok. setoid_rewrite (events_ok row _ _ _ He).
  assert (Hs : fact_status row "nr_rejected" context = Ok s) by (apply fact_status_ok; by exists v).
  rewrite Hs, (fact_value_of _ _ _ _ Hn). cbn [bind]. rewrite (fact_unavailable _ _ _ _ Hn), <- unavailable_iff, <- !mem_In.
  unfold require. split.
  - intros ([n|] & Hc & H).
    + right. exists n, v. rewrite bind_ok_unit, ensure_ok, andb_true_iff, String.eqb_eq, bind_ok in H.
      destruct H as [[-> Hd] (m & Hm & <-%ensure_ok%Z.eqb_eq)]. done.
    + left. rewrite bind_ok_unit, !ensure_ok, andb_true_iff in H. by destruct H.
  - intros [(Hc & H & Hp)|(n & v' & Hc & H & Hd & Hi)].
    + exists None. split; [done|]. by rewrite bind_ok_unit, !ensure_ok, andb_true_iff.
    + exists (Some n). split; [done|]. destruct (fact_unique _ _ _ _ _ _ Hn H) as [-> ->].
      rewrite bind_ok_unit, ensure_ok, Hd, Hi. cbn [bind]. by rewrite ensure_ok, Z.eqb_refl.
Qed.

Lemma cgroup_abi_ok row scenario context : validate_cgroup_abi row scenario context = Ok tt <->
  (scenario = Some CGROUP_SCENARIO -> exists d, get row "policy_abi" = JDict d
     /\ py_eq (get d "abi_version") (JInt 3) = true /\ get d "abi_label" = JStr ABI_LABEL).
Proof.
  unfold validate_cgroup_abi, require. destruct scenario as [s|]; [|done].
  destruct (String.eqb_spec s CGROUP_SCENARIO) as [->|Hn]; [|split; [intros _ [=] | done]; done].
  rewrite bind_ok. setoid_rewrite ensure_ok. setoid_rewrite andb_true_iff. setoid_rewrite py_eq_str.
  setoid_rewrite sample_object_ok. split; [by intros H _ | intros H; by apply H].
Qed.

Lemma row_telemetry row index scenario : validate_row row index scenario = Ok tt <-> telemetry scenario row.
Proof.
  unfold validate_row. cbv zeta. unfold require. rewrite !bind_ok_unit, !for_each_ok, !Forall_forall.
  setoid_rewrite list_elem_of_In. setoid_rewrite ensure_ok. setoid_rewrite has_key_iff. setoid_rewrite metric_ok.
  assert (Hfacts : forall f, (let* _ := fact_status row f ("sample[" ++ str_nat index ++ "]") in Ok tt) = Ok tt
                   <-> exists status value, fact row f status value).
  { intros f. rewrite bind_ok. setoid_rewrite fact_status_ok. clear. naive_solver. }
  setoid_rewrite Hfacts. clear Hfacts. rewrite cgroup_abi_ok. split.
  - intros (Hf & Hx & Hm & Hr & Hc). split; [done..| |done].
    destruct (Hx "events") as (? & ? & He); [apply mem_In; reflexivity|].
    destruct (Hx "nr_rejected") as (? & ? & Hn); [apply mem_In; reflexivity|]. by eapply rejects_ok in Hr.
  - intros [Hf Hx Hm Hr Hc]. split_and!; try done.
    destruct (Hx "events") as (? & ? & He); [apply mem_In; reflexivity|].
    destruct (Hx "nr_rejected") as (? & ? & Hn); [apply mem_In; reflexivity|]. by eapply rejects_ok.
Qed.

Lemma captured_ok rows label : require_vm_captured_rows rows label = Ok tt <-> Forall captured rows.
Proof.
  unfold require_vm_captured_rows. apply for_enum_forall. intros index row. cbv zeta. unfold captured, text_in, require. split.
  - intros (gen & Hg & [Hh [Hs H]%bind_ok_unit]%bind_ok_unit)%bind_ok. apply ensure_ok in Hs.
    destruct (get row "observation_source"); try discriminate. apply mem_In in Hs. split; [by eexists|].
    destruct (get row "sample_source_event") as [| | | |event| |]; try discriminate.
    rewrite bind_ok_unit, !ensure_ok, !negb_true_iff, String.eqb_neq, <- not_true_iff_false, startswith_iff in H.
    exists event. split; [done|]. exact H.
  - intros [(s & -> & Hs) (event & -> & He & Hm)]. cbn [in_set bind].
    assert (Hg : mem s HARNESS_GENERATED_OBSERVATION_SOURCES = false) by (destruct Hs as [<-|[<-|[]]]; reflexivity).
    rewrite Hg. cbn [bind].
    rewrite !bind_ok_unit, !ensure_ok, !negb_true_iff, mem_In, String.eqb_neq, <- not_true_iff_false, startswith_iff. done.
Qed.

Lemma rows_telemetry rows scenario label : validate_rows rows scenario label = Ok tt <-> rows <> [] /\ Forall (telemetry scenario) rows.
Proof.
  assert (H : for_enum 0 rows (fun index row => validate_row row index scenario) = Ok tt <-> Forall (telemetry scenario) rows)
    by (apply for_enum_forall; intros; apply row_telemetry).
  rewrite <- H. destruct rows; [split; [discriminate | by intros []] | split; [done | by intros []]].
Qed.

Lemma vm_captured_ok F p scenario : validate_vm_captured_input F p scenario = Ok tt <-> vm_captured F p scenario.
Proof.
  unfold validate_vm_captured_input, vm_captured. rewrite bind_ok_unit, bind_ok. setoid_rewrite bind_ok_unit.
  setoid_rewrite rows_telemetry. setoid_rewrite captured_ok. naive_solver.
Qed.

(** What the manifest hands over: every row that passed names, in an artifact
    whose evidence comes from a live machine, samples captured from it. *)
Definition row_handed (F : fs) (ref : json) : Prop :=
  exists d, ref = JDict d /\ (get d "outcome" = JStr "PASS" ->
    exists scenario artifact row, get d "scenario_id" = JStr scenario /\ scenario <> ""
      /\ safe_path_text (get d "artifact_path") artifact /\ load_json F (Path artifact) = Ok row
      /\ (get row "evidence_mode" = JStr "vm-live" ->
            exists sample, safe_path_text (get row "runtime_sample_path") sample /\ vm_captured F (Path sample) (Some scenario))).
Definition manifest_captured (F : fs) (p : path) : Prop :=
  exists manifest rows, load_json F p = Ok manifest /\ get manifest "rows" = JList rows /\ Forall (row_handed F) rows.

Lemma telemetry_path_ok v context q : safe_path v context = Ok q <-> exists s, safe_path_text v s /\ q = Path s.
Proof.
  unfold safe_path, safe_path_text. destruct v as [| | | |s| |]; try (rewrite telemetry_fail_ok; clear; naive_solver).
  destruct (String.eqb_spec s "") as [->|Hs]; [rewrite telemetry_fail_ok; naive_solver|].
  unfold require. rewrite bind_ok_unit, ensure_ok, plain_path_iff, Ok_inj. naive_solver.
Qed.

Lemma ref_ok F p index ref : validate_ref F p index ref = Ok tt <-> row_handed F ref.
Proof.
  unfold row_handed, validate_ref. cbv zeta.
  destruct ref as [| | | | | |d]; try (rewrite telemetry_fail_ok; split; [done | by intros (? & [=] & _)]).
  assert (Hd : forall P : jobject -> Prop, (exists d', JDict d = JDict d' /\ P d') <-> P d)
    by (intros P; split; [by intros (? & [= <-] & ?) | by exists d]).
  rewrite Hd. clear Hd. rewrite <- (py_eq_str (get d "outcome")). destruct (py_eq (get d "outcome") _); cbn [negb]; [|by split].
  assert (Hm : forall row s, (if negb (py_eq (get row "evidence_mode") (JStr "vm-live")) then Ok tt else
      let* sample := safe_path (get row "runtime_sample_path") ((path_str p ++ ".rows[" ++ str_nat index ++ "]") ++ ".runtime_sample_path") in
      validate_vm_captured_input F sample (Some s)) = Ok tt <->
    (get row "evidence_mode" = JStr "vm-live" -> exists sample, safe_path_text (get row "runtime_sample_path") sample /\ vm_captured F (Path sample) (Some s))).
  { intros row s. rewrite <- (py_eq_str (get row "evidence_mode")). destruct (py_eq _ _); cbn [negb]; [|done].
    rewrite bind_ok. setoid_rewrite telemetry_path_ok. setoid_rewrite vm_captured_ok. clear. split.
    - intros (q & (s' & Hs & ->) & H) _. by exists s'.
    - intros H. destruct H as (s' & Hs & H); [done|]. exists (Path s'). split; [by exists s' | done]. }
  destruct (get d "scenario_id") as [| | | |s| |]; try (rewrite telemetry_fail_ok; split; [done | intros H; by destruct H as (? & ? & ? & [=] & _)]).
  destruct (String.eqb_spec s "") as [->|Hs]; [rewrite telemetry_fail_ok; split; [done | intros H; by destruct H as (? & ? & ? & [= <-] & ? & _)]|].
  split.
  - intros (q & (a & Ha & ->)%telemetry_path_ok & (row & Hr & H)%bind_ok)%bind_ok _.
    pose proof (proj1 (Hm row s) H). by exists s, a, row.
  - intros H. destruct H as (? & a & row & [= <-] & _ & Ha & Hr & H); [done|].
    rewrite (proj2 (telemetry_path_ok _ _ (Path a))) by (by exists a). cbn [bind]. rewrite Hr. exact (proj2 (Hm row s) H).
Qed.

Lemma manifest_telemetry F p : validate_manifest F p = Ok tt <-> manifest_captured F p.
Proof.
  unfold validate_manifest, manifest_captured. rewrite bind_ok. apply exist_proper. intros d.
  assert (H : forall rows, for_enum 0 rows (validate_ref F p) = Ok tt <-> Forall (row_handed F) rows)
    by (intros rows; apply for_enum_forall; intros; apply ref_ok).
  destruct (get d "rows"); try (rewrite telemetry_fail_ok; clear; naive_solver). rewrite H. naive_solver.
Qed.

(** ** Properties *)

(** Called on a matrix manifest, the checker exits with status 0 exactly
    when every row that passed and whose artifact was produced on a live machine
    names runtime samples that were captured from it: the file is accepted, each
    sample carries the protected facts, its reject counter is the number its
    events report (or both are unavailable), its metrics leak nothing, its source
    is not the harness, and the samples of the cgroup scenario declare version 3
    of the policy ABI. *)
Theorem telemetry_manifest_iff F self_test p :
  exits_well (main F self_test ["--manifest"; p]) <-> manifest_captured F (Path p).
Proof.
  assert (Ha : parse_args ["--manifest"; p] = Ok (MkArgs None (Some (Path p)) None false)) by reflexivity.
  unfold main. rewrite end_main_ok, <- manifest_telemetry. unfold run. rewrite Ha. unfold reading.
  cbn [self_test_arg input_path manifest_arg]. destruct (validate_manifest F (Path p)) as [[]|e]; cbn [snd silent]; by split.
Qed.
