(* ===== verification/SchemaDrift.v ===== *)
(** SchemaDrift: qa/control_schema_drift_check.py, the JSON schemas of the
    control protocol against the constants and enumerations of its Zig source.

    The rehearsal of [--self-test] is an argument of [main]. *)
From S2P Require Import Prelude PyStr PyRe PyFloat PyJson Sha256 PyFs PyMain Fields.

Local Open Scope string_scope.

Definition VM_MARKER : string := "/run/zig-scheduler-vm-lab.marker".
Definition OPERATOR_FILE : string := "operator-action.v1.schema.json".
Definition DAEMON_FILE : string := "daemon-event.v1.schema.json".
Definition RUNTIME_FILE : string := "runtime-sample.v1.schema.json".
Definition LAB_FILE : string := "lab-evidence.v1.schema.json".
Definition ROLLBACK_FILE : string := "rollback-result.v1.schema.json".
Definition ACTION_FIELDS : list string :=
  ["schema"; "action"; "action_id"; "run_id"; "target_id"; "target_cgroup"; "audit_id"; "rollback_id"; "target_action_id"].
Definition FORBIDDEN_ACTION_FIELDS : list string := ["command"; "shell"; "argv"; "host_mutation"].
Definition RUNTIME_REQUIRED : list string := [
  "schema"; "sequence"; "state"; "ops"; "enable_seq"; "events"; "events_hash"; "nr_rejected"; "debug_dump";
  "cgroup_membership_digest"; "workload_alive"; "private_command_lines_sampled"].
Definition RUNTIME_FORBIDDEN : list string :=
  ["command_line"; "cmdline"; "argv"; "env"; "environment"; "secret"; "api_key"].
Definition MUTATION_FAMILIES : list string := ["cgroup.weight"; "cpu.max"; "uclamp"; "topology.offline_cpu"].

Record Args : Set := MkArgs { protocol : path; schemas : path; self_test : bool }.
Record ProtocolFacts : Set := MkFacts {
  operator_schema : string; daemon_schema : string; actions : list string; events : list string; runtime_schema : string }.

Definition fail {A} (m : string) : result A := raise SchemaDriftError m.

Definition parse_args (argv : list string) : result Args :=
  let usage := fail "usage: control_schema_drift_check.py --protocol <protocol.zig> --schemas <dir> | --self-test" in
  match argv with
  | [a] => if String.eqb a "--self-test" then Ok (MkArgs (Path "src/control/protocol.zig") (Path "schemas/control") true) else usage
  | [a; p; b; s] =>
      if String.eqb a "--protocol" && String.eqb b "--schemas" then Ok (MkArgs (Path p) (Path s) false) else usage
  | _ => usage
  end.

(** ** The Zig source *)
Definition not_quote (c : ascii) : bool := negb (Ascii.eqb c dquote).
(** A declaration of a quoted text. *)
Definition declaration (before : string) : regex :=
  quoted_pattern "1" not_quote (before ++ " = " ++ chr 34) (chr 34 ++ ";").

Definition extract_const (source name : string) : result string :=
  match re_search (declaration ("pub const " ++ name)) source with
  | Some found => Ok (group "1" found)
  | None => fail ("missing Zig const: " ++ name)
  end.

(** [rstrip] of commas *)
Fixpoint rstrip_comma (s : string) : string :=
  match s with
  | "" => ""
  | String c r => match rstrip_comma r with "" => if Ascii.eqb c "," then "" else String c "" | r => String c r end
  end.

Definition enum_pattern (name : string) : regex := shortest_pattern "body" (rlit ("pub const " ++ name ++ " = enum {")) "};".
Definition enum_fields (body : string) : list string :=
  map (fun line => rstrip_comma (strip line)) (List.filter (fun line => negb (String.eqb (strip line) "")) (splitlines body)).
Definition extract_enum (source name : string) : result (list string) :=
  match re_search (enum_pattern name) source with
  | None => fail ("missing Zig enum: " ++ name)
  | Some found =>
      match enum_fields (group "body" found) with
      | [] => fail ("empty Zig enum: " ++ name)
      | fields => Ok fields
      end
  end.

(** ** Reading a schema *)
Definition obj (value : json) (context : string) : result jobject :=
  match value with JDict d => Ok d | _ => fail (context ++ " must be an object") end.

Definition string_set (value : json) (context : string) : result (list string) :=
  match value with
  | JList l => map_m (fun item => match item with JStr s => Ok s | _ => fail (context ++ " contains a non-string value") end) l
  | _ => fail (context ++ " must be a string list")
  end.

(** [missing = sorted(set(names) - ...); if missing: raise] *)
Definition no_missing (names found : list string) (label : string) : result unit :=
  let missing := sorted (set_diff names found) in
  ensure (match missing with [] => true | _ => false end) SchemaDriftError (label ++ join ", " missing).

Definition properties (schema : jobject) (names : list string) (context : string) : result jobject :=
  let* props := obj (get schema "properties") (context ++ ".properties") in
  no_missing names (keys props) (context ++ " properties missing: ") ;;;
  Ok props.

Definition require_required (schema : jobject) (names : list string) (context : string) : result unit :=
  let* found := string_set (get schema "required") (context ++ ".required") in
  no_missing names found (context ++ " required missing: ").

Definition require_forbidden (schema : jobject) (names : list string) (context : string) : result unit :=
  let* found := string_set (get schema "forbiddenProperties") (context ++ ".forbiddenProperties") in
  no_missing names found (context ++ " forbidden missing: ").

(** The [then] of the clause, when it is the one of the action. *)
Definition clause_then (clause : json) (action : string) : option jobject :=
  match clause with
  | JDict clause =>
      match get clause "if", get clause "then" with
      | JDict raw_if, JDict raw_then =>
          match get raw_if "properties" with
          | JDict raw_props =>
              match get raw_props "action" with
              | JDict raw_action => if py_eq (get raw_action "const") (JStr action) then Some raw_then else None
              | _ => None
              end
          | _ => None
          end
      | _, _ => None
      end
  | _ => None
  end.

Definition require_action_conditional (schema : jobject) (action : string) (required : list string) (context : string)
    : result unit :=
  match get schema "allOf" with
  | JList clauses =>
      (fix each (clauses : list json) : result unit :=
         match clauses with
         | [] => fail (context ++ " missing conditional required clause for " ++ action)
         | clause :: clauses =>
             match clause_then clause action with
             | None => each clauses
             | Some raw_then =>
                 let* found := string_set (get raw_then "required") (context ++ ".allOf[" ++ action ++ "].then.required") in
                 no_missing required found (context ++ " " ++ action ++ " required missing: ")
             end
         end) clauses
  | _ => fail (context ++ ".allOf missing action-specific required clauses")
  end.

Definition require_const (props : jobject) (name : string) (expected : json) (context : string) : result unit :=
  let* o := obj (get props name) (context ++ "." ++ name) in
  ensure (py_eq (get o "const") expected) SchemaDriftError (context ++ "." ++ name ++ " const drifted").

Definition require_enum (props : jobject) (name : string) (expected : list string) (context : string) : result unit :=
  let* o := obj (get props name) (context ++ "." ++ name) in
  let* actual := string_set (get o "enum") (context ++ "." ++ name ++ ".enum") in
  ensure (set_eq actual expected) SchemaDriftError (context ++ "." ++ name ++ " enum drifted").

Section Checker.
Variable F : fs.

Definition protocol_facts (protocol : path) : result ProtocolFacts :=
  let* source := read_text F protocol in
  let* stream_source := read_text F (Path "src/control/stream.zig") in
  match re_search (declaration "const sample_schema") stream_source with
  | None => fail "missing runtime sample schema const"
  | Some runtime =>
      let* operator := extract_const source "schema" in
      let* daemon := extract_const source "event_schema" in
      let* actions := extract_enum source "ActionKind" in
      let* events := extract_enum source "EventKind" in
      Ok (MkFacts operator daemon actions events (group "1" runtime))
  end.

Definition load_schema (schemas : path) (filename : string) : result jobject :=
  let p := div_path schemas filename in
  let* raw := catch (bind (read_text F p) loads) (fun exc =>
    if decide (exn_cls exc = FileNotFoundError) then Some (fail ("missing schema file: " ++ path_str p))
    else if decide (exn_cls exc = JSONDecodeError) then Some (fail ("invalid JSON schema " ++ path_str p ++ ": " ++ exn_str exc))
    else None) in
  match raw with JDict d => Ok d | _ => fail ("schema is not an object: " ++ path_str p) end.

(** The five parts of [validate_all], in their order. *)
Definition validate_operator (facts : ProtocolFacts) (op : jobject) : result unit :=
  let* op_props := properties op ACTION_FIELDS OPERATOR_FILE in
  require_required op ["action"] OPERATOR_FILE ;;;
  require_const op_props "schema" (JStr (operator_schema facts)) OPERATOR_FILE ;;;
  require_enum op_props "action" (actions facts) OPERATOR_FILE ;;;
  require_forbidden op FORBIDDEN_ACTION_FIELDS OPERATOR_FILE ;;;
  require_action_conditional op "run_lab_microvm_live" ["action_id"; "target_id"; "audit_id"; "rollback_id"] OPERATOR_FILE ;;;
  require_action_conditional op "partial_attach" ["audit_id"; "rollback_id"] OPERATOR_FILE.

Definition validate_daemon (facts : ProtocolFacts) (daemon : jobject) : result unit :=
  let* daemon_props := properties daemon ["schema"; "event"; "status"; "host_mutation"] DAEMON_FILE in
  require_required daemon ["schema"; "event"; "status"; "host_mutation"] DAEMON_FILE ;;;
  require_const daemon_props "schema" (JStr (daemon_schema facts)) DAEMON_FILE ;;;
  require_enum daemon_props "event" (events facts) DAEMON_FILE ;;;
  require_const daemon_props "host_mutation" (JBool false) DAEMON_FILE.

Definition validate_runtime (facts : ProtocolFacts) (runtime : jobject) : result unit :=
  let* runtime_props := properties runtime RUNTIME_REQUIRED RUNTIME_FILE in
  require_required runtime RUNTIME_REQUIRED RUNTIME_FILE ;;;
  require_const runtime_props "schema" (JStr (runtime_schema facts)) RUNTIME_FILE ;;;
  require_const runtime_props "private_command_lines_sampled" (JBool false) RUNTIME_FILE ;;;
  require_forbidden runtime RUNTIME_FORBIDDEN RUNTIME_FILE.

Definition validate_lab (lab : jobject) : result unit :=
  let* lab_props := properties lab ["schema"; "vm_marker_path"; "host_mutation"; "release_eligible"; "mutation_evidence"] LAB_FILE in
  require_required lab ["schema"; "vm_marker_present"; "target_allowlisted"; "audit_id"; "rollback_id"; "host_mutation";
                        "mutation_evidence"] LAB_FILE ;;;
  require_const lab_props "schema" (JStr "zig-scheduler/lab-evidence/v1") LAB_FILE ;;;
  require_const lab_props "vm_marker_path" (JStr VM_MARKER) LAB_FILE ;;;
  require_const lab_props "host_mutation" (JBool false) LAB_FILE ;;;
  require_const lab_props "release_eligible" (JBool false) LAB_FILE ;;;
  let* evidence := obj (get lab_props "mutation_evidence") (LAB_FILE ++ ".mutation_evidence") in
  require_required evidence MUTATION_FAMILIES (LAB_FILE ++ ".mutation_evidence").

Definition validate_rollback (rollback : jobject) : result unit :=
  let* rollback_props := properties rollback ["schema"; "rollback_id"; "result"; "idempotent"; "host_mutation"] ROLLBACK_FILE in
  require_required rollback ["schema"; "rollback_id"; "result"; "idempotent"; "host_mutation"] ROLLBACK_FILE ;;;
  require_const rollback_props "result" (JStr "PASS") ROLLBACK_FILE ;;;
  require_const rollback_props "idempotent" (JBool true) ROLLBACK_FILE ;;;
  require_const rollback_props "host_mutation" (JBool false) ROLLBACK_FILE.

Definition validate_all (protocol schemas : path) : result unit :=
  let* facts := protocol_facts protocol in
  let* op := load_schema schemas OPERATOR_FILE in
  validate_operator facts op ;;;
  let* daemon := load_schema schemas DAEMON_FILE in
  validate_daemon facts daemon ;;;
  let* runtime := load_schema schemas RUNTIME_FILE in
  validate_runtime facts runtime ;;;
  let* lab := load_schema schemas LAB_FILE in
  validate_lab lab ;;;
  let* rollback := load_schema schemas ROLLBACK_FILE in
  validate_rollback rollback.

Variable run_self_test : Args -> result (list string).

Definition run (argv : list string) : result (list string) :=
  let* args := parse_args argv in
  if self_test args then run_self_test args
  else
    validate_all (protocol args) (schemas args) ;;;
    Ok ["PASS control schema drift check: protocol=" ++ path_str (protocol args) ++ " schemas=" ++ path_str (schemas args)].

Definition main (argv : list string) : exit :=
  run_main (fun c => is_OSError c || is_UnicodeError c || is_class SchemaDriftError c) "FAIL control schema drift check" (run argv).
End Checker.

(** * Specification *)

(** A list of texts under [key] that holds all the [names]. *)
Definition lists (d : jobject) (key : string) (names : list string) : Prop :=
  exists l, get d key = jstrs l /\ forall n, In n names -> In n l.
Definition has_properties (d : jobject) (names : list string) (props : jobject) : Prop :=
  get d "properties" = JDict props /\ forall n, In n names -> In n (keys props).
(** Two constants are compared as Python compares them: [0] is as good as [false]. *)
Definition const_is (props : jobject) (name : string) (expected : json) : Prop :=
  exists o, get props name = JDict o /\ py_eq (get o "const") expected = true.
Definition enum_is (props : jobject) (name : string) (expected : list string) : Prop :=
  exists o l, get props name = JDict o /\ get o "enum" = jstrs l /\ forall s, In s l <-> In s expected.

(** The clause [if action is this one then ...]. *)
Definition clause_of (action : string) (clause : json) (raw_then : jobject) : Prop :=
  exists c i p a, clause = JDict c /\ get c "if" = JDict i /\ get c "then" = JDict raw_then
    /\ get i "properties" = JDict p /\ get p "action" = JDict a /\ get a "const" = JStr action.
(** The first clause of the action asks for the [names]. *)
Definition asks (d : jobject) (action : string) (names : list string) : Prop :=
  exists before clause after raw_then, get d "allOf" = JList (before ++ clause :: after)
    /\ (forall c t, In c before -> ~ clause_of action c t) /\ clause_of action clause raw_then
    /\ lists raw_then "required" names.

(** A constant of the source, in its first declaration. *)
Definition declares (before source v : string) : Prop :=
  at_first (quoted_shape not_quote (before ++ " = " ++ chr 34) (chr 34 ++ ";")) source v.
(** The lines of the first enumeration of this name, up to the first closing brace. *)
Definition enumerates (name source : string) (fields : list string) : Prop :=
  exists body, at_first (shortest_shape (eq ("pub const " ++ name ++ " = enum {")) "};") source body
    /\ fields = enum_fields body /\ fields <> [].

Record facts_ok (F : fs) (protocol : path) (facts : ProtocolFacts) : Prop := {
  fa_source : exists source, read_text F protocol = Ok source
    /\ declares "pub const schema" source (operator_schema facts)
    /\ declares "pub const event_schema" source (daemon_schema facts)
    /\ enumerates "ActionKind" source (actions facts) /\ enumerates "EventKind" source (events facts);
  fa_stream : exists source, read_text F (Path "src/control/stream.zig") = Ok source
    /\ declares "const sample_schema" source (runtime_schema facts);
}.

Record operator_ok (facts : ProtocolFacts) (d : jobject) : Prop := {
  op_props : exists props, has_properties d ACTION_FIELDS props
    /\ const_is props "schema" (JStr (operator_schema facts)) /\ enum_is props "action" (actions facts);
  op_required : lists d "required" ["action"];
  op_forbidden : lists d "forbiddenProperties" FORBIDDEN_ACTION_FIELDS;
  op_live : asks d "run_lab_microvm_live" ["action_id"; "target_id"; "audit_id"; "rollback_id"];
  op_partial : asks d "partial_attach" ["audit_id"; "rollback_id"];
}.
Record daemon_ok (facts : ProtocolFacts) (d : jobject) : Prop := {
  da_props : exists props, has_properties d ["schema"; "event"; "status"; "host_mutation"] props
    /\ const_is props "schema" (JStr (daemon_schema facts)) /\ enum_is props "event" (events facts)
    /\ const_is props "host_mutation" (JBool false);
  da_required : lists d "required" ["schema"; "event"; "status"; "host_mutation"];
}.
Record runtime_ok (facts : ProtocolFacts) (d : jobject) : Prop := {
  ru_props : exists props, has_properties d RUNTIME_REQUIRED props
    /\ const_is props "schema" (JStr (runtime_schema facts)) /\ const_is props "private_command_lines_sampled" (JBool false);
  ru_required : lists d "required" RUNTIME_REQUIRED;
  ru_forbidden : lists d "forbiddenProperties" RUNTIME_FORBIDDEN;
}.
Record lab_ok (d : jobject) : Prop := {
  la_props : exists props evidence,
    has_properties d ["schema"; "vm_marker_path"; "host_mutation"; "release_eligible"; "mutation_evidence"] props
    /\ const_is props "schema" (JStr "zig-scheduler/lab-evidence/v1") /\ const_is props "vm_marker_path" (JStr VM_MARKER)
    /\ const_is props "host_mutation" (JBool false) /\ const_is props "release_eligible" (JBool false)
    /\ get props "mutation_evidence" = JDict evidence /\ lists evidence "required" MUTATION_FAMILIES;
  la_required : lists d "required" ["schema"; "vm_marker_present"; "target_allowlisted"; "audit_id"; "rollback_id";
                                    "host_mutation"; "mutation_evidence"];
}.
Record rollback_ok (d : jobject) : Prop := {
  ro_props : exists props, has_properties d ["schema"; "rollback_id"; "result"; "idempotent"; "host_mutation"] props
    /\ const_is props "result" (JStr "PASS") /\ const_is props "idempotent" (JBool true)
    /\ const_is props "host_mutation" (JBool false);
  ro_required : lists d "required" ["schema"; "rollback_id"; "result"; "idempotent"; "host_mutation"];
}.

(** The schemas agree with the source. *)
Definition no_drift (F : fs) (protocol schemas : path) : Prop :=
  exists facts op daemon runtime lab rollback, facts_ok F protocol facts
    /\ holds_object F (div_path schemas OPERATOR_FILE) op /\ operator_ok facts op
    /\ holds_object F (div_path schemas DAEMON_FILE) daemon /\ daemon_ok facts daemon
    /\ holds_object F (div_path schemas RUNTIME_FILE) runtime /\ runtime_ok facts runtime
    /\ holds_object F (div_path schemas LAB_FILE) lab /\ lab_ok lab
    /\ holds_object F (div_path schemas ROLLBACK_FILE) rollback /\ rollback_ok rollback.

(** ** Lemmas *)
Lemma drift_fail_ok {A} m (a : A) : fail m = Ok a <-> False.
Proof. apply raise_ok. Qed.
Lemma drift_obj_ok v c d : obj v c = Ok d <-> v = JDict d.
Proof. destruct v; cbn [obj]; rewrite ?drift_fail_ok; naive_solver. Qed.
Lemma string_set_ok v c l : string_set v c = Ok l <-> v = jstrs l.
Proof.
  destruct v as [| | | | |items|]; cbn [string_set]; rewrite ?drift_fail_ok; try (split; [done | intros [=]]).
  apply map_texts. intros [] t; rewrite ?drift_fail_ok; naive_solver.
Qed.
Lemma no_missing_ok names found label : no_missing names found label = Ok tt <-> forall n, In n names -> In n found.
Proof.
  unfold no_missing. cbv zeta. rewrite ensure_ok, <- no_extra. destruct (sorted (set_diff names found)); split; done.
Qed.

(** The readers of a schema in the middle of a function. *)
Lemma properties_ok d names c props : properties d names c = Ok props <-> has_properties d names props.
Proof.
  unfold properties, has_properties. rewrite bind_ok. setoid_rewrite drift_obj_ok. setoid_rewrite bind_ok_unit.
  setoid_rewrite no_missing_ok. naive_solver.
Qed.
Lemma listed_ok d key c names label :
  (let* found := string_set (get d key) c in no_missing names found label) = Ok tt <-> lists d key names.
Proof. rewrite bind_ok. setoid_rewrite string_set_ok. by setoid_rewrite no_missing_ok. Qed.
Lemma required_ok d names c : require_required d names c = Ok tt <-> lists d "required" names.
Proof. apply listed_ok. Qed.
Lemma forbidden_ok d names c : require_forbidden d names c = Ok tt <-> lists d "forbiddenProperties" names.
Proof. apply listed_ok. Qed.
Lemma const_ok props name v c : require_const props name v c = Ok tt <-> const_is props name v.
Proof. unfold require_const, const_is. rewrite bind_ok. setoid_rewrite drift_obj_ok. by setoid_rewrite ensure_ok. Qed.
Lemma enum_ok props name l c : require_enum props name l c = Ok tt <-> enum_is props name l.
Proof.
  unfold require_enum, enum_is. rewrite bind_ok. setoid_rewrite drift_obj_ok. setoid_rewrite bind_ok. setoid_rewrite string_set_ok.
  setoid_rewrite ensure_ok. setoid_rewrite set_eq_spec. naive_solver.
Qed.

Lemma clause_ok action clause t : clause_then clause action = Some t <-> clause_of action clause t.
Proof.
  unfold clause_then, clause_of. split.
  - intros H. repeat match type of H with match ?x with _ => _ end = _ => destruct x eqn:?; try discriminate H end.
    injection H as <-. match goal with H : py_eq _ _ = true |- _ => apply py_eq_str in H end. by eexists _, _, _, _.
  - intros (c & i & p & a & -> & Hi & Ht & Hp & Ha & Hc). rewrite Hi, Ht, Hp, Ha, Hc. cbn [py_eq]. by rewrite String.eqb_refl.
Qed.
Lemma conditional_ok d action names c : require_action_conditional d action names c = Ok tt <-> asks d action names.
Proof.
  unfold require_action_conditional, asks. destruct (get d "allOf") as [| | | | |clauses|]; rewrite ?drift_fail_ok;
    try (split; [done | by intros (? & ? & ? & ? & [=] & _)]).
  induction clauses as [|clause clauses IH].
  - rewrite drift_fail_ok. split; [done|]. intros ([] & ? & ? & ? & [=] & _).
  - destruct (clause_then clause action) as [t|] eqn:E.
    + rewrite listed_ok. split.
      * intros H. exists [], clause, clauses, t. split_and!; [done | by intros ? ? [] | by apply clause_ok | done].
      * intros ([|b before] & cl & after & t' & [= <- ->] & Hb & Hc & Hl).
        -- apply clause_ok in Hc. congruence.
        -- apply clause_ok in E. by destruct (Hb clause t); [left|].
    + rewrite IH. split.
      * intros (before & cl & after & t & [= ->] & Hb & Hc & Hl). exists (clause :: before), cl, after, t.
        split_and!; [done | | done | done]. intros c' t' [<-|Hin]; [|by apply Hb]. rewrite <- clause_ok. congruence.
      * intros ([|b before] & cl & after & t & [= <- ->] & Hb & Hc & Hl).
        -- apply clause_ok in Hc. congruence.
        -- exists before, cl, after, t. split_and!; [done | | done | done]. intros c' t' Hin. apply Hb. by right.
Qed.

(** ** The source *)
Lemma declares_iff before source v :
  (exists m, re_search (declaration before) source = Some m /\ group "1" m = v) <-> declares before source v.
Proof. exact (quoted_search "1" not_quote _ dquote ";" source v eq_refl). Qed.
Lemma const_source source name v : extract_const source name = Ok v <-> declares ("pub const " ++ name) source v.
Proof.
  rewrite <- declares_iff. unfold extract_const. destruct (re_search _ source) as [m|]; rewrite ?drift_fail_ok; naive_solver.
Qed.
Lemma enum_source source name fields : extract_enum source name = Ok fields <-> enumerates name source fields.
Proof.
  unfold enumerates. setoid_rewrite <- (shortest_search (lit_opens _) "body"). unfold extract_enum, enum_pattern.
  destruct (re_search _ source) as [m|]; rewrite ?drift_fail_ok.
  - destruct (enum_fields (group "body" m)) eqn:E; rewrite ?drift_fail_ok.
    + split; [done|]. intros (? & (? & [= <-] & <-) & -> & Hne). by destruct Hne.
    + split; [intros [= <-]; exists (group "body" m); split_and!; [by exists m | by rewrite E | done]|].
      intros (? & (? & [= <-] & <-) & -> & _). by rewrite E.
  - split; [done|]. by intros (? & (? & [=] & _) & _).
Qed.
Lemma facts_accepted F protocol facts : protocol_facts F protocol = Ok facts <-> facts_ok F protocol facts.
Proof.
  unfold protocol_facts. split.
  - intros (source & Hs & (stream & Ht & H)%bind_ok)%bind_ok. destruct (re_search _ stream) as [m|] eqn:Em; [|by apply drift_fail_ok in H].
    apply bind_ok in H as (operator & Ho%const_source & (daemon & Hd%const_source & (acts & Ha%enum_source & (evs & He%enum_source & [= <-])%bind_ok)%bind_ok)%bind_ok).
    split; [by exists source|]. exists stream. split; [done|]. apply declares_iff. by exists m.
  - intros [(source & Hs & Ho & Hd & Ha & He) (stream & Ht & Hr)]. apply declares_iff in Hr as (m & Hm & Hg).
    rewrite Hs, Ht. cbn [bind]. rewrite Hm. apply const_source in Ho, Hd. apply enum_source in Ha, He.
    rewrite Ho, Hd, Ha, He, Hg. by destruct facts.
Qed.

(** ** The schemas *)
Ltac read_schema :=
  rewrite bind_ok; setoid_rewrite properties_ok;
  repeat first [setoid_rewrite bind_ok_unit | setoid_rewrite required_ok | setoid_rewrite forbidden_ok | setoid_rewrite const_ok
               | setoid_rewrite enum_ok | setoid_rewrite conditional_ok].
Lemma operator_accepted facts d : validate_operator facts d = Ok tt <-> operator_ok facts d.
Proof.
  unfold validate_operator. read_schema. split.
  - intros (props & Hp & Hr & Hc & He & Hf & Hl & Ha). split; [by exists props | done..].
  - intros [(props & Hp & Hc & He) Hr Hf Hl Ha]. by exists props.
Qed.
Lemma daemon_accepted facts d : validate_daemon facts d = Ok tt <-> daemon_ok facts d.
Proof.
  unfold validate_daemon. read_schema. split.
  - intros (props & Hp & Hr & Hc & He & Hh). split; [by exists props | done].
  - intros [(props & Hp & Hc & He & Hh) Hr]. by exists props.
Qed.
Lemma runtime_accepted facts d : validate_runtime facts d = Ok tt <-> runtime_ok facts d.
Proof.
  unfold validate_runtime. read_schema. split.
  - intros (props & Hp & Hr & Hc & Hs & Hf). split; [by exists props | done..].
  - intros [(props & Hp & Hc & Hs) Hr Hf]. by exists props.
Qed.
Lemma lab_accepted d : validate_lab d = Ok tt <-> lab_ok d.
Proof.
  unfold validate_lab. read_schema. setoid_rewrite bind_ok. setoid_rewrite drift_obj_ok. setoid_rewrite required_ok. split.
  - intros (props & Hp & Hr & H1 & H2 & H3 & H4 & evidence & He & Hl). split; [by exists props, evidence | done].
  - intros [(props & evidence & Hp & H1 & H2 & H3 & H4 & He & Hl) Hr]. exists props. split_and!; try done. by exists evidence.
Qed.
Lemma rollback_accepted d : validate_rollback d = Ok tt <-> rollback_ok d.
Proof.
  unfold validate_rollback. read_schema. split.
  - intros (props & Hp & Hr & H1 & H2 & H3). split; [by exists props | done].
  - intros [(props & Hp & H1 & H2 & H3) Hr]. by exists props.
Qed.

Lemma drift_schema_loaded F schemas filename d :
  load_schema F schemas filename = Ok d <-> holds_object F (div_path schemas filename) d.
Proof. unfold load_schema. solve_loader. Qed.

Lemma no_drift_accepted F protocol schemas : validate_all F protocol schemas = Ok tt <-> no_drift F protocol schemas.
Proof.
  unfold validate_all, no_drift. split.
  - intros (facts & Hf%facts_accepted & (op & Ho%drift_schema_loaded & [Vo%operator_accepted (daemon & Hd%drift_schema_loaded & [Vd%daemon_accepted
      (runtime & Hr%drift_schema_loaded & [Vr%runtime_accepted (lab & Hl%drift_schema_loaded & [Vl%lab_accepted
      (rollback & Hb%drift_schema_loaded & Vb%rollback_accepted)%bind_ok]%bind_ok_unit)%bind_ok]%bind_ok_unit)%bind_ok]%bind_ok_unit)%bind_ok]%bind_ok_unit)%bind_ok)%bind_ok.
    by exists facts, op, daemon, runtime, lab, rollback.
  - intros (facts & op & daemon & runtime & lab & rollback & Hf & Ho & Vo & Hd & Vd & Hr & Vr & Hl & Vl & Hb & Vb).
    apply facts_accepted in Hf. apply drift_schema_loaded in Ho, Hd, Hr, Hl, Hb.
    apply operator_accepted in Vo. apply daemon_accepted in Vd. apply runtime_accepted in Vr. apply lab_accepted in Vl. apply rollback_accepted in Vb.
    rewrite Hf. cbn [bind]. rewrite Ho. cbn [bind]. rewrite Vo. cbn [bind]. rewrite Hd. cbn [bind]. rewrite Vd. cbn [bind].
    rewrite Hr. cbn [bind]. rewrite Vr. cbn [bind]. rewrite Hl. cbn [bind]. rewrite Vl. cbn [bind]. by rewrite Hb.
Qed.

(** A protocol and its schemas that agree, until the schema forgets an action. *)
Definition quoted (s : string) : string := chr 34 ++ s ++ chr 34.
Definition demo_zig (actions : list string) : string :=
  "pub const schema = " ++ quoted "zig/op" ++ ";" ++ chr 10 ++ "pub const event_schema = " ++ quoted "zig/ev" ++ ";" ++ chr 10
  ++ "pub const ActionKind = enum {" ++ chr 10 ++ String.concat "" (map (fun a => "    " ++ a ++ "," ++ chr 10) actions) ++ "};" ++ chr 10
  ++ "pub const EventKind = enum {" ++ chr 10 ++ "    boot," ++ chr 10 ++ "};".
Definition const_prop (name : string) (v : json) : string * json := (name, JDict [("const", v)]).
Definition any_prop (name : string) : string * json := (name, JDict []).
Definition asks_for (action : string) (names : list string) : json :=
  JDict [("if", JDict [("properties", JDict [const_prop "action" (JStr action)])]); ("then", JDict [("required", jstrs names)])].
Definition demo_operator (schema_actions : list string) : json :=
  JDict [("properties", JDict ([const_prop "schema" (JStr "zig/op"); ("action", JDict [("enum", jstrs schema_actions)])]
             ++ map any_prop (drop 2 ACTION_FIELDS)));
         ("required", jstrs ["action"]); ("forbiddenProperties", jstrs FORBIDDEN_ACTION_FIELDS);
         ("allOf", JList [asks_for "run_lab_microvm_live" ["action_id"; "target_id"; "audit_id"; "rollback_id"];
                          asks_for "partial_attach" ["audit_id"; "rollback_id"]])].
Definition demo_daemon (host_mutation : json) : json :=
  JDict [("properties", JDict [const_prop "schema" (JStr "zig/ev"); ("event", JDict [("enum", jstrs ["boot"])]); any_prop "status";
                               const_prop "host_mutation" host_mutation]);
         ("required", jstrs ["schema"; "event"; "status"; "host_mutation"])].
Definition demo_runtime : json :=
  JDict [("properties", JDict ([const_prop "schema" (JStr "zig/rt"); const_prop "private_command_lines_sampled" (JBool false)]
             ++ map any_prop (removelast (tl RUNTIME_REQUIRED))));
         ("required", jstrs RUNTIME_REQUIRED); ("forbiddenProperties", jstrs RUNTIME_FORBIDDEN)].
Definition demo_lab : json :=
  JDict [("properties", JDict [const_prop "schema" (JStr "zig-scheduler/lab-evidence/v1"); const_prop "vm_marker_path" (JStr VM_MARKER);
            const_prop "host_mutation" (JBool false); const_prop "release_eligible" (JBool false);
            ("mutation_evidence", JDict [("required", jstrs MUTATION_FAMILIES)])]);
         ("required", jstrs ["schema"; "vm_marker_present"; "target_allowlisted"; "audit_id"; "rollback_id"; "host_mutation"; "mutation_evidence"])].
Definition demo_rollback : json :=
  JDict [("properties", JDict [any_prop "schema"; any_prop "rollback_id"; const_prop "result" (JStr "PASS");
            const_prop "idempotent" (JBool true); const_prop "host_mutation" (JBool false)]);
         ("required", jstrs ["schema"; "rollback_id"; "result"; "idempotent"; "host_mutation"])].
Definition demo_tree (schema_actions : list string) (host_mutation : json) : fs :=
  fs_of "/repo" [
    ("p.zig", File (demo_zig ["preflight"; "stop"]));
    ("src/control/stream.zig", File ("const sample_schema = " ++ quoted "zig/rt" ++ ";"));
    ("schemas/" ++ OPERATOR_FILE, File (dumps (demo_operator schema_actions)));
    ("schemas/" ++ DAEMON_FILE, File (dumps (demo_daemon host_mutation)));
    ("schemas/" ++ RUNTIME_FILE, File (dumps demo_runtime));
    ("schemas/" ++ LAB_FILE, File (dumps demo_lab));
    ("schemas/" ++ ROLLBACK_FILE, File (dumps demo_rollback))].
Example demo_drift_found :
  let runs actions host := main (demo_tree actions host) (fun _ => Ok []) ["--protocol"; "p.zig"; "--schemas"; "schemas"] in
  runs ["stop"; "preflight"] (JBool false) = Exited 0 ["PASS control schema drift check: protocol=p.zig schemas=schemas"] []
  /\ runs ["preflight"] (JBool false)
     = Exited 1 [] ["FAIL control schema drift check: operator-action.v1.schema.json.action enum drifted"]
  /\ runs ["stop"; "preflight"] (JInt 0) = Exited 0 ["PASS control schema drift check: protocol=p.zig schemas=schemas"] [].
Proof. split_and!; vm_compute; reflexivity. Qed.

(** ** Properties *)

(** The checker prints PASS exactly when the five schemas agree with the Zig
    source: each is an object with the properties, the required and the forbidden
    fields of its contract, the schema names are those of the first declarations of
    the source, the enumerations of actions and events are those of the source as
    sets, the first conditional clause of the two live actions asks for their
    identifiers, and the safety flags are constants. *)
Theorem schema_drift_iff F rehearse p s :
  main F rehearse ["--protocol"; p; "--schemas"; s]
  = Exited 0 ["PASS control schema drift check: protocol=" ++ path_str (Path p) ++ " schemas=" ++ path_str (Path s)] []
  <-> no_drift F (Path p) (Path s).
Proof.
  rewrite <- no_drift_accepted. unfold main, run_main, run. cbn [parse_args String.eqb Ascii.eqb Bool.eqb andb bind self_test protocol schemas].
  destruct (validate_all F (Path p) (Path s)) as [[]|e]; cbn [bind]; [done|]. split; [destruct (_ || _); discriminate | discriminate].
Qed.
