(* ===== verification/SchemaRules.v ===== *)
(** SchemaRules: qa/schema_compatibility_schema_rules.py with the tables of
    qa/schema_compatibility_runner_cleanliness_rules.py: what the v1 JSON schemas
    of the control protocol have frozen. *)
From Stdlib Require Import DecimalNat DecimalString.
From S2P Require Import Prelude PyStr PyRe PyFloat PyJson PyJsonText Sha256 PyFs Fields DaemonEvent.

Local Open Scope string_scope.

Definition DRAFT_2020_12 : string := "https://json-schema.org/draft/2020-12/schema".
(** Schema file, schema name, required fields. *)
Definition PublicSchemaRule : Set := string * string * list string.
(** Schema file, place in it, texts. *)
Definition EnumRule : Set := string * list string * list string.
Definition RequiredRule : Set := string * list string * list string.

Definition RUNNER_CLEANLINESS_PUBLIC_SCHEMA_RULES : list PublicSchemaRule := ([
  ("runner-cleanliness-proof.v1.schema.json", "zig-scheduler/runner-cleanliness-proof/v1", ["schema"; "proof_outcome";
     "run_url"; "runner_identity"; "cleanliness_mode"; "no_reuse_evidence"; "removal_receipt"; "ephemeral_registration";
     "protected_review"; "runner_substrate"; "host_mutation"; "release_eligible"; "production_capacity_claim"])])%list.

Definition RUNNER_CLEANLINESS_ENUM_RULES : list EnumRule := ([
  ("runner-cleanliness-proof.v1.schema.json", ["properties"; "proof_outcome"], ["PASS"; "SKIP"; "REFUSE"]);
  ("runner-cleanliness-proof.v1.schema.json", ["properties"; "cleanliness_mode"; "properties"; "kind"], ["jit"; "ephemeral";
     "clean_machine"]);
  ("runner-cleanliness-proof.v1.schema.json", ["properties"; "no_reuse_evidence"; "properties"; "status"], ["PASS"; "SKIP";
     "REFUSE"]);
  ("runner-cleanliness-proof.v1.schema.json", ["properties"; "removal_receipt"; "properties"; "status"], ["removed";
     "not_applicable"; "unavailable"])])%list.

Definition RUNNER_CLEANLINESS_REQUIRED_RULES : list RequiredRule := ([
  ("runner-cleanliness-proof.v1.schema.json", ["required"], ["schema"; "proof_outcome"; "run_url"; "runner_identity";
     "cleanliness_mode"; "no_reuse_evidence"; "removal_receipt"; "protected_review"; "runner_substrate"; "host_mutation";
     "release_eligible"; "production_capacity_claim"]);
  ("runner-cleanliness-proof.v1.schema.json", ["properties"; "runner_identity"; "required"], ["name"; "group"; "labels"]);
  ("runner-cleanliness-proof.v1.schema.json", ["properties"; "cleanliness_mode"; "required"], ["kind"]);
  ("runner-cleanliness-proof.v1.schema.json", ["properties"; "no_reuse_evidence"; "required"], ["status";
     "previous_runner_id"; "current_runner_id"; "evidence"]);
  ("runner-cleanliness-proof.v1.schema.json", ["properties"; "removal_receipt"; "required"], ["status"]);
  ("runner-cleanliness-proof.v1.schema.json", ["definitions"; "artifact_ref"; "required"], ["path"; "sha256"; "schema_role"])])%list.

Definition PUBLIC_SCHEMA_RULES : list PublicSchemaRule := ([
  ("daemon-event.v1.schema.json", "zig-scheduler/daemon-event/v1", ["schema"; "event"; "status"; "host_mutation"]);
  ("operator-action.v1.schema.json", "zig-scheduler/operator-action/v1", ["action"]);
  ("runtime-sample.v1.schema.json", "zig-scheduler/runtime-sample/v1", ["schema"; "sequence"; "state"; "ops"; "enable_seq";
     "events"; "events_hash"; "nr_rejected"; "debug_dump"; "policy_abi"; "cgroup_membership_digest"; "workload_alive";
     "private_command_lines_sampled"]);
  ("matrix-run.v1.schema.json", "zig-scheduler/matrix-run/v1", ["schema"; "matrix_run_id"; "scenario_id"; "outcome";
     "evidence_mode"; "kernel_tuple"; "supported_tuple_status"; "vm_marker"; "bpf_abi_version"; "policy"; "workload";
     "action_id"; "audit_id"; "rollback_id"; "pre_scheduler_state"; "post_scheduler_state"; "pre_cgroup_state";
     "post_cgroup_state"; "runtime_sample_path"; "daemon_event_path"; "incident_path"; "rollback_proof_path";
     "cleanup_proof_path"; "host_refusal_proof_path"; "privacy_scan"; "git"; "release_eligible"; "host_mutation"]);
  ("benchmark-output.v1.schema.json", "zig-scheduler/benchmark-output/v1", ["schema"; "status"; "tool"; "command_family";
     "record_only"; "output_path"; "output_sha256"; "vm_evidence"; "parser_provenance"; "metrics"; "units"; "sample_count";
     "run_count"; "host_mutation"; "release_eligible"; "production_capacity_claim"; "hard_thresholds_enforced";
     "threshold_status"; "privacy_sanitized"]);
  ("evidence-manifest.v1.schema.json", "zig-scheduler/evidence-manifest/v1", ["schema"; "audit_id"; "rollback_id";
     "vm_marker"; "supported_tuple"; "bpf_metadata_or_skip"; "matrix_manifest"; "daemon_events"; "artifacts";
     "benchmark_provenance"; "privacy_scan"; "outcome"; "attestation"; "required_sources"; "host_mutation";
     "release_eligible"; "production_capacity_claim"]);
  ("runner-substrate-proof.v1.schema.json", "zig-scheduler/runner-substrate-proof/v1", ["schema"; "proof_outcome"; "runner";
     "protected_environment"; "protected_review"; "qemu"; "dev_kvm"; "accel_mode"; "kernel_tuple"; "bpf_metadata";
     "attestation"; "unavailable_reasons"; "host_mutation"; "release_eligible"; "production_capacity_claim"]);
  ("protected-environment-review.v1.schema.json", "zig-scheduler/protected-environment-review/v1", ["schema"; "run_id";
     "run_url"; "head_sha"; "environment_name"; "environment_id"; "reviewer_status"; "reviewer_identity"; "reviewer_id";
     "comment"; "review_history_api_url"; "collected_at"; "host_mutation"; "release_eligible"; "production_capacity_claim"])] ++ RUNNER_CLEANLINESS_PUBLIC_SCHEMA_RULES)%list.

Definition ENUM_RULES : list EnumRule := ([
  ("daemon-event.v1.schema.json", ["properties"; "event"], ["boot"; "marker"; "verifier"; "attach"; "state_changed";
     "stage_started"; "lab_run_active"; "stage_finished"; "journal_record"; "microvm_boot"; "vm_marker"; "bpf_register";
     "runtime_sample"; "rollback"; "rollback_completed"; "cleanup"; "validation"; "incident"; "refusal"]);
  ("operator-action.v1.schema.json", ["properties"; "action"], ["preflight"; "run_lab_host_safe"; "run_lab_vm";
     "run_lab_microvm_live"; "verifier_only"; "partial_attach"; "observe"; "stop"; "rollback"; "stop_lab_run";
     "rollback_lab_run"; "incident_drill"]);
  ("runtime-sample.v1.schema.json", ["properties"; "observation_source"], ["vm_guest_sched_ext"; "vm_serial_sched_ext";
     "vm_fixture_sched_ext"]);
  ("matrix-run.v1.schema.json", ["properties"; "outcome"], ["PASS"; "SKIP"; "REFUSE"; "INCIDENT"; "FAIL"]);
  ("matrix-run.v1.schema.json", ["properties"; "evidence_mode"], ["vm-live"; "host-refusal-only"; "fixture"]);
  ("matrix-run.v1.schema.json", ["properties"; "supported_tuple_status"], ["supported"; "unsupported"; "unknown"]);
  ("runner-substrate-proof.v1.schema.json", ["properties"; "proof_outcome"], ["PASS"; "SKIP"; "REFUSE"]);
  ("benchmark-output.v1.schema.json", ["properties"; "status"], ["RECORDED"; "UNSUPPORTED_DEFERRED"]);
  ("benchmark-output.v1.schema.json", ["properties"; "tool"], ["cyclictest"; "fio"; "perf"; "rtla"; "stress-ng"]);
  ("benchmark-output.v1.schema.json", ["properties"; "command_family"], ["cyclictest"; "fio"; "perf_bench_sched_messaging";
     "rtla"; "perf_sched"; "stress_ng"])] ++ RUNNER_CLEANLINESS_ENUM_RULES)%list.

Definition FROZEN_REQUIRED_RULES : list RequiredRule := ([
  ("benchmark-output.v1.schema.json", ["required"], ["schema"; "status"; "tool"; "command_family"; "record_only";
     "output_path"; "output_sha256"; "vm_evidence"; "parser_provenance"; "metrics"; "units"; "sample_count"; "run_count";
     "host_mutation"; "release_eligible"; "production_capacity_claim"; "hard_thresholds_enforced"; "threshold_status";
     "privacy_sanitized"]);
  ("benchmark-output.v1.schema.json", ["properties"; "parser_provenance"; "required"], ["parser"; "parser_version";
     "parser_status"]);
  ("daemon-event.v1.schema.json", ["required"], ["schema"; "event"; "status"; "host_mutation"]);
  ("evidence-manifest.v1.schema.json", ["required"], ["schema"; "outcome"; "audit_id"; "rollback_id"; "vm_marker";
     "supported_tuple"; "bpf_metadata_or_skip"; "matrix_manifest"; "daemon_events"; "runner_substrate"; "runner_cleanliness";
     "artifacts"; "benchmark_provenance"; "privacy_scan"; "attestation"; "required_sources"; "host_mutation";
     "release_eligible"; "production_capacity_claim"]);
  ("evidence-manifest.v1.schema.json", ["properties"; "vm_marker"; "required"], ["path"; "present"; "checked_by"]);
  ("evidence-manifest.v1.schema.json", ["properties"; "benchmark_provenance"; "oneOf"; "1"; "required"], ["status"; "reason";
     "applies_to_outcomes"]);
  ("evidence-manifest.v1.schema.json", ["properties"; "privacy_scan"; "required"], ["status"; "private_fields_found";
     "artifact_paths"]);
  ("evidence-manifest.v1.schema.json", ["properties"; "attestation"; "required"], ["status"; "workflow_uses";
     "verify_command"; "retention_days"]);
  ("evidence-manifest.v1.schema.json", ["$defs"; "artifactRef"; "required"], ["path"; "sha256"; "schema_role"]);
  ("lab-evidence.v1.schema.json", ["required"], ["schema"; "evidence_mode"; "vm_marker_present"; "vm_marker_path";
     "target_allowlisted"; "audit_id"; "rollback_id"; "host_mutation"; "mutation_evidence"]);
  ("lab-evidence.v1.schema.json", ["properties"; "mutation_evidence"; "required"], ["cgroup.weight"; "cpu.max"; "uclamp";
     "topology.offline_cpu"]);
  ("lab-evidence.v1.schema.json", ["$defs"; "mutation"; "required"], ["target"; "pre_state"; "post_state"; "rollback_proof";
     "cleanup_proof"]);
  ("matrix-run.v1.schema.json", ["required"], ["schema"; "matrix_run_id"; "scenario_id"; "outcome"; "evidence_mode";
     "kernel_tuple"; "supported_tuple_status"; "vm_marker"; "bpf_abi_version"; "policy"; "workload"; "action_id"; "audit_id";
     "rollback_id"; "pre_scheduler_state"; "post_scheduler_state"; "pre_cgroup_state"; "post_cgroup_state";
     "runtime_sample_path"; "daemon_event_path"; "incident_path"; "rollback_proof_path"; "cleanup_proof_path";
     "host_refusal_proof_path"; "privacy_scan"; "git"; "release_eligible"; "host_mutation"]);
  ("matrix-run.v1.schema.json", ["properties"; "kernel_tuple"; "required"], ["kernel_release"; "arch"; "btf"; "kvm";
     "sched_ext"]);
  ("matrix-run.v1.schema.json", ["properties"; "vm_marker"; "required"], ["required"; "present"; "path"; "checked_by"]);
  ("matrix-run.v1.schema.json", ["properties"; "policy"; "required"], ["name"; "object_path"; "object_sha256"; "source_path";
     "source_sha256"]);
  ("matrix-run.v1.schema.json", ["properties"; "workload"; "required"], ["name"; "spec_path"; "spec_sha256"]);
  ("matrix-run.v1.schema.json", ["properties"; "post_scheduler_state"; "required"], ["sched_ext"; "ops"]);
  ("matrix-run.v1.schema.json", ["properties"; "pre_scheduler_state"; "required"], ["sched_ext"; "ops"]);
  ("matrix-run.v1.schema.json", ["properties"; "privacy_scan"; "required"], ["status"; "private_fields_found";
     "report_path"]);
  ("matrix-run.v1.schema.json", ["properties"; "git"; "required"], ["expected_sha"; "actual_sha"; "status"; "dirty"]);
  ("operator-action.v1.schema.json", ["required"], ["action"]);
  ("operator-action.v1.schema.json", ["allOf"; "0"; "if"; "required"], ["action"]);
  ("operator-action.v1.schema.json", ["allOf"; "0"; "then"; "required"], ["action_id"; "target_id"; "audit_id";
     "rollback_id"]);
  ("operator-action.v1.schema.json", ["allOf"; "1"; "if"; "required"], ["action"]);
  ("operator-action.v1.schema.json", ["allOf"; "1"; "then"; "required"], ["audit_id"; "rollback_id"]);
  ("perf-calibration-evidence.v1.schema.json", ["required"], ["schema"; "status"; "evidence_mode"; "source_bundle";
     "runtime_samples"; "sample_count"; "threshold_status"; "hard_thresholds_enforced"; "production_capacity_claim";
     "release_eligible"; "host_mutation"]);
  ("protected-environment-review.v1.schema.json", ["required"], ["schema"; "run_id"; "run_url"; "head_sha";
     "environment_name"; "environment_id"; "reviewer_status"; "reviewer_identity"; "reviewer_id"; "comment";
     "review_history_api_url"; "collected_at"; "host_mutation"; "release_eligible"; "production_capacity_claim"]);
  ("rollback-result.v1.schema.json", ["required"], ["schema"; "rollback_id"; "result"; "idempotent"; "host_mutation"]);
  ("runner-substrate-proof.v1.schema.json", ["required"], ["schema"; "proof_outcome"; "runner"; "protected_environment";
     "protected_review"; "qemu"; "dev_kvm"; "accel_mode"; "kernel_tuple"; "bpf_metadata"; "attestation";
     "unavailable_reasons"; "host_mutation"; "release_eligible"; "production_capacity_claim"]);
  ("runner-substrate-proof.v1.schema.json", ["properties"; "runner"; "required"], ["class"; "labels"; "os"; "arch"]);
  ("runner-substrate-proof.v1.schema.json", ["properties"; "protected_environment"; "required"], ["name"; "protected";
     "required_reviewers"; "reviewer_status"; "run_url"]);
  ("runner-substrate-proof.v1.schema.json", ["properties"; "kernel_tuple"; "required"], ["supported_tuple"; "release";
     "arch"; "config_sha256"; "btf_available"; "sched_ext_available"]);
  ("runner-substrate-proof.v1.schema.json", ["properties"; "attestation"; "required"], ["capability"; "status";
     "workflow_uses"; "verify_command"]);
  ("runner-substrate-proof.v1.schema.json", ["$defs"; "artifactRef"; "required"], ["path"; "sha256"; "schema_role"]);
  ("runner-substrate-proof.v1.schema.json", ["$defs"; "protectedReviewRef"; "required"], ["path"; "sha256"; "schema_role"]);
  ("runner-substrate-proof.v1.schema.json", ["$defs"; "statusPath"; "required"], ["path"; "status"]);
  ("runner-substrate-proof.v1.schema.json", ["allOf"; "0"; "if"; "required"], ["proof_outcome"]);
  ("runner-substrate-proof.v1.schema.json", ["allOf"; "0"; "then"; "properties"; "protected_environment";
     "required"], ["reviewer_identity"]);
  ("runner-substrate-proof.v1.schema.json", ["allOf"; "0"; "then"; "properties"; "qemu"; "required"], ["version"]);
  ("runner-substrate-proof.v1.schema.json", ["allOf"; "0"; "then"; "properties"; "runner"; "required"], ["group"; "name"]);
  ("runtime-sample.v1.schema.json", ["required"], ["schema"; "sequence"; "state"; "ops"; "enable_seq"; "events";
     "events_hash"; "nr_rejected"; "debug_dump"; "policy_abi"; "cgroup_membership_digest"; "workload_alive";
     "private_command_lines_sampled"]);
  ("runtime-sample.v1.schema.json", ["$defs"; "fact"; "required"], ["status"; "value"]);
  ("runtime-sample.v1.schema.json", ["$defs"; "digest_fact"; "required"], ["status"; "value"]);
  ("runtime-sample.v1.schema.json", ["$defs"; "policy_counters"; "oneOf"; "0"; "required"], ["nr_rejected";
     "dispatch_failed"; "fallback"; "fatal"]);
  ("runtime-sample.v1.schema.json", ["$defs"; "sample_loss"; "oneOf"; "0"; "required"], ["lost_samples";
     "backpressure_dropped"]);
  ("runtime-sample.v1.schema.json", ["$defs"; "policy_abi"; "required"], ["policy_name"; "policy_version"; "struct_ops";
     "object_sha256"; "btf_required"]);
  ("runtime-sample.v1.schema.json", ["$defs"; "cgroup_policy_semantics"; "required"], ["cpu.weight"; "cgroup.lifecycle";
     "cgroup.move"; "cpuset.cpus"; "cpuset.cpus.effective"; "cpu.pressure"; "cpu.max"; "uclamp"; "cgroup_set_idle"]);
  ("runtime-sample.v1.schema.json", ["$defs"; "dsq_depth"; "oneOf"; "0"; "required"], ["global"; "local"; "shared"]);
  ("runtime-sample.v1.schema.json", ["$defs"; "queue_latency"; "oneOf"; "0"; "required"], ["p50_us"; "p95_us"; "p99_us";
     "max_us"]);
  ("runtime-sample.v1.schema.json", ["$defs"; "fairness"; "oneOf"; "0"; "required"], ["state"; "starved_tasks";
     "max_wait_us"]);
  ("runtime-sample.v1.schema.json", ["$defs"; "task_counts"; "required"], ["by_cgroup_digest"; "by_class"]);
  ("runtime-sample.v1.schema.json", ["$defs"; "scheduler_counters"; "oneOf"; "0"; "required"], ["context_switches";
     "wakeups"; "migrations"]);
  ("runtime-sample.v1.schema.json", ["$defs"; "sched_ext_observation"; "required"], ["dump"; "tracepoints"]);
  ("runtime-sample.v1.schema.json", ["$defs"; "benchmark_histogram_ref"; "required"], ["record_path"; "record_sha256";
     "histogram_id"; "record_only"]);
  ("runtime-sample.v1.schema.json", ["$defs"; "unavailable_fact"; "required"], ["status"; "value"]);
  ("runtime-sample.v1.schema.json", ["$defs"; "task_ext_enabled_fact"; "required"], ["status"; "value"])] ++ RUNNER_CLEANLINESS_REQUIRED_RULES)%list.

Definition fail {A} (m : string) : result A := raise SchemaCompatibilityError m.

Definition load_schema (F : fs) (p : path) : result jobject :=
  reraise FileNotFoundError SchemaCompatibilityError (fun _ => "missing public schema: " ++ path_str p)
    (let* text := read_text F p in parse_json_object text (path_str p)).

Definition string_list (value : json) (context : string) : result (list string) :=
  match value with
  | JList l => map_m (fun item => match item with JStr s => Ok s | _ => fail (context ++ " contains a non-string value") end) l
  | _ => fail (context ++ " must be a string list")
  end.

Definition nested_object (schema : jobject) (p : list string) (context : string) : result jobject :=
  for_fold 0 p schema (fun _ name current =>
    match get current name with
    | JDict value => Ok value
    | _ => fail (context ++ "." ++ join "." p ++ " missing")
    end).

Definition require_string_field (schema : jobject) (field context : string) : result string :=
  match get schema field with
  | JStr s => if String.eqb s "" then fail (context ++ "." ++ field ++ " missing") else Ok s
  | _ => fail (context ++ "." ++ field ++ " missing")
  end.

Definition schema_property (schema : jobject) (context : string) : result jobject :=
  match get schema "properties" with
  | JDict props =>
      match get props "schema" with
      | JDict schema_prop => Ok schema_prop
      | _ => fail (context ++ ".properties.schema missing")
      end
  | _ => fail (context ++ ".properties missing")
  end.

Definition schema_const (schema : jobject) (context : string) : result string :=
  let* schema_prop := schema_property schema context in
  match get schema_prop "const" with
  | JStr s => if String.eqb s "" then fail (context ++ ".properties.schema.const missing") else Ok s
  | _ => fail (context ++ ".properties.schema.const missing")
  end.

Definition full_text (v : json) : bool := match v with JStr s => negb (String.eqb s "") | _ => false end.

Definition validate_schema_identifier (schema : jobject) (name : string) : result unit :=
  match get schema "properties" with
  | JDict props =>
      if has_key "schema" props then
        let* schema_prop := schema_property schema name in
        ensure (full_text (get schema_prop "const")
                || match get schema_prop "enum" with
                   | JList ((_ :: _) as items) => forallb full_text items
                   | _ => false
                   end)
          SchemaCompatibilityError (name ++ ".properties.schema const/enum missing")
      else Ok tt
  | _ => Ok tt
  end.

(** ** The frozen required fields *)

(** A place of a schema with the fields it requires. *)
Definition required_at : Type := list string * list string.

Fixpoint collect_required_paths (value : json) (p : list string) {struct value} : result (list required_at) :=
  match value with
  | JDict d =>
      let here := (p ++ ["required"])%list in
      let* own := match get d "required" with
                  | JList _ as required => let* fields := string_list required (join "." here) in Ok [(here, fields)]
                  | _ => Ok []
                  end in
      let* below :=
        (fix items (d : jobject) : result (list required_at) :=
           match d with
           | [] => Ok []
           | (key, child) :: d =>
               let* found := collect_required_paths child (p ++ [key])%list in
               let* rest := items d in
               Ok (found ++ rest)%list
           end) d in
      Ok (own ++ below)%list
  | JList l =>
      (fix elems (index : nat) (l : list json) : result (list required_at) :=
         match l with
         | [] => Ok []
         | child :: l =>
             let* found := collect_required_paths child (p ++ [str_nat index])%list in
             let* rest := elems (S index) l in
             Ok (found ++ rest)%list
         end) 0 l
  | _ => Ok []
  end.

(** A dict with tuples for keys, built from pairs: the last pair of a key holds. *)
Fixpoint path_lookup (p : list string) (pairs : list required_at) : option (list string) :=
  match pairs with
  | [] => None
  | (k, fields) :: pairs =>
      match path_lookup p pairs with Some later => Some later | None => if strs_eqb p k then Some fields else None end
  end.
Definition path_in (p : list string) (pairs : list required_at) : bool :=
  match path_lookup p pairs with Some _ => true | None => false end.
Definition same_fields (p : list string) (actual expected : list required_at) : bool :=
  match path_lookup p actual, path_lookup p expected with
  | Some fields, Some fields' => set_eq fields fields'
  | _, _ => false
  end.
(** [==] of two such dicts, whose values are sets *)
Definition paths_eqb (actual expected : list required_at) : bool :=
  forallb (fun kv => same_fields (fst kv) actual expected) actual
  && forallb (fun kv => path_in (fst kv) actual) expected.
Fixpoint dedup_paths (l : list (list string)) : list (list string) :=
  match l with [] => [] | p :: l => if existsb (strs_eqb p) l then dedup_paths l else p :: dedup_paths l end.

(** Tuples of texts in their order. *)
Fixpoint path_leb (p q : list string) : bool :=
  match p, q with
  | [], _ => true
  | _ :: _, [] => false
  | a :: p, b :: q => if String.eqb a b then path_leb p q else String.leb a b
  end.
Fixpoint insert_path (x : list string) (l : list (list string)) : list (list string) :=
  match l with [] => [x] | y :: l => if path_leb x y then x :: y :: l else y :: insert_path x l end.
Definition sort_paths (l : list (list string)) : list (list string) := fold_right insert_path [] l.

Definition expected_required_for (name : string) : list required_at :=
  omap (fun rule : RequiredRule => let '(rule_name, p, fields) := rule in if String.eqb rule_name name then Some (p, fields) else None)
    FROZEN_REQUIRED_RULES.

Definition validate_required_freeze (name : string) (schema : jobject) : result unit :=
  let* actual := collect_required_paths (JDict schema) [] in
  let expected := expected_required_for name in
  if paths_eqb actual expected then Ok tt
  else
    let only xs ys := List.filter (fun p => negb (path_in p ys)) (dedup_paths (map fst xs)) in
    let changed := sorted (map (join ".") (only actual expected ++ only expected actual)) in
    match changed with
    | _ :: _ => fail (name ++ " required locations changed: " ++ join ", " changed)
    | [] =>
        for_each (sort_paths (dedup_paths (map fst actual))) (fun p =>
          ensure (same_fields p actual expected) SchemaCompatibilityError
            (name ++ "." ++ join "." p ++ " required fields changed: "
             ++ join ", " (sorted (dedup match path_lookup p actual with Some fields => fields | None => [] end))))
    end.

(** ** The schema files *)
Section Files.
Variable F : fs.

(** The body of the loop over the files; [loaded] is the dict of the caller, to
    which [setdefault] adds. *)
Definition validate_metadata_of (p : path) (loaded : list (string * jobject)) : result (list (string * jobject)) :=
  let* fresh := load_schema F p in
  let context := name p in
  let (schema, loaded) := match assoc context loaded with
                          | Some schema => (schema, loaded)
                          | None => (fresh, (loaded ++ [(context, fresh)])%list)
                          end in
  let* draft := require_string_field schema "$schema" context in
  ensure (String.eqb draft DRAFT_2020_12) SchemaCompatibilityError (context ++ " uses unsupported JSON Schema draft") ;;;
  let* _ := require_string_field schema "$id" context in
  validate_schema_identifier schema context ;;;
  validate_required_freeze context schema ;;;
  Ok loaded.

Definition validate_control_schema_metadata (schemas : path) (loaded : list (string * jobject))
    : result (list (string * jobject)) :=
  for_fold 0 (sorted_glob F schemas ".schema.json") loaded (fun _ => validate_metadata_of).

Definition loaded_schema (schemas : path) (loaded : list (string * jobject)) (name : string) : result jobject :=
  match assoc name loaded with
  | Some schema => Ok schema
  | None => fail ("missing public schema: " ++ path_str (div_path schemas name))
  end.

Definition validate_public_rule (schemas : path) (loaded : list (string * jobject)) (rule : PublicSchemaRule) : result unit :=
  let '(name, expected_schema, _) := rule in
  let* schema := loaded_schema schemas loaded name in
  let* found := schema_const schema name in
  ensure (String.eqb found expected_schema) SchemaCompatibilityError (name ++ " schema const drifted").

Definition validate_enum_rule (schemas : path) (loaded : list (string * jobject)) (rule : EnumRule) : result unit :=
  let '(name, p, expected) := rule in
  let* schema := loaded_schema schemas loaded name in
  let* object := nested_object schema p name in
  let* actual := string_list (get object "enum") (name ++ "." ++ join "." p ++ ".enum") in
  ensure (set_eq actual expected) SchemaCompatibilityError (name ++ "." ++ join "." p ++ " enum changed").

Definition validate_public_schemas (schemas : path) : result unit :=
  let* loaded := map_m (fun p => let* schema := load_schema F p in Ok (name p, schema)) (sorted_glob F schemas ".schema.json") in
  let* loaded := validate_control_schema_metadata schemas loaded in
  for_each PUBLIC_SCHEMA_RULES (validate_public_rule schemas loaded) ;;;
  for_each ENUM_RULES (validate_enum_rule schemas loaded).
End Files.

(** * Specification *)

(** The schema [v] has a [required] list of [fields] at this place. *)
Inductive RequiredAt : json -> list string -> list string -> Prop :=
| Req_here d fields : get d "required" = jstrs fields -> RequiredAt (JDict d) ["required"] fields
| Req_key d key child p fields : In (key, child) d -> RequiredAt child p fields -> RequiredAt (JDict d) (key :: p) fields
| Req_item l i child p fields : l !! i = Some child -> RequiredAt child p fields -> RequiredAt (JList l) (str_nat i :: p) fields.

(** No [required] list holds anything but texts. *)
Inductive texts_required : json -> Prop :=
| Texts_scalar v : is_list v = false -> is_dict v = false -> texts_required v
| Texts_list l : Forall texts_required l -> texts_required (JList l)
| Texts_dict d : (forall l, get d "required" = JList l -> exists fields, JList l = jstrs fields) ->
    Forall (fun kv => texts_required (snd kv)) d -> texts_required (JDict d).

Definition same_set (xs ys : list string) : Prop := forall x, In x xs <-> In x ys.

(** The required fields are the frozen ones: at every place, and at every place only. *)
Record frozen (name : string) (schema : jobject) : Prop := {
  fz_texts : texts_required (JDict schema);
  fz_known : forall p fields, RequiredAt (JDict schema) p fields ->
    exists expected, In (name, p, expected) FROZEN_REQUIRED_RULES /\ same_set fields expected;
  fz_kept : forall p expected, In (name, p, expected) FROZEN_REQUIRED_RULES ->
    exists fields, RequiredAt (JDict schema) p fields /\ same_set fields expected;
}.

(** The schema that a file of the directory holds. *)
Definition holds_schema (F : fs) (p : path) (d : jobject) : Prop :=
  exists text, read_text F p = Ok text /\ parse_json_object text (path_str p) = Ok d.

(** When the schema has a [schema] property, it names the schema. *)
Definition identified (d : jobject) : Prop := forall props, get d "properties" = JDict props -> has_key "schema" props = true ->
  exists prop, get props "schema" = JDict prop
    /\ (text_field prop "const" \/ exists l, get prop "enum" = jstrs l /\ l <> [] /\ Forall (fun s => s <> "") l).

Record metadata_ok (name : string) (d : jobject) : Prop := {
  me_draft : get d "$schema" = JStr DRAFT_2020_12;
  me_id : text_field d "$id";
  me_identified : identified d;
  me_frozen : frozen name d;
}.

(** The object below a sequence of keys. *)
Fixpoint reaches (d : jobject) (p : list string) (o : jobject) : Prop :=
  match p with
  | [] => o = d
  | key :: p => exists d', get d key = JDict d' /\ reaches d' p o
  end.

Definition public_rule_ok (loaded : list (string * jobject)) (rule : PublicSchemaRule) : Prop :=
  let '(name, schema, _) := rule in
  exists d props prop, assoc name loaded = Some d /\ get d "properties" = JDict props /\ get props "schema" = JDict prop
    /\ get prop "const" = JStr schema.
Definition enum_rule_ok (loaded : list (string * jobject)) (rule : EnumRule) : Prop :=
  let '(name, p, expected) := rule in
  exists d o l, assoc name loaded = Some d /\ reaches d p o /\ get o "enum" = jstrs l /\ same_set l expected.

(** The schemas of a directory, under their file names. *)
Definition schemas_ok (F : fs) (schemas : path) : Prop :=
  exists loaded,
    Forall2 (fun p nd => fst nd = name p /\ holds_schema F p (snd nd)) (sorted_glob F schemas ".schema.json") loaded
    /\ (forall p, In p (sorted_glob F schemas ".schema.json") ->
          exists d, assoc (name p) loaded = Some d /\ metadata_ok (name p) d)
    /\ Forall (public_rule_ok loaded) PUBLIC_SCHEMA_RULES /\ Forall (enum_rule_ok loaded) ENUM_RULES.

(** ** Lemmas *)
Lemma str_nat_inj m n : str_nat m = str_nat n -> m = n.
Proof.
  unfold str_nat. intros H. apply Unsigned.to_uint_inj. apply (f_equal NilEmpty.uint_of_string) in H.
  rewrite !NilEmpty.usu in H. by injection H.
Qed.
Lemma jstrs_inj xs ys : jstrs xs = jstrs ys -> xs = ys.
Proof.
  unfold jstrs. intros [= H]. revert ys H. induction xs as [|x xs IH]; intros [|y ys] H; try discriminate; [done|].
  injection H as -> H. f_equal. by apply IH.
Qed.

Lemma entry_unique d k (v w : json) : NoDup (keys d) -> In (k, v) d -> In (k, w) d -> v = w.
Proof.
  induction d as [|[k' v'] d IH]; [done|]. unfold keys in *. cbn [map fst In]. intros [Hk Hn]%NoDup_cons. rewrite list_elem_of_In in Hk.
  intros [[= -> ->]|Hv] [[= <-]|Hw]; [done | apply (in_map fst) in Hw; done | subst; apply (in_map fst) in Hv; done | by apply IH].
Qed.

Lemma required_path v p fields : RequiredAt v p fields -> p <> [].
Proof. by destruct 1. Qed.
Lemma required_unique v p fields fields' : RequiredAt v p fields -> loaded v -> RequiredAt v p fields' -> fields = fields'.
Proof.
  intros H. revert fields'. induction H as [d fields H|d key child p fields Hin H IH|l i child p fields Hi H IH]; intros fields' Hl H'.
  - inversion H' as [? ? Hg|? ? ? ? ? ? H1|]; subst; [|by destruct (required_path _ _ _ H1)].
    apply jstrs_inj. congruence.
  - inversion H' as [? ? Hg|? ? child' ? ? Hin' H1|]; subst; [by destruct (required_path _ _ _ H)|].
    inversion Hl as [? _ Hd|?|? Hn Hf]; subst; [done|].
    assert (child = child') as -> by (by eapply entry_unique). apply IH; [|done].
    rewrite Forall_forall in Hf. apply (Hf (key, child')). by apply list_elem_of_In.
  - inversion H' as [| |? j child' ? ? Hj H1 E1 E2]; subst. apply str_nat_inj in E2. subst j.
    inversion Hl as [? Hd|? Hf|]; subst; [done|]. apply IH; [|congruence]. rewrite Forall_forall in Hf. apply Hf. by eapply list_elem_of_lookup_2.
Qed.

Lemma rules_fail_ok {A} m (a : A) : fail m = Ok a <-> False.
Proof. apply raise_ok. Qed.
Lemma string_list_ok v c l : string_list v c = Ok l <-> v = jstrs l.
Proof.
  destruct v as [| | | | |items|]; cbn [string_list]; rewrite ?rules_fail_ok; try (split; [done | intros [=]]).
  apply map_texts. intros [] t; rewrite ?rules_fail_ok; naive_solver.
Qed.

(** What is found below a place: everything that is required there. *)
Definition finds (v : json) (p : list string) (found : list required_at) : Prop :=
  texts_required v /\ forall q fields, In (q, fields) found <-> exists r, q = (p ++ r)%list /\ RequiredAt v r fields.

Lemma collect_items (d : jobject) p :
  Forall (fun kv => forall p found, collect_required_paths (snd kv) p = Ok found -> finds (snd kv) p found) d ->
  forall found,
  (fix items (d : jobject) : result (list required_at) :=
     match d with
     | [] => Ok []
     | (key, child) :: d =>
         let* found := collect_required_paths child (p ++ [key])%list in
         let* rest := items d in
         Ok (found ++ rest)%list
     end) d = Ok found ->
  Forall (fun kv => texts_required (snd kv)) d
  /\ forall q fields, In (q, fields) found <-> exists key child r, q = (p ++ key :: r)%list /\ In (key, child) d /\ RequiredAt child r fields.
Proof.
  induction 1 as [|[key child] d Hc _ IH]; intros found.
  - intros [= <-]. split; [constructor|]. split; [done | by intros (? & ? & ? & _ & [] & _)].
  - intros (here & [Ht Hh]%Hc & (rest & [Hts Hr]%IH & [= <-])%bind_ok)%bind_ok. split; [by constructor|].
    intros q fields. rewrite in_app_iff, Hh, Hr. split.
    + intros [(r & -> & Hx)|(k & c & r & -> & Hin & Hx)]; [exists key, child, r | exists k, c, r]; (split_and!; [|by (left + right)|done]).
      * by rewrite <- app_assoc.
      * done.
    + intros (k & c & r & -> & [[= <- <-]|Hin] & Hx); [left; exists r; by rewrite <- app_assoc | right; by exists k, c, r].
Qed.
Lemma collect_elems (l : list json) p :
  Forall (fun v => forall p found, collect_required_paths v p = Ok found -> finds v p found) l ->
  forall n found,
  (fix elems (index : nat) (l : list json) : result (list required_at) :=
     match l with
     | [] => Ok []
     | child :: l =>
         let* found := collect_required_paths child (p ++ [str_nat index])%list in
         let* rest := elems (S index) l in
         Ok (found ++ rest)%list
     end) n l = Ok found ->
  Forall texts_required l
  /\ forall q fields, In (q, fields) found <->
       exists i child r, q = (p ++ str_nat (n + i) :: r)%list /\ l !! i = Some child /\ RequiredAt child r fields.
Proof.
  induction 1 as [|child l Hc _ IH]; intros n found.
  - intros [= <-]. split; [constructor|]. split; [done | by intros (? & ? & ? & _ & [=] & _)].
  - intros (here & [Ht Hh]%Hc & (rest & [Hts Hr]%IH & [= <-])%bind_ok)%bind_ok. split; [by constructor|].
    intros q fields. rewrite in_app_iff, Hh, Hr. split.
    + intros [(r & -> & Hx)|(i & c & r & -> & Hi & Hx)]; [exists 0, child, r | exists (S i), c, r]; (split_and!; [|done..]).
      * by rewrite Nat.add_0_r, <- app_assoc.
      * by rewrite Nat.add_succ_r.
    + intros ([|i] & c & r & -> & Hi & Hx).
      * injection Hi as <-. left. exists r. by rewrite Nat.add_0_r, <- app_assoc.
      * right. exists i, c, r. by rewrite Nat.add_succ_r.
Qed.

Lemma collect_sound v : forall p found, collect_required_paths v p = Ok found -> finds v p found.
Proof.
  induction v as [| | | | |l IH|d IH] using json_nested_ind; intros p found; cbn [collect_required_paths];
    try (intros [= <-]; split; [by constructor | split; [done | by intros (? & _ & H); inversion H]]).
  - intros [Ht Hf]%(collect_elems l p IH). split; [by constructor|]. intros q fields. rewrite Hf. split.
    + intros (i & c & r & -> & Hi & H). eexists. split; [done | by eapply Req_item].
    + intros (r & -> & H). inversion H as [| |? i child r' ? Hi Hc]; subst. by exists i, child, r'.
  - intros (own & Hown & (below & [Ht Hf]%(collect_items d p IH) & [= <-])%bind_ok)%bind_ok. split.
    + constructor; [|done]. intros l El. rewrite El in Hown. apply bind_ok in Hown as (fields & ->%string_list_ok & _). by exists fields.
    + assert (Ho : forall q fields, In (q, fields) own <-> q = (p ++ ["required"])%list /\ get d "required" = jstrs fields).
      { intros q fields. destruct (get d "required") as [| | | | |l|] eqn:El;
          try (injection Hown as <-; split; [done | by intros [_ [=]]]).
        apply bind_ok in Hown as (fs & ->%string_list_ok & [= <-]). split; [by intros [[= <- <-]|[]]|].
        intros [-> ->%jstrs_inj]. by left. }
      intros q fields. rewrite in_app_iff, Ho, Hf. split.
      * intros [[-> H]|(k & c & r & -> & Hin & H)]; eexists; (split; [done|]); [by constructor | by eapply Req_key].
      * intros (r & -> & H). inversion H as [? ? Hg|? k c r' ? Hin Hc|]; subst; [by left | right; by exists k, c, r'].
Qed.

Lemma collect_complete v : texts_required v -> forall p, exists found, collect_required_paths v p = Ok found.
Proof.
  induction v as [| | | | |l IH|d IH] using json_nested_ind; intros Hv p; cbn [collect_required_paths]; try (by eexists).
  - inversion Hv as [? Hl|? Hl|]; subst; [done|]. clear Hv. generalize 0. induction IH as [|child l Hc _ IHl]; intros n; [by eexists|].
    inversion Hl as [|? ? H1 H2]; subst. destruct (Hc H1 (p ++ [str_nat n])%list) as (found & ->). destruct (IHl H2 (S n)) as (rest & Hr).
    cbn [bind]. rewrite Hr. by eexists.
  - inversion Hv as [? _ Hd|?|? Hr Hd]; subst; [done|]. clear Hv.
    assert (Hown : exists own, match get d "required" with
      | JList _ as required => let* fields := string_list required (join "." (p ++ ["required"])%list) in Ok [((p ++ ["required"])%list, fields)]
      | _ => Ok [] end = Ok own).
    { destruct (get d "required") as [| | | | |l|]; try by eexists. destruct (Hr l eq_refl) as (fields & E). rewrite E.
      assert (Hs : forall c, string_list (jstrs fields) c = Ok fields) by (intros c; by apply string_list_ok).
      unfold jstrs in *. rewrite Hs. by eexists. }
    destruct Hown as (own & ->). cbn [bind]. clear Hr. induction IH as [|[key child] d Hc _ IHd]; [by eexists|].
    inversion Hd as [|? ? H1 H2]; subst. cbn [snd] in Hc, H1. destruct (Hc H1 (p ++ [key])%list) as (found & ->). destruct (IHd H2) as (rest & Hr).
    cbn [bind] in *. apply bind_ok in Hr as (below & -> & _). by eexists.
Qed.

(** ** The comparison with the frozen places *)
Definition one_each (pairs : list required_at) : Prop :=
  forall p fields fields', In (p, fields) pairs -> In (p, fields') pairs -> fields = fields'.

Lemma path_lookup_in pairs p fields : one_each pairs -> path_lookup p pairs = Some fields <-> In (p, fields) pairs.
Proof.
  assert (Hs : forall pairs fields, path_lookup p pairs = Some fields -> In (p, fields) pairs).
  { clear. induction pairs as [|[k f] pairs IH]; intros fields; cbn [path_lookup]; [done|].
    destruct (path_lookup p pairs) as [later|]; [intros [= ->]; right; by apply IH|].
    destruct (strs_eqb p k) eqn:E; [|done]. apply strs_eqb_eq in E as ->. intros [= ->]. by left. }
  intros Hone. split; [apply Hs|]. intros Hin. destruct (path_lookup p pairs) as [found|] eqn:E.
  - f_equal. eapply Hone; [by apply Hs | done].
  - exfalso. clear Hs Hone. revert Hin E. induction pairs as [|[k f] pairs IH]; [done|]. cbn [path_lookup In].
    intros [[= -> ->]|Hin]; destruct (path_lookup p pairs) eqn:El; try done.
    + by rewrite (proj2 (strs_eqb_eq p p)).
    + intros _. by apply IH.
Qed.
Lemma path_in_iff p pairs : one_each pairs -> path_in p pairs = true <-> exists fields, In (p, fields) pairs.
Proof.
  intros Hone. unfold path_in. setoid_rewrite <- path_lookup_in; [|done]. destruct (path_lookup p pairs); naive_solver.
Qed.
Lemma same_fields_iff p actual expected : one_each actual -> one_each expected ->
  same_fields p actual expected = true <->
  exists fields fields', In (p, fields) actual /\ In (p, fields') expected /\ same_set fields fields'.
Proof.
  intros Ha He. unfold same_fields. setoid_rewrite <- path_lookup_in; [|done..].
  destruct (path_lookup p actual), (path_lookup p expected); try (split; [done | naive_solver]).
  rewrite set_eq_spec. split; [by eexists _, _ | by intros (? & ? & [= <-] & [= <-] & H)].
Qed.

Lemma dedup_paths_in p l : In p (dedup_paths l) <-> In p l.
Proof.
  induction l as [|q l IH]; [done|]. cbn [dedup_paths]. destruct (existsb (strs_eqb q) l) eqn:E; cbn [In]; rewrite IH; [|done].
  apply existsb_exists in E as (r & Hr & ->%strs_eqb_eq). split; [by right | by intros [<-|]].
Qed.
Lemma sort_paths_in p l : In p (sort_paths l) <-> In p l.
Proof.
  unfold sort_paths. induction l as [|q l IH]; [done|]. cbn [fold_right In]. rewrite <- IH. clear IH. generalize (fold_right insert_path [] l). intros m.
  induction m as [|r m IH]; cbn [insert_path]; [done|]. destruct (path_leb q r); [done|]. cbn [In]. rewrite IH. cbn [In]. tauto.
Qed.
Lemma rules_in name p fields : In (p, fields) (expected_required_for name) <-> In (name, p, fields) FROZEN_REQUIRED_RULES.
Proof.
  unfold expected_required_for. rewrite <- list_elem_of_In, list_elem_of_omap. setoid_rewrite list_elem_of_In. split.
  - intros ([[rule q] fs] & Hin & H). destruct (String.eqb_spec rule name) as [->|]; [|done]. by injection H as -> ->.
  - intros Hin. exists (name, p, fields). split; [done|]. by rewrite String.eqb_refl.
Qed.
Lemma rules_once name : one_each (expected_required_for name).
Proof.
  assert (Hn : NoDup (map fst FROZEN_REQUIRED_RULES)) by (apply (bool_decide_unpack _); vm_compute; exact I).
  intros p fields fields'. rewrite !rules_in. revert Hn. generalize FROZEN_REQUIRED_RULES. intros l.
  induction l as [|[k f] l IH]; [done|]. cbn [map fst In]. intros [Hk Hn]%NoDup_cons. rewrite list_elem_of_In in Hk.
  intros [[= -> ->]|Hv] [[= ->]|Hw]; [done | apply (in_map fst) in Hw; done | subst; apply (in_map fst) in Hv; done | by apply IH].
Qed.

Lemma paths_eqb_iff actual expected : one_each actual -> one_each expected ->
  paths_eqb actual expected = true <->
  (forall p fields, In (p, fields) actual -> exists fields', In (p, fields') expected /\ same_set fields fields')
  /\ (forall p fields', In (p, fields') expected -> exists fields, In (p, fields) actual /\ same_set fields fields').
Proof.
  intros Ha He. unfold paths_eqb. rewrite andb_true_iff, !forallb_forall. split.
  - intros [H1 H2]. assert (Hf : forall p fields, In (p, fields) actual -> exists fields', In (p, fields') expected /\ same_set fields fields').
    { intros p fields Hin. specialize (H1 _ Hin). apply same_fields_iff in H1 as (f & f' & Hf & Hf' & Hs); [|done..].
      rewrite (Ha _ _ _ Hin Hf). by exists f'. }
    split; [done|]. intros p fields' Hin. specialize (H2 _ Hin). apply path_in_iff in H2 as (fields & Hf2); [|done].
    destruct (Hf _ _ Hf2) as (f' & Hf' & Hs). cbn [fst] in *. rewrite (He _ _ _ Hin Hf'). by exists fields.
  - intros [H1 H2]. split; intros [p fields] Hin.
    + apply same_fields_iff; [done..|]. destruct (H1 _ _ Hin) as (f' & Hf' & Hs). by exists fields, f'.
    + apply path_in_iff; [done|]. destruct (H2 _ _ Hin) as (f & Hf & _). by exists f.
Qed.

Lemma freeze_accepted name schema : loaded (JDict schema) -> validate_required_freeze name schema = Ok tt <-> frozen name schema.
Proof.
  intros Hl. unfold validate_required_freeze. cbv zeta.
  assert (Hsound : forall actual, collect_required_paths (JDict schema) [] = Ok actual ->
    one_each actual /\ (forall p fields, In (p, fields) actual <-> RequiredAt (JDict schema) p fields)).
  { intros actual [_ H]%collect_sound.
    assert (Hr : forall p fields, In (p, fields) actual <-> RequiredAt (JDict schema) p fields) by (intros p fields; rewrite H; naive_solver).
    split; [|done]. intros p f f'. rewrite !Hr. intros H1 H2. by eapply required_unique. }
  pose proof (rules_once name) as He. split.
  - intros (actual & Hc & H)%bind_ok. destruct (Hsound _ Hc) as [Ha Hr]. apply collect_sound in Hc as [Ht _].
    assert (Heq : paths_eqb actual (expected_required_for name) = true).
    { destruct (paths_eqb _ _) eqn:E; [done|]. destruct (sorted _) eqn:Es; [|by apply rules_fail_ok in H].
      apply for_each_ok in H. rewrite Forall_forall in H. setoid_rewrite list_elem_of_In in H. setoid_rewrite sort_paths_in in H.
      setoid_rewrite dedup_paths_in in H. rewrite <- E. unfold paths_eqb. rewrite andb_true_iff, !forallb_forall. split; intros [p fields] Hin; cbn [fst].
      - specialize (H p (in_map fst _ _ Hin)). by apply ensure_ok in H.
      - destruct (path_in p actual) eqn:Ep; [done|]. exfalso.
        assert (Hx : In (join "." p) []); [|done]. rewrite <- Es. apply sorted_in, (in_map (join ".")), in_or_app. right.
        apply filter_In. split; [apply dedup_paths_in; by apply (in_map fst) in Hin | by rewrite Ep]. }
    apply paths_eqb_iff in Heq as [H1 H2]; [|done..]. setoid_rewrite rules_in in H1. setoid_rewrite rules_in in H2.
    split; [done | intros p f Hp%Hr; by apply H1 | intros p e Hp; destruct (H2 _ _ Hp) as (f & Hf%Hr & Hs); by exists f].
  - intros [Ht H1 H2]. destruct (collect_complete _ Ht []) as (actual & Hc). rewrite Hc. cbn [bind]. destruct (Hsound _ Hc) as [Ha Hr].
    rewrite (proj2 (paths_eqb_iff actual _ Ha He)); [done|]. setoid_rewrite rules_in. setoid_rewrite Hr. split; [apply H1 | apply H2].
Qed.

(** ** The files *)
Lemma schema_loaded F p d : load_schema F p = Ok d <-> holds_schema F p d.
Proof. unfold load_schema, holds_schema. by rewrite reraise_ok, bind_ok. Qed.
Lemma schema_tree F p d : holds_schema F p d -> loaded (JDict d).
Proof.
  intros (text & _ & H). unfold parse_json_object, parse_json_value in H. apply bind_ok in H as (v & Hv & H).
  destruct v; try discriminate H. injection H as ->. apply reraise_ok in Hv. revert Hv. apply loads_doc_loaded. by intros ? ? [=].
Qed.

#[export] Instance reads_string : TextReader require_string_field.
Proof. solve_reader require_string_field. Qed.

Lemma full_text_iff v : full_text v = true <-> exists s, v = JStr s /\ s <> "".
Proof. destruct v; cbn [full_text]; try (split; [done | naive_solver]). rewrite negb_true_iff, String.eqb_neq. naive_solver. Qed.
Lemma full_texts_iff items : match items with _ :: _ => forallb full_text items | [] => false end = true <->
  exists l, JList items = jstrs l /\ l <> [] /\ Forall (fun s => s <> "") l.
Proof.
  transitivity (items <> [] /\ Forall (fun v => exists s, v = JStr s /\ s <> "") items).
  - destruct items as [|v items]; [naive_solver|]. rewrite forallb_forall, Forall_forall. setoid_rewrite list_elem_of_In.
    setoid_rewrite full_text_iff. naive_solver.
  - rewrite texts_iff. split.
    + intros (Hne & l & E & Hl). exists l. split_and!; [done | by intros ->; injection E as -> | done].
    + intros (l & E & Hne & Hl). split; [|by exists l]. intros ->. injection E as E. destruct l; done.
Qed.
Lemma identifier_accepted d name : validate_schema_identifier d name = Ok tt <-> identified d.
Proof.
  unfold validate_schema_identifier, identified. destruct (get d "properties") as [| | | | | |props] eqn:Ep; try (split; [intros _ ? [=] | done]).
  destruct (has_key "schema" props) eqn:Ek; [|split; [intros _ ? [= <-]; congruence | done]].
  unfold schema_property. rewrite Ep. destruct (get props "schema") as [| | | | | |prop] eqn:Es;
    cbn [bind fail raise]; try (split; [done | intros H; destruct (H _ eq_refl Ek) as (? & ? & _); congruence]).
  rewrite ensure_ok, orb_true_iff, full_text_iff.
  assert (He : match get prop "enum" with JList ((_ :: _) as items) => forallb full_text items | _ => false end = true <->
    exists l, get prop "enum" = jstrs l /\ l <> [] /\ Forall (fun s => s <> "") l).
  { destruct (get prop "enum") as [| | | | |items|]; try (split; [done | by intros (? & [=] & _)]).
    rewrite <- full_texts_iff. by destruct items. }
  rewrite He. unfold text_field. split.
  - intros H props' [= <-] _. by exists prop.
  - intros H. destruct (H _ eq_refl Ek) as (prop' & Hg & Hp). rewrite Es in Hg. by injection Hg as <-.
Qed.

Lemma nested_loop m p d n o :
  for_fold n p d (fun _ name current => match get current name with JDict value => Ok value | _ => fail m end) = Ok o <-> reaches d p o.
Proof.
  revert d n. induction p as [|key p IH]; intros d n; cbn [for_fold reaches].
  - rewrite Ok_inj. naive_solver.
  - destruct (get d key) as [| | | | | |d'] eqn:E; cbn [bind fail raise]; try (split; [done | by intros (? & [=] & _)]).
    rewrite IH. split; [by exists d' | by intros (? & [= <-] & H)].
Qed.
Lemma nested_ok p d o c : nested_object d p c = Ok o <-> reaches d p o.
Proof. apply nested_loop. Qed.

Section Lookup.
Variables (schemas : path) (loaded : list (string * jobject)).
Lemma loaded_ok name d : loaded_schema schemas loaded name = Ok d <-> assoc name loaded = Some d.
Proof. unfold loaded_schema. destruct (assoc name loaded); [by rewrite Ok_inj; split; [intros -> | intros [= ->]] | rewrite rules_fail_ok; done]. Qed.

Lemma public_rule_accepted rule : snd (fst rule) <> "" -> validate_public_rule schemas loaded rule = Ok tt <-> public_rule_ok loaded rule.
Proof.
  destruct rule as [[name schema] fields]. cbn [fst snd]. intros Hs. unfold validate_public_rule, public_rule_ok. rewrite bind_ok. setoid_rewrite loaded_ok. split.
  - intros (d & Ha & (found & Hf & ->%ensure_ok%String.eqb_eq)%bind_ok). unfold schema_const, schema_property in Hf.
    destruct (get d "properties") as [| | | | | |props] eqn:Ep; try done. destruct (get props "schema") as [| | | | | |prop] eqn:Epp; try done.
    cbn [bind] in Hf. destruct (get prop "const") as [| | | |s| |] eqn:Ec; try done. destruct (String.eqb s ""); [done|]. injection Hf as ->.
    by exists d, props, prop.
  - intros (d & props & prop & Ha & Hp & Hpp & Hc). exists d. split; [done|]. unfold schema_const, schema_property. rewrite Hp, Hpp. cbn [bind].
    rewrite Hc. rewrite (proj2 (String.eqb_neq schema "") Hs). cbn [bind]. apply ensure_ok. by apply String.eqb_eq.
Qed.
Lemma enum_rule_accepted rule : validate_enum_rule schemas loaded rule = Ok tt <-> enum_rule_ok loaded rule.
Proof.
  destruct rule as [[name p] expected]. unfold validate_enum_rule, enum_rule_ok, same_set. split.
  - intros (d & Hd%loaded_ok & (o & Ho%nested_ok & (l & Hl%string_list_ok & Hs%ensure_ok)%bind_ok)%bind_ok)%bind_ok.
    exists d, o, l. split_and!; [done.. | by apply set_eq_spec].
  - intros (d & o & l & Hd & Ho & Hl & Hs). apply bind_ok. exists d. split; [by apply loaded_ok|]. apply bind_ok. exists o. split; [by apply nested_ok|].
    apply bind_ok. exists l. split; [by apply string_list_ok|]. by apply ensure_ok, set_eq_spec.
Qed.
End Lookup.

(** Every file has been loaded before the walk, so the walk adds nothing. *)
Lemma metadata_of_ok F p (held : list (string * jobject)) d loaded' :
  assoc (name p) held = Some d -> loaded (JDict d) ->
  validate_metadata_of F p held = Ok loaded' <->
  loaded' = held /\ (exists d', holds_schema F p d') /\ metadata_ok (name p) d.
Proof.
  intros Ha Hl. unfold validate_metadata_of. rewrite bind_ok. setoid_rewrite schema_loaded. cbv zeta. rewrite Ha. cbv iota. split.
  - intros (d' & Hd' & H). apply text_is in H as [Hs H]; [|done]. apply text_any in H as [Hi H].
    apply bind_ok_unit in H as [Hid H]. apply bind_ok_unit in H as [Hf H]. injection H as <-.
    split_and!; [done | by exists d' | split; [done | done | by apply identifier_accepted in Hid | by apply freeze_accepted in Hf]].
  - intros (-> & (d' & Hd') & [Hs Hi Hid Hf]). exists d'. split; [done|]. apply text_is; [done|]. split; [done|].
    apply text_any. split; [done|]. apply bind_ok_unit. split; [by apply identifier_accepted|].
    apply bind_ok_unit. split; [by apply freeze_accepted | done].
Qed.

Lemma walk_ok F (ps : list path) (held : list (string * jobject)) : (forall p, In p ps -> exists d, assoc (name p) held = Some d /\ loaded (JDict d) /\ exists d', holds_schema F p d') ->
  forall n loaded', for_fold n ps held (fun _ => validate_metadata_of F) = Ok loaded' <->
  loaded' = held /\ forall p, In p ps -> exists d, assoc (name p) held = Some d /\ metadata_ok (name p) d.
Proof.
  induction ps as [|p ps IH]; intros Hh n loaded'; cbn [for_fold].
  - rewrite Ok_inj. split; [by intros <- | by intros [-> _]].
  - destruct (Hh p ltac:(by left)) as (d & Ha & Hl & Hd). rewrite bind_ok. setoid_rewrite metadata_of_ok; [|done..].
    assert (Hh' : forall p, In p ps -> exists d, assoc (name p) held = Some d /\ loaded (JDict d) /\ exists d', holds_schema F p d') by (intros ? ?; apply Hh; by right).
    split.
    + intros (? & (-> & _ & Hm) & [-> Hr]%(IH Hh')). split; [done|]. intros q [<-|Hin]; [by exists d | by apply Hr].
    + intros [-> Hr]. exists held. split; [split_and!; [done | done|]|apply (IH Hh'); split; [done|]; intros q Hq; apply Hr; by right].
      destruct (Hr p ltac:(by left)) as (d0 & Ha' & Hm). congruence.
Qed.

Lemma all_held F ps held : Forall2 (fun p nd => fst nd = name p /\ holds_schema F p (snd nd)) ps held ->
  forall p, In p ps -> exists d, assoc (name p) held = Some d /\ loaded (JDict d) /\ exists d', holds_schema F p d'.
Proof.
  induction 1 as [|q [n d] ps held [Hn Hd] _ IH]; [done|]. cbn [fst snd] in *. subst n. intros p [->|Hin]; cbn [assoc].
  - rewrite String.eqb_refl. exists d. split_and!; [done | by apply schema_tree in Hd | by exists d].
  - destruct (IH p Hin) as (d' & Ha & Hl & Hs). destruct (String.eqb (name p) (name q)); [|by exists d'].
    exists d. split_and!; [done | by apply schema_tree in Hd | done].
Qed.
Lemma public_rules_accepted schemas held :
  Forall (fun rule => validate_public_rule schemas held rule = Ok tt) PUBLIC_SCHEMA_RULES <-> Forall (public_rule_ok held) PUBLIC_SCHEMA_RULES.
Proof.
  assert (Hn : Forall (fun rule : PublicSchemaRule => snd (fst rule) <> "") PUBLIC_SCHEMA_RULES) by (repeat (constructor; [done|]); constructor).
  revert Hn. generalize PUBLIC_SCHEMA_RULES. intros rules Hn. induction Hn as [|rule rules Hr _ IH]; [by rewrite !Forall_nil|].
  by rewrite !Forall_cons, IH, public_rule_accepted.
Qed.

Lemma schemas_accepted F schemas : validate_public_schemas F schemas = Ok tt <-> schemas_ok F schemas.
Proof.
  unfold validate_public_schemas, schemas_ok, validate_control_schema_metadata. rewrite bind_ok.
  assert (Hload : forall held, map_m (fun p => let* schema := load_schema F p in Ok (name p, schema)) (sorted_glob F schemas ".schema.json") = Ok held <->
    Forall2 (fun p nd => fst nd = name p /\ holds_schema F p (snd nd)) (sorted_glob F schemas ".schema.json") held).
  { assert (Hone : forall p nd, (let* schema := load_schema F p in Ok (name p, schema)) = Ok nd <-> fst nd = name p /\ holds_schema F p (snd nd)).
    { intros p [n d]. rewrite bind_ok. setoid_rewrite schema_loaded. cbn [fst snd]. split; [by intros (d' & Hd & [= <- <-]) | intros [-> Hd]; by exists d]. }
    intros held. rewrite map_m_ok. split; intros H; (eapply Forall2_impl; [exact H|]); intros p nd Hp; by apply Hone. }
  setoid_rewrite Hload. clear Hload.
  assert (Hex : forall P Q : list (string * jobject) -> Prop, (forall x, P x <-> Q x) -> (exists x, P x) <-> (exists x, Q x)) by firstorder.
  apply Hex. clear Hex. intros held.
  assert (Hrules : (for_each PUBLIC_SCHEMA_RULES (validate_public_rule schemas held) ;;; for_each ENUM_RULES (validate_enum_rule schemas held)) = Ok tt <->
    Forall (public_rule_ok held) PUBLIC_SCHEMA_RULES /\ Forall (enum_rule_ok held) ENUM_RULES).
  { rewrite bind_ok_unit, !for_each_ok. setoid_rewrite enum_rule_accepted.
    by rewrite public_rules_accepted. }
  assert (Hwalk : Forall2 (fun p nd => fst nd = name p /\ holds_schema F p (snd nd)) (sorted_glob F schemas ".schema.json") held ->
    forall p, In p (sorted_glob F schemas ".schema.json") ->
      exists d, assoc (name p) held = Some d /\ loaded (JDict d) /\ exists d', holds_schema F p d') by apply all_held.
  split.
  - intros [H2 (held' & [-> Hm]%walk_ok & [Hp He]%Hrules)%bind_ok]; [done | by apply Hwalk].
  - intros (H2 & Hm & Hp & He). split; [done|]. apply bind_ok. exists held. split; [by apply walk_ok; [apply Hwalk|]|]. by apply Hrules.
Qed.
