(* ===== verification/SchemaCompat.v ===== *)
(** SchemaCompat: qa/schema_compatibility_check.py, the gate over the control
    schemas: the frozen schemas ([SchemaRules]), the incident codes and the fixture
    rows of the frontend pack ([FrontendPack]), the policy document and the Zig
    source ([SchemaDrift]), with the rehearsal that spoils copies of the trees.

    The arguments are what argparse reads. *)
From S2P Require Import Prelude PyStr PyRe PyFloat PyJson PyJsonText Sha256 PyFs PyMain Fields DaemonEvent FrontendSemantics FrontendPack SchemaDrift SchemaRules.

Local Open Scope string_scope.

Definition DOC_ONLY_CODES : list string := [
  "duplicate_action_id"; "duplicate_target_id"; "invalid_action_id"; "invalid_field"; "journal_limit_exceeded";
  "malformed_rpc"; "target_action_id_and_rollback_id_required"; "target_id_required"; "unknown_rpc_method"].
Definition POLICY_NEEDLES : list string :=
  ["JSON Schema draft"; "backward compatible"; "forward compatible"; "fully compatible"; "breaking change"; "v2 migration"].

Record Args : Set := MkArgs { protocol : path; schemas : path; docs : path; fixtures : path; self_test : bool }.
(** What [parse_args] answers for [--self-test]. *)
Definition self_test_args : Args :=
  MkArgs (Path "src/control/protocol.zig") (Path "schemas/control") (Path "docs/control") (Path "fixtures/frontend-contract") true.

Definition fail {A} (m : string) : result A := raise SchemaCompatibilityError m.

(** ** The contract *)
Section Contract.
Variable F : fs.

(** The reasons of the rows of a fixture. *)
Definition row_reasons (p : path) (rows : list jobject) : result (list string) :=
  let* reasons := map_m (fun row =>
    let found := get row "schema" in
    ensure (py_eq found (JStr EVENT_SCHEMA)) SchemaCompatibilityError
      (path_str p ++ " uses unsupported daemon-event schema version: " ++ py_str found) ;;;
    Ok (match get row "reason" with JStr reason => if String.eqb reason "" then [] else [reason] | _ => [] end)) rows in
  Ok (List.concat reasons).

Definition fixture_reasons (fixtures : path) : result (list string) :=
  let* reasons := map_m (fun p => let* rows := load_jsonl F p in row_reasons p rows) (sorted_glob F fixtures ".jsonl") in
  Ok (List.concat reasons).

Definition validate_docs_and_fixtures (docs fixtures : path) : result unit :=
  let* codes := load_codes F docs in
  let taxonomy_codes := List.filter (fun code => negb (contains "." code)) codes in
  let* reasons := fixture_reasons fixtures in
  let missing_fixtures := sorted (set_diff (set_diff taxonomy_codes DOC_ONLY_CODES) reasons) in
  ensure (match missing_fixtures with [] => true | _ => false end) SchemaCompatibilityError
    ("taxonomy code lacks frontend fixture coverage: " ++ join ", " missing_fixtures) ;;;
  let* policy := read_text F (div_path docs "schema-compatibility.md") in
  for_each POLICY_NEEDLES (fun needle =>
    ensure (contains (lower needle) (lower policy)) SchemaCompatibilityError
      ("schema compatibility doc missing policy text: " ++ needle)).

Definition validate_all_contracts (args : Args) : result unit :=
  validate_public_schemas F (schemas args) ;;;
  validate_docs_and_fixtures (docs args) (fixtures args) ;;;
  validate_all F (protocol args) (schemas args).
End Contract.

(** ** The rehearsal *)

(** [shutil.copytree(source, target)] for a [target] that does not exist: its files
    are those of [source]. *)
Definition copytree (F : fs) (source target : path) : result fs :=
  match fs_node F (path_str source) with
  | None => raise FileNotFoundError (path_str source)
  | Some (File _) => raise NotADirectoryError (path_str source)
  | Some (Dir _) =>
      Ok (MkFs (fun s =>
            let p := Path s in
            if String.eqb (p_root p) (p_root target) && is_prefix (p_parts target) (p_parts p)
            then fs_node F (path_str (MkPath (p_root source) (p_parts source ++ drop (List.length (p_parts target)) (p_parts p))))
            else fs_node F s)
          (fs_resolve F) (fs_symlink F))
  end.

(** Latin-1 text as UTF-8. *)
Fixpoint encode_utf8 (s : string) : string :=
  match s with
  | "" => ""
  | String c s =>
      let n := code c in
      if (n <? 128)%N then String c (encode_utf8 s)
      else String (ascii_of_N (192 + n / 64)) (String (ascii_of_N (128 + n mod 64)) (encode_utf8 s))
  end.

(** [path.write_text] on a file that was read before. *)
Definition write_text (F : fs) (p : path) (text : string) : fs :=
  MkFs (fun s => if path_eqb (Path s) p then Some (File (encode_utf8 text)) else fs_node F s) (fs_resolve F) (fs_symlink F).

Definition update_schema (F : fs) (p : path) (mutate : jobject -> result jobject) : result fs :=
  let* data := load_schema F p in
  let* data := mutate data in
  Ok (write_text F p (dumps_indent 0 (sort_keys (JDict data)) ++ chr 10)).

(** [data.pop(key, None)] *)
Definition pop_key (key : string) (d : jobject) : jobject := List.filter (fun kv => negb (String.eqb (fst kv) key)) d.
(** [values.remove(text)]: the first one. *)
Fixpoint list_remove (text : string) (l : list json) : result (list json) :=
  match l with
  | [] => raise ValueError "list.remove(x): x not in list"
  | v :: l => if py_eq v (JStr text) then Ok l else let* l := list_remove text l in Ok (v :: l)
  end.
(** The object with [f] done to the list under [key]; what [f] does happens in place. *)
Definition on_list (d : jobject) (key message : string) (f : list json -> result (list json)) : result jobject :=
  match get d key with
  | JList l => let* l := f l in Ok (dict_set key (JList l) d)
  | _ => fail message
  end.
Definition on_object (d : jobject) (key message : string) (f : jobject -> result jobject) : result jobject :=
  match get d key with
  | JDict o => let* o := f o in Ok (dict_set key (JDict o) d)
  | _ => fail message
  end.

Definition remove_draft (data : jobject) : result jobject := Ok (pop_key "$schema" data).
Definition set_unsupported_draft (data : jobject) : result jobject :=
  Ok (dict_set "$schema" (JStr "http://json-schema.org/draft-07/schema#") data).
Definition remove_id (data : jobject) : result jobject := Ok (pop_key "$id" data).
Definition add_required_seq (data : jobject) : result jobject :=
  on_list data "required" "self-test required list missing" (fun required => Ok (required ++ [JStr "seq"])%list).
Definition add_conditional_required (data : jobject) : result jobject :=
  on_list data "allOf" "self-test allOf list missing" (fun all_of => Ok (all_of ++ [JDict [
    ("if", JDict [("properties", JDict [("action", JDict [("const", JStr "preflight")])]); ("required", jstrs ["action"])]);
    ("then", JDict [("required", jstrs ["audit_id"])])]])%list).
Definition remove_incident_drill (data : jobject) : result jobject :=
  let missing := "self-test.properties.action missing" in
  on_object data "properties" missing (fun props => on_object props "action" missing (fun action =>
    on_list action "enum" "self-test action enum missing" (list_remove "incident_drill"))).
Definition remove_matrix_run_daemon_event_path (data : jobject) : result jobject :=
  on_list data "required" "self-test matrix-run required list missing" (list_remove "daemon_event_path").
Definition add_runner_pass_conditional_required_field (data : jobject) : result jobject :=
  on_list data "allOf" "self-test runner-substrate allOf list missing" (fun all_of =>
    match all_of with
    | [] => raise IndexError "list index out of range"
    | JDict pass_rule :: rest =>
        let* pass_rule :=
          on_object pass_rule "then" "self-test runner-substrate PASS then missing" (fun then_ =>
          on_object then_ "properties" "self-test runner-substrate PASS properties missing" (fun properties =>
          on_object properties "runner" "self-test runner-substrate PASS runner rule missing" (fun runner =>
          on_list runner "required" "self-test runner-substrate PASS runner required missing" (fun required =>
            Ok (required ++ [JStr "ephemeral_id"])%list)))) in
        Ok (JDict pass_rule :: rest)
    | _ => fail "self-test runner-substrate PASS rule missing"
    end).

(** What a mutation makes of the copies of the schemas, the documents and the
    fixtures. *)
Definition mutation : Type := fs -> path -> path -> path -> result fs.
Definition mutate_schema (file : string) (mutate : jobject -> result jobject) : mutation :=
  fun F schemas _ _ => update_schema F (div_path schemas file) mutate.
Definition mutate_missing_draft : mutation := mutate_schema "daemon-event.v1.schema.json" remove_draft.
Definition mutate_missing_non_public_draft : mutation := mutate_schema "lab-evidence.v1.schema.json" remove_draft.
Definition mutate_unsupported_draft : mutation := mutate_schema "operator-action.v1.schema.json" set_unsupported_draft.
Definition mutate_missing_id : mutation := mutate_schema "runtime-sample.v1.schema.json" remove_id.
Definition mutate_new_required : mutation := mutate_schema "daemon-event.v1.schema.json" add_required_seq.
Definition mutate_new_conditional_required : mutation := mutate_schema "operator-action.v1.schema.json" add_conditional_required.
Definition mutate_matrix_run_required_drift : mutation :=
  mutate_schema "matrix-run.v1.schema.json" remove_matrix_run_daemon_event_path.
Definition mutate_runner_pass_conditional_required_drift : mutation :=
  mutate_schema "runner-substrate-proof.v1.schema.json" add_runner_pass_conditional_required_field.
Definition mutate_zig_schema_enum_drift : mutation := mutate_schema "operator-action.v1.schema.json" remove_incident_drill.

Definition mutate_doc_only_incident : mutation := fun F _ docs _ =>
  let taxonomy := div_path docs "incident-taxonomy.md" in
  let* text := read_text F taxonomy in
  Ok (write_text F taxonomy
        (text ++ chr 10 ++ "| `new_incident_code` | incident | unsafe_to_assume | no_auto_retry | Self-test. |" ++ chr 10)).

(** [text.replace(old, new, 1)] *)
Definition replace_once (old new text : string) : string :=
  match find text old with
  | Some i => take_str i text ++ new ++ drop_str (i + len old) text
  | None => text
  end.
Definition mutate_v2_fixture : mutation := fun F _ _ fixtures =>
  let fixture := div_path fixtures "incident.jsonl" in
  let* text := read_text F fixture in
  Ok (write_text F fixture (replace_once EVENT_SCHEMA "zig-scheduler/daemon-event/v2" text)).

Definition MUTATIONS : list (string * mutation) := [
  ("missing draft", mutate_missing_draft);
  ("missing draft on non-public-rule control schema", mutate_missing_non_public_draft);
  ("unsupported draft", mutate_unsupported_draft);
  ("missing id", mutate_missing_id);
  ("new required v1 field", mutate_new_required);
  ("matrix-run required field drift", mutate_matrix_run_required_drift);
  ("new conditional required v1 field", mutate_new_conditional_required);
  ("runner PASS conditional required field drift", mutate_runner_pass_conditional_required_drift);
  ("incident code without fixture", mutate_doc_only_incident);
  ("v2 fixture row", mutate_v2_fixture);
  ("Zig/schema enum drift", mutate_zig_schema_enum_drift)].

Section Gate.
Variable F : fs.
(** [TemporaryDirectory]: the directory made for a prefix. *)
Variable temporary : string -> path.

(** The copies, spoiled, with the arguments that name them. *)
Definition spoiled (label : string) (args : Args) (mutate : mutation) : result (fs * Args) :=
  let safe_label := map_str (fun ch => if is_alnum ch then ch else "-"%char) label in
  let root := temporary ("zigsched-schema-compat-" ++ safe_label ++ "-") in
  let schemas' := div_path root "schemas" in
  let docs' := div_path root "docs" in
  let fixtures' := div_path root "fixtures" in
  let* F1 := copytree F (schemas args) schemas' in
  let* F2 := copytree F1 (docs args) docs' in
  let* F3 := copytree F2 (fixtures args) fixtures' in
  let* F4 := mutate F3 schemas' docs' fixtures' in
  Ok (F4, MkArgs (protocol args) schemas' docs' fixtures' false).

Definition rejection (c : exn_class) : bool := is_class SchemaCompatibilityError c || is_class SchemaDriftError c.

Definition expect_rejection (args : Args) (label : string) (mutate : mutation) : result (list string) :=
  let* (F', args') := spoiled label args mutate in
  match validate_all_contracts F' args' with
  | Ok _ => fail ("self-test failed to reject " ++ label)
  | Err exc =>
      if rejection (exn_cls exc) then Ok ["PASS schema compatibility self-test rejected " ++ label ++ ": " ++ exn_str exc]
      else Err exc
  end.

Definition run_self_test (args : Args) : printed :=
  fold_right and_then (silent (Ok tt))
    (silent (validate_all_contracts F args)
     :: map (fun lm => printing (expect_rejection args (fst lm) (snd lm))) MUTATIONS).

Definition main (args : Args) : exit :=
  end_main (fun c => is_OSError c || is_class JSONDecodeError c || rejection c) "FAIL schema compatibility check"
    (and_then (if self_test args then run_self_test args else silent (validate_all_contracts F args))
       (["PASS schema compatibility check: protocol=" ++ path_str (protocol args) ++ " schemas=" ++ path_str (schemas args)
         ++ " docs=" ++ path_str (docs args) ++ " fixtures=" ++ path_str (fixtures args)], Ok tt)).
End Gate.

(** * Specification *)

(** The rows of the fixtures, all of this version of the daemon event. *)
Definition fixture_rows (F : fs) (fixtures : path) (rows : list (list jobject)) : Prop :=
  Forall2 (fun p rows => load_jsonl F p = Ok rows /\ Forall (fun row => get row "schema" = JStr EVENT_SCHEMA) rows)
    (sorted_glob F fixtures ".jsonl") rows.

(** Every plain code of the taxonomy is documentation only or the reason of a row. *)
Definition codes_covered (F : fs) (docs fixtures : path) : Prop :=
  exists codes rows, load_codes F docs = Ok codes /\ fixture_rows F fixtures rows
    /\ forall code, In code codes -> ~ (exists a b, code = a ++ "." ++ b) -> ~ In code DOC_ONLY_CODES ->
         code <> "" /\ exists fixture row, In fixture rows /\ In row fixture /\ get row "reason" = JStr code.

Record contract_ok (F : fs) (args : Args) : Prop := {
  co_schemas : schemas_ok F (schemas args);
  co_codes : codes_covered F (docs args) (fixtures args);
  co_policy : has_doc F (div_path (docs args) "schema-compatibility.md") POLICY_NEEDLES;
  co_drift : no_drift F (protocol args) (schemas args);
}.

(** The spoiled copies are refused, by one of the two classes of the gate. *)
Definition refuses (F : fs) (temporary : string -> path) (args : Args) (label : string) (mutate : mutation) : Prop :=
  exists F' args' exc, spoiled F temporary label args mutate = Ok (F', args')
    /\ validate_all_contracts F' args' = Err exc
    /\ (exn_cls exc = SchemaCompatibilityError \/ exn_cls exc = SchemaDriftError).

(** ** Lemmas *)
Lemma row_reasons_ok p rows reasons : row_reasons p rows = Ok reasons ->
  Forall (fun row => get row "schema" = JStr EVENT_SCHEMA) rows
  /\ forall code, In code reasons <-> code <> "" /\ exists row, In row rows /\ get row "reason" = JStr code.
Proof.
  unfold row_reasons. intros (parts & H%map_m_ok & [= <-])%bind_ok. induction H as [|row part rows parts H _ [IHs IHr]].
  - split; [constructor|]. split; [done | by intros (_ & ? & [] & _)].
  - apply bind_ok_unit in H as [Hs%ensure_ok%py_eq_str [= <-]]. split; [by constructor|]. intros code. cbn [List.concat].
    rewrite in_app_iff, IHr. clear IHr. split.
    + intros [Hin|(Hne & r & Hr & Hc)]; [|split; [done | exists r; split; [by right | done]]].
      destruct (get row "reason") as [| | | |s| |] eqn:E; try done. destruct (String.eqb_spec s ""); [done|].
      destruct Hin as [->|[]]. split; [done|]. exists row. split; [by left | done].
    + intros (Hne & r & [->|Hr] & Hc); [|right; split; [done | by exists r]]. left. rewrite Hc.
      rewrite (proj2 (String.eqb_neq code "") Hne). by left.
Qed.
Lemma map_m_total {A B} (f : A -> result B) xs : Forall (fun x => exists y, f x = Ok y) xs -> exists ys, map_m f xs = Ok ys.
Proof. induction 1 as [|x xs (y & Hy) _ (ys & IH)]; [by eexists|]. cbn [map_m]. rewrite Hy. cbn [bind]. rewrite IH. by eexists. Qed.
Lemma mapped_total {A B C} (f : A -> result B) (g : list B -> C) xs : Forall (fun x => exists y, f x = Ok y) xs ->
  exists z, (let* ys := map_m f xs in Ok (g ys)) = Ok z.
Proof. intros (ys & Hy)%map_m_total. rewrite Hy. by eexists. Qed.
Lemma row_reasons_total p rows : Forall (fun row => get row "schema" = JStr EVENT_SCHEMA) rows -> exists reasons, row_reasons p rows = Ok reasons.
Proof.
  intros H. unfold row_reasons. apply mapped_total. eapply Forall_impl; [exact H|]. intros row Hs. cbv zeta. rewrite (proj2 (py_eq_str _ _) Hs). by eexists.
Qed.

Lemma fixture_reasons_ok F fixtures reasons : fixture_reasons F fixtures = Ok reasons ->
  exists rows, fixture_rows F fixtures rows
    /\ forall code, In code reasons <-> code <> "" /\ exists fixture row, In fixture rows /\ In row fixture /\ get row "reason" = JStr code.
Proof.
  unfold fixture_reasons, fixture_rows. intros (parts & H%map_m_ok & [= <-])%bind_ok. induction H as [|p part ps parts H _ (rows & Hrows & IH)].
  - exists []. split; [constructor|]. split; [done | by intros (_ & ? & ? & [] & _)].
  - apply bind_ok in H as (here & Hl & [Hs Hr]%row_reasons_ok). exists (here :: rows). split; [by constructor|]. intros code. cbn [List.concat].
    rewrite in_app_iff, IH, Hr. split.
    + intros [(Hne & r & Hin & Hc)|(Hne & f & r & Hf & Hin & Hc)]; (split; [done|]); [exists here, r | exists f, r]; (split; [by (left + right) | done]).
    + intros (Hne & f & r & [<-|Hf] & Hin & Hc); [left | right]; (split; [done|]); [by exists r | by exists f, r].
Qed.
Lemma fixture_rows_unique F fixtures rows rows' : fixture_rows F fixtures rows -> fixture_rows F fixtures rows' -> rows' = rows.
Proof.
  unfold fixture_rows. intros H. revert rows'. induction H as [|p here ps rows [Hl _] _ IH]; intros rows'; inversion 1 as [|? here' ? ? [Hl' _]]; subst; [done|].
  f_equal; [congruence | by apply IH].
Qed.
Lemma fixture_reasons_total F fixtures rows : fixture_rows F fixtures rows -> exists reasons, fixture_reasons F fixtures = Ok reasons.
Proof.
  unfold fixture_rows, fixture_reasons. intros H. apply mapped_total. induction H as [|p here ps rows [Hl Hs] _ IH]; constructor; [|done]. rewrite Hl. by apply row_reasons_total.
Qed.

Lemma docs_accepted F docs fixtures : validate_docs_and_fixtures F docs fixtures = Ok tt <->
  codes_covered F docs fixtures /\ has_doc F (div_path docs "schema-compatibility.md") POLICY_NEEDLES.
Proof.
  unfold validate_docs_and_fixtures, codes_covered, has_doc.
  assert (Hmiss : forall codes reasons, match sorted (set_diff (set_diff (List.filter (fun code => negb (contains "." code)) codes) DOC_ONLY_CODES) reasons) with
      | [] => true | _ => false end = true <->
    forall code, In code codes -> ~ (exists a b, code = a ++ "." ++ b) -> ~ In code DOC_ONLY_CODES -> In code reasons).
  { intros codes reasons.
    assert (Hd : forall x xs ys, In x (set_diff xs ys) <-> In x xs /\ ~ In x ys).
    { intros x xs ys. unfold set_diff. rewrite filter_In, dedup_in, negb_true_iff, <- (mem_In x ys). destruct (mem x ys); naive_solver. }
    pose proof (no_extra (set_diff (List.filter (fun code => negb (contains "." code)) codes) DOC_ONLY_CODES) reasons) as Hn.
    setoid_rewrite Hd in Hn. setoid_rewrite filter_In in Hn. setoid_rewrite negb_true_iff in Hn. setoid_rewrite contains_false in Hn.
    destruct (sorted _) as [|s l]; split; [intros _ code H1 H2 H3; by apply Hn | done | done | intros H]. exfalso.
    assert (Hx : s :: l = []) by (apply Hn; intros x [[H1 H2] H3]; by apply H). done. }
  assert (Hdoc : forall policy, for_each POLICY_NEEDLES (fun needle => ensure (contains (lower needle) (lower policy)) SchemaCompatibilityError
      ("schema compatibility doc missing policy text: " ++ needle)) = Ok tt <->
    forall needle, In needle POLICY_NEEDLES -> exists a b, lower policy = a ++ lower needle ++ b).
  { intros policy. rewrite for_each_ok, Forall_forall. setoid_rewrite list_elem_of_In. setoid_rewrite ensure_ok. by setoid_rewrite contains_iff. }
  split.
  - intros (codes & Hc & (reasons & Hr & [Hm%ensure_ok (policy & Hp & Hd)%bind_ok]%bind_ok_unit)%bind_ok)%bind_ok.
    rewrite Hmiss in Hm. destruct (fixture_reasons_ok _ _ _ Hr) as (rows & Hrows & Hin). split; [|exists policy; split; [done | by apply Hdoc]].
    exists codes, rows. split_and!; [done..|]. intros code H1 H2 H3. by apply Hin, Hm.
  - intros [(codes & rows & Hc & Hrows & Hcov) (policy & Hp & Hd)]. destruct (fixture_reasons_total _ _ _ Hrows) as (reasons & Hr).
    destruct (fixture_reasons_ok _ _ _ Hr) as (rows' & Hrows' & Hin).
    assert (rows' = rows) as -> by (eapply fixture_rows_unique; done).
    rewrite Hc. cbn [bind]. rewrite Hr. cbn [bind]. cbv zeta. apply bind_ok_unit. split; [|rewrite Hp; cbn [bind]; by apply Hdoc].
    apply ensure_ok, Hmiss. intros code H1 H2 H3. by apply Hin, Hcov.
Qed.

Lemma contract_accepted F args : validate_all_contracts F args = Ok tt <-> contract_ok F args.
Proof.
  unfold validate_all_contracts. rewrite !bind_ok_unit, schemas_accepted, docs_accepted, no_drift_accepted. split.
  - intros (Hs & [Hc Hp] & Hd). by split.
  - intros [Hs Hc Hp Hd]. done.
Qed.

Lemma rejection_iff c : rejection c = true <-> c = SchemaCompatibilityError \/ c = SchemaDriftError.
Proof. unfold rejection, is_class. rewrite orb_true_iff, !bool_decide_eq_true. done. Qed.
Lemma expect_rejection_ok F temporary args label mutate :
  (exists out, expect_rejection F temporary args label mutate = Ok out) <-> refuses F temporary args label mutate.
Proof.
  unfold expect_rejection, refuses. split.
  - intros (out & ([F' args'] & Hs & H)%bind_ok). destruct (validate_all_contracts F' args') as [?|exc] eqn:E; [done|].
    destruct (rejection (exn_cls exc)) eqn:Er; [|done]. apply rejection_iff in Er. by exists F', args', exc.
  - intros (F' & args' & exc & Hs & E & Hc%rejection_iff). rewrite Hs. cbn [bind]. rewrite E, Hc. by eexists.
Qed.
Lemma rehearsal_ok F temporary args : snd (run_self_test F temporary args) = Ok tt <->
  contract_ok F args /\ Forall (fun lm => refuses F temporary args (fst lm) (snd lm)) MUTATIONS.
Proof.
  unfold run_self_test. cbn [fold_right]. rewrite and_then_ok. cbn [silent snd]. rewrite contract_accepted.
  apply and_iff_compat_l. generalize MUTATIONS. intros l. induction l as [|lm l IH]; cbn [map fold_right].
  - split; [constructor | done].
  - rewrite and_then_ok, IH, Forall_cons, <- expect_rejection_ok. apply and_iff_compat_r.
    unfold printing, reading, silent. destruct (expect_rejection _ _ _ _ _) as [out|e]; cbn [snd]; split; try done; [by exists out | by intros (? & [=])].
Qed.

(** ** A repository that is accepted

    The schemas are planted from the rules: a value at the end of a path, with the
    objects and lists on the way. *)
Fixpoint plant (p : list string) (leaf v : json) : json :=
  match p with
  | [] => leaf
  | key :: p =>
      match v with
      | JDict d => JDict (dict_set key (plant p leaf (get d key)) d)
      | JList l =>
          JList (match key, l with
                 | "0", x :: l => plant p leaf x :: l
                 | "1", x :: y :: l => x :: plant p leaf y :: l
                 | "1", [x] => [x; plant p leaf JNull]
                 | _, _ => l
                 end)
      | _ => match key with
             | "0" => JList [plant p leaf JNull]
             | "1" => JList [JDict []; plant p leaf JNull]
             | _ => JDict [(key, plant p leaf JNull)]
             end
      end
  end.
Definition plants (file : string) (rules : list (string * list string * json)) (v : json) : json :=
  fold_left (fun v rule => let '(name, p, leaf) := rule in if String.eqb name file then plant p leaf v else v) rules v.

Definition const_at (file name : string) (v : json) : string * list string * json := (file, ["properties"; name; "const"], v).
Definition drift_rules : list (string * list string * json) :=
  (map (fun f => (OPERATOR_FILE, ["properties"; f; "type"], JStr "string")) ACTION_FIELDS
   ++ map (fun f => (RUNTIME_FILE, ["properties"; f; "type"], JStr "string")) RUNTIME_REQUIRED
   ++ map (fun f => (ROLLBACK_FILE, ["properties"; f; "type"], JStr "string")) ["rollback_id"; "result"; "idempotent"]
   ++ [(OPERATOR_FILE, ["forbiddenProperties"], jstrs FORBIDDEN_ACTION_FIELDS);
       (OPERATOR_FILE, ["allOf"; "0"; "if"; "properties"; "action"; "const"], JStr "run_lab_microvm_live");
       (OPERATOR_FILE, ["allOf"; "1"; "if"; "properties"; "action"; "const"], JStr "partial_attach");
       (RUNTIME_FILE, ["forbiddenProperties"], jstrs RUNTIME_FORBIDDEN);
       (DAEMON_FILE, ["properties"; "status"; "type"], JStr "string"); const_at DAEMON_FILE "host_mutation" (JBool false);
       const_at RUNTIME_FILE "private_command_lines_sampled" (JBool false);
       const_at LAB_FILE "schema" (JStr "zig-scheduler/lab-evidence/v1"); const_at LAB_FILE "vm_marker_path" (JStr VM_MARKER);
       const_at LAB_FILE "host_mutation" (JBool false); const_at LAB_FILE "release_eligible" (JBool false);
       const_at ROLLBACK_FILE "schema" (JStr "zig-scheduler/rollback-result/v1"); const_at ROLLBACK_FILE "result" (JStr "PASS");
       const_at ROLLBACK_FILE "idempotent" (JBool true); const_at ROLLBACK_FILE "host_mutation" (JBool false)])%list.
Definition demo_schema (file : string) : json :=
  plants file drift_rules
    (plants file (map (fun rule : EnumRule => let '(name, p, l) := rule in (name, (p ++ ["enum"])%list, jstrs l)) ENUM_RULES)
    (plants file (map (fun rule : PublicSchemaRule => let '(name, schema, _) := rule in const_at name "schema" (JStr schema)) PUBLIC_SCHEMA_RULES)
    (plants file (map (fun rule : RequiredRule => let '(name, p, l) := rule in (name, p, jstrs l)) FROZEN_REQUIRED_RULES)
      (JDict [("$schema", JStr DRAFT_2020_12); ("$id", JStr file)])))).
Definition demo_files : list string := dedup (map (fun rule : RequiredRule => fst (fst rule)) FROZEN_REQUIRED_RULES).
Definition enum_of (file : string) (p : list string) : list string :=
  List.concat (map (fun rule : EnumRule => let '(name, q, l) := rule in if String.eqb name file && strs_eqb q p then l else []) ENUM_RULES).
Definition zig_enum (name : string) (l : list string) : string :=
  "pub const " ++ name ++ " = enum {" ++ chr 10 ++ String.concat "" (map (fun a => "    " ++ a ++ "," ++ chr 10) l) ++ "};" ++ chr 10.
Definition demo_zig_source : string :=
  "pub const schema = " ++ quoted "zig-scheduler/operator-action/v1" ++ ";" ++ chr 10
  ++ "pub const event_schema = " ++ quoted EVENT_SCHEMA ++ ";" ++ chr 10
  ++ zig_enum "ActionKind" (enum_of OPERATOR_FILE ["properties"; "action"])
  ++ zig_enum "EventKind" (enum_of DAEMON_FILE ["properties"; "event"]).
Definition schema_entry (schema_bytes : string -> string) (file : string) : string * node :=
  ("schemas/" ++ file, File (schema_bytes file)).
Definition code_line (code : string) : string := "| `" ++ code ++ "` |" ++ chr 10.
Definition demo_repository (schema_bytes : string -> string) (codes : list string) : fs :=
  fs_of "/repo" (app (map (schema_entry schema_bytes) demo_files)
    [("schemas", Dir demo_files); ("docs", Dir []); ("fixtures", Dir ["incident.jsonl"]);
     ("docs/incident-taxonomy.md", File (String.concat "" (map code_line codes)));
     ("docs/schema-compatibility.md", File (String.concat ", " POLICY_NEEDLES));
     ("fixtures/incident.jsonl", File (dumps (JDict [("schema", JStr EVENT_SCHEMA); ("reason", JStr "lost_worker")])));
     ("src/control/stream.zig", File ("const sample_schema = " ++ quoted "zig-scheduler/runtime-sample/v1" ++ ";"));
     ("p.zig", File demo_zig_source)]).
Definition demo_args (rehearse : bool) : Args := MkArgs (Path "p.zig") (Path "schemas") (Path "docs") (Path "fixtures") rehearse.
Definition demo_main (F : fs) (rehearse : bool) : exit := main F (fun prefix => Path ("/tmp/" ++ prefix)) (demo_args rehearse).
Definition schema_text (file : string) : string := dumps (demo_schema file).

Example demo_repository_accepted :
  demo_main (demo_repository schema_text ["lost_worker"; "unknown_rpc_method"; "seen.in_source"]) false
  = Exited 0 ["PASS schema compatibility check: protocol=p.zig schemas=schemas docs=docs fixtures=fixtures"] []
  /\ demo_main (demo_repository schema_text ["lost_worker"; "unseen"]) false
     = Exited 1 [] ["FAIL schema compatibility check: taxonomy code lacks frontend fixture coverage: unseen"].
Proof. split; vm_compute; reflexivity. Qed.
Example demo_rehearsal_passes :
  match demo_main (demo_repository schema_text ["lost_worker"; "unknown_rpc_method"]) true with
  | Exited 0 out [] => List.length out = S (List.length MUTATIONS)
  | _ => False
  end.
Proof. vm_compute. reflexivity. Qed.

(** ** Properties *)

(** C33: the gate exits 0 exactly when the schema files are the frozen ones (draft,
    identifier, the required fields at every place and at no other, schema names and
    enumerations), every plain incident code is documentation only or the reason of a
    fixture row of the supported version, the policy document says what it must, and
    the schemas agree with the Zig source; and, for [--self-test], when in addition
    each of the eleven spoiled copies is refused by an exception of the gate. *)
Theorem schema_compatibility_iff F temporary args :
  exits_well (main F temporary args) <->
  contract_ok F args
  /\ (self_test args = true -> Forall (fun lm => refuses F temporary args (fst lm) (snd lm)) MUTATIONS).
Proof.
  unfold main. rewrite end_main_ok, and_then_ok. cbn [snd]. destruct (self_test args).
  - rewrite rehearsal_ok. tauto.
  - cbn [silent snd]. rewrite contract_accepted. intuition discriminate.
Qed.

(** C35: a schema file whose text is not an object is not reported: the
    exception of the shared JSON reader is none of those [main] catches, so
    the process ends with a traceback. *)
Theorem unreadable_schema_escapes F temporary args before p after text exc :
  self_test args = false -> sorted_glob F (schemas args) ".schema.json" = (before ++ p :: after)%list ->
  (forall q, In q before -> exists d, holds_schema F q d) ->
  read_text F p = Ok text -> parse_json_object text (path_str p) = Err exc -> exn_cls exc = ContractPackError ->
  main F temporary args = Uncaught exc.
Proof.
  intros Hs Hg Hb Ht Hp Hc.
  assert (Hload : load_schema F p = Err exc).
  { unfold load_schema, reraise, catch. rewrite Ht. cbn [bind]. rewrite Hp. case_decide; [congruence | done]. }
  assert (Hmap : map_m (fun p => let* schema := load_schema F p in Ok (name p, schema)) (before ++ p :: after) = Err exc).
  { clear Hg. induction before as [|q before IH]; cbn [map_m app]; [by rewrite Hload|].
    destruct (Hb q ltac:(by left)) as (d & Hd%schema_loaded). rewrite Hd. cbn [bind]. rewrite IH; [done|]. intros r Hr. apply Hb. by right. }
  unfold main. rewrite Hs. unfold validate_all_contracts, validate_public_schemas. rewrite Hg, Hmap. cbn [bind silent and_then end_main].
  by rewrite Hc.
Qed.
Definition broken_text (file : string) : string := if String.eqb file DAEMON_FILE then "{" else schema_text file.
Lemma unreadable_schema_escapes_witness :
  let F := demo_repository broken_text ["lost_worker"] in
  exists exc, exn_cls exc = ContractPackError /\ demo_main F false = Uncaught exc.
Proof.
  cbv zeta. eexists (Exn ContractPackError _ _). split; [reflexivity|].
  eapply (unreadable_schema_escapes _ _ _ [Path "schemas/benchmark-output.v1.schema.json"] (Path "schemas/daemon-event.v1.schema.json")).
  - reflexivity.
  - vm_compute. reflexivity.
  - intros q [<-|[]]. eexists. apply schema_loaded. vm_compute. reflexivity.
  - vm_compute. reflexivity.
  - vm_compute. reflexivity.
  - reflexivity.
Defined.
