(* ===== verification/BpfAbiParse.v ===== *)
(** BpfAbiParse: qa/bpf_abi_cgroup_model.py, qa/bpf_abi_model.py and
    qa/bpf_abi_parse.py: the frozen ABI of the BPF policy, and how its facts are
    read from the header and from the C source with regular expressions. *)
From S2P Require Import Prelude PyStr PyRe PyFloat PyJson Sha256 PyFs Fields.

Local Open Scope string_scope.

Record SourceMapLayout : Set := MkLayout {
  layout_name : string; map_type : string; max_entries : string; key_type : string; value_type : string }.

Definition EXPECTED_CGROUP_POLICY_FIELDS : list string :=
  ["zigsched_u64 last_weight"; "zigsched_u64 weight_generation";
  "zigsched_u64 move_generation"; "zigsched_u64 callback_observed_knobs"; "zigsched_u64 observed_knobs";
  "zigsched_u64 deferred_knobs"].
Definition ABI_V3_ACCEPTED_CALLBACKS : list string :=
  ["select_cpu"; "init"; "cgroup_init"; "cgroup_exit";
  "cgroup_prep_move"; "cgroup_move"; "cgroup_cancel_move"; "cgroup_set_weight"; "enqueue"; "dispatch"].
Definition CGROUP_KNOB_SEMANTICS : list (string * string) :=
  [("cpu.weight", "callback-observed"); ("cpu.max", "deferred");
  ("cpuset.cpus", "observed-only"); ("cpuset.cpus.effective", "observed-only"); ("cpu.pressure", "observed-only");
  ("uclamp", "deferred")].
Definition EXPECTED_CGROUP_EVIDENCE : jobject :=
  [("policy_map", JStr "zigsched_cgroup_policy");
  ("policy_map_max_entries", JInt 1); ("callback_stats", jstrs ["cgroup_init_calls"; "cgroup_exit_calls";
  "cgroup_move_calls"; "cgroup_set_weight_calls"; "cgroup_weight_observed"]); ("cpu_weight", JStr "callback-observed");
  ("cpu_max", JStr "deferred"); ("uclamp", JStr "deferred"); ("dsq_counter_coherence", JStr "required")].
Definition ABI_V3_PROGRAM_SECTIONS : list string :=
  ["struct_ops/zigsched_minimal_select_cpu";
  "struct_ops.s/zigsched_minimal_init"; "struct_ops/zigsched_minimal_cgroup_init"; "struct_ops/zigsched_minimal_cgroup_exit";
  "struct_ops/zigsched_minimal_cgroup_prep_move"; "struct_ops/zigsched_minimal_cgroup_move";
  "struct_ops/zigsched_minimal_cgroup_cancel_move"; "struct_ops/zigsched_minimal_cgroup_set_weight";
  "struct_ops/zigsched_minimal_enqueue"; "struct_ops/zigsched_minimal_dispatch"].
Definition ABI_V3_STRUCT_OPS_USED_FIELDS : list string :=
  ["name"; "flags"; "select_cpu"; "init"; "cgroup_init";
  "cgroup_exit"; "cgroup_prep_move"; "cgroup_move"; "cgroup_cancel_move"; "cgroup_set_weight"; "enqueue"; "dispatch"].
Definition VM_MARKER : string := "/run/zig-scheduler-vm-lab.marker".
Definition VM_CONTRACT : string := "qa/vm/execution_contract.json".
Definition POLICY_NAME : string := "zigsched_minimal".
Definition POLICY_SYMBOL : string := "zigsched_minimal_ops".
Definition PARTIAL_SWITCH : string := "SCX_OPS_SWITCH_PARTIAL".
Definition ABI_VERSION : Z := 3.
Definition STATS_COUNT : Z := 13.
Definition EVENTS_COUNT : Z := 6.
Definition EXPECTED_DEFINES : list (string * string) :=
  [("ZIGSCHED_ABI_VERSION", "3u");
  ("ZIGSCHED_MINIMAL_NR_STATS", "13u"); ("ZIGSCHED_MINIMAL_NR_EVENTS", "6u"); ("ZIGSCHED_DSQ_FIFO", "0x5a195f1f0ULL");
  ("ZIGSCHED_DSQ_VTIME", "0x5a195f1f1ULL"); ("ZIGSCHED_STARVATION_NS_MAX", "50000000ULL");
  ("ZIGSCHED_POLICY_MODE_FIFO", "1ULL"); ("ZIGSCHED_POLICY_MODE_VTIME", "2ULL");
  ("ZIGSCHED_CGROUP_KNOB_WEIGHT_OBSERVED", "1ULL"); ("ZIGSCHED_CGROUP_KNOB_CPU_MAX_DEFERRED", "2ULL");
  ("ZIGSCHED_CGROUP_KNOB_CPUSET_OBSERVED", "4ULL"); ("ZIGSCHED_CGROUP_KNOB_PRESSURE_OBSERVED", "8ULL");
  ("ZIGSCHED_CGROUP_KNOB_UCLAMP_DEFERRED", "16ULL"); ("SCX_OPS_SWITCH_PARTIAL", "8ULL")].
Definition EXPECTED_STATS : list string :=
  ["ZIGSCHED_STAT_SELECT_CPU_CALLS"; "ZIGSCHED_STAT_ENQUEUE_CALLS";
  "ZIGSCHED_STAT_DISPATCH_CALLS"; "ZIGSCHED_STAT_LOCAL_DIRECT_INSERTS"; "ZIGSCHED_STAT_FIFO_INSERTS";
  "ZIGSCHED_STAT_VTIME_INSERTS"; "ZIGSCHED_STAT_FIFO_DISPATCHES"; "ZIGSCHED_STAT_VTIME_DISPATCHES";
  "ZIGSCHED_STAT_CGROUP_INIT_CALLS"; "ZIGSCHED_STAT_CGROUP_EXIT_CALLS"; "ZIGSCHED_STAT_CGROUP_MOVE_CALLS";
  "ZIGSCHED_STAT_CGROUP_SET_WEIGHT_CALLS"; "ZIGSCHED_STAT_CGROUP_WEIGHT_OBSERVED"].
Definition EXPECTED_STATS_FIELDS : list string :=
  ["zigsched_u64 select_cpu_calls"; "zigsched_u64 enqueue_calls";
  "zigsched_u64 dispatch_calls"; "zigsched_u64 local_direct_inserts"; "zigsched_u64 fifo_inserts";
  "zigsched_u64 vtime_inserts"; "zigsched_u64 fifo_dispatches"; "zigsched_u64 vtime_dispatches";
  "zigsched_u64 cgroup_init_calls"; "zigsched_u64 cgroup_exit_calls"; "zigsched_u64 cgroup_move_calls";
  "zigsched_u64 cgroup_set_weight_calls"; "zigsched_u64 cgroup_weight_observed"].
Definition EXPECTED_EVENTS : list string :=
  ["ZIGSCHED_EVENT_SELECT_CPU_FALLBACK"; "ZIGSCHED_EVENT_DISPATCH_EMPTY";
  "ZIGSCHED_EVENT_INIT_FIFO_DSQ_FAILED"; "ZIGSCHED_EVENT_INIT_VTIME_DSQ_FAILED"; "ZIGSCHED_EVENT_CGROUP_MOVE_OBSERVED";
  "ZIGSCHED_EVENT_CGROUP_WEIGHT_OBSERVED"].
Definition EXPECTED_POLICY_CONFIG_FIELDS : list string :=
  ["zigsched_u64 fifo_dsq"; "zigsched_u64 vtime_dsq";
  "zigsched_u64 starvation_ns_max"; "zigsched_u64 mode"; "zigsched_u64 cgroup_knob_support"].
Definition REQUIRED_HEADER_TEXT : list string :=
  ["#define ZIGSCHED_ABI_VERSION 3u"; "ZIGSCHED_DSQ_FIFO";
  "ZIGSCHED_DSQ_VTIME"; "ZIGSCHED_STARVATION_NS_MAX"; "ZIGSCHED_CGROUP_KNOB_WEIGHT_OBSERVED"; "enum zigsched_stat_index";
  "enum zigsched_event_index"; "struct zigsched_policy_config"; "struct zigsched_cgroup_policy"; "struct sched_ext_ops";
  "SCX_OPS_SWITCH_PARTIAL"].
Definition REQUIRED_ADR_TEXT : list string :=
  ["Policy expansion is blocked"; "v1 compatibility contract";
  "v2 compatibility contract"; "v3 compatibility contract"; "cpu.weight"; "docs/releases/supported-kernel-tuples.md";
  "zigsched_minimal_ops"; "SCX_OPS_SWITCH_PARTIAL"; "SCX_OPS_SWITCH_ALL"; "host_attach_allowed=false"; "SKIP mode";
  "not a production-readiness claim"].
Definition PROGRAM_SECTIONS : list string :=
  ["struct_ops.s/zigsched_minimal_init"; "struct_ops/zigsched_minimal_enqueue";
  "struct_ops/zigsched_minimal_dispatch"].
Definition ABI_V2_PROGRAM_SECTIONS : list string :=
  ["struct_ops/zigsched_minimal_select_cpu";
  "struct_ops.s/zigsched_minimal_init"; "struct_ops/zigsched_minimal_enqueue"; "struct_ops/zigsched_minimal_dispatch"].
Definition ABI_V2_STRUCT_OPS_USED_FIELDS : list string :=
  ["name"; "flags"; "select_cpu"; "init"; "enqueue"; "dispatch"].
Definition EXPECTED_MAP_LAYOUTS : list SourceMapLayout :=
  [MkLayout "zigsched_stats" "BPF_MAP_TYPE_ARRAY" "ZIGSCHED_MINIMAL_NR_STATS" "u32" "u64";
  MkLayout "zigsched_events" "BPF_MAP_TYPE_ARRAY" "ZIGSCHED_MINIMAL_NR_EVENTS" "u32" "u64";
  MkLayout "zigsched_policy_config" "BPF_MAP_TYPE_ARRAY" "1" "u32" "struct zigsched_policy_config";
  MkLayout "zigsched_cgroup_policy" "BPF_MAP_TYPE_ARRAY" "1" "u32" "struct zigsched_cgroup_policy"].

Record AbiSnapshot : Set := MkSnapshot {
  header_sha256 : string; defines : list (string * string); stats : list string; events : list string;
  stats_fields : list string; policy_config_fields : list string; cgroup_policy_fields : list string }.
Record SourceAbi : Set := MkSource {
  source_sha256 : string; map_layouts : list SourceMapLayout; program_sections : list string;
  struct_ops_used_fields : list string; struct_ops_callbacks : list string }.

#[export] Instance SourceMapLayout_eq_dec : EqDecision SourceMapLayout.
Proof. solve_decision. Defined.

Definition fail {A} (m : string) : result A := raise BpfAbiError m.
Definition require (condition : bool) (message : string) : result unit := ensure condition BpfAbiError message.

(** ** Fields of the metadata *)
Definition obj (value : json) (context : string) : result jobject :=
  match value with JDict d => Ok d | _ => fail (context ++ " must be an object") end.
Definition str_list (value : json) (context : string) : result (list string) :=
  match value with
  | JList l => map_m (fun item => match item with JStr s => Ok s | _ => fail (context ++ " contains a non-string") end) l
  | _ => fail (context ++ " must be a list")
  end.
Definition require_string (value : json) (context : string) : result string :=
  match value with
  | JStr s => if String.eqb s "" then fail (context ++ " must be a non-empty string") else Ok s
  | _ => fail (context ++ " must be a non-empty string")
  end.
Definition require_int (value : json) (expected : Z) (context : string) : result unit :=
  require (py_eq value (JInt expected))
    (context ++ " changed without ABI acceptance: expected " ++ str_Z expected ++ ", got " ++ py_str value).

(** [repr] of a tuple of texts *)
Definition tuple_of (reprs : list string) : string :=
  match reprs with [x] => "(" ++ x ++ ",)" | _ => "(" ++ join ", " reprs ++ ")" end.
Definition tuple_repr (l : list string) : string := tuple_of (map repr_str l).
Definition require_string_list (value : json) (expected : list string) (context : string) : result unit :=
  let* got := str_list value context in
  require (strs_eqb got expected)
    (context ++ " changed without ABI acceptance: expected " ++ tuple_repr expected ++ ", got " ++ tuple_repr got).

(** ** Patterns *)
Definition line_start : regex := RAlt RBol (RBehind (fun c => (code c =? 10)%N)).
Definition spaces : regex := rstar rspace.
Definition spaces1 : regex := rplus rspace.
Definition any_text : regex := RChar (fun _ => true).
Definition upper_name_char (c : ascii) : bool := is_upper c || is_digit c || Ascii.eqb c "_".
Definition name_first (c : ascii) : bool := is_upper c || is_lower c || Ascii.eqb c "_".
Definition name_char (c : ascii) : bool := name_first c || is_digit c.
Definition zigsched_name : regex := RSeq (rlit "ZIGSCHED_") (rplus (RChar upper_name_char)).
Definition c_name : regex := RSeq (RChar name_first) (rstar (RChar name_char)).

Definition DEFINE_RE : regex := rseq [
  line_start; rlit "#define"; spaces1; RCap "1" (RAlt zigsched_name (rlit "SCX_OPS_SWITCH_PARTIAL")); spaces1;
  RCap "2" (rplus (RChar (fun c => negb (is_space c || Ascii.eqb c "/"))))].
(** A block [keyword name { body };] *)
Definition block_opening (keyword name : string) : regex := rseq [rlit keyword; spaces1; rlit name; spaces; rlit "{"].
Definition block_pattern (keyword name : string) : regex := shortest_pattern "body" (block_opening keyword name) "};".
Definition ENUM_ROW_RE : regex := rseq [
  RWordB; RCap "1" zigsched_name; spaces; rlit "="; spaces; RCap "2" (rplus rdigit); spaces; rlit ","].
Definition BLOCK_COMMENT_RE : regex := rseq [rlit "/*"; rlazy any_text; rlit "*/"].
Definition LINE_COMMENT_RE : regex := RSeq (rlit "//") (rstar rany).
Definition macro_pattern (macro key : string) : regex := 
  let inside := RChar (fun c => negb (Ascii.eqb c ")")) in
  rseq [RWordB; rlit macro; rlit "("; spaces; rlit key; spaces; rlit ","; spaces;
        RCap "value" (RSeq inside (rlazy inside)); spaces; rlit ")"; spaces; rlit ";"].
Definition section_text (name : string) : string := "SEC(" ++ chr 34 ++ name ++ chr 34 ++ ")".
Definition MAP_RE : regex := rseq [
  rlit "struct"; spaces; rlit "{"; RCap "body" (rlazy any_text); rlit "}"; spaces; RCap "name" c_name; spaces1;
  rlit (section_text ".maps"); spaces; rlit ";"].
Definition SECTION_RE : regex := rseq [
  rlit ("SEC(" ++ chr 34); RCap "section" (rplus (RChar (fun c => negb (Ascii.eqb c dquote)))); rlit (chr 34 ++ ")")].
Definition STRUCT_OPS_RE : regex := rseq [
  rlit "struct"; spaces1; rlit "sched_ext_ops"; spaces1; rlit POLICY_SYMBOL; spaces1; rlit (section_text ".struct_ops");
  spaces; rlit "="; spaces; rlit "{"; RCap "body" (rlazy any_text); rlit "}"; spaces; rlit ";"].
Definition FIELD_RE : regex := rseq [line_start; spaces; rlit "."; RCap "1" c_name; spaces; rlit "="].
(** [^\s*\.field\s*=\s*value\s*,] *)
Definition assigned_pattern (field value : string) : regex :=
  rseq [line_start; spaces; rlit ("." ++ field); spaces; rlit "="; spaces; rlit value; spaces; rlit ","].

(** ** The header *)
Definition missing_text (text : string) (needles : list string) : list string :=
  List.filter (fun needle => negb (contains needle text)) needles.

(** A dict of pairs: the last pair of a key holds. *)
Definition last_of (k : string) (pairs : list (string * string)) : option string := assoc k (rev pairs).
Definition define_pairs (header_text : string) : list (string * string) :=
  map (fun m => (group "1" m, group "2" m)) (re_finditer DEFINE_RE header_text).
Definition parse_defines (header_text : string) : result (list (string * string)) :=
  let found := define_pairs header_text in
  for_each EXPECTED_DEFINES (fun expected =>
    require (match last_of (fst expected) found with Some value => String.eqb value (snd expected) | None => false end)
      (fst expected ++ " changed without ABI acceptance: expected " ++ snd expected ++ ", got "
       ++ match last_of (fst expected) found with Some value => value | None => "None" end)) ;;;
  map_m (fun expected => match last_of (fst expected) found with
                         | Some value => Ok (fst expected, value)
                         | None => raise KeyError (fst expected)
                         end) EXPECTED_DEFINES.

Definition enum_rows (body : string) : list (string * string) :=
  map (fun m => (group "1" m, group "2" m)) (re_finditer ENUM_ROW_RE body).
Definition parse_enum_names (header_text enum_name : string) (expected : list string) : result (list string) :=
  match re_search (block_pattern "enum" enum_name) header_text with
  | None => fail ("missing enum " ++ enum_name)
  | Some m =>
      let pairs := enum_rows (group "body" m) in
      let names := map fst pairs in
      require (strs_eqb names expected)
        (enum_name ++ " order changed without ABI acceptance: expected " ++ tuple_repr expected ++ ", got " ++ tuple_repr names) ;;;
      for_enum 0 pairs (fun index row =>
        let* value := int_of_digits (snd row) in
        require (Z.eqb value (Z.of_nat index))
          (enum_name ++ "." ++ fst row ++ " index changed without ABI acceptance: expected " ++ str_nat index ++ ", got " ++ snd row)) ;;;
      Ok names
  end.

(** [rstrip] of semicolons *)
Fixpoint rstrip_semicolon (s : string) : string :=
  match s with
  | "" => ""
  | String c r => match rstrip_semicolon r with "" => if Ascii.eqb c ";" then "" else String c "" | r => String c r end
  end.
Definition struct_lines (body : string) : list string :=
  List.filter (fun line => negb (String.eqb line "")) (map (fun raw => rstrip_semicolon (strip raw)) (splitlines body)).
Definition parse_struct_fields (header_text struct_name : string) : result (list string) :=
  match re_search (block_pattern "struct" struct_name) header_text with
  | None => fail ("missing struct " ++ struct_name)
  | Some m => Ok (struct_lines (group "body" m))
  end.

(** ** The source *)
Definition normalize_c_value (value : string) : string := join " " (PyStr.words (strip value)).
Definition strip_c_comments (source : string) : string := re_sub LINE_COMMENT_RE "" (re_sub BLOCK_COMMENT_RE "" source).

Definition extract_macro_value (body macro key context : string) : result string :=
  match re_search (macro_pattern macro key) body with
  | None => fail (context ++ " missing " ++ macro ++ "(" ++ key ++ ", ...)")
  | Some m => Ok (normalize_c_value (group "value" m))
  end.

Definition parse_source_map_layouts (source : string) : result (list SourceMapLayout) :=
  map_m (fun m =>
    let name := group "name" m in
    let body := group "body" m in
    let context := "source map " ++ name in
    let* type := extract_macro_value body "__uint" "type" context in
    let* entries := extract_macro_value body "__uint" "max_entries" context in
    let* key := extract_macro_value body "__type" "key" context in
    let* value := extract_macro_value body "__type" "value" context in
    Ok (MkLayout name type entries key value)) (re_finditer MAP_RE source).

Definition skipped_section (section : string) : bool := mem section [".maps"; ".struct_ops"; "license"].
Definition parse_source_program_sections (source : string) : result (list string) :=
  let* sections := map_m (fun m =>
    let section := group "section" m in
    if skipped_section section then Ok []
    else
      require (contains "BPF_PROG(" (take_str 240 (st_rest (snd m)))) ("unexpected non-program SEC section in source: " ++ section) ;;;
      Ok [section]) (re_finditer SECTION_RE source) in
  Ok (List.concat sections).

Definition parse_struct_ops_source (source : string) : result (list string * list string) :=
  match re_search STRUCT_OPS_RE source with
  | None => fail ("source missing struct_ops object " ++ POLICY_SYMBOL)
  | Some m =>
      let body := group "body" m in
      let fields := map (group "1") (re_finditer FIELD_RE body) in
      require (re_found (assigned_pattern "name" (chr 34 ++ POLICY_NAME ++ chr 34)) body) "source struct_ops scheduler name drifted" ;;;
      require (re_found (assigned_pattern "flags" PARTIAL_SWITCH) body) "source struct_ops switch mode drifted" ;;;
      Ok (fields, List.filter (fun field => negb (mem field ["name"; "flags"])) fields)
  end.

Definition source_map_layouts_object (source_abi : SourceAbi) : jobject :=
  fold_left (fun d layout => dict_set (layout_name layout) (JDict [
      ("type", JStr (map_type layout)); ("max_entries", JStr (max_entries layout)); ("key", JStr (key_type layout));
      ("value", JStr (value_type layout))]) d)
    (map_layouts source_abi) [].

(** [repr] of a layout *)
Definition layout_repr (l : SourceMapLayout) : string :=
  "SourceMapLayout(name=" ++ repr_str (layout_name l) ++ ", map_type=" ++ repr_str (map_type l) ++ ", max_entries="
  ++ repr_str (max_entries l) ++ ", key_type=" ++ repr_str (key_type l) ++ ", value_type=" ++ repr_str (value_type l) ++ ")".

Definition source_abi_status (source_abi : SourceAbi) : result string :=
  require (bool_decide (map_layouts source_abi = EXPECTED_MAP_LAYOUTS))
    ("source map layouts changed without ABI v" ++ str_Z (ABI_VERSION + 1) ++ ": expected "
     ++ tuple_of (map layout_repr EXPECTED_MAP_LAYOUTS) ++ ", got " ++ tuple_of (map layout_repr (map_layouts source_abi))) ;;;
  if strs_eqb (program_sections source_abi) ABI_V3_PROGRAM_SECTIONS
     && strs_eqb (struct_ops_used_fields source_abi) ABI_V3_STRUCT_OPS_USED_FIELDS
     && strs_eqb (struct_ops_callbacks source_abi) ABI_V3_ACCEPTED_CALLBACKS
  then Ok "implemented"
  else fail ("source struct_ops/program shape is not an accepted ABI-v3 shape: sections=" ++ tuple_repr (program_sections source_abi)
             ++ " fields=" ++ tuple_repr (struct_ops_used_fields source_abi)
             ++ " callbacks=" ++ tuple_repr (struct_ops_callbacks source_abi)).

(** ** Files *)
Section Files.
Variable F : fs.

Definition require_text (p : path) (needles : list string) (context : string) : result string :=
  let* text := read_text F p in
  let missing := missing_text text needles in
  match missing with
  | [] => Ok text
  | _ => fail (context ++ " missing text: " ++ join ", " missing)
  end.

Definition load_json (p : path) : result jobject :=
  let* raw := catch (bind (read_text F p) loads) (fun exc =>
    if decide (exn_cls exc = FileNotFoundError) then Some (fail ("missing JSON evidence: " ++ path_str p))
    else if decide (exn_cls exc = JSONDecodeError) then Some (fail ("invalid JSON evidence " ++ path_str p ++ ": " ++ exn_str exc))
    else None) in
  obj raw (path_str p).

Definition parse_header (p : path) : result AbiSnapshot :=
  let* header_text := require_text p REQUIRED_HEADER_TEXT "BPF header" in
  let* defines := parse_defines header_text in
  let* stats := parse_enum_names header_text "zigsched_stat_index" EXPECTED_STATS in
  let* events := parse_enum_names header_text "zigsched_event_index" EXPECTED_EVENTS in
  let* stats_fields := parse_struct_fields header_text "zigsched_stats" in
  require (strs_eqb stats_fields EXPECTED_STATS_FIELDS) "stats struct layout changed without ABI acceptance" ;;;
  require (Nat.eqb (List.length stats_fields) (List.length stats)) "stats struct field count must match stats enum count" ;;;
  let* policy_config_fields := parse_struct_fields header_text "zigsched_policy_config" in
  require (strs_eqb policy_config_fields EXPECTED_POLICY_CONFIG_FIELDS) "policy config layout changed without ABI acceptance" ;;;
  let* cgroup_policy_fields := parse_struct_fields header_text "zigsched_cgroup_policy" in
  require (strs_eqb cgroup_policy_fields EXPECTED_CGROUP_POLICY_FIELDS) "cgroup policy layout changed without ABI acceptance" ;;;
  let* struct_ops_fields := parse_struct_fields header_text "sched_ext_ops" in
  require (mem "char name[128]" struct_ops_fields) "struct_ops field missing from header: name" ;;;
  require (mem "zigsched_u64 flags" struct_ops_fields) "struct_ops field missing from header: flags" ;;;
  for_each ABI_V3_ACCEPTED_CALLBACKS (fun callback =>
    require (existsb (fun line => contains ("(" ++ "*" ++ callback ++ ")(") line) struct_ops_fields)
      ("struct_ops callback missing from header: " ++ callback)) ;;;
  let* sha := sha256_of F p in
  Ok (MkSnapshot sha defines stats events stats_fields policy_config_fields cgroup_policy_fields).

Definition parse_source_abi (source_path : path) (source_sha256 : string) : result SourceAbi :=
  require (is_file F source_path) ("source path missing: " ++ path_str source_path) ;;;
  let* actual := sha256_of F source_path in
  require (String.eqb actual source_sha256) "source_sha256 does not match source file bytes" ;;;
  let* text := read_text F source_path in
  let source := strip_c_comments text in
  let* (struct_ops_fields, callbacks) := parse_struct_ops_source source in
  let* layouts := parse_source_map_layouts source in
  let* sections := parse_source_program_sections source in
  Ok (MkSource source_sha256 layouts sections struct_ops_fields callbacks).
End Files.

(** * Specification *)
Definition blank (w : string) : Prop := all_chars is_space w = true.
Definition block_open (keyword name t : string) : Prop :=
  exists w1 w2, t = keyword ++ w1 ++ name ++ w2 ++ "{" /\ blank w1 /\ w1 <> "" /\ blank w2.
(** The body of the first block of this name, up to the first closing brace and
    semicolon. *)
Definition block (text keyword name body : string) : Prop :=
  at_first (shortest_shape (block_open keyword name) "};") text body.

(** The rows of the enumeration are the expected ones, numbered from zero. *)
Definition frozen_enum (text name : string) (expected : list string) : Prop :=
  exists body, block text "enum" name body /\ map fst (enum_rows body) = expected
    /\ forall i row, enum_rows body !! i = Some row -> int_of_digits (snd row) = Ok (Z.of_nat i).
Definition struct_of (text name : string) (fields : list string) : Prop :=
  exists body, block text "struct" name body /\ struct_lines body = fields.

(** The text of a header of the frozen ABI. *)
Record frozen_header (text : string) : Prop := {
  fh_text : forall needle, In needle REQUIRED_HEADER_TEXT -> exists a b, text = a ++ needle ++ b;
  fh_defines : forall name value, In (name, value) EXPECTED_DEFINES -> last_of name (define_pairs text) = Some value;
  fh_stats : frozen_enum text "zigsched_stat_index" EXPECTED_STATS;
  fh_events : frozen_enum text "zigsched_event_index" EXPECTED_EVENTS;
  fh_stats_fields : struct_of text "zigsched_stats" EXPECTED_STATS_FIELDS;
  fh_policy_config : struct_of text "zigsched_policy_config" EXPECTED_POLICY_CONFIG_FIELDS;
  fh_cgroup_policy : struct_of text "zigsched_cgroup_policy" EXPECTED_CGROUP_POLICY_FIELDS;
  fh_struct_ops : exists fields, struct_of text "sched_ext_ops" fields /\ In "char name[128]" fields
    /\ In "zigsched_u64 flags" fields
    /\ forall callback, In callback ABI_V3_ACCEPTED_CALLBACKS ->
         exists line, In line fields /\ exists a b, line = a ++ ("(" ++ "*" ++ callback ++ ")(") ++ b;
}.
(** Nothing of the facts of a frozen header is free but its digest. *)
Definition frozen_snapshot (sha : string) : AbiSnapshot :=
  MkSnapshot sha EXPECTED_DEFINES EXPECTED_STATS EXPECTED_EVENTS EXPECTED_STATS_FIELDS EXPECTED_POLICY_CONFIG_FIELDS
    EXPECTED_CGROUP_POLICY_FIELDS.
Definition frozen_source_abi (sha : string) : SourceAbi :=
  MkSource sha EXPECTED_MAP_LAYOUTS ABI_V3_PROGRAM_SECTIONS ABI_V3_STRUCT_OPS_USED_FIELDS ABI_V3_ACCEPTED_CALLBACKS.

(** The value of a macro of a map, in its first call. *)
Definition macro_value (body macro key value : string) : Prop :=
  exists m, re_search (macro_pattern macro key) body = Some m /\ normalize_c_value (group "value" m) = value.
Definition map_declared (m : rstate * rstate) (l : SourceMapLayout) : Prop :=
  group "name" m = layout_name l
  /\ macro_value (group "body" m) "__uint" "type" (map_type l) /\ macro_value (group "body" m) "__uint" "max_entries" (max_entries l)
  /\ macro_value (group "body" m) "__type" "key" (key_type l) /\ macro_value (group "body" m) "__type" "value" (value_type l).
(** A section that is skipped, or that starts a program. *)
Definition section_read (m : rstate * rstate) (part : list string) : Prop :=
  if skipped_section (group "section" m) then part = []
  else part = [group "section" m] /\ exists a b, take_str 240 (st_rest (snd m)) = a ++ "BPF_PROG(" ++ b.

(** What the C source without its comments says. *)
Record source_says (source : string) (abi : SourceAbi) : Prop := {
  so_struct_ops : exists m, re_search STRUCT_OPS_RE source = Some m
    /\ map (group "1") (re_finditer FIELD_RE (group "body" m)) = struct_ops_used_fields abi
    /\ re_found (assigned_pattern "name" (chr 34 ++ POLICY_NAME ++ chr 34)) (group "body" m) = true
    /\ re_found (assigned_pattern "flags" PARTIAL_SWITCH) (group "body" m) = true;
  so_callbacks : struct_ops_callbacks abi
    = List.filter (fun field => negb (mem field ["name"; "flags"])) (struct_ops_used_fields abi);
  so_maps : Forall2 map_declared (re_finditer MAP_RE source) (map_layouts abi);
  so_sections : exists parts, Forall2 section_read (re_finditer SECTION_RE source) parts
    /\ List.concat parts = program_sections abi;
}.

Definition header_ok (F : fs) (p : path) (snapshot : AbiSnapshot) : Prop :=
  exists text sha, read_text F p = Ok text /\ frozen_header text /\ file_digest F p sha /\ snapshot = frozen_snapshot sha.
Definition source_ok (F : fs) (p : path) (sha : string) (abi : SourceAbi) : Prop :=
  file_digest F p sha /\ source_sha256 abi = sha
  /\ exists text, read_text F p = Ok text /\ source_says (strip_c_comments text) abi.

(** ** Lemmas *)
Lemma bpf_fail_ok {A} m (a : A) : fail m = Ok a <-> False.
Proof. apply raise_ok. Qed.
Lemma abi_require_ok b m u : require b m = Ok u <-> b = true.
Proof. apply ensure_ok. Qed.
Lemma obj_is v c d : obj v c = Ok d <-> v = JDict d.
Proof. destruct v; cbn [obj]; rewrite ?bpf_fail_ok; naive_solver. Qed.
Lemma str_list_ok v c l : str_list v c = Ok l <-> v = jstrs l.
Proof.
  destruct v as [| | | | |items|]; cbn [str_list]; rewrite ?bpf_fail_ok; try (split; [done | intros [=]]).
  apply map_texts. intros [] t; rewrite ?bpf_fail_ok; naive_solver.
Qed.
Lemma require_string_ok v c s : require_string v c = Ok s <-> v = JStr s /\ s <> "".
Proof. destruct v as [| | | |t| |]; cbn [require_string]; rewrite ?bpf_fail_ok; try naive_solver. destruct (String.eqb_spec t ""); naive_solver. Qed.
Lemma string_list_is v expected c : require_string_list v expected c = Ok tt <-> v = jstrs expected.
Proof.
  unfold require_string_list. rewrite bind_ok. setoid_rewrite str_list_ok. setoid_rewrite abi_require_ok. setoid_rewrite strs_eqb_eq. naive_solver.
Qed.

Lemma blank_head c s : is_space c = false -> forall x t, String c s = String x t -> is_space x = false.
Proof. by intros Hc x t [= <- _]. Qed.
Lemma block_opens keyword c name : is_space c = false ->
  opens_with (block_opening keyword (String c name)) (block_open keyword (String c name)).
Proof.
  intros Hc. split.
  - intros st st' (s1 & [H1 C1]%lit_matches & (s2 & (w1 & [H2 C2] & Hb1 & Hne)%plus_matches & (s3 & [H3 C3]%lit_matches
      & (s4 & (w2 & [H4 C4] & Hb2)%star_matches & (s5 & [H5 C5]%lit_matches & H6)%seq_matches)%seq_matches)%seq_matches)%seq_matches)%seq_matches.
    inversion H6; subst. exists (keyword ++ w1 ++ String c name ++ w2 ++ "{"). split; [|by exists w1, w2].
    split; [by rewrite !append_assoc, H1, H2, H3, H4, H5 | by rewrite C5, C4, C3, C2, C1].
  - intros t o s caps (w1 & w2 & -> & Hb1 & Hne & Hb2). rewrite !append_assoc.
    destruct (lit_complete keyword o (w1 ++ String c name ++ w2 ++ "{" ++ s) caps) as (o1 & H1).
    destruct (plus_complete is_space w1 o1 (String c name ++ w2 ++ "{" ++ s) caps Hb1 Hne) as (o2 & H2).
    destruct (lit_complete (String c name) o2 (w2 ++ "{" ++ s) caps) as (o3 & H3).
    destruct (star_complete is_space w2 o3 ("{" ++ s) caps Hb2) as (o4 & H4).
    destruct (lit_complete "{" o4 s caps) as (o5 & H5). exists o5.
    econstructor; [exact H1|]. econstructor; [exact H2|]. econstructor; [exact H3|]. econstructor; [exact H4|].
    econstructor; [exact H5 | constructor].
  - intros t t' s s' (w1 & w2 & -> & Hb1 & _ & Hb2) (w1' & w2' & -> & Hb1' & _ & Hb2') E. rewrite !append_assoc in E.
    apply append_inj in E. rewrite !append_cons in E.
    apply (split_class is_space) in E as [-> E]; [|done|done|by apply blank_head|by apply blank_head].
    injection E as E. apply append_inj, (split_class is_space) in E as [-> _]; [done|done|done| |]; by intros x u [= <- _].
Qed.
Lemma block_found keyword c name text body : is_space c = false ->
  (exists m, re_search (block_pattern keyword (String c name)) text = Some m /\ group "body" m = body)
  <-> block text keyword (String c name) body.
Proof. intros Hc. apply (shortest_search (block_opens keyword c name Hc)). Qed.

(** ** The header *)
Lemma defines_ok text found : parse_defines text = Ok found <->
  found = EXPECTED_DEFINES
  /\ forall name value, In (name, value) EXPECTED_DEFINES -> last_of name (define_pairs text) = Some value.
Proof.
  unfold parse_defines. cbv zeta. rewrite bind_ok_unit, for_each_ok, map_m_ok, Forall_forall. setoid_rewrite list_elem_of_In.
  setoid_rewrite abi_require_ok. generalize EXPECTED_DEFINES. intros expected.
  assert (Hone : forall kv : string * string, match last_of (fst kv) (define_pairs text) with Some value => String.eqb value (snd kv) | None => false end = true
    <-> last_of (fst kv) (define_pairs text) = Some (snd kv)).
  { intros kv. destruct (last_of _ _) as [v|]; [|done]. rewrite String.eqb_eq. split; [by intros -> | by intros [= ->]]. }
  setoid_rewrite Hone. split.
  - intros [H H2]. split; [|intros n v Hin; by apply (H (n, v))]. clear Hone. induction H2 as [|[n v] kv expected found Hf _ IH]; [done|]. cbn [fst] in Hf.
    pose proof (H (n, v) ltac:(by left)) as Hv. cbn [fst snd] in Hv. rewrite Hv in Hf. injection Hf as <-. f_equal. apply IH. intros x Hx. apply H. by right.
  - intros [-> H]. split; [intros [n v] Hin; by apply H|]. apply Forall_Forall2_diag, Forall_forall. intros [n v] Hin%list_elem_of_In.
    cbn [fst]. by rewrite (H n v Hin).
Qed.

Lemma c_enum_ok text c name expected names : is_space c = false ->
  parse_enum_names text (String c name) expected = Ok names <-> names = expected /\ frozen_enum text (String c name) expected.
Proof.
  intros Hc. unfold parse_enum_names, frozen_enum. setoid_rewrite <- block_found; [|done]. destruct (re_search _ text) as [m|].
  - cbv zeta. rewrite !bind_ok_unit, abi_require_ok, strs_eqb_eq, for_enum_ok.
    assert (Hrow : forall i (row : string * string), (let* value := int_of_digits (snd row) in
        require (Z.eqb value (Z.of_nat (0 + i))) (String c name ++ "." ++ fst row ++ " index changed without ABI acceptance: expected " ++ str_nat (0 + i) ++ ", got " ++ snd row)) = Ok tt
      <-> int_of_digits (snd row) = Ok (Z.of_nat i)).
    { intros i row. rewrite bind_ok. setoid_rewrite abi_require_ok. setoid_rewrite Z.eqb_eq. naive_solver. }
    setoid_rewrite Hrow. split.
    + intros (Hn & Hr & [= <-]). split; [done|]. exists (group "body" m). split_and!; [by exists m | done | done].
    + intros [-> (body & (m' & [= <-] & <-) & Hn & Hr)]. split_and!; [done | done | by rewrite Hn].
  - rewrite bpf_fail_ok. split; [done|]. by intros (_ & ? & (? & [=] & _) & _).
Qed.

Lemma struct_ok text c name fields : is_space c = false ->
  parse_struct_fields text (String c name) = Ok fields <-> struct_of text (String c name) fields.
Proof.
  intros Hc. unfold parse_struct_fields, struct_of. setoid_rewrite <- block_found; [|done]. destruct (re_search _ text) as [m|].
  - split; [intros [= <-]; exists (group "body" m); split; [by exists m | done] | by intros (? & (? & [= <-] & <-) & <-)].
  - rewrite bpf_fail_ok. split; [done|]. by intros (? & (? & [=] & _) & _).
Qed.

Lemma missing_text_ok text needles : missing_text text needles = [] <-> forall needle, In needle needles -> exists a b, text = a ++ needle ++ b.
Proof.
  unfold missing_text. rewrite filter_nil. setoid_rewrite negb_false_iff. by setoid_rewrite contains_iff.
Qed.
Lemma require_text_ok F p needles c text : require_text F p needles c = Ok text <->
  read_text F p = Ok text /\ forall needle, In needle needles -> exists a b, text = a ++ needle ++ b.
Proof.
  unfold require_text. rewrite bind_ok. setoid_rewrite <- missing_text_ok. split.
  - intros (t & Ht & H). destruct (missing_text t needles) eqn:E; [|by apply bpf_fail_ok in H]. by injection H as <-.
  - intros [Ht H]. exists text. split; [done|]. by rewrite H.
Qed.

Local Opaque EXPECTED_DEFINES EXPECTED_STATS EXPECTED_EVENTS EXPECTED_STATS_FIELDS EXPECTED_POLICY_CONFIG_FIELDS
  EXPECTED_CGROUP_POLICY_FIELDS REQUIRED_HEADER_TEXT ABI_V3_ACCEPTED_CALLBACKS EXPECTED_MAP_LAYOUTS.

Lemma header_accepted F p snapshot : parse_header F p = Ok snapshot <-> header_ok F p snapshot.
Proof.
  assert (Hcount : List.length EXPECTED_STATS_FIELDS = List.length EXPECTED_STATS) by reflexivity.
  assert (Hcb : forall fields, for_each ABI_V3_ACCEPTED_CALLBACKS (fun callback =>
      require (existsb (fun line => contains ("(" ++ "*" ++ callback ++ ")(") line) fields) ("struct_ops callback missing from header: " ++ callback)) = Ok tt
    <-> forall callback, In callback ABI_V3_ACCEPTED_CALLBACKS -> exists line, In line fields /\ exists a b, line = a ++ ("(" ++ "*" ++ callback ++ ")(") ++ b).
  { intros fields. rewrite for_each_ok, Forall_forall. setoid_rewrite list_elem_of_In. setoid_rewrite abi_require_ok. setoid_rewrite existsb_exists.
    by setoid_rewrite contains_iff. }
  unfold parse_header, header_ok. split.
  - intros (text & [Ht Hneed]%require_text_ok & (defs & [-> Hdef]%defines_ok & (st & [-> Hst]%c_enum_ok & (ev & [-> Hev]%c_enum_ok
      & (sf & Hsf%struct_ok & [->%abi_require_ok%strs_eqb_eq [_ (pc & Hpc%struct_ok & [->%abi_require_ok%strs_eqb_eq (cp & Hcp%struct_ok
      & [->%abi_require_ok%strs_eqb_eq (so & Hso%struct_ok & [Hn%abi_require_ok%mem_In [Hf%abi_require_ok%mem_In [Hc (sha & Hsha & [= <-])%bind_ok]%bind_ok_unit]%bind_ok_unit]%bind_ok_unit)%bind_ok
      ]%bind_ok_unit)%bind_ok]%bind_ok_unit)%bind_ok]%bind_ok_unit]%bind_ok_unit)%bind_ok)%bind_ok)%bind_ok)%bind_ok)%bind_ok; try reflexivity.
    pose proof (proj1 (Hcb so) Hc) as Hcalls. exists text, sha. split_and!; [done | split; try done; by exists so | by apply sha256_of_ok | done].
  - intros (text & sha & Ht & [Hneed Hdef Hst Hev Hsf Hpc Hcp (so & Hso & Hn & Hf & Hc)] & Hsha & ->).
    apply bind_ok. exists text. split; [by apply require_text_ok|]. apply bind_ok. exists EXPECTED_DEFINES. split; [by apply defines_ok|].
    apply bind_ok. exists EXPECTED_STATS. split; [by apply c_enum_ok|]. apply bind_ok. exists EXPECTED_EVENTS. split; [by apply c_enum_ok|].
    apply bind_ok. exists EXPECTED_STATS_FIELDS. split; [by apply struct_ok|]. apply bind_ok_unit. split; [by apply abi_require_ok, strs_eqb_eq|].
    apply bind_ok_unit. split; [apply abi_require_ok; by rewrite Hcount, Nat.eqb_refl|].
    apply bind_ok. exists EXPECTED_POLICY_CONFIG_FIELDS. split; [by apply struct_ok|]. apply bind_ok_unit. split; [by apply abi_require_ok, strs_eqb_eq|].
    apply bind_ok. exists EXPECTED_CGROUP_POLICY_FIELDS. split; [by apply struct_ok|]. apply bind_ok_unit. split; [by apply abi_require_ok, strs_eqb_eq|].
    apply bind_ok. exists so. split; [by apply struct_ok|]. apply bind_ok_unit. split; [by apply abi_require_ok, mem_In|].
    apply bind_ok_unit. split; [by apply abi_require_ok, mem_In|]. apply bind_ok_unit. split; [by apply Hcb|].
    apply bind_ok. exists sha. split; [by apply sha256_of_ok | done].
Qed.

(** ** The source *)
Lemma macro_ok body macro key c value : extract_macro_value body macro key c = Ok value <-> macro_value body macro key value.
Proof.
  unfold extract_macro_value, macro_value. destruct (re_search _ body) as [m|]; rewrite ?bpf_fail_ok, ?Ok_inj; [|by split; [|intros (? & [=] & _)]].
  split; [intros <-; by exists m | by intros (? & [= <-] & <-)].
Qed.
Lemma layouts_ok source layouts : parse_source_map_layouts source = Ok layouts <-> Forall2 map_declared (re_finditer MAP_RE source) layouts.
Proof.
  unfold parse_source_map_layouts. rewrite map_m_ok.
  assert (Hone : forall m l, (let name := group "name" m in let body := group "body" m in let context := "source map " ++ name in
      let* type := extract_macro_value body "__uint" "type" context in let* entries := extract_macro_value body "__uint" "max_entries" context in
      let* key := extract_macro_value body "__type" "key" context in let* value := extract_macro_value body "__type" "value" context in
      Ok (MkLayout name type entries key value)) = Ok l <-> map_declared m l).
  { intros m [n t e k v]. unfold map_declared. cbv zeta. cbn [layout_name map_type max_entries key_type value_type]. split.
    - intros (t' & Ht%macro_ok & (e' & He%macro_ok & (k' & Hk%macro_ok & (v' & Hv%macro_ok & [= <- <- <- <- <-])%bind_ok)%bind_ok)%bind_ok)%bind_ok. done.
    - intros (<- & Ht & He & Hk & Hv). apply bind_ok. exists t. split; [by apply macro_ok|]. apply bind_ok. exists e. split; [by apply macro_ok|].
      apply bind_ok. exists k. split; [by apply macro_ok|]. apply bind_ok. exists v. by split; [apply macro_ok|]. }
  split; intros H; (eapply Forall2_impl; [exact H|]); intros m l Hm; by apply Hone.
Qed.
Lemma sections_ok source sections : parse_source_program_sections source = Ok sections <->
  exists parts, Forall2 section_read (re_finditer SECTION_RE source) parts /\ List.concat parts = sections.
Proof.
  unfold parse_source_program_sections. rewrite bind_ok. setoid_rewrite map_m_ok. setoid_rewrite Ok_inj.
  assert (Hone : forall m part, (let section := group "section" m in if skipped_section section then Ok [] else
      require (contains "BPF_PROG(" (take_str 240 (st_rest (snd m)))) ("unexpected non-program SEC section in source: " ++ section) ;;; Ok [section]) = Ok part
    <-> section_read m part).
  { intros m part. unfold section_read. cbv zeta. destruct (skipped_section _); [by rewrite Ok_inj|].
    rewrite bind_ok_unit, abi_require_ok, contains_iff, Ok_inj. naive_solver. }
  split; intros (parts & H & E); exists parts; (split; [|done]); (eapply Forall2_impl; [exact H|]); intros m l Hm; by apply Hone.
Qed.
Lemma struct_ops_ok source fields callbacks : parse_struct_ops_source source = Ok (fields, callbacks) <->
  (exists m, re_search STRUCT_OPS_RE source = Some m
    /\ map (group "1") (re_finditer FIELD_RE (group "body" m)) = fields
    /\ re_found (assigned_pattern "name" (chr 34 ++ POLICY_NAME ++ chr 34)) (group "body" m) = true
    /\ re_found (assigned_pattern "flags" PARTIAL_SWITCH) (group "body" m) = true)
  /\ callbacks = List.filter (fun field => negb (mem field ["name"; "flags"])) fields.
Proof.
  unfold parse_struct_ops_source. destruct (re_search STRUCT_OPS_RE source) as [m|].
  - cbv zeta. rewrite !bind_ok_unit, !abi_require_ok, Ok_inj. split.
    + intros (Hn & Hf & [= <- <-]). split; [by exists m | done].
    + intros [(m' & [= <-] & <- & Hn & Hf) ->]. done.
  - rewrite bpf_fail_ok. split; [done|]. by intros [(? & [=] & _) _].
Qed.

Lemma source_accepted F p sha abi : parse_source_abi F p sha = Ok abi <-> source_ok F p sha abi.
Proof.
  unfold parse_source_abi, source_ok. split.
  - intros [Hf%abi_require_ok (actual & Ha & [->%abi_require_ok%String.eqb_eq (text & Ht & ([fields callbacks] & [(m & Hm & Hfs & Hn & Hfl) Hc]%struct_ops_ok
      & (layouts & Hl%layouts_ok & (sections & Hs%sections_ok & [= <-])%bind_ok)%bind_ok)%bind_ok)%bind_ok]%bind_ok_unit)%bind_ok]%bind_ok_unit.
    split_and!; [by apply sha256_of_ok | done|]. exists text. split; [done|]. split; try done. by exists m.
  - intros (Hd & Hsha & text & Ht & [(m & Hm & Hfs & Hn & Hfl) Hc Hl Hs]). destruct abi as [sha' layouts sections fields callbacks].
    cbn [source_sha256 map_layouts program_sections struct_ops_used_fields struct_ops_callbacks] in *. subst sha'.
    apply bind_ok_unit. split; [apply abi_require_ok; by apply file_digest_is_file in Hd|]. apply bind_ok. exists sha. split; [by apply sha256_of_ok|].
    apply bind_ok_unit. split; [apply abi_require_ok, String.eqb_refl|]. apply bind_ok. exists text. split; [done|]. cbv zeta.
    apply bind_ok. exists (fields, callbacks). split; [apply struct_ops_ok; split; [by exists m | done]|].
    apply bind_ok. exists layouts. split; [by apply layouts_ok|]. apply bind_ok. exists sections. by split; [apply sections_ok|].
Qed.

(** An accepted source has the frozen shape, whatever its digest. *)
Lemma status_ok abi status : source_abi_status abi = Ok status <-> status = "implemented" /\ abi = frozen_source_abi (source_sha256 abi).
Proof.
  unfold source_abi_status, frozen_source_abi. rewrite bind_ok_unit, abi_require_ok, bool_decide_eq_true. destruct abi as [sha layouts sections fields callbacks].
  cbn [source_sha256 map_layouts program_sections struct_ops_used_fields struct_ops_callbacks]. split.
  - intros [-> H]. destruct (strs_eqb sections _) eqn:E1, (strs_eqb fields _) eqn:E2, (strs_eqb callbacks _) eqn:E3; try (by apply bpf_fail_ok in H).
    apply strs_eqb_eq in E1, E2, E3. subst. by injection H as <-.
  - intros [-> [= -> -> -> ->]]. by rewrite !(proj2 (strs_eqb_eq _ _) eq_refl).
Qed.
