(* ===== verification/BpfAbi.v ===== *)
(** BpfAbi: qa/bpf_abi_validate.py and qa/bpf_abi_freeze_check.py, the metadata of
    a built BPF object, or of a skipped build, against the frozen ABI that
    [BpfAbiParse] reads.

    The rehearsal of [--self-test] is an argument of [main]. *)
From S2P Require Import Prelude PyStr PyRe PyFloat PyJson Sha256 PyFs PyMain Fields BpfAbiParse.

Local Open Scope string_scope.

Record Args : Set := MkArgs { header : path; strategy : path; metadata : path; skip_json : option path; self_test : bool }.

Definition TUPLE_DOCUMENT : string := "docs/releases/supported-kernel-tuples.md".
Definition TOOLS : list string := ["clang"; "clang_path"; "llvm_objdump"; "bpftool"; "file"; "zig"].
Definition OBJECT_TEXTS : list string :=
  ["object"; "object_hash"; "object_sha256"; "source"; "source_hash"; "source_sha256"; "expected_verifier_object"].
Definition SKIP_ABSENT : list string := ["object"; "object_hash"; "object_sha256"; "expected_verifier_object"].

Definition text_object (pairs : list (string * string)) : json := JDict (map (fun kv => (fst kv, JStr (snd kv))) pairs).
(** [value == text] *)
Definition is_text (value : json) (text : string) : bool := py_eq value (JStr text).
Definition full_text (value : json) : bool := match value with JStr s => negb (String.eqb s "") | _ => false end.

Definition require_map_layouts (value : jobject) (source_abi : SourceAbi) : result unit :=
  require (py_eq (JDict value) (JDict (source_map_layouts_object source_abi))) "map layout metadata drifted from source".

(** [obj(contract.get(field), context) == expected] *)
Definition require_object_is (contract : jobject) (field context message : string) (expected : json) : result unit :=
  let* value := obj (get contract field) context in
  require (py_eq (JDict value) expected) message.

Definition require_abi_contract (contract : jobject) (snapshot : AbiSnapshot) (source_abi : SourceAbi) (source_status : string)
    : result unit :=
  require_int (get contract "abi_version") ABI_VERSION "abi_contract.abi_version" ;;;
  require (is_text (get contract "header_sha256") (header_sha256 snapshot)) "abi_contract.header_sha256 mismatch" ;;;
  require (is_text (get contract "source_sha256") (source_sha256 source_abi)) "abi_contract.source_sha256 mismatch" ;;;
  require_object_is contract "defines" "abi_contract.defines" "ABI defines drifted" (text_object (defines snapshot)) ;;;
  require_int (get contract "stats_count") STATS_COUNT "abi_contract.stats_count" ;;;
  require_int (get contract "events_count") EVENTS_COUNT "abi_contract.events_count" ;;;
  require_string_list (get contract "stats") (stats snapshot) "abi_contract.stats" ;;;
  require_string_list (get contract "events") (events snapshot) "abi_contract.events" ;;;
  require_string_list (get contract "stats_fields") (stats_fields snapshot) "abi_contract.stats_fields" ;;;
  require_string_list (get contract "policy_config_fields") (policy_config_fields snapshot) "abi_contract.policy_config_fields" ;;;
  require_string_list (get contract "cgroup_policy_fields") (cgroup_policy_fields snapshot) "abi_contract.cgroup_policy_fields" ;;;
  require_string_list (get contract "struct_ops_used_fields") (struct_ops_used_fields source_abi) "abi_contract.struct_ops_used_fields" ;;;
  require_string_list (get contract "abi_v3_accepted_callbacks") ABI_V3_ACCEPTED_CALLBACKS "abi_contract.abi_v3_accepted_callbacks" ;;;
  require (is_text (get contract "abi_v3_source_status") source_status)
    ("abi_contract.abi_v3_source_status must match source shape: " ++ source_status) ;;;
  require_object_is contract "cgroup_knob_semantics" "abi_contract.cgroup_knob_semantics"
    "cgroup knob semantics changed without ABI acceptance" (text_object CGROUP_KNOB_SEMANTICS) ;;;
  require_object_is contract "cgroup_evidence" "abi_contract.cgroup_evidence"
    "cgroup evidence contract changed without ABI acceptance" (JDict EXPECTED_CGROUP_EVIDENCE) ;;;
  require (is_text (get contract "tuple_reference") TUPLE_DOCUMENT)
    "abi_contract.tuple_reference must pin supported tuple document" ;;;
  let* layouts := obj (get contract "map_layouts") "abi_contract.map_layouts" in
  require_map_layouts layouts source_abi.

Definition resolve_repo_path (value : string) : result path :=
  let p := Path value in
  require (negb (is_absolute p) && negb (mem ".." (parts p))) ("unsafe repo path in metadata: " ++ value) ;;;
  Ok p.

(** The parts of [common_checks]. *)
Definition check_policy (data : jobject) : result unit :=
  require (is_text (get data "policy_name") POLICY_NAME) "policy name mismatch" ;;;
  require (is_text (get data "policy_symbol") POLICY_SYMBOL) "policy symbol mismatch" ;;;
  require (is_true (get data "vm_only")) "BPF metadata must remain VM-only" ;;;
  require (is_text (get data "vm_marker_required") VM_MARKER) "VM marker requirement missing" ;;;
  require (is_text (get data "vm_contract") VM_CONTRACT) "VM contract path mismatch" ;;;
  require (is_false (get data "host_mutation")) "BPF metadata must not claim host mutation" ;;;
  require (is_false (get data "host_attach_allowed")) "host attach must stay forbidden" ;;;
  require (is_false (get data "verification_claimed")) "metadata cannot claim verifier success".

Definition check_tuple (data : jobject) : result unit :=
  let* tuple_data := obj (get data "tuple") "tuple" in
  require (is_text (get tuple_data "target_arch") "bpf") "target arch mismatch" ;;;
  require (is_text (get tuple_data "target_define") "__TARGET_ARCH_x86") "target define mismatch" ;;;
  require (is_true (get tuple_data "vm_required_for_attach")) "tuple must require VM attach" ;;;
  require (is_text (get tuple_data "vm_contract") VM_CONTRACT) "tuple VM contract mismatch" ;;;
  require (is_text (get tuple_data "tuple_reference") TUPLE_DOCUMENT) "tuple reference mismatch".

Definition check_tools (data : jobject) : result unit :=
  let* tools := obj (get data "tool_versions") "tool_versions" in
  for_each TOOLS (fun key => require (full_text (get tools key)) ("tool_versions missing " ++ key)).

Definition check_struct_ops (data : jobject) (source_abi : SourceAbi) : result unit :=
  let* struct_ops := obj (get data "struct_ops") "struct_ops" in
  require (is_text (get struct_ops "policy_name") POLICY_NAME) "struct_ops policy name mismatch" ;;;
  require (is_text (get struct_ops "object_name") POLICY_SYMBOL) "struct_ops object mismatch" ;;;
  require (is_text (get struct_ops "object_section") ".struct_ops") "struct_ops section mismatch" ;;;
  require (is_text (get struct_ops "expected_switch_mode") PARTIAL_SWITCH) "switch mode must stay partial" ;;;
  let* prohibited := str_list (get struct_ops "prohibited_switch_modes") "prohibited_switch_modes" in
  require (mem "SCX_OPS_SWITCH_ALL" prohibited) "full-switch prohibition missing" ;;;
  let* callbacks := str_list (get struct_ops "expected_callbacks") "expected_callbacks" in
  require (strs_eqb callbacks (struct_ops_callbacks source_abi)) "callback ABI drifted" ;;;
  let* sections := str_list (get struct_ops "program_sections") "program_sections" in
  require (strs_eqb sections (program_sections source_abi)) "program section ABI drifted".

Section Checker.
Variable F : fs.

Definition common_checks (data : jobject) (snapshot : AbiSnapshot) : result SourceAbi :=
  check_policy data ;;;
  let* source_sha := require_string (get data "source_sha256") "source_sha256" in
  require (is_text (get data "source_hash") ("sha256:" ++ source_sha)) "source_hash/source_sha256 mismatch" ;;;
  let* source := require_string (get data "source") "source" in
  let* source_path := resolve_repo_path source in
  let* source_abi := parse_source_abi F source_path source_sha in
  let* source_status := source_abi_status source_abi in
  let* contract := obj (get data "abi_contract") "abi_contract" in
  require_abi_contract contract snapshot source_abi source_status ;;;
  check_tuple data ;;;
  check_tools data ;;;
  check_struct_ops data source_abi ;;;
  Ok source_abi.

Definition check_object (data : jobject) (snapshot : AbiSnapshot) : result string :=
  require (is_text (get data "schema") "zig-scheduler/bpf-object-metadata/v1") "bad object metadata schema" ;;;
  require (is_text (get data "status") "built") "object metadata status must be built" ;;;
  require (is_text (get data "artifact_kind") "sched_ext_struct_ops_policy_object") "bad object artifact kind" ;;;
  for_each OBJECT_TEXTS (fun key => require (full_text (get data key)) ("object metadata missing " ++ key)) ;;;
  let* object_sha := require_string (get data "object_sha256") "object_sha256" in
  require (is_text (get data "object_hash") ("sha256:" ++ object_sha)) "object_hash/object_sha256 mismatch" ;;;
  let* object := require_string (get data "object") "object" in
  let* object_path := resolve_repo_path object in
  require (is_file F object_path) ("object path missing: " ++ path_str object_path) ;;;
  let* actual := sha256_of F object_path in
  require (String.eqb actual object_sha) "object_sha256 does not match object file bytes" ;;;
  let* _ := common_checks data snapshot in
  Ok "object".

Definition check_skip (data : jobject) (snapshot : AbiSnapshot) : result string :=
  require (is_text (get data "schema") "zig-scheduler/bpf-build-skip/v1") "bad skip schema" ;;;
  require (is_text (get data "status") "SKIP") "skip status must be SKIP" ;;;
  require (full_text (get data "reason")) "skip reason missing" ;;;
  for_each SKIP_ABSENT (fun key => require (is_none (get data key)) ("skip must not include " ++ key)) ;;;
  require (is_false (get data "release_eligible")) "skip cannot be release eligible" ;;;
  require (is_false (get data "skip_is_release_eligible")) "skip release flag must be false" ;;;
  let* _ := common_checks data snapshot in
  Ok "skip".

Definition validate (header strategy metadata : path) (skip_json : option path) : result string :=
  let* snapshot := parse_header F header in
  let* _ := require_text F strategy REQUIRED_ADR_TEXT "BPF ABI ADR" in
  let neither := fail "neither object metadata nor SKIP JSON evidence exists" in
  if is_file F metadata then let* data := load_json F metadata in check_object data snapshot
  else match skip_json with
       | Some skip => if is_file F skip then let* data := load_json F skip in check_skip data snapshot else neither
       | None => neither
       end.

Definition parse_args (argv : list string) : result Args :=
  let usage := fail "usage: bpf_abi_freeze_check.py --header <h> --strategy <adr> --metadata <meta.json> [--skip-json <skip.json>] | --self-test" in
  match argv with
  | [a] =>
      if String.eqb a "--self-test"
      then Ok (MkArgs (Path "bpf/include/zigsched_common.h") (Path "docs/adr/0004-bpf-abi-strategy.md")
                 (Path "zig-out/bpf/zigsched_minimal.bpf.meta.json") (Some (Path "zig-out/bpf/zigsched_minimal.bpf.skip.json")) true)
      else usage
  | [a; h; b; s; c; m] =>
      if String.eqb a "--header" && String.eqb b "--strategy" && String.eqb c "--metadata"
      then Ok (MkArgs (Path h) (Path s) (Path m) None false) else usage
  | [a; h; b; s; c; m; d; k] =>
      if String.eqb a "--header" && String.eqb b "--strategy" && String.eqb c "--metadata" then
        if String.eqb d "--skip-json" then Ok (MkArgs (Path h) (Path s) (Path m) (Some (Path k)) false)
        else fail "expected --skip-json before skip path"
      else usage
  | _ => usage
  end.

Variable run_self_test : Args -> result (list string).

Definition run (argv : list string) : result (list string) :=
  let* args := parse_args argv in
  if self_test args then run_self_test args
  else
    let* mode := validate (header args) (strategy args) (metadata args) (skip_json args) in
    Ok ["PASS BPF ABI freeze check: mode=" ++ mode ++ " abi=v" ++ str_Z ABI_VERSION ++ " stats=" ++ str_Z STATS_COUNT
        ++ " events=" ++ str_Z EVENTS_COUNT ++ " header=" ++ path_str (header args) ++ " strategy=" ++ path_str (strategy args)].

Definition main (argv : list string) : exit :=
  run_main (fun c => is_OSError c || is_UnicodeError c || is_class BpfAbiError c) "FAIL BPF ABI freeze check" (run argv).
End Checker.

(** * Specification *)

Definition equals_int (v : json) (n : Z) : Prop := py_eq v (JInt n) = true.
(** The object under [field] equals, as a dict, the expected one. *)
Definition object_is (d : jobject) (field : string) (expected : json) : Prop :=
  exists o, get d field = JDict o /\ py_eq (JDict o) expected = true.

Record contract_ok (d : jobject) (header_sha source_sha : string) : Prop := {
  ct_version : equals_int (get d "abi_version") ABI_VERSION;
  ct_counts : equals_int (get d "stats_count") STATS_COUNT /\ equals_int (get d "events_count") EVENTS_COUNT;
  ct_header : get d "header_sha256" = JStr header_sha;
  ct_source : get d "source_sha256" = JStr source_sha;
  ct_defines : object_is d "defines" (text_object EXPECTED_DEFINES);
  ct_stats : get d "stats" = jstrs EXPECTED_STATS;
  ct_events : get d "events" = jstrs EXPECTED_EVENTS;
  ct_stats_fields : get d "stats_fields" = jstrs EXPECTED_STATS_FIELDS;
  ct_policy_config : get d "policy_config_fields" = jstrs EXPECTED_POLICY_CONFIG_FIELDS;
  ct_cgroup_policy : get d "cgroup_policy_fields" = jstrs EXPECTED_CGROUP_POLICY_FIELDS;
  ct_used_fields : get d "struct_ops_used_fields" = jstrs ABI_V3_STRUCT_OPS_USED_FIELDS;
  ct_callbacks : get d "abi_v3_accepted_callbacks" = jstrs ABI_V3_ACCEPTED_CALLBACKS;
  ct_status : get d "abi_v3_source_status" = JStr "implemented";
  ct_semantics : object_is d "cgroup_knob_semantics" (text_object CGROUP_KNOB_SEMANTICS);
  ct_evidence : object_is d "cgroup_evidence" (JDict EXPECTED_CGROUP_EVIDENCE);
  ct_tuple : get d "tuple_reference" = JStr TUPLE_DOCUMENT;
  ct_maps : object_is d "map_layouts" (JDict (source_map_layouts_object (frozen_source_abi source_sha)));
}.

Definition texts (d : jobject) (pairs : list (string * string)) : Prop :=
  forall field text, In (field, text) pairs -> get d field = JStr text.

(** The file a field names by a path in the repository, with its digest. *)
Definition repo_path (d : jobject) (field : string) (p : path) : Prop :=
  exists s, get d field = JStr s /\ s <> "" /\ p = Path s /\ is_absolute p = false /\ ~ In ".." (parts p).

(** What both kinds of metadata say: nothing of the host, and the frozen ABI of a
    source whose digest is that of its bytes. *)
Record common_ok (F : fs) (header_sha : string) (d : jobject) : Prop := {
  cm_texts : texts d [("policy_name", POLICY_NAME); ("policy_symbol", POLICY_SYMBOL); ("vm_marker_required", VM_MARKER);
                      ("vm_contract", VM_CONTRACT)];
  cm_vm_only : get d "vm_only" = JBool true;
  cm_host : forall f, In f ["host_mutation"; "host_attach_allowed"; "verification_claimed"] -> get d f = JBool false;
  cm_source : exists sha p contract, get d "source_sha256" = JStr sha /\ sha <> "" /\ get d "source_hash" = JStr ("sha256:" ++ sha)
    /\ repo_path d "source" p /\ source_ok F p sha (frozen_source_abi sha)
    /\ get d "abi_contract" = JDict contract /\ contract_ok contract header_sha sha;
  cm_tuple : exists t, get d "tuple" = JDict t /\ get t "vm_required_for_attach" = JBool true
    /\ texts t [("target_arch", "bpf"); ("target_define", "__TARGET_ARCH_x86"); ("vm_contract", VM_CONTRACT);
                ("tuple_reference", TUPLE_DOCUMENT)];
  cm_tools : exists t, get d "tool_versions" = JDict t /\ forall key, In key TOOLS -> text_field t key;
  cm_struct_ops : exists s prohibited, get d "struct_ops" = JDict s
    /\ texts s [("policy_name", POLICY_NAME); ("object_name", POLICY_SYMBOL); ("object_section", ".struct_ops");
                ("expected_switch_mode", PARTIAL_SWITCH)]
    /\ get s "prohibited_switch_modes" = jstrs prohibited /\ In "SCX_OPS_SWITCH_ALL" prohibited
    /\ get s "expected_callbacks" = jstrs ABI_V3_ACCEPTED_CALLBACKS
    /\ get s "program_sections" = jstrs ABI_V3_PROGRAM_SECTIONS;
}.

Record object_ok (F : fs) (header_sha : string) (d : jobject) : Prop := {
  ob_texts : texts d [("schema", "zig-scheduler/bpf-object-metadata/v1"); ("status", "built");
                      ("artifact_kind", "sched_ext_struct_ops_policy_object")];
  ob_full : forall key, In key OBJECT_TEXTS -> text_field d key;
  ob_object : exists sha p, get d "object_sha256" = JStr sha /\ get d "object_hash" = JStr ("sha256:" ++ sha)
    /\ repo_path d "object" p /\ file_digest F p sha;
  ob_common : common_ok F header_sha d;
}.
Record skip_ok (F : fs) (header_sha : string) (d : jobject) : Prop := {
  sk_texts : texts d [("schema", "zig-scheduler/bpf-build-skip/v1"); ("status", "SKIP")];
  sk_reason : text_field d "reason";
  sk_absent : forall key, In key SKIP_ABSENT -> get d key = JNull;
  sk_release : get d "release_eligible" = JBool false /\ get d "skip_is_release_eligible" = JBool false;
  sk_common : common_ok F header_sha d;
}.

(** The evidence: the metadata of an object when there is any, else of a skip. *)
Definition evidence_ok (F : fs) (header_sha : string) (metadata : path) (skip_json : option path) (mode : string) : Prop :=
  (is_file F metadata = true /\ mode = "object" /\ exists d, holds_object F metadata d /\ object_ok F header_sha d)
  \/ (is_file F metadata = false /\ mode = "skip"
      /\ exists skip d, skip_json = Some skip /\ is_file F skip = true /\ holds_object F skip d /\ skip_ok F header_sha d).

Definition freeze_ok (F : fs) (header strategy metadata : path) (skip_json : option path) (mode : string) : Prop :=
  exists sha, header_ok F header (frozen_snapshot sha)
    /\ (exists text, read_text F strategy = Ok text /\ forall needle, In needle REQUIRED_ADR_TEXT -> exists a b, text = a ++ needle ++ b)
    /\ evidence_ok F sha metadata skip_json mode.

(** ** Lemmas *)
Lemma is_text_ok v s m u : require (is_text v s) m = Ok u <-> v = JStr s.
Proof. unfold is_text. by rewrite abi_require_ok, py_eq_str. Qed.
Lemma flag_true_ok v m u : require (is_true v) m = Ok u <-> v = JBool true.
Proof. by rewrite abi_require_ok, is_true_iff. Qed.
Lemma flag_false_ok v m u : require (is_false v) m = Ok u <-> v = JBool false.
Proof. by rewrite abi_require_ok, is_false_iff. Qed.
Lemma full_text_ok d key m u : require (full_text (get d key)) m = Ok u <-> text_field d key.
Proof.
  rewrite abi_require_ok. unfold full_text, text_field. destruct (get d key); try (split; [done | naive_solver]).
  rewrite negb_true_iff, String.eqb_neq. naive_solver.
Qed.
Lemma full_texts_ok d keys m : for_each keys (fun key => require (full_text (get d key)) (m key)) = Ok tt <->
  forall key, In key keys -> text_field d key.
Proof. rewrite for_each_ok, Forall_forall. setoid_rewrite list_elem_of_In. by setoid_rewrite full_text_ok. Qed.
Lemma int_is_ok v n c u : require_int v n c = Ok u <-> equals_int v n.
Proof. apply abi_require_ok. Qed.
Lemma object_is_ok d field c m expected : require_object_is d field c m expected = Ok tt <-> object_is d field expected.
Proof. unfold require_object_is, object_is. rewrite bind_ok. setoid_rewrite obj_is. by setoid_rewrite abi_require_ok. Qed.
Lemma repo_path_ok s p : resolve_repo_path s = Ok p <-> p = Path s /\ is_absolute p = false /\ ~ In ".." (parts p).
Proof.
  unfold resolve_repo_path. cbv zeta. rewrite bind_ok_unit, abi_require_ok, andb_true_iff, !negb_true_iff, Ok_inj.
  assert (Hm : mem ".." (parts (Path s)) = false <-> ~ In ".." (parts (Path s))) by (rewrite <- mem_In; by destruct (mem _ _)).
  rewrite Hm. naive_solver.
Qed.

(** A sequence of [texts] facts, one by one. *)
Lemma texts_nil d : texts d [] <-> True.
Proof. unfold texts. naive_solver. Qed.
Lemma texts_cons d f s l : texts d ((f, s) :: l) <-> get d f = JStr s /\ texts d l.
Proof. unfold texts. cbn [In]. naive_solver. Qed.

(** Every step of a check, as a fact. *)
#[local] Hint Rewrite @bind_ok_unit is_text_ok flag_true_ok flag_false_ok full_texts_ok int_is_ok object_is_ok string_list_is : bpf.

Lemma abi_contract_accepted d sha ssha :
  require_abi_contract d (frozen_snapshot sha) (frozen_source_abi ssha) "implemented" = Ok tt <-> contract_ok d sha ssha.
Proof.
  unfold require_abi_contract, require_map_layouts, frozen_snapshot.
  cbn [header_sha256 defines stats events stats_fields policy_config_fields cgroup_policy_fields source_sha256 frozen_source_abi struct_ops_used_fields].
  change (let* layouts := obj (get d "map_layouts") "abi_contract.map_layouts" in
    require (py_eq (JDict layouts) (JDict (source_map_layouts_object (frozen_source_abi ssha)))) "map layout metadata drifted from source")
    with (require_object_is d "map_layouts" "abi_contract.map_layouts" "map layout metadata drifted from source" (JDict (source_map_layouts_object (frozen_source_abi ssha)))).
  autorewrite with bpf. split.
  - intros H. decompose [and] H. by split.
  - intros []. tauto.
Qed.

Lemma policy_accepted d : check_policy d = Ok tt <->
  texts d [("policy_name", POLICY_NAME); ("policy_symbol", POLICY_SYMBOL); ("vm_marker_required", VM_MARKER); ("vm_contract", VM_CONTRACT)]
  /\ get d "vm_only" = JBool true
  /\ (forall f, In f ["host_mutation"; "host_attach_allowed"; "verification_claimed"] -> get d f = JBool false).
Proof. unfold check_policy. rewrite !texts_cons, texts_nil. autorewrite with bpf. cbn [In]. naive_solver. Qed.
Lemma abi_tuple_accepted d : check_tuple d = Ok tt <-> exists t, get d "tuple" = JDict t /\ get t "vm_required_for_attach" = JBool true
  /\ texts t [("target_arch", "bpf"); ("target_define", "__TARGET_ARCH_x86"); ("vm_contract", VM_CONTRACT); ("tuple_reference", TUPLE_DOCUMENT)].
Proof.
  unfold check_tuple. rewrite bind_ok. setoid_rewrite obj_is.
  split; intros (t & Ht & H); exists t; (split; [done|]); rewrite !texts_cons, texts_nil in *; autorewrite with bpf in *; tauto.
Qed.
Lemma tools_accepted d : check_tools d = Ok tt <-> exists t, get d "tool_versions" = JDict t /\ forall key, In key TOOLS -> text_field t key.
Proof. unfold check_tools. rewrite bind_ok. setoid_rewrite obj_is. by setoid_rewrite full_texts_ok. Qed.
Lemma struct_ops_accepted d sha : check_struct_ops d (frozen_source_abi sha) = Ok tt <->
  exists s prohibited, get d "struct_ops" = JDict s
    /\ texts s [("policy_name", POLICY_NAME); ("object_name", POLICY_SYMBOL); ("object_section", ".struct_ops");
                ("expected_switch_mode", PARTIAL_SWITCH)]
    /\ get s "prohibited_switch_modes" = jstrs prohibited /\ In "SCX_OPS_SWITCH_ALL" prohibited
    /\ get s "expected_callbacks" = jstrs ABI_V3_ACCEPTED_CALLBACKS /\ get s "program_sections" = jstrs ABI_V3_PROGRAM_SECTIONS.
Proof.
  unfold check_struct_ops. cbn [frozen_source_abi struct_ops_callbacks program_sections]. split.
  - intros (s & Hs%obj_is & [H1%is_text_ok [H2%is_text_ok [H3%is_text_ok [H4%is_text_ok (prohibited & Hp%str_list_ok & [Hin%abi_require_ok%mem_In
      (callbacks & Hc%str_list_ok & [->%abi_require_ok%strs_eqb_eq (sections & Hse%str_list_ok & ->%abi_require_ok%strs_eqb_eq)%bind_ok]%bind_ok_unit)%bind_ok
      ]%bind_ok_unit)%bind_ok]%bind_ok_unit]%bind_ok_unit]%bind_ok_unit]%bind_ok_unit)%bind_ok.
    exists s, prohibited. rewrite !texts_cons, texts_nil. done.
  - intros (s & prohibited & Hs & Ht & Hp & Hin & Hc & Hse). rewrite !texts_cons in Ht. destruct Ht as (H1 & H2 & H3 & H4 & _).
    apply bind_ok. exists s. split; [by apply obj_is|]. autorewrite with bpf. do 4 (split; [done|]).
    apply bind_ok. exists prohibited. split; [by apply str_list_ok|]. apply bind_ok_unit. split; [by apply abi_require_ok, mem_In|].
    apply bind_ok. exists ABI_V3_ACCEPTED_CALLBACKS. split; [by apply str_list_ok|]. apply bind_ok_unit. split; [by apply abi_require_ok, strs_eqb_eq|].
    apply bind_ok. exists ABI_V3_PROGRAM_SECTIONS. split; [by apply str_list_ok|]. by apply abi_require_ok, strs_eqb_eq.
Qed.

Lemma common_accepted F sha d : (exists abi, common_checks F d (frozen_snapshot sha) = Ok abi) <-> common_ok F sha d.
Proof.
  unfold common_checks. split.
  - intros (abi & [(Ht & Hv & Hh)%policy_accepted (ssha & [Hs Hne]%require_string_ok & [Hhash%is_text_ok (src & [Hsrc Hsne]%require_string_ok
      & (p & (-> & Ha & Hd)%repo_path_ok & (found & Hf%source_accepted & (status & [-> Habi]%status_ok & (contract & Hc%obj_is & [Hcok
      [Htu%abi_tuple_accepted [Hto%tools_accepted [Hso [= <-]]%bind_ok_unit]%bind_ok_unit]%bind_ok_unit]%bind_ok_unit)%bind_ok)%bind_ok)%bind_ok)%bind_ok)%bind_ok
      ]%bind_ok_unit)%bind_ok]%bind_ok_unit).
    pose proof Hf as [_ [Hsha _]]. rewrite Hsha in Habi. subst found. apply abi_contract_accepted in Hcok. apply struct_ops_accepted in Hso.
    split; try done. exists ssha, (Path src), contract. split_and!; try done. by exists src.
  - intros [Ht Hv Hh (ssha & p & contract & Hs & Hne & Hhash & (src & Hsrc & Hsne & -> & Ha & Hd) & Hf & Hc & Hcok) Htu Hto Hso].
    exists (frozen_source_abi ssha). apply bind_ok_unit. split; [by apply policy_accepted|]. apply bind_ok. exists ssha. split; [by apply require_string_ok|].
    apply bind_ok_unit. split; [by apply is_text_ok|]. apply bind_ok. exists src. split; [by apply require_string_ok|].
    apply bind_ok. exists (Path src). split; [by apply repo_path_ok|]. apply bind_ok. exists (frozen_source_abi ssha). split; [by apply source_accepted|].
    apply bind_ok. exists "implemented". split; [by apply status_ok|]. apply bind_ok. exists contract. split; [by apply obj_is|].
    apply bind_ok_unit. split; [by apply abi_contract_accepted|]. apply bind_ok_unit. split; [by apply abi_tuple_accepted|].
    apply bind_ok_unit. split; [by apply tools_accepted|]. apply bind_ok_unit. by split; [apply struct_ops_accepted|].
Qed.

(** The mode is that of the kind of evidence. *)
Lemma common_then F sha d (mode mode' : string) : (let* _ := common_checks F d (frozen_snapshot sha) in Ok mode) = Ok mode' <-> mode' = mode /\ common_ok F sha d.
Proof. rewrite bind_ok, <- common_accepted. naive_solver. Qed.

Lemma object_accepted F sha d mode : check_object F d (frozen_snapshot sha) = Ok mode <-> mode = "object" /\ object_ok F sha d.
Proof.
  unfold check_object. split.
  - intros [H1%is_text_ok [H2%is_text_ok [H3%is_text_ok [Hfull (osha & [Ho _]%require_string_ok & [Hh%is_text_ok (obj & [Hob Hone]%require_string_ok
      & (p & (-> & Ha & Hd)%repo_path_ok & [_ (actual & Hact & [->%abi_require_ok%String.eqb_eq [-> Hc]%common_then]%bind_ok_unit)%bind_ok]%bind_ok_unit)%bind_ok
      )%bind_ok]%bind_ok_unit)%bind_ok]%bind_ok_unit]%bind_ok_unit]%bind_ok_unit]%bind_ok_unit.
    pose proof (proj1 (full_texts_ok _ _ _) Hfull) as Hf. split; [done|]. split; [by rewrite !texts_cons, texts_nil | done | | done].
    exists osha, (Path obj). split_and!; [done | done | by exists obj | by apply sha256_of_ok].
  - intros [-> [Ht Hf (osha & p & Ho & Hh & (obj & Hob & Hone & -> & Ha & Hd) & Hdig) Hc]]. rewrite !texts_cons in Ht. destruct Ht as (H1 & H2 & H3 & _).
    autorewrite with bpf. do 3 (split; [done|]). split; [done|]. apply bind_ok. exists osha. split.
    { apply require_string_ok. split; [done|]. destruct (Hf "object_sha256") as (s & Hs & Hne); [by right; right; left|]. congruence. }
    apply bind_ok_unit. split; [by apply is_text_ok|]. apply bind_ok. exists obj. split; [by apply require_string_ok|].
    apply bind_ok. exists (Path obj). split; [by apply repo_path_ok|]. apply bind_ok_unit. split; [apply abi_require_ok; by apply file_digest_is_file in Hdig|].
    apply bind_ok. exists osha. split; [by apply sha256_of_ok|]. apply bind_ok_unit. split; [apply abi_require_ok, String.eqb_refl|]. by apply common_then.
Qed.
Lemma skip_accepted F sha d mode : check_skip F d (frozen_snapshot sha) = Ok mode <-> mode = "skip" /\ skip_ok F sha d.
Proof.
  assert (Ha : for_each SKIP_ABSENT (fun key => require (is_none (get d key)) ("skip must not include " ++ key)) = Ok tt <->
    forall key, In key SKIP_ABSENT -> get d key = JNull).
  { rewrite for_each_ok, Forall_forall. setoid_rewrite list_elem_of_In. setoid_rewrite abi_require_ok.
    assert (Hn : forall v, is_none v = true <-> v = JNull) by (intros []; split; done). by setoid_rewrite Hn. }
  unfold check_skip. autorewrite with bpf. rewrite full_text_ok, Ha, common_then. split.
  - intros (H1 & H2 & Hr & Hn & H3 & H4 & -> & Hc). split; [done|]. split; try done. by rewrite !texts_cons, texts_nil.
  - intros [-> [Ht Hr Hn [H3 H4] Hc]]. rewrite !texts_cons in Ht. tauto.
Qed.

Lemma evidence_loaded F p d : load_json F p = Ok d <-> holds_object F p d.
Proof. unfold load_json. apply loads_dict; [intros e r; repeat case_decide; intros [=]; subst; by eexists | intros v; apply obj_is]. Qed.

Lemma abi_freeze_accepted F header strategy metadata skip_json mode :
  validate F header strategy metadata skip_json = Ok mode <-> freeze_ok F header strategy metadata skip_json mode.
Proof.
  unfold validate, freeze_ok, evidence_ok. split.
  - intros (snapshot & Hh%header_accepted & (text & [Ht Hn]%require_text_ok & H)%bind_ok)%bind_ok.
    pose proof Hh as (htext & sha & Hht & Hfz & Hsha & ->). exists sha. split; [done|]. split; [by exists text|].
    destruct (is_file F metadata) eqn:Em.
    + apply bind_ok in H as (d & Hd%evidence_loaded & [-> Ho]%object_accepted). left. split_and!; [done..|]. by exists d.
    + destruct skip_json as [skip|]; [|by apply bpf_fail_ok in H]. destruct (is_file F skip) eqn:Es; [|by apply bpf_fail_ok in H].
      apply bind_ok in H as (d & Hd%evidence_loaded & [-> Ho]%skip_accepted). right. split_and!; [done..|]. by exists skip, d.
  - intros (sha & Hh & (text & Ht & Hn) & He). apply bind_ok. exists (frozen_snapshot sha). split; [by apply header_accepted|].
    apply bind_ok. exists text. split; [by apply require_text_ok|]. destruct He as [(Em & -> & d & Hd & Ho)|(Em & -> & skip & d & -> & Es & Hd & Ho)]; rewrite Em.
    + apply bind_ok. exists d. split; [by apply evidence_loaded | by apply object_accepted].
    + rewrite Es. apply bind_ok. exists d. split; [by apply evidence_loaded | by apply skip_accepted].
Qed.

(** A frozen ABI, its source and the metadata of a skipped build, until the metadata
    claims a host mutation or the source gains a program. *)
Definition line (s : string) : string := s ++ chr 10.
Definition lines_of {A} (f : A -> string) (l : list A) : string := String.concat "" (map (fun x => line (f x)) l).
Definition demo_struct (name : string) (fields : list string) : string :=
  line ("struct " ++ name ++ " {") ++ lines_of (fun f => "  " ++ f ++ ";") fields ++ line "};".
Definition demo_enum (name : string) (rows : list string) : string :=
  line ("enum " ++ name ++ " {") ++ lines_of (fun r => "  " ++ snd r ++ " = " ++ str_nat (fst r) ++ ",") (combine (seq 0 (List.length rows)) rows)
  ++ line "};".
Definition demo_header : string :=
  lines_of (fun kv => "#define " ++ fst kv ++ " " ++ snd kv) EXPECTED_DEFINES
  ++ demo_enum "zigsched_stat_index" EXPECTED_STATS ++ demo_enum "zigsched_event_index" EXPECTED_EVENTS
  ++ demo_struct "zigsched_stats" EXPECTED_STATS_FIELDS ++ demo_struct "zigsched_policy_config" EXPECTED_POLICY_CONFIG_FIELDS
  ++ demo_struct "zigsched_cgroup_policy" EXPECTED_CGROUP_POLICY_FIELDS
  ++ demo_struct "sched_ext_ops" ("char name[128]" :: "zigsched_u64 flags" :: map (fun c => "int (" ++ "*" ++ c ++ ")(void)") ABI_V3_ACCEPTED_CALLBACKS).
Definition demo_map (l : SourceMapLayout) : string :=
  line "struct {" ++ line ("  __uint(type, " ++ map_type l ++ "); // " ++ layout_name l) ++ line ("  __uint(max_entries, " ++ max_entries l ++ ");")
  ++ line ("  __type(key, " ++ key_type l ++ ");") ++ line ("  __type(value, " ++ value_type l ++ ");")
  ++ line ("} " ++ layout_name l ++ " " ++ section_text ".maps" ++ ";").
Definition demo_source (extra : list string) : string :=
  line "/* maps */" ++ String.concat "" (map demo_map EXPECTED_MAP_LAYOUTS)
  ++ lines_of (fun s => section_text s ++ " int BPF_PROG(f) { return 0; }") (ABI_V3_PROGRAM_SECTIONS ++ extra)%list
  ++ line ("struct sched_ext_ops " ++ POLICY_SYMBOL ++ " " ++ section_text ".struct_ops" ++ " = {")
  ++ line ("  .name = " ++ chr 34 ++ POLICY_NAME ++ chr 34 ++ ",") ++ line ("  .flags = " ++ PARTIAL_SWITCH ++ ",")
  ++ lines_of (fun c => "  ." ++ c ++ " = (void *)" ++ c ++ ",") ABI_V3_ACCEPTED_CALLBACKS ++ line "};".
Definition demo_contract (source_sha : string) : json :=
  JDict [("abi_version", JInt 3); ("header_sha256", JStr (sha256_hex demo_header)); ("source_sha256", JStr source_sha);
    ("defines", text_object EXPECTED_DEFINES); ("stats_count", JInt 13); ("events_count", JInt 6); ("stats", jstrs EXPECTED_STATS);
    ("events", jstrs EXPECTED_EVENTS); ("stats_fields", jstrs EXPECTED_STATS_FIELDS);
    ("policy_config_fields", jstrs EXPECTED_POLICY_CONFIG_FIELDS); ("cgroup_policy_fields", jstrs EXPECTED_CGROUP_POLICY_FIELDS);
    ("struct_ops_used_fields", jstrs ABI_V3_STRUCT_OPS_USED_FIELDS); ("abi_v3_accepted_callbacks", jstrs ABI_V3_ACCEPTED_CALLBACKS);
    ("abi_v3_source_status", JStr "implemented"); ("cgroup_knob_semantics", text_object CGROUP_KNOB_SEMANTICS);
    ("cgroup_evidence", JDict EXPECTED_CGROUP_EVIDENCE); ("tuple_reference", JStr TUPLE_DOCUMENT);
    ("map_layouts", JDict (source_map_layouts_object (frozen_source_abi "")))].
Definition demo_skip (source_sha : string) (host_mutation : bool) : json :=
  JDict [("schema", JStr "zig-scheduler/bpf-build-skip/v1"); ("status", JStr "SKIP"); ("reason", JStr "clang is missing");
    ("release_eligible", JBool false); ("skip_is_release_eligible", JBool false); ("policy_name", JStr POLICY_NAME);
    ("policy_symbol", JStr POLICY_SYMBOL); ("vm_only", JBool true); ("vm_marker_required", JStr VM_MARKER); ("vm_contract", JStr VM_CONTRACT);
    ("host_mutation", JBool host_mutation); ("host_attach_allowed", JBool false); ("verification_claimed", JBool false);
    ("source_sha256", JStr source_sha); ("source_hash", JStr ("sha256:" ++ source_sha)); ("source", JStr "bpf/policy.c");
    ("abi_contract", demo_contract source_sha);
    ("tuple", JDict [("target_arch", JStr "bpf"); ("target_define", JStr "__TARGET_ARCH_x86"); ("vm_required_for_attach", JBool true);
                     ("vm_contract", JStr VM_CONTRACT); ("tuple_reference", JStr TUPLE_DOCUMENT)]);
    ("tool_versions", text_object (map (fun t => (t, "unavailable")) TOOLS));
    ("struct_ops", JDict [("policy_name", JStr POLICY_NAME); ("object_name", JStr POLICY_SYMBOL); ("object_section", JStr ".struct_ops");
                          ("expected_switch_mode", JStr PARTIAL_SWITCH); ("prohibited_switch_modes", jstrs ["SCX_OPS_SWITCH_ALL"]);
                          ("expected_callbacks", jstrs ABI_V3_ACCEPTED_CALLBACKS); ("program_sections", jstrs ABI_V3_PROGRAM_SECTIONS)])].
Definition demo_bpf_tree (extra : list string) (host_mutation : bool) : fs :=
  fs_of "/repo" [("h.h", File demo_header); ("adr.md", File (String.concat " " REQUIRED_ADR_TEXT)); ("bpf/policy.c", File (demo_source extra));
    ("skip.json", File (dumps (demo_skip (sha256_hex (demo_source extra)) host_mutation)))].
Definition demo_argv : list string := ["--header"; "h.h"; "--strategy"; "adr.md"; "--metadata"; "meta.json"; "--skip-json"; "skip.json"].
Example demo_abi_accepted :
  main (demo_bpf_tree [] false) (fun _ => Ok []) demo_argv
  = Exited 0 ["PASS BPF ABI freeze check: mode=skip abi=v3 stats=13 events=6 header=h.h strategy=adr.md"] [].
Proof. vm_compute. reflexivity. Qed.
Example demo_abi_refused :
  main (demo_bpf_tree [] true) (fun _ => Ok []) demo_argv
  = Exited 1 [] ["FAIL BPF ABI freeze check: BPF metadata must not claim host mutation"]
  /\ exists message, main (demo_bpf_tree ["struct_ops/zigsched_minimal_exit"] false) (fun _ => Ok []) demo_argv = Exited 1 [] [message].
Proof. split; [vm_compute; reflexivity | eexists; vm_compute; reflexivity]. Qed.

(** ** Properties *)

(** C34: the checker prints PASS with a mode exactly when the header has the frozen
    defines, enumerations numbered from zero, struct layouts and callbacks, the
    strategy document says what it must, and the metadata of the object, or in its
    absence of the skipped build, is for the virtual machine only and repeats the
    frozen ABI: the digests of the header, of the source and of the object are those
    of their bytes, and the source declares the frozen maps, programs and callbacks. *)
Theorem bpf_abi_iff F rehearse h s m k out :
  main F rehearse ["--header"; h; "--strategy"; s; "--metadata"; m; "--skip-json"; k] = Exited 0 out [] <->
  exists mode, freeze_ok F (Path h) (Path s) (Path m) (Some (Path k)) mode
    /\ out = ["PASS BPF ABI freeze check: mode=" ++ mode ++ " abi=v3 stats=13 events=6 header=" ++ path_str (Path h)
              ++ " strategy=" ++ path_str (Path s)].
Proof.
  setoid_rewrite <- abi_freeze_accepted. unfold main, run_main, run.
  cbn [parse_args String.eqb Ascii.eqb Bool.eqb andb bind self_test header strategy metadata skip_json].
  destruct (validate F (Path h) (Path s) (Path m) (Some (Path k))) as [mode|e]; cbn [bind].
  - split; [intros [= <-]; by exists mode | by intros (? & [= <-] & ->)].
  - split; [destruct (_ || _); discriminate | by intros (? & [=] & _)].
Qed.
