(* ===== verification/ProtectedCore.v ===== *)
(** ProtectedCore: qa/protected_core_suite_check.py, the shape of the
    protected-core matrix suite and the proofs each of its rows links to. *)
From S2P Require Import Prelude PyStr PyRe PyFloat PyJson Sha256 PyFs PyMain RuntimeSampleCommon PolicyAbi SchedExt RuntimeSample MatrixModel Telemetry Fields.

Local Open Scope string_scope.

Definition PROTECTED_REQUIRED_ROWS : list string := ["live-backend"; "workload-cpu-saturation"; "workload-cgroup-weight-quota"].
Definition LATENCY_ROWS : list string := ["workload-interactive-latency"; "workload-scheduler-affinity-churn"].
Definition ROW_LOCAL_FIELDS : list string := [
  "runtime_sample_path"; "incident_path"; "rollback_proof_path"; "cleanup_proof_path"; "host_refusal_proof_path"].
Definition ABI_V3_LABEL : string := "zigsched-bpf-abi-v3".
Definition REQUIRED_CALLBACK_STATS : list string := [
  "cgroup_init_calls"; "cgroup_exit_calls"; "cgroup_move_calls"; "cgroup_set_weight_calls"; "cgroup_weight_observed"].

Definition fail {A} (m : string) : result A := raise ProtectedCoreSuiteError m.
Definition require (condition : bool) (message : string) : result unit := ensure condition ProtectedCoreSuiteError message.

Definition text (value : json) (context : string) : result string :=
  match value with
  | JStr s => if String.eqb s "" then fail (context ++ " must be non-empty text") else Ok s
  | _ => fail (context ++ " must be non-empty text")
  end.
Definition obj (value : json) (context : string) : result jobject :=
  match value with JDict d => Ok d | _ => fail (context ++ " must be an object") end.
Definition safe_path (value : json) (context : string) : result path :=
  let* raw := text value context in
  let p := Path raw in
  require (negb (is_absolute p) && negb (mem ".." (parts p))) (context ++ " must be relative and non-traversing: " ++ raw) ;;;
  Ok p.
Definition require_descendant (p root : path) (context : string) : result unit :=
  require (path_eqb p root || is_prefix (parts root) (parts p))
    (context ++ " must stay under " ++ path_str root ++ ": " ++ path_str p).

Fixpoint objects (index : nat) (rows : list json) (context : string) : result (list jobject) :=
  match rows with
  | [] => Ok []
  | row :: rows =>
      let* d := obj row (context ++ ".rows[" ++ str_nat index ++ "]") in
      let* parsed := objects (S index) rows context in
      Ok (d :: parsed)
  end.
Definition manifest_rows (manifest : jobject) (context : string) : result (list jobject) :=
  match get manifest "rows" with JList rows => objects 0 rows context | _ => fail (context ++ ".rows must be a list") end.

(** The rows under their scenarios, in order. *)
Definition by_scenario (rows : list jobject) (context : string) : result (list (string * jobject)) :=
  for_fold 0 rows [] (fun index row_ref found =>
    let* scenario := text (get row_ref "scenario_id") (context ++ ".rows[" ++ str_nat index ++ "].scenario_id") in
    require (negb (mem scenario (map fst found))) (context ++ " duplicate scenario: " ++ scenario) ;;;
    Ok (found ++ [(scenario, row_ref)])%list).

(** [found[scenario]] *)
Definition row_of (found : list (string * jobject)) (scenario : string) : result jobject :=
  match assoc scenario found with Some row => Ok row | None => raise KeyError scenario end.

Definition validate_suite_shape (rows : list jobject) (context : string) : result (list (string * jobject)) :=
  let* found := by_scenario rows context in
  let scenarios := map fst found in
  let missing := sorted (set_diff PROTECTED_REQUIRED_ROWS scenarios) in
  require (is_empty missing) (context ++ " missing protected-core row(s): " ++ join ", " missing) ;;;
  let selected_latency := sorted (List.filter (fun s => mem s LATENCY_ROWS) scenarios) in
  require (Nat.eqb (List.length selected_latency) 1)
    (context ++ " requires exactly one latency/churn row, found " ++ str_nat (List.length selected_latency)) ;;;
  let expected := (PROTECTED_REQUIRED_ROWS ++ selected_latency)%list in
  let extra := sorted (set_diff scenarios expected) in
  require (is_empty extra) (context ++ " has non-protected-core row(s): " ++ join ", " extra) ;;;
  for_each (sorted expected) (fun scenario =>
    let* row := row_of found scenario in
    let* outcome := text (get row "outcome") (context ++ "." ++ scenario ++ ".outcome") in
    require (String.eqb outcome "PASS") (context ++ "." ++ scenario ++ " must PASS for protected-core PASS proof")) ;;;
  Ok found.

Definition validate_row_local_artifacts (row : jobject) (row_path run_root : path) (context : string) : result unit :=
  let row_dir := parent row_path in
  for_each ROW_LOCAL_FIELDS (fun field =>
    let* artifact := safe_path (get row field) (context ++ "." ++ field) in
    require_descendant artifact row_dir (context ++ "." ++ field)) ;;;
  let* workload := obj (get row "workload") (context ++ ".workload") in
  let* policy := obj (get row "policy") (context ++ ".policy") in
  let* privacy := obj (get row "privacy_scan") (context ++ ".privacy_scan") in
  let* spec := safe_path (get workload "spec_path") (context ++ ".workload.spec_path") in
  let* object := safe_path (get policy "object_path") (context ++ ".policy.object_path") in
  let* report := safe_path (get privacy "report_path") (context ++ ".privacy_scan.report_path") in
  require_descendant spec row_dir (context ++ ".workload.spec_path") ;;;
  require_descendant object row_dir (context ++ ".policy.object_path") ;;;
  require_descendant report row_dir (context ++ ".privacy_scan.report_path") ;;;
  let* daemon := safe_path (get row "daemon_event_path") (context ++ ".daemon_event_path") in
  require_descendant daemon run_root (context ++ ".daemon_event_path").

(** [isinstance(True, int)] holds as well. *)
Definition nonnegative_int (value : json) (context : string) : result Z :=
  match as_int value with
  | Some n => if (n <? 0)%Z then fail (context ++ " must be a nonnegative integer") else Ok n
  | None => fail (context ++ " must be a nonnegative integer")
  end.

Fixpoint string_items (l : list json) (context : string) : result (list string) :=
  match l with
  | [] => Ok []
  | item :: l =>
      let* s := match item with
                | JStr s => if String.eqb s "" then fail (context ++ " must be a string list") else Ok s
                | _ => fail (context ++ " must be a string list")
                end in
      let* parsed := string_items l context in
      Ok (s :: parsed)
  end.
Definition string_list (value : json) (context : string) : result (list string) :=
  match value with JList l => string_items l context | _ => fail (context ++ " must be a string list") end.

(** [require(needle in string_list(...))] and [require(nonnegative_int(...) > 0)] *)
Definition lists (d : jobject) (field needle context message : string) : result unit :=
  let* l := string_list (get d field) (context ++ "." ++ field) in require (mem needle l) message.
Definition positive (d : jobject) (field context message : string) : result unit :=
  let* n := nonnegative_int (get d field) (context ++ "." ++ field) in require (0 <? n)%Z message.

(** What the three parts must say when they are present. *)
Definition require_cgroup_evidence (policy_map stats coherence : jobject) (context : string) : result unit :=
  let map_context := context ++ ".cgroup_policy_map" in
  let stats_context := context ++ ".cgroup_callback_stats" in
  require (py_eq (get policy_map "map_name") (JStr "zigsched_cgroup_policy")) (map_context ++ ".map_name must be zigsched_cgroup_policy") ;;;
  lists policy_map "callback_observed_knobs" "cpu.weight" map_context (context ++ " missing cpu.weight callback-observed map evidence") ;;;
  lists policy_map "deferred_knobs" "cpu.max" map_context (context ++ " must keep cpu.max deferred in policy map") ;;;
  lists policy_map "deferred_knobs" "uclamp" map_context (context ++ " must keep uclamp deferred in policy map") ;;;
  positive policy_map "last_weight" map_context (context ++ " requires observed cpu.weight value") ;;;
  positive policy_map "weight_generation" map_context (context ++ " requires cpu.weight generation evidence") ;;;
  let* move_generation := nonnegative_int (get policy_map "move_generation") (map_context ++ ".move_generation") in
  for_each REQUIRED_CALLBACK_STATS (fun field =>
    let* _ := nonnegative_int (get stats field) (stats_context ++ "." ++ field) in Ok tt) ;;;
  positive stats "cgroup_init_calls" stats_context (context ++ " requires cgroup init callback evidence") ;;;
  let* move_calls := nonnegative_int (get stats "cgroup_move_calls") (stats_context ++ ".cgroup_move_calls") in
  (if (0 <? move_calls)%Z
   then require (0 <? move_generation)%Z (context ++ " requires cgroup move generation evidence when move callbacks fire") else Ok tt) ;;;
  positive stats "cgroup_set_weight_calls" stats_context (context ++ " requires cgroup set-weight callback evidence") ;;;
  positive stats "cgroup_weight_observed" stats_context (context ++ " requires observed cpu.weight callback counter") ;;;
  require (is_true (get stats "cpu_weight_callback_observed")) (stats_context ++ ".cpu_weight_callback_observed must be true") ;;;
  for_each ["fifo_insert_dispatch_coherent"; "vtime_insert_dispatch_coherent"; "dispatch_empty_accounted"] (fun field =>
    require (is_true (get coherence field)) (context ++ ".dsq_counter_coherence." ++ field ++ " must be true")).

Definition validate_present_cgroup_evidence (policy_abi : jobject) (context : string) : result bool :=
  let* policy_map := obj (get policy_abi "cgroup_policy_map") (context ++ ".cgroup_policy_map") in
  let* stats := obj (get policy_abi "cgroup_callback_stats") (context ++ ".cgroup_callback_stats") in
  let* coherence := obj (get policy_abi "dsq_counter_coherence") (context ++ ".dsq_counter_coherence") in
  let present (d : jobject) := py_eq (get d "status") (JStr "present") in
  if negb (present policy_map) || negb (present stats) || negb (present coherence) then Ok false else
  require_cgroup_evidence policy_map stats coherence context ;;;
  Ok true.

Section Files.
Variable F : fs.

Definition validate_vm_live_runtime_linkage (row : jobject) (row_path : path) (scenario context : string) : result unit :=
  let* mode := text (get row "evidence_mode") (context ++ ".evidence_mode") in
  require (String.eqb mode "vm-live") (context ++ " protected-core PASS requires vm-live evidence mode") ;;;
  let* marker := obj (get row "vm_marker") (context ++ ".vm_marker") in
  require (is_true (get marker "required") && is_true (get marker "present"))
    (context ++ ".vm_marker must prove a present required VM marker for PASS") ;;;
  let* sample_path := safe_path (get row "runtime_sample_path") (context ++ ".runtime_sample_path") in
  require_descendant sample_path (parent row_path) (context ++ ".runtime_sample_path") ;;;
  validate_vm_captured_input F sample_path (Some scenario).

(** [has_v3] and [has_present_cgroup_evidence] *)
Definition cgroup_step (context : string) (index : nat) (sample : jobject) (found : bool * bool) : result (bool * bool) :=
  match get sample "policy_abi" with
  | JDict policy_abi =>
      if negb (py_eq (get policy_abi "abi_version") (JInt 3)) then Ok found else
      let sample_context := context ++ ".runtime_sample[" ++ str_nat index ++ "].policy_abi" in
      require (py_eq (get policy_abi "abi_label") (JStr ABI_V3_LABEL)) (sample_context ++ ".abi_label must be " ++ ABI_V3_LABEL) ;;;
      let* semantics := obj (get policy_abi "cgroup_semantics") (sample_context ++ ".cgroup_semantics") in
      require (py_eq (get semantics "cpu.weight") (JStr "callback-observed")) (context ++ " missing cpu.weight callback observation") ;;;
      require (py_eq (get semantics "cpu.max") (JStr "deferred")) (context ++ " must keep cpu.max deferred/observe-only") ;;;
      require (py_eq (get semantics "uclamp") (JStr "deferred")) (context ++ " must keep uclamp deferred/observe-only") ;;;
      let* present := validate_present_cgroup_evidence policy_abi sample_context in
      Ok (true, present || snd found)
  | _ => Ok found
  end.

Definition validate_cgroup_abi_linkage (row : jobject) (context : string) : result unit :=
  let* sample_path := safe_path (get row "runtime_sample_path") (context ++ ".runtime_sample_path") in
  let* samples := load_jsonl F sample_path in
  let* (has_v3, has_present_cgroup_evidence) := for_fold 0 samples (false, false) (cgroup_step context) in
  require has_v3 (context ++ " requires ABI-v3 cgroup runtime sample evidence") ;;;
  require has_present_cgroup_evidence (context ++ " requires present cgroup policy map/callback/DSQ evidence").

(** The artifact of a scenario. *)
Definition validate_scenario (p : path) (scenario : string) (row_ref : jobject) : result unit :=
  let context := path_str p ++ "." ++ scenario ++ ".artifact_path" in
  let* artifact_path := safe_path (get row_ref "artifact_path") context in
  require_descendant artifact_path (parent p) context ;;;
  let* row := MatrixModel.load_json F artifact_path in
  let label := path_str artifact_path in
  validate_row_local_artifacts row artifact_path (parent p) label ;;;
  validate_vm_live_runtime_linkage row artifact_path scenario label ;;;
  if String.eqb scenario "workload-cgroup-weight-quota" then validate_cgroup_abi_linkage row label else Ok tt.

Definition validate_manifest (p : path) : result unit :=
  let* manifest := MatrixModel.load_json F p in
  let* rows := manifest_rows manifest (path_str p) in
  let* found := validate_suite_shape rows (path_str p) in
  for_each found (fun '(scenario, row_ref) => validate_scenario p scenario row_ref).

Definition main (self_test : printed) (argv : list string) : exit :=
  end_main (fun c => is_OSError c || is_class RuntimeSampleError c || is_class ProtectedCoreSuiteError c
                     || is_class ProtectedCoreTelemetryError c)
    "FAIL protected-core suite"
    (match argv with
     | ["--self-test"] => self_test
     | ["--manifest"; p] => reading (validate_manifest (Path p)) (fun _ => (["PASS protected-core suite: " ++ p], Ok tt))
     | _ => silent (fail "usage: protected_core_suite_check.py --self-test | --manifest <path>")
     end).
End Files.

(** ** Specification *)

(** A relative path at [d[field]] that stays under [root]. *)
Definition path_field (d : jobject) (field : string) (p : path) : Prop :=
  exists s, safe_path_text (get d field) s /\ p = Path s.
Definition under (d : jobject) (field : string) (root : path) : Prop :=
  exists p, path_field d field p /\ below root p.

(** The suite: the three required scenarios and one of the latency scenarios,
    each once, every one of them passed. *)
Definition suite_ok (rows : list jobject) (scenarios : list string) : Prop :=
  Forall2 (fun row scenario => get row "scenario_id" = JStr scenario) rows scenarios
  /\ NoDup scenarios
  /\ (exists latency, In latency LATENCY_ROWS
        /\ forall s, In s scenarios <-> In s PROTECTED_REQUIRED_ROWS \/ s = latency)
  /\ Forall (fun row => get row "outcome" = JStr "PASS") rows.

Record row_local (row : jobject) (row_dir run_root : path) : Prop := {
  loc_proofs : forall f, In f ROW_LOCAL_FIELDS -> under row f row_dir;
  loc_workload : exists d, get row "workload" = JDict d /\ under d "spec_path" row_dir;
  loc_policy : exists d, get row "policy" = JDict d /\ under d "object_path" row_dir;
  loc_privacy : exists d, get row "privacy_scan" = JDict d /\ under d "report_path" row_dir;
  loc_daemon : under row "daemon_event_path" run_root;
}.

(** Values of the policy ABI block. *)
Definition count_at (d : jobject) (field : string) (n : Z) : Prop := as_int (get d field) = Some n /\ (0 <= n)%Z.
Definition positive_at (d : jobject) (field : string) : Prop := exists n, as_int (get d field) = Some n /\ (0 < n)%Z.
Definition lists_text (d : jobject) (field needle : string) : Prop :=
  exists l, get d field = jstrs l /\ ~ In "" l /\ In needle l.

Record cgroup_evidence (policy_map stats coherence : jobject) : Prop := {
  cg_map : get policy_map "map_name" = JStr "zigsched_cgroup_policy";
  cg_observed : lists_text policy_map "callback_observed_knobs" "cpu.weight";
  cg_deferred : lists_text policy_map "deferred_knobs" "cpu.max" /\ lists_text policy_map "deferred_knobs" "uclamp";
  cg_weight : positive_at policy_map "last_weight" /\ positive_at policy_map "weight_generation";
  cg_counts : forall f, In f REQUIRED_CALLBACK_STATS -> exists n, count_at stats f n;
  cg_calls : positive_at stats "cgroup_init_calls" /\ positive_at stats "cgroup_set_weight_calls"
             /\ positive_at stats "cgroup_weight_observed";
  cg_moves : (exists n, count_at policy_map "move_generation" n)
             /\ (positive_at stats "cgroup_move_calls" -> positive_at policy_map "move_generation");
  cg_observes : get stats "cpu_weight_callback_observed" = JBool true;
  cg_coherent : forall f, In f ["fifo_insert_dispatch_coherent"; "vtime_insert_dispatch_coherent"; "dispatch_empty_accounted"] ->
                get coherence f = JBool true;
}.

(** The three parts of the block, all of them marked as present or not. *)
Definition cgroup_parts (policy_abi policy_map stats coherence : jobject) : Prop :=
  get policy_abi "cgroup_policy_map" = JDict policy_map /\ get policy_abi "cgroup_callback_stats" = JDict stats
  /\ get policy_abi "dsq_counter_coherence" = JDict coherence.
Definition all_present (policy_map stats coherence : jobject) : Prop :=
  get policy_map "status" = JStr "present" /\ get stats "status" = JStr "present" /\ get coherence "status" = JStr "present".

(** A block of version 3, and what it must say. *)
Definition v3_block (sample policy_abi : jobject) : Prop :=
  get sample "policy_abi" = JDict policy_abi /\ py_eq (get policy_abi "abi_version") (JInt 3) = true.
Definition block_ok (policy_abi : jobject) : Prop :=
  get policy_abi "abi_label" = JStr ABI_V3_LABEL
  /\ (exists semantics, get policy_abi "cgroup_semantics" = JDict semantics
        /\ get semantics "cpu.weight" = JStr "callback-observed"
        /\ get semantics "cpu.max" = JStr "deferred" /\ get semantics "uclamp" = JStr "deferred")
  /\ exists m s c, cgroup_parts policy_abi m s c /\ (all_present m s c -> cgroup_evidence m s c).
Definition shows_cgroup (sample : jobject) : Prop :=
  exists policy_abi m s c, v3_block sample policy_abi /\ cgroup_parts policy_abi m s c /\ all_present m s c.

Definition cgroup_linked (F : fs) (row : jobject) : Prop :=
  exists p samples, path_field row "runtime_sample_path" p /\ load_jsonl F p = Ok samples
    /\ Forall (fun sample => forall d, v3_block sample d -> block_ok d) samples
    /\ List.Exists shows_cgroup samples.

Definition live_linked (F : fs) (row : jobject) (row_dir : path) (scenario : string) : Prop :=
  get row "evidence_mode" = JStr "vm-live"
  /\ (exists marker, get row "vm_marker" = JDict marker /\ get marker "required" = JBool true /\ get marker "present" = JBool true)
  /\ exists p, path_field row "runtime_sample_path" p /\ below row_dir p /\ vm_captured F p (Some scenario).

(** The artifact a row of the manifest refers to. *)
Definition row_proved (F : fs) (run_root : path) (row_ref : jobject) (scenario : string) : Prop :=
  exists p row, path_field row_ref "artifact_path" p /\ below run_root p /\ MatrixModel.load_json F p = Ok row
    /\ row_local row (parent p) run_root /\ live_linked F row (parent p) scenario
    /\ (scenario = "workload-cgroup-weight-quota" -> cgroup_linked F row).

Definition protected_ok (F : fs) (p : path) : Prop :=
  exists manifest rows scenarios, MatrixModel.load_json F p = Ok manifest /\ get manifest "rows" = JList (map JDict rows)
    /\ suite_ok rows scenarios /\ Forall2 (row_proved F (parent p)) rows scenarios.

(** ** Reads *)
Lemma suite_fail_ok {A} m (a : A) : fail m = Ok a <-> False.
Proof. apply raise_ok. Qed.
Lemma suite_text_ok v context s : text v context = Ok s <-> v = JStr s /\ s <> "".
Proof.
  unfold text. destruct v as [| | | |t| |]; try (rewrite suite_fail_ok; naive_solver).
  destruct (String.eqb_spec t "") as [->|]; [rewrite suite_fail_ok|rewrite Ok_inj]; naive_solver.
Qed.
Lemma suite_obj_ok v context d : obj v context = Ok d <-> v = JDict d.
Proof. unfold obj. destruct v; simpl; split; (congruence || discriminate). Qed.
Lemma suite_path_ok d field context p : safe_path (get d field) context = Ok p <-> path_field d field p.
Proof.
  unfold safe_path, path_field, safe_path_text, require. cbv zeta. rewrite bind_ok. setoid_rewrite suite_text_ok.
  setoid_rewrite bind_ok_unit. setoid_rewrite ensure_ok. setoid_rewrite plain_path_iff. setoid_rewrite Ok_inj. naive_solver.
Qed.
Lemma descendant_ok p root context : require_descendant p root context = Ok tt <-> below root p.
Proof.
  unfold require_descendant, require, below. rewrite ensure_ok, orb_true_iff, path_eqb_eq, is_prefix_spec. done.
Qed.
Lemma nonneg_ok d field context n : nonnegative_int (get d field) context = Ok n <-> count_at d field n.
Proof.
  unfold nonnegative_int, count_at. destruct (as_int (get d field)) as [m|]; [|rewrite suite_fail_ok; naive_solver].
  destruct (Z.ltb_spec m 0); rewrite ?suite_fail_ok, ?Ok_inj; (split; [naive_solver lia | intros [[= ->] ?]; (lia || done)]).
Qed.
Lemma positive_ok d field context message : positive d field context message = Ok tt <-> positive_at d field.
Proof.
  unfold positive, positive_at, require. rewrite bind_ok. setoid_rewrite nonneg_ok. unfold count_at. setoid_rewrite ensure_ok.
  setoid_rewrite Z.ltb_lt. split; [naive_solver|]. intros (n & ? & ?). exists n. repeat split; (done || lia).
Qed.

Lemma suite_items_ok l context parsed : string_items l context = Ok parsed <-> l = map JStr parsed /\ ~ In "" parsed.
Proof.
  revert parsed. induction l as [|item l IH]; intros parsed; cbn [string_items].
  - rewrite Ok_inj. split; [intros <-; naive_solver | by intros [H _]; destruct parsed].
  - rewrite bind_ok. setoid_rewrite bind_ok. setoid_rewrite IH. split.
    + intros (s & Hs & rest & [-> Hr] & [= <-]). destruct item as [| | | |t| |]; try discriminate Hs.
      destruct (String.eqb_spec t ""); [discriminate Hs|]. injection Hs as <-. naive_solver.
    + intros [H Hn]. destruct parsed as [|s rest]; [discriminate|]. injection H as -> ->.
      destruct (String.eqb_spec s "") as [->|]; [destruct Hn; by left|]. exists s. split; [done|]. exists rest. naive_solver.
Qed.
Lemma lists_ok d field needle context message : lists d field needle context message = Ok tt <-> lists_text d field needle.
Proof.
  unfold lists, lists_text, require, string_list, jstrs. rewrite bind_ok. setoid_rewrite ensure_ok. setoid_rewrite mem_In.
  destruct (get d field); try (setoid_rewrite suite_fail_ok; naive_solver). setoid_rewrite suite_items_ok. naive_solver.
Qed.

(** ** The suite *)
Lemma objects_ok index rows context parsed : objects index rows context = Ok parsed <-> rows = map JDict parsed.
Proof.
  revert index parsed. induction rows as [|row rows IH]; intros index parsed; cbn [objects].
  - rewrite Ok_inj. split; [by intros <- | by destruct parsed].
  - rewrite bind_ok. setoid_rewrite bind_ok. setoid_rewrite suite_obj_ok. setoid_rewrite IH. split.
    + by intros (d & -> & rest & -> & [= <-]).
    + destruct parsed as [|d rest]; [discriminate|]. intros [= -> ->]. exists d. split; [done|]. by exists rest.
Qed.
Lemma suite_rows_ok manifest context rows : manifest_rows manifest context = Ok rows <-> get manifest "rows" = JList (map JDict rows).
Proof.
  unfold manifest_rows. destruct (get manifest "rows"); try (rewrite suite_fail_ok; split; [done | discriminate]).
  rewrite objects_ok. split; [by intros -> | by intros [= ->]].
Qed.

Lemma names_fst (rows : list jobject) (scenarios : list string) : List.length rows = List.length scenarios -> map fst (zip scenarios rows) = (scenarios : list string).
Proof. revert scenarios. induction rows; intros [|s l]; simpl; intros; try lia; [done|]. f_equal. apply IHrows. lia. Qed.

(** The loop collects the rows under their scenarios, which are texts and differ. *)
Lemma collect_ok rows context index acc found :
  for_fold index rows acc (fun index row_ref found =>
    let* scenario := text (get row_ref "scenario_id") (context ++ ".rows[" ++ str_nat index ++ "].scenario_id") in
    require (negb (mem scenario (map fst found))) (context ++ " duplicate scenario: " ++ scenario) ;;;
    Ok (found ++ [(scenario, row_ref)])%list) = Ok found <->
  exists scenarios, Forall2 (fun row s => get row "scenario_id" = JStr s /\ s <> "") rows scenarios
    /\ NoDup scenarios /\ (forall s, In s scenarios -> ~ In s (map fst acc)) /\ found = (acc ++ zip scenarios rows)%list.
Proof.
  revert index acc. induction rows as [|row rows IH]; intros index acc; cbn [for_fold].
  - rewrite Ok_inj. split.
    + intros <-. exists []. split_and!; [constructor | constructor | by intros ? [] | by rewrite app_nil_r].
    + intros (l & H & _ & _ & ->). inversion H. by rewrite app_nil_r.
  - rewrite bind_ok. setoid_rewrite IH. clear IH. split.
    + intros (s1 & (s & [Hs Hn]%suite_text_ok & [Hd [= <-]]%bind_ok_unit)%bind_ok & l & Hl & Hu & Hf & ->).
      apply ensure_ok in Hd. rewrite negb_true_iff, <- not_true_iff_false, mem_In in Hd. rewrite map_app in Hf.
      exists (s :: l). split_and!; [by constructor| | |].
      * constructor; [|done]. intros Hin%list_elem_of_In. apply (Hf s Hin). rewrite in_app_iff. right. by left.
      * intros x [<-|Hx]; [done|]. intros Ha. apply (Hf x Hx). rewrite in_app_iff. by left.
      * simpl. by rewrite <- app_assoc.
    + intros (l & Hl & Hu & Hf & ->). inversion Hl as [|? s ? l' [Hs Hn] Hl']; subst. apply NoDup_cons in Hu as [Hu1 Hu2].
      exists (acc ++ [(s, row)])%list. split.
      * rewrite (proj2 (suite_text_ok _ _ s)) by done. cbn [bind]. unfold require. rewrite bind_ok_unit, ensure_ok, negb_true_iff.
        split; [|done]. rewrite <- not_true_iff_false, mem_In. apply Hf. by left.
      * exists l'. split_and!; [done..| |simpl; by rewrite <- app_assoc].
        intros x Hx. rewrite map_app, in_app_iff. intros [Ha|[<-|[]]]; [by apply (Hf x); [right|]|].
        by apply Hu1, list_elem_of_In.
Qed.

Lemma assoc_zip rows scenarios (P : jobject -> Prop) : NoDup scenarios -> List.length rows = List.length scenarios ->
  (forall s, In s scenarios -> exists row, assoc s (zip scenarios rows) = Some row /\ P row) <-> Forall P rows.
Proof.
  revert scenarios. induction rows as [|row rows IH]; intros [|s l] Hu Hl; simpl in Hl; try lia.
  - simpl. split; [constructor | done].
  - apply NoDup_cons in Hu as [Hn Hu]. rewrite list_elem_of_In in Hn. rewrite Forall_cons, <- (IH l) by (done || lia).
    change (zip (s :: l) (row :: rows)) with ((s, row) :: zip l rows). cbn [assoc In]. split.
    + intros H. split.
      * destruct (H s) as (r & Hr & Hp); [by left|]. rewrite String.eqb_refl in Hr. by injection Hr as ->.
      * intros x Hx. destruct (H x) as (r & Hr & Hp); [by right|]. destruct (String.eqb_spec x s) as [->|]; [done|]. by exists r.
    + intros [Hp H] x Hx. destruct (String.eqb_spec x s) as [->|Hne]; [by exists row|]. apply H. naive_solver.
Qed.

Lemma insert_sorted_length x l : List.length (insert_sorted x l) = S (List.length l).
Proof. induction l as [|y l IH]; simpl; [done|]. destruct (String.leb x y); simpl; by rewrite ?IH. Qed.
Lemma sorted_length l : List.length (sorted l) = List.length l.
Proof. induction l as [|x l IH]; simpl; [done|]. by rewrite insert_sorted_length, IH. Qed.

(** One latency scenario is selected. *)
Lemma selected_one scenarios latency : NoDup scenarios ->
  sorted (List.filter (fun s => mem s LATENCY_ROWS) scenarios) = [latency] <->
  forall s, In s scenarios /\ In s LATENCY_ROWS <-> s = latency.
Proof.
  intros Hu. assert (Hf : forall s, In s (List.filter (fun s => mem s LATENCY_ROWS) scenarios) <-> In s scenarios /\ In s LATENCY_ROWS)
    by (intros s; by rewrite filter_In, mem_In).
  setoid_rewrite <- Hf. assert (Hn : NoDup (List.filter (fun s => mem s LATENCY_ROWS) scenarios))
    by (apply NoDup_ListNoDup, List.NoDup_filter, NoDup_ListNoDup, Hu).
  generalize dependent (List.filter (fun s => mem s LATENCY_ROWS) scenarios). intros l _ Hn. split.
  - intros H s. rewrite <- sorted_in, H. simpl. naive_solver.
  - intros H. destruct l as [|x [|y l]].
    + by destruct (proj2 (H latency) eq_refl).
    + by rewrite (proj1 (H x)) by (by left).
    + apply NoDup_cons in Hn as [Hn _]. destruct Hn. rewrite (proj1 (H x)), (proj1 (H y)) by (simpl; auto). left.
Qed.

Lemma apart s : In s PROTECTED_REQUIRED_ROWS -> ~ In s LATENCY_ROWS.
Proof. intros [<-|[<-|[<-|[]]]] [[=]|[[=]|[]]]. Qed.

(** Every expected scenario passed. *)
Lemma suite_passed rows scenarios expected context : (forall s, In s expected <-> In s scenarios) -> NoDup scenarios ->
  List.length rows = List.length scenarios ->
  for_each (sorted expected) (fun scenario =>
    let* row := row_of (zip scenarios rows) scenario in
    let* outcome := text (get row "outcome") (context ++ "." ++ scenario ++ ".outcome") in
    require (String.eqb outcome "PASS") (context ++ "." ++ scenario ++ " must PASS for protected-core PASS proof")) = Ok tt
  <-> Forall (fun row => get row "outcome" = JStr "PASS") rows.
Proof.
  intros He Hu Hl. rewrite <- (assoc_zip rows scenarios) by done. rewrite for_each_ok, Forall_forall.
  setoid_rewrite list_elem_of_In. setoid_rewrite sorted_in. setoid_rewrite He. apply forall_proper. intros s.
  unfold row_of. destruct (assoc s _) as [row|]; cbn [bind]; [|split; [intros H Hs; discriminate (H Hs) | intros H Hs; by destruct (H Hs) as (? & [=] & _)]].
  rewrite bind_ok. unfold require. setoid_rewrite suite_text_ok. setoid_rewrite ensure_ok. setoid_rewrite String.eqb_eq.
  clear. split.
  - intros H Hs. destruct (H Hs) as (o & [Ho _] & ->). by exists row.
  - intros H Hs. destruct (H Hs) as (r & [= ->] & Ho). exists "PASS". by rewrite Ho.
Qed.

Lemma suite_shape_ok rows context found : validate_suite_shape rows context = Ok found <->
  exists scenarios, suite_ok rows scenarios /\ found = zip scenarios rows.
Proof.
  unfold validate_suite_shape, by_scenario, suite_ok. rewrite bind_ok. setoid_rewrite collect_ok. cbv zeta. unfold require. split.
  - intros (f & (l & Hl & Hu & _ & ->) & [Hm [Hs [Hx [Hp [= <-]]%bind_ok_unit]%bind_ok_unit]%bind_ok_unit]%bind_ok_unit).
    pose proof (Forall2_length _ _ _ Hl) as Hlen. cbn [app] in *. rewrite names_fst in * by done.
    rewrite ensure_ok, is_empty_iff, no_extra in Hm, Hx. rewrite ensure_ok, Nat.eqb_eq in Hs.
    destruct (sorted (List.filter _ l)) as [|latency [|]] eqn:Hsel; try discriminate Hs.
    rewrite selected_one in Hsel by done. exists l. split; [|done].
    assert (Hin : forall s, In s (PROTECTED_REQUIRED_ROWS ++ [latency])%list <-> In s l).
    { intros s. split; [|apply Hx]. rewrite in_app_iff. intros [H|[<-|[]]]; [by apply Hm | by apply Hsel]. }
    apply suite_passed in Hp; [|done..]. split_and!; [|done| |done].
    + eapply Forall2_impl; [done|]. by intros ? ? [].
    + exists latency. split; [by apply Hsel|]. intros s. rewrite <- Hin, in_app_iff. simpl. naive_solver.
  - intros (l & (Hl & Hu & (latency & Hlat & Hin) & Hp) & ->). pose proof (Forall2_length _ _ _ Hl) as Hlen.
    exists (zip l rows). rewrite names_fst by done.
    assert (Hsel : sorted (List.filter (fun s => mem s LATENCY_ROWS) l) = [latency]).
    { apply selected_one; [done|]. intros s. rewrite Hin. split; [|intros ->; tauto]. intros [[H|H] H']; [by destruct (apart s)|done]. }
    rewrite Hsel. split.
    + exists l. split_and!; [|done|by intros ? _ []|done]. apply Forall2_same_length_lookup. split; [done|].
      intros i row s Hr Hs. split; [exact (Forall2_lookup_lr _ _ _ _ _ _ Hl Hr Hs)|]. intros ->. apply list_elem_of_lookup_2, list_elem_of_In, Hin in Hs.
      destruct Hs as [H| <-]; apply mem_In in H || apply mem_In in Hlat; by vm_compute in *.
    + rewrite !bind_ok_unit, !ensure_ok, !is_empty_iff, !no_extra. split_and!; [|done| | |done].
      * intros s Hs. apply Hin. by left.
      * intros s [Hs| ->]%Hin; rewrite in_app_iff; [by left | right; by left].
      * apply suite_passed; [|done..]. intros s. rewrite Hin, in_app_iff. simpl. naive_solver.
Qed.

(** ** The artifacts of a row *)
Lemma under_ok {A} d field root c1 c2 (k : result A) x :
  (let* p := safe_path (get d field) c1 in require_descendant p root c2 ;;; k) = Ok x <-> under d field root /\ k = Ok x.
Proof.
  unfold under. rewrite bind_ok. setoid_rewrite suite_path_ok. setoid_rewrite bind_ok_unit. setoid_rewrite descendant_ok.
  clear. naive_solver.
Qed.
Lemma under_last d field root c1 c2 :
  (let* p := safe_path (get d field) c1 in require_descendant p root c2) = Ok tt <-> under d field root.
Proof.
  unfold under. rewrite bind_ok. setoid_rewrite suite_path_ok. by setoid_rewrite descendant_ok.
Qed.

Lemma row_local_ok row row_path run_root context :
  validate_row_local_artifacts row row_path run_root context = Ok tt <-> row_local row (parent row_path) run_root.
Proof.
  unfold validate_row_local_artifacts. cbv zeta. rewrite bind_ok_unit, for_each_ok, Forall_forall.
  setoid_rewrite list_elem_of_In. setoid_rewrite under_last. split.
  - intros [Hf (w & Hw%suite_obj_ok & (p & Hp%suite_obj_ok & (v & Hv%suite_obj_ok &
      (q1 & H1%suite_path_ok & (q2 & H2%suite_path_ok & (q3 & H3%suite_path_ok &
        [B1%descendant_ok [B2%descendant_ok [B3%descendant_ok Hd%under_last]%bind_ok_unit]%bind_ok_unit]%bind_ok_unit)%bind_ok)%bind_ok)%bind_ok)%bind_ok)%bind_ok)%bind_ok].
    split; [done| | | |done].
    + exists w. split; [done|]. by exists q1.
    + exists p. split; [done|]. by exists q2.
    + exists v. split; [done|]. by exists q3.
  - intros [Hf (w & Hw & q1 & H1 & B1) (p & Hp & q2 & H2 & B2) (v & Hv & q3 & H3 & B3) Hd]. split; [done|].
    rewrite Hw, Hp, Hv. cbn [obj bind].
    rewrite (proj2 (suite_path_ok _ _ _ q1)), (proj2 (suite_path_ok _ _ _ q2)), (proj2 (suite_path_ok _ _ _ q3)) by done. cbn [bind].
    by rewrite !bind_ok_unit, !descendant_ok, under_last.
Qed.

(** ** The cgroup evidence *)
Lemma moves_ok stats policy_map n move_calls E m : count_at policy_map "move_generation" n -> count_at stats "cgroup_move_calls" move_calls ->
  (if (0 <? move_calls)%Z then ensure (0 <? n)%Z E m else Ok tt) = Ok tt <->
  (positive_at stats "cgroup_move_calls" -> positive_at policy_map "move_generation").
Proof.
  unfold count_at, positive_at. intros [Hn Hn0] [Hc Hc0]. rewrite Hn, Hc. destruct (Z.ltb_spec 0 move_calls).
  - rewrite ensure_ok, Z.ltb_lt. split; [naive_solver|]. intros H'. destruct H' as (? & [= <-] & ?); [by exists move_calls | done].
  - split; [|done]. intros _ (? & [= <-] & ?). lia.
Qed.

Lemma counts_ok stats context fields :
  for_each fields (fun field => let* _ := nonnegative_int (get stats field) (context ++ "." ++ field) in Ok tt) = Ok tt
  <-> forall f, In f fields -> exists n, count_at stats f n.
Proof.
  rewrite for_each_ok, Forall_forall. setoid_rewrite list_elem_of_In. apply forall_proper. intros f.
  rewrite bind_ok. setoid_rewrite nonneg_ok. clear. naive_solver.
Qed.

Local Opaque REQUIRED_CALLBACK_STATS.

Lemma trues_ok d fields E (m : string -> string) :
  for_each fields (fun f => ensure (is_true (get d f)) E (m f)) = Ok tt <-> forall f, In f fields -> get d f = JBool true.
Proof.
  rewrite for_each_ok, Forall_forall. setoid_rewrite list_elem_of_In. setoid_rewrite ensure_ok. by setoid_rewrite is_true_iff.
Qed.

Lemma cgroup_checks m s c context : require_cgroup_evidence m s c context = Ok tt <-> cgroup_evidence m s c.
Proof.
  unfold require_cgroup_evidence, require. cbv zeta.
  rewrite !bind_ok_unit, ensure_ok, py_eq_str, !lists_ok, !positive_ok. split.
  - intros (Hm & Ho & Hd1 & Hd2 & Hw1 & Hw2 & (n & Hn%nonneg_ok & [Hc [Hi%positive_ok
      (mv & Hmv%nonneg_ok & [Hg [Hs1%positive_ok [Hs2%positive_ok [Hb Hf]%bind_ok_unit]%bind_ok_unit]%bind_ok_unit]%bind_ok_unit
      )%bind_ok]%bind_ok_unit]%bind_ok_unit)%bind_ok).
    rewrite counts_ok in Hc. rewrite trues_ok in Hf. rewrite ensure_ok, is_true_iff in Hb. rewrite (moves_ok _ _ _ _ _ _ Hn Hmv) in Hg.
    by split; [..|split; [by exists n|]| |].
  - intros [Hm Ho [] [] Hc (Hi & Hs1 & Hs2) [(n & Hn) Hg] Hb Hf]. split_and!; try done.
    destruct (Hc "cgroup_move_calls") as (mv & Hmv); [apply mem_In; reflexivity|].
    rewrite (proj2 (nonneg_ok _ _ _ n)) by done. cbn [bind]. rewrite bind_ok_unit, counts_ok. split; [done|].
    rewrite bind_ok_unit, positive_ok. split; [done|]. rewrite (proj2 (nonneg_ok _ _ _ mv)) by done. cbn [bind].
    by rewrite !bind_ok_unit, !positive_ok, trues_ok, (moves_ok _ _ _ _ _ _ Hn Hmv), ensure_ok, is_true_iff.
Qed.

Lemma evidence_ok policy_abi context present : validate_present_cgroup_evidence policy_abi context = Ok present <->
  exists m s c, cgroup_parts policy_abi m s c
    /\ if present then all_present m s c /\ cgroup_evidence m s c else ~ all_present m s c.
Proof.
  assert (Hp : forall m s c, negb (py_eq (get m "status") (JStr "present")) || negb (py_eq (get s "status") (JStr "present"))
      || negb (py_eq (get c "status") (JStr "present")) = false <-> all_present m s c).
  { intros m s c. unfold all_present. rewrite !orb_false_iff, !negb_false_iff, !py_eq_str. tauto. }
  unfold validate_present_cgroup_evidence, cgroup_parts. split.
  - intros (m & Hm%suite_obj_ok & (s & Hs%suite_obj_ok & (c & Hc%suite_obj_ok & H)%bind_ok)%bind_ok)%bind_ok.
    exists m, s, c. split; [done|]. specialize (Hp m s c). cbv zeta in H. destruct (_ || _).
    + injection H as <-. intros Ha. by apply Hp in Ha.
    + apply bind_ok_unit in H as [H%cgroup_checks [= <-]]. split; [by apply Hp | done].
  - intros (m & s & c & (-> & -> & ->) & H). cbn [obj bind]. specialize (Hp m s c). cbv zeta. destruct (_ || _), present.
    + destruct H as [H _]. by apply Hp in H.
    + done.
    + destruct H as [_ H%(cgroup_checks _ _ _ context)]. by rewrite H.
    + destruct H. by apply Hp.
Qed.

Lemma step_skip context index sample found : (forall d, ~ v3_block sample d) -> cgroup_step context index sample found = Ok found.
Proof.
  intros Hn. unfold cgroup_step, v3_block in *. destruct (get sample "policy_abi") as [| | | | | |d]; try done.
  destruct (py_eq _ (JInt 3)) eqn:E; [|done]. by destruct (Hn d).
Qed.

Lemma shows_parts sample d m s c : v3_block sample d -> cgroup_parts d m s c -> shows_cgroup sample <-> all_present m s c.
Proof.
  intros [Hd Hv] (Hm & Hs & Hc). unfold shows_cgroup, v3_block, cgroup_parts. split.
  - intros (d' & m' & s' & c' & [Hd' _] & (Hm' & Hs' & Hc') & H). congruence.
  - intros H. by exists d, m, s, c.
Qed.

Lemma step_v3 context index sample d found found' : v3_block sample d -> cgroup_step context index sample found = Ok found' <->
  block_ok d /\ exists present, found' = (true, present || snd found) /\ (present = true <-> shows_cgroup sample).
Proof.
  intros Hblock. pose proof (fun m s c => shows_parts sample d m s c Hblock) as Hshows. destruct Hblock as [Hd Hv].
  unfold cgroup_step. rewrite Hd, Hv. cbn [negb]. cbv zeta. unfold require, block_ok.
  split.
  - intros [Hl (sem & Hsem%suite_obj_ok & [H1 [H2 [H3 (present & Hp & [= <-])%bind_ok]%bind_ok_unit]%bind_ok_unit]%bind_ok_unit)%bind_ok]%bind_ok_unit.
    rewrite ensure_ok, py_eq_str in Hl, H1, H2, H3. apply evidence_ok in Hp as (m & s & c & Hparts & Hp). split.
    + split; [done|]. split; [by exists sem|]. exists m, s, c. split; [done|]. by destruct present; [destruct Hp|].
    + exists present. split; [done|]. rewrite (Hshows m s c) by done. destruct present; [by destruct Hp | by split].
  - intros [(Hl & (sem & Hsem & H1 & H2 & H3) & m & s & c & Hparts & He) (present & -> & Hp)].
    rewrite bind_ok_unit, ensure_ok, py_eq_str. split; [done|]. rewrite Hsem. cbn [obj bind].
    rewrite !bind_ok_unit, !ensure_ok, !py_eq_str, bind_ok. split_and!; [done..|]. exists present. split; [|done].
    apply evidence_ok. exists m, s, c. split; [done|]. rewrite (Hshows m s c) in Hp by done.
    destruct present; [|naive_solver]. assert (all_present m s c) by (by apply Hp). auto.
Qed.

Lemma v3_dec sample : (exists d, v3_block sample d) \/ forall d, ~ v3_block sample d.
Proof.
  unfold v3_block. destruct (get sample "policy_abi") as [| | | | | |d]; try (right; by intros ? [[=] _]).
  destruct (py_eq (get d "abi_version") (JInt 3)) eqn:E; [left; by exists d | right; intros d' [[= <-] H]; congruence].
Qed.

Lemma shows_v3 sample : shows_cgroup sample -> exists d, v3_block sample d.
Proof. intros (d & _ & _ & _ & Hd & _). by exists d. Qed.

Lemma step_ok context index sample found found' : cgroup_step context index sample found = Ok found' <->
  (forall d, v3_block sample d -> block_ok d) /\ exists v3 shown, found' = (v3 || fst found, shown || snd found)
    /\ (v3 = true <-> exists d, v3_block sample d) /\ (shown = true <-> shows_cgroup sample).
Proof.
  destruct (v3_dec sample) as [(d & Hd)|Hn].
  - assert (Hu : forall d', v3_block sample d' -> d' = d) by (intros d' []; destruct Hd; congruence).
    rewrite (step_v3 context index sample d found found' Hd). split.
    + intros [Hb (present & -> & Hp)]. split; [by intros d' ->%Hu|]. exists true, present. split; [done|].
      split; [|done]. split; [by exists d | done].
    + intros [Hb (v3 & shown & -> & Hv & Hs)]. split; [by apply Hb|]. exists shown. split; [|done].
      by rewrite (proj2 Hv) by (by exists d).
  - rewrite step_skip, Ok_inj by done. split.
    + intros <-. split; [intros d Hd; by destruct (Hn d)|]. exists false, false. split; [by destruct found|].
      split; (split; [done|]); [intros (d & Hd)|intros (d & Hd)%shows_v3]; by destruct (Hn d).
    + intros [_ (v3 & shown & -> & Hv & Hs)]. destruct v3.
      { destruct (proj1 Hv eq_refl) as (d & Hd). by destruct (Hn d). }
      destruct shown; [|by destruct found]. destruct (shows_v3 _ (proj1 Hs eq_refl)) as (d & Hd). by destruct (Hn d).
Qed.

Lemma step_exists context index sample found : (forall d, v3_block sample d -> block_ok d) ->
  exists found', cgroup_step context index sample found = Ok found'.
Proof.
  intros Hb. destruct (v3_dec sample) as [(d & Hd)|Hn]; [|exists found; by apply step_skip].
  pose proof (Hb d Hd) as (_ & _ & m & s & c & Hparts & _).
  assert (Hp : exists present, present = true <-> shows_cgroup sample).
  { exists (py_eq (get m "status") (JStr "present") && (py_eq (get s "status") (JStr "present") && py_eq (get c "status") (JStr "present"))).
    rewrite !andb_true_iff, !py_eq_str. by rewrite (shows_parts sample d m s c). }
  destruct Hp as (present & Hp). exists (true, present || snd found). apply (step_v3 _ _ _ d); [done|].
  split; [by apply Hb | by exists present].
Qed.

Lemma cgroup_run_ok context samples index found :
  (exists found', for_fold index samples found (cgroup_step context) = Ok found' /\ fst found' = true /\ snd found' = true) <->
  Forall (fun sample => forall d, v3_block sample d -> block_ok d) samples
  /\ (fst found = true \/ List.Exists (fun sample => exists d, v3_block sample d) samples)
  /\ (snd found = true \/ List.Exists shows_cgroup samples).
Proof.
  revert index found. induction samples as [|sample samples IH]; intros index found; cbn [for_fold].
  - rewrite !List.Exists_nil. split; [|intros (_ & [|[]] & [|[]]); by exists found].
    intros (? & [= <-] & H1 & H2). split; [constructor | split; by left].
  - rewrite Forall_cons, !List.Exists_cons. split.
    + intros (f & (f1 & [Hb (v3 & shown & -> & Hv & Hs)]%step_ok & Hf)%bind_ok & H12).
      destruct (proj1 (IH (S index) (v3 || fst found, shown || snd found))) as (Hall & H1 & H2); [by exists f|]. cbn [fst snd] in H1, H2. rewrite orb_true_iff, Hv in H1.
      rewrite orb_true_iff, Hs in H2. split; [done|]. tauto.
    + intros ([Hb Hall] & H1 & H2). destruct (step_exists context index sample found Hb) as (f1 & Hf1). rewrite Hf1. cbn [bind].
      apply IH. apply step_ok in Hf1 as [_ (v3 & shown & -> & Hv & Hs)]. cbn [fst snd]. rewrite !orb_true_iff, Hv, Hs. split; [done|]. tauto.
Qed.

Lemma cgroup_linkage_ok F row context : validate_cgroup_abi_linkage F row context = Ok tt <-> cgroup_linked F row.
Proof.
  unfold validate_cgroup_abi_linkage, cgroup_linked, require. split.
  - intros (p & Hp%suite_path_ok & (samples & Hl & ([v3 shown] & Hf & [H3%ensure_ok H]%bind_ok_unit)%bind_ok)%bind_ok)%bind_ok.
    apply ensure_ok in H. exists p, samples. split; [done|]. split; [done|].
    destruct (proj1 (cgroup_run_ok context samples 0 (false, false))) as (Hall & _ & [[=]|Hex]); [|done].
    exists (v3, shown). done.
  - intros (p & samples & Hp & Hl & Hall & Hex). rewrite (proj2 (suite_path_ok _ _ _ p)) by done. cbn [bind].
    rewrite Hl. cbn [bind]. destruct (proj2 (cgroup_run_ok context samples 0 (false, false))) as ([v3 shown] & Hf & H1 & H2).
    { split; [done|]. split; right; [|done]. eapply List.Exists_impl; [|done]. apply shows_v3. }
    rewrite Hf. cbn [bind]. by rewrite bind_ok_unit, !ensure_ok.
Qed.

Lemma live_linkage_ok F row row_path scenario context :
  validate_vm_live_runtime_linkage F row row_path scenario context = Ok tt <-> live_linked F row (parent row_path) scenario.
Proof.
  unfold validate_vm_live_runtime_linkage, live_linked, require. split.
  - intros (mode & [Hm _]%suite_text_ok & [Hv (marker & Hk%suite_obj_ok & [Hr
      (p & Hp%suite_path_ok & [Hd%descendant_ok Hc%vm_captured_ok]%bind_ok_unit)%bind_ok]%bind_ok_unit)%bind_ok]%bind_ok_unit)%bind_ok.
    rewrite ensure_ok, String.eqb_eq in Hv. subst mode. rewrite ensure_ok, andb_true_iff, !is_true_iff in Hr.
    split; [done|]. split; [by exists marker | by exists p].
  - intros [Hm [(marker & Hk & Hr) (p & Hp & Hd & Hc)]]. rewrite Hm. cbn [text String.eqb bind]. rewrite Hk. cbn [obj bind].
    rewrite bind_ok_unit. split; [done|]. rewrite bind_ok_unit, ensure_ok, andb_true_iff, !is_true_iff. split; [done|].
    rewrite (proj2 (suite_path_ok _ _ _ p)) by done. cbn [bind]. by rewrite bind_ok_unit, descendant_ok, vm_captured_ok.
Qed.

Lemma scenario_ok F p scenario row_ref : validate_scenario F p scenario row_ref = Ok tt <-> row_proved F (parent p) row_ref scenario.
Proof.
  assert (Hc : forall row label, (if String.eqb scenario "workload-cgroup-weight-quota" then validate_cgroup_abi_linkage F row label else Ok tt) = Ok tt
    <-> (scenario = "workload-cgroup-weight-quota" -> cgroup_linked F row)).
  { intros row label. destruct (String.eqb_spec scenario "workload-cgroup-weight-quota").
    - rewrite cgroup_linkage_ok. split; [done | by intros H; apply H].
    - by split. }
  unfold validate_scenario, row_proved. cbv zeta. split.
  - intros (q & Hq%suite_path_ok & [Hd%descendant_ok (row & Hr & [Hl%row_local_ok [Hv%live_linkage_ok H]%bind_ok_unit]%bind_ok_unit)%bind_ok]%bind_ok_unit)%bind_ok.
    rewrite Hc in H. by exists q, row.
  - intros (q & row & Hq & Hd & Hr & Hl & Hv & H). rewrite (proj2 (suite_path_ok _ _ _ q)) by done. cbn [bind].
    rewrite bind_ok_unit, descendant_ok. split; [done|]. rewrite Hr. cbn [bind].
    by rewrite !bind_ok_unit, row_local_ok, live_linkage_ok, Hc.
Qed.

Lemma each_zip (P : jobject -> string -> Prop) (body : string -> jobject -> result unit) rows scenarios :
  List.length rows = List.length scenarios -> (forall row s, body s row = Ok tt <-> P row s) ->
  for_each (zip scenarios rows) (fun '(scenario, row_ref) => body scenario row_ref) = Ok tt <-> Forall2 P rows scenarios.
Proof.
  intros Hl Hb. revert scenarios Hl. induction rows as [|row rows IH]; intros [|s l] Hl; simpl in Hl; try lia.
  - split; [constructor | done].
  - change (zip (s :: l) (row :: rows)) with ((s, row) :: zip l rows). cbn [for_each].
    rewrite Forall2_cons, bind_ok_unit, Hb, IH by lia. done.
Qed.

Lemma protected_accepted F p : validate_manifest F p = Ok tt <-> protected_ok F p.
Proof.
  unfold validate_manifest, protected_ok. split.
  - intros (manifest & Hm & (rows & Hr%suite_rows_ok & (found & (l & Hs & ->)%suite_shape_ok & H)%bind_ok)%bind_ok)%bind_ok.
    exists manifest, rows, l. split_and!; [done..|]. eapply each_zip, H; [|intros; apply scenario_ok].
    by destruct Hs as (?%Forall2_length & _).
  - intros (manifest & rows & l & Hm & Hr & Hs & H). rewrite Hm. cbn [bind]. rewrite (proj2 (suite_rows_ok _ _ rows)) by done.
    cbn [bind]. rewrite (proj2 (suite_shape_ok _ _ (zip l rows))) by (by exists l). cbn [bind].
    eapply each_zip, H; [|intros; apply scenario_ok]. by destruct Hs as (?%Forall2_length & _).
Qed.

(** ** A manifest that cannot be loaded *)
Definition unloadable (F : fs) (p : path) : Prop :=
  (exists e, read_text F p = Err e /\ exn_cls e = FileNotFoundError)
  \/ exists text, read_text F p = Ok text
     /\ ((exists e, loads_with reject_constant text = Err e /\ exn_cls e = JSONDecodeError)
         \/ exists v, loads_with reject_constant text = Ok v /\ forall d, v <> JDict d).

Lemma unloadable_raises F p : unloadable F p ->
  exists e, exn_cls e = MatrixRunContractError /\ MatrixModel.load_json F p = Err e.
Proof.
  unfold MatrixModel.load_json. intros [(e & Hr & He)|(text & Hr & [(e & Hl & He)|(v & Hl & Hv)])].
  - rewrite Hr. cbn [bind catch]. rewrite He. simpl. eexists (Exn _ _ _). split; [|reflexivity]. done.
  - rewrite Hr. cbn [bind]. rewrite Hl. cbn [catch]. rewrite He. simpl. eexists (Exn _ _ _). split; [|reflexivity]. done.
  - rewrite Hr. cbn [bind]. rewrite Hl. cbn [catch bind]. destruct v as [| | | | | |d]; [by eexists (Exn _ _ _)..|]. by destruct (Hv d).
Qed.

(** ** A suite that is accepted

    Four rows over the reference sample, taken from a guest, with the cgroup
    evidence present. *)
Definition demo_sample : jobject :=
  dict_set "observation_source" (JStr "vm_serial_sched_ext") (dict_set "sample_source_event" (JStr "before")
    (dict_set "policy_abi" (JDict (good_policy_abi "present")) good_sample)).
Definition demo_dir (scenario : string) : string := "run/rows/" ++ scenario.
Definition demo_row (scenario : string) : jobject :=
  let local name := JStr (demo_dir scenario ++ "/" ++ name) in [
  ("evidence_mode", JStr "vm-live");
  ("vm_marker", JDict [("required", JBool true); ("present", JBool true)]);
  ("runtime_sample_path", local "runtime-sample.jsonl"); ("incident_path", local "incident.json");
  ("rollback_proof_path", local "rollback.json"); ("cleanup_proof_path", local "cleanup.json");
  ("host_refusal_proof_path", local "refusal.json");
  ("workload", JDict [("spec_path", local "spec.json")]); ("policy", JDict [("object_path", local "policy.o")]);
  ("privacy_scan", JDict [("report_path", local "privacy.json")]);
  ("daemon_event_path", JStr "run/daemon.jsonl")].
Definition demo_run (scenarios : list string) : fs := fs_of "/repo" (
  ("run/manifest.json", File (dumps (JDict [("rows", JList (map (fun s => JDict [
     ("scenario_id", JStr s); ("outcome", JStr "PASS"); ("artifact_path", JStr (demo_dir s ++ "/matrix-run.json"))]) scenarios))])))
  :: flat_map (fun s => [
       (demo_dir s ++ "/matrix-run.json", File (dumps (JDict (demo_row s))));
       (demo_dir s ++ "/runtime-sample.jsonl", File (dumps (JDict demo_sample)))]) scenarios).

Example demo_suite_accepted :
  let scenarios := ["workload-interactive-latency"; "live-backend"; "workload-cpu-saturation"; "workload-cgroup-weight-quota"] in
  let runs scenarios := main (demo_run scenarios) (silent (Ok tt)) ["--manifest"; "run/manifest.json"] in
  exits_well (runs scenarios)
  /\ runs (tl scenarios) = Exited 1 [] ["FAIL protected-core suite: run/manifest.json requires exactly one latency/churn row, found 0"].
Proof. split; [eexists|]; vm_compute; reflexivity. Qed.

(** ** Properties *)

(** C23: called on a matrix manifest, the checker exits with status 0 exactly
    when the manifest holds the three required scenarios and one of the latency
    scenarios, each once and each passed, and every row refers to an artifact
    below the run whose proofs stay in the directory of the row, which was
    produced on a live machine with the marker it requires, and whose runtime
    samples were captured from it; for the cgroup scenario every block of version
    3 of the policy ABI observes the CPU weight and defers the rest, and some
    sample shows the policy map, the callbacks and the queues present and
    counted. *)
Theorem protected_suite_iff F self_test p :
  exits_well (main F self_test ["--manifest"; p]) <-> protected_ok F (Path p).
Proof.
  unfold main. rewrite end_main_ok, <- protected_accepted. unfold reading.
  destruct (validate_manifest F (Path p)) as [[]|e]; cbn [snd silent]; by split.
Qed.

(** A manifest that cannot be loaded is not reported.  The loader is the one
    of the matrix gate, whose exception is not among those the command line
    catches: when the manifest is missing, is not JSON, or is not an object, the
    checker ends in an exception instead of FAIL with status 1, and prints
    nothing. *)
Theorem unloadable_manifest_escapes F self_test p : unloadable F (Path p) ->
  exists e, exn_cls e = MatrixRunContractError /\ main F self_test ["--manifest"; p] = Uncaught e.
Proof.
  intros (e & He & Hl)%unloadable_raises. exists e. split; [done|]. unfold main, validate_manifest. rewrite Hl. cbn [bind reading].
  unfold end_main, silent, is_class. by rewrite He.
Qed.

Lemma unloadable_manifest_escapes_witness :
  let F := fs_of "/repo" [("run/manifest.json", File "[]")] in
  (exists e, exn_cls e = MatrixRunContractError /\ main F (silent (Ok tt)) ["--manifest"; "run/manifest.json"] = Uncaught e)
  /\ exists e, exn_cls e = MatrixRunContractError /\ main F (silent (Ok tt)) ["--manifest"; "absent.json"] = Uncaught e.
Proof.
  intros F. split; apply (unloadable_manifest_escapes F).
  - right. exists "[]". split; [reflexivity|]. right. exists (JList []). split; [vm_compute; reflexivity | by intros ? [=]].
  - left. eexists. split; [vm_compute; reflexivity | reflexivity].
Defined.
