(* ===== verification/LabBackend.v ===== *)
(** LabBackend: qa/lab_summary_backend.py, the summary of a VM backend run and of
    the live bundle it points to. *)
From S2P Require Import Prelude PyStr PyFloat PyJson Sha256 PyFs PyMain PartialAttach Observe LiveBehavior MatrixModel Fields.

Local Open Scope string_scope.

Definition VM_BACKEND_SCHEMA : string := "zig-scheduler/vm-backend-run/v1".
Definition VM_BACKEND_MARKER : string := ".zig-scheduler-vm-backend-owned".
Definition VM_MARKER : string := "/run/zig-scheduler-vm-lab.marker".

Definition fail {A} (m : string) : result A := raise BackendSummaryError m.

Definition require_string (data : jobject) (field context : string) : result string :=
  match get data field with
  | JStr value =>
      if String.eqb value "" then fail (context ++ " missing non-empty string field: " ++ field) else Ok value
  | _ => fail (context ++ " missing non-empty string field: " ++ field)
  end.

Definition require_bool (data : jobject) (field context : string) : result bool :=
  match get data field with JBool b => Ok b | _ => fail (context ++ " missing bool field: " ++ field) end.

Definition require_list (data : jobject) (field context : string) : result (list json) :=
  match get data field with JList l => Ok l | _ => fail (context ++ " missing list field: " ++ field) end.

Definition require_object (data : jobject) (field context : string) : result jobject :=
  match get data field with JDict d => Ok d | _ => fail (context ++ " missing object field: " ++ field) end.

Definition assert_kernel_tuple (data : jobject) (context : string) : result unit :=
  let* kernel := require_object data "kernel_tuple" context in
  for_each ["release"; "arch"; "config_sha256"] (fun field =>
    let* _ := require_string kernel field (context ++ ".kernel_tuple") in Ok tt).

Section Files.
Variable F : fs.

Definition load_object (p : path) : result jobject :=
  let* raw := catch (bind (read_text F p) loads) (fun exc =>
    if decide (exn_cls exc = FileNotFoundError) then Some (fail ("missing JSON file: " ++ path_str p))
    else if decide (exn_cls exc = JSONDecodeError)
    then Some (fail ("invalid JSON in " ++ path_str p ++ ": " ++ exn_str exc))
    else None) in
  match raw with JDict d => Ok d | _ => fail (path_str p ++ " must contain a JSON object") end.

Definition is_backend_live_summary (p : path) (summary : jobject) : bool :=
  py_eq (get summary "evidence_mode") (JStr "vm-live") && String.eqb (name p) "summary.json"
  && String.eqb (name (parent p)) "live" && is_file F (div_path (parent (parent p)) VM_BACKEND_MARKER).

Definition assert_backend_artifact_paths (data : jobject) (context : string) (root : path) : result (list path) :=
  let* values := require_list data "artifact_paths" context in
  let* paths := for_fold 0 values [] (fun index value paths =>
    let here := context ++ ".artifact_paths[" ++ str_nat index ++ "]" in
    match value with
    | JStr s =>
        if String.eqb s "" then fail (here ++ " must be non-empty relative path text") else
        let p := Path s in
        if is_absolute p || mem ".." (parts p) then fail (here ++ " escapes repository: " ++ s) else
        if negb (existsb (path_eqb root) (p :: parents p))
        then fail (here ++ " must stay under " ++ path_str root ++ ": " ++ s) else
        if fs_symlink F p || negb (exists_ F p) then fail (here ++ " is missing or symlinked: " ++ s) else
        Ok (paths ++ [p])%list
    | _ => fail (here ++ " must be non-empty relative path text")
    end) in
  if Nat.eqb (List.length paths) 0 then fail (context ++ " must include at least one artifact path") else Ok paths.

Definition validate_backend_stages (summary : jobject) (root : path) : result unit :=
  let* stages := require_list summary "stages" "backend live summary" in
  ensure (negb (Nat.eqb (List.length stages) 0)) BackendSummaryError "backend live summary must include stages" ;;;
  for_enum 0 stages (fun index item =>
    let context := "backend live stage[" ++ str_nat index ++ "]" in
    match item with
    | JDict item =>
        let* status := require_string item "status" context in
        ensure (String.eqb status "PASS") BackendSummaryError (context ++ " must pass") ;;;
        let* _ := require_string item "stage" context in
        let* _ := require_string item "reason" context in
        let* text := require_string item "artifact" context in
        let artifact := Path text in
        ensure (negb (is_absolute artifact || mem ".." (parts artifact)
                      || negb (existsb (path_eqb root) (artifact :: parents artifact)) || negb (exists_ F artifact)))
          BackendSummaryError (context ++ " artifact is unsafe or missing")
    | _ => fail (context ++ " must be an object")
    end).

Definition validate_backend_live_summary (p : path) (summary : jobject) : result unit :=
  let root := parent p in
  reraise LiveBehaviorError BackendSummaryError exn_str (LiveBehavior.validate_bundle F p) ;;;
  let context := "backend live summary" in
  let* status := require_string summary "status" context in
  ensure (String.eqb status "PASS") BackendSummaryError "backend live summary must be PASS" ;;;
  let* mode := require_string summary "evidence_mode" context in
  ensure (String.eqb mode "vm-live") BackendSummaryError "backend live summary must be VM-live" ;;;
  let* kind := require_string summary "vm_kind" context in
  ensure (String.eqb kind "qemu-vm") BackendSummaryError "backend live summary must come from qemu-vm" ;;;
  let* marker := require_bool summary "vm_marker_present" context in
  ensure marker BackendSummaryError "backend live summary missing VM marker" ;;;
  let* marker_path := require_string summary "vm_marker_path" context in
  ensure (String.eqb marker_path VM_MARKER) BackendSummaryError "backend live summary VM marker path is invalid" ;;;
  let* rollback := require_string summary "rollback_result" context in
  ensure (String.eqb rollback "PASS") BackendSummaryError "backend live summary rollback must pass" ;;;
  let* host_mutation := require_bool summary "host_mutation" context in
  ensure (negb host_mutation) BackendSummaryError "backend live summary host_mutation must be false" ;;;
  let* release_use := require_bool summary "release_use" context in
  ensure (negb release_use) BackendSummaryError
    "backend live summary must remain controlled-lab-only release_use=false" ;;;
  let* eligible := require_bool summary "release_eligible_live_proof" context in
  ensure eligible BackendSummaryError "backend live summary must be release-eligible VM-live proof" ;;;
  let* output_dir := require_string summary "output_dir" context in
  ensure (path_eqb (Path output_dir) root) BackendSummaryError
    "backend live summary output_dir must match summary parent" ;;;
  assert_kernel_tuple summary context ;;;
  let* _ := assert_backend_artifact_paths summary context root in
  validate_backend_stages summary root.

Definition validate_backend_run_summary (p : path) (summary : jobject) : result unit :=
  let root := parent p in
  let context := "backend summary" in
  ensure (is_file F (div_path root VM_BACKEND_MARKER)) BackendSummaryError
    "backend summary missing VM backend ownership marker" ;;;
  let* status := require_string summary "status" context in
  ensure (String.eqb status "PASS") BackendSummaryError "backend summary must be PASS VM-live evidence" ;;;
  let* mode := require_string summary "mode" context in
  ensure (String.eqb mode "vm-required") BackendSummaryError "backend summary must come from vm-required mode" ;;;
  let* kind := require_string summary "vm_kind" context in
  ensure (String.eqb kind "qemu-vm") BackendSummaryError "backend summary must come from qemu-vm" ;;;
  let* marker := require_string summary "vm_marker_required" context in
  ensure (String.eqb marker VM_MARKER) BackendSummaryError "backend summary VM marker requirement is invalid" ;;;
  let* host_mutation := require_bool summary "host_mutation" context in
  ensure (negb host_mutation) BackendSummaryError "backend summary host_mutation must be false" ;;;
  let* eligible := require_bool summary "release_eligible_live_proof" context in
  ensure (negb eligible) BackendSummaryError "backend wrapper must not be the release-eligible proof" ;;;
  let* output_dir := require_string summary "output_dir" context in
  ensure (path_eqb (Path output_dir) root) BackendSummaryError "backend summary output_dir must match summary parent" ;;;
  let* _ := assert_backend_artifact_paths summary context root in
  let* live := require_string summary "live_summary" context in
  let live_summary := Path live in
  ensure (path_eqb live_summary (div_path (div_path root "live") "summary.json")) BackendSummaryError
    "backend summary live_summary must point at the generated live bundle" ;;;
  ensure (negb (fs_symlink F live_summary || negb (is_file F live_summary))) BackendSummaryError
    "backend summary live bundle is missing or symlinked" ;;;
  let* live_object := load_object live_summary in
  validate_backend_live_summary live_summary live_object.
End Files.

(** * Specification *)
Definition kernel_named (d : jobject) : Prop :=
  exists kernel, get d "kernel_tuple" = JDict kernel
    /\ forall field, In field ["release"; "arch"; "config_sha256"] -> text_field kernel field.

(** A path of an artifact: relative, inside the root, and there. *)
Definition artifact_inside (F : fs) (root : path) (v : json) (p : path) : Prop :=
  exists s, v = JStr s /\ s <> "" /\ p = Path s /\ plain_path p /\ inside root p /\ exists_ F p = true.

(** The artifacts of a VM backend are no symbolic links either. *)
Definition backend_artifacts (F : fs) (root : path) (d : jobject) : Prop :=
  exists values paths, get d "artifact_paths" = JList values
    /\ Forall2 (fun v p => artifact_inside F root v p /\ fs_symlink F p = false) values paths /\ paths <> [].

Definition backend_stage_ok (F : fs) (root : path) (v : json) : Prop :=
  exists d p, v = JDict d /\ get d "status" = JStr "PASS" /\ text_field d "stage" /\ text_field d "reason"
    /\ artifact_inside F root (get d "artifact") p.

Definition dir_is (d : jobject) (field : string) (p : path) : Prop :=
  exists s, get d field = JStr s /\ s <> "" /\ Path s = p.

Definition live_summary_ok (F : fs) (p : path) (d : jobject) : Prop :=
  LiveBehavior.validate_bundle F p = Ok tt
  /\ get d "status" = JStr "PASS" /\ get d "evidence_mode" = JStr "vm-live" /\ get d "vm_kind" = JStr "qemu-vm"
  /\ get d "vm_marker_present" = JBool true /\ get d "vm_marker_path" = JStr VM_MARKER
  /\ get d "rollback_result" = JStr "PASS" /\ get d "host_mutation" = JBool false /\ get d "release_use" = JBool false
  /\ get d "release_eligible_live_proof" = JBool true /\ dir_is d "output_dir" (parent p) /\ kernel_named d
  /\ backend_artifacts F (parent p) d
  /\ exists stages, get d "stages" = JList stages /\ stages <> [] /\ Forall (backend_stage_ok F (parent p)) stages.

Definition backend_run_ok (F : fs) (p : path) (d : jobject) : Prop :=
  is_file F (div_path (parent p) VM_BACKEND_MARKER) = true
  /\ get d "status" = JStr "PASS" /\ get d "mode" = JStr "vm-required" /\ get d "vm_kind" = JStr "qemu-vm"
  /\ get d "vm_marker_required" = JStr VM_MARKER /\ get d "host_mutation" = JBool false
  /\ get d "release_eligible_live_proof" = JBool false /\ dir_is d "output_dir" (parent p)
  /\ backend_artifacts F (parent p) d
  /\ exists live bundle, live = div_path (div_path (parent p) "live") "summary.json" /\ dir_is d "live_summary" live
       /\ fs_symlink F live = false /\ is_file F live = true /\ load_object F live = Ok bundle
       /\ live_summary_ok F live bundle.

(** The summary a VM backend wrote next to its live bundle. *)
Definition owned_live_summary (F : fs) (p : path) (d : jobject) : Prop :=
  get d "evidence_mode" = JStr "vm-live" /\ name p = "summary.json" /\ name (parent p) = "live"
  /\ is_file F (div_path (parent (parent p)) VM_BACKEND_MARKER) = true.

(** * Lemmas *)
Global Instance backend_text_reader : TextReader require_string.
Proof. solve_reader require_string. Qed.
Global Instance backend_bool_reader : BoolReader require_bool.
Proof. solve_reader require_bool. Qed.
Global Instance backend_list_reader : ListReader require_list.
Proof. solve_reader require_list. Qed.
Global Instance backend_object_reader : ObjectReader require_object.
Proof. solve_reader require_object. Qed.
Lemma backend_kernel_ok d c : assert_kernel_tuple d c = Ok tt <-> kernel_named d.
Proof.
  unfold assert_kernel_tuple, kernel_named. rewrite object_then. f_equiv. intros kernel. apply and_iff_compat_l.
  rewrite each_then, texts_each. tauto.
Qed.
Lemma safe_artifact p : is_absolute p || mem ".." (parts p) = false <-> plain_path p.
Proof. by rewrite <- plain_path_iff, <- negb_orb, negb_true_iff. Qed.
Lemma nonempty_length {A} (l : list A) : Nat.eqb (List.length l) 0 = false <-> l <> [].
Proof. by destruct l. Qed.

Lemma backend_artifacts_iff F d c root paths : assert_backend_artifact_paths F d c root = Ok paths <->
  exists values, get d "artifact_paths" = JList values
    /\ Forall2 (fun v p => artifact_inside F root v p /\ fs_symlink F p = false) values paths /\ paths <> [].
Proof.
  unfold assert_backend_artifact_paths. rewrite list_then. f_equiv. intros values. apply and_iff_compat_l.
  rewrite bind_ok. setoid_rewrite (for_fold_append (fun v p => artifact_inside F root v p /\ fs_symlink F p = false)).
  - split.
    + intros (ps & Hps & H). destruct (Nat.eqb _ _) eqn:E; [done|]. injection H as ->. by rewrite nonempty_length in E.
    + intros [Hps Hne%nonempty_length]. exists paths. by rewrite Hne.
  - intros i v s s'. unfold artifact_inside.
    destruct v as [| | | |t| |]; try (split; [discriminate | by intros (? & [(? & [=] & _) _] & _)]).
    destruct (String.eqb_spec t "") as [->|Ht]; [split; [discriminate | by intros (? & [(? & [= <-] & ? & _) _] & _)]|].
    unfold fail. cbv zeta. rewrite !if_raise_ok, safe_artifact, negb_false_iff, orb_false_iff, negb_false_iff, inside_iff, Ok_inj. split.
    + intros (Hp & Hi & [Hs He] & <-). exists (Path t). split; [|done]. split; [by exists t | done].
    + intros (p & [(t' & [= <-] & _ & -> & Hp & Hi & He) Hs] & ->). done.
Qed.

Lemma dir_then `{TextReader read} d f c q E m {B} (k : result B) x :
  (let* s := read d f c in ensure (path_eqb (Path s) q) E m ;;; k) = Ok x <-> dir_is d f q /\ k = Ok x.
Proof. apply text_path_is. Qed.

Lemma backend_stages_iff F root d : validate_backend_stages F d root = Ok tt <->
  exists stages, get d "stages" = JList stages /\ stages <> [] /\ Forall (backend_stage_ok F root) stages.
Proof.
  unfold validate_backend_stages. rewrite list_then. f_equiv. intros stages. apply and_iff_compat_l.
  rewrite bind_ok_unit, ensure_ok, negb_true_iff, nonempty_length. apply and_iff_compat_l. apply for_enum_forall.
  intros i v. unfold backend_stage_ok. destruct v as [| | | | | |item]; try (split; [discriminate | by intros (? & ? & [=] & _)]).
  assert (Ha : forall s, negb (is_absolute (Path s) || mem ".." (parts (Path s))
      || negb (existsb (path_eqb root) (Path s :: parents (Path s))) || negb (exists_ F (Path s))) = true <->
    plain_path (Path s) /\ inside root (Path s) /\ exists_ F (Path s) = true).
  { intros s. rewrite negb_true_iff. repeat setoid_rewrite orb_false_iff.
    rewrite <- orb_false_iff, safe_artifact, !negb_false_iff, inside_iff. tauto. }
  rewrite text_is, !text_any, bind_ok by done. setoid_rewrite reads_text. setoid_rewrite ensure_ok. setoid_rewrite Ha.
  unfold artifact_inside. split.
  - intros (Hp & Hs & Hr & s & [Hg Hne] & H). exists item, (Path s). do 4 (split; [done|]). by exists s.
  - intros (d' & p & [= <-] & Hp & Hs & Hr & s & Hg & Hne & -> & H). do 3 (split; [done|]). by exists s.
Qed.

Lemma any_artifacts F root d c {B} (k : result B) x :
  (let* _ := assert_backend_artifact_paths F d c root in k) = Ok x <-> backend_artifacts F root d /\ k = Ok x.
Proof.
  unfold backend_artifacts. rewrite bind_ok. setoid_rewrite backend_artifacts_iff. naive_solver.
Qed.

Lemma live_summary_iff F p d : validate_backend_live_summary F p d = Ok tt <-> live_summary_ok F p d.
Proof.
  unfold validate_backend_live_summary, live_summary_ok. cbv zeta. rewrite bind_ok_unit, reraise_ok.
  rewrite !text_is, !bool_true, !text_is, !bool_false, bool_true, dir_then by done.
  by rewrite bind_ok_unit, backend_kernel_ok, any_artifacts, backend_stages_iff.
Qed.

Lemma backend_run_iff F p d : validate_backend_run_summary F p d = Ok tt <-> backend_run_ok F p d.
Proof.
  unfold validate_backend_run_summary, backend_run_ok. cbv zeta. rewrite bind_ok_unit, ensure_ok.
  rewrite !text_is, !bool_false, dir_then, any_artifacts by done. do 9 apply and_iff_compat_l.
  unfold dir_is. split.
  - intros (s & [Hs Hne]%reads_text & (Hp%ensure_ok%path_eqb_eq & (Hf%ensure_ok & H)%bind_ok_unit)%bind_ok_unit)%bind_ok.
    apply negb_true_iff, orb_false_iff in Hf as [Hl Hf%negb_false_iff].
    apply bind_ok in H as (bundle & Hb & Hok%live_summary_iff). rewrite Hp in Hl, Hf, Hb, Hok.
    exists (div_path (div_path (parent p) "live") "summary.json"), bundle. split; [done|]. split; [by exists s | done].
  - intros (live & bundle & -> & (s & Hs & Hne & Hp) & Hl & Hf & Hb & Hok%live_summary_iff). apply bind_ok. exists s.
    split; [by apply reads_text|]. rewrite Hp, !bind_ok_unit, !ensure_ok, path_eqb_eq, Hl, Hf. do 2 (split; [done|]).
    apply bind_ok. by exists bundle.
Qed.

Lemma owned_iff F p d : is_backend_live_summary F p d = true <-> owned_live_summary F p d.
Proof.
  unfold is_backend_live_summary, owned_live_summary. rewrite !andb_true_iff, !String.eqb_eq, py_eq_str. tauto.
Qed.
