(* ===== verification/LabSummary.v ===== *)
(** LabSummary: qa/lab_summary_check.py, the summary of a run-all lab run or of a
    VM backend, and the record of a refused partial attach.  Git is a parameter. *)
From S2P Require Import Prelude PyStr PyFloat PyJson Sha256 PyFs PyMain PartialAttach Observe LiveBehavior MatrixModel Fields LabBackend.

Local Open Scope string_scope.


(** * qa/lab_summary_check.py *)
Definition SUMMARY_SCHEMA : string := "zig-scheduler/run-all-lab/v1".
Definition STAGE_SCHEMA : string := "zig-scheduler/run-all-stage/v1".
Definition STATUSES : list string := ["PASS"; "SKIP"; "REFUSE"].
Definition ROLLBACK_RESULTS : list string := ["PASS"; "SKIP"; "REFUSE"; "N/A"].
Definition PARTIAL_REASON_CODES : list string := [
  "HOST_REFUSED"; "VM_MARKER_MISSING"; "TARGET_NOT_ALLOWLISTED"; "TARGET_SYMLINK_REJECTED"; "VERIFIER_FAILED";
  "ROLLBACK_MISSING"; "ATTACH_SKIPPED"; "ATTACH_ATTEMPTED"; "ROLLBACK_RESTORED"; "REFUSED_STALE_SCOPE"].
Definition RUN_ALL_PREFIX : path := Path "evidence/lab/run-all".

Record Args : Set := MkArgs { summary : option path; partial : option path; observe : option path; self_test_arg : bool }.

Definition fail {A} (m : string) : result A := raise LabSummaryError m.

Definition parse_args (argv : list string) : result Args :=
  match argv with
  | ["--self-test"] => Ok (MkArgs None None None true)
  | ["--summary"; p] => Ok (MkArgs (Some (Path p)) None None false)
  | ["--partial"; p] => Ok (MkArgs None (Some (Path p)) None false)
  | ["--observe"; p] => Ok (MkArgs None None (Some (Path p)) false)
  | _ => fail ("usage: lab_summary_check.py --summary <summary.json> | --partial <partial-refusal.json>"
               ++ " | --observe <summary.json> | --self-test")
  end.

Definition require_string (data : jobject) (field context : string) : result string :=
  match get data field with
  | JStr value =>
      if String.eqb value "" then fail (context ++ " missing non-empty string field: " ++ field) else Ok value
  | _ => fail (context ++ " missing non-empty string field: " ++ field)
  end.

Definition require_bool (data : jobject) (field context : string) : result bool :=
  match get data field with JBool b => Ok b | _ => fail (context ++ " missing bool field: " ++ field) end.

Definition require_list (data : jobject) (field context : string) : result (list json) :=
  match get data field with JList l => Ok l | _ => fail (context ++ " missing list field: " ++ field) end.

Definition require_object (data : jobject) (field context : string) : result jobject :=
  match get data field with JDict d => Ok d | _ => fail (context ++ " missing object field: " ++ field) end.

Definition assert_timestamp (value context field : string) : result unit :=
  ensure (negb (negb (contains "T" value) || negb (endswith value "Z"))) LabSummaryError
    (context ++ " field " ++ field ++ " must be UTC ISO-8601 text ending in Z").

Definition assert_kernel_tuple (data : jobject) (context : string) : result unit :=
  let* kernel := require_object data "kernel_tuple" context in
  for_each ["release"; "arch"; "config_sha256"] (fun field =>
    let* _ := require_string kernel field (context ++ ".kernel_tuple") in Ok tt).

Section Checker.
Variable F : fs.
Variable git : list string -> result completed.

Definition load_object (p : path) : result jobject :=
  let* raw := catch (bind (read_text F p) loads) (fun exc =>
    if decide (exn_cls exc = FileNotFoundError) then Some (fail ("missing JSON file: " ++ path_str p))
    else if decide (exn_cls exc = JSONDecodeError)
    then Some (fail ("invalid JSON in " ++ path_str p ++ ": " ++ exn_str exc))
    else None) in
  match raw with JDict d => Ok d | _ => fail (path_str p ++ " must contain a JSON object") end.

Definition assert_artifact_paths (data : jobject) (context : string) : result (list path) :=
  let* values := require_list data "artifact_paths" context in
  let* paths := for_fold 0 values [] (fun index value paths =>
    let here := context ++ ".artifact_paths[" ++ str_nat index ++ "]" in
    match value with
    | JStr s =>
        if String.eqb s "" then fail (here ++ " must be non-empty relative path text") else
        let p := Path s in
        if is_absolute p || mem ".." (parts p) then fail (here ++ " escapes repository: " ++ s) else
        if negb (path_eqb p RUN_ALL_PREFIX) && negb (existsb (path_eqb RUN_ALL_PREFIX) (parents p))
        then fail (here ++ " must stay under " ++ path_str RUN_ALL_PREFIX ++ ": " ++ s) else
        if negb (exists_ F p) then fail (here ++ " does not exist: " ++ s) else
        Ok (paths ++ [p])%list
    | _ => fail (here ++ " must be non-empty relative path text")
    end) in
  if Nat.eqb (List.length paths) 0 then fail (context ++ " must include at least one artifact path") else Ok paths.

Definition assert_common (data : jobject) (context : string) : result (list path) :=
  let* host_mutation := require_bool data "host_mutation" context in
  ensure (negb host_mutation) LabSummaryError (context ++ " host_mutation must be false") ;;;
  let* _ := require_string data "git_sha" context in
  assert_kernel_tuple data context ;;;
  let* _ := require_string data "vm_kind" context in
  let* rollback_result := require_string data "rollback_result" context in
  ensure (mem rollback_result ROLLBACK_RESULTS) LabSummaryError
    (context ++ " rollback_result has invalid status: " ++ rollback_result) ;;;
  for_each ["started_at"; "ended_at"] (fun field =>
    let* value := require_string data field context in assert_timestamp value context field) ;;;
  assert_artifact_paths data context.

Definition validate_stage (stage : jobject) (index : nat) : result (list path) :=
  let context := "stage[" ++ str_nat index ++ "]" in
  let* schema := require_string stage "schema" context in
  ensure (String.eqb schema STAGE_SCHEMA) LabSummaryError (context ++ " has unsupported schema") ;;;
  let* status := require_string stage "status" context in
  ensure (mem status STATUSES) LabSummaryError (context ++ " has invalid status: " ++ status) ;;;
  for_each ["stage"; "reason"; "command"] (fun field => let* _ := require_string stage field context in Ok tt) ;;;
  assert_common stage context.

Definition git_tracked (p : path) : result bool :=
  let* result := bind (git ["git"; "ls-files"; "--error-unmatch"; path_str p]) in_text in
  Ok (Z.eqb (returncode result) 0).

(** The rest of [validate_summary], for a summary that is not of a VM backend. *)
Definition validate_lab_summary (summary : jobject) : result unit :=
  let* status := require_string summary "status" "summary" in
  ensure (mem status STATUSES) LabSummaryError ("summary has invalid status: " ++ status) ;;;
  let* _ := require_string summary "mode" "summary" in
  let* _ := require_string summary "release_status" "summary" in
  reject_contradictions summary "summary" ;;;
  let* summary_paths := assert_common summary "summary" in
  let* release_use := require_bool summary "release_use" "summary" in
  let* stages := require_list summary "stages" "summary" in
  ensure (negb (Nat.eqb (List.length stages) 0 && negb (String.eqb status "REFUSE"))) LabSummaryError
    "summary must include stage records unless it is a refusal" ;;;
  let* stage_paths := for_fold 0 stages [] (fun index item stage_paths =>
    match item with
    | JDict item => let* paths := validate_stage item index in Ok (stage_paths ++ paths)%list
    | _ => fail ("stage[" ++ str_nat index ++ "] must be an object")
    end) in
  if (release_use : bool) then
    for_each (summary_paths ++ stage_paths)%list (fun artifact_path =>
      let* tracked := git_tracked artifact_path in
      ensure tracked LabSummaryError ("release_use evidence path is not tracked: " ++ path_str artifact_path))
  else Ok tt.

Definition validate_summary (p : path) : result unit :=
  let* summary := load_object p in
  let* schema := require_string summary "schema" "summary" in
  if String.eqb schema LabBackend.VM_BACKEND_SCHEMA then LabBackend.validate_backend_run_summary F p summary else
  if negb (String.eqb schema SUMMARY_SCHEMA) then fail "summary has unsupported schema" else
  if LabBackend.is_backend_live_summary F p summary then LabBackend.validate_backend_live_summary F p summary else
  validate_lab_summary summary.

Definition validate_partial (p : path) : result unit :=
  let* refusal := load_object p in
  let* schema := require_string refusal "schema" "partial" in
  ensure (String.eqb schema "zig-scheduler/partial-attach-refusal/v1") LabSummaryError
    "partial refusal has unsupported schema" ;;;
  let* status := require_string refusal "status" "partial" in
  ensure (String.eqb status "refused-host") LabSummaryError "partial refusal status must be refused-host" ;;;
  let* host_mutation := require_bool refusal "host_mutation" "partial" in
  ensure (negb host_mutation) LabSummaryError "partial refusal host_mutation must be false" ;;;
  let* code := require_string refusal "reason_code" "partial" in
  ensure (mem code PARTIAL_REASON_CODES) LabSummaryError ("partial refusal reason_code is unknown: " ++ code) ;;;
  for_each ["reason"; "target_cgroup"; "audit_id"; "rollback_id"] (fun field =>
    let* _ := require_string refusal field "partial" in Ok tt).

Definition run (self_test : printed) (argv : list string) : printed :=
  reading (parse_args argv) (fun args =>
    if self_test_arg args then self_test else
    printing match summary args with
    | None =>
        match partial args, observe args with
        | None, None => fail "internal argument parser error"
        | Some p, _ => validate_partial p ;;; Ok ["PASS partial attach refusal schema: " ++ path_str p]
        | None, Some p =>
            reraise ObserveSummaryError LabSummaryError exn_str (Observe.validate_observe F p) ;;;
            Ok ["PASS observe partial summary: " ++ path_str p]
        end
    | Some p => validate_summary p ;;; Ok ["PASS lab summary schema: " ++ path_str p]
    end).

Definition main (self_test : printed) (argv : list string) : exit :=
  end_main (fun c => is_class BackendSummaryError c || is_class EvidenceSafetyError c || is_class LabSummaryError c)
    "FAIL lab summary schema" (run self_test argv).
End Checker.

(** * Specification *)
Definition artifacts_of (F : fs) (root : path) (d : jobject) (paths : list path) : Prop :=
  exists values, get d "artifact_paths" = JList values /\ Forall2 (artifact_inside F root) values paths /\ paths <> [].

Definition utc_time (d : jobject) (field : string) : Prop :=
  exists s, get d field = JStr s /\ (exists a b, s = a ++ "T" ++ b) /\ endswith s "Z" = true.

Definition common_ok (F : fs) (d : jobject) (paths : list path) : Prop :=
  get d "host_mutation" = JBool false /\ text_field d "git_sha" /\ kernel_named d /\ text_field d "vm_kind"
  /\ text_in d "rollback_result" ROLLBACK_RESULTS /\ utc_time d "started_at" /\ utc_time d "ended_at"
  /\ artifacts_of F RUN_ALL_PREFIX d paths.

Definition stage_ok (F : fs) (v : json) (paths : list path) : Prop :=
  exists d, v = JDict d /\ get d "schema" = JStr STAGE_SCHEMA /\ text_in d "status" STATUSES
    /\ (forall field, In field ["stage"; "reason"; "command"] -> text_field d field) /\ common_ok F d paths.

Definition tracked_path (git : list string -> result completed) (p : path) : Prop :=
  exists c, bind (git ["git"; "ls-files"; "--error-unmatch"; path_str p]) in_text = Ok c /\ returncode c = 0%Z.

(** A summary of a lab run: common facts, stages (none only for a refusal), and
    every artifact tracked when the run is meant for a release. *)
Definition lab_ok (F : fs) (git : list string -> result completed) (d : jobject) : Prop :=
  text_field d "mode" /\ text_field d "release_status" /\ no_contradiction d
  /\ exists status paths release stages stage_paths,
       get d "status" = JStr status /\ In status STATUSES /\ common_ok F d paths /\ get d "release_use" = JBool release
       /\ get d "stages" = JList stages /\ (stages = [] -> status = "REFUSE")
       /\ Forall2 (stage_ok F) stages stage_paths
       /\ (release = true -> forall p, In p (paths ++ concat stage_paths)%list -> tracked_path git p).


(** * Lemmas *)
Global Instance summary_text_reader : TextReader require_string.
Proof. solve_reader require_string. Qed.
Global Instance summary_bool_reader : BoolReader require_bool.
Proof. solve_reader require_bool. Qed.
Global Instance summary_list_reader : ListReader require_list.
Proof. solve_reader require_list. Qed.
Global Instance summary_object_reader : ObjectReader require_object.
Proof. solve_reader require_object. Qed.

Lemma summary_kernel_ok d c : assert_kernel_tuple d c = Ok tt <-> kernel_named d.
Proof.
  unfold assert_kernel_tuple, kernel_named. rewrite object_then. f_equiv. intros kernel. apply and_iff_compat_l.
  rewrite each_then, texts_each. tauto.
Qed.

Lemma summary_artifacts_iff F d c paths : assert_artifact_paths F d c = Ok paths <-> artifacts_of F RUN_ALL_PREFIX d paths.
Proof.
  unfold assert_artifact_paths, artifacts_of. rewrite list_then. f_equiv. intros values. apply and_iff_compat_l.
  rewrite bind_ok. setoid_rewrite (for_fold_append (artifact_inside F RUN_ALL_PREFIX)).
  - split.
    + intros (ps & Hps & H). destruct (Nat.eqb _ _) eqn:E; [done|]. injection H as ->. by rewrite nonempty_length in E.
    + intros [Hps Hne%nonempty_length]. exists paths. by rewrite Hne.
  - intros i v s s'. unfold artifact_inside.
    destruct v as [| | | |t| |]; try (split; [discriminate | by intros (? & (? & [=] & _) & _)]).
    destruct (String.eqb_spec t "") as [->|Ht]; [split; [discriminate | by intros (? & (? & [= <-] & ? & _) & _)]|].
    assert (Hi : negb (path_eqb (Path t) RUN_ALL_PREFIX) && negb (existsb (path_eqb RUN_ALL_PREFIX) (parents (Path t))) = false
      <-> inside RUN_ALL_PREFIX (Path t)).
    { rewrite <- inside_iff, <- negb_orb, negb_false_iff. cbn [existsb]. rewrite !orb_true_iff, !path_eqb_eq. naive_solver. }
    unfold fail. cbv zeta. rewrite !if_raise_ok, Hi, negb_false_iff, safe_artifact, Ok_inj. split.
    + intros (Hp & Hin & He & <-). exists (Path t). split; [by exists t | done].
    + intros (p & (t' & [= <-] & _ & -> & Hp & Hin & He) & ->). done.
Qed.

Lemma utc_iff d c : for_each ["started_at"; "ended_at"] (fun field =>
    let* value := require_string d field c in assert_timestamp value c field) = Ok tt <->
  utc_time d "started_at" /\ utc_time d "ended_at".
Proof.
  assert (Hz : forall s, negb (negb (contains "T" s) || negb (endswith s "Z")) = true <->
    (exists a b, s = a ++ "T" ++ b) /\ endswith s "Z" = true).
  { intros s. rewrite negb_true_iff, orb_false_iff, !negb_false_iff. by rewrite contains_iff. }
  assert (H : forall field, (let* value := require_string d field c in assert_timestamp value c field) = Ok tt <-> utc_time d field).
  { intros field. unfold assert_timestamp, utc_time. rewrite bind_ok. setoid_rewrite reads_text. setoid_rewrite ensure_ok.
    setoid_rewrite Hz. split; [intros (s & [Hs _] & Ht); by exists s|]. intros (s & Hs & Ht). exists s. split; [|done].
    split; [done|]. intros ->. by destruct Ht as [_ Ht]. }
  cbn [for_each]. rewrite !bind_ok_unit, !H. tauto.
Qed.

Lemma summary_common_iff F d c paths : assert_common F d c = Ok paths <-> common_ok F d paths.
Proof.
  unfold assert_common, common_ok. rewrite bool_false, text_any, bind_ok_unit, summary_kernel_ok, text_any, member_text by done.
  rewrite bind_ok_unit, utc_iff, summary_artifacts_iff. tauto.
Qed.

Lemma stage_iff F i v paths :
  match v with JDict item => validate_stage F item i | _ => fail ("stage[" ++ str_nat i ++ "] must be an object") end = Ok paths
  <-> stage_ok F v paths.
Proof.
  unfold stage_ok. destruct v as [| | | | | |d]; try (split; [discriminate | by intros (? & [=] & _)]).
  unfold validate_stage. rewrite text_is, member_text, texts_each, summary_common_iff by done. naive_solver.
Qed.

Lemma tracked_iff git p m : (let* tracked := git_tracked git p in ensure tracked LabSummaryError m) = Ok tt <-> tracked_path git p.
Proof.
  unfold git_tracked, tracked_path. generalize (bind (git ["git"; "ls-files"; "--error-unmatch"; path_str p]) in_text).
  intros answer. rewrite bind_ok. setoid_rewrite bind_ok. setoid_rewrite ensure_ok. setoid_rewrite Ok_inj.
  setoid_rewrite <- Z.eqb_eq. naive_solver.
Qed.

Lemma stages_iff F git status paths (release : bool) stages :
  (ensure (negb (Nat.eqb (List.length stages) 0 && negb (String.eqb status "REFUSE"))) LabSummaryError
     "summary must include stage records unless it is a refusal" ;;;
   let* stage_paths := for_fold 0 stages [] (fun index item stage_paths =>
     match item with
     | JDict item => let* paths := validate_stage F item index in Ok (stage_paths ++ paths)%list
     | _ => fail ("stage[" ++ str_nat index ++ "] must be an object")
     end) in
   if release then
     for_each (paths ++ stage_paths)%list (fun artifact_path =>
       let* tracked := git_tracked git artifact_path in
       ensure tracked LabSummaryError ("release_use evidence path is not tracked: " ++ path_str artifact_path))
   else Ok tt) = Ok tt <->
  (stages = [] -> status = "REFUSE") /\ exists stage_paths, Forall2 (stage_ok F) stages stage_paths
    /\ (release = true -> forall p, In p (paths ++ concat stage_paths)%list -> tracked_path git p).
Proof.
  rewrite bind_ok_unit, ensure_ok, bind_ok. setoid_rewrite (for_fold_extend (stage_ok F)).
  - assert (Hn : negb (Nat.eqb (List.length stages) 0 && negb (String.eqb status "REFUSE")) = true <->
      (stages = [] -> status = "REFUSE")).
    { rewrite negb_true_iff, andb_false_iff, negb_false_iff, String.eqb_eq, nonempty_length. destruct stages; naive_solver. }
    rewrite Hn. apply and_iff_compat_l.
    assert (Ht : forall sp, (if release then for_each (paths ++ sp)%list (fun artifact_path =>
        let* tracked := git_tracked git artifact_path in
        ensure tracked LabSummaryError ("release_use evidence path is not tracked: " ++ path_str artifact_path))
      else Ok tt) = Ok tt <-> (release = true -> forall p, In p (paths ++ sp)%list -> tracked_path git p)).
    { intros sp. destruct release; [|naive_solver]. rewrite for_each_ok, Forall_forall.
      setoid_rewrite list_elem_of_In. setoid_rewrite tracked_iff. naive_solver. }
    setoid_rewrite Ht. naive_solver.
  - intros i v s s'. setoid_rewrite <- (stage_iff F i v).
    destruct v as [| | | | | |d]; try (split; [discriminate | by intros (? & [=] & _)]).
    rewrite bind_ok. setoid_rewrite Ok_inj. naive_solver.
Qed.

Lemma lab_iff F git d : validate_lab_summary F git d = Ok tt <-> lab_ok F git d.
Proof.
  unfold validate_lab_summary, lab_ok. split.
  - intros (status & [Hs _]%reads_text & (Hst%ensure_ok%mem_In & H)%bind_ok_unit)%bind_ok.
    rewrite !text_any, bind_ok_unit, contradictions_ok in H. destruct H as (Hm & Hr & Hc & H).
    apply bind_ok in H as (paths & Hp%summary_common_iff & H). apply bind_ok in H as (release & Hrel%reads_bool & H).
    apply bind_ok in H as (stages & Hst'%reads_list & (Hne & sp & Hsp & Ht)%stages_iff).
    do 3 (split; [done|]). by exists status, paths, release, stages, sp.
  - intros (Hm & Hr & Hc & status & paths & release & stages & sp & Hs & Hst & Hp & Hrel & Hst' & Hne & Hsp & Ht).
    apply bind_ok. exists status. split; [apply reads_text; split; [done | intros ->; naive_solver]|].
    apply bind_ok_unit. split; [by apply ensure_ok, mem_In|]. rewrite !text_any, bind_ok_unit, contradictions_ok.
    do 3 (split; [done|]). apply bind_ok. exists paths. split; [by apply summary_common_iff|].
    apply bind_ok. exists release. split; [by apply reads_bool|]. apply bind_ok. exists stages.
    split; [by apply reads_list|]. apply stages_iff. split; [done|]. by exists sp.
Qed.

(** * Properties *)

(** C18: the lab summary check accepts a summary exactly when it is the wrapper of a VM backend run with the live bundle it points to; or the live summary that a VM backend wrote, which passed, from a qemu VM with its marker, without host mutation and for controlled use only, and whose bundle the live behaviour check accepts; or else the summary of a lab run whose common facts, stages and artifacts are well-formed, with no stage only for a refusal, and with every artifact of it and of its stages tracked by git when it is meant for a release. *)
Theorem lab_summary_iff F git p :
  validate_summary F git p = Ok tt <->
  exists d schema, load_object F p = Ok d /\ get d "schema" = JStr schema
    /\ (schema = LabBackend.VM_BACKEND_SCHEMA /\ backend_run_ok F p d
        \/ schema = SUMMARY_SCHEMA /\ owned_live_summary F p d /\ live_summary_ok F p d
        \/ schema = SUMMARY_SCHEMA /\ ~ owned_live_summary F p d /\ lab_ok F git d).
Proof.
  unfold validate_summary. rewrite bind_ok. f_equiv. intros d. rewrite bind_ok. setoid_rewrite reads_text. split.
  - intros (Hd & schema & [Hs Hne] & H). exists schema. split; [done|]. split; [done|].
    destruct (String.eqb_spec schema LabBackend.VM_BACKEND_SCHEMA) as [E|_]; [left; split; [done | by apply backend_run_iff]|].
    right. destruct (String.eqb_spec schema SUMMARY_SCHEMA) as [E|_]; [|done]. cbn [negb] in H.
    destruct (LabBackend.is_backend_live_summary F p d) eqn:Ho; [left | right]; (split; [done|]).
    + split; [by apply owned_iff | by apply live_summary_iff].
    + split; [by rewrite <- owned_iff, Ho | by apply lab_iff].
  - intros (schema & Hd & Hs & H). split; [done|]. exists schema.
    destruct H as [[-> H%backend_run_iff]|[(-> & Ho%owned_iff & H%live_summary_iff)|(-> & Ho & H%lab_iff)]]; [done | |].
    + split; [done|]. simpl. by rewrite Ho.
    + split; [done|]. simpl. rewrite <- owned_iff in Ho. apply not_true_is_false in Ho. by rewrite Ho.
Qed.

(** [--partial] accepts a refusal of the host that names a known reason. *)
Lemma partial_refusal_iff F p : validate_partial F p = Ok tt <->
  exists d, load_object F p = Ok d /\ get d "schema" = JStr "zig-scheduler/partial-attach-refusal/v1"
    /\ get d "status" = JStr "refused-host" /\ get d "host_mutation" = JBool false
    /\ text_in d "reason_code" PARTIAL_REASON_CODES
    /\ forall field, In field ["reason"; "target_cgroup"; "audit_id"; "rollback_id"] -> text_field d field.
Proof.
  unfold validate_partial. rewrite bind_ok. f_equiv. intros d.
  rewrite !text_is, bool_false, member_text, each_then, texts_each by done. tauto.
Qed.
