(* ===== verification/Freshness.v ===== *)
(** Freshness: qa/live_bundle_freshness_check.py, whether the summary of a live
    bundle belongs to the commit, the BPF object and the worktree that are
    checked out.  Git and the build script are parameters. *)
From S2P Require Import Prelude PyStr PyFloat PyJson Sha256 PyFs PyMain VerifierVm MatrixModel.

Local Open Scope string_scope.

Definition fail {A} (m : string) : result A := raise FreshnessCheckError m.

Record Args : Set := MkArgs { bundle : option path; self_test_arg : bool }.

Definition parse_args (argv : list string) : result Args :=
  match argv with
  | ["--self-test"] => Ok (MkArgs None true)
  | ["--bundle"; p] => Ok (MkArgs (Some (Path p)) false)
  | _ => fail "usage: live_bundle_freshness_check.py --self-test | --bundle <summary.json>"
  end.

Definition require_text (data : jobject) (field : string) : result string :=
  match get data field with
  | JStr value => if String.eqb value "" then fail ("missing text field: " ++ field) else Ok value
  | _ => fail ("missing text field: " ++ field)
  end.

Definition require_bool (data : jobject) (field : string) : result bool :=
  match get data field with JBool b => Ok b | _ => fail ("missing bool field: " ++ field) end.

Definition require_object (data : jobject) (field : string) : result jobject :=
  match get data field with JDict d => Ok d | _ => fail ("missing object field: " ++ field) end.

Definition require_equal (found expected field : string) : result unit :=
  ensure (String.eqb found expected) FreshnessCheckError (field ++ " mismatch").

Definition QEMU_NAME : string := "zig-scheduler-microvm-live-lab".

Section Checker.
Variable F : fs.

Definition load_object (p : path) : result jobject :=
  let* raw := catch (bind (read_text F p) loads) (fun exc =>
    if decide (exn_cls exc = FileNotFoundError) then Some (fail ("missing JSON file: " ++ path_str p))
    else if decide (exn_cls exc = JSONDecodeError)
    then Some (fail ("invalid JSON file: " ++ path_str p ++ ": " ++ exn_str exc))
    else None) in
  match raw with JDict d => Ok d | _ => fail ("JSON root must be object: " ++ path_str p) end.

Definition load_manifest_provenance (bundle_path : path) : result jobject :=
  let candidate := div_path (parent (parent bundle_path)) "manifest-provenance.json" in
  let* manifest := load_object candidate in
  let* schema := require_text manifest "schema" in
  require_equal schema "zig-scheduler/task-09-provenance/v1" "manifest schema" ;;;
  Ok manifest.

Definition validate_dirty_snapshot (summary : jobject) (bundle_path : path) (current_git_sha : string)
    (current_dirty_snapshot_sha : option string) : result unit :=
  match current_dirty_snapshot_sha with
  | None => fail "bundle was generated from a dirty worktree"
  | Some current_dirty_snapshot_sha =>
      let* bundle_snapshot := require_text summary "dirty_tree_snapshot_sha256" in
      require_equal bundle_snapshot current_dirty_snapshot_sha "dirty_tree_snapshot_sha256" ;;;
      let* provenance := load_manifest_provenance bundle_path in
      let* manifest_snapshot := require_text provenance "dirty_tree_snapshot_sha256" in
      require_equal manifest_snapshot current_dirty_snapshot_sha "manifest dirty_tree_snapshot_sha256" ;;;
      let* repo_head := require_text provenance "repo_head" in
      require_equal repo_head current_git_sha "manifest repo_head" ;;;
      let* status := require_text provenance "status" in
      require_equal status "PASS" "manifest status" ;;;
      let* git_dirty := require_bool provenance "git_dirty" in
      ensure git_dirty FreshnessCheckError "manifest git_dirty must be true for dirty bundle" ;;;
      let* copied := require_text provenance "copied_bundle_summary" in
      ensure (path_eqb (Path copied) bundle_path) FreshnessCheckError "manifest copied_bundle_summary mismatch"
  end.

Definition validate_qemu_scan (value : json) (bundle_root : path) (field : string) : result unit :=
  match value with
  | JStr value =>
      if String.eqb value "" then fail ("cleanup missing process scan: " ++ field) else
      let p := Path value in
      ensure (negb (is_absolute p || mem ".." (parts p) || negb (exists_ F p))) FreshnessCheckError
        ("cleanup process scan path is unsafe or missing: " ++ field) ;;;
      ensure (existsb (path_eqb bundle_root) (p :: parents p)) FreshnessCheckError
        ("cleanup process scan must be inside bundle: " ++ field) ;;;
      let* text := read_text_replace F p in
      ensure (negb (contains QEMU_NAME text)) FreshnessCheckError
        ("cleanup process scan still contains lab qemu process: " ++ field)
  | _ => fail ("cleanup missing process scan: " ++ field)
  end.

Definition validate_cleanup (cleanup : jobject) (bundle_root : path) : result unit :=
  ensure (is_true (get cleanup "temp_dirs_removed")) FreshnessCheckError "cleanup missing temp dir removal receipt" ;;;
  ensure (is_true (get cleanup "process_group_reaped")) FreshnessCheckError "cleanup missing process group receipt" ;;;
  ensure (match get cleanup "timeout_pid" with JStr s => negb (String.eqb s "") | _ => false end)
    FreshnessCheckError "cleanup missing timeout pid receipt" ;;;
  ensure (is_int (get cleanup "timeout_rc")) FreshnessCheckError "cleanup missing timeout rc receipt" ;;;
  validate_qemu_scan (get cleanup "qemu_process_scan_before") bundle_root "qemu_process_scan_before" ;;;
  validate_qemu_scan (get cleanup "qemu_process_scan_after") bundle_root "qemu_process_scan_after" ;;;
  ensure (is_list (get cleanup "tmux_sessions_after")) FreshnessCheckError "cleanup missing tmux session scan".

Definition validate_fresh_bundle (p : path) (current_git_sha current_bpf_sha : string)
    (current_dirty_snapshot_sha : option string) : result unit :=
  let* summary := load_object p in
  let* schema := require_text summary "schema" in
  require_equal schema "zig-scheduler/run-all-lab/v1" "schema" ;;;
  let* status := require_text summary "status" in
  require_equal status "PASS" "status" ;;;
  let* evidence_mode := require_text summary "evidence_mode" in
  require_equal evidence_mode "vm-live" "evidence_mode" ;;;
  let* git_sha := require_text summary "git_sha" in
  require_equal git_sha current_git_sha "git_sha" ;;;
  let* bpf_object_sha256 := require_text summary "bpf_object_sha256" in
  require_equal bpf_object_sha256 current_bpf_sha "bpf_object_sha256" ;;;
  let* git_dirty := require_bool summary "git_dirty" in
  (if (git_dirty : bool) then validate_dirty_snapshot summary p current_git_sha current_dirty_snapshot_sha else Ok tt) ;;;
  let* host_mutation := require_bool summary "host_mutation" in
  ensure (negb host_mutation) FreshnessCheckError "host_mutation must be false" ;;;
  let* created_fresh := require_bool summary "output_dir_created_fresh" in
  ensure created_fresh FreshnessCheckError "output directory was reused" ;;;
  let* output := require_text summary "output_dir" in
  let output_dir := Path output in
  ensure (path_eqb output_dir (parent p)) FreshnessCheckError "output_dir must match summary parent" ;;;
  let* cleanup := require_object summary "cleanup" in
  validate_cleanup cleanup (parent p).
End Checker.

(** ** The state of the worktree *)
Section Worktree.
(** [subprocess.run(cmd, capture_output=True)]: the bytes the command wrote. *)
Variable git : list string -> result completed.

(** The same with [text=True, check=True]: a status other than zero raises, and
    is refused as a missing program is. *)
Definition run_checked (cmd : list string) (refusal : string) : result string :=
  let* result := bind (reraise FileNotFoundError FreshnessCheckError (fun _ => refusal) (git cmd)) in_text in
  ensure (Z.eqb (returncode result) 0) FreshnessCheckError refusal ;;;
  Ok (stdout result).

Definition current_git_sha : result string :=
  let* out := run_checked ["git"; "rev-parse"; "HEAD"] "could not read current git SHA" in
  Ok (strip out).

Definition current_git_dirty : result bool :=
  let* out := run_checked ["git"; "status"; "--porcelain"] "could not read current git state" in
  Ok (negb (String.eqb (strip out) "")).

Definition SNAPSHOT_COMMANDS : list (list string) := [
  ["git"; "status"; "--porcelain=v1"; "-z"]; ["git"; "diff"; "--binary"; "HEAD"; "--"]].
Definition OTHERS : list string := ["git"; "ls-files"; "--others"; "--exclude-standard"; "-z"].

Definition nul : ascii := ascii_of_N 0.
(** [b"\0" + name + b"\0"] *)
Definition between_nuls (name : string) : string := String nul (name ++ String nul "").

(** The bytes the digest has been updated with, after the commands, and after
    the untracked files. *)
Definition command_bytes (cmd : list string) : result string :=
  let* result := git cmd in
  ensure (Z.eqb (returncode result) 0) FreshnessCheckError ("snapshot command failed: " ++ join " " cmd) ;;;
  Ok (between_nuls "CMD" ++ join " " cmd ++ String nul "" ++ stdout result).

Definition untracked_bytes (F : fs) (raw : string) : result string :=
  let* text := decode_utf8 raw in
  let p := Path text in
  if negb (is_file F p) then Ok "" else
  let* digest := sha256_of F p in
  Ok (between_nuls "UNTRACKED" ++ raw ++ String nul "" ++ digest).

Definition untracked (listing : string) : list string :=
  sorted (List.filter (fun item => negb (String.eqb item "")) (split_on nul listing)).

Definition current_dirty_snapshot_hash (F : fs) : result string :=
  let* commands := map_m command_bytes SNAPSHOT_COMMANDS in
  let* other := git OTHERS in
  ensure (Z.eqb (returncode other) 0) FreshnessCheckError "git ls-files --others failed" ;;;
  let* files := map_m (untracked_bytes F) (untracked (stdout other)) in
  Ok (sha256_hex (join "" commands ++ join "" files)).

(** tools/build_bpf.sh *)
Variable build : fs -> fs * build_end.

(** Building the object may change the files, so they are answered with it. *)
Definition current_bpf_sha (F : fs) (p : option path) : result (string * fs) :=
  match p with
  | None =>
      let* (artifacts, F) := reraise BpfArtifactError FreshnessCheckError exn_str (ensure_canonical_bpf_artifacts build F) in
      Ok (object_sha256 artifacts, F)
  | Some p =>
      let* digest := reraise FileNotFoundError FreshnessCheckError
                       (fun _ => "missing current BPF object: " ++ path_str p) (sha256_of F p) in
      Ok (digest, F)
  end.

(** What [run] checks for [--bundle]. *)
Definition check_bundle (F : fs) (p : path) : result (list string) :=
  let* dirty := current_git_dirty in
  let* snapshot := if (dirty : bool) then let* sha := current_dirty_snapshot_hash F in Ok (Some sha) else Ok None in
  let* head := current_git_sha in
  let* (object_sha, F) := current_bpf_sha F None in
  validate_fresh_bundle F p head object_sha snapshot ;;;
  Ok ["PASS live bundle freshness: " ++ path_str p].

(** [run], where [self_test] is what the self-test, which writes scratch files,
    prints and how it ends. *)
Definition run (F : fs) (self_test : printed) (argv : list string) : printed :=
  reading (parse_args argv) (fun args =>
    if self_test_arg args then self_test else
    printing match bundle args with
    | None => fail "internal argument parser error"
    | Some p => check_bundle F p
    end).

Definition main (F : fs) (self_test : printed) (argv : list string) : exit :=
  end_main (fun c => is_class FreshnessCheckError c || is_OSError c) "FAIL live bundle freshness"
    (run F self_test argv).
End Worktree.

(** * Specification *)
Definition texts_are (d : jobject) (fields : list (string * string)) : Prop :=
  Forall (fun '(field, s) => get d field = JStr s /\ s <> "") fields.

(** A process scan kept in the bundle that does not show the lab machine. *)
Definition clean_scan (F : fs) (bundle_root : path) (v : json) : Prop :=
  exists s text, v = JStr s /\ s <> "" /\ plain_path (Path s) /\ inside bundle_root (Path s)
    /\ read_text_replace F (Path s) = Ok text /\ ~ exists a b, text = a ++ QEMU_NAME ++ b.

Definition cleanup_ok (F : fs) (bundle_root : path) (d : jobject) : Prop :=
  get d "temp_dirs_removed" = JBool true /\ get d "process_group_reaped" = JBool true
  /\ (exists pid, get d "timeout_pid" = JStr pid /\ pid <> "") /\ (exists rc, as_int (get d "timeout_rc") = Some rc)
  /\ clean_scan F bundle_root (get d "qemu_process_scan_before")
  /\ clean_scan F bundle_root (get d "qemu_process_scan_after")
  /\ exists sessions, get d "tmux_sessions_after" = JList sessions.

(** A bundle made from a dirty worktree: the worktree is still the same one, and
    the provenance manifest of the run says so. *)
Definition accounted (F : fs) (d : jobject) (p : path) (head : string) (snapshot : option string) : Prop :=
  exists sha manifest copied, snapshot = Some sha /\ texts_are d [("dirty_tree_snapshot_sha256", sha)]
    /\ load_object F (div_path (parent (parent p)) "manifest-provenance.json") = Ok manifest
    /\ texts_are manifest [("schema", "zig-scheduler/task-09-provenance/v1"); ("dirty_tree_snapshot_sha256", sha);
         ("repo_head", head); ("status", "PASS"); ("copied_bundle_summary", copied)]
    /\ get manifest "git_dirty" = JBool true /\ Path copied = p.

Definition bundle_ok (F : fs) (p : path) (head object_sha : string) (snapshot : option string) (d : jobject) : Prop :=
  texts_are d [("schema", "zig-scheduler/run-all-lab/v1"); ("status", "PASS"); ("evidence_mode", "vm-live");
    ("git_sha", head); ("bpf_object_sha256", object_sha)]
  /\ (get d "git_dirty" = JBool false \/ get d "git_dirty" = JBool true /\ accounted F d p head snapshot)
  /\ get d "host_mutation" = JBool false /\ get d "output_dir_created_fresh" = JBool true
  /\ (exists out, texts_are d [("output_dir", out)] /\ Path out = parent p)
  /\ exists cleanup, get d "cleanup" = JDict cleanup /\ cleanup_ok F (parent p) cleanup.

(** What git prints, as text without the surrounding white space. *)
Definition git_text (git : list string -> result completed) (cmd : list string) (text : string) : Prop :=
  exists c, bind (git cmd) in_text = Ok c /\ returncode c = 0%Z /\ text = strip (stdout c).
Definition git_bytes (git : list string -> result completed) (cmd : list string) (bytes : string) : Prop :=
  exists c, git cmd = Ok c /\ returncode c = 0%Z /\ bytes = stdout c.

(** The digest over the status, the difference to the commit, and the contents
    of the untracked files. *)
Definition snapshot_of (git : list string -> result completed) (F : fs) (sha : string) : Prop :=
  exists status diff others files,
    git_bytes git ["git"; "status"; "--porcelain=v1"; "-z"] status
    /\ git_bytes git ["git"; "diff"; "--binary"; "HEAD"; "--"] diff
    /\ git_bytes git ["git"; "ls-files"; "--others"; "--exclude-standard"; "-z"] others
    /\ Forall2 (fun raw bytes => untracked_bytes F raw = Ok bytes) (untracked others) files
    /\ sha = sha256_hex (join "" [between_nuls "CMD" ++ "git status --porcelain=v1 -z" ++ String nul "" ++ status;
                                   between_nuls "CMD" ++ "git diff --binary HEAD --" ++ String nul "" ++ diff]
                         ++ join "" files).

Definition worktree (git : list string -> result completed) (F : fs) (snapshot : option string) : Prop :=
  exists text, git_text git ["git"; "status"; "--porcelain"] text
    /\ ((text = "" /\ snapshot = None) \/ (text <> "" /\ exists sha, snapshot = Some sha /\ snapshot_of git F sha)).

(** * Lemmas *)
Lemma freshness_text_ok d f s : require_text d f = Ok s <-> get d f = JStr s /\ s <> "".
Proof.
  unfold require_text. destruct (get d f) as [| | | |t| |]; try (split; [discriminate | by intros [[=] _]]).
  destruct (String.eqb_spec t "") as [->|Ht]; [split; [discriminate | by intros [[= <-] ?]]|].
  rewrite Ok_inj. split; [by intros <- | by intros [[= <-] _]].
Qed.
Lemma texts_are_cons d f s fields : texts_are d ((f, s) :: fields) <-> (get d f = JStr s /\ s <> "") /\ texts_are d fields.
Proof. unfold texts_are. by rewrite Forall_cons. Qed.
Lemma texts_are_one d f s : texts_are d [(f, s)] <-> get d f = JStr s /\ s <> "".
Proof. rewrite texts_are_cons. unfold texts_are. rewrite Forall_nil. tauto. Qed.
(** A field that is compared with a value. *)
Lemma freshness_text_is d f lit m {B} (k : result B) x :
  (let* s := require_text d f in require_equal s lit m ;;; k) = Ok x <-> (get d f = JStr lit /\ lit <> "") /\ k = Ok x.
Proof.
  unfold require_equal. rewrite bind_ok. setoid_rewrite freshness_text_ok. setoid_rewrite bind_ok_unit.
  setoid_rewrite ensure_ok. setoid_rewrite String.eqb_eq. naive_solver.
Qed.
Lemma freshness_bool_ok d f b : require_bool d f = Ok b <-> get d f = JBool b.
Proof. unfold require_bool. destruct (get d f); split; (congruence || discriminate). Qed.
Lemma freshness_true d f m {B} (k : result B) x :
  (let* v := require_bool d f in ensure v FreshnessCheckError m ;;; k) = Ok x <-> get d f = JBool true /\ k = Ok x.
Proof.
  rewrite bind_ok. setoid_rewrite freshness_bool_ok. setoid_rewrite bind_ok_unit. setoid_rewrite ensure_ok. naive_solver.
Qed.
Lemma freshness_false d f m {B} (k : result B) x :
  (let* v := require_bool d f in ensure (negb v) FreshnessCheckError m ;;; k) = Ok x <->
  get d f = JBool false /\ k = Ok x.
Proof.
  rewrite bind_ok. setoid_rewrite freshness_bool_ok. setoid_rewrite bind_ok_unit. setoid_rewrite ensure_ok.
  setoid_rewrite negb_true_iff. naive_solver.
Qed.
Lemma freshness_path_is d f m q {B} (k : result B) x :
  (let* s := require_text d f in ensure (path_eqb (Path s) q) FreshnessCheckError m ;;; k) = Ok x <->
  (exists s, texts_are d [(f, s)] /\ Path s = q) /\ k = Ok x.
Proof.
  rewrite bind_ok. setoid_rewrite freshness_text_ok. setoid_rewrite bind_ok_unit. setoid_rewrite ensure_ok.
  setoid_rewrite path_eqb_eq. setoid_rewrite texts_are_one. naive_solver.
Qed.

Lemma read_replace_exists F p text : read_text_replace F p = Ok text -> exists_ F p = true.
Proof.
  unfold read_text_replace, read_text, read_bytes, exists_. intros H%reraise_ok.
  by destruct (fs_node F (path_str p)).
Qed.

Lemma scan_iff F root v f : validate_qemu_scan F v root f = Ok tt <-> clean_scan F root v.
Proof.
  unfold validate_qemu_scan, clean_scan.
  destruct v as [| | | |s| |]; try (split; [discriminate | by intros (? & ? & [=] & _)]).
  destruct (String.eqb_spec s "") as [->|Hs]; [split; [discriminate | naive_solver]|].
  rewrite !bind_ok_unit, !ensure_ok, inside_iff, bind_ok. setoid_rewrite ensure_ok. setoid_rewrite negb_true_iff.
  setoid_rewrite contains_false. rewrite !orb_false_iff, negb_false_iff.
  assert (Hp : (is_absolute (Path s) = false /\ mem ".." (parts (Path s)) = false) <-> plain_path (Path s))
    by (rewrite <- plain_path_iff, andb_true_iff, !negb_true_iff; done).
  rewrite Hp. split.
  - intros ([Hpl _] & Hin & text & Ht & Hc). by exists s, text.
  - intros (s' & text & [= <-] & _ & Hpl & Hin & Ht & Hc). split_and!; [done | by eapply read_replace_exists | done |].
    by exists text.
Qed.

Lemma cleanup_iff F d root : validate_cleanup F d root = Ok tt <-> cleanup_ok F root d.
Proof.
  unfold validate_cleanup, cleanup_ok. rewrite !bind_ok_unit, !ensure_ok, !is_true_iff, !scan_iff.
  assert (Hpid : match get d "timeout_pid" with JStr s => negb (String.eqb s "") | _ => false end = true <->
    exists pid, get d "timeout_pid" = JStr pid /\ pid <> "").
  { destruct (get d "timeout_pid") as [| | | |s| |]; try (split; [discriminate | by intros (? & [=] & _)]).
    rewrite negb_true_iff, String.eqb_neq. naive_solver. }
  assert (Hrc : is_int (get d "timeout_rc") = true <-> exists rc, as_int (get d "timeout_rc") = Some rc)
    by (unfold is_int; destruct (as_int _); naive_solver).
  assert (Ht : is_list (get d "tmux_sessions_after") = true <-> exists l, get d "tmux_sessions_after" = JList l)
    by (destruct (get d "tmux_sessions_after"); naive_solver).
  by rewrite Hpid, Hrc, Ht.
Qed.

Lemma provenance_iff F p m : load_manifest_provenance F p = Ok m <->
  load_object F (div_path (parent (parent p)) "manifest-provenance.json") = Ok m
  /\ get m "schema" = JStr "zig-scheduler/task-09-provenance/v1".
Proof.
  unfold load_manifest_provenance. generalize (load_object F (div_path (parent (parent p)) "manifest-provenance.json")).
  intros loaded. rewrite bind_ok. setoid_rewrite freshness_text_is. setoid_rewrite Ok_inj. naive_solver.
Qed.

Lemma dirty_iff F d p head snapshot : validate_dirty_snapshot F d p head snapshot = Ok tt <-> accounted F d p head snapshot.
Proof.
  unfold validate_dirty_snapshot, accounted. destruct snapshot as [sha|]; [|split; [discriminate | naive_solver]].
  rewrite freshness_text_is, bind_ok. setoid_rewrite provenance_iff. do 3 setoid_rewrite freshness_text_is.
  setoid_rewrite freshness_true.
  assert (Hp : forall m msg, (let* copied := require_text m "copied_bundle_summary" in
      ensure (path_eqb (Path copied) p) FreshnessCheckError msg) = Ok tt <->
    exists copied, (get m "copied_bundle_summary" = JStr copied /\ copied <> "") /\ Path copied = p).
  { intros m msg. rewrite bind_ok. setoid_rewrite freshness_text_ok. setoid_rewrite ensure_ok.
    setoid_rewrite path_eqb_eq. done. }
  setoid_rewrite Hp. split.
  - intros [Hs (m & [Hm Hsc] & Hh & Hr & Hst & Hd & copied & Hc & Hpc)].
    exists sha, m, copied. unfold texts_are. rewrite !Forall_cons, !Forall_nil. naive_solver.
  - intros (sha' & m & copied & [= <-] & Hs & Hm & Ht & Hd & Hpc). revert Hs Ht.
    rewrite !texts_are_cons. intros [Hs _] ([Hsc _] & Hh & Hr & Hst & Hc & _). split; [done|].
    exists m. split; [done|]. do 4 (split; [done|]). by exists copied.
Qed.

Lemma bundle_iff F p head object_sha snapshot :
  validate_fresh_bundle F p head object_sha snapshot = Ok tt <->
  exists d, load_object F p = Ok d /\ bundle_ok F p head object_sha snapshot d.
Proof.
  unfold validate_fresh_bundle, bundle_ok. generalize (load_object F p). intros loaded. rewrite bind_ok. f_equiv. intros d.
  rewrite !freshness_text_is, !texts_are_cons. unfold texts_are at 1. rewrite Forall_nil.
  assert (Hd : forall b, (if (b : bool) then validate_dirty_snapshot F d p head snapshot else Ok tt) = Ok tt <->
    b = false \/ b = true /\ accounted F d p head snapshot)
    by (intros []; [rewrite dirty_iff | ]; naive_solver).
  rewrite bind_ok. setoid_rewrite freshness_bool_ok. setoid_rewrite bind_ok_unit. setoid_rewrite Hd.
  setoid_rewrite freshness_false. setoid_rewrite freshness_true. setoid_rewrite freshness_path_is.
  setoid_rewrite bind_ok. setoid_rewrite cleanup_iff. unfold require_object.
  assert (Hc : forall c, match get d "cleanup" with JDict d' => Ok d' | _ => fail "missing object field: cleanup" end = Ok c
    <-> get d "cleanup" = JDict c) by (intros c; destruct (get d "cleanup"); split; (congruence || discriminate)).
  setoid_rewrite Hc. split; [naive_solver|].
  intros (Hl & (H1 & H2 & H3 & H4 & H5 & _) & Hdirty & Hrest). do 6 (split; [done|]).
  destruct Hdirty as [Hdirty|[Hdirty Ha]]; [exists false | exists true]; naive_solver.
Qed.

Lemma run_checked_ok git cmd refusal out :
  run_checked git cmd refusal = Ok out <->
  exists c, bind (git cmd) in_text = Ok c /\ returncode c = 0%Z /\ out = stdout c.
Proof.
  assert (Hr : forall c, bind (reraise FileNotFoundError FreshnessCheckError (fun _ => refusal) (git cmd)) in_text = Ok c
    <-> bind (git cmd) in_text = Ok c) by (intros c; rewrite !bind_ok; by setoid_rewrite reraise_ok).
  unfold run_checked. rewrite bind_ok. setoid_rewrite Hr. setoid_rewrite bind_ok_unit. setoid_rewrite ensure_ok.
  setoid_rewrite Z.eqb_eq. setoid_rewrite Ok_inj. naive_solver.
Qed.
Lemma head_iff git head : current_git_sha git = Ok head <-> git_text git ["git"; "rev-parse"; "HEAD"] head.
Proof.
  unfold current_git_sha, git_text. rewrite bind_ok. setoid_rewrite run_checked_ok. setoid_rewrite Ok_inj. naive_solver.
Qed.
Lemma git_dirty_iff git dirty : current_git_dirty git = Ok dirty <->
  exists text, git_text git ["git"; "status"; "--porcelain"] text /\ dirty = negb (String.eqb text "").
Proof.
  unfold current_git_dirty, git_text. rewrite bind_ok. setoid_rewrite run_checked_ok. setoid_rewrite Ok_inj. naive_solver.
Qed.
Lemma command_bytes_ok git cmd bytes : command_bytes git cmd = Ok bytes <->
  exists out, git_bytes git cmd out /\ bytes = between_nuls "CMD" ++ join " " cmd ++ String nul "" ++ out.
Proof.
  unfold command_bytes, git_bytes. rewrite bind_ok. setoid_rewrite bind_ok_unit. setoid_rewrite ensure_ok.
  setoid_rewrite Z.eqb_eq. setoid_rewrite Ok_inj. naive_solver.
Qed.

Lemma others_ok git F sha commands :
  (let* other := git OTHERS in
   ensure (Z.eqb (returncode other) 0) FreshnessCheckError "git ls-files --others failed" ;;;
   let* files := map_m (untracked_bytes F) (untracked (stdout other)) in
   Ok (sha256_hex (join "" commands ++ join "" files))) = Ok sha <->
  exists others files, git_bytes git OTHERS others
    /\ Forall2 (fun raw bytes => untracked_bytes F raw = Ok bytes) (untracked others) files
    /\ sha = sha256_hex (join "" commands ++ join "" files).
Proof.
  split.
  - intros (other & Ho & (Hr%ensure_ok%Z.eqb_eq & (files & Hf%map_m_ok & [= <-])%bind_ok)%bind_ok_unit)%bind_ok.
    exists (stdout other), files. split; [by exists other | done].
  - intros (others & files & (other & Ho & Hr & ->) & Hf & ->). apply bind_ok. exists other. split; [done|].
    apply bind_ok_unit. rewrite ensure_ok, Z.eqb_eq. split; [done|]. apply bind_ok. exists files. by rewrite map_m_ok.
Qed.

Lemma snapshot_iff git F sha : current_dirty_snapshot_hash git F = Ok sha <-> snapshot_of git F sha.
Proof.
  unfold current_dirty_snapshot_hash, snapshot_of. rewrite bind_ok. setoid_rewrite others_ok. setoid_rewrite map_m_ok.
  unfold SNAPSHOT_COMMANDS. split.
  - intros (commands & Hc & others & files & Ho & Hf & ->).
    apply Forall2_cons_inv_l in Hc as (b1 & rest & (st & Hst & ->)%command_bytes_ok & Hc & ->).
    apply Forall2_cons_inv_l in Hc as (b2 & rest' & (df & Hdf & ->)%command_bytes_ok & ->%Forall2_nil_inv_l & ->).
    by exists st, df, others, files.
  - intros (st & df & others & files & Hst & Hdf & Ho & Hf & ->).
    eexists. split; [|by exists others, files].
    repeat constructor; apply command_bytes_ok; by eexists.
Qed.

Lemma worktree_iff git F snapshot :
  (let* dirty := current_git_dirty git in
   if (dirty : bool) then let* sha := current_dirty_snapshot_hash git F in Ok (Some sha) else Ok None) = Ok snapshot <->
  worktree git F snapshot.
Proof.
  unfold worktree. rewrite bind_ok. setoid_rewrite git_dirty_iff. split.
  - intros (dirty & (text & Ht & ->) & H). exists text. split; [done|].
    destruct (String.eqb_spec text "") as [->|Hne]; simpl in H; [left; by injection H as <-|].
    right. split; [done|]. apply bind_ok in H as (sha & Hs%snapshot_iff & [= <-]). by exists sha.
  - intros (text & Ht & H). exists (negb (String.eqb text "")). split; [by exists text|].
    destruct H as [[-> ->]|(Hne & sha & -> & Hs)]; [done|]. rewrite (proj2 (String.eqb_neq _ _) Hne). simpl.
    apply bind_ok. exists sha. by rewrite snapshot_iff.
Qed.

(** * Properties *)

(** C17: the freshness check accepts a summary exactly when it is a passed live run that records the commit git names as the head and the digest of the BPF object that is built for it, that mutated no host and wrote to a fresh directory, its own; when it was made from a dirty worktree, the worktree must still have the same status, difference and untracked files, as the provenance manifest of the run confirms; and its cleanup receipt must be complete, with process scans inside the bundle that do not show the lab machine. *)
Theorem freshness_iff git build F self_test s out :
  run git build F self_test ["--bundle"; s] = (out, Ok tt) <->
  out = ["PASS live bundle freshness: " ++ path_str (Path s)]
  /\ exists snapshot head artifacts F' d, worktree git F snapshot /\ git_text git ["git"; "rev-parse"; "HEAD"] head
       /\ ensure_canonical_bpf_artifacts build F = Ok (artifacts, F')
       /\ load_object F' (Path s) = Ok d /\ bundle_ok F' (Path s) head (object_sha256 artifacts) snapshot d.
Proof.
  unfold run. cbn [parse_args reading bundle self_test_arg]. rewrite printing_ok. unfold check_bundle.
  rewrite <- bind_assoc, bind_ok.
  setoid_rewrite worktree_iff. split.
  - intros (snapshot & Hw & (head & Hh%head_iff & Hr)%bind_ok). apply bind_ok in Hr as ([object_sha F'] & Ho & Hr).
    apply bind_ok in Ho as ([artifacts F''] & Ha%reraise_ok & [= <- <-]).
    apply bind_ok_unit in Hr as [(d & Hd & Hb)%bundle_iff [= <-]].
    split; [done|]. by exists snapshot, head, artifacts, F'', d.
  - intros (-> & snapshot & head & artifacts & F' & d & Hw & Hh & Ha & Hd & Hb). exists snapshot. split; [done|].
    apply bind_ok. exists head. split; [by apply head_iff|]. apply bind_ok. exists (object_sha256 artifacts, F').
    split; [apply bind_ok; exists (artifacts, F'); by rewrite reraise_ok|].
    apply bind_ok_unit. split; [|done]. apply bundle_iff. by exists d.
Qed.
