(* ===== verification/Governance.v ===== *)
(** Governance: qa/governance_manifest_check.py, the manifest that pins the digest
    of every source the release governance rests on.  Git, the environment of
    the process and the self-test are parameters. *)
From S2P Require Import Prelude PyStr PyFloat PyJson Sha256 PyFs PyMain MatrixModel.

Local Open Scope string_scope.

Definition SCHEMA_VERSION : Z := 1.
Definition EXPECTED_REQUIRED_SOURCES : list (string * string) := [
  ("AGENTS.md", "future-agent operator guidance and fail-closed invariants");
  ("build.zig", "Zig build graph wiring for host-safe governance gates");
  ("README.md", "tracked project overview and governance entrypoint");
  ("WORKLOG.md", "historical checkpoints and current project posture");
  (".github/workflows/manual-vm-proof.yml", "protected manual VM proof workflow contract");
  ("docs/adr/0001-sched-ext-production-claim-boundary.md", "sched_ext production claim boundary ADR");
  ("docs/adr/0002-loader-architecture.md", "loader architecture ADR for lab-scoped backend readiness");
  ("docs/adr/0003-non-vm-operation-gate.md", "non-VM operation governance design gate");
  ("docs/backend-capability-matrix.md", "backend capability matrix and milestone boundaries");
  ("docs/ci.md", "CI gate documentation for lab readiness checks");
  ("docs/control/frontend-api-pack.md", "backend frontend-contract API pack documentation and no-frontend boundary");
  ("docs/control/incident-taxonomy.md", "daemon incident taxonomy source for frontend contract fixtures");
  ("docs/control/matrix-run-contract.md", "matrix-run v1 evidence contract documentation");
  ("docs/control/schema-compatibility.md", "public schema compatibility policy for backend clients");
  ("docs/control/stream-semantics.md", "daemon stream and runtime-sample replay semantics");
  ("docs/releases/governance-gate.md", "release governance gate and evidence matrix");
  ("docs/releases/supported-kernel-tuples.md", "supported VM lab kernel tuple matrix");
  ("docs/runbooks/sched-ext-fallback.md", "sched_ext fallback and rollback runbook");
  ("docs/runbooks/verifier-and-incident.md", "verifier and incident response runbook");
  ("docs/runbooks/vm-lab.md", "VM lab runbook for backend readiness evidence");
  ("docs/security/review-checklist.md", "security signoff and privacy review checklist");
  ("docs/security/threat-model.md", "scheduler backend threat model");
  ("packaging/README.md", "package operator safety and install scope documentation");
  ("packaging/build_package.sh", "package build source and manifest generator");
  ("packaging/config/default.toml", "default package configuration safety posture");
  ("packaging/systemd/zig-scheduler-daemon.service", "daemon systemd unit safety source");
  ("packaging/systemd/zig-scheduler-lab-mutation.service", "lab mutation systemd unit safety source");
  ("packaging/systemd/zig-scheduler-preflight.service", "preflight systemd unit safety source");
  ("schemas/control/benchmark-output.v1.schema.json", "benchmark-output v1 record-only evidence schema");
  ("schemas/control/evidence-manifest.v1.schema.json", "evidence-manifest v1 proof bundle schema");
  ("schemas/control/matrix-run.v1.schema.json", "matrix-run v1 standalone evidence schema");
  ("schemas/control/protected-environment-review.v1.schema.json", "protected environment review approval schema");
  ("schemas/control/runner-substrate-proof.v1.schema.json", "protected runner substrate proof schema");
  ("schemas/control/runner-cleanliness-proof.v1.schema.json", "protected runner cleanliness proof schema");
  ("schemas/control/runtime-sample.v1.schema.json", "runtime-sample v1 sched_ext observation schema");
  ("qa/backend_capability_matrix_check.py", "backend capability matrix contract validator");
  ("qa/backend_capability_matrix_expected.json", "backend capability matrix expected contract source");
  ("qa/benchmark_output_check.py", "benchmark-output v1 validator entrypoint");
  ("qa/benchmark_output_io.py", "benchmark-output JSON IO and privacy boundary");
  ("qa/benchmark_output_model.py", "benchmark-output typed model and parser family source");
  ("qa/benchmark_output_parse.py", "benchmark-output raw parser source");
  ("qa/benchmark_output_privacy.py", "benchmark-output privacy and claim filter");
  ("qa/benchmark_output_selftest.py", "benchmark-output validator adversarial self-test cases");
  ("qa/benchmark_output_validate.py", "benchmark-output semantic validator");
  ("qa/clean_archive_check.sh", "clean archive and fresh clone reproducibility gate");
  ("qa/consumer_contract_check.py", "backend consumer contract lifecycle and incident validator");
  ("qa/daemon_event_contract_check.py", "daemon event JSONL privacy and lifecycle validator");
  ("qa/evidence_manifest_check.py", "evidence-manifest v1 provenance validator");
  ("qa/evidence_manifest_selftest.py", "evidence-manifest v1 validator self-test fixtures");
  ("qa/frontend_contract_matrix_ref.py", "frontend contract matrix artifact reference validator");
  ("qa/frontend_contract_pack_check.py", "frontend contract pack validator entrypoint");
  ("qa/frontend_contract_pack_selftest.py", "frontend contract pack adversarial self-test cases");
  ("qa/frontend_contract_pack_semantics.py", "frontend contract event lifecycle semantic rules");
  ("qa/frontend_contract_pack_types.py", "frontend contract typed fixture helpers");
  ("qa/governance_manifest_check.py", "governance manifest schema and exact Task 11 source validator");
  ("qa/manual_vm_proof_ci_check.py", "manual VM proof workflow and provenance static checker");
  ("qa/manual_vm_proof_ci_selftest.py", "manual VM proof workflow checker self-test fixtures");
  ("qa/manual_vm_proof_flow.py", "manual VM proof embedded flow static semantic checker");
  ("qa/matrix_benchmark_provenance.py", "matrix workload benchmark provenance validator");
  ("qa/matrix_benchmark_provenance_check.py", "matrix benchmark provenance self-test entrypoint");
  ("qa/matrix_benchmark_provenance_selftest.py", "matrix benchmark provenance manifest mutation self-tests");
  ("qa/matrix_run_contract_check.py", "matrix-run v1 contract validator and self-test gate");
  ("qa/matrix_run_json.py", "matrix-run v1 JSON IO and path boundary helper");
  ("qa/matrix_run_live_backend.py", "matrix-run v1 live backend row validator helper");
  ("qa/matrix_run_manifest_validate.py", "matrix-run v1 manifest semantic validator helper");
  ("qa/matrix_run_model.py", "matrix-run v1 typed model and parser source");
  ("qa/matrix_run_selftest.py", "matrix-run v1 adversarial self-test entrypoint helper");
  ("qa/matrix_run_selftest_cases_basic.py", "matrix-run v1 basic self-test fixture cases");
  ("qa/matrix_run_selftest_cases_live.py", "matrix-run v1 live backend self-test fixture cases");
  ("qa/matrix_run_selftest_cases_workload.py", "matrix-run v1 workload self-test fixture cases");
  ("qa/matrix_run_selftest_common.py", "matrix-run v1 self-test fixture builder helpers");
  ("qa/matrix_run_selftest_pack.py", "matrix-run v1 self-test fixture pack validator helper");
  ("qa/matrix_run_validate.py", "matrix-run v1 fixture and manifest validation orchestrator");
  ("qa/matrix_run_workload.py", "matrix-run v1 workload metadata validator helper");
  ("qa/protected_core_suite_check.py", "protected core matrix suite validator");
  ("qa/protected_core_suite_selftest.py", "protected core matrix suite self-test fixtures");
  ("qa/protected_core_telemetry_check.py", "protected core runtime telemetry normalization validator");
  ("qa/protected_core_telemetry_selftest.py", "protected core runtime telemetry self-test fixtures");
  ("qa/no_frontend_root.sh", "root frontend and UI artifact exclusion gate");
  ("qa/no_host_mutation.sh", "host mutation denial gate");
  ("qa/package_defaults.sh", "package default safety inspection gate");
  ("qa/package_lifecycle_drill.sh", "package install upgrade uninstall lifecycle drill");
  ("qa/package_manifest_check.py", "package manifest semantic safety validator");
  ("qa/protected_environment_review_check.py", "protected environment review contract validator");
  ("qa/release_gate.sh", "release evidence gate consumed by lab/release checks");
  ("qa/release_gate_selftest.py", "release evidence gate helper and adversarial self-test logic");
  ("qa/runner_substrate_proof_check.py", "protected runner substrate proof validator");
  ("qa/runner_substrate_proof_common.py", "protected runner substrate proof shared JSON loader and error source");
  ("qa/runner_substrate_proof_selftest.py", "protected runner substrate proof adversarial self-test cases");
  ("qa/runner_cleanliness_proof_check.py", "protected runner cleanliness proof validator");
  ("qa/runtime_sample_check.py", "runtime-sample v1 validator entrypoint");
  ("qa/runtime_sample_common.py", "runtime-sample shared parsing and primitive validators");
  ("qa/runtime_sample_core.py", "runtime-sample core schema and alert semantics validator");
  ("qa/runtime_sample_digest.py", "runtime-sample digest summary validator");
  ("qa/runtime_sample_fields.py", "runtime-sample required field source of truth");
  ("qa/runtime_sample_fixtures.py", "runtime-sample safe fixture generator");
  ("qa/runtime_sample_policy_abi.py", "runtime-sample policy ABI contract validator");
  ("qa/runtime_sample_sched_ext.py", "runtime-sample sched_ext kernel fact validator");
  ("qa/runtime_sample_selftest.py", "runtime-sample adversarial self-test cases");
  ("qa/schema_compatibility_check.py", "public schema compatibility validator");
  ("qa/schema_compatibility_schema_rules.py", "schema compatibility structural rules shared by control schema gates");
  ("qa/schema_compatibility_runner_cleanliness_rules.py", "schema compatibility runner cleanliness proof freeze rules");
  ("qa/evidence_bundle_compare_check.py", "protected evidence bundle comparison validator");
  ("qa/evidence_bundle_paths.py", "protected evidence bundle artifact path and digest helper");
  ("qa/evidence_bundle_compare_selftest.py", "protected evidence bundle comparison self-test fixtures");
  ("qa/security_gate.sh", "security profile gate consumed by governance checks");
  ("qa/unsafe_cli_matrix.sh", "unsafe CLI refusal matrix gate");
  ("qa/vm/contract_check.sh", "disposable VM execution contract validator");
  ("qa/vm/execution_contract.json", "disposable VM execution contract source");
  ("qa/vm/microvm_rootfs.sh", "microVM rootfs public build wrapper and self-test dispatcher");
  ("qa/vm/microvm_rootfs_guest_init.sh", "microVM rootfs guest init script writer helper");
  ("qa/vm/microvm_rootfs_selftest.sh", "microVM rootfs workload-tool self-test helper");
  ("qa/vm/run_microvm_live_lab.sh", "microVM live lab public runner wrapper and self-test dispatcher");
  ("qa/vm/run_microvm_live_lab_selftest.sh", "microVM live runner fallback self-test helper");
  ("qa/vm/vm_harness_matrix.sh", "canonical host-safe VM harness matrix runner");
  ("qa/vm/vm_harness_matrix_emit.py", "VM harness matrix JSON row and manifest emit helper");
  ("qa/vm/workload_execution_check.py", "row-local VM workload execution PASS validator");
  ("qa/vm/workload_catalog_check.sh", "VM workload catalog and matrix fixture validator");
  ("qa/wording_audit.sh", "wording, contradiction, and prompt-injection audit gate");
  ("fixtures/protected-environment-review/valid/github-review-run-28539973410.json", "protected environment review approved GitHub run fixture");
  ("fixtures/runner-substrate-proof/valid/protected-review.json", "runner substrate proof embedded protected environment review fixture");
  ("fixtures/protected-environment-review/invalid/api-url-repo-mismatch.json", "protected environment review invalid API URL repository mismatch fixture");
  ("fixtures/protected-environment-review/invalid/dirty-worktree-field.json", "protected environment review invalid dirty worktree field fixture");
  ("fixtures/protected-environment-review/invalid/host-mutation-true.json", "protected environment review invalid host mutation claim fixture");
  ("fixtures/protected-environment-review/invalid/malformed.json", "protected environment review invalid malformed JSON fixture");
  ("fixtures/protected-environment-review/invalid/misleading-success-output-field.json", "protected environment review invalid misleading success output fixture");
  ("fixtures/protected-environment-review/invalid/missing-reviewer-identity.json", "protected environment review invalid missing reviewer identity fixture");
  ("fixtures/protected-environment-review/invalid/missing-run-url.json", "protected environment review invalid missing run URL fixture");
  ("fixtures/protected-environment-review/invalid/non-approved-state.json", "protected environment review invalid non-approved state fixture");
  ("fixtures/protected-environment-review/invalid/privacy-unsafe-key.json", "protected environment review invalid privacy unsafe key fixture");
  ("fixtures/protected-environment-review/invalid/production-capacity-claim-true.json", "protected environment review invalid production capacity claim fixture");
  ("fixtures/protected-environment-review/invalid/release-eligible-true.json", "protected environment review invalid release eligibility claim fixture");
  ("fixtures/protected-environment-review/invalid/run-url-id-mismatch.json", "protected environment review invalid run URL ID mismatch fixture");
  ("fixtures/protected-environment-review/invalid/stale-state-field.json", "protected environment review invalid stale state field fixture");
  ("fixtures/protected-environment-review/invalid/wrong-comment.json", "protected environment review invalid approval comment fixture");
  ("fixtures/protected-environment-review/invalid/wrong-env.json", "protected environment review invalid environment fixture")].
Definition EXPECTED_REQUIRED_SOURCE_PATHS : list string := map fst EXPECTED_REQUIRED_SOURCES.

Definition PRODUCTION_MATRIX_TERMS : list (string * string) := [
  ("kernel tuple matrix", "kernel tuple matrix");
  ("verifier logs", "verifier log");
  ("VM attach evidence", "vm-only partial-switch attach");
  ("rollback drills", "rollback drill");
  ("stress and chaos", "stress/chaos");
  ("audit ledger", "audit ledger");
  ("security signoff", "security signoff");
  ("package install safety", "package install");
  ("package upgrade safety", "package upgrade");
  ("package uninstall safety", "package uninstall");
  ("incident runbook", "incident runbook");
  ("privacy review", "privacy review");
  ("matrix manifest", "matrix-run/v1");
  ("systemd no auto-start", "no auto-start")].

Record Args : Set := MkArgs { manifest : path; require_production_matrix : bool; self_test_arg : bool }.

Record Source : Set := MkSource { source_path : path; purpose : string; required : bool; digest : string }.

Definition fail {A} (m : string) : result A := raise ManifestError m.

Definition reject_json_constant : const_hook := fun value => fail ("invalid JSON constant: " ++ value).

Definition DEFAULT_MANIFEST : path := Path "fixtures/lab/governance-sources.json".

Fixpoint parse_options (argv : list string) (args : Args) : result Args :=
  match argv with
  | [] => Ok args
  | arg :: rest =>
      if String.eqb arg "--manifest" then
        match rest with
        | [] => fail "--manifest requires a path"
        | p :: rest => parse_options rest (MkArgs (Path p) (require_production_matrix args) false)
        end
      else if String.eqb arg "--require-production-matrix" then
        parse_options rest (MkArgs (manifest args) true false)
      else fail "usage: governance_manifest_check.py [--manifest <path>] [--require-production-matrix] | --self-test"
  end.

Definition parse_args (argv : list string) : result Args :=
  match argv with
  | ["--self-test"] => Ok (MkArgs DEFAULT_MANIFEST false true)
  | [] => fail "usage: governance_manifest_check.py --manifest <path>"
  | _ => parse_options argv (MkArgs DEFAULT_MANIFEST false false)
  end.

(** One entry of the manifest, with the paths read so far as they are written. *)
Definition parse_item (index : nat) (item : json) (state : gset string * list Source) : result (gset string * list Source) :=
  let '(seen, parsed) := state in
  let here := "source[" ++ str_nat index ++ "]" in
  match item with
  | JDict item =>
      match get item "path" with
      | JStr path_value =>
          if String.eqb path_value "" || startswith path_value "/" then fail (here ++ " has invalid relative path") else
          let path_parts := parts (Path path_value) in
          if mem ".." path_parts then fail (here ++ " has path traversal: " ++ path_value) else
          if match path_parts with first :: _ => mem first [".omo"; ".omx"] | [] => false end
          then fail (here ++ " uses ignored local state: " ++ path_value) else
          if bool_decide (path_value ∈ seen) then fail ("duplicate governance source: " ++ path_value) else
          match get item "purpose" with
          | JStr purpose =>
              if String.eqb purpose "" then fail ("source[" ++ path_value ++ "] has invalid purpose") else
              match get item "required" with
              | JBool required =>
                  match get item "sha256" with
                  | JStr digest =>
                      if negb (Nat.eqb (len digest) 64) || negb (all_chars is_hex_lower digest)
                      then fail ("source[" ++ path_value ++ "] has invalid sha256")
                      else Ok ({[path_value]} ∪ seen, (parsed ++ [MkSource (Path path_value) purpose required digest])%list)
                  | _ => fail ("source[" ++ path_value ++ "] has invalid sha256")
                  end
              | _ => fail ("source[" ++ path_value ++ "] has invalid required flag")
              end
          | _ => fail ("source[" ++ path_value ++ "] has invalid purpose")
          end
      | _ => fail (here ++ " has invalid relative path")
      end
  | _ => fail (here ++ " must be an object")
  end.

(** [EXPECTED_PURPOSE_BY_PATH[path]] *)
Definition expected_purpose (path_text : string) : result string :=
  match List.find (fun '(p, _) => String.eqb path_text p) (rev EXPECTED_REQUIRED_SOURCES) with
  | Some (_, purpose) => Ok purpose
  | None => raise KeyError path_text
  end.

Definition validate_exact_source_contract (sources : list Source) : result unit :=
  let paths := map (fun source => path_str (source_path source)) sources in
  let missing := sorted (set_diff EXPECTED_REQUIRED_SOURCE_PATHS paths) in
  ensure (match missing with [] => true | _ => false end) ManifestError ("missing exact Task 11 governance source: " ++ join "," missing) ;;;
  let unexpected := sorted (set_diff paths EXPECTED_REQUIRED_SOURCE_PATHS) in
  ensure (match unexpected with [] => true | _ => false end) ManifestError ("unexpected Task 11 governance source: " ++ join "," unexpected) ;;;
  for_each sources (fun source =>
    let path_text := path_str (source_path source) in
    ensure (required source) ManifestError ("Task 11 governance source must be required: " ++ path_text) ;;;
    let* expected := expected_purpose path_text in
    ensure (String.eqb (purpose source) expected) ManifestError
      ("Task 11 governance source purpose mismatch: " ++ path_text)).

Section Checker.
Variable F : fs.
Variable git : list string -> result completed.
(** [os.environ.get] *)
Variable environ : string -> option string.

Definition load_json_object (p : path) (context : string) : result jobject :=
  let* raw := catch (bind (read_text F p) (loads_with reject_json_constant)) (fun exc =>
    if decide (exn_cls exc = FileNotFoundError) then Some (fail ("missing " ++ context ++ ": " ++ path_str p))
    else if decide (exn_cls exc = JSONDecodeError)
    then Some (fail ("invalid " ++ context ++ " JSON at byte " ++ str_nat (exn_pos exc) ++ ": " ++ exn_msg exc))
    else None) in
  match raw with JDict d => Ok d | _ => fail (context ++ " must be a JSON object") end.

Definition parse_manifest (p : path) : result (list Source) :=
  let* raw := load_json_object p "governance manifest" in
  let schema_version := get raw "schema_version" in
  ensure (py_eq schema_version (JInt SCHEMA_VERSION)) ManifestError
    ("unsupported governance manifest schema_version: " ++ py_repr schema_version) ;;;
  match get raw "sources" with
  | JList ((_ :: _) as sources) =>
      let* (_, parsed) := for_fold 0 sources (∅, []) parse_item in
      validate_exact_source_contract parsed ;;;
      Ok parsed
  | _ => fail "governance manifest must contain non-empty sources"
  end.

Definition git_tracked_files : result (list string) :=
  let* result := bind (git ["git"; "ls-files"]) in_text in
  ensure (Z.eqb (returncode result) 0) ManifestError ("git ls-files failed: " ++ strip (stderr result)) ;;;
  Ok (splitlines (stdout result)).

Definition git_check_ignore (p : path) : result bool :=
  let* result := bind (git ["git"; "check-ignore"; path_str p]) in_text in
  Ok (Z.eqb (returncode result) 0).

Definition archive_mode_allowed : bool :=
  bool_decide (environ "ZIG_SCHEDULER_GOVERNANCE_ARCHIVE_OK" = Some "1").

Definition validate_source (tracked : list string) (source : Source) : result unit :=
  let path_text := path_str (source_path source) in
  ensure (negb (required source && negb archive_mode_allowed && negb (mem path_text tracked))) ManifestError
    ("missing tracked governance source: " ++ path_text) ;;;
  let* ignored := if required source && negb archive_mode_allowed then git_check_ignore (source_path source) else Ok false in
  ensure (negb ignored) ManifestError ("missing tracked governance source (ignored): " ++ path_text) ;;;
  let* content := reraise FileNotFoundError ManifestError
                    (fun _ => "missing tracked governance source: " ++ path_text) (read_bytes F (source_path source)) in
  ensure (String.eqb (sha256_hex content) (digest source)) ManifestError
    ("governance source hash mismatch: " ++ path_text).

Definition validate_sources (sources : list Source) : result unit :=
  let* tracked := if archive_mode_allowed then Ok [] else git_tracked_files in
  for_each sources (validate_source tracked).

Definition require_text (p : path) (needle label : string) : result unit :=
  let* text := reraise FileNotFoundError ManifestError
                 (fun _ => "missing production matrix source: " ++ path_str p) (read_text F p) in
  let haystack := lower text in
  ensure (contains (lower needle) haystack) ManifestError
    ("production evidence matrix missing " ++ label ++ ": " ++ path_str p).

Definition validate_production_matrix : result unit :=
  let gate := Path "docs/releases/governance-gate.md" in
  let checklist := Path "docs/security/review-checklist.md" in
  let release_summary := Path "evidence/releases/0.2.0-lab/summary.json" in
  for_each PRODUCTION_MATRIX_TERMS (fun '(label, needle) => require_text gate needle label) ;;;
  require_text checklist "security signoff" "security signoff checklist" ;;;
  require_text checklist "privacy review" "privacy review checklist" ;;;
  let* summary := reraise ManifestError ManifestError exn_str (load_json_object release_summary "release summary") in
  ensure (is_false (get summary "production_ready")) ManifestError
    "current release summary must keep production_ready=false" ;;;
  ensure (is_false (get summary "arbitrary_host_safe")) ManifestError
    "current release summary must keep arbitrary_host_safe=false" ;;;
  ensure (py_eq (get summary "release_status") (JStr "controlled_lab_pilot_candidate")) ManifestError
    "current release summary must remain controlled_lab_pilot_candidate".

(** [run] without its self-test: the line that is printed. *)
Definition check (args : Args) : result (list string) :=
  let* sources := parse_manifest (manifest args) in
  validate_sources sources ;;;
  (if require_production_matrix args then validate_production_matrix else Ok tt) ;;;
  let required := List.length (List.filter required sources) in
  Ok ["PASS governance manifest: " ++ path_str (manifest args) ++ " required_sources=" ++ str_nat required
      ++ " total_sources=" ++ str_nat (List.length sources)].

Definition run (self_test : printed) (argv : list string) : printed :=
  reading (parse_args argv) (fun args =>
    if self_test_arg args then self_test else
    printing (check args)).

Definition main (self_test : printed) (argv : list string) : exit :=
  end_main (is_class ManifestError) "FAIL governance manifest" (run self_test argv).
End Checker.

(** * Specification *)

(** A relative path that stays in the repository and is not local state. *)
Definition repository_path (s : string) : Prop :=
  s <> "" /\ plain_path (Path s) /\ ~ (exists rest, p_parts (Path s) = ".omo" :: rest \/ p_parts (Path s) = ".omx" :: rest).

(** An entry of the manifest, the path as it is written and the source it lists. *)
Definition entry_of (item : json) (k : string * Source) : Prop :=
  exists d purpose required digest, item = JDict d /\ get d "path" = JStr (fst k) /\ repository_path (fst k)
    /\ get d "purpose" = JStr purpose /\ purpose <> "" /\ get d "required" = JBool required
    /\ get d "sha256" = JStr digest /\ len digest = 64 /\ all_chars is_hex_lower digest = true
    /\ snd k = MkSource (Path (fst k)) purpose required digest.

(** The sources are the expected ones, with their purposes. *)
Definition exact (sources : list Source) : Prop :=
  (forall p, In p EXPECTED_REQUIRED_SOURCE_PATHS -> In p (map (fun source => path_str (source_path source)) sources))
  /\ Forall (fun source => required source = true
       /\ In (path_str (source_path source), purpose source) EXPECTED_REQUIRED_SOURCES) sources.

Definition listed (F : fs) (p : path) (sources : list Source) : Prop :=
  exists d items entries, load_json_object F p "governance manifest" = Ok d
    /\ py_eq (get d "schema_version") (JInt SCHEMA_VERSION) = true /\ get d "sources" = JList items
    /\ Forall2 entry_of items entries /\ NoDup (map fst entries) /\ sources = map snd entries /\ exact sources.

(** The commit tracks the source: it is listed and not ignored. *)
Definition tracked_source (git : list string -> result completed) (source : Source) : Prop :=
  (exists listing, bind (git ["git"; "ls-files"]) in_text = Ok listing /\ returncode listing = 0%Z
     /\ In (path_str (source_path source)) (splitlines (stdout listing)))
  /\ exists c, bind (git ["git"; "check-ignore"; path_str (source_path source)]) in_text = Ok c /\ returncode c <> 0%Z.

Definition pinned (F : fs) (git : list string -> result completed) (environ : string -> option string)
    (source : Source) : Prop :=
  file_digest F (source_path source) (digest source)
  /\ (environ "ZIG_SCHEDULER_GOVERNANCE_ARCHIVE_OK" = Some "1" \/ tracked_source git source).

(** A text file has a phrase, ignoring case. *)
Definition mentions (F : fs) (p : path) (needle : string) : Prop :=
  exists text a b, read_text F p = Ok text /\ lower text = a ++ lower needle ++ b.

Definition production_ok (F : fs) : Prop :=
  Forall (fun '(_, needle) => mentions F (Path "docs/releases/governance-gate.md") needle) PRODUCTION_MATRIX_TERMS
  /\ mentions F (Path "docs/security/review-checklist.md") "security signoff"
  /\ mentions F (Path "docs/security/review-checklist.md") "privacy review"
  /\ exists d, load_json_object F (Path "evidence/releases/0.2.0-lab/summary.json") "release summary" = Ok d
       /\ get d "production_ready" = JBool false /\ get d "arbitrary_host_safe" = JBool false
       /\ get d "release_status" = JStr "controlled_lab_pilot_candidate".

(** * Lemmas *)
Lemma first_part_local l : (match l with first :: _ => mem first [".omo"; ".omx"] | [] => false end) = false <->
  ~ (exists rest, l = ".omo" :: rest \/ l = ".omx" :: rest).
Proof.
  destruct l as [|x l]; [split; [by intros _ (? & [[=]|[=]]) | done]|].
  rewrite <- not_true_iff_false, mem_In. split; intros H.
  - intros (rest & [[= -> ->]|[= -> ->]]); apply H; simpl; tauto.
  - intros [<-|[<-|[]]]; apply H; eauto.
Qed.
Lemma root_slash s : startswith s "/" = is_absolute (Path s).
Proof.
  assert (Hs : forall r, startswith s ("/" ++ r) = true -> startswith s "/" = true)
    by (intros r [t ->]%startswith_iff; by apply startswith_iff; exists (r ++ t)).
  unfold is_absolute, Path. cbn [p_root].
  destruct (startswith s "///") eqn:E3; [by rewrite (Hs "//")|].
  destruct (startswith s "//") eqn:E2; [by rewrite (Hs "/")|]. by destruct (startswith s "/").
Qed.
Lemma repository_iff s :
  (String.eqb s "" || startswith s "/" = false /\ mem ".." (parts (Path s)) = false
   /\ match parts (Path s) with first :: _ => mem first [".omo"; ".omx"] | [] => false end = false) <-> repository_path s.
Proof.
  unfold repository_path. rewrite <- plain_path_iff, orb_false_iff, String.eqb_neq, root_slash, andb_true_iff, !negb_true_iff.
  destruct (is_absolute (Path s)) eqn:Ha; [naive_solver|]. destruct (relative_parts _ Ha) as [_ ->].
  rewrite first_part_local. tauto.
Qed.

Lemma entry_of_dict d k : entry_of (JDict d) k <->
  exists purpose required digest, get d "path" = JStr (fst k) /\ repository_path (fst k)
    /\ get d "purpose" = JStr purpose /\ purpose <> "" /\ get d "required" = JBool required
    /\ get d "sha256" = JStr digest /\ len digest = 64 /\ all_chars is_hex_lower digest = true
    /\ snd k = MkSource (Path (fst k)) purpose required digest.
Proof. unfold entry_of. naive_solver. Qed.

Lemma parse_item_ok i item state state' :
  parse_item i item state = Ok state' <->
  exists k, entry_of item k /\ fst k ∉ fst state
    /\ state' = ({[fst k]} ∪ fst state, (snd state ++ [snd k])%list).
Proof.
  destruct state as [seen parsed]. unfold parse_item.
  destruct item as [| | | | | |d]; try (split; [discriminate | by intros (? & (? & ? & ? & ? & [=] & _) & _)]).
  setoid_rewrite entry_of_dict. cbn [fst snd].
  destruct (get d "path") as [| | | |s| |]; try (split; [discriminate | by intros (? & (? & ? & ? & [=] & _) & _)]).
  assert (Hr := repository_iff s).
  destruct (_ || _); [split; [discriminate | intros (k & (? & ? & ? & [= ->] & Hk & _) & _); by apply Hr in Hk as [[=] _]]|].
  destruct (mem _ _);
    [split; [discriminate | intros (k & (? & ? & ? & [= ->] & Hk & _) & _); by apply Hr in Hk as (_ & [=] & _)]|].
  destruct (match parts _ with [] => _ | _ => _ end);
    [split; [discriminate | intros (k & (? & ? & ? & [= ->] & Hk & _) & _); by apply Hr in Hk as (_ & _ & [=])]|].
  case_bool_decide as Hseen; [split; [discriminate | by intros (k & (? & ? & ? & [= ->] & _) & Hn & _)]|].
  destruct (get d "purpose") as [| | | |purpose| |];
    try (split; [discriminate | by intros (? & (? & ? & ? & _ & _ & [=] & _) & _)]).
  destruct (String.eqb_spec purpose "") as [->|Hne];
    [split; [discriminate | by intros (? & (? & ? & ? & _ & _ & [= <-] & Hn & _) & _)]|].
  destruct (get d "required") as [|b| | | | |];
    try (split; [discriminate | by intros (? & (? & ? & ? & _ & _ & _ & _ & [=] & _) & _)]).
  destruct (get d "sha256") as [| | | |digest| |];
    try (split; [discriminate | by intros (? & (? & ? & ? & _ & _ & _ & _ & _ & [=] & _) & _)]).
  destruct (negb _ || negb _) eqn:Hc.
  { split; [discriminate|]. intros (? & (? & ? & ? & _ & _ & _ & _ & _ & [= <-] & Hl & Ha & _) & _).
    by rewrite Hl, Ha in Hc. }
  apply orb_false_iff in Hc as [Hl%negb_false_iff%Nat.eqb_eq Ha%negb_false_iff]. rewrite Ok_inj. split.
  - intros <-. exists (s, MkSource (Path s) purpose b digest). split; [|done].
    exists purpose, b, digest. by rewrite <- Hr.
  - intros ([s' k] & (purpose' & b' & digest' & [= <-] & _ & [= <-] & _ & [= <-] & [= <-] & _ & _ & Hk) & _ & ->).
    simpl in Hk |- *. by rewrite Hk.
Qed.

(** The loop keeps the paths it has read and the sources in order. *)
Lemma fresh_entries ks (s : gset string * list Source) :
  fresh_run (fun k s => fst k ∉ fst s) (fun (k : string * Source) s => ({[fst k]} ∪ fst s, (snd s ++ [snd k])%list)) ks s
  <-> NoDup (map fst ks) /\ forall p, p ∈ map fst ks -> p ∉ fst s.
Proof.
  revert s. induction ks as [|k ks IH]; intros s; simpl.
  - split; [intros _; split; [constructor | set_solver] | done].
  - rewrite IH, NoDup_cons. simpl. set_solver.
Qed.
Lemma fold_entries ks (s : gset string * list Source) :
  snd (fold_left (fun s (k : string * Source) => ({[fst k]} ∪ fst s, (snd s ++ [snd k])%list)) ks s)
  = (snd s ++ map snd ks)%list.
Proof.
  revert s. induction ks as [|k ks IH]; intros s; simpl; [by rewrite app_nil_r|]. rewrite IH. simpl. by rewrite <- app_assoc.
Qed.
Lemma parse_items_ok items parsed :
  (exists seen, for_fold 0 items (∅, []) parse_item = Ok (seen, parsed)) <->
  exists entries, Forall2 entry_of items entries /\ NoDup (map fst entries) /\ parsed = map snd entries.
Proof.
  setoid_rewrite (for_fold_fresh (fun _ => entry_of) (fun k s => fst k ∉ fst s)
    (fun k s => ({[fst k]} ∪ fst s, (snd s ++ [snd k])%list)) parse_item).
  2: { intros i item s s'. apply parse_item_ok. }
  setoid_rewrite (Forall2_enum _ 0). setoid_rewrite fresh_entries. split.
  - intros (seen & ks & Hks & [Hn _] & E). exists ks. split; [done|]. split; [done|].
    apply (f_equal snd) in E. rewrite fold_entries in E. done.
  - intros (ks & Hks & Hn & ->). eexists _, ks. split; [done|]. split; [split; [done | set_solver]|].
    rewrite <- (app_nil_l (map snd ks)). rewrite <- (fold_entries ks (∅, [])). symmetry. apply surjective_pairing.
Qed.

Lemma find_named {A} (l : list (string * A)) p x : NoDup (map fst l) ->
  List.find (fun '(q, _) => String.eqb p q) l = Some x <-> fst x = p /\ In x l.
Proof.
  induction l as [|[q y] l IH]; simpl; [naive_solver|]. rewrite NoDup_cons, list_elem_of_In.
  intros [Hq Hn]. specialize (IH Hn). destruct (String.eqb_spec p q) as [->|Hp].
  - split; [intros [= <-]; by split; [|left]|]. intros [Hx [<-|Hx']]; [done|].
    destruct Hq. rewrite <- Hx. by apply in_map.
  - rewrite IH. naive_solver.
Qed.
Lemma expected_distinct : NoDup (map fst (rev EXPECTED_REQUIRED_SOURCES)).
Proof. apply (bool_decide_unpack _). by vm_compute. Qed.
Lemma expected_purpose_ok p purpose : expected_purpose p = Ok purpose <-> In (p, purpose) EXPECTED_REQUIRED_SOURCES.
Proof.
  unfold expected_purpose. rewrite (in_rev EXPECTED_REQUIRED_SOURCES (p, purpose)).
  assert (H := fun x => find_named _ p x expected_distinct).
  destruct (List.find _ (rev EXPECTED_REQUIRED_SOURCES)) as [[q y]|] eqn:E.
  - destruct (proj1 (H (q, y)) eq_refl) as [Hq Hin]. simpl in Hq. subst q. rewrite Ok_inj.
    split; [by intros <-|]. intros Hp. by injection (proj2 (H (p, purpose)) (conj eq_refl Hp)).
  - split; [discriminate|]. intros Hp. by discriminate (proj2 (H (p, purpose)) (conj eq_refl Hp)).
Qed.

Lemma agents_expected : In "AGENTS.md" EXPECTED_REQUIRED_SOURCE_PATHS.
Proof. by left. Qed.
Local Opaque EXPECTED_REQUIRED_SOURCES EXPECTED_REQUIRED_SOURCE_PATHS.

Lemma none_left (l : list string) : (match l with [] => true | _ => false end) = true <-> l = [].
Proof. by destruct l. Qed.
Lemma exact_iff sources : validate_exact_source_contract sources = Ok tt <-> exact sources.
Proof.
  unfold validate_exact_source_contract, exact. rewrite !bind_ok_unit, !ensure_ok, !none_left, !no_extra, for_each_ok.
  apply and_iff_compat_l.
  assert (Hs : forall source, (ensure (required source) ManifestError
       ("Task 11 governance source must be required: " ++ path_str (source_path source)) ;;;
     let* expected := expected_purpose (path_str (source_path source)) in
     ensure (String.eqb (purpose source) expected) ManifestError
       ("Task 11 governance source purpose mismatch: " ++ path_str (source_path source))) = Ok tt <->
     required source = true /\ In (path_str (source_path source), purpose source) EXPECTED_REQUIRED_SOURCES).
  { intros source. rewrite bind_ok_unit, ensure_ok, bind_ok. setoid_rewrite expected_purpose_ok.
    setoid_rewrite ensure_ok. setoid_rewrite String.eqb_eq. apply and_iff_compat_l. split; [by intros (e & He & ->)|].
    intros H. by exists (purpose source). }
  setoid_rewrite Hs. split; [by intros [_ H]|]. intros H. split; [|done].
  intros p (source & <- & [_ Hin]%(proj1 (List.Forall_forall _ _) H))%in_map_iff.
  by apply (in_map fst) in Hin.
Qed.

Lemma manifest_iff F p sources : parse_manifest F p = Ok sources <-> listed F p sources.
Proof.
  unfold parse_manifest, listed. generalize (load_json_object F p "governance manifest"). intros loaded.
  rewrite bind_ok. f_equiv. intros d. setoid_rewrite bind_ok_unit. rewrite ensure_ok.
  assert (Hl : forall items, (let* (_, parsed) := for_fold 0 items (∅, []) parse_item in
      validate_exact_source_contract parsed ;;; Ok parsed) = Ok sources <->
    exists entries, Forall2 entry_of items entries /\ NoDup (map fst entries) /\ sources = map snd entries /\ exact sources).
  { intros items. rewrite bind_ok. split.
    - intros ([seen parsed] & Hf & [Hx%exact_iff [= <-]]%bind_ok_unit).
      destruct (proj1 (parse_items_ok items parsed)) as (ks & Hk & Hn & ->); [by exists seen|]. by exists ks.
    - intros (ks & Hk & Hn & Hs & Hx%exact_iff).
      destruct (proj2 (parse_items_ok items sources)) as [seen H]; [by exists ks|].
      exists (seen, sources). split; [done|]. by rewrite bind_ok_unit. }
  destruct (get d "sources") as [| | | | |[|x l]|];
    try (split; [by intros (_ & _ & H) | by intros (items & ks & _ & _ & [=] & _)]).
  - split; [by intros (_ & _ & H)|]. intros (items & ks & _ & _ & [= <-] & Hk & _ & -> & [Hall _]).
    inversion Hk; subst. destruct (Hall _ agents_expected).
  - rewrite Hl. split.
    + intros (Hv & Hd & ks & H). by exists (x :: l), ks.
    + intros (items & ks & Hd & Hv & [= <-] & H). split; [done|]. split; [done|]. by exists ks.
Qed.

(** What the loop asks of a source, where [tracked] is the listing of git. *)
Lemma source_iff F git environ tracked source : required source = true ->
  validate_source F git environ tracked source = Ok tt <->
  file_digest F (source_path source) (digest source)
  /\ (environ "ZIG_SCHEDULER_GOVERNANCE_ARCHIVE_OK" = Some "1"
      \/ In (path_str (source_path source)) tracked
         /\ exists c, bind (git ["git"; "check-ignore"; path_str (source_path source)]) in_text = Ok c /\ returncode c <> 0%Z).
Proof.
  intros Hr. unfold validate_source. rewrite Hr. cbn [andb].
  assert (Hd : (let* content := reraise FileNotFoundError ManifestError
        (fun _ => "missing tracked governance source: " ++ path_str (source_path source)) (read_bytes F (source_path source)) in
      ensure (String.eqb (sha256_hex content) (digest source)) ManifestError
        ("governance source hash mismatch: " ++ path_str (source_path source))) = Ok tt <->
    file_digest F (source_path source) (digest source)).
  { rewrite <- sha256_of_ok. unfold sha256_of. rewrite !bind_ok. setoid_rewrite reraise_ok. setoid_rewrite ensure_ok.
    setoid_rewrite String.eqb_eq. setoid_rewrite Ok_inj. done. }
  rewrite bind_ok_unit, ensure_ok, bind_ok. setoid_rewrite bind_ok_unit. setoid_rewrite ensure_ok. setoid_rewrite Hd.
  unfold archive_mode_allowed. case_bool_decide as Ha; cbn [negb andb].
  - setoid_rewrite Ok_inj. naive_solver.
  - unfold git_check_ignore. generalize (bind (git ["git"; "check-ignore"; path_str (source_path source)]) in_text).
    intros answer. setoid_rewrite bind_ok. setoid_rewrite Ok_inj. rewrite negb_involutive, mem_In. split.
    + intros (Ht & ig & (c & Hc & <-) & Hi%negb_true_iff%Z.eqb_neq & Hf). split; [done|]. right. split; [done|]. by exists c.
    + intros [Hf [H|(Ht & c & Hc & Hi)]]; [done|]. split; [done|]. exists false. split; [|done].
      exists c. by rewrite (proj2 (Z.eqb_neq _ _) Hi).
Qed.

Lemma listing_iff git tracked : git_tracked_files git = Ok tracked <->
  exists listing, bind (git ["git"; "ls-files"]) in_text = Ok listing /\ returncode listing = 0%Z
    /\ tracked = splitlines (stdout listing).
Proof.
  unfold git_tracked_files. rewrite bind_ok. setoid_rewrite bind_ok_unit. setoid_rewrite ensure_ok.
  setoid_rewrite Z.eqb_eq. setoid_rewrite Ok_inj. naive_solver.
Qed.

Lemma sources_pinned F git environ sources : sources <> [] -> Forall (fun s => required s = true) sources ->
  validate_sources F git environ sources = Ok tt <-> Forall (pinned F git environ) sources.
Proof.
  intros Hne Hr. unfold validate_sources. rewrite bind_ok. setoid_rewrite for_each_ok. split.
  - intros (tracked & Ht & Hs). rewrite Forall_forall in Hs, Hr |- *. intros s Hin.
    destruct (proj1 (source_iff F git environ tracked s (Hr s Hin)) (Hs s Hin)) as [Hf Hgit]. split; [done|].
    destruct Hgit as [Ha|[Hl Hi]]; [by left|]. unfold archive_mode_allowed in Ht. case_bool_decide; [by left|].
    apply listing_iff in Ht as (listing & Hg & Hc & ->). right. split; [by exists listing | done].
  - intros Hp. rewrite Forall_forall in Hr, Hp. setoid_rewrite Forall_forall. unfold archive_mode_allowed. case_bool_decide as Ha.
    + exists []. split; [done|]. intros s Hin. apply source_iff; [by apply Hr|].
      destruct (Hp s Hin) as [Hf _]. split; [done | by left].
    + destruct sources as [|s0 sources]; [done|].
      destruct (Hp s0) as [_ [Hb|[(listing & Hg & Hc & _) _]]]; [by left | done |].
      exists (splitlines (stdout listing)). split; [apply listing_iff; by exists listing|].
      intros s Hin. apply source_iff; [by apply Hr|]. destruct (Hp s Hin) as [Hf [Hb|[(l' & Hg' & _ & Hl) Hi]]]; [done|].
      split; [done|]. right. split; [|done]. rewrite Hg in Hg'. by injection Hg' as ->.
Qed.

Lemma mentions_iff F p needle label : require_text F p needle label = Ok tt <-> mentions F p needle.
Proof.
  unfold require_text, mentions. rewrite bind_ok. setoid_rewrite reraise_ok. setoid_rewrite ensure_ok.
  setoid_rewrite contains_iff. naive_solver.
Qed.
Lemma production_iff F : validate_production_matrix F = Ok tt <-> production_ok F.
Proof.
  unfold validate_production_matrix, production_ok.
  generalize (load_json_object F (Path "evidence/releases/0.2.0-lab/summary.json") "release summary"). intros summary.
  rewrite !bind_ok_unit, !mentions_iff, for_each_ok, bind_ok.
  assert (Hs : forall d m1 m2 m3, (ensure (is_false (get d "production_ready")) ManifestError m1 ;;;
      ensure (is_false (get d "arbitrary_host_safe")) ManifestError m2 ;;;
      ensure (py_eq (get d "release_status") (JStr "controlled_lab_pilot_candidate")) ManifestError m3) = Ok tt <->
    get d "production_ready" = JBool false /\ get d "arbitrary_host_safe" = JBool false
    /\ get d "release_status" = JStr "controlled_lab_pilot_candidate")
    by (intros; by rewrite !bind_ok_unit, !ensure_ok, !is_false_iff, py_eq_str).
  setoid_rewrite reraise_ok. setoid_rewrite Hs. rewrite !Forall_forall.
  assert (Ht : forall x, (let '(label, needle) := x in
      require_text F (Path "docs/releases/governance-gate.md") needle label) = Ok tt <->
    let '(_, needle) := x in mentions F (Path "docs/releases/governance-gate.md") needle)
    by (intros [label needle]; apply mentions_iff).
  by setoid_rewrite Ht.
Qed.

Lemma exact_required sources : exact sources -> sources <> [] /\ Forall (fun s => required s = true) sources.
Proof.
  intros [Hall Hs]. split.
  - intros ->. destruct (Hall _ agents_expected).
  - eapply Forall_impl; [exact Hs | by intros s []].
Qed.
Lemma all_required sources : Forall (fun s => required s = true) sources -> List.filter required sources = sources.
Proof. induction 1 as [|s l Hs _ IH]; simpl; [done|]. by rewrite Hs, IH. Qed.

(** * Properties *)

(** C25: the governance check accepts a manifest exactly when it lists, under paths written without repetition, every expected source with its purpose and marked as required, and nothing else; each file has the recorded digest and, unless the archive mode is set, is tracked and not ignored by git; and, when the production matrix is asked for, the release documents name every term of it and the release summary claims neither production readiness nor host safety. *)
Theorem governance_iff F git environ m production self out :
  check F git environ (MkArgs m production self) = Ok out <->
  exists sources, listed F m sources /\ Forall (pinned F git environ) sources /\ (production = true -> production_ok F)
    /\ out = ["PASS governance manifest: " ++ path_str m ++ " required_sources=" ++ str_nat (List.length sources)
              ++ " total_sources=" ++ str_nat (List.length sources)].
Proof.
  unfold check. cbn [manifest require_production_matrix]. rewrite bind_ok. setoid_rewrite manifest_iff. f_equiv. intros sources.
  rewrite !bind_ok_unit, Ok_inj.
  assert (Hp : (if production then validate_production_matrix F else Ok tt) = Ok tt <-> (production = true -> production_ok F))
    by (destruct production; [rewrite production_iff|]; naive_solver).
  rewrite Hp. split; intros (Hl & Hs & Hm & Ho); (split; [done|]);
    destruct (exact_required sources) as [Hne Hr]; try (destruct Hl as (? & ? & ? & _ & _ & _ & _ & _ & _ & Hx); exact Hx);
    rewrite sources_pinned in * by done; rewrite all_required in * by done; done.
Qed.

(** A manifest that lists README.md twice, the second time as "./README.md", with
    a file system where every other file holds the same byte. *)
Definition respelled_entry (p purpose : string) : json :=
  JDict [("path", JStr p); ("purpose", JStr purpose); ("required", JBool true); ("sha256", JStr (sha256_hex "x"))].
Definition respelled_manifest : string :=
  dumps (JDict [("schema_version", JInt 1);
    ("sources", JList (respelled_entry "./README.md" "tracked project overview and governance entrypoint"
       :: map (fun '(p, purpose) => respelled_entry p purpose) EXPECTED_REQUIRED_SOURCES))]).
Definition respelled_fs : fs :=
  MkFs (fun s => Some (File (if String.eqb s "manifest.json" then respelled_manifest else "x")))
    (plain_resolve (Path "/repo")) (fun _ => false).
Definition archive (name : string) : option string :=
  if String.eqb name "ZIG_SCHEDULER_GOVERNANCE_ARCHIVE_OK" then Some "1" else None.

(** The duplicate check compares the paths as they are written, so a manifest that lists README.md a second time as ./README.md is accepted, and counts 137 required sources where 136 are expected. *)
Theorem respelled_source_counts_twice git :
  check respelled_fs git archive (MkArgs (Path "manifest.json") false false) =
  Ok ["PASS governance manifest: manifest.json required_sources=137 total_sources=137"].
Proof. by vm_compute. Qed.
