(* ===== verification/RunnerSubstrate.v ===== *)
(** RunnerSubstrate: qa/runner_substrate_proof_check.py and
    qa/runner_substrate_proof_common.py, the proof that a protected run had the
    runner, the virtualization and the kernel it claims.  The review proof it
    references is given to ProtectedReview and must match the recorded
    environment. *)
From S2P Require Import Prelude PyStr PyRe PyFloat PyJson Sha256 PyFs PyMain.
From S2P Require Import MatrixModel ProtectedReview.

Local Open Scope string_scope.

Definition SCHEMA : string := "zig-scheduler/runner-substrate-proof/v1".
Definition DEFAULT_SCHEMA : path := Path "schemas/control/runner-substrate-proof.v1.schema.json".
Definition DEFAULT_FIXTURES : path := Path "fixtures/runner-substrate-proof".

(** [SAFE_PATH_RE.fullmatch]: two negative lookaheads at the start, then a
    non-empty line.  A lookahead fails exactly when its pattern matches there. *)
Definition dotdot_re : regex := rseq [
  rstar rany; ralt [RBol; rlit "/"]; rlit ".."; ralt [rlit "/"; REol]].
Definition SAFE_PATH_RE (raw : string) : bool :=
  negb (startswith raw "/") && negb (re_match dotdot_re raw) && re_fullmatch (rseq [RBol; rplus rany; REol]) raw.
Definition SHA_RE : regex := rseq [RBol; rrep 64 0 (RChar is_hex_lower); REol].
Definition RUN_URL_RE : regex := rseq [
  RBol; rlit "https://github.com/"; rplus rany; rlit "/actions/runs/"; rplus rdigit; REol].
Definition RUN_URL_UNAVAILABLE : string := "unavailable".
Definition release_re : regex := ralt [
  rseq [rlit "6."; ralt [rseq [rlit "1"; RChar (between 50 57)]; rseq [RChar (between 50 57); rdigit]];
        ropt (rseq [rlit "."; rplus rdigit])];
  rseq [rlit "7.1."; ralt [rlit "1-2"; rlit "2-3"]; rlit "-cachyos"]].
Definition TUPLE_SUFFIX : string := "-x86_64-sched_ext-bpf-bpf_jit-btf-vm_lab_only".
Definition TUPLE_RE : regex := rseq [RBol; rlit "linux-"; RCap "release" release_re; rlit TUPLE_SUFFIX; REol].
Definition PLACEHOLDER_SHA_VALUES : list string := [repeat_str 64 "0"; repeat_str 64 "1"].
Definition REQUIRED_LABELS : list string := ["self-hosted"; "zig-scheduler-vm-proof"; "disposable-vm"].
Definition ROOT_FIELDS : list string := [
  "schema"; "proof_outcome"; "runner"; "protected_environment"; "protected_review"; "qemu"; "dev_kvm"; "accel_mode";
  "kernel_tuple"; "bpf_metadata"; "attestation"; "unavailable_reasons"; "host_mutation"; "release_eligible";
  "production_capacity_claim"].
Definition RUNNER_FIELDS : list string := ["class"; "group"; "labels"; "name"; "os"; "arch"].
Definition ENV_FIELDS : list string := [
  "name"; "protected"; "required_reviewers"; "reviewer_status"; "reviewer_identity"; "unavailable_reason"; "run_url"].
Definition STATUS_PATH_FIELDS : list string := ["path"; "version"; "status"; "unavailable_reason"].
Definition KERNEL_FIELDS : list string :=
  ["supported_tuple"; "release"; "arch"; "config_sha256"; "btf_available"; "sched_ext_available"].
Definition REF_FIELDS : list string := ["path"; "sha256"; "schema_role"; "unavailable_reason"].
Definition PROTECTED_REVIEW_ROLE : string := "protected-environment-review".
Definition ATTEST_FIELDS : list string :=
  ["capability"; "status"; "workflow_uses"; "verify_command"; "unavailable_reason"].

Inductive Mode : Set := ProofMode | FixturesMode | SelfTestMode.
Inductive Outcome : Set := PASS | SKIP | REFUSE.
Definition is_pass (o : Outcome) : bool := match o with PASS => true | _ => false end.

Record Args : Set := MkArgs { mode : Mode; proof : option path; fixtures : path; schema : path }.

Definition fail {A} (m : string) : result A := raise RunnerProofError m.
Definition require (condition : bool) (message : string) : result unit := ensure condition RunnerProofError message.

Fixpoint parse_options (argv : list string) (args : Args) : result Args :=
  match argv with
  | [] => Ok args
  | arg :: rest =>
      if String.eqb arg "--proof" then
        match rest with
        | [] => fail "--proof requires a path"
        | p :: rest => parse_options rest (MkArgs ProofMode (Some (Path p)) (fixtures args) (schema args))
        end
      else if String.eqb arg "--fixtures" then
        match rest with
        | [] => fail "--fixtures requires a path"
        | p :: rest => parse_options rest (MkArgs FixturesMode (proof args) (Path p) (schema args))
        end
      else if String.eqb arg "--schema" then
        match rest with
        | [] => fail "--schema requires a path"
        | p :: rest => parse_options rest (MkArgs (mode args) (proof args) (fixtures args) (Path p))
        end
      else fail ("usage: runner_substrate_proof_check.py --self-test | --proof <path> [--schema <path>] | "
                 ++ "[--fixtures <dir>] [--schema <path>]")
  end.

Definition parse_args (argv : list string) : result Args :=
  match argv with
  | ["--self-test"] => Ok (MkArgs SelfTestMode None DEFAULT_FIXTURES DEFAULT_SCHEMA)
  | _ => parse_options argv (MkArgs FixturesMode None DEFAULT_FIXTURES DEFAULT_SCHEMA)
  end.

Definition only_fields (row : jobject) (allowed : list string) (context : string) : result unit :=
  let extra := sorted (set_diff (keys row) allowed) in
  require (match extra with [] => true | _ => false end) (context ++ " has unexpected fields: " ++ join ", " extra).

Definition text (value : json) (context : string) : result string :=
  match value with
  | JStr s => if String.eqb s "" then fail (context ++ " must be non-empty text") else Ok s
  | _ => fail (context ++ " must be non-empty text")
  end.

Definition bool_field (value : json) (context : string) : result bool :=
  match value with JBool b => Ok b | _ => fail (context ++ " must be bool") end.

Definition safe_path (value : json) (context : string) : result path :=
  let* raw := text value context in
  require (SAFE_PATH_RE raw) (context ++ " must be relative and non-traversing: " ++ raw) ;;;
  Ok (Path raw).

Definition enum_text (value : json) (allowed : list string) (context : string) : result string :=
  let* raw := text value context in
  require (mem raw allowed) (context ++ " has unsupported value: " ++ raw) ;;;
  Ok raw.

Fixpoint string_items (index : nat) (items : list json) (context : string) : result (list string) :=
  match items with
  | [] => Ok []
  | item :: items =>
      let* s := text item (context ++ "[" ++ str_nat index ++ "]") in
      let* rest := string_items (S index) items context in
      Ok (s :: rest)
  end.

Definition strings (value : json) (context : string) : result (list string) :=
  match value with
  | JList ((_ :: _) as items) => string_items 0 items context
  | _ => fail (context ++ " must be a non-empty list")
  end.

Definition object_field (data : jobject) (field context : string) : result jobject :=
  match get data field with
  | JDict d => Ok d
  | _ => fail (context ++ "." ++ field ++ " must be an object")
  end.

Definition validate_runner (data : jobject) (outcome : Outcome) : result unit :=
  let* runner := object_field data "runner" "proof" in
  only_fields runner RUNNER_FIELDS "runner" ;;;
  let* class := enum_text (get runner "class") ["self-hosted"; "unknown"] "runner.class" in
  require (String.eqb class "self-hosted") "runner.class must be self-hosted for protected proof" ;;;
  let* labels := strings (get runner "labels") "runner.labels" in
  let missing := sorted (set_diff REQUIRED_LABELS labels) in
  require (match missing with [] => true | _ => false end)
    ("runner.labels missing protected labels: " ++ join ", " missing) ;;;
  (if is_pass outcome then
     let* _ := text (get runner "group") "runner.group" in
     let* _ := text (get runner "name") "runner.name" in Ok tt
   else Ok tt) ;;;
  let* _ := text (get runner "os") "runner.os" in
  let* _ := text (get runner "arch") "runner.arch" in
  Ok tt.

Definition validate_environment (data : jobject) (outcome : Outcome) : result unit :=
  let* env := object_field data "protected_environment" "proof" in
  only_fields env ENV_FIELDS "protected_environment" ;;;
  require (py_eq (get env "name") (JStr "vm-proof-manual")) "protected_environment.name must be vm-proof-manual" ;;;
  require (is_true (get env "protected")) "protected_environment.protected must be true" ;;;
  let* _ := text (get env "required_reviewers") "protected_environment.required_reviewers" in
  let* status_raw := enum_text (get env "reviewer_status")
    ["approved"; "not_exposed_by_github_actions_runtime"; "unavailable"] "protected_environment.reviewer_status" in
  let* run_url := text (get env "run_url") "protected_environment.run_url" in
  (if String.eqb run_url RUN_URL_UNAVAILABLE then
     require (negb (is_pass outcome)) "PASS proof requires a GitHub Actions run URL" ;;;
     require (negb (String.eqb status_raw "approved")) "approved reviewer proof requires a GitHub Actions run URL"
   else
     require (re_fullmatch RUN_URL_RE run_url)
       "protected_environment.run_url must be a GitHub Actions run URL or unavailable for SKIP/REFUSE") ;;;
  (if String.eqb status_raw "approved" then
     let* _ := text (get env "reviewer_identity") "protected_environment.reviewer_identity" in Ok tt
   else
     let* _ := text (get env "unavailable_reason") "protected_environment.unavailable_reason" in
     require (negb (is_pass outcome)) "PASS proof requires explicit protected environment reviewer approval").

Definition validate_status_path (data : jobject) (field : string) : result string :=
  let* value := object_field data field "proof" in
  only_fields value STATUS_PATH_FIELDS field ;;;
  let* _ := safe_path (get value "path") (field ++ ".path") in
  let* status := enum_text (get value "status") ["available"; "unavailable"] (field ++ ".status") in
  (if String.eqb status "available" && String.eqb field "qemu" then
     let* _ := text (get value "version") "qemu.version" in Ok tt
   else Ok tt) ;;;
  (if String.eqb status "unavailable" then
     let* _ := text (get value "unavailable_reason") (field ++ ".unavailable_reason") in Ok tt
   else Ok tt) ;;;
  Ok status.

Definition matched (m : option (rstate * rstate)) (message : string) : result (rstate * rstate) :=
  match m with Some m => Ok m | None => fail message end.

Definition validate_kernel (data : jobject) (outcome : Outcome) (reasons : list string) : result unit :=
  let* kernel := object_field data "kernel_tuple" "proof" in
  only_fields kernel KERNEL_FIELDS "kernel_tuple" ;;;
  let* tuple := text (get kernel "supported_tuple") "kernel_tuple.supported_tuple" in
  let* tuple_match := matched (re_full TUPLE_RE tuple) "kernel_tuple.supported_tuple is unsupported" in
  let* release := text (get kernel "release") "kernel_tuple.release" in
  require (py_eq (get kernel "arch") (JStr "x86_64")) "kernel_tuple.arch must be x86_64" ;;;
  let* config_sha := text (get kernel "config_sha256") "kernel_tuple.config_sha256" in
  require (re_fullmatch SHA_RE config_sha) "kernel_tuple.config_sha256 must be sha256 hex" ;;;
  let config_unavailable := mem "kernel config metadata unavailable or placeholder" reasons in
  require (negb (mem config_sha PLACEHOLDER_SHA_VALUES) || (negb (is_pass outcome) && config_unavailable))
    "kernel_tuple.config_sha256 placeholder metadata requires SKIP/REFUSE unavailable reason" ;;;
  let* btf_available := bool_field (get kernel "btf_available") "kernel_tuple.btf_available" in
  let* sched_ext_available := bool_field (get kernel "sched_ext_available") "kernel_tuple.sched_ext_available" in
  if is_pass outcome then
    require (startswith release (group "release" tuple_match)) "PASS proof kernel release must match supported_tuple" ;;;
    require btf_available "PASS proof requires kernel BTF availability" ;;;
    require sched_ext_available "PASS proof requires sched_ext availability"
  else Ok tt.

Definition validate_attestation (data : jobject) (outcome : Outcome) : result unit :=
  let* att := object_field data "attestation" "proof" in
  only_fields att ATTEST_FIELDS "attestation" ;;;
  let* capability := enum_text (get att "capability") ["available"; "unavailable"] "attestation.capability" in
  let* status := enum_text (get att "status")
    ["pending-post-run-github-attestation"; "verified-by-operator"; "unavailable"] "attestation.status" in
  let* workflow := text (get att "workflow_uses") "attestation.workflow_uses" in
  require (startswith workflow "actions/attest-build-provenance")
    "attestation.workflow_uses must use actions/attest-build-provenance" ;;;
  let* verify := text (get att "verify_command") "attestation.verify_command" in
  require (contains "gh attestation verify" verify)
    "attestation.verify_command must document gh attestation verify" ;;;
  if String.eqb capability "unavailable" || String.eqb status "unavailable" then
    let* _ := text (get att "unavailable_reason") "attestation.unavailable_reason" in
    require (negb (is_pass outcome)) "attestation unavailable cannot accompany PASS proof"
  else Ok tt.

Section Files.
Variable F : fs.

(** [load_json_object] of qa/runner_substrate_proof_common.py. *)
Definition load_json_object (p : path) : result jobject :=
  let* raw := catch (bind (read_text F p) loads) (fun exc =>
    if decide (exn_cls exc = FileNotFoundError) then Some (fail ("missing JSON file: " ++ path_str p))
    else if decide (exn_cls exc = JSONDecodeError)
    then Some (fail ("invalid JSON in " ++ path_str p ++ ": " ++ exn_str exc))
    else None) in
  match raw with
  | JDict d => Ok d
  | _ => fail (path_str p ++ " must contain a JSON object")
  end.

Definition digest (p : path) : result string :=
  reraise FileNotFoundError RunnerProofError (fun _ => "missing referenced file: " ++ path_str p) (sha256_of F p).

Definition validate_schema_file (p : path) : result unit :=
  let* schema := load_json_object p in
  require (py_eq (get schema "$id") (JStr SCHEMA)) "runner substrate schema $id mismatch".

Definition validate_protected_review (data : jobject) (outcome : Outcome) : result unit :=
  let* ref := object_field data "protected_review" "proof" in
  only_fields ref REF_FIELDS "protected_review" ;;;
  let* p := safe_path (get ref "path") "protected_review.path" in
  let* sha := text (get ref "sha256") "protected_review.sha256" in
  require (re_fullmatch SHA_RE sha) "protected_review.sha256 must be sha256 hex" ;;;
  let* actual := digest p in
  require (String.eqb actual sha) ("protected_review.sha256 does not match " ++ path_str p) ;;;
  let* role := enum_text (get ref "schema_role") [PROTECTED_REVIEW_ROLE] "protected_review.schema_role" in
  require (String.eqb role PROTECTED_REVIEW_ROLE)
    "protected_review.schema_role must be protected-environment-review" ;;;
  reraise ProtectedReviewError RunnerProofError
    (fun exc => "protected_review artifact is not normalized proof: " ++ exn_str exc)
    (ProtectedReview.validate_proof F p ProtectedReview.DEFAULT_SCHEMA) ;;;
  let* review := load_json_object p in
  let* env := object_field data "protected_environment" "proof" in
  if negb (py_eq (get review "run_url") (get env "run_url"))
     || negb (py_eq (get review "reviewer_identity") (get env "reviewer_identity")) then
    let* _ := text (get ref "unavailable_reason") "protected_review.unavailable_reason" in
    require (negb (is_pass outcome)) "PASS proof requires protected review artifact to match runner proof"
  else Ok tt.

Definition validate_bpf (data : jobject) (outcome : Outcome) : result unit :=
  let* bpf := object_field data "bpf_metadata" "proof" in
  only_fields bpf REF_FIELDS "bpf_metadata" ;;;
  let* p := safe_path (get bpf "path") "bpf_metadata.path" in
  let* sha := text (get bpf "sha256") "bpf_metadata.sha256" in
  require (re_fullmatch SHA_RE sha) "bpf_metadata.sha256 must be sha256 hex" ;;;
  let* actual := digest p in
  require (String.eqb actual sha) ("bpf_metadata.sha256 does not match " ++ path_str p) ;;;
  let* role := enum_text (get bpf "schema_role") ["bpf-metadata"; "bpf-skip-json"] "bpf_metadata.schema_role" in
  if String.eqb role "bpf-skip-json" then
    let* _ := text (get bpf "unavailable_reason") "bpf_metadata.unavailable_reason" in
    require (negb (is_pass outcome)) "PASS proof requires BPF object metadata"
  else Ok tt.

Definition outcome_of (raw : string) : Outcome :=
  if String.eqb raw "PASS" then PASS else if String.eqb raw "SKIP" then SKIP else REFUSE.

Definition validate_proof (p schema_path : path) : result unit :=
  validate_schema_file schema_path ;;;
  let* data := load_json_object p in
  only_fields data ROOT_FIELDS (path_str p) ;;;
  require (py_eq (get data "schema") (JStr SCHEMA)) "unsupported runner substrate schema" ;;;
  require (is_false (get data "host_mutation")) "proof.host_mutation must be false" ;;;
  require (is_false (get data "release_eligible")) "proof.release_eligible must be false" ;;;
  require (is_false (get data "production_capacity_claim")) "proof.production_capacity_claim must be false" ;;;
  let* outcome_raw := enum_text (get data "proof_outcome") ["PASS"; "SKIP"; "REFUSE"] "proof_outcome" in
  let outcome := outcome_of outcome_raw in
  validate_runner data outcome ;;;
  validate_environment data outcome ;;;
  validate_protected_review data outcome ;;;
  let* qemu_status := validate_status_path data "qemu" in
  let* kvm_status := validate_status_path data "dev_kvm" in
  let* accel := enum_text (get data "accel_mode") ["kvm"; "tcg"; "unavailable"] "accel_mode" in
  let available := String.eqb qemu_status "available" && String.eqb kvm_status "available" in
  require (negb (String.eqb accel "kvm") || available) "accel_mode=kvm requires available qemu and /dev/kvm" ;;;
  require (negb (is_pass outcome) || available) "PASS proof requires qemu and /dev/kvm availability" ;;;
  require (negb (is_pass outcome) || String.eqb accel "kvm") "PASS proof requires accel_mode=kvm" ;;;
  match get data "unavailable_reasons" with
  | JList reasons_list =>
      let* reasons := if is_pass outcome then Ok [] else strings (JList reasons_list) "unavailable_reasons" in
      require (negb (is_pass outcome) || negb (nonempty reasons_list))
        "PASS proof must not carry unavailable reasons" ;;;
      require (is_pass outcome || nonempty reasons) "SKIP/REFUSE proof must explain unavailable reasons" ;;;
      validate_kernel data outcome reasons ;;;
      validate_bpf data outcome ;;;
      validate_attestation data outcome
  | _ => fail "unavailable_reasons must be a list"
  end.

(** The fixtures, without the two artifacts that lie among the valid ones. *)
Definition validate_fixtures (root schema : path) : printed :=
  let valid_paths := List.filter (fun p => negb (mem (name p) ["bpf-meta.json"; "protected-review.json"]))
                       (sorted_glob F (div_path root "valid") ".json") in
  let invalid_root := div_path root "invalid" in
  let invalid_paths := sorted_glob F invalid_root ".json" in
  and_then (silent (require (nonempty valid_paths)
                      ("missing valid runner substrate fixtures under " ++ path_str (div_path root "valid"))))
  (and_then (accept_each (fun valid => validate_proof valid schema)
               (fun valid => "PASS runner substrate fixture: " ++ path_str valid) valid_paths)
  (and_then (silent (require (nonempty invalid_paths)
                       ("missing invalid runner substrate fixtures under " ++ path_str invalid_root)))
     (reject_each (fun invalid => validate_proof invalid schema) (is_class RunnerProofError)
        (fun invalid exc => "PASS reject invalid runner substrate fixture " ++ name invalid ++ ": " ++ exn_str exc)
        (fun invalid => Exn RunnerProofError
           ("expected invalid runner substrate fixture rejection: " ++ path_str invalid) None)
        invalid_paths))).

(** [main], where [self_test] is the run of the self-test module. *)
Definition main (self_test : path -> printed) (argv : list string) : exit :=
  end_main (is_class RunnerProofError) "FAIL runner substrate proof"
    (match parse_args argv with
     | Err e => silent (Err e)
     | Ok args =>
         match mode args, proof args with
         | SelfTestMode, _ => self_test (schema args)
         | ProofMode, Some p =>
             and_then (silent (validate_proof p (schema args))) (["PASS runner substrate proof: " ++ path_str p], Ok tt)
         | _, _ => validate_fixtures (fixtures args) (schema args)
         end
     end).
End Files.

(** * Lemmas *)
Definition one_line (s : string) : Prop := all_chars (fun c => negb (code c =? 10)%N) s = true.

(** The end of a line that has no newline is the end of the text. *)
Lemma eol_end s : one_line s -> at_eol s = true -> s = "".
Proof.
  destruct s as [|c [|d s]]; simpl; [done| |done]. unfold one_line. simpl. intros H Hc. by rewrite Hc in H.
Qed.

Lemma dotdot_segment raw : one_line raw -> re_match dotdot_re raw = true <-> In ".." (split_on "/" raw).
Proof.
  intros Hl. rewrite re_match_iff, split_on_in. unfold dotdot_re. cbn [rseq ralt]. split.
  - intros (st & (s1 & H1 & (s2 & H2 & (s3 & [H3 C3]%lit_matches & (s4 & H4 & H5)%seq_matches)%seq_matches)%seq_matches
      )%seq_matches). inversion H5; subst. split; [done|].
    pose proof (star_matches _ _ _ H1) as (a & [Ha _] & _). cbn in Ha.
    assert (Hb : exists x, raw = x ++ ".." ++ st_rest s3 /\ (x = "" \/ exists a', x = a' ++ "/")).
    { apply alt_matches in H2 as [H2|[H2 _]%lit_matches].
      - inversion H2 as [| | | | | | | |? Hp| | | |]; subst. exists "". split; [|by left].
        destruct (matches_prev _ _ _ H1 Hp) as [_ Hr]. cbn in Hr. by rewrite Hr.
      - exists (a ++ "/"). split; [|right; by exists a]. by rewrite append_assoc, <- H3, <- H2. }
    destruct Hb as (x & Hx & Hx'). exists x, (st_rest s3). split; [done|]. split; [done|].
    apply alt_matches in H4 as [[H4 _]%lit_matches|H4]; [right; by exists (st_rest st)|].
    inversion H4 as [| | | | | | | | |? He| | |]; subst. left. apply eol_end; [|done].
    unfold one_line in *. rewrite Hx, !all_chars_app in Hl. by apply andb_true_iff in Hl as [_ [_ ?]%andb_true_iff].
  - intros [_ (a & r & Hraw & Ha & Hr)].
    assert (Hpre : exists o, Matches (RSeq (rstar rany) (RAlt RBol (rlit "/"))) (start raw) (St o (".." ++ r) [])).
    { destruct Ha as [->|(a' & ->)].
      - exists None. subst. econstructor; [constructor|]. by apply M_alt_l; constructor.
      - rewrite append_assoc in Hraw. subst raw. unfold one_line in Hl. rewrite all_chars_app in Hl.
        apply andb_true_iff in Hl as [Hl _].
        edestruct (star_complete (fun c => negb (code c =? 10)%N) a' None ("/" ++ ".." ++ r) [] Hl) as (o & H1).
        edestruct (lit_complete "/" o (".." ++ r) []) as (o' & H2). exists o'.
        econstructor; [exact H1|]. by apply M_alt_r. }
    destruct Hpre as (o & (s1 & H1 & H2)%seq_matches).
    edestruct (lit_complete ".." o r []) as (o' & H3).
    assert (Hend : exists st, Matches (RAlt (rlit "/") REol) (St o' r []) st).
    { destruct Hr as [->|(r' & ->)]; [eexists; apply M_alt_r; by constructor|].
      edestruct (lit_complete "/" o' r' []) as (o'' & H4). eexists. apply M_alt_l. exact H4. }
    destruct Hend as (st & H4). exists st.
    econstructor; [exact H1|]. econstructor; [exact H2|]. econstructor; [exact H3|]. econstructor; [exact H4 | constructor].
Qed.

(** The safe-path pattern of the runner proofs agrees, on one line, with the
    test the other checkers make on the parsed path. *)
Lemma safe_path_re_iff raw : SAFE_PATH_RE raw = true <-> raw <> "" /\ one_line raw /\ plain_path (Path raw).
Proof.
  unfold SAFE_PATH_RE. unfold rany. rewrite !andb_true_iff, !negb_true_iff, plus_fullmatch.
  fold (one_line raw). assert (Hab : is_absolute (Path raw) = false <-> startswith raw "/" = false).
  { unfold is_absolute, Path. cbn [p_root]. destruct (startswith raw "///") eqn:E3, (startswith raw "//") eqn:E2,
      (startswith raw "/") eqn:E1; try done; exfalso;
      try (apply startswith_iff in E3 as (r & ->); discriminate); apply startswith_iff in E2 as (r & ->); discriminate. }
  assert (Hdd : In ".." (p_parts (Path raw)) <-> In ".." (split_on "/" raw)).
  { unfold Path, parse_parts. cbn [p_parts]. rewrite filter_In. naive_solver. }
  unfold plain_path. rewrite Hab, Hdd. split.
  - intros [[Ha Hm] [Hl Hne]]. do 2 (split; [done|]). split; [done|]. rewrite <- dotdot_segment by done. by rewrite Hm.
  - intros (Hne & Hl & Ha & Hd). split; [|done]. split; [done|]. rewrite <- dotdot_segment in Hd by done.
    by apply not_true_is_false.
Qed.

(** * Specification *)
Definition some_text (v : json) : Prop := exists s, v = JStr s /\ s <> "".
Definition has_object (data : jobject) (field : string) (allowed : list string) (Q : jobject -> Prop) : Prop :=
  exists d, get data field = JDict d /\ has_only d allowed /\ Q d.

Definition runner_ok (outcome : Outcome) (d : jobject) : Prop :=
  get d "class" = JStr "self-hosted"
  /\ (exists labels, get d "labels" = jstrs labels /\ Forall (fun l => l <> "") labels
        /\ forall l, In l REQUIRED_LABELS -> In l labels)
  /\ (outcome = PASS -> some_text (get d "group") /\ some_text (get d "name"))
  /\ some_text (get d "os") /\ some_text (get d "arch").

(** A PASS needs an approved review of a run with a URL. *)
Definition environment_ok (outcome : Outcome) (d : jobject) : Prop :=
  get d "name" = JStr "vm-proof-manual" /\ get d "protected" = JBool true /\ some_text (get d "required_reviewers")
  /\ exists status url, get d "reviewer_status" = JStr status /\ get d "run_url" = JStr url /\ url <> ""
       /\ In status ["approved"; "not_exposed_by_github_actions_runtime"; "unavailable"]
       /\ (if String.eqb url RUN_URL_UNAVAILABLE then outcome <> PASS /\ status <> "approved"
           else re_fullmatch RUN_URL_RE url = true)
       /\ (if String.eqb status "approved" then some_text (get d "reviewer_identity")
           else some_text (get d "unavailable_reason") /\ outcome <> PASS).

(** A reference with the digest of its file. *)
Definition file_ref (F : fs) (d : jobject) (p : path) (role : string) : Prop :=
  exists s sha, get d "path" = JStr s /\ s <> "" /\ one_line s /\ plain_path (Path s) /\ p = Path s
    /\ get d "sha256" = JStr sha /\ len sha = 64 /\ all_chars is_hex_lower sha = true /\ file_digest F p sha
    /\ get d "schema_role" = JStr role.

Definition review_matches (review env : jobject) : Prop :=
  py_eq (get review "run_url") (get env "run_url") = true
  /\ py_eq (get review "reviewer_identity") (get env "reviewer_identity") = true.

Definition review_ref_ok (F : fs) (data : jobject) (outcome : Outcome) (d : jobject) : Prop :=
  exists p review env, file_ref F d p PROTECTED_REVIEW_ROLE /\ accepted F p ProtectedReview.DEFAULT_SCHEMA
    /\ load_json_object F p = Ok review /\ get data "protected_environment" = JDict env
    /\ (review_matches review env \/ some_text (get d "unavailable_reason") /\ outcome <> PASS).

Definition status_path_ok (field status : string) (d : jobject) : Prop :=
  (exists s, get d "path" = JStr s /\ s <> "" /\ one_line s /\ plain_path (Path s))
  /\ get d "status" = JStr status /\ In status ["available"; "unavailable"]
  /\ (status = "available" -> field = "qemu" -> some_text (get d "version"))
  /\ (status = "unavailable" -> some_text (get d "unavailable_reason")).

(** The release of the tuple is what stands between its prefix and its suffix. *)
Definition kernel_ok (outcome : Outcome) (reasons : list string) (d : jobject) : Prop :=
  exists release running sha btf sched_ext,
    get d "supported_tuple" = JStr ("linux-" ++ release ++ TUPLE_SUFFIX)
    /\ re_fullmatch TUPLE_RE ("linux-" ++ release ++ TUPLE_SUFFIX) = true
    /\ get d "release" = JStr running /\ running <> "" /\ get d "arch" = JStr "x86_64"
    /\ get d "config_sha256" = JStr sha /\ len sha = 64 /\ all_chars is_hex_lower sha = true
    /\ (In sha PLACEHOLDER_SHA_VALUES ->
          outcome <> PASS /\ In "kernel config metadata unavailable or placeholder" reasons)
    /\ get d "btf_available" = JBool btf /\ get d "sched_ext_available" = JBool sched_ext
    /\ (outcome = PASS -> (exists rest, running = release ++ rest) /\ btf = true /\ sched_ext = true).

Definition bpf_ok (F : fs) (outcome : Outcome) (d : jobject) : Prop :=
  exists p role, file_ref F d p role /\ In role ["bpf-metadata"; "bpf-skip-json"]
    /\ (role = "bpf-skip-json" -> some_text (get d "unavailable_reason") /\ outcome <> PASS).

Definition substrate_attestation_ok (outcome : Outcome) (d : jobject) : Prop :=
  exists capability status workflow verify,
    get d "capability" = JStr capability /\ In capability ["available"; "unavailable"]
    /\ get d "status" = JStr status
    /\ In status ["pending-post-run-github-attestation"; "verified-by-operator"; "unavailable"]
    /\ get d "workflow_uses" = JStr ("actions/attest-build-provenance" ++ workflow)
    /\ get d "verify_command" = JStr verify /\ contains "gh attestation verify" verify = true
    /\ (capability = "unavailable" \/ status = "unavailable" ->
          some_text (get d "unavailable_reason") /\ outcome <> PASS).

(** Only a run without the claimed virtualization gives reasons. *)
Definition reasons_ok (outcome : Outcome) (v : json) (reasons : list string) : Prop :=
  v = jstrs reasons /\ (outcome = PASS <-> reasons = []) /\ Forall (fun s => s <> "") reasons.

Record substrate_ok (F : fs) (d : jobject) (outcome : Outcome) : Prop := {
  su_fields : has_only d ROOT_FIELDS;
  su_schema : get d "schema" = JStr SCHEMA;
  su_no_claims : get d "host_mutation" = JBool false /\ get d "release_eligible" = JBool false
    /\ get d "production_capacity_claim" = JBool false;
  su_runner : has_object d "runner" RUNNER_FIELDS (runner_ok outcome);
  su_environment : has_object d "protected_environment" ENV_FIELDS (environment_ok outcome);
  su_review : has_object d "protected_review" REF_FIELDS (review_ref_ok F d outcome);
  su_virtual : exists qemu kvm accel,
    has_object d "qemu" STATUS_PATH_FIELDS (status_path_ok "qemu" qemu)
    /\ has_object d "dev_kvm" STATUS_PATH_FIELDS (status_path_ok "dev_kvm" kvm)
    /\ get d "accel_mode" = JStr accel /\ In accel ["kvm"; "tcg"; "unavailable"]
    /\ (accel = "kvm" -> qemu = "available" /\ kvm = "available") /\ (outcome = PASS -> accel = "kvm");
  su_kernel : exists reasons, reasons_ok outcome (get d "unavailable_reasons") reasons
    /\ has_object d "kernel_tuple" KERNEL_FIELDS (kernel_ok outcome reasons);
  su_bpf : has_object d "bpf_metadata" REF_FIELDS (bpf_ok F outcome);
  su_attestation : has_object d "attestation" ATTEST_FIELDS (substrate_attestation_ok outcome);
}.

(** * Lemmas *)
Lemma substrate_require_ok c m u : require c m = Ok u <-> c = true.
Proof. apply ensure_ok. Qed.
Lemma substrate_text_ok v c s : text v c = Ok s <-> v = JStr s /\ s <> "".
Proof.
  destruct v as [| | | |t| |]; simpl; try (split; [discriminate | by intros [[=] _]]).
  destruct (String.eqb_spec t "") as [->|Ht]; [split; [discriminate | by intros [[= <-] ?]]|].
  rewrite Ok_inj. split; [by intros <- | by intros [[= <-] _]].
Qed.
Lemma substrate_fields_ok d allowed c : only_fields d allowed c = Ok tt <-> has_only d allowed.
Proof. unfold only_fields, has_only. rewrite substrate_require_ok, <- no_extra. by destruct (sorted _). Qed.
Lemma substrate_value_is v s m : require (py_eq v (JStr s)) m = Ok tt <-> v = JStr s.
Proof. by rewrite substrate_require_ok, py_eq_str. Qed.
Lemma substrate_false v m : require (is_false v) m = Ok tt <-> v = JBool false.
Proof. by rewrite substrate_require_ok, is_false_iff. Qed.
Lemma substrate_bool_ok v c b : bool_field v c = Ok b <-> v = JBool b.
Proof. destruct v; simpl; split; (congruence || discriminate). Qed.
Lemma not_pass o m : require (negb (is_pass o)) m = Ok tt <-> o <> PASS.
Proof. rewrite substrate_require_ok. by destruct o. Qed.
Lemma any_text v c {B} (k : result B) x : (let* _ := text v c in k) = Ok x <-> some_text v /\ k = Ok x.
Proof. unfold some_text. rewrite bind_ok. setoid_rewrite substrate_text_ok. naive_solver. Qed.
Lemma enum_text_ok v l c s : mem "" l = false -> enum_text v l c = Ok s <-> v = JStr s /\ In s l.
Proof.
  intros Hl. unfold enum_text. rewrite bind_ok. setoid_rewrite substrate_text_ok. setoid_rewrite bind_ok_unit.
  setoid_rewrite substrate_require_ok. setoid_rewrite mem_In. setoid_rewrite Ok_inj. split; [naive_solver|].
  intros [-> Hs]. assert (s <> "") by (intros ->; apply mem_In in Hs; congruence). naive_solver.
Qed.
Lemma substrate_path_ok v c p : safe_path v c = Ok p <->
  exists s, v = JStr s /\ s <> "" /\ one_line s /\ plain_path (Path s) /\ p = Path s.
Proof.
  unfold safe_path. rewrite bind_ok. setoid_rewrite substrate_text_ok. setoid_rewrite bind_ok_unit.
  setoid_rewrite substrate_require_ok. setoid_rewrite safe_path_re_iff. setoid_rewrite Ok_inj. naive_solver.
Qed.
Lemma substrate_object_ok data field c d : object_field data field c = Ok d <-> get data field = JDict d.
Proof. unfold object_field. destruct (get data field); split; (congruence || discriminate). Qed.
Lemma has_object_ok data field c allowed (k : jobject -> result unit) Q :
  (forall d, k d = Ok tt <-> Q d) ->
  (let* d := object_field data field c in only_fields d allowed field ;;; k d) = Ok tt <->
  has_object data field allowed Q.
Proof.
  intros Hk. unfold has_object. rewrite bind_ok. setoid_rewrite substrate_object_ok. setoid_rewrite bind_ok_unit.
  setoid_rewrite substrate_fields_ok. by setoid_rewrite Hk.
Qed.
Lemma string_items_ok i l c ss :
  string_items i l c = Ok ss <-> JList l = jstrs ss /\ Forall (fun s => s <> "") ss.
Proof.
  unfold jstrs. revert i ss. induction l as [|v l IH]; intros i ss; cbn [string_items].
  - rewrite Ok_inj. split; [intros <-; by repeat constructor|]. intros [Hss _]. by destruct ss.
  - rewrite bind_ok. setoid_rewrite substrate_text_ok. setoid_rewrite bind_ok. setoid_rewrite IH.
    setoid_rewrite Ok_inj. split.
    + intros (s & [-> Hs] & rest & [[= ->] Hr] & <-). split; [done | by constructor].
    + destruct ss as [|s ss]; intros [[= -> ->] H]; inversion H; subst. exists s. split; [done|]. by exists ss.
Qed.
Lemma strings_ok v c ss : strings v c = Ok ss <-> v = jstrs ss /\ ss <> [] /\ Forall (fun s => s <> "") ss.
Proof.
  destruct v as [| | | | |[|x l]|]; cbn [strings]; try (split; [discriminate | by intros [[=] _]]).
  - split; [discriminate | by intros [E [Hne _]]; destruct ss].
  - rewrite string_items_ok. split; [|tauto]. intros [E H]. split; [done|]. split; [by destruct ss | done].
Qed.
Lemma substrate_matched_ok o m x : matched o m = Ok x <-> o = Some x.
Proof. destruct o; simpl; [rewrite Ok_inj; split; congruence | split; discriminate]. Qed.
Lemma last_texts v w c c' : (let* _ := text v c in let* _ := text w c' in Ok tt) = Ok tt <-> some_text v /\ some_text w.
Proof. rewrite !any_text. tauto. Qed.
Lemma text_and_not_pass v c o m :
  (let* _ := text v c in require (negb (is_pass o)) m) = Ok tt <-> some_text v /\ o <> PASS.
Proof. by rewrite any_text, not_pass. Qed.

Lemma validate_runner_ok data o :
  validate_runner data o = Ok tt <-> has_object data "runner" RUNNER_FIELDS (runner_ok o).
Proof.
  apply has_object_ok. intros d. unfold runner_ok.
  assert (Hm : forall labels m,
    require (match sorted (set_diff REQUIRED_LABELS labels) with [] => true | _ => false end) m = Ok tt
    <-> forall l, In l REQUIRED_LABELS -> In l labels).
  { intros labels m. rewrite substrate_require_ok, <- no_extra. by destruct (sorted _). }
  split.
  - intros (class & [Hc _]%enum_text_ok & [->%substrate_require_ok%String.eqb_eq H]%bind_ok_unit)%bind_ok; [|done].
    apply bind_ok in H as (labels & (Hl & _ & Hne)%strings_ok & [Hreq H]%bind_ok_unit).
    rewrite Hm in Hreq. apply bind_ok_unit in H as [Hp Hos%last_texts]. split; [done|].
    split; [by exists labels|]. split; [|done]. intros ->. by apply last_texts in Hp.
  - intros (Hc & (labels & Hl & Hne & Hreq) & Hp & Hos). apply bind_ok. exists "self-hosted".
    rewrite enum_text_ok by done. split; [by auto with datatypes|]. cbn [String.eqb].
    apply bind_ok_unit. split; [done|]. apply bind_ok. exists labels. rewrite strings_ok.
    split; [split; [done|]; split; [|done]; intros ->; by destruct (Hreq "self-hosted"); left|].
    apply bind_ok_unit. rewrite Hm. split; [done|]. apply bind_ok_unit.
    split; [destruct o; [by apply last_texts, Hp | done..] | by apply last_texts].
Qed.

Lemma environment_iff data o :
  validate_environment data o = Ok tt <-> has_object data "protected_environment" ENV_FIELDS (environment_ok o).
Proof.
  apply has_object_ok. intros d. unfold environment_ok.
  rewrite !bind_ok_unit, substrate_value_is, substrate_require_ok, is_true_iff, any_text. do 3 apply and_iff_compat_l.
  rewrite bind_ok. setoid_rewrite enum_text_ok; [|done]. setoid_rewrite bind_ok. setoid_rewrite substrate_text_ok.
  setoid_rewrite bind_ok_unit.
  assert (Hu : forall url status m1 m2 m3, (if String.eqb url RUN_URL_UNAVAILABLE then
      require (negb (is_pass o)) m1 ;;; require (negb (String.eqb status "approved")) m2
    else require (re_fullmatch RUN_URL_RE url) m3) = Ok tt <->
    if String.eqb url RUN_URL_UNAVAILABLE then o <> PASS /\ status <> "approved" else re_fullmatch RUN_URL_RE url = true).
  { intros url status m1 m2 m3. destruct (String.eqb url RUN_URL_UNAVAILABLE); [|apply substrate_require_ok].
    by rewrite bind_ok_unit, not_pass, substrate_require_ok, negb_true_iff, String.eqb_neq. }
  setoid_rewrite Hu.
  assert (Hs : forall status c1 c2 m, (if String.eqb status "approved" then
      let* _ := text (get d "reviewer_identity") c1 in Ok tt
    else let* _ := text (get d "unavailable_reason") c2 in require (negb (is_pass o)) m) = Ok tt <->
    if String.eqb status "approved" then some_text (get d "reviewer_identity")
    else some_text (get d "unavailable_reason") /\ o <> PASS).
  { intros status c1 c2 m. destruct (String.eqb status "approved"); [|apply text_and_not_pass]. rewrite any_text. tauto. }
  setoid_rewrite Hs. naive_solver.
Qed.

Lemma status_path_iff data field status : validate_status_path data field = Ok status <->
  has_object data field STATUS_PATH_FIELDS (status_path_ok field status).
Proof.
  assert (Hv : forall d st c, (if String.eqb st "available" && String.eqb field "qemu" then
      let* _ := text (get d "version") c in Ok tt else Ok tt) = Ok tt <->
    (st = "available" -> field = "qemu" -> some_text (get d "version"))).
  { intros d st c. destruct (String.eqb_spec st "available"), (String.eqb_spec field "qemu"); cbn [andb];
      [rewrite any_text|..]; naive_solver. }
  assert (Hr : forall d st c, (if String.eqb st "unavailable" then
      let* _ := text (get d "unavailable_reason") c in Ok tt else Ok tt) = Ok tt <->
    (st = "unavailable" -> some_text (get d "unavailable_reason"))).
  { intros d st c. destruct (String.eqb_spec st "unavailable"); [rewrite any_text|]; naive_solver. }
  unfold has_object, status_path_ok, validate_status_path. rewrite bind_ok. setoid_rewrite substrate_object_ok.
  f_equiv. intros d. apply and_iff_compat_l. rewrite bind_ok_unit, substrate_fields_ok. apply and_iff_compat_l. split.
  - intros (p & (s & Hs & Hne & Hl & Hp & _)%substrate_path_ok & H)%bind_ok.
    apply bind_ok in H as (st & [Hst Hin]%enum_text_ok & H); [|done].
    apply bind_ok_unit in H as [Hver H]. rewrite Hv in Hver. apply bind_ok_unit in H as [Hreason H]. rewrite Hr in Hreason.
    injection H as <-. split; [by exists s | done].
  - intros ((s & Hs & Hne & Hl & Hp) & Hst & Hin & Hver & Hreason). apply bind_ok. exists (Path s).
    rewrite substrate_path_ok. split; [by exists s|]. apply bind_ok. exists status. rewrite enum_text_ok by done.
    split; [done|]. apply bind_ok_unit. rewrite Hv. split; [done|]. apply bind_ok_unit. by rewrite Hr.
Qed.

(** The group of the tuple pattern is the release between prefix and suffix. *)
Lemma tuple_group s m : re_full TUPLE_RE s = Some m -> s = "linux-" ++ group "release" m ++ TUPLE_SUFFIX.
Proof.
  intros (st & -> & Hm & Hr)%re_full_sound. unfold TUPLE_RE in Hm. cbn [rseq] in Hm.
  apply seq_matches in Hm as (s0 & H0 & (s1 & [H1 C1]%lit_matches & (s2 & H2 & (s3 & [H3 C3]%lit_matches &
    (s4 & H4 & H5)%seq_matches)%seq_matches)%seq_matches)%seq_matches).
  apply cap_matches in H2 as (t & H2 & C2); [|done]. inversion H0; subst. inversion H4; subst. inversion H5; subst.
  unfold group. cbn [snd]. rewrite C3, C2, C1. cbn in *. by rewrite H1, H2, H3, Hr, append_nil_r.
Qed.
Lemma app_suffix_inj a b c : a ++ c = b ++ c -> a = b.
Proof.
  revert b. induction a as [|x a IH]; intros [|y b]; rewrite ?append_cons; intros H; [done| | |].
  - exfalso. apply (f_equal len) in H. change ("" ++ c) with c in H. unfold len in H. simpl in H.
    rewrite (len_append b c : String.length _ = _) in H. unfold len in H. lia.
  - exfalso. apply (f_equal len) in H. change ("" ++ c) with c in H. unfold len in H. simpl in H.
    rewrite (len_append a c : String.length _ = _) in H. unfold len in H. lia.
  - injection H as -> H. by rewrite (IH b H).
Qed.

Lemma file_ref_ok F d roles c1 c2 m1 m2 c3 (k : path -> string -> result unit) : mem "" roles = false ->
  (let* p := safe_path (get d "path") c1 in
   let* sha := text (get d "sha256") c2 in
   require (re_fullmatch SHA_RE sha) m1 ;;;
   let* actual := digest F p in
   require (String.eqb actual sha) (m2 p) ;;;
   let* role := enum_text (get d "schema_role") roles c3 in
   k p role) = Ok tt <-> exists p role, file_ref F d p role /\ In role roles /\ k p role = Ok tt.
Proof.
  intros Hroles. unfold file_ref, digest. split.
  - intros (p & (s & Hs & Hne & Hl & Hp & ->)%substrate_path_ok & H)%bind_ok.
    apply bind_ok in H as (sha & [Hsha _]%substrate_text_ok & [Hh%substrate_require_ok%class_fullmatch H]%bind_ok_unit).
    apply bind_ok in H as (actual & Ha%reraise_ok%sha256_of_ok & [->%substrate_require_ok%String.eqb_eq H]%bind_ok_unit).
    apply bind_ok in H as (role & [Hr Hin]%enum_text_ok & H); [|done]. exists (Path s), role. split; [|done].
    exists s, sha. assert (len sha = 64) by lia. destruct Hh. done.
  - intros (p & role & (s & sha & Hs & Hne & Hl & Hp & -> & Hsha & Hlen & Hhex & Ha & Hr) & Hin & H).
    apply bind_ok. exists (Path s). rewrite substrate_path_ok. split; [by exists s|].
    apply bind_ok. exists sha. rewrite substrate_text_ok. split; [split; [done | by intros ->]|].
    apply bind_ok_unit. split; [apply substrate_require_ok, class_fullmatch; split; [done | lia]|].
    apply bind_ok. exists sha. split; [by apply reraise_ok, sha256_of_ok|].
    apply bind_ok_unit. split; [by apply substrate_require_ok, String.eqb_eq|].
    apply bind_ok. exists role. by rewrite enum_text_ok.
Qed.

Lemma bpf_iff F data o : validate_bpf F data o = Ok tt <-> has_object data "bpf_metadata" REF_FIELDS (bpf_ok F o).
Proof.
  apply has_object_ok. intros d. rewrite (file_ref_ok F d _ _ _ _ (fun p => "bpf_metadata.sha256 does not match " ++ path_str p));
    [|done]. unfold bpf_ok. f_equiv. intros p. f_equiv. intros role. do 2 apply and_iff_compat_l.
  destruct (String.eqb_spec role "bpf-skip-json") as [->|E]; [rewrite text_and_not_pass|]; naive_solver.
Qed.

Lemma review_ref_iff F data o : validate_protected_review F data o = Ok tt <->
  has_object data "protected_review" REF_FIELDS (review_ref_ok F data o).
Proof.
  apply has_object_ok. intros d.
  rewrite (file_ref_ok F d _ _ _ _ (fun p => "protected_review.sha256 does not match " ++ path_str p)); [|done].
  unfold review_ref_ok.
  assert (Hm : forall review env, (if negb (py_eq (get review "run_url") (get env "run_url"))
       || negb (py_eq (get review "reviewer_identity") (get env "reviewer_identity")) then
      let* _ := text (get d "unavailable_reason") "protected_review.unavailable_reason" in
      require (negb (is_pass o)) "PASS proof requires protected review artifact to match runner proof"
    else Ok tt) = Ok tt <-> review_matches review env \/ some_text (get d "unavailable_reason") /\ o <> PASS).
  { intros review env. unfold review_matches.
    destruct (py_eq (get review "run_url") _), (py_eq (get review "reviewer_identity") _); cbn [negb orb];
      rewrite ?text_and_not_pass; naive_solver. }
  split.
  - intros (p & role & Href & [<-|[]] & H). exists p. apply bind_ok_unit in H as [_ H].
    apply bind_ok_unit in H as [Hacc%reraise_ok%review_proof_iff H]. apply bind_ok in H as (review & Hrev & H).
    apply bind_ok in H as (env & Henv%substrate_object_ok & H). apply Hm in H. by exists review, env.
  - intros (p & review & env & Href & Hacc & Hrev & Henv & H). exists p, PROTECTED_REVIEW_ROLE. split; [done|].
    split; [by left|]. apply bind_ok_unit. split; [done|]. apply bind_ok_unit.
    rewrite reraise_ok, review_proof_iff. split; [done|]. apply bind_ok. exists review. split; [done|].
    apply bind_ok. exists env. rewrite substrate_object_ok. split; [done|]. by apply Hm.
Qed.

Lemma substrate_attestation_iff o data :
  validate_attestation data o = Ok tt <->
  has_object data "attestation" ATTEST_FIELDS (substrate_attestation_ok o).
Proof.
  apply has_object_ok. intros d. unfold substrate_attestation_ok.
  assert (Hu : forall capability status c m, (if String.eqb capability "unavailable" || String.eqb status "unavailable" then
      let* _ := text (get d "unavailable_reason") c in require (negb (is_pass o)) m else Ok tt) = Ok tt <->
    (capability = "unavailable" \/ status = "unavailable" -> some_text (get d "unavailable_reason") /\ o <> PASS)).
  { intros capability status c m. destruct (String.eqb_spec capability "unavailable"), (String.eqb_spec status "unavailable");
      cbn [orb]; rewrite ?text_and_not_pass; naive_solver. }
  split.
  - intros (capability & [Hc Hc']%enum_text_ok & H)%bind_ok; [|done].
    apply bind_ok in H as (status & [Hs Hs']%enum_text_ok & H); [|done].
    apply bind_ok in H as (workflow & [Hw _]%substrate_text_ok & [Hw'%substrate_require_ok%startswith_iff H]%bind_ok_unit).
    apply bind_ok in H as (verify & [Hv _]%substrate_text_ok & [Hv'%substrate_require_ok H]%bind_ok_unit).
    rewrite Hu in H. destruct Hw' as (rest & ->). by exists capability, status, rest, verify.
  - intros (capability & status & rest & verify & Hc & Hc' & Hs & Hs' & Hw & Hv & Hv' & H).
    apply bind_ok. exists capability. rewrite enum_text_ok by done. split; [done|].
    apply bind_ok. exists status. rewrite enum_text_ok by done. split; [done|].
    apply bind_ok. eexists. rewrite substrate_text_ok. split; [split; [exact Hw | done]|].
    apply bind_ok_unit. rewrite substrate_require_ok, startswith_iff. split; [by exists rest|].
    apply bind_ok. exists verify. rewrite substrate_text_ok. split; [split; [done | by intros ->]|].
    apply bind_ok_unit. rewrite substrate_require_ok. split; [done|]. by rewrite Hu.
Qed.

Lemma kernel_iff o reasons data : validate_kernel data o reasons = Ok tt <->
  has_object data "kernel_tuple" KERNEL_FIELDS (kernel_ok o reasons).
Proof.
  apply has_object_ok. intros d. unfold kernel_ok.
  assert (Hp : forall sha m, require (negb (mem sha PLACEHOLDER_SHA_VALUES)
      || (negb (is_pass o) && mem "kernel config metadata unavailable or placeholder" reasons)) m = Ok tt <->
    (In sha PLACEHOLDER_SHA_VALUES -> o <> PASS /\ In "kernel config metadata unavailable or placeholder" reasons)).
  { intros sha m. rewrite substrate_require_ok, <- !mem_In. destruct (mem sha _), (mem _ reasons), o; naive_solver. }
  assert (He : forall running release (btf sched_ext : bool) m1 m2 m3, (if is_pass o then
      require (startswith running release) m1 ;;; require btf m2 ;;; require sched_ext m3 else Ok tt) = Ok tt <->
    (o = PASS -> (exists rest, running = release ++ rest) /\ btf = true /\ sched_ext = true)).
  { intros. destruct o; cbn [is_pass]; [|naive_solver..]. rewrite !bind_ok_unit, !substrate_require_ok, startswith_iff.
    naive_solver. }
  split.
  - intros (tuple & [Ht _]%substrate_text_ok & H)%bind_ok. apply bind_ok in H as (m & Hf%substrate_matched_ok & H).
    apply bind_ok in H as (running & [Hr Hr']%substrate_text_ok & [Ha%substrate_value_is H]%bind_ok_unit).
    apply bind_ok in H as (sha & [Hs _]%substrate_text_ok & [[Hh Hl]%substrate_require_ok%class_fullmatch H]%bind_ok_unit).
    apply bind_ok_unit in H as [Hpl H]. rewrite Hp in Hpl.
    apply bind_ok in H as (btf & Hb%substrate_bool_ok & H). apply bind_ok in H as (sched_ext & Hx%substrate_bool_ok & H).
    rewrite He in H. pose proof (tuple_group _ _ Hf) as Ht'. rewrite Ht' in Ht, Hf.
    exists (group "release" m), running, sha, btf, sched_ext. assert (len sha = 64) by lia.
    repeat (split; [done|]). split; [apply re_full_found; by exists m | done].
  - intros (release & running & sha & btf & sched_ext & Ht & Hf & Hr & Hr' & Ha & Hs & Hl & Hh & Hpl & Hb & Hx & H).
    apply re_full_found in Hf as (m & Hm). pose proof (tuple_group _ _ Hm) as Hg. apply append_inj in Hg.
    apply app_suffix_inj in Hg.
    apply bind_ok. eexists. rewrite substrate_text_ok. split; [split; [exact Ht | done]|].
    apply bind_ok. exists m. rewrite Hm. split; [done|].
    apply bind_ok. exists running. rewrite substrate_text_ok. split; [done|].
    apply bind_ok_unit. rewrite substrate_value_is. split; [done|].
    apply bind_ok. exists sha. rewrite substrate_text_ok. split; [split; [done | by intros ->]|].
    apply bind_ok_unit. split; [apply substrate_require_ok, class_fullmatch; split; [done | lia]|].
    apply bind_ok_unit. rewrite Hp. split; [done|].
    apply bind_ok. exists btf. rewrite substrate_bool_ok. split; [done|].
    apply bind_ok. exists sched_ext. rewrite substrate_bool_ok. split; [done|]. rewrite He, <- Hg. done.
Qed.

(** The reasons of the proof, as the three tests on them read them. *)
Lemma reasons_iff o v (k : list string -> result unit) :
  match v with
  | JList reasons_list =>
      let* reasons := if is_pass o then Ok [] else strings (JList reasons_list) "unavailable_reasons" in
      require (negb (is_pass o) || negb (nonempty reasons_list)) "PASS proof must not carry unavailable reasons" ;;;
      require (is_pass o || nonempty reasons) "SKIP/REFUSE proof must explain unavailable reasons" ;;;
      k reasons
  | _ => fail "unavailable_reasons must be a list"
  end = Ok tt <-> exists reasons, reasons_ok o v reasons /\ k reasons = Ok tt.
Proof.
  unfold reasons_ok. destruct v as [| | | | |l|]; try (split; [discriminate | by intros (? & [[=] _] & _)]).
  assert (Hpass : is_pass o = true <-> o = PASS) by (destruct o; done). destruct (is_pass o) eqn:E.
  - destruct (proj1 Hpass eq_refl). cbn [bind negb orb]. rewrite !bind_ok_unit, substrate_require_ok. split.
    + intros (Hl & _ & H). exists []. destruct l; [|done]. split; [|done]. split; [done|]. split; [done | constructor].
    + intros (reasons & (El & Hr & _) & H). rewrite (proj1 Hr eq_refl) in *. by destruct l.
  - assert (Ho : o <> PASS) by (intros H; apply Hpass in H; done). split.
    + intros (reasons & (El & Hne & Hall)%strings_ok & [_ [_ H]%bind_ok_unit]%bind_ok_unit)%bind_ok.
      exists reasons. naive_solver.
    + intros (reasons & (El & Hr & Hall) & H). assert (Hne : reasons <> []) by naive_solver.
      apply bind_ok. exists reasons. rewrite strings_ok. split; [done|]. apply bind_ok_unit. split; [done|].
      apply bind_ok_unit. split; [|done]. rewrite substrate_require_ok. by destruct reasons.
Qed.

Definition outcome_text (o : Outcome) : string :=
  match o with PASS => "PASS" | SKIP => "SKIP" | REFUSE => "REFUSE" end.
Lemma outcome_of_text s : In s ["PASS"; "SKIP"; "REFUSE"] -> outcome_text (outcome_of s) = s.
Proof. by intros [<-|[<-|[<-|[]]]]. Qed.

Lemma virtual_iff d o (k : result unit) :
  (let* qemu_status := validate_status_path d "qemu" in
   let* kvm_status := validate_status_path d "dev_kvm" in
   let* accel := enum_text (get d "accel_mode") ["kvm"; "tcg"; "unavailable"] "accel_mode" in
   let available := String.eqb qemu_status "available" && String.eqb kvm_status "available" in
   require (negb (String.eqb accel "kvm") || available) "accel_mode=kvm requires available qemu and /dev/kvm" ;;;
   require (negb (is_pass o) || available) "PASS proof requires qemu and /dev/kvm availability" ;;;
   require (negb (is_pass o) || String.eqb accel "kvm") "PASS proof requires accel_mode=kvm" ;;;
   k) = Ok tt <->
  (exists qemu kvm accel,
    has_object d "qemu" STATUS_PATH_FIELDS (status_path_ok "qemu" qemu)
    /\ has_object d "dev_kvm" STATUS_PATH_FIELDS (status_path_ok "dev_kvm" kvm)
    /\ get d "accel_mode" = JStr accel /\ In accel ["kvm"; "tcg"; "unavailable"]
    /\ (accel = "kvm" -> qemu = "available" /\ kvm = "available") /\ (o = PASS -> accel = "kvm")) /\ k = Ok tt.
Proof.
  assert (Hb : forall qemu kvm accel,
    (negb (String.eqb accel "kvm") || (String.eqb qemu "available" && String.eqb kvm "available")) = true
    /\ (negb (is_pass o) || (String.eqb qemu "available" && String.eqb kvm "available")) = true
    /\ (negb (is_pass o) || String.eqb accel "kvm") = true <->
    (accel = "kvm" -> qemu = "available" /\ kvm = "available") /\ (o = PASS -> accel = "kvm")).
  { intros qemu kvm accel. destruct (String.eqb_spec accel "kvm"), (String.eqb_spec qemu "available"),
      (String.eqb_spec kvm "available"), o; cbn; naive_solver. }
  split.
  - intros (qemu & Hq%status_path_iff & H)%bind_ok. apply bind_ok in H as (kvm & Hk%status_path_iff & H).
    apply bind_ok in H as (accel & [Ha Hin]%enum_text_ok & H); [|done].
    apply bind_ok_unit in H as [H1%substrate_require_ok H]. apply bind_ok_unit in H as [H2%substrate_require_ok H].
    apply bind_ok_unit in H as [H3%substrate_require_ok H]. split; [|done]. exists qemu, kvm, accel.
    repeat (split; [done|]). by apply Hb.
  - intros [(qemu & kvm & accel & Hq & Hk & Ha & Hin & H) Hrest]. apply Hb in H as (H1 & H2 & H3).
    apply bind_ok. exists qemu. rewrite status_path_iff. split; [done|].
    apply bind_ok. exists kvm. rewrite status_path_iff. split; [done|].
    apply bind_ok. exists accel. rewrite enum_text_ok by done. split; [done|].
    do 3 (apply bind_ok_unit; rewrite substrate_require_ok; split; [done|]). done.
Qed.

(** * Properties *)

