(* ===== verification/RunnerCleanliness.v ===== *)
(** RunnerCleanliness: qa/runner_cleanliness_proof_check.py, the proof that the
    runner of a protected run was clean: never reused, and removed afterwards or
    registered as ephemeral.  JSON is loaded by RunnerSubstrate, whose path and
    URL patterns the module repeats. *)
From S2P Require Import Prelude PyStr PyRe PyFloat PyJson Sha256 PyFs PyMain.
From S2P Require Import MatrixModel ProtectedReview RunnerSubstrate.

Local Open Scope string_scope.

Definition SCHEMA : string := "zig-scheduler/runner-cleanliness-proof/v1".
Definition SCHEMA_PATH : path := Path "schemas/control/runner-cleanliness-proof.v1.schema.json".
Definition DEFAULT_FIXTURES : path := Path "fixtures/runner-cleanliness-proof".
Definition SAFE_PATH_RE : string -> bool := RunnerSubstrate.SAFE_PATH_RE.
Definition SHA_RE : regex := rseq [RBol; rrep 64 0 (RChar is_hex_lower); REol].
Definition RUN_URL_RE : regex := RunnerSubstrate.RUN_URL_RE.
Definition ROOT_FIELDS : list string := [
  "schema"; "proof_outcome"; "run_url"; "runner_identity"; "cleanliness_mode"; "no_reuse_evidence"; "removal_receipt";
  "ephemeral_registration"; "protected_review"; "runner_substrate"; "host_mutation"; "release_eligible";
  "production_capacity_claim"].
Definition IDENTITY_FIELDS : list string := ["name"; "group"; "labels"].
Definition MODE_FIELDS : list string := ["kind"; "jit_config_sha256"; "clean_machine_boot_id"; "ephemeral_instance_id"].
Definition NO_REUSE_FIELDS : list string := ["status"; "previous_runner_id"; "current_runner_id"; "evidence"].
Definition REMOVAL_FIELDS : list string := ["status"; "removed_at"; "receipt_path"; "sha256"].
Definition REF_FIELDS : list string := ["path"; "sha256"; "schema_role"].
Definition EPHEMERAL_REGISTRATION_FIELDS : list string := [
  "schema"; "runner_id"; "runner_name"; "runner_labels"; "ephemeral_instance_id"; "ephemeral_runner_configured";
  "no_reuse_evidence"; "run_url"; "source_basename"; "source_sha256"; "source_size_bytes"; "host_mutation";
  "release_eligible"; "production_capacity_claim"].

Inductive Mode : Set := ProofMode | FixturesMode | SelfTestMode.
Record Args : Set := MkArgs { mode : Mode; proof : option path; fixtures : path }.

Definition fail {A} (m : string) : result A := raise RunnerCleanlinessError m.
Definition require (condition : bool) (message : string) : result unit :=
  ensure condition RunnerCleanlinessError message.

Fixpoint parse_options (argv : list string) (args : Args) : result Args :=
  match argv with
  | [] => Ok args
  | arg :: rest =>
      if String.eqb arg "--proof" then
        match rest with
        | [] => fail "--proof requires a path"
        | p :: rest => parse_options rest (MkArgs ProofMode (Some (Path p)) (fixtures args))
        end
      else if String.eqb arg "--fixtures" then
        match rest with
        | [] => fail "--fixtures requires a path"
        | p :: rest => parse_options rest (MkArgs FixturesMode (proof args) (Path p))
        end
      else fail "usage: runner_cleanliness_proof_check.py --self-test | --proof <path> | --fixtures <dir>"
  end.

Definition parse_args (argv : list string) : result Args :=
  match argv with
  | ["--self-test"] => Ok (MkArgs SelfTestMode None DEFAULT_FIXTURES)
  | _ => parse_options argv (MkArgs FixturesMode None DEFAULT_FIXTURES)
  end.

Definition only_fields (data : jobject) (allowed : list string) (context : string) : result unit :=
  let extra := sorted (set_diff (keys data) allowed) in
  require (is_empty extra) (context ++ " has unexpected fields: " ++ join ", " extra).

Definition text (value : json) (context : string) : result string :=
  match value with
  | JStr s => if String.eqb s "" then fail (context ++ " must be non-empty text") else Ok s
  | _ => fail (context ++ " must be non-empty text")
  end.

Definition obj (value : json) (context : string) : result jobject :=
  match value with JDict d => Ok d | _ => fail (context ++ " must be an object") end.

Definition safe_path (value : json) (context : string) : result path :=
  let* raw := text value context in
  require (SAFE_PATH_RE raw) (context ++ " must be relative and non-traversing: " ++ raw) ;;;
  Ok (Path raw).

(** The outcome is one of PASS, SKIP and REFUSE; only PASS is asked for. *)
Definition is_pass (outcome : string) : bool := String.eqb outcome "PASS".

Definition validate_mode (value : json) (outcome : string) : result unit :=
  let* mode := obj value "cleanliness_mode" in
  only_fields mode MODE_FIELDS "cleanliness_mode" ;;;
  let* kind := text (get mode "kind") "cleanliness_mode.kind" in
  require (mem kind ["jit"; "ephemeral"; "clean_machine"]) "cleanliness_mode.kind unsupported" ;;;
  if is_pass outcome then
    if String.eqb kind "jit" then
      let* sha := text (get mode "jit_config_sha256") "cleanliness_mode.jit_config_sha256" in
      require (re_fullmatch SHA_RE sha) "JIT PASS requires config hash"
    else if String.eqb kind "ephemeral" then
      let* _ := text (get mode "ephemeral_instance_id") "cleanliness_mode.ephemeral_instance_id" in Ok tt
    else if String.eqb kind "clean_machine" then
      let* _ := text (get mode "clean_machine_boot_id") "cleanliness_mode.clean_machine_boot_id" in Ok tt
    else Ok tt
  else Ok tt.

Definition validate_identity (value : json) : result unit :=
  let* identity := obj value "runner_identity" in
  only_fields identity IDENTITY_FIELDS "runner_identity" ;;;
  let* _ := text (get identity "name") "runner_identity.name" in
  let* _ := text (get identity "group") "runner_identity.group" in
  match get identity "labels" with
  | JList ((_ :: _) as labels) =>
      for_enum 0 labels (fun index item =>
        let* _ := text item ("runner_identity.labels[" ++ str_nat index ++ "]") in Ok tt)
  | _ => fail "runner_identity.labels must be a non-empty list"
  end.

Definition validate_no_reuse (value : json) (outcome : string) : result unit :=
  let* evidence := obj value "no_reuse_evidence" in
  only_fields evidence NO_REUSE_FIELDS "no_reuse_evidence" ;;;
  let* status := text (get evidence "status") "no_reuse_evidence.status" in
  require (mem status ["PASS"; "SKIP"; "REFUSE"]) "no_reuse_evidence.status unsupported" ;;;
  (if is_pass outcome then
     require (String.eqb status "PASS") "PASS proof requires no-reuse evidence PASS" ;;;
     let* previous_id := text (get evidence "previous_runner_id") "no_reuse_evidence.previous_runner_id" in
     let* current_id := text (get evidence "current_runner_id") "no_reuse_evidence.current_runner_id" in
     require (negb (String.eqb previous_id current_id)) "PASS proof requires a non-reused runner identity"
   else Ok tt) ;;;
  let* _ := text (get evidence "evidence") "no_reuse_evidence.evidence" in Ok tt.

Section Files.
Variable F : fs.

Definition sha_file (p : path) : result string :=
  reraise FileNotFoundError RunnerCleanlinessError
    (fun _ => "missing referenced file: " ++ path_str p) (sha256_of F p).

Definition validate_schema_file : result unit :=
  let* schema := RunnerSubstrate.load_json_object F SCHEMA_PATH in
  require (py_eq (get schema "$id") (JStr SCHEMA)) "runner cleanliness schema $id mismatch".

Definition validate_ref (value : json) (role context : string) : result path :=
  let* ref := obj value context in
  only_fields ref REF_FIELDS context ;;;
  let* p := safe_path (get ref "path") (context ++ ".path") in
  let* digest := text (get ref "sha256") (context ++ ".sha256") in
  require (re_fullmatch SHA_RE digest) (context ++ ".sha256 must be sha256 hex") ;;;
  let* actual := sha_file p in
  require (String.eqb actual digest) (context ++ ".sha256 does not match " ++ path_str p) ;;;
  require (py_eq (get ref "schema_role") (JStr role)) (context ++ ".schema_role must be " ++ role) ;;;
  Ok p.

Definition validate_removal (value : json) (outcome : string) (ephemeral_mode : bool) : result string :=
  let* receipt := obj value "removal_receipt" in
  only_fields receipt REMOVAL_FIELDS "removal_receipt" ;;;
  let* status := text (get receipt "status") "removal_receipt.status" in
  require (mem status ["removed"; "not_applicable"; "unavailable"]) "removal_receipt.status unsupported" ;;;
  (if is_pass outcome then
     require (String.eqb status "removed" || (ephemeral_mode && String.eqb status "not_applicable"))
       ("PASS proof requires runner removal receipt or validator-enforced ephemeral registration proof")
   else Ok tt) ;;;
  (if String.eqb status "removed" then
     let* _ := text (get receipt "removed_at") "removal_receipt.removed_at" in
     let* receipt_path := safe_path (get receipt "receipt_path") "removal_receipt.receipt_path" in
     let* digest := text (get receipt "sha256") "removal_receipt.sha256" in
     require (re_fullmatch SHA_RE digest) "removal_receipt.sha256 must be sha256 hex" ;;;
     let* actual := sha_file receipt_path in
     require (String.eqb actual digest) ("removal_receipt.sha256 does not match " ++ path_str receipt_path)
   else Ok tt) ;;;
  Ok status.

Definition validate_ephemeral_registration (value : json) (data : jobject) (removal_status : string) : result unit :=
  let* mode := obj (get data "cleanliness_mode") "cleanliness_mode" in
  let ephemeral_pass := py_eq (get data "proof_outcome") (JStr "PASS") && py_eq (get mode "kind") (JStr "ephemeral")
                        && String.eqb removal_status "not_applicable" in
  if negb ephemeral_pass then
    require (is_none value)
      "ephemeral_registration is only allowed for PASS ephemeral cleanup without an in-job removal receipt"
  else
    let* receipt_path := validate_ref value "ephemeral-runner-registration-receipt" "ephemeral_registration" in
    let* receipt := RunnerSubstrate.load_json_object F receipt_path in
    only_fields receipt EPHEMERAL_REGISTRATION_FIELDS "ephemeral_registration receipt" ;;;
    require (py_eq (get receipt "schema") (JStr "zig-scheduler/ephemeral-runner-registration-receipt/v1"))
      "ephemeral_registration receipt schema mismatch" ;;;
    let* identity := obj (get data "runner_identity") "runner_identity" in
    let* no_reuse := obj (get data "no_reuse_evidence") "no_reuse_evidence" in
    require (py_eq (get receipt "runner_id") (get no_reuse "current_runner_id"))
      "ephemeral_registration runner_id must match current runner id" ;;;
    require (py_eq (get receipt "runner_name") (get identity "name"))
      "ephemeral_registration runner_name must match runner identity" ;;;
    require (py_eq (get receipt "ephemeral_instance_id") (get mode "ephemeral_instance_id"))
      "ephemeral_registration instance id must match cleanliness mode" ;;;
    require (is_true (get receipt "ephemeral_runner_configured"))
      "ephemeral_registration must prove ephemeral runner configuration" ;;;
    require (py_eq (get receipt "run_url") (get data "run_url"))
      "ephemeral_registration run_url must match proof run_url" ;;;
    require (is_list (get receipt "runner_labels") && py_eq (get receipt "runner_labels") (get identity "labels"))
      "ephemeral_registration labels must match runner identity" ;;;
    require (py_eq (get receipt "no_reuse_evidence") (get no_reuse "evidence"))
      "ephemeral_registration no-reuse evidence must match proof" ;;;
    let* basename := text (get receipt "source_basename") "ephemeral_registration.source_basename" in
    require (String.eqb basename "zigsched-runner-registration-receipt.txt")
      "ephemeral_registration source basename unsupported" ;;;
    let* source := text (get receipt "source_sha256") "ephemeral_registration.source_sha256" in
    require (re_fullmatch SHA_RE source) "ephemeral_registration.source_sha256 must be sha256 hex" ;;;
    require (match as_int (get receipt "source_size_bytes") with
             | Some size => Z.ltb 0 size && Z.leb size 8192 | None => false end)
      "ephemeral_registration source size must be 1..8192 bytes" ;;;
    require (is_false (get receipt "host_mutation")) "ephemeral_registration host_mutation must be false" ;;;
    require (is_false (get receipt "release_eligible")) "ephemeral_registration release_eligible must be false" ;;;
    require (is_false (get receipt "production_capacity_claim"))
      "ephemeral_registration production_capacity_claim must be false".

Definition validate_proof (p : path) : result unit :=
  validate_schema_file ;;;
  let* data := RunnerSubstrate.load_json_object F p in
  only_fields data ROOT_FIELDS (path_str p) ;;;
  require (py_eq (get data "schema") (JStr SCHEMA)) "unsupported runner cleanliness schema" ;;;
  let* outcome := text (get data "proof_outcome") "proof_outcome" in
  require (mem outcome ["PASS"; "SKIP"; "REFUSE"]) "proof_outcome unsupported" ;;;
  require (is_false (get data "host_mutation")) "host_mutation must be false" ;;;
  require (is_false (get data "release_eligible")) "release_eligible must be false" ;;;
  require (is_false (get data "production_capacity_claim")) "production_capacity_claim must be false" ;;;
  let* run_url := text (get data "run_url") "run_url" in
  require (negb (is_pass outcome) || re_fullmatch RUN_URL_RE run_url) "PASS proof requires GitHub Actions run URL" ;;;
  validate_identity (get data "runner_identity") ;;;
  let* mode := obj (get data "cleanliness_mode") "cleanliness_mode" in
  validate_mode (JDict mode) outcome ;;;
  validate_no_reuse (get data "no_reuse_evidence") outcome ;;;
  let* removal_status := validate_removal (get data "removal_receipt") outcome
                           (py_eq (get mode "kind") (JStr "ephemeral")) in
  validate_ephemeral_registration (get data "ephemeral_registration") data removal_status ;;;
  let* _ := validate_ref (get data "protected_review") "protected-environment-review" "protected_review" in
  let* _ := validate_ref (get data "runner_substrate") "runner-substrate-proof" "runner_substrate" in
  Ok tt.

Definition checker_error (c : exn_class) : bool := is_class RunnerCleanlinessError c || is_class RunnerProofError c.

Definition validate_fixtures (root : path) : printed :=
  let valid_paths := sorted_glob F (div_path root "valid") ".json" in
  let invalid_root := div_path root "invalid" in
  let invalid_paths := sorted_glob F invalid_root ".json" in
  and_then (silent (require (nonempty valid_paths)
                      ("missing valid runner cleanliness fixtures under " ++ path_str (div_path root "valid"))))
  (and_then (accept_each validate_proof (fun valid => "PASS runner cleanliness fixture: " ++ path_str valid) valid_paths)
  (and_then (silent (require (nonempty invalid_paths)
                       ("missing invalid runner cleanliness fixtures under " ++ path_str invalid_root)))
     (reject_each validate_proof checker_error
        (fun invalid exc => "PASS reject invalid runner cleanliness fixture " ++ name invalid ++ ": " ++ exn_str exc)
        (fun invalid => Exn RunnerCleanlinessError
           ("expected invalid runner cleanliness fixture rejection: " ++ path_str invalid) None)
        invalid_paths))).

(** [main], where [self_test] is the run of the self-test, which writes scratch files. *)
Definition main (self_test : printed) (argv : list string) : exit :=
  end_main (fun c => is_OSError c || is_class RunnerProofError c || is_class RunnerCleanlinessError c)
    "FAIL runner cleanliness proof"
    (match parse_args argv with
     | Err e => silent (Err e)
     | Ok args =>
         match mode args, proof args with
         | SelfTestMode, _ => self_test
         | ProofMode, Some p =>
             and_then (silent (validate_proof p)) (["PASS runner cleanliness proof: " ++ path_str p], Ok tt)
         | _, _ => validate_fixtures (fixtures args)
         end
     end).
End Files.

(** * Specification *)
Definition hex_digest (v : json) (sha : string) : Prop :=
  v = JStr sha /\ len sha = 64 /\ all_chars is_hex_lower sha = true.
Definition line_path (v : json) (p : path) : Prop :=
  exists s, v = JStr s /\ s <> "" /\ one_line s /\ plain_path (Path s) /\ p = Path s.
Definition object_with (v : json) (allowed : list string) (Q : jobject -> Prop) : Prop :=
  exists d, v = JDict d /\ has_only d allowed /\ Q d.

Definition clean_ref (F : fs) (v : json) (role : string) (p : path) : Prop :=
  object_with v REF_FIELDS (fun d => line_path (get d "path") p
    /\ (exists sha, hex_digest (get d "sha256") sha /\ file_digest F p sha) /\ get d "schema_role" = JStr role).

Definition mode_ok (outcome : string) (d : jobject) : Prop :=
  exists kind, get d "kind" = JStr kind /\ In kind ["jit"; "ephemeral"; "clean_machine"]
    /\ (outcome = "PASS" ->
          (kind = "jit" -> exists sha, hex_digest (get d "jit_config_sha256") sha)
          /\ (kind = "ephemeral" -> some_text (get d "ephemeral_instance_id"))
          /\ (kind = "clean_machine" -> some_text (get d "clean_machine_boot_id"))).

Definition identity_ok (d : jobject) : Prop :=
  some_text (get d "name") /\ some_text (get d "group")
  /\ exists labels, get d "labels" = jstrs labels /\ labels <> [] /\ Forall (fun l => l <> "") labels.

(** A PASS shows that the runner did not run before. *)
Definition no_reuse_ok (outcome : string) (d : jobject) : Prop :=
  exists status, get d "status" = JStr status /\ In status ["PASS"; "SKIP"; "REFUSE"]
    /\ (outcome = "PASS" -> status = "PASS" /\ exists previous current,
          get d "previous_runner_id" = JStr previous /\ previous <> ""
          /\ get d "current_runner_id" = JStr current /\ current <> "" /\ previous <> current)
    /\ some_text (get d "evidence").

(** A PASS shows that the runner was removed, or is ephemeral. *)
Definition removal_ok (F : fs) (outcome : string) (ephemeral : Prop) (status : string) (d : jobject) : Prop :=
  get d "status" = JStr status /\ In status ["removed"; "not_applicable"; "unavailable"]
  /\ (outcome = "PASS" -> status = "removed" \/ ephemeral /\ status = "not_applicable")
  /\ (status = "removed" -> some_text (get d "removed_at") /\ exists p sha,
        line_path (get d "receipt_path") p /\ hex_digest (get d "sha256") sha /\ file_digest F p sha).

(** Equal as Python values. *)
Definition same (v w : json) : Prop := py_eq v w = true.

(** The receipt of an ephemeral registration repeats the proof. *)
Definition receipt_ok (data mode identity no_reuse receipt : jobject) : Prop :=
  has_only receipt EPHEMERAL_REGISTRATION_FIELDS
  /\ get receipt "schema" = JStr "zig-scheduler/ephemeral-runner-registration-receipt/v1"
  /\ same (get receipt "runner_id") (get no_reuse "current_runner_id")
  /\ same (get receipt "runner_name") (get identity "name")
  /\ same (get receipt "ephemeral_instance_id") (get mode "ephemeral_instance_id")
  /\ get receipt "ephemeral_runner_configured" = JBool true
  /\ same (get receipt "run_url") (get data "run_url")
  /\ (is_list (get receipt "runner_labels") = true /\ same (get receipt "runner_labels") (get identity "labels"))
  /\ same (get receipt "no_reuse_evidence") (get no_reuse "evidence")
  /\ get receipt "source_basename" = JStr "zigsched-runner-registration-receipt.txt"
  /\ (exists sha, hex_digest (get receipt "source_sha256") sha)
  /\ (exists n, as_int (get receipt "source_size_bytes") = Some n /\ (0 < n <= 8192)%Z)
  /\ get receipt "host_mutation" = JBool false /\ get receipt "release_eligible" = JBool false
  /\ get receipt "production_capacity_claim" = JBool false.

Definition registration_ok (F : fs) (data mode : jobject) (outcome removal_status : string) (v : json) : Prop :=
  (outcome = "PASS" /\ get mode "kind" = JStr "ephemeral" /\ removal_status = "not_applicable" ->
     exists p receipt identity no_reuse, clean_ref F v "ephemeral-runner-registration-receipt" p
       /\ RunnerSubstrate.load_json_object F p = Ok receipt
       /\ get data "runner_identity" = JDict identity /\ get data "no_reuse_evidence" = JDict no_reuse
       /\ receipt_ok data mode identity no_reuse receipt)
  /\ (~ (outcome = "PASS" /\ get mode "kind" = JStr "ephemeral" /\ removal_status = "not_applicable") -> v = JNull).

Record cleanliness_ok (F : fs) (d : jobject) (outcome : string) : Prop := {
  cl_fields : has_only d ROOT_FIELDS;
  cl_schema : get d "schema" = JStr SCHEMA;
  cl_outcome : get d "proof_outcome" = JStr outcome /\ In outcome ["PASS"; "SKIP"; "REFUSE"];
  cl_no_claims : get d "host_mutation" = JBool false /\ get d "release_eligible" = JBool false
    /\ get d "production_capacity_claim" = JBool false;
  cl_url : exists url, get d "run_url" = JStr url /\ url <> "" /\ (outcome = "PASS" -> re_fullmatch RUN_URL_RE url = true);
  cl_identity : object_with (get d "runner_identity") IDENTITY_FIELDS identity_ok;
  cl_no_reuse : object_with (get d "no_reuse_evidence") NO_REUSE_FIELDS (no_reuse_ok outcome);
  cl_removed : exists mode status, get d "cleanliness_mode" = JDict mode /\ has_only mode MODE_FIELDS /\ mode_ok outcome mode
    /\ object_with (get d "removal_receipt") REMOVAL_FIELDS
         (removal_ok F outcome (get mode "kind" = JStr "ephemeral") status)
    /\ registration_ok F d mode outcome status (get d "ephemeral_registration");
  cl_review : exists p, clean_ref F (get d "protected_review") "protected-environment-review" p;
  cl_substrate : exists p, clean_ref F (get d "runner_substrate") "runner-substrate-proof" p;
}.

(** * Lemmas *)
Lemma clean_require_ok c m u : require c m = Ok u <-> c = true.
Proof. apply ensure_ok. Qed.
Lemma clean_text_ok v c s : text v c = Ok s <-> v = JStr s /\ s <> "".
Proof.
  destruct v as [| | | |t| |]; simpl; try (split; [discriminate | by intros [[=] _]]).
  destruct (String.eqb_spec t "") as [->|Ht]; [split; [discriminate | by intros [[= <-] ?]]|].
  rewrite Ok_inj. split; [by intros <- | by intros [[= <-] _]].
Qed.
Lemma clean_value_is v s m : require (py_eq v (JStr s)) m = Ok tt <-> v = JStr s.
Proof. by rewrite clean_require_ok, py_eq_str. Qed.
Lemma clean_false v m : require (is_false v) m = Ok tt <-> v = JBool false.
Proof. by rewrite clean_require_ok, is_false_iff. Qed.
Lemma clean_obj_ok v c d : obj v c = Ok d <-> v = JDict d.
Proof. destruct v; simpl; split; (congruence || discriminate). Qed.
Lemma clean_fields_ok d allowed c : only_fields d allowed c = Ok tt <-> has_only d allowed.
Proof. unfold only_fields, has_only. by rewrite clean_require_ok, is_empty_iff, no_extra. Qed.
Lemma clean_path_ok v c p : safe_path v c = Ok p <-> line_path v p.
Proof.
  unfold safe_path, line_path, SAFE_PATH_RE. rewrite bind_ok. setoid_rewrite clean_text_ok. setoid_rewrite bind_ok_unit.
  setoid_rewrite clean_require_ok. setoid_rewrite safe_path_re_iff. setoid_rewrite Ok_inj. naive_solver.
Qed.
Lemma any_clean_text v c {B} (k : result B) x : (let* _ := text v c in k) = Ok x <-> some_text v /\ k = Ok x.
Proof. unfold some_text. rewrite bind_ok. setoid_rewrite clean_text_ok. naive_solver. Qed.
Lemma only_clean_text v c : (let* _ := text v c in Ok tt) = Ok tt <-> some_text v.
Proof. rewrite any_clean_text. tauto. Qed.
Lemma clean_pass o : is_pass o = true <-> o = "PASS".
Proof. apply String.eqb_eq. Qed.
Lemma when_pass o (m : result unit) (P : Prop) : (m = Ok tt <-> P) ->
  (if is_pass o then m else Ok tt) = Ok tt <-> (o = "PASS" -> P).
Proof. intros H. rewrite <- clean_pass. destruct (is_pass o); [rewrite H|]; naive_solver. Qed.
Lemma object_with_ok v c allowed (k : jobject -> result unit) Q : (forall d, k d = Ok tt <-> Q d) ->
  (let* d := obj v c in only_fields d allowed c ;;; k d) = Ok tt <-> object_with v allowed Q.
Proof.
  intros Hk. unfold object_with. rewrite bind_ok. setoid_rewrite clean_obj_ok. setoid_rewrite bind_ok_unit.
  setoid_rewrite clean_fields_ok. by setoid_rewrite Hk.
Qed.
(** A text field followed by a test of its membership. *)
Lemma clean_member v l c m (k : string -> result unit) : mem "" l = false ->
  (let* s := text v c in require (mem s l) m ;;; k s) = Ok tt <-> exists s, v = JStr s /\ In s l /\ k s = Ok tt.
Proof.
  intros Hl. rewrite bind_ok. setoid_rewrite clean_text_ok. setoid_rewrite bind_ok_unit. setoid_rewrite clean_require_ok.
  setoid_rewrite mem_In. split; [naive_solver|]. intros (s & -> & Hs & H). exists s.
  assert (s <> "") by (intros ->; apply mem_In in Hs; congruence). naive_solver.
Qed.
Lemma digest_ok v c m : (let* sha := text v c in require (re_fullmatch SHA_RE sha) m) = Ok tt <->
  exists sha, hex_digest v sha.
Proof.
  unfold hex_digest, SHA_RE. rewrite bind_ok. setoid_rewrite clean_text_ok. setoid_rewrite clean_require_ok.
  setoid_rewrite class_fullmatch. split.
  - intros (s & (-> & _) & Ha & Hl). exists s. by assert (len s = 64) by lia.
  - intros (s & -> & Hl & Ha). exists s. split; [split; [done | by intros ->]|]. split; [done | lia].
Qed.

(** A digest field that is then compared with the digest of a file. *)
Lemma file_digest_ok F v c m1 m2 p :
  (let* digest := text v c in
   require (re_fullmatch SHA_RE digest) m1 ;;;
   let* actual := sha_file F p in require (String.eqb actual digest) m2) = Ok tt <->
  exists sha, hex_digest v sha /\ file_digest F p sha.
Proof.
  unfold hex_digest, sha_file, SHA_RE. rewrite bind_ok. setoid_rewrite clean_text_ok. setoid_rewrite bind_ok_unit.
  setoid_rewrite clean_require_ok. setoid_rewrite class_fullmatch. setoid_rewrite bind_ok. setoid_rewrite reraise_ok.
  setoid_rewrite sha256_of_ok. setoid_rewrite clean_require_ok. setoid_rewrite String.eqb_eq. split.
  - intros (s & (-> & _) & (Ha & Hl) & actual & Hf & ->). exists s. by assert (len s = 64) by lia.
  - intros (s & (-> & Hl & Ha) & Hf). exists s. split; [split; [done | by intros ->]|].
    split; [split; [done | lia] | by exists s].
Qed.

Lemma clean_ref_ok F v role c p : validate_ref F v role c = Ok p <-> clean_ref F v role p.
Proof.
  unfold clean_ref, object_with, validate_ref. rewrite bind_ok. setoid_rewrite clean_obj_ok.
  setoid_rewrite bind_ok_unit. setoid_rewrite clean_fields_ok. f_equiv. intros d. do 2 apply and_iff_compat_l.
  pose proof (file_digest_ok F (get d "sha256") (c ++ ".sha256") (c ++ ".sha256 must be sha256 hex")) as Hf. split.
  - intros (q & Hq%clean_path_ok & H)%bind_ok.
    assert (H' : (let* digest := text (get d "sha256") (c ++ ".sha256") in
       require (re_fullmatch SHA_RE digest) (c ++ ".sha256 must be sha256 hex") ;;;
       let* actual := sha_file F q in require (String.eqb actual digest) (c ++ ".sha256 does not match " ++ path_str q)) = Ok tt
       /\ get d "schema_role" = JStr role /\ q = p).
    { apply bind_ok in H as (sha & Hs & [Hx H]%bind_ok_unit). apply bind_ok in H as (actual & Ha & [He H]%bind_ok_unit).
      apply bind_ok_unit in H as [Hr%clean_value_is [= <-]]. split; [|done]. apply bind_ok. exists sha. split; [done|].
      apply bind_ok_unit. split; [done|]. apply bind_ok. by exists actual. }
    destruct H' as (H1 & H2 & <-). by apply Hf in H1.
  - intros (Hp & H & Hr). apply bind_ok. exists p. rewrite clean_path_ok. split; [done|].
    apply (Hf (c ++ ".sha256 does not match " ++ path_str p) p) in H.
    apply bind_ok in H as (sha & Hs & [Hx H]%bind_ok_unit). apply bind_ok in H as (actual & Ha & He).
    apply bind_ok. exists sha. split; [done|]. apply bind_ok_unit. split; [done|]. apply bind_ok. exists actual.
    split; [done|]. apply bind_ok_unit. split; [done|]. apply bind_ok_unit. by rewrite clean_value_is.
Qed.

Lemma mode_iff outcome v :
  validate_mode v outcome = Ok tt <-> object_with v MODE_FIELDS (mode_ok outcome).
Proof.
  apply object_with_ok. intros d. unfold mode_ok.
  rewrite (clean_member _ _ _ _ (fun kind => if is_pass outcome then _ else Ok tt)) by done.
  f_equiv. intros kind. apply and_iff_compat_l. split.
  - intros [Hin H]. split; [done|]. intros ->. cbn in H. destruct Hin as [<-|[<-|[<-|[]]]]; cbn in H.
    + by apply digest_ok in H.
    + by apply only_clean_text in H.
    + by apply only_clean_text in H.
  - intros [Hin H]. split; [done|]. destruct (is_pass outcome) eqn:E; [|done].
    apply clean_pass in E. destruct (H E) as (H1 & H2 & H3). destruct Hin as [<-|[<-|[<-|[]]]]; cbn.
    + by apply digest_ok, H1.
    + by apply only_clean_text, H2.
    + by apply only_clean_text, H3.
Qed.

Lemma identity_iff v : validate_identity v = Ok tt <-> object_with v IDENTITY_FIELDS identity_ok.
Proof.
  apply object_with_ok. intros d. unfold identity_ok. rewrite !any_clean_text. do 2 apply and_iff_compat_l.
  assert (Hl : forall l, for_enum 0 l (fun index item =>
        let* _ := text item ("runner_identity.labels[" ++ str_nat index ++ "]") in Ok tt) = Ok tt <->
    exists ss, JList l = jstrs ss /\ Forall (fun s => s <> "") ss).
  { intros l. rewrite <- texts_iff. apply for_enum_forall. intros j x. rewrite only_clean_text. done. }
  destruct (get d "labels") as [| | | | |[|x l]|]; try (split; [discriminate | by intros (? & [=] & _)]).
  - split; [discriminate|]. intros (ss & E & Hne & _). by destruct ss.
  - rewrite Hl. split; intros (ss & E & H); exists ss; [|tauto]. split; [done|]. split; [by destruct ss | done].
Qed.

Lemma no_reuse_iff outcome v :
  validate_no_reuse v outcome = Ok tt <-> object_with v NO_REUSE_FIELDS (no_reuse_ok outcome).
Proof.
  apply object_with_ok. intros d. unfold no_reuse_ok.
  rewrite (clean_member _ _ _ _ (fun status => (if is_pass outcome then _ else Ok tt) ;;; _)) by done.
  f_equiv. intros status. do 2 apply and_iff_compat_l. rewrite bind_ok_unit, only_clean_text.
  rewrite (when_pass _ _ (status = "PASS" /\ exists previous current,
     get d "previous_runner_id" = JStr previous /\ previous <> ""
     /\ get d "current_runner_id" = JStr current /\ current <> "" /\ previous <> current)); [done|].
  rewrite bind_ok_unit, clean_require_ok, String.eqb_eq. apply and_iff_compat_l.
  rewrite bind_ok. setoid_rewrite clean_text_ok. setoid_rewrite bind_ok. setoid_rewrite clean_text_ok.
  setoid_rewrite clean_require_ok. setoid_rewrite negb_true_iff. setoid_rewrite String.eqb_neq. naive_solver.
Qed.

Lemma removal_iff F outcome ephemeral status v : validate_removal F v outcome ephemeral = Ok status <->
  object_with v REMOVAL_FIELDS (removal_ok F outcome (ephemeral = true) status).
Proof.
  unfold object_with, removal_ok, validate_removal. rewrite bind_ok. setoid_rewrite clean_obj_ok.
  setoid_rewrite bind_ok_unit. setoid_rewrite clean_fields_ok. f_equiv. intros d. do 2 apply and_iff_compat_l.
  assert (Hp : forall st m, (if is_pass outcome then
      require (String.eqb st "removed" || (ephemeral && String.eqb st "not_applicable")) m else Ok tt) = Ok tt <->
    (outcome = "PASS" -> st = "removed" \/ ephemeral = true /\ st = "not_applicable")).
  { intros st m. apply when_pass. by rewrite clean_require_ok, orb_true_iff, andb_true_iff, !String.eqb_eq. }
  assert (Hr : forall st, (if String.eqb st "removed" then
      let* _ := text (get d "removed_at") "removal_receipt.removed_at" in
      let* receipt_path := safe_path (get d "receipt_path") "removal_receipt.receipt_path" in
      let* digest := text (get d "sha256") "removal_receipt.sha256" in
      require (re_fullmatch SHA_RE digest) "removal_receipt.sha256 must be sha256 hex" ;;;
      let* actual := sha_file F receipt_path in
      require (String.eqb actual digest) ("removal_receipt.sha256 does not match " ++ path_str receipt_path)
    else Ok tt) = Ok tt <->
    (st = "removed" -> some_text (get d "removed_at") /\ exists p sha,
        line_path (get d "receipt_path") p /\ hex_digest (get d "sha256") sha /\ file_digest F p sha)).
  { intros st. destruct (String.eqb_spec st "removed") as [E|E]; [|naive_solver].
    rewrite any_clean_text, bind_ok. setoid_rewrite clean_path_ok. setoid_rewrite file_digest_ok. naive_solver. }
  split.
  - intros (st & [Hs _]%clean_text_ok & [Hin%clean_require_ok%mem_In H]%bind_ok_unit)%bind_ok.
    apply bind_ok_unit in H as [Hpass H]. rewrite Hp in Hpass. apply bind_ok_unit in H as [Hrem [= <-]].
    by rewrite Hr in Hrem.
  - intros (Hs & Hin & Hpass & Hrem). apply bind_ok. exists status. rewrite clean_text_ok.
    split; [split; [done | by intros ->; destruct Hin as [|[|[|[]]]]]|].
    apply bind_ok_unit. rewrite clean_require_ok, mem_In. split; [done|]. apply bind_ok_unit. rewrite Hp. split; [done|].
    apply bind_ok_unit. by rewrite Hr.
Qed.

Lemma removal_mode F o v s status :
  object_with v REMOVAL_FIELDS (removal_ok F o (py_eq s (JStr "ephemeral") = true) status) <->
  object_with v REMOVAL_FIELDS (removal_ok F o (s = JStr "ephemeral") status).
Proof. unfold object_with, removal_ok. by setoid_rewrite py_eq_str. Qed.
Lemma size_ok v m : require (match as_int v with
    | Some size => Z.ltb 0 size && Z.leb size 8192 | None => false end) m = Ok tt <->
  exists n, as_int v = Some n /\ (0 < n <= 8192)%Z.
Proof.
  rewrite clean_require_ok. destruct (as_int v) as [n|]; [|split; [discriminate | naive_solver]].
  rewrite andb_true_iff, Z.ltb_lt, Z.leb_le. naive_solver.
Qed.
Lemma same_ok v w m : require (py_eq v w) m = Ok tt <-> same v w.
Proof. apply clean_require_ok. Qed.
Lemma text_value v s c m : s <> "" -> (let* t := text v c in require (String.eqb t s) m) = Ok tt <-> v = JStr s.
Proof.
  intros Hs. rewrite bind_ok. setoid_rewrite clean_text_ok. setoid_rewrite clean_require_ok.
  setoid_rewrite String.eqb_eq. naive_solver.
Qed.
Lemma text_value_then v s c m {B} (k : result B) x : s <> "" ->
  (let* t := text v c in require (String.eqb t s) m ;;; k) = Ok x <-> v = JStr s /\ k = Ok x.
Proof.
  intros Hs. rewrite bind_ok. setoid_rewrite clean_text_ok. setoid_rewrite bind_ok_unit.
  setoid_rewrite clean_require_ok. setoid_rewrite String.eqb_eq. naive_solver.
Qed.
Lemma digest_then v c m {B} (k : result B) x :
  (let* sha := text v c in require (re_fullmatch SHA_RE sha) m ;;; k) = Ok x <->
  (exists sha, hex_digest v sha) /\ k = Ok x.
Proof.
  rewrite <- (digest_ok v c m), !bind_ok. setoid_rewrite bind_ok_unit. naive_solver.
Qed.

Lemma registration_iff F v data mode outcome status :
  get data "proof_outcome" = JStr outcome -> get data "cleanliness_mode" = JDict mode ->
  validate_ephemeral_registration F v data status = Ok tt <-> registration_ok F data mode outcome status v.
Proof.
  intros Ho Hm. unfold validate_ephemeral_registration, registration_ok. rewrite Hm, Ho. cbn [obj bind].
  assert (He : py_eq (JStr outcome) (JStr "PASS") && py_eq (get mode "kind") (JStr "ephemeral")
      && String.eqb status "not_applicable" = true <->
    outcome = "PASS" /\ get mode "kind" = JStr "ephemeral" /\ status = "not_applicable").
  { rewrite !andb_true_iff, !py_eq_str, String.eqb_eq. naive_solver. }
  destruct (_ && _ && _); cbn [negb].
  - assert (Hyes := proj1 He eq_refl). split.
    + intros (p & Hp%clean_ref_ok & (receipt & Hr & [Hf%clean_fields_ok [Hs%clean_value_is H]%bind_ok_unit]%bind_ok_unit)%bind_ok)%bind_ok.
      split; [intros _ | by intros Hno]. apply bind_ok in H as (identity & Hi%clean_obj_ok & H).
      apply bind_ok in H as (no_reuse & Hn%clean_obj_ok & H). exists p, receipt, identity, no_reuse.
      do 4 (split; [done|]). unfold receipt_ok. do 2 (split; [done|]).
      apply bind_ok_unit in H as [E1%same_ok H]. apply bind_ok_unit in H as [E2%same_ok H].
      apply bind_ok_unit in H as [E3%same_ok H]. apply bind_ok_unit in H as [E4%clean_require_ok%is_true_iff H].
      apply bind_ok_unit in H as [E5%same_ok H]. apply bind_ok_unit in H as [[E6 E7]%clean_require_ok%andb_true_iff H].
      apply bind_ok_unit in H as [E8%same_ok H]. apply text_value_then in H as [E9 H]; [|done].
      apply digest_then in H as [E10 H]. apply bind_ok_unit in H as [E11%size_ok H].
      by apply bind_ok_unit in H as [E12%clean_false [E13%clean_false E14%clean_false]%bind_ok_unit].
    + intros [H _]. destruct (H Hyes) as (p & receipt & identity & no_reuse & Hp & Hr & Hi & Hn & Hf & Hs & H1 & H2 & H3
        & H4 & H5 & (H6 & H7) & H8 & H9 & H10 & H11 & H12 & H13 & H14).
      apply bind_ok. exists p. rewrite clean_ref_ok. split; [done|]. apply bind_ok. exists receipt. split; [done|].
      apply bind_ok_unit. rewrite clean_fields_ok. split; [done|]. apply bind_ok_unit. rewrite clean_value_is. split; [done|].
      apply bind_ok. exists identity. rewrite clean_obj_ok. split; [done|].
      apply bind_ok. exists no_reuse. rewrite clean_obj_ok. split; [done|].
      do 3 (apply bind_ok_unit; rewrite same_ok; split; [done|]).
      apply bind_ok_unit. rewrite clean_require_ok, is_true_iff. split; [done|].
      apply bind_ok_unit. rewrite same_ok. split; [done|].
      apply bind_ok_unit. rewrite clean_require_ok, andb_true_iff. split; [done|].
      apply bind_ok_unit. rewrite same_ok. split; [done|]. apply text_value_then; [done|]. split; [done|].
      apply digest_then. split; [done|]. apply bind_ok_unit. rewrite size_ok. split; [done|].
      apply bind_ok_unit. rewrite clean_false. split; [done|]. apply bind_ok_unit. by rewrite !clean_false.
  - assert (Hno : ~ (outcome = "PASS" /\ get mode "kind" = JStr "ephemeral" /\ status = "not_applicable"))
      by (intros H; apply He in H; done).
    rewrite clean_require_ok. assert (Hv : is_none v = true <-> v = JNull) by (destruct v; split; (done || congruence)).
    rewrite Hv. naive_solver.
Qed.

(** * Properties *)

(** C15: the cleanliness check accepts a proof exactly when the schema file has the id of the contract and the proof is an object of its fields without claims whose outcome is PASS, SKIP or REFUSE, that identifies the runner, records how it is clean, that it was not reused and what became of it, and references a review proof and a substrate proof by safe path, digest and role; a PASS names the run, hashes its jit configuration or names its instance or boot, shows two different runner ids, and either holds a removal receipt that exists with its digest or, for an ephemeral runner only, references a registration receipt that repeats the identity, the labels, the run and the evidence of the proof. *)
Theorem runner_cleanliness_iff F p :
  validate_proof F p = Ok tt <->
  (exists schema, RunnerSubstrate.load_json_object F SCHEMA_PATH = Ok schema /\ get schema "$id" = JStr SCHEMA)
  /\ exists d outcome, RunnerSubstrate.load_json_object F p = Ok d /\ cleanliness_ok F d outcome.
Proof.
  unfold validate_proof, validate_schema_file. rewrite bind_ok_unit, bind_ok. setoid_rewrite clean_value_is.
  apply and_iff_compat_l. split.
  - intros (d & Hd & [Hf%clean_fields_ok [Hs%clean_value_is H]%bind_ok_unit]%bind_ok_unit)%bind_ok.
    apply bind_ok in H as (outcome & [Ho _]%clean_text_ok & [Hin%clean_require_ok%mem_In H]%bind_ok_unit).
    do 3 (apply bind_ok_unit in H as [?%clean_false H]).
    apply bind_ok in H as (url & [Hu Hune]%clean_text_ok & [Hurl%clean_require_ok H]%bind_ok_unit).
    apply bind_ok_unit in H as [Hid%identity_iff H]. apply bind_ok in H as (mode & Hm%clean_obj_ok & H).
    apply bind_ok_unit in H as [(mode' & [= <-] & Hmf & Hmode)%mode_iff H]. apply bind_ok_unit in H as [Hn%no_reuse_iff H].
    apply bind_ok in H as (status & Hrem%removal_iff & H). apply bind_ok_unit in H as [Hreg H].
    apply (registration_iff F _ d mode outcome status Ho Hm) in Hreg.
    apply bind_ok in H as (rp & Hrev%clean_ref_ok & (sp & Hsub%clean_ref_ok & _)%bind_ok).
    exists d, outcome. split; [done|]. split; try done; [| |by exists rp|by exists sp].
    + exists url. do 2 (split; [done|]). rewrite <- clean_pass. intros Hp. by rewrite Hp in Hurl.
    + exists mode, status. repeat (split; [done|]). split; [|done]. by apply removal_mode.
  - intros (d & outcome & Hd & [Hf Hs [Ho Hin] (H1 & H2 & H3) (url & Hu & Hune & Hurl) Hid Hn
      (mode & status & Hm & Hmf & Hmode & Hrem & Hreg) (rp & Hrev) (sp & Hsub)]).
    apply bind_ok. exists d. split; [done|]. apply bind_ok_unit. rewrite clean_fields_ok. split; [done|].
    apply bind_ok_unit. rewrite clean_value_is. split; [done|]. apply bind_ok. exists outcome. rewrite clean_text_ok.
    split; [split; [done | by intros ->; destruct Hin as [|[|[|[]]]]]|].
    apply bind_ok_unit. rewrite clean_require_ok, mem_In. split; [done|].
    do 3 (apply bind_ok_unit; rewrite clean_false; split; [done|]). apply bind_ok. exists url. rewrite clean_text_ok.
    split; [done|]. apply bind_ok_unit. rewrite clean_require_ok. rewrite <- clean_pass in Hurl.
    split; [destruct (is_pass outcome); auto|]. apply bind_ok_unit. rewrite identity_iff. split; [done|].
    apply bind_ok. exists mode. rewrite clean_obj_ok. split; [done|].
    apply bind_ok_unit. rewrite mode_iff. split; [by exists mode|]. apply bind_ok_unit. rewrite no_reuse_iff. split; [done|].
    apply bind_ok. exists status. rewrite removal_iff, removal_mode. split; [done|].
    apply bind_ok_unit. rewrite (registration_iff F _ d mode outcome status Ho Hm). split; [done|].
    apply bind_ok. exists rp. rewrite clean_ref_ok. split; [done|]. apply bind_ok. exists sp. by rewrite clean_ref_ok.
Qed.
