(* ===== verification/EvidenceManifest.v ===== *)
(** EvidenceManifest: qa/evidence_manifest_check.py, the manifest of a manual VM
    proof.  Every artifact it references is checked against its digest, scanned
    for private keys, private texts and claims, and the review proof among them
    is given to ProtectedReview.  [load_json] of the module is
    [BundleCompare.load_json].  The git command and the self-test process are
    parameters. *)
From S2P Require Import Prelude PyStr PyRe PyFloat PyJson Sha256 PyFs PyMain.
From S2P Require Import RuntimeSampleCommon MatrixModel BundleCompare ProtectedReview.

Local Open Scope string_scope.

Definition SCHEMA : string := "zig-scheduler/evidence-manifest/v1".
Definition VM_MARKER : string := "/run/zig-scheduler-vm-lab.marker".
Definition SHA_RE : regex := rseq [RBol; rrep 64 0 (RChar is_hex_lower); REol].
Definition AUDIT_RE : regex := rseq [
  RBol; rlit "AUD-"; rrep 8 0 rdigit; rlit "T"; rrep 6 0 rdigit; rlit "Z-"; rplus (RChar is_ident_char); REol].
Definition ROLLBACK_RE : regex := rseq [
  RBol; rlit "RB-"; RChar is_alpha09; rrep 0 127 (RChar is_ident_char); REol].
Definition TUPLE_RE : regex := rseq [
  RBol; rlit "linux-";
  ralt [
    rseq [rlit "6."; ralt [rseq [rlit "1"; RChar (between 50 57)]; rseq [RChar (between 50 57); rdigit]];
          ropt (rseq [rlit "."; rplus rdigit])];
    rseq [rlit "7.1."; ralt [rlit "1-2"; rlit "2-3"]; rlit "-cachyos"]];
  rlit "-x86_64-sched_ext-bpf-bpf_jit-btf-vm_lab_only"; REol].
Definition FIELDS : list string := [
  "schema"; "outcome"; "audit_id"; "rollback_id"; "vm_marker"; "supported_tuple"; "bpf_metadata_or_skip";
  "matrix_manifest"; "daemon_events"; "runner_substrate"; "runner_cleanliness"; "artifacts";
  "benchmark_provenance"; "privacy_scan"; "attestation"; "required_sources"; "host_mutation"; "release_eligible";
  "production_capacity_claim"].
Definition REF_FIELDS : list string := ["path"; "sha256"; "schema_role"].
Definition MARKER_FIELDS : list string := ["path"; "present"; "checked_by"].
Definition BENCHMARK_NA_FIELDS : list string := ["status"; "reason"; "applies_to_outcomes"].
Definition PRIVACY_FIELDS : list string := ["status"; "private_fields_found"; "artifact_paths"].
Definition ATTEST_FIELDS : list string := ["status"; "workflow_uses"; "verify_command"; "retention_days"].
Definition REQUIRED_ROLES : list string := [
  "matrix-row"; "rollback-proof"; "cleanup-proof"; "host-refusal-proof"; "privacy-scan";
  "static-verification-log"; "runner-substrate-proof"; "runner-cleanliness-proof"; "protected-environment-review"].
Definition PROTECTED_REVIEW_ROLE : string := "protected-environment-review".
Definition BPF_ROLES : list string := ["bpf-metadata"; "bpf-skip-json"].
Definition ATTEST_STATUSES : list string := ["pending-post-run-github-attestation"; "verified-by-operator"].
Definition OUTCOMES : list string := ["PASS"; "SKIP"; "REFUSE"; "BLOCKED"].
Definition BENCHMARK_NA_OUTCOMES : list string := ["SKIP"; "REFUSE"; "BLOCKED"].
Definition FORBIDDEN_PRIVATE_KEYS : list string := [
  "access_token"; "apikey"; "api_key"; "aws_secret"; "command_line"; "env"; "environment"; "password"; "raw_debug";
  "secret"; "token"].
Definition FORBIDDEN_PRIVATE_KEY_PATTERNS : list (list string) := map private_key_tokens FORBIDDEN_PRIVATE_KEYS.
Definition PRIVATE_SAFE_KEYS : list string := ["protected_environment"].
Definition PROTECTED_REVIEW_PRIVATE_SAFE_KEYS : list string := ["environment_id"; "environment_name"].
Definition TEXT_ARTIFACT_ROLES : list string := ["static-verification-log"].
Definition TEXT_ARTIFACT_SUFFIXES : list string := [".log"; ".txt"; ".md"; ".out"; ".err"].
Definition MAX_TEXT_ARTIFACT_BYTES : N := (1024 * 1024)%N.

Record Args : Set := MkArgs { manifest : option path; schema : path; source_root : path; self_test_arg : bool }.

Definition fail {A} (m : string) : result A := raise ManifestError m.
Definition require (condition : bool) (message : string) : result unit := ensure condition ManifestError message.

(** The loop of [parse_args] over the arguments that are left. *)
Fixpoint parse_options (argv : list string) (args : Args) : result Args :=
  match argv with
  | [] => Ok args
  | arg :: rest =>
      if String.eqb arg "--self-test" then
        parse_options rest (MkArgs (manifest args) (schema args) (source_root args) true)
      else if String.eqb arg "--manifest" then
        match rest with
        | [] => fail "--manifest requires a path"
        | p :: rest => parse_options rest (MkArgs (Some (Path p)) (schema args) (source_root args) (self_test_arg args))
        end
      else if String.eqb arg "--schema" then
        match rest with
        | [] => fail "--schema requires a path"
        | p :: rest => parse_options rest (MkArgs (manifest args) (Path p) (source_root args) (self_test_arg args))
        end
      else if String.eqb arg "--source-root" then
        match rest with
        | [] => fail "--source-root requires a path"
        | p :: rest => parse_options rest (MkArgs (manifest args) (schema args) (Path p) (self_test_arg args))
        end
      else fail ("usage: evidence_manifest_check.py --manifest <path> [--schema <path>] [--source-root <repo>] | "
                 ++ "--self-test [--schema <path>] [--source-root <repo>]")
  end.

Definition parse_args (cwd : path) (argv : list string) : result Args :=
  let* args := parse_options argv
    (MkArgs None (Path "schemas/control/evidence-manifest.v1.schema.json") cwd false) in
  if self_test_arg args then
    match manifest args with
    | Some _ => fail "--self-test cannot be combined with --manifest"
    | None => Ok args
    end
  else match manifest args with
       | None => fail "--manifest is required"
       | Some _ => Ok args
       end.

Definition only_fields (row : jobject) (allowed : list string) (context : string) : result unit :=
  let extra := sorted (set_diff (keys row) allowed) in
  require (is_empty extra) (context ++ " has unexpected fields: " ++ join ", " extra).

Definition text (value : json) (context : string) : result string :=
  match value with
  | JStr s => if String.eqb s "" then fail (context ++ " must be non-empty text") else Ok s
  | _ => fail (context ++ " must be non-empty text")
  end.

Definition safe_path (value : json) (context : string) : result path :=
  let* raw := text value context in
  require (negb (is_absolute (Path raw)) && negb (mem ".." (parts (Path raw))))
    (context ++ " must be relative and non-traversing: " ++ raw) ;;;
  Ok (Path raw).

Definition private_key_is_safe (key role : string) : bool :=
  mem key PRIVATE_SAFE_KEYS
  || (String.eqb role PROTECTED_REVIEW_ROLE && mem key PROTECTED_REVIEW_PRIVATE_SAFE_KEYS).

Definition reject_private_text (value context : string) : result unit :=
  require (negb (private_text_contains value)) ("privacy-unsafe text in referenced artifact: " ++ context).

Fixpoint reject_claim_value (value : json) (context role : string) {struct value} : result unit :=
  match value with
  | JDict d =>
      (fix items (d : jobject) : result unit :=
         match d with
         | [] => Ok tt
         | (key, child) :: d =>
             require (negb (negb (private_key_is_safe key role)
                            && private_key_has_pattern key FORBIDDEN_PRIVATE_KEY_PATTERNS))
               ("privacy-unsafe key in referenced artifact: " ++ context ++ "." ++ key) ;;;
             (if String.eqb key "host_mutation"
              then require (is_false child) (context ++ ".host_mutation must be false") else Ok tt) ;;;
             (if mem key ["release_eligible"; "production_capacity_claim"]
              then require (is_false child) (context ++ "." ++ key ++ " must be false") else Ok tt) ;;;
             reject_claim_value child (context ++ "." ++ key) role ;;;
             items d
         end) d
  | JList l =>
      (fix elems (index : nat) (l : list json) : result unit :=
         match l with
         | [] => Ok tt
         | child :: l =>
             reject_claim_value child (context ++ "[" ++ str_nat index ++ "]") role ;;; elems (S index) l
         end) 0 l
  | JStr s => reject_private_text s context
  | _ => Ok tt
  end.

Definition validate_benchmark_not_applicable (value : jobject) (outcome : string) : result unit :=
  only_fields value BENCHMARK_NA_FIELDS "benchmark_provenance" ;;;
  require (py_eq (get value "status") (JStr "not_applicable")) "benchmark_provenance.status must be not_applicable" ;;;
  require (mem outcome BENCHMARK_NA_OUTCOMES)
    "benchmark_provenance not_applicable is only valid for SKIP/REFUSE/BLOCKED" ;;;
  let* reason := text (get value "reason") "benchmark_provenance.reason" in
  reject_private_text reason "benchmark_provenance.reason" ;;;
  match get value "applies_to_outcomes" with
  | JList ((_ :: _) as applies_to) =>
      for_enum 0 applies_to (fun index item =>
        let* outcome_value := text item ("benchmark_provenance.applies_to_outcomes[" ++ str_nat index ++ "]") in
        require (mem outcome_value BENCHMARK_NA_OUTCOMES)
          ("benchmark_provenance.applies_to_outcomes[" ++ str_nat index ++ "] is unsupported")) ;;;
      require (existsb (fun item => py_eq item (JStr outcome)) applies_to)
        "benchmark_provenance.applies_to_outcomes must include the manifest outcome"
  | _ => fail "benchmark_provenance.applies_to_outcomes must be a non-empty list"
  end.

Definition validate_privacy (value : json) : result unit :=
  match value with
  | JDict d =>
      only_fields d PRIVACY_FIELDS "privacy_scan" ;;;
      require (py_eq (get d "status") (JStr "PASS") && is_false (get d "private_fields_found"))
        "privacy scan must pass without private fields" ;;;
      match get d "artifact_paths" with
      | JList ((_ :: _) as paths) =>
          for_enum 0 paths (fun index item =>
            let here := "privacy_scan.artifact_paths[" ++ str_nat index ++ "]" in
            let* raw := text item here in
            reject_private_text raw here ;;;
            let* _ := safe_path (JStr raw) here in Ok tt)
      | _ => fail "privacy_scan.artifact_paths must be non-empty"
      end
  | _ => fail "privacy_scan must be an object"
  end.

Definition validate_attestation (value : json) : result unit :=
  match value with
  | JDict d =>
      only_fields d ATTEST_FIELDS "attestation" ;;;
      let* status := text (get d "status") "attestation.status" in
      require (mem status ATTEST_STATUSES) "attestation.status is unsupported" ;;;
      let* workflow := text (get d "workflow_uses") "attestation.workflow_uses" in
      require (contains "actions/attest-build-provenance" workflow) "attestation workflow action is missing" ;;;
      let* verify := text (get d "verify_command") "attestation.verify_command" in
      require (contains "gh attestation verify" verify) "attestation verify command is missing" ;;;
      match as_int (get d "retention_days") with
      | Some n => if Z.leb n 0 then fail "attestation.retention_days must be positive" else Ok tt
      | None => fail "attestation.retention_days must be positive"
      end
  | _ => fail "attestation must be an object"
  end.

Section Files.
Variable F : fs.
Variable git_ls_files : path -> result completed.
Variable run_selftest : path -> path -> result Z.

Definition file_sha (p : path) : result string :=
  reraise FileNotFoundError ManifestError (fun _ => "missing referenced artifact: " ++ path_str p) (sha256_of F p).

Definition validate_ref (value : json) (context : string) : result string :=
  match value with
  | JDict d =>
      only_fields d REF_FIELDS context ;;;
      let* p := safe_path (get d "path") (context ++ ".path") in
      let* digest := text (get d "sha256") (context ++ ".sha256") in
      require (re_fullmatch SHA_RE digest) (context ++ ".sha256 must be sha256 hex") ;;;
      let* actual := file_sha p in
      require (String.eqb actual digest) (context ++ ".sha256 does not match " ++ path_str p) ;;;
      text (get d "schema_role") (context ++ ".schema_role")
  | _ => fail (context ++ " must be an artifact reference")
  end.

Definition reject_text_artifact (p : path) (role : string) : result unit :=
  if negb (mem role TEXT_ARTIFACT_ROLES) && negb (mem (suffix p) TEXT_ARTIFACT_SUFFIXES) then Ok tt else
  let* raw := reraise FileNotFoundError ManifestError
    (fun _ => "missing referenced artifact: " ++ path_str p) (read_bytes F p) in
  require (N.leb (N.of_nat (len raw)) MAX_TEXT_ARTIFACT_BYTES)
    ("referenced text artifact is too large to privacy-scan: " ++ path_str p) ;;;
  let* text_value := reraise UnicodeDecodeError ManifestError
    (fun _ => "referenced text artifact is not UTF-8: " ++ path_str p) (decode_utf8 raw) in
  reject_private_text text_value (path_str p).

Definition reject_claims (p : path) (role : string) : result unit :=
  if String.eqb (suffix p) ".json" then
    let* d := BundleCompare.load_json F p in reject_claim_value (JDict d) (path_str p) role
  else if negb (String.eqb (suffix p) ".jsonl") then reject_text_artifact p role
  else
    let* text := read_text F p in
    for_enum 1 (splitlines text) (fun line_no line =>
      if String.eqb (strip line) "" then Ok tt else
      let* value := reraise JSONDecodeError ManifestError
        (fun exc => "invalid referenced JSON " ++ path_str p ++ ":" ++ str_nat line_no ++ ": " ++ exn_str exc)
        (loads line) in
      reject_claim_value value (path_str p ++ ":" ++ str_nat line_no) role).

Definition tracked_sources (paths : json) (source_root : path) : result unit :=
  match paths with
  | JList ((_ :: _) as paths) =>
      let* result := bind (git_ls_files source_root) in_text in
      if negb (Z.eqb (returncode result) 0) then fail ("git ls-files failed: " ++ strip (stderr result)) else
      let tracked := splitlines (stdout result) in
      for_enum 0 paths (fun index item =>
        let* p := safe_path item ("required_sources[" ++ str_nat index ++ "]") in
        require (mem (path_str p) tracked) ("required source is not tracked: " ++ path_str p))
  | _ => fail "required_sources must be a non-empty list"
  end.

(** A reference of the manifest: its role, and the path it is scanned at. *)
Definition collect_ref (value : json) (context : string) : result (path * string) :=
  let* role := validate_ref value context in
  match value with
  | JDict d => let* p := safe_path (get d "path") (context ++ ".path") in Ok (p, role)
  | _ => fail (context ++ " must be an artifact reference")
  end.

Fixpoint collect_refs (field : string) (index : nat) (items : list json) : result (list (path * string)) :=
  match items with
  | [] => Ok []
  | item :: items =>
      let* ref := collect_ref item (field ++ "[" ++ str_nat index ++ "]") in
      let* refs := collect_refs field (S index) items in
      Ok (ref :: refs)
  end.

Fixpoint collect_benchmark (index : nat) (items : list json) : result (list (path * string)) :=
  match items with
  | [] => Ok []
  | item :: items =>
      let here := "benchmark_provenance[" ++ str_nat index ++ "]" in
      let* role := validate_ref item here in
      require (String.eqb role "benchmark-provenance") (here ++ " must use benchmark-provenance role") ;;;
      match item with
      | JDict d =>
          let* p := safe_path (get d "path") (here ++ ".path") in
          let* refs := collect_benchmark (S index) items in
          Ok ((p, "benchmark-provenance") :: refs)
      | _ => fail (here ++ " must be an artifact reference")
      end
  end.

(** The last loop: a review proof is validated as such, every artifact is scanned. *)
Definition check_artifact (ref : path * string) : result unit :=
  let '(p, role) := ref in
  (if String.eqb role PROTECTED_REVIEW_ROLE
   then reraise ProtectedReviewError ManifestError
     (fun exc => "invalid protected-environment-review artifact " ++ path_str p ++ ": " ++ exn_str exc)
     (ProtectedReview.validate_proof F p ProtectedReview.DEFAULT_SCHEMA)
   else Ok tt) ;;;
  reject_claims p role.

Definition validate_manifest (p schema_path source_root : path) : result unit :=
  let* schema := BundleCompare.load_json F schema_path in
  require (py_eq (get schema "$id") (JStr SCHEMA)) "evidence manifest schema $id mismatch" ;;;
  let* data := BundleCompare.load_json F p in
  only_fields data FIELDS (path_str p) ;;;
  require (py_eq (get data "schema") (JStr SCHEMA)) "unsupported evidence manifest schema" ;;;
  let* outcome := text (get data "outcome") "outcome" in
  require (mem outcome OUTCOMES) "outcome is unsupported" ;;;
  require (is_false (get data "host_mutation")) "manifest.host_mutation must be false" ;;;
  require (is_false (get data "release_eligible")) "manifest.release_eligible must be false" ;;;
  require (is_false (get data "production_capacity_claim")) "manifest.production_capacity_claim must be false" ;;;
  let* audit_id := text (get data "audit_id") "audit_id" in
  require (re_fullmatch AUDIT_RE audit_id) "audit_id is malformed" ;;;
  let* rollback_id := text (get data "rollback_id") "rollback_id" in
  require (re_fullmatch ROLLBACK_RE rollback_id) "rollback_id is malformed" ;;;
  let* tuple := text (get data "supported_tuple") "supported_tuple" in
  require (re_fullmatch TUPLE_RE tuple) "supported_tuple is unsupported" ;;;
  match get data "vm_marker" with
  | JDict marker =>
      only_fields marker MARKER_FIELDS "vm_marker" ;;;
      require (py_eq (get marker "path") (JStr VM_MARKER)) "VM marker path is invalid" ;;;
      require (is_bool (get marker "present")) "vm_marker.present must be a boolean" ;;;
      (if String.eqb outcome "PASS" then require (is_true (get marker "present")) "VM marker proof is missing"
       else Ok tt) ;;;
      let* fixed := map_m (fun field => collect_ref (get data field) field)
        ["matrix_manifest"; "daemon_events"; "bpf_metadata_or_skip"; "runner_substrate"; "runner_cleanliness"] in
      require (existsb (fun ref => mem (snd ref) BPF_ROLES) fixed) "BPF metadata or SKIP JSON role is required" ;;;
      match get data "artifacts" with
      | JList ((_ :: _) as artifacts) =>
          let* named := collect_refs "artifacts" 0 artifacts in
          let missing := sorted (set_diff REQUIRED_ROLES (map snd (fixed ++ named))) in
          require (is_empty missing) ("missing required artifact role(s): " ++ join ", " missing) ;;;
          let* measured :=
            match get data "benchmark_provenance" with
            | JList benchmark =>
                require (negb (is_empty benchmark)) "benchmark_provenance must be a non-empty list" ;;;
                collect_benchmark 0 benchmark
            | JDict benchmark => validate_benchmark_not_applicable benchmark outcome ;;; Ok []
            | _ => fail "benchmark_provenance must be artifact references or a not-applicable object"
            end in
          validate_privacy (get data "privacy_scan") ;;;
          validate_attestation (get data "attestation") ;;;
          tracked_sources (get data "required_sources") source_root ;;;
          for_each (fixed ++ named ++ measured)%list check_artifact
      | _ => fail "artifacts must be a non-empty list"
      end
  | _ => fail "vm_marker must be an object"
  end.

Definition self_test (schema source_root : path) : result unit :=
  let* rc := run_selftest schema source_root in
  require (Z.eqb rc 0) ("evidence manifest self-test failed with rc=" ++ str_Z rc).

Definition run (argv : list string) : result (list string) :=
  let* args := parse_args (fs_resolve F (Path ".")) argv in
  if self_test_arg args then self_test (schema args) (source_root args) ;;; Ok []
  else match manifest args with
       | Some p =>
           validate_manifest p (schema args) (source_root args) ;;;
           Ok ["PASS evidence manifest: " ++ path_str p]
       | None => Ok []
       end.

Definition main (argv : list string) : exit := run_main (is_class ManifestError) "FAIL evidence manifest" (run argv).
End Files.

(** * Specification *)

(** A key is private when a forbidden key occurs in it as words and it is not
    one of the safe keys; claims are false. *)
Definition unclaimed_entry (role key : string) (child : json) : Prop :=
  (private_key_is_safe key role = true \/ private_key_has_pattern key FORBIDDEN_PRIVATE_KEY_PATTERNS = false)
  /\ (In key ["host_mutation"; "release_eligible"; "production_capacity_claim"] -> child = JBool false).
Definition claim_clean (role : string) : json -> Prop := CleanAt (fun _ => True) (unclaimed_entry role) public_text.

(** What the scan finds in the file of an artifact, by its suffix and role. *)
Definition scanned (F : fs) (p : path) (role : string) : Prop :=
  if String.eqb (suffix p) ".json" then
    exists d, BundleCompare.load_json F p = Ok d /\ claim_clean role (JDict d)
  else if String.eqb (suffix p) ".jsonl" then
    exists t, read_text F p = Ok t
      /\ Forall (fun line => exists v, loads line = Ok v /\ claim_clean role v) (content_lines t)
  else In role TEXT_ARTIFACT_ROLES \/ In (suffix p) TEXT_ARTIFACT_SUFFIXES ->
    exists bytes t, read_bytes F p = Ok bytes /\ (N.of_nat (len bytes) <= MAX_TEXT_ARTIFACT_BYTES)%N
      /\ decode_utf8 bytes = Ok t /\ public_text t.

(** A reference: a safe path to a file with the recorded digest, and a role. *)
Definition names_artifact (F : fs) (v : json) (ref : path * string) : Prop :=
  exists d s digest, v = JDict d /\ has_only d REF_FIELDS /\ safe_path_text (get d "path") s /\ fst ref = Path s
    /\ get d "sha256" = JStr digest /\ len digest = 64 /\ all_chars is_hex_lower digest = true
    /\ file_digest F (fst ref) digest /\ get d "schema_role" = JStr (snd ref) /\ snd ref <> "".

Definition artifact_ok (F : fs) (ref : path * string) : Prop :=
  (snd ref = PROTECTED_REVIEW_ROLE -> accepted F (fst ref) ProtectedReview.DEFAULT_SCHEMA)
  /\ scanned F (fst ref) (snd ref).

Definition text_with (v : json) (Q : string -> Prop) : Prop := exists s, v = JStr s /\ s <> "" /\ Q s.
Definition texts_with (v : json) (Q : string -> Prop) : Prop :=
  exists ss, v = jstrs ss /\ ss <> [] /\ Forall (fun s => s <> "" /\ Q s) ss.

Definition not_applicable (b : jobject) (outcome : string) : Prop :=
  has_only b BENCHMARK_NA_FIELDS /\ get b "status" = JStr "not_applicable" /\ In outcome BENCHMARK_NA_OUTCOMES
  /\ text_with (get b "reason") public_text
  /\ exists outs, get b "applies_to_outcomes" = jstrs outs /\ In outcome outs
       /\ Forall (fun o => In o BENCHMARK_NA_OUTCOMES) outs.

Definition benchmark_ok (F : fs) (v : json) (outcome : string) (measured : list (path * string)) : Prop :=
  (exists l, v = JList l /\ l <> []
     /\ Forall2 (fun v ref => names_artifact F v ref /\ snd ref = "benchmark-provenance") l measured)
  \/ measured = [] /\ exists b, v = JDict b /\ not_applicable b outcome.

Definition privacy_ok (v : json) : Prop :=
  exists d, v = JDict d /\ has_only d PRIVACY_FIELDS /\ get d "status" = JStr "PASS"
    /\ get d "private_fields_found" = JBool false
    /\ texts_with (get d "artifact_paths") (fun s => public_text s /\ plain_path (Path s)).

(** The retention is a positive number; Python counts [True] as 1. *)
Definition attestation_ok (v : json) : Prop :=
  exists d, v = JDict d /\ has_only d ATTEST_FIELDS
    /\ text_with (get d "status") (fun s => In s ATTEST_STATUSES)
    /\ text_with (get d "workflow_uses") (fun s => contains "actions/attest-build-provenance" s = true)
    /\ text_with (get d "verify_command") (fun s => contains "gh attestation verify" s = true)
    /\ exists n, as_int (get d "retention_days") = Some n /\ (0 < n)%Z.

Definition sources_ok (git : path -> result completed) (root : path) (v : json) : Prop :=
  exists listing, bind (git root) in_text = Ok listing /\ returncode listing = 0%Z
    /\ texts_with v (fun s => plain_path (Path s) /\ In (path_str (Path s)) (splitlines (stdout listing))).

Definition marker_ok (v : json) (outcome : string) : Prop :=
  exists d present, v = JDict d /\ has_only d MARKER_FIELDS /\ get d "path" = JStr VM_MARKER
    /\ get d "present" = JBool present /\ (outcome = "PASS" -> present = true).

Definition FIXED_REFS : list string :=
  ["matrix_manifest"; "daemon_events"; "bpf_metadata_or_skip"; "runner_substrate"; "runner_cleanliness"].

Definition references_ok (F : fs) (d : jobject) (outcome : string) : Prop :=
  exists fixed named measured artifacts,
    Forall2 (fun field ref => names_artifact F (get d field) ref) FIXED_REFS fixed
    /\ Exists (fun ref => In (snd ref) BPF_ROLES) fixed
    /\ get d "artifacts" = JList artifacts /\ artifacts <> [] /\ Forall2 (names_artifact F) artifacts named
    /\ (forall role, In role REQUIRED_ROLES -> In role (map snd (fixed ++ named)))
    /\ benchmark_ok F (get d "benchmark_provenance") outcome measured
    /\ Forall (artifact_ok F) (fixed ++ named ++ measured)%list.

Record evidence_ok (F : fs) (git : path -> result completed) (root : path) (d : jobject) (outcome : string) : Prop := {
  ev_fields : has_only d FIELDS;
  ev_schema : get d "schema" = JStr SCHEMA;
  ev_outcome : get d "outcome" = JStr outcome /\ In outcome OUTCOMES;
  ev_no_claims : get d "host_mutation" = JBool false /\ get d "release_eligible" = JBool false
    /\ get d "production_capacity_claim" = JBool false;
  ev_audit : text_with (get d "audit_id") (fun s => re_fullmatch AUDIT_RE s = true);
  ev_rollback : text_with (get d "rollback_id") (fun s => re_fullmatch ROLLBACK_RE s = true);
  ev_tuple : text_with (get d "supported_tuple") (fun s => re_fullmatch TUPLE_RE s = true);
  ev_marker : marker_ok (get d "vm_marker") outcome;
  ev_references : references_ok F d outcome;
  ev_privacy : privacy_ok (get d "privacy_scan");
  ev_attestation : attestation_ok (get d "attestation");
  ev_sources : sources_ok git root (get d "required_sources");
}.

(** * Lemmas *)
Lemma evidence_require_ok c m u : require c m = Ok u <-> c = true.
Proof. apply ensure_ok. Qed.
Lemma evidence_text_ok v c s : text v c = Ok s <-> v = JStr s /\ s <> "".
Proof.
  destruct v as [| | | |t| |]; simpl; try (split; [discriminate | by intros [[=] _]]).
  destruct (String.eqb_spec t "") as [->|Ht]; [split; [discriminate | by intros [[= <-] ?]]|].
  rewrite Ok_inj. split; [by intros <- | by intros [[= <-] _]].
Qed.
Lemma evidence_fields_ok d allowed c : only_fields d allowed c = Ok tt <-> has_only d allowed.
Proof. unfold only_fields, has_only. by rewrite evidence_require_ok, is_empty_iff, no_extra. Qed.
Lemma evidence_path_ok v c p :
  safe_path v c = Ok p <-> exists s, safe_path_text v s /\ p = Path s.
Proof.
  unfold safe_path, safe_path_text. rewrite bind_ok. setoid_rewrite evidence_text_ok.
  setoid_rewrite bind_ok_unit. setoid_rewrite evidence_require_ok. setoid_rewrite plain_path_iff. naive_solver.
Qed.
Lemma evidence_value_is v s m : require (py_eq v (JStr s)) m = Ok tt <-> v = JStr s.
Proof. by rewrite evidence_require_ok, py_eq_str. Qed.
Lemma evidence_false v m : require (is_false v) m = Ok tt <-> v = JBool false.
Proof. by rewrite evidence_require_ok, is_false_iff. Qed.
Lemma public_ok s c : reject_private_text s c = Ok tt <-> public_text s.
Proof. unfold reject_private_text. by rewrite evidence_require_ok, negb_true_iff, public_text_ok. Qed.

(** A text field followed by a test of it. *)
Lemma text_then v c (test : string -> result unit) Q : (forall s, test s = Ok tt <-> Q s) ->
  bind (text v c) test = Ok tt <-> text_with v Q.
Proof. intros H. unfold text_with. rewrite bind_ok. setoid_rewrite evidence_text_ok. setoid_rewrite H. naive_solver. Qed.
Lemma text_require v c (b : string -> bool) m {B} (k : result B) x :
  (let* s := text v c in require (b s) m ;;; k) = Ok x <-> text_with v (fun s => b s = true) /\ k = Ok x.
Proof.
  unfold text_with. rewrite bind_ok. setoid_rewrite evidence_text_ok. setoid_rewrite bind_ok_unit.
  setoid_rewrite evidence_require_ok. naive_solver.
Qed.
(** A loop over texts of a list. *)
Lemma texts_loop l (c : nat -> string) (test : nat -> string -> result unit) Q :
  (forall i s, test i s = Ok tt <-> Q s) ->
  for_enum 0 l (fun i v => bind (text v (c i)) (test i)) = Ok tt <->
  exists ss, JList l = jstrs ss /\ Forall (fun s => s <> "" /\ Q s) ss.
Proof.
  intros H. rewrite <- texts_iff. apply for_enum_forall. intros i v. apply text_then. apply H.
Qed.

Lemma claim_value_ok v c role : reject_claim_value v c role = Ok tt <-> claim_clean role v.
Proof.
  revert c. unfold claim_clean. induction v as [| | | |s|l IH|d IH] using json_nested_ind; intros c;
    cbn [reject_claim_value]; try (split; [intros _; by apply clean_at_scalar | done]).
  - by rewrite clean_at_str, public_ok.
  - rewrite clean_at_list. generalize 0. induction IH as [|child l Hchild _ IHl]; intros n;
      [split; [constructor | done]|]. rewrite Forall_cons, bind_ok_unit, <- (IHl (S n)), Hchild. tauto.
  - rewrite clean_at_dict. induction IH as [|[key child] d Hchild _ IHd]; [split; [constructor | done]|].
    rewrite Forall_cons, !bind_ok_unit, <- IHd, evidence_require_ok. simpl in Hchild |- *. rewrite Hchild.
    unfold unclaimed_entry. rewrite negb_true_iff, andb_false_iff, negb_false_iff.
    assert (Hc : (if String.eqb key "host_mutation" then require (is_false child) (c ++ ".host_mutation must be false") else Ok tt) = Ok tt
      /\ (if mem key ["release_eligible"; "production_capacity_claim"] then require (is_false child) (c ++ "." ++ key ++ " must be false") else Ok tt) = Ok tt
      <-> (In key ["host_mutation"; "release_eligible"; "production_capacity_claim"] -> child = JBool false)).
    { rewrite <- (mem_In key ["host_mutation"; _; _]). unfold mem. cbn [existsb].
      destruct (String.eqb key "host_mutation"), (String.eqb key "release_eligible"),
        (String.eqb key "production_capacity_claim"); cbn [orb]; rewrite ?evidence_false; naive_solver. }
    tauto.
Qed.

Lemma content_loop p t role :
  for_enum 1 (splitlines t) (fun line_no line =>
      if String.eqb (strip line) "" then Ok tt else
      let* value := reraise JSONDecodeError ManifestError
        (fun exc => "invalid referenced JSON " ++ path_str p ++ ":" ++ str_nat line_no ++ ": " ++ exn_str exc)
        (loads line) in
      reject_claim_value value (path_str p ++ ":" ++ str_nat line_no) role) = Ok tt <->
  Forall (fun line => exists v, loads line = Ok v /\ claim_clean role v) (content_lines t).
Proof.
  rewrite (for_enum_forall (fun line => strip line <> "" -> exists v, loads line = Ok v /\ claim_clean role v)).
  - unfold content_lines. rewrite !Forall_forall. setoid_rewrite list_elem_of_In. setoid_rewrite filter_In.
    setoid_rewrite negb_true_iff. setoid_rewrite String.eqb_neq. naive_solver.
  - intros j line. destruct (String.eqb_spec (strip line) "") as [E|E]; [by split|].
    rewrite bind_ok. setoid_rewrite reraise_ok. setoid_rewrite claim_value_ok. naive_solver.
Qed.

Lemma text_artifact_ok F p role : reject_text_artifact F p role = Ok tt <->
  (In role TEXT_ARTIFACT_ROLES \/ In (suffix p) TEXT_ARTIFACT_SUFFIXES ->
   exists bytes t, read_bytes F p = Ok bytes /\ (N.of_nat (len bytes) <= MAX_TEXT_ARTIFACT_BYTES)%N
      /\ decode_utf8 bytes = Ok t /\ public_text t).
Proof.
  unfold reject_text_artifact. rewrite <- !mem_In.
  destruct (mem role _), (mem (suffix p) _); cbn [negb andb]; try (split; [intros _ [H|H]; discriminate H | done]).
  all: rewrite bind_ok; setoid_rewrite reraise_ok; setoid_rewrite bind_ok_unit; setoid_rewrite evidence_require_ok;
    setoid_rewrite N.leb_le; setoid_rewrite bind_ok; setoid_rewrite reraise_ok; setoid_rewrite public_ok; naive_solver.
Qed.

Lemma reject_claims_ok F p role : reject_claims F p role = Ok tt <-> scanned F p role.
Proof.
  unfold reject_claims, scanned. destruct (String.eqb (suffix p) ".json").
  - rewrite bind_ok. by setoid_rewrite claim_value_ok.
  - destruct (String.eqb (suffix p) ".jsonl"); cbn [negb]; [|apply text_artifact_ok].
    rewrite bind_ok. setoid_rewrite (content_loop p). done.
Qed.

Lemma check_artifact_ok F ref : check_artifact F ref = Ok tt <-> artifact_ok F ref.
Proof.
  destruct ref as [p role]. unfold check_artifact, artifact_ok. rewrite bind_ok_unit, reject_claims_ok. cbn [fst snd].
  destruct (String.eqb_spec role PROTECTED_REVIEW_ROLE) as [E|E]; [|naive_solver].
  rewrite reraise_ok, review_proof_iff. naive_solver.
Qed.

Lemma evidence_ref_ok F v c role : validate_ref F v c = Ok role <-> exists p, names_artifact F v (p, role).
Proof.
  unfold names_artifact. cbn [fst snd]. destruct v as [| | | | | |d]; try (split; [discriminate | naive_solver]).
  unfold validate_ref, file_sha. rewrite bind_ok_unit, evidence_fields_ok, bind_ok. setoid_rewrite evidence_path_ok.
  setoid_rewrite bind_ok. setoid_rewrite evidence_text_ok. setoid_rewrite bind_ok_unit.
  setoid_rewrite evidence_require_ok. unfold SHA_RE. setoid_rewrite class_fullmatch.
  setoid_rewrite bind_ok. setoid_rewrite reraise_ok. setoid_rewrite sha256_of_ok. setoid_rewrite bind_ok_unit.
  setoid_rewrite evidence_require_ok. setoid_rewrite String.eqb_eq. setoid_rewrite evidence_text_ok. split.
  - intros (Hf & p & (s & Hs & ->) & digest & (Hd & _) & (Hh & Hl) & actual & Ha & -> & Hr & Hne).
    exists (Path s), d, s, digest. by assert (len digest = 64) by lia.
  - intros (p & d' & s & digest & [= <-] & Hf & Hs & -> & Hd & Hl & Hh & Ha & Hr & Hne). split; [done|].
    exists (Path s). split; [by exists s|]. exists digest. split; [split; [done | by intros ->]|].
    split; [split; [done | lia]|]. by exists digest.
Qed.

Lemma named_path F v p role s : names_artifact F v (p, role) ->
  match v with JDict d => safe_path_text (get d "path") s -> p = Path s | _ => True end.
Proof.
  intros (d & s' & ? & -> & _ & (Hs' & _) & Hp & _) (Hs & _). cbn [fst] in Hp. congruence.
Qed.

Lemma collect_ref_ok F v c ref : collect_ref F v c = Ok ref <-> names_artifact F v ref.
Proof.
  unfold collect_ref. rewrite bind_ok. setoid_rewrite evidence_ref_ok. split.
  - intros (role & (p & H) & Hp). destruct v; try discriminate Hp.
    apply bind_ok in Hp as (q & (s & Hs & ->)%evidence_path_ok & [= <-]).
    by rewrite <- (named_path _ _ _ _ s H Hs).
  - intros H. destruct ref as [p role]. exists role. split; [by exists p|].
    destruct H as (d & s & digest & -> & _ & Hs & Hp & _). apply bind_ok. exists (Path s).
    rewrite evidence_path_ok. split; [by exists s|]. cbn [fst] in Hp. by subst.
Qed.

Lemma collect_refs_ok F field i l refs : collect_refs F field i l = Ok refs <-> Forall2 (names_artifact F) l refs.
Proof.
  revert i refs. induction l as [|v l IH]; intros i refs; cbn [collect_refs].
  - rewrite Ok_inj. split; [by intros <- | by inversion 1].
  - rewrite bind_ok. setoid_rewrite collect_ref_ok. setoid_rewrite bind_ok. setoid_rewrite IH. split.
    + intros (ref & Hr & rest & Hrest & [= <-]). by constructor.
    + inversion 1 as [|? ref ? rest]; subst. by exists ref; split; [|exists rest].
Qed.

Lemma collect_benchmark_ok F i l refs : collect_benchmark F i l = Ok refs <->
  Forall2 (fun v ref => names_artifact F v ref /\ snd ref = "benchmark-provenance") l refs.
Proof.
  revert i refs. induction l as [|v l IH]; intros i refs; cbn [collect_benchmark].
  - rewrite Ok_inj. split; [by intros <- | by inversion 1].
  - rewrite bind_ok. setoid_rewrite evidence_ref_ok. setoid_rewrite bind_ok_unit. setoid_rewrite evidence_require_ok.
    setoid_rewrite String.eqb_eq. split.
    + intros (role & (p & H) & -> & Hp). destruct v; try discriminate Hp.
      apply bind_ok in Hp as (q & (s & Hs & ->)%evidence_path_ok & (rest & Hr%IH & [= <-])%bind_ok).
      constructor; [|done]. by rewrite <- (named_path _ _ _ _ s H Hs).
    + inversion 1 as [|? [p role] ? rest [Hr Hrole] Hrest]; subst. cbn [snd] in Hrole. subst role.
      exists "benchmark-provenance". split; [by exists p|]. split; [done|].
      destruct Hr as (d & s & digest & -> & _ & Hs & Hp & _). apply bind_ok. exists (Path s).
      rewrite evidence_path_ok. split; [by exists s|]. apply bind_ok. exists rest. rewrite IH. split; [done|].
      cbn [fst] in Hp. by subst.
Qed.

Lemma attestation_iff v : validate_attestation v = Ok tt <-> attestation_ok v.
Proof.
  unfold attestation_ok. destruct v as [| | | | | |d]; try (split; [discriminate | naive_solver]).
  unfold validate_attestation. rewrite bind_ok_unit, evidence_fields_ok, !text_require.
  assert (Hn : match as_int (get d "retention_days") with
     | Some n => if Z.leb n 0 then fail "attestation.retention_days must be positive" else Ok tt
     | None => fail "attestation.retention_days must be positive"
     end = Ok tt <-> exists n, as_int (get d "retention_days") = Some n /\ (0 < n)%Z).
  { destruct (as_int _) as [n|]; [|split; [discriminate | naive_solver]].
    destruct (Z.leb_spec n 0); split; [discriminate | intros (? & [= <-] & ?); lia | by exists n | done]. }
  rewrite Hn. unfold text_with. setoid_rewrite mem_In. split; [intros H; exists d; tauto|].
  intros (? & [= <-] & H). tauto.
Qed.

(** A list that is not empty, under a test of its texts. *)
Lemma texts_with_list v Q :
  texts_with v Q <-> exists x l, v = JList (x :: l) /\ exists ss, v = jstrs ss /\ Forall (fun s => s <> "" /\ Q s) ss.
Proof.
  unfold texts_with, jstrs. split.
  - intros ([|s ss] & -> & Hne & H); [done|]. eexists _, _. split; [reflexivity|]. by exists (s :: ss).
  - intros (x & l & -> & [|s ss] & E & H); [discriminate E|]. by exists (s :: ss).
Qed.

Lemma privacy_iff v : validate_privacy v = Ok tt <-> privacy_ok v.
Proof.
  unfold privacy_ok. destruct v as [| | | | | |d]; try (split; [discriminate | naive_solver]).
  unfold validate_privacy. rewrite !bind_ok_unit, evidence_fields_ok, evidence_require_ok, andb_true_iff, py_eq_str,
    is_false_iff.
  assert (Hl : forall l, for_enum 0 l (fun index item =>
            let here := "privacy_scan.artifact_paths[" ++ str_nat index ++ "]" in
            let* raw := text item here in
            reject_private_text raw here ;;; let* _ := safe_path (JStr raw) here in Ok tt) = Ok tt <->
    exists ss, JList l = jstrs ss /\ Forall (fun s => s <> "" /\ (s <> "" /\ public_text s /\ plain_path (Path s))) ss).
  { intros l. apply (texts_loop l (fun i => "privacy_scan.artifact_paths[" ++ str_nat i ++ "]")
      (fun i raw => reject_private_text raw _ ;;; let* _ := safe_path (JStr raw) _ in Ok tt)).
    intros i s. rewrite bind_ok_unit, public_ok, bind_ok. setoid_rewrite evidence_path_ok. unfold safe_path_text.
    naive_solver. }
  assert (Ht : match get d "artifact_paths" with
     | JList ((_ :: _) as paths) => for_enum 0 paths (fun index item =>
            let here := "privacy_scan.artifact_paths[" ++ str_nat index ++ "]" in
            let* raw := text item here in
            reject_private_text raw here ;;; let* _ := safe_path (JStr raw) here in Ok tt)
     | _ => fail "privacy_scan.artifact_paths must be non-empty"
     end = Ok tt <-> texts_with (get d "artifact_paths") (fun s => public_text s /\ plain_path (Path s))).
  { rewrite texts_with_list. destruct (get d "artifact_paths") as [| | | | |[|x l]|];
      try (split; [discriminate | naive_solver]).
    rewrite Hl. split.
    - intros (ss & E & H). exists x, l. split; [done|]. exists ss. split; [done|].
      eapply Forall_impl; [exact H | naive_solver].
    - intros (_ & _ & _ & ss & E & H). exists ss. split; [done|]. eapply Forall_impl; [exact H | naive_solver]. }
  rewrite Ht. split; [intros H; exists d; tauto|]. intros (? & [= <-] & H). tauto.
Qed.

Lemma sources_iff git root v : tracked_sources git v root = Ok tt <-> sources_ok git root v.
Proof.
  unfold tracked_sources, sources_ok. setoid_rewrite texts_with_list.
  destruct v as [| | | | |[|x l]|]; try (split; [discriminate | naive_solver]).
  rewrite bind_ok. f_equiv. intros listing. apply and_iff_compat_l.
  destruct (Z.eqb_spec (returncode listing) 0) as [E|E]; cbn [negb]; [|split; [discriminate | by intros [? _]]].
  rewrite (for_enum_forall (fun v => exists s, v = JStr s /\ (s <> "" /\ plain_path (Path s)
    /\ In (path_str (Path s)) (splitlines (stdout listing))))).
  - rewrite texts_iff. naive_solver.
  - intros j v. rewrite bind_ok. setoid_rewrite evidence_path_ok. setoid_rewrite evidence_require_ok.
    setoid_rewrite mem_In. unfold safe_path_text. naive_solver.
Qed.

Lemma not_applicable_iff b outcome : validate_benchmark_not_applicable b outcome = Ok tt <-> not_applicable b outcome.
Proof.
  unfold validate_benchmark_not_applicable, not_applicable.
  rewrite !bind_ok_unit, evidence_fields_ok, evidence_value_is, evidence_require_ok, mem_In.
  do 3 apply and_iff_compat_l. rewrite bind_ok. setoid_rewrite evidence_text_ok. setoid_rewrite bind_ok_unit.
  setoid_rewrite public_ok. unfold text_with.
  assert (Ho : match get b "applies_to_outcomes" with
     | JList ((_ :: _) as applies_to) =>
         for_enum 0 applies_to (fun index item =>
           let* outcome_value := text item ("benchmark_provenance.applies_to_outcomes[" ++ str_nat index ++ "]") in
           require (mem outcome_value BENCHMARK_NA_OUTCOMES)
             ("benchmark_provenance.applies_to_outcomes[" ++ str_nat index ++ "] is unsupported")) ;;;
         require (existsb (fun item => py_eq item (JStr outcome)) applies_to)
           "benchmark_provenance.applies_to_outcomes must include the manifest outcome"
     | _ => fail "benchmark_provenance.applies_to_outcomes must be a non-empty list"
     end = Ok tt <-> exists outs, get b "applies_to_outcomes" = jstrs outs /\ In outcome outs
       /\ Forall (fun o => In o BENCHMARK_NA_OUTCOMES) outs); [|naive_solver].
  destruct (get b "applies_to_outcomes") as [| | | | |[|x l]|];
    try (split; [discriminate | by intros (outs & [=] & _)]).
  - split; [discriminate|]. intros (outs & E & Hin & _). by destruct outs.
  - rewrite bind_ok_unit, evidence_require_ok.
    rewrite (texts_loop (x :: l) (fun i => "benchmark_provenance.applies_to_outcomes[" ++ str_nat i ++ "]")
      (fun i s => require (mem s BENCHMARK_NA_OUTCOMES) _) (fun s => In s BENCHMARK_NA_OUTCOMES));
      [|intros; by rewrite evidence_require_ok, mem_In].
    rewrite existsb_exists. setoid_rewrite py_eq_str. split.
    + intros ((outs & E & H) & v & Hv & ->). exists outs. split; [done|]. injection E as E. rewrite E in Hv.
      apply in_map_iff in Hv as (o & [= ->] & Ho). split; [done|]. eapply Forall_impl; [exact H | naive_solver].
    + intros (outs & E & Hin & H). split.
      * exists outs. split; [done|]. eapply Forall_impl; [exact H|]. intros s Hs. split; [|done].
        intros ->. by destruct Hs as [|[|[|[]]]].
      * exists (JStr outcome). split; [|done]. injection E as ->. by apply in_map.
Qed.

Lemma marker_iff v outcome {B} (k : result B) x :
  match v with
  | JDict marker =>
      only_fields marker MARKER_FIELDS "vm_marker" ;;;
      require (py_eq (get marker "path") (JStr VM_MARKER)) "VM marker path is invalid" ;;;
      require (is_bool (get marker "present")) "vm_marker.present must be a boolean" ;;;
      (if String.eqb outcome "PASS" then require (is_true (get marker "present")) "VM marker proof is missing"
       else Ok tt) ;;;
      k
  | _ => fail "vm_marker must be an object"
  end = Ok x <-> marker_ok v outcome /\ k = Ok x.
Proof.
  unfold marker_ok. destruct v as [| | | | | |d]; try (split; [discriminate | naive_solver]).
  rewrite !bind_ok_unit, evidence_fields_ok, evidence_value_is, evidence_require_ok.
  destruct (get d "present") as [|b| | | | |] eqn:E; try (split; [intros (_ & _ & [=] & _) | naive_solver congruence]).
  destruct (String.eqb_spec outcome "PASS") as [->|Ho]; [rewrite evidence_require_ok, is_true_iff|]; split.
  - intros (Hf & Hp & _ & [= Hb] & Hk). subst b. split; [|done]. by exists d, true.
  - intros ((d' & present & [= Hd] & Hf & Hp & Hb & Hpass) & Hk). subst d'. rewrite E in Hb. injection Hb as ->.
    by rewrite Hpass.
  - intros (Hf & Hp & _ & _ & Hk). split; [|done]. by exists d, b.
  - intros ((d' & present & [= Hd] & Hf & Hp & _ & _) & Hk). by subst d'.
Qed.

Lemma benchmark_iff F v outcome measured :
  match v with
  | JList benchmark =>
      require (negb (is_empty benchmark)) "benchmark_provenance must be a non-empty list" ;;;
      collect_benchmark F 0 benchmark
  | JDict benchmark => validate_benchmark_not_applicable benchmark outcome ;;; Ok []
  | _ => fail "benchmark_provenance must be artifact references or a not-applicable object"
  end = Ok measured <-> benchmark_ok F v outcome measured.
Proof.
  unfold benchmark_ok. destruct v as [| | | | |l|b]; try (split; [discriminate | naive_solver]).
  - rewrite bind_ok_unit, evidence_require_ok, collect_benchmark_ok. destruct l; simpl; naive_solver.
  - rewrite bind_ok_unit, not_applicable_iff, Ok_inj. naive_solver.
Qed.

Lemma references_iff F d outcome (last : list (path * string) -> result unit) (R : Prop) :
  (forall refs, last refs = Ok tt <-> R /\ Forall (artifact_ok F) refs) ->
  (let* fixed := map_m (fun field => collect_ref F (get d field) field) FIXED_REFS in
   require (existsb (fun ref => mem (snd ref) BPF_ROLES) fixed) "BPF metadata or SKIP JSON role is required" ;;;
   match get d "artifacts" with
   | JList ((_ :: _) as artifacts) =>
       let* named := collect_refs F "artifacts" 0 artifacts in
       let missing := sorted (set_diff REQUIRED_ROLES (map snd (fixed ++ named))) in
       require (is_empty missing) ("missing required artifact role(s): " ++ join ", " missing) ;;;
       let* measured :=
         match get d "benchmark_provenance" with
         | JList benchmark =>
             require (negb (is_empty benchmark)) "benchmark_provenance must be a non-empty list" ;;;
             collect_benchmark F 0 benchmark
         | JDict benchmark => validate_benchmark_not_applicable benchmark outcome ;;; Ok []
         | _ => fail "benchmark_provenance must be artifact references or a not-applicable object"
         end in
       last (fixed ++ named ++ measured)%list
   | _ => fail "artifacts must be a non-empty list"
   end) = Ok tt <-> references_ok F d outcome /\ R.
Proof.
  intros Hlast. unfold references_ok. rewrite bind_ok. setoid_rewrite map_m_ok. setoid_rewrite bind_ok_unit.
  setoid_rewrite evidence_require_ok.
  assert (Hb : forall fixed : list (path * string), existsb (fun ref => mem (snd ref) BPF_ROLES) fixed = true
    <-> Exists (fun ref => In (snd ref) BPF_ROLES) fixed).
  { intros fixed. rewrite existsb_exists, Exists_exists. setoid_rewrite list_elem_of_In. by setoid_rewrite mem_In. }
  setoid_rewrite Hb.
  assert (Hf : forall fixed, Forall2 (fun field ref => collect_ref F (get d field) field = Ok ref) FIXED_REFS fixed <->
    Forall2 (fun field ref => names_artifact F (get d field) ref) FIXED_REFS fixed).
  { intros fixed. split; intros H; (eapply Forall2_impl; [exact H|]); cbv beta; intros field ref Hr;
      [by apply collect_ref_ok in Hr | by apply collect_ref_ok]. }
  setoid_rewrite Hf. split.
  - intros (fixed & Hfix & Hbpf & H). destruct (get d "artifacts") as [| | | | |[|x l]|]; try discriminate H.
    apply bind_ok in H as (named & Hn%collect_refs_ok & [Hm%evidence_require_ok%is_empty_iff H]%bind_ok_unit).
    apply bind_ok in H as (measured & Hmeas%benchmark_iff & [Hrest Hall]%Hlast).
    split; [|done]. exists fixed, named, measured, (x :: l). by rewrite no_extra in Hm.
  - intros [(fixed & named & measured & l & Hfix & Hbpf & El & Hne & Hn & Hm & Hmeas & Hall) Hrest].
    exists fixed. do 2 (split; [done|]). rewrite El. destruct l as [|x l]; [done|].
    apply bind_ok. exists named. rewrite collect_refs_ok. split; [done|].
    apply bind_ok_unit. rewrite evidence_require_ok, is_empty_iff, no_extra. split; [done|].
    apply bind_ok. exists measured. rewrite benchmark_iff. split; [done|]. by apply Hlast.
Qed.

(** * Properties *)

