(* ===== verification/GateReads.v ===== *)
(** GateReads: which files the verdict of the manifest check depends on.  The
    reads of MatrixManifest are followed under two file systems that agree on
    the paths of the run, and give the same results. *)
From S2P Require Import Prelude PyStr PyRe PyFloat PyJson Sha256 PyFs PyMain.
From S2P Require Import DaemonEvent RuntimeSampleCommon RuntimeSample BenchModel BenchValidate Provenance MatrixModel MatrixWorkload.
From S2P Require Import MatrixRow MatrixManifest MatrixProof.

Local Open Scope string_scope.

(** The paths of a run: relative, without "..", and below its root as they are
    written or once resolved. *)
Definition run_path (F : fs) (root p : path) : Prop :=
  plain_path p /\ (below root p \/ relative_to (fs_resolve F p) (fs_resolve F root) = true).

(** Two file systems that agree on the paths of a run. *)
Record agree (F G : fs) (root : path) : Prop := {
  ag_resolve : fs_resolve F = fs_resolve G;
  ag_node : forall p, run_path F root p -> fs_node F (path_str p) = fs_node G (path_str p);
}.

(** ** A run beside a file that is none of its own *)
Definition demo_manifest : string := dumps (JDict [
  ("schema", JStr "zig-scheduler/vm-harness-matrix-index/v1"); ("matrix_run_id", JStr "run-1"); ("mode", JStr "host-safe");
  ("fixture_mode", JBool true); ("started_at", JStr "t0"); ("ended_at", JStr "t1");
  ("out_dir", JStr "evidence/lab/matrix/run-1");
  ("daemon_events_path", JStr "evidence/lab/matrix/run-1/daemon-events.jsonl");
  ("row_count", JInt 0); ("rows", JList []); ("host_mutation", JBool false); ("release_eligible", JBool false)]).
Definition demo_event : string := dumps (JDict [
  ("schema", JStr DaemonEvent.SCHEMA); ("seq", JInt 1); ("event", JStr "boot"); ("state", JStr "booting");
  ("run_id", JStr "run-1"); ("host_mutation", JBool false)]).
Definition demo_run : list (string * node) := [
  ("evidence/lab/matrix/run-1/manifest.json", File demo_manifest);
  ("evidence/lab/matrix/run-1/daemon-events.jsonl", File demo_event)].
Definition demo_path : path := Path "evidence/lab/matrix/run-1/manifest.json".
Definition demo_fs : fs := fs_of "/repo" demo_run.
Definition demo_fs_beside : fs := fs_of "/repo" (("elsewhere.json", File "{}") :: demo_run).

(** * Congruence of the monad *)
Lemma bind_same {A B} (m m' : result A) (k k' : A -> result B) :
  m = m' -> (forall a, m = Ok a -> k a = k' a) -> bind m k = bind m' k'.
Proof. intros <- H. destruct m as [a|e]; simpl; [by apply H | done]. Qed.
Lemma for_each_same {A} (xs : list A) body body' :
  (forall x, In x xs -> body x = body' x) -> for_each xs body = for_each xs body'.
Proof.
  induction xs as [|x xs IH]; intros H; simpl; [done|].
  rewrite (H x) by (by left). apply bind_same; [done|]. intros _ _. apply IH. intros y Hy. apply H. by right.
Qed.
Lemma for_fold_same {A S} (xs : list A) (s : S) i body body' :
  (forall i x s, body i x s = body' i x s) -> for_fold i xs s body = for_fold i xs s body'.
Proof.
  intros H. revert i s. induction xs as [|x xs IH]; intros i s; simpl; [done|].
  apply bind_same; [done|]. intros a _. apply IH.
Qed.

(** Two computations that differ only in the file system they read. *)
Create HintDb same.
Ltac same_step :=
  lazymatch goal with
  | |- ?x = ?x => reflexivity
  | |- bind ?m _ = bind ?m _ => apply bind_same; [reflexivity | intros ? ?]
  | |- bind _ _ = bind _ _ => apply bind_same; [|intros ? ?]
  | |- reraise _ _ _ _ = reraise _ _ _ _ => f_equal
  | |- catch _ _ = catch _ _ => f_equal
  | |- for_fold _ _ _ _ = for_fold _ _ _ _ => apply for_fold_same; intros ? ? ?
  | |- (if ?b then _ else _) = _ => destruct b
  | |- (match ?x with _ => _ end) = _ => destruct x
  | |- (let _ := _ in _) = _ => cbv zeta
  end.
Ltac same := repeat same_step.

Section Reads.
Variables (F G : fs) (root : path).
Hypothesis Hag : agree F G root.

Lemma read_text_same p : run_path F root p -> PyFs.read_text F p = PyFs.read_text G p.
Proof. intros H. unfold PyFs.read_text, read_bytes. by rewrite (ag_node _ _ _ Hag p H). Qed.
Lemma sha256_same p : run_path F root p -> sha256_of F p = sha256_of G p.
Proof. intros H. unfold sha256_of, read_bytes. by rewrite (ag_node _ _ _ Hag p H). Qed.
Lemma load_json_same p : run_path F root p -> MatrixModel.load_json F p = MatrixModel.load_json G p.
Proof. intros H. unfold MatrixModel.load_json. by rewrite (read_text_same p H). Qed.
Lemma file_sha256_same p : run_path F root p -> MatrixModel.file_sha256 F p = MatrixModel.file_sha256 G p.
Proof. intros H. unfold MatrixModel.file_sha256. by rewrite (sha256_same p H). Qed.
Lemma daemon_same p : run_path F root p -> DaemonEvent.validate F p false = DaemonEvent.validate G p false.
Proof. intros H. unfold DaemonEvent.validate, load_rows. by rewrite (read_text_same p H). Qed.
Lemma samples_same p : run_path F root p -> RuntimeSample.validate_file F p = RuntimeSample.validate_file G p.
Proof. intros H. unfold RuntimeSample.validate_file, RuntimeSampleCommon.load_jsonl. by rewrite (read_text_same p H). Qed.

Lemma descendant_same p c : Provenance.require_descendant F p root c = Provenance.require_descendant G p root c.
Proof. unfold Provenance.require_descendant. by rewrite (ag_resolve _ _ _ Hag). Qed.
Lemma descendant_run v s c1 c a :
  Provenance.require_safe_path v c1 = Ok s -> Provenance.require_descendant F (Path s) root c = Ok a ->
  run_path F root (Path s).
Proof.
  intros (_ & _ & Ha & Hd)%prov_path_ok H%ensure_ok. split; [|by right]. split; [done|].
  destruct (relative_parts (Path s) Ha) as [_ <-]. done.
Qed.
Lemma below_run v s c1 c a :
  MatrixModel.require_safe_path v c1 = Ok s -> MatrixModel.require_descendant (Path s) root c = Ok a ->
  run_path F root (Path s).
Proof. destruct a. intros (_ & _ & Hp)%require_safe_path_ok H%require_descendant_ok. split; [done | by left]. Qed.
Hint Resolve read_text_same sha256_same load_json_same file_sha256_same daemon_same samples_same descendant_same
  descendant_run below_run : same.
Ltac reads := same; try solve [eauto 6 with same nocore].

Lemma prov_json_same p : run_path F root p -> Provenance.load_json F p = Provenance.load_json G p.
Proof. intros H. unfold Provenance.load_json. by rewrite (read_text_same p H). Qed.
Lemma prov_sha_same p : run_path F root p -> Provenance.file_sha256 F p = Provenance.file_sha256 G p.
Proof. intros H. unfold Provenance.file_sha256. by rewrite (sha256_same p H). Qed.
Hint Resolve prov_json_same prov_sha_same : same.
Lemma privacy_same p c : run_path F root p -> validate_raw_output_privacy F p c = validate_raw_output_privacy G p c.
Proof. intros H. unfold validate_raw_output_privacy. by rewrite (read_text_same p H). Qed.
Lemma references_same r c : validate_record_references F r root c = validate_record_references G r root c.
Proof.
  unfold validate_record_references. cbv zeta. reads.
  apply privacy_same. eauto 3 with same.
Qed.
Hint Resolve references_same : same.
Lemma entry_same c i v s : validate_entry F (Some root) c i v s = validate_entry G (Some root) c i v s.
Proof. unfold validate_entry. cbv beta iota zeta. reads. Qed.
Lemma entries_same v c : validate_entries F v (Some root) c = validate_entries G v (Some root) c.
Proof. unfold validate_entries. reads. apply entry_same. Qed.
Lemma spec_same d s w e c :
  validate_workload_spec F d s w e c (Some root) = validate_workload_spec G d s w e c (Some root).
Proof. unfold validate_workload_spec, validate_workload_benchmark_provenance. reads. apply entries_same. Qed.
Hint Resolve spec_same : same.
Lemma capability_run d s w e c mr v c1 a :
  validate_workload_spec F d s w e c mr = Ok (Some v) -> MatrixModel.require_descendant (Path v) root c1 = Ok a ->
  run_path F root (Path v).
Proof.
  intros H Hb. destruct a. apply require_descendant_ok in Hb. split; [|by left].
  unfold validate_workload_spec in H. cbv zeta in H. repeat apply bind_ok in H as (? & _ & H).
  destruct (has_key "capability_artifact_path" d); [|discriminate H].
  apply bind_ok in H as (v' & (_ & _ & Hp)%require_safe_path_ok & [= <-]). done.
Qed.
Hint Resolve capability_run : same.
Lemma manifest_events_same p c : run_path F root p ->
  validate_manifest_daemon_events F p root c = validate_manifest_daemon_events G p root c.
Proof. intros. unfold validate_manifest_daemon_events. reads. Qed.
Lemma vm_claim_same row m f c :
  validate_manifest_vm_claim F row m f root c = validate_manifest_vm_claim G row m f root c.
Proof. unfold validate_manifest_vm_claim. cbv zeta. reads. Qed.
Lemma workload_same row sp pp c : run_path F root sp -> run_path F root pp ->
  validate_manifest_workload_artifacts F row root sp pp c = validate_manifest_workload_artifacts G row root sp pp c.
Proof. intros. unfold validate_manifest_workload_artifacts. reads. Qed.
Lemma proofs_same row c :
  (forall f v p, In f PATH_FIELDS -> get row f = JStr v -> p = Path v -> run_path F root p) ->
  validate_manifest_proof_artifacts F row c = validate_manifest_proof_artifacts G row c.
Proof.
  intros H. unfold validate_manifest_proof_artifacts, validate_manifest_runtime_sample.
  assert (HP : forall f s c', In f PATH_FIELDS -> text (get row f) c' = Ok s -> run_path F root (Path s)).
  { intros f s c' Hf [Hs _]%text_ok. by apply (H f s). }
  same; first [apply samples_same | apply load_json_same]; eapply HP; try eassumption; simpl; tauto.
Qed.
Lemma safe_under_run v c p : safe_under v root c = Ok p -> run_path F root p.
Proof. intros (s & (_ & _ & Hp) & -> & H)%safe_under_ok. split; [done | by left]. Qed.
Hint Resolve safe_under_run manifest_events_same workload_same : same.
Lemma row_paths_same row c :
  validate_manifest_row_paths F row root c = validate_manifest_row_paths G row root c.
Proof.
  unfold validate_manifest_row_paths. reads. apply proofs_same. intros f v p Hf Hv ->.
  repeat match goal with H : for_each _ _ = Ok ?u |- _ => destruct u; rewrite for_each_ok, Forall_forall in H end.
  rename select (forall x, _ -> _ = Ok tt) into Hp. specialize (Hp f). apply list_elem_of_In in Hf. apply Hp in Hf.
  apply bind_ok in Hf as (p & Hs & _).
  pose proof (safe_under_run _ _ _ Hs) as Hrun. apply safe_under_ok in Hs as (s & [Hs _] & -> & _).
  assert (v = s) as -> by congruence. done.
Qed.

Hint Resolve row_paths_same vm_claim_same : same.

(** Rows of the live backend also read what the summary of their bundle names. *)
Hypothesis Hlive : forall p row, run_path F root p -> MatrixModel.load_json F p = Ok row ->
  get row "scenario_id" <> JStr "live-backend".

Lemma backend_same row p c : get row "scenario_id" <> JStr "live-backend" ->
  validate_live_backend_summary_consistency F row p c = validate_live_backend_summary_consistency G row p c.
Proof.
  intros H. unfold validate_live_backend_summary_consistency. apply bind_same; [done|].
  intros s [Hs _]%text_ok. destruct (String.eqb_spec s "live-backend") as [->|]; [congruence | done].
Qed.

Lemma manifest_step_same mp h i raw st :
  manifest_step F mp root h i raw st = manifest_step G mp root h i raw st.
Proof.
  unfold manifest_step. cbv zeta. reads. apply backend_same.
  eapply Hlive; [|eassumption]. eauto 6 with same nocore.
Qed.
End Reads.

Lemma manifest_root_run F p root : require_manifest_root p = Ok root -> run_path F root p.
Proof.
  unfold require_manifest_root. rewrite !bind_ok_unit, !require_ok, plain_path_iff, !andb_true_iff, Nat.eqb_eq, Ok_inj.
  intros (Hp & [[Hl _] _] & _ & <-). split; [done|]. left. right.
  destruct (relative_parts p (proj1 Hp)) as [_ Hps]. rewrite Hps in *. exists (skipn 4 (p_parts p)).
  unfold parts. simpl. by rewrite firstn_skipn.
Qed.

(** C2: the verdict on a manifest rests on the files of its run alone: two file systems that resolve paths alike and agree on the paths of the run (relative, without a parent step, and below the directory of the manifest as written or once symbolic links are followed) get the same answer from [validate_manifest], whatever else they hold, unless a file of the run is a row of the live backend, which follows the paths its bundle names. *)
Theorem manifest_reads_confined F G p root
    (Hroot : require_manifest_root p = Ok root) (Hag : agree F G root)
    (Hlive : forall p row, run_path F root p -> MatrixModel.load_json F p = Ok row ->
               get row "scenario_id" <> JStr "live-backend") :
  validate_manifest F p = validate_manifest G p.
Proof.
  unfold validate_manifest. cbv zeta. rewrite Hroot. cbn [bind].
  rewrite (load_json_same F G root Hag p (manifest_root_run F p root Hroot)). same.
  - eapply manifest_events_same; [done|]. eapply safe_under_run. eassumption.
  - by apply manifest_step_same.
Qed.

Lemma has_slash_app a b : contains "/" (a ++ String "/" b) = true.
Proof. apply contains_iff. by exists a, b. Qed.

Lemma plain_named p s : plain_path p -> path_str p = s -> contains "/" s = false -> s <> "." -> p_parts p = [s].
Proof.
  intros [Ha _] Hs Hc Hd. destruct (relative_parts p Ha) as [Hr _]. unfold path_str in Hs. rewrite Hr in Hs.
  destruct (p_parts p) as [|x [|y ps]]; [congruence | by rewrite <- Hs |].
  rewrite <- Hs in Hc. change (contains "/" (x ++ String "/" (join "/" (y :: ps))) = false) in Hc.
  by rewrite has_slash_app in Hc.
Qed.

Lemma demo_agree : agree demo_fs demo_fs_beside (parent demo_path).
Proof.
  split; [reflexivity|]. intros p [Hp Hrun]. unfold demo_fs_beside, demo_fs, fs_of. cbn [fs_node node_in].
  destruct (String.eqb_spec "elsewhere.json" (path_str p)) as [He|]; [|reflexivity].
  assert (Hps : p_parts p = ["elsewhere.json"]) by (apply plain_named; [done | done | reflexivity | discriminate]).
  destruct (relative_parts p (proj1 Hp)) as [_ Hq]. exfalso.
  destruct Hrun as [[->|[zs Hz]]|Hr].
  - discriminate Hps.
  - rewrite Hq, Hps in Hz. discriminate Hz.
  - cbn [demo_fs fs_of fs_resolve] in Hr. rewrite (plain_resolve_relative _ p) in Hr by apply Hp.
    rewrite Hps in Hr. vm_compute in Hr. discriminate Hr.
Qed.

Lemma demo_rows p row : MatrixModel.load_json demo_fs p = Ok row -> get row "scenario_id" <> JStr "live-backend".
Proof.
  unfold MatrixModel.load_json, PyFs.read_text, read_bytes, demo_fs, fs_of. cbn [fs_node node_in demo_run].
  destruct (String.eqb_spec "evidence/lab/matrix/run-1/manifest.json" (path_str p)) as [He|_].
  { rewrite <- He. clear He. vm_compute. intros [= <-]. discriminate. }
  destruct (String.eqb_spec "evidence/lab/matrix/run-1/daemon-events.jsonl" (path_str p)) as [He|_].
  { rewrite <- He. clear He. vm_compute. intros [= <-]. discriminate. }
  discriminate.
Qed.

Lemma manifest_reads_confined_witness :
  validate_manifest demo_fs demo_path = Ok (0, 0)
  /\ validate_manifest demo_fs demo_path = validate_manifest demo_fs_beside demo_path.
Proof.
  split; [vm_compute; reflexivity|].
  apply (manifest_reads_confined demo_fs demo_fs_beside demo_path (parent demo_path)).
  - reflexivity.
  - exact demo_agree.
  - intros p row _. apply demo_rows.
Defined.
