(* ===== verification/JsonTrip.v ===== *)
(** JsonTrip: what the checkers write and read as JSON text and numbers.  The
    result the verifier log check writes is the report of the log, and reads
    back; the integers read from facts stay within the limit of [int]. *)
From S2P Require Import Prelude PyStr PyRe PyFloat PyJson PyJsonText Sha256 PyFs.
From S2P Require Import RuntimeSampleCommon SchedExt VerifierVm VerifierLog.

Local Open Scope string_scope.

(** The text a check prints or writes. *)
Definition output_text (out : output) : string :=
  match out with Printed t => t | Written _ t => t end.

Definition destination (out : output) : option path :=
  match out with Printed _ => None | Written p _ => Some p end.

(** The fields of the report of a log, in the order they are written, and the
    values of the log that are copied into it. *)
Definition REPORT_FIELDS : list string := [
  "bpf_metadata_object_sha256"; "bpf_metadata_path"; "bpftool_rc"; "cgroup_membership_after";
  "cgroup_membership_before"; "enable_seq_after"; "enable_seq_before"; "host_mutation"; "input"; "object";
  "object_sha256"; "reason"; "sched_ext_state_after"; "sched_ext_state_before"; "schema"; "status"; "verifier_errors"].
Definition COPIED : list (string * string) := [
  ("object", "object"); ("object_sha256", "object_sha256"); ("bpf_metadata_path", "bpf_metadata_path");
  ("bpf_metadata_object_sha256", "bpf_metadata_object_sha256");
  ("sched_ext_state_before", "sched_ext_state_before"); ("sched_ext_state_after", "sched_ext_state_after");
  ("enable_seq_before", "sched_ext_enable_seq_before"); ("enable_seq_after", "sched_ext_enable_seq_after");
  ("cgroup_membership_before", "cgroup_membership_before"); ("cgroup_membership_after", "cgroup_membership_after")].

(** The object [d] reports the log [parsed] of the file [p]. *)
Record reports_log (p : path) (parsed : ParsedLog) (d : jobject) : Prop := {
  rl_fields : keys d = REPORT_FIELDS;
  rl_schema : get d "schema" = JStr "zig-scheduler/verifier-log-parse/v1";
  rl_input : get d "input" = JStr (path_str p);
  rl_reason : get d "reason" = JStr (reason_from parsed);
  rl_pass : get d "status" = JStr "PASS" <-> accepted parsed;
  rl_skip : get d "status" = JStr "SKIP" <->
    In (reason_from parsed) ["BPFTOOL_UNAVAILABLE"; "BPF_FS_UNAVAILABLE"; "UNKNOWN_SKIPPED"];
  rl_status : exists status, get d "status" = JStr status /\ In status ["PASS"; "SKIP"; "FAIL"];
  rl_rc : get d "bpftool_rc" = match bpftool_rc parsed with Some z => JInt z | None => JNull end;
  rl_errors : get d "verifier_errors" = JList (map JStr (errors parsed));
  rl_host : get d "host_mutation" = JBool false;
  rl_copied : forall field key, In (field, key) COPIED -> get d field = JStr (default "" (log_values parsed !! key));
}.

(** The number a fact reports is that of its decimal text. *)
Definition reported_text (row : jobject) (s : string) : Prop :=
  exists fact v, get row "enable_seq" = JDict fact /\ jlookup "value" fact = Some v /\ s = strip (py_str v).

(** * The fact that carries a number *)
Lemma dec_value_bound s acc : (0 <= acc)%Z -> all_chars is_digit s = true ->
  (acc * 10 ^ Z.of_nat (len s) <= dec_value acc s < (acc + 1) * 10 ^ Z.of_nat (len s))%Z.
Proof.
  revert acc. induction s as [|c s IH]; intros acc Ha Hs.
  - change (len "") with 0. simpl. lia.
  - simpl in Hs. apply andb_true_iff in Hs as [Hc Hs]. change (len (String c s)) with (S (len s)).
    rewrite Nat2Z.inj_succ, Z.pow_succ_r by lia. cbn [dec_value].
    assert (0 <= digit_val c <= 9)%Z.
    { apply is_digit_cases in Hc. simpl in Hc. repeat (destruct Hc as [<-|Hc]; [vm_compute; split; discriminate|]). done. }
    specialize (IH (10 * acc + digit_val c)%Z ltac:(lia) Hs).
    assert (0 < 10 ^ Z.of_nat (len s))%Z by (apply Z.pow_pos_nonneg; lia). nia.
Qed.

(** * Writing *)
Lemma log_result_plain p parsed status reason :
  (forall z, bpftool_rc parsed = Some z -> short_int z) -> plain (JDict (log_result p parsed status reason)).
Proof.
  intros Hrc. assert (Hs : forall s, plain (JStr s)) by (intros s; by constructor).
  apply Tr_dict.
  - refine (bool_decide_unpack _ _). vm_compute. exact I.
  - unfold log_result. cbv zeta. repeat (apply Forall_cons; split; [cbn [snd]; try apply Hs|]); try apply Forall_nil_2.
    + unfold json_of_rc. destruct (bpftool_rc parsed) as [z|] eqn:E; apply Tr_leaf; try done. by apply Hrc.
    + apply Tr_list. unfold jstrs. apply Forall_map, Forall_forall. intros s _. apply Hs.
    + by apply Tr_leaf.
Qed.

Lemma sort_texts l : sort_keys (jstrs l) = jstrs l.
Proof. unfold jstrs. cbn [sort_keys]. rewrite map_map. done. Qed.

Lemma get_fixed d k : Forall (fun kv => sort_keys (snd kv) = snd kv) d -> sort_keys (get d k) = get d k.
Proof.
  intros H. unfold get. destruct (jlookup k d) as [v|] eqn:E; [|done].
  apply jlookup_In in E. rewrite Forall_forall in H. by apply (H (k, v)), list_elem_of_In.
Qed.
Lemma log_result_fixed p parsed status reason :
  Forall (fun kv => sort_keys (snd kv) = snd kv) (log_result p parsed status reason).
Proof.
  unfold log_result. cbv zeta. repeat (apply Forall_cons; split; [cbn [snd]; try reflexivity|]); try apply Forall_nil_2.
  - by destruct (bpftool_rc parsed).
  - apply sort_texts.
Qed.

Lemma written_text r out : output_text (write_result r out) = dumps_indent 0 (sort_keys (JDict r)) ++ chr 10.
Proof. by destruct out. Qed.

(** The text that is written for a plain result reads back with the same items. *)
Lemma written_reads_back r out : plain (JDict r) ->
  exists d, sort_keys (JDict r) = JDict d /\ loads (output_text (write_result r out)) = Ok (JDict d)
    /\ forall k, get d k = sort_keys (get r k).
Proof.
  intros Hr. eexists. split; [reflexivity|]. split.
  - rewrite written_text.
    apply loads_writes; [by apply indent_writes, sort_keys_plain | reflexivity].
  - intros k. apply sort_keys_plain, tree_dict in Hr as [Hn _].
    rewrite (get_perm k _ (map (fun kv => (fst kv, sort_keys (snd kv))) r) Hn) by apply sort_items_perm.
    by apply get_map.
Qed.

Lemma status_skip reason :
  status_text (status_from reason) = "SKIP" <-> In reason ["BPFTOOL_UNAVAILABLE"; "BPF_FS_UNAVAILABLE"; "UNKNOWN_SKIPPED"].
Proof.
  unfold status_from. destruct (String.eqb_spec reason "VERIFIER_ACCEPTED") as [->|_].
  - split; [discriminate|]. intros [H|[H|[H|[]]]]; discriminate H.
  - rewrite <- mem_In. by destruct (mem reason _).
Qed.

Lemma status_three reason : In (status_text (status_from reason)) ["PASS"; "SKIP"; "FAIL"].
Proof. unfold status_from. destruct (String.eqb _ _); [|destruct (mem _ _)]; simpl; tauto. Qed.

Lemma log_result_reports p parsed d :
  let reason := reason_from parsed in
  keys d = REPORT_FIELDS -> (forall k, get d k = get (log_result p parsed (status_from reason) reason) k) ->
  reports_log p parsed d.
Proof.
  cbv zeta. intros Hf Hk.
  assert (Hs : get d "status" = JStr (status_text (status_from (reason_from parsed)))) by exact (Hk "status").
  split; [done | exact (Hk _) | exact (Hk _) | exact (Hk _) | | | | exact (Hk _) | exact (Hk _) | exact (Hk _) |].
  - rewrite Hs, <- verdict_pass. by destruct (status_from _).
  - rewrite Hs, <- status_skip. split; [by intros [= H] | by intros ->].
  - eexists. split; [exact Hs | apply status_three].
  - intros f k Hi. rewrite Hk. repeat (destruct Hi as [[= <- <-]|Hi]; [reflexivity|]). destruct Hi.
Qed.

Lemma run_log build F args p text parsed n out :
  input_path args = Some p -> evidence_path args = None -> suffix p <> ".json" ->
  read_text F p = Ok text -> parse_lines text = Ok parsed -> not_vm_live (log_values parsed) ->
  run build F args = Ok (n, out) ->
  let reason := reason_from parsed in
  out = write_result (log_result p parsed (status_from reason) reason) (out_path args)
  /\ (n = 1 /\ status_from reason = FAIL \/ n = 0 /\ status_from reason <> FAIL).
Proof.
  intros Hi He Hs Ht Hp Hl. unfold run, parse_input, parse_log. rewrite Hi, He. apply String.eqb_neq in Hs. rewrite Hs, Ht.
  cbn [bind]. rewrite Hp. cbn [bind]. rewrite not_vm_live_log by done.
  change (reraise VMVerifierError VerifierLogError exn_str (Ok (None, F))) with (Ok (@None jobject, F)). cbn [bind].
  intros (r & Hr & H)%bind_ok. apply bind_ok_unit in Hr as [_ Hr]. apply bind_ok_unit in Hr as [_ [= <-]].
  cbv zeta in *. apply bind_ok in H as (v & Hv & [= <- <-]). injection Hv as <-. split; [done|].
  by destruct (status_from (reason_from parsed)); simpl; [right | right | left | right].
Qed.



(** C28: the enable sequence of a sample is read within the limit of int(): a decimal text of at most 4300 digits gives the number it writes, which is below ten to the number of digits; a decimal text of more digits raises ValueError; any other text is no number; and without the fact the read fails. *)
Theorem enable_seq_bounds row :
  (forall s, reported_text row s -> isdecimal s = true -> len s <= MAX_STR_DIGITS ->
     numeric_fact_value row "enable_seq" = Ok (Some (dec_value 0 s))
     /\ (0 <= dec_value 0 s < 10 ^ Z.of_nat (len s))%Z)
  /\ (forall s, reported_text row s -> isdecimal s = true -> MAX_STR_DIGITS < len s ->
     exists m, numeric_fact_value row "enable_seq" = raise ValueError m)
  /\ (forall s, reported_text row s -> isdecimal s = false -> numeric_fact_value row "enable_seq" = Ok None)
  /\ ((forall s, ~ reported_text row s) -> is_ok (numeric_fact_value row "enable_seq") = false).
Proof.
  unfold numeric_fact_value, RuntimeSampleCommon.require_object, reported_text, getitem.
  repeat apply conj.
  - intros s (fact & v & -> & Hv & ->) Hd Hl. cbn [bind]. rewrite Hv. cbn [bind]. rewrite Hd.
    unfold int_of_digits. rewrite (proj2 (Nat.ltb_ge _ _) Hl). split; [done|].
    apply andb_true_iff in Hd as [_ Hd]. pose proof (dec_value_bound _ 0 ltac:(lia) Hd). lia.
  - intros s (fact & v & -> & Hv & ->) Hd Hl. cbn [bind]. rewrite Hv. cbn [bind]. rewrite Hd.
    unfold int_of_digits. rewrite (proj2 (Nat.ltb_lt _ _) Hl). by eexists.
  - intros s (fact & v & -> & Hv & ->) Hd. cbn [bind]. rewrite Hv. cbn [bind]. by rewrite Hd.
  - intros H. destruct (get row "enable_seq") as [| | | | | |fact]; try reflexivity. cbn [bind].
    destruct (jlookup "value" fact) as [v|] eqn:Hv; [|done]. by destruct (H (strip (py_str v))); exists fact, v.
Qed.
