(* ===== verification/OpenRpcDaemon.v ===== *)
(** OpenRpcDaemon: qa/openrpc_contract_model.py and qa/openrpc_contract_daemon.py:
    the methods, errors and schema texts of the OpenRPC contract, the readers of its
    fields, and what the contract asks of the Zig daemon, of its socket test and of
    the incident taxonomy.

    The arguments are what argparse reads. *)
From S2P Require Import Prelude PyStr PyRe PyFloat PyJson Sha256 PyFs PyMain Fields DaemonEvent FrontendPack.

Local Open Scope string_scope.

(** * qa/openrpc_contract_model.py *)

(** Parameters, result and error incidents of a method. *)
Definition MethodSpec : Set := list string * string * list string.
Definition METHOD_SPECS : list (string * MethodSpec) := [
  ("daemon.version", ([], "DaemonVersionResult", ["malformed_rpc"; "invalid_rpc_version"; "unknown_rpc_method"]));
  ("targets.list", ([], "TargetsListResult", ["malformed_rpc"; "invalid_rpc_version"; "unknown_rpc_method"]));
  ("actions.submit", (["action_json"], "EventsResult", ["malformed_rpc"; "invalid_rpc_version"; "unknown_rpc_method"; "action_json_required"]));
  ("actions.rollback", (["action_json"], "EventsResult",
     ["malformed_rpc"; "invalid_rpc_version"; "unknown_rpc_method"; "action_json_required"; "rpc_action_mismatch"]));
  ("actions.stop", (["action_json"], "EventsResult",
     ["malformed_rpc"; "invalid_rpc_version"; "unknown_rpc_method"; "action_json_required"; "rpc_action_mismatch"]));
  ("events.replay", (["from_event_seq"], "EventsResult", ["malformed_rpc"; "invalid_rpc_version"; "unknown_rpc_method"]));
  ("events.follow", (["from_event_seq"], "EventsResult", ["malformed_rpc"; "invalid_rpc_version"; "unknown_rpc_method"]))].
Definition ERROR_INCIDENTS : list string :=
  ["malformed_rpc"; "invalid_rpc_version"; "unknown_rpc_method"; "action_json_required"; "rpc_action_mismatch"].
Definition ERROR_COMPONENT_BY_INCIDENT : list (string * string) := [
  ("malformed_rpc", "MalformedRpc"); ("invalid_rpc_version", "InvalidRpcVersion"); ("unknown_rpc_method", "UnknownRpcMethod");
  ("action_json_required", "ActionJsonRequired"); ("rpc_action_mismatch", "RpcActionMismatch")].
Definition ERROR_JSON_RPC_MAPPING : list (string * (Z * string)) := [
  ("MalformedRpc", (-32700, "parse_error")%Z); ("InvalidRpcVersion", (-32600, "invalid_request")%Z);
  ("UnknownRpcMethod", (-32601, "method_not_found")%Z); ("ActionJsonRequired", (-32602, "invalid_params")%Z);
  ("RpcActionMismatch", (-32602, "invalid_params")%Z)].
Definition SCHEMA_STRINGS : list string :=
  ["zig-scheduler/daemon-event/v1"; "zig-scheduler/operator-action/v1"; "zig-scheduler/runtime-sample/v1"].
Definition DOC_FILES : list string := ["frontend-api-pack.md"; "schema-compatibility.md"; "incident-taxonomy.md"].
Definition CODE_ROW_RE : regex :=
  rseq [rline; rlit "| `"; RCap "1" (rplus (RChar (fun c => negb (Ascii.eqb c "`")))); rlit "` |"].

Record Args : Set := MkArgs { contract : path; daemon : path; docs : path; self_test : bool }.

Definition fail {A} (message : string) : result A := raise OpenRpcContractError message.
(** [if not condition: fail(message)] *)
Definition demand (condition : bool) (message : string) : result unit := ensure condition OpenRpcContractError message.

Definition object_field (row : jobject) (field context : string) : result jobject :=
  match get row field with JDict value => Ok value | _ => fail (context ++ "." ++ field ++ " must be an object") end.
Definition list_field (row : jobject) (field context : string) : result (list json) :=
  match get row field with JList value => Ok value | _ => fail (context ++ "." ++ field ++ " must be a list") end.
Definition string_field (row : jobject) (field context : string) : result string :=
  match get row field with JStr value => Ok value | _ => fail (context ++ "." ++ field ++ " must be a string") end.
Definition bool_field (row : jobject) (field context : string) : result bool :=
  match get row field with JBool value => Ok value | _ => fail (context ++ "." ++ field ++ " must be a boolean") end.
(** [type(value) is not int] also refuses a boolean. *)
Definition int_field (row : jobject) (field context : string) : result Z :=
  match get row field with JInt value => Ok value | _ => fail (context ++ "." ++ field ++ " must be an integer") end.

Definition parse_openrpc_object (text context : string) : result jobject :=
  reraise ContractPackError OpenRpcContractError exn_str (parse_json_object text context).
Definition load_contract (F : fs) (p : path) : result jobject :=
  reraise FileNotFoundError OpenRpcContractError (fun _ => "missing OpenRPC contract: " ++ path_str p)
    (let* text := read_text F p in parse_openrpc_object text (path_str p)).

Definition ref_name (kind : string) (value : jobject) (context : string) : result string :=
  let* ref := string_field value "$ref" context in
  let prefix := "#/components/" ++ kind ++ "/" in
  demand (startswith ref prefix) (context ++ " must reference " ++ prefix) ;;;
  Ok (drop_str (len prefix) ref).
Definition schema_ref_name : jobject -> string -> result string := ref_name "schemas".
Definition error_ref_name : jobject -> string -> result string := ref_name "errors".

Definition method_map (contract : jobject) : result (list (string * jobject)) :=
  let* values := list_field contract "methods" "contract" in
  for_fold 0 values [] (fun index value methods =>
    let context := "contract.methods[" ++ str_nat index ++ "]" in
    match value with
    | JDict value =>
        let* name := string_field value "name" context in
        demand (negb (mem name (map fst methods))) ("duplicate OpenRPC method: " ++ name) ;;;
        Ok (methods ++ [(name, value)])%list
    | _ => fail (context ++ " must be an object")
    end).

(** The objects under [components.kind]. *)
Definition components_of (kind : string) (contract : jobject) : result (list (string * jobject)) :=
  let* components := object_field contract "components" "contract" in
  let* raw := object_field components kind "contract.components" in
  map_m (fun kv => match snd kv with
                   | JDict value => Ok (fst kv, value)
                   | _ => fail ("components." ++ kind ++ "." ++ fst kv ++ " must be an object")
                   end) raw.
Definition error_components : jobject -> result (list (string * jobject)) := components_of "errors".
Definition schema_components : jobject -> result (list (string * jobject)) := components_of "schemas".

(** * qa/openrpc_contract_daemon.py *)
Record DaemonErrorMapping : Set := MkMapping { mapped_incident : string; mapped_code : Z; mapped_message : string }.
Definition mapping_eqb (a b : DaemonErrorMapping) : bool :=
  String.eqb (mapped_incident a) (mapped_incident b) && Z.eqb (mapped_code a) (mapped_code b)
  && String.eqb (mapped_message a) (mapped_message b).

(** The inside of a literal: no quote, and a backslash takes the next character
    with it, unless that is a newline. *)
Definition literal_char : regex := RChar (fun c => negb (Ascii.eqb c dquote || (code c =? 92)%N)).
Definition literal_text : regex := RSeq (rstar literal_char) (rstar (RSeq (RChar (fun c => (code c =? 92)%N)) (RSeq rany (rstar literal_char)))).
Definition comma : regex := rseq [rstar rspace; rlit ","; rstar rspace].
Definition WRITE_RPC_ERROR_RE : regex := rseq [
  rlit "writeRpcError"; rstar rspace; rlit "("; rstar rspace; rlit "allocator"; comma; rlit "response"; comma;
  RAlt (rlit "null") (rlit "request.id"); comma; RCap "1" (RSeq (ropt (rlit "-")) (rplus rdigit)); comma;
  rchar dquote; RCap "2" literal_text; rchar dquote; comma; rchar dquote; RCap "3" literal_text; rchar dquote; rstar rspace; rlit ")"].
Definition SOCKET_METHODS : list string := [
  "daemon.version"; "actions.submit"; "actions.rollback"; "actions.stop"; "events.replay"; "events.follow"; "targets.list"].

(** The loop of [extract_function_body] after the opening brace: what precedes the
    brace that closes it.  [depth] counts the open braces below the first. *)
Fixpoint scan_body (depth : nat) (in_string escaped : bool) (s : string) : option string :=
  match s with
  | "" => None
  | String c s =>
      let next depth in_string escaped := option_map (String c) (scan_body depth in_string escaped s) in
      if in_string then
        if escaped then next depth true false
        else if (code c =? 92)%N then next depth true true
        else if Ascii.eqb c dquote then next depth false false
        else next depth true false
      else if Ascii.eqb c dquote then next depth true escaped
      else if Ascii.eqb c "{" then next (S depth) false escaped
      else if Ascii.eqb c "}" then match depth with 0 => Some "" | S depth => next depth false escaped end
      else next depth false escaped
  end.

Definition extract_function_body (text name : string) : result string :=
  match find text ("fn " ++ name ++ "(") with
  | None => fail ("daemon source missing function: " ++ name)
  | Some start =>
      let text := drop_str start text in
      match find text "{" with
      | None => fail ("daemon source missing function body: " ++ name)
      | Some brace =>
          match scan_body 0 false false (drop_str (S brace) text) with
          | None => fail ("daemon source has unterminated function body: " ++ name)
          | Some body => Ok body
          end
      end
  end.

Definition validate_write_rpc_error_serializer (text : string) : result unit :=
  let* body := extract_function_body text "writeRpcError" in
  demand (contains ".{code}" body) "writeRpcError must serialize the passed code argument" ;;;
  demand (contains "writeJsonString(&writer.writer, message)" body) "writeRpcError must serialize the passed message argument" ;;;
  demand (contains "writeJsonString(&writer.writer, incident_code)" body)
    "writeRpcError must serialize the passed incident_code argument".

(** [int(text)] of an optional sign and digits *)
Definition signed_int (s : string) : result Z :=
  match s with
  | String c digits => if Ascii.eqb c "-" then let* n := int_of_digits digits in Ok (- n)%Z else int_of_digits s
  | "" => int_of_digits s
  end.

Definition extract_daemon_error_mappings (text : string) : result (list (string * DaemonErrorMapping)) :=
  for_fold 0 (re_finditer WRITE_RPC_ERROR_RE text) [] (fun _ found mappings =>
    let* code := signed_int (group "1" found) in
    let message := group "2" found in
    let incident := group "3" found in
    demand (mem incident ERROR_INCIDENTS) ("daemon source has unexpected JSON-RPC incident mapping: " ++ incident) ;;;
    let mapping := MkMapping incident code message in
    match assoc incident mappings with
    | Some previous =>
        demand (mapping_eqb previous mapping) ("daemon source has conflicting JSON-RPC mapping for incident: " ++ incident) ;;;
        Ok mappings
    | None => Ok (mappings ++ [(incident, mapping)])%list
    end).

(** [d[key]] *)
Definition item {A} (key : string) (d : list (string * A)) : result A :=
  match assoc key d with Some value => Ok value | None => raise KeyError key end.
Definition pair_text (mapping : Z * string) : string := "(" ++ str_Z (fst mapping) ++ ", " ++ snd mapping ++ ")".

Definition validate_daemon_error_mappings (text : string) : result unit :=
  let* mappings := extract_daemon_error_mappings text in
  let missing := sorted (set_diff ERROR_INCIDENTS (map fst mappings)) in
  demand (match missing with [] => true | _ => false end) ("daemon source missing JSON-RPC error mapping(s): " ++ join ", " missing) ;;;
  for_each ERROR_INCIDENTS (fun incident =>
    let* component := item incident ERROR_COMPONENT_BY_INCIDENT in
    let* expected := item component ERROR_JSON_RPC_MAPPING in
    let* actual := item incident mappings in
    demand (Z.eqb (mapped_code actual) (fst expected) && String.eqb (mapped_message actual) (snd expected))
      ("daemon source JSON-RPC mapping mismatch for " ++ incident ++ ": expected " ++ pair_text expected ++ ", got "
       ++ pair_text (mapped_code actual, mapped_message actual))).

Definition REPLAY_FOLLOW : string :=
  "request.method, " ++ dumps_str "events.replay" ++ ") or std.mem.eql(u8, request.method, " ++ dumps_str "events.follow".

Section Files.
Variable F : fs.

Definition load_taxonomy_codes (docs : path) : result (list string) :=
  let* text := read_text F (div_path docs "incident-taxonomy.md") in
  match map (group "1") (re_finditer CODE_ROW_RE text) with
  | [] => fail "incident taxonomy has no code rows"
  | codes => Ok codes
  end.

Definition validate_daemon_source (daemon : path) : result unit :=
  let* text := read_text F daemon in
  for_each METHOD_SPECS (fun method =>
    demand (contains (dumps_str (fst method)) text) ("daemon source missing method: " ++ fst method)) ;;;
  for_each SCHEMA_STRINGS (fun schema => demand (contains schema text) ("daemon source missing schema string: " ++ schema)) ;;;
  validate_write_rpc_error_serializer text ;;;
  validate_daemon_error_mappings text ;;;
  demand (contains "host_mutation" text && contains "false" text)
    "daemon source missing host_mutation=false JSON-RPC result/error invariant" ;;;
  demand (contains REPLAY_FOLLOW text) "daemon source must keep events.follow replay-equivalent with events.replay".

Definition validate_socket_test (p : path) : result unit :=
  let* text := read_text F p in
  for_each SOCKET_METHODS (fun method => demand (contains method text) ("socket RPC test missing method coverage: " ++ method)) ;;;
  for_each ERROR_INCIDENTS (fun incident => demand (contains incident text) ("socket RPC test missing incident coverage: " ++ incident)) ;;;
  for_each (map snd ERROR_JSON_RPC_MAPPING) (fun mapping =>
    demand (contains (str_Z (fst mapping)) text && contains (snd mapping) text)
      ("socket RPC test missing error code/message assertion: " ++ pair_text mapping)) ;;;
  demand (contains "host_mutation" text && contains "False" text) "socket RPC test must assert host_mutation=false".
End Files.

(** * Specification *)

(** ** Function bodies

    The inside of a string literal, and a text whose braces outside literals match. *)
Inductive Literal : string -> Prop :=
| Lit_nil : Literal ""
| Lit_char c s : c <> dquote -> (code c =? 92)%N = false -> Literal s -> Literal (String c s)
| Lit_escape b c s : (code b =? 92)%N = true -> Literal s -> Literal (String b (String c s)).
Inductive Balanced : string -> Prop :=
| Bal_nil : Balanced ""
| Bal_char c s : c <> dquote -> c <> "{"%char -> c <> "}"%char -> Balanced s -> Balanced (String c s)
| Bal_literal l s : Literal l -> Balanced s -> Balanced (String dquote (l ++ String dquote s))
| Bal_block b s : Balanced b -> Balanced s -> Balanced ("{" ++ b ++ "}" ++ s).

(** The first occurrence of a text, with what precedes and what follows it. *)
Definition first_at (text needle pre post : string) : Prop :=
  text = pre ++ needle ++ post /\ forall pre' post', text = pre' ++ needle ++ post' -> len pre <= len pre'.
(** The text between the first opening brace after the first [fn name(] and the
    brace that closes it. *)
Definition function_body (text name body : string) : Prop :=
  exists before after head post, first_at text ("fn " ++ name ++ "(") before after
    /\ first_at (("fn " ++ name ++ "(") ++ after) "{" head (body ++ "}" ++ post) /\ Balanced body.

(** ** The daemon, its test and the taxonomy *)
Definition has_all (text : string) (needles : list string) : Prop :=
  forall needle, In needle needles -> exists a b, text = a ++ needle ++ b.

(** What a call of [writeRpcError] writes. *)
Definition writes (found : rstate * rstate) (mapping : DaemonErrorMapping) : Prop :=
  mapped_incident mapping = group "3" found /\ signed_int (group "1" found) = Ok (mapped_code mapping)
  /\ mapped_message mapping = group "2" found.
(** The code and the message the contract gives an incident. *)
Definition expected_mapping (mapping : DaemonErrorMapping) : Prop :=
  exists component, In (mapped_incident mapping, component) ERROR_COMPONENT_BY_INCIDENT
    /\ In (component, (mapped_code mapping, mapped_message mapping)) ERROR_JSON_RPC_MAPPING.
(** Every call writes an expected mapping, and every incident is written. *)
Record errors_written (text : string) : Prop := {
  ew_expected : forall found, In found (re_finditer WRITE_RPC_ERROR_RE text) ->
    exists mapping, writes found mapping /\ expected_mapping mapping;
  ew_complete : forall incident, In incident ERROR_INCIDENTS ->
    exists found, In found (re_finditer WRITE_RPC_ERROR_RE text) /\ group "3" found = incident;
}.

Definition SERIALIZED : list string :=
  [".{code}"; "writeJsonString(&writer.writer, message)"; "writeJsonString(&writer.writer, incident_code)"].
Definition daemon_ok (F : fs) (daemon : path) : Prop :=
  exists text, read_text F daemon = Ok text
    /\ has_all text (map (fun method => dumps_str (fst method)) METHOD_SPECS)
    /\ has_all text (SCHEMA_STRINGS ++ ["host_mutation"; "false"; REPLAY_FOLLOW])
    /\ (exists body, function_body text "writeRpcError" body /\ has_all body SERIALIZED)
    /\ errors_written text.
Definition socket_test_ok (F : fs) (p : path) : Prop :=
  exists text, read_text F p = Ok text /\ has_all text (SOCKET_METHODS ++ ERROR_INCIDENTS ++ ["host_mutation"; "False"])
    /\ forall component code message, In (component, (code, message)) ERROR_JSON_RPC_MAPPING -> has_all text [str_Z code; message].

(** ** Lemmas on the scanner *)
Lemma scan_literal depth l s : Literal l -> scan_body depth true false (l ++ String dquote s) = option_map (append (l ++ String dquote "")) (scan_body depth false false s).
Proof.
  induction 1 as [|c l Hc Hb _ IH|b c l Hb _ IH].
  - change ("" ++ String dquote s) with (String dquote s). change (append ("" ++ String dquote "")) with (String dquote).
    cbn [scan_body]. replace (code dquote =? 92)%N with false by reflexivity. rewrite Ascii.eqb_refl. by destruct (scan_body depth false false s).
  - rewrite append_cons. cbn [scan_body]. rewrite Hb. destruct (Ascii.eqb_spec c dquote); [done|]. rewrite IH.
    destruct (scan_body depth false false s); cbn [option_map]; [|done]. by rewrite !append_cons.
  - rewrite !append_cons. cbn [scan_body]. rewrite Hb. rewrite IH.
    destruct (scan_body depth false false s); cbn [option_map]; [|done]. by rewrite !append_cons.
Qed.

(** A balanced text is passed over at any depth. *)
Lemma scan_balanced b : Balanced b -> forall depth s, scan_body depth false false (b ++ s) = option_map (append b) (scan_body depth false false s).
Proof.
  induction 1 as [|c b Hq Ho Hc _ IH|l b Hl _ IH|b1 b2 _ IH1 _ IH2]; intros depth s.
  - change ("" ++ s) with s. by destruct (scan_body depth false false s).
  - rewrite append_cons. cbn [scan_body]. destruct (Ascii.eqb_spec c dquote), (Ascii.eqb_spec c "{"), (Ascii.eqb_spec c "}"); try done.
    rewrite IH. destruct (scan_body depth false false s); cbn [option_map]; [|done]. by rewrite append_cons.
  - rewrite append_cons, append_assoc, append_cons. cbn [scan_body]. rewrite Ascii.eqb_refl. cbv zeta. rewrite scan_literal, IH by done.
    destruct (scan_body depth false false s); cbn [option_map]; [|done]. by rewrite append_cons, !append_assoc.
  - rewrite !append_assoc. rewrite append_cons. cbn [scan_body]. change ("" ++ b1 ++ "}" ++ b2 ++ s) with (b1 ++ "}" ++ b2 ++ s).
    cbn [Ascii.eqb Bool.eqb]. rewrite IH1. rewrite append_cons. cbn [scan_body Ascii.eqb Bool.eqb]. change ("" ++ b2 ++ s) with (b2 ++ s). rewrite IH2.
    destruct (scan_body depth false false s) as [r|]; cbn [option_map]; [|done]. f_equal. by rewrite !append_assoc, !append_cons.
Qed.

(** Texts that close [depth] braces more than they open. *)
Fixpoint nest (depth : nat) (b : string) : Prop :=
  match depth with
  | 0 => Balanced b
  | S depth => exists b0 b', Balanced b0 /\ nest depth b' /\ b = b0 ++ "}" ++ b'
  end.
Lemma nest_prefix p depth b : (forall s, Balanced s -> Balanced (p ++ s)) -> nest depth b -> nest depth (p ++ b).
Proof.
  intros Hp. destruct depth as [|depth]; cbn [nest]; [apply Hp|].
  intros (b0 & b' & H0 & Hb & ->). exists (p ++ b0), b'. split_and!; [by apply Hp | done | by rewrite append_assoc].
Qed.
Lemma scan_in_literal depth b s :
  (forall escaped, scan_body depth true escaped s = Some b ->
     exists e l s' b', s = e ++ l ++ String dquote s' /\ Literal l /\ b = e ++ l ++ String dquote b' /\ scan_body depth false false s' = Some b'
       /\ (escaped = false -> e = "") /\ (escaped = true -> exists c, e = String c "")).
Proof.
  revert b. induction s as [|c s IH]; intros b escaped; [done|]. cbn [scan_body]. destruct escaped.
  - destruct (scan_body depth true false s) as [b1|] eqn:E; [|done]. intros [= <-].
    destruct (IH _ _ E) as (e & l & s' & b' & -> & Hl & -> & Hs & He & _). rewrite He by done.
    exists (String c ""), l, s', b'. split_and!; try done. intros _. by exists c.
  - destruct (code c =? 92)%N eqn:Hb.
    + destruct (scan_body depth true true s) as [b1|] eqn:E; [|done]. intros [= <-].
      destruct (IH _ _ E) as (e & l & s' & b' & -> & Hl & -> & Hs & _ & He). destruct (He eq_refl) as (d & ->).
      exists "", (String c (String d l)), s', b'. split_and!; try done. by apply Lit_escape.
    + destruct (Ascii.eqb_spec c dquote) as [->|Hq].
      * destruct (scan_body depth false false s) as [b1|] eqn:E; [|done]. intros [= <-].
        exists "", "", s, b1. split_and!; try done. constructor.
      * destruct (scan_body depth true false s) as [b1|] eqn:E; [|done]. intros [= <-].
        destruct (IH _ _ E) as (e & l & s' & b' & -> & Hl & -> & Hs & He & _). rewrite He by done.
        exists "", (String c l), s', b'. split_and!; try done. by apply Lit_char.
Qed.

Lemma scan_sound n : forall s, len s <= n -> forall depth b, scan_body depth false false s = Some b -> nest depth b /\ exists r, s = b ++ "}" ++ r.
Proof.
  induction n as [|n IH]; intros [|c s] Hn depth b; try done; [cbn in Hn; lia|]. assert (Hs : len s <= n) by (cbn in Hn; unfold len; lia).
  cbn [scan_body]. cbv zeta. destruct (Ascii.eqb_spec c dquote) as [->|Hq].
  { destruct (scan_body depth true false s) as [b1|] eqn:E; [|done]. intros [= <-].
    destruct (scan_in_literal _ _ _ _ E) as (e & l & s' & b' & -> & Hl & -> & Hb & He & _). rewrite He by done.
    destruct (IH s') with (depth := depth) (b := b') as [Hnest (r & ->)]; [|done|].
    { rewrite !len_append in Hs. change (len (String dquote s')) with (S (len s')) in Hs. lia. }
    change ("" ++ l ++ String dquote b') with (l ++ String dquote b'). split.
    - replace (String dquote (l ++ String dquote b')) with ((String dquote l ++ String dquote "") ++ b') by (by rewrite append_assoc, !append_cons).
      apply nest_prefix; [|done]. intros t Ht. rewrite append_assoc, !append_cons. by apply Bal_literal.
    - exists r. by rewrite !append_cons, !append_assoc, append_cons. }
  destruct (Ascii.eqb_spec c "{") as [->|Ho].
  { destruct (scan_body (S depth) false false s) as [b1|] eqn:E; [|done]. intros [= <-].
    destruct (IH _ Hs _ _ E) as [(b0 & b' & H0 & Hnest & ->) (r & ->)]. split.
    - replace (String "{" (b0 ++ "}" ++ b')) with (("{" ++ b0 ++ "}") ++ b') by (by rewrite !append_assoc).
      apply nest_prefix; [|done]. intros t Ht. rewrite !append_assoc. by apply Bal_block.
    - exists r. by rewrite !append_cons. }
  destruct (Ascii.eqb_spec c "}") as [->|Hc].
  { destruct depth as [|depth]; [intros [= <-]; split; [constructor | by exists s]|].
    destruct (scan_body depth false false s) as [b1|] eqn:E; [|done]. intros [= <-].
    destruct (IH _ Hs _ _ E) as [Hnest (r & ->)]. split; [exists "", b1; by split_and!; [constructor|..] | exists r; by rewrite !append_cons]. }
  destruct (scan_body depth false false s) as [b1|] eqn:E; [|done]. intros [= <-]. destruct (IH _ Hs _ _ E) as [Hnest (r & ->)]. split.
  - apply (nest_prefix (String c "")); [|done]. intros t Ht. by apply Bal_char.
  - exists r. by rewrite !append_cons.
Qed.

(** The scanner answers the balanced text before the brace that closes it, and
    answers whenever there is one. *)
Lemma body_scan_iff s b : scan_body 0 false false s = Some b <-> Balanced b /\ exists r, s = b ++ "}" ++ r.
Proof.
  split; [by apply (scan_sound (len s))|]. intros [Hb (r & ->)]. rewrite scan_balanced by done. rewrite append_cons. cbn [scan_body].
  change (Some (b ++ "") = Some b). f_equal. apply append_nil_r.
Qed.

Lemma find_iff s needle i : find s needle = Some i <->
  (exists pre r, s = pre ++ needle ++ r /\ len pre = i) /\ forall pre r, s = pre ++ needle ++ r -> i <= len pre.
Proof.
  revert i. induction s as [|c s IH]; intros i; cbn [find]; destruct (startswith _ needle) eqn:E.
  1, 3: apply startswith_iff in E as (r & E); split;
    [intros [= <-]; split; [exists "", r; split; [exact E | done] | intros; lia] | intros [_ H]; f_equal; specialize (H "" r E); cbn in H; lia].
  - split; [done|]. intros [(pre & r & Hs & _) _]. exfalso. apply not_true_iff_false in E. apply E, startswith_iff.
    destruct pre; [by exists r | done].
  - assert (Hne : forall pre r, String c s = pre ++ needle ++ r -> exists pre', pre = String c pre' /\ s = pre' ++ needle ++ r).
    { intros [|d pre] r Hs; [|rewrite append_cons in Hs; injection Hs as <- Hs; by exists pre].
      exfalso. apply not_true_iff_false in E. apply E, startswith_iff. by exists r. }
    destruct (find s needle) as [j|] eqn:Ej; cbn [option_map].
    + destruct (proj1 (IH j) eq_refl) as [(pre & r & Hs & Hl) Hmin]. split.
      * intros [= <-]. split; [exists (String c pre), r; split; [by rewrite Hs | cbn; unfold len in *; lia]|].
        intros p q H. destruct (Hne _ _ H) as (p' & -> & H'). specialize (Hmin _ _ H'). cbn. unfold len in *. lia.
      * intros [(p & q & H & Hp) Hm]. destruct (Hne _ _ H) as (p' & -> & H'). specialize (Hmin _ _ H').
        assert (Hs' : String c s = String c pre ++ needle ++ r) by (by rewrite Hs). specialize (Hm _ _ Hs'). cbn in *. unfold len in *. f_equal. lia.
    + split; [done|]. intros [(p & q & H & Hp) _]. destruct (Hne _ _ H) as (p' & -> & H'). exfalso.
      assert (Hc : contains needle s = true) by (apply contains_iff; by exists p', q).
      clear - Hc Ej. revert Ej. induction s as [|d s IH]; cbn [find contains] in *; destruct (startswith _ needle); try done.
      intros Ej. destruct (find s needle); [done|]. by apply IH.
Qed.

Lemma daemon_found_first s needle i : find s needle = Some i <-> exists pre post, first_at s needle pre post /\ len pre = i.
Proof. unfold first_at. rewrite find_iff. naive_solver. Qed.
Lemma first_at_unique s needle a b a' b' : first_at s needle a b -> first_at s needle a' b' -> a = a' /\ b = b'.
Proof.
  intros [Hs Hm] [Hs' Hm']. assert (Hl : len a = len a') by (apply Nat.le_antisymm; [by eapply Hm | by eapply Hm']).
  assert (Ha : a = a'). { rewrite <- (take_app a (needle ++ b)), <- (take_app a' (needle ++ b')), <- Hs, Hl. by rewrite <- Hs'. }
  subst a'. split; [done|]. rewrite Hs in Hs'. by apply append_inj, append_inj in Hs'.
Qed.
Lemma first_at_drop s needle pre post : first_at s needle pre post -> drop_str (len pre) s = needle ++ post.
Proof. intros [-> _]. apply drop_app. Qed.

Lemma function_body_ok text name body : extract_function_body text name = Ok body <-> function_body text name body.
Proof.
  unfold extract_function_body, function_body. split.
  - destruct (find text _) as [i|] eqn:Ei; [|done]. apply daemon_found_first in Ei as (before & after & Hf & <-).
    rewrite (first_at_drop _ _ _ _ Hf).
    destruct (find _ "{") as [j|] eqn:Ej; [|done]. apply daemon_found_first in Ej as (head & rest & Hh & <-). pose proof Hh as [Hrest _].
    replace (drop_str (S (len head)) _) with rest; [|rewrite Hrest, <- append_assoc; symmetry;
      replace (S (len head)) with (len (head ++ "{")) by (rewrite len_append; cbn; lia); apply drop_app].
    destruct (scan_body _ _ _ _) as [b|] eqn:Eb; [|done]. intros [= <-]. apply body_scan_iff in Eb as [Hb (post & ->)].
    by exists before, after, head, post.
  - intros (before & after & head & post & Hf & Hh & Hb). rewrite (proj2 (daemon_found_first text _ _) (ex_intro _ before (ex_intro _ after (conj Hf eq_refl)))).
    rewrite (first_at_drop _ _ _ _ Hf), (proj2 (daemon_found_first _ "{" _) (ex_intro _ head (ex_intro _ _ (conj Hh eq_refl)))).
    pose proof Hh as [-> _]. rewrite <- append_assoc. replace (S (len head)) with (len (head ++ "{")) by (rewrite len_append; cbn; lia).
    rewrite drop_app. by rewrite (proj2 (body_scan_iff _ body) (conj Hb (ex_intro _ post eq_refl))).
Qed.

(** ** Lemmas on the mappings *)
Lemma assoc_snoc {A} k i (v : A) l : assoc k (l ++ [(i, v)]) = match assoc k l with Some x => Some x | None => if String.eqb k i then Some v else None end.
Proof. induction l as [|[j w] l IH]; [done|]. cbn [app assoc]. by destruct (String.eqb k j). Qed.
Lemma mapping_eqb_eq a b : mapping_eqb a b = true <-> a = b.
Proof.
  unfold mapping_eqb. rewrite !andb_true_iff, !String.eqb_eq, Z.eqb_eq. destruct a, b. cbn. naive_solver.
Qed.
Lemma demand_ok b m u : demand b m = Ok u <-> b = true.
Proof. apply ensure_ok. Qed.

(** One turn of the loop over the calls. *)
Definition mapping_step (i : nat) (found : rstate * rstate) (mappings : list (string * DaemonErrorMapping)) : result (list (string * DaemonErrorMapping)) :=
  let* code := signed_int (group "1" found) in
  let message := group "2" found in
  let incident := group "3" found in
  demand (mem incident ERROR_INCIDENTS) ("daemon source has unexpected JSON-RPC incident mapping: " ++ incident) ;;;
  let mapping := MkMapping incident code message in
  match assoc incident mappings with
  | Some previous =>
      demand (mapping_eqb previous mapping) ("daemon source has conflicting JSON-RPC mapping for incident: " ++ incident) ;;;
      Ok mappings
  | None => Ok (mappings ++ [(incident, mapping)])%list
  end.
Lemma mapping_step_ok i found acc acc' : mapping_step i found acc = Ok acc' <->
  exists m, writes found m /\ In (mapped_incident m) ERROR_INCIDENTS
    /\ ((assoc (mapped_incident m) acc = Some m /\ acc' = acc) \/ (assoc (mapped_incident m) acc = None /\ acc' = (acc ++ [(mapped_incident m, m)])%list)).
Proof.
  unfold mapping_step, writes. cbv zeta. split.
  - intros (c & Hc & [Hi%demand_ok%mem_In H]%bind_ok_unit)%bind_ok. exists (MkMapping (group "3" found) c (group "2" found)). cbn [mapped_incident mapped_code mapped_message].
    split_and!; try done. destruct (assoc _ acc) as [prev|]; [|injection H as <-; by right].
    apply bind_ok_unit in H as [->%demand_ok%mapping_eqb_eq [= <-]]. by left.
  - intros ([inc c msg] & (H1 & Hc & H2) & Hi & H). cbn [mapped_incident mapped_code mapped_message] in *. subst inc msg. rewrite Hc. cbn [bind].
    apply bind_ok_unit. split; [by apply demand_ok, mem_In|]. destruct H as [[-> ->]|[-> ->]]; [|done].
    apply bind_ok_unit. split; [by apply demand_ok, mapping_eqb_eq | done].
Qed.
Lemma writes_unique found m m' : writes found m -> writes found m' -> m = m'.
Proof. destruct m, m'. intros (? & Hc & ?) (? & Hc' & ?). cbn in *. subst. rewrite Hc in Hc'. by injection Hc' as ->. Qed.

(** The collected mappings: of each call its own, and of nothing else. *)
Lemma mappings_sound founds : forall i acc acc', for_fold i founds acc mapping_step = Ok acc' ->
  (forall k m, assoc k acc = Some m -> assoc k acc' = Some m)
  /\ (forall found, In found founds -> exists m, writes found m /\ In (mapped_incident m) ERROR_INCIDENTS /\ assoc (mapped_incident m) acc' = Some m)
  /\ (forall k, In k (map fst acc') <-> In k (map fst acc) \/ exists found, In found founds /\ group "3" found = k).
Proof.
  induction founds as [|found founds IH]; intros i acc acc'; cbn [for_fold].
  - intros [= <-]. split; [done|]. split; [done|]. intros k. split; [by left | by intros [?|(? & [] & _)]].
  - intros (mid & (m & Hw & Hi & Hmid)%mapping_step_ok & (Hk & Hf & Hd)%IH)%bind_ok.
    assert (Ha : assoc (mapped_incident m) mid = Some m).
    { destruct Hmid as [[? ->]|[Hn ->]]; [done|]. by rewrite assoc_snoc, Hn, String.eqb_refl. }
    pose proof Hw as (Hg & _). split_and!.
    + intros k m' H'. apply Hk. destruct Hmid as [[? ->]|[Hn ->]]; [done|]. by rewrite assoc_snoc, H'.
    + intros f [->|Hin]; [|by apply Hf]. exists m. split_and!; try done. by apply Hk.
    + intros k. rewrite Hd. cbn [In]. assert (Hm : In k (map fst mid) <-> In k (map fst acc) \/ k = mapped_incident m).
      { destruct Hmid as [[Hs ->]|[_ ->]]; [|rewrite map_app, in_app_iff; cbn; naive_solver].
        split; [by left|]. intros [? | ->]; [done|]. clear - Hs. induction acc as [|[j w] acc IH]; [done|]. cbn in *.
        destruct (String.eqb_spec (mapped_incident m) j) as [->|]; [by left | right; by apply IH]. }
      rewrite Hm, Hg. naive_solver.
Qed.
(** Calls that agree on a mapping per incident are collected. *)
Lemma mappings_complete (E : string -> DaemonErrorMapping) founds : forall i acc,
  (forall found, In found founds -> In (group "3" found) ERROR_INCIDENTS /\ writes found (E (group "3" found))) ->
  (forall k m, assoc k acc = Some m -> m = E k) ->
  exists acc', for_fold i founds acc mapping_step = Ok acc' /\ forall k m, assoc k acc' = Some m -> m = E k.
Proof.
  induction founds as [|found founds IH]; intros i acc Hf Ha; cbn [for_fold]; [by exists acc|].
  destruct (Hf found (or_introl eq_refl)) as [Hi Hw]. pose proof Hw as (Hg & _). set (m := E (group "3" found)) in *.
  assert (Hs : exists mid, mapping_step i found acc = Ok mid /\ forall k m, assoc k mid = Some m -> m = E k).
  { destruct (assoc (mapped_incident m) acc) as [prev|] eqn:Ep.
    - exists acc. split; [|done]. apply mapping_step_ok. exists m. rewrite Hg in *. split_and!; try done. left. split; [|done]. rewrite Ep. f_equal. by apply Ha.
    - exists (acc ++ [(mapped_incident m, m)])%list. split; [apply mapping_step_ok; exists m; rewrite Hg in *; split_and!; try done; by right|].
      intros k m'. rewrite assoc_snoc. destruct (assoc k acc) as [x|] eqn:Ex; [intros [= <-]; by apply Ha|].
      destruct (String.eqb_spec k (mapped_incident m)) as [->|]; [|done]. intros [= <-]. by rewrite Hg. }
  destruct Hs as (mid & -> & Hmid). cbn [bind]. apply IH; [|done]. intros f Hin. by apply Hf; right.
Qed.

Lemma item_ok {A} key (d : list (string * A)) v : item key d = Ok v <-> assoc key d = Some v.
Proof. unfold item. destruct (assoc key d); split; intros [=]; by subst. Qed.
Lemma components_named k c : assoc k ERROR_COMPONENT_BY_INCIDENT = Some c <-> In (k, c) ERROR_COMPONENT_BY_INCIDENT.
Proof. apply assoc_In. by apply (bool_decide_unpack _); vm_compute. Qed.
Lemma mappings_named k c : assoc k ERROR_JSON_RPC_MAPPING = Some c <-> In (k, c) ERROR_JSON_RPC_MAPPING.
Proof. apply assoc_In. by apply (bool_decide_unpack _); vm_compute. Qed.
Lemma expected_mapping_iff m : expected_mapping m <->
  exists component, assoc (mapped_incident m) ERROR_COMPONENT_BY_INCIDENT = Some component
    /\ assoc component ERROR_JSON_RPC_MAPPING = Some (mapped_code m, mapped_message m).
Proof. unfold expected_mapping. setoid_rewrite components_named. by setoid_rewrite mappings_named. Qed.
Lemma expected_incident m : expected_mapping m -> In (mapped_incident m) ERROR_INCIDENTS.
Proof. intros (c & H & _). apply (in_map fst) in H. exact H. Qed.
Lemma expected_unique m m' : expected_mapping m -> expected_mapping m' -> mapped_incident m = mapped_incident m' -> m = m'.
Proof.
  destruct m, m'. rewrite !expected_mapping_iff. intros (c & H1 & H2) (c' & H1' & H2') Hi. cbn in *. subst. rewrite H1 in H1'. injection H1' as <-.
  rewrite H2 in H2'. by injection H2' as -> ->.
Qed.
Lemma incident_expected i : In i ERROR_INCIDENTS -> exists m, mapped_incident m = i /\ expected_mapping m.
Proof.
  intros H. cbn [ERROR_INCIDENTS In] in H.
  destruct H as [<-|[<-|[<-|[<-|[<-|[]]]]]]; (eexists (MkMapping _ _ _); split; [reflexivity|]; apply expected_mapping_iff; eexists; split; reflexivity).
Qed.
Definition expected_of (incident : string) : DaemonErrorMapping :=
  match assoc incident ERROR_COMPONENT_BY_INCIDENT with
  | Some component => match assoc component ERROR_JSON_RPC_MAPPING with Some (c, m) => MkMapping incident c m | None => MkMapping incident 0 "" end
  | None => MkMapping incident 0 ""
  end.
Lemma expected_of_iff m : expected_mapping m -> expected_of (mapped_incident m) = m.
Proof. rewrite expected_mapping_iff. intros (c & H1 & H2). unfold expected_of. rewrite H1, H2. by destruct m. Qed.

Lemma mapping_checked mappings : for_each ERROR_INCIDENTS (fun incident =>
    let* component := item incident ERROR_COMPONENT_BY_INCIDENT in
    let* expected := item component ERROR_JSON_RPC_MAPPING in
    let* actual := item incident mappings in
    demand (Z.eqb (mapped_code actual) (fst expected) && String.eqb (mapped_message actual) (snd expected))
      ("daemon source JSON-RPC mapping mismatch for " ++ incident ++ ": expected " ++ pair_text expected ++ ", got "
       ++ pair_text (mapped_code actual, mapped_message actual))) = Ok tt <->
  forall incident, In incident ERROR_INCIDENTS -> exists actual, assoc incident mappings = Some actual
    /\ mapped_code actual = mapped_code (expected_of incident) /\ mapped_message actual = mapped_message (expected_of incident).
Proof.
  rewrite for_each_ok, Forall_forall. setoid_rewrite list_elem_of_In. apply forall_proper. intros incident.
  split; intros H Hin; specialize (H Hin); destruct (incident_expected _ Hin) as (m & Hi & He); pose proof (expected_of_iff _ He) as Hof; rewrite Hi in Hof;
    rewrite Hof in *; apply expected_mapping_iff in He as (c & H1 & H2); rewrite Hi in H1.
  - apply bind_ok in H as (c' & Hc'%item_ok & (x & Hx%item_ok & (actual & Ha%item_ok & Hd%demand_ok)%bind_ok)%bind_ok). rewrite H1 in Hc'. injection Hc' as <-.
    rewrite H2 in Hx. injection Hx as <-. cbn [fst snd] in Hd. apply andb_true_iff in Hd as [Hd1%Z.eqb_eq Hd2%String.eqb_eq]. by exists actual.
  - destruct H as (actual & Ha & Hc & Hm). apply bind_ok. exists c. split; [by apply item_ok|]. apply bind_ok. exists (mapped_code m, mapped_message m).
    split; [by apply item_ok|]. apply bind_ok. exists actual. split; [by apply item_ok|]. apply demand_ok. cbn [fst snd]. by rewrite Hc, Hm, Z.eqb_refl, String.eqb_refl.
Qed.

Lemma errors_written_ok text : validate_daemon_error_mappings text = Ok tt <-> errors_written text.
Proof.
  assert (Hmiss : forall A (l : list (string * A)), match sorted (set_diff ERROR_INCIDENTS (map fst l)) with [] => true | _ => false end = true <->
    forall i, In i ERROR_INCIDENTS -> In i (map fst l)).
  { intros A l. rewrite <- no_extra. by destruct (sorted _). }
  unfold validate_daemon_error_mappings.
  change (extract_daemon_error_mappings text) with (for_fold 0 (re_finditer WRITE_RPC_ERROR_RE text) [] mapping_step). cbv zeta. split.
  - intros (mappings & (_ & Hf & Hd)%mappings_sound & [Hm%demand_ok Hc]%bind_ok_unit)%bind_ok. rewrite Hmiss in Hm. rewrite mapping_checked in Hc.
    split.
    + intros found Hin. destruct (Hf _ Hin) as (m & Hw & Hi & Ha). exists m. split; [done|]. destruct (Hc _ Hi) as (actual & Ha' & H1 & H2).
      rewrite Ha in Ha'. injection Ha' as <-. destruct (incident_expected _ Hi) as (e & He & Hexp). pose proof (expected_of_iff _ Hexp) as Hof. rewrite He in Hof.
      rewrite Hof in *. destruct m, e. cbn in *. by subst.
    + intros i Hi. destruct (proj1 (Hd i) (Hm i Hi)) as [[]|?]. done.
  - intros [He Hc]. destruct (mappings_complete expected_of (re_finditer WRITE_RPC_ERROR_RE text) 0 []) as (mappings & Hf & Ha).
    { intros found Hin. destruct (He _ Hin) as (m & Hw & Hm). pose proof Hw as (Hg & _). rewrite <- Hg, expected_of_iff by done. split; [by apply expected_incident | done]. }
    { done. }
    apply bind_ok. exists mappings. split; [done|]. destruct (mappings_sound _ _ _ _ Hf) as (_ & Hs & Hd). apply bind_ok_unit. split.
    + apply demand_ok, Hmiss. intros i Hi. apply Hd. right. by apply Hc.
    + apply mapping_checked. intros i Hi. destruct (Hc _ Hi) as (found & Hin & <-). destruct (Hs _ Hin) as (m & Hw & _ & Hm).
      pose proof Hw as (Hg & _). rewrite Hg in Hm. exists m. split; [done|]. by rewrite (Ha _ _ Hm).
Qed.

(** ** The daemon and its test *)
Lemma has_all_ok {A} (l : list A) (f : A -> string) m text : for_each l (fun x => demand (contains (f x) text) (m x)) = Ok tt <-> has_all text (map f l).
Proof.
  unfold has_all. rewrite for_each_ok, Forall_forall. setoid_rewrite list_elem_of_In. setoid_rewrite demand_ok. setoid_rewrite contains_iff. setoid_rewrite in_map_iff. naive_solver.
Qed.
Lemma has_all_app text l l' : has_all text (l ++ l') <-> has_all text l /\ has_all text l'.
Proof. unfold has_all. setoid_rewrite in_app_iff. naive_solver. Qed.
Lemma has_all_cons text x l : has_all text (x :: l) <-> (exists a b, text = a ++ x ++ b) /\ has_all text l.
Proof. unfold has_all. cbn [In]. naive_solver. Qed.
Lemma has_all_nil text : has_all text [] <-> True.
Proof. unfold has_all. naive_solver. Qed.
Lemma has_one text x m : demand (contains x text) m = Ok tt <-> exists a b, text = a ++ x ++ b.
Proof. by rewrite demand_ok, contains_iff. Qed.
Lemma has_two text x y m : demand (contains x text && contains y text) m = Ok tt <-> (exists a b, text = a ++ x ++ b) /\ exists a b, text = a ++ y ++ b.
Proof. by rewrite demand_ok, andb_true_iff, !contains_iff. Qed.

Lemma serializer_ok text : validate_write_rpc_error_serializer text = Ok tt <-> exists body, function_body text "writeRpcError" body /\ has_all body SERIALIZED.
Proof.
  unfold validate_write_rpc_error_serializer, SERIALIZED. rewrite bind_ok. setoid_rewrite function_body_ok.
  split; intros (body & Hb & H); exists body; (split; [done|]); revert H; rewrite !bind_ok_unit, !has_one, !has_all_cons, has_all_nil; tauto.
Qed.
Lemma daemon_checked F daemon : validate_daemon_source F daemon = Ok tt <-> daemon_ok F daemon.
Proof.
  unfold validate_daemon_source, daemon_ok. rewrite bind_ok.
  split; intros (text & Ht & H); exists text; (split; [done|]); revert H; rewrite !bind_ok_unit, !has_all_ok, serializer_ok, errors_written_ok, has_two, has_one,
    map_id, has_all_app, !has_all_cons, has_all_nil; tauto.
Qed.
Lemma socket_test_accepted F p : validate_socket_test F p = Ok tt <-> socket_test_ok F p.
Proof.
  assert (Hm : forall text, for_each (map snd ERROR_JSON_RPC_MAPPING) (fun mapping =>
      demand (contains (str_Z (fst mapping)) text && contains (snd mapping) text) ("socket RPC test missing error code/message assertion: " ++ pair_text mapping)) = Ok tt <->
    forall component code message, In (component, (code, message)) ERROR_JSON_RPC_MAPPING -> has_all text [str_Z code; message]).
  { intros text. rewrite for_each_ok, Forall_forall. setoid_rewrite list_elem_of_In. setoid_rewrite has_two. setoid_rewrite has_all_cons. setoid_rewrite has_all_cons.
    setoid_rewrite has_all_nil. setoid_rewrite in_map_iff. split.
    - intros H component c m Hin. split; [|split; [|done]]; by apply (H (c, m)); exists (component, (c, m)).
    - intros H [c m] ((component & x) & [= ->] & Hin). cbn [fst snd]. destruct (H _ _ _ Hin) as (? & ? & _). done. }
  unfold validate_socket_test, socket_test_ok. rewrite bind_ok.
  split; intros (text & Ht & H); exists text; (split; [done|]); revert H; rewrite !bind_ok_unit, !has_all_ok, Hm, has_two, !map_id, !has_all_app, !has_all_cons, has_all_nil; tauto.
Qed.
