(* ===== verification/OpenRpc.v ===== *)
(** OpenRpc: qa/openrpc_contract_validate.py and qa/openrpc_contract_check.py: the
    OpenRPC contract of the daemon against its documents, its source and its test.

    The rehearsal of [--self-test] is an argument of [main]. *)
From S2P Require Import Prelude PyStr PyRe PyFloat PyJson Sha256 PyFs PyMain Fields DaemonEvent OpenRpcDaemon.

Local Open Scope string_scope.

(** * qa/openrpc_contract_validate.py *)
Definition GUARDRAIL_WORDS : list string := ["http"; "sse"; "browser"; "frontend"; "ui"; "production"].
Definition RESULT_SCHEMAS : list string := ["DaemonVersionResult"; "TargetsListResult"; "EventsResult"; "RpcErrorData"].
Definition VERSION_FIELDS : list (string * string) := [
  ("event_schema", "zig-scheduler/daemon-event/v1"); ("action_schema", "zig-scheduler/operator-action/v1");
  ("runtime_sample_schema", "zig-scheduler/runtime-sample/v1")].

(** [repr] of tuples and lists of texts *)
Definition tuple_repr (l : list string) : string :=
  match l with [x] => "(" ++ repr_str x ++ ",)" | _ => "(" ++ join ", " (map repr_str l) ++ ")" end.
Definition list_repr (l : list string) : string := "[" ++ join ", " (map repr_str l) ++ "]".

Definition validate_required_contract_header (contract : jobject) : result unit :=
  let* openrpc := string_field contract "openrpc" "contract" in
  demand (String.eqb openrpc "1.4.0") "contract.openrpc must be 1.4.0" ;;;
  let* schema := string_field contract "$schema" "contract" in
  demand (String.eqb schema "https://meta.open-rpc.org/") "contract.$schema must point at the OpenRPC meta-schema" ;;;
  let* backend := bool_field contract "x-backend-only" "contract" in
  demand backend "contract must declare x-backend-only=true" ;;;
  let* mutation := bool_field contract "x-host-mutation" "contract" in
  demand (negb mutation) "contract must declare x-host-mutation=false" ;;;
  let* info := object_field contract "info" "contract" in
  let* text := string_field info "description" "contract.info" in
  let description := lower text in
  demand (contains "no frontend" description && contains "http" description)
    "contract.info.description must explicitly reject non-backend transports/claims" ;;;
  demand (forallb (fun word => contains word description) GUARDRAIL_WORDS)
    "contract.info.description missing backend-only guardrail words".

Definition validate_param_shape (param : jobject) (method_name : string) (index : nat) : result unit :=
  let context := method_name ++ ".params[" ++ str_nat index ++ "]" in
  let* name := string_field param "name" context in
  if String.eqb name "action_json" then
    let* required := bool_field param "required" context in
    demand required (method_name ++ " action_json must be required") ;;;
    let* schema := object_field param "schema" context in
    demand (py_eq (get schema "type") (JStr "string")) (method_name ++ " action_json schema must be string")
  else if String.eqb name "from_event_seq" then
    demand (mem method_name ["events.replay"; "events.follow"])
      (method_name ++ " from_event_seq is only valid on event cursor methods") ;;;
    let* required := bool_field param "required" context in
    demand (negb required) (method_name ++ " from_event_seq must stay optional") ;;;
    let* schema := object_field param "schema" context in
    demand (py_eq (get schema "type") (JStr "integer")) (method_name ++ " from_event_seq schema must be integer") ;;;
    demand (py_eq (get schema "minimum") (JInt 1)) (method_name ++ " from_event_seq minimum must be 1") ;;;
    demand (py_eq (get schema "default") (JInt 1)) (method_name ++ " from_event_seq default must be 1")
  else Ok tt.

(** A loop over a list that collects one text per item. *)
Definition collect (values : list json) (read : nat -> json -> result string) : result (list string) :=
  for_fold 0 values [] (fun index value texts => let* text := read index value in Ok (texts ++ [text])%list).

Definition validate_method_params (method : jobject) (expected_name : string) (expected_params : list string) : result unit :=
  let* raw_params := list_field method "params" expected_name in
  let* actual_params := collect raw_params (fun index value =>
    let context := expected_name ++ ".params[" ++ str_nat index ++ "]" in
    match value with
    | JDict value =>
        let* name := string_field value "name" context in
        validate_param_shape value expected_name index ;;;
        Ok name
    | _ => fail (context ++ " must be an object")
    end) in
  demand (strs_eqb actual_params expected_params)
    (expected_name ++ " params mismatch: expected " ++ tuple_repr expected_params ++ ", got " ++ tuple_repr actual_params).

Definition validate_method_incidents (method : jobject) (expected_name : string) (expected_incidents : list string) : result unit :=
  let* raw_incidents := list_field method "x-error-incident-codes" expected_name in
  let* incidents := collect raw_incidents (fun index value =>
    let message := expected_name ++ ".x-error-incident-codes[" ++ str_nat index ++ "] must be a non-empty string" in
    match value with
    | JStr text => demand (negb (String.eqb text "")) message ;;; Ok text
    | _ => fail message
    end) in
  demand (strs_eqb incidents expected_incidents)
    (expected_name ++ " incident mapping mismatch: expected " ++ tuple_repr expected_incidents ++ ", got " ++ tuple_repr incidents).

Definition validate_method_error_refs (method : jobject) (expected_name : string) (expected_incidents : list string) : result unit :=
  let* expected_refs := map_m (fun incident => item incident ERROR_COMPONENT_BY_INCIDENT) expected_incidents in
  let* raw_errors := list_field method "errors" expected_name in
  let* actual_refs := collect raw_errors (fun index value =>
    let context := expected_name ++ ".errors[" ++ str_nat index ++ "]" in
    match value with
    | JDict value => error_ref_name value context
    | _ => fail (context ++ " must be an object")
    end) in
  demand (set_eq actual_refs expected_refs && Nat.eqb (List.length actual_refs) (List.length expected_refs))
    (expected_name ++ " error references mismatch: expected " ++ tuple_repr expected_refs ++ ", got " ++ tuple_repr actual_refs).

Definition validate_method (method : jobject) (expected_name : string) : result unit :=
  let* (expected_params, expected_result, expected_incidents) := item expected_name METHOD_SPECS in
  let* mutation := bool_field method "x-host-mutation" expected_name in
  demand (negb mutation) (expected_name ++ " missing x-host-mutation=false") ;;;
  validate_method_params method expected_name expected_params ;;;
  let* result := object_field method "result" expected_name in
  let* schema := object_field result "schema" (expected_name ++ ".result") in
  let* actual_result := schema_ref_name schema (expected_name ++ ".result.schema") in
  demand (String.eqb actual_result expected_result)
    (expected_name ++ " result mismatch: expected " ++ expected_result ++ ", got " ++ actual_result) ;;;
  validate_method_incidents method expected_name expected_incidents ;;;
  validate_method_error_refs method expected_name expected_incidents.

Definition validate_result_schema (schemas : list (string * jobject)) (name : string) : result unit :=
  let context := "schemas." ++ name in
  match assoc name schemas with
  | None => fail ("missing schema component: " ++ name)
  | Some schema =>
      let* required := list_field schema "required" context in
      demand (existsb (fun v => py_eq v (JStr "host_mutation")) required) (context ++ " must require host_mutation") ;;;
      let* properties := object_field schema "properties" context in
      let* host := object_field properties "host_mutation" (context ++ ".properties") in
      demand (is_false (get host "const")) (context ++ ".host_mutation must be const false")
  end.
Definition validate_result_schemas (schemas : list (string * jobject)) : result unit :=
  for_each RESULT_SCHEMAS (validate_result_schema schemas) ;;;
  let* version := item "DaemonVersionResult" schemas in
  let* version_props := object_field version "properties" "DaemonVersionResult" in
  for_each VERSION_FIELDS (fun fv =>
    let* property := object_field version_props (fst fv) "DaemonVersionResult.properties" in
    demand (py_eq (get property "const") (JStr (snd fv))) ("DaemonVersionResult." ++ fst fv ++ " schema string drifted")).

(** One error component; the incident that is mapped. *)
Definition validate_error (taxonomy_codes : list string) (name : string) (error : jobject) : result string :=
  let context := "errors." ++ name in
  match assoc name ERROR_JSON_RPC_MAPPING with
  | None => fail ("unexpected JSON-RPC error component: " ++ name)
  | Some expected =>
      let* actual_code := int_field error "code" context in
      let* actual_message := string_field error "message" context in
      demand (Z.eqb actual_code (fst expected) && String.eqb actual_message (snd expected))
        (context ++ " JSON-RPC mapping mismatch: expected " ++ pair_text expected ++ ", got " ++ pair_text (actual_code, actual_message)) ;;;
      let* data := object_field error "data" context in
      let* incident := string_field data "incident_code" (context ++ ".data") in
      let* reason := string_field data "reason" (context ++ ".data") in
      demand (String.eqb incident reason) (context ++ " incident_code and reason must match") ;;;
      demand (mem incident taxonomy_codes) (context ++ " incident code missing from taxonomy: " ++ incident) ;;;
      demand (py_eq (get data "state") (JStr "refused_host") && py_eq (get data "status") (JStr "REFUSE") && is_false (get data "host_mutation"))
        (context ++ " data must preserve refused_host/REFUSE/host_mutation=false") ;;;
      Ok incident
  end.
Definition validate_errors (errors : list (string * jobject)) (taxonomy_codes : list string) : result unit :=
  let* mapped := map_m (fun ne => validate_error taxonomy_codes (fst ne) (snd ne)) errors in
  let missing := sorted (set_diff ERROR_INCIDENTS mapped) in
  demand (match missing with [] => true | _ => false end) ("contract error components missing incident(s): " ++ join ", " missing).

Section Contract.
Variable F : fs.

Definition validate_docs (contract : jobject) (docs : path) : result unit :=
  let* texts := map_m (fun name => read_text F (div_path docs name)) DOC_FILES in
  let doc_text := join (chr 10) texts in
  for_each METHOD_SPECS (fun method => demand (contains (fst method) doc_text) ("docs missing JSON-RPC method: " ++ fst method)) ;;;
  for_each SCHEMA_STRINGS (fun schema => demand (contains schema doc_text) ("docs missing schema string: " ++ schema)) ;;;
  demand (contains "one-shot follow equivalent to replay" doc_text || contains "follow equivalent to replay" doc_text)
    "docs must freeze events.follow as replay-equivalent for v1" ;;;
  demand (contains "host_mutation=false" doc_text) "docs must preserve host_mutation=false invariant" ;;;
  let* wiring := string_field contract "x-build-wiring-todo10" "contract" in
  demand (negb (String.eqb wiring "")) "contract must record Todo 10 build wiring".

Definition validate_contract (contract : jobject) (docs daemon : option path) : result unit :=
  validate_required_contract_header contract ;;;
  let* methods := method_map contract in
  let expected := map fst METHOD_SPECS in
  let actual := map fst methods in
  demand (set_eq actual expected)
    ("method set mismatch: missing=" ++ list_repr (sorted (set_diff expected actual)) ++ " extra=" ++ list_repr (sorted (set_diff actual expected))) ;;;
  for_each methods (fun nm => validate_method (snd nm) (fst nm)) ;;;
  let* schemas := schema_components contract in
  validate_result_schemas schemas ;;;
  let* taxonomy_codes := match docs with None => Ok ERROR_INCIDENTS | Some docs => load_taxonomy_codes F docs end in
  let* errors := error_components contract in
  validate_errors errors taxonomy_codes ;;;
  match docs with Some docs => validate_docs contract docs | None => Ok tt end ;;;
  match daemon with
  | Some daemon =>
      validate_daemon_source F daemon ;;;
      validate_socket_test F (div_path (div_path (parent (parent daemon)) "tools") "daemon_socket_rpc_test.py")
  | None => Ok tt
  end.

Variable run_self_test : result (list string).

(** [main] on what argparse reads. *)
Definition run (args : Args) : result (list string) :=
  if self_test args then run_self_test
  else
    let* loaded := load_contract F (contract args) in
    validate_contract loaded (Some (docs args)) (Some (daemon args)) ;;;
    Ok ["PASS OpenRPC daemon contract: contract=" ++ path_str (contract args) ++ " daemon=" ++ path_str (daemon args)
        ++ " docs=" ++ path_str (docs args)].
Definition main (args : Args) : exit :=
  run_main (fun c => is_OSError c || is_UnicodeError c || is_class OpenRpcContractError c) "FAIL openrpc contract" (run args).
End Contract.

(** * Specification *)
Definition is_one (v : json) : Prop := py_eq v (JInt 1) = true.

Record header_ok (c : jobject) : Prop := {
  hd_openrpc : get c "openrpc" = JStr "1.4.0";
  hd_schema : get c "$schema" = JStr "https://meta.open-rpc.org/";
  hd_backend : get c "x-backend-only" = JBool true;
  hd_mutation : get c "x-host-mutation" = JBool false;
  hd_description : exists info text, get c "info" = JDict info /\ get info "description" = JStr text
    /\ has_all (lower text) ("no frontend" :: GUARDRAIL_WORDS);
}.

(** ** Methods *)
Record param_ok (method : string) (p : jobject) (name : string) : Prop := {
  pa_name : get p "name" = JStr name;
  pa_action : name = "action_json" -> get p "required" = JBool true
    /\ exists schema, get p "schema" = JDict schema /\ get schema "type" = JStr "string";
  pa_cursor : name = "from_event_seq" -> In method ["events.replay"; "events.follow"] /\ get p "required" = JBool false
    /\ exists schema, get p "schema" = JDict schema /\ get schema "type" = JStr "integer"
       /\ is_one (get schema "minimum") /\ is_one (get schema "default");
}.
Definition refers (kind : string) (d : jobject) (name : string) : Prop :=
  get d "$ref" = JStr ("#/components/" ++ kind ++ "/" ++ name).
Definition component_of (incident component : string) : Prop := In (incident, component) ERROR_COMPONENT_BY_INCIDENT.
(** A method as its specification has it: the parameters and the incidents in order,
    the errors in any order. *)
Record method_ok (name : string) (spec : MethodSpec) (m : jobject) : Prop := {
  me_mutation : get m "x-host-mutation" = JBool false;
  me_params : exists ps, get m "params" = JList (map JDict ps) /\ Forall2 (param_ok name) ps (fst (fst spec));
  me_result : exists r s, get m "result" = JDict r /\ get r "schema" = JDict s /\ refers "schemas" s (snd (fst spec));
  me_incidents : get m "x-error-incident-codes" = jstrs (snd spec);
  me_errors : exists es refs expected, get m "errors" = JList (map JDict es) /\ Forall2 (refers "errors") es refs
    /\ Forall2 component_of (snd spec) expected /\ refs ≡ₚ expected;
}.
Definition named_methods (c : jobject) (methods : list (string * jobject)) : Prop :=
  get c "methods" = JList (map (fun nm => JDict (snd nm)) methods) /\ Forall (fun nm => get (snd nm) "name" = JStr (fst nm)) methods.
Definition methods_ok (c : jobject) : Prop :=
  exists methods, named_methods c methods /\ map fst methods ≡ₚ map fst METHOD_SPECS
    /\ forall name spec m, In (name, m) methods -> In (name, spec) METHOD_SPECS -> method_ok name spec m.

(** ** Components *)
Definition component_objects (kind : string) (c : jobject) (l : list (string * jobject)) : Prop :=
  exists components, get c "components" = JDict components /\ get components kind = JDict (map (fun nd => (fst nd, JDict (snd nd))) l).
Definition schema_ok (s : jobject) : Prop :=
  exists required properties host, get s "required" = JList required /\ In (JStr "host_mutation") required
    /\ get s "properties" = JDict properties /\ get properties "host_mutation" = JDict host /\ get host "const" = JBool false.
Definition versions_ok (s : jobject) : Prop :=
  exists properties, get s "properties" = JDict properties
    /\ forall field text, In (field, text) VERSION_FIELDS -> exists p, get properties field = JDict p /\ get p "const" = JStr text.
Definition schemas_ok (c : jobject) : Prop :=
  exists l, component_objects "schemas" c l
    /\ (forall name, In name RESULT_SCHEMAS -> exists s, assoc name l = Some s /\ schema_ok s)
    /\ exists s, assoc "DaemonVersionResult" l = Some s /\ versions_ok s.

(** An error component that carries an incident. *)
Definition error_ok (codes : list string) (name : string) (e : jobject) (incident : string) : Prop :=
  exists code message data, In (name, (code, message)) ERROR_JSON_RPC_MAPPING
    /\ get e "code" = JInt code /\ get e "message" = JStr message /\ get e "data" = JDict data
    /\ get data "incident_code" = JStr incident /\ get data "reason" = JStr incident /\ In incident codes
    /\ get data "state" = JStr "refused_host" /\ get data "status" = JStr "REFUSE" /\ get data "host_mutation" = JBool false.
Definition carries (codes : list string) (errors : list (string * jobject)) (incidents : list string) : Prop :=
  Forall2 (fun ne incident => error_ok codes (fst ne) (snd ne) incident) errors incidents.
Definition errors_ok (codes : list string) (c : jobject) : Prop :=
  exists errors incidents, component_objects "errors" c errors /\ carries codes errors incidents
    /\ forall incident, In incident ERROR_INCIDENTS -> In incident incidents.

(** ** Documents *)
Definition taxonomy (F : fs) (docs : path) (codes : list string) : Prop :=
  exists text, read_text F (div_path docs "incident-taxonomy.md") = Ok text
    /\ codes = map (group "1") (re_finditer CODE_ROW_RE text) /\ codes <> [].
Definition docs_ok (F : fs) (c : jobject) (docs : path) : Prop :=
  (exists texts, Forall2 (fun name text => read_text F (div_path docs name) = Ok text) DOC_FILES texts
     /\ has_all (join (chr 10) texts) (map fst METHOD_SPECS ++ SCHEMA_STRINGS ++ ["follow equivalent to replay"; "host_mutation=false"]))
  /\ text_field c "x-build-wiring-todo10".

Definition socket_test_of (daemon : path) : path := div_path (div_path (parent (parent daemon)) "tools") "daemon_socket_rpc_test.py".
Record contract_ok (F : fs) (args : Args) (c : jobject) : Prop := {
  ct_loaded : exists text, read_text F (contract args) = Ok text /\ parse_json_object text (path_str (contract args)) = Ok c;
  ct_header : header_ok c;
  ct_methods : methods_ok c;
  ct_schemas : schemas_ok c;
  ct_errors : exists codes, taxonomy F (docs args) codes /\ errors_ok codes c;
  ct_docs : docs_ok F c (docs args);
  ct_daemon : daemon_ok F (daemon args);
  ct_test : socket_test_ok F (socket_test_of (daemon args));
}.

(** ** Lemmas *)
Lemma string_read d f c s : string_field d f c = Ok s <-> get d f = JStr s.
Proof. unfold string_field. destruct (get d f); naive_solver. Qed.
Lemma bool_read d f c b : bool_field d f c = Ok b <-> get d f = JBool b.
Proof. unfold bool_field. destruct (get d f); naive_solver. Qed.
Lemma int_read d f c n : int_field d f c = Ok n <-> get d f = JInt n.
Proof. unfold int_field. destruct (get d f); naive_solver. Qed.
#[local] Instance object_reader : ObjectReader object_field.
Proof. solve_reader object_field. Qed.
#[local] Instance list_reader : ListReader list_field.
Proof. solve_reader list_field. Qed.
#[local] Instance bool_reader : BoolReader bool_field := bool_read.

Lemma rpc_string_is d f c lit m (k : result unit) : (let* s := string_field d f c in demand (String.eqb s lit) m ;;; k) = Ok tt <-> get d f = JStr lit /\ k = Ok tt.
Proof. rewrite bind_ok. setoid_rewrite string_read. setoid_rewrite bind_ok_unit. setoid_rewrite demand_ok. setoid_rewrite String.eqb_eq. naive_solver. Qed.
Lemma value_is v s m : demand (py_eq v (JStr s)) m = Ok tt <-> v = JStr s.
Proof. by rewrite demand_ok, py_eq_str. Qed.

Lemma openrpc_header_accepted c : validate_required_contract_header c = Ok tt <-> header_ok c.
Proof.
  assert (Hd : forall text, (demand (contains "no frontend" text && contains "http" text) "contract.info.description must explicitly reject non-backend transports/claims" ;;;
      demand (forallb (fun word => contains word text) GUARDRAIL_WORDS) "contract.info.description missing backend-only guardrail words") = Ok tt <->
    has_all text ("no frontend" :: GUARDRAIL_WORDS)).
  { intros text. rewrite bind_ok_unit, has_two, demand_ok, forallb_forall, has_all_cons. setoid_rewrite contains_iff. unfold has_all.
    split; [tauto|]. intros [H1 H2]. split_and!; [done | apply H2; by left | exact H2]. }
  unfold validate_required_contract_header. rewrite !rpc_string_is. unfold demand at 1 2. rewrite bool_true, bool_false, bind_ok.
  setoid_rewrite reads_object. setoid_rewrite bind_ok. setoid_rewrite string_read. cbv zeta. split.
  - intros (H1 & H2 & H3 & H4 & info & Hi & text & Ht & H%Hd). split; try done. by exists info, text.
  - intros [H1 H2 H3 H4 (info & text & Hi & Ht & H%Hd)]. split_and!; try done. by exists info; split; [|exists text].
Qed.

(** A loop over objects that collects one text of each. *)
Lemma collected_objects (Q : jobject -> string -> Prop) values read ts :
  (forall i v t, read i v = Ok t <-> exists d, v = JDict d /\ Q d t) ->
  collect values read = Ok ts <-> exists ds, values = map JDict ds /\ Forall2 Q ds ts.
Proof.
  intros Hr. unfold collect. rewrite (for_fold_append (fun v t => exists d, v = JDict d /\ Q d t)).
  2: { intros i v s s'. rewrite bind_ok. setoid_rewrite Hr. setoid_rewrite Ok_inj. naive_solver. }
  split.
  - induction 1 as [|v t vs ts (d & -> & Hq) _ (ds & -> & Hds)]; [by exists []|]. exists (d :: ds). split; [done | by constructor].
  - intros (ds & -> & H). induction H as [|d t ds ts Hq _ IH]; cbn [map]; constructor; [by exists d | done].
Qed.

Lemma from_event_seq_not_action : "from_event_seq" <> "action_json".
Proof. discriminate. Qed.
Lemma param_accepted p method i name : get p "name" = JStr name -> validate_param_shape p method i = Ok tt <-> param_ok method p name.
Proof.
  intros Hn. unfold validate_param_shape. cbv zeta. rewrite bind_ok. setoid_rewrite string_read. split.
  - intros (name' & Hn' & H). rewrite Hn in Hn'. injection Hn' as <-. split; [done | |].
    + intros ->. cbn [String.eqb Ascii.eqb Bool.eqb] in H. unfold demand at 1 in H. rewrite bool_true, object_then in H. by setoid_rewrite value_is in H.
    + intros ->. cbn [String.eqb Ascii.eqb Bool.eqb] in H. apply bind_ok_unit in H as [Hm%demand_ok%mem_In H]. unfold demand at 1 in H.
      rewrite bool_false, object_then in H. destruct H as (Hr & s & Hs & H). rewrite !bind_ok_unit, value_is, !demand_ok in H. split_and!; try done. by exists s.
  - intros [_ Ha Hc]. exists name. split; [done|]. destruct (String.eqb_spec name "action_json") as [->|_].
    + destruct (Ha eq_refl) as (Hr & s & Hs & Ht). unfold demand at 1. rewrite bool_true, object_then. split; [done|]. exists s. by rewrite value_is.
    + destruct (String.eqb_spec name "from_event_seq") as [->|_]; [|done]. destruct (Hc eq_refl) as (Hm & Hr & s & Hs & Ht & H1 & H2).
      apply bind_ok_unit. split; [by apply demand_ok, mem_In|]. unfold demand at 1. rewrite bool_false, object_then. split; [done|]. exists s. split; [done|].
      by rewrite !bind_ok_unit, value_is, !demand_ok.
Qed.
Lemma params_accepted m name params : validate_method_params m name params = Ok tt <->
  exists ps, get m "params" = JList (map JDict ps) /\ Forall2 (param_ok name) ps params.
Proof.
  unfold validate_method_params. rewrite list_then. setoid_rewrite bind_ok. setoid_rewrite demand_ok. setoid_rewrite strs_eqb_eq.
  assert (Hc : forall values ts, collect values (fun index value =>
      let context := name ++ ".params[" ++ str_nat index ++ "]" in
      match value with
      | JDict value => let* name' := string_field value "name" context in validate_param_shape value name index ;;; Ok name'
      | _ => fail (context ++ " must be an object")
      end) = Ok ts <-> exists ps, values = map JDict ps /\ Forall2 (param_ok name) ps ts).
  { intros values ts. apply collected_objects. intros i v t. cbv zeta. destruct v; try (split; [done | naive_solver]). split.
    - intros (n & Hn%string_read & [H [= <-]]%bind_ok_unit)%bind_ok. eexists. split; [done|]. by eapply param_accepted.
    - intros (p & [= ->] & H). pose proof (pa_name _ _ _ H) as Hn. apply bind_ok. exists t. split; [by apply string_read|]. apply bind_ok_unit. split; [by eapply param_accepted | done]. }
  setoid_rewrite Hc. naive_solver.
Qed.

Lemma incidents_accepted m name incidents : ~ In "" incidents -> validate_method_incidents m name incidents = Ok tt <-> get m "x-error-incident-codes" = jstrs incidents.
Proof.
  intros Hne. unfold validate_method_incidents. rewrite list_then. setoid_rewrite bind_ok. setoid_rewrite demand_ok. setoid_rewrite strs_eqb_eq.
  assert (Hc : forall values ts, collect values (fun index value =>
      let message := name ++ ".x-error-incident-codes[" ++ str_nat index ++ "] must be a non-empty string" in
      match value with JStr text => demand (negb (String.eqb text "")) message ;;; Ok text | _ => fail message end) = Ok ts <->
    Forall2 (fun v t => v = JStr t /\ t <> "") values ts).
  { intros values ts. unfold collect. apply for_fold_append. intros i v s s'. cbv zeta. rewrite bind_ok. split.
    - intros (t & H & [= <-]). destruct v; try done. apply bind_ok_unit in H as [Hd%demand_ok%negb_true_iff%String.eqb_neq [= <-]]. by eexists.
    - intros (t & [-> Ht] & ->). exists t. split; [|done]. apply bind_ok_unit. split; [by apply demand_ok, negb_true_iff, String.eqb_neq | done]. }
  setoid_rewrite Hc. unfold jstrs. split.
  - intros (l & -> & ts & H & ->). f_equal. clear Hne Hc. by induction H as [|v t vs ts [-> _] _ IH]; [|cbn; f_equal].
  - intros ->. eexists. split; [done|]. exists incidents. split; [|done]. clear Hc. induction incidents as [|t ts IH]; cbn [map]; constructor.
    + split; [done|]. intros ->. apply Hne. by left.
    + apply IH. intros H. apply Hne. by right.
Qed.

Lemma ref_read kind v c name : ref_name kind v c = Ok name <-> refers kind v name.
Proof.
  unfold ref_name, refers. cbv zeta. split.
  - intros (ref & Hr%string_read & [(r & ->)%demand_ok%startswith_iff [= <-]]%bind_ok_unit)%bind_ok. rewrite Hr, drop_app. f_equal. by rewrite !append_assoc.
  - intros Hr. apply bind_ok. exists (("#/components/" ++ kind ++ "/") ++ name). split; [apply string_read; rewrite Hr; f_equal; by rewrite !append_assoc|].
    apply bind_ok_unit. split; [by apply demand_ok, startswith_iff; exists name|]. by rewrite drop_app.
Qed.
(** As many references as expected, and the same set: a permutation. *)
Lemma same_refs refs expected : NoDup expected ->
  demand (set_eq refs expected && Nat.eqb (List.length refs) (List.length expected)) "" = Ok tt <-> refs ≡ₚ expected.
Proof.
  intros Hn. rewrite demand_ok, andb_true_iff, set_eq_spec, Nat.eqb_eq. split.
  - intros [Hi Hl]. symmetry. apply submseteq_length_Permutation; [|lia]. apply NoDup_submseteq; [done|]. intros x. rewrite !list_elem_of_In. apply Hi.
  - intros H. split; [|by apply Permutation_length]. intros x. rewrite <- !list_elem_of_In. by rewrite H.
Qed.

Lemma component_known incident component : item incident ERROR_COMPONENT_BY_INCIDENT = Ok component <-> component_of incident component.
Proof. by rewrite item_ok, components_named. Qed.
Lemma component_injective i i' c : component_of i c -> component_of i' c -> i = i'.
Proof. unfold component_of, ERROR_COMPONENT_BY_INCIDENT. cbn [In]. naive_solver. Qed.
Lemma components_distinct incidents expected : NoDup incidents -> Forall2 component_of incidents expected -> NoDup expected.
Proof.
  intros Hn H. induction H as [|i c ins cs Hc H IH]; [constructor|]. apply NoDup_cons in Hn as [Hi Hn]. constructor; [|by apply IH].
  intros Hin. apply Hi. clear - Hc H Hin. induction H as [|i' c' ins cs Hc' _ IH]; [by apply not_elem_of_nil in Hin|].
  apply elem_of_cons in Hin as [->|Hin]; [|right; by apply IH]. rewrite (component_injective _ _ _ Hc Hc'). left.
Qed.
Lemma error_refs_accepted m name incidents : NoDup incidents -> validate_method_error_refs m name incidents = Ok tt <->
  exists es refs expected, get m "errors" = JList (map JDict es) /\ Forall2 (refers "errors") es refs
    /\ Forall2 component_of incidents expected /\ refs ≡ₚ expected.
Proof.
  intros Hn. unfold validate_method_error_refs. rewrite bind_ok. setoid_rewrite list_then. setoid_rewrite bind_ok.
  assert (Hc : forall values ts, collect values (fun index value =>
      let context := name ++ ".errors[" ++ str_nat index ++ "]" in
      match value with JDict value => error_ref_name value context | _ => fail (context ++ " must be an object") end) = Ok ts <->
    exists es, values = map JDict es /\ Forall2 (refers "errors") es ts).
  { intros values ts. apply collected_objects. intros i v t. cbv zeta. unfold error_ref_name. destruct v; try (split; [done | naive_solver]). rewrite ref_read. naive_solver. }
  setoid_rewrite Hc. clear Hc.
  assert (He : forall expected, map_m (fun incident => item incident ERROR_COMPONENT_BY_INCIDENT) incidents = Ok expected <-> Forall2 component_of incidents expected).
  { intros expected. rewrite map_m_ok. split; intros H; (eapply Forall2_impl; [exact H|]); intros; by apply component_known. }
  setoid_rewrite He. split.
  - intros (expected & Hx & l & Hl & refs & (es & -> & Hes) & Hd). exists es, refs, expected. split_and!; try done.
    apply same_refs; [by eapply components_distinct | by apply demand_ok in Hd; apply demand_ok].
  - intros (es & refs & expected & Hl & Hes & Hx & Hp). exists expected. split; [done|]. eexists. split; [done|]. exists refs. split; [by exists es|].
    apply demand_ok. apply same_refs, demand_ok in Hp; [done | by eapply components_distinct].
Qed.

(** The incidents of a method are distinct and none is empty. *)
Lemma specs_named name spec : assoc name METHOD_SPECS = Some spec <-> In (name, spec) METHOD_SPECS.
Proof. apply assoc_In. by apply (bool_decide_unpack _); vm_compute. Qed.
Lemma specs_distinct name spec : In (name, spec) METHOD_SPECS -> NoDup (snd spec) /\ ~ In "" (snd spec).
Proof.
  assert (H : Forall (fun ns : string * MethodSpec => NoDup (snd (snd ns)) /\ "" ∉ snd (snd ns)) METHOD_SPECS) by (apply (bool_decide_unpack _); vm_compute; done).
  intros Hin%list_elem_of_In. rewrite Forall_forall in H. destruct (H _ Hin) as [Hn He]. split; [done|]. by rewrite <- list_elem_of_In.
Qed.

Lemma method_accepted m name spec : In (name, spec) METHOD_SPECS -> validate_method m name = Ok tt <-> method_ok name spec m.
Proof.
  intros Hs. destruct (specs_distinct _ _ Hs) as [Hn He]. apply specs_named in Hs. unfold validate_method, item. rewrite Hs. cbn [bind].
  destruct spec as [[params result] incidents]. cbn [snd fst] in *. unfold demand at 1. rewrite bool_false, bind_ok_unit, params_accepted, object_then.
  setoid_rewrite object_then. setoid_rewrite bind_ok. setoid_rewrite ref_read. setoid_rewrite bind_ok_unit. setoid_rewrite demand_ok. setoid_rewrite String.eqb_eq.
  assert (Hrest : (validate_method_incidents m name incidents ;;; validate_method_error_refs m name incidents) = Ok tt <->
    get m "x-error-incident-codes" = jstrs incidents /\ exists es refs expected, get m "errors" = JList (map JDict es)
      /\ Forall2 (refers "errors") es refs /\ Forall2 component_of incidents expected /\ refs ≡ₚ expected)
    by (by rewrite bind_ok_unit, incidents_accepted, error_refs_accepted by done).
  setoid_rewrite Hrest. split.
  - intros (Hm & Hp & r & Hr & s & Hsch & ref & Href & -> & Hi & Hes). split; try done. by exists r, s.
  - intros [Hm Hp (r & s & Hr & Hsch & Href) Hi Hes]. split_and!; try done. exists r. split; [done|]. exists s. split; [done|]. by exists result.
Qed.

Lemma fresh_methods (methods : list (string * jobject)) acc :
  fresh_run (fun nm (s : list (string * jobject)) => ~ In (fst nm) (map fst s)) (fun nm s => s ++ [nm])%list methods acc <->
  NoDup (map fst methods) /\ forall n, In n (map fst methods) -> ~ In n (map fst acc).
Proof.
  revert acc. induction methods as [|[n m] methods IH]; intros acc; cbn [fresh_run map]; [split; [by split; [constructor|] | done]|].
  rewrite IH, NoDup_cons, map_app, list_elem_of_In. setoid_rewrite in_app_iff. cbn. naive_solver.
Qed.
Lemma fold_snoc {A} (l acc : list A) : fold_left (fun s x => s ++ [x])%list l acc = (acc ++ l)%list.
Proof. revert acc. induction l as [|x l IH]; intros acc; cbn; [by rewrite app_nil_r | by rewrite IH, <- app_assoc]. Qed.
Lemma method_map_ok c methods : method_map c = Ok methods <-> named_methods c methods /\ NoDup (map fst methods).
Proof.
  unfold method_map, named_methods. rewrite list_then.
  assert (Hb : forall i v acc acc', (let context := "contract.methods[" ++ str_nat i ++ "]" in
      match v with
      | JDict value => let* name := string_field value "name" context in
          demand (negb (mem name (map fst acc))) ("duplicate OpenRPC method: " ++ name) ;;; Ok (acc ++ [(name, value)])%list
      | _ => fail (context ++ " must be an object")
      end) = Ok acc' <->
    exists nm, (v = JDict (snd nm) /\ get (snd nm) "name" = JStr (fst nm)) /\ ~ In (fst nm) (map fst acc) /\ acc' = (acc ++ [nm])%list).
  { intros i v acc acc'. cbv zeta. destruct v as [| | | | | |d]; try (split; [done | naive_solver]). rewrite bind_ok. setoid_rewrite string_read.
    setoid_rewrite bind_ok_unit. setoid_rewrite demand_ok. setoid_rewrite negb_true_iff.
    assert (Hm : forall n, mem n (map fst acc) = false <-> ~ In n (map fst acc)) by (intros n; rewrite <- mem_In; by destruct (mem _ _)). setoid_rewrite Hm.
    split; [intros (n & Hn & Hf & [= <-]); by exists (n, d) | intros ([n d'] & [[= ->] Hn] & Hf & ->); by exists n]. }
  assert (Hf : forall values, for_fold 0 values [] (fun i v acc => let context := "contract.methods[" ++ str_nat i ++ "]" in
      match v with
      | JDict value => let* name := string_field value "name" context in
          demand (negb (mem name (map fst acc))) ("duplicate OpenRPC method: " ++ name) ;;; Ok (acc ++ [(name, value)])%list
      | _ => fail (context ++ " must be an object")
      end) = Ok methods <->
    Forall2 (fun v (nm : string * jobject) => v = JDict (snd nm) /\ get (snd nm) "name" = JStr (fst nm)) values methods /\ NoDup (map fst methods)).
  { intros values. set (P := fun (v : json) (nm : string * jobject) => v = JDict (snd nm) /\ get (snd nm) "name" = JStr (fst nm)).
    rewrite (for_fold_fresh (fun _ => P) _ _ _ Hb). setoid_rewrite fresh_methods. setoid_rewrite fold_snoc. split.
    - intros (nms & H%(Forall2_enum P) & [Hn _] & ->). done.
    - intros [H Hn]. exists methods. split; [by apply (Forall2_enum P)|]. split; [|done]. split; [done|]. by intros n _ []. }
  setoid_rewrite Hf. clear Hb Hf. split.
  - intros (l & Hl & H & Hn). rewrite Hl. split; [|done]. clear - H. induction H as [|v nm vs nms [-> Hv] _ [[= ->] IH]]; [done|]. split; [done | by constructor].
  - intros [[Hl Hf] Hn]. eexists. split; [exact Hl|]. split; [|done]. clear - Hf. induction Hf; cbn [map]; constructor; done.
Qed.

Lemma distinct_specs : NoDup (map fst METHOD_SPECS).
Proof. by apply (bool_decide_unpack _); vm_compute. Qed.
Lemma methods_accepted c : (exists methods, method_map c = Ok methods
    /\ set_eq (map fst methods) (map fst METHOD_SPECS) = true
    /\ for_each methods (fun nm => validate_method (snd nm) (fst nm)) = Ok tt) <-> methods_ok c.
Proof.
  unfold methods_ok. split; intros (methods & H); exists methods; revert H; rewrite method_map_ok, ?set_eq_spec, ?for_each_ok, ?Forall_forall; setoid_rewrite list_elem_of_In.
  - intros ([Hnamed Hn] & Hs & Hm). split; [done|]. assert (Hp : map fst methods ≡ₚ map fst METHOD_SPECS).
    { apply NoDup_Permutation; [done | apply distinct_specs|]. intros x. rewrite !list_elem_of_In. apply Hs. }
    split; [done|]. intros name spec m' Hin Hspec. apply method_accepted; [done|]. by apply (Hm (name, m')).
  - intros (Hnamed & Hp & Hm). split; [split; [done|]; rewrite Hp; apply distinct_specs|]. split.
    { intros x. rewrite <- !list_elem_of_In. by rewrite Hp. }
    intros [name m'] Hin. cbn [fst snd]. assert (Hs : In name (map fst METHOD_SPECS)) by (rewrite <- list_elem_of_In, <- Hp, list_elem_of_In; by apply (in_map fst) in Hin).
    apply in_map_iff in Hs as ([? spec] & [= ->] & Hs). apply (method_accepted _ _ spec); [done|]. by apply (Hm _ _ _ Hin).
Qed.

Lemma components_ok kind c l : components_of kind c = Ok l <-> component_objects kind c l.
Proof.
  unfold components_of, component_objects. rewrite object_then. setoid_rewrite object_then. setoid_rewrite map_m_ok.
  assert (Hr : forall raw, Forall2 (fun (kv : string * json) (nd : string * jobject) => match snd kv with
        | JDict value => Ok (fst kv, value)
        | _ => fail ("components." ++ kind ++ "." ++ fst kv ++ " must be an object") end = Ok nd) raw l <-> raw = map (fun nd => (fst nd, JDict (snd nd))) l).
  { intros raw. split.
    - induction 1 as [|[k v] nd raw nds H _ IH]; [done|]. cbn [fst snd] in H. destruct v; try done. injection H as <-. by rewrite IH.
    - intros ->. induction l as [|[k d] l IH]; cbn [map]; constructor; [done | apply IH]. }
  setoid_rewrite Hr. naive_solver.
Qed.

Lemma schema_accepted l name : validate_result_schema l name = Ok tt <-> exists s, assoc name l = Some s /\ schema_ok s.
Proof.
  unfold validate_result_schema, schema_ok. cbv zeta. destruct (assoc name l) as [s|]; [|split; [done | naive_solver]].
  assert (Hex : forall req, existsb (fun v => py_eq v (JStr "host_mutation")) req = true <-> In (JStr "host_mutation") req).
  { intros req. rewrite existsb_exists. setoid_rewrite py_eq_str. naive_solver. }
  rewrite list_then. setoid_rewrite bind_ok_unit. setoid_rewrite object_then. setoid_rewrite object_then. setoid_rewrite demand_ok. setoid_rewrite Hex. setoid_rewrite is_false_iff.
  naive_solver.
Qed.
Lemma versions_accepted s : (let* version_props := object_field s "properties" "DaemonVersionResult" in
    for_each VERSION_FIELDS (fun fv =>
      let* property := object_field version_props (fst fv) "DaemonVersionResult.properties" in
      demand (py_eq (get property "const") (JStr (snd fv))) ("DaemonVersionResult." ++ fst fv ++ " schema string drifted"))) = Ok tt <-> versions_ok s.
Proof.
  unfold versions_ok. rewrite object_then. setoid_rewrite for_each_ok. setoid_rewrite Forall_forall. setoid_rewrite list_elem_of_In.
  setoid_rewrite object_then. setoid_rewrite value_is. split; intros (p & Hp & H); exists p; (split; [done|]); [intros f t Hin; by apply (H (f, t)) | intros [f t] Hin; by apply H].
Qed.
Lemma rpc_schemas_accepted c : (exists l, schema_components c = Ok l /\ validate_result_schemas l = Ok tt) <-> schemas_ok c.
Proof.
  assert (Hl : forall l, validate_result_schemas l = Ok tt <->
    (forall name, In name RESULT_SCHEMAS -> exists s, assoc name l = Some s /\ schema_ok s) /\ exists s, assoc "DaemonVersionResult" l = Some s /\ versions_ok s).
  { intros l. unfold validate_result_schemas. rewrite bind_ok_unit, for_each_ok, Forall_forall, bind_ok. setoid_rewrite list_elem_of_In.
    setoid_rewrite schema_accepted. setoid_rewrite versions_accepted. by setoid_rewrite item_ok. }
  unfold schemas_ok, schema_components. setoid_rewrite components_ok. by setoid_rewrite Hl.
Qed.

Lemma error_accepted codes name e incident : validate_error codes name e = Ok incident <-> error_ok codes name e incident.
Proof.
  unfold validate_error, error_ok. cbv zeta. setoid_rewrite <- mappings_named.
  assert (Hd : forall data m, demand (py_eq (get data "state") (JStr "refused_host") && py_eq (get data "status") (JStr "REFUSE") && is_false (get data "host_mutation")) m = Ok tt <->
    get data "state" = JStr "refused_host" /\ get data "status" = JStr "REFUSE" /\ get data "host_mutation" = JBool false).
  { intros data m. rewrite demand_ok, !andb_true_iff, !py_eq_str, is_false_iff. tauto. }
  split.
  - destruct (assoc name _) as [[c m]|] eqn:Ex; [|done].
    intros (c' & Hc%int_read & (m' & Hm%string_read & [Hcm%demand_ok%andb_true_iff (data & Hdata%reads_object & (inc & Hi%string_read & (reason & Hr%string_read
      & [He%demand_ok%String.eqb_eq [Hin%demand_ok%mem_In [H%Hd [= <-]]%bind_ok_unit]%bind_ok_unit]%bind_ok_unit)%bind_ok)%bind_ok)%bind_ok]%bind_ok_unit)%bind_ok)%bind_ok.
    destruct Hcm as [->%Z.eqb_eq ->%String.eqb_eq]. subst reason. cbn [fst snd] in *. by exists c, m, data.
  - intros (c & m & data & Ex & Hc & Hm & Hdata & Hi & Hr & Hin & H). rewrite Ex. apply bind_ok. exists c. split; [by apply int_read|].
    apply bind_ok. exists m. split; [by apply string_read|]. apply bind_ok_unit. split; [apply demand_ok; cbn [fst snd]; by rewrite Z.eqb_refl, String.eqb_refl|].
    apply bind_ok. exists data. split; [by apply reads_object|]. apply bind_ok. exists incident. split; [by apply string_read|].
    apply bind_ok. exists incident. split; [by apply string_read|]. apply bind_ok_unit. split; [by apply demand_ok, String.eqb_eq|].
    apply bind_ok_unit. split; [by apply demand_ok, mem_In|]. apply bind_ok_unit. split; [by apply Hd | done].
Qed.
Lemma errors_validated errors codes : validate_errors errors codes = Ok tt <->
  exists incidents, carries codes errors incidents /\ forall incident, In incident ERROR_INCIDENTS -> In incident incidents.
Proof.
  assert (Hc : forall l, map_m (fun ne => validate_error codes (fst ne) (snd ne)) errors = Ok l <-> carries codes errors l).
  { intros l. unfold carries. rewrite map_m_ok. split; intros H; (eapply Forall2_impl; [exact H|]); intros; by apply error_accepted. }
  unfold validate_errors. cbv zeta. rewrite bind_ok. setoid_rewrite Hc. setoid_rewrite demand_ok.
  assert (Hm : forall l, match sorted (set_diff ERROR_INCIDENTS l) with [] => true | _ => false end = true <-> forall i, In i ERROR_INCIDENTS -> In i l)
    by (intros l; rewrite <- no_extra; by destruct (sorted _)).
  by setoid_rewrite Hm.
Qed.
Lemma errors_accepted c codes : (exists errors, error_components c = Ok errors /\ validate_errors errors codes = Ok tt) <-> errors_ok codes c.
Proof. unfold errors_ok, error_components. setoid_rewrite components_ok. setoid_rewrite errors_validated. naive_solver. Qed.

Lemma taxonomy_ok F docs codes : load_taxonomy_codes F docs = Ok codes <-> taxonomy F docs codes.
Proof.
  unfold load_taxonomy_codes, taxonomy. rewrite bind_ok. split; intros (text & Ht & H); exists text; (split; [done|]).
  - destruct (map _ _) eqn:E; [done|]. by injection H as <-.
  - destruct H as [-> Hne]. by destruct (map _ _).
Qed.
Lemma rpc_docs_accepted F c docs : validate_docs F c docs = Ok tt <-> docs_ok F c docs.
Proof.
  assert (Hf : forall text, contains "one-shot follow equivalent to replay" text || contains "follow equivalent to replay" text = true <->
    exists a b, text = a ++ "follow equivalent to replay" ++ b).
  { intros text. rewrite orb_true_iff, !contains_iff. split; [|by right]. intros [(a & b & ->)|H]; [|done]. exists (a ++ "one-shot "), b. by rewrite append_assoc. }
  assert (Hw : (let* wiring := string_field c "x-build-wiring-todo10" "contract" in demand (negb (String.eqb wiring "")) "contract must record Todo 10 build wiring") = Ok tt <->
    text_field c "x-build-wiring-todo10").
  { unfold text_field. rewrite bind_ok. setoid_rewrite string_read. setoid_rewrite demand_ok. setoid_rewrite negb_true_iff. by setoid_rewrite String.eqb_neq. }
  unfold validate_docs, docs_ok. cbv zeta. rewrite bind_ok. setoid_rewrite map_m_ok.
  split.
  - intros (texts & Ht & H). rewrite !bind_ok_unit, !has_all_ok, Hw, has_one, demand_ok, Hf, map_id in H. split; [|tauto]. exists texts. split; [done|].
    rewrite !has_all_app, !has_all_cons, has_all_nil. tauto.
  - intros [(texts & Ht & H) Hwire]. exists texts. split; [done|]. rewrite !bind_ok_unit, !has_all_ok, Hw, has_one, demand_ok, Hf, map_id.
    rewrite !has_all_app, !has_all_cons, has_all_nil in H. tauto.
Qed.

Lemma contract_loaded F p c : load_contract F p = Ok c <->
  exists text, read_text F p = Ok text /\ parse_json_object text (path_str p) = Ok c.
Proof. unfold load_contract, parse_openrpc_object. rewrite reraise_ok, bind_ok. by setoid_rewrite reraise_ok. Qed.

Lemma openrpc_contract_accepted F args c : load_contract F (contract args) = Ok c ->
  validate_contract F c (Some (docs args)) (Some (daemon args)) = Ok tt <-> contract_ok F args c.
Proof.
  intros Hl. unfold validate_contract. cbv zeta. fold (socket_test_of (daemon args)). split.
  - intros [Hh%openrpc_header_accepted (methods & Hm & [Hs%demand_ok [Hv (schemas & Hsc & [Hsv (codes & Hc%taxonomy_ok & (errors & He & [Hev [Hd%rpc_docs_accepted
      [Hda%daemon_checked Ht%socket_test_accepted]%bind_ok_unit]%bind_ok_unit]%bind_ok_unit)%bind_ok)%bind_ok]%bind_ok_unit)%bind_ok]%bind_ok_unit]%bind_ok_unit)%bind_ok]%bind_ok_unit.
    split; try done; [by apply contract_loaded | apply methods_accepted; by exists methods | apply rpc_schemas_accepted; by exists schemas|].
    exists codes. split; [done|]. apply errors_accepted. by exists errors.
  - intros [_ Hh Hm Hs (codes & Hc & He) Hd Hda Ht]. apply bind_ok_unit. split; [by apply openrpc_header_accepted|].
    apply methods_accepted in Hm as (methods & Hm & Hset & Hv). apply rpc_schemas_accepted in Hs as (schemas & Hsc & Hsv). apply errors_accepted in He as (errors & He & Hev).
    apply bind_ok. exists methods. split; [done|]. apply bind_ok_unit. split; [by apply demand_ok|]. apply bind_ok_unit. split; [done|].
    apply bind_ok. exists schemas. split; [done|]. apply bind_ok_unit. split; [done|]. apply bind_ok. exists codes. split; [by apply taxonomy_ok|].
    apply bind_ok. exists errors. split; [done|]. apply bind_ok_unit. split; [done|]. apply bind_ok_unit. split; [by apply rpc_docs_accepted|].
    apply bind_ok_unit. by split; [apply daemon_checked | apply socket_test_accepted].
Qed.

(** ** Error components

    A component with the code and the message of its name that carries an incident. *)
Definition error_component (code : Z) (message incident : string) : jobject :=
  [("code", JInt code); ("message", JStr message);
   ("data", JDict [("incident_code", JStr incident); ("reason", JStr incident); ("state", JStr "refused_host"); ("status", JStr "REFUSE");
                   ("host_mutation", JBool false)])].
Definition errors_carrying (incidents : list string) : list (string * jobject) :=
  zip_with (fun named incident => (fst named, error_component (fst (snd named)) (snd (snd named)) incident)) ERROR_JSON_RPC_MAPPING incidents.
Lemma errors_carried codes incidents : (forall i, In i incidents -> In i codes) -> List.length incidents = List.length ERROR_JSON_RPC_MAPPING ->
  carries codes (errors_carrying incidents) incidents.
Proof.
  unfold carries, errors_carrying. intros Hi Hl.
  assert (H : forall table incidents, (forall named, In named table -> In named ERROR_JSON_RPC_MAPPING) -> (forall i, In i incidents -> In i codes) ->
    List.length incidents = List.length table ->
    Forall2 (fun ne i => error_ok codes (fst ne) (snd ne) i)
      (zip_with (fun named i => (fst named, error_component (fst (snd named)) (snd (snd named)) i)) table incidents) incidents); [|by apply H].
  clear. induction table as [|[name [c m]] table IH]; intros [|i incidents] Ht Hi Hl; try done. cbn [zip_with]. constructor.
  - cbn [fst snd]. exists c, m. eexists. split_and!; try reflexivity; [apply Ht; by left | apply Hi; by left].
  - apply IH; [intros n Hn; apply Ht; by right | intros j Hj; apply Hi; by right | by injection Hl].
Qed.

(** ** A contract that is accepted, until a method takes another parameter, the
    daemon another code or a string literal another brace *)
Definition demo_param (name : string) : json :=
  JDict (("name", JStr name) ::
    if String.eqb name "action_json" then [("required", JBool true); ("schema", JDict [("type", JStr "string")])]
    else [("required", JBool false); ("schema", JDict [("type", JStr "integer"); ("minimum", JInt 1); ("default", JInt 1)])]).
Definition demo_ref (kind name : string) : json := JDict [("$ref", JStr ("#/components/" ++ kind ++ "/" ++ name))].
Definition demo_method (extra : list string) (method : string * MethodSpec) : json :=
  let '(name, (params, result, incidents)) := method in
  JDict [("name", JStr name); ("x-host-mutation", JBool false); ("params", JList (map demo_param (params ++ extra)));
    ("result", JDict [("schema", demo_ref "schemas" result)]); ("x-error-incident-codes", jstrs incidents);
    ("errors", JList (map (fun i => demo_ref "errors" (match assoc i ERROR_COMPONENT_BY_INCIDENT with Some c => c | None => "" end)) (rev incidents)))].
Definition demo_result_schema (name : string) : string * json :=
  (name, JDict [("required", jstrs ["host_mutation"]);
    ("properties", JDict (("host_mutation", JDict [("const", JBool false)]) :: map (fun fv => (fst fv, JDict [("const", JStr (snd fv))])) VERSION_FIELDS))]).
Definition demo_contract (extra : list string) : json :=
  JDict [("openrpc", JStr "1.4.0"); ("$schema", JStr "https://meta.open-rpc.org/"); ("x-backend-only", JBool true); ("x-host-mutation", JBool false);
    ("info", JDict [("description", JStr "No frontend, HTTP, SSE, browser, UI or production claim.")]);
    ("x-build-wiring-todo10", JStr "zig build openrpc");
    ("methods", JList (map (demo_method extra) METHOD_SPECS));
    ("components", JDict [("schemas", JDict (map demo_result_schema RESULT_SCHEMAS));
       ("errors", JDict (map (fun nd => (fst nd, JDict (snd nd))) (errors_carrying ERROR_INCIDENTS)))])].
Definition demo_line (s : string) : string := s ++ chr 10.
Definition demo_call (code : Z) (incident : string) (named : string * (Z * string)) : string :=
  demo_line ("return writeRpcError(allocator, response, request.id, " ++ str_Z code ++ ", " ++ dumps_str (snd (snd named)) ++ ", "
             ++ dumps_str incident ++ ");").
Definition demo_daemon (brace : string) (shift : Z) : string :=
  demo_line ("fn writeRpcError(allocator: Allocator) void {")
  ++ demo_line ("  writer.print(" ++ chr 34 ++ brace ++ "\" ++ chr 34 ++ chr 34 ++ ", .{code});")
  ++ demo_line "  if (x) { writeJsonString(&writer.writer, message); }" ++ demo_line "  writeJsonString(&writer.writer, incident_code);" ++ demo_line "}"
  ++ String.concat "" (map (fun m => demo_line (dumps_str (fst m))) METHOD_SPECS) ++ String.concat "" (map demo_line SCHEMA_STRINGS)
  ++ String.concat "" (zip_with (fun named i => demo_call (fst (snd named) + shift) i named) ERROR_JSON_RPC_MAPPING ERROR_INCIDENTS)
  ++ demo_line "host_mutation=false" ++ demo_line REPLAY_FOLLOW.
Definition demo_files (extra : list string) (brace : string) (shift : Z) : fs :=
  fs_of "/repo" [("docs/c.json", File (dumps (demo_contract extra))); ("src/daemon.zig", File (demo_daemon brace shift));
    ("docs/frontend-api-pack.md", File (join " " (map fst METHOD_SPECS)));
    ("docs/schema-compatibility.md", File (join " " SCHEMA_STRINGS));
    ("docs/incident-taxonomy.md", File (demo_line "follow equivalent to replay, host_mutation=false"
       ++ String.concat "" (map (fun i => demo_line ("| `" ++ i ++ "` | incident |")) ERROR_INCIDENTS)));
    ("tools/daemon_socket_rpc_test.py", File (join " " (SOCKET_METHODS ++ ERROR_INCIDENTS ++ ["host_mutation"; "False"]
       ++ map (fun m => str_Z (fst (snd m)) ++ " " ++ snd (snd m)) ERROR_JSON_RPC_MAPPING)))].
Definition demo_args : Args := MkArgs (Path "docs/c.json") (Path "src/daemon.zig") (Path "docs") false.
Definition demo_run (extra : list string) (brace : string) (shift : Z) : exit := main (demo_files extra brace shift) (Ok []) demo_args.
Example demo_openrpc_accepted :
  demo_run [] "}" 0 = Exited 0 ["PASS OpenRPC daemon contract: contract=docs/c.json daemon=src/daemon.zig docs=docs"] [].
Proof. vm_compute. reflexivity. Qed.
Example demo_openrpc_refused :
  demo_run ["action_json"] "}" 0 = Exited 1 [] ["FAIL openrpc contract: daemon.version params mismatch: expected (), got ('action_json',)"]
  /\ demo_run [] "}" 1 = Exited 1 [] ["FAIL openrpc contract: daemon source JSON-RPC mapping mismatch for malformed_rpc: expected (-32700, parse_error), got (-32699, parse_error)"].
Proof. split; vm_compute; reflexivity. Qed.

(** ** Properties *)

(** C26: the checker prints PASS exactly when the contract is the daemon's: the header
    is backend only, the methods are the specified ones, each with its parameters and
    incidents in order and its error components in any order, the results fix
    [host_mutation] to false, every error component has the code and message of its
    name and an incident of the taxonomy; the documents name the methods and schemas;
    the body of [writeRpcError], up to the brace that matches outside string literals,
    serializes its arguments, every call of it of the literal shape the checker's
    pattern reads writes the code and message of its incident, and every incident is
    written; and the socket test mentions them all. *)
Theorem openrpc_iff F rehearsal c d docs out :
  main F rehearsal (MkArgs c d docs false) = Exited 0 out [] <->
  exists loaded, contract_ok F (MkArgs c d docs false) loaded
    /\ out = ["PASS OpenRPC daemon contract: contract=" ++ path_str c ++ " daemon=" ++ path_str d ++ " docs=" ++ path_str docs].
Proof.
  unfold main, run, run_main. cbn [self_test]. split.
  - destruct (bind _ _) as [out'|e] eqn:E; [intros [= <-] | destruct (_ || _); discriminate].
    apply bind_ok in E as (loaded & Hl & [Hv [= <-]]%bind_ok_unit). exists loaded. split; [|reflexivity].
    exact (proj1 (openrpc_contract_accepted F (MkArgs c d docs false) loaded Hl) Hv).
  - intros (loaded & H & ->). pose proof (proj2 (contract_loaded _ _ _) (ct_loaded _ _ _ H)) as Hl.
    pose proof (proj2 (openrpc_contract_accepted _ _ _ Hl) H) as Hv. rewrite Hl. cbn [bind]. rewrite Hv. reflexivity.
Qed.

(** C36: the error components may carry each other's incidents: with the codes and
    messages of their names, any arrangement of the incidents over the components is
    accepted, although the table of the module says which component has which. *)
Theorem swapped_incidents_accepted incidents codes : incidents ≡ₚ ERROR_INCIDENTS -> (forall i, In i ERROR_INCIDENTS -> In i codes) ->
  validate_errors (errors_carrying incidents) codes = Ok tt.
Proof.
  intros Hp Hc. apply errors_validated. exists incidents.
  assert (Hin : forall i, In i incidents <-> In i ERROR_INCIDENTS) by (intros i; rewrite <- !list_elem_of_In; by rewrite Hp).
  split; [|intros i; apply Hin]. apply errors_carried; [intros i H; by apply Hc, Hin | by rewrite (Permutation_length Hp)].
Qed.
Example swapped_incidents_witness :
  validate_errors (errors_carrying (rev ERROR_INCIDENTS)) ERROR_INCIDENTS = Ok tt
  /\ map (fun ne => (fst ne, get (match get (snd ne) "data" with JDict d => d | _ => [] end) "incident_code")) (errors_carrying (rev ERROR_INCIDENTS))
     <> map (fun ic => (snd ic, JStr (fst ic))) ERROR_COMPONENT_BY_INCIDENT.
Proof.
  split; [|intros H; vm_compute in H; discriminate H].
  apply (swapped_incidents_accepted (rev ERROR_INCIDENTS) ERROR_INCIDENTS); [symmetry; apply Permutation_rev | done].
Defined.
