(* ===== verification/PyEmit.v ===== *)
(** PyEmit: what a program that writes evidence does: files, directories and lines
    on standard output, in order; [int] of a value; the environment variables.

    A write needs its directory; a new entry is listed in it.  What was written
    before an exception stays. *)
From Stdlib Require Import SpecFloat.
From S2P Require Import Prelude PyStr PyFloat PyJson Sha256 PyFs PyMain.

Local Open Scope string_scope.

(** ** Values *)

(** [bool(v)] *)
Definition truthy (v : json) : bool :=
  match v with
  | JNull => false
  | JBool b => b
  | JInt z => negb (Z.eqb z 0)
  | JFloat f => negb (float_int_eqb f 0)
  | JStr s => negb (String.eqb s "")
  | JList l => match l with [] => false | _ => true end
  | JDict d => match d with [] => false | _ => true end
  end.
(** [v or w] *)
Definition or_value (v w : json) : json := if truthy v then v else w.

(** Digits with single underscores between them, without the underscores. *)
Fixpoint plain_digits (after_digit : bool) (s : string) : option string :=
  match s with
  | "" => if after_digit then Some "" else None
  | String c s =>
      if is_digit c then option_map (String c) (plain_digits true s)
      else if Ascii.eqb c "_" && after_digit then plain_digits false s
      else None
  end.
(** [int(s)] *)
Definition int_of_text (s : string) : result Z :=
  let number := strip s in
  let (sign, digits) :=
    match number with
    | String c r => if Ascii.eqb c "-" then ((-1)%Z, r) else if Ascii.eqb c "+" then (1%Z, r) else (1%Z, number)
    | "" => (1%Z, number)
    end in
  match plain_digits false digits with
  | Some digits => let* n := int_of_digits digits in Ok (sign * n)%Z
  | None => raise ValueError ("invalid literal for int() with base 10: " ++ repr_str s)
  end.
(** [int(f)]: towards zero. *)
Definition int_of_float (f : pyfloat) : result Z :=
  match f with
  | S754_zero _ => Ok 0%Z
  | S754_infinity _ => raise OverflowError "cannot convert float infinity to integer"
  | S754_nan => raise ValueError "cannot convert float NaN to integer"
  | S754_finite s m e =>
      let n := if (0 <=? e)%Z then Z.shiftl (Zpos m) e else Z.shiftr (Zpos m) (- e) in
      Ok (if s then - n else n)%Z
  end.
(** [int(v)] *)
Definition int_of_value (v : json) : result Z :=
  match v with
  | JInt z => Ok z
  | JBool b => Ok (Z.b2z b)
  | JFloat f => int_of_float f
  | JStr s => int_of_text s
  | JNull => raise TypeError "int() argument must be a string, a bytes-like object or a real number, not 'NoneType'"
  | JList _ => raise TypeError "int() argument must be a string, a bytes-like object or a real number, not 'list'"
  | JDict _ => raise TypeError "int() argument must be a string, a bytes-like object or a real number, not 'dict'"
  end.

(** ** The environment: [os.environ[name]] and [os.environ.get(name, default)] *)
Definition environ : Type := string -> option string.
Definition env_item (env : environ) (name : string) : result string :=
  match env name with Some value => Ok value | None => raise KeyError name end.
Definition env_get (env : environ) (name default : string) : string :=
  match env name with Some value => value | None => default end.

(** ** Effects *)
Record world : Type := MkWorld { files : fs; stdout_lines : list string }.
Definition effect (A : Type) : Type := world -> world * result A.

Definition answer {A} (a : A) : effect A := fun w => (w, Ok a).
Definition lift {A} (r : result A) : effect A := fun w => (w, r).
(** What a read of the files answers. *)
Definition reading_files {A} (r : fs -> result A) : effect A := fun w => (w, r (files w)).
Definition then_do {A B} (m : effect A) (k : A -> effect B) : effect B :=
  fun w => match m w with (w, Ok a) => k a w | (w, Err e) => (w, Err e) end.
Declare Scope effect_scope.
Notation "'do' x <- m 'in' k" := (then_do m (fun x => k)) (at level 200, x pattern, m at level 199, k at level 200, right associativity) : effect_scope.
Notation "m ;! k" := (then_do m (fun _ => k)) (at level 199, k at level 200, right associativity) : effect_scope.

Definition print (line : string) : effect unit := fun w => (MkWorld (files w) (stdout_lines w ++ [line]), Ok tt).

(** [path.write_text(text, encoding=utf-8)], Latin-1 text. *)
Fixpoint encode_utf8 (s : string) : string :=
  match s with
  | "" => ""
  | String c s =>
      let n := code c in
      if (n <? 128)%N then String c (encode_utf8 s)
      else String (ascii_of_N (192 + n / 64)) (String (ascii_of_N (128 + n mod 64)) (encode_utf8 s))
  end.

Definition set_node (F : fs) (p : path) (n : node) : fs :=
  MkFs (fun s => if String.eqb (path_str p) s then Some n else fs_node F s) (fs_resolve F) (fs_symlink F).
(** A new entry in its directory. *)
Definition store (F : fs) (p : path) (n : node) : fs :=
  let F := match fs_node F (path_str (parent p)) with
           | Some (Dir names) => set_node F (parent p) (Dir (if mem (name p) names then names else names ++ [name p]))
           | _ => F
           end in
  set_node F p n.
Definition write_bytes_to (F : fs) (p : path) (bytes : string) : result fs :=
  match fs_node F (path_str p) with
  | Some (Dir _) => raise IsADirectoryError (path_str p)
  | _ =>
      match fs_node F (path_str (parent p)) with
      | Some (Dir _) => Ok (store F p (File bytes))
      | Some (File _) => raise NotADirectoryError (path_str p)
      | None => raise FileNotFoundError (path_str p)
      end
  end.
(** [path.mkdir(parents=True, exist_ok=True)] *)
Definition make_dir_in (F : fs) (p : path) : result fs :=
  let ancestors := rev (parents p) in
  let* F := for_fold 0 ancestors F (fun _ q F =>
    match fs_node F (path_str q) with
    | Some (Dir _) => Ok F
    | Some (File _) => raise NotADirectoryError (path_str p)
    | None => Ok (store F q (Dir []))
    end) in
  match fs_node F (path_str p) with
  | Some (Dir _) => Ok F
  | Some (File _) => raise FileExistsError (path_str p)
  | None => Ok (store F p (Dir []))
  end.
Definition changing (change : fs -> result fs) : effect unit :=
  fun w => match change (files w) with Ok F => (MkWorld F (stdout_lines w), Ok tt) | Err e => (w, Err e) end.
Definition write_bytes (p : path) (bytes : string) : effect unit := changing (fun F => write_bytes_to F p bytes).
Definition write_text (p : path) (text : string) : effect unit := write_bytes p (encode_utf8 text).
Definition make_dir (p : path) : effect unit := changing (fun F => make_dir_in F p).
(** [for x in xs: body(x)] *)
Fixpoint each_do {A} (xs : list A) (body : A -> effect unit) : effect unit :=
  match xs with
  | [] => answer tt
  | x :: xs => then_do (body x) (fun _ => each_do xs body)
  end.

(** [json.dumps(d, sort_keys=True)] and [json.dumps(d, indent=2, sort_keys=True)], with a newline *)
Definition json_line (d : jobject) : string := dumps (sort_keys (JDict d)) ++ chr 10.
Definition json_text (d : jobject) : string := dumps_indent 0 (sort_keys (JDict d)) ++ chr 10.

(** The end of a process that exits with what [main] answers. *)
Definition ended (r : world * result nat) : exit :=
  match r with
  | (w, Ok status) => Exited status (stdout_lines w) []
  | (w, Err e) => match exn_cls e with SystemExit => Exited 1 (stdout_lines w) [exn_msg e] | _ => Uncaught e end
  end.

(** * Lemmas *)
Lemma set_node_same F p n : fs_node (set_node F p n) (path_str p) = Some n.
Proof. unfold set_node. cbn. by rewrite String.eqb_refl. Qed.
Lemma set_node_other F p n s : path_str p <> s -> fs_node (set_node F p n) s = fs_node F s.
Proof. intros H. unfold set_node. cbn. by destruct (String.eqb_spec (path_str p) s). Qed.
Lemma store_same F p n : fs_node (store F p n) (path_str p) = Some n.
Proof. apply set_node_same. Qed.
(** Only the path and the directory it is listed in change. *)
Lemma store_other F p n s : path_str p <> s -> path_str (parent p) <> s -> fs_node (store F p n) s = fs_node F s.
Proof.
  intros H1 H2. unfold store. rewrite set_node_other by done. destruct (fs_node F (path_str (parent p))) as [[|]|]; try done. by rewrite set_node_other.
Qed.

Lemma decode_encode s : decode_utf8 (encode_utf8 s) = Ok s.
Proof.
  induction s as [|c s IH]; [done|]. cbn [encode_utf8]. destruct (code c <? 128)%N eqn:E; cbn [decode_utf8]; [by rewrite E, IH|].
  destruct c as [[] [] [] [] [] [] [] []]; vm_compute in E; try discriminate E; cbn -[decode_utf8 encode_utf8]; by rewrite IH.
Qed.
Lemma written_bytes F p bytes F' : write_bytes_to F p bytes = Ok F' -> read_bytes F' p = Ok bytes
  /\ forall s, path_str p <> s -> path_str (parent p) <> s -> fs_node F' s = fs_node F s.
Proof.
  unfold write_bytes_to, read_bytes. destruct (fs_node F (path_str p)) as [[|]|]; try done;
    destruct (fs_node F (path_str (parent p))) as [[|]|]; try done; intros [= <-]; rewrite store_same; (split; [done|]); intros s; apply store_other.
Qed.
