(* ===== verification/MicrovmParse.v ===== *)
(** MicrovmParse: qa/vm/microvm_report_types.py and qa/vm/microvm_report_parse.py: the
    environment of a microVM run, the events of its serial console and the rows a
    report is built from.

    The clock is an argument: the time stamp of the report. *)
From S2P Require Import Prelude PyStr PyRe PyFloat PyJson Sha256 PyFs PyMain WorkloadExec PyEmit.

Local Open Scope string_scope.

(** * qa/vm/microvm_report_types.py *)
Record ReportEnv : Set := MkReportEnv {
  out : path; serial : path; object_sha : string; object_file : string; meta_file : string; git_sha : string; git_dirty : bool;
  started_at : string; kernel_image : string; qemu_bin : string; qemu_scan_before : string; qemu_scan_after : string; qemu_rc : Z;
  dirty_snapshot_sha : string;
}.
(** The fields of [TimeoutEnv], with a prefix of their own. *)
Record TimeoutEnv : Set := MkTimeoutEnv {
  t_out : path; t_git_sha : string; t_git_dirty : bool; t_started_at : string; t_kernel_image : string; t_qemu_bin : string;
  t_qemu_scan_before : string; t_qemu_scan_after : string; t_qemu_rc : Z;
}.
Record ReportRows : Set := MkRows {
  boot : jobject; tuple_row : jobject; workload : jobject; workload_executions : list jobject; mutation_rows : list jobject;
  before : jobject; register : jobject; unregister : jobject; stale_refusal : jobject; duplicate_refusal : jobject;
}.
Record SerialLines : Set := MkLines { register_lines : list string; bpftool_lines : list string; duplicate_lines : list string }.
Record ReportIds : Set := MkIds { audit_id : string; audit_suffix : string; rollback_id : string; active_target : string; refused_target : string }.

(** * qa/vm/microvm_report_parse.py *)
Definition UNAVAILABLE_DIGESTS : list string := [""; "missing"; "none"; "null"; "unavailable"; "unknown"].
Definition SHA256_RE : regex := rseq [RBol; rrep 64 0 (RChar is_hex_lower); REol].
Definition REQUIRED_EVENTS : list string :=
  ["boot"; "tuple"; "workload"; "before"; "register"; "unregister"; "stale_target_refusal"; "duplicate_rollback_refusal"].
Definition MUTATION_FAMILIES : list string := ["cgroup.weight"; "cpu.max"; "uclamp"; "topology.offline_cpu"].

(** [raise SystemExit(message)] *)
Definition exits {A} (message : string) : result A := raise SystemExit message.
Definition demand (condition : bool) (message : string) : result unit := ensure condition SystemExit message.

Definition load_timeout_env (env : environ) : result TimeoutEnv :=
  let* out := env_item env "OUT_DIR" in
  let* git_sha := env_item env "GIT_SHA" in
  let* dirty := env_item env "GIT_DIRTY" in
  let* started_at := env_item env "STARTED_AT" in
  let* kernel_image := env_item env "KERNEL_IMAGE" in
  let* qemu_bin := env_item env "QEMU_BIN" in
  let* scan_before := env_item env "QEMU_SCAN_BEFORE" in
  let* scan_after := env_item env "QEMU_SCAN_AFTER" in
  let* rc_text := env_item env "QEMU_RC" in
  let* rc := int_of_text rc_text in
  Ok (MkTimeoutEnv (Path out) git_sha (String.eqb dirty "true") started_at kernel_image qemu_bin scan_before scan_after rc).

Definition load_report_env (env : environ) : result ReportEnv :=
  let* out := env_item env "OUT_DIR" in
  let* serial := env_item env "SERIAL" in
  let* object_sha := env_item env "OBJECT_SHA" in
  let* object_file := env_item env "OBJECT_FILE" in
  let* meta_file := env_item env "META_FILE" in
  let* git_sha := env_item env "GIT_SHA" in
  let* dirty := env_item env "GIT_DIRTY" in
  let* started_at := env_item env "STARTED_AT" in
  let* kernel_image := env_item env "KERNEL_IMAGE" in
  let* qemu_bin := env_item env "QEMU_BIN" in
  let* scan_before := env_item env "QEMU_SCAN_BEFORE" in
  let* scan_after := env_item env "QEMU_SCAN_AFTER" in
  let* rc_text := env_item env "QEMU_RC" in
  let* rc := int_of_text rc_text in
  Ok (MkReportEnv (Path out) (Path serial) object_sha object_file meta_file git_sha (String.eqb dirty "true") started_at kernel_image
        qemu_bin scan_before scan_after rc (env_get env "ZIG_SCHEDULER_DIRTY_SNAPSHOT_SHA" "")).

Definition event_rc (row : jobject) (context : string) : result Z :=
  match as_int (get row "rc") with Some value => Ok value | None => exits ("microVM event " ++ context ++ " missing integer rc") end.

(** The execution rows as serial text again. *)
Definition execution_text (rows : list jobject) : string :=
  String.concat "" (map (fun row => "ZIGSCHED_JSON " ++ json_line row) rows).
(** The loop over the scenarios; the order of a Python set is not specified, here it
    is that of their first occurrence. *)
Definition require_executions (rows : list jobject) : result unit :=
  let serial_text := execution_text rows in
  reraise WorkloadExecutionError SystemExit (fun exc => "microVM workload execution did not pass: " ++ exn_str exc)
    (let* events := workload_execution_events serial_text in
     for_each (dedup (map scenario events)) (require_workload_pass serial_text)).

Definition validate_rows (rows : ReportRows) : result unit :=
  demand (match workload_executions rows with [] => false | _ => true end) "missing microVM workload_execution evidence" ;;;
  require_executions (workload_executions rows) ;;;
  demand (py_eq (get (register rows) "rc") (JInt 0) && py_eq (get (register rows) "ops") (JStr "zigsched_minimal"))
    "microVM attach did not enable zigsched_minimal" ;;;
  demand (py_eq (get (unregister rows) "rc") (JInt 0) && py_eq (get (unregister rows) "state") (JStr "disabled"))
    "microVM rollback did not restore disabled state" ;;;
  demand (py_eq (get (stale_refusal rows) "status") (JStr "REFUSE")) "microVM stale target refusal did not refuse" ;;;
  let* rc := event_rc (stale_refusal rows) "stale_target_refusal" in
  demand (negb (Z.eqb rc 0)) "microVM stale target refusal did not refuse" ;;;
  demand (py_eq (get (stale_refusal rows) "refusal_path") (JStr "refuse_stale_rollback_target"))
    "microVM stale target refusal did not use the VM refusal path" ;;;
  demand (py_eq (get (duplicate_refusal rows) "status") (JStr "REFUSE")) "microVM duplicate rollback refusal did not refuse" ;;;
  let* rc := event_rc (duplicate_refusal rows) "duplicate_rollback_refusal" in
  demand (negb (Z.eqb rc 0)) "microVM duplicate rollback refusal did not refuse" ;;;
  demand (truthy (get (tuple_row rows) "btf")) "microVM kernel BTF missing" ;;;
  for_each (mutation_rows rows) (fun mutation =>
    let family := py_str (get mutation "family") in
    demand (py_eq (get mutation "status") (JStr "PASS")) ("microVM mutation family did not pass: " ++ family) ;;;
    demand (is_true (get mutation "target_allowlisted")) ("microVM mutation target not allowlisted: " ++ family) ;;;
    demand (is_true (get mutation "rollback_restored")) ("microVM mutation rollback did not restore: " ++ family)).

(** [by_event[name]]: the last row of that event. *)
Definition by_event (rows : list jobject) (name : string) : option jobject :=
  List.find (fun row => String.eqb (py_str (get row "event")) name) (rev rows).
Definition event_row (rows : list jobject) (name : string) : result jobject :=
  match by_event rows name with Some row => Ok row | None => raise KeyError name end.

Definition require_rows (rows : list jobject) : result ReportRows :=
  for_each REQUIRED_EVENTS (fun required =>
    demand (match by_event rows required with Some _ => true | None => false end) ("missing microVM event: " ++ required)) ;;;
  let workload_execution_rows := List.filter (fun row => py_eq (get row "event") (JStr "workload_execution")) rows in
  let mutation_rows := List.filter (fun row => py_eq (get row "event") (JStr "mutation_family")) rows in
  let observed_families := map (fun row => py_str (get row "family")) mutation_rows in
  let missing_families := sorted (set_diff MUTATION_FAMILIES observed_families) in
  demand (match missing_families with [] => true | _ => false end)
    ("missing microVM mutation family evidence: " ++ join ", " missing_families) ;;;
  let* boot := event_row rows "boot" in
  let* tuple_row := event_row rows "tuple" in
  let* workload := event_row rows "workload" in
  let* before := event_row rows "before" in
  let* register := event_row rows "register" in
  let* unregister := event_row rows "unregister" in
  let* stale_refusal := event_row rows "stale_target_refusal" in
  let* duplicate_refusal := event_row rows "duplicate_rollback_refusal" in
  let result := MkRows boot tuple_row workload workload_execution_rows mutation_rows before register unregister stale_refusal duplicate_refusal in
  validate_rows result ;;;
  Ok result.

(** [line.split(marker, 1)[1]] of a line with the marker. *)
Definition after_marker (marker line : string) : option string :=
  match find line marker with Some i => Some (drop_str (i + len marker) line) | None => None end.
Definition marked (marker : string) (lines : list string) : list string := omap (after_marker marker) lines.

(** The loop over the lines: the rows first, then the three kinds of lines, which
    are collected as the loop meets them. *)
Definition parse_serial (text : string) : result (ReportRows * SerialLines) :=
  let lines := splitlines text in
  let* rows := map_m (fun event =>
    let* raw := loads event in
    match raw with JDict raw => Ok raw | _ => exits "microVM JSON event root is not object" end) (marked JSON_MARKER lines) in
  let* rows := require_rows rows in
  Ok (rows, MkLines (marked "REGISTER_OUT " lines) (marked "BPFT_VER " lines) (marked "DUPLICATE_UNREGISTER_OUT " lines)).

Definition report_ids (stamp : string) (env : ReportEnv) (rows : ReportRows) : ReportIds :=
  let id := py_str (get (register rows) "id") in
  let suffix := take_str 6 (sha256_hex (encode_utf8 (git_sha env ++ object_sha env ++ id))) in
  let target field default := py_str (or_value (get (stale_refusal rows) field) (JStr default)) in
  MkIds ("AUD-" ++ stamp ++ "-" ++ take_str 7 (git_sha env) ++ "-" ++ suffix) suffix ("RB-microvm-live-" ++ id)
    (target "active_target" "/sys/fs/cgroup/zig-scheduler-lab.slice/demo.scope")
    (target "refused_target" "/sys/fs/cgroup/zig-scheduler-lab.slice/stale.scope").

Definition status_value (status value : string) : jobject := [("status", JStr status); ("value", JStr value)].
Definition fact (value : json) : jobject :=
  let absent := is_none value || py_eq value (JStr "") in
  let text_value := if absent then "unavailable" else py_str value in
  status_value (if String.eqb text_value "unavailable" then "unknown" else "present") text_value.

Definition observed_bool (row : jobject) (field source : string) : result bool :=
  match get row field with JBool value => Ok value | _ => exits ("microVM sample " ++ source ++ " missing observed boolean " ++ field) end.
Definition observed_digest (row : jobject) (source : string) : result string :=
  let refused := exits ("microVM sample " ++ source ++ " missing observed sha256 cgroup digest") in
  match get row "cgroup_membership_digest" with
  | JStr value =>
      if negb (re_match SHA256_RE value) || String.eqb value (repeat_str 64 "0") || mem (lower value) UNAVAILABLE_DIGESTS then refused else Ok value
  | _ => refused
  end.
Definition observed_cgroup_status (row : jobject) (source : string) : result string :=
  demand (py_eq (get row "cgroup_membership_status") (JStr "present")) ("microVM sample " ++ source ++ " did not observe cgroup membership") ;;;
  Ok "present".

(** [(?:^|[^A-Za-z0-9_])name\s*[:=]\s*([0-9]+)] without flags: the start is that of the text. *)
Definition counter_re (name : string) : regex :=
  rseq [RAlt RBol (RChar (fun c => negb (is_digit c || is_upper c || is_lower c || Ascii.eqb c "_"))); rlit name; rstar rspace;
        RChar (one_of ":="); rstar rspace; RCap "1" (rplus rdigit09)].
Definition counter_fact (events_text name : string) : jobject :=
  match re_search (counter_re name) events_text with
  | None => status_value "unknown" "unavailable"
  | Some found => status_value "present" (group "1" found)
  end.

(** * Specification *)

(** The last row of an event: what its entry in the dict by event is. *)
Definition last_event (rows : list jobject) (name : string) (row : jobject) : Prop :=
  exists earlier later, rows = (earlier ++ row :: later)%list /\ py_str (get row "event") = name
    /\ Forall (fun r => py_str (get r "event") <> name) later.
Definition of_event (name : string) (rows selected : list jobject) : Prop :=
  selected = List.filter (fun row => py_eq (get row "event") (JStr name)) rows.

Record rows_of (rows : list jobject) (r : ReportRows) : Prop := {
  rf_boot : last_event rows "boot" (boot r);
  rf_tuple : last_event rows "tuple" (tuple_row r);
  rf_workload : last_event rows "workload" (workload r);
  rf_before : last_event rows "before" (before r);
  rf_register : last_event rows "register" (register r);
  rf_unregister : last_event rows "unregister" (unregister r);
  rf_stale : last_event rows "stale_target_refusal" (stale_refusal r);
  rf_duplicate : last_event rows "duplicate_rollback_refusal" (duplicate_refusal r);
  rf_executions : of_event "workload_execution" rows (workload_executions r);
  rf_mutations : of_event "mutation_family" rows (mutation_rows r);
  rf_families : forall family, In family MUTATION_FAMILIES ->
    exists row, In row (mutation_rows r) /\ py_str (get row "family") = family;
}.

Definition is_zero (v : json) : Prop := py_eq v (JInt 0) = true.
Definition refused (row : jobject) : Prop :=
  get row "status" = JStr "REFUSE" /\ exists n, as_int (get row "rc") = Some n /\ n <> 0%Z.
(** Every execution of the rows is clean and its scenario has one that passed. *)
Definition executions_pass (rows : list jobject) : Prop :=
  exists events, workload_execution_events (execution_text rows) = Ok events
    /\ forall event, In event events -> clean_execution event
         /\ exists passed, In passed events /\ scenario passed = scenario event /\ status passed = "PASS".
Record report_ok (r : ReportRows) : Prop := {
  ro_executions : workload_executions r <> [] /\ executions_pass (workload_executions r);
  ro_register : is_zero (get (register r) "rc") /\ get (register r) "ops" = JStr "zigsched_minimal";
  ro_unregister : is_zero (get (unregister r) "rc") /\ get (unregister r) "state" = JStr "disabled";
  ro_stale : refused (stale_refusal r) /\ get (stale_refusal r) "refusal_path" = JStr "refuse_stale_rollback_target";
  ro_duplicate : refused (duplicate_refusal r);
  ro_btf : truthy (get (tuple_row r) "btf") = true;
  ro_mutations : forall row, In row (mutation_rows r) -> get row "status" = JStr "PASS"
    /\ get row "target_allowlisted" = JBool true /\ get row "rollback_restored" = JBool true;
}.

(** * Lemmas *)
Lemma report_demand_ok b m u : demand b m = Ok u <-> b = true.
Proof. apply ensure_ok. Qed.
Lemma event_rc_ok row c n : event_rc row c = Ok n <-> as_int (get row "rc") = Some n.
Proof. unfold event_rc. destruct (as_int _); split; intros [=]; by subst. Qed.

Lemma executions_ok rows : require_executions rows = Ok tt <-> executions_pass rows.
Proof.
  unfold require_executions, executions_pass. rewrite reraise_ok, bind_ok. apply exist_proper. intros events.
  rewrite for_each_ok, Forall_forall. setoid_rewrite list_elem_of_In. setoid_rewrite dedup_in. setoid_rewrite in_map_iff. setoid_rewrite require_workload_pass_iff.
  split; intros [He H]; (split; [done|]).
  - intros event Hin. destruct (H (scenario event) (ex_intro _ event (conj eq_refl Hin))) as (events' & He' & Hp & Hc).
    rewrite He in He'. injection He' as <-. split; [by apply Hc | done].
  - intros wanted (event & <- & Hin). exists events. destruct (H _ Hin) as [_ Hp]. split_and!; try done. intros e Hin' _. by apply H.
Qed.

Lemma report_validated r : validate_rows r = Ok tt <-> report_ok r.
Proof.
  assert (Hm : forall l, for_each l (fun mutation =>
      let family := py_str (get mutation "family") in
      demand (py_eq (get mutation "status") (JStr "PASS")) ("microVM mutation family did not pass: " ++ family) ;;;
      demand (is_true (get mutation "target_allowlisted")) ("microVM mutation target not allowlisted: " ++ family) ;;;
      demand (is_true (get mutation "rollback_restored")) ("microVM mutation rollback did not restore: " ++ family)) = Ok tt <->
    forall row, In row l -> get row "status" = JStr "PASS" /\ get row "target_allowlisted" = JBool true /\ get row "rollback_restored" = JBool true).
  { intros l. rewrite for_each_ok, Forall_forall. setoid_rewrite list_elem_of_In. cbv zeta. setoid_rewrite bind_ok_unit. setoid_rewrite bind_ok_unit.
    setoid_rewrite report_demand_ok. setoid_rewrite py_eq_str. by setoid_rewrite is_true_iff. }
  assert (Hne : match workload_executions r with [] => false | _ => true end = true <-> workload_executions r <> []) by (by destruct (workload_executions r)).
  unfold validate_rows. split.
  - intros [He%report_demand_ok%Hne [Hx%executions_ok [Hr%report_demand_ok%andb_true_iff [Hu%report_demand_ok%andb_true_iff [Hs%report_demand_ok%py_eq_str (n & Hn%event_rc_ok & [H0%report_demand_ok
      [Hp%report_demand_ok%py_eq_str [Hd%report_demand_ok%py_eq_str (k & Hk%event_rc_ok & [H1%report_demand_ok [Hb%report_demand_ok Hmut]%bind_ok_unit]%bind_ok_unit)%bind_ok]%bind_ok_unit]%bind_ok_unit
      ]%bind_ok_unit)%bind_ok]%bind_ok_unit]%bind_ok_unit]%bind_ok_unit]%bind_ok_unit]%bind_ok_unit.
    pose proof (proj1 (Hm _) Hmut) as H. destruct Hr as [Hr1 Hr2%py_eq_str], Hu as [Hu1 Hu2%py_eq_str]. apply negb_true_iff, Z.eqb_neq in H0, H1. split; try done.
    + split; [|done]. split; [done | by exists n].
    + split; [done | by exists k].
  - intros [[He Hx] [Hr1 Hr2] [Hu1 Hu2] [[Hs (n & Hn & H0)] Hp] [Hd (k & Hk & H1)] Hb H].
    apply bind_ok_unit. split; [by apply report_demand_ok, Hne|]. apply bind_ok_unit. split; [by apply executions_ok|].
    apply bind_ok_unit. split; [apply report_demand_ok, andb_true_iff; by rewrite py_eq_str|]. apply bind_ok_unit. split; [apply report_demand_ok, andb_true_iff; by rewrite py_eq_str|].
    apply bind_ok_unit. split; [by apply report_demand_ok, py_eq_str|]. apply bind_ok. exists n. split; [by apply event_rc_ok|].
    apply bind_ok_unit. split; [by apply report_demand_ok, negb_true_iff, Z.eqb_neq|]. apply bind_ok_unit. split; [by apply report_demand_ok, py_eq_str|].
    apply bind_ok_unit. split; [by apply report_demand_ok, py_eq_str|]. apply bind_ok. exists k. split; [by apply event_rc_ok|].
    apply bind_ok_unit. split; [by apply report_demand_ok, negb_true_iff, Z.eqb_neq|]. apply bind_ok_unit. split; [by apply report_demand_ok | by apply Hm].
Qed.

Lemma by_event_ok rows name row : by_event rows name = Some row <-> last_event rows name row.
Proof.
  unfold by_event, last_event. induction rows as [|r rows IH] using rev_ind.
  - split; [done|]. intros (e & l & H & _). by destruct e.
  - rewrite rev_app_distr. cbn [rev app List.find]. destruct (String.eqb_spec (py_str (get r "event")) name) as [Hr|Hr].
    + split.
      * intros [= <-]. exists rows, []. split_and!; [done | done | constructor].
      * intros (e & l & H & Hn & Hl). destruct l as [|x l _] using rev_ind; [by apply app_inj_tail in H as [_ ->]|].
        rewrite app_comm_cons, app_assoc in H. apply app_inj_tail in H as [_ ->]. apply Forall_app in Hl as [_ Hl]. by inversion Hl.
    + rewrite IH. split; intros (e & l & H & Hn & Hl).
      * subst rows. exists e, (l ++ [r])%list. split_and!; [by rewrite <- app_assoc | done | apply Forall_app; split; [done | by repeat constructor]].
      * destruct l as [|x l _] using rev_ind; [apply app_inj_tail in H as [_ ->]; done|].
        rewrite app_comm_cons, app_assoc in H. apply app_inj_tail in H as [-> ->]. apply Forall_app in Hl as [Hl _]. by exists e, l.
Qed.
Lemma event_row_ok rows name row : event_row rows name = Ok row <-> last_event rows name row.
Proof. unfold event_row. rewrite <- by_event_ok. destruct (by_event rows name); split; intros [=]; by subst. Qed.

Lemma rows_accepted rows r : require_rows rows = Ok r <-> rows_of rows r /\ report_ok r.
Proof.
  assert (Hf : forall l, match sorted (set_diff MUTATION_FAMILIES (map (fun row => py_str (get row "family")) l)) with [] => true | _ => false end = true <->
    forall family, In family MUTATION_FAMILIES -> exists row, In row l /\ py_str (get row "family") = family).
  { intros l. pose proof (no_extra MUTATION_FAMILIES (map (fun row => py_str (get row "family")) l)) as Hn. setoid_rewrite in_map_iff in Hn.
    destruct (sorted _); split; try done.
    - intros _ family Hin. destruct (proj1 Hn eq_refl family Hin) as (row & H1 & H2). by exists row.
    - intros H. exfalso. assert (Hx : s :: l0 = []) by (apply Hn; intros x Hx; destruct (H x Hx) as (row & H1 & H2); by exists row). done. }
  unfold require_rows. cbv zeta. split.
  - intros [_ [Hmiss%report_demand_ok (b & Hb%event_row_ok & (t & Ht%event_row_ok & (w & Hw%event_row_ok & (be & Hbe%event_row_ok & (re & Hre%event_row_ok
      & (un & Hun%event_row_ok & (st & Hst%event_row_ok & (du & Hdu%event_row_ok & [Hv%report_validated [= <-]]%bind_ok_unit)%bind_ok)%bind_ok)%bind_ok)%bind_ok
      )%bind_ok)%bind_ok)%bind_ok)%bind_ok]%bind_ok_unit]%bind_ok_unit.
    pose proof (proj1 (Hf _) Hmiss) as Hfam. split; [by split | done].
  - intros [[Hb Ht Hw Hbe Hre Hun Hst Hdu He Hm Hfam] Hv]. destruct r as [b t w ex mu be re un st du].
    cbn [boot tuple_row workload workload_executions mutation_rows before register unregister stale_refusal duplicate_refusal] in *. unfold of_event in *. subst ex mu.
    apply bind_ok_unit. split.
    { apply for_each_ok, Forall_forall. intros name Hin. apply report_demand_ok. apply list_elem_of_In in Hin. cbn in Hin.
      assert (Hby : forall n row, last_event rows n row -> match by_event rows n with Some _ => true | None => false end = true)
        by (intros n row H; apply by_event_ok in H; by rewrite H).
      decompose [or] Hin; subst; first [eapply Hby; eassumption | done]. }
    apply bind_ok_unit. split; [by apply report_demand_ok, Hf|].
    repeat (apply bind_ok; eexists; split; [by apply event_row_ok|]). apply bind_ok_unit. by split; [apply report_validated|].
Qed.

Lemma parsed_report text r lines : parse_serial text = Ok (r, lines) -> report_ok r.
Proof. unfold parse_serial. cbv zeta. intros (rows & _ & (r' & [_ Hr]%rows_accepted & [= <- _])%bind_ok)%bind_ok. done. Qed.

(** * Properties *)

(** C9: the serial text of a microVM gives a report exactly when the text after every
    marker is a JSON object and these rows have the eight required events and all
    mutation families, every workload execution in them is clean and its scenario has
    one that passed, the attach enabled the policy, the rollback disabled it, both
    refusals refused, the kernel had BTF and every mutation passed on an allowlisted
    target and was rolled back; of an event that occurs more than once the last row
    is reported. *)
Theorem parse_serial_iff text r lines : parse_serial text = Ok (r, lines) <->
  exists rows, Forall2 (fun event row => loads event = Ok (JDict row)) (marked JSON_MARKER (splitlines text)) rows
    /\ rows_of rows r /\ report_ok r
    /\ lines = MkLines (marked "REGISTER_OUT " (splitlines text)) (marked "BPFT_VER " (splitlines text)) (marked "DUPLICATE_UNREGISTER_OUT " (splitlines text)).
Proof.
  assert (Hr : forall event row, (let* raw := loads event in match raw with JDict raw => Ok raw | _ => exits "microVM JSON event root is not object" end) = Ok row <->
    loads event = Ok (JDict row)).
  { intros event row. rewrite bind_ok. split; [intros (v & Hv & H); destruct v; try done; by injection H as -> | intros H; by exists (JDict row)]. }
  unfold parse_serial. cbv zeta. rewrite bind_ok. setoid_rewrite map_m_ok. split.
  - intros (rows & H & (r' & Hr'%rows_accepted & [= <- <-])%bind_ok). destruct Hr' as [Hf Ho]. exists rows. split_and!; try done.
    eapply Forall2_impl; [exact H|]. intros; by apply Hr.
  - intros (rows & H & Hf & Ho & ->). exists rows. split; [eapply Forall2_impl; [exact H|]; intros; by apply Hr|]. apply bind_ok. exists r.
    split; [by apply rows_accepted | done].
Qed.
