(* ===== verification/MicrovmReport.v ===== *)
(** MicrovmReport: qa/vm/microvm_report_outputs.py, qa/vm/microvm_report_summary.py and
    qa/vm/microvm_report_emit.py: the bundle of evidence that is written for a microVM
    run, from the rows of its serial console.

    What the clock says is an argument: the stamp of the audit id and the end of the
    run. *)
From S2P Require Import Prelude PyStr PyRe PyFloat PyJson Sha256 PyFs PyMain PolicyAbi RuntimeSample LiveBehavior PyEmit MicrovmParse.

Local Open Scope string_scope.
Local Open Scope effect_scope.

(** * qa/vm/microvm_report_types.py: the files of a report *)
Record OutputPaths : Set := MkPaths { verifier_dir : path; partial_dir : path; observe_dir : path; rollback_dir : path; mutation_dir : path }.
Record VerifierOutputs : Set := MkVerifier {
  verifier_evidence : path; verifier_log : path; partial_evidence : path; live_attach_proof : path; partial_transcript : path;
  ledger : path; snapshot : path; rollback_transcript : path; refusals : path; mutation_evidence : path;
}.
Record ObserveOutputs : Set := MkObserve {
  observe_summary : path; samples : path; daemon : path; observe_transcript : path; sample_rows : list jobject;
}.

Definition text_lines (lines : list string) : string := join (chr 10) lines ++ chr 10.
Definition path_json (p : path) : json := JStr (path_str p).

(** * qa/vm/microvm_report_outputs.py *)
Definition prepare_output_paths (out : path) : effect OutputPaths :=
  let paths := MkPaths (div_path out "verifier") (div_path out "partial-attach") (div_path out "observe-partial")
                 (div_path out "rollback-drill") (div_path out "mutation-evidence") in
  each_do [verifier_dir paths; partial_dir paths; observe_dir paths; rollback_dir paths; mutation_dir paths; div_path out "stages"] make_dir ;!
  answer paths.

Definition kernel_tuple (rows : ReportRows) : jobject :=
  [("release", JStr (py_str (get (tuple_row rows) "kernel"))); ("arch", JStr (py_str (get (tuple_row rows) "arch")));
   ("config_sha256", JStr "microvm-host-kernel")].

Definition verifier_log_tail (env : ReportEnv) (rows : ReportRows) : list string := [
  "schema=zig-scheduler/bpf-verifier-log/v1";
  "evidence_mode=vm-live";
  "vm_kind=qemu-vm";
  "vm_marker_present=true";
  "vm_marker_path=/run/zig-scheduler-vm-lab.marker";
  String.append "kernel_release=" (py_str (get (tuple_row rows) "kernel"));
  String.append "kernel_arch=" (py_str (get (tuple_row rows) "arch"));
  "kernel_config_sha256=microvm-host-kernel";
  "host_mutation=false";
  "release_eligible_live_proof=true";
  "verifier_result=accepted";
  "attach_result=registered";
  "rollback_status=PASS";
  String.append "object=" (object_file env);
  String.append "object_sha256=" (object_sha env);
  String.append "bpf_metadata_path=" (meta_file env);
  String.append "bpf_metadata_object_sha256=" (object_sha env);
  "bpftool_rc=0"].

Definition verifier_evidence_payload (env : ReportEnv) (rows : ReportRows) (verifier_log : path) : result jobject :=
  let* id := int_of_value (get_or (register rows) "id" (JInt 0)) in
  Ok [("schema", JStr "zig-scheduler/vm-verifier-evidence/v1"); ("status", JStr "PASS"); ("evidence_mode", JStr "vm-live");
      ("vm_kind", JStr "qemu-vm"); ("vm_marker_present", JBool true); ("vm_marker_path", JStr "/run/zig-scheduler-vm-lab.marker");
      ("kernel_tuple", JDict (kernel_tuple rows)); ("verifier_result", JStr "accepted"); ("attach_result", JStr "registered");
      ("rollback_status", JStr "PASS"); ("bpftool_debug", JBool true); ("object", JStr (object_file env));
      ("object_sha256", JStr (object_sha env)); ("bpf_metadata_path", JStr (meta_file env));
      ("bpf_metadata_object_sha256", JStr (object_sha env)); ("policy_name", JStr "zigsched_minimal"); ("registered_id", JInt id);
      ("verifier_log", path_json verifier_log); ("host_mutation", JBool false); ("release_eligible_live_proof", JBool true)].

Definition partial_transcript_lines (rows : ReportRows) (ids : ReportIds) : list string := [
  "schema=zig-scheduler/partial-attach-transcript/v1";
  "COMMAND: bpftool -d struct_ops register /zigsched_minimal.bpf.o";
  "bpftool -d struct_ops register";
  "bpftool struct_ops register";
  "ops=zigsched_minimal";
  "switch_mode=SCX_OPS_SWITCH_PARTIAL";
  String.append "target_cgroup=" (active_target ids);
  String.append "registered_id=" (py_str (get (register rows) "id"));
  String.append "rollback_id=" (rollback_id ids);
  "rollback_status=PASS";
  "post_state=disabled";
  "host_mutation=false"].

Definition partial_evidence_payload (env : ReportEnv) (ids : ReportIds) (partial_transcript : path) : jobject :=
  [("schema", JStr "zig-scheduler/partial-attach-evidence/v1"); ("attach_command", JStr "bpftool struct_ops register");
   ("target_cgroup", JStr (active_target ids)); ("rollback_id", JStr (rollback_id ids)); ("rollback_status", JStr "PASS");
   ("ops_during_attach", JStr "zigsched_minimal"); ("switch_mode", JStr "SCX_OPS_SWITCH_PARTIAL"); ("post_state", JStr "disabled");
   ("object", JStr (object_file env)); ("object_sha256", JStr (object_sha env)); ("transcript_path", path_json partial_transcript);
   ("host_mutation", JBool false); ("release_eligible_live_proof", JBool false)].

Definition live_attach_payload (env : ReportEnv) (rows : ReportRows) (ids : ReportIds) (partial_evidence : path) : jobject :=
  [("schema", JStr "zig-scheduler/live-attach-proof/v1"); ("action_id", JStr ("act-" ++ audit_suffix ids)); ("evidence_mode", JStr "vm-live");
   ("git_sha", JStr (git_sha env)); ("host_mutation", JBool false); ("private_logs", JBool false); ("vm_kind", JStr "qemu-vm");
   ("vm_marker_present", JBool true); ("vm_marker_path", JStr "/run/zig-scheduler-vm-lab.marker");
   ("kernel_tuple", JDict (kernel_tuple rows)); ("audit_id", JStr (audit_id ids)); ("rollback_id", JStr (rollback_id ids));
   ("target_cgroup", JStr (active_target ids)); ("registered_ops", JStr "zigsched_minimal_ops"); ("release_eligible_live_proof", JBool true);
   ("partial_attach_evidence", path_json partial_evidence)].

Definition rollback_snapshot_payload (rows : ReportRows) (ids : ReportIds) : jobject :=
  let registered field default := JStr (py_str (get_or (register rows) field (JStr default))) in
  let unregistered field default := JStr (py_str (get_or (unregister rows) field (JStr default))) in
  [("schema", JStr "zig-scheduler/rollback-snapshot/v1"); ("audit_id", JStr (audit_id ids)); ("rollback_id", JStr (rollback_id ids));
   ("target_cgroup", JStr (active_target ids)); ("state_before", registered "state" "enabled"); ("state_after", unregistered "state" "disabled");
   ("ops_before", registered "ops" "zigsched_minimal"); ("ops_after", JStr (py_str (or_value (get (unregister rows) "ops") (JStr "none"))));
   ("enable_seq_before", registered "enable_seq" "1"); ("enable_seq_after", unregistered "enable_seq" "1")].

Definition rollback_refusal_rows (rows : ReportRows) (lines : SerialLines) (ids : ReportIds) : result (list jobject) :=
  let* rc := int_of_value (get_or (duplicate_refusal rows) "rc" (JInt 1)) in
  Ok [[("schema", JStr "zig-scheduler/rollback-refusal/v1"); ("status", JStr "REFUSE");
       ("reason", JStr "rollback target does not match active VM target"); ("state", JStr "stale_target_refused");
       ("active_target", JStr (active_target ids)); ("refused_target", JStr (refused_target ids)); ("rollback_id", JStr (rollback_id ids));
       ("audit_id", JStr (audit_id ids)); ("host_mutation", JBool false);
       ("refusal_path", JStr (py_str (get_or (stale_refusal rows) "refusal_path" (JStr ""))))];
      [("schema", JStr "zig-scheduler/rollback-refusal/v1"); ("status", JStr "REFUSE"); ("reason", JStr "rollback id already consumed");
       ("state", JStr "duplicate_rollback_refused"); ("active_target", JStr (active_target ids)); ("rollback_id", JStr (rollback_id ids));
       ("audit_id", JStr (audit_id ids)); ("bpftool_rc", JInt rc);
       ("bpftool_output", JStr (take_str 300 (join " " (duplicate_lines lines)))); ("host_mutation", JBool false)]].

Definition ledger_row (ids : ReportIds) (snapshot transcript : path) (snapshot_sha transcript_sha : string) : jobject :=
  [("schema", JStr "zig-scheduler/audit-ledger/v1"); ("audit_id", JStr (audit_id ids)); ("rollback_id", JStr (rollback_id ids));
   ("action", JStr "rollback-drill"); ("rollback_snapshot", path_json snapshot); ("rollback_snapshot_sha256", JStr snapshot_sha);
   ("transcript", path_json transcript); ("transcript_sha256", JStr transcript_sha); ("secret_redaction", JStr "redacted")].

Definition write_rollback_outputs (paths : OutputPaths) (rows : ReportRows) (lines : SerialLines) (ids : ReportIds)
    : effect (path * path * path * path) :=
  let snapshot := div_path (rollback_dir paths) (audit_id ids ++ ".rollback-snapshot.json") in
  let rollback_transcript := div_path (rollback_dir paths) (audit_id ids ++ ".rollback-transcript.txt") in
  let refusals := div_path (rollback_dir paths) "rollback-refusals.jsonl" in
  let ledger := div_path (rollback_dir paths) "audit-ledger.jsonl" in
  write_text snapshot (json_line (rollback_snapshot_payload rows ids)) ;!
  write_text rollback_transcript ("bpftool struct_ops unregister id " ++ py_str (get (register rows) "id") ++ chr 10 ++ "rollback_status=PASS" ++ chr 10
    ++ "target_cgroup=" ++ active_target ids ++ chr 10 ++ "host_mutation=false" ++ chr 10) ;!
  do refusal_rows <- lift (rollback_refusal_rows rows lines ids) in
  write_text refusals (String.concat "" (map json_line refusal_rows)) ;!
  do snapshot_sha <- reading_files (fun F => sha256_of F snapshot) in
  do transcript_sha <- reading_files (fun F => sha256_of F rollback_transcript) in
  write_text ledger (json_line (ledger_row ids snapshot rollback_transcript snapshot_sha transcript_sha)) ;!
  answer (snapshot, rollback_transcript, refusals, ledger).

Definition mutation_entry (ids : ReportIds) (row : jobject) : result (string * json) :=
  let state field := JDict [("value", JStr (py_str (get_or row field (JStr "unavailable"))))] in
  let* write_rc := int_of_value (get_or row "write_rc" (JInt 1)) in
  let* rollback_rc := int_of_value (get_or row "rollback_rc" (JInt 1)) in
  Ok (py_str (get row "family"),
      JDict [("target", JStr (py_str (get row "target"))); ("target_allowlisted", JBool (is_true (get row "target_allowlisted")));
             ("audit_id", JStr (audit_id ids)); ("rollback_id", JStr (rollback_id ids)); ("host_mutation", JBool false);
             ("pre_state", state "pre_value"); ("post_state", state "post_value");
             ("rollback_proof", JDict [("result", JStr "PASS"); ("restored_state", state "restored_value"); ("write_rc", JInt write_rc);
                                       ("rollback_rc", JInt rollback_rc)]);
             ("cleanup_proof", JDict [("status", JStr "PASS"); ("process_group_reaped", JBool true); ("temp_dirs_removed", JBool true)])]).
Definition mutation_evidence_payload (rows : ReportRows) (ids : ReportIds) : result jobject :=
  let* evidence := for_fold 0 (mutation_rows rows) [] (fun _ row evidence =>
    let* (family, entry) := mutation_entry ids row in Ok (dict_set family entry evidence)) in
  Ok [("schema", JStr "zig-scheduler/mutation-evidence/v1"); ("status", JStr "PASS"); ("evidence_mode", JStr "vm-live");
      ("vm_marker_present", JBool true); ("vm_marker_path", JStr "/run/zig-scheduler-vm-lab.marker"); ("host_mutation", JBool false);
      ("mutation_evidence", JDict evidence)].

Definition write_verifier_outputs (env : ReportEnv) (rows : ReportRows) (lines : SerialLines) (ids : ReportIds) (paths : OutputPaths)
    : effect VerifierOutputs :=
  let verifier_log := div_path (verifier_dir paths) "bpf-verifier.log" in
  write_text verifier_log (text_lines (bpftool_lines lines ++ register_lines lines ++ verifier_log_tail env rows)) ;!
  let verifier_evidence := div_path (verifier_dir paths) "verifier-evidence.json" in
  do payload <- lift (verifier_evidence_payload env rows verifier_log) in
  write_text verifier_evidence (json_text payload) ;!
  let partial_transcript := div_path (partial_dir paths) "partial-attach-transcript.txt" in
  write_text partial_transcript (text_lines (partial_transcript_lines rows ids)) ;!
  let partial_evidence := div_path (partial_dir paths) "partial-attach-evidence.json" in
  write_text partial_evidence (json_text (partial_evidence_payload env ids partial_transcript)) ;!
  let live_attach_proof := div_path (partial_dir paths) "live-attach-proof.json" in
  write_text live_attach_proof (json_text (live_attach_payload env rows ids partial_evidence)) ;!
  do (snapshot, rollback_transcript, refusals, ledger) <- write_rollback_outputs paths rows lines ids in
  let mutation_evidence := div_path (mutation_dir paths) "mutation-evidence.json" in
  do payload <- lift (mutation_evidence_payload rows ids) in
  write_text mutation_evidence (json_text payload) ;!
  answer (MkVerifier verifier_evidence verifier_log partial_evidence live_attach_proof partial_transcript ledger snapshot
            rollback_transcript refusals mutation_evidence).

(** * qa/vm/microvm_report_summary.py *)

(** [value if isinstance(value, int) and value >= 0 else 0] *)
Definition event_int (event : jobject) (field : string) : json :=
  match get event field with
  | JInt z => if (0 <=? z)%Z then JInt z else JInt 0
  | JBool b => JBool b
  | _ => JInt 0
  end.
Definition positive (v : json) : bool := match as_int v with Some n => (0 <? n)%Z | None => false end.

(** [d[field] = value] for each pair, in order *)
Definition set_all (pairs : list (string * json)) (d : jobject) : jobject := fold_left (fun d fv => dict_set (fst fv) (snd fv) d) pairs d.

Definition policy_abi_from_event (event : jobject) (policy_object_sha256 : string) : jobject :=
  let map_present := py_eq (get event "cgroup_policy_map_status") (JStr "present") in
  let policy_map :=
    if map_present then
      set_all [("last_weight", event_int event "cgroup_policy_last_weight"); ("weight_generation", event_int event "cgroup_policy_weight_generation");
               ("move_generation", event_int event "cgroup_policy_move_generation")] (good_cgroup_policy_map "present")
    else good_cgroup_policy_map "unavailable" in
  let stats :=
    if map_present then
      dict_set "cpu_weight_callback_observed" (JBool (positive (event_int event "cgroup_weight_observed")))
        (set_all (map (fun field => (field, event_int event field))
                   ["cgroup_init_calls"; "cgroup_exit_calls"; "cgroup_move_calls"; "cgroup_set_weight_calls"; "cgroup_weight_observed"])
           (good_cgroup_callback_stats "present"))
    else good_cgroup_callback_stats "unavailable" in
  let dsq := good_dsq_counter_coherence (if py_eq (get event "dsq_counter_coherence_status") (JStr "present") then "present" else "unavailable") in
  set_all [("cgroup_policy_map", JDict policy_map); ("cgroup_callback_stats", JDict stats); ("dsq_counter_coherence", JDict dsq)]
    (good_policy_abi policy_object_sha256).

Definition policy_semantics (policy_object_sha256 : string) : result json :=
  match get (good_policy_abi policy_object_sha256) "cgroup_semantics" with
  | JDict semantics => Ok (JDict semantics)
  | _ => exits "internal policy ABI shape error"
  end.

Definition counter_value (events_text name : string) : result Z :=
  match re_search (counter_re name) events_text with None => Ok 0%Z | Some found => int_of_digits (group "1" found) end.
Definition policy_counters (events_text : string) (nr_rejected : jobject) : result jobject :=
  if negb (py_eq (get nr_rejected "status") (JStr "present")) then Ok nr_rejected
  else map_m (fun name => let* n := counter_value events_text name in Ok (name, JInt n)) ["nr_rejected"; "dispatch_failed"; "fallback"; "fatal"].

Definition zeros (fields : list string) : json := JDict (map (fun field => (field, JInt 0)) fields).

(** What the loop of [build_sample_rows] reads of an event. *)
Definition source_event_of (seq : nat) (event : jobject) : string := py_str (or_value (get event "event") (JStr ("sample-" ++ str_nat seq))).
Definition ops_of (event : jobject) : string :=
  let ops := py_str (or_value (get event "ops") (JStr "none")) in if String.eqb ops "unavailable" then "none" else ops.
Definition state_of (event : jobject) : string :=
  py_str (or_value (get event "state") (JStr (if String.eqb (ops_of event) "zigsched_minimal" then "enabled" else "disabled"))).
Definition events_text_of (event : jobject) : string := py_str (or_value (get event "events") (JStr "")).
Definition enable_seq_of (event : jobject) : jobject := fact (get_or event "enable_seq" (JStr "0")).

(** The dict of one turn of the loop. *)
Definition sample_fields (policy_object_sha256 : string) (seq : nat) (event : jobject) (cgroup_digest cgroup_status : string)
    (policy_counters : jobject) (semantics : json) (workload_alive : bool) : jobject :=
  [("schema", JStr "zig-scheduler/runtime-sample/v1"); ("sequence", JInt (Z.of_nat seq)); ("sample_source_event", JStr (source_event_of seq event));
   ("observation_source", JStr "vm_serial_sched_ext"); ("state", JDict (fact (JStr (state_of event)))); ("ops", JDict (fact (JStr (ops_of event))));
   ("root_ops", JDict (fact (JStr (ops_of event)))); ("enable_seq", JDict (enable_seq_of event));
   ("events", JDict (fact (JStr (events_text_of event)))); ("scheduler_events", JDict (fact (JStr (events_text_of event))));
   ("events_hash", JStr (if String.eqb (events_text_of event) "" then "unavailable" else sha256_hex (encode_utf8 (events_text_of event))));
   ("nr_rejected", JDict (counter_fact (events_text_of event) "nr_rejected")); ("debug_dump", JDict (status_value "missing" "unavailable"));
   ("policy_counters", JDict policy_counters); ("sample_loss", zeros ["lost_samples"; "backpressure_dropped"]);
   ("policy_abi", JDict (policy_abi_from_event event policy_object_sha256)); ("cgroup_semantic_labels", semantics);
   ("task_ext_enabled", JDict (status_value "unknown" "unavailable"));
   ("sched_ext_phase", JStr (if String.eqb (ops_of event) "zigsched_minimal" then "during_attach" else if Nat.eqb seq 0 then "before_attach" else "after_rollback"));
   ("teardown_state", JDict (status_value "present" (if String.eqb (ops_of event) "zigsched_minimal" then "attached" else "detached")));
   ("rollback_state", JDict (status_value "present" (if Nat.eqb seq 2 then "rolled_back" else "not_applicable")));
   ("dsq_depth", zeros ["global"; "local"; "shared"]); ("queue_latency", zeros ["p50_us"; "p95_us"; "p99_us"; "max_us"]);
   ("fairness", JDict [("state", JStr "unknown"); ("starved_tasks", JInt 0); ("max_wait_us", JInt 0)]);
   ("task_counts", JDict [("by_cgroup_digest", JDict [(cgroup_digest, JInt 1)]); ("by_class", JDict [("vm-workload", JInt 1)])]);
   ("scheduler_counters", zeros ["context_switches"; "wakeups"; "migrations"]);
   ("sched_ext_observation",
      JDict [("dump", JDict (status_value "present" ("sha256:" ++ sha256_hex (encode_utf8 (source_event_of seq event ++ ops_of event)) ++ ";bytes:128")));
             ("tracepoints", zeros ["sched_switch"; "sched_wakeup"])]);
   ("cgroup_membership_digest", JStr cgroup_digest); ("cgroup_membership_status", JDict (fact (JStr cgroup_status)));
   ("workload", JDict (status_value "present" (if workload_alive then "alive" else "not_alive"))); ("workload_alive", JBool workload_alive);
   ("private_command_lines_sampled", JBool false)].

(** One turn of the loop. *)
Definition sample_row (policy_object_sha256 : string) (seq : nat) (event : jobject) : result jobject :=
  let source_event := source_event_of seq event in
  let* cgroup_digest := observed_digest event source_event in
  let* cgroup_status := observed_cgroup_status event source_event in
  let* policy_counters := policy_counters (events_text_of event) (counter_fact (events_text_of event) "nr_rejected") in
  let* semantics := policy_semantics policy_object_sha256 in
  let* workload_alive := observed_bool event "workload_alive" source_event in
  Ok (sample_fields policy_object_sha256 seq event cgroup_digest cgroup_status policy_counters semantics workload_alive).
Definition build_sample_rows (rows : ReportRows) (policy_object_sha256 : string) : result (list jobject) :=
  for_fold 0 [before rows; register rows; unregister rows] [] (fun seq event sample_rows =>
    let* row := sample_row policy_object_sha256 seq event in Ok (sample_rows ++ [row])%list).

(** [row[field]] that must be a fact *)
Definition fact_of (row : jobject) (field message : string) : result jobject :=
  let* value := getitem row field in
  match value with JDict fact => Ok fact | _ => exits message end.
Definition daemon_row (row : jobject) : result jobject :=
  let* state := fact_of row "state" "internal sample row shape error" in
  let* ops := fact_of row "ops" "internal sample row shape error" in
  let* sequence := getitem row "sequence" in
  let* state_value := getitem state "value" in
  let* ops_value := getitem ops "value" in
  Ok [("schema", JStr "zig-scheduler/daemon-event/v1"); ("event", JStr "runtime_sample"); ("sequence", sequence); ("state", state_value);
      ("ops", ops_value); ("host_mutation", JBool false)].

(** [rows.workload_executions[-1]] *)
Definition last_item {A} (l : list A) : result A :=
  match rev l with x :: _ => Ok x | [] => raise IndexError "tuple index out of range" end.
Definition workload_execution_summary (rows : ReportRows) : result jobject :=
  let* row := last_item (workload_executions rows) in
  Ok (map (fun field => (field, get row field)) ["host_mutation"; "rc"; "reason"; "scenario"; "status"]).

Definition observe_summary_payload (rows : ReportRows) (sample_rows : list jobject) (samples daemon transcript ledger : path) : result jobject :=
  let* last := last_item sample_rows in
  let* final_state := fact_of last "state" "internal observe row shape error" in
  let* final_ops := fact_of last "ops" "internal observe row shape error" in
  let* state_value := getitem final_state "value" in
  let* ops_value := getitem final_ops "value" in
  let* alive := map_m (fun row => getitem row "workload_alive") sample_rows in
  let* execution := workload_execution_summary rows in
  Ok [("schema", JStr "zig-scheduler/observe-partial-summary/v1"); ("status", JStr "PASS"); ("evidence_mode", JStr "vm-live");
      ("release_eligible_live_proof", JBool false); ("sample_count", JInt (Z.of_nat (List.length sample_rows)));
      ("runtime_samples", path_json samples); ("audit_ledger", path_json ledger); ("transcript", path_json transcript);
      ("daemon_runtime_events", path_json daemon);
      ("scheduler_snapshot", JDict [("state", JDict final_state); ("root_ops", JDict final_ops)]); ("final_state", state_value);
      ("final_ops", ops_value); ("final_state_disabled_or_rolled_back", JBool true); ("private_command_lines_sampled", JBool false);
      ("workload_alive_all_samples", JBool (forallb truthy alive)); ("workload_execution", JDict execution)].

Definition write_observe_outputs (paths : OutputPaths) (rows : ReportRows) (verifier : VerifierOutputs) (policy_object_sha256 : string)
    : effect ObserveOutputs :=
  let samples := div_path (observe_dir paths) "runtime-samples.jsonl" in
  do sample_rows <- lift (build_sample_rows rows policy_object_sha256) in
  write_text samples (String.concat "" (map json_line sample_rows)) ;!
  let daemon := div_path (observe_dir paths) "daemon-runtime-events.jsonl" in
  do daemon_rows <- lift (map_m daemon_row sample_rows) in
  write_text daemon (String.concat "" (map json_line daemon_rows)) ;!
  let observe_transcript := div_path (observe_dir paths) "observe-transcript.txt" in
  write_text observe_transcript ("microVM before/during/after sched_ext samples; no command-line sampling" ++ chr 10) ;!
  let observe_summary := div_path (observe_dir paths) "summary.json" in
  do payload <- lift (observe_summary_payload rows sample_rows samples daemon observe_transcript (ledger verifier)) in
  write_text observe_summary (json_text payload) ;!
  answer (MkObserve observe_summary samples daemon observe_transcript sample_rows).

Definition load_json_object (F : fs) (p : path) : result jobject :=
  let* text := read_text F p in
  let* raw := loads text in
  match raw with JDict raw => Ok raw | _ => exits ("expected JSON object: " ++ path_str p) end.
Definition optional_object (value : json) (context : string) : result jobject :=
  match value with JNull => Ok [] | JDict value => Ok value | _ => exits (context ++ " must be an object") end.
Definition json_text_of (value : json) : string := match value with JStr s => s | _ => "" end.

Definition stage (name reason : string) (artifact : path) : json :=
  JDict [("stage", JStr name); ("status", JStr "PASS"); ("reason", JStr reason); ("artifact", path_json artifact)].
Definition cleanup_payload (qemu_scan_before qemu_scan_after : string) (qemu_rc : Z) (sessions : jobject) : json :=
  JDict ([("qemu_leftovers", JBool false); ("tmux_leftovers", JBool false); ("qemu_process_scan_before", JStr qemu_scan_before);
          ("qemu_process_scan_after", JStr qemu_scan_after)] ++ sessions
         ++ [("timeout_pid", JStr "timeout-supervised-foreground"); ("timeout_rc", JInt qemu_rc); ("process_group_reaped", JBool true);
             ("temp_dirs_removed", JBool true)])%list.

Definition summary_payload (ended_at : string) (F : fs) (env : ReportEnv) (rows : ReportRows) (artifacts : list string) (verifier : VerifierOutputs)
    : result jobject :=
  let* mutation_bundle := load_json_object F (mutation_evidence verifier) in
  let* evidence := optional_object (get mutation_bundle "mutation_evidence") "mutation_evidence" in
  let* cgroup_weight := optional_object (get evidence "cgroup.weight") "mutation_evidence.cgroup.weight" in
  Ok [("schema", JStr "zig-scheduler/run-all-lab/v1"); ("status", JStr "PASS"); ("mode", JStr "microvm-live"); ("evidence_mode", JStr "vm-live");
      ("git_sha", JStr (git_sha env)); ("git_dirty", JBool (git_dirty env)); ("bpf_object_sha256", JStr (object_sha env));
      ("bpf_metadata", JStr (meta_file env)); ("output_dir", path_json (out env)); ("output_dir_created_fresh", JBool true);
      ("host_mutation", JBool false); ("release_status", JStr "controlled_lab_pilot_candidate"); ("release_use", JBool false);
      ("release_eligible_live_proof", JBool true); ("vm_kind", JStr "qemu-vm"); ("vm_marker_present", JBool true);
      ("vm_marker_path", JStr "/run/zig-scheduler-vm-lab.marker"); ("kernel_tuple", JDict (kernel_tuple rows)); ("rollback_result", JStr "PASS");
      ("audit_id", JStr (json_text_of (get cgroup_weight "audit_id"))); ("rollback_id", JStr (json_text_of (get cgroup_weight "rollback_id")));
      ("mutation_evidence", JDict evidence); ("mutation_evidence_artifact", path_json (mutation_evidence verifier));
      ("artifact_paths", jstrs artifacts); ("started_at", JStr (started_at env)); ("ended_at", JStr ended_at);
      ("stages", JList [
         stage "verifier" "bpftool verifier accepted sched_ext struct_ops object" (verifier_evidence verifier);
         stage "attach" "sched_ext ops registered inside disposable VM" (partial_evidence verifier);
         stage "mutation_evidence" "VM-only mutation families recorded pre/post/rollback evidence" (mutation_evidence verifier);
         stage "rollback_refusals" "stale target and duplicate rollback ids refused" (refusals verifier)]);
      ("vm_execution_manifest", path_json (serial env)); ("qemu_bin", JStr (qemu_bin env)); ("kernel_image", JStr (kernel_image env));
      ("cleanup", cleanup_payload (qemu_scan_before env) (qemu_scan_after env) (qemu_rc env) [("tmux_sessions_after", JList [])])].

Definition write_provenance (env : ReportEnv) (summary : path) : effect unit :=
  write_text (div_path (parent (out env)) "manifest-provenance.json")
    (json_text [("schema", JStr "zig-scheduler/task-09-provenance/v1"); ("status", JStr "PASS"); ("repo_head", JStr (git_sha env));
                ("git_dirty", JBool true); ("dirty_tree_snapshot_sha256", JStr (dirty_snapshot_sha env));
                ("copied_bundle_summary", path_json summary)]).

Definition daemon_event_line (event status state reason : string) (artifact : path) (extra : jobject) : string :=
  "ZIGSCHED_DAEMON_EVENT " ++ dumps (sort_keys (JDict (set_all extra
    [("event", JStr event); ("status", JStr status); ("state", JStr state); ("reason", JStr reason); ("artifact", path_json artifact)]))).
Definition emit_daemon_events (summary : path) (verifier : VerifierOutputs) (observe : ObserveOutputs) : effect unit :=
  each_do [
    daemon_event_line "boot" "PASS" "vm_live" "microVM boot observed" summary [];
    daemon_event_line "marker" "PASS" "vm_live" "/run/zig-scheduler-vm-lab.marker" summary [];
    daemon_event_line "verifier" "PASS" "verified" "BPF verifier accepted" (verifier_evidence verifier) [];
    daemon_event_line "attach" "PASS" "zigsched_minimal" "runtime ops observed" (partial_evidence verifier) [];
    daemon_event_line "runtime_sample" "accepted" "observing" "runtime samples accepted" (samples observe) [("ops", JStr "zigsched_minimal")];
    daemon_event_line "validation" "PASS" "mutation_evidence" "VM-only mutation family pre/post/rollback evidence accepted" (mutation_evidence verifier) [];
    daemon_event_line "rollback" "PASS" "rolled_back" "PASS" (ledger verifier) [];
    daemon_event_line "validation" "refused" "stale_target_refused" "stale rollback target refused for active VM target" (refusals verifier) [];
    daemon_event_line "validation" "refused" "duplicate_rollback_refused" "duplicate rollback id refused after rollback completed" (refusals verifier) [];
    daemon_event_line "cleanup" "PASS" "clean" "process scan clean" summary [];
    daemon_event_line "validation" "PASS" "vm_live_validated" "live bundle freshness accepted" summary [("live_bundle_path", path_json summary)]] print.

Definition write_summary (ended_at : string) (env : ReportEnv) (rows : ReportRows) (verifier : VerifierOutputs) (observe : ObserveOutputs)
    : effect path :=
  let summary := div_path (out env) "summary.json" in
  let artifacts := [
    path_str (serial env); qemu_scan_before env; qemu_scan_after env; path_str (verifier_evidence verifier); path_str (verifier_log verifier);
    path_str (partial_evidence verifier); path_str (live_attach_proof verifier); path_str (partial_transcript verifier);
    path_str (observe_summary observe); path_str (samples observe); path_str (daemon observe); path_str (observe_transcript observe);
    path_str (ledger verifier); path_str (snapshot verifier); path_str (rollback_transcript verifier); path_str (refusals verifier);
    path_str (mutation_evidence verifier)] in
  do data <- reading_files (fun F => summary_payload ended_at F env rows artifacts verifier) in
  do data <- (if git_dirty env && negb (contains "/unsafe-matrix-" (path_str (out env))) then
                if String.eqb (dirty_snapshot_sha env) "" then lift (exits "dirty worktree requires ZIG_SCHEDULER_DIRTY_SNAPSHOT_SHA")
                else write_provenance env summary ;! answer (dict_set "dirty_tree_snapshot_sha256" (JStr (dirty_snapshot_sha env)) data)
              else answer data) in
  write_text summary (json_text data) ;!
  emit_daemon_events summary verifier observe ;!
  print (path_str summary) ;!
  answer summary.

(** * qa/vm/microvm_report_emit.py *)
Definition emit_timeout_report (env : environ) : effect unit :=
  do env <- lift (load_timeout_env env) in
  make_dir (t_out env) ;!
  let summary := div_path (t_out env) "summary.json" in
  write_text summary (json_text [
    ("schema", JStr "zig-scheduler/run-all-lab/v1"); ("status", JStr "INCIDENT"); ("mode", JStr "microvm-live"); ("evidence_mode", JStr "vm-live");
    ("git_sha", JStr (t_git_sha env)); ("git_dirty", JBool (t_git_dirty env)); ("output_dir", path_json (t_out env));
    ("output_dir_created_fresh", JBool true); ("host_mutation", JBool false); ("release_eligible_live_proof", JBool false);
    ("vm_kind", JStr "qemu-vm"); ("kernel_image", JStr (t_kernel_image env)); ("qemu_bin", JStr (t_qemu_bin env));
    ("started_at", JStr (t_started_at env));
    ("cleanup", cleanup_payload (t_qemu_scan_before env) (t_qemu_scan_after env) (t_qemu_rc env) []);
    ("stages", JList [JDict [("stage", JStr "microvm_timeout"); ("status", JStr "INCIDENT"); ("reason", JStr "qemu timeout");
                             ("artifact", path_json summary)]])]) ;!
  print (daemon_event_line "incident" "unsafe_to_assume" "unsafe_to_assume" "timeout" summary []).

Definition parse_and_emit_report (stamp ended_at : string) (env : environ) : effect unit :=
  do env <- lift (load_report_env env) in
  do text <- reading_files (fun F => read_text_replace F (serial env)) in
  do (rows, lines) <- lift (parse_serial text) in
  do paths <- prepare_output_paths (out env) in
  let ids := report_ids stamp env rows in
  do verifier <- write_verifier_outputs env rows lines ids paths in
  do observe <- write_observe_outputs paths rows verifier (object_sha env) in
  do _ <- write_summary ended_at env rows verifier observe in
  answer tt.

Definition main (stamp ended_at : string) (env : environ) (argv : list string) : effect nat :=
  match argv with
  | ["timeout"] => emit_timeout_report env ;! answer 0
  | ["parse"] => parse_and_emit_report stamp ended_at env ;! answer 0
  | _ => answer 2
  end.
