(* ===== verification/MicrovmAccept.v ===== *)
(** MicrovmAccept: the policy ABI the microVM report (MicrovmReport) writes against
    the contract of runtime samples (PolicyAbi), and a whole run: from the serial log to
    a bundle that LiveBehavior accepts. *)
From S2P Require Import Prelude PyStr PyRe PyFloat PyJson Sha256 PyFs PyMain RuntimeSampleCommon PolicyAbi SchedExt RuntimeSample LiveBehavior PyEmit MicrovmParse MicrovmReport.

Local Open Scope string_scope.

(** * Specification *)

(** The weights a guest counted: at most as many observed as set, and some observed
    if any was set. *)
Definition weights_coherent (event : jobject) : Prop :=
  exists calls observed, as_int (event_int event "cgroup_set_weight_calls") = Some calls
    /\ as_int (event_int event "cgroup_weight_observed") = Some observed /\ (observed <= calls)%Z /\ ((0 < calls)%Z -> (0 < observed)%Z).

(** * The policy ABI of a sample *)
Lemma event_int_counts event field : exists n, as_int (event_int event field) = Some n /\ (0 <= n)%Z.
Proof.
  unfold event_int. destruct (get event field) as [|b|z|f|s|l|d]; try (exists 0%Z; split; [reflexivity | lia]).
  - exists (Z.b2z b). split; [done | by destruct b].
  - destruct (Z.leb_spec 0 z); [by exists z | exists 0%Z; split; [reflexivity | lia]].
Qed.
Lemma positive_iff v n : as_int v = Some n -> positive v = (0 <? n)%Z.
Proof. unfold positive. by intros ->. Qed.

(** The parts, read off the dicts. *)
Lemma abi_part event sha field : In field ["policy_name"; "policy_version"; "struct_ops"; "btf_required"; "abi_version"; "abi_label"; "cgroup_semantics"; "vm_only";
    "host_mutation"; "production_claim"; "release_eligible"; "object_sha256"] ->
  get (policy_abi_from_event event sha) field = get (good_policy_abi sha) field.
Proof. cbn [In]. intros H. decompose [or] H; subst; try reflexivity. done. Qed.

Definition emitted_map (event : jobject) : jobject :=
  set_all [("last_weight", event_int event "cgroup_policy_last_weight"); ("weight_generation", event_int event "cgroup_policy_weight_generation");
           ("move_generation", event_int event "cgroup_policy_move_generation")] (good_cgroup_policy_map "present").
Definition emitted_stats (event : jobject) : jobject :=
  dict_set "cpu_weight_callback_observed" (JBool (positive (event_int event "cgroup_weight_observed")))
    (set_all (map (fun field => (field, event_int event field)) CGROUP_CALLBACK_STATS) (good_cgroup_callback_stats "present")).

Lemma unavailable_ok (P : jobject -> Prop) reason : reason <> "" -> evidence_ok P [("status", JStr "unavailable"); ("reason", JStr reason)].
Proof. intros H. left. split; [done|]. by exists reason. Qed.
Lemma texts_of d field l : get d field = jstrs l -> forallb (fun s => negb (String.eqb s "")) l = true -> texts d field l.
Proof.
  intros Hd Hl. split; [done|]. apply Forall_forall. intros s Hs%list_elem_of_In. rewrite forallb_forall in Hl. specialize (Hl _ Hs).
  by apply negb_true_iff, String.eqb_neq in Hl.
Qed.
Lemma emitted_map_ok event : evidence_ok policy_map_ok (emitted_map event).
Proof.
  right. split; [done|].
  assert (Hn : forall field source, get (emitted_map event) field = event_int event source -> nonnegative (emitted_map event) field).
  { intros field source H. unfold nonnegative, int_field. rewrite H. apply event_int_counts. }
  split; [done | done | by apply texts_of | split_and!; by eapply Hn | | |].
  - exists ["cpu.weight"]. split; [by apply texts_of | by left].
  - eexists. split; [by apply texts_of | done].
  - eexists. split; [by apply texts_of | done].
Qed.
Lemma emitted_stats_ok event : evidence_ok callback_stats_ok (emitted_stats event) <-> weights_coherent event.
Proof.
  assert (Hg : forall field, In field CGROUP_CALLBACK_STATS -> get (emitted_stats event) field = event_int event field).
  { cbn [In CGROUP_CALLBACK_STATS]. intros field H. decompose [or] H; subst; try reflexivity. done. }
  assert (Ho : get (emitted_stats event) "cpu_weight_callback_observed" = JBool (positive (event_int event "cgroup_weight_observed"))) by reflexivity.
  unfold weights_coherent. split.
  - intros [[H _]|[_ [_ (calls & observed & Hc & Hw & Hle & Hpos)]]]; [discriminate H|]. unfold int_field in Hc, Hw. rewrite Hg in Hc, Hw by (cbn; tauto).
    exists calls, observed. split_and!; try done. intros Hcalls. specialize (Hpos Hcalls). rewrite Ho, (positive_iff _ _ Hw) in Hpos. injection Hpos as Hpos. lia.
  - intros (calls & observed & Hc & Hw & Hle & Hpos). right. split; [done|]. split.
    + intros field Hin. unfold nonnegative, int_field. rewrite Hg by done. apply event_int_counts.
    + exists calls, observed. unfold int_field. rewrite !Hg by (cbn; tauto). split_and!; try done. intros Hcalls. rewrite Ho, (positive_iff _ _ Hw). f_equal. specialize (Hpos Hcalls). lia.
Qed.
Lemma emitted_dsq_ok (status : string) : In status ["present"; "unavailable"] -> evidence_ok dsq_ok (good_dsq_counter_coherence status).
Proof.
  intros [<-|[<-|[]]]; [right; split; [done|] | by apply unavailable_ok]. split; [done|].
  cbn [In DSQ_COHERENCE_FIELDS]. intros field H. decompose [or] H; subst; try reflexivity. done.
Qed.

(** The ABI of an event is accepted exactly when the object has a digest and the
    weights, if the guest could read the map, are coherent. *)
Definition abi_coherent (event : jobject) (policy_object_sha256 : string) : Prop :=
  policy_object_sha256 <> "" /\ (get event "cgroup_policy_map_status" = JStr "present" -> weights_coherent event).

Lemma part_is d field part (P : jobject -> Prop) : get d field = JDict part -> part_ok P d field <-> P part.
Proof. intros H. unfold part_ok. rewrite H. split; [by intros (? & [= <-] & ?) | intros ?; by exists part]. Qed.

Lemma semantics_kept : (forall k, In k (keys semantics_dict) <-> In k (map fst SEMANTICS)) /\ forall k v, In (k, v) SEMANTICS -> get semantics_dict k = JStr v.
Proof.
  split.
  - intros k. unfold semantics_dict, keys. by rewrite map_map.
  - intros k v H. unfold SEMANTICS in H. cbn [In] in H. decompose [or] H; try done; match goal with E : _ = (k, v) |- _ => by injection E as <- <- end.
Qed.

(** What the VM report writes as the policy ABI of a runtime sample, for any event the
    guest printed and any digest of the object, is accepted exactly when it is coherent. *)
Lemma emitted_abi_accepted event sha c : validate_policy_abi_contract (policy_abi_from_event event sha) c = Ok tt <-> abi_coherent event sha.
Proof.
  set (abi := policy_abi_from_event event sha).
  assert (Hmap : get abi "cgroup_policy_map" = JDict (if py_eq (get event "cgroup_policy_map_status") (JStr "present") then emitted_map event else good_cgroup_policy_map "unavailable"))
    by reflexivity.
  assert (Hstats : get abi "cgroup_callback_stats" = JDict (if py_eq (get event "cgroup_policy_map_status") (JStr "present") then emitted_stats event else good_cgroup_callback_stats "unavailable"))
    by reflexivity.
  assert (Hdsq : get abi "dsq_counter_coherence" = JDict (good_dsq_counter_coherence (if py_eq (get event "dsq_counter_coherence_status") (JStr "present") then "present" else "unavailable")))
    by reflexivity.
  assert (Hm : evidence_ok policy_map_ok (if py_eq (get event "cgroup_policy_map_status") (JStr "present") then emitted_map event else good_cgroup_policy_map "unavailable")).
  { destruct (py_eq _ _); [apply emitted_map_ok | by apply unavailable_ok]. }
  assert (Hs : evidence_ok callback_stats_ok (if py_eq (get event "cgroup_policy_map_status") (JStr "present") then emitted_stats event else good_cgroup_callback_stats "unavailable")
    <-> (get event "cgroup_policy_map_status" = JStr "present" -> weights_coherent event)).
  { rewrite <- emitted_stats_ok, <- py_eq_str. destruct (py_eq _ _); [tauto|]. split; [done | intros _; by apply unavailable_ok]. }
  rewrite validate_policy_abi_contract_iff. unfold abi_coherent. rewrite <- Hs. split.
  - intros (Ht & _ & [Hv|[_ _ _ _ _ _ _ Hst _]]); [discriminate Hv|]. split.
    + destruct (Ht "object_sha256") as (s & H & Hne); [cbn; tauto|]. change (JStr sha = JStr s) in H. injection H as ->. done.
    + by rewrite (part_is _ _ _ _ Hstats) in Hst.
  - intros [Hsha Hst]. split; [|split; [by exists true|]].
    + cbn [In]. intros f H. decompose [or] H; subst; try done; (eexists; split; [reflexivity | done]).
    + right. split; try done.
      * rewrite (part_is abi "cgroup_semantics" semantics_dict) by done. apply semantics_kept.
      * by rewrite (part_is _ _ _ _ Hmap).
      * by rewrite (part_is _ _ _ _ Hstats).
      * rewrite (part_is _ _ _ _ Hdsq). apply emitted_dsq_ok. case (py_eq (get event "dsq_counter_coherence_status") (JStr "present")); cbn [In]; [left | right; left]; reflexivity.
Qed.

(** * From the serial log to the accepted bundle *)
(** A serial log of a whole run, with a counter that may grow before the end. *)
Definition demo_event (fields : jobject) : string := "ZIGSCHED_JSON " ++ dumps (JDict fields).
Definition demo_sample (event state ops seq events : string) (more : jobject) : string :=
  demo_event ([("event", JStr event); ("state", JStr state); ("ops", JStr ops); ("enable_seq", JStr seq); ("events", JStr events);
    ("workload_alive", JBool true); ("cgroup_membership_digest", JStr (repeat_str 64 "a")); ("cgroup_membership_status", JStr "present")] ++ more)%list.
Definition demo_events (growth : string) : list string :=
  [demo_event [("event", JStr "boot"); ("vm_marker_present", JBool true)];
   "BPFT_VER bpftool v7.4.0";
   demo_event [("event", JStr "tuple"); ("kernel", JStr "6.12.1"); ("arch", JStr "x86_64"); ("btf", JBool true)];
   demo_event [("event", JStr "workload"); ("pid", JInt 71); ("cg_rc", JInt 0)];
   demo_event [("event", JStr "workload_execution"); ("scenario", JStr "workload-cpu-saturation"); ("status", JStr "PASS"); ("rc", JInt 0);
               ("reason", JStr "completed"); ("host_mutation", JBool false)];
   demo_sample "before" "disabled" "none" "3" "nr_rejected: 0" []]
  ++ map (fun f => demo_event [("event", JStr "mutation_family"); ("family", JStr f); ("status", JStr "PASS"); ("target", JStr "vm:demo");
       ("target_allowlisted", JBool true); ("pre_value", JStr "100"); ("post_value", JStr "200"); ("restored_value", JStr "100"); ("write_rc", JInt 0);
       ("rollback_rc", JInt 0); ("rollback_restored", JBool true)]) MUTATION_FAMILIES
  ++ ["REGISTER_OUT Registered sched_ext_ops zigsched_minimal_ops id 7";
   demo_sample "register" "enabled" "zigsched_minimal" "4" "nr_rejected: 0" [("rc", JInt 0); ("id", JInt 7)];
   demo_sample "unregister" "disabled" "none" "4" ("nr_rejected: " ++ growth) [("rc", JInt 0)];
   demo_event [("event", JStr "stale_target_refusal"); ("status", JStr "REFUSE"); ("rc", JInt 23); ("active_target", JStr "/sys/fs/cgroup/zig-scheduler-lab.slice/demo.scope");
     ("refused_target", JStr "/sys/fs/cgroup/zig-scheduler-lab.slice/stale.scope"); ("refusal_path", JStr "refuse_stale_rollback_target")];
   "DUPLICATE_UNREGISTER_OUT no such id";
   demo_event [("event", JStr "duplicate_rollback_refusal"); ("status", JStr "REFUSE"); ("rc", JInt 2)]].

(** The environment of the run. *)
Definition demo_env (name : string) : option string :=
  assoc name [("OUT_DIR", "evidence/lab/run"); ("SERIAL", "serial.txt"); ("OBJECT_SHA", repeat_str 64 "b"); ("OBJECT_FILE", "zig-out/bpf/zigsched_minimal.bpf.o");
    ("META_FILE", "zig-out/bpf/zigsched_minimal.meta.json"); ("GIT_SHA", repeat_str 40 "c"); ("GIT_DIRTY", "false"); ("STARTED_AT", "2026-01-01T00:00:00Z");
    ("KERNEL_IMAGE", "vmlinuz"); ("QEMU_BIN", "qemu-system-x86_64"); ("QEMU_SCAN_BEFORE", "before.txt"); ("QEMU_SCAN_AFTER", "after.txt"); ("QEMU_RC", "0")].
Definition demo_world (growth : string) : world :=
  MkWorld (fs_of "/repo" [(".", Dir ["serial.txt"; "zig-out"; "before.txt"; "after.txt"]); ("serial.txt", File (text_lines (demo_events growth)));
    ("before.txt", File ""); ("after.txt", File "");
    ("zig-out/bpf/zigsched_minimal.bpf.o", File "object"); ("zig-out/bpf/zigsched_minimal.meta.json", File "{}")]) [].
Definition emitted (growth : string) := MicrovmReport.main "20260101T000000Z" "2026-01-01T00:01:00Z" demo_env ["parse"] (demo_world growth).

(** main writes a bundle, and the bundle checker accepts it. *)
Example emitted_bundle_accepted :
  snd (emitted "0") = Ok 0
  /\ LiveBehavior.main (files (fst (emitted "0"))) ["--bundle"; "evidence/lab/run/summary.json"]
     = Exited 0 ["PASS live behavior bundle: evidence/lab/run/summary.json"] [].
Proof. split; vm_compute; reflexivity. Qed.
(** A counter of rejected operations that grew on the way is written too, and refused. *)
Example emitted_growth_refused :
  exists errs, LiveBehavior.main (files (fst (emitted "1"))) ["--bundle"; "evidence/lab/run/summary.json"] = Exited 1 [] errs
    /\ In "FAIL live behavior bundle: fatal/reject/fallback counter grew: nr_rejected" errs.
Proof. eexists. split; [vm_compute; reflexivity | by left]. Qed.
