(* ===== verification/MicrovmSamples.v ===== *)
(** MicrovmSamples: the runtime samples the microVM report (MicrovmReport) writes,
    against the checks of runtime samples (RuntimeSample, SchedExt). *)
From S2P Require Import Prelude PyStr PyRe PyFloat PyJson Sha256 PyFs PyMain RuntimeSampleCommon PolicyAbi SchedExt RuntimeSample LiveBehavior PyEmit MicrovmParse MicrovmReport MicrovmAccept.
From Stdlib Require Import Sorting.Sorted.

Local Open Scope string_scope.

(** * Specification *)

(** The text of a fact that is written for a value. *)
Definition sample_text (v : json) : string := if is_none v || py_eq v (JStr "") then "unavailable" else py_str v.
Definition enable_text (event : jobject) : string := sample_text (get_or event "enable_seq" (JStr "0")).

(** What an event must report for its sample to be accepted: public texts, a state of
    the scheduler, an enable sequence that is a number or said to be unavailable, a
    digest without a line end, and a coherent policy ABI. *)
Record sample_fits (sha : string) (seq : nat) (event : jobject) : Prop := {
  fit_public : Forall public_text [source_event_of seq event; sample_text (JStr (state_of event)); sample_text (JStr (ops_of event)); enable_text event;
                 sample_text (JStr (events_text_of event)); sha];
  fit_state : In (strip (sample_text (JStr (state_of event)))) SCHED_STATES;
  fit_enable : strip (enable_text event) = "unavailable" \/ isdecimal (strip (enable_text event)) = true;
  fit_digest : forall dg, get event "cgroup_membership_digest" = JStr dg -> len dg = 64;
  fit_abi : abi_coherent event sha;
}.

(** The enable sequence a sample reports. *)
Definition event_enable_seq (event : jobject) : option Z :=
  if isdecimal (strip (enable_text event)) then Some (dec_value 0 (strip (enable_text event))) else None.
Definition enable_in_limit (event : jobject) : Prop := isdecimal (strip (enable_text event)) = true -> len (strip (enable_text event)) <= MAX_STR_DIGITS.

(** What an event must report for its sample to fit the phase that its operations and
    its place give it. *)
Definition attached (event : jobject) : Prop := ops_of event = "zigsched_minimal".
Definition fits_before (event : jobject) : Prop := attached event \/ state_of event <> "enabled".
Definition fits_after (event : jobject) : Prop := attached event \/ In (ops_of event) ["none"; "unknown"; ""].

(** * Texts without a trace *)

(** The characters of digests and of numbers: every forbidden text has another one. *)
Definition quiet_char (c : ascii) : bool := is_lower c || is_digit c || one_of ":;" c.

Lemma all_chars_in p s : all_chars p s = true <-> forall c a b, s = a ++ String c b -> p c = true.
Proof.
  split.
  - intros H c a b ->. rewrite all_chars_app in H. apply andb_true_iff in H as [_ H]. cbn in H. by apply andb_true_iff in H as [H _].
  - induction s as [|c s IH]; [done|]. intros H. cbn. rewrite (H c "" s eq_refl), IH; [done|]. intros d a b ->. by apply (H d (String c a) b).
Qed.
Lemma all_chars_weaken p q s : (forall c, p c = true -> q c = true) -> all_chars p s = true -> all_chars q s = true.
Proof. rewrite !all_chars_in. eauto. Qed.
Lemma contained_chars p needle s : all_chars p s = true -> all_chars p needle = false -> contains needle s = false.
Proof.
  intros Hs Hn. apply not_true_iff_false. intros (a & b & ->)%contains_iff. rewrite !all_chars_app, Hn in Hs. by destruct (all_chars p a).
Qed.
Lemma quiet_casefold s : all_chars quiet_char s = true -> casefold s = s.
Proof.
  induction s as [|c s IH]; [done|]. cbn [all_chars casefold]. intros [Hc Hs]%andb_true_iff. rewrite (IH Hs).
  revert Hc. destruct c as [[] [] [] [] [] [] [] []]; vm_compute; by intros.
Qed.
Lemma quiet_public s : all_chars quiet_char s = true -> public_text s.
Proof.
  intros H needle Hn. rewrite (quiet_casefold s H). apply (contained_chars quiet_char); [done|].
  unfold FORBIDDEN_TEXT in Hn. cbn [In] in Hn. decompose [or] Hn; subst; done.
Qed.
Lemma hex_quiet c : is_hex_lower c = true -> quiet_char c = true.
Proof. destruct c as [[] [] [] [] [] [] [] []]; vm_compute; by intros. Qed.
Lemma digit_quiet c : is_digit c = true -> quiet_char c = true.
Proof. unfold quiet_char. intros ->. by rewrite orb_true_r. Qed.

(** ** The keys of counters *)
Lemma take_chars p n s : all_chars p s = true -> all_chars p (take_str n s) = true.
Proof. rewrite <- (take_drop n s) at 1. rewrite all_chars_app. by intros [H _]%andb_true_iff. Qed.
Lemma drop_chars p n s : all_chars p s = true -> all_chars p (drop_str n s) = true.
Proof. rewrite <- (take_drop n s) at 1. rewrite all_chars_app. by intros [_ H]%andb_true_iff. Qed.
Lemma advance_chars p n st : all_chars p (st_rest st) = true -> all_chars p (st_rest (Nat.iter n advance st)) = true.
Proof.
  induction n as [|n IH]; [done|]. intros H. rewrite Nat.iter_succ. specialize (IH H). revert IH. generalize (Nat.iter n advance st).
  intros [o [|c s] caps]; [done|]. cbn. by intros [_ ?]%andb_true_iff.
Qed.
(** The matches in a text over a class start and end in texts over it. *)
Lemma finditer_chars r p n st : all_chars p (st_rest st) = true ->
  Forall (fun m => all_chars p (st_rest (fst m)) = true /\ all_chars p (st_rest (snd m)) = true) (finditer_from r n st).
Proof.
  revert st. induction n as [|n IH]; intros st H; cbn [finditer_from]; [constructor|].
  destruct (search_from r _ st) as [[a e]|] eqn:E; [|constructor]. cbv zeta.
  apply search_from_first in E as (i & _ & -> & (e' & Hm & [= <-])%rmatch_sound & _).
  assert (Ha : all_chars p (st_rest (Nat.iter i advance st)) = true) by by apply advance_chars.
  assert (He : all_chars p (st_rest e') = true).
  { apply matches_consume in Hm as (t & Ht). rewrite Ht, all_chars_app in Ha. by apply andb_true_iff in Ha as [_ Ha]. }
  constructor; [done|]. destruct (progressed _ _); [by apply IH|]. cbn [st_rest]. destruct (st_rest e') as [|c s]; [constructor|].
  apply IH. cbn in He |- *. by apply andb_true_iff in He as [_ He].
Qed.
Lemma findall_chars r p s : all_chars p s = true -> Forall (fun t => all_chars p t = true) (re_findall r s).
Proof.
  intros H. unfold re_findall, re_finditer. apply Forall_map. eapply Forall_impl; [by apply finditer_chars|].
  intros [a e] [Ha _]. unfold group0, text_between. by apply take_chars.
Qed.
Lemma split_chars r p s : all_chars p s = true -> Forall (fun t => all_chars p t = true) (re_split r s).
Proof.
  intros H. unfold re_split. assert (Hm : Forall (fun m => all_chars p (st_rest (fst m)) = true /\ all_chars p (st_rest (snd m)) = true) (re_finditer r s))
    by by apply finditer_chars.
  revert s H Hm. generalize (re_finditer r). intros f s. generalize (f s). intros l. revert s.
  induction l as [|[a e] l IH]; intros s H Hm; cbn [split_gaps]; [by repeat constructor|].
  apply Forall_cons in Hm as [[_ He] Hm]. constructor; [by apply take_chars | by apply IH].
Qed.
Lemma token_chars p key : (forall s, all_chars p s = true -> all_chars p (casefold s) = true) -> all_chars p key = true ->
  Forall (fun t => all_chars p t = true) (private_key_tokens key).
Proof.
  intros Hfold H. unfold private_key_tokens. apply Forall_flat_map. eapply Forall_impl; [by apply split_chars|].
  intros chunk Hc. cbv beta. destruct (String.eqb chunk ""); [constructor|]. apply Forall_map. eapply Forall_impl; [exact (findall_chars _ p _ Hc)|].
  intros t Ht. by apply Hfold.
Qed.
Lemma prefix_tokens (P : string -> Prop) pattern tokens : is_prefix pattern tokens = true -> Forall P tokens -> Forall P pattern.
Proof.
  revert tokens. induction pattern as [|x pattern IH]; intros [|t tokens]; cbn [is_prefix]; try done. intros [<-%String.eqb_eq H]%andb_true_iff [Ht Hts]%Forall_cons.
  constructor; [done | by apply (IH tokens)].
Qed.
Lemma pattern_tokens (P : string -> Prop) tokens pattern : contains_pattern tokens pattern = true -> Forall P tokens -> Forall P pattern.
Proof.
  induction tokens as [|t tokens IH]; cbn [contains_pattern]; intros [H|H]%orb_true_iff Ht; try done; try by eapply prefix_tokens.
  apply Forall_cons in Ht as [_ Ht]. by apply IH.
Qed.
Lemma hex_key_public key child : all_chars is_hex_lower key = true -> child <> JBool true -> unclaimed_key key child.
Proof.
  intros H Hc. split; [|by intros [_ ?]]. apply not_true_iff_false. intros (pattern & Hin & Hp)%existsb_exists.
  apply (pattern_tokens (fun t => all_chars is_hex_lower t = true)) in Hp.
  - assert (Hall : forallb (fun pattern => negb (forallb (all_chars is_hex_lower) pattern)) FORBIDDEN_KEY_PATTERNS = true) by (vm_compute; reflexivity).
    rewrite forallb_forall in Hall. specialize (Hall _ Hin). apply negb_true_iff, not_true_iff_false in Hall. apply Hall, forallb_forall.
    rewrite Forall_forall in Hp. intros t Ht%list_elem_of_In. by apply Hp.
  - apply token_chars; [|done]. intros s Hs. rewrite quiet_casefold; [done|]. eapply all_chars_weaken; [apply hex_quiet | done].
Qed.

(** ** What the report reads from texts *)
Lemma drop_add a b s : drop_str (a + b) s = drop_str b (drop_str a s).
Proof. revert s. induction a as [|a IH]; [done|]. intros [|c s]; [by destruct b | apply IH]. Qed.
Lemma dump_summary s : is_digest_summary ("sha256:" ++ sha256_hex s ++ ";bytes:128") = true.
Proof.
  destruct (sha256_hex_hex s) as [Hh Hl]. revert Hh Hl. generalize (sha256_hex s). intros h Hh Hl. unfold is_digest_summary, slice. cbv zeta.
  change (len DIGEST_PREFIX) with 7. change (len BYTES_PREFIX) with 7. change SHA256_HEX_LEN with 64. rewrite !len_append, Hl.
  change (len "sha256:") with 7. change (len ";bytes:128") with 10. cbn [Nat.leb Nat.add Nat.sub].
  assert (H2 : forall t, drop_str 64 (h ++ t) = t) by (intros t; rewrite <- Hl; apply drop_app).
  assert (H3 : take_str 64 (h ++ ";bytes:128") = h) by (rewrite <- Hl; apply take_app).
  change (drop_str 7 ("sha256:" ++ h ++ ";bytes:128")) with (h ++ ";bytes:128").
  change (drop_str 71 ("sha256:" ++ h ++ ";bytes:128")) with (drop_str 64 (h ++ ";bytes:128")).
  change (drop_str 78 ("sha256:" ++ h ++ ";bytes:128")) with (drop_str 71 (h ++ ";bytes:128")).
  assert (H4 : drop_str 71 (h ++ ";bytes:128") = "128") by (rewrite (drop_add 64 7), H2; reflexivity).
  assert (H5 : startswith ("sha256:" ++ h ++ ";bytes:128") DIGEST_PREFIX = true) by (apply startswith_iff; by eexists).
  rewrite H2, H3, H4, H5. cbn.
  rewrite (all_chars_weaken is_hex_lower); [done | | done].
  intros [[] [] [] [] [] [] [] []]; vm_compute; by intros.
Qed.
Lemma dump_public s : public_text ("sha256:" ++ sha256_hex s ++ ";bytes:128").
Proof.
  apply quiet_public. rewrite !all_chars_app. destruct (sha256_hex_hex s) as [Hh _]. by rewrite (all_chars_weaken is_hex_lower quiet_char _ hex_quiet Hh).
Qed.
Lemma counter_group name s m : re_search (counter_re name) s = Some m -> isdecimal (group "1" m) = true.
Proof.
  unfold re_search, counter_re. destruct m as [a e]. intros (i & _ & -> & (e' & Hm & [= <-])%rmatch_sound & _)%search_from_first.
  revert Hm. generalize (Nat.iter i advance (start s)). intros st Hm. cbn [rseq] in Hm.
  do 5 (apply seq_matches in Hm as (? & _ & Hm)). apply seq_matches in Hm as (s6 & Hm & Heps). inversion Heps; subst.
  apply cap_plus_matches in Hm as (t & [_ Hcaps] & Ht & Hne). unfold group. cbn [snd]. rewrite Hcaps. cbn.
  unfold isdecimal. apply String.eqb_neq in Hne. by rewrite Hne.
Qed.
Lemma observed_digest_text event source dg : MicrovmParse.observed_digest event source = Ok dg ->
  get event "cgroup_membership_digest" = JStr dg /\ (len dg = 64 -> RuntimeSample.observed_digest dg).
Proof.
  unfold MicrovmParse.observed_digest. destruct (get event "cgroup_membership_digest") as [| | | |s| |]; try discriminate.
  destruct (negb (re_match SHA256_RE s)) eqn:Hm; [discriminate|]. destruct (String.eqb s (repeat_str 64 "0")) eqn:Hz; [discriminate|].
  destruct (mem (lower s) _); [discriminate|]. intros [= ->]. split; [done|]. intros Hl. apply negb_false_iff, class_match in Hm as (t & Ht & Hlt & Hs).
  split; [done|]. split; [by apply String.eqb_neq in Hz|]. destruct Hs as [->|Hs].
  - eapply all_chars_weaken; [|exact Ht]. intros [[] [] [] [] [] [] [] []]; vm_compute; by intros.
  - exfalso. rewrite Hs, len_append in Hl. cbn in Hl. lia.
Qed.

(** ** The facts of a sample *)
Lemma fact_continues row field st t c (k : jobject -> result unit) : get row field = JDict (status_value st t) -> In st FACT_STATUSES ->
  (let* f := validate_fact row field c in k f) = Ok tt <-> (st = "present" -> t <> "") /\ public_text t /\ k (status_value st t) = Ok tt.
Proof.
  intros Hg Hst.
  assert (Hv : forall f, validate_fact row field c = Ok f <-> ((st = "present" -> t <> "") /\ public_text t) /\ f = status_value st t).
  { intros f. unfold validate_fact, RuntimeSampleCommon.require_object. rewrite Hg. cbn [bind]. unfold RuntimeSampleCommon.require_string, status_value.
    cbn [get jlookup String.eqb Ascii.eqb Bool.eqb].
    assert (String.eqb st "" = false) as -> by (apply String.eqb_neq; intros ->; by apply mem_In in Hst). cbn [bind].
    assert (mem st FACT_STATUSES = true) as -> by by apply mem_In.
    assert (Hx : negb (String.eqb st "present" && String.eqb t "") = true <-> (st = "present" -> t <> "")).
    { rewrite negb_true_iff, <- not_true_iff_false, andb_true_iff, !String.eqb_eq. tauto. }
    rewrite bind_ok_unit, ensure_ok, bind_ok_unit, ensure_ok, bind_ok_unit, Ok_inj, Hx, reject_private_leaks_ok.
    unfold no_leak. rewrite clean_at_str. intuition congruence. }
  rewrite bind_ok. setoid_rewrite Hv. split; [intros (f & [Hp ->] & H); tauto | intros (Hn & Hp & H); by eexists].
Qed.
Lemma fact_written row field v c (k : jobject -> result unit) : get row field = JDict (fact v) ->
  (let* f := validate_fact row field c in k f) = Ok tt <-> sample_text v <> "" /\ public_text (sample_text v) /\ k (fact v) = Ok tt.
Proof.
  intros H. assert (Hf : fact v = status_value (if String.eqb (sample_text v) "unavailable" then "unknown" else "present") (sample_text v)) by reflexivity.
  rewrite (fact_continues row field (if String.eqb (sample_text v) "unavailable" then "unknown" else "present") (sample_text v) c k); [|by rewrite H, Hf | destruct (String.eqb _ _); cbn; tauto]. rewrite <- Hf.
  destruct (String.eqb_spec (sample_text v) "unavailable") as [E|E]; [rewrite E|]; intuition discriminate.
Qed.
Lemma text_written s : sample_text (JStr s) <> "".
Proof. unfold sample_text. cbn. by destruct (String.eqb_spec s ""). Qed.
Lemma public_literal s : private_text_contains s = false -> public_text s.
Proof. apply public_text_ok. Qed.

(** The count a report reads: digits, or unavailable. *)
Lemma counter_shape text name : exists st t, counter_fact text name = status_value st t /\ In st FACT_STATUSES /\ t <> "" /\ all_chars quiet_char t = true
  /\ (st = "unknown" /\ t = "unavailable" \/ st = "present" /\ isdecimal t = true).
Proof.
  unfold counter_fact. destruct (re_search (counter_re name) text) as [m|] eqn:E.
  - apply counter_group in E. exists "present", (group "1" m). pose proof E as Hd. unfold isdecimal in Hd. apply andb_true_iff in Hd as [Hn Hd].
    split; [done|]. split; [by left|]. split; [intros Hg; by rewrite Hg in Hn|]. split; [|by right]. by apply (all_chars_weaken is_digit); [apply digit_quiet|].
  - exists "unknown", "unavailable". split; [done|]. split; [cbn; tauto|]. split; [done|]. split; [done | by left].
Qed.
Lemma strip_solid s : all_chars (fun c => negb (is_space c)) s = true -> strip s = s.
Proof.
  intros H. unfold strip. assert (Hl : lstrip s = s) by (destruct s as [|c s]; [done|]; cbn in H |- *; apply andb_true_iff in H as [Hc _]; by apply negb_true_iff in Hc as ->).
  rewrite Hl. clear Hl. induction s as [|c s IH]; [done|]. cbn in H |- *. apply andb_true_iff in H as [Hc Hs]. rewrite (IH Hs).
  apply negb_true_iff in Hc. rewrite Hc. by destruct s.
Qed.
Lemma quiet_solid c : quiet_char c = true -> negb (is_space c) = true.
Proof. destruct c as [[] [] [] [] [] [] [] []]; vm_compute; by intros. Qed.

Lemma fact_value v : getitem (fact v) "value" = Ok (JStr (sample_text v)).
Proof. reflexivity. Qed.
Lemma fact_present v : status_present (fact v) = Ok (negb (String.eqb (sample_text v) "unavailable")).
Proof. unfold fact. cbv zeta. fold (sample_text v). by destruct (String.eqb (sample_text v) "unavailable"). Qed.
Lemma state_listed s c m (k : result unit) : (ensure (negb (negb (String.eqb s "unavailable") && negb (mem (strip s) SCHED_STATES))) c m ;;; k) = Ok tt
  <-> In (strip s) SCHED_STATES /\ k = Ok tt.
Proof.
  rewrite bind_ok_unit, ensure_ok, <- (mem_In (strip s)). destruct (String.eqb_spec s "unavailable") as [->|]; [done|]. by rewrite andb_true_l, negb_involutive.
Qed.
Lemma enable_checked v c : validate_nonnegative_fact_value (fact v) "enable_seq" c = Ok tt
  <-> strip (sample_text v) = "unavailable" \/ isdecimal (strip (sample_text v)) = true.
Proof.
  unfold validate_nonnegative_fact_value. rewrite fact_value. cbn [bind py_str].
  destruct (String.eqb_spec (strip (sample_text v)) "unavailable") as [->|H]; [tauto|]. rewrite ensure_ok. tauto.
Qed.

Section Fields.
Context (sha : string) (seq : nat) (event : jobject) (dg : string) (pc : jobject) (alive : bool).
Let row := sample_fields sha seq event dg "present" pc (JDict semantics_dict) alive.

Lemma count_checked c : validate_nonnegative_fact_value (counter_fact (events_text_of event) "nr_rejected") "nr_rejected" c = Ok tt.
Proof.
  destruct (counter_shape (events_text_of event) "nr_rejected") as (st & t & -> & _ & _ & Hq & Ht). unfold validate_nonnegative_fact_value, getitem, status_value.
  cbn [jlookup String.eqb Ascii.eqb Bool.eqb bind py_str]. rewrite strip_solid by (eapply all_chars_weaken; [apply quiet_solid | exact Hq]).
  destruct Ht as [[_ ->]|[_ ->]]; [done|]. by destruct (String.eqb t "unavailable").
Qed.
Lemma count_continues c (k : jobject -> result unit) : (let* f := validate_fact row "nr_rejected" c in k f) = Ok tt
  <-> k (counter_fact (events_text_of event) "nr_rejected") = Ok tt.
Proof using.
  destruct (counter_shape (events_text_of event) "nr_rejected") as (st & t & E & Hst & Hne & Hq & _).
  rewrite (fact_continues row "nr_rejected" st t c k); [|exact (f_equal JDict E) | done]. rewrite <- E. pose proof (quiet_public t Hq). tauto.
Qed.
Lemma facts_checked c : validate_sched_ext_facts row c = Ok tt <->
  Forall public_text [sample_text (JStr (state_of event)); sample_text (JStr (ops_of event)); enable_text event; sample_text (JStr (events_text_of event))]
  /\ In (strip (sample_text (JStr (state_of event)))) SCHED_STATES
  /\ (strip (enable_text event) = "unavailable" \/ isdecimal (strip (enable_text event)) = true).
Proof using.
  unfold validate_sched_ext_facts. rewrite (fact_written row "state" (JStr (state_of event))) by reflexivity.
  rewrite fact_value, fact_present. cbn [bind py_str]. rewrite state_listed.
  rewrite (fact_written row "ops" (JStr (ops_of event))) by reflexivity.
  rewrite (fact_written row "enable_seq" (get_or event "enable_seq" (JStr "0"))) by reflexivity. fold (enable_text event). rewrite bind_ok_unit, enable_checked. fold (enable_text event).
  rewrite (fact_written row "events" (JStr (events_text_of event))) by reflexivity. rewrite count_continues, bind_ok_unit.
  rewrite (fact_continues row "debug_dump" "missing" "unavailable") by (reflexivity || (cbn; tauto)).
  cbn [status_value getitem jlookup String.eqb Ascii.eqb Bool.eqb bind py_str status_present].
  assert (He : forall m (k : result unit),
    (ensure (negb (py_eq (JStr "missing") (JStr "present") && negb (is_digest_summary "unavailable"))) RuntimeSampleError m ;;; k) = k) by reflexivity.
  rewrite He, for_each_ok, !Forall_cons, !Forall_nil. change (has_key "root_ops" row) with true. change (has_key "scheduler_events" row) with true. cbv iota.
  rewrite (fact_written row "root_ops" (JStr (ops_of event)) c (fun _ => Ok tt)) by reflexivity.
  rewrite (fact_written row "scheduler_events" (JStr (events_text_of event)) c (fun _ => Ok tt)) by reflexivity.
  pose proof (text_written (state_of event)). pose proof (text_written (ops_of event)). pose proof (text_written (events_text_of event)).
  pose proof (count_checked c). assert (public_text "unavailable") by (apply public_literal; reflexivity).
  assert (Hne : strip (enable_text event) = "unavailable" \/ isdecimal (strip (enable_text event)) = true -> enable_text event <> "")
    by (intros Hs Hn; rewrite Hn in Hs; destruct Hs; discriminate).
  intuition discriminate.
Qed.
Definition counters_given : Prop := is_unavailable_object pc = true \/ forall f, In f COUNTERS -> counter_field pc f.
Lemma counters_checked c : counters_given -> validate_optional_counter_sets row c = Ok tt.
Proof using.
  intros H. unfold validate_optional_counter_sets. rewrite (optional_object_dict row "policy_counters" c pc) by reflexivity. cbn [bind].
  apply bind_ok_unit. split; [|reflexivity]. destruct (is_unavailable_object pc) eqn:E; [done|]. apply validate_nonnegative_ok. destruct H as [H|H]; [congruence | done].
Qed.
Lemma labels_checked c : validate_task_ext_enabled row c = Ok tt /\ validate_cgroup_semantic_labels row c = Ok tt.
Proof. split; reflexivity. Qed.
Lemma states_checked c : validate_teardown_rollback row c = Ok tt.
Proof.
  unfold validate_teardown_rollback. apply for_each_ok. repeat constructor.
  - change (has_key "teardown_state" row) with true. cbv iota. apply (fact_continues row "teardown_state" "present" (if String.eqb (ops_of event) "zigsched_minimal" then "attached" else "detached") c (fun _ => Ok tt)).
    + reflexivity.
    + by left.
    + destruct (String.eqb _ _); (split; [done|]; split; [apply public_literal; reflexivity | done]).
  - change (has_key "rollback_state" row) with true. cbv iota. apply (fact_continues row "rollback_state" "present" (if Nat.eqb seq 2 then "rolled_back" else "not_applicable") c (fun _ => Ok tt)).
    + reflexivity.
    + by left.
    + destruct (Nat.eqb _ _); (split; [done|]; split; [apply public_literal; reflexivity | done]).
Qed.
Lemma phase_checked c : validate_sched_ext_phase row c = Ok tt.
Proof.
  unfold validate_sched_ext_phase. change (has_key "sched_ext_phase" row) with true. cbn [negb].
  set (phase := if String.eqb (ops_of event) "zigsched_minimal" then "during_attach" else if Nat.eqb seq 0 then "before_attach" else "after_rollback").
  apply bind_ok. exists phase. assert (Hin : In phase ["during_attach"; "before_attach"; "after_rollback"])
    by (unfold phase; destruct (String.eqb _ _); [|destruct (Nat.eqb _ _)]; cbn; tauto).
  split; [apply sample_string_ok; split; [reflexivity|]; intros E; rewrite E in Hin; cbn in Hin; intuition discriminate|].
  apply bind_ok_unit. rewrite reject_private_leaks_ok, ensure_ok, mem_In. unfold no_leak. rewrite clean_at_str.
  cbn [In] in Hin. decompose [or] Hin; subst phase; try done; (match goal with H : _ = _ |- _ => rewrite <- H end; split; [apply public_literal; reflexivity | cbn; tauto]).
Qed.
Hypothesis Hdg : RuntimeSample.observed_digest dg.
Lemma digest_hex : all_chars is_hex_lower dg = true.
Proof using Hdg.
  destruct Hdg as (_ & _ & H). eapply all_chars_weaken; [|exact H]. intros [[] [] [] [] [] [] [] []]; vm_compute; by intros.
Qed.
Lemma digest_public : public_text dg.
Proof using Hdg. apply quiet_public. eapply all_chars_weaken; [apply hex_quiet | apply digest_hex]. Qed.
Lemma digest_counted c : validate_counter_map [(dg, JInt 1)] c = Ok tt.
Proof using Hdg.
  pose proof digest_hex as Hh. unfold validate_counter_map. cbn [ensure bind fst snd]. apply for_each_ok. repeat constructor. cbn [fst snd].
  apply bind_ok_unit. split.
  - apply ensure_ok, negb_true_iff. rewrite !orb_false_iff. split; [split|].
    + apply not_true_iff_false. intros (t & E)%startswith_iff. rewrite E in Hh. discriminate Hh.
    + by apply (contained_chars is_hex_lower).
    + apply String.eqb_neq. intros E. destruct Hdg as (Hl & _). rewrite E in Hl. discriminate Hl.
  - apply bind_ok_unit. split; [|done]. apply reject_private_leaks_ok. unfold no_leak. rewrite clean_at_str. apply digest_public.
Qed.
Lemma telemetry_checked c : validate_scheduler_telemetry row c = Ok tt.
Proof using Hdg.
  unfold validate_scheduler_telemetry. apply bind_ok_unit. split; [reflexivity|]. apply bind_ok. eexists. split; [reflexivity|].
  apply bind_ok_unit. split; [reflexivity|].
  apply bind_ok. exists (Some [("by_cgroup_digest", JDict [(dg, JInt 1)]); ("by_class", JDict [("vm-workload", JInt 1)])]). split; [reflexivity|].
  apply bind_ok_unit. split.
  { apply bind_ok. exists [(dg, JInt 1)]. split; [reflexivity|]. apply bind_ok_unit. split; [apply digest_counted | reflexivity]. }
  apply bind_ok. eexists. split; [reflexivity|]. cbv beta iota zeta. apply bind_ok_unit. split; [|reflexivity].
  set (summary := "sha256:" ++ sha256_hex (encode_utf8 (source_event_of seq event ++ ops_of event)) ++ ";bytes:128").
  apply (fact_continues [("dump", JDict (status_value "present" summary)); ("tracepoints", zeros ["sched_switch"; "sched_wakeup"])] "dump" "present" summary).
  - reflexivity.
  - by left.
  - split; [done|]. split; [apply dump_public|]. apply bind_ok. exists true. split; [reflexivity|]. apply bind_ok. exists (JStr summary). split; [reflexivity|].
    cbn [py_str]. apply bind_ok_unit. split; [apply ensure_ok; unfold summary; by rewrite dump_summary|]. reflexivity.
Qed.
End Fields.

(** ** Nothing private in what is written *)
Lemma item_clean k v : private_key_has_pattern k FORBIDDEN_KEY_PATTERNS = false -> mem (casefold k) CLAIM_KEYS && is_true v = false -> no_leak v ->
  unclaimed_key k v /\ (True -> no_leak v).
Proof. intros Hp Hc Hv. split; [apply unclaimed_key_ok; by split | done]. Qed.
Lemma closed_clean v : reject_private_leaks v "" = Ok tt -> no_leak v.
Proof. apply reject_private_leaks_ok. Qed.
Lemma text_clean s : no_leak (JStr s) <-> public_text s.
Proof. apply clean_at_str. Qed.
Lemma part_clean k v d : no_leak (JDict d) -> In (k, v) d -> no_leak v.
Proof. unfold no_leak. rewrite clean_at_dict, Forall_forall. intros H Hin%list_elem_of_In. by apply (H (k, v) Hin). Qed.

Lemma event_int_clean event field : no_leak (event_int event field).
Proof. apply clean_at_scalar. unfold event_int. destruct (get event field); try done. by destruct (Z.leb 0 z). Qed.
Lemma bool_clean b : no_leak (JBool b).
Proof. by apply clean_at_scalar. Qed.

(** One goal per item of a dict that neither evaluates nor is a number read from the event. *)
Ltac mentions_any v := match goal with x : _ |- _ => match v with context [x] => idtac end end.
Ltac clean_value :=
  match goal with
  | |- no_leak (event_int _ _) => apply event_int_clean
  | |- no_leak (JBool _) => apply bool_clean
  | |- no_leak (JInt _) => by apply clean_at_scalar
  | |- no_leak ?v => tryif mentions_any v then idtac else (apply closed_clean; vm_compute; reflexivity)
  end.
Ltac clean_items :=
  apply clean_at_dict; repeat (apply Forall_cons; split; [cbn [fst snd]; apply item_clean;
    [vm_compute; reflexivity | reflexivity | clean_value]|]); try apply Forall_nil_2.

Lemma map_clean event : no_leak (JDict (emitted_map event)).
Proof.
  unfold emitted_map. cbn [set_all fold_left fst snd]. unfold good_cgroup_policy_map. cbn [String.eqb Ascii.eqb Bool.eqb dict_set].
  clean_items.
Qed.
Lemma stats_clean event : no_leak (JDict (emitted_stats event)).
Proof.
  unfold emitted_stats, CGROUP_CALLBACK_STATS. cbn [map set_all fold_left fst snd]. unfold good_cgroup_callback_stats. cbn [String.eqb Ascii.eqb Bool.eqb dict_set].
  clean_items.
Qed.
Lemma abi_clean event sha : no_leak (JDict (policy_abi_from_event event sha)) <-> public_text sha.
Proof.
  split; [intros H; apply text_clean; apply (part_clean "object_sha256" _ _ H); do 3 right; left; reflexivity|]. intros H.
  unfold policy_abi_from_event. cbv zeta. cbn [set_all fold_left fst snd]. unfold good_policy_abi. cbn [dict_set String.eqb Ascii.eqb Bool.eqb].
  clean_items.
  - by apply text_clean.
  - case (py_eq (get event "cgroup_policy_map_status") (JStr "present")); [apply map_clean | apply closed_clean; vm_compute; reflexivity].
  - case (py_eq (get event "cgroup_policy_map_status") (JStr "present")); [apply stats_clean | apply closed_clean; vm_compute; reflexivity].
  - case (py_eq (get event "dsq_counter_coherence_status") (JStr "present")); apply closed_clean; vm_compute; reflexivity.
Qed.
Lemma fact_clean v : public_text (sample_text v) -> no_leak (JDict (fact v)).
Proof.
  intros H. unfold fact. cbv zeta. fold (sample_text v). unfold status_value. clean_items; [|by apply text_clean].
  destruct (String.eqb (sample_text v) "unavailable"); apply closed_clean; vm_compute; reflexivity.
Qed.
Lemma status_clean st t : public_text st -> public_text t -> no_leak (JDict (status_value st t)).
Proof. intros Hs Ht. unfold status_value. clean_items; by apply text_clean. Qed.
Lemma count_clean text name : no_leak (JDict (counter_fact text name)).
Proof.
  destruct (counter_shape text name) as (st & t & -> & Hst & _ & Hq & _). apply status_clean; [|by apply quiet_public].
  cbn [In FACT_STATUSES] in Hst. decompose [or] Hst; subst; try done; apply public_literal; reflexivity.
Qed.

(** The counters a sample is written with. *)
Definition written_counters (text : string) (pc : jobject) : Prop := policy_counters text (counter_fact text "nr_rejected") = Ok pc.
Lemma dec_value_nonneg s acc : (0 <= acc)%Z -> all_chars is_digit s = true -> (0 <= dec_value acc s)%Z.
Proof.
  revert acc. induction s as [|c s IH]; intros acc Ha; [done|]. cbn [all_chars dec_value]. intros [Hc Hs]%andb_true_iff. apply IH; [|done].
  assert (0 <= digit_val c)%Z by (revert Hc; destruct c as [[] [] [] [] [] [] [] []]; vm_compute; intros; discriminate). lia.
Qed.
Lemma counter_nonneg name text n : counter_value text name = Ok n -> (0 <= n)%Z.
Proof.
  unfold counter_value. destruct (re_search (counter_re name) text) as [m|] eqn:E; [|intros [= <-]; lia]. apply counter_group in E. unfold isdecimal in E.
  apply andb_true_iff in E as [_ E]. unfold int_of_digits. intros [_ [= <-]]%if_raise_ok. by apply dec_value_nonneg.
Qed.
Lemma counters_written text pc : written_counters text pc -> counters_given pc /\ no_leak (JDict pc).
Proof.
  unfold written_counters, policy_counters. destruct (counter_shape text "nr_rejected") as (st & t & E & _ & _ & _ & Ht).
  destruct Ht as [[-> ->]|[-> _]]; rewrite E.
  - intros [= <-]. split; [by left | apply closed_clean; vm_compute; reflexivity].
  - cbn [status_value get jlookup String.eqb Ascii.eqb Bool.eqb py_eq negb map_m].
    intros (p1 & (n1 & H1 & [= <-])%bind_ok & (l1 & (p2 & (n2 & H2 & [= <-])%bind_ok & (l2 & (p3 & (n3 & H3 & [= <-])%bind_ok & (l3 & (p4 & (n4 & H4 & [= <-])%bind_ok
      & (l4 & [= <-] & [= <-])%bind_ok)%bind_ok & [= <-])%bind_ok)%bind_ok & [= <-])%bind_ok)%bind_ok & [= <-])%bind_ok)%bind_ok.
    apply counter_nonneg in H1, H2, H3, H4. split; [|by clean_items]. right. intros f Hf. cbn [In COUNTERS] in Hf.
    decompose [or] Hf; subst; try done; by eexists.
Qed.

Section Row.
Context (sha : string) (seq : nat) (event : jobject) (dg : string) (pc : jobject) (alive : bool) (Hdg : RuntimeSample.observed_digest dg).
Let row := sample_fields sha seq event dg "present" pc (JDict semantics_dict) alive.

Lemma class_counts_clean : no_leak (JDict [("by_cgroup_digest", JDict [(dg, JInt 1)]); ("by_class", JDict [("vm-workload", JInt 1)])]).
Proof using Hdg.
  clean_items. apply clean_at_dict. apply Forall_cons; split; [|apply Forall_nil_2]. split; [by apply hex_key_public; [apply digest_hex|] | intros _; by apply clean_at_scalar].
Qed.
Lemma row_clean : no_leak (JDict pc) -> Forall public_text [source_event_of seq event; sample_text (JStr (state_of event)); sample_text (JStr (ops_of event));
    enable_text event; sample_text (JStr (events_text_of event)); sha] -> no_leak (JDict row).
Proof using Hdg.
  intros Hpc Hp. rewrite !Forall_cons in Hp. destruct Hp as (Hsource & Hstate & Hops & Hseq & Hevents & Hsha & _).
  unfold row, sample_fields. clean_items.
  - by apply text_clean.
  - by apply fact_clean.
  - by apply fact_clean.
  - by apply fact_clean.
  - by apply fact_clean.
  - by apply fact_clean.
  - by apply fact_clean.
  - apply text_clean. destruct (String.eqb _ ""); [apply public_literal; reflexivity|]. apply quiet_public. eapply all_chars_weaken; [apply hex_quiet | apply sha256_hex_hex].
  - apply count_clean.
  - done.
  - by apply abi_clean.
  - apply text_clean. destruct (String.eqb _ _); [|destruct (Nat.eqb _ _)]; apply public_literal; reflexivity.
  - apply status_clean; [|destruct (String.eqb _ _)]; apply public_literal; reflexivity.
  - apply status_clean; [|destruct (Nat.eqb _ _)]; apply public_literal; reflexivity.
  - apply class_counts_clean.
  - clean_items. apply status_clean; [apply public_literal; reflexivity | apply dump_public].
  - apply text_clean, (digest_public _ Hdg).
  - apply status_clean; [|destruct alive]; apply public_literal; reflexivity.
Qed.
Lemma parts_checked c : counters_given pc -> public_text sha -> abi_coherent event sha ->
  (let* digest := RuntimeSampleCommon.require_string row "cgroup_membership_digest" c in
   validate_digest digest (c ++ ".cgroup_membership_digest") ;;;
   for_each ["cgroup_membership_status"; "workload"] (fun field => if has_key field row then let* _ := validate_fact row field c in Ok tt else Ok tt) ;;;
   let* _ := RuntimeSampleCommon.require_bool row "workload_alive" c in
   let* sampled := RuntimeSampleCommon.require_bool row "private_command_lines_sampled" c in
   ensure (negb sampled) RuntimeSampleError (c ++ " sampled private command lines") ;;;
   validate_optional_counter_sets row c ;;; validate_task_ext_enabled row c ;;; validate_cgroup_semantic_labels row c ;;; validate_teardown_rollback row c ;;;
   validate_scheduler_telemetry row c ;;; validate_policy_abi row c) = Ok tt.
Proof using Hdg.
  intros Hpc Hsha Habi. apply bind_ok. exists dg. split.
  { apply sample_string_ok. split; [reflexivity|]. intros E. destruct Hdg as (Hl & _). by rewrite E in Hl. }
  apply bind_ok_unit. split; [by apply validate_digest_ok|]. apply bind_ok_unit. split; [destruct alive; reflexivity|].
  apply bind_ok. exists alive. split; [reflexivity|]. apply bind_ok. exists false. split; [reflexivity|]. apply bind_ok_unit. split; [done|].
  apply bind_ok_unit. split; [by apply counters_checked|]. apply bind_ok_unit. split; [apply labels_checked|]. apply bind_ok_unit. split; [apply labels_checked|].
  apply bind_ok_unit. split; [apply states_checked|]. apply bind_ok_unit. split; [by apply telemetry_checked|].
  apply bind_ok. exists (policy_abi_from_event event sha). split; [reflexivity|]. apply bind_ok_unit. split.
  - apply reraise_ok. by apply emitted_abi_accepted.
  - apply reject_private_leaks_ok. by apply abi_clean.
Qed.
Lemma events_hash_given c : exists s, RuntimeSampleCommon.require_string row "events_hash" c = Ok s.
Proof.
  eexists. apply sample_string_ok. split; [reflexivity|]. destruct (String.eqb (events_text_of event) ""); [done|].
  intros E. pose proof (proj2 (sha256_hex_hex (encode_utf8 (events_text_of event)))) as Hl. by rewrite E in Hl.
Qed.
End Row.

(** ** One sample *)
Lemma row_written sha seq event row : sample_row sha seq event = Ok row -> exists dg pc alive,
  row = sample_fields sha seq event dg "present" pc (JDict semantics_dict) alive /\ written_counters (events_text_of event) pc
  /\ get event "cgroup_membership_digest" = JStr dg /\ (len dg = 64 -> RuntimeSample.observed_digest dg).
Proof.
  unfold sample_row. cbv zeta. intros (dg & [Hg Hl]%observed_digest_text & (st & [_ Hst]%bind_ok_unit & (pc & Hpc & (sem & Hsem & (alive & _ & [= <-])%bind_ok)%bind_ok)%bind_ok)%bind_ok)%bind_ok.
  injection Hst as <-. change (policy_semantics sha) with (Ok (JDict semantics_dict)) in Hsem. injection Hsem as <-. by exists dg, pc, alive.
Qed.

Lemma sample_accepted sha seq event row i : sample_row sha seq event = Ok row -> validate_sample row i = Ok tt <-> sample_fits sha seq event.
Proof.
  intros (dg & pc & alive & -> & [Hgiven Hclean]%counters_written & Hget & Hlen)%row_written. split.
  - intros H. pose proof (validate_sample_facts _ _ H) as [Hpriv _ _ _ _ Hd _ _ _ Habi].
    unfold validate_sample in H. cbv zeta in H. do 2 apply bind_ok_unit in H as [_ H]. apply bind_ok in H as (schema & _ & H). apply bind_ok_unit in H as [_ H].
    apply bind_ok in H as (n & _ & H). apply bind_ok_unit in H as [Hf _]. apply facts_checked in Hf as (Hp & Hs & He).
    destruct Hd as (dg' & [= <-] & Hobs). destruct Habi as (abi & [= <-] & c & Hv%emitted_abi_accepted).
    assert (Hsource : public_text (source_event_of seq event)) by (apply text_clean, (part_clean "sample_source_event" _ _ Hpriv); do 2 right; left; reflexivity).
    assert (Hsha : public_text sha).
    { apply (abi_clean event). apply (part_clean "policy_abi" _ _ Hpriv). unfold sample_fields. cbn [In]. do 15 right. left. reflexivity. }
    rewrite !Forall_cons in Hp. split; try done; [rewrite !Forall_cons, Forall_nil; tauto|]. intros d Hd. rewrite Hget in Hd. injection Hd as <-. by destruct Hobs.
  - intros [Hp Hs He Hl Ha]. specialize (Hlen (Hl _ Hget)). unfold validate_sample. cbv zeta.
    apply bind_ok_unit. split; [by apply reject_private_leaks_ok, row_clean|]. apply bind_ok_unit. split; [reflexivity|].
    apply bind_ok. exists SAMPLE_SCHEMA. split; [reflexivity|]. apply bind_ok_unit. split; [reflexivity|].
    apply bind_ok. exists (Z.of_nat seq). split; [reflexivity|].
    rewrite !Forall_cons in Hp. apply bind_ok_unit. split; [apply facts_checked; rewrite !Forall_cons, Forall_nil; tauto|].
    apply bind_ok_unit. split; [apply phase_checked|].
    destruct (events_hash_given sha seq event dg pc alive ("sample[" ++ str_nat i ++ "]")) as (eh & Heh). apply bind_ok. exists eh. split; [exact Heh|].
    apply parts_checked; tauto.
Qed.

(** ** Samples in sequence *)

Lemma sample_row_fields sha seq event row : sample_row sha seq event = Ok row ->
  get row "sequence" = JInt (Z.of_nat seq)
  /\ get row "sched_ext_phase" = JStr (if String.eqb (ops_of event) "zigsched_minimal" then "during_attach" else if Nat.eqb seq 0 then "before_attach" else "after_rollback")
  /\ get row "state" = JDict (fact (JStr (state_of event))) /\ get row "ops" = JDict (fact (JStr (ops_of event)))
  /\ get row "enable_seq" = JDict (MicrovmReport.enable_seq_of event).
Proof. intros (dg & pc & alive & -> & _)%row_written. repeat split. Qed.

Lemma fact_text_fact s : fact_text (JDict (fact (JStr s))) = if String.eqb s "" then "unavailable" else s.
Proof. unfold fact. cbn. by destruct (String.eqb s ""). Qed.

Lemma fact_enable_seq event row : get row "enable_seq" = JDict (MicrovmReport.enable_seq_of event) ->
  SchedExt.enable_seq_of row = event_enable_seq event /\ (enable_seq_readable row <-> enable_in_limit event).
Proof.
  intros H. assert (Hv : jlookup "value" (MicrovmReport.enable_seq_of event) = Some (JStr (enable_text event))) by reflexivity.
  unfold SchedExt.enable_seq_of, enable_seq_readable, event_enable_seq, enable_in_limit. rewrite H, Hv. cbn [py_str]. split; [done|]. split.
  - intros (f & v & [= <-] & Hv' & Hl). rewrite Hv in Hv'. by injection Hv' as <-.
  - intros Hl. by exists (MicrovmReport.enable_seq_of event), (JStr (enable_text event)).
Qed.

Lemma samples_of r sha out : build_sample_rows r sha = Ok out ->
  exists b a d, out = [b; a; d] /\ sample_row sha 0 (before r) = Ok b /\ sample_row sha 1 (register r) = Ok a /\ sample_row sha 2 (unregister r) = Ok d.
Proof.
  unfold build_sample_rows. cbn [for_fold].
  intros (s1 & (b & Hb & [= <-])%bind_ok & (s2 & (a & Ha & [= <-])%bind_ok & (s3 & (d & Hd & [= <-])%bind_ok & [= <-])%bind_ok)%bind_ok)%bind_ok.
  by exists b, a, d.
Qed.

Lemma phase_of_sample sha seq event row : sample_row sha seq event = Ok row -> phase_ok row <->
  attached event \/ (seq = 0 /\ state_of event <> "enabled")
  \/ (seq <> 0 /\ In (fact_text (get row "state")) ["disabled"; "unknown"; "unavailable"]
      /\ (fact_text (get row "state") = "disabled" -> In (fact_text (get row "ops")) ["none"; "unavailable"; "unknown"])).
Proof.
  intros (_ & Hp & Hs & Ho & _)%sample_row_fields. unfold attached.
  assert (Hh : forall s, ~ (exists d, JStr s = JDict d) /\ ~ (exists l, JStr s = JList l)) by (intros s; split; by intros [? [=]]).
  destruct (String.eqb_spec (ops_of event) "zigsched_minimal") as [E|E].
  - split; [by left | intros _]. split; rewrite Hp; [done | apply Hh | intros phase [= <-]; cbn; intuition discriminate].
  - destruct (Nat.eqb_spec seq 0) as [->|Hn].
    + assert (Hb : fact_text (get row "state") <> "enabled" <-> state_of event <> "enabled").
      { rewrite Hs, fact_text_fact. destruct (String.eqb_spec (state_of event) "") as [->|]; [split; done | done]. }
      split; [intros [H _ _]; right; left; split; [done | by apply Hb, H] | intros [?|[[_ H]|[? _]]]; try done].
      split; rewrite Hp; [by intros _; apply Hb | apply Hh | intros phase [= <-]; cbn; intuition discriminate].
    + split; [intros [_ _ H]; right; right; split; [done|]; apply (H "after_rollback"); [done | by left] | intros [?|[[? _]|[_ H]]]; try done].
      split; rewrite Hp; [done | apply Hh | by intros phase [= <-] _].
Qed.

Lemma ops_not_unavailable event : ops_of event <> "unavailable".
Proof. unfold ops_of. destruct (String.eqb_spec (py_str (or_value (get event "ops") (JStr "none"))) "unavailable"); done. Qed.

Lemma detached_fits o : o <> "unavailable" ->
  (o = "zigsched_minimal" \/ (2 = 0 /\ "disabled" <> "enabled") \/ (2 <> 0 /\ In "disabled" ["disabled"; "unknown"; "unavailable"]
     /\ ("disabled" = "disabled" -> In (if String.eqb o "" then "unavailable" else o) ["none"; "unavailable"; "unknown"])))
  <-> o = "zigsched_minimal" \/ In o ["none"; "unknown"; ""].
Proof.
  intros Ho. split.
  - intros [?|[[? _]|(_ & _ & H)]]; [by left | done|]. right. specialize (H eq_refl). destruct (String.eqb_spec o "") as [->|]; [right; right; by left|].
    destruct H as [<-|[<-|[<-|[]]]]; [by left | done | right; by left].
  - intros [->|H]; [by left|]. right; right. split; [done|]. split; [by left|]. intros _. destruct H as [<-|[<-|[<-|[]]]]; cbn; tauto.
Qed.

Lemma report_sequence r sha out : report_ok r -> build_sample_rows r sha = Ok out ->
  validate_sched_ext_sequence out = Ok tt <->
  fits_before (before r) /\ fits_after (unregister r) /\ Forall enable_in_limit [before r; register r; unregister r]
  /\ StronglySorted Z.le (omap event_enable_seq [before r; register r; unregister r]).
Proof.
  intros [_ [_ Hreg] [_ Hun] _ _ _ _] (b & a & d & -> & Hb & Ha & Hd)%samples_of.
  pose proof (phase_of_sample _ _ _ _ Hb) as Pb. pose proof (phase_of_sample _ _ _ _ Ha) as Pa. pose proof (phase_of_sample _ _ _ _ Hd) as Pd.
  apply sample_row_fields in Hb as (Sb & _ & _ & _ & [Eb Rb]%fact_enable_seq), Ha as (Sa & _ & _ & _ & [Ea Ra]%fact_enable_seq),
    Hd as (Sd & _ & Td & Od & [Ed Rd]%fact_enable_seq).
  assert (Hatt : attached (register r)) by (unfold attached, ops_of; rewrite Hreg; exact eq_refl).
  assert (Hb : phase_ok b <-> fits_before (before r)) by (rewrite Pb; unfold fits_before; intuition congruence).
  assert (Hd : phase_ok d <-> fits_after (unregister r)).
  { rewrite Pd. unfold fits_after. rewrite Td, Od, !fact_text_fact. assert (state_of (unregister r) = "disabled") as -> by (unfold state_of; rewrite Hun; exact eq_refl).
    apply detached_fits. apply ops_not_unavailable. }
  assert (Hs : omap sequence_of [b; a; d] = [0; 1; 2]%Z) by (cbn; unfold sequence_of; by rewrite Sb, Sa, Sd).
  assert (He : omap SchedExt.enable_seq_of [b; a; d] = omap event_enable_seq [before r; register r; unregister r]) by (cbn; by rewrite Eb, Ea, Ed).
  assert (phase_ok a) by (apply Pa; by left).
  assert (StronglySorted Z.lt [0; 1; 2]%Z) by repeat constructor.
  rewrite validate_sched_ext_sequence_iff, Hs, He, !Forall_cons, !Forall_nil, Rb, Ra, Rd, Hb, Hd. clear Pb Pa Pd. tauto.
Qed.

(** * Properties *)

(** C8: the three samples that the VM report writes for a serial log it could parse are
    accepted by the checks of runtime samples exactly when each event has public texts, a
    state of the scheduler, an enable sequence that is a number or unavailable, a digest of 64
    characters and coherent weights; the first sample is not an enabled scheduler without its
    operations and the last one has no foreign operations; and the enable sequences never
    decrease. Whatever else the events hold, no other part of a sample can be refused. *)
Theorem emitted_samples_accepted text r lines sha out (Hparse : parse_serial text = Ok (r, lines)) (Hbuild : build_sample_rows r sha = Ok out) :
  RuntimeSample.validate_rows out = Ok tt <->
  (sample_fits sha 0 (before r) /\ sample_fits sha 1 (register r) /\ sample_fits sha 2 (unregister r))
  /\ fits_before (before r) /\ fits_after (unregister r) /\ Forall enable_in_limit [before r; register r; unregister r]
  /\ StronglySorted Z.le (omap event_enable_seq [before r; register r; unregister r]).
Proof.
  pose proof (parsed_report text r lines Hparse) as Hr. unfold RuntimeSample.validate_rows. rewrite bind_ok_unit, (report_sequence r sha out Hr Hbuild).
  apply samples_of in Hbuild as (b & a & d & -> & Hb & Ha & Hd). cbn [for_enum]. rewrite !bind_ok_unit.
  rewrite (sample_accepted _ _ _ _ 0 Hb), (sample_accepted _ _ _ _ 1 Ha), (sample_accepted _ _ _ _ 2 Hd). tauto.
Qed.

(** The log of the whole run. *)
Definition demo_digest : string := repeat_str 64 "b".
Lemma emitted_samples_witness :
  match parse_serial (text_lines (demo_events "0")) with
  | Err _ => False
  | Ok (r, _) => match build_sample_rows r demo_digest with
      | Err _ => False
      | Ok out => RuntimeSample.validate_rows out = Ok tt <->
          (sample_fits demo_digest 0 (before r) /\ sample_fits demo_digest 1 (register r) /\ sample_fits demo_digest 2 (unregister r))
          /\ fits_before (before r) /\ fits_after (unregister r) /\ Forall enable_in_limit [before r; register r; unregister r]
          /\ StronglySorted Z.le (omap event_enable_seq [before r; register r; unregister r])
      end
  end.
Proof.
  assert (H : is_ok (let* p := parse_serial (text_lines (demo_events "0")) in build_sample_rows (fst p) demo_digest) = true) by (vm_compute; reflexivity).
  destruct (parse_serial (text_lines (demo_events "0"))) as [[r lines]|e] eqn:Hp; [|discriminate H]. cbn [bind fst] in H.
  destruct (build_sample_rows r demo_digest) as [out|e] eqn:Hb; [|discriminate H]. exact (emitted_samples_accepted _ r lines demo_digest out Hp Hb).
Defined.
